(* ===== verification/_CoqProject ===== *)
-Q . S2P
Prelude.v
Strs.v
Normalizer.v
Snowflake.v
Ts.v
TxProto.v
World.v
Json.v
TxData.v
Db.v
EnumMap.v
Rows.v
Persist.v
Load.v
TxJson.v
TxJsonFacts.v
Finalize.v
FinalizeFacts.v
FinalizeProps.v
FinalizeStable.v
StockApply.v
Grant.v
TxApi.v
TxPutFacts.v
LoadFacts.v
SaveFacts.v
ReadBack.v
TxPutProps.v
TxApiProps.v
ReadBackProps.v
TxStockProps.v
TxList.v
Reservation.v
Guest.v
GuestProps.v
GuestOrderProps.v
Scenario.v
Witnesses.v
Shared.v
TaskData.v
TaskStore.v
TaskApi.v
TaskWorker.v
TaskSteps.v
TaskServe.v
TaskProps.v
TaskFanout.v
TaskStart.v
TaskCancel.v
TaskSaved.v
TaskScenario.v
TaskWitnesses.v
Txn.v
QueueData.v
Queue.v
GuestQueue.v
QueueSteps.v
QueueSafe.v
QueueFifo.v
QueueProps.v
QueueScenario.v
QueueWitnesses.v
F64.v
ReferralData.v
Referral.v
ReferralTree.v
Commission.v
Withdraw.v
ReferralClaim.v
CommissionFacts.v
ReferralFacts.v
CommissionProps.v
RedeemProps.v
WithdrawProps.v
ReferralSafe.v
ReferralScenario.v
ReferralWitnesses.v
TopUp.v
TopUpProps.v
TopUpScenario.v
