(* ===== verification/Prelude.v ===== *)
(** * Verification of the c35 server: commerce, ids, task runs, queues, referrals
      and top-ups

    The server is a Rust workspace under [src/servers/crates].  This library
    models six of its parts from their sources and proves what they promise:
    the commerce crate [mod_tx] with the functions of [mod_site] it calls, the
    id allocator [store::snowflake], the task crate [mod_task], the queues of a
    site ([mod_site::queue_csa]), the referral program ([mod_referral], the
    claim of a referral in [mod_identity], the payouts [mod_billing] decides),
    and the top-ups of [mod_billing].

    ** How the parts interact

    A request reaches a handler of [mod_tx] (save, read, preview, delete, list,
    pay off, guest order).  The handler asks [mod_site::grant] who may act for
    the site, draws ids from the allocator, derives the dependent fields with
    [tx_finalize], writes the header and its children in one database
    transaction, and moves the stock counters of the catalog by the change of
    the stock lines.  Guest orders go through availability
    ([mod_site::guest_reservation]), which reads the reservation lines earlier
    orders left.

    The task crate keeps tasks, their triggers and their runs.  Clients save
    tasks and start and stop runs; the scheduler starts runs when a trigger
    fires; a run is carried out by a device, which reports back over HTTP, or by
    a worker of the server, one of whose recipes starts child runs and waits for
    them.  All of these change the same rows at the same time and without
    transactions, so the model runs a handler beside others: before each of its
    statements the others may have changed the tables ([Shared]).

    In the referral program a user claims the code of another, who becomes the
    upline, gets a share of the commission to give on, and a bonus is credited.
    A purchase or a top-up of a user earns those above commission, by the shares
    on the way up.  They move it to their balance or ask for a payout by a bank,
    which finance staff approve or decline.  A top-up is an order: paid to the
    payment provider, whose signed notification settles it, or transferred to a
    receiving account, which finance staff approve or reject.  Settling it
    credits the account and, in the same transaction, the commission of those
    above; for a payment also the wallet.  All of these work on the same rows
    with transactions beside others ([Txn]).

    ** Files and the code they model

    - [Prelude]: machine integers as [Z] reduced to their width after every
      operation, the [result] type, lemmas on lists.  [Strs]: UTF-8 strings as
      byte strings with the functions of the Rust library the code calls.
    - [World]: the effects.  A handler is a function from an environment (clock,
      ids, failing statements) and a world (database and counters) to a result
      and a world; [sql] is one statement, [transaction] a database transaction
      that rolls back.  [runs], [reads] and [respects] are the program logic.
    - [Snowflake]: [store/src/snowflake.rs].  One atomic action per step, a
      sequential call with fuel, and schedules of several threads.
    - [Ts], [Json]: [mod_tx/src/ts.rs]; [chrono] and [serde_json] as interfaces
      with their documented laws and an instance.
    - [TxProto], [EnumMap], [TxData], [TxJson]: the messages of [tx.proto], and
      [enum_map.rs], [tx_data.rs], [tx_json.rs].
    - [Db], [Rows], [Persist], [Load]: the tables of [tx.sql], [site.sql] and
      [identity.sql] as finite maps, [rows.rs], [persist.rs], [load.rs].
    - [Finalize]: [finalize.rs].  [StockApply]: [stock_apply.rs].
    - [Grant]: [mod_site/src/grant.rs], [staff.rs], [site_config.rs] and
      [tx_owner_resolve.rs].  [TxApi]: [tx_put.rs], [tx_get.rs],
      [tx_preview.rs], [tx_delete.rs], [tx_debt_pay.rs],
      [tx_fulfillment_gate.rs].  [TxList]: [tx_list.rs].
    - [Reservation]: [mod_site/src/guest_reservation.rs] and what it reads of a
      product.  [Guest]: [guest_order.rs], [guest_order_list.rs],
      [guest_tx_meta.rs].  [Normalizer]: [normalizer.rs].
    - [Shared]: handlers beside others.  [TaskData]: [task.proto] and [task.sql].
      [TaskStore]: [mod_task/src/store.rs], [cancel.rs], [push.rs].  [TaskApi]:
      [rpc.rs], [run_start.rs], [metrics.rs], [scheduler.rs], the schedules of
      [system/nats/src/hydrate.rs] and the callbacks of [wire_http/src/agent.rs].
      [TaskWorker]: [worker/mod.rs] and [recipes/], with the join sets, permits
      and polling of the recipes.  [TaskSteps], [TaskServe]: the life of a run as
      a step relation, which everything the crate does is shown to follow.
    - [Txn]: transactions beside others, for any tables with an [Overlay] of
      writes, and their program logic [within].
    - [QueueData]: the queue tables of [site.sql] and messages of [site.proto].
      [Queue], [GuestQueue]: [mod_site/src/queue_csa.rs] for staff and guests and
      the handlers of [wire_http/src/guest_queue.rs].  [QueueSteps], [QueueSafe]:
      the preorder [qsteps] of what may happen to the tables, and that every
      function stays within it.  [QueueFifo]: the functions on their own as
      operations on a line.
    - [F64]: binary64 with exact rounding, and when its operations on whole
      numbers are exact.  [ReferralData]: the tables of [identity.sql] and
      [billing.sql] the referrals and top-ups use, and their overlay.
      [Referral]: [mod_referral/src/codes.rs] and [lib.rs] with the staff checks
      of [mod_admin/src/lib.rs].  [ReferralTree]: the tree of [lib.rs].
      [Commission]: [commission.rs] and [topup_credit_and_accrue] of
      [mod_billing].  [Withdraw]: [commission_withdraw.rs],
      [referral_ledger.rs], and the review in [billing_finance.rs].
      [ReferralClaim]: [mod_identity/src/auth_password.rs].
    - [TopUp]: [mod_billing/src/billing_topup.rs], [billing_midtrans.rs],
      [billing_webhook.rs], [billing_receive_account.rs], the review and the list
      in [billing_finance.rs], the rate in [fx_live.rs].

    The name of a definition is the name of the Rust function; a record has the
    columns or fields of the struct.  Files ending in [Facts] hold lemmas; files
    ending in [Props] hold properties.

    ** What the theorems show

    - Ledger ([FinalizeProps], [FinalizeStable]): generated ledger lines cancel,
      totals are the sums of the lines, stock lines net to what the items move,
      and finalising twice changes nothing.
    - Saving ([TxPutProps], [ReadBackProps], [TxStockProps]): a save
      is atomic, what it answers is what a later read returns, and every stock
      counter moves by the lines it was given less the lines the database had
      for the transaction before.
    - Access ([Grant], [GuestOrderProps], [TxApiProps], [TxList]): who may
      save, delete, read and claim, that other transactions stay as they are,
      and that the pages of the list hold each match once.
    - Bookings ([Reservation], [GuestProps]): the calendar is the set of
      bookable objects no reservation takes, stated on the rows, and an accepted
      order does not book a unit twice.
    - Codecs ([TxJsonFacts], [EnumMap], [Normalizer]) and ids ([Snowflake]): round
      trips, and strictly increasing ids in one thread.
    - Runs ([TaskProps]): whoever runs beside, rows keep their owners and a run is
      queued, running or ended.  A worker always returns; it ends its run if no
      statement fails and the others leave the outcome of an ended run alone.
      ([TaskScenario] shows a run left running by a failed statement.)
      What a start does beside others ([TaskStart]); with nobody else on the task
      tables, what a fired schedule does, and, when no statement fails either,
      that stopping a device ([TaskCancel]) stops all its runs and saved tasks
      ([TaskSaved]) are listed as they were answered.
    - Recipes ([TaskFanout]): an orchestrator that succeeds has split its rows,
      as far as 10,000 chunks reach, into chunks, each with an ended child that
      was told its chunk, and never has more children at a time than allowed.
    - Queues ([QueueProps]): whoever runs beside, a queue has one open run at
      most and numbers of tickets stay below the next one; without others the
      waiting tickets are a first-in first-out line, and the position a guest is
      told comes true.  Who may call what, and when a day starts.
    - Referrals ([ReferralSafe], [CommissionProps], [WithdrawProps],
      [RedeemProps]): whoever runs beside, shares stay percentages, balances are
      not negative, an owner has one account and one open payout, and is credited
      once for a reference; the climb ends unless somebody is above themself,
      what it gives stays within the pool of 35 percent; a payout and the
      redemption of a code take place at one moment, and a declined payout
      restores the account.
    - Top-ups ([TopUpProps]): whoever runs beside, an order is credited once at
      most, to its account and with its amount; whole amounts add up.  With
      nobody else on the database a notification that an order was paid settles
      it unless a statement fails or an account or the wallet has no room; it
      changes all or nothing, and a second one nothing.
    - [Scenario], [TaskScenario], [QueueScenario], [ReferralScenario] and
      [TopUpScenario] run the handlers on a small site, with two users, on one
      queue, and on a few accounts; some of the runs show where the code does not
      do what it means to.  [Witnesses], [TaskWitnesses], [QueueWitnesses],
      [ReferralWitnesses] and the end of [TopUpScenario] apply each theorem that
      has hypotheses to concrete data.

    ** Bounds and fuel

    The only fuel in the commerce part is that of [snowflake_id], whose loop
    waits for the clock, one round a reading: [Snowflake.snowflake_id_returns]
    shows that it returns with the first reading after the last millisecond used.  Everything else is structural recursion on the data.
    In the task part a worker polls a child 3600 times, as the code does; a join
    set is emptied in as many rounds as it has tasks, each of which takes one
    out; an orchestrator has at most 10,000 chunks; a listing shows 200 tasks.
    A board shows 100 waiting tickets and a list at most 200, as in the code; hex
    digits are computed for 16 places, which is all of a 64-bit number.
    The climb up the referrals has no bound in the code: [earn_chain] takes the
    number of its rounds and has no answer when they do not suffice.
    [CommissionProps.earn_chain_returns] shows that as many rounds as there are
    users suffice unless somebody on the way is above themself, and that no
    number does then.  A top-up whose climb has not ended commits nothing.

    ** Interfaces

    [Chrono], [SerdeJson] and [Unicode] stand for libraries; their laws are
    separate classes and each has an instance ([chrono_millis],
    [Json.Printer]).  Of [serde_json] only this is assumed: a text is printed
    between quotes and read back as it was, [null] is null and nothing is no value.  [HashIter] and [Order] leave the order of hash maps and of
    queries without [ORDER BY] open: every theorem holds for all orders.
    [ilike] is the database's pattern match.  [Others] says what other handlers,
    workers and devices do between two steps, [Instants] and [Scheduler] what the
    clock shows and which task of a join set ends next: the theorems hold for
    all of them, or for all that take only steps of the crate.  [Float] stands
    for [f64] and the numeric columns, [Platform] for billing, the log sums, the
    browser bridge and device sessions.  [Rivals] says what others do between two
    steps of a transaction, given the rows it holds; the theorems ask of them
    that they leave those rows and take only steps of the component's own
    ([qsteps], [keeps_ok], [calm], [pays]), or that there are none.  [Calendar] stands for [chrono-tz] and has
    laws, [Rng] for random numbers, [Locked] for the rows others have locked.
    [Numerics] converts between [f64] and the numeric columns; its laws say that
    whole numbers are converted exactly, and the theorems on amounts are about
    whole ones.  [Casing] is Unicode case conversion, with its law for ASCII,
    [Sessions] resolves session tokens.  [Midtrans] is the payment provider, the
    hash of its signatures and the decoding of its messages, [FxLive] the rate
    another task keeps, [NumericDecode] what the driver makes of a numeric column
    read without a cast.

    An [Env] may let any statement fail, which stands for lost connections,
    texts too long for their column, and constraints nothing relies on.  A
    transaction one of whose statements failed is aborted: where the code goes on
    after such an error ([TopUp.tignore]) its commit writes nothing.  Numbers
    in a JSON column are read back as they were written.

    ** Not modelled

    Crates that are input and output around other services (chat, live, mail,
    channels, files, devices), the clients, and the site renderer.  Of
    [mod_billing] the plans, vouchers and stores: SQL around payment providers.
    Of [mod_referral] the statistics, which are sums computed by the database; of
    [mod_identity] accounts and sessions; of [mod_admin] all but the checks of
    staff.  The notifications pushed to devices after a credit, which change no
    table.  Of [hydrate.rs] the advisory lock that lets one server arm the
    schedules is left out, and of the task crate its log messages.  In the modelled crates:
    constraints of the database that no statement relies on are failures of the
    statement, and the push of a saved transaction to other connections is the
    response of the handler. *)
From stdpp Require Export base list gmap strings numbers.
From Stdlib Require Export ZArith Lia.

#[global] Open Scope Z_scope.

(** ** Machine integers

    The Rust sources compute on [i32], [i64], [u32] and [u64].  A machine
    integer is the [Z] it denotes and every operation is followed by the
    reduction to its width, which is what a release build does. *)

Definition wrap (w z : Z) : Z := (z + 2 ^ (w - 1)) mod 2 ^ w - 2 ^ (w - 1).
Definition uwrap (w z : Z) : Z := z mod 2 ^ w.

Definition to_i64 (z : Z) : Z := wrap 64 z.
Definition to_i32 (z : Z) : Z := wrap 32 z.

Definition in_i64 (z : Z) : Prop := - 2 ^ 63 <= z < 2 ^ 63.
Definition in_i32 (z : Z) : Prop := - 2 ^ 31 <= z < 2 ^ 31.

#[global] Instance in_i64_dec z : Decision (in_i64 z).
Proof. unfold in_i64. apply _. Defined.
#[global] Instance in_i32_dec z : Decision (in_i32 z).
Proof. unfold in_i32. apply _. Defined.

Definition i64_add (a b : Z) : Z := to_i64 (a + b).
Definition i64_sub (a b : Z) : Z := to_i64 (a - b).
Definition i64_mul (a b : Z) : Z := to_i64 (a * b).
Definition i64_neg (a : Z) : Z := to_i64 (- a).
Definition i32_add (a b : Z) : Z := to_i32 (a + b).
Definition i32_neg (a : Z) : Z := to_i32 (- a).

(** [Iterator::sum] folds from the left, starting from zero. *)
Definition i64_sum (l : list Z) : Z := foldl i64_add 0 l.
Definition i32_sum (l : list Z) : Z := foldl i32_add 0 l.

Definition Zsum (l : list Z) : Z := foldr Z.add 0 l.

Declare Scope i64_scope.
Delimit Scope i64_scope with i64.
#[global] Arguments i64_add (a b)%_i64_scope.
#[global] Arguments i64_sub (a b)%_i64_scope.
#[global] Arguments i64_mul (a b)%_i64_scope.
#[global] Arguments i64_neg (a)%_i64_scope.
Number Notation Z Z.of_num_int Z.to_num_int : i64_scope.
Notation "a + b" := (i64_add a b) : i64_scope.
Notation "a - b" := (i64_sub a b) : i64_scope.
Notation "a * b" := (i64_mul a b) : i64_scope.
Notation "- a" := (i64_neg a) : i64_scope.

Declare Scope i32_scope.
Delimit Scope i32_scope with i32.
#[global] Arguments i32_add (a b)%_i32_scope.
#[global] Arguments i32_neg (a)%_i32_scope.
Number Notation Z Z.of_num_int Z.to_num_int : i32_scope.
Notation "a + b" := (i32_add a b) : i32_scope.
Notation "- a" := (i32_neg a) : i32_scope.

(** *** Reduction lemmas *)

Lemma wrap_mod_eq w z : 0 < w -> exists k, wrap w z = z + k * 2 ^ w.
Proof.
  intros Hw. exists (- ((z + 2 ^ (w - 1)) / 2 ^ w)). unfold wrap.
  pose proof (Z.div_mod (z + 2 ^ (w - 1)) (2 ^ w)) as E.
  assert (0 < 2 ^ w) by (apply Z.pow_pos_nonneg; lia). nia.
Qed.

Lemma wrap_shift w z k : 0 < w -> wrap w (z + k * 2 ^ w) = wrap w z.
Proof.
  intros Hw. unfold wrap.
  replace (z + k * 2 ^ w + 2 ^ (w - 1)) with (z + 2 ^ (w - 1) + k * 2 ^ w) by lia.
  rewrite Z.mod_add; [done|]. apply Z.pow_nonzero; lia.
Qed.

Lemma wrap_small w z :
  0 < w -> - 2 ^ (w - 1) <= z < 2 ^ (w - 1) -> wrap w z = z.
Proof.
  intros Hw Hz. unfold wrap.
  assert (2 ^ w = 2 * 2 ^ (w - 1)) as E.
  { rewrite <- Z.pow_succ_r by lia. f_equal. lia. }
  rewrite Z.mod_small; lia.
Qed.

Lemma wrap_range w z : 0 < w -> - 2 ^ (w - 1) <= wrap w z < 2 ^ (w - 1).
Proof.
  intros Hw. unfold wrap.
  assert (2 ^ w = 2 * 2 ^ (w - 1)) as E.
  { rewrite <- Z.pow_succ_r by lia. f_equal. lia. }
  assert (0 < 2 ^ w) by (apply Z.pow_pos_nonneg; lia).
  pose proof (Z.mod_pos_bound (z + 2 ^ (w - 1)) (2 ^ w) ltac:(lia)). lia.
Qed.

(** Two integers with the same reduction: the equivalence machine arithmetic
    respects.  Rewriting under it is how the proofs drop inner wraps. *)
Definition eqm (w a b : Z) : Prop := exists k, a = b + k * 2 ^ w.

#[global] Instance eqm_equiv w : Equivalence (eqm w).
Proof.
  unfold eqm. split.
  - intros a. exists 0. lia.
  - intros a b [k ->]. exists (- k). lia.
  - intros a b c [j ->] [k ->]. exists (j + k). lia.
Qed.

#[global] Instance wrap_proper w `{!TCEq (0 <? w) true} : Proper (eqm w ==> eq) (wrap w).
Proof.
  intros a b [k ->]. apply wrap_shift. apply Z.ltb_lt. by apply TCEq_eq.
Qed.
#[global] Instance to_i64_proper : Proper (eqm 64 ==> eq) to_i64.
Proof. intros a b [k ->]. by apply (wrap_shift 64). Qed.
#[global] Instance to_i32_proper : Proper (eqm 32 ==> eq) to_i32.
Proof. intros a b [k ->]. by apply (wrap_shift 32). Qed.

#[global] Instance eqm_add w : Proper (eqm w ==> eqm w ==> eqm w) Z.add.
Proof. intros a b [j ->] c d [k ->]. exists (j + k). lia. Qed.
#[global] Instance eqm_sub w : Proper (eqm w ==> eqm w ==> eqm w) Z.sub.
Proof. intros a b [j ->] c d [k ->]. exists (j - k). lia. Qed.
#[global] Instance eqm_opp w : Proper (eqm w ==> eqm w) Z.opp.
Proof. intros a b [j ->]. exists (- j). lia. Qed.
#[global] Instance eqm_mul w : Proper (eqm w ==> eqm w ==> eqm w) Z.mul.
Proof.
  intros a b [j ->] c d [k ->]. exists (j * d + b * k + j * k * 2 ^ w). lia.
Qed.

Lemma eqm_wrap w a : 0 < w -> eqm w (wrap w a) a.
Proof. intros Hw. by apply wrap_mod_eq. Qed.
Lemma eqm64_to_i64 a : eqm 64 (to_i64 a) a.
Proof. by apply eqm_wrap. Qed.
Lemma eqm32_to_i32 a : eqm 32 (to_i32 a) a.
Proof. by apply eqm_wrap. Qed.

Lemma to_i64_id a : in_i64 a -> to_i64 a = a.
Proof. intros H. apply wrap_small; [lia|]. exact H. Qed.
Lemma to_i32_id a : in_i32 a -> to_i32 a = a.
Proof. intros H. apply wrap_small; [lia|]. exact H. Qed.
Lemma to_i64_in a : in_i64 (to_i64 a).
Proof. by apply (wrap_range 64). Qed.
Lemma to_i32_in a : in_i32 (to_i32 a).
Proof. by apply (wrap_range 32). Qed.
Lemma in_i32_in_i64 a : in_i32 a -> in_i64 a.
Proof. unfold in_i32, in_i64. lia. Qed.
Lemma to_i64_idemp a : to_i64 (to_i64 a) = to_i64 a.
Proof. apply to_i64_id, to_i64_in. Qed.

(** Equal reductions of in-range integers are equal integers. *)
Lemma eqm64_eq a b : in_i64 a -> in_i64 b -> eqm 64 a b -> a = b.
Proof. unfold in_i64. intros Ha Hb [k Hk]. nia. Qed.
Lemma to_i64_sub_0 a b : in_i64 a -> in_i64 b -> to_i64 (a - b) = 0 -> a = b.
Proof.
  intros Ha Hb H. apply eqm64_eq; [done..|].
  destruct (wrap_mod_eq 64 (a - b)) as [k Hk]; [lia|].
  change (wrap 64 (a - b)) with (to_i64 (a - b)) in Hk.
  exists (- k). lia.
Qed.

Create HintDb machine.
#[export] Hint Resolve to_i64_in to_i32_in in_i32_in_i64 : machine.
Create Rewrite HintDb machine.
#[export] Hint Rewrite to_i64_idemp : machine.

(** [unwrap64] exposes the reductions of a machine expression and drops the
    inner ones; it closes equations whose two sides agree as integers. *)
Ltac unfold_machine :=
  unfold i64_add, i64_sub, i64_mul, i64_neg, i32_add, i32_neg in *.
Ltac unwrap64 :=
  unfold_machine;
  repeat match goal with
  | |- context [to_i64 ?e] =>
      match e with
      | context C [to_i64 ?x] =>
          let e' := context C [x] in
          replace (to_i64 e) with (to_i64 e')
            by (apply to_i64_proper; rewrite (eqm64_to_i64 x); reflexivity)
      end
  end; try (f_equal; lia).
Ltac unwrap32 :=
  unfold_machine;
  repeat match goal with
  | |- context [to_i32 ?e] =>
      match e with
      | context C [to_i32 ?x] =>
          let e' := context C [x] in
          replace (to_i32 e) with (to_i32 e')
            by (apply to_i32_proper; rewrite (eqm32_to_i32 x); reflexivity)
      end
  end; try (f_equal; lia).

Lemma i64_foldl_eq l a : in_i64 a -> foldl i64_add a l = to_i64 (a + Zsum l).
Proof.
  revert a. induction l as [|x l IH]; intros a Ha; simpl.
  - rewrite Z.add_0_r. by rewrite to_i64_id.
  - rewrite IH by apply to_i64_in. unwrap64.
Qed.
Lemma i64_sum_eq l : i64_sum l = to_i64 (Zsum l).
Proof. unfold i64_sum. by rewrite i64_foldl_eq. Qed.

Lemma i32_foldl_eq l a : in_i32 a -> foldl i32_add a l = to_i32 (a + Zsum l).
Proof.
  revert a. induction l as [|x l IH]; intros a Ha; simpl.
  - rewrite Z.add_0_r. by rewrite to_i32_id.
  - rewrite IH by apply to_i32_in. unwrap32.
Qed.
Lemma i32_sum_eq l : i32_sum l = to_i32 (Zsum l).
Proof. unfold i32_sum. by rewrite i32_foldl_eq. Qed.

Lemma Zsum_cons x l : Zsum (x :: l) = x + Zsum l.
Proof. reflexivity. Qed.
Lemma Zsum_app l k : Zsum (l ++ k) = Zsum l + Zsum k.
Proof. induction l; simpl; lia. Qed.
#[global] Instance Zsum_perm : Proper ((≡ₚ) ==> eq) Zsum.
Proof. induction 1; simpl; lia. Qed.
Lemma Zsum_nonneg l : Forall (fun x => 0 <= x) l -> 0 <= Zsum l.
Proof. induction 1; simpl; lia. Qed.

(** ** Fallible code

    [anyhow::Result]: a value or an error message. *)

Inductive result (A : Type) : Type :=
| Ok (a : A)
| Err (e : string).
Arguments Ok {_} _.
Arguments Err {_} _.

#[global] Instance result_ret : MRet result := fun A a => Ok a.
#[global] Instance result_bind : MBind result := fun A B f r =>
  match r with Ok a => f a | Err e => Err e end.

Definition ok_or {A} (o : option A) (e : string) : result A :=
  match o with Some a => Ok a | None => Err e end.

Lemma result_bind_ok {A B} (f : A -> result B) r b :
  (r ≫= f) = Ok b <-> exists a, r = Ok a /\ f a = Ok b.
Proof. destruct r; simpl; naive_solver. Qed.

(** A property of the value of an option, if any. *)
Definition opt_all {A} (P : A -> Prop) (o : option A) : Prop :=
  match o with Some a => P a | None => True end.
#[global] Instance opt_all_dec {A} (P : A -> Prop) `{!forall a, Decision (P a)} o :
  Decision (opt_all P o).
Proof. destruct o; unfold opt_all; apply _. Defined.

(** ** Lists *)

Lemma fmap_id_ext {A} (f : A -> A) (l : list A) : (forall x, x ∈ l -> f x = x) -> f <$> l = l.
Proof.
  induction l as [|x l IH]; intros H; simpl; [done|].
  rewrite H by set_solver. f_equal. apply IH. set_solver.
Qed.

Lemma filter_all {A} (P : A -> Prop) `{!forall x, Decision (P x)} l : Forall P l -> filter P l = l.
Proof.
  induction 1 as [|x l Hx _ IH]; [done|]. rewrite filter_cons, decide_True by done. by f_equal.
Qed.
Lemma filter_none {A} (P : A -> Prop) `{!forall x, Decision (P x)} l :
  Forall (fun x => ~ P x) l -> filter P l = [].
Proof. induction 1 as [|x l Hx _ IH]; [done|]. by rewrite filter_cons, decide_False. Qed.
Lemma eq_perm {A} (l l' : list A) : l = l' -> l ≡ₚ l'.
Proof. by intros ->. Qed.
Lemma bind_singletons {A B} (f : A -> B) (l : list A) : (l ≫= fun x => [f x]) = f <$> l.
Proof. induction l as [|x l IH]; [done|]. cbn. by rewrite <- IH. Qed.

(** *** [omap] and [≫=] *)

Section Selection.
Context {X A B : Type}.
Implicit Types (sel : X -> option B).
Lemma omap_some sel (f : A -> X) (g : A -> B) (l : list A) :
  (forall a, sel (f a) = Some (g a)) -> omap sel (f <$> l) = g <$> l.
Proof. intros Hf. induction l as [|a l IH]; [done|]. cbn. by rewrite Hf, IH. Qed.
Lemma omap_none sel (f : A -> X) (l : list A) :
  (forall a, sel (f a) = None) -> omap sel (f <$> l) = [].
Proof. intros Hf. induction l as [|a l IH]; [done|]. cbn. by rewrite Hf, IH. Qed.
Lemma omap_bind sel (g : A -> list X) (l : list A) :
  omap sel (l ≫= g) = l ≫= (fun a => omap sel (g a)).
Proof. induction l as [|a l IH]; [done|]. cbn. by rewrite omap_app, IH. Qed.
Lemma bind_ext_eq (f g : A -> list B) (l : list A) : (forall a, f a = g a) -> l ≫= f = l ≫= g.
Proof. intros Hf. induction l as [|a l IH]; [done|]. cbn. by rewrite Hf, IH. Qed.
Lemma bind_empty (f : A -> list B) (l : list A) : (forall a, f a = []) -> l ≫= f = [].
Proof. intros Hf. induction l as [|a l IH]; [done|]. cbn. by rewrite Hf, IH. Qed.
End Selection.
Lemma bind_fmap {A B C} (f : A -> list B) (g : B -> C) (l : list A) :
  g <$> (l ≫= f) = l ≫= (fun a => g <$> f a).
Proof. induction l as [|a l IH]; [done|]. cbn. by rewrite fmap_app, IH. Qed.
Lemma bind_bind {A B C} (f : A -> list B) (g : B -> list C) (l : list A) :
  (l ≫= f) ≫= g = l ≫= (fun a => f a ≫= g).
Proof. induction l as [|a l IH]; [done|]. cbn. by rewrite list.bind_app, IH. Qed.
Lemma fmap_bind {A B C} (f : A -> B) (g : B -> list C) (l : list A) :
  (f <$> l) ≫= g = l ≫= (fun a => g (f a)).
Proof. induction l as [|a l IH]; [done|]. cbn. by rewrite IH. Qed.

(** Case analysis on the booleans and options of a goal. *)
Ltac case_all := repeat (case_match; simplify_eq; try done).
