(* ===== verification/Strs.v ===== *)
(** * Strings

    Rust strings are their UTF-8 bytes.  The operations of the standard library
    the commerce crate calls on them. *)
From S2P Require Import Prelude.

Definition byte_Z (c : Ascii.ascii) : Z := Z.of_N (Ascii.N_of_ascii c).
Definition bytes (s : string) : list Ascii.ascii := String.list_ascii_of_string s.
Definition of_bytes (l : list Ascii.ascii) : string := String.string_of_list_ascii l.

Definition is_empty (s : string) : bool := String.eqb s "".

(** ** Case *)

Definition ascii_lower (c : Ascii.ascii) : Ascii.ascii :=
  if (65 <=? byte_Z c) && (byte_Z c <=? 90)
  then Ascii.ascii_of_N (Ascii.N_of_ascii c + 32) else c.
Definition to_ascii_lowercase (s : string) : string := of_bytes (ascii_lower <$> bytes s).
Definition eq_ignore_ascii_case (a b : string) : bool :=
  String.eqb (to_ascii_lowercase a) (to_ascii_lowercase b).

(** [str::to_lowercase], as far as a search for ASCII text can tell: apart from
    A to Z, the only characters whose lowercase has an ASCII character are
    U+212A (kelvin sign, to k) and U+0130 (I with dot, to i and U+0307).  The
    other characters are kept. *)
Fixpoint lower_view (l : list Ascii.ascii) : list Ascii.ascii :=
  match l with
  | [] => []
  | a :: l1 =>
      match l1 with
      | b :: l2 =>
          if (byte_Z a =? 196) && (byte_Z b =? 176)
          then Ascii.ascii_of_N 105 :: Ascii.ascii_of_N 204 :: Ascii.ascii_of_N 135 :: lower_view l2
          else match l2 with
               | c :: l3 =>
                   if (byte_Z a =? 226) && (byte_Z b =? 132) && (byte_Z c =? 170)
                   then Ascii.ascii_of_N 107 :: lower_view l3
                   else ascii_lower a :: lower_view l1
               | [] => ascii_lower a :: lower_view l1
               end
      | [] => [ascii_lower a]
      end
  end.
Definition to_lowercase (s : string) : string := of_bytes (lower_view (bytes s)).

(** [str::contains] *)
Fixpoint str_contains (s needle : string) : bool :=
  String.prefix needle s ||
  match s with
  | EmptyString => false
  | String.String _ s => str_contains s needle
  end.

(** ** White space *)

(** Unicode [White_Space], by the length of the encoding. *)
Definition ws1 (a : Ascii.ascii) : bool :=
  let a := byte_Z a in ((9 <=? a) && (a <=? 13)) || (a =? 32).
Definition ws2 (a b : Ascii.ascii) : bool :=
  (byte_Z a =? 194) && ((byte_Z b =? 133) || (byte_Z b =? 160)).
Definition ws3 (a b c : Ascii.ascii) : bool :=
  let a := byte_Z a in let b := byte_Z b in let c := byte_Z c in
  ((a =? 225) && (b =? 154) && (c =? 128)) ||
  ((a =? 226) && (b =? 128) &&
     (((128 <=? c) && (c <=? 138)) || (c =? 168) || (c =? 169) || (c =? 175))) ||
  ((a =? 226) && (b =? 129) && (c =? 159)) ||
  ((a =? 227) && (b =? 128) && (c =? 128)).

Fixpoint trim_start_bytes (l : list Ascii.ascii) : list Ascii.ascii :=
  match l with
  | a :: l1 =>
      if ws1 a then trim_start_bytes l1 else
      match l1 with
      | b :: l2 =>
          if ws2 a b then trim_start_bytes l2 else
          match l2 with
          | c :: l3 => if ws3 a b c then trim_start_bytes l3 else l
          | [] => l
          end
      | [] => l
      end
  | [] => []
  end.

(** The same on the reversed bytes. *)
Fixpoint trim_end_bytes (l : list Ascii.ascii) : list Ascii.ascii :=
  match l with
  | c :: l1 =>
      if ws1 c then trim_end_bytes l1 else
      match l1 with
      | b :: l2 =>
          if ws2 b c then trim_end_bytes l2 else
          match l2 with
          | a :: l3 => if ws3 a b c then trim_end_bytes l3 else l
          | [] => l
          end
      | [] => l
      end
  | [] => []
  end.

(** [str::trim] *)
Definition trim (s : string) : string :=
  of_bytes (reverse (trim_end_bytes (reverse (trim_start_bytes (bytes s))))).

(** [str::starts_with] of a prefix *)
Definition starts_with (s needle : string) : bool := String.prefix needle s.

(** [str::split_whitespace]: the words, with the bytes of the current one *)
Fixpoint split_whitespace_bytes (word l : list Ascii.ascii) : list (list Ascii.ascii) :=
  let flush ws := match word with [] => ws | _ => reverse word :: ws end in
  match l with
  | [] => flush []
  | a :: l1 =>
      if ws1 a then flush (split_whitespace_bytes [] l1) else
      match l1 with
      | b :: l2 =>
          if ws2 a b then flush (split_whitespace_bytes [] l2) else
          match l2 with
          | c :: l3 =>
              if ws3 a b c then flush (split_whitespace_bytes [] l3)
              else split_whitespace_bytes (a :: word) l1
          | [] => split_whitespace_bytes (a :: word) l1
          end
      | [] => split_whitespace_bytes (a :: word) l1
      end
  end.
Definition split_whitespace (s : string) : list string :=
  of_bytes <$> split_whitespace_bytes [] (bytes s).

(** [str::replace] of a non-empty needle; [skip] bytes are already replaced *)
Fixpoint replace_from (needle by_ : string) (skip : nat) (s : string) : string :=
  match s with
  | EmptyString => EmptyString
  | String.String c s' =>
      match skip with
      | S k => replace_from needle by_ k s'
      | O =>
          if String.prefix needle s
          then by_ +:+ replace_from needle by_ (String.length needle - 1) s'
          else String.String c (replace_from needle by_ 0 s')
      end
  end.
Definition str_replace (s needle by_ : string) : string := replace_from needle by_ 0 s.

Example split_whitespace_ex : split_whitespace " */5  * * * mon " = ["*/5"; "*"; "*"; "*"; "mon"].
Proof. reflexivity. Qed.
Example str_replace_ex : str_replace "u?k={k}&{k}" "{k}" "7" = "u?k=7&7".
Proof. reflexivity. Qed.
Example trim_ex : trim "  a b  " = "a b".
Proof. reflexivity. Qed.
Example lower_ex : str_contains (to_lowercase "PPh 23") "pph" = true.
Proof. reflexivity. Qed.

(** [trim] leaves nothing to trim. *)
Section Trim.
Implicit Types l : list Ascii.ascii.

(** The tests of one pass at the head of [l]; [w2], [w3] are those of the two
    directions. *)
Definition clean (w2 : Ascii.ascii -> Ascii.ascii -> bool)
    (w3 : Ascii.ascii -> Ascii.ascii -> Ascii.ascii -> bool) l : bool :=
  match l with
  | a :: b :: c :: _ => negb (ws1 a) && negb (w2 a b) && negb (w3 a b c)
  | [a; b] => negb (ws1 a) && negb (w2 a b)
  | [a] => negb (ws1 a)
  | [] => true
  end.
Notation clean_start := (clean ws2 ws3).
Notation clean_end := (clean (fun b a => ws2 a b) (fun c b a => ws3 a b c)).

Lemma trim_start_clean l : clean_start l = true -> trim_start_bytes l = l.
Proof.
  destruct l as [|a [|b [|c l]]]; cbn; [done|..]; rewrite ?andb_true_iff, ?negb_true_iff.
  - by intros ->.
  - by intros [-> ->].
  - by intros [[-> ->] ->].
Qed.
Lemma trim_end_clean l : clean_end l = true -> trim_end_bytes l = l.
Proof.
  destruct l as [|a [|b [|c l]]]; cbn; [done|..]; rewrite ?andb_true_iff, ?negb_true_iff.
  - by intros ->.
  - by intros [-> ->].
  - by intros [[-> ->] ->].
Qed.
Lemma trim_start_result l : clean_start (trim_start_bytes l) = true.
Proof.
  remember (length l) as n eqn:E. assert (length l <= n)%nat as Hn by lia. clear E. revert l Hn.
  induction n as [|n IH]; intros l Hn; [by destruct l; cbn in Hn; [|lia]|].
  destruct l as [|a l1]; [done|]. cbn [trim_start_bytes length] in *.
  destruct (ws1 a) eqn:E1; [apply IH; lia|]. destruct l1 as [|b l2]; [by cbn; rewrite E1|].
  destruct (ws2 a b) eqn:E2; [apply IH; cbn in Hn; lia|].
  destruct l2 as [|c l3]; [by cbn; rewrite E1, E2|].
  destruct (ws3 a b c) eqn:E3; [apply IH; cbn in Hn; lia|]. cbn. by rewrite E1, E2, E3.
Qed.
Lemma trim_end_result l : clean_end (trim_end_bytes l) = true /\ exists q, l = q ++ trim_end_bytes l.
Proof.
  remember (length l) as n eqn:E. assert (length l <= n)%nat as Hn by lia. clear E. revert l Hn.
  induction n as [|n IH]; intros l Hn; [destruct l; cbn in Hn; [split; [done|by exists []]|lia]|].
  assert (forall p r, l = p ++ r -> (length r <= n)%nat -> trim_end_bytes l = trim_end_bytes r ->
    clean_end (trim_end_bytes l) = true /\ exists q, l = q ++ trim_end_bytes l) as Hr.
  { intros p r -> Hlen ->. destruct (IH r Hlen) as [Hc [q Hq]]. split; [done|].
    exists (p ++ q). by rewrite <- app_assoc, <- Hq. }
  destruct l as [|c l1]; [split; [done|by exists []]|].
  destruct (ws1 c) eqn:E1; [apply (Hr [c] l1); [done|cbn in Hn; lia|by cbn; rewrite E1]|].
  destruct l1 as [|b l2]; [cbn; rewrite E1; cbn; rewrite E1; split; [done|by exists []]|].
  destruct (ws2 b c) eqn:E2; [apply (Hr [c; b] l2); [done|cbn in Hn; lia|by cbn; rewrite E1, E2]|].
  destruct l2 as [|a l3].
  { cbn. rewrite E1, E2. cbn. rewrite E1, E2. split; [done|by exists []]. }
  destruct (ws3 a b c) eqn:E3;
    [apply (Hr [c; b; a] l3); [done|cbn in Hn; lia|by cbn; rewrite E1, E2, E3]|].
  cbn. rewrite E1, E2, E3. cbn. rewrite E1, E2, E3. split; [done|by exists []].
Qed.
Lemma clean_prefix l l' : clean_start (l ++ l') = true -> clean_start l = true.
Proof.
  destruct l as [|a [|b [|c l]]]; cbn; [done|..]; [| |done];
    destruct l' as [|x [|y l']]; cbn; rewrite ?andb_true_iff; tauto.
Qed.
Lemma trim_trim s : trim (trim s) = trim s.
Proof.
  unfold trim, of_bytes, bytes. rewrite String.list_ascii_of_string_of_list_ascii. f_equal. f_equal.
  set (t := trim_start_bytes (String.list_ascii_of_string s)).
  destruct (trim_end_result (reverse t)) as [Hc [q Hq]].
  set (u := trim_end_bytes (reverse t)) in *.
  rewrite trim_start_clean, reverse_involutive by
    (apply (clean_prefix _ (reverse q)); rewrite <- reverse_app, <- Hq, reverse_involutive;
     apply trim_start_result).
  by apply trim_end_clean.
Qed.
End Trim.
