(* ===== verification/Normalizer.v ===== *)
(** * Catalog text ([servers/crates/mod_tx/src/normalizer.rs])

    Slugs, and the expansion of abbreviations from a word list. *)
From S2P Require Import Prelude Strs.

(** [char::is_alphanumeric] beyond ASCII, for a character given by its bytes:
    the Unicode tables are not part of the model. *)
Class Unicode := unicode_alphanumeric : list Ascii.ascii -> bool.

Definition ascii_alphanumeric (c : Ascii.ascii) : bool :=
  let c := byte_Z c in
  ((48 <=? c) && (c <=? 57)) || ((65 <=? c) && (c <=? 90)) || ((97 <=? c) && (c <=? 122)).
Definition continuation (c : Ascii.ascii) : bool := (128 <=? byte_Z c) && (byte_Z c <? 192).

(** [str::chars], each character as its bytes. *)
Fixpoint chars (l : list Ascii.ascii) : list (list Ascii.ascii) :=
  match l with
  | [] => []
  | c :: l =>
      match chars l with
      | (d :: cs) :: rest =>
          if continuation d then (c :: d :: cs) :: rest else [c] :: (d :: cs) :: rest
      | rest => [c] :: rest
      end
  end.

(** [str::split] at the characters a predicate holds of *)
Fixpoint split_chars (sep : list Ascii.ascii -> bool) (cs : list (list Ascii.ascii))
    : list (list Ascii.ascii) :=
  match cs with
  | [] => [[]]
  | c :: cs =>
      if sep c then [] :: split_chars sep cs
      else match split_chars sep cs with
           | w :: ws => (c ++ w) :: ws
           | [] => [c]
           end
  end.

Definition char_alphanumeric `{!Unicode} (c : list Ascii.ascii) : bool :=
  match c with
  | [a] => if byte_Z a <? 128 then ascii_alphanumeric a else unicode_alphanumeric c
  | _ => unicode_alphanumeric c
  end.

(** [slice::join] *)
Fixpoint join (sep : string) (ws : list string) : string :=
  match ws with
  | [] => ""
  | [w] => w
  | w :: ws => w +:+ sep +:+ join sep ws
  end.

Definition underscore : Ascii.ascii := Ascii.ascii_of_N 95.

(** The loop of [slug_normalize].  A character beyond ASCII is a separator, and
    so is each of its bytes: a run of separators counts once. *)
Fixpoint slug_loop (prev_is_sep : bool) (l : list Ascii.ascii) : list Ascii.ascii :=
  match l with
  | [] => []
  | c :: l =>
      if ascii_alphanumeric c then ascii_lower c :: slug_loop false l
      else if negb prev_is_sep then underscore :: slug_loop true l
      else slug_loop prev_is_sep l
  end.

(** [if out.ends_with('_') { out.pop(); }] *)
Fixpoint pop_underscore (l : list Ascii.ascii) : list Ascii.ascii :=
  match l with
  | [] => []
  | [c] => if Ascii.eqb c underscore then [] else [c]
  | c :: l => c :: pop_underscore l
  end.

Definition slug_normalize (raw : string) : string :=
  let trimmed := trim raw in
  if is_empty trimmed then ""
  else of_bytes (pop_underscore (slug_loop true (bytes trimmed))).

Definition word_expand_tokens (tokens : list string) (dict : gmap string string) : list string :=
  (fun t => let lower := to_ascii_lowercase t in default lower (dict !! lower)) <$> tokens.

Definition text_normalize_with_dict `{!Unicode} (raw : string) (dict : gmap string string)
    : string :=
  let tokens := filter (fun s => is_empty s = false)
    (of_bytes <$> split_chars (fun c => negb (char_alphanumeric c)) (chars (bytes raw))) in
  let expanded := word_expand_tokens tokens dict in
  slug_normalize (join " " expanded).

(** The checks of the source's test module. *)
Example slug_ex1 : slug_normalize "INDOMIE-GORENG" = "indomie_goreng".
Proof. reflexivity. Qed.
Example slug_ex2 : slug_normalize "  --indomie_goreng--  " = "indomie_goreng".
Proof. reflexivity. Qed.
Example slug_ex3 : slug_normalize "Indomie   Goreng!" = "indomie_goreng".
Proof. reflexivity. Qed.
Example text_ex1 : text_normalize_with_dict (H := fun _ => false) "NASI GRG AYM BKR"
    (<["grg" := "goreng"]> (<["aym" := "ayam"]> {[ "bkr" := "bakar" ]}))
  = "nasi_goreng_ayam_bakar".
Proof. reflexivity. Qed.

(** ** Words

    The reference: the maximal runs of ASCII letters and digits. *)

Fixpoint split_bytes (l : list Ascii.ascii) : list (list Ascii.ascii) :=
  match l with
  | [] => [[]]
  | c :: l =>
      if ascii_alphanumeric c
      then match split_bytes l with w :: ws => (c :: w) :: ws | [] => [[c]] end
      else [] :: split_bytes l
  end.
Definition words (l : list Ascii.ascii) : list (list Ascii.ascii) :=
  filter (fun w => w <> []) (split_bytes l).
Definition sep_byte (c : Ascii.ascii) : Prop := ascii_alphanumeric c = false.

(** All bytes, for facts about single bytes. *)
Definition all_bytes : list Ascii.ascii :=
  (fun n => Ascii.ascii_of_nat n) <$> seq 0 256.
Lemma all_bytes_in c : c ∈ all_bytes.
Proof.
  apply list_elem_of_fmap. exists (Ascii.nat_of_ascii c). split.
  - by rewrite Ascii.ascii_nat_embedding.
  - apply elem_of_seq. split; [lia|]. apply Ascii.nat_ascii_bounded.
Qed.
Lemma byte_forall (P : Ascii.ascii -> bool) c : forallb P all_bytes = true -> P c = true.
Proof. rewrite forallb_forall. intros H. apply H, list_elem_of_In, all_bytes_in. Qed.

Lemma lower_alnum c : ascii_alphanumeric (ascii_lower c) = ascii_alphanumeric c.
Proof.
  apply eqb_prop. by apply (byte_forall (fun c =>
    Bool.eqb (ascii_alphanumeric (ascii_lower c)) (ascii_alphanumeric c))).
Qed.
Lemma lower_lower c : ascii_lower (ascii_lower c) = ascii_lower c.
Proof.
  apply Ascii.eqb_eq. by apply (byte_forall (fun c =>
    Ascii.eqb (ascii_lower (ascii_lower c)) (ascii_lower c))).
Qed.
Lemma alnum_not_underscore c : ascii_alphanumeric c = true -> Ascii.eqb c underscore = false.
Proof.
  intros H. destruct (Ascii.eqb_spec c underscore) as [->|]; [|done]. by vm_compute in H.
Qed.
Lemma ws1_sep c : ws1 c = true -> sep_byte c.
Proof.
  intros H. apply negb_true_iff. revert H. apply implb_true_iff.
  by apply (byte_forall (fun c => implb (ws1 c) (negb (ascii_alphanumeric c)))).
Qed.
Lemma high_sep c : byte_Z c <? 128 = false -> sep_byte c.
Proof.
  intros H. apply negb_true_iff. apply negb_true_iff in H. revert H. apply implb_true_iff.
  by apply (byte_forall (fun c => implb (negb (byte_Z c <? 128)) (negb (ascii_alphanumeric c)))).
Qed.

(** *** Splitting *)

Lemma split_bytes_cons l : exists w ws, split_bytes l = w :: ws.
Proof.
  induction l as [|c l (w & ws & IH)]; cbn; [eauto|]. rewrite IH. case_match; eauto.
Qed.
Lemma words_sep c l : sep_byte c -> words (c :: l) = words l.
Proof. intros H. unfold words. cbn. by rewrite H. Qed.
Lemma words_seps l k : Forall sep_byte l -> words (l ++ k) = words k.
Proof. induction 1 as [|c l Hc _ IH]; [done|]. cbn [app]. by rewrite words_sep. Qed.
(** A separator ends the words before it. *)
Lemma split_app_sep l c k :
  sep_byte c -> split_bytes (l ++ c :: k) = split_bytes l ++ split_bytes k.
Proof.
  intros Hc. induction l as [|d l IH]; cbn.
  - by rewrite Hc.
  - rewrite IH. destruct (split_bytes_cons l) as (w & ws & ->). by case_match.
Qed.
Lemma words_app_sep l c k : sep_byte c -> words (l ++ c :: k) = words l ++ words k.
Proof. intros Hc. unfold words. by rewrite split_app_sep, list.filter_app. Qed.
Lemma words_app_seps l k : Forall sep_byte k -> words (l ++ k) = words l.
Proof.
  destruct 1 as [|c k Hc Hk]; [by rewrite app_nil_r|].
  rewrite words_app_sep by done. rewrite <- (app_nil_r k), words_seps by done.
  apply app_nil_r.
Qed.
(** A run of letters and digits is one word. *)
Lemma words_run w : w <> [] -> Forall (fun c => ascii_alphanumeric c = true) w -> words w = [w].
Proof.
  intros Hw Ha. unfold words.
  assert (split_bytes w = [w]) as ->.
  { clear Hw. induction Ha as [|c w Hc _ IH]; cbn; [done|]. by rewrite Hc, IH. }
  cbn. by rewrite decide_True.
Qed.
Lemma words_alnum l w :
  w ∈ words l -> w <> [] /\ Forall (fun c => ascii_alphanumeric c = true) w.
Proof.
  unfold words. rewrite list_elem_of_filter. intros [Hn Hin]. split; [done|]. clear Hn.
  revert w Hin. induction l as [|c l IH]; intros w; cbn.
  - rewrite list_elem_of_singleton. intros ->. constructor.
  - destruct (split_bytes_cons l) as (v & vs & E). rewrite E in *.
    destruct (ascii_alphanumeric c) eqn:Ec; rewrite elem_of_cons.
    + intros [->|Hin]; [|apply IH; set_solver]. constructor; [done|]. apply IH. set_solver.
    + intros [->|Hin]; [constructor|]. apply IH. set_solver.
Qed.

(** *** [trim] *)

Lemma trim_start_seps l :
  exists pre, l = pre ++ trim_start_bytes l /\ Forall sep_byte pre.
Proof.
  induction l as [l IH] using (induction_ltof1 _ length). unfold ltof in IH.
  destruct l as [|a l1]; [by exists []|]. cbn [trim_start_bytes].
  destruct (ws1 a) eqn:E1.
  { destruct (IH l1) as (p & Hp & Hf); [cbn; lia|]. exists (a :: p). split; [cbn; by f_equal|].
    constructor; [by apply ws1_sep|done]. }
  destruct l1 as [|b l2]; [by exists []|]. destruct (ws2 a b) eqn:E2.
  { destruct (IH l2) as (p & Hp & Hf); [cbn; lia|]. exists (a :: b :: p).
    split; [cbn; by do 2 f_equal|].
    unfold ws2 in E2. repeat constructor; try done; apply high_sep; lia. }
  destruct l2 as [|c l3]; [by exists []|]. destruct (ws3 a b c) eqn:E3; [|by exists []].
  destruct (IH l3) as (p & Hp & Hf); [cbn; lia|]. exists (a :: b :: c :: p).
  split; [cbn; by do 3 f_equal|].
  unfold ws3 in E3. repeat constructor; try done; apply high_sep; lia.
Qed.
Lemma trim_end_seps l :
  exists pre, l = pre ++ trim_end_bytes l /\ Forall sep_byte pre.
Proof.
  induction l as [l IH] using (induction_ltof1 _ length). unfold ltof in IH.
  destruct l as [|a l1]; [by exists []|]. cbn [trim_end_bytes].
  destruct (ws1 a) eqn:E1.
  { destruct (IH l1) as (p & Hp & Hf); [cbn; lia|]. exists (a :: p). split; [cbn; by f_equal|].
    constructor; [by apply ws1_sep|done]. }
  destruct l1 as [|b l2]; [by exists []|]. destruct (ws2 b a) eqn:E2.
  { destruct (IH l2) as (p & Hp & Hf); [cbn; lia|]. exists (a :: b :: p).
    split; [cbn; by do 2 f_equal|].
    unfold ws2 in E2. repeat constructor; try done; apply high_sep; lia. }
  destruct l2 as [|c l3]; [by exists []|]. destruct (ws3 c b a) eqn:E3; [|by exists []].
  destruct (IH l3) as (p & Hp & Hf); [cbn; lia|]. exists (a :: b :: c :: p).
  split; [cbn; by do 3 f_equal|].
  unfold ws3 in E3. repeat constructor; try done; apply high_sep; lia.
Qed.
Lemma bytes_of_bytes l : bytes (of_bytes l) = l.
Proof. apply String.list_ascii_of_string_of_list_ascii. Qed.
Lemma of_bytes_bytes s : of_bytes (bytes s) = s.
Proof. apply String.string_of_list_ascii_of_string. Qed.
Lemma words_trim s : words (bytes (trim s)) = words (bytes s).
Proof.
  unfold trim. rewrite bytes_of_bytes.
  destruct (trim_start_seps (bytes s)) as (p & Hs & Hp).
  destruct (trim_end_seps (reverse (trim_start_bytes (bytes s)))) as (q & Hq & Hq').
  rewrite Hs at 2. rewrite words_seps by done.
  rewrite <- (reverse_involutive (trim_start_bytes (bytes s))) at 2.
  rewrite Hq at 2. rewrite reverse_app, words_app_seps; [done|]. by apply Forall_reverse.
Qed.

(** ** Slugs *)

Fixpoint join_bytes (ws : list (list Ascii.ascii)) : list Ascii.ascii :=
  match ws with
  | [] => []
  | [w] => w
  | w :: ws => w ++ underscore :: join_bytes ws
  end.
Lemma join_bytes_cons w ws :
  join_bytes (w :: ws) =
  w ++ match ws with [] => [] | _ => underscore :: join_bytes ws end.
Proof. destruct ws; cbn; [by rewrite app_nil_r|done]. Qed.
Lemma of_bytes_app l k : of_bytes (l ++ k) = of_bytes l +:+ of_bytes k.
Proof. induction l as [|c l IH]; [done|]. apply (f_equal (String.String c) IH). Qed.
Lemma of_bytes_join ws : of_bytes (join_bytes ws) = join "_" (of_bytes <$> ws).
Proof.
  induction ws as [|w [|v ws] IH]; [done..|].
  change (join_bytes (w :: v :: ws)) with (w ++ underscore :: join_bytes (v :: ws)).
  rewrite of_bytes_app. cbn [fmap list_fmap join]. f_equal.
  change (of_bytes (underscore :: join_bytes (v :: ws)))
    with ("_" +:+ of_bytes (join_bytes (v :: ws))). f_equal. exact IH.
Qed.

Lemma pop_cons c l : Ascii.eqb c underscore = false -> pop_underscore (c :: l) = c :: pop_underscore l.
Proof. intros H. destruct l; [|done]. cbn [pop_underscore]. by rewrite H. Qed.
Lemma pop_underscore_cons l :
  pop_underscore (underscore :: l) = match l with [] => [] | _ => underscore :: pop_underscore l end.
Proof. by destruct l. Qed.

Definition lower_bytes : list Ascii.ascii -> list Ascii.ascii := fmap ascii_lower.

Lemma slug_loop_nil l : slug_loop true l = [] <-> words l = [].
Proof.
  induction l as [|c l IH]; [done|]. destruct (ascii_alphanumeric c) eqn:Ec.
  - unfold words. cbn. rewrite Ec. destruct (split_bytes_cons l) as (w & ws & ->).
    by rewrite filter_cons_True.
  - rewrite words_sep by done. cbn. by rewrite Ec.
Qed.

(** The loop after a separator, and within a word. *)
Lemma slug_loop_words l :
  pop_underscore (slug_loop true l) = join_bytes (lower_bytes <$> words l) /\
  forall w ws, split_bytes l = w :: ws ->
    pop_underscore (slug_loop false l) =
      join_bytes (lower_bytes w :: (lower_bytes <$> filter (fun w => w <> []) ws)).
Proof.
  induction l as [|c l [IHt IHf]].
  { split; [done|]. by intros w ws [= <- <-]. }
  assert (forall w ws, split_bytes l = w :: ws ->
    ascii_alphanumeric c = true ->
    pop_underscore (ascii_lower c :: slug_loop false l) =
    join_bytes (lower_bytes (c :: w) :: (lower_bytes <$> filter (fun w => w <> []) ws))) as Hrun.
  { intros w ws E Ec. rewrite pop_cons by (apply alnum_not_underscore; by rewrite lower_alnum).
    rewrite (IHf _ _ E), !join_bytes_cons. done. }
  destruct (ascii_alphanumeric c) eqn:Ec.
  - unfold words. cbn [slug_loop split_bytes]. rewrite Ec.
    destruct (split_bytes_cons l) as (w & ws & E). rewrite E. split.
    + rewrite filter_cons_True by done. by apply Hrun.
    + intros ? ? [= <- <-]. by apply Hrun.
  - split.
    + rewrite words_sep by done. cbn [slug_loop]. by rewrite Ec.
    + intros w ws. cbn [slug_loop split_bytes]. rewrite Ec. intros [= <- <-].
      cbn [negb]. rewrite pop_underscore_cons. fold (words l).
      change (lower_bytes []) with (@nil Ascii.ascii). rewrite join_bytes_cons. cbn [app].
      pose proof (slug_loop_nil l) as Hn. rewrite <- IHt.
      destruct (slug_loop true l) as [|d k]; destruct (words l) as [|v vs]; try done; exfalso.
      all: destruct Hn as [Hn1 Hn2]; first [by specialize (Hn1 eq_refl)|by specialize (Hn2 eq_refl)].
Qed.

Lemma slug_normalize_bytes raw :
  slug_normalize raw = of_bytes (join_bytes (lower_bytes <$> words (bytes raw))).
Proof.
  unfold slug_normalize. rewrite <- words_trim. destruct (is_empty (trim raw)) eqn:E.
  - apply String.eqb_eq in E. by rewrite E.
  - f_equal. apply slug_loop_words.
Qed.

(** Words joined by underscores split into themselves. *)
Definition is_word (w : list Ascii.ascii) : Prop :=
  w <> [] /\ Forall (fun c => ascii_alphanumeric c = true) w.
Lemma words_join ws : Forall is_word ws -> words (join_bytes ws) = ws.
Proof.
  induction 1 as [|w ws [Hw Ha] Hf IH]; [done|]. destruct ws as [|v ws].
  - by apply words_run.
  - change (join_bytes (w :: v :: ws)) with (w ++ underscore :: join_bytes (v :: ws)).
    rewrite words_app_sep, IH, words_run by done. done.
Qed.
Lemma lower_is_word w : is_word w -> is_word (lower_bytes w).
Proof.
  intros [Hw Ha]. split; [intros E; apply Hw; by destruct w|]. apply Forall_fmap. eapply List.Forall_impl; [|exact Ha].
  intros c Hc. cbn. by rewrite lower_alnum.
Qed.
Lemma words_is_word l : Forall is_word (words l).
Proof. apply Forall_forall. intros w Hw. apply (words_alnum l). by apply list_elem_of_In. Qed.
Lemma lower_bytes_idemp w : lower_bytes (lower_bytes w) = lower_bytes w.
Proof. induction w as [|c w IH]; cbn; [done|]. rewrite lower_lower. f_equal. exact IH. Qed.

Lemma lower_words_is_word l : Forall is_word (lower_bytes <$> words l).
Proof.
  apply Forall_fmap. eapply List.Forall_impl; [|apply words_is_word]. apply lower_is_word.
Qed.
Lemma lower_words_idemp (ws : list (list Ascii.ascii)) : lower_bytes <$> (lower_bytes <$> ws) = lower_bytes <$> ws.
Proof.
  induction ws as [|w ws IH]; [done|]. cbn. rewrite lower_bytes_idemp. f_equal. exact IH.
Qed.
Lemma lower_words_string (ws : list (list Ascii.ascii)) :
  of_bytes <$> (lower_bytes <$> ws) = (fun w => to_ascii_lowercase (of_bytes w)) <$> ws.
Proof.
  induction ws as [|w ws IH]; [done|]. cbn. unfold to_ascii_lowercase at 1.
  rewrite bytes_of_bytes. f_equal. exact IH.
Qed.

(** A slug is the text's runs of ASCII letters and digits, in lower
    case, joined by single underscores: nothing else of the text is kept, and
    normalizing a slug changes nothing. *)
Theorem slug_normalize_spec raw :
  slug_normalize raw =
    join "_" ((fun w => to_ascii_lowercase (of_bytes w)) <$> words (bytes raw)) /\
  slug_normalize (slug_normalize raw) = slug_normalize raw.
Proof.
  split.
  - rewrite slug_normalize_bytes, of_bytes_join. f_equal. apply lower_words_string.
  - rewrite (slug_normalize_bytes (slug_normalize raw)), slug_normalize_bytes, bytes_of_bytes.
    rewrite words_join by apply lower_words_is_word. do 2 f_equal.
    apply lower_words_idemp.
Qed.

(** ** Abbreviations *)

Definition is_ascii (s : string) : bool := forallb (fun c => byte_Z c <? 128) (bytes s).

Section Expand.
Context `{!Unicode}.

Lemma chars_ascii l : forallb (fun c => byte_Z c <? 128) l = true -> chars l = (fun c => [c]) <$> l.
Proof.
  induction l as [|c l IH]; cbn; [done|]. intros [Hc Hl]%andb_true_iff. rewrite IH by done.
  destruct l as [|d l]; [done|]. cbn. cbn in Hl. apply andb_true_iff in Hl as [Hd _].
  unfold continuation. by replace (128 <=? byte_Z d) with false by lia.
Qed.
Lemma split_chars_ascii l :
  forallb (fun c => byte_Z c <? 128) l = true ->
  split_chars (fun c => negb (char_alphanumeric c)) ((fun c => [c]) <$> l) = split_bytes l.
Proof.
  induction l as [|c l IH]; cbn; [done|]. intros [Hc Hl]%andb_true_iff.
  rewrite Hc, IH by done. by destruct (ascii_alphanumeric c).
Qed.
Lemma filter_of_bytes (ws : list (list Ascii.ascii)) :
  filter (fun s => is_empty s = false) (of_bytes <$> ws) =
  of_bytes <$> filter (fun w => w <> []) ws.
Proof.
  induction ws as [|w ws IH]; [done|]. cbn [fmap list_fmap]. destruct w as [|c w].
  - rewrite !filter_cons_False; [exact IH| |]; [by intros []|done].
  - rewrite !filter_cons_True by done. cbn. f_equal. exact IH.
Qed.
Lemma bytes_app s t : bytes (s +:+ t) = bytes s ++ bytes t.
Proof.
  rewrite <- (bytes_of_bytes (bytes s ++ bytes t)), of_bytes_app, !of_bytes_bytes. done.
Qed.
Lemma words_join_space (ts : list string) :
  words (bytes (join " " ts)) = concat ((fun t => words (bytes t)) <$> ts).
Proof.
  induction ts as [|t [|u ts] IH]; [done| |].
  - cbn. by rewrite app_nil_r.
  - change (join " " (t :: u :: ts)) with (t +:+ " " +:+ join " " (u :: ts)).
    rewrite bytes_app. change (bytes (" " +:+ join " " (u :: ts)))
      with (Ascii.ascii_of_N 32 :: bytes (join " " (u :: ts))).
    rewrite words_app_sep by done. rewrite IH. done.
Qed.

End Expand.

(** The normalized form of an ASCII text is the slug of its words,
    each replaced by what the dictionary has for it in lower case; a word the
    dictionary lacks stands for itself.  With an empty dictionary it is the slug
    of the text. *)
Theorem text_normalize_expands `{!Unicode} raw dict :
  is_ascii raw = true ->
  text_normalize_with_dict raw dict =
    join "_" (concat ((fun w => let w := to_ascii_lowercase (of_bytes w) in
      (fun v => to_ascii_lowercase (of_bytes v)) <$> words (bytes (default w (dict !! w))))
      <$> words (bytes raw))) /\
  text_normalize_with_dict raw ∅ = slug_normalize raw.
Proof.
  intros Ha.
  assert (forall dict, text_normalize_with_dict raw dict =
    of_bytes (join_bytes (lower_bytes <$> concat ((fun w =>
      let w := to_ascii_lowercase (of_bytes w) in words (bytes (default w (dict !! w))))
      <$> words (bytes raw))))) as E.
  { intros d. unfold text_normalize_with_dict. rewrite chars_ascii, split_chars_ascii by done.
    rewrite filter_of_bytes. fold (words (bytes raw)). rewrite slug_normalize_bytes, words_join_space.
    unfold word_expand_tokens. do 4 f_equal. rewrite <- !list_fmap_compose. done. }
  split; rewrite E; clear E.
  - rewrite of_bytes_join. f_equal. induction (words (bytes raw)) as [|w ws IH]; [done|].
    cbn [fmap list_fmap concat]. rewrite !fmap_app.
    f_equal; [apply lower_words_string|exact IH].
  - rewrite slug_normalize_bytes. do 2 f_equal.
    pose proof (words_is_word (bytes raw)) as Hw.
    induction Hw as [|w ws Hw _ IH]; [done|]. cbn [fmap list_fmap concat].
    rewrite fmap_app. refine (f_equal2 app (y1 := [lower_bytes w]) _ IH).
    rewrite lookup_empty. cbn [default from_option]. unfold to_ascii_lowercase, id.
    rewrite !bytes_of_bytes. fold (lower_bytes w).
    destruct (lower_is_word w Hw) as [Hn Hf]. rewrite words_run by done.
    cbn. rewrite lower_bytes_idemp. reflexivity.
Qed.

Lemma text_normalize_expands_witness : let H : Unicode := fun _ => false in
  text_normalize_with_dict "indomie GRG" ∅ = slug_normalize "indomie GRG".
Proof.
  intros H. apply (text_normalize_expands "indomie GRG" ∅). vm_compute. reflexivity.
Defined.
