(* ===== verification/Snowflake.v ===== *)
(** * Snowflake ids ([servers/crates/store/src/snowflake.rs])

    The allocator of every row id of the platform: a 64-bit integer made of a
    millisecond timestamp, a worker number and a sequence number, drawn from two
    process-wide atomics.  [snowflake_step] is one atomic action of one thread
    inside [snowflake_id]; [snowflake_id] runs a call without interference;
    [run_schedule] interleaves threads. *)
From Stdlib Require Import Sorted.
From S2P Require Import Prelude Strs.

(** 2026-01-01 00:00:00 UTC *)
Definition SNOWFLAKE_EPOCH_MS : Z := 1767225600000.
Definition WORKER_BITS : Z := 10.
Definition SEQ_BITS : Z := 12.
Definition MAX_SEQ : Z := Z.shiftl 1 SEQ_BITS - 1.
Definition WORKER_MASK : Z := Z.shiftl 1 WORKER_BITS - 1.
Definition SNOWFLAKE_SHIFT : Z := WORKER_BITS + SEQ_BITS.

(** ** Worker number *)


(** FNV-1a over the bytes of the origin, on [u32]. *)
Definition worker_id_from_origin (origin : string) : Z :=
  let h := foldl (fun h b => uwrap 32 (Z.lxor h (byte_Z b) * 16777619))
             2166136261 (bytes origin) in
  let n := Z.land h WORKER_MASK in
  if n =? 0 then 1 else n.

(** [str::parse::<u64>]: an optional plus sign, then decimal digits, no
    overflow. *)
Definition digit_of (c : Ascii.ascii) : option Z :=
  let d := byte_Z c - 48 in if (0 <=? d) && (d <=? 9) then Some d else None.
Fixpoint parse_digits (acc : Z) (l : list Ascii.ascii) : option Z :=
  match l with
  | [] => Some acc
  | c :: l =>
      match digit_of c with
      | Some d =>
          let acc := acc * 10 + d in
          if 2 ^ 64 <=? acc then None else parse_digits acc l
      | None => None
      end
  end.
Definition parse_u64 (s : string) : option Z :=
  match bytes s with
  | [] => None
  | c :: l =>
      if byte_Z c =? 43 (* plus sign *)
      then match l with [] => None | _ => parse_digits 0 l end
      else parse_digits 0 (c :: l)
  end.

(** The environment variables the allocator reads, and the process number as
    text. *)
Record env := {
  C35_WORKER_ID : option string;
  POD_NAME : option string;
  HOSTNAME : option string;
  process_id : string;
}.

Definition worker_id (e : env) : Z :=
  match e.(C35_WORKER_ID) ≫= parse_u64 with
  | Some n => Z.land n WORKER_MASK
  | None =>
      worker_id_from_origin
        (match e.(POD_NAME) with
         | Some p => p
         | None => match e.(HOSTNAME) with Some h => h | None => e.(process_id) end
         end)
  end.

(** ** Range bounds used by day queries *)

Definition i64_saturating_sub (a b : Z) : Z :=
  Z.max (- 2 ^ 63) (Z.min (2 ^ 63 - 1) (a - b)).

Definition snowflake_min_at_ms (ms : Z) : Z :=
  to_i64 (Z.shiftl (Z.max (i64_saturating_sub ms SNOWFLAKE_EPOCH_MS) 0) SNOWFLAKE_SHIFT).

Definition snowflake_max_at_ms (ms : Z) : Z :=
  Z.lor (snowflake_min_at_ms ms) (Z.shiftl 1 SNOWFLAKE_SHIFT - 1).

(** ** The allocator *)

(** The two atomics. *)
Record shared := { SEQ : Z; LAST_MS : Z }.
Definition shared_init : shared := {| SEQ := 0; LAST_MS := 0 |}.

(** The clock: milliseconds since the Unix epoch, or an error when the system
    time is before it. *)
Definition elapsed_ms (t : option Z) : Z :=
  Z.max 0 (default SNOWFLAKE_EPOCH_MS t - SNOWFLAKE_EPOCH_MS).

(** The packed id: timestamp, worker and sequence in one [u64], cast to [i64]. *)
Definition snowflake_pack (ms worker seq : Z) : Z :=
  to_i64 (Z.lor (Z.lor (uwrap 64 (Z.shiftl ms (WORKER_BITS + SEQ_BITS)))
                       (uwrap 64 (Z.shiftl worker SEQ_BITS))) seq).

(** Where a thread is inside the loop. *)
Inductive pc :=
| PStart                      (* about to read the clock *)
| PClock (ms : Z)             (* about to load [LAST_MS] *)
| PLoaded (ms last : Z)       (* about to exchange or to take a sequence number *)
| PWon (ms : Z)               (* exchanged; about to store [SEQ] *)
| PDone (id : Z).             (* returned *)

(** One atomic action.  A failed exchange, an exhausted sequence and a clock
    behind [LAST_MS] (both of which sleep) go back to the start of the loop. *)
Definition snowflake_step (worker : Z) (t : option Z) (sh : shared) (p : pc)
    : shared * pc :=
  match p with
  | PStart => (sh, PClock (elapsed_ms t))
  | PClock ms => (sh, PLoaded ms sh.(LAST_MS))
  | PLoaded ms last =>
      if last <? ms then
        if sh.(LAST_MS) =? last
        then ({| SEQ := sh.(SEQ); LAST_MS := ms |}, PWon ms)
        else (sh, PStart)
      else if ms =? last then
        let seq := sh.(SEQ) in
        ({| SEQ := uwrap 64 (seq + 1); LAST_MS := sh.(LAST_MS) |},
         if MAX_SEQ <? seq then PStart else PDone (snowflake_pack ms worker seq))
      else (sh, PStart)
  | PWon ms => ({| SEQ := 1; LAST_MS := sh.(LAST_MS) |}, PDone (snowflake_pack ms worker 0))
  | PDone id => (sh, PDone id)
  end.

(** One pass of the loop without interference. *)
Definition snowflake_pass (worker : Z) (t : option Z) (sh : shared) : shared * pc :=
  let '(sh, p) := snowflake_step worker t sh PStart in
  let '(sh, p) := snowflake_step worker t sh p in
  let '(sh, p) := snowflake_step worker t sh p in
  match p with PWon _ => snowflake_step worker t sh p | _ => (sh, p) end.

(** A whole call without interference: it reads the clock once per pass, and
    has no result when the readings given are used up first. *)
Fixpoint snowflake_id (worker : Z) (ts : list (option Z)) (sh : shared)
    : option (Z * shared) :=
  match ts with
  | [] => None
  | t :: ts =>
      match snowflake_pass worker t sh with
      | (sh, PDone id) => Some (id, sh)
      | (sh, _) => snowflake_id worker ts sh
      end
  end.

(** A sequence of calls, each with its own clock readings. *)
Fixpoint snowflake_ids (worker : Z) (tss : list (list (option Z))) (sh : shared)
    : option (list Z * shared) :=
  match tss with
  | [] => Some ([], sh)
  | ts :: tss =>
      '(id, sh) ← snowflake_id worker ts sh;
      '(ids, sh) ← snowflake_ids worker tss sh;
      Some (id :: ids, sh)
  end.

(** Threads running calls at once: [schedule] says which thread acts and what
    the clock shows. *)
Definition sched_step (worker : Z) (c : shared * list pc) (s : nat * option Z)
    : shared * list pc :=
  match c.2 !! s.1 with
  | Some p => let '(sh, p) := snowflake_step worker s.2 c.1 p in (sh, <[s.1 := p]> c.2)
  | None => c
  end.
Definition run_schedule (worker : Z) (schedule : list (nat * option Z))
    (c : shared * list pc) : shared * list pc :=
  foldl (sched_step worker) c schedule.

(** ** Packing and its fields *)

(** The fields of an id, as [_/specs/snowflake.md] lays them out. *)
Definition id_ms (id : Z) : Z := Z.shiftr id SNOWFLAKE_SHIFT.
Definition id_worker (id : Z) : Z := Z.land (Z.shiftr id SEQ_BITS) WORKER_MASK.
Definition id_seq (id : Z) : Z := Z.land id MAX_SEQ.

Definition worker_ok (w : Z) : Prop := 0 <= w < 2 ^ 10.
Definition ms_ok (ms : Z) : Prop := 0 <= ms < 2 ^ 41.

Lemma land_shiftl_low hi lo n :
  0 <= n -> 0 <= lo < 2 ^ n -> Z.land (Z.shiftl hi n) lo = 0.
Proof.
  intros Hn Hlo. apply Z.bits_inj'. intros i Hi. rewrite Z.land_spec, Z.bits_0.
  destruct (decide (i < n)) as [Hin|Hin].
  - by rewrite Z.shiftl_spec_low.
  - rewrite <- (Z.mod_small lo (2 ^ n)), Z.mod_pow2_bits_high by lia.
    apply andb_false_r.
Qed.

Lemma lor_low hi lo n :
  0 <= n -> 0 <= lo < 2 ^ n -> Z.lor (Z.shiftl hi n) lo = hi * 2 ^ n + lo.
Proof.
  intros Hn Hlo. pose proof (land_shiftl_low hi lo n Hn Hlo) as E.
  rewrite <- Z.lxor_lor, <- Z.add_nocarry_lxor by done.
  by rewrite Z.shiftl_mul_pow2.
Qed.

(** On the ranges of the layout nothing is lost: an id is the sum of its
    shifted fields. *)
Lemma snowflake_pack_eq ms w s :
  ms_ok ms -> worker_ok w -> 0 <= s <= MAX_SEQ ->
  snowflake_pack ms w s = ms * 2 ^ 22 + w * 2 ^ 12 + s.
Proof.
  unfold ms_ok, worker_ok. change MAX_SEQ with 4095. intros Hm Hw Hs.
  unfold snowflake_pack. change (WORKER_BITS + SEQ_BITS) with 22.
  change SEQ_BITS with 12. unfold uwrap.
  rewrite !Z.mod_small by (rewrite Z.shiftl_mul_pow2; lia).
  assert (Z.lor (Z.shiftl ms 22) (Z.shiftl w 12) = Z.shiftl (ms * 2 ^ 10 + w) 12) as ->.
  2: { rewrite lor_low by lia. rewrite to_i64_id; unfold in_i64; lia. }
  rewrite <- (lor_low ms w 10) by lia. by rewrite Z.shiftl_lor, Z.shiftl_shiftl by lia.
Qed.

Lemma snowflake_fields ms w s :
  ms_ok ms -> worker_ok w -> 0 <= s <= MAX_SEQ ->
  id_ms (snowflake_pack ms w s) = ms /\
  id_worker (snowflake_pack ms w s) = w /\
  id_seq (snowflake_pack ms w s) = s.
Proof.
  intros Hm Hw Hs. rewrite snowflake_pack_eq by done.
  unfold ms_ok, worker_ok in *. change MAX_SEQ with 4095 in *.
  unfold id_ms, id_worker, id_seq.
  change SNOWFLAKE_SHIFT with 22; change SEQ_BITS with 12.
  change WORKER_MASK with (Z.ones 10); change MAX_SEQ with (Z.ones 12).
  rewrite !Z.land_ones, !Z.shiftr_div_pow2 by lia.
  change (2 ^ 22) with 4194304 in *; change (2 ^ 12) with 4096 in *;
  change (2 ^ 10) with 1024 in *.
  repeat split; Z.div_mod_to_equations; lia.
Qed.

(** ** Sequential calls *)

(** The least id a later call can return: the sequence number is exhausted at
    [MAX_SEQ + 1]. *)
Definition next_floor (worker : Z) (sh : shared) : Z :=
  sh.(LAST_MS) * 2 ^ 22 + worker * 2 ^ 12 + Z.min sh.(SEQ) (MAX_SEQ + 1).

(** The atomics hold [n] more sequence numbers without overflow. *)
Definition shared_ok (n : Z) (sh : shared) : Prop :=
  ms_ok sh.(LAST_MS) /\ 0 <= sh.(SEQ) /\ sh.(SEQ) + n < 2 ^ 64.

Definition clock_ok (t : option Z) : Prop := ms_ok (elapsed_ms t).

Lemma pass_spec w t sh n :
  worker_ok w -> 0 < n -> shared_ok n sh -> clock_ok t ->
  match snowflake_pass w t sh with
  | (sh', PDone id) =>
      shared_ok (n - 1) sh' /\ next_floor w sh <= id < next_floor w sh'
      /\ sh.(LAST_MS) <= id_ms id /\ id_ms id = elapsed_ms t
  | (sh', _) => shared_ok (n - 1) sh' /\ next_floor w sh <= next_floor w sh'
  end.
Proof.
  intros Hw Hn (Hl & Hs & Hb) Ht. destruct sh as [q l]; cbn in Hl, Hs, Hb.
  unfold snowflake_pass. cbn -[snowflake_pack uwrap MAX_SEQ].
  set (m := elapsed_ms t) in *. red in Ht. fold m in Ht.
  unfold next_floor. cbn -[snowflake_pack uwrap MAX_SEQ Z.pow].
  destruct (l <? m) eqn:E1; [|destruct (m =? l) eqn:E2].
  - rewrite Z.eqb_refl. cbn -[snowflake_pack MAX_SEQ Z.pow].
    rewrite (proj1 (snowflake_fields m w 0 Ht Hw ltac:(by split))).
    rewrite snowflake_pack_eq by (try done; by split).
    change MAX_SEQ with 4095. apply Z.ltb_lt in E1.
    unfold shared_ok; cbn -[Z.pow]. unfold ms_ok in *.
    change (2 ^ 22) with 4194304 in *; change (2 ^ 12) with 4096 in *. lia.
  - apply Z.eqb_eq in E2 as ->. apply Z.ltb_ge in E1.
    unfold uwrap. rewrite Z.mod_small by lia.
    destruct (MAX_SEQ <? q) eqn:E3; cbn -[snowflake_pack MAX_SEQ Z.pow];
      unfold shared_ok; cbn -[Z.pow]; unfold ms_ok in *.
    + apply Z.ltb_lt in E3. change MAX_SEQ with 4095 in *. lia.
    + apply Z.ltb_ge in E3.
      rewrite (proj1 (snowflake_fields l w q Hl Hw ltac:(lia))).
      rewrite snowflake_pack_eq by (done || lia).
      change MAX_SEQ with 4095 in *. lia.
  - cbn. unfold shared_ok; cbn. unfold ms_ok in *. lia.
Qed.

Lemma snowflake_id_spec w ts sh n id sh' :
  worker_ok w -> shared_ok (n + Z.of_nat (length ts)) sh -> 0 <= n ->
  Forall clock_ok ts -> snowflake_id w ts sh = Some (id, sh') ->
  shared_ok n sh' /\ next_floor w sh <= id < next_floor w sh'.
Proof.
  intros Hw. revert sh. induction ts as [|t ts IH]; intros sh Hsh Hn Hts Hid;
    [done|].
  cbn [snowflake_id] in Hid. inversion Hts as [|? ? Ht Hts']; subst.
  pose proof (pass_spec w t sh (n + Z.of_nat (length (t :: ts))) Hw
                ltac:(cbn; lia) Hsh Ht) as P.
  cbn [length] in P.
  assert (forall s, shared_ok (n + Z.of_nat (S (length ts)) - 1) s ->
                    shared_ok (n + Z.of_nat (length ts)) s) as Hle
    by (unfold shared_ok, ms_ok; intros; lia).
  assert (forall s, shared_ok (n + Z.of_nat (S (length ts)) - 1) s -> shared_ok n s)
    as Hle' by (unfold shared_ok, ms_ok; intros; lia).
  destruct (snowflake_pass w t sh) as [sh1 [| | | |id1]];
    try (destruct P as [P1 P2]; destruct (IH sh1) as [? ?]; auto; split; [done|lia]).
  injection Hid as -> ->. destruct P as (P1 & P2 & _). auto.
Qed.

Definition readings (tss : list (list (option Z))) : Z :=
  Zsum ((fun ts => Z.of_nat (length ts)) <$> tss).

Lemma readings_cons ts tss : readings (ts :: tss) = Z.of_nat (length ts) + readings tss.
Proof. reflexivity. Qed.
Lemma readings_nonneg tss : 0 <= readings tss.
Proof. apply Zsum_nonneg, Forall_fmap, Forall_true. intros; cbn; lia. Qed.

Lemma snowflake_ids_spec w tss sh ids sh' :
  worker_ok w -> shared_ok (readings tss) sh -> Forall (Forall clock_ok) tss ->
  snowflake_ids w tss sh = Some (ids, sh') ->
  Forall (fun id => next_floor w sh <= id < next_floor w sh') ids /\
  next_floor w sh <= next_floor w sh' /\ StronglySorted Z.lt ids.
Proof.
  intros Hw. revert sh ids sh'.
  induction tss as [|ts tss IH]; intros sh ids sh' Hsh Hts Hids.
  { cbn in Hids. simplify_eq. split_and!; [done|lia|constructor]. }
  cbn [snowflake_ids] in Hids. inversion Hts as [|? ? Ht Hts']; subst.
  destruct (snowflake_id w ts sh) as [[id sh1]|] eqn:E1; [|done].
  cbn in Hids. destruct (snowflake_ids w tss sh1) as [[ids1 sh2]|] eqn:E2; [|done].
  cbn in Hids. simplify_eq.
  assert (shared_ok (readings tss + Z.of_nat (length ts)) sh) as Hsh'.
  { rewrite readings_cons, Z.add_comm in Hsh. exact Hsh. }
  destruct (snowflake_id_spec w ts sh (readings tss) id sh1 Hw Hsh'
              (readings_nonneg tss) Ht E1) as (Hok & Hid).
  destruct (IH sh1 ids1 sh' Hok Hts' E2) as (Hall & Hle & Hsort).
  split_and!; [|lia|].
  - constructor; [lia|]. eapply Forall_impl; [|exact Hall]. intros ? ?; cbv beta in *; lia.
  - constructor; [done|]. eapply Forall_impl; [|exact Hall]. intros ? ?; cbv beta in *; lia.
Qed.

Lemma pass_retry w t sh :
  match snowflake_pass w t sh with
  | (_, PDone _) => True
  | (sh', _) => LAST_MS sh' = LAST_MS sh /\ elapsed_ms t <= LAST_MS sh
  end.
Proof.
  unfold snowflake_pass. cbn -[snowflake_pack uwrap MAX_SEQ].
  destruct (LAST_MS sh <? elapsed_ms t) eqn:E1; [|destruct (elapsed_ms t =? LAST_MS sh)].
  - by rewrite Z.eqb_refl.
  - apply Z.ltb_ge in E1. cbn. destruct (MAX_SEQ <? SEQ sh); cbn; [by split|done].
  - apply Z.ltb_ge in E1. by split.
Qed.

Lemma lor_ones_range x n : 0 <= x -> 0 <= n ->
  Z.lor (Z.shiftl x n) (Z.shiftl 1 n - 1) = x * 2 ^ n + (2 ^ n - 1).
Proof.
  intros Hx Hn. assert (0 < 2 ^ n) by (apply Z.pow_pos_nonneg; lia).
  rewrite lor_low; rewrite ?Z.shiftl_mul_pow2 by lia; lia.
Qed.

Lemma snowflake_bounds_eq m :
  ms_ok m ->
  snowflake_min_at_ms (SNOWFLAKE_EPOCH_MS + m) = m * 2 ^ 22 /\
  snowflake_max_at_ms (SNOWFLAKE_EPOCH_MS + m) = m * 2 ^ 22 + (2 ^ 22 - 1).
Proof.
  unfold ms_ok. intros Hm.
  assert (snowflake_min_at_ms (SNOWFLAKE_EPOCH_MS + m) = m * 2 ^ 22) as E.
  { unfold snowflake_min_at_ms, i64_saturating_sub.
    change SNOWFLAKE_SHIFT with 22.
    replace (SNOWFLAKE_EPOCH_MS + m - SNOWFLAKE_EPOCH_MS) with m by lia.
    replace (Z.max (Z.max _ _) 0) with m by lia. rewrite Z.shiftl_mul_pow2 by lia.
    apply to_i64_id. unfold in_i64. lia. }
  split; [done|]. unfold snowflake_max_at_ms. rewrite E.
  change SNOWFLAKE_SHIFT with 22. rewrite <- lor_ones_range by lia.
  f_equal. rewrite Z.shiftl_mul_pow2 by lia. done.
Qed.

(** ** Properties *)

(** C29. Ids taken one after the other in one process are strictly
    increasing, whatever the clock shows: it may stand still or go backwards. *)
Theorem snowflake_ids_increasing w tss sh ids sh' :
  worker_ok w -> shared_ok (readings tss) sh -> Forall (Forall clock_ok) tss ->
  snowflake_ids w tss sh = Some (ids, sh') ->
  StronglySorted Z.lt ids.
Proof. intros. by eapply snowflake_ids_spec. Qed.

Lemma snowflake_ids_increasing_witness :
  let tss := [[Some (SNOWFLAKE_EPOCH_MS + 5)]; [Some (SNOWFLAKE_EPOCH_MS + 5)];
              [Some (SNOWFLAKE_EPOCH_MS + 4); Some (SNOWFLAKE_EPOCH_MS + 6)]] in
  snowflake_ids 3 tss shared_init =
    Some ([20983808; 20983809; 25178112], {| SEQ := 1; LAST_MS := 6 |}) /\
  StronglySorted Z.lt [20983808; 20983809; 25178112].
Proof.
  split; [by vm_compute|].
  refine (snowflake_ids_increasing 3
    [[Some (SNOWFLAKE_EPOCH_MS + 5)]; [Some (SNOWFLAKE_EPOCH_MS + 5)];
     [Some (SNOWFLAKE_EPOCH_MS + 4); Some (SNOWFLAKE_EPOCH_MS + 6)]]
    shared_init _ {| SEQ := 1; LAST_MS := 6 |} _ _ _ _).
  - split; by vm_compute.
  - repeat split; by vm_compute.
  - repeat constructor; by vm_compute.
  - by vm_compute.
Defined.

(** A call returns an id as soon as one of the clock readings it takes
    lies after the last millisecond an id was given for. *)
Theorem snowflake_id_returns w ts sh :
  Exists (fun t => LAST_MS sh < elapsed_ms t) ts ->
  exists id sh', snowflake_id w ts sh = Some (id, sh').
Proof.
  revert sh. induction ts as [|t ts IH]; intros sh Hex; [by inversion Hex|].
  cbn [snowflake_id]. pose proof (pass_retry w t sh) as P.
  destruct (snowflake_pass w t sh) as [sh1 [| | | |id1]]; eauto;
    destruct P as [E P]; apply IH; rewrite E;
    inversion Hex; subst; auto; lia.
Qed.

(** The millisecond, the worker and the sequence number can be read back from
    an id, which is a non-negative 63-bit number. *)
Theorem snowflake_pack_roundtrip ms w s :
  ms_ok ms -> worker_ok w -> 0 <= s <= MAX_SEQ ->
  let id := snowflake_pack ms w s in
  id_ms id = ms /\ id_worker id = w /\ id_seq id = s /\ 0 <= id < 2 ^ 63.
Proof.
  intros Hm Hw Hs id. destruct (snowflake_fields ms w s Hm Hw Hs) as (?&?&?).
  split_and!; [done..| |]; unfold id; rewrite snowflake_pack_eq by done;
    unfold ms_ok, worker_ok in *; change MAX_SEQ with 4095 in *; lia.
Qed.

(** The smallest and the largest id of a time bound exactly the ids given from
    that time on and up to it. *)
Theorem snowflake_day_range ms ms' w s :
  ms_ok ms -> ms_ok ms' -> worker_ok w -> 0 <= s <= MAX_SEQ ->
  (snowflake_min_at_ms (SNOWFLAKE_EPOCH_MS + ms') <= snowflake_pack ms w s
    <-> ms' <= ms) /\
  (snowflake_pack ms w s <= snowflake_max_at_ms (SNOWFLAKE_EPOCH_MS + ms')
    <-> ms <= ms').
Proof.
  intros Hm Hm' Hw Hs. destruct (snowflake_bounds_eq ms' Hm') as [-> ->].
  rewrite snowflake_pack_eq by done.
  unfold ms_ok, worker_ok in *. change MAX_SEQ with 4095 in *.
  change (2 ^ 22) with 4194304; change (2 ^ 12) with 4096;
  change (2 ^ 10) with 1024 in *. lia.
Qed.

(** Two threads can be given the same id: once when the second takes
    its sequence number between the exchange of the first and its store, and once,
    with four threads, after the last millisecond has moved on. *)
Theorem snowflake_concurrent_duplicates :
  (exists schedule id,
    (run_schedule 1 schedule (shared_init, [PStart; PStart])).2 = [PDone id; PDone id]) /\
  (exists schedule id0 id1 id3,
    (run_schedule 1 schedule (shared_init, [PStart; PStart; PStart; PStart])).2
      = [PDone id0; PDone id1; PDone id1; PDone id3]).
Proof.
  pose (at_ms := fun m : Z => Some (SNOWFLAKE_EPOCH_MS + m)).
  split.
  - (* thread 1 takes a sequence number between the exchange and the store *)
    exists [(0%nat, at_ms 5); (0%nat, None); (0%nat, None);
            (1%nat, at_ms 5); (1%nat, None); (1%nat, None); (0%nat, None)].
    exists (snowflake_pack 5 1 0). vm_compute. reflexivity.
  - (* thread 2 takes a sequence number after [LAST_MS] has moved on *)
    exists [(0%nat, at_ms 5); (0%nat, None); (0%nat, None); (0%nat, None);
            (1%nat, at_ms 5); (1%nat, None); (1%nat, None);
            (2%nat, at_ms 5); (2%nat, None);
            (3%nat, at_ms 6); (3%nat, None); (3%nat, None); (3%nat, None);
            (2%nat, None)].
    exists (snowflake_pack 5 1 0), (snowflake_pack 5 1 1), (snowflake_pack 6 1 0).
    vm_compute. reflexivity.
Qed.

(** A worker number fits its ten bits, and one derived from a host name is at
    least one. *)
Theorem worker_id_range e :
  worker_ok (worker_id e) /\
  (C35_WORKER_ID e ≫= parse_u64 = None -> 1 <= worker_id e).
Proof.
  assert (forall x, worker_ok (Z.land x WORKER_MASK)) as Hland.
  { intros x. change WORKER_MASK with (Z.ones 10). rewrite Z.land_ones by lia.
    apply Z.mod_pos_bound. lia. }
  assert (forall o, worker_ok (worker_id_from_origin o) /\ 1 <= worker_id_from_origin o)
    as Horigin.
  { intros o. unfold worker_id_from_origin. set (h := foldl _ _ _).
    pose proof (Hland h). destruct (Z.land h WORKER_MASK =? 0) eqn:E.
    - split; [by vm_compute|lia].
    - apply Z.eqb_neq in E. unfold worker_ok in *. lia. }
  unfold worker_id. destruct (C35_WORKER_ID e ≫= parse_u64); split.
  - apply Hland.
  - intros [=].
  - apply Horigin.
  - intros _. apply Horigin.
Qed.
