(* ===== verification/Ts.v ===== *)
(** * Time stamps ([servers/crates/mod_tx/src/ts.rs])

    [chrono] is a library: its [DateTime<Utc>] and the operations the commerce
    crate uses are an interface, with the documented laws apart. *)
From S2P Require Import Prelude.

Class Chrono := {
  DateTime : Type;
  (** [DateTime::from_timestamp_millis]: none when out of range *)
  from_timestamp_millis : Z -> option DateTime;
  timestamp_millis : DateTime -> Z;
  timestamp_micros : DateTime -> Z;
  (** [<] of [DateTime<Utc>] *)
  dt_ltb : DateTime -> DateTime -> bool;
}.

Class ChronoLaws `{!Chrono} := {
  timestamp_millis_from ms d :
    from_timestamp_millis ms = Some d -> timestamp_millis d = ms;
  dt_ltb_millis a b da db :
    from_timestamp_millis a = Some da -> from_timestamp_millis b = Some db ->
    dt_ltb da db = (a <? b);
}.

(** Milliseconds within the years chrono represents. *)
#[export] Instance chrono_millis : Chrono := {|
  DateTime := Z;
  from_timestamp_millis ms :=
    if (-8334601228800000 <=? ms) && (ms <=? 8210266876799999) then Some ms else None;
  timestamp_millis d := d;
  timestamp_micros d := d * 1000;
  dt_ltb := Z.ltb;
|}.
#[export] Instance chrono_millis_laws : ChronoLaws.
Proof.
  split; cbn.
  - intros ms d. case_match; naive_solver.
  - intros a b da db. repeat case_match; naive_solver.
Qed.

Section Ts.
Context `{!Chrono}.

Definition ts_ms (t : option DateTime) : Z :=
  match t with Some x => timestamp_millis x | None => 0 end.

Definition ts_from_ms (ms : Z) : option DateTime :=
  if ms <=? 0 then None else from_timestamp_millis ms.

(** A stamp that is stored and read back is unchanged unless it is not positive
    or out of range, which read back as zero. *)
Lemma ts_ms_from_ms `{!ChronoLaws} ms :
  ts_ms (ts_from_ms ms) =
    if decide (is_Some (ts_from_ms ms)) then ms else 0.
Proof.
  unfold ts_from_ms. destruct (ms <=? 0).
  - rewrite decide_False; [done|]. by intros [? ?].
  - destruct (from_timestamp_millis ms) eqn:E; cbn.
    + rewrite decide_True by eauto. by apply timestamp_millis_from.
    + rewrite decide_False; [done|]. by intros [? ?].
Qed.

End Ts.
