(* ===== verification/TxProto.v ===== *)
(** * Transaction messages ([_/schemas/proto/c35/tx.proto])

    The wire and in-memory data of the commerce crate: the enums and messages
    the protobuf compiler turns into Rust types.  An enum field of a message is
    the [i32] of its value, as in the generated code; [*_to_i32] is
    [i32::from], [*_try_from] is [TryFrom<i32>]; [*_default] is
    [Default::default()]. *)
From S2P Require Import Prelude.

(** The conversions every generated enum has. *)
Class ProtoEnum (E : Type) := {
  enum_to_i32 : E -> Z;
  enum_try_from : Z -> option E;
  enum_default : E;
  enum_from_to : forall v, enum_try_from (enum_to_i32 v) = Some v;
  enum_to_from : forall n v, enum_try_from n = Some v -> enum_to_i32 v = n;
  enum_default_0 : enum_to_i32 enum_default = 0;
}.

(** [E::try_from(n).unwrap_or(d)] *)
Definition try_from_or {E} `{ProtoEnum E} (d : E) (n : Z) : E := default d (enum_try_from n).

Lemma try_from_or_to {E} `{ProtoEnum E} d (v : E) : try_from_or d (enum_to_i32 v) = v.
Proof. unfold try_from_or. by rewrite enum_from_to. Qed.

Ltac solve_try_from :=
  intros n v; unfold id; repeat (case_match; [intros [= <-]; cbn; lia|]); intros [=].

Module TxInputSource.
Inductive TxInputSource := Unspecified | Manual | Web | Ai | Api.
End TxInputSource.
Notation TxInputSource := TxInputSource.TxInputSource.
#[global] Instance TxInputSource_eq_dec : EqDecision TxInputSource.
Proof. solve_decision. Defined.
Definition TxInputSource_to_i32 (v : TxInputSource) : Z :=
  match v with TxInputSource.Unspecified => 0 | TxInputSource.Manual => 1 |
    TxInputSource.Web => 2 | TxInputSource.Ai => 3 | TxInputSource.Api => 4 end.
Definition TxInputSource_try_from (n : Z) : option TxInputSource :=
  if n =? 0 then Some TxInputSource.Unspecified else
  if n =? 1 then Some TxInputSource.Manual else
  if n =? 2 then Some TxInputSource.Web else
  if n =? 3 then Some TxInputSource.Ai else
  if n =? 4 then Some TxInputSource.Api else None.

Module TxType.
Inductive TxType := Unspecified | Sale | Purchase | Transfer | Adjustment | ReturnSale
    | ReturnPurchase | Reservation | Ship | Payment | Receipt | DebtPayable |
    DebtReceivable | Inventory.
End TxType.
Notation TxType := TxType.TxType.
#[global] Instance TxType_eq_dec : EqDecision TxType.
Proof. solve_decision. Defined.
Definition TxType_to_i32 (v : TxType) : Z :=
  match v with TxType.Unspecified => 0 | TxType.Sale => 1 | TxType.Purchase => 2 |
    TxType.Transfer => 3 | TxType.Adjustment => 4 | TxType.ReturnSale => 5 |
    TxType.ReturnPurchase => 6 | TxType.Reservation => 7 | TxType.Ship => 8 |
    TxType.Payment => 9 | TxType.Receipt => 10 | TxType.DebtPayable => 11 |
    TxType.DebtReceivable => 12 | TxType.Inventory => 13 end.
Definition TxType_try_from (n : Z) : option TxType :=
  if n =? 0 then Some TxType.Unspecified else
  if n =? 1 then Some TxType.Sale else
  if n =? 2 then Some TxType.Purchase else
  if n =? 3 then Some TxType.Transfer else
  if n =? 4 then Some TxType.Adjustment else
  if n =? 5 then Some TxType.ReturnSale else
  if n =? 6 then Some TxType.ReturnPurchase else
  if n =? 7 then Some TxType.Reservation else
  if n =? 8 then Some TxType.Ship else
  if n =? 9 then Some TxType.Payment else
  if n =? 10 then Some TxType.Receipt else
  if n =? 11 then Some TxType.DebtPayable else
  if n =? 12 then Some TxType.DebtReceivable else
  if n =? 13 then Some TxType.Inventory else None.

Module TxState.
Inductive TxState := Ok | Draft | Pending | WaitingPayment | Cancelled.
End TxState.
Notation TxState := TxState.TxState.
#[global] Instance TxState_eq_dec : EqDecision TxState.
Proof. solve_decision. Defined.
Definition TxState_to_i32 (v : TxState) : Z :=
  match v with TxState.Ok => 0 | TxState.Draft => 1 | TxState.Pending => 2 |
    TxState.WaitingPayment => 3 | TxState.Cancelled => 99 end.
Definition TxState_try_from (n : Z) : option TxState :=
  if n =? 0 then Some TxState.Ok else
  if n =? 1 then Some TxState.Draft else
  if n =? 2 then Some TxState.Pending else
  if n =? 3 then Some TxState.WaitingPayment else
  if n =? 99 then Some TxState.Cancelled else None.

Module TxInputMode.
Inductive TxInputMode := Normal | Accounting | Sell | Purchase.
End TxInputMode.
Notation TxInputMode := TxInputMode.TxInputMode.
#[global] Instance TxInputMode_eq_dec : EqDecision TxInputMode.
Proof. solve_decision. Defined.
Definition TxInputMode_to_i32 (v : TxInputMode) : Z :=
  match v with TxInputMode.Normal => 0 | TxInputMode.Accounting => 1 |
    TxInputMode.Sell => 2 | TxInputMode.Purchase => 3 end.
Definition TxInputMode_try_from (n : Z) : option TxInputMode :=
  if n =? 0 then Some TxInputMode.Normal else
  if n =? 1 then Some TxInputMode.Accounting else
  if n =? 2 then Some TxInputMode.Sell else
  if n =? 3 then Some TxInputMode.Purchase else None.

Module TxPaymentMethod.
Inductive TxPaymentMethod := Unspecified | Cash | Card | Transfer | Qris | Debt | Wallet.
End TxPaymentMethod.
Notation TxPaymentMethod := TxPaymentMethod.TxPaymentMethod.
#[global] Instance TxPaymentMethod_eq_dec : EqDecision TxPaymentMethod.
Proof. solve_decision. Defined.
Definition TxPaymentMethod_to_i32 (v : TxPaymentMethod) : Z :=
  match v with TxPaymentMethod.Unspecified => 0 | TxPaymentMethod.Cash => 1 |
    TxPaymentMethod.Card => 2 | TxPaymentMethod.Transfer => 3 | TxPaymentMethod.Qris => 4
    | TxPaymentMethod.Debt => 5 | TxPaymentMethod.Wallet => 6 end.
Definition TxPaymentMethod_try_from (n : Z) : option TxPaymentMethod :=
  if n =? 0 then Some TxPaymentMethod.Unspecified else
  if n =? 1 then Some TxPaymentMethod.Cash else
  if n =? 2 then Some TxPaymentMethod.Card else
  if n =? 3 then Some TxPaymentMethod.Transfer else
  if n =? 4 then Some TxPaymentMethod.Qris else
  if n =? 5 then Some TxPaymentMethod.Debt else
  if n =? 6 then Some TxPaymentMethod.Wallet else None.

Module TxDebtPaymentMethod.
Inductive TxDebtPaymentMethod := Unspecified | Cash | Card | Transfer | Qris | Wallet.
End TxDebtPaymentMethod.
Notation TxDebtPaymentMethod := TxDebtPaymentMethod.TxDebtPaymentMethod.
#[global] Instance TxDebtPaymentMethod_eq_dec : EqDecision TxDebtPaymentMethod.
Proof. solve_decision. Defined.
Definition TxDebtPaymentMethod_to_i32 (v : TxDebtPaymentMethod) : Z :=
  match v with TxDebtPaymentMethod.Unspecified => 0 | TxDebtPaymentMethod.Cash => 1 |
    TxDebtPaymentMethod.Card => 2 | TxDebtPaymentMethod.Transfer => 3 |
    TxDebtPaymentMethod.Qris => 4 | TxDebtPaymentMethod.Wallet => 5 end.
Definition TxDebtPaymentMethod_try_from (n : Z) : option TxDebtPaymentMethod :=
  if n =? 0 then Some TxDebtPaymentMethod.Unspecified else
  if n =? 1 then Some TxDebtPaymentMethod.Cash else
  if n =? 2 then Some TxDebtPaymentMethod.Card else
  if n =? 3 then Some TxDebtPaymentMethod.Transfer else
  if n =? 4 then Some TxDebtPaymentMethod.Qris else
  if n =? 5 then Some TxDebtPaymentMethod.Wallet else None.

Module TxAccSide.
Inductive TxAccSide := Unspecified | Debit | Credit.
End TxAccSide.
Notation TxAccSide := TxAccSide.TxAccSide.
#[global] Instance TxAccSide_eq_dec : EqDecision TxAccSide.
Proof. solve_decision. Defined.
Definition TxAccSide_to_i32 (v : TxAccSide) : Z :=
  match v with TxAccSide.Unspecified => 0 | TxAccSide.Debit => 1 | TxAccSide.Credit =>
    2 end.
Definition TxAccSide_try_from (n : Z) : option TxAccSide :=
  if n =? 0 then Some TxAccSide.Unspecified else
  if n =? 1 then Some TxAccSide.Debit else
  if n =? 2 then Some TxAccSide.Credit else None.

Module TxItemFulfillmentState.
Inductive TxItemFulfillmentState := TxItemFulfillmentUnspecified |
    TxItemFulfillmentPending | TxItemFulfillmentInProgress | TxItemFulfillmentDone.
End TxItemFulfillmentState.
Notation TxItemFulfillmentState := TxItemFulfillmentState.TxItemFulfillmentState.
#[global] Instance TxItemFulfillmentState_eq_dec : EqDecision TxItemFulfillmentState.
Proof. solve_decision. Defined.
Definition TxItemFulfillmentState_to_i32 (v : TxItemFulfillmentState) : Z :=
  match v with TxItemFulfillmentState.TxItemFulfillmentUnspecified => 0 |
    TxItemFulfillmentState.TxItemFulfillmentPending => 1 |
    TxItemFulfillmentState.TxItemFulfillmentInProgress => 2 |
    TxItemFulfillmentState.TxItemFulfillmentDone => 3 end.
Definition TxItemFulfillmentState_try_from (n : Z) : option TxItemFulfillmentState :=
  if n =? 0 then Some TxItemFulfillmentState.TxItemFulfillmentUnspecified else
  if n =? 1 then Some TxItemFulfillmentState.TxItemFulfillmentPending else
  if n =? 2 then Some TxItemFulfillmentState.TxItemFulfillmentInProgress else
  if n =? 3 then Some TxItemFulfillmentState.TxItemFulfillmentDone else None.

Module TxOrderPayAt.
Inductive TxOrderPayAt := Unspecified | Cashier | Table.
End TxOrderPayAt.
Notation TxOrderPayAt := TxOrderPayAt.TxOrderPayAt.
#[global] Instance TxOrderPayAt_eq_dec : EqDecision TxOrderPayAt.
Proof. solve_decision. Defined.
Definition TxOrderPayAt_to_i32 (v : TxOrderPayAt) : Z :=
  match v with TxOrderPayAt.Unspecified => 0 | TxOrderPayAt.Cashier => 1 |
    TxOrderPayAt.Table => 2 end.
Definition TxOrderPayAt_try_from (n : Z) : option TxOrderPayAt :=
  if n =? 0 then Some TxOrderPayAt.Unspecified else
  if n =? 1 then Some TxOrderPayAt.Cashier else
  if n =? 2 then Some TxOrderPayAt.Table else None.

Module TxPromo.
#[projections(primitive)]
Record TxPromo := mk {
  promo_id : string;
  code : string;
  name : string;
  amount : Z;
}.
End TxPromo.
Notation TxPromo := TxPromo.TxPromo.
Definition TxPromo_default : TxPromo :=
  {| TxPromo.promo_id := ""; TxPromo.code := ""; TxPromo.name := "";
     TxPromo.amount := 0 |}.

Module TxDeliveryTo.
#[projections(primitive)]
Record TxDeliveryTo := mk {
  name : string;
  phone : string;
  address : string;
  email : string;
}.
End TxDeliveryTo.
Notation TxDeliveryTo := TxDeliveryTo.TxDeliveryTo.
Definition TxDeliveryTo_default : TxDeliveryTo :=
  {| TxDeliveryTo.name := ""; TxDeliveryTo.phone := ""; TxDeliveryTo.address :=
     ""; TxDeliveryTo.email := "" |}.

Module TxDeliveryService.
#[projections(primitive)]
Record TxDeliveryService := mk {
  name : string;
  tracking_number : string;
  tracking_url : string;
  note : string;
}.
End TxDeliveryService.
Notation TxDeliveryService := TxDeliveryService.TxDeliveryService.
Definition TxDeliveryService_default : TxDeliveryService :=
  {| TxDeliveryService.name := ""; TxDeliveryService.tracking_number := "";
     TxDeliveryService.tracking_url := ""; TxDeliveryService.note := "" |}.

Module TxDelivery.
#[projections(primitive)]
Record TxDelivery := mk {
  obj_id : Z;
  contact_id : Z;
  user_iid : Z;
  to : option TxDeliveryTo;
  service : option TxDeliveryService;
  state : string;
}.
End TxDelivery.
Notation TxDelivery := TxDelivery.TxDelivery.
Definition TxDelivery_default : TxDelivery :=
  {| TxDelivery.obj_id := 0; TxDelivery.contact_id := 0; TxDelivery.user_iid :=
     0; TxDelivery.to := None; TxDelivery.service := None; TxDelivery.state := "" |}.

Module TxPrompt.
#[projections(primitive)]
Record TxPrompt := mk {
  pics : list string;
  desc : string;
}.
End TxPrompt.
Notation TxPrompt := TxPrompt.TxPrompt.
Definition TxPrompt_default : TxPrompt :=
  {| TxPrompt.pics := []; TxPrompt.desc := "" |}.

Module TxData.
#[projections(primitive)]
Record TxData := mk {
  proofs : list string;
  prompt : option TxPrompt;
  delivery : option TxDelivery;
  promos : list TxPromo;
}.
End TxData.
Notation TxData := TxData.TxData.
Definition TxData_default : TxData :=
  {| TxData.proofs := []; TxData.prompt := None; TxData.delivery := None;
     TxData.promos := [] |}.

Module TxItemReservation.
#[projections(primitive)]
Record TxItemReservation := mk {
  res_id : Z;
  product_id : Z;
  qty : Z;
  duration_qty : Z;
  note : string;
  site_object_id : Z;
  start_ts_ms : Z;
  end_ts_ms : Z;
  state : string;
  is_no_show : bool;
  is_unavailable : bool;
}.
End TxItemReservation.
Notation TxItemReservation := TxItemReservation.TxItemReservation.
Definition TxItemReservation_default : TxItemReservation :=
  {| TxItemReservation.res_id := 0; TxItemReservation.product_id := 0;
     TxItemReservation.qty := 0; TxItemReservation.duration_qty := 0;
     TxItemReservation.note := ""; TxItemReservation.site_object_id := 0;
     TxItemReservation.start_ts_ms := 0; TxItemReservation.end_ts_ms := 0;
     TxItemReservation.state := ""; TxItemReservation.is_no_show := false;
     TxItemReservation.is_unavailable := false |}.

Module TxItemSource.
#[projections(primitive)]
Record TxItemSource := mk {
  src_id : Z;
  obj_id : Z;
  product_id : Z;
  qty : Z;
  note : string;
}.
End TxItemSource.
Notation TxItemSource := TxItemSource.TxItemSource.
Definition TxItemSource_default : TxItemSource :=
  {| TxItemSource.src_id := 0; TxItemSource.obj_id := 0; TxItemSource.product_id
     := 0; TxItemSource.qty := 0; TxItemSource.note := "" |}.

Module TxItem.
#[projections(primitive)]
Record TxItem := mk {
  site_iid : Z;
  tx_id : Z;
  item_id : Z;
  owner_iid : Z;
  product_id : Z;
  product_rev : Z;
  obj_id : Z;
  price : Z;
  qty : Z;
  note : string;
  batch_number : string;
  serial_number : string;
  fulfillment_state : Z;
  total_qty : Z;
  total_price : Z;
  total_discount : Z;
  total_tax : Z;
  total_net : Z;
  total_paid : Z;
  total_unpaid : Z;
  reservations : list TxItemReservation;
  sources : list TxItemSource;
}.
End TxItem.
Notation TxItem := TxItem.TxItem.
Definition TxItem_default : TxItem :=
  {| TxItem.site_iid := 0; TxItem.tx_id := 0; TxItem.item_id := 0;
     TxItem.owner_iid := 0; TxItem.product_id := 0; TxItem.product_rev := 0;
     TxItem.obj_id := 0; TxItem.price := 0; TxItem.qty := 0; TxItem.note := "";
     TxItem.batch_number := ""; TxItem.serial_number := "";
     TxItem.fulfillment_state := 0; TxItem.total_qty := 0; TxItem.total_price :=
     0; TxItem.total_discount := 0; TxItem.total_tax := 0; TxItem.total_net := 0;
     TxItem.total_paid := 0; TxItem.total_unpaid := 0; TxItem.reservations := [];
     TxItem.sources := [] |}.

Module TxDebtPayment.
#[projections(primitive)]
Record TxDebtPayment := mk {
  pay_id : Z;
  ts_ms : Z;
  method : Z;
  amount : Z;
  note : string;
  overdue_interest : Z;
  payment_json : string;
}.
End TxDebtPayment.
Notation TxDebtPayment := TxDebtPayment.TxDebtPayment.
Definition TxDebtPayment_default : TxDebtPayment :=
  {| TxDebtPayment.pay_id := 0; TxDebtPayment.ts_ms := 0; TxDebtPayment.method :=
     0; TxDebtPayment.amount := 0; TxDebtPayment.note := "";
     TxDebtPayment.overdue_interest := 0; TxDebtPayment.payment_json := "" |}.

Module TxInstallment.
#[projections(primitive)]
Record TxInstallment := mk {
  inst_id : Z;
  due_ts_ms : Z;
  amount : Z;
  note : string;
  is_paid : bool;
  is_overdue : bool;
  debt_payments : list TxDebtPayment;
}.
End TxInstallment.
Notation TxInstallment := TxInstallment.TxInstallment.
Definition TxInstallment_default : TxInstallment :=
  {| TxInstallment.inst_id := 0; TxInstallment.due_ts_ms := 0;
     TxInstallment.amount := 0; TxInstallment.note := ""; TxInstallment.is_paid
     := false; TxInstallment.is_overdue := false; TxInstallment.debt_payments :=
     [] |}.

Module TxPayment.
#[projections(primitive)]
Record TxPayment := mk {
  payment_id : Z;
  method : Z;
  ts_ms : Z;
  amount : Z;
  note : string;
  from_wallet : string;
  to_wallet : string;
  debt_interest : Z;
  payment_json : string;
  installments : list TxInstallment;
}.
End TxPayment.
Notation TxPayment := TxPayment.TxPayment.
Definition TxPayment_default : TxPayment :=
  {| TxPayment.payment_id := 0; TxPayment.method := 0; TxPayment.ts_ms := 0;
     TxPayment.amount := 0; TxPayment.note := ""; TxPayment.from_wallet := "";
     TxPayment.to_wallet := ""; TxPayment.debt_interest := 0;
     TxPayment.payment_json := ""; TxPayment.installments := [] |}.

Module TxAcc.
#[projections(primitive)]
Record TxAcc := mk {
  acc_id : Z;
  acc_code : string;
  ts_ms : Z;
  side : Z;
  amount : Z;
  note : string;
  is_tx_generated : bool;
}.
End TxAcc.
Notation TxAcc := TxAcc.TxAcc.
Definition TxAcc_default : TxAcc :=
  {| TxAcc.acc_id := 0; TxAcc.acc_code := ""; TxAcc.ts_ms := 0; TxAcc.side := 0;
     TxAcc.amount := 0; TxAcc.note := ""; TxAcc.is_tx_generated := false |}.

Module TxStock.
#[projections(primitive)]
Record TxStock := mk {
  stock_id : Z;
  product_id : Z;
  ts_ms : Z;
  obj_from_id : Z;
  obj_to_id : Z;
  qty : Z;
  qty_signed : Z;
  direction : string;
  note : string;
}.
End TxStock.
Notation TxStock := TxStock.TxStock.
Definition TxStock_default : TxStock :=
  {| TxStock.stock_id := 0; TxStock.product_id := 0; TxStock.ts_ms := 0;
     TxStock.obj_from_id := 0; TxStock.obj_to_id := 0; TxStock.qty := 0;
     TxStock.qty_signed := 0; TxStock.direction := ""; TxStock.note := "" |}.

Module TxTax.
#[projections(primitive)]
Record TxTax := mk {
  tax_id : Z;
  tax_type : string;
  amount : Z;
  note : string;
}.
End TxTax.
Notation TxTax := TxTax.TxTax.
Definition TxTax_default : TxTax :=
  {| TxTax.tax_id := 0; TxTax.tax_type := ""; TxTax.amount := 0; TxTax.note := "" |}.

Module TxDiscount.
#[projections(primitive)]
Record TxDiscount := mk {
  discount_id : Z;
  discount_type : string;
  amount : Z;
  note : string;
}.
End TxDiscount.
Notation TxDiscount := TxDiscount.TxDiscount.
Definition TxDiscount_default : TxDiscount :=
  {| TxDiscount.discount_id := 0; TxDiscount.discount_type := "";
     TxDiscount.amount := 0; TxDiscount.note := "" |}.

Module Tx.
#[projections(primitive)]
Record Tx := mk {
  site_iid : Z;
  tx_id : Z;
  type : Z;
  state : Z;
  input_mode : Z;
  input_source : Z;
  is_archived : bool;
  desc : string;
  time_ts_ms : Z;
  created_by_iid : Z;
  cancel_reason : string;
  subject_contact_id : Z;
  subject_name : string;
  subject_phone : string;
  subject_address : string;
  cashier_name : string;
  store_id : Z;
  store_tgt_id : Z;
  delivery_state : string;
  obj_id : Z;
  promo_code : string;
  is_paid : bool;
  is_task_assigned : bool;
  order_pay_at : Z;
  items_count : Z;
  items_qty : Z;
  items_total : Z;
  debt_total : Z;
  debt_paid : Z;
  debt_unpaid : Z;
  total_taxes : Z;
  total_discounts : Z;
  total_interest : Z;
  total_paid : Z;
  total_unpaid : Z;
  total : Z;
  stock_line_count : Z;
  stock_qty_in : Z;
  stock_qty_out : Z;
  acc_line_count : Z;
  acc_sum : Z;
  acc_balanced : bool;
  has_manual_lines : bool;
  tx_data : option TxData;
  items : list TxItem;
  payments : list TxPayment;
  accs : list TxAcc;
  stocks : list TxStock;
  taxes : list TxTax;
  discounts : list TxDiscount;
  created_ts_ms : Z;
  updated_ts_ms : Z;
  deleted_ts_ms : Z;
}.
End Tx.
Notation Tx := Tx.Tx.
Definition Tx_default : Tx :=
  {| Tx.site_iid := 0; Tx.tx_id := 0; Tx.type := 0; Tx.state := 0; Tx.input_mode
     := 0; Tx.input_source := 0; Tx.is_archived := false; Tx.desc := "";
     Tx.time_ts_ms := 0; Tx.created_by_iid := 0; Tx.cancel_reason := "";
     Tx.subject_contact_id := 0; Tx.subject_name := ""; Tx.subject_phone := "";
     Tx.subject_address := ""; Tx.cashier_name := ""; Tx.store_id := 0;
     Tx.store_tgt_id := 0; Tx.delivery_state := ""; Tx.obj_id := 0; Tx.promo_code
     := ""; Tx.is_paid := false; Tx.is_task_assigned := false; Tx.order_pay_at :=
     0; Tx.items_count := 0; Tx.items_qty := 0; Tx.items_total := 0;
     Tx.debt_total := 0; Tx.debt_paid := 0; Tx.debt_unpaid := 0; Tx.total_taxes
     := 0; Tx.total_discounts := 0; Tx.total_interest := 0; Tx.total_paid := 0;
     Tx.total_unpaid := 0; Tx.total := 0; Tx.stock_line_count := 0;
     Tx.stock_qty_in := 0; Tx.stock_qty_out := 0; Tx.acc_line_count := 0;
     Tx.acc_sum := 0; Tx.acc_balanced := false; Tx.has_manual_lines := false;
     Tx.tx_data := None; Tx.items := []; Tx.payments := []; Tx.accs := [];
     Tx.stocks := []; Tx.taxes := []; Tx.discounts := []; Tx.created_ts_ms := 0;
     Tx.updated_ts_ms := 0; Tx.deleted_ts_ms := 0 |}.


#[global] Instance TxInputSource_proto : ProtoEnum TxInputSource.
Proof.
  refine {| enum_to_i32 := TxInputSource_to_i32; enum_try_from := TxInputSource_try_from;
            enum_default := TxInputSource.Unspecified |}.
  - by intros [].
  - unfold TxInputSource_try_from. solve_try_from.
  - done.
Defined.

#[global] Instance TxType_proto : ProtoEnum TxType.
Proof.
  refine {| enum_to_i32 := TxType_to_i32; enum_try_from := TxType_try_from;
            enum_default := TxType.Unspecified |}.
  - by intros [].
  - unfold TxType_try_from. solve_try_from.
  - done.
Defined.

#[global] Instance TxState_proto : ProtoEnum TxState.
Proof.
  refine {| enum_to_i32 := TxState_to_i32; enum_try_from := TxState_try_from;
            enum_default := TxState.Ok |}.
  - by intros [].
  - unfold TxState_try_from. solve_try_from.
  - done.
Defined.

#[global] Instance TxInputMode_proto : ProtoEnum TxInputMode.
Proof.
  refine {| enum_to_i32 := TxInputMode_to_i32; enum_try_from := TxInputMode_try_from;
            enum_default := TxInputMode.Normal |}.
  - by intros [].
  - unfold TxInputMode_try_from. solve_try_from.
  - done.
Defined.

#[global] Instance TxPaymentMethod_proto : ProtoEnum TxPaymentMethod.
Proof.
  refine {| enum_to_i32 := TxPaymentMethod_to_i32; enum_try_from := TxPaymentMethod_try_from;
            enum_default := TxPaymentMethod.Unspecified |}.
  - by intros [].
  - unfold TxPaymentMethod_try_from. solve_try_from.
  - done.
Defined.

#[global] Instance TxDebtPaymentMethod_proto : ProtoEnum TxDebtPaymentMethod.
Proof.
  refine {| enum_to_i32 := TxDebtPaymentMethod_to_i32; enum_try_from := TxDebtPaymentMethod_try_from;
            enum_default := TxDebtPaymentMethod.Unspecified |}.
  - by intros [].
  - unfold TxDebtPaymentMethod_try_from. solve_try_from.
  - done.
Defined.

#[global] Instance TxAccSide_proto : ProtoEnum TxAccSide.
Proof.
  refine {| enum_to_i32 := TxAccSide_to_i32; enum_try_from := TxAccSide_try_from;
            enum_default := TxAccSide.Unspecified |}.
  - by intros [].
  - unfold TxAccSide_try_from. solve_try_from.
  - done.
Defined.

#[global] Instance TxItemFulfillmentState_proto : ProtoEnum TxItemFulfillmentState.
Proof.
  refine {| enum_to_i32 := TxItemFulfillmentState_to_i32; enum_try_from := TxItemFulfillmentState_try_from;
            enum_default := TxItemFulfillmentState.TxItemFulfillmentUnspecified |}.
  - by intros [].
  - unfold TxItemFulfillmentState_try_from. solve_try_from.
  - done.
Defined.

#[global] Instance TxOrderPayAt_proto : ProtoEnum TxOrderPayAt.
Proof.
  refine {| enum_to_i32 := TxOrderPayAt_to_i32; enum_try_from := TxOrderPayAt_try_from;
            enum_default := TxOrderPayAt.Unspecified |}.
  - by intros [].
  - unfold TxOrderPayAt_try_from. solve_try_from.
  - done.
Defined.

(** ** Field ranges

    What the types of the generated code guarantee: [i64] and [i32] fields are
    in range, an enum field is any [i32]. *)
Definition TxPromo_wf (m : TxPromo) : Prop :=
  in_i64 m.(TxPromo.amount).
#[export] Instance TxPromo_wf_dec m : Decision (TxPromo_wf m).
Proof. unfold TxPromo_wf. apply _. Defined.
Definition TxDelivery_wf (m : TxDelivery) : Prop :=
  in_i64 m.(TxDelivery.obj_id) /\
  in_i64 m.(TxDelivery.contact_id) /\
  in_i64 m.(TxDelivery.user_iid).
#[export] Instance TxDelivery_wf_dec m : Decision (TxDelivery_wf m).
Proof. unfold TxDelivery_wf. apply _. Defined.
Definition TxData_wf (m : TxData) : Prop :=
  opt_all TxDelivery_wf m.(TxData.delivery) /\
  Forall TxPromo_wf m.(TxData.promos).
#[export] Instance TxData_wf_dec m : Decision (TxData_wf m).
Proof. unfold TxData_wf. apply _. Defined.
Definition TxItemReservation_wf (m : TxItemReservation) : Prop :=
  in_i64 m.(TxItemReservation.res_id) /\
  in_i64 m.(TxItemReservation.product_id) /\
  in_i32 m.(TxItemReservation.qty) /\
  in_i32 m.(TxItemReservation.duration_qty) /\
  in_i64 m.(TxItemReservation.site_object_id) /\
  in_i64 m.(TxItemReservation.start_ts_ms) /\
  in_i64 m.(TxItemReservation.end_ts_ms).
#[export] Instance TxItemReservation_wf_dec m : Decision (TxItemReservation_wf m).
Proof. unfold TxItemReservation_wf. apply _. Defined.
Definition TxItemSource_wf (m : TxItemSource) : Prop :=
  in_i64 m.(TxItemSource.src_id) /\
  in_i64 m.(TxItemSource.obj_id) /\
  in_i64 m.(TxItemSource.product_id) /\
  in_i32 m.(TxItemSource.qty).
#[export] Instance TxItemSource_wf_dec m : Decision (TxItemSource_wf m).
Proof. unfold TxItemSource_wf. apply _. Defined.
Definition TxItem_wf (m : TxItem) : Prop :=
  in_i64 m.(TxItem.site_iid) /\
  in_i64 m.(TxItem.tx_id) /\
  in_i64 m.(TxItem.item_id) /\
  in_i64 m.(TxItem.owner_iid) /\
  in_i64 m.(TxItem.product_id) /\
  in_i64 m.(TxItem.product_rev) /\
  in_i64 m.(TxItem.obj_id) /\
  in_i64 m.(TxItem.price) /\
  in_i32 m.(TxItem.qty) /\
  in_i32 m.(TxItem.fulfillment_state) /\
  in_i32 m.(TxItem.total_qty) /\
  in_i64 m.(TxItem.total_price) /\
  in_i64 m.(TxItem.total_discount) /\
  in_i64 m.(TxItem.total_tax) /\
  in_i64 m.(TxItem.total_net) /\
  in_i64 m.(TxItem.total_paid) /\
  in_i64 m.(TxItem.total_unpaid) /\
  Forall TxItemReservation_wf m.(TxItem.reservations) /\
  Forall TxItemSource_wf m.(TxItem.sources).
#[export] Instance TxItem_wf_dec m : Decision (TxItem_wf m).
Proof. unfold TxItem_wf. apply _. Defined.
Definition TxDebtPayment_wf (m : TxDebtPayment) : Prop :=
  in_i64 m.(TxDebtPayment.pay_id) /\
  in_i64 m.(TxDebtPayment.ts_ms) /\
  in_i32 m.(TxDebtPayment.method) /\
  in_i64 m.(TxDebtPayment.amount) /\
  in_i64 m.(TxDebtPayment.overdue_interest).
#[export] Instance TxDebtPayment_wf_dec m : Decision (TxDebtPayment_wf m).
Proof. unfold TxDebtPayment_wf. apply _. Defined.
Definition TxInstallment_wf (m : TxInstallment) : Prop :=
  in_i64 m.(TxInstallment.inst_id) /\
  in_i64 m.(TxInstallment.due_ts_ms) /\
  in_i64 m.(TxInstallment.amount) /\
  Forall TxDebtPayment_wf m.(TxInstallment.debt_payments).
#[export] Instance TxInstallment_wf_dec m : Decision (TxInstallment_wf m).
Proof. unfold TxInstallment_wf. apply _. Defined.
Definition TxPayment_wf (m : TxPayment) : Prop :=
  in_i64 m.(TxPayment.payment_id) /\
  in_i32 m.(TxPayment.method) /\
  in_i64 m.(TxPayment.ts_ms) /\
  in_i64 m.(TxPayment.amount) /\
  in_i64 m.(TxPayment.debt_interest) /\
  Forall TxInstallment_wf m.(TxPayment.installments).
#[export] Instance TxPayment_wf_dec m : Decision (TxPayment_wf m).
Proof. unfold TxPayment_wf. apply _. Defined.
Definition TxAcc_wf (m : TxAcc) : Prop :=
  in_i64 m.(TxAcc.acc_id) /\
  in_i64 m.(TxAcc.ts_ms) /\
  in_i32 m.(TxAcc.side) /\
  in_i64 m.(TxAcc.amount).
#[export] Instance TxAcc_wf_dec m : Decision (TxAcc_wf m).
Proof. unfold TxAcc_wf. apply _. Defined.
Definition TxStock_wf (m : TxStock) : Prop :=
  in_i64 m.(TxStock.stock_id) /\
  in_i64 m.(TxStock.product_id) /\
  in_i64 m.(TxStock.ts_ms) /\
  in_i64 m.(TxStock.obj_from_id) /\
  in_i64 m.(TxStock.obj_to_id) /\
  in_i32 m.(TxStock.qty) /\
  in_i32 m.(TxStock.qty_signed).
#[export] Instance TxStock_wf_dec m : Decision (TxStock_wf m).
Proof. unfold TxStock_wf. apply _. Defined.
Definition TxTax_wf (m : TxTax) : Prop :=
  in_i64 m.(TxTax.tax_id) /\
  in_i64 m.(TxTax.amount).
#[export] Instance TxTax_wf_dec m : Decision (TxTax_wf m).
Proof. unfold TxTax_wf. apply _. Defined.
Definition TxDiscount_wf (m : TxDiscount) : Prop :=
  in_i64 m.(TxDiscount.discount_id) /\
  in_i64 m.(TxDiscount.amount).
#[export] Instance TxDiscount_wf_dec m : Decision (TxDiscount_wf m).
Proof. unfold TxDiscount_wf. apply _. Defined.
Definition Tx_wf (m : Tx) : Prop :=
  in_i64 m.(Tx.site_iid) /\
  in_i64 m.(Tx.tx_id) /\
  in_i32 m.(Tx.type) /\
  in_i32 m.(Tx.state) /\
  in_i32 m.(Tx.input_mode) /\
  in_i32 m.(Tx.input_source) /\
  in_i64 m.(Tx.time_ts_ms) /\
  in_i64 m.(Tx.created_by_iid) /\
  in_i64 m.(Tx.subject_contact_id) /\
  in_i64 m.(Tx.store_id) /\
  in_i64 m.(Tx.store_tgt_id) /\
  in_i64 m.(Tx.obj_id) /\
  in_i32 m.(Tx.order_pay_at) /\
  in_i64 m.(Tx.items_count) /\
  in_i64 m.(Tx.items_qty) /\
  in_i64 m.(Tx.items_total) /\
  in_i64 m.(Tx.debt_total) /\
  in_i64 m.(Tx.debt_paid) /\
  in_i64 m.(Tx.debt_unpaid) /\
  in_i64 m.(Tx.total_taxes) /\
  in_i64 m.(Tx.total_discounts) /\
  in_i64 m.(Tx.total_interest) /\
  in_i64 m.(Tx.total_paid) /\
  in_i64 m.(Tx.total_unpaid) /\
  in_i64 m.(Tx.total) /\
  in_i32 m.(Tx.stock_line_count) /\
  in_i32 m.(Tx.stock_qty_in) /\
  in_i32 m.(Tx.stock_qty_out) /\
  in_i32 m.(Tx.acc_line_count) /\
  in_i64 m.(Tx.acc_sum) /\
  opt_all TxData_wf m.(Tx.tx_data) /\
  Forall TxItem_wf m.(Tx.items) /\
  Forall TxPayment_wf m.(Tx.payments) /\
  Forall TxAcc_wf m.(Tx.accs) /\
  Forall TxStock_wf m.(Tx.stocks) /\
  Forall TxTax_wf m.(Tx.taxes) /\
  Forall TxDiscount_wf m.(Tx.discounts) /\
  in_i64 m.(Tx.created_ts_ms) /\
  in_i64 m.(Tx.updated_ts_ms) /\
  in_i64 m.(Tx.deleted_ts_ms).
#[export] Instance Tx_wf_dec m : Decision (Tx_wf m).
Proof. unfold Tx_wf. apply _. Defined.
