(* ===== verification/World.v ===== *)
(** * Effects: the database, the clock and the id allocator

    The request handlers are [async] functions that return [anyhow::Result] and
    talk to a connection pool.  Here they run in a state and error monad over a
    [World].  A statement may fail for a reason of its own (a lost connection, a
    constraint the model does not know): [env_fault] says which ones do, and the
    theorems hold for every choice. *)
From S2P Require Import Prelude Ts.

(** The order in which a [HashMap] is iterated, or a query without [ORDER BY]
    returns its rows, is not the program's to choose. *)
Class Order := {
  order : forall {K V : Type} `{Countable K}, gmap K V -> list (K * V);
  order_perm : forall {K V : Type} `{Countable K} (m : gmap K V), order m ≡ₚ map_to_list m;
}.
#[export] Instance order_canonical : Order | 100 :=
  {| order _ _ _ _ m := map_to_list m; order_perm _ _ _ _ m := reflexivity _ |}.

(** The rows a query selects, by key: each once. *)
Lemma selected_elem `{!Order} {K V : Type} `{Countable K} (P : K * V -> Prop)
    `{!forall e, Decision (P e)} (m : gmap K V) k v :
  (k, v) ∈ filter P (order m) <-> m !! k = Some v /\ P (k, v).
Proof. rewrite list_elem_of_filter, order_perm, elem_of_map_to_list. tauto. Qed.
Lemma selected_nodup `{!Order} {K V : Type} `{Countable K} (P : K * V -> Prop)
    `{!forall e, Decision (P e)} (m : gmap K V) : NoDup (filter P (order m)).*1.
Proof.
  rewrite order_perm. apply (sublist_NoDup _ (map_to_list m).*1); [apply NoDup_fst_map_to_list|].
  apply fmap_sublist, sublist_filter.
Qed.

Section World.
Context {DB : Type} `{!Chrono}.

(** What the process meets on its way: clock readings, ids of [snowflake_id],
    statements that fail. *)
Record Env := {
  env_clock : nat -> DateTime;
  env_ids : nat -> Z;
  env_fault : nat -> bool;
}.

Record World := {
  db : DB;
  n_clock : nat;
  n_ids : nat;
  n_sql : nat;
  (** the start of the open transaction, which [NOW()] is in it *)
  txn_now : option DateTime;
}.

Definition M (A : Type) : Type := Env -> World -> result A * World.
#[global] Instance M_ret : MRet M := fun A a e w => (Ok a, w).
#[global] Instance M_bind : MBind M := fun A B f m e w =>
  match m e w with
  | (Ok a, w) => f a e w
  | (Err x, w) => (Err x, w)
  end.

Definition throw {A} (x : string) : M A := fun e w => (Err x, w).
Definition lift {A} (r : result A) : M A := fun e w => (r, w).

(** [chrono::Utc::now()] *)
Definition utc_now : M DateTime := fun e w =>
  (Ok (e.(env_clock) w.(n_clock)), {| w with n_clock := S w.(n_clock) |}).
(** [c35_store::snowflake_id()], see [Snowflake] *)
Definition next_id : M Z := fun e w =>
  (Ok (e.(env_ids) w.(n_ids)), {| w with n_ids := S w.(n_ids) |}).

(** One statement, given the value of [NOW()]. *)
Definition sql {A} (f : DateTime -> DB -> result (A * DB)) : M A := fun e w =>
  let '(now, w) := match w.(txn_now) with
    | Some t => (t, w)
    | None => (e.(env_clock) w.(n_clock), {| w with n_clock := S w.(n_clock) |})
    end in
  let fault := e.(env_fault) w.(n_sql) in
  let w := {| w with n_sql := S w.(n_sql) |} in
  if fault then (Err "database error", w)
  else match f now w.(db) with
  | Ok (a, d) => (Ok a, {| w with db := d |})
  | Err x => (Err x, w)
  end.

(** A query: a statement that reads. *)
Definition query {A} (f : DateTime -> DB -> A) : M A := sql (fun now d => Ok (f now d, d)).

(** [pool.begin()], the statements of [m], then [commit] if [m] asks for it and
    [rollback] if it does not or fails ([sqlx] rolls back a dropped
    transaction). *)
Definition transaction {A} (m : M (A * bool)) : M A := fun e w =>
  let before := w.(db) in
  match sql (fun now d => Ok (now, d)) e w with
  | (Err x, w) => (Err x, w)
  | (Ok now, w) =>
      let rollback (w : World) := {| w with db := before; txn_now := None |} in
      match m e {| w with txn_now := Some now |} with
      | (Ok (a, true), w) =>
          match sql (fun _ d => Ok (tt, d)) e w with
          | (Ok _, w) => (Ok a, {| w with txn_now := None |})
          | (Err x, w) => (Err x, rollback w)
          end
      | (Ok (a, false), w) => (Ok a, rollback w)
      | (Err x, w) => (Err x, rollback w)
      end
  end.

(** Loops *)
Fixpoint mapM {A B} (f : A -> M B) (l : list A) : M (list B) :=
  match l with
  | [] => mret []
  | x :: l => y ← f x; ys ← mapM f l; mret (y :: ys)
  end.
Fixpoint forM_ {A} (l : list A) (f : A -> M ()) : M () :=
  match l with
  | [] => mret tt
  | x :: l => f x;; forM_ l f
  end.
Fixpoint foldM {A B} (f : A -> B -> M A) (a : A) (l : list B) : M A :=
  match l with
  | [] => mret a
  | x :: l => a ← f a x; foldM f a l
  end.

(** ** Reasoning *)

(** What a successful run of [m] returns and does to the database. *)
Definition runs {A} (m : M A) (P : DB -> Prop) (Q : A -> DB -> Prop) : Prop :=
  forall e w a w', m e w = (Ok a, w') -> P w.(db) -> Q a w'.(db).

Lemma runs_ret {A} (a : A) P Q : (forall d, P d -> Q a d) -> runs (mret a) P Q.
Proof. intros HQ e w a' w' E Hp. injection E as <- <-. auto. Qed.
Lemma runs_bind {A B} (m : M A) (f : A -> M B) P Q R :
  runs m P Q -> (forall a, runs (f a) (Q a) R) -> runs (m ≫= f) P R.
Proof.
  intros Hm Hf e w b w' E Hp. unfold mbind, M_bind in E.
  destruct (m e w) as [[a|x] w1] eqn:Em; [|done]. eapply Hf; [done|]. by eapply Hm.
Qed.
Lemma runs_weaken {A} (m : M A) (P P' : DB -> Prop) (Q Q' : A -> DB -> Prop) :
  runs m P Q -> (forall d, P' d -> P d) -> (forall a d, Q a d -> Q' a d) -> runs m P' Q'.
Proof. intros Hm HP HQ e w a w' E Hp. eapply HQ, Hm; eauto. Qed.
Lemma runs_pre {A} (m : M A) (P P' : DB -> Prop) Q :
  runs m P Q -> (forall d, P' d -> P d) -> runs m P' Q.
Proof. intros Hm HP. by eapply runs_weaken. Qed.
Lemma runs_any {A} (m : M A) P : runs m P (fun _ _ => True).
Proof. done. Qed.
Lemma runs_throw {A} x P (Q : A -> DB -> Prop) : runs (throw x) P Q.
Proof. by intros e w a w' [=]. Qed.
Lemma runs_lift {A} (r : result A) P Q :
  (forall a d, r = Ok a -> P d -> Q a d) -> runs (lift r) P Q.
Proof. intros Hq e w a w' E Hp. injection E as E <-. auto. Qed.
Lemma runs_sql {A} (f : DateTime -> DB -> result (A * DB)) P Q :
  (forall now d a d', P d -> f now d = Ok (a, d') -> Q a d') -> runs (sql f) P Q.
Proof.
  intros Hf e w a w' E Hp. unfold sql in E.
  destruct (txn_now w); cbn in E; repeat case_match; simplify_eq; cbn; eapply Hf; eauto.
Qed.
Lemma runs_query {A} (f : DateTime -> DB -> A) P Q :
  (forall now d, P d -> Q (f now d) d) -> runs (query f) P Q.
Proof. intros Hf. apply runs_sql. intros now d a d' Hp [= <- <-]. auto. Qed.
Lemma runs_utc_now P Q : (forall d t, P d -> Q t d) -> runs utc_now P Q.
Proof. intros Hq e w a w' E Hp. injection E as <- <-. cbn. auto. Qed.
Lemma runs_next_id P Q : (forall d i, P d -> Q i d) -> runs next_id P Q.
Proof. intros Hq e w a w' E Hp. injection E as <- <-. cbn. auto. Qed.
Lemma runs_forM {A} (l : list A) (f : A -> M ()) (I : list A -> DB -> Prop) :
  (forall pre x suf, l = pre ++ x :: suf ->
     runs (f x) (I pre) (fun _ d => I (pre ++ [x]) d)) ->
  runs (forM_ l f) (I []) (fun _ d => I l d).
Proof.
  intros Hf. enough (forall pre suf, l = pre ++ suf ->
    runs (forM_ suf f) (I pre) (fun _ d => I l d)) as Hl; [by apply (Hl [] l)|].
  intros pre suf. revert pre. induction suf as [|x suf IH]; intros pre E.
  - apply runs_ret. intros d. by rewrite E, app_nil_r.
  - eapply runs_bind; [by eapply Hf|]. intros ?. apply IH. by rewrite <- app_assoc.
Qed.

Lemma runs_foldM {A B} (l : list B) (f : A -> B -> M A) a (I : list B -> A -> DB -> Prop) :
  (forall pre x suf a, l = pre ++ x :: suf ->
     runs (f a x) (I pre a) (fun a' d => I (pre ++ [x]) a' d)) ->
  runs (foldM f a l) (I [] a) (fun a' d => I l a' d).
Proof.
  intros Hf. enough (forall pre suf a, l = pre ++ suf ->
    runs (foldM f a suf) (I pre a) (fun a' d => I l a' d)) as Hl; [by apply (Hl [] l)|].
  intros pre suf. revert pre. induction suf as [|x suf IH]; intros pre a0 E.
  - apply runs_ret. intros d. by rewrite E, app_nil_r.
  - eapply runs_bind; [by eapply Hf|]. intros a1. apply IH. by rewrite <- app_assoc.
Qed.
Lemma runs_mapM {A B} (l : list A) (f : A -> M B) (I : list A -> list B -> DB -> Prop) :
  (forall pre x suf done, l = pre ++ x :: suf ->
     runs (f x) (I pre done) (fun y d => I (pre ++ [x]) (done ++ [y]) d)) ->
  runs (mapM f l) (I [] []) (fun ys d => I l ys d).
Proof.
  intros Hf. enough (forall pre suf done, l = pre ++ suf ->
    runs (mapM f suf) (I pre done) (fun ys d => I l (done ++ ys) d)) as Hl; [by apply (Hl [] l [])|].
  intros pre suf. revert pre. induction suf as [|x suf IH]; intros pre acc E.
  - apply runs_ret. intros d. by rewrite E, !app_nil_r.
  - eapply runs_bind; [by eapply Hf|]. intros y. eapply runs_bind.
    { apply IH. by rewrite <- app_assoc. }
    intros ys. apply runs_ret. intros d. by rewrite <- app_assoc.
Qed.

(** A failed transaction leaves the database as it was. *)
Lemma transaction_atomic {A} (m : M (A * bool)) e w r w' :
  transaction m e w = (r, w') ->
  match r with
  | Ok a => (exists w0 w1, db w0 = db w /\ m e w0 = (Ok (a, true), w1) /\ db w' = db w1)
            \/ (exists w0 w1, db w0 = db w /\ m e w0 = (Ok (a, false), w1) /\ db w' = db w)
  | Err _ => db w' = db w
  end.
Proof.
  unfold transaction. destruct (sql _ e w) as [[now|x] w0] eqn:E0.
  - assert (db w0 = db w) as Hdb.
    { revert E0. unfold sql. destruct (txn_now w); cbn; case_match; intros [= <- <-]; done. }
    destruct (m e _) as [[[a []]|x] w1] eqn:Em.
    + destruct (sql _ e w1) as [[[]|x] w2] eqn:E2; intros [= <- <-]; cbn; [|done].
      left. do 2 eexists. split_and!; [|exact Em|]; [done|].
      revert E2. unfold sql. destruct (txn_now w1); cbn; case_match; intros [= <-]; done.
    + intros [= <- <-]. right. do 2 eexists. split_and!; [|exact Em|]; done.
    + by intros [= <- <-].
  - intros [= <- <-]. revert E0. unfold sql. destruct (txn_now w); cbn; case_match; intros [= <- <-]; done.
Qed.

Lemma runs_transaction {A} (m : M (A * bool)) P Q :
  runs m P (fun r d => if r.2 then Q r.1 d else True) ->
  (forall a d, P d -> forall e w w', m e w = (Ok (a, false), w') -> db w = d -> Q a d) ->
  runs (transaction m) P Q.
Proof.
  intros Hm Hn e w a w' E Hp. apply transaction_atomic in E as [(w0 & w1 & H0 & H1 & ->)|(w0 & w1 & H0 & H1 & ->)].
  - eapply (Hm _ _ _ _ H1). by rewrite H0.
  - eapply Hn; [done|exact H1|done].
Qed.

(** Code that only reads. *)
Definition reads {A} (m : M A) : Prop := forall e w r w', m e w = (r, w') -> db w' = db w.

Lemma reads_ret {A} (a : A) : reads (mret a).
Proof. by intros e w r w' [= <- <-]. Qed.
Lemma reads_throw {A} x : reads (throw (A := A) x).
Proof. by intros e w r w' [= <- <-]. Qed.
Lemma reads_lift {A} (r : result A) : reads (lift r).
Proof. intros e w r' w' E. by injection E as <- <-. Qed.
Lemma reads_utc_now : reads utc_now.
Proof. by intros e w r w' [= <- <-]. Qed.
Lemma reads_next_id : reads next_id.
Proof. by intros e w r w' [= <- <-]. Qed.
Lemma reads_query {A} (f : DateTime -> DB -> A) : reads (query f).
Proof.
  intros e w r w' E. unfold query, sql in E. destruct (txn_now w); cbn in E; case_match;
    by injection E as <- <-.
Qed.
Lemma reads_bind {A B} (m : M A) (f : A -> M B) :
  reads m -> (forall a, reads (f a)) -> reads (m ≫= f).
Proof.
  intros Hm Hf e w r w' E. unfold mbind, M_bind in E.
  destruct (m e w) as [[a|x] w1] eqn:Em.
  - apply Hf in E as ->. by eapply Hm.
  - injection E as <- <-. by eapply Hm.
Qed.
Lemma reads_foldM {A B} (f : A -> B -> M A) l a :
  (forall a x, reads (f a x)) -> reads (foldM f a l).
Proof.
  intros Hf. revert a. induction l as [|x l IH]; intros a; [apply reads_ret|].
  apply reads_bind; [done|apply IH].
Qed.

Lemma reads_mapM {A B} (f : A -> M B) l : (forall x, reads (f x)) -> reads (mapM f l).
Proof.
  intros Hf. induction l as [|x l IH]; [apply reads_ret|].
  apply reads_bind; [done|]. intros y. apply reads_bind; [done|]. intros ys. apply reads_ret.
Qed.

Lemma query_ok {A} (f : DateTime -> DB -> A) e w a w' :
  query f e w = (Ok a, w') -> (exists now, a = f now w.(db)) /\ w'.(db) = w.(db).
Proof.
  unfold query, sql. destruct (txn_now w); cbn; case_match; intros [= <- <-]; cbn; eauto.
Qed.
(** The time at which a query looks: that of the transaction, or a clock reading *)
Lemma query_now {A} (f : DateTime -> DB -> A) e w a w' : query f e w = (Ok a, w') ->
  (exists n, a = f (default (e.(env_clock) n) w.(txn_now)) w.(db)) /\ w'.(db) = w.(db) /\
  w'.(txn_now) = w.(txn_now).
Proof.
  unfold query, sql. destruct (txn_now w) eqn:Et; cbn; case_match; intros [= <- <-]; cbn; split_and!; try done;
    by exists (n_clock w).
Qed.
(** A query that does not fail *)
Lemma query_runs {A} (f : DateTime -> DB -> A) e w : (forall n, e.(env_fault) n = false) ->
  exists now w', query f e w = (Ok (f now w.(db)), w') /\ w'.(db) = w.(db).
Proof. intros Hf. unfold query, sql. destruct (txn_now w); cbn; rewrite Hf; eauto. Qed.
Lemma ret_ok {A} (a b : A) e w w' : mret (M := M) a e w = (Ok b, w') -> b = a /\ w' = w.
Proof. by intros [= <- <-]. Qed.
Lemma bind_cases {A B} (m : M A) (f : A -> M B) e w r w' :
  (m ≫= f) e w = (r, w') ->
  (exists x, m e w = (Err x, w') /\ r = Err x) \/
  exists a w1, m e w = (Ok a, w1) /\ f a e w1 = (r, w').
Proof. unfold mbind, M_bind. destruct (m e w) as [[a|x] w1]; naive_solver. Qed.
(** A run that starts by reading: it fails without a change, or goes on. *)
Lemma bind_reads {A B} (m : M A) (f : A -> M B) e w r w' :
  reads m -> (m ≫= f) e w = (r, w') ->
  w'.(db) = w.(db) \/ exists a w1, m e w = (Ok a, w1) /\ w1.(db) = w.(db) /\ f a e w1 = (r, w').
Proof.
  intros Hm [(x & E & _)|(a & w1 & E & E')]%bind_cases; [left|right]; eauto 10.
Qed.
Lemma bind_ok {A B} (m : M A) (f : A -> M B) e w b w' :
  (m ≫= f) e w = (Ok b, w') <-> exists a w1, m e w = (Ok a, w1) /\ f a e w1 = (Ok b, w').
Proof.
  unfold mbind, M_bind. destruct (m e w) as [[a|x] w1]; split; [eauto|naive_solver|naive_solver|].
  by intros (? & ? & [=] & _).
Qed.

(** Code whose every step stays within a preorder on databases, failing or not. *)
Section Respects.
Context (R : DB -> DB -> Prop) `{!PreOrder R}.

Definition respects {A} (m : M A) : Prop :=
  forall e w r w', m e w = (r, w') -> R w.(db) w'.(db).

Lemma respects_reads {A} (m : M A) : reads m -> respects m.
Proof. intros Hm e w r w' E. apply Hm in E as ->. reflexivity. Qed.
Lemma respects_ret {A} (a : A) : respects (mret a).
Proof. apply respects_reads, reads_ret. Qed.
Lemma respects_bind {A B} (m : M A) (f : A -> M B) :
  respects m -> (forall a, respects (f a)) -> respects (m ≫= f).
Proof.
  intros Hm Hf e w r w' E. unfold mbind, M_bind in E.
  destruct (m e w) as [[a|x] w1] eqn:Em; apply Hm in Em.
  - etransitivity; [done|]. by eapply Hf.
  - by injection E as <- <-.
Qed.
Lemma respects_sql {A} (f : DateTime -> DB -> result (A * DB)) :
  (forall now d a d', f now d = Ok (a, d') -> R d d') -> respects (sql f).
Proof.
  intros Hf e w r w' E. unfold sql in E.
  destruct (txn_now w); cbn in E; repeat case_match; simplify_eq; cbn; first [by eapply Hf|reflexivity].
Qed.
Lemma respects_sql_at {A} (f : DateTime -> DB -> result (A * DB)) e w r w' :
  (forall now a d', f now w.(db) = Ok (a, d') -> R w.(db) d') ->
  sql f e w = (r, w') -> R w.(db) w'.(db).
Proof.
  intros Hf E. unfold sql in E.
  destruct (txn_now w); cbn in E; repeat case_match; simplify_eq; cbn; first [by eapply Hf|reflexivity].
Qed.
Lemma respects_mapM {A B} (f : A -> M B) l : (forall x, respects (f x)) -> respects (mapM f l).
Proof.
  intros Hf. induction l as [|x l IH]; [apply respects_ret|].
  apply respects_bind; [done|]. intros y. apply respects_bind; [done|]. intros ys. apply respects_ret.
Qed.
Lemma respects_forM {A} (f : A -> M ()) l : (forall x, respects (f x)) -> respects (forM_ l f).
Proof.
  intros Hf. induction l as [|x l IH]; [apply respects_ret|]. by apply respects_bind.
Qed.
Lemma respects_foldM {A B} (f : A -> B -> M A) l a :
  (forall a x, respects (f a x)) -> respects (foldM f a l).
Proof.
  intros Hf. revert a. induction l as [|x l IH]; intros a; [apply respects_ret|].
  by apply respects_bind.
Qed.
Lemma respects_transaction {A} (m : M (A * bool)) : respects m -> respects (transaction m).
Proof.
  intros Hm e w r w' E. apply transaction_atomic in E. destruct r as [a|x]; [|by rewrite E].
  destruct E as [(w0 & w1 & H0 & H1 & ->)|(w0 & w1 & H0 & H1 & ->)]; [|done].
  apply Hm in H1. by rewrite <- H0.
Qed.
End Respects.

End World.
#[export] Hint Resolve reads_ret reads_throw reads_lift reads_utc_now reads_next_id
  reads_query : reads.
Arguments M DB {_} A.
Arguments World DB {_}.
Arguments Env {_}.

Notation "'let*' x := m 'in' k" := (mbind (fun x => k) m)
  (at level 200, x pattern, right associativity, only parsing).
