(* ===== verification/Json.v ===== *)
(** * JSON values

    [serde_json] is a library.  Its [Value] is data the commerce crate matches
    on, and is given here; printing and parsing are an interface with the laws
    the crate relies on. *)
From S2P Require Import Prelude.

(** A number is an unsigned or a negative integer of 64 bits, or a float, of
    which nothing but its bits matters here.  The entries of an object are in
    the order of their keys, as in a [BTreeMap]. *)
Inductive Number :=
| PosInt (n : Z)
| NegInt (n : Z)
| Float (bits : Z).

Inductive Value :=
| Null
| Bool (b : bool)
| Num (n : Number)
| Str (s : string)
| Array (l : list Value)
| Object (m : list (string * Value)).

(** ** Reading *)

Fixpoint assoc {A} (k : string) (l : list (string * A)) : option A :=
  match l with
  | [] => None
  | (k', v) :: l => if String.eqb k k' then Some v else assoc k l
  end.

(** [Value::get] with a string index *)
Definition get (k : string) (v : Value) : option Value :=
  match v with Object m => assoc k m | _ => None end.
Definition number_as_i64 (n : Number) : option Z :=
  match n with
  | PosInt n => if n <=? 2 ^ 63 - 1 then Some n else None
  | NegInt n => Some n
  | Float _ => None
  end.
Definition as_i64 (v : Value) : option Z :=
  match v with Num n => number_as_i64 n | _ => None end.
Definition as_bool (v : Value) : option bool := match v with Bool b => Some b | _ => None end.
Definition as_str (v : Value) : option string := match v with Str s => Some s | _ => None end.
Definition as_array (v : Value) : option (list Value) :=
  match v with Array l => Some l | _ => None end.
Definition is_null (v : Value) : bool := match v with Null => true | _ => false end.
Definition is_object (v : Value) : bool := match v with Object _ => true | _ => false end.

(** ** Building *)

(** [Map::insert] *)
Fixpoint map_insert {A} (k : string) (v : A) (l : list (string * A)) : list (string * A) :=
  match l with
  | [] => [(k, v)]
  | (k', v') :: l' =>
      match String.compare k k' with
      | Eq => (k, v) :: l'
      | Lt => (k, v) :: l
      | Gt => (k', v') :: map_insert k v l'
      end
  end.

(** [json!] of an object literal, and of an integer *)
Definition json_object (l : list (string * Value)) : Value :=
  Object (foldl (fun m e => map_insert e.1 e.2 m) [] l).
Definition json_int (n : Z) : Value := Num (if 0 <=? n then PosInt n else NegInt n).
Definition json_option (o : option Value) : Value := default Null o.
Definition json_strings (l : list string) : Value := Array (Str <$> l).

Lemma json_int_as_i64 n : in_i64 n -> as_i64 (json_int n) = Some n.
Proof.
  unfold in_i64. intros Hn. unfold json_int, as_i64, number_as_i64.
  destruct (0 <=? n); [|done]. destruct (Z.leb_spec n (2 ^ 63 - 1)); [done|lia].
Qed.
#[export] Hint Resolve json_int_as_i64 : machine.

Lemma string_compare_same s : String.compare s s = Eq.
Proof.
  induction s as [|c s IH]; [done|]. cbn. unfold Ascii.compare. by rewrite N.compare_refl.
Qed.
Lemma assoc_map_insert {A} k k' (v : A) l :
  assoc k (map_insert k' v l) = if String.eqb k k' then Some v else assoc k l.
Proof.
  induction l as [|[k1 v1] l IH]; cbn.
  - by destruct (String.eqb k k').
  - destruct (String.compare k' k1) eqn:E; cbn.
    + apply String.compare_eq_iff in E as <-. by destruct (String.eqb k k').
    + by destruct (String.eqb k k').
    + destruct (String.eqb_spec k k1) as [->|]; rewrite ?IH; [|done].
      destruct (String.eqb_spec k1 k') as [->|]; [|done].
      by rewrite string_compare_same in E.
Qed.

(** The value of a key of an object literal: the last entry that has it. *)
Lemma get_json_object k l : get k (json_object l) = assoc k (reverse l).
Proof.
  unfold json_object, get.
  enough (forall m, assoc k (foldl (fun m e => map_insert e.1 e.2 m) m l)
    = match assoc k (reverse l) with Some v => Some v | None => assoc k m end) as Hg.
  { rewrite Hg. by destruct (assoc k (reverse l)). }
  induction l as [|[k1 v1] l IH]; intros m; [done|]. cbn [foldl]. rewrite IH.
  rewrite reverse_cons. cbn [fst snd]. rewrite assoc_map_insert.
  clear IH. induction (reverse l) as [|[k2 v2] l2 IH2]; cbn; [by destruct (String.eqb k k1)|].
  destruct (String.eqb k k2); [done|]. exact IH2.
Qed.

(** ** Printing and parsing *)

Class SerdeJson := {
  (** [Value::to_string] *)
  to_string : Value -> string;
  (** [serde_json::from_str] *)
  from_str : string -> option Value;
}.
(** What the development relies on: texts are printed so that they can be read
    back.  Nothing is assumed of other values (a float need not be read back as
    printed, nor a value that is nested too deeply). *)
Class SerdeJsonLaws `{!SerdeJson} := {
  from_to_string_str s : from_str (to_string (Str s)) = Some (Str s);
  from_str_null : from_str "null" = Some Null;
  from_str_empty : from_str "" = None;
  (** a string is printed between quotes *)
  to_string_longer s : (String.length s < String.length (to_string (Str s)))%nat;
}.

Section SerdeJson.
Context `{!SerdeJson} `{!SerdeJsonLaws}.

Lemma to_string_nonempty s : to_string (Str s) <> "".
Proof. intros E. pose proof (from_to_string_str s) as Hs. by rewrite E, from_str_empty in Hs. Qed.
Lemma to_string_not_null s : to_string (Str s) <> "null".
Proof. intros E. pose proof (from_to_string_str s) as Hs. by rewrite E, from_str_null in Hs. Qed.

End SerdeJson.

(** ** A printer

    Some printer with these laws, for the concrete instances of the
    development's theorems: values through [Countable]. *)
Module Printer.

Fixpoint tree_of (v : Value) : gen_tree (Z + string) :=
  match v with
  | Null => GenNode 0 []
  | Bool b => GenNode 1 [GenLeaf (inl (Z.b2z b))]
  | Num (PosInt n) => GenNode 2 [GenLeaf (inl n)]
  | Num (NegInt n) => GenNode 3 [GenLeaf (inl n)]
  | Num (Float n) => GenNode 4 [GenLeaf (inl n)]
  | Str s => GenNode 5 [GenLeaf (inr s)]
  | Array l => GenNode 6 (tree_of <$> l)
  | Object m => GenNode 7 ((fun e => GenNode 8 [GenLeaf (inr e.1); tree_of e.2]) <$> m)
  end.

Fixpoint of_tree (t : gen_tree (Z + string)) : Value :=
  match t with
  | GenNode 1 [GenLeaf (inl b)] => Bool (b =? 1)
  | GenNode 2 [GenLeaf (inl n)] => Num (PosInt n)
  | GenNode 3 [GenLeaf (inl n)] => Num (NegInt n)
  | GenNode 4 [GenLeaf (inl n)] => Num (Float n)
  | GenNode 5 [GenLeaf (inr s)] => Str s
  | GenNode 6 l => Array (of_tree <$> l)
  | GenNode 7 l =>
      Object ((fun e => match e with
        | GenNode 8 [GenLeaf (inr k); t] => (k, of_tree t) | _ => ("", Null) end) <$> l)
  | _ => Null
  end.

Lemma of_tree_of : forall v, of_tree (tree_of v) = v.
Proof.
  fix IH 1. intros [|b|[n|n|n]|s|l|m]; cbn; try done.
  - by destruct b.
  - f_equal. induction l as [|v l IHl]; cbn; [done|]. by rewrite IH, IHl.
  - f_equal. induction m as [|[k v] m IHm]; cbn; [done|]. by rewrite IH, IHm.
Qed.

Fixpoint bits_of (p : positive) : string :=
  match p with
  | xH => "" | xO p => String.String Ascii.zero (bits_of p) | xI p => String.String Ascii.one (bits_of p)
  end.
Fixpoint of_bits (s : string) : positive :=
  match s with
  | EmptyString => xH
  | String.String c s => if Ascii.eqb c Ascii.zero then xO (of_bits s) else xI (of_bits s)
  end.
Lemma of_bits_of p : of_bits (bits_of p) = p.
Proof. induction p as [p IH|p IH|]; cbn; by rewrite ?IH. Qed.

Definition print (v : Value) : string :=
  match v with
  | Null => "null"
  | Str s => String.String Ascii.zero s
  | _ => String.String Ascii.one (bits_of (encode (tree_of v)))
  end.
Definition parse (s : string) : option Value :=
  match s with
  | EmptyString => None
  | String.String c s =>
      if Ascii.eqb c (Ascii.ascii_of_N 110) then Some Null
      else if Ascii.eqb c Ascii.zero then Some (Str s) else of_tree <$> decode (of_bits s)
  end.
Lemma parse_print v : parse (print v) = Some v.
Proof.
  destruct v eqn:E; unfold parse, print; try done; rewrite <- E;
    cbn [Ascii.eqb eqb Ascii.one Ascii.zero]; rewrite of_bits_of, decode_encode; cbn [fmap option_fmap option_map];
    by rewrite of_tree_of.
Qed.

End Printer.

#[export] Instance serde_printer : SerdeJson | 100 :=
  {| to_string := Printer.print; from_str := Printer.parse |}.
#[export] Instance serde_printer_laws : SerdeJsonLaws | 100.
Proof. split; [intros s; apply Printer.parse_print|done..|]. intros s. cbn. lia. Qed.
