(* ===== verification/TxData.v ===== *)
(** * The [tx_data] column ([servers/crates/mod_tx/src/tx_data.rs],
      [guest_tx_meta.rs])

    Proofs, prompt, delivery and promotions of a transaction as JSON, and the
    guest metadata that shares the column. *)
From S2P Require Import Prelude Strs TxProto Json.

(** ** Field readers *)

Definition json_str (k : string) (v : Value) : string := default "" (get k v ≫= as_str).
Definition json_i64 (k : string) (v : Value) : Z := default 0 (get k v ≫= as_i64).
Definition json_str_list (k : string) (v : Value) : list string :=
  match get k v ≫= as_array with Some a => omap as_str a | None => [] end.

(** ** Writing *)

Definition tx_prompt_to_json (p : TxPrompt) : Value :=
  json_object
    [("pics", json_strings p.(TxPrompt.pics)); ("desc", Str p.(TxPrompt.desc))].

Definition tx_delivery_to_to_json (t : TxDeliveryTo) : Value :=
  json_object
    [("name", Str t.(TxDeliveryTo.name)); ("phone", Str t.(TxDeliveryTo.phone));
     ("address", Str t.(TxDeliveryTo.address)); ("email", Str t.(TxDeliveryTo.email))].

Definition tx_delivery_service_to_json (s : TxDeliveryService) : Value :=
  json_object
    [("name", Str s.(TxDeliveryService.name));
     ("tracking_number", Str s.(TxDeliveryService.tracking_number));
     ("tracking_url", Str s.(TxDeliveryService.tracking_url));
     ("note", Str s.(TxDeliveryService.note))].

Definition tx_delivery_to_json (d : TxDelivery) : Value :=
  json_object
    [("obj_id", json_int d.(TxDelivery.obj_id));
     ("contact_id", json_int d.(TxDelivery.contact_id));
     ("user_iid", json_int d.(TxDelivery.user_iid));
     ("state", Str d.(TxDelivery.state));
     ("to", json_option (tx_delivery_to_to_json <$> d.(TxDelivery.to)));
     ("service", json_option (tx_delivery_service_to_json <$> d.(TxDelivery.service)))].

Definition tx_promo_to_json (p : TxPromo) : Value :=
  json_object
    [("promo_id", Str p.(TxPromo.promo_id)); ("code", Str p.(TxPromo.code));
     ("name", Str p.(TxPromo.name)); ("amount", json_int p.(TxPromo.amount))].

Definition tx_data_to_json (data : TxData) : Value :=
  json_object
    [("proofs", json_strings data.(TxData.proofs));
     ("prompt", json_option (tx_prompt_to_json <$> data.(TxData.prompt)));
     ("delivery", json_option (tx_delivery_to_json <$> data.(TxData.delivery)));
     ("promos", Array (tx_promo_to_json <$> data.(TxData.promos)))].

(** ** Reading *)

Definition tx_prompt_from_json (p : Value) : TxPrompt :=
  {| TxPrompt.pics := json_str_list "pics" p; TxPrompt.desc := json_str "desc" p |}.

Definition tx_delivery_to_from_json (t : Value) : TxDeliveryTo :=
  {| TxDeliveryTo.name := json_str "name" t; TxDeliveryTo.phone := json_str "phone" t;
     TxDeliveryTo.address := json_str "address" t; TxDeliveryTo.email := json_str "email" t |}.

Definition tx_delivery_service_from_json (s : Value) : TxDeliveryService :=
  {| TxDeliveryService.name := json_str "name" s;
     TxDeliveryService.tracking_number := json_str "tracking_number" s;
     TxDeliveryService.tracking_url := json_str "tracking_url" s;
     TxDeliveryService.note := json_str "note" s |}.

Definition tx_delivery_from_json (d : Value) : TxDelivery :=
  {| TxDelivery.obj_id := json_i64 "obj_id" d;
     TxDelivery.contact_id := json_i64 "contact_id" d;
     TxDelivery.user_iid := json_i64 "user_iid" d;
     TxDelivery.state := json_str "state" d;
     TxDelivery.to := tx_delivery_to_from_json <$> get "to" d;
     TxDelivery.service := tx_delivery_service_from_json <$> get "service" d |}.

Definition tx_promo_from_json (p : Value) : TxPromo :=
  {| TxPromo.promo_id := json_str "promo_id" p; TxPromo.code := json_str "code" p;
     TxPromo.name := json_str "name" p; TxPromo.amount := json_i64 "amount" p |}.

Definition tx_data_from_json (v : Value) : option TxData :=
  if is_null v then None
  else Some
    {| TxData.proofs := json_str_list "proofs" v;
       TxData.prompt := tx_prompt_from_json <$> get "prompt" v;
       TxData.delivery := tx_delivery_from_json <$> get "delivery" v;
       TxData.promos :=
         match get "promos" v ≫= as_array with
         | Some a => tx_promo_from_json <$> a | None => [] end |}.

(** ** Guest metadata *)

Definition guest_tx_meta_merge (base : Value) (buyer_user_iid : Z) (visitor_id : string) : Value :=
  let out := match base with Object m => m | _ => [] end in
  let guest := json_object
    [("buyer_user_iid", json_int buyer_user_iid); ("visitor_id", Str (trim visitor_id))] in
  Object (map_insert "guest" guest out).

Definition guest_tx_buyer_user_iid (tx_data_json : Value) : Z :=
  default 0 ((get "guest" tx_data_json ≫= get "buyer_user_iid") ≫= as_i64).

Definition guest_tx_visitor_id (tx_data_json : Value) : string :=
  trim (default "" ((get "guest" tx_data_json ≫= get "visitor_id") ≫= as_str)).

(** ** Round trip *)

(** What an absent part becomes: JSON [null] reads back as an empty part. *)
Definition tx_delivery_read (d : TxDelivery) : TxDelivery :=
  {| d with
     TxDelivery.to := Some (default TxDeliveryTo_default d.(TxDelivery.to));
     TxDelivery.service := Some (default TxDeliveryService_default d.(TxDelivery.service)) |}.
Definition tx_data_read (data : TxData) : TxData :=
  {| data with
     TxData.prompt := Some (default TxPrompt_default data.(TxData.prompt));
     TxData.delivery :=
       Some (match data.(TxData.delivery) with
             | Some d => tx_delivery_read d | None => TxDelivery_default end) |}.

(** Reading a key of a literal object evaluates to the value written. *)
Ltac json_get :=
  repeat match goal with
  | |- context [get ?k (json_object ?l)] =>
      rewrite (get_json_object k l);
      let r := eval lazy [assoc reverse rev_append app String.eqb Ascii.eqb Bool.eqb] in
        (assoc k (reverse l)) in
      change (assoc k (reverse l)) with r
  end; cbn [json_strings mbind option_bind as_str as_i64 as_bool as_array default from_option id fmap option_fmap option_map].

Lemma omap_as_str (l : list string) : omap as_str (Str <$> l) = l.
Proof. induction l as [|s l IH]; [done|]. cbn. by rewrite IH. Qed.

Lemma fmap_roundtrip {A B} (f : A -> B) (g : B -> A) (h : A -> A) (P : A -> Prop) (l : list A) :
  (forall x, P x -> g (f x) = h x) -> Forall P l -> g <$> (f <$> l) = h <$> l.
Proof. intros Hg. induction 1 as [|x l Hx _ IH]; [done|]. cbn. by rewrite Hg, IH. Qed.

Lemma tx_promo_json_roundtrip p :
  TxPromo_wf p -> tx_promo_from_json (tx_promo_to_json p) = p.
Proof.
  intros Hp. unfold tx_promo_from_json, tx_promo_to_json, json_str, json_i64. json_get.
  rewrite json_int_as_i64 by apply Hp. done.
Qed.
Lemma tx_delivery_to_json_roundtrip t :
  tx_delivery_to_from_json (json_option (tx_delivery_to_to_json <$> t))
    = default TxDeliveryTo_default t.
Proof. destruct t as [t|]; [|done]. cbn [fmap option_fmap option_map json_option default from_option id].
  unfold tx_delivery_to_from_json, tx_delivery_to_to_json, json_str. by json_get. Qed.
Lemma tx_delivery_service_json_roundtrip s :
  tx_delivery_service_from_json (json_option (tx_delivery_service_to_json <$> s))
    = default TxDeliveryService_default s.
Proof. destruct s as [s|]; [|done]. cbn [fmap option_fmap option_map json_option default from_option id].
  unfold tx_delivery_service_from_json, tx_delivery_service_to_json, json_str. by json_get. Qed.
Lemma tx_delivery_json_roundtrip d :
  TxDelivery_wf d -> tx_delivery_from_json (tx_delivery_to_json d) = tx_delivery_read d.
Proof.
  intros (H1 & H2 & H3). unfold tx_delivery_from_json, tx_delivery_to_json, json_str, json_i64.
  json_get. rewrite !json_int_as_i64 by done.
  by rewrite tx_delivery_to_json_roundtrip, tx_delivery_service_json_roundtrip.
Qed.

Lemma tx_prompt_json_roundtrip p :
  tx_prompt_from_json (json_option (tx_prompt_to_json <$> p)) = default TxPrompt_default p.
Proof.
  destruct p as [p|]; [|done]. cbn [fmap option_fmap option_map json_option default from_option id].
  unfold tx_prompt_from_json, tx_prompt_to_json, json_str, json_str_list. json_get.
  by rewrite omap_as_str.
Qed.

Lemma tx_data_json_roundtrip data :
  TxData_wf data -> tx_data_from_json (tx_data_to_json data) = Some (tx_data_read data).
Proof.
  intros (Hd & Hp). unfold tx_data_from_json. cbn [tx_data_to_json json_object is_null].
  unfold tx_data_to_json, json_str_list. json_get. f_equal. unfold tx_data_read.
  rewrite omap_as_str, (fmap_roundtrip _ _ id _ _ tx_promo_json_roundtrip Hp), list_fmap_id.
  rewrite tx_prompt_json_roundtrip.
  destruct data.(TxData.delivery) as [d|];
    cbn [fmap option_fmap option_map json_option default from_option id opt_all] in *;
    by rewrite ?tx_delivery_json_roundtrip by done.
Qed.
