(* ===== verification/Db.v ===== *)
(** * Tables ([_/schemas/tx.sql], [site.sql], [identity.sql])

    The rows the commerce crate reads and writes, as finite maps on their
    primary keys, and the statements it issues, one definition per shape of
    statement.  Columns no statement of the crate mentions are left out. *)
From S2P Require Import Prelude Ts Json World.

(** The columns every table ends with. *)
Record Row `{!Chrono} (A : Type) := mk_row {
  cols : A;
  created_ts : DateTime;
  updated_ts : DateTime;
  deleted_ts : option DateTime;
}.
Arguments mk_row {_ _} _ _ _ _.
Arguments cols {_ _} _.
Arguments created_ts {_ _} _.
Arguments updated_ts {_ _} _.
Arguments deleted_ts {_ _} _.

(** ** Rows *)

Module TxRow.
#[projections(primitive)]
Record TxRow `{!Chrono} := mk {
  owner_iid : Z;
  ty : string;
  state : string;
  input_mode : string;
  input_source : string;
  is_archived : bool;
  desc : string;
  time_ts : DateTime;
  created_by_iid : option Z;
  cancel_reason : option string;
  subject_contact_id : Z;
  subject_name : string;
  subject_phone : string;
  subject_address : string;
  cashier_name : string;
  store_id : Z;
  store_tgt_id : Z;
  delivery_state : string;
  obj_id : Z;
  promo_code : string;
  is_paid : bool;
  is_task_assigned : bool;
  order_pay_at : string;
  items_count : Z;
  items_qty : Z;
  items_total : Z;
  debt_total : Z;
  debt_paid : Z;
  debt_unpaid : Z;
  total_taxes : Z;
  total_discounts : Z;
  total_interest : Z;
  total_paid : Z;
  total_unpaid : Z;
  total : Z;
  stock_line_count : Z;
  stock_qty_in : Z;
  stock_qty_out : Z;
  acc_line_count : Z;
  acc_sum : Z;
  acc_balanced : bool;
  has_manual_lines : bool;
  generated_count : Z;
  manual_count : Z;
  tx_data_json : Value;
}.
End TxRow.
Notation TxRow := TxRow.TxRow.

Module ItemRow.
#[projections(primitive)]
Record ItemRow := mk {
  owner_iid : Z;
  obj_id : Z;
  product_id : Z;
  product_rev : Z;
  price : Z;
  qty : Z;
  note : string;
  batch_number : string;
  serial_number : string;
  fulfillment_state : string;
  total_qty : Z;
  total_price : Z;
  total_discount : Z;
  total_tax : Z;
  total_net : Z;
  total_paid : Z;
  total_unpaid : Z;
}.
End ItemRow.
Notation ItemRow := ItemRow.ItemRow.

Module ReservationRow.
#[projections(primitive)]
Record ReservationRow `{!Chrono} := mk {
  product_id : Z;
  site_object_id : Z;
  qty : Z;
  duration_qty : Z;
  note : string;
  start_ts : option DateTime;
  end_ts : option DateTime;
  state : string;
  is_no_show : bool;
  is_unavailable : bool;
}.
End ReservationRow.
Notation ReservationRow := ReservationRow.ReservationRow.

Module SourceRow.
#[projections(primitive)]
Record SourceRow := mk {
  obj_id : Z;
  product_id : Z;
  qty : Z;
  note : string;
}.
End SourceRow.
Notation SourceRow := SourceRow.SourceRow.

Module PaymentRow.
#[projections(primitive)]
Record PaymentRow `{!Chrono} := mk {
  method : string;
  ts : DateTime;
  amount : Z;
  note : string;
  from_wallet : string;
  to_wallet : string;
  debt_interest : Z;
  payment_json : Value;
}.
End PaymentRow.
Notation PaymentRow := PaymentRow.PaymentRow.

Module InstallmentRow.
#[projections(primitive)]
Record InstallmentRow `{!Chrono} := mk {
  due_ts : option DateTime;
  amount : Z;
  note : string;
  is_paid : bool;
  is_overdue : bool;
}.
End InstallmentRow.
Notation InstallmentRow := InstallmentRow.InstallmentRow.

Module DebtPaymentRow.
#[projections(primitive)]
Record DebtPaymentRow `{!Chrono} := mk {
  ts : DateTime;
  method : string;
  amount : Z;
  note : string;
  overdue_interest : Z;
  payment_json : Value;
  is_paid : bool;
  is_overdue : bool;
}.
End DebtPaymentRow.
Notation DebtPaymentRow := DebtPaymentRow.DebtPaymentRow.

Module AccRow.
#[projections(primitive)]
Record AccRow `{!Chrono} := mk {
  acc_code : string;
  ts : DateTime;
  side : string;
  amount : Z;
  note : string;
  is_tx_generated : bool;
}.
End AccRow.
Notation AccRow := AccRow.AccRow.

Module StockRow.
#[projections(primitive)]
Record StockRow `{!Chrono} := mk {
  product_id : Z;
  ts : DateTime;
  obj_from_id : Z;
  obj_to_id : Z;
  qty : Z;
  qty_signed : Z;
  direction : string;
  note : string;
}.
End StockRow.
Notation StockRow := StockRow.StockRow.

Module TaxRow.
#[projections(primitive)]
Record TaxRow := mk {
  tax_type : string;
  amount : Z;
  note : string;
}.
End TaxRow.
Notation TaxRow := TaxRow.TaxRow.

Module DiscountRow.
#[projections(primitive)]
Record DiscountRow := mk {
  discount_type : string;
  amount : Z;
  note : string;
}.
End DiscountRow.
Notation DiscountRow := DiscountRow.DiscountRow.

(** The columns of the other tables the crate consults. *)
Module ProductRow.
#[projections(primitive)]
Record ProductRow := mk {
  price : Z;
  rev : Z;
  can_sell : bool;
  can_reserve : bool;
  track_stock : bool;
  stock_qty : Z;
  is_archived : bool;
  is_used : bool;
  product_json : Value;
}.
End ProductRow.
Notation ProductRow := ProductRow.ProductRow.

Module IdentityRow.
#[projections(primitive)]
Record IdentityRow := mk {
  kind : string;
  owner_iid : option Z;
  meta : Value;
  is_active : bool;
}.
End IdentityRow.
Notation IdentityRow := IdentityRow.IdentityRow.

Module GrantRow.
#[projections(primitive)]
Record GrantRow := mk {
  role : string;
  meta : Value;
}.
End GrantRow.
Notation GrantRow := GrantRow.GrantRow.

Module ConfigRow.
#[projections(primitive)]
Record ConfigRow := mk {
  capabilities_json : Value;
  assistant_bot_iid : option Z;
}.
End ConfigRow.
Notation ConfigRow := ConfigRow.ConfigRow.

Module ObjectRow.
#[projections(primitive)]
Record ObjectRow := mk {
  site_iid : Z;
  product_id : option Z;
  name : string;
  code : string;
  pic : string;
  is_active : bool;
  can_be_reserved : bool;
  sort_order : Z;
}.
End ObjectRow.
Notation ObjectRow := ObjectRow.ObjectRow.

(** ** Tables *)

(** [(site_iid, tx_id)] *)
Notation TxKey := (Z * Z)%type.

(** A child table of a transaction, by its own key columns. *)
Notation Children C R := (gmap (TxKey * C) (Row R)).

Section Db.
Context `{!Chrono}.

Record Db := {
  t_tx : gmap TxKey (Row TxRow);
  t_item : Children Z ItemRow;
  t_reservation : Children (Z * Z) ReservationRow;
  t_source : Children (Z * Z) SourceRow;
  t_payment : Children Z PaymentRow;
  t_installment : Children (Z * Z) InstallmentRow;
  t_debt_payment : Children (Z * Z * Z) DebtPaymentRow;
  t_acc : Children Z AccRow;
  t_stock : Children Z StockRow;
  t_tax : Children Z TaxRow;
  t_discount : Children Z DiscountRow;
  (** keyed by [(site_iid, product_id)] *)
  t_product : gmap (Z * Z) (Row ProductRow);
  t_object : gmap Z (Row ObjectRow);
  t_identity : gmap Z (Row IdentityRow);
  (** keyed by [(resource_iid, grantee_iid)], which is unique *)
  t_grant : gmap (Z * Z) (Row GrantRow);
  t_config : gmap Z (Row ConfigRow);
  (** keyed by [(site_iid, version_id)]; the column read is [is_active] *)
  t_publish : gmap (Z * string) (Row bool);
}.

Definition live {A} (r : Row A) : bool := match r.(deleted_ts) with None => true | Some _ => false end.
Definition new_row {A} (now : DateTime) (a : A) : Row A := mk_row a now now None.
(** [SET ..., updated_ts = NOW()] *)
Definition set_cols {A} (now : DateTime) (f : A -> A) (r : Row A) : Row A :=
  mk_row (f r.(cols)) r.(created_ts) now r.(deleted_ts).
(** [SET deleted_ts = NOW(), updated_ts = NOW()] *)
Definition soft_delete {A} (now : DateTime) (r : Row A) : Row A :=
  mk_row r.(cols) r.(created_ts) now (Some now).

Section Statements.
Context {K : Type} `{Countable K} {R : Type}.
Implicit Types t : gmap K (Row R).

(** [INSERT] *)
Definition t_insert (k : K) (r : Row R) t : result (gmap K (Row R)) :=
  match t !! k with
  | Some _ => Err "duplicate key value violates unique constraint"
  | None => Ok (<[k := r]> t)
  end.
(** [UPDATE ... WHERE], with the number of rows affected *)
Definition t_update (P : K -> Row R -> bool) (f : Row R -> Row R) t : gmap K (Row R) * Z :=
  (map_imap (fun k r => Some (if P k r then f r else r)) t,
   Z.of_nat (size (filter (fun kr => P kr.1 kr.2 = true) t))).
(** [DELETE ... WHERE] *)
Definition t_delete (P : K -> Row R -> bool) t : gmap K (Row R) :=
  filter (fun kr => P kr.1 kr.2 = false) t.
(** A row by its primary key, if it is not deleted. *)
Definition t_get (k : K) t : option (Row R) :=
  match t !! k with Some r => if live r then Some r else None | None => None end.
End Statements.

(** [ORDER BY created_ts], ascending, descending, and [ORDER BY updated_ts DESC] *)
Definition by_created {K A} (a b : K * Row A) : Prop :=
  dt_ltb b.2.(created_ts) a.2.(created_ts) = false.
#[global] Instance by_created_dec {K A} (a b : K * Row A) : Decision (by_created a b).
Proof. unfold by_created. apply _. Defined.
Definition by_created_desc {K A} (a b : K * Row A) : Prop := by_created b a.
#[global] Instance by_created_desc_dec {K A} (a b : K * Row A) : Decision (by_created_desc a b).
Proof. unfold by_created_desc. apply _. Defined.
Definition by_updated_desc {K A} (a b : K * Row A) : Prop :=
  dt_ltb a.2.(updated_ts) b.2.(updated_ts) = false.
#[global] Instance by_updated_desc_dec {K A} (a b : K * Row A) : Decision (by_updated_desc a b).
Proof. unfold by_updated_desc. apply _. Defined.

(** [SELECT ... WHERE site_iid = $1 AND tx_id = $2 AND deleted_ts IS NULL]: the
    child rows of a transaction with their key columns, in no order. *)
Definition child_rows `{!Order} {C R} `{Countable C} (k : TxKey) (t : Children C R)
    : list (C * R) :=
  omap (fun e : (TxKey * C) * Row R =>
    if bool_decide (e.1.1 = k) && live e.2 then Some (e.1.2, e.2.(cols)) else None) (order t).

(** [WHERE site_iid = $1 AND tx_id = $2] *)
Definition of_tx {C R} (k : TxKey) (kc : TxKey * C) (_ : Row R) : bool := bool_decide (kc.1 = k).

(** ** Child rows and the statements *)

Section ChildRows.
Context `{!Order} {C R : Type} `{Countable C}.
Implicit Types t : Children C R.

Lemma child_rows_elem k c a t :
  (c, a) ∈ child_rows k t <-> exists r, t !! (k, c) = Some r /\ live r = true /\ r.(cols) = a.
Proof.
  unfold child_rows. rewrite list_elem_of_omap. split.
  - intros ([[k' c'] r] & Hin & Hs). cbn in Hs. rewrite order_perm, elem_of_map_to_list in Hin.
    case_bool_decide; [|done]. destruct (live r) eqn:El; [|done]. cbn in Hs. simplify_eq. eauto.
  - intros (r & Hr & Hl & <-). exists ((k, c), r). rewrite order_perm, elem_of_map_to_list.
    split; [done|]. cbn. by rewrite bool_decide_eq_true_2, Hl.
Qed.

(** Child rows as a function of the contents of the table. *)
Lemma child_rows_perm k t :
  child_rows k t ≡ₚ omap (fun e : (TxKey * C) * Row R =>
    if bool_decide (e.1.1 = k) && live e.2 then Some (e.1.2, e.2.(cols)) else None) (map_to_list t).
Proof. unfold child_rows. by rewrite (order_perm t). Qed.

Lemma child_rows_insert k c r t :
  t !! (k, c) = None -> live r = true ->
  child_rows k (<[(k, c) := r]> t) ≡ₚ (c, r.(cols)) :: child_rows k t.
Proof.
  intros Hn Hl. rewrite !child_rows_perm, map_to_list_insert by done. cbn [omap list_omap].
  cbn [fst snd]. by rewrite bool_decide_eq_true_2, Hl by done.
Qed.
Lemma child_rows_insert_ne k k' c r t :
  k <> k' -> t !! (k', c) = None -> child_rows k (<[(k', c) := r]> t) ≡ₚ child_rows k t.
Proof.
  intros Hk Hn. rewrite !child_rows_perm, map_to_list_insert by done. cbn [omap list_omap].
  cbn [fst snd]. by rewrite bool_decide_eq_false_2 by congruence.
Qed.
Lemma child_rows_delete k t : child_rows k (t_delete (of_tx k) t) = [].
Proof.
  destruct (child_rows k _) as [|[c a] l] eqn:E; [done|].
  assert ((c, a) ∈ child_rows k (t_delete (of_tx k) t)) as Hin by (rewrite E; left).
  apply child_rows_elem in Hin as (r & Hr & _). unfold t_delete in Hr.
  apply map_lookup_filter_Some in Hr as [_ Hf]. unfold of_tx in Hf. cbn in Hf.
  by rewrite bool_decide_eq_true_2 in Hf.
Qed.
Lemma t_delete_lookup k k' c t :
  t_delete (of_tx k) t !! (k', c) = if decide (k' = k) then None else t !! (k', c).
Proof.
  unfold t_delete. case_decide as E.
  - apply map_lookup_filter_None. right. intros r _. unfold of_tx. cbn.
    by rewrite bool_decide_eq_true_2.
  - destruct (t !! (k', c)) as [r|] eqn:Hr.
    + apply map_lookup_filter_Some. split; [done|]. unfold of_tx. cbn. by rewrite bool_decide_eq_false_2.
    + apply map_lookup_filter_None. by left.
Qed.
(** No row of the transaction at all, deleted ones included. *)
Definition no_rows k t : Prop := forall c, t !! (k, c) = None.
Lemma t_delete_no_rows k t : no_rows k (t_delete (of_tx k) t).
Proof. intros c. by rewrite t_delete_lookup, decide_True. Qed.

Lemma child_rows_nodup k t : NoDup (child_rows k t).*1.
Proof.
  rewrite child_rows_perm. pose proof (NoDup_fst_map_to_list t) as Hn.
  induction (map_to_list t) as [|[[k' c] r] l IH]; [constructor|].
  cbn in Hn. apply list.NoDup_cons in Hn as [Hni Hn]. cbn [omap list_omap fst snd].
  destruct (bool_decide (k' = k) && live r) eqn:E; [|by apply IH].
  cbn. constructor; [|by apply IH]. intros Hin. apply Hni.
  apply andb_true_iff in E as [Ek _]. apply bool_decide_eq_true in Ek as ->.
  apply list_elem_of_fmap in Hin as ([c' a] & -> & Hin).
  apply list_elem_of_omap in Hin as ([[k' c''] r'] & Hin & Hs). cbn in Hs.
  case_bool_decide; [|done]. destruct (live r'); [|done]. cbn in Hs. simplify_eq.
  apply list_elem_of_fmap. by exists ((k, c'), r').
Qed.

End ChildRows.
End Db.
