(* ===== verification/EnumMap.v ===== *)
(** * Enum names ([servers/crates/mod_tx/src/enum_map.rs])

    The text of every enum of the transaction messages, as stored in the
    database columns and in tool JSON, the conversions back, and the signed
    quantity of a stock direction. *)
From S2P Require Import Prelude TxProto.

(** A [match] of a string against literals with a wildcard arm. *)
Fixpoint match_str {A} (s : string) (arms : list (string * A)) (d : A) : A :=
  match arms with
  | [] => d
  | (k, v) :: arms => if String.eqb s k then v else match_str s arms d
  end.

Definition tx_type_str (t : TxType) : string :=
  match t with
  | TxType.Sale => "sale"
  | TxType.Purchase => "purchase"
  | TxType.Transfer => "transfer"
  | TxType.Adjustment => "adjustment"
  | TxType.ReturnSale => "return_sale"
  | TxType.ReturnPurchase => "return_purchase"
  | TxType.Reservation => "reservation"
  | TxType.Ship => "ship"
  | TxType.Payment => "payment"
  | TxType.Receipt => "receipt"
  | TxType.DebtPayable => "debt_payable"
  | TxType.DebtReceivable => "debt_receivable"
  | TxType.Inventory => "inventory"
  | _ => "sale"
  end.

Definition tx_type_from_str (s : string) : TxType :=
  match_str s
    [("sale", TxType.Sale);
     ("purchase", TxType.Purchase);
     ("transfer", TxType.Transfer);
     ("adjustment", TxType.Adjustment);
     ("return_sale", TxType.ReturnSale);
     ("return_purchase", TxType.ReturnPurchase);
     ("reservation", TxType.Reservation);
     ("ship", TxType.Ship);
     ("payment", TxType.Payment);
     ("receipt", TxType.Receipt);
     ("debt_payable", TxType.DebtPayable);
     ("debt_receivable", TxType.DebtReceivable);
     ("inventory", TxType.Inventory)]
    TxType.Unspecified.

Definition tx_state_str (s : TxState) : string :=
  match s with
  | TxState.Ok => "ok"
  | TxState.Draft => "draft"
  | TxState.Pending => "pending"
  | TxState.WaitingPayment => "waiting_payment"
  | TxState.Cancelled => "cancelled"
  end.

Definition tx_state_from_str (s : string) : TxState :=
  match_str s
    [("ok", TxState.Ok);
     ("draft", TxState.Draft);
     ("pending", TxState.Pending);
     ("waiting_payment", TxState.WaitingPayment);
     ("cancelled", TxState.Cancelled)]
    TxState.Ok.

Definition tx_input_mode_str (m : TxInputMode) : string :=
  match m with
  | TxInputMode.Normal => "normal"
  | TxInputMode.Accounting => "accounting"
  | TxInputMode.Sell => "sell"
  | TxInputMode.Purchase => "purchase"
  end.

Definition tx_input_mode_from_str (s : string) : TxInputMode :=
  match_str s
    [("normal", TxInputMode.Normal);
     ("accounting", TxInputMode.Accounting);
     ("sell", TxInputMode.Sell);
     ("purchase", TxInputMode.Purchase)]
    TxInputMode.Normal.

Definition tx_input_source_str (s : TxInputSource) : string :=
  match s with
  | TxInputSource.Manual => "manual"
  | TxInputSource.Web => "web"
  | TxInputSource.Ai => "ai"
  | TxInputSource.Api => "api"
  | _ => "manual"
  end.

Definition tx_input_source_from_str (s : string) : TxInputSource :=
  match_str s
    [("manual", TxInputSource.Manual);
     ("web", TxInputSource.Web);
     ("ai", TxInputSource.Ai);
     ("api", TxInputSource.Api)]
    TxInputSource.Manual.

Definition tx_payment_method_str (m : TxPaymentMethod) : string :=
  match m with
  | TxPaymentMethod.Cash => "cash"
  | TxPaymentMethod.Card => "card"
  | TxPaymentMethod.Transfer => "transfer"
  | TxPaymentMethod.Qris => "qris"
  | TxPaymentMethod.Debt => "debt"
  | TxPaymentMethod.Wallet => "wallet"
  | _ => "cash"
  end.

Definition tx_payment_method_from_str (s : string) : TxPaymentMethod :=
  match_str s
    [("cash", TxPaymentMethod.Cash);
     ("card", TxPaymentMethod.Card);
     ("transfer", TxPaymentMethod.Transfer);
     ("qris", TxPaymentMethod.Qris);
     ("debt", TxPaymentMethod.Debt);
     ("wallet", TxPaymentMethod.Wallet)]
    TxPaymentMethod.Unspecified.

Definition tx_type (v : Z) : TxType := try_from_or TxType.Unspecified v.

Definition tx_state (v : Z) : TxState := try_from_or TxState.Ok v.

Definition tx_payment_method (v : Z) : TxPaymentMethod := try_from_or TxPaymentMethod.Unspecified v.

Definition tx_debt_payment_method_str (m : TxDebtPaymentMethod) : string :=
  match m with
  | TxDebtPaymentMethod.Cash => "cash"
  | TxDebtPaymentMethod.Card => "card"
  | TxDebtPaymentMethod.Transfer => "transfer"
  | TxDebtPaymentMethod.Qris => "qris"
  | TxDebtPaymentMethod.Wallet => "wallet"
  | _ => "cash"
  end.

Definition tx_debt_payment_method_from_str (s : string) : TxDebtPaymentMethod :=
  match_str s
    [("cash", TxDebtPaymentMethod.Cash);
     ("card", TxDebtPaymentMethod.Card);
     ("transfer", TxDebtPaymentMethod.Transfer);
     ("qris", TxDebtPaymentMethod.Qris);
     ("wallet", TxDebtPaymentMethod.Wallet)]
    TxDebtPaymentMethod.Unspecified.

Definition tx_acc_side_str (s : TxAccSide) : string :=
  match s with
  | TxAccSide.Debit => "debit"
  | TxAccSide.Credit => "credit"
  | _ => "debit"
  end.

Definition tx_acc_side_from_str (s : string) : TxAccSide :=
  match_str s
    [("debit", TxAccSide.Debit);
     ("credit", TxAccSide.Credit)]
    TxAccSide.Unspecified.

Definition tx_fulfillment_from_str (s : string) : TxItemFulfillmentState :=
  match_str s
    [("pending", TxItemFulfillmentState.TxItemFulfillmentPending);
     ("in_progress", TxItemFulfillmentState.TxItemFulfillmentInProgress);
     ("done", TxItemFulfillmentState.TxItemFulfillmentDone)]
    TxItemFulfillmentState.TxItemFulfillmentUnspecified.

Definition tx_fulfillment_str (s : TxItemFulfillmentState) : string :=
  match s with
  | TxItemFulfillmentState.TxItemFulfillmentPending => "pending"
  | TxItemFulfillmentState.TxItemFulfillmentInProgress => "in_progress"
  | TxItemFulfillmentState.TxItemFulfillmentDone => "done"
  | _ => ""
  end.

Definition tx_order_pay_at_str (v : TxOrderPayAt) : string :=
  match v with
  | TxOrderPayAt.Cashier => "cashier"
  | TxOrderPayAt.Table => "table"
  | _ => ""
  end.

Definition tx_order_pay_at_from_str (s : string) : TxOrderPayAt :=
  match_str s
    [("cashier", TxOrderPayAt.Cashier);
     ("table", TxOrderPayAt.Table)]
    TxOrderPayAt.Unspecified.
Definition stock_direction_signed (direction : string) (qty : Z) : Z :=
  match_str direction
    [("in", qty); ("out", (- qty)%i32); ("transfer", 0)]
    qty.

(** ** Properties *)

(** The texts the schema's CHECK constraints allow ([_/schemas/tx.sql]). *)
Definition chk_tx_ty : list string :=
  ["sale"; "purchase"; "transfer"; "adjustment"; "return_sale"; "return_purchase";
   "reservation"; "ship"; "payment"; "receipt"; "debt_payable"; "debt_receivable";
   "inventory"].
Definition chk_tx_state : list string :=
  ["ok"; "draft"; "pending"; "waiting_payment"; "cancelled"].
Definition chk_tx_input_mode : list string :=
  ["normal"; "accounting"; "sell"; "purchase"].
Definition chk_tx_input_source : list string := ["manual"; "web"; "ai"; "api"].
Definition chk_tx_payment_method : list string :=
  ["cash"; "card"; "transfer"; "qris"; "debt"; "wallet"].

(** The value a name stands for once stored: the unspecified value of a type
    whose column has no empty text becomes the first concrete one. *)
Definition tx_type_stored (t : TxType) : TxType :=
  if decide (t = TxType.Unspecified) then TxType.Sale else t.
Definition tx_input_source_stored (s : TxInputSource) : TxInputSource :=
  if decide (s = TxInputSource.Unspecified) then TxInputSource.Manual else s.
Definition tx_payment_method_stored (m : TxPaymentMethod) : TxPaymentMethod :=
  if decide (m = TxPaymentMethod.Unspecified) then TxPaymentMethod.Cash else m.
Definition tx_debt_payment_method_stored (m : TxDebtPaymentMethod) : TxDebtPaymentMethod :=
  if decide (m = TxDebtPaymentMethod.Unspecified) then TxDebtPaymentMethod.Cash else m.
Definition tx_acc_side_stored (s : TxAccSide) : TxAccSide :=
  if decide (s = TxAccSide.Unspecified) then TxAccSide.Debit else s.

Lemma tx_type_roundtrip t : tx_type_from_str (tx_type_str t) = tx_type_stored t.
Proof. by destruct t. Qed.
Lemma tx_state_roundtrip s : tx_state_from_str (tx_state_str s) = s.
Proof. by destruct s. Qed.
Lemma tx_input_mode_roundtrip m : tx_input_mode_from_str (tx_input_mode_str m) = m.
Proof. by destruct m. Qed.
Lemma tx_input_source_roundtrip s :
  tx_input_source_from_str (tx_input_source_str s) = tx_input_source_stored s.
Proof. by destruct s. Qed.
Lemma tx_payment_method_roundtrip m :
  tx_payment_method_from_str (tx_payment_method_str m) = tx_payment_method_stored m.
Proof. by destruct m. Qed.
Lemma tx_debt_payment_method_roundtrip m :
  tx_debt_payment_method_from_str (tx_debt_payment_method_str m)
    = tx_debt_payment_method_stored m.
Proof. by destruct m. Qed.
Lemma tx_acc_side_roundtrip s :
  tx_acc_side_from_str (tx_acc_side_str s) = tx_acc_side_stored s.
Proof. by destruct s. Qed.
Lemma tx_fulfillment_roundtrip s : tx_fulfillment_from_str (tx_fulfillment_str s) = s.
Proof. by destruct s. Qed.
Lemma tx_order_pay_at_roundtrip v : tx_order_pay_at_from_str (tx_order_pay_at_str v) = v.
Proof. by destruct v. Qed.

#[export] Hint Rewrite tx_type_roundtrip tx_state_roundtrip tx_input_mode_roundtrip
  tx_input_source_roundtrip tx_payment_method_roundtrip tx_debt_payment_method_roundtrip
  tx_acc_side_roundtrip tx_fulfillment_roundtrip tx_order_pay_at_roundtrip : enum_names.

Lemma stock_direction_signed_range d q :
  in_i32 q -> in_i32 (stock_direction_signed d q).
Proof.
  intros Hq. unfold stock_direction_signed; cbn.
  repeat case_match; try done. apply to_i32_in.
Qed.
#[export] Hint Resolve stock_direction_signed_range : machine.

(** The names the database columns may have are exactly those the
    enums are written as, every enum value is written as one of them, and reading
    a name inverts writing it (up to the values that share a name, which are read
    as the one kept for it). *)
Theorem enum_names_complete :
  (forall s t, In s chk_tx_ty -> (tx_type_str t = s <-> tx_type_stored t = tx_type_from_str s)) /\
  (forall s t, In s chk_tx_state -> (tx_state_str t = s <-> t = tx_state_from_str s)) /\
  (forall s t, In s chk_tx_input_mode -> (tx_input_mode_str t = s <-> t = tx_input_mode_from_str s)) /\
  (forall s t, In s chk_tx_input_source ->
     (tx_input_source_str t = s <-> tx_input_source_stored t = tx_input_source_from_str s)) /\
  (forall s t, In s chk_tx_payment_method ->
     (tx_payment_method_str t = s <-> tx_payment_method_stored t = tx_payment_method_from_str s)) /\
  (forall t, In (tx_type_str t) chk_tx_ty) /\
  (forall t, In (tx_state_str t) chk_tx_state) /\
  (forall t, In (tx_input_mode_str t) chk_tx_input_mode) /\
  (forall t, In (tx_input_source_str t) chk_tx_input_source) /\
  (forall t, In (tx_payment_method_str t) chk_tx_payment_method).
Proof.
  split_and!; try (intros []; cbn; tauto);
    intros s t Hs; cbn in Hs; repeat destruct Hs as [<-|Hs]; try done;
    destruct t; cbn; done.
Qed.
