(* ===== verification/Rows.v ===== *)
(** * From rows to messages ([servers/crates/mod_tx/src/rows.rs]) *)
From S2P Require Import Prelude Ts TxProto World Json TxData Db EnumMap.

Section Rows.
Context `{!Chrono} `{!SerdeJson}.

Definition tx_header_from_row (k : TxKey) (r : Row TxRow) : Tx :=
  {| Tx_default with
     Tx.site_iid := k.1;
     Tx.tx_id := k.2;
     Tx.type := enum_to_i32 (tx_type_from_str r.(cols).(TxRow.ty));
     Tx.state := enum_to_i32 (tx_state_from_str r.(cols).(TxRow.state));
     Tx.input_mode := enum_to_i32 (tx_input_mode_from_str r.(cols).(TxRow.input_mode));
     Tx.input_source := enum_to_i32 (tx_input_source_from_str r.(cols).(TxRow.input_source));
     Tx.is_archived := r.(cols).(TxRow.is_archived);
     Tx.desc := r.(cols).(TxRow.desc);
     Tx.time_ts_ms := ts_ms (Some r.(cols).(TxRow.time_ts));
     Tx.created_by_iid := default 0 r.(cols).(TxRow.created_by_iid);
     Tx.cancel_reason := default "" r.(cols).(TxRow.cancel_reason);
     Tx.subject_contact_id := r.(cols).(TxRow.subject_contact_id);
     Tx.subject_name := r.(cols).(TxRow.subject_name);
     Tx.subject_phone := r.(cols).(TxRow.subject_phone);
     Tx.subject_address := r.(cols).(TxRow.subject_address);
     Tx.cashier_name := r.(cols).(TxRow.cashier_name);
     Tx.store_id := r.(cols).(TxRow.store_id);
     Tx.store_tgt_id := r.(cols).(TxRow.store_tgt_id);
     Tx.delivery_state := r.(cols).(TxRow.delivery_state);
     Tx.obj_id := r.(cols).(TxRow.obj_id);
     Tx.promo_code := r.(cols).(TxRow.promo_code);
     Tx.is_paid := r.(cols).(TxRow.is_paid);
     Tx.is_task_assigned := r.(cols).(TxRow.is_task_assigned);
     Tx.order_pay_at := enum_to_i32 (tx_order_pay_at_from_str r.(cols).(TxRow.order_pay_at));
     Tx.items_count := r.(cols).(TxRow.items_count);
     Tx.items_qty := r.(cols).(TxRow.items_qty);
     Tx.items_total := r.(cols).(TxRow.items_total);
     Tx.debt_total := r.(cols).(TxRow.debt_total);
     Tx.debt_paid := r.(cols).(TxRow.debt_paid);
     Tx.debt_unpaid := r.(cols).(TxRow.debt_unpaid);
     Tx.total_taxes := r.(cols).(TxRow.total_taxes);
     Tx.total_discounts := r.(cols).(TxRow.total_discounts);
     Tx.total_interest := r.(cols).(TxRow.total_interest);
     Tx.total_paid := r.(cols).(TxRow.total_paid);
     Tx.total_unpaid := r.(cols).(TxRow.total_unpaid);
     Tx.total := r.(cols).(TxRow.total);
     Tx.stock_line_count := r.(cols).(TxRow.stock_line_count);
     Tx.stock_qty_in := r.(cols).(TxRow.stock_qty_in);
     Tx.stock_qty_out := r.(cols).(TxRow.stock_qty_out);
     Tx.acc_line_count := r.(cols).(TxRow.acc_line_count);
     Tx.acc_sum := r.(cols).(TxRow.acc_sum);
     Tx.acc_balanced := r.(cols).(TxRow.acc_balanced);
     Tx.has_manual_lines := r.(cols).(TxRow.has_manual_lines);
     Tx.tx_data := tx_data_from_json r.(cols).(TxRow.tx_data_json);
     Tx.created_ts_ms := ts_ms (Some r.(created_ts));
     Tx.updated_ts_ms := ts_ms (Some r.(updated_ts));
     Tx.deleted_ts_ms := ts_ms r.(deleted_ts) |}.

Definition tx_item_from_row (k : TxKey) (c : Z) (r : ItemRow) : TxItem :=
  {| TxItem_default with
     TxItem.site_iid := k.1;
     TxItem.tx_id := k.2;
     TxItem.item_id := c;
     TxItem.owner_iid := r.(ItemRow.owner_iid);
     TxItem.product_id := r.(ItemRow.product_id);
     TxItem.product_rev := r.(ItemRow.product_rev);
     TxItem.obj_id := r.(ItemRow.obj_id);
     TxItem.price := r.(ItemRow.price);
     TxItem.qty := r.(ItemRow.qty);
     TxItem.note := r.(ItemRow.note);
     TxItem.batch_number := r.(ItemRow.batch_number);
     TxItem.serial_number := r.(ItemRow.serial_number);
     TxItem.fulfillment_state := enum_to_i32 (tx_fulfillment_from_str r.(ItemRow.fulfillment_state));
     TxItem.total_qty := r.(ItemRow.total_qty);
     TxItem.total_price := r.(ItemRow.total_price);
     TxItem.total_discount := r.(ItemRow.total_discount);
     TxItem.total_tax := r.(ItemRow.total_tax);
     TxItem.total_net := r.(ItemRow.total_net);
     TxItem.total_paid := r.(ItemRow.total_paid);
     TxItem.total_unpaid := r.(ItemRow.total_unpaid) |}.

Definition tx_item_source_from_row (c : Z * Z) (r : SourceRow) : TxItemSource :=
  {| TxItemSource.src_id := c.2;
     TxItemSource.obj_id := r.(SourceRow.obj_id);
     TxItemSource.product_id := r.(SourceRow.product_id);
     TxItemSource.qty := r.(SourceRow.qty);
     TxItemSource.note := r.(SourceRow.note) |}.

Definition tx_item_reservation_from_row (c : Z * Z) (r : ReservationRow) : TxItemReservation :=
  {| TxItemReservation.res_id := c.2;
     TxItemReservation.product_id := r.(ReservationRow.product_id);
     TxItemReservation.site_object_id := r.(ReservationRow.site_object_id);
     TxItemReservation.qty := r.(ReservationRow.qty);
     TxItemReservation.duration_qty := r.(ReservationRow.duration_qty);
     TxItemReservation.note := r.(ReservationRow.note);
     TxItemReservation.start_ts_ms := ts_ms r.(ReservationRow.start_ts);
     TxItemReservation.end_ts_ms := ts_ms r.(ReservationRow.end_ts);
     TxItemReservation.state := r.(ReservationRow.state);
     TxItemReservation.is_no_show := r.(ReservationRow.is_no_show);
     TxItemReservation.is_unavailable := r.(ReservationRow.is_unavailable) |}.

Definition tx_payment_from_row (c : Z) (r : PaymentRow) : TxPayment :=
  {| TxPayment_default with
     TxPayment.payment_id := c;
     TxPayment.method := enum_to_i32 (tx_payment_method_from_str r.(PaymentRow.method));
     TxPayment.ts_ms := ts_ms (Some r.(PaymentRow.ts));
     TxPayment.amount := r.(PaymentRow.amount);
     TxPayment.note := r.(PaymentRow.note);
     TxPayment.from_wallet := r.(PaymentRow.from_wallet);
     TxPayment.to_wallet := r.(PaymentRow.to_wallet);
     TxPayment.debt_interest := r.(PaymentRow.debt_interest);
     TxPayment.payment_json := to_string r.(PaymentRow.payment_json) |}.

Definition tx_installment_from_row (c : Z * Z) (r : InstallmentRow) : TxInstallment :=
  {| TxInstallment_default with
     TxInstallment.inst_id := c.2;
     TxInstallment.due_ts_ms := ts_ms r.(InstallmentRow.due_ts);
     TxInstallment.amount := r.(InstallmentRow.amount);
     TxInstallment.note := r.(InstallmentRow.note);
     TxInstallment.is_paid := r.(InstallmentRow.is_paid);
     TxInstallment.is_overdue := r.(InstallmentRow.is_overdue) |}.

Definition tx_debt_payment_from_row (c : Z * Z * Z) (r : DebtPaymentRow) : TxDebtPayment :=
  {| TxDebtPayment.pay_id := c.2;
     TxDebtPayment.ts_ms := ts_ms (Some r.(DebtPaymentRow.ts));
     TxDebtPayment.method := enum_to_i32 (tx_debt_payment_method_from_str r.(DebtPaymentRow.method));
     TxDebtPayment.amount := r.(DebtPaymentRow.amount);
     TxDebtPayment.note := r.(DebtPaymentRow.note);
     TxDebtPayment.overdue_interest := r.(DebtPaymentRow.overdue_interest);
     TxDebtPayment.payment_json := to_string r.(DebtPaymentRow.payment_json) |}.

Definition tx_acc_from_row (c : Z) (r : AccRow) : TxAcc :=
  {| TxAcc.acc_id := c;
     TxAcc.acc_code := r.(AccRow.acc_code);
     TxAcc.ts_ms := ts_ms (Some r.(AccRow.ts));
     TxAcc.side := enum_to_i32 (tx_acc_side_from_str r.(AccRow.side));
     TxAcc.amount := r.(AccRow.amount);
     TxAcc.note := r.(AccRow.note);
     TxAcc.is_tx_generated := r.(AccRow.is_tx_generated) |}.

Definition tx_stock_from_row (c : Z) (r : StockRow) : TxStock :=
  {| TxStock.stock_id := c;
     TxStock.product_id := r.(StockRow.product_id);
     TxStock.ts_ms := ts_ms (Some r.(StockRow.ts));
     TxStock.obj_from_id := r.(StockRow.obj_from_id);
     TxStock.obj_to_id := r.(StockRow.obj_to_id);
     TxStock.qty := r.(StockRow.qty);
     TxStock.qty_signed := r.(StockRow.qty_signed);
     TxStock.direction := r.(StockRow.direction);
     TxStock.note := r.(StockRow.note) |}.

Definition tx_tax_from_row (c : Z) (r : TaxRow) : TxTax :=
  {| TxTax.tax_id := c;
     TxTax.tax_type := r.(TaxRow.tax_type);
     TxTax.amount := r.(TaxRow.amount);
     TxTax.note := r.(TaxRow.note) |}.

Definition tx_discount_from_row (c : Z) (r : DiscountRow) : TxDiscount :=
  {| TxDiscount.discount_id := c;
     TxDiscount.discount_type := r.(DiscountRow.discount_type);
     TxDiscount.amount := r.(DiscountRow.amount);
     TxDiscount.note := r.(DiscountRow.note) |}.

End Rows.
