(* ===== verification/Persist.v ===== *)
(** * Saving a transaction ([servers/crates/mod_tx/src/persist.rs])

    The header is upserted; the children are deleted and inserted again. *)
From S2P Require Import Prelude Strs Ts TxProto World Json TxData Db EnumMap.

Section Persist.
Context `{!Chrono} `{!SerdeJson}.
Notation M := (M Db).

(** ** Statements *)

(** A foreign key to [ai.identity]. *)
Definition fk_identity (id : Z) (d : Db) : result () :=
  match d.(t_identity) !! id with
  | Some _ => Ok tt
  | None => Err "insert or update violates foreign key constraint"
  end.

(** An [INSERT] into a child table, reached by a getter and a setter. *)
Definition insert_child {C R} `{Countable C} (getter : Db -> Children C R)
    (setter : Children C R -> Db -> Db) (k : TxKey) (c : C) (r : R) : M () :=
  sql (fun now d =>
    t ← t_insert (k, c) (new_row now r) (getter d);
    Ok (tt, setter t d)).
Definition delete_children {C R} `{Countable C} (getter : Db -> Children C R)
    (setter : Children C R -> Db -> Db) (k : TxKey) : M () :=
  sql (fun _ d => Ok (tt, setter (t_delete (of_tx k) (getter d)) d)).

Definition set_item t d : Db := {| d with t_item := t |}.
Definition set_reservation t d : Db := {| d with t_reservation := t |}.
Definition set_source t d : Db := {| d with t_source := t |}.
Definition set_payment t d : Db := {| d with t_payment := t |}.
Definition set_installment t d : Db := {| d with t_installment := t |}.
Definition set_debt_payment t d : Db := {| d with t_debt_payment := t |}.
Definition set_acc t d : Db := {| d with t_acc := t |}.
Definition set_stock t d : Db := {| d with t_stock := t |}.
Definition set_tax t d : Db := {| d with t_tax := t |}.
Definition set_discount t d : Db := {| d with t_discount := t |}.

Definition tx_children_del (site_iid tx_id : Z) : M () :=
  let k := (site_iid, tx_id) in
  delete_children t_debt_payment set_debt_payment k;;
  delete_children t_installment set_installment k;;
  delete_children t_reservation set_reservation k;;
  delete_children t_source set_source k;;
  delete_children t_item set_item k;;
  delete_children t_payment set_payment k;;
  delete_children t_acc set_acc k;;
  delete_children t_stock set_stock k;;
  delete_children t_tax set_tax k;;
  delete_children t_discount set_discount k.

(** ** Header *)

(** [ts_from_ms(ms).unwrap_or_else(chrono::Utc::now)] *)
Definition ts_or_now (ms : Z) : M DateTime :=
  match ts_from_ms ms with Some t => mret t | None => utc_now end.

Definition tx_header_row (owner_iid : Z) (tx : Tx) (time_ts : DateTime)
    (generated_count manual_count : Z) : TxRow :=
  let ty := try_from_or TxType.Unspecified tx.(Tx.type) in
  let state := try_from_or TxState.Ok tx.(Tx.state) in
  let input_mode := try_from_or TxInputMode.Normal tx.(Tx.input_mode) in
  let input_source := try_from_or TxInputSource.Manual tx.(Tx.input_source) in
  let order_pay_at := try_from_or TxOrderPayAt.Unspecified tx.(Tx.order_pay_at) in
  let tx_data_json :=
    match tx.(Tx.tx_data) with Some data => tx_data_to_json data | None => json_object [] end in
  let cancel_reason :=
    if is_empty tx.(Tx.cancel_reason) then None else Some tx.(Tx.cancel_reason) in
  let created_by :=
    if 0 <? tx.(Tx.created_by_iid) then Some tx.(Tx.created_by_iid) else None in
  {| TxRow.owner_iid := owner_iid;
     TxRow.ty := tx_type_str ty;
     TxRow.state := tx_state_str state;
     TxRow.input_mode := tx_input_mode_str input_mode;
     TxRow.input_source := tx_input_source_str input_source;
     TxRow.is_archived := tx.(Tx.is_archived);
     TxRow.desc := tx.(Tx.desc);
     TxRow.time_ts := time_ts;
     TxRow.created_by_iid := created_by;
     TxRow.cancel_reason := cancel_reason;
     TxRow.subject_contact_id := tx.(Tx.subject_contact_id);
     TxRow.subject_name := tx.(Tx.subject_name);
     TxRow.subject_phone := tx.(Tx.subject_phone);
     TxRow.subject_address := tx.(Tx.subject_address);
     TxRow.cashier_name := tx.(Tx.cashier_name);
     TxRow.store_id := tx.(Tx.store_id);
     TxRow.store_tgt_id := tx.(Tx.store_tgt_id);
     TxRow.delivery_state := tx.(Tx.delivery_state);
     TxRow.obj_id := tx.(Tx.obj_id);
     TxRow.promo_code := tx.(Tx.promo_code);
     TxRow.is_paid := tx.(Tx.is_paid);
     TxRow.is_task_assigned := tx.(Tx.is_task_assigned);
     TxRow.order_pay_at := tx_order_pay_at_str order_pay_at;
     TxRow.items_count := tx.(Tx.items_count);
     TxRow.items_qty := tx.(Tx.items_qty);
     TxRow.items_total := tx.(Tx.items_total);
     TxRow.debt_total := tx.(Tx.debt_total);
     TxRow.debt_paid := tx.(Tx.debt_paid);
     TxRow.debt_unpaid := tx.(Tx.debt_unpaid);
     TxRow.total_taxes := tx.(Tx.total_taxes);
     TxRow.total_discounts := tx.(Tx.total_discounts);
     TxRow.total_interest := tx.(Tx.total_interest);
     TxRow.total_paid := tx.(Tx.total_paid);
     TxRow.total_unpaid := tx.(Tx.total_unpaid);
     TxRow.total := tx.(Tx.total);
     TxRow.stock_line_count := tx.(Tx.stock_line_count);
     TxRow.stock_qty_in := tx.(Tx.stock_qty_in);
     TxRow.stock_qty_out := tx.(Tx.stock_qty_out);
     TxRow.acc_line_count := tx.(Tx.acc_line_count);
     TxRow.acc_sum := tx.(Tx.acc_sum);
     TxRow.acc_balanced := tx.(Tx.acc_balanced);
     TxRow.has_manual_lines := tx.(Tx.has_manual_lines);
     TxRow.generated_count := generated_count;
     TxRow.manual_count := manual_count;
     TxRow.tx_data_json := tx_data_json |}.

(** [INSERT ... ON CONFLICT (site_iid, tx_id) DO UPDATE]: the existing row keeps
    its creation stamp and is undeleted. *)
Definition upsert_tx (k : TxKey) (row : TxRow) : M () :=
  sql (fun now d =>
    fk_identity k.1 d;; fk_identity row.(TxRow.owner_iid) d;;
    match row.(TxRow.created_by_iid) with Some i => fk_identity i d | None => Ok tt end;;
    let r := match d.(t_tx) !! k with
      | None => new_row now row
      | Some old => mk_row row old.(created_ts) now None
      end in
    Ok (tt, {| d with t_tx := <[k := r]> d.(t_tx) |})).

Definition tx_header_put (owner_iid : Z) (tx : Tx) (generated_count manual_count : Z) : M () :=
  time_ts ← ts_or_now tx.(Tx.time_ts_ms);
  upsert_tx (tx.(Tx.site_iid), tx.(Tx.tx_id))
    (tx_header_row owner_iid tx time_ts generated_count manual_count).

(** ** Catalog ([mod_site/src/site_product.rs]) *)

Definition site_product_mark_used (site_iid product_id : Z) : M () :=
  if (site_iid <=? 0) || (product_id <=? 0) then mret tt
  else sql (fun now d =>
    let P k r := bool_decide (k = (site_iid, product_id))
      && negb r.(cols).(ProductRow.is_used) && live r in
    let '(t, _) := t_update P (set_cols now (fun p => {| p with ProductRow.is_used := true |}))
                     d.(t_product) in
    Ok (tt, {| d with t_product := t |})).

(** ** Children *)

(** [if id > 0 { id } else { snowflake_id() }] *)
Definition or_next_id (id : Z) : M Z := if 0 <? id then mret id else next_id.

Definition tx_items_ensure_ids (items : list TxItem) : M (list TxItem) :=
  mapM (fun item : TxItem =>
    if item.(TxItem.item_id) =? 0
    then id ← next_id; mret {| item with TxItem.item_id := id |}
    else mret item) items.

Definition item_row (site_iid : Z) (item : TxItem) : ItemRow :=
  let fulfillment := try_from_or TxItemFulfillmentState.TxItemFulfillmentUnspecified
    item.(TxItem.fulfillment_state) in
  let item_owner_iid := if 0 <? item.(TxItem.owner_iid) then item.(TxItem.owner_iid) else site_iid in
  {| ItemRow.owner_iid := item_owner_iid;
     ItemRow.obj_id := item.(TxItem.obj_id);
     ItemRow.product_id := item.(TxItem.product_id);
     ItemRow.product_rev := item.(TxItem.product_rev);
     ItemRow.price := item.(TxItem.price);
     ItemRow.qty := item.(TxItem.qty);
     ItemRow.note := item.(TxItem.note);
     ItemRow.batch_number := item.(TxItem.batch_number);
     ItemRow.serial_number := item.(TxItem.serial_number);
     ItemRow.fulfillment_state := tx_fulfillment_str fulfillment;
     ItemRow.total_qty := item.(TxItem.total_qty);
     ItemRow.total_price := item.(TxItem.total_price);
     ItemRow.total_discount := item.(TxItem.total_discount);
     ItemRow.total_tax := item.(TxItem.total_tax);
     ItemRow.total_net := item.(TxItem.total_net);
     ItemRow.total_paid := item.(TxItem.total_paid);
     ItemRow.total_unpaid := item.(TxItem.total_unpaid) |}.
Definition source_row (src : TxItemSource) : SourceRow :=
  {| SourceRow.obj_id := src.(TxItemSource.obj_id);
     SourceRow.product_id := src.(TxItemSource.product_id);
     SourceRow.qty := src.(TxItemSource.qty);
     SourceRow.note := src.(TxItemSource.note) |}.
Definition reservation_row (res : TxItemReservation) : ReservationRow :=
  {| ReservationRow.product_id := res.(TxItemReservation.product_id);
     ReservationRow.site_object_id := res.(TxItemReservation.site_object_id);
     ReservationRow.qty := res.(TxItemReservation.qty);
     ReservationRow.duration_qty := res.(TxItemReservation.duration_qty);
     ReservationRow.note := res.(TxItemReservation.note);
     ReservationRow.start_ts := ts_from_ms res.(TxItemReservation.start_ts_ms);
     ReservationRow.end_ts := ts_from_ms res.(TxItemReservation.end_ts_ms);
     ReservationRow.state := res.(TxItemReservation.state);
     ReservationRow.is_no_show := res.(TxItemReservation.is_no_show);
     ReservationRow.is_unavailable := res.(TxItemReservation.is_unavailable) |}.

Definition item_put (k : TxKey) (item : TxItem) : M () :=
  let row := item_row k.1 item in
  sql (fun now d =>
    fk_identity row.(ItemRow.owner_iid) d;;
    t ← t_insert (k, item.(TxItem.item_id)) (new_row now row) d.(t_item);
    Ok (tt, set_item t d));;
  (if 0 <? item.(TxItem.product_id)
   then site_product_mark_used k.1 item.(TxItem.product_id) else mret tt);;
  forM_ item.(TxItem.sources) (fun src =>
    src_id ← or_next_id src.(TxItemSource.src_id);
    insert_child t_source set_source k (item.(TxItem.item_id), src_id) (source_row src));;
  forM_ item.(TxItem.reservations) (fun res =>
    res_id ← or_next_id res.(TxItemReservation.res_id);
    insert_child t_reservation set_reservation k (item.(TxItem.item_id), res_id)
      (reservation_row res)).

(** The [JSONB] value of a raw text. *)
Definition payment_json_value (s : string) : Value :=
  if is_empty s then json_object [] else default (json_object []) (from_str s).

Definition debt_payment_row (dp : TxDebtPayment) (ts : DateTime) : DebtPaymentRow :=
  let dp_method := try_from_or TxDebtPaymentMethod.Unspecified dp.(TxDebtPayment.method) in
  {| DebtPaymentRow.ts := ts;
     DebtPaymentRow.method := tx_debt_payment_method_str dp_method;
     DebtPaymentRow.amount := dp.(TxDebtPayment.amount);
     DebtPaymentRow.note := dp.(TxDebtPayment.note);
     DebtPaymentRow.overdue_interest := dp.(TxDebtPayment.overdue_interest);
     DebtPaymentRow.payment_json := payment_json_value dp.(TxDebtPayment.payment_json);
     DebtPaymentRow.is_paid := 0 <? dp.(TxDebtPayment.amount);
     DebtPaymentRow.is_overdue := false |}.
Definition installment_row (inst : TxInstallment) : InstallmentRow :=
  {| InstallmentRow.due_ts := ts_from_ms inst.(TxInstallment.due_ts_ms);
     InstallmentRow.amount := inst.(TxInstallment.amount);
     InstallmentRow.note := inst.(TxInstallment.note);
     InstallmentRow.is_paid := inst.(TxInstallment.is_paid);
     InstallmentRow.is_overdue := inst.(TxInstallment.is_overdue) |}.
Definition payment_row (p : TxPayment) (ts : DateTime) : PaymentRow :=
  let method := try_from_or TxPaymentMethod.Unspecified p.(TxPayment.method) in
  {| PaymentRow.method := tx_payment_method_str method;
     PaymentRow.ts := ts;
     PaymentRow.amount := p.(TxPayment.amount);
     PaymentRow.note := p.(TxPayment.note);
     PaymentRow.from_wallet := p.(TxPayment.from_wallet);
     PaymentRow.to_wallet := p.(TxPayment.to_wallet);
     PaymentRow.debt_interest := p.(TxPayment.debt_interest);
     PaymentRow.payment_json := payment_json_value p.(TxPayment.payment_json) |}.

Definition debt_payment_put (k : TxKey) (payment_id inst_id : Z) (dp : TxDebtPayment)
    : M TxDebtPayment :=
  pay_id ← or_next_id dp.(TxDebtPayment.pay_id);
  ts ← ts_or_now dp.(TxDebtPayment.ts_ms);
  insert_child t_debt_payment set_debt_payment k (payment_id, inst_id, pay_id)
    (debt_payment_row dp ts);;
  mret {| dp with TxDebtPayment.pay_id := pay_id |}.

Definition installment_put (k : TxKey) (payment_id : Z) (inst : TxInstallment)
    : M TxInstallment :=
  inst_id ← or_next_id inst.(TxInstallment.inst_id);
  insert_child t_installment set_installment k (payment_id, inst_id) (installment_row inst);;
  dps ← mapM (debt_payment_put k payment_id inst_id) inst.(TxInstallment.debt_payments);
  mret {| inst with TxInstallment.inst_id := inst_id; TxInstallment.debt_payments := dps |}.

Definition payment_put (k : TxKey) (p : TxPayment) : M TxPayment :=
  payment_id ← or_next_id p.(TxPayment.payment_id);
  ts ← ts_or_now p.(TxPayment.ts_ms);
  insert_child t_payment set_payment k payment_id (payment_row p ts);;
  insts ← mapM (installment_put k payment_id) p.(TxPayment.installments);
  mret {| p with TxPayment.payment_id := payment_id; TxPayment.installments := insts |}.

Definition acc_row (acc : TxAcc) (ts : DateTime) : AccRow :=
  let side := try_from_or TxAccSide.Unspecified acc.(TxAcc.side) in
  {| AccRow.acc_code := acc.(TxAcc.acc_code);
     AccRow.ts := ts;
     AccRow.side := tx_acc_side_str side;
     AccRow.amount := acc.(TxAcc.amount);
     AccRow.note := acc.(TxAcc.note);
     AccRow.is_tx_generated := acc.(TxAcc.is_tx_generated) |}.

(** The table checks that amounts are not negative. *)
Definition acc_put (k : TxKey) (acc : TxAcc) : M TxAcc :=
  acc_id ← or_next_id acc.(TxAcc.acc_id);
  ts ← ts_or_now acc.(TxAcc.ts_ms);
  sql (fun now d =>
    if acc.(TxAcc.amount) <? 0 then Err "new row violates check constraint"
    else
      t ← t_insert (k, acc_id) (new_row now (acc_row acc ts)) d.(t_acc);
      Ok (tt, set_acc t d));;
  mret {| acc with TxAcc.acc_id := acc_id |}.

Definition stock_row (stock : TxStock) (ts : DateTime) : StockRow :=
  {| StockRow.product_id := stock.(TxStock.product_id);
     StockRow.ts := ts;
     StockRow.obj_from_id := stock.(TxStock.obj_from_id);
     StockRow.obj_to_id := stock.(TxStock.obj_to_id);
     StockRow.qty := stock.(TxStock.qty);
     StockRow.qty_signed := stock.(TxStock.qty_signed);
     StockRow.direction := stock.(TxStock.direction);
     StockRow.note := stock.(TxStock.note) |}.
Definition stock_put (k : TxKey) (stock : TxStock) : M TxStock :=
  stock_id ← or_next_id stock.(TxStock.stock_id);
  ts ← ts_or_now stock.(TxStock.ts_ms);
  insert_child t_stock set_stock k stock_id (stock_row stock ts);;
  mret {| stock with TxStock.stock_id := stock_id |}.

Definition tax_row (tax : TxTax) : TaxRow :=
  {| TaxRow.tax_type := tax.(TxTax.tax_type); TaxRow.amount := tax.(TxTax.amount);
     TaxRow.note := tax.(TxTax.note) |}.
Definition tax_put (k : TxKey) (tax : TxTax) : M TxTax :=
  tax_id ← or_next_id tax.(TxTax.tax_id);
  insert_child t_tax set_tax k tax_id (tax_row tax);;
  mret {| tax with TxTax.tax_id := tax_id |}.

Definition discount_row (disc : TxDiscount) : DiscountRow :=
  {| DiscountRow.discount_type := disc.(TxDiscount.discount_type);
     DiscountRow.amount := disc.(TxDiscount.amount); DiscountRow.note := disc.(TxDiscount.note) |}.
Definition discount_put (k : TxKey) (disc : TxDiscount) : M TxDiscount :=
  discount_id ← or_next_id disc.(TxDiscount.discount_id);
  insert_child t_discount set_discount k discount_id (discount_row disc);;
  mret {| disc with TxDiscount.discount_id := discount_id |}.

(** All children, in the order of the source; the transaction comes back with
    the ids it was given. *)
Definition tx_children_put (tx : Tx) : M Tx :=
  let k := (tx.(Tx.site_iid), tx.(Tx.tx_id)) in
  items ← tx_items_ensure_ids tx.(Tx.items);
  forM_ items (item_put k);;
  payments ← mapM (payment_put k) tx.(Tx.payments);
  accs ← mapM (acc_put k) tx.(Tx.accs);
  stocks ← mapM (stock_put k) tx.(Tx.stocks);
  taxes ← mapM (tax_put k) tx.(Tx.taxes);
  discounts ← mapM (discount_put k) tx.(Tx.discounts);
  mret {| tx with Tx.items := items; Tx.payments := payments; Tx.accs := accs;
          Tx.stocks := stocks; Tx.taxes := taxes; Tx.discounts := discounts |}.

Definition tx_acc_counts (tx : Tx) : Z * Z :=
  foldl (fun '(generated, manual) acc =>
    if acc.(TxAcc.is_tx_generated) then ((generated + 1)%i32, manual)
    else (generated, (manual + 1)%i32)) (0, 0) tx.(Tx.accs).

End Persist.
