(* ===== verification/Load.v ===== *)
(** * Loading a transaction ([servers/crates/mod_tx/src/load.rs])

    The header row, then one query per child table.  Items, payments and
    installments pass through hash maps, so they come in no order; the other
    children are ordered by their id. *)
From stdpp Require Import sorting.
From S2P Require Import Prelude Ts TxProto World Json TxData Db EnumMap Rows.

(** [ORDER BY] the child's id *)
Definition by_id {R} (a b : Z * R) : Prop := a.1 <= b.1.
#[export] Instance by_id_dec {R} (a b : Z * R) : Decision (by_id a b).
Proof. unfold by_id. apply _. Defined.
Definition order_by_id {R} (l : list (Z * R)) : list (Z * R) := merge_sort by_id l.

Section Load.
Context `{!Chrono} `{!SerdeJson} `{!Order}.
Notation M := (M Db).

(** The query for a child table. *)
Definition select_children {C R} `{Countable C} (getter : Db -> Children C R) (k : TxKey)
    : M (list (C * R)) :=
  query (fun _ d => child_rows k (getter d)).

(** [map.get_mut(&key)] and a push; nothing when the key is absent. *)
Definition push_into {K A} `{Countable K} (key : K) (f : A -> A) (m : gmap K A) : gmap K A :=
  match m !! key with Some a => <[key := f a]> m | None => m end.

Definition item_map_of (k : TxKey) (rows : list (Z * ItemRow)) : gmap Z TxItem :=
  foldl (fun m e => let item := tx_item_from_row k e.1 e.2 in
                    <[item.(TxItem.item_id) := item]> m) ∅ rows.
Definition attach_sources (rows : list ((Z * Z) * SourceRow)) (m : gmap Z TxItem)
    : gmap Z TxItem :=
  foldl (fun m e => push_into e.1.1 (fun item =>
    {| item with TxItem.sources :=
         item.(TxItem.sources) ++ [tx_item_source_from_row e.1 e.2] |}) m) m rows.
Definition attach_reservations (rows : list ((Z * Z) * ReservationRow)) (m : gmap Z TxItem)
    : gmap Z TxItem :=
  foldl (fun m e => push_into e.1.1 (fun item =>
    {| item with TxItem.reservations :=
         item.(TxItem.reservations) ++ [tx_item_reservation_from_row e.1 e.2] |}) m) m rows.

Definition load_items (k : TxKey) : M (list TxItem) :=
  rows ← select_children t_item k;
  let item_map := item_map_of k (order_by_id rows) in
  item_map ←
    (if bool_decide (item_map = ∅) then mret item_map
     else
       sources ← select_children t_source k;
       reservations ← select_children t_reservation k;
       mret (attach_reservations reservations (attach_sources sources item_map)));
  mret (order item_map).*2.

Definition pay_map_of (rows : list (Z * PaymentRow)) : gmap Z TxPayment :=
  foldl (fun m e => let p := tx_payment_from_row e.1 e.2 in
                    <[p.(TxPayment.payment_id) := p]> m) ∅ rows.
Definition inst_map_of (rows : list ((Z * Z) * InstallmentRow)) : gmap (Z * Z) TxInstallment :=
  foldl (fun m e => let inst := tx_installment_from_row e.1 e.2 in
                    <[(e.1.1, inst.(TxInstallment.inst_id)) := inst]> m) ∅ rows.
Definition attach_debt_payments (rows : list ((Z * Z * Z) * DebtPaymentRow))
    (m : gmap (Z * Z) TxInstallment) : gmap (Z * Z) TxInstallment :=
  foldl (fun m e => push_into e.1.1 (fun inst =>
    {| inst with TxInstallment.debt_payments :=
         inst.(TxInstallment.debt_payments) ++ [tx_debt_payment_from_row e.1 e.2] |}) m) m rows.
Definition attach_installments (insts : list ((Z * Z) * TxInstallment))
    (m : gmap Z TxPayment) : gmap Z TxPayment :=
  foldl (fun m e => push_into e.1.1 (fun p =>
    {| p with TxPayment.installments := p.(TxPayment.installments) ++ [e.2] |}) m) m insts.

Definition load_payments (k : TxKey) : M (list TxPayment) :=
  rows ← select_children t_payment k;
  let pay_map := pay_map_of (order_by_id rows) in
  pay_map ←
    (if bool_decide (pay_map = ∅) then mret pay_map
     else
       installments ← select_children t_installment k;
       debt_pays ← select_children t_debt_payment k;
       let inst_map := attach_debt_payments debt_pays (inst_map_of installments) in
       mret (attach_installments (order inst_map) pay_map));
  mret (order pay_map).*2.

(** A child table ordered by id, each row through its conversion. *)
Definition load_ordered {R A : Type} (getter : Db -> Children Z R) (from_row : Z -> R -> A)
    (k : TxKey) : M (list A) :=
  rows ← select_children getter k;
  mret ((fun e => from_row e.1 e.2) <$> order_by_id rows).

Definition tx_children_attach (site_iid tx_id : Z) (tx : Tx) : M Tx :=
  let k := (site_iid, tx_id) in
  items ← load_items k;
  payments ← load_payments k;
  accs ← load_ordered t_acc tx_acc_from_row k;
  stocks ← load_ordered t_stock tx_stock_from_row k;
  taxes ← load_ordered t_tax tx_tax_from_row k;
  discounts ← load_ordered t_discount tx_discount_from_row k;
  mret {| tx with Tx.items := items; Tx.payments := payments; Tx.accs := accs;
          Tx.stocks := stocks; Tx.taxes := taxes; Tx.discounts := discounts |}.

Definition tx_load (site_iid tx_id : Z) : M (option Tx) :=
  row ← query (fun _ d => t_get (site_iid, tx_id) d.(t_tx));
  match row with
  | None => mret None
  | Some row =>
      tx ← tx_children_attach site_iid tx_id (tx_header_from_row (site_iid, tx_id) row);
      mret (Some tx)
  end.

Definition tx_stocks_load (site_iid tx_id : Z) : M (list TxStock) :=
  rows ← select_children t_stock (site_iid, tx_id);
  mret ((fun e => tx_stock_from_row e.1 e.2) <$> rows).

Definition tx_require (site_iid tx_id : Z) : M Tx :=
  tx ← tx_load site_iid tx_id;
  lift (ok_or tx "tx not found").

End Load.
