(* ===== verification/TxJson.v ===== *)
(** * Transactions as JSON ([servers/crates/mod_tx/src/tx_json.rs])

    The representation the assistant's tools and the query layer exchange. *)
From S2P Require Import Prelude Strs TxProto Json EnumMap TxData.

(** ** Field readers *)

Definition i64_field (v : Value) (key : string) : Z := default 0 (get key v ≫= as_i64).
Definition i32_field (v : Value) (key : string) : Z :=
  match get key v ≫= as_i64 with Some n => to_i32 n | None => 0 end.
Definition bool_field (v : Value) (key : string) : bool := default false (get key v ≫= as_bool).
Definition str_field (v : Value) (key : string) : string := default "" (get key v ≫= as_str).

Definition enum_i32 {T} `{ProtoEnum T} (v : Value) (key : string) (from_str : string -> T)
    (from_i32 : Z -> T) : Z :=
  match get key v with
  | Some (Str s) => enum_to_i32 (from_str s)
  | Some (Num n) => enum_to_i32 (from_i32 (to_i32 (default 0 (number_as_i64 n))))
  | _ => enum_to_i32 (from_str "")
  end.

(** [E::try_from(n).unwrap_or_default()] *)
Definition try_from_default {T} `{ProtoEnum T} (n : Z) : T := try_from_or enum_default n.

Definition array_field {A} (v : Value) (key : string) (f : Value -> A) : list A :=
  match get key v ≫= as_array with Some arr => f <$> arr | None => [] end.
Definition json_array {A} (f : A -> Value) (l : list A) : Value := Array (f <$> l).

Section TxJson.
Context `{!SerdeJson}.

(** The raw text of a payment's [payment_json]: whatever value is there is
    printed, strings included. *)
Definition payment_json_field (v : Value) : string :=
  match to_string <$> get "payment_json" v with
  | Some s => if is_empty s || String.eqb s "null" then "" else s
  | None => ""
  end.

(** ** Reading *)

Definition tx_item_reservation_from_json (r : Value) : TxItemReservation :=
  {| TxItemReservation.res_id := i64_field r "res_id";
     TxItemReservation.product_id := i64_field r "product_id";
     TxItemReservation.qty := i32_field r "qty";
     TxItemReservation.duration_qty := i32_field r "duration_qty";
     TxItemReservation.note := str_field r "note";
     TxItemReservation.site_object_id := i64_field r "site_object_id";
     TxItemReservation.start_ts_ms := i64_field r "start_ts_ms";
     TxItemReservation.end_ts_ms := i64_field r "end_ts_ms";
     TxItemReservation.state := str_field r "state";
     TxItemReservation.is_no_show := bool_field r "is_no_show";
     TxItemReservation.is_unavailable := bool_field r "is_unavailable" |}.

Definition tx_item_source_from_json (s : Value) : TxItemSource :=
  {| TxItemSource.src_id := i64_field s "src_id";
     TxItemSource.obj_id := i64_field s "obj_id";
     TxItemSource.product_id := i64_field s "product_id";
     TxItemSource.qty := i32_field s "qty";
     TxItemSource.note := str_field s "note" |}.

Definition tx_item_from_json (v : Value) : TxItem :=
  {| TxItem.site_iid := i64_field v "site_iid";
     TxItem.tx_id := i64_field v "tx_id";
     TxItem.item_id := i64_field v "item_id";
     TxItem.owner_iid := i64_field v "owner_iid";
     TxItem.product_id := i64_field v "product_id";
     TxItem.product_rev := i64_field v "product_rev";
     TxItem.obj_id := i64_field v "obj_id";
     TxItem.price := i64_field v "price";
     TxItem.qty := i32_field v "qty";
     TxItem.note := str_field v "note";
     TxItem.batch_number := str_field v "batch_number";
     TxItem.serial_number := str_field v "serial_number";
     TxItem.fulfillment_state := enum_i32 v "fulfillment_state" tx_fulfillment_from_str try_from_default;
     TxItem.total_qty := i32_field v "total_qty";
     TxItem.total_price := i64_field v "total_price";
     TxItem.total_discount := i64_field v "total_discount";
     TxItem.total_tax := i64_field v "total_tax";
     TxItem.total_net := i64_field v "total_net";
     TxItem.total_paid := i64_field v "total_paid";
     TxItem.total_unpaid := i64_field v "total_unpaid";
     TxItem.reservations := array_field v "reservations" tx_item_reservation_from_json;
     TxItem.sources := array_field v "sources" tx_item_source_from_json |}.

Definition tx_debt_payment_from_json (v : Value) : TxDebtPayment :=
  {| TxDebtPayment.pay_id := i64_field v "pay_id";
     TxDebtPayment.ts_ms := i64_field v "ts_ms";
     TxDebtPayment.method := enum_i32 v "method" tx_debt_payment_method_from_str try_from_default;
     TxDebtPayment.amount := i64_field v "amount";
     TxDebtPayment.note := str_field v "note";
     TxDebtPayment.overdue_interest := i64_field v "overdue_interest";
     TxDebtPayment.payment_json := payment_json_field v |}.

Definition tx_installment_from_json (v : Value) : TxInstallment :=
  {| TxInstallment.inst_id := i64_field v "inst_id";
     TxInstallment.due_ts_ms := i64_field v "due_ts_ms";
     TxInstallment.amount := i64_field v "amount";
     TxInstallment.note := str_field v "note";
     TxInstallment.is_paid := bool_field v "is_paid";
     TxInstallment.is_overdue := bool_field v "is_overdue";
     TxInstallment.debt_payments := array_field v "debt_payments" tx_debt_payment_from_json |}.

Definition tx_payment_from_json (v : Value) : TxPayment :=
  {| TxPayment.payment_id := i64_field v "payment_id";
     TxPayment.method := enum_i32 v "method" tx_payment_method_from_str try_from_default;
     TxPayment.ts_ms := i64_field v "ts_ms";
     TxPayment.amount := i64_field v "amount";
     TxPayment.note := str_field v "note";
     TxPayment.from_wallet := str_field v "from_wallet";
     TxPayment.to_wallet := str_field v "to_wallet";
     TxPayment.debt_interest := i64_field v "debt_interest";
     TxPayment.payment_json := payment_json_field v;
     TxPayment.installments := array_field v "installments" tx_installment_from_json |}.

Definition tx_acc_from_json (v : Value) : TxAcc :=
  {| TxAcc.acc_id := i64_field v "acc_id";
     TxAcc.acc_code := str_field v "acc_code";
     TxAcc.ts_ms := i64_field v "ts_ms";
     TxAcc.side := enum_i32 v "side" tx_acc_side_from_str try_from_default;
     TxAcc.amount := i64_field v "amount";
     TxAcc.note := str_field v "note";
     TxAcc.is_tx_generated := bool_field v "is_tx_generated" |}.

Definition tx_stock_from_json (v : Value) : TxStock :=
  {| TxStock.stock_id := i64_field v "stock_id";
     TxStock.product_id := i64_field v "product_id";
     TxStock.ts_ms := i64_field v "ts_ms";
     TxStock.obj_from_id := i64_field v "obj_from_id";
     TxStock.obj_to_id := i64_field v "obj_to_id";
     TxStock.qty := i32_field v "qty";
     TxStock.qty_signed := i32_field v "qty_signed";
     TxStock.direction := str_field v "direction";
     TxStock.note := str_field v "note" |}.

Definition tx_tax_from_json (v : Value) : TxTax :=
  {| TxTax.tax_id := i64_field v "tax_id";
     TxTax.tax_type := str_field v "tax_type";
     TxTax.amount := i64_field v "amount";
     TxTax.note := str_field v "note" |}.

Definition tx_discount_from_json (v : Value) : TxDiscount :=
  {| TxDiscount.discount_id := i64_field v "discount_id";
     TxDiscount.discount_type := str_field v "discount_type";
     TxDiscount.amount := i64_field v "amount";
     TxDiscount.note := str_field v "note" |}.

Definition tx_from_json (v : Value) : result Tx :=
  Ok {| Tx.site_iid := i64_field v "site_iid";
     Tx.tx_id := i64_field v "tx_id";
     Tx.type := enum_i32 v "type" tx_type_from_str tx_type;
     Tx.state := enum_i32 v "state" tx_state_from_str tx_state;
     Tx.input_mode := enum_i32 v "input_mode" tx_input_mode_from_str try_from_default;
     Tx.input_source := enum_i32 v "input_source" tx_input_source_from_str try_from_default;
     Tx.is_archived := bool_field v "is_archived";
     Tx.desc := str_field v "desc";
     Tx.time_ts_ms := i64_field v "time_ts_ms";
     Tx.created_by_iid := i64_field v "created_by_iid";
     Tx.cancel_reason := str_field v "cancel_reason";
     Tx.subject_contact_id := i64_field v "subject_contact_id";
     Tx.subject_name := str_field v "subject_name";
     Tx.subject_phone := str_field v "subject_phone";
     Tx.subject_address := str_field v "subject_address";
     Tx.cashier_name := str_field v "cashier_name";
     Tx.store_id := i64_field v "store_id";
     Tx.store_tgt_id := i64_field v "store_tgt_id";
     Tx.delivery_state := str_field v "delivery_state";
     Tx.obj_id := i64_field v "obj_id";
     Tx.promo_code := str_field v "promo_code";
     Tx.is_paid := bool_field v "is_paid";
     Tx.is_task_assigned := bool_field v "is_task_assigned";
     Tx.order_pay_at := enum_i32 v "order_pay_at" tx_order_pay_at_from_str try_from_default;
     Tx.items_count := i64_field v "items_count";
     Tx.items_qty := i64_field v "items_qty";
     Tx.items_total := i64_field v "items_total";
     Tx.debt_total := i64_field v "debt_total";
     Tx.debt_paid := i64_field v "debt_paid";
     Tx.debt_unpaid := i64_field v "debt_unpaid";
     Tx.total_taxes := i64_field v "total_taxes";
     Tx.total_discounts := i64_field v "total_discounts";
     Tx.total_interest := i64_field v "total_interest";
     Tx.total_paid := i64_field v "total_paid";
     Tx.total_unpaid := i64_field v "total_unpaid";
     Tx.total := i64_field v "total";
     Tx.stock_line_count := i32_field v "stock_line_count";
     Tx.stock_qty_in := i32_field v "stock_qty_in";
     Tx.stock_qty_out := i32_field v "stock_qty_out";
     Tx.acc_line_count := i32_field v "acc_line_count";
     Tx.acc_sum := i64_field v "acc_sum";
     Tx.acc_balanced := bool_field v "acc_balanced";
     Tx.has_manual_lines := bool_field v "has_manual_lines";
     Tx.tx_data := get "tx_data" v ≫= tx_data_from_json;
     Tx.items := array_field v "items" tx_item_from_json;
     Tx.payments := array_field v "payments" tx_payment_from_json;
     Tx.accs := array_field v "accs" tx_acc_from_json;
     Tx.stocks := array_field v "stocks" tx_stock_from_json;
     Tx.taxes := array_field v "taxes" tx_tax_from_json;
     Tx.discounts := array_field v "discounts" tx_discount_from_json;
     Tx.created_ts_ms := i64_field v "created_ts_ms";
     Tx.updated_ts_ms := i64_field v "updated_ts_ms";
     Tx.deleted_ts_ms := i64_field v "deleted_ts_ms" |}.

Definition tx_json_parse (args : Value) : result Tx :=
  match get "tx_json" args ≫= as_str with
  | Some raw =>
      match from_str raw with
      | Some v => tx_from_json v
      | None => Err "invalid tx_json"
      end
  | None =>
      match get "tx" args with
      | Some tx => tx_from_json tx
      | None => Err "tx_json or tx is required"
      end
  end.

Definition tx_debt_payment_json_parse (args : Value) : result TxDebtPayment :=
  match get "payment_json" args ≫= as_str with
  | Some raw =>
      match from_str raw with
      | Some v => Ok (tx_debt_payment_from_json v)
      | None => Err "invalid payment_json"
      end
  | None =>
      match get "payment" args with
      | Some p => Ok (tx_debt_payment_from_json p)
      | None => Err "payment or payment_json is required"
      end
  end.

(** ** Writing *)

Definition tx_item_reservation_to_json (r : TxItemReservation) : Value :=
  json_object
    [("res_id", json_int r.(TxItemReservation.res_id));
     ("product_id", json_int r.(TxItemReservation.product_id));
     ("qty", json_int r.(TxItemReservation.qty));
     ("duration_qty", json_int r.(TxItemReservation.duration_qty));
     ("note", Str r.(TxItemReservation.note));
     ("site_object_id", json_int r.(TxItemReservation.site_object_id));
     ("start_ts_ms", json_int r.(TxItemReservation.start_ts_ms));
     ("end_ts_ms", json_int r.(TxItemReservation.end_ts_ms));
     ("state", Str r.(TxItemReservation.state));
     ("is_no_show", Bool r.(TxItemReservation.is_no_show));
     ("is_unavailable", Bool r.(TxItemReservation.is_unavailable))].

Definition tx_item_source_to_json (s : TxItemSource) : Value :=
  json_object
    [("src_id", json_int s.(TxItemSource.src_id));
     ("obj_id", json_int s.(TxItemSource.obj_id));
     ("product_id", json_int s.(TxItemSource.product_id));
     ("qty", json_int s.(TxItemSource.qty));
     ("note", Str s.(TxItemSource.note))].

Definition tx_item_to_json (i : TxItem) : Value :=
  json_object
    [("site_iid", json_int i.(TxItem.site_iid));
     ("tx_id", json_int i.(TxItem.tx_id));
     ("item_id", json_int i.(TxItem.item_id));
     ("owner_iid", json_int i.(TxItem.owner_iid));
     ("product_id", json_int i.(TxItem.product_id));
     ("product_rev", json_int i.(TxItem.product_rev));
     ("obj_id", json_int i.(TxItem.obj_id));
     ("price", json_int i.(TxItem.price));
     ("qty", json_int i.(TxItem.qty));
     ("note", Str i.(TxItem.note));
     ("batch_number", Str i.(TxItem.batch_number));
     ("serial_number", Str i.(TxItem.serial_number));
     ("fulfillment_state", Str (tx_fulfillment_str (try_from_default i.(TxItem.fulfillment_state))));
     ("total_qty", json_int i.(TxItem.total_qty));
     ("total_price", json_int i.(TxItem.total_price));
     ("total_discount", json_int i.(TxItem.total_discount));
     ("total_tax", json_int i.(TxItem.total_tax));
     ("total_net", json_int i.(TxItem.total_net));
     ("total_paid", json_int i.(TxItem.total_paid));
     ("total_unpaid", json_int i.(TxItem.total_unpaid));
     ("reservations", json_array tx_item_reservation_to_json i.(TxItem.reservations));
     ("sources", json_array tx_item_source_to_json i.(TxItem.sources))].

Definition tx_debt_payment_to_json (p : TxDebtPayment) : Value :=
  json_object
    [("pay_id", json_int p.(TxDebtPayment.pay_id));
     ("ts_ms", json_int p.(TxDebtPayment.ts_ms));
     ("method", Str (tx_debt_payment_method_str (try_from_default p.(TxDebtPayment.method))));
     ("amount", json_int p.(TxDebtPayment.amount));
     ("note", Str p.(TxDebtPayment.note));
     ("overdue_interest", json_int p.(TxDebtPayment.overdue_interest));
     ("payment_json", Str p.(TxDebtPayment.payment_json))].

Definition tx_installment_to_json (i : TxInstallment) : Value :=
  json_object
    [("inst_id", json_int i.(TxInstallment.inst_id));
     ("due_ts_ms", json_int i.(TxInstallment.due_ts_ms));
     ("amount", json_int i.(TxInstallment.amount));
     ("note", Str i.(TxInstallment.note));
     ("is_paid", Bool i.(TxInstallment.is_paid));
     ("is_overdue", Bool i.(TxInstallment.is_overdue));
     ("debt_payments", json_array tx_debt_payment_to_json i.(TxInstallment.debt_payments))].

Definition tx_payment_to_json (p : TxPayment) : Value :=
  json_object
    [("payment_id", json_int p.(TxPayment.payment_id));
     ("method", Str (tx_payment_method_str (try_from_default p.(TxPayment.method))));
     ("ts_ms", json_int p.(TxPayment.ts_ms));
     ("amount", json_int p.(TxPayment.amount));
     ("note", Str p.(TxPayment.note));
     ("from_wallet", Str p.(TxPayment.from_wallet));
     ("to_wallet", Str p.(TxPayment.to_wallet));
     ("debt_interest", json_int p.(TxPayment.debt_interest));
     ("payment_json", Str p.(TxPayment.payment_json));
     ("installments", json_array tx_installment_to_json p.(TxPayment.installments))].

Definition tx_acc_to_json (a : TxAcc) : Value :=
  json_object
    [("acc_id", json_int a.(TxAcc.acc_id));
     ("acc_code", Str a.(TxAcc.acc_code));
     ("ts_ms", json_int a.(TxAcc.ts_ms));
     ("side", Str (tx_acc_side_str (try_from_default a.(TxAcc.side))));
     ("amount", json_int a.(TxAcc.amount));
     ("note", Str a.(TxAcc.note));
     ("is_tx_generated", Bool a.(TxAcc.is_tx_generated))].

Definition tx_stock_to_json (s : TxStock) : Value :=
  json_object
    [("stock_id", json_int s.(TxStock.stock_id));
     ("product_id", json_int s.(TxStock.product_id));
     ("ts_ms", json_int s.(TxStock.ts_ms));
     ("obj_from_id", json_int s.(TxStock.obj_from_id));
     ("obj_to_id", json_int s.(TxStock.obj_to_id));
     ("qty", json_int s.(TxStock.qty));
     ("qty_signed", json_int s.(TxStock.qty_signed));
     ("direction", Str s.(TxStock.direction));
     ("note", Str s.(TxStock.note))].

Definition tx_tax_to_json (t : TxTax) : Value :=
  json_object
    [("tax_id", json_int t.(TxTax.tax_id));
     ("tax_type", Str t.(TxTax.tax_type));
     ("amount", json_int t.(TxTax.amount));
     ("note", Str t.(TxTax.note))].

Definition tx_discount_to_json (d : TxDiscount) : Value :=
  json_object
    [("discount_id", json_int d.(TxDiscount.discount_id));
     ("discount_type", Str d.(TxDiscount.discount_type));
     ("amount", json_int d.(TxDiscount.amount));
     ("note", Str d.(TxDiscount.note))].

Definition tx_to_json (tx : Tx) : Value :=
  json_object
    ([("site_iid", json_int tx.(Tx.site_iid));
      ("tx_id", json_int tx.(Tx.tx_id));
      ("type", Str (tx_type_str (tx_type tx.(Tx.type))));
      ("state", Str (tx_state_str (tx_state tx.(Tx.state))));
      ("input_mode", Str (tx_input_mode_str (try_from_default tx.(Tx.input_mode))));
      ("input_source", Str (tx_input_source_str (try_from_default tx.(Tx.input_source))));
      ("is_archived", Bool tx.(Tx.is_archived));
      ("desc", Str tx.(Tx.desc));
      ("time_ts_ms", json_int tx.(Tx.time_ts_ms));
      ("created_by_iid", json_int tx.(Tx.created_by_iid));
      ("cancel_reason", Str tx.(Tx.cancel_reason));
      ("subject_contact_id", json_int tx.(Tx.subject_contact_id));
      ("subject_name", Str tx.(Tx.subject_name));
      ("subject_phone", Str tx.(Tx.subject_phone));
      ("subject_address", Str tx.(Tx.subject_address));
      ("cashier_name", Str tx.(Tx.cashier_name));
      ("store_id", json_int tx.(Tx.store_id));
      ("store_tgt_id", json_int tx.(Tx.store_tgt_id));
      ("delivery_state", Str tx.(Tx.delivery_state));
      ("obj_id", json_int tx.(Tx.obj_id));
      ("promo_code", Str tx.(Tx.promo_code));
      ("is_paid", Bool tx.(Tx.is_paid));
      ("is_task_assigned", Bool tx.(Tx.is_task_assigned));
      ("order_pay_at", Str (tx_order_pay_at_str (try_from_default tx.(Tx.order_pay_at))));
      ("items_count", json_int tx.(Tx.items_count));
      ("items_qty", json_int tx.(Tx.items_qty));
      ("items_total", json_int tx.(Tx.items_total));
      ("debt_total", json_int tx.(Tx.debt_total));
      ("debt_paid", json_int tx.(Tx.debt_paid));
      ("debt_unpaid", json_int tx.(Tx.debt_unpaid));
      ("total_taxes", json_int tx.(Tx.total_taxes));
      ("total_discounts", json_int tx.(Tx.total_discounts));
      ("total_interest", json_int tx.(Tx.total_interest));
      ("total_paid", json_int tx.(Tx.total_paid));
      ("total_unpaid", json_int tx.(Tx.total_unpaid));
      ("total", json_int tx.(Tx.total));
      ("stock_line_count", json_int tx.(Tx.stock_line_count));
      ("stock_qty_in", json_int tx.(Tx.stock_qty_in));
      ("stock_qty_out", json_int tx.(Tx.stock_qty_out));
      ("acc_line_count", json_int tx.(Tx.acc_line_count));
      ("acc_sum", json_int tx.(Tx.acc_sum));
      ("acc_balanced", Bool tx.(Tx.acc_balanced));
      ("has_manual_lines", Bool tx.(Tx.has_manual_lines))] ++
     match tx.(Tx.tx_data) with Some data => [("tx_data", tx_data_to_json data)] | None => [] end ++
     [("items", json_array tx_item_to_json tx.(Tx.items));
      ("payments", json_array tx_payment_to_json tx.(Tx.payments));
      ("accs", json_array tx_acc_to_json tx.(Tx.accs));
      ("stocks", json_array tx_stock_to_json tx.(Tx.stocks));
      ("taxes", json_array tx_tax_to_json tx.(Tx.taxes));
      ("discounts", json_array tx_discount_to_json tx.(Tx.discounts));
      ("created_ts_ms", json_int tx.(Tx.created_ts_ms));
      ("updated_ts_ms", json_int tx.(Tx.updated_ts_ms));
      ("deleted_ts_ms", json_int tx.(Tx.deleted_ts_ms))]).

Definition tx_header_compact_json (tx : Tx) : Value :=
  json_object
    [("site_iid", json_int tx.(Tx.site_iid));
     ("tx_id", json_int tx.(Tx.tx_id));
     ("type", Str (tx_type_str (tx_type tx.(Tx.type))));
     ("state", Str (tx_state_str (tx_state tx.(Tx.state))));
     ("desc", Str tx.(Tx.desc));
     ("time_ts_ms", json_int tx.(Tx.time_ts_ms));
     ("total", json_int tx.(Tx.total));
     ("total_paid", json_int tx.(Tx.total_paid));
     ("cashier_name", Str tx.(Tx.cashier_name));
     ("subject_name", Str tx.(Tx.subject_name))].

Definition tx_result_json (tx : Tx) : Value :=
  json_object
    [("ok", Bool true);
     ("site_iid", json_int tx.(Tx.site_iid));
     ("tx_id", json_int tx.(Tx.tx_id));
     ("total", json_int tx.(Tx.total));
     ("state", Str (tx_state_str (tx_state tx.(Tx.state))));
     ("tx", tx_to_json tx)].

End TxJson.
