(* ===== verification/TxJsonFacts.v ===== *)
(** * Round trip of the JSON representation *)
From S2P Require Import Prelude Strs TxProto Json EnumMap TxData TxJson.

(** ** What survives a round trip

    Every field, except that an enum number comes back as the number of a
    listed value (the unspecified ones as the column's default), and the two
    texts discussed at [payment_json_reprinted] and [tx_data_read]. *)

Definition enum_stored {T} `{ProtoEnum T} (stored : T -> T) (n : Z) : Z :=
  enum_to_i32 (stored (try_from_default n)).

Section TxJsonFacts.
Context `{!SerdeJson} `{!SerdeJsonLaws}.

Definition tx_item_stored (i : TxItem) : TxItem :=
  {| i with TxItem.fulfillment_state :=
       enum_stored (T := TxItemFulfillmentState) id i.(TxItem.fulfillment_state) |}.
Definition tx_debt_payment_stored (p : TxDebtPayment) : TxDebtPayment :=
  {| p with
     TxDebtPayment.method := enum_stored tx_debt_payment_method_stored p.(TxDebtPayment.method);
     TxDebtPayment.payment_json := to_string (Str p.(TxDebtPayment.payment_json)) |}.
Definition tx_installment_stored (i : TxInstallment) : TxInstallment :=
  {| i with TxInstallment.debt_payments :=
       tx_debt_payment_stored <$> i.(TxInstallment.debt_payments) |}.
Definition tx_payment_stored (p : TxPayment) : TxPayment :=
  {| p with
     TxPayment.method := enum_stored tx_payment_method_stored p.(TxPayment.method);
     TxPayment.payment_json := to_string (Str p.(TxPayment.payment_json));
     TxPayment.installments := tx_installment_stored <$> p.(TxPayment.installments) |}.
Definition tx_acc_stored (a : TxAcc) : TxAcc :=
  {| a with TxAcc.side := enum_stored tx_acc_side_stored a.(TxAcc.side) |}.
Definition tx_stored (tx : Tx) : Tx :=
  {| tx with
     Tx.type := enum_to_i32 (tx_type_stored (tx_type tx.(Tx.type)));
     Tx.state := enum_to_i32 (tx_state tx.(Tx.state));
     Tx.input_mode := enum_stored (T := TxInputMode) id tx.(Tx.input_mode);
     Tx.input_source := enum_stored tx_input_source_stored tx.(Tx.input_source);
     Tx.order_pay_at := enum_stored (T := TxOrderPayAt) id tx.(Tx.order_pay_at);
     Tx.tx_data := tx_data_read <$> tx.(Tx.tx_data);
     Tx.items := tx_item_stored <$> tx.(Tx.items);
     Tx.payments := tx_payment_stored <$> tx.(Tx.payments);
     Tx.accs := tx_acc_stored <$> tx.(Tx.accs) |}.

(** ** One message at a time *)

Ltac json_fields :=
  unfold i64_field, i32_field, bool_field, str_field, enum_i32, array_field, json_array,
    payment_json_field;
  json_get; destruct_and?;
  rewrite ?json_int_as_i64 by auto with machine;
  cbn [default from_option id]; rewrite ?to_i32_id by done;
  autorewrite with enum_names.

Lemma reservation_json_roundtrip r :
  TxItemReservation_wf r ->
  tx_item_reservation_from_json (tx_item_reservation_to_json r) = r.
Proof.
  unfold TxItemReservation_wf. intros Hr.
  unfold tx_item_reservation_from_json, tx_item_reservation_to_json. by json_fields.
Qed.
Lemma source_json_roundtrip s :
  TxItemSource_wf s -> tx_item_source_from_json (tx_item_source_to_json s) = s.
Proof.
  unfold TxItemSource_wf. intros Hs.
  unfold tx_item_source_from_json, tx_item_source_to_json. by json_fields.
Qed.
Lemma item_json_roundtrip i :
  TxItem_wf i -> tx_item_from_json (tx_item_to_json i) = tx_item_stored i.
Proof.
  unfold TxItem_wf. intros Hi. unfold tx_item_from_json, tx_item_to_json. json_fields.
  rewrite (fmap_roundtrip _ _ id _ _ reservation_json_roundtrip),
    (fmap_roundtrip _ _ id _ _ source_json_roundtrip), !list_fmap_id by done. done.
Qed.

(** A payment's raw text comes back as the JSON text of that text. *)
Lemma payment_json_text s :
  (if is_empty (to_string (Str s)) || String.eqb (to_string (Str s)) "null" then ""
   else to_string (Str s)) = to_string (Str s).
Proof.
  unfold is_empty. rewrite (proj2 (String.eqb_neq _ "")) by apply to_string_nonempty.
  by rewrite (proj2 (String.eqb_neq _ "null")) by apply to_string_not_null.
Qed.

Lemma debt_payment_json_roundtrip p :
  TxDebtPayment_wf p ->
  tx_debt_payment_from_json (tx_debt_payment_to_json p) = tx_debt_payment_stored p.
Proof.
  unfold TxDebtPayment_wf. intros Hp.
  unfold tx_debt_payment_from_json, tx_debt_payment_to_json. json_fields.
  by rewrite payment_json_text.
Qed.
Lemma installment_json_roundtrip i :
  TxInstallment_wf i ->
  tx_installment_from_json (tx_installment_to_json i) = tx_installment_stored i.
Proof.
  unfold TxInstallment_wf. intros Hi.
  unfold tx_installment_from_json, tx_installment_to_json. json_fields.
  by rewrite (fmap_roundtrip _ _ _ _ _ debt_payment_json_roundtrip).
Qed.
Lemma payment_json_roundtrip p :
  TxPayment_wf p -> tx_payment_from_json (tx_payment_to_json p) = tx_payment_stored p.
Proof.
  unfold TxPayment_wf. intros Hp. unfold tx_payment_from_json, tx_payment_to_json. json_fields.
  by rewrite payment_json_text, (fmap_roundtrip _ _ _ _ _ installment_json_roundtrip).
Qed.
Lemma acc_json_roundtrip a :
  TxAcc_wf a -> tx_acc_from_json (tx_acc_to_json a) = tx_acc_stored a.
Proof.
  unfold TxAcc_wf. intros Ha. unfold tx_acc_from_json, tx_acc_to_json. by json_fields.
Qed.
Lemma stock_json_roundtrip s : TxStock_wf s -> tx_stock_from_json (tx_stock_to_json s) = s.
Proof.
  unfold TxStock_wf. intros Hs. unfold tx_stock_from_json, tx_stock_to_json. by json_fields.
Qed.
Lemma tax_json_roundtrip t : TxTax_wf t -> tx_tax_from_json (tx_tax_to_json t) = t.
Proof.
  unfold TxTax_wf. intros Ht. unfold tx_tax_from_json, tx_tax_to_json. by json_fields.
Qed.
Lemma discount_json_roundtrip d :
  TxDiscount_wf d -> tx_discount_from_json (tx_discount_to_json d) = d.
Proof.
  unfold TxDiscount_wf. intros Hd. unfold tx_discount_from_json, tx_discount_to_json.
  by json_fields.
Qed.

(** ** Whole transactions *)

(** C30. A transaction written as JSON and read back is the same
    transaction, child lines in order, except that an unlisted or unspecified
    enum number becomes the one its name stands for ([tx_stored]), that absent
    parts of [tx_data] come back as empty parts ([tx_data_read]) and that the
    raw text of a payment is wrapped once more ([payment_json]). *)
Theorem tx_json_roundtrip tx :
  Tx_wf tx -> tx_from_json (tx_to_json tx) = Ok (tx_stored tx).
Proof.
  intros Hw. unfold Tx_wf in Hw. unfold tx_from_json, tx_to_json. f_equal.
  assert (forall data, TxData_wf data ->
    tx_data_from_json (tx_data_to_json data) = Some (tx_data_read data)) as Hdata
    by apply tx_data_json_roundtrip.
  destruct_and?. unfold tx_stored.
  destruct tx.(Tx.tx_data) as [data|] eqn:Ed; cbn [app opt_all] in *; json_fields;
    rewrite ?Hdata by done;
    rewrite (fmap_roundtrip _ _ _ _ _ item_json_roundtrip),
      (fmap_roundtrip _ _ _ _ _ payment_json_roundtrip),
      (fmap_roundtrip _ _ _ _ _ acc_json_roundtrip),
      (fmap_roundtrip _ _ id _ _ stock_json_roundtrip),
      (fmap_roundtrip _ _ id _ _ tax_json_roundtrip),
      (fmap_roundtrip _ _ id _ _ discount_json_roundtrip), !list_fmap_id by done;
    cbn [fmap option_fmap option_map]; reflexivity.
Qed.

(** Writing and reading a transaction is not idempotent on the raw
    text of its payments: what is read back is the JSON string of the text that
    was written, so every round trip adds a level of quoting and the text grows
    for ever, starting from the empty one. *)
Theorem payment_json_reprinted p :
  TxPayment_wf p ->
  let p' := tx_payment_from_json (tx_payment_to_json p) in
  from_str p'.(TxPayment.payment_json) = Some (Str p.(TxPayment.payment_json)) /\
  (String.length p.(TxPayment.payment_json) < String.length p'.(TxPayment.payment_json))%nat.
Proof.
  intros Hp. cbn zeta. rewrite payment_json_roundtrip by done. cbn [TxPayment.payment_json tx_payment_stored].
  split; [apply from_to_string_str|apply to_string_longer].
Qed.

End TxJsonFacts.
