(* ===== verification/Finalize.v ===== *)
(** * Derived fields of a transaction ([servers/crates/mod_tx/src/finalize.rs])

    [tx_finalize] recomputes line totals, header totals, debt status, stock
    movements and general-ledger lines before a transaction is previewed or
    saved.  One definition per function of the file, in its order. *)
From S2P Require Import Prelude Strs Ts TxProto EnumMap.

(** ** Account codes *)

Definition COA_CASH : string := "1001".
Definition COA_BANK : string := "1002".
Definition COA_EWALLET : string := "1003".
Definition COA_AR : string := "1100".
Definition COA_INVENTORY : string := "1200".
Definition COA_INPUT_VAT : string := "1400".
Definition COA_AP : string := "2100".
Definition COA_TAX_PAYABLE : string := "2200".
Definition COA_WITHHOLDING : string := "2201".
Definition COA_REVENUE : string := "4100".
Definition COA_SALES_DISCOUNT : string := "4200".
Definition COA_PURCHASE_DISC : string := "4210".
Definition COA_SALES_RETURNS : string := "4300".
Definition COA_ROUNDING : string := "6200".
Definition COA_INTEREST : string := "7100".

(** ** The ledger of one transaction *)

(** A [HashMap] is iterated in an order the program does not control. *)
Class HashIter (K V : Type) `{Countable K} := {
  hash_iter : gmap K V -> list (K * V);
  hash_iter_perm m : hash_iter m ≡ₚ map_to_list m;
}.
#[export] Instance hash_iter_canonical K V `{Countable K} : HashIter K V | 100 :=
  {| hash_iter m := map_to_list m; hash_iter_perm m := reflexivity _ |}.

Record AccLedger := { amounts : gmap string Z; ledger_note : string }.

Section Finalize.
Context `{!Chrono} `{!HashIter string Z}.

Definition AccLedger_new : AccLedger := {| amounts := ∅; ledger_note := "" |}.

Definition ledger_balance (l : AccLedger) : Z := i64_sum (hash_iter l.(amounts)).*2.

Definition ledger_add (l : AccLedger) (code : string) (amount : Z) : AccLedger :=
  if amount =? 0 then l
  else {| amounts := <[code := (default 0 (l.(amounts) !! code) + amount)%i64]> l.(amounts);
          ledger_note := l.(ledger_note) |}.

(** The line [AccLedger::build] emits for one account, if any. *)
Definition ledger_line (note : string) (ts_ms : Z) (e : string * Z) : option TxAcc :=
  let '(code, amount) := e in
  if amount =? 0 then None else
  let '(side, amt) :=
    if amount <? 0 then (TxAccSide.Credit, (- amount)%i64) else (TxAccSide.Debit, amount) in
  Some {| TxAcc_default with
    TxAcc.acc_code := code;
    TxAcc.ts_ms := ts_ms;
    TxAcc.side := enum_to_i32 side;
    TxAcc.amount := amt;
    TxAcc.note := note;
    TxAcc.is_tx_generated := true |}.

Definition ledger_build (l : AccLedger) (ts_ms : Z) : list TxAcc :=
  let sum := ledger_balance l in
  let l := if sum =? 0 then l else ledger_add l COA_ROUNDING (- sum)%i64 in
  omap (ledger_line l.(ledger_note) ts_ms) (hash_iter l.(amounts)).

(** ** Items and totals *)

Definition tx_time_ms (now : DateTime) (tx : Tx) : Z :=
  if 0 <? tx.(Tx.time_ts_ms) then tx.(Tx.time_ts_ms)
  else if 0 <? tx.(Tx.created_ts_ms) then tx.(Tx.created_ts_ms)
  else timestamp_millis now.

Definition reservation_billable_qty (rs : list TxItemReservation) : Z :=
  i64_sum ((fun r => (Z.max r.(TxItemReservation.qty) 0
                      * Z.max r.(TxItemReservation.duration_qty) 1)%i64) <$> rs).

(** The quantity an item line is priced by. *)
Definition item_line_qty (item : TxItem) : Z :=
  match item.(TxItem.reservations) with
  | [] => item.(TxItem.qty)
  | rs =>
      let billable := reservation_billable_qty rs in
      if 0 <? billable then billable
      else
        let duration_multiplier :=
          Z.max (i64_sum ((fun r => Z.max r.(TxItemReservation.duration_qty) 1) <$> rs)) 1 in
        (item.(TxItem.qty) * duration_multiplier)%i64
  end.

Definition tx_compute_item (item : TxItem) : TxItem :=
  let line_qty := item_line_qty item in
  let gross := (item.(TxItem.price) * line_qty)%i64 in
  {| item with
     TxItem.total_qty := to_i32 line_qty;
     TxItem.total_price := gross;
     TxItem.total_net :=
       if (item.(TxItem.total_discount) =? 0) && (item.(TxItem.total_tax) =? 0)
       then gross else item.(TxItem.total_net) |}.

Definition tx_compute_items (tx : Tx) : Tx :=
  {| tx with Tx.items := tx_compute_item <$> tx.(Tx.items) |}.

Definition inst_paid (inst : TxInstallment) : Z :=
  i64_sum (TxDebtPayment.amount <$> inst.(TxInstallment.debt_payments)).

(** What an item line contributes to the header total. *)
Definition item_net (item : TxItem) : Z :=
  if negb (item.(TxItem.total_net) =? 0) then item.(TxItem.total_net)
  else (item.(TxItem.price) * item.(TxItem.qty))%i64.

(** The loop over items: count, quantity, total. *)
Definition items_loop (items : list TxItem) : Z * Z * Z :=
  foldl (fun '(count, qty, items_total) item =>
           (count + 1, qty + item.(TxItem.qty), items_total + item_net item)%i64)
    (0, 0, 0) items.

(** The loop over payments: paid, interest, debt total, debt paid. *)
Definition payments_loop (payments : list TxPayment) : Z * Z * Z * Z :=
  foldl (fun '(paid, interest, debt_total, debt_paid) p =>
           let paid := (paid + p.(TxPayment.amount))%i64 in
           if negb (bool_decide (tx_payment_method p.(TxPayment.method) = TxPaymentMethod.Debt))
           then (paid, interest, debt_total, debt_paid)
           else
             let interest := (interest + p.(TxPayment.debt_interest))%i64 in
             let '(debt_total, debt_paid) :=
               foldl (fun '(debt_total, debt_paid) inst =>
                        (debt_total + inst.(TxInstallment.amount),
                         debt_paid + inst_paid inst)%i64)
                 (debt_total, debt_paid) p.(TxPayment.installments) in
             (paid, interest, debt_total, debt_paid))
    (0, 0, 0, 0) payments.

Definition tx_compute_totals (tx : Tx) : Tx :=
  let '(count, qty, items_total) := items_loop tx.(Tx.items) in
  let tax_sum := i64_sum (TxTax.amount <$> tx.(Tx.taxes)) in
  let disc_sum := i64_sum (TxDiscount.amount <$> tx.(Tx.discounts)) in
  let '(paid, interest, debt_total, debt_paid) := payments_loop tx.(Tx.payments) in
  let debt_unpaid := (debt_total - debt_paid)%i64 in
  let net := (items_total + tax_sum - disc_sum + interest)%i64 in
  {| tx with
     Tx.items_count := count;
     Tx.items_qty := qty;
     Tx.items_total := items_total;
     Tx.total_taxes := tax_sum;
     Tx.total_discounts := disc_sum;
     Tx.total_paid := paid;
     Tx.total_interest := interest;
     Tx.debt_total := debt_total;
     Tx.debt_paid := debt_paid;
     Tx.debt_unpaid := debt_unpaid;
     Tx.is_paid := debt_unpaid <=? 0;
     Tx.total := net;
     Tx.total_unpaid := Z.max (net - paid)%i64 0 |}.

Definition tx_compute_standalone_debt (tx : Tx) : Tx :=
  let ty := tx_type tx.(Tx.type) in
  if negb (bool_decide (ty = TxType.DebtPayable) || bool_decide (ty = TxType.DebtReceivable))
  then tx
  else if 0 <? tx.(Tx.debt_total) then tx
  else
    let total := tx.(Tx.total) in
    if total <=? 0 then tx
    else
      let debt_unpaid := Z.max (total - tx.(Tx.debt_paid))%i64 0 in
      {| tx with
         Tx.debt_total := total;
         Tx.debt_unpaid := debt_unpaid;
         Tx.is_paid := debt_unpaid <=? 0 |}.

(** ** Debt installments *)

Definition tx_compute_installment (now : DateTime) (due_default : Z) (inst : TxInstallment)
    : TxInstallment :=
  let due_ts_ms :=
    if inst.(TxInstallment.due_ts_ms) =? 0 then due_default
    else inst.(TxInstallment.due_ts_ms) in
  let paid := inst_paid inst in
  let is_paid := (0 <? inst.(TxInstallment.amount)) && (inst.(TxInstallment.amount) <=? paid) in
  {| inst with
     TxInstallment.due_ts_ms := due_ts_ms;
     TxInstallment.is_paid := is_paid;
     TxInstallment.is_overdue :=
       negb is_paid && (0 <? due_ts_ms) &&
       match ts_from_ms due_ts_ms with Some d => dt_ltb d now | None => false end |}.

Definition tx_compute_payment_installments (now : DateTime) (ts_ms : Z) (p : TxPayment)
    : TxPayment :=
  if negb (bool_decide (tx_payment_method p.(TxPayment.method) = TxPaymentMethod.Debt))
  then p
  else
    let due_default := if 0 <? p.(TxPayment.ts_ms) then p.(TxPayment.ts_ms) else ts_ms in
    {| p with TxPayment.installments :=
         tx_compute_installment now due_default <$> p.(TxPayment.installments) |}.

(** [now'] is the clock reading used when [ts_ms] is not a valid stamp. *)
Definition tx_compute_debt_installments (now' : DateTime) (tx : Tx) (ts_ms : Z) : Tx :=
  let now := default now' (ts_from_ms ts_ms) in
  {| tx with Tx.payments := tx_compute_payment_installments now ts_ms <$> tx.(Tx.payments) |}.

(** ** Stock movements *)

Definition tx_append_item_stocks (items : list TxItem) (ts_ms store : Z) (dir : string)
    : list TxStock :=
  mjoin ((fun item =>
    if item.(TxItem.qty) =? 0 then []
    else match item.(TxItem.sources) with
    | [] =>
        [{| TxStock_default with
            TxStock.product_id := item.(TxItem.product_id);
            TxStock.ts_ms := ts_ms;
            TxStock.obj_from_id := store;
            TxStock.qty := item.(TxItem.qty);
            TxStock.direction := dir;
            TxStock.qty_signed := stock_direction_signed dir item.(TxItem.qty) |}]
    | sources =>
        omap (fun src =>
          if src.(TxItemSource.qty) =? 0 then None
          else Some {| TxStock_default with
            TxStock.product_id := item.(TxItem.product_id);
            TxStock.ts_ms := ts_ms;
            TxStock.obj_from_id := src.(TxItemSource.obj_id);
            TxStock.qty := src.(TxItemSource.qty);
            TxStock.direction := dir;
            TxStock.qty_signed := stock_direction_signed dir src.(TxItemSource.qty) |}) sources
    end) <$> items).

(** Goods received: a purchase or an opening inventory. *)
Definition stock_in_line (ts_ms store : Z) (item : TxItem) : option TxStock :=
  if item.(TxItem.qty) =? 0 then None
  else
    let obj_to :=
      match item.(TxItem.sources) with s :: _ => s.(TxItemSource.obj_id) | [] => store end in
    Some {| TxStock_default with
      TxStock.product_id := item.(TxItem.product_id);
      TxStock.ts_ms := ts_ms;
      TxStock.obj_to_id := obj_to;
      TxStock.qty := item.(TxItem.qty);
      TxStock.direction := "in";
      TxStock.qty_signed := item.(TxItem.qty) |}.

Definition stock_transfer_line (ts_ms store store_tgt : Z) (item : TxItem) : option TxStock :=
  if item.(TxItem.qty) =? 0 then None
  else Some {| TxStock_default with
      TxStock.product_id := item.(TxItem.product_id);
      TxStock.ts_ms := ts_ms;
      TxStock.obj_from_id := store;
      TxStock.obj_to_id := store_tgt;
      TxStock.qty := item.(TxItem.qty);
      TxStock.direction := "transfer";
      TxStock.qty_signed := 0 |}.

Definition stock_adjust_line (ts_ms store : Z) (item : TxItem) : option TxStock :=
  if item.(TxItem.qty) =? 0 then None
  else
    let '(dir, qty) :=
      if item.(TxItem.qty) <? 0 then ("out", (- item.(TxItem.qty))%i32)
      else ("in", item.(TxItem.qty)) in
    Some {| TxStock_default with
      TxStock.product_id := item.(TxItem.product_id);
      TxStock.ts_ms := ts_ms;
      TxStock.obj_from_id := store;
      TxStock.qty := qty;
      TxStock.direction := dir;
      TxStock.qty_signed := stock_direction_signed dir qty |}.

Definition tx_stock_lines (tx : Tx) (ts_ms : Z) : list TxStock :=
  let store := tx.(Tx.store_id) in
  match tx_type tx.(Tx.type) with
  | TxType.Sale | TxType.Reservation =>
      tx_append_item_stocks tx.(Tx.items) ts_ms store "out"
  | TxType.ReturnSale => tx_append_item_stocks tx.(Tx.items) ts_ms store "in"
  | TxType.ReturnPurchase => tx_append_item_stocks tx.(Tx.items) ts_ms store "out"
  | TxType.Purchase | TxType.Inventory =>
      omap (stock_in_line ts_ms store) tx.(Tx.items)
  | TxType.Transfer | TxType.Ship =>
      omap (stock_transfer_line ts_ms store tx.(Tx.store_tgt_id)) tx.(Tx.items)
  | TxType.Adjustment => omap (stock_adjust_line ts_ms store) tx.(Tx.items)
  | _ => []
  end.

(** The loop over stock lines: quantity in, quantity out. *)
Definition stock_qty_loop (stocks : list TxStock) : Z * Z :=
  foldl (fun '(qty_in, qty_out) s =>
           let qty := s.(TxStock.qty) in
           match_str s.(TxStock.direction)
             [("in", ((qty_in + qty)%i32, qty_out));
              ("out", (qty_in, (qty_out + qty)%i32));
              ("transfer", ((qty_in + qty)%i32, (qty_out + qty)%i32))]
             (qty_in, qty_out))
    (0, 0) stocks.

Definition stock_sign (s : TxStock) : TxStock :=
  {| s with TxStock.qty_signed :=
       stock_direction_signed s.(TxStock.direction) s.(TxStock.qty) |}.

Definition tx_compute_stock (tx : Tx) (ts_ms : Z) : Tx :=
  let stocks := tx_stock_lines tx ts_ms in
  let '(qty_in, qty_out) := stock_qty_loop stocks in
  {| tx with
     Tx.stocks := stock_sign <$> stocks;
     Tx.stock_line_count := to_i32 (Z.of_nat (length stocks));
     Tx.stock_qty_in := qty_in;
     Tx.stock_qty_out := qty_out |}.

(** ** General-ledger lines *)

Definition acc_signed_amount (a : TxAcc) : Z :=
  if decide (try_from_or TxAccSide.Unspecified a.(TxAcc.side) = TxAccSide.Credit)
  then (- a.(TxAcc.amount))%i64 else a.(TxAcc.amount).

Definition tx_manual_accs_balanced (accs : list TxAcc) : bool :=
  if Z.of_nat (length accs) <? 2 then false
  else i64_sum (acc_signed_amount <$> accs) =? 0.

Definition tx_acc_skip_generated (manual : list TxAcc) (ty : TxType) : bool :=
  match manual with
  | [] => false
  | _ =>
      match ty with
      | TxType.Payment | TxType.Receipt => tx_manual_accs_balanced manual
      | _ => false
      end
  end.

Definition tx_items_gross (tx : Tx) : Z :=
  i64_sum ((fun item =>
    if negb (item.(TxItem.total_price) =? 0) then item.(TxItem.total_price)
    else (item.(TxItem.price) * item.(TxItem.qty))%i64) <$> tx.(Tx.items)).

Definition bool_sign (is_return : bool) (amount : Z) : Z :=
  if is_return then amount else (- amount)%i64.

Definition tx_acc_type_label (ty : TxType) : string :=
  match ty with
  | TxType.Sale => "Penjualan"
  | TxType.Purchase => "Pembelian"
  | TxType.Transfer => "Transfer"
  | TxType.Adjustment => "Penyesuaian"
  | TxType.ReturnSale => "Retur Jual"
  | TxType.ReturnPurchase => "Retur Beli"
  | TxType.Reservation => "Reservasi"
  | TxType.Ship => "Kirim"
  | TxType.Payment => "Pembayaran"
  | TxType.Receipt => "Penerimaan"
  | TxType.DebtPayable => "Hutang"
  | TxType.DebtReceivable => "Piutang"
  | TxType.Inventory => "Persediaan"
  | _ => "Transaksi"
  end.

Definition tx_acc_subject_prep (ty : TxType) : string :=
  match ty with
  | TxType.Purchase | TxType.ReturnPurchase | TxType.Receipt => "dari"
  | _ => "ke"
  end.

Definition tx_acc_generated_note (tx : Tx) : string :=
  let ty := tx_type tx.(Tx.type) in
  let label := tx_acc_type_label ty in
  let subject := trim tx.(Tx.subject_name) in
  let base :=
    if is_empty subject then label
    else label +:+ " " +:+ tx_acc_subject_prep ty +:+ " " +:+ subject in
  let desc := trim tx.(Tx.desc) in
  if is_empty desc || eq_ignore_ascii_case desc base || eq_ignore_ascii_case desc subject
  then base
  else base +:+ " · " +:+ desc.

Definition tx_payment_acc_code (p : TxPayment) : string :=
  match tx_payment_method p.(TxPayment.method) with
  | TxPaymentMethod.Cash => COA_CASH
  | TxPaymentMethod.Card | TxPaymentMethod.Transfer => COA_BANK
  | TxPaymentMethod.Qris => COA_EWALLET
  | TxPaymentMethod.Debt => COA_AR
  | _ => COA_CASH
  end.

Definition tx_tax_acc_code (t : TxTax) (purchase : bool) : string :=
  let typ := to_lowercase t.(TxTax.tax_type) in
  if str_contains typ "pph" || str_contains typ "withhold" then COA_WITHHOLDING
  else if str_contains typ "masukan" || str_contains typ "input" then COA_INPUT_VAT
  else if purchase then COA_INPUT_VAT else COA_TAX_PAYABLE.

Definition ledger_add_tax (l : AccLedger) (t : TxTax) (purchase : bool) : AccLedger :=
  let code := tx_tax_acc_code t purchase in
  let sign := if purchase && String.eqb code COA_INPUT_VAT then 1 else (- 1)%i64 in
  ledger_add l code (t.(TxTax.amount) * sign)%i64.

Definition ledger_add_discount (l : AccLedger) (d : TxDiscount) (purchase : bool) : AccLedger :=
  let code := if purchase then COA_PURCHASE_DISC else COA_SALES_DISCOUNT in
  let amt := if purchase then (- d.(TxDiscount.amount))%i64 else d.(TxDiscount.amount) in
  ledger_add l code amt.

Definition tx_acc_revenue_line (l : AccLedger) (gross : Z) (is_return purchase : bool)
    : AccLedger :=
  if purchase then l
  else
    let code := if is_return then COA_SALES_RETURNS else COA_REVENUE in
    ledger_add l code (bool_sign is_return gross).

Definition tx_acc_payments (payments : list TxPayment) (l : AccLedger) (inflow : bool)
    : AccLedger :=
  foldl (fun l p =>
    if p.(TxPayment.amount) =? 0 then l
    else
      let amt := if inflow then p.(TxPayment.amount) else (- p.(TxPayment.amount))%i64 in
      ledger_add l (tx_payment_acc_code p) amt) l payments.

Definition tx_balance_unpaid (l : AccLedger) (purchase is_return : bool) : AccLedger :=
  let remaining := ledger_balance l in
  if remaining =? 0 then l
  else if purchase then ledger_add l COA_AP (bool_sign is_return remaining)
  else ledger_add l COA_AR (bool_sign is_return remaining).

(** The interest of a debt payment, on the payment's account and on 7100. *)
Definition tx_acc_interest (is_return : bool) (l : AccLedger) (p : TxPayment) : AccLedger :=
  if negb (bool_decide (tx_payment_method p.(TxPayment.method) = TxPaymentMethod.Debt))
     || (p.(TxPayment.debt_interest) =? 0)
  then l
  else
    let interest := p.(TxPayment.debt_interest) in
    let l := ledger_add l (tx_payment_acc_code p) (bool_sign is_return interest) in
    ledger_add l COA_INTEREST (bool_sign (negb is_return) interest).

(** Revenue, discounts, taxes and payments: the lines before the unpaid
    remainder is booked. *)
Definition tx_acc_sale_lines (tx : Tx) (l : AccLedger) (gross : Z) (is_return : bool)
    : AccLedger :=
  let l := if gross =? 0 then l else tx_acc_revenue_line l gross is_return false in
  let l := foldl (fun l d => ledger_add_discount l d false) l tx.(Tx.discounts) in
  let l := foldl (fun l t => ledger_add_tax l t false) l tx.(Tx.taxes) in
  tx_acc_payments tx.(Tx.payments) l (negb is_return).

Definition tx_acc_sale_or_return (tx : Tx) (l : AccLedger) (gross : Z) (is_return : bool)
    : AccLedger :=
  let l := tx_acc_sale_lines tx l gross is_return in
  let l := tx_balance_unpaid l false is_return in
  foldl (tx_acc_interest is_return) l tx.(Tx.payments).

Definition tx_acc_purchase_lines (tx : Tx) (l : AccLedger) (gross : Z) (is_return : bool)
    : AccLedger :=
  let l :=
    if gross =? 0 then l
    else ledger_add l COA_INVENTORY (if is_return then (- gross)%i64 else gross) in
  let l := foldl (fun l d =>
    if is_return then ledger_add l COA_PURCHASE_DISC d.(TxDiscount.amount)
    else ledger_add_discount l d true) l tx.(Tx.discounts) in
  let l := foldl (fun l t =>
    if is_return then
      let code := tx_tax_acc_code t true in
      let sign := if String.eqb code COA_INPUT_VAT then 1 else (- 1)%i64 in
      ledger_add l code (- t.(TxTax.amount) * sign)%i64
    else ledger_add_tax l t true) l tx.(Tx.taxes) in
  tx_acc_payments tx.(Tx.payments) l is_return.

Definition tx_acc_purchase (tx : Tx) (l : AccLedger) (gross : Z) (is_return : bool)
    : AccLedger :=
  tx_balance_unpaid (tx_acc_purchase_lines tx l gross is_return) true is_return.

Definition tx_debt_principal (tx : Tx) : Z :=
  if 0 <? tx.(Tx.debt_total) then tx.(Tx.debt_total)
  else
    let sum := i64_sum (TxPayment.amount <$>
      filter (fun p => tx_payment_method p.(TxPayment.method) = TxPaymentMethod.Debt)
        tx.(Tx.payments)) in
    if 0 <? sum then sum else tx.(Tx.total).

Definition tx_acc_standalone_debt_receivable (l : AccLedger) (amount : Z) : AccLedger :=
  let l := tx_acc_revenue_line l amount false false in
  ledger_add l COA_AR amount.

Definition tx_acc_standalone_debt_payable (l : AccLedger) (amount : Z) : AccLedger :=
  let l := ledger_add l COA_INVENTORY amount in
  ledger_add l COA_AP (- amount)%i64.

Definition tx_cash_movement_amount (tx : Tx) : Z :=
  match find (fun p =>
          negb (bool_decide (tx_payment_method p.(TxPayment.method) = TxPaymentMethod.Debt))
          && (0 <? p.(TxPayment.amount))) tx.(Tx.payments) with
  | Some p => p.(TxPayment.amount)
  | None => if 0 <? tx.(Tx.total) then tx.(Tx.total) else tx_debt_principal tx
  end.

Definition tx_cash_acc_code (tx : Tx) : string :=
  match find (fun p => negb (p.(TxPayment.amount) =? 0)) tx.(Tx.payments) with
  | Some p => tx_payment_acc_code p
  | None => COA_CASH
  end.

Definition ledger_with_note (tx : Tx) : AccLedger :=
  {| AccLedger_new with ledger_note := tx_acc_generated_note tx |}.

Definition tx_acc_cash_movement (tx : Tx) (ts_ms : Z) (receipt : bool) : list TxAcc :=
  let amount := tx_cash_movement_amount tx in
  if amount <=? 0 then []
  else
    let l := ledger_with_note tx in
    let cash_code := tx_cash_acc_code tx in
    let l :=
      if receipt
      then ledger_add (ledger_add l cash_code amount) COA_AR (- amount)%i64
      else ledger_add (ledger_add l COA_AP amount) cash_code (- amount)%i64 in
    ledger_build l ts_ms.

Definition tx_compute_generated_accs (tx : Tx) (gross ts_ms : Z) : list TxAcc :=
  let ledger := ledger_with_note tx in
  match tx_type tx.(Tx.type) with
  | TxType.Payment => tx_acc_cash_movement tx ts_ms false
  | TxType.Receipt => tx_acc_cash_movement tx ts_ms true
  | TxType.DebtReceivable =>
      let amount := tx_debt_principal tx in
      if 0 <? amount
      then ledger_build (tx_acc_standalone_debt_receivable ledger amount) ts_ms else []
  | TxType.DebtPayable =>
      let amount := tx_debt_principal tx in
      if 0 <? amount
      then ledger_build (tx_acc_standalone_debt_payable ledger amount) ts_ms else []
  | TxType.Sale | TxType.Reservation =>
      ledger_build (tx_acc_sale_or_return tx ledger gross false) ts_ms
  | TxType.ReturnSale => ledger_build (tx_acc_sale_or_return tx ledger gross true) ts_ms
  | TxType.Purchase => ledger_build (tx_acc_purchase tx ledger gross false) ts_ms
  | TxType.ReturnPurchase => ledger_build (tx_acc_purchase tx ledger gross true) ts_ms
  | _ =>
      ledger_build
        (if gross =? 0 then ledger else tx_acc_revenue_line ledger gross false false) ts_ms
  end.

Definition tx_manual_accs (tx : Tx) : list TxAcc :=
  filter (fun a => a.(TxAcc.is_tx_generated) = false) tx.(Tx.accs).

Definition tx_compute_accs (tx : Tx) (ts_ms : Z) : Tx :=
  let manual := tx_manual_accs tx in
  if tx_acc_skip_generated manual (tx_type tx.(Tx.type))
  then {| tx with Tx.accs := manual |}
  else
    let gross := tx_items_gross tx in
    let generated := tx_compute_generated_accs tx gross ts_ms in
    {| tx with Tx.accs := manual ++ generated |}.

(** The loop over accounting lines: sum, manual lines. *)
Definition acc_meta_loop (accs : list TxAcc) : Z * Z :=
  foldl (fun '(sum, manual) acc =>
           ((sum + acc_signed_amount acc)%i64,
            if negb acc.(TxAcc.is_tx_generated) then (manual + 1)%i32 else manual))
    (0, 0) accs.

Definition tx_compute_acc_meta (tx : Tx) : Tx :=
  let '(sum, manual) := acc_meta_loop tx.(Tx.accs) in
  {| tx with
     Tx.acc_line_count := to_i32 (Z.of_nat (length tx.(Tx.accs)));
     Tx.acc_sum := sum;
     Tx.acc_balanced := sum =? 0;
     Tx.has_manual_lines := 0 <? manual |}.

(** ** The whole pass *)

(** The clock is read in [tx_time_ms] and again, for a stamp out of range, in
    the debt pass: [now] and [now']. *)
Definition tx_finalize (now now' : DateTime) (tx : Tx) : Tx :=
  let ts_ms := tx_time_ms now tx in
  let tx := tx_compute_items tx in
  let tx := tx_compute_totals tx in
  let tx := tx_compute_standalone_debt tx in
  let tx := tx_compute_debt_installments now' tx ts_ms in
  let tx := tx_compute_stock tx ts_ms in
  let tx := tx_compute_accs tx ts_ms in
  tx_compute_acc_meta tx.

(** ** Account names of a preview *)

Definition coa_labels : list (string * string) :=
  [(COA_CASH, "Kas"); (COA_BANK, "Bank"); (COA_EWALLET, "E-Wallet"); (COA_AR, "Piutang");
   (COA_INVENTORY, "Persediaan"); (COA_INPUT_VAT, "PPN Masukan"); (COA_AP, "Hutang");
   (COA_TAX_PAYABLE, "PPN Keluaran"); (COA_REVENUE, "Pendapatan");
   (COA_SALES_DISCOUNT, "Diskon Penjualan"); (COA_SALES_RETURNS, "Retur Penjualan");
   (COA_ROUNDING, "Pembulatan"); (COA_INTEREST, "Bunga")].

Definition tx_preview_coa_names (accs : list TxAcc) : gmap string string :=
  foldl (fun out acc =>
    let code := trim acc.(TxAcc.acc_code) in
    if is_empty code || bool_decide (is_Some (out !! code)) then out
    else <[code := match_str code coa_labels code]> out) ∅ accs.

End Finalize.
