(* ===== verification/FinalizeFacts.v ===== *)
(** * Properties of [tx_finalize]

    Closed forms of the loops, the ledger's conservation law, and the
    properties of the derived fields. *)
From S2P Require Import Prelude Strs Ts TxProto EnumMap Finalize.

Section FinalizeFacts.
Context `{!Chrono} `{!HashIter string Z}.
Implicit Types tx : Tx.

(** ** Loops *)

Lemma items_loop_eq items :
  items_loop items =
    (i64_sum ((fun _ => 1) <$> items), i64_sum (TxItem.qty <$> items),
     i64_sum (item_net <$> items)).
Proof.
  unfold items_loop, i64_sum. set (step := fun '(count, qty, items_total) item => _).
  enough (forall a b c, foldl step (a, b, c) items =
    (foldl i64_add a ((fun _ => 1) <$> items), foldl i64_add b (TxItem.qty <$> items),
     foldl i64_add c (item_net <$> items))) as Hl by apply Hl.
  induction items as [|x l IH]; intros a b c; [done|]. apply IH.
Qed.

Definition is_debt (p : TxPayment) : Prop :=
  tx_payment_method p.(TxPayment.method) = TxPaymentMethod.Debt.
#[local] Instance is_debt_dec p : Decision (is_debt p).
Proof. unfold is_debt. apply _. Defined.

Definition debt_payments (ps : list TxPayment) : list TxPayment := filter is_debt ps.
Definition debt_installments (ps : list TxPayment) : list TxInstallment :=
  mjoin (TxPayment.installments <$> debt_payments ps).

Lemma inst_loop_eq insts a b :
  foldl (fun '(dt, dp) inst =>
           ((dt + inst.(TxInstallment.amount))%i64, (dp + inst_paid inst)%i64)) (a, b) insts
  = (foldl i64_add a (TxInstallment.amount <$> insts), foldl i64_add b (inst_paid <$> insts)).
Proof. revert a b. induction insts as [|x l IH]; intros; [done|]. cbn. apply IH. Qed.

Lemma payments_loop_eq ps :
  payments_loop ps =
    (i64_sum (TxPayment.amount <$> ps),
     i64_sum (TxPayment.debt_interest <$> debt_payments ps),
     i64_sum (TxInstallment.amount <$> debt_installments ps),
     i64_sum (inst_paid <$> debt_installments ps)).
Proof.
  unfold payments_loop, i64_sum, debt_installments, debt_payments.
  set (step := fun '(paid, interest, debt_total, debt_paid) p => _).
  enough (forall a b c d, foldl step (a, b, c, d) ps =
    (foldl i64_add a (TxPayment.amount <$> ps),
     foldl i64_add b (TxPayment.debt_interest <$> filter is_debt ps),
     foldl i64_add c (TxInstallment.amount <$> mjoin (TxPayment.installments <$> filter is_debt ps)),
     foldl i64_add d (inst_paid <$> mjoin (TxPayment.installments <$> filter is_debt ps))))
    as Hl by apply Hl.
  induction ps as [|p l IH]; intros a b c d; [done|].
  cbn [foldl]. rewrite (filter_cons _ p l). unfold step at 2. fold (is_debt p).
  destruct (decide (is_debt p)) as [E|E].
  - rewrite bool_decide_eq_true_2 by done. cbn [negb].
    rewrite inst_loop_eq, IH. cbn. by rewrite !fmap_app, !foldl_app.
  - rewrite bool_decide_eq_false_2 by done. cbn [negb]. rewrite IH. by cbn.
Qed.

Lemma acc_meta_loop_eq accs :
  acc_meta_loop accs =
    (i64_sum (acc_signed_amount <$> accs),
     i32_sum ((fun _ => 1) <$> filter (fun a => a.(TxAcc.is_tx_generated) = false) accs)).
Proof.
  unfold acc_meta_loop, i64_sum, i32_sum. set (step := fun '(sum, manual) acc => _).
  enough (forall a b, foldl step (a, b) accs =
    (foldl i64_add a (acc_signed_amount <$> accs),
     foldl i32_add b ((fun _ => 1) <$> filter (fun a => a.(TxAcc.is_tx_generated) = false) accs))) as Hl by apply Hl.
  induction accs as [|x l IH]; intros a b; [done|].
  cbn [foldl]. rewrite filter_cons. unfold step at 2. rewrite IH.
  by destruct x.(TxAcc.is_tx_generated).
Qed.

(** ** The ledger *)

Definition ledger_total (l : AccLedger) : Z := Zsum (map_to_list l.(amounts)).*2.

Lemma ledger_balance_eq l : ledger_balance l = to_i64 (ledger_total l).
Proof.
  unfold ledger_balance, ledger_total. rewrite i64_sum_eq. by rewrite hash_iter_perm.
Qed.

Lemma Zsum_insert (m : gmap string Z) k v :
  Zsum (map_to_list (<[k := v]> m)).*2
    = Zsum (map_to_list m).*2 - default 0 (m !! k) + v.
Proof.
  destruct (m !! k) as [x|] eqn:E; cbn [default from_option id].
  - rewrite <- (map_to_list_delete m k x E), <- insert_delete_eq.
    rewrite map_to_list_insert by apply lookup_delete_eq.
    rewrite !fmap_cons, !Zsum_cons. cbn [snd]. lia.
  - rewrite map_to_list_insert by done. rewrite fmap_cons, Zsum_cons. cbn [snd]. lia.
Qed.

Lemma ledger_add_total l code a :
  eqm 64 (ledger_total (ledger_add l code a)) (ledger_total l + a).
Proof.
  unfold ledger_add. destruct (a =? 0) eqn:E.
  - apply Z.eqb_eq in E as ->. by rewrite Z.add_0_r.
  - unfold ledger_total; cbn [amounts]. rewrite Zsum_insert.
    unfold i64_add. rewrite eqm64_to_i64.
    set (d := default 0 _). set (z := Zsum _). by replace (z - d + (d + a)) with (z + a) by lia.
Qed.

Lemma ledger_add_balance l code a :
  ledger_balance (ledger_add l code a) = (ledger_balance l + a)%i64.
Proof.
  rewrite !ledger_balance_eq. rewrite ledger_add_total. unwrap64.
Qed.

Lemma ledger_add_note l code a : ledger_note (ledger_add l code a) = ledger_note l.
Proof. unfold ledger_add. by case_match. Qed.

Lemma ledger_add_lookup_ne l code code' a :
  code <> code' -> amounts (ledger_add l code a) !! code' = amounts l !! code'.
Proof. intros Hne. unfold ledger_add. case_match; [done|]. by apply lookup_insert_ne. Qed.

(** A line carries the signed amount of its account. *)
Lemma ledger_line_signed note ts e a :
  ledger_line note ts e = Some a -> eqm 64 (acc_signed_amount a) e.2.
Proof.
  destruct e as [code amount]. unfold ledger_line, acc_signed_amount.
  destruct (amount =? 0); [done|]. destruct (amount <? 0); intros [= <-]; cbn -[i64_neg]; [|done].
  rewrite decide_True by done. unfold i64_neg.
  rewrite !eqm64_to_i64. by rewrite Z.opp_involutive.
Qed.
Lemma ledger_line_none note ts e : ledger_line note ts e = None -> e.2 = 0.
Proof.
  destruct e as [code amount]. unfold ledger_line. cbn.
  destruct (amount =? 0) eqn:E; [by apply Z.eqb_eq in E|by case_match].
Qed.

Lemma ledger_lines_signed note ts es :
  eqm 64 (Zsum (acc_signed_amount <$> omap (ledger_line note ts) es)) (Zsum es.*2).
Proof.
  induction es as [|e es IH]; [done|]. cbn.
  destruct (ledger_line note ts e) eqn:E; cbn.
  - apply ledger_line_signed in E. by rewrite E, IH.
  - apply ledger_line_none in E. by rewrite E.
Qed.

(** The ledger that [ledger_build] emits: the given one and its rounding. *)
Definition ledger_closed (l : AccLedger) : AccLedger :=
  if ledger_balance l =? 0 then l else ledger_add l COA_ROUNDING (- ledger_balance l)%i64.

Lemma ledger_build_eq l ts :
  ledger_build l ts = omap (ledger_line (ledger_note l) ts) (hash_iter (amounts (ledger_closed l))).
Proof.
  unfold ledger_build, ledger_closed. case_match; [done|]. by rewrite ledger_add_note.
Qed.

Lemma ledger_closed_balance l : ledger_balance (ledger_closed l) = 0.
Proof.
  unfold ledger_closed. destruct (ledger_balance l =? 0) eqn:E.
  - by apply Z.eqb_eq.
  - rewrite ledger_add_balance. unwrap64. by rewrite Z.add_opp_diag_r.
Qed.

(** Emitted lines cancel out. *)
Lemma ledger_build_balanced l ts : i64_sum (acc_signed_amount <$> ledger_build l ts) = 0.
Proof.
  rewrite ledger_build_eq, i64_sum_eq, ledger_lines_signed, hash_iter_perm.
  by rewrite <- (ledger_closed_balance l), ledger_balance_eq.
Qed.

Lemma ledger_build_generated l ts a :
  a ∈ ledger_build l ts -> a.(TxAcc.is_tx_generated) = true.
Proof.
  rewrite ledger_build_eq, list_elem_of_omap. intros ([code amount] & _ & Hl).
  unfold ledger_line in Hl. repeat case_match; naive_solver.
Qed.

Lemma generated_balanced tx gross ts :
  i64_sum (acc_signed_amount <$> tx_compute_generated_accs tx gross ts) = 0.
Proof.
  unfold tx_compute_generated_accs, tx_acc_cash_movement.
  repeat case_match; try apply ledger_build_balanced; done.
Qed.

Lemma generated_flag tx gross ts a :
  a ∈ tx_compute_generated_accs tx gross ts -> a.(TxAcc.is_tx_generated) = true.
Proof.
  unfold tx_compute_generated_accs, tx_acc_cash_movement.
  repeat case_match; try apply ledger_build_generated; by intros ?%not_elem_of_nil.
Qed.

(** ** Stages *)

Lemma tx_compute_totals_eq tx :
  tx_compute_totals tx =
    let items_total := i64_sum (item_net <$> tx.(Tx.items)) in
    let tax_sum := i64_sum (TxTax.amount <$> tx.(Tx.taxes)) in
    let disc_sum := i64_sum (TxDiscount.amount <$> tx.(Tx.discounts)) in
    let paid := i64_sum (TxPayment.amount <$> tx.(Tx.payments)) in
    let interest := i64_sum (TxPayment.debt_interest <$> debt_payments tx.(Tx.payments)) in
    let debt_total := i64_sum (TxInstallment.amount <$> debt_installments tx.(Tx.payments)) in
    let debt_paid := i64_sum (inst_paid <$> debt_installments tx.(Tx.payments)) in
    let debt_unpaid := (debt_total - debt_paid)%i64 in
    let net := (items_total + tax_sum - disc_sum + interest)%i64 in
    {| tx with
       Tx.items_count := i64_sum ((fun _ => 1) <$> tx.(Tx.items));
       Tx.items_qty := i64_sum (TxItem.qty <$> tx.(Tx.items));
       Tx.items_total := items_total; Tx.total_taxes := tax_sum;
       Tx.total_discounts := disc_sum; Tx.total_paid := paid;
       Tx.total_interest := interest; Tx.debt_total := debt_total;
       Tx.debt_paid := debt_paid; Tx.debt_unpaid := debt_unpaid;
       Tx.is_paid := debt_unpaid <=? 0; Tx.total := net;
       Tx.total_unpaid := Z.max (net - paid)%i64 0 |}.
Proof. unfold tx_compute_totals. by rewrite items_loop_eq, payments_loop_eq. Qed.

Lemma tx_compute_acc_meta_eq tx :
  tx_compute_acc_meta tx =
    let sum := i64_sum (acc_signed_amount <$> tx.(Tx.accs)) in
    {| tx with
       Tx.acc_line_count := to_i32 (Z.of_nat (length tx.(Tx.accs)));
       Tx.acc_sum := sum;
       Tx.acc_balanced := sum =? 0;
       Tx.has_manual_lines := 0 <? i32_sum ((fun _ => 1) <$> tx_manual_accs tx) |}.
Proof. unfold tx_compute_acc_meta. by rewrite acc_meta_loop_eq. Qed.

Lemma tx_compute_stock_eq tx ts :
  tx_compute_stock tx ts =
    let stocks := tx_stock_lines tx ts in
    {| tx with
       Tx.stocks := stock_sign <$> stocks;
       Tx.stock_line_count := to_i32 (Z.of_nat (length stocks));
       Tx.stock_qty_in := (stock_qty_loop stocks).1;
       Tx.stock_qty_out := (stock_qty_loop stocks).2 |}.
Proof. unfold tx_compute_stock. by destruct (stock_qty_loop _). Qed.

Lemma tx_compute_standalone_debt_eq tx :
  exists dt du ip,
    tx_compute_standalone_debt tx =
      {| tx with Tx.debt_total := dt; Tx.debt_unpaid := du; Tx.is_paid := ip |}.
Proof. unfold tx_compute_standalone_debt. repeat case_match; eauto. Qed.

Lemma tx_compute_accs_eq tx ts :
  tx_compute_accs tx ts =
    {| tx with Tx.accs := tx_manual_accs tx ++
         if tx_acc_skip_generated (tx_manual_accs tx) (tx_type tx.(Tx.type)) then []
         else tx_compute_generated_accs tx (tx_items_gross tx) ts |}.
Proof. unfold tx_compute_accs. case_match; [by rewrite app_nil_r|done]. Qed.

(** The transaction the accounting pass sees. *)
Definition tx_before_accs (now now' : DateTime) tx : Tx :=
  let ts_ms := tx_time_ms now tx in
  tx_compute_stock
    (tx_compute_debt_installments now'
       (tx_compute_standalone_debt (tx_compute_totals (tx_compute_items tx))) ts_ms) ts_ms.

Lemma tx_finalize_eq now now' tx :
  tx_finalize now now' tx =
    tx_compute_acc_meta (tx_compute_accs (tx_before_accs now now' tx) (tx_time_ms now tx)).
Proof. reflexivity. Qed.

(** Fields no pass before the accounting one writes. *)
Ltac before_accs :=
  intros; unfold tx_before_accs; rewrite tx_compute_stock_eq;
  edestruct tx_compute_standalone_debt_eq as (? & ? & ? & ->);
  rewrite tx_compute_totals_eq; reflexivity.

Lemma before_accs_accs now now' tx : Tx.accs (tx_before_accs now now' tx) = Tx.accs tx.
Proof. before_accs. Qed.
Lemma before_accs_type now now' tx : Tx.type (tx_before_accs now now' tx) = Tx.type tx.
Proof. before_accs. Qed.
Lemma before_accs_items now now' tx :
  Tx.items (tx_before_accs now now' tx) = tx_compute_item <$> Tx.items tx.
Proof. before_accs. Qed.
Lemma before_accs_taxes now now' tx : Tx.taxes (tx_before_accs now now' tx) = Tx.taxes tx.
Proof. before_accs. Qed.
Lemma before_accs_discounts now now' tx :
  Tx.discounts (tx_before_accs now now' tx) = Tx.discounts tx.
Proof. before_accs. Qed.

Lemma before_accs_manual now now' tx :
  tx_manual_accs (tx_before_accs now now' tx) = tx_manual_accs tx.
Proof. unfold tx_manual_accs. by rewrite before_accs_accs. Qed.

Definition finalize_generated (now now' : DateTime) tx : list TxAcc :=
  if tx_acc_skip_generated (tx_manual_accs tx) (tx_type tx.(Tx.type)) then []
  else tx_compute_generated_accs (tx_before_accs now now' tx)
         (tx_items_gross (tx_before_accs now now' tx)) (tx_time_ms now tx).

Lemma tx_finalize_accs now now' tx :
  Tx.accs (tx_finalize now now' tx) = tx_manual_accs tx ++ finalize_generated now now' tx.
Proof.
  rewrite tx_finalize_eq, tx_compute_acc_meta_eq, tx_compute_accs_eq. cbn [Tx.accs].
  by rewrite before_accs_manual, before_accs_type.
Qed.

Lemma finalize_generated_balanced now now' tx :
  i64_sum (acc_signed_amount <$> finalize_generated now now' tx) = 0.
Proof. unfold finalize_generated. case_match; [done|apply generated_balanced]. Qed.

Lemma finalize_generated_flag now now' tx a :
  a ∈ finalize_generated now now' tx -> a.(TxAcc.is_tx_generated) = true.
Proof.
  unfold finalize_generated. case_match; [by intros ?%not_elem_of_nil|apply generated_flag].
Qed.

Lemma i64_sum_app l k : i64_sum (l ++ k) = (i64_sum l + i64_sum k)%i64.
Proof. rewrite !i64_sum_eq, Zsum_app. unwrap64. Qed.

(** ** Rounding *)

Definition no_rounding (l : AccLedger) : Prop := amounts l !! COA_ROUNDING = None.

Lemma foldl_inv {A B} (P : A -> Prop) (f : A -> B -> A) (bs : list B) a :
  (forall a b, P a -> P (f a b)) -> P a -> P (foldl f a bs).
Proof. intros Hf. revert a. induction bs; cbn; auto. Qed.

Lemma no_rounding_add l code a :
  code <> COA_ROUNDING -> no_rounding l -> no_rounding (ledger_add l code a).
Proof. unfold no_rounding. intros Hc. by rewrite ledger_add_lookup_ne. Qed.

Lemma payment_acc_code_ne p : tx_payment_acc_code p <> COA_ROUNDING.
Proof. unfold tx_payment_acc_code. by case_match. Qed.
Lemma tax_acc_code_ne t b : tx_tax_acc_code t b <> COA_ROUNDING.
Proof. unfold tx_tax_acc_code. repeat case_match; done. Qed.
Lemma cash_acc_code_ne tx : tx_cash_acc_code tx <> COA_ROUNDING.
Proof. unfold tx_cash_acc_code. case_match; [apply payment_acc_code_ne|done]. Qed.

Create HintDb ledger.
#[local] Hint Resolve no_rounding_add payment_acc_code_ne tax_acc_code_ne
  cash_acc_code_ne : ledger.
Ltac no_rounding :=
  repeat match goal with
  | |- no_rounding (foldl _ _ _) => apply foldl_inv; intros
  | |- no_rounding (if _ then _ else _) => case_match
  end; auto with ledger;
  try (apply no_rounding_add; [repeat case_match; done|]); auto with ledger.

Lemma no_rounding_sale_lines tx l gross r :
  no_rounding l -> no_rounding (tx_acc_sale_lines tx l gross r).
Proof.
  intros Hl. unfold tx_acc_sale_lines, tx_acc_payments, ledger_add_discount,
    ledger_add_tax, tx_acc_revenue_line. no_rounding.
Qed.
Lemma no_rounding_purchase_lines tx l gross r :
  no_rounding l -> no_rounding (tx_acc_purchase_lines tx l gross r).
Proof.
  intros Hl. unfold tx_acc_purchase_lines, tx_acc_payments, ledger_add_discount,
    ledger_add_tax. no_rounding.
Qed.
Lemma no_rounding_balance_unpaid l b r :
  no_rounding l -> no_rounding (tx_balance_unpaid l b r).
Proof. intros Hl. unfold tx_balance_unpaid. no_rounding. Qed.
Lemma no_rounding_interest ps l r :
  no_rounding l -> no_rounding (foldl (tx_acc_interest r) l ps).
Proof. intros Hl. apply foldl_inv; [|done]. intros. unfold tx_acc_interest. no_rounding. Qed.

Lemma ledger_balance_in l : in_i64 (ledger_balance l).
Proof. rewrite ledger_balance_eq. apply to_i64_in. Qed.

Lemma balance_unpaid_balance l b r :
  ledger_balance (tx_balance_unpaid l b r) =
    if r then (ledger_balance l + ledger_balance l)%i64 else 0.
Proof.
  unfold tx_balance_unpaid. destruct (ledger_balance l =? 0) eqn:E.
  - apply Z.eqb_eq in E. rewrite E. by destruct r.
  - assert (to_i64 0 = 0) as E0 by done. destruct b, r; rewrite ledger_add_balance; cbn [bool_sign];
      unwrap64; rewrite <- E0; f_equal; lia.
Qed.

Lemma interest_balance r l p : ledger_balance (tx_acc_interest r l p) = ledger_balance l.
Proof.
  unfold tx_acc_interest. case_match; [done|]. rewrite !ledger_add_balance.
  rewrite <- (to_i64_id (ledger_balance l)) at 2 by apply ledger_balance_in.
  destruct r; cbn [bool_sign negb]; unwrap64.
Qed.
Lemma interest_loop_balance r ps l :
  ledger_balance (foldl (tx_acc_interest r) l ps) = ledger_balance l.
Proof.
  apply (foldl_inv (fun l' => ledger_balance l' = ledger_balance l)); [|done].
  intros a p <-. apply interest_balance.
Qed.

(** Lines and accounts of the closed ledger correspond. *)
Lemma ledger_build_elem l ts a :
  a ∈ ledger_build l ts <->
  exists code x, amounts (ledger_closed l) !! code = Some x
    /\ ledger_line (ledger_note l) ts (code, x) = Some a.
Proof.
  rewrite ledger_build_eq, list_elem_of_omap. split.
  - intros ([code x] & Hin & Hl). exists code, x. split; [|done].
    rewrite hash_iter_perm in Hin. by apply elem_of_map_to_list.
  - intros (code & x & Hx & Hl). exists (code, x). split; [|done].
    rewrite hash_iter_perm. by apply elem_of_map_to_list.
Qed.

Lemma ledger_line_code note ts code x a :
  ledger_line note ts (code, x) = Some a -> TxAcc.acc_code a = code.
Proof. unfold ledger_line. repeat case_match; naive_solver. Qed.

Lemma ledger_build_no_rounding l ts :
  no_rounding l -> ledger_balance l = 0 ->
  Forall (fun a => TxAcc.acc_code a <> COA_ROUNDING) (ledger_build l ts).
Proof.
  intros Hr Hb. apply Forall_forall.
  intros a (code & x & Hx & Hl)%list_elem_of_In%ledger_build_elem Hc.
  apply ledger_line_code in Hl. unfold ledger_closed in Hx. rewrite Hb in Hx. cbn in Hx.
  unfold no_rounding in Hr. congruence.
Qed.

Lemma ledger_line_in note ts code x a :
  in_i64 x -> ledger_line note ts (code, x) = Some a -> in_i64 (acc_signed_amount a).
Proof.
  intros Hx. unfold ledger_line, acc_signed_amount. destruct (x =? 0); [done|].
  destruct (x <? 0); intros [= <-]; case_match; auto with machine; apply to_i64_in.
Qed.

(** An unbalanced ledger gets one rounding line, of the opposite amount. *)
Lemma ledger_build_rounding l ts :
  no_rounding l -> ledger_balance l <> 0 ->
  exists a, a ∈ ledger_build l ts /\ TxAcc.acc_code a = COA_ROUNDING
    /\ acc_signed_amount a = (- ledger_balance l)%i64.
Proof.
  intros Hr Hb. set (x := (- ledger_balance l)%i64).
  assert (x <> 0) as Hx.
  { unfold x, i64_neg. intros E. apply Hb. apply eqm64_eq; [apply ledger_balance_in|done|].
    destruct (wrap_mod_eq 64 (- ledger_balance l)) as [k Hk]; [lia|]. exists k.
    change (wrap 64 (- ledger_balance l)) with (to_i64 (- ledger_balance l)) in Hk. lia. }
  assert (amounts (ledger_closed l) !! COA_ROUNDING = Some x) as Hlk.
  { unfold ledger_closed. rewrite (proj2 (Z.eqb_neq _ _) Hb). fold x.
    unfold ledger_add. rewrite (proj2 (Z.eqb_neq _ _) Hx). cbn [amounts].
    rewrite lookup_insert_eq, Hr. cbn. f_equal. unfold i64_add. rewrite Z.add_0_l.
    apply to_i64_idemp. }
  destruct (ledger_line (ledger_note l) ts (COA_ROUNDING, x)) as [a|] eqn:El.
  2: { by apply ledger_line_none in El. }
  exists a. split_and!.
  - apply ledger_build_elem. eauto.
  - by eapply ledger_line_code.
  - apply eqm64_eq; [|apply to_i64_in|by eapply ledger_line_signed in El].
    eapply ledger_line_in; [apply to_i64_in|exact El].
Qed.

End FinalizeFacts.
