(* ===== verification/FinalizeProps.v ===== *)
(** * What [tx_finalize] guarantees

    The properties of the accounting, total, debt and stock passes, each with a
    concrete transaction on which it applies. *)
From S2P Require Import Prelude Strs Ts TxProto EnumMap Finalize FinalizeFacts.

(** ** Accounting *)

Section Accounting.
Context `{!Chrono} `{!HashIter string Z}.
Implicit Types tx : Tx.

Lemma finalize_acc_fields now now' tx :
  let manual := tx_manual_accs tx in
  let generated := finalize_generated now now' tx in
  let tx' := tx_finalize now now' tx in
  Tx.accs tx' = manual ++ generated /\
  Tx.acc_sum tx' = i64_sum (acc_signed_amount <$> manual ++ generated) /\
  Tx.acc_balanced tx' = (Tx.acc_sum tx' =? 0).
Proof.
  cbn zeta. split_and!; [apply tx_finalize_accs| |];
    rewrite tx_finalize_eq, tx_compute_acc_meta_eq; [|done].
  cbn [Tx.acc_sum]. do 2 f_equal. rewrite <- tx_finalize_accs.
  rewrite tx_finalize_eq, tx_compute_acc_meta_eq. done.
Qed.

(** C1. Double entry: whatever the transaction's type and contents,
    [tx_finalize] keeps the manual ledger lines in front and in order, appends
    lines flagged as generated whose signed amounts cancel out exactly, and so
    reports as [acc_sum] the sum of the manual lines alone and as
    [acc_balanced] whether that sum is zero. *)
Theorem finalize_books now now' tx :
  exists generated,
    Tx.accs (tx_finalize now now' tx) = tx_manual_accs tx ++ generated /\
    Forall (fun a => a.(TxAcc.is_tx_generated) = true) generated /\
    i64_sum (acc_signed_amount <$> generated) = 0 /\
    Tx.acc_sum (tx_finalize now now' tx) = i64_sum (acc_signed_amount <$> tx_manual_accs tx) /\
    Tx.acc_balanced (tx_finalize now now' tx) =
      (i64_sum (acc_signed_amount <$> tx_manual_accs tx) =? 0).
Proof.
  exists (finalize_generated now now' tx).
  destruct (finalize_acc_fields now now' tx) as (Ha & Hs & Hb). cbn zeta in *.
  assert (i64_sum (acc_signed_amount <$> tx_manual_accs tx ++ finalize_generated now now' tx)
    = i64_sum (acc_signed_amount <$> tx_manual_accs tx)) as E.
  { rewrite fmap_app, i64_sum_app, finalize_generated_balanced, i64_sum_eq. unwrap64. }
  split_and!; [done| |apply finalize_generated_balanced| |].
  - apply Forall_forall. intros a Ha'%list_elem_of_In. by eapply finalize_generated_flag.
  - by rewrite Hs, E.
  - by rewrite Hb, Hs, E.
Qed.

(** The types whose booking rules close without a rounding line. *)
Definition books_close (ty : TxType) : bool :=
  match ty with
  | TxType.Sale | TxType.Reservation | TxType.Purchase | TxType.Payment | TxType.Receipt
  | TxType.DebtReceivable | TxType.DebtPayable => true
  | _ => false
  end.

Lemma note_no_rounding tx : no_rounding (ledger_with_note tx).
Proof. apply lookup_empty. Qed.
Lemma note_balance tx : ledger_balance (ledger_with_note tx) = 0.
Proof. rewrite ledger_balance_eq. unfold ledger_total. cbn. by rewrite map_to_list_empty. Qed.

Lemma add_pair_balance l c c' a :
  ledger_balance l = 0 -> ledger_balance (ledger_add (ledger_add l c a) c' (- a)%i64) = 0.
Proof. intros Hl. rewrite !ledger_add_balance, Hl. unwrap64. by replace (0 + a + - a) with 0 by lia. Qed.
Lemma add_pair_balance' l c c' a :
  ledger_balance l = 0 -> ledger_balance (ledger_add (ledger_add l c (- a)%i64) c' a) = 0.
Proof. intros Hl. rewrite !ledger_add_balance, Hl. unwrap64. by replace (0 + - a + a) with 0 by lia. Qed.

Ltac closed_ledger :=
  apply ledger_build_no_rounding;
  [ repeat (apply no_rounding_add;
      [first [done|apply cash_acc_code_ne]|]); apply note_no_rounding
  | first [apply add_pair_balance|apply add_pair_balance']; apply note_balance ].

Lemma generated_no_rounding tx gross ts :
  books_close (tx_type tx.(Tx.type)) = true ->
  Forall (fun a => a.(TxAcc.acc_code) <> COA_ROUNDING) (tx_compute_generated_accs tx gross ts).
Proof.
  intros Hc. unfold tx_compute_generated_accs, tx_acc_cash_movement.
  destruct (tx_type tx.(Tx.type)); try discriminate Hc;
    repeat case_match; try apply Forall_nil_2; try closed_ledger.
  all: apply ledger_build_no_rounding;
    [ unfold tx_acc_sale_or_return, tx_acc_purchase;
      try apply no_rounding_interest; apply no_rounding_balance_unpaid;
      first [apply no_rounding_sale_lines|apply no_rounding_purchase_lines];
      apply note_no_rounding
    | unfold tx_acc_sale_or_return, tx_acc_purchase;
      rewrite ?interest_loop_balance; by rewrite balance_unpaid_balance ].
Qed.

(** For sales, reservations, purchases, payments, receipts and
    stand-alone debts the booking rules themselves balance: no generated line
    is on the rounding account 6200, so no remainder of an unpaid or overpaid
    transaction is hidden there. *)
Theorem finalize_no_rounding now now' tx a :
  books_close (tx_type tx.(Tx.type)) = true ->
  a ∈ Tx.accs (tx_finalize now now' tx) -> a.(TxAcc.is_tx_generated) = true ->
  a.(TxAcc.acc_code) <> COA_ROUNDING.
Proof.
  intros Hc Ha Hg. rewrite tx_finalize_accs in Ha.
  apply elem_of_app in Ha as [Hm|Hm].
  { unfold tx_manual_accs in Hm. apply list_elem_of_filter in Hm as [? _]. congruence. }
  unfold finalize_generated in Hm. case_match; [by apply not_elem_of_nil in Hm|].
  pose proof (generated_no_rounding (tx_before_accs now now' tx)
    (tx_items_gross (tx_before_accs now now' tx)) (tx_time_ms now tx)) as Hf.
  rewrite before_accs_type, Forall_forall in Hf. apply Hf; [done|by apply list_elem_of_In].
Qed.

(** The lines of a return before its remainder is booked. *)
Definition return_lines (ty : TxType) tx : AccLedger :=
  match ty with
  | TxType.ReturnSale => tx_acc_sale_lines tx (ledger_with_note tx) (tx_items_gross tx) true
  | _ => tx_acc_purchase_lines tx (ledger_with_note tx) (tx_items_gross tx) true
  end.
Definition is_return_type (ty : TxType) : bool :=
  match ty with TxType.ReturnSale | TxType.ReturnPurchase => true | _ => false end.

Lemma return_generated tx gross ts :
  gross = tx_items_gross tx -> is_return_type (tx_type tx.(Tx.type)) = true ->
  let b := ledger_balance (return_lines (tx_type tx.(Tx.type)) tx) in
  exists l, no_rounding l /\ ledger_balance l = (b + b)%i64 /\
    tx_compute_generated_accs tx gross ts = ledger_build l ts.
Proof.
  intros -> Ht b. subst b. unfold tx_compute_generated_accs.
  destruct (tx_type tx.(Tx.type)); try discriminate Ht; (eexists; split_and!; [| |done]);
    unfold tx_acc_sale_or_return, tx_acc_purchase;
    rewrite ?interest_loop_balance, ?balance_unpaid_balance; try done.
  - apply no_rounding_interest, no_rounding_balance_unpaid, no_rounding_sale_lines, note_no_rounding.
  - apply no_rounding_balance_unpaid, no_rounding_purchase_lines, note_no_rounding.
Qed.

(** The remainder of a return is booked with the sign of the
    remainder, not against it: when the lines of a return (goods, discounts,
    taxes, refunds) leave a balance [b], the transaction is closed by a line of
    [-2b] on the rounding account, where a sale or a purchase has none. *)
Theorem finalize_return_rounding now now' tx :
  is_return_type (tx_type tx.(Tx.type)) = true ->
  let b := ledger_balance (return_lines (tx_type tx.(Tx.type)) (tx_before_accs now now' tx)) in
  (b + b)%i64 <> 0 ->
  exists a, a ∈ Tx.accs (tx_finalize now now' tx) /\ a.(TxAcc.acc_code) = COA_ROUNDING
    /\ acc_signed_amount a = (- (b + b))%i64.
Proof.
  intros Ht b Hb. rewrite tx_finalize_accs. setoid_rewrite elem_of_app. unfold finalize_generated.
  replace (tx_acc_skip_generated _ _) with false by
    (unfold tx_acc_skip_generated; destruct (tx_manual_accs tx); [done|];
     by destruct (tx_type tx.(Tx.type))).
  destruct (return_generated (tx_before_accs now now' tx) _ (tx_time_ms now tx) eq_refl)
    as (l & Hn & Hbal & ->); [by rewrite before_accs_type|].
  rewrite before_accs_type in Hbal. fold b in Hbal. rewrite <- Hbal in Hb.
  destruct (ledger_build_rounding l (tx_time_ms now tx) Hn Hb) as (a & Ha & Hc & Hs).
  exists a. split_and!; [by right|done|by rewrite Hs, Hbal].
Qed.

End Accounting.

(** ** Totals and debts *)

Section Totals.
Context `{!Chrono} `{!HashIter string Z}.
Implicit Types tx : Tx.

(** The header fields only the totals pass writes. *)
Definition header tx :=
  (Tx.items tx, Tx.items_count tx, Tx.items_qty tx, Tx.items_total tx, Tx.total_taxes tx,
   Tx.total_discounts tx, Tx.total_interest tx, Tx.total_paid tx, Tx.total tx,
   Tx.total_unpaid tx).

Lemma header_standalone_debt tx : header (tx_compute_standalone_debt tx) = header tx.
Proof. destruct (tx_compute_standalone_debt_eq tx) as (? & ? & ? & ->). reflexivity. Qed.
Lemma header_stock tx ts : header (tx_compute_stock tx ts) = header tx.
Proof. rewrite tx_compute_stock_eq. reflexivity. Qed.
Lemma header_accs tx ts : header (tx_compute_accs tx ts) = header tx.
Proof. rewrite tx_compute_accs_eq. reflexivity. Qed.
Lemma header_acc_meta tx : header (tx_compute_acc_meta tx) = header tx.
Proof. rewrite tx_compute_acc_meta_eq. reflexivity. Qed.
Lemma header_installments now' tx ts :
  header (tx_compute_debt_installments now' tx ts) = header tx.
Proof. reflexivity. Qed.

Lemma finalize_header now now' tx :
  header (tx_finalize now now' tx) = header (tx_compute_totals (tx_compute_items tx)).
Proof.
  rewrite tx_finalize_eq, header_acc_meta, header_accs. unfold tx_before_accs.
  by rewrite header_stock, header_installments, header_standalone_debt.
Qed.

Lemma i64_sum_len {A} (l : list A) : i64_sum ((fun _ => 1) <$> l) = to_i64 (Z.of_nat (length l)).
Proof.
  rewrite i64_sum_eq. f_equal. induction l as [|x l IH]; [done|].
  rewrite fmap_cons, Zsum_cons, IH. cbn [length]. lia.
Qed.

(** The header of a finalised transaction: lines are computed one by
    one; the item, tax, discount, payment and interest totals are the sums of
    the respective lines, the total is items plus taxes minus discounts plus
    debt interest, and the unpaid amount is what payments leave of it, never
    negative; all in 64-bit wrap-around arithmetic. *)
Lemma finalize_totals_of_items now now' tx :
  let items := tx_compute_item <$> tx.(Tx.items) in
  let goods := Zsum (item_net <$> items) in
  let tax := Zsum (TxTax.amount <$> tx.(Tx.taxes)) in
  let disc := Zsum (TxDiscount.amount <$> tx.(Tx.discounts)) in
  let interest := Zsum (TxPayment.debt_interest <$> debt_payments tx.(Tx.payments)) in
  let paid := Zsum (TxPayment.amount <$> tx.(Tx.payments)) in
  let tx' := tx_finalize now now' tx in
  Tx.items tx' = items /\
  Tx.items_count tx' = to_i64 (Z.of_nat (length tx.(Tx.items))) /\
  Tx.items_qty tx' = to_i64 (Zsum (TxItem.qty <$> tx.(Tx.items))) /\
  Tx.items_total tx' = to_i64 goods /\
  Tx.total_taxes tx' = to_i64 tax /\
  Tx.total_discounts tx' = to_i64 disc /\
  Tx.total_interest tx' = to_i64 interest /\
  Tx.total_paid tx' = to_i64 paid /\
  Tx.total tx' = to_i64 (goods + tax - disc + interest) /\
  Tx.total_unpaid tx' = Z.max (to_i64 (goods + tax - disc + interest - paid)) 0.
Proof.
  cbn zeta. pose proof (finalize_header now now' tx) as Hh.
  rewrite tx_compute_totals_eq in Hh. unfold header in Hh.
  injection Hh as -> -> -> -> -> -> -> -> -> ->.
  cbn [Tx.items Tx.items_count Tx.items_qty Tx.items_total Tx.total_taxes Tx.total_discounts
       Tx.total_interest Tx.total_paid Tx.total Tx.total_unpaid
       Tx.taxes Tx.discounts Tx.payments tx_compute_items].
  rewrite !i64_sum_len, length_fmap, !i64_sum_eq, <- list_fmap_compose.
  split_and!; try reflexivity; [unwrap64|f_equal; unwrap64].
Qed.

(** One line: a plain line costs price times quantity; a reserved line
    is priced by the quantity and the duration of its reservations; the net
    price the caller sent survives only when the line has a discount or a tax
    of its own. *)
Lemma compute_item_spec item :
  let q := match item.(TxItem.reservations) with
    | [] => item.(TxItem.qty)
    | rs =>
        let billable := to_i64 (Zsum ((fun r => to_i64 (Z.max r.(TxItemReservation.qty) 0
                                     * Z.max r.(TxItemReservation.duration_qty) 1)) <$> rs)) in
        if 0 <? billable then billable
        else to_i64 (item.(TxItem.qty)
               * Z.max (to_i64 (Zsum ((fun r => Z.max r.(TxItemReservation.duration_qty) 1) <$> rs))) 1)
    end in
  let item' := tx_compute_item item in
  TxItem.total_price item' = to_i64 (item.(TxItem.price) * q) /\
  TxItem.total_qty item' = to_i32 q /\
  TxItem.total_net item' =
    (if (item.(TxItem.total_discount) =? 0) && (item.(TxItem.total_tax) =? 0)
     then to_i64 (item.(TxItem.price) * q) else item.(TxItem.total_net)) /\
  TxItem.price item' = TxItem.price item /\ TxItem.qty item' = TxItem.qty item.
Proof.
  cbn zeta. unfold tx_compute_item, item_line_qty, reservation_billable_qty.
  destruct item.(TxItem.reservations); [done|]. by rewrite !i64_sum_eq.
Qed.

Definition is_standalone_debt (ty : TxType) : bool :=
  bool_decide (ty = TxType.DebtPayable) || bool_decide (ty = TxType.DebtReceivable).

(** The debt fields, and the transaction they are computed on. *)
Definition debt_header tx := (Tx.debt_total tx, Tx.debt_paid tx, Tx.debt_unpaid tx, Tx.is_paid tx).

Lemma standalone_debt_cases tx :
  tx_compute_standalone_debt tx =
    if is_standalone_debt (tx_type tx.(Tx.type)) && (tx.(Tx.debt_total) <=? 0)
       && (0 <? tx.(Tx.total))
    then
      let debt_unpaid := Z.max (tx.(Tx.total) - tx.(Tx.debt_paid))%i64 0 in
      {| tx with
         Tx.debt_total := tx.(Tx.total);
         Tx.debt_unpaid := debt_unpaid;
         Tx.is_paid := debt_unpaid <=? 0 |}
    else tx.
Proof.
  unfold tx_compute_standalone_debt. fold (is_standalone_debt (tx_type tx.(Tx.type))).
  rewrite !Z.leb_antisym.
  by destruct (is_standalone_debt _), (0 <? tx.(Tx.debt_total)), (0 <? tx.(Tx.total)).
Qed.

Lemma finalize_debt_header now now' tx :
  debt_header (tx_finalize now now' tx) =
    debt_header (tx_compute_standalone_debt (tx_compute_totals (tx_compute_items tx))).
Proof.
  rewrite tx_finalize_eq, tx_compute_acc_meta_eq, tx_compute_accs_eq. unfold tx_before_accs.
  rewrite tx_compute_stock_eq. reflexivity.
Qed.

(** The debt of a transaction is what the installments of its debt
    payments add up to, less what was paid on them; a debt entered without
    installments owes its whole total. *)
Lemma finalize_debt now now' tx :
  let insts := debt_installments tx.(Tx.payments) in
  let owed := to_i64 (Zsum (TxInstallment.amount <$> insts)) in
  let repaid := to_i64 (Zsum (inst_paid <$> insts)) in
  let tx' := tx_finalize now now' tx in
  let standalone := is_standalone_debt (tx_type tx.(Tx.type)) && (owed <=? 0)
    && (0 <? Tx.total tx') in
  Tx.debt_paid tx' = repaid /\
  Tx.debt_total tx' = (if standalone then Tx.total tx' else owed) /\
  Tx.debt_unpaid tx' =
    (if standalone then Z.max (Tx.total tx' - repaid)%i64 0 else (owed - repaid)%i64) /\
  Tx.is_paid tx' = (Tx.debt_unpaid tx' <=? 0).
Proof.
  cbn zeta. pose proof (finalize_header now now' tx) as Hh.
  pose proof (finalize_debt_header now now' tx) as Hd. unfold header, debt_header in *.
  injection Hh as _ _ _ _ _ _ _ _ -> _. injection Hd as -> -> -> ->.
  rewrite standalone_debt_cases, tx_compute_totals_eq.
  cbn [Tx.type Tx.debt_total Tx.total Tx.debt_paid Tx.payments tx_compute_items].
  rewrite !i64_sum_eq. by destruct (_ && _ && _).
Qed.

(** *** The header, from the lines of the request *)

(** The units a line is priced by: its quantity, or for a reserved line the
    reserved units times how long each is reserved, where a reservation counts
    for one day or hour at least; reservations that name no units count as long as
    they last together, times the quantity of the line. *)
Definition priced_units (item : TxItem) : Z :=
  let lasts r := Z.max r.(TxItemReservation.duration_qty) 1 in
  let rs := item.(TxItem.reservations) in
  let units := to_i64 (Zsum ((fun r => to_i64 (Z.max r.(TxItemReservation.qty) 0 * lasts r)) <$> rs)) in
  if bool_decide (rs = []) then item.(TxItem.qty)
  else if 0 <? units then units
  else to_i64 (item.(TxItem.qty) * Z.max (to_i64 (Zsum (lasts <$> rs))) 1).
(** Line [item] as it is stored: gross is price times units, and net is gross
    unless the line has a discount or a tax of its own. *)
Definition priced_line (item item' : TxItem) : Prop :=
  let gross := to_i64 (item.(TxItem.price) * priced_units item) in
  item' = {| item with
    TxItem.total_qty := to_i32 (priced_units item);
    TxItem.total_price := gross;
    TxItem.total_net := if (item.(TxItem.total_discount) =? 0) && (item.(TxItem.total_tax) =? 0)
      then gross else item.(TxItem.total_net) |}.
(** What a stored line is worth: its net; a line without one counts its price
    times its quantity. *)
Definition line_worth (item : TxItem) : Z :=
  if item.(TxItem.total_net) =? 0 then item.(TxItem.price) * item.(TxItem.qty)
  else item.(TxItem.total_net).
(** What was repaid on some installments. *)
Definition repayments (insts : list TxInstallment) : list TxDebtPayment :=
  mjoin (TxInstallment.debt_payments <$> insts).

Lemma compute_item_priced item : priced_line item (tx_compute_item item).
Proof.
  unfold priced_line, tx_compute_item, item_line_qty, reservation_billable_qty, priced_units.
  destruct item.(TxItem.reservations) eqn:E; [done|].
  by rewrite !i64_sum_eq, bool_decide_eq_false_2 by done.
Qed.
Lemma worth_sum items : eqm 64 (Zsum (item_net <$> items)) (Zsum (line_worth <$> items)).
Proof.
  induction items as [|x l IH]; [done|]. rewrite !fmap_cons, !Zsum_cons, IH.
  unfold item_net, line_worth. destruct (TxItem.total_net x =? 0); [|done]. cbn.
  unfold_machine. by rewrite eqm64_to_i64.
Qed.
Lemma repaid_sum insts :
  to_i64 (Zsum (inst_paid <$> insts)) = to_i64 (Zsum (TxDebtPayment.amount <$> repayments insts)).
Proof.
  induction insts as [|x l IH]; [done|]. unfold repayments in *.
  rewrite !fmap_cons, Zsum_cons. cbn [mjoin list_join]. rewrite fmap_app, Zsum_app.
  unfold inst_paid at 1. rewrite i64_sum_eq. apply to_i64_proper.
  rewrite <- (eqm64_to_i64 (Zsum (inst_paid <$> l))), IH, !eqm64_to_i64. reflexivity.
Qed.

(** C17. The header of a finalised transaction, whatever its type and contents.
    Every item line is priced as [priced_line] says and otherwise kept.  The
    header counts the lines and their quantity and adds them up; the total is
    items plus taxes less discounts plus the interest of the debt payments; what
    is unpaid is what the payments leave of the total, never less than zero.  The
    debt is what the installments of the debt payments add up to, what is paid of
    it their repayments, and a debt that was entered without installments owes
    its whole total.  All in 64-bit arithmetic that wraps around. *)
Theorem finalize_totals now now' tx :
  let tx' := tx_finalize now now' tx in
  let goods := Zsum (line_worth <$> Tx.items tx') in
  let tax := Zsum (TxTax.amount <$> tx.(Tx.taxes)) in
  let disc := Zsum (TxDiscount.amount <$> tx.(Tx.discounts)) in
  let interest := Zsum (TxPayment.debt_interest <$> debt_payments tx.(Tx.payments)) in
  let paid := Zsum (TxPayment.amount <$> tx.(Tx.payments)) in
  let insts := debt_installments tx.(Tx.payments) in
  let owed := to_i64 (Zsum (TxInstallment.amount <$> insts)) in
  let repaid := to_i64 (Zsum (TxDebtPayment.amount <$> repayments insts)) in
  Forall2 priced_line tx.(Tx.items) (Tx.items tx') /\
  Tx.items_count tx' = to_i64 (Z.of_nat (length tx.(Tx.items))) /\
  Tx.items_qty tx' = to_i64 (Zsum (TxItem.qty <$> tx.(Tx.items))) /\
  Tx.items_total tx' = to_i64 goods /\
  Tx.total_taxes tx' = to_i64 tax /\
  Tx.total_discounts tx' = to_i64 disc /\
  Tx.total_interest tx' = to_i64 interest /\
  Tx.total_paid tx' = to_i64 paid /\
  Tx.total tx' = to_i64 (goods + tax - disc + interest) /\
  Tx.total_unpaid tx' = Z.max (to_i64 (goods + tax - disc + interest - paid)) 0 /\
  Tx.debt_paid tx' = repaid /\
  (Tx.debt_total tx', Tx.debt_unpaid tx') =
    (if (bool_decide (tx_type tx.(Tx.type) ∈ [TxType.DebtPayable; TxType.DebtReceivable]))
        && (owed <=? 0) && (0 <? Tx.total tx')
     then (Tx.total tx', Z.max (to_i64 (Tx.total tx' - repaid)) 0)
     else (owed, to_i64 (owed - repaid))) /\
  Tx.is_paid tx' = (Tx.debt_unpaid tx' <=? 0).
Proof.
  cbn zeta.
  destruct (finalize_totals_of_items now now' tx) as (Ei & -> & -> & -> & -> & -> & -> & -> & Et & ->).
  destruct (finalize_debt now now' tx) as (Ep & Ed & Eu & ->). cbn zeta in *.
  rewrite repaid_sum in Ep, Eu. rewrite Ep, Ed, Eu, Ei.
  pose proof (worth_sum (tx_compute_item <$> tx.(Tx.items))) as Ew.
  split_and!; try done.
  - apply Forall2_fmap_r, Forall_Forall2_diag, Forall_true. apply compute_item_priced.
  - by apply to_i64_proper.
  - rewrite Et. apply to_i64_proper. by rewrite Ew.
  - f_equal. apply to_i64_proper. by rewrite Ew.
  - replace (bool_decide _) with (is_standalone_debt (tx_type tx.(Tx.type)));
      [by case_match|]. by destruct (tx_type tx.(Tx.type)).
Qed.

(** [is_paid] speaks of debts only: a transaction that is not a
    stand-alone debt and has no debt payment is marked paid whatever it owes. *)
Theorem finalize_is_paid_without_debt now now' tx :
  is_standalone_debt (tx_type tx.(Tx.type)) = false ->
  debt_payments tx.(Tx.payments) = [] ->
  Tx.is_paid (tx_finalize now now' tx) = true.
Proof.
  intros Ht Hp. pose proof (finalize_debt_header now now' tx) as Hd.
  unfold debt_header in Hd. injection Hd as _ _ _ ->.
  rewrite standalone_debt_cases, tx_compute_totals_eq.
  cbn [Tx.type Tx.debt_total Tx.total tx_compute_items Tx.payments].
  unfold debt_installments. by rewrite Ht, Hp.
Qed.

(** ** Installments *)

Lemma finalize_payments now now' tx :
  Tx.payments (tx_finalize now now' tx) =
    tx_compute_payment_installments (default now' (ts_from_ms (tx_time_ms now tx)))
      (tx_time_ms now tx) <$> tx.(Tx.payments).
Proof.
  rewrite tx_finalize_eq, tx_compute_acc_meta_eq, tx_compute_accs_eq. unfold tx_before_accs.
  rewrite tx_compute_stock_eq. cbn [Tx.payments tx_compute_debt_installments].
  destruct (tx_compute_standalone_debt_eq (tx_compute_totals (tx_compute_items tx)))
    as (? & ? & ? & ->). by rewrite tx_compute_totals_eq.
Qed.

(** Installments of a debt payment: amounts, notes and repayments are
    kept; a missing due date becomes the payment's date, or else the
    transaction's; an installment is paid exactly when it has an amount and the
    repayments reach it, and overdue exactly when it is not paid and its due
    date lies before the transaction's own date. *)
Theorem installment_status `{!ChronoLaws} now now' tx i j p inst :
  is_Some (ts_from_ms (tx_time_ms now tx)) ->
  tx.(Tx.payments) !! i = Some p -> is_debt p ->
  p.(TxPayment.installments) !! j = Some inst ->
  let due := if inst.(TxInstallment.due_ts_ms) =? 0
    then (if 0 <? p.(TxPayment.ts_ms) then p.(TxPayment.ts_ms) else tx_time_ms now tx)
    else inst.(TxInstallment.due_ts_ms) in
  is_Some (ts_from_ms due) \/ due <= 0 ->
  exists p' inst',
    Tx.payments (tx_finalize now now' tx) !! i = Some p' /\
    p'.(TxPayment.installments) !! j = Some inst' /\
    TxInstallment.due_ts_ms inst' = due /\
    TxInstallment.amount inst' = TxInstallment.amount inst /\
    TxInstallment.debt_payments inst' = TxInstallment.debt_payments inst /\
    (TxInstallment.is_paid inst' = true <->
       0 < inst.(TxInstallment.amount) <= inst_paid inst) /\
    (TxInstallment.is_overdue inst' = true <->
       TxInstallment.is_paid inst' = false /\ 0 < due < tx_time_ms now tx).
Proof.
  intros [now_d Hnow] Hp Hd Hi due Hdue. rewrite finalize_payments, list_lookup_fmap, Hp. cbn [fmap option_fmap option_map].
  eexists _, (tx_compute_installment now_d _ inst).
  split; [reflexivity|]. split.
  { unfold tx_compute_payment_installments. rewrite bool_decide_eq_true_2 by exact Hd.
    cbn [negb TxPayment.installments]. by rewrite list_lookup_fmap, Hi, Hnow. }
  fold due. unfold tx_compute_installment. fold due.
  cbn [TxInstallment.due_ts_ms TxInstallment.amount TxInstallment.debt_payments
       TxInstallment.is_paid TxInstallment.is_overdue].
  split_and!; [done..| |].
  - rewrite andb_true_iff, Z.ltb_lt, Z.leb_le. done.
  - rewrite !andb_true_iff, negb_true_iff, Z.ltb_lt.
    destruct Hdue as [[due_d Hdue]|Hdue]; [|split; [lia|intuition lia]].
    rewrite Hdue. unfold ts_from_ms in Hnow, Hdue. repeat case_match; simplify_eq.
    rewrite (dt_ltb_millis _ _ _ _ Hdue Hnow), Z.ltb_lt. intuition.
Qed.

End Totals.

(** ** Stock movements *)

Section Stock.
Context `{!Chrono} `{!HashIter string Z}.
Implicit Types tx : Tx.

(** What an item line moves, and the sign its transaction's type gives it. *)
Definition item_moved_out (item : TxItem) : Z :=
  if item.(TxItem.qty) =? 0 then 0
  else match item.(TxItem.sources) with
  | [] => item.(TxItem.qty)
  | srcs => Zsum (TxItemSource.qty <$> srcs)
  end.
Definition item_signed (ty : TxType) (item : TxItem) : Z :=
  match ty with
  | TxType.Sale | TxType.Reservation | TxType.ReturnPurchase => - item_moved_out item
  | TxType.ReturnSale => item_moved_out item
  | TxType.Purchase | TxType.Inventory | TxType.Adjustment => item.(TxItem.qty)
  | _ => 0
  end.

Definition for_product (p : Z) (s : TxStock) : Prop := s.(TxStock.product_id) = p.
#[export] Instance for_product_dec p s : Decision (for_product p s).
Proof. unfold for_product. apply _. Defined.

(** The signed stock of product [p] in some lines. *)
Definition stock_net (p : Z) (ss : list TxStock) : Z :=
  Zsum (TxStock.qty_signed <$> filter (for_product p) ss).

Lemma stock_net_cons p s ss :
  stock_net p (s :: ss) = (if decide (for_product p s) then s.(TxStock.qty_signed) else 0) + stock_net p ss.
Proof. unfold stock_net. rewrite filter_cons. case_decide; [done|lia]. Qed.
Lemma stock_net_app p ss ss' : stock_net p (ss ++ ss') = stock_net p ss + stock_net p ss'.
Proof. unfold stock_net. by rewrite list.filter_app, fmap_app, Zsum_app. Qed.

(** [tx_compute_stock] signs its lines again; the sign is already there. *)
Definition stock_ok (s : TxStock) : Prop :=
  s.(TxStock.qty) <> 0 /\ In s.(TxStock.direction) ["in"; "out"; "transfer"] /\
  s.(TxStock.qty_signed) = stock_direction_signed s.(TxStock.direction) s.(TxStock.qty).

Lemma stock_sign_ok s : stock_ok s -> stock_sign s = s.
Proof. intros (_ & _ & E). unfold stock_sign. by rewrite <- E. Qed.

Lemma Forall_omap {A B} (f : A -> option B) (P : B -> Prop) l :
  (forall x y, f x = Some y -> P y) -> Forall P (omap f l).
Proof.
  intros Hf. induction l as [|x l IH]; cbn; [constructor|].
  destruct (f x) eqn:E; [constructor; eauto|done].
Qed.
Lemma Forall_mjoin_fmap {A B} (f : A -> list B) (P : B -> Prop) l :
  (forall x, Forall P (f x)) -> Forall P (mjoin (f <$> l)).
Proof. intros Hf. induction l; cbn; [constructor|]. by apply Forall_app. Qed.

Lemma i32_neg_nonzero q : in_i32 q -> q <> 0 -> i32_neg q <> 0.
Proof.
  unfold i32_neg, in_i32. intros Hq Hz E.
  destruct (wrap_mod_eq 32 (- q)) as [k Hk]; [lia|].
  change (wrap 32 (- q)) with (to_i32 (- q)) in Hk. lia.
Qed.

(** The quantities a transaction carries are [i32] values. *)
Definition items_i32 (items : list TxItem) : Prop :=
  Forall (fun item => in_i32 item.(TxItem.qty)) items.

Lemma append_item_stocks_ok items ts store dir :
  In dir ["in"; "out"; "transfer"] ->
  Forall stock_ok (tx_append_item_stocks items ts store dir).
Proof.
  intros Hd. apply Forall_mjoin_fmap. intros item.
  destruct (item.(TxItem.qty) =? 0) eqn:E; [constructor|]. apply Z.eqb_neq in E.
  case_match; [by repeat apply Forall_cons_2|].
  apply Forall_omap. intros src s. destruct (TxItemSource.qty src =? 0) eqn:E'; [done|].
  apply Z.eqb_neq in E'. by intros [= <-].
Qed.

Lemma tx_stock_lines_ok tx ts : items_i32 tx.(Tx.items) -> Forall stock_ok (tx_stock_lines tx ts).
Proof.
  intros Hi. unfold tx_stock_lines.
  assert (forall f, (forall item s, in_i32 item.(TxItem.qty) -> f item = Some s -> stock_ok s) ->
    Forall stock_ok (omap f tx.(Tx.items))) as Hl.
  { intros f Hf. induction Hi as [|item l Hq _ IH]; cbn; [constructor|].
    destruct (f item) eqn:E; [constructor; eauto|done]. }
  case_match; try constructor; try (apply append_item_stocks_ok; cbn; tauto);
    apply Hl; intros item s Hq;
    unfold stock_in_line, stock_transfer_line, stock_adjust_line;
    destruct (item.(TxItem.qty) =? 0) eqn:E; try done; apply Z.eqb_neq in E.
  all: try (intros [= <-]; split_and!; [done|cbn; tauto|done]).
  destruct (item.(TxItem.qty) <? 0); intros [= <-];
    (split_and!; [try apply i32_neg_nonzero; done|cbn; tauto|done]).
Qed.

Lemma finalize_stocks_eq now now' tx :
  items_i32 tx.(Tx.items) ->
  let lines := tx_stock_lines (tx_compute_items tx) (tx_time_ms now tx) in
  let tx' := tx_finalize now now' tx in
  Tx.stocks tx' = lines /\
  Tx.stock_line_count tx' = to_i32 (Z.of_nat (length lines)) /\
  (Tx.stock_qty_in tx', Tx.stock_qty_out tx') = stock_qty_loop lines.
Proof.
  intros Hi. cbn zeta.
  rewrite tx_finalize_eq, tx_compute_acc_meta_eq, tx_compute_accs_eq. unfold tx_before_accs.
  rewrite tx_compute_stock_eq.
  cbn [Tx.stocks Tx.stock_line_count Tx.stock_qty_in Tx.stock_qty_out].
  destruct (tx_compute_standalone_debt_eq (tx_compute_totals (tx_compute_items tx)))
    as (? & ? & ? & ->). rewrite tx_compute_totals_eq.
  assert (items_i32 (Tx.items (tx_compute_items tx))) as Hi' by (apply Forall_fmap; exact Hi).
  split_and!; [|done|by destruct (stock_qty_loop _)].
  apply (fmap_id_ext stock_sign). intros s Hs. apply stock_sign_ok.
  pose proof (tx_stock_lines_ok _ (tx_time_ms now tx) Hi') as Hok.
  rewrite Forall_forall in Hok. apply Hok. by apply list_elem_of_In.
Qed.

Lemma stock_qty_loop_signed ss :
  Forall stock_ok ss ->
  eqm 32 ((stock_qty_loop ss).1 - (stock_qty_loop ss).2) (Zsum (TxStock.qty_signed <$> ss)).
Proof.
  intros Hok. unfold stock_qty_loop. set (step := fun '(qty_in, qty_out) s => _).
  enough (forall a b, eqm 32 ((foldl step (a, b) ss).1 - (foldl step (a, b) ss).2)
    (a - b + Zsum (TxStock.qty_signed <$> ss))) as Hl by apply (Hl 0 0).
  induction Hok as [|s l (_ & Hd & Hs) _ IH]; intros a b.
  { cbn. by rewrite Z.add_0_r. }
  rewrite fmap_cons, Zsum_cons.
  match goal with |- eqm 32 _ (?z + (?q + ?w)) => replace q with
    (stock_direction_signed s.(TxStock.direction) s.(TxStock.qty)) by (symmetry; exact Hs) end.
  change (foldl step (a, b) (s :: l)) with
    (foldl step (step (a, b) s) l).
  unfold step at 2 4. unfold stock_direction_signed, i32_add, i32_neg.
  destruct Hd as [E|[E|[E|[]]]]; rewrite <- E; cbn [match_str String.eqb Ascii.eqb eqb];
    rewrite IH, ?eqm32_to_i32;
    match goal with |- eqm 32 ?x ?y => by replace x with y by lia end.
Qed.

Lemma finalize_stocks_ok now now' tx :
  items_i32 tx.(Tx.items) -> Forall stock_ok (Tx.stocks (tx_finalize now now' tx)).
Proof.
  intros Hi. destruct (finalize_stocks_eq now now' tx Hi) as (Hs & _). cbn zeta in *.
  rewrite Hs. apply tx_stock_lines_ok, Forall_fmap; exact Hi.
Qed.

(** Every stock line of a finalised transaction moves a non-zero
    quantity in one of the three directions, carries the signed quantity of its
    direction, is counted, and the in- and out-quantities of the header differ
    by the net of the signed quantities (32-bit arithmetic). *)
Theorem finalize_stock_lines now now' tx :
  items_i32 tx.(Tx.items) ->
  let tx' := tx_finalize now now' tx in
  Forall stock_ok tx'.(Tx.stocks) /\
  Tx.stock_line_count tx' = to_i32 (Z.of_nat (length tx'.(Tx.stocks))) /\
  to_i32 (Tx.stock_qty_in tx' - Tx.stock_qty_out tx') =
    to_i32 (Zsum (TxStock.qty_signed <$> tx'.(Tx.stocks))).
Proof.
  intros Hi. destruct (finalize_stocks_eq now now' tx Hi) as (Hs & Hc & Hq). cbn zeta in *.
  pose proof (finalize_stocks_ok now now' tx Hi) as Hok. rewrite Hs in Hok.
  revert Hs Hc Hq. generalize (tx_finalize now now' tx). intros tx' Hs Hc Hq.
  rewrite Hs. split_and!; [exact Hok|exact Hc|].
  pose proof (stock_qty_loop_signed _ Hok) as Hl. rewrite <- Hq in Hl. cbn [fst snd] in Hl.
  by rewrite Hl.
Qed.

Lemma stock_net_items p f items g :
  (forall item, eqm 32 (stock_net p (f item))
     (if decide (item.(TxItem.product_id) = p) then g item else 0)) ->
  eqm 32 (stock_net p (mjoin (f <$> items)))
    (Zsum ((fun item => if decide (item.(TxItem.product_id) = p) then g item else 0) <$> items)).
Proof.
  intros Hf. induction items as [|item l IH]; [done|].
  rewrite !fmap_cons, Zsum_cons. cbn [mjoin list_join]. by rewrite stock_net_app, Hf, IH.
Qed.
Lemma omap_mjoin {A B} (f : A -> option B) l :
  omap f l = mjoin ((fun x => option_list (f x)) <$> l).
Proof. induction l as [|x l IH]; [done|]. cbn. by destruct (f x); cbn; f_equal. Qed.

(** The quantity of [product] lines the sources of an item move. *)
Lemma sources_net p item ts dir (sgn : Z) srcs :
  (forall q, eqm 32 (stock_direction_signed dir q) (sgn * q)) ->
  eqm 32 (stock_net p (omap (fun src =>
      if src.(TxItemSource.qty) =? 0 then None
      else Some {| TxStock_default with
        TxStock.product_id := item.(TxItem.product_id);
        TxStock.ts_ms := ts;
        TxStock.obj_from_id := src.(TxItemSource.obj_id);
        TxStock.qty := src.(TxItemSource.qty);
        TxStock.direction := dir;
        TxStock.qty_signed := stock_direction_signed dir src.(TxItemSource.qty) |}) srcs))
    (if decide (item.(TxItem.product_id) = p) then sgn * Zsum (TxItemSource.qty <$> srcs) else 0).
Proof.
  intros Hd. induction srcs as [|src l IH].
  { cbn. case_decide; [by rewrite Z.mul_0_r|done]. }
  assert (Zsum (TxItemSource.qty <$> src :: l) =
    src.(TxItemSource.qty) + Zsum (TxItemSource.qty <$> l)) as -> by reflexivity.
  cbn [omap list_omap]. destruct (src.(TxItemSource.qty) =? 0) eqn:E.
  - apply Z.eqb_eq in E. rewrite IH. case_decide; [|done]. by rewrite E, Z.add_0_l.
  - rewrite stock_net_cons. unfold for_product. cbn [TxStock.product_id TxStock.qty_signed].
    rewrite IH. repeat case_decide; try done. by rewrite Hd, Z.mul_add_distr_l.
Qed.

Lemma append_item_stocks_net p items ts store dir (sgn : Z) :
  (forall q, eqm 32 (stock_direction_signed dir q) (sgn * q)) ->
  eqm 32 (stock_net p (tx_append_item_stocks items ts store dir))
    (Zsum ((fun item => if decide (item.(TxItem.product_id) = p)
                        then sgn * item_moved_out item else 0) <$> items)).
Proof.
  intros Hd. apply stock_net_items. intros item. unfold item_moved_out.
  destruct (item.(TxItem.qty) =? 0).
  { cbn. case_decide; [by rewrite Z.mul_0_r|done]. }
  destruct item.(TxItem.sources) as [|src srcs].
  - rewrite stock_net_cons. unfold for_product. cbn [TxStock.product_id TxStock.qty_signed].
    repeat case_decide; try done. rewrite Hd. unfold stock_net. cbn. by rewrite Z.add_0_r.
  - by apply sources_net.
Qed.

Lemma out_signed q : eqm 32 (stock_direction_signed "out" q) (- (1) * q).
Proof. unfold stock_direction_signed, i32_neg. cbn [match_str String.eqb Ascii.eqb eqb].
  rewrite eqm32_to_i32. by replace (- (1) * q) with (- q) by lia. Qed.
Lemma in_signed q : eqm 32 (stock_direction_signed "in" q) (1 * q).
Proof. by rewrite Z.mul_1_l. Qed.

Lemma stock_line_net p (f : TxItem -> option TxStock) g item :
  (forall s, f item = Some s -> s.(TxStock.product_id) = item.(TxItem.product_id) /\
     eqm 32 s.(TxStock.qty_signed) (g item)) ->
  (f item = None -> g item = 0) ->
  eqm 32 (stock_net p (option_list (f item)))
    (if decide (item.(TxItem.product_id) = p) then g item else 0).
Proof.
  intros Hs Hn. destruct (f item) as [s|].
  - destruct (Hs s eq_refl) as [Hp Hg]. change (option_list (Some s)) with [s]. rewrite stock_net_cons. unfold for_product.
    unfold stock_net; cbn. rewrite Z.add_0_r.
    repeat case_decide; try exact Hg; try done; exfalso; congruence.
  - rewrite Hn by done. cbn. by case_decide.
Qed.

Lemma stock_in_line_net p ts store item :
  eqm 32 (stock_net p (option_list (stock_in_line ts store item)))
    (if decide (item.(TxItem.product_id) = p) then item.(TxItem.qty) else 0).
Proof.
  apply (stock_line_net p (stock_in_line ts store) TxItem.qty); unfold stock_in_line;
    destruct (item.(TxItem.qty) =? 0) eqn:E; try done.
  - by intros s [= <-].
  - intros _. by apply Z.eqb_eq.
Qed.
Lemma stock_transfer_line_net p ts store store_tgt item :
  eqm 32 (stock_net p (option_list (stock_transfer_line ts store store_tgt item)))
    (if decide (item.(TxItem.product_id) = p) then 0 else 0).
Proof.
  apply (stock_line_net p (stock_transfer_line ts store store_tgt) (fun _ => 0));
    unfold stock_transfer_line; destruct (item.(TxItem.qty) =? 0) eqn:E; try done.
  by intros s [= <-].
Qed.
Lemma stock_adjust_line_net p ts store item :
  eqm 32 (stock_net p (option_list (stock_adjust_line ts store item)))
    (if decide (item.(TxItem.product_id) = p) then item.(TxItem.qty) else 0).
Proof.
  apply (stock_line_net p (stock_adjust_line ts store) TxItem.qty); unfold stock_adjust_line;
    destruct (item.(TxItem.qty) =? 0) eqn:E; try done.
  - destruct (item.(TxItem.qty) <? 0); intros s [= <-]; (split; [done|]); [|done].
    cbn [TxStock.qty_signed]. rewrite out_signed. unfold i32_neg. rewrite eqm32_to_i32.
    by replace (- (1) * - TxItem.qty item) with (TxItem.qty item) by lia.
  - intros _. by apply Z.eqb_eq.
  - by case_match.
Qed.

(** Stock flow per product: the net quantity the generated lines
    move is what the items of that product sold, bought, returned, adjusted or
    transferred, by the sign of the transaction's type; an item split over
    stock sources moves the quantities of its sources. *)
Theorem finalize_stock_flow now now' tx p :
  items_i32 tx.(Tx.items) ->
  to_i32 (stock_net p (Tx.stocks (tx_finalize now now' tx))) =
    to_i32 (Zsum ((fun item =>
      if decide (item.(TxItem.product_id) = p)
      then item_signed (tx_type tx.(Tx.type)) item else 0) <$> tx.(Tx.items))).
Proof.
  intros Hi. destruct (finalize_stocks_eq now now' tx Hi) as (-> & _ & _).
  apply to_i32_proper. unfold tx_stock_lines. cbn [tx_compute_items Tx.items Tx.type].
  set (ts := tx_time_ms now tx).
  assert (forall g, Zsum ((fun item => if decide (item.(TxItem.product_id) = p) then g item else 0)
      <$> (tx_compute_item <$> tx.(Tx.items))) =
    Zsum ((fun item => if decide (item.(TxItem.product_id) = p) then g (tx_compute_item item) else 0)
      <$> tx.(Tx.items))) as Hmap.
  { intros g. by rewrite <- list_fmap_compose. }
  assert (Hz : eqm 32 0 (Zsum ((fun item : TxItem => if decide (item.(TxItem.product_id) = p) then 0 else 0)
      <$> tx.(Tx.items)))).
  { clear. induction tx.(Tx.items) as [|x l IH]; [done|]. rewrite fmap_cons, Zsum_cons, <- IH.
    by case_decide. }
  unfold item_signed.
  destruct (tx_type tx.(Tx.type)) eqn:Ety; try exact Hz.
  all: try (rewrite (append_item_stocks_net _ _ _ _ _ _ out_signed)).
  all: try (rewrite (append_item_stocks_net _ _ _ _ _ _ in_signed)).
  all: try match goal with |- context [stock_transfer_line] =>
      rewrite omap_mjoin, (stock_net_items _ _ _ (fun _ => 0)) end.
  all: try (rewrite omap_mjoin, (stock_net_items _ _ _ TxItem.qty)).
  all: rewrite ?Hmap; try exact Hz; try done; try intros item.
  - apply stock_in_line_net.
  - apply stock_transfer_line_net.
  - apply stock_adjust_line_net.
  - match goal with |- eqm 32 (Zsum ?a) (Zsum ?b) => replace a with b; [done|] end.
    apply list_fmap_ext. intros _ item _. by rewrite Z.mul_1_l.
  - apply stock_transfer_line_net.
  - apply stock_in_line_net.
Qed.

End Stock.
