(* ===== verification/FinalizeStable.v ===== *)
(** * [tx_finalize] is idempotent

    A finalised transaction is a fixed point: previewing, saving or repaying a
    transaction that was already finalised changes none of its fields. *)
From S2P Require Import Prelude Strs Ts TxProto EnumMap Finalize FinalizeFacts FinalizeProps.

Section Stable.
Context `{!Chrono} `{!HashIter string Z}.
Implicit Types tx : Tx.

(** ** The passes are stable *)

Lemma compute_item_idemp item : tx_compute_item (tx_compute_item item) = tx_compute_item item.
Proof.
  unfold tx_compute_item at 1. change (item_line_qty (tx_compute_item item)) with (item_line_qty item).
  unfold tx_compute_item.
  cbn [TxItem.price TxItem.total_discount TxItem.total_tax TxItem.total_net].
  by destruct (_ && _).
Qed.

Lemma compute_installment_idemp now due inst :
  tx_compute_installment now due (tx_compute_installment now due inst)
    = tx_compute_installment now due inst.
Proof.
  unfold tx_compute_installment at 1. unfold inst_paid.
  unfold tx_compute_installment.
  cbn [TxInstallment.due_ts_ms TxInstallment.amount TxInstallment.debt_payments].
  destruct (TxInstallment.due_ts_ms inst =? 0) eqn:E; rewrite ?E; [|done].
  by destruct (due =? 0).
Qed.

Lemma payment_installments_idemp now ts p :
  tx_compute_payment_installments now ts (tx_compute_payment_installments now ts p)
    = tx_compute_payment_installments now ts p.
Proof.
  unfold tx_compute_payment_installments at 2 3.
  destruct (negb (bool_decide (tx_payment_method p.(TxPayment.method) = TxPaymentMethod.Debt))) eqn:E;
    unfold tx_compute_payment_installments; cbn [TxPayment.method TxPayment.ts_ms TxPayment.installments];
    rewrite E; [done|]. cbn [TxPayment.installments].
  f_equal. rewrite <- list_fmap_compose. apply list_fmap_ext.
  intros _ inst _. apply compute_installment_idemp.
Qed.

(** Totals do not see what the installment pass changes. *)
Lemma payment_installments_debt now ts ps :
  let f := tx_compute_payment_installments now ts in
  TxPayment.amount <$> (f <$> ps) = TxPayment.amount <$> ps /\
  TxPayment.debt_interest <$> debt_payments (f <$> ps)
    = TxPayment.debt_interest <$> debt_payments ps /\
  TxInstallment.amount <$> debt_installments (f <$> ps)
    = TxInstallment.amount <$> debt_installments ps /\
  inst_paid <$> debt_installments (f <$> ps) = inst_paid <$> debt_installments ps.
Proof.
  cbn zeta. unfold debt_installments, debt_payments.
  assert (forall p, TxPayment.amount (tx_compute_payment_installments now ts p) = TxPayment.amount p
    /\ TxPayment.debt_interest (tx_compute_payment_installments now ts p) = TxPayment.debt_interest p
    /\ TxPayment.method (tx_compute_payment_installments now ts p) = TxPayment.method p
    /\ TxInstallment.amount <$> TxPayment.installments (tx_compute_payment_installments now ts p)
       = TxInstallment.amount <$> TxPayment.installments p
    /\ inst_paid <$> TxPayment.installments (tx_compute_payment_installments now ts p)
       = inst_paid <$> TxPayment.installments p) as Hf.
  { intros p. unfold tx_compute_payment_installments. case_match; [done|]. split_and!; try done;
      cbn [TxPayment.installments]; by rewrite <- list_fmap_compose. }
  induction ps as [|p ps (IH1 & IH2 & IH3 & IH4)]; [done|].
  destruct (Hf p) as (H1 & H2 & H3 & H4 & H5).
  rewrite !fmap_cons, !filter_cons. unfold is_debt in *.
  assert (tx_payment_method (TxPayment.method (tx_compute_payment_installments now ts p))
    = tx_payment_method (TxPayment.method p)) as H3' by exact (f_equal _ H3).
  split_and!; [f_equal; [exact H1|exact IH1]|..]; repeat case_decide; try congruence; try done;
    cbn [fmap list_fmap mjoin list_join]; rewrite ?fmap_app.
  - f_equal; [exact H2|exact IH2].
  - f_equal; [exact H4|exact IH3].
  - f_equal; [exact H5|exact IH4].
Qed.

(** ** Ledger lines are no input of the other passes *)

Definition set_accs tx accs lines sum balanced manual : Tx :=
  {| tx with Tx.accs := accs; Tx.acc_line_count := lines; Tx.acc_sum := sum;
     Tx.acc_balanced := balanced; Tx.has_manual_lines := manual |}.

Lemma stock_set tx a l s b m ts :
  tx_compute_stock (set_accs tx a l s b m) ts = set_accs (tx_compute_stock tx ts) a l s b m.
Proof. unfold tx_compute_stock. change (tx_stock_lines (set_accs tx a l s b m) ts) with (tx_stock_lines tx ts). by destruct (stock_qty_loop _). Qed.
Lemma installments_set now' tx a l s b m ts :
  tx_compute_debt_installments now' (set_accs tx a l s b m) ts =
    set_accs (tx_compute_debt_installments now' tx ts) a l s b m.
Proof. reflexivity. Qed.

Lemma before_accs_set now now' tx a l s b m :
  tx_before_accs now now' (set_accs tx a l s b m)
    = set_accs (tx_before_accs now now' tx) a l s b m.
Proof.
  unfold tx_before_accs. change (tx_time_ms now (set_accs tx a l s b m)) with (tx_time_ms now tx).
  assert (tx_compute_standalone_debt (tx_compute_totals (tx_compute_items (set_accs tx a l s b m)))
    = set_accs (tx_compute_standalone_debt (tx_compute_totals (tx_compute_items tx))) a l s b m) as ->.
  { rewrite !standalone_debt_cases, !tx_compute_totals_eq.
    cbn [Tx.type Tx.debt_total Tx.total set_accs tx_compute_items].
    set (c := _ && _ && _). by destruct c. }
  by rewrite installments_set, stock_set.
Qed.

Definition with_accs tx accs : Tx :=
  let sum := i64_sum (acc_signed_amount <$> accs) in
  set_accs tx accs (to_i32 (Z.of_nat (length accs))) sum (sum =? 0)
    (0 <? i32_sum ((fun _ => 1) <$> filter (fun a => a.(TxAcc.is_tx_generated) = false) accs)).

Lemma with_accs_header tx a : header (with_accs tx a) = header tx.
Proof. reflexivity. Qed.
Lemma with_accs_debt_header tx a : debt_header (with_accs tx a) = debt_header tx.
Proof. reflexivity. Qed.
Lemma with_accs_type tx a : Tx.type (with_accs tx a) = Tx.type tx.
Proof. reflexivity. Qed.
Lemma with_accs_payments tx a : Tx.payments (with_accs tx a) = Tx.payments tx.
Proof. reflexivity. Qed.
Lemma with_accs_with_accs tx a a' : with_accs (with_accs tx a) a' = with_accs tx a'.
Proof. reflexivity. Qed.
Lemma before_accs_with_accs now now' tx a :
  tx_before_accs now now' (with_accs tx a) = with_accs (tx_before_accs now now' tx) a.
Proof. apply before_accs_set. Qed.

Lemma finalize_with_accs now now' tx :
  tx_finalize now now' tx =
    with_accs (tx_before_accs now now' tx)
      (tx_manual_accs tx ++ finalize_generated now now' tx).
Proof.
  rewrite <- tx_finalize_accs, tx_finalize_eq.
  generalize (tx_before_accs now now' tx), (tx_time_ms now tx). intros t ts.
  assert (tx_compute_accs t ts = {| t with Tx.accs := Tx.accs (tx_compute_accs t ts) |}) as ->.
  { by rewrite tx_compute_accs_eq. }
  generalize (Tx.accs (tx_compute_accs t ts)). intros accs.
  by rewrite tx_compute_acc_meta_eq.
Qed.

(** ** The passes before the ledger are stable *)

(** The fields the totals, debt and stock passes compute, as functions of the
    transaction they run on. *)
Definition totals_fixed tx : Prop :=
  header tx = header (tx_compute_totals tx) /\
  Tx.debt_paid tx = Tx.debt_paid (tx_compute_totals tx).

Lemma totals_fixed_eq tx :
  totals_fixed tx ->
  tx_compute_totals tx =
    {| tx with Tx.debt_total := Tx.debt_total (tx_compute_totals tx);
       Tx.debt_unpaid := Tx.debt_unpaid (tx_compute_totals tx);
       Tx.is_paid := Tx.is_paid (tx_compute_totals tx) |}.
Proof.
  intros [Hh Hp]. unfold header in Hh. injection Hh as H1 H2 H3 H4 H5 H6 H7 H8 H9 H10.
  assert (tx_compute_totals tx =
    {| tx with Tx.items_count := Tx.items_count (tx_compute_totals tx);
       Tx.items_qty := Tx.items_qty (tx_compute_totals tx);
       Tx.items_total := Tx.items_total (tx_compute_totals tx);
       Tx.total_taxes := Tx.total_taxes (tx_compute_totals tx);
       Tx.total_discounts := Tx.total_discounts (tx_compute_totals tx);
       Tx.total_paid := Tx.total_paid (tx_compute_totals tx);
       Tx.total_interest := Tx.total_interest (tx_compute_totals tx);
       Tx.debt_total := Tx.debt_total (tx_compute_totals tx);
       Tx.debt_paid := Tx.debt_paid (tx_compute_totals tx);
       Tx.debt_unpaid := Tx.debt_unpaid (tx_compute_totals tx);
       Tx.is_paid := Tx.is_paid (tx_compute_totals tx);
       Tx.total := Tx.total (tx_compute_totals tx);
       Tx.total_unpaid := Tx.total_unpaid (tx_compute_totals tx) |}) as E.
  { rewrite tx_compute_totals_eq. reflexivity. }
  rewrite E at 1. revert Hp H1 H2 H3 H4 H5 H6 H7 H8 H9 H10.
  generalize (tx_compute_totals tx). intros t -> ? -> -> -> -> -> -> -> -> ->.
  reflexivity.
Qed.

(** What the totals pass reads. *)
Definition totals_input tx :=
  (Tx.items tx, Tx.taxes tx, Tx.discounts tx,
   TxPayment.amount <$> Tx.payments tx,
   TxPayment.debt_interest <$> debt_payments (Tx.payments tx),
   TxInstallment.amount <$> debt_installments (Tx.payments tx),
   inst_paid <$> debt_installments (Tx.payments tx)).

Lemma totals_ext tx tx' :
  totals_input tx = totals_input tx' ->
  header (tx_compute_totals tx) = header (tx_compute_totals tx') /\
  debt_header (tx_compute_totals tx) = debt_header (tx_compute_totals tx').
Proof.
  unfold totals_input. intros E. injection E as E1 E2 E3 E4 E5 E6 E7.
  rewrite !tx_compute_totals_eq. unfold header, debt_header.
  cbn [Tx.items Tx.items_count Tx.items_qty Tx.items_total Tx.total_taxes Tx.total_discounts
       Tx.total_interest Tx.total_paid Tx.total Tx.total_unpaid
       Tx.debt_total Tx.debt_paid Tx.debt_unpaid Tx.is_paid].
  by rewrite E1, E2, E3, E4, E5, E6, E7.
Qed.

(** A debt pass is determined by the type, the total and the debt so far. *)
Lemma standalone_debt_ext tx tx' :
  Tx.type tx = Tx.type tx' -> Tx.total tx = Tx.total tx' -> debt_header tx = debt_header tx' ->
  debt_header (tx_compute_standalone_debt tx) = debt_header (tx_compute_standalone_debt tx').
Proof.
  intros Ht Hto Hd. unfold debt_header in Hd. injection Hd as H1 H2 H3 H4.
  rewrite !standalone_debt_cases, Ht, Hto, H1, H2. unfold debt_header.
  by destruct (_ && _ && _);
    cbn [Tx.debt_total Tx.debt_paid Tx.debt_unpaid Tx.is_paid]; rewrite ?H1, ?H2, ?H3, ?H4.
Qed.

Lemma set_debt_id tx tx' :
  (exists a b c, tx' = {| tx with Tx.debt_total := a; Tx.debt_unpaid := b; Tx.is_paid := c |}) ->
  debt_header tx' = debt_header tx -> tx' = tx.
Proof.
  intros (a & b & c & ->) E. unfold debt_header in E.
  cbn [Tx.debt_total Tx.debt_paid Tx.debt_unpaid Tx.is_paid] in E.
  injection E as -> -> ->. reflexivity.
Qed.

(** The totals and debts of a transaction that already has them. *)
Lemma totals_debt_stable tx tx1 :
  totals_input tx = totals_input tx1 -> Tx.type tx = Tx.type tx1 ->
  header tx = header (tx_compute_totals tx1) ->
  debt_header tx = debt_header (tx_compute_standalone_debt (tx_compute_totals tx1)) ->
  tx_compute_standalone_debt (tx_compute_totals tx) = tx.
Proof.
  intros Hi Ht Hh Hd. destruct (totals_ext _ _ Hi) as [Eh Ed].
  assert (Tx.debt_paid (tx_compute_totals tx) = Tx.debt_paid tx) as Hp.
  { transitivity (Tx.debt_paid (tx_compute_totals tx1)).
    - unfold debt_header in Ed. congruence.
    - rewrite standalone_debt_cases in Hd. unfold debt_header in Hd. symmetry.
      injection Hd as _ -> _ _. by destruct (_ && _ && _). }
  assert (totals_fixed tx) as Hf by (split; [by rewrite Eh|done]).
  apply set_debt_id.
  - destruct (tx_compute_standalone_debt_eq (tx_compute_totals tx)) as (a & b & c & ->).
    exists a, b, c. rewrite (totals_fixed_eq tx Hf).
    generalize (Tx.debt_total (tx_compute_totals tx)), (Tx.debt_unpaid (tx_compute_totals tx)),
      (Tx.is_paid (tx_compute_totals tx)). reflexivity.
  - rewrite Hd. apply standalone_debt_ext; [|unfold header in Eh; congruence|done].
    rewrite !tx_compute_totals_eq. exact Ht.
Qed.

Lemma before_accs_payments now now' tx :
  Tx.payments (tx_before_accs now now' tx) =
    tx_compute_payment_installments (default now' (ts_from_ms (tx_time_ms now tx)))
      (tx_time_ms now tx) <$> tx.(Tx.payments).
Proof.
  rewrite <- (finalize_payments now now' tx), finalize_with_accs.
  by rewrite with_accs_payments.
Qed.

(** Fields no pass before the ledger writes. *)
Definition inputs tx :=
  (Tx.type tx, Tx.taxes tx, Tx.discounts tx, Tx.store_id tx, Tx.store_tgt_id tx,
   Tx.time_ts_ms tx, Tx.created_ts_ms tx).
Lemma before_accs_inputs now now' tx : inputs (tx_before_accs now now' tx) = inputs tx.
Proof.
  unfold tx_before_accs. rewrite tx_compute_stock_eq.
  destruct (tx_compute_standalone_debt_eq (tx_compute_totals (tx_compute_items tx)))
    as (? & ? & ? & ->). rewrite tx_compute_totals_eq. reflexivity.
Qed.

Lemma before_accs_header now now' tx :
  header (tx_before_accs now now' tx) = header (tx_compute_totals (tx_compute_items tx)) /\
  debt_header (tx_before_accs now now' tx) =
    debt_header (tx_compute_standalone_debt (tx_compute_totals (tx_compute_items tx))).
Proof.
  rewrite <- (finalize_header now now'), <- (finalize_debt_header now now'), finalize_with_accs.
  by rewrite with_accs_header, with_accs_debt_header.
Qed.

Lemma before_accs_totals_input now now' tx :
  totals_input (tx_before_accs now now' tx) = totals_input (tx_compute_items tx).
Proof.
  unfold totals_input. pose proof (before_accs_inputs now now' tx) as Hi. unfold inputs in Hi.
  injection Hi as _ -> -> _ _ _ _.
  rewrite before_accs_items, before_accs_payments.
  destruct (payment_installments_debt (default now' (ts_from_ms (tx_time_ms now tx)))
    (tx_time_ms now tx) tx.(Tx.payments)) as (H1 & H2 & H3 & H4).
  by rewrite H1, H2, H3, H4.
Qed.

Lemma stock_lines_ext tx tx' ts :
  Tx.type tx = Tx.type tx' -> Tx.items tx = Tx.items tx' -> Tx.store_id tx = Tx.store_id tx' ->
  Tx.store_tgt_id tx = Tx.store_tgt_id tx' -> tx_stock_lines tx ts = tx_stock_lines tx' ts.
Proof. intros H1 H2 H3 H4. unfold tx_stock_lines. by rewrite H1, H2, H3, H4. Qed.

Lemma stock_stable tx ts : tx_compute_stock (tx_compute_stock tx ts) ts = tx_compute_stock tx ts.
Proof.
  rewrite (tx_compute_stock_eq (tx_compute_stock tx ts)).
  rewrite (stock_lines_ext (tx_compute_stock tx ts) tx ts);
    rewrite tx_compute_stock_eq; reflexivity.
Qed.

Lemma before_accs_idemp now now' tx :
  tx_before_accs now now' (tx_before_accs now now' tx) = tx_before_accs now now' tx.
Proof.
  pose proof (before_accs_inputs now now' tx) as Hi. unfold inputs in Hi.
  destruct (before_accs_header now now' tx) as [Hh Hd].
  pose proof (before_accs_totals_input now now' tx) as Ht.
  pose proof (before_accs_items now now' tx) as Hit.
  pose proof (before_accs_payments now now' tx) as Hp.
  assert (exists tx3, tx_before_accs now now' tx = tx_compute_stock tx3 (tx_time_ms now tx)) as [tx3 H3]
    by (by eexists).
  revert Hi Hh Hd Ht Hit Hp H3. generalize (tx_before_accs now now' tx). intros t.
  intros Hi Hh Hd Ht Hit Hp H3. injection Hi as Hty _ _ _ _ Htime Hcr.
  assert (tx_time_ms now t = tx_time_ms now tx) as Hts by (unfold tx_time_ms; by rewrite Htime, Hcr).
  unfold tx_before_accs. rewrite Hts.
  assert (tx_compute_items t = t) as ->.
  { unfold tx_compute_items. replace (tx_compute_item <$> t.(Tx.items)) with t.(Tx.items); [done|].
    rewrite Hit, <- list_fmap_compose. apply list_fmap_ext. intros _ item _.
    symmetry. apply compute_item_idemp. }
  rewrite (totals_debt_stable t (tx_compute_items tx)) by done.
  assert (tx_compute_debt_installments now' t (tx_time_ms now tx) = t) as ->.
  { unfold tx_compute_debt_installments.
    match goal with |- {| Tx.payments := ?ps |} = _ => replace ps with t.(Tx.payments); [done|] end.
    rewrite Hp, <- list_fmap_compose. apply list_fmap_ext. intros _ p _.
    symmetry. apply payment_installments_idemp. }
  rewrite H3. apply stock_stable.
Qed.

(** ** The ledger of a finalised transaction *)

Lemma generated_set tx a l s b m gross ts :
  tx_compute_generated_accs (set_accs tx a l s b m) gross ts = tx_compute_generated_accs tx gross ts.
Proof. reflexivity. Qed.

Lemma items_gross_set tx a l s b m : tx_items_gross (set_accs tx a l s b m) = tx_items_gross tx.
Proof. reflexivity. Qed.
Lemma time_set now tx a l s b m : tx_time_ms now (set_accs tx a l s b m) = tx_time_ms now tx.
Proof. reflexivity. Qed.
Lemma before_accs_time now now' tx :
  tx_time_ms now (tx_before_accs now now' tx) = tx_time_ms now tx.
Proof.
  pose proof (before_accs_inputs now now' tx) as Hi. unfold inputs in Hi.
  injection Hi as _ _ _ _ _ Htime Hcr. unfold tx_time_ms. by rewrite Htime, Hcr.
Qed.

Lemma manual_app now now' tx :
  filter (fun a => a.(TxAcc.is_tx_generated) = false)
    (tx_manual_accs tx ++ finalize_generated now now' tx) = tx_manual_accs tx.
Proof.
  rewrite list.filter_app.
  rewrite (filter_none _ (finalize_generated now now' tx)), app_nil_r.
  - apply filter_all. apply Forall_forall. intros a Ha%list_elem_of_In.
    unfold tx_manual_accs in Ha. by apply list_elem_of_filter in Ha as [? _].
  - apply Forall_forall. intros a Ha%list_elem_of_In%finalize_generated_flag. congruence.
Qed.

(** Finalising what the earlier passes made of a transaction, whatever ledger
    lines it carries besides the manual ones. *)
Lemma finalize_absorbs now now' tx a :
  filter (fun a => a.(TxAcc.is_tx_generated) = false) a = tx_manual_accs tx ->
  tx_finalize now now' (with_accs (tx_before_accs now now' tx) a) = tx_finalize now now' tx.
Proof.
  intros Ha. rewrite (finalize_with_accs now now' (with_accs _ a)), (finalize_with_accs now now' tx).
  rewrite before_accs_with_accs, before_accs_idemp, with_accs_with_accs. do 2 f_equal; [done|].
  unfold finalize_generated. change (tx_manual_accs (with_accs _ a)) with
    (filter (fun a => a.(TxAcc.is_tx_generated) = false) a).
  rewrite Ha, with_accs_type, before_accs_type. case_match; [done|].
  rewrite before_accs_with_accs, before_accs_idemp. unfold with_accs.
  by rewrite generated_set, time_set, items_gross_set, before_accs_time.
Qed.

End Stable.

(** C19. Finalising is idempotent: previewing, saving or repaying a
    transaction that was already finalised at the same clock reading changes
    none of its fields; in particular generated ledger lines do not pile up.
    The two passes may visit the accounts of the ledger in different orders
    ([h1], [h2]): the result is then that of the second pass alone. *)
Theorem finalize_idempotent `{!Chrono} (h1 h2 : HashIter string Z) now now' tx :
  tx_finalize (HashIter0 := h2) now now' (tx_finalize (HashIter0 := h1) now now' tx)
    = tx_finalize (HashIter0 := h2) now now' tx.
Proof.
  rewrite (finalize_with_accs (HashIter0 := h1)). apply finalize_absorbs.
  apply (manual_app (HashIter0 := h1)).
Qed.
