(* ===== verification/StockApply.v ===== *)
(** * Stock counters ([servers/crates/mod_tx/src/stock_apply.rs])

    [product_stock_apply] moves the stock counter of every tracked product by
    the difference between the new and the old stock lines of a transaction. *)
From S2P Require Import Prelude Ts TxProto World Json Db EnumMap Persist Finalize.
From S2P Require Import FinalizeProps.

Section StockApply.
Context `{!Chrono} `{!SerdeJson} `{!Order}.
Notation M := (M Db).

(** Object, then product, to quantity; object 0 is the site's total. *)
Notation Counters := (gmap Z (gmap Z Z)).

Definition stock_counter_add (m : Counters) (obj_id product_id delta : Z) : Counters :=
  let inner := default ∅ (m !! obj_id) in
  let v := match inner !! product_id with Some v => (v + delta)%i64 | None => delta end in
  <[obj_id := <[product_id := v]> inner]> m.

Definition stock_counter_step (out : Counters) (s : TxStock) : Counters :=
  if (s.(TxStock.product_id) =? 0) || (s.(TxStock.qty) =? 0) then out
  else
    let signed :=
      if negb (s.(TxStock.qty_signed) =? 0) then s.(TxStock.qty_signed)
      else stock_direction_signed s.(TxStock.direction) s.(TxStock.qty) in
    let p := s.(TxStock.product_id) in
    let qty := s.(TxStock.qty) in
    let out := stock_counter_add out 0 p signed in
    match_str s.(TxStock.direction)
      [("in", stock_counter_add out s.(TxStock.obj_to_id) p qty);
       ("out", stock_counter_add out s.(TxStock.obj_from_id) p (- qty)%i64);
       ("transfer",
          stock_counter_add
            (stock_counter_add out s.(TxStock.obj_from_id) p (- qty)%i64)
            s.(TxStock.obj_to_id) p qty)]
      out.

Definition stock_counter_deltas (stocks : list TxStock) : Counters :=
  foldl stock_counter_step ∅ stocks.

(** Products with a counter under any object. *)
Definition counter_products (d : Counters) : gset Z :=
  foldr (fun inner acc => dom inner ∪ acc) ∅ (order d).*2.

Definition product_can_reserve_map (site_iid : Z) (product_ids : list Z) : M (gmap Z bool) :=
  foldM (fun out pid =>
    row ← query (fun _ d => (fun r => r.(cols).(ProductRow.can_reserve)) <$>
                            t_get (site_iid, pid) d.(t_product));
    mret (<[pid := default false row]> out)) ∅ product_ids.

Definition counter_get (d : Counters) (product_id : Z) : Z :=
  default 0 (d !! 0 ≫= lookup product_id).

(** [UPDATE site.product SET stock_qty = stock_qty + $3 ...]; the column is an
    [INT], and leaving its range is an error. *)
Definition stock_qty_add (site_iid product_id delta : Z) : M () :=
  sql (fun now d =>
    let P k r := bool_decide (k = (site_iid, product_id))
      && r.(cols).(ProductRow.track_stock) && live r in
    let out_of_range := match d.(t_product) !! (site_iid, product_id) with
      | Some r => P (site_iid, product_id) r
          && negb (bool_decide (in_i32 (r.(cols).(ProductRow.stock_qty) + delta)))
      | None => false end in
    if out_of_range then Err "integer out of range"
    else
      let t := (t_update P (set_cols now (fun p =>
          {| p with ProductRow.stock_qty := p.(ProductRow.stock_qty) + delta |})) d.(t_product)).1 in
      Ok (tt, {| d with t_product := t |})).

Definition product_stock_apply (site_iid : Z) (old_stocks new_stocks : list TxStock) : M () :=
  let old_d := stock_counter_deltas old_stocks in
  let new_d := stock_counter_deltas new_stocks in
  let ids : gset Z := counter_products old_d ∪ counter_products new_d in
  if bool_decide (ids = ∅) then mret tt
  else
    let product_ids := (order (gset_to_gmap 0 ids)).*1 in
    can_reserve ← product_can_reserve_map site_iid product_ids;
    forM_ product_ids (fun product_id =>
      if default false (can_reserve !! product_id) then mret tt
      else
        let delta := (counter_get new_d product_id - counter_get old_d product_id)%i64 in
        if delta =? 0 then mret tt
        else stock_qty_add site_iid product_id (to_i32 delta)).

End StockApply.
