(* ===== verification/Grant.v ===== *)
(** * Who may act for a site ([servers/crates/mod_site/src/grant.rs],
      [staff.rs], [site_config.rs], [site_publish.rs]; [mod_tx/src/tx_owner_resolve.rs])

    Access checks and the site settings the commerce handlers consult. *)
From S2P Require Import Prelude Strs Ts World Json Db.

(** ** Roles *)

Definition site_role_rank (role : string) : Z :=
  if String.eqb role "owner" then 4
  else if String.eqb role "manage" then 3
  else if String.eqb role "staff" then 2
  else if String.eqb role "guest" then 1
  else 0.

Definition site_role_allows (role : string) (write : bool) : bool :=
  if write then site_role_rank "manage" <=? site_role_rank role
  else site_role_rank "guest" <=? site_role_rank role.

(** ** Staff *)

Definition meta_is_root (meta : Value) : bool :=
  match get "is_root" meta ≫= as_bool with
  | Some b => b
  | None =>
      match get "is_root" meta ≫= as_str with Some s => String.eqb s "true" | None => false end
  end.

Definition meta_is_director (meta : Value) : bool :=
  match get "global_roles" meta ≫= as_array with
  | Some a => existsb (fun x => match as_str x with
      | Some s => String.eqb s "director" | None => false end) a
  | None => false
  end.

(** ** Capabilities *)

Definition site_capability_enabled (caps : Value) (key : string) : bool :=
  default true (get key caps ≫= as_bool).

Definition site_order_fulfillment_enabled (caps : Value) : bool :=
  match get "order_fulfillment" caps ≫= as_bool with
  | Some b => b | None => site_capability_enabled caps "commerce" end.

Definition site_member_portal_enabled (caps : Value) : bool :=
  match get "member_portal" caps ≫= as_bool with
  | Some b => b | None => site_capability_enabled caps "commerce" end.

Definition CAP_KEY_ASSISTANT_BOT : string := "assistant_bot_iid".

Definition site_assistant_capabilities_merge (caps : Value) (assistant_bot_iid : Z) : Value :=
  let out := match caps with Object m => m | _ => [] end in
  Object (if 0 <? assistant_bot_iid
          then map_insert CAP_KEY_ASSISTANT_BOT (json_int assistant_bot_iid) out else out).

Section Grant.
Context `{!Chrono} `{!Order}.
Notation M := (M Db).

Definition caller_root_or_director (caller_iid : Z) : M bool :=
  if caller_iid =? 99000 then mret true
  else if caller_iid <=? 0 then mret false
  else
    row ← query (fun _ d => t_get caller_iid d.(t_identity));
    match row with
    | Some r =>
        if r.(cols).(IdentityRow.is_active)
        then let meta := r.(cols).(IdentityRow.meta) in
             mret (meta_is_root meta || meta_is_director meta)
        else mret false
    | None => mret false
    end.

(** The site's owner when the caller may access the site. *)
Definition site_grant_check (caller_iid site_iid : Z) (write : bool) : M Z :=
  row ← query (fun _ d =>
    match t_get site_iid d.(t_identity) with
    | Some r =>
        if String.eqb r.(cols).(IdentityRow.kind) "site"
        then Some (r.(cols).(IdentityRow.owner_iid),
                   (fun g => g.(cols).(GrantRow.role)) <$>
                     t_get (site_iid, caller_iid) d.(t_grant))
        else None
    | None => None
    end);
  '(owner, role) ← lift (ok_or row "site not found");
  (* a site without an owner: reading the column as [i64] panics *)
  owner_iid ← lift (ok_or owner "owner_iid is null");
  staff ← caller_root_or_director caller_iid;
  if (staff : bool) then mret owner_iid
  else if owner_iid =? caller_iid then mret owner_iid
  else if site_role_allows (default "" role) write then mret owner_iid
  else throw "forbidden".

Definition site_capabilities_get (site_iid : Z) : M Value := fun e w =>
  (* a failed query counts as no configuration *)
  match query (fun _ d => t_get site_iid d.(t_config)) e w with
  | (Ok (Some r), w) =>
      (Ok (site_assistant_capabilities_merge r.(cols).(ConfigRow.capabilities_json)
             (default 0 r.(cols).(ConfigRow.assistant_bot_iid))), w)
  | (_, w) => (Ok (site_assistant_capabilities_merge (json_object []) 0), w)
  end.

Definition site_capability_check (site_iid : Z) (capability : string) : M bool :=
  caps ← site_capabilities_get site_iid;
  mret (site_capability_enabled caps capability).

Definition site_published (site_iid : Z) : M bool :=
  query (fun _ d => existsb (fun e : (Z * string) * Row bool =>
    (e.1.1 =? site_iid) && e.2.(cols) && live e.2) (order d.(t_publish))).

(** A personal ledger is its user's; otherwise the site's grants decide. *)
Definition tx_owner_resolve (caller_iid site_iid : Z) (write : bool) : M Z :=
  if site_iid =? caller_iid then
    exists_ ← query (fun _ d => match t_get caller_iid d.(t_identity) with
      | Some r => String.eqb r.(cols).(IdentityRow.kind) "user" | None => false end);
    if negb exists_ then throw "user not found" else mret caller_iid
  else site_grant_check caller_iid site_iid write.

(** ** Properties *)

Lemma reads_caller_root i : reads (caller_root_or_director i).
Proof.
  unfold caller_root_or_director. repeat case_match; auto with reads.
  apply reads_bind; [auto with reads|]. intros row. repeat case_match; auto with reads.
Qed.
Lemma reads_site_grant_check c s w : reads (site_grant_check c s w).
Proof.
  unfold site_grant_check. apply reads_bind; [auto with reads|]. intros row.
  apply reads_bind; [auto with reads|]. intros [owner role].
  apply reads_bind; [auto with reads|]. intros o.
  apply reads_bind; [apply reads_caller_root|]. intros staff. repeat case_match; auto with reads.
Qed.
Lemma reads_tx_owner_resolve c s w : reads (tx_owner_resolve c s w).
Proof.
  unfold tx_owner_resolve. case_match; [|apply reads_site_grant_check].
  apply reads_bind; [auto with reads|]. intros b. case_match; auto with reads.
Qed.
Lemma reads_site_capabilities_get s : reads (site_capabilities_get s).
Proof.
  intros e w r w' E. unfold site_capabilities_get in E.
  destruct (query _ e w) as [r1 w1] eqn:Eq. apply reads_query in Eq. rewrite <- Eq.
  repeat case_match; simplify_eq; done.
Qed.

(** The site as the check sees it. *)
Definition site_owner (d : Db) (site_iid : Z) : option (option Z) :=
  match t_get site_iid d.(t_identity) with
  | Some r => if String.eqb r.(cols).(IdentityRow.kind) "site"
              then Some r.(cols).(IdentityRow.owner_iid) else None
  | None => None
  end.
Definition is_staff (d : Db) (caller_iid : Z) : bool :=
  (caller_iid =? 99000)
  || (0 <? caller_iid) &&
     match t_get caller_iid d.(t_identity) with
     | Some r => r.(cols).(IdentityRow.is_active)
                 && (meta_is_root r.(cols).(IdentityRow.meta)
                     || meta_is_director r.(cols).(IdentityRow.meta))
     | None => false
     end.
Definition granted_role (d : Db) (site_iid caller_iid : Z) : string :=
  default "" ((fun g => g.(cols).(GrantRow.role)) <$> t_get (site_iid, caller_iid) d.(t_grant)).

(** The policy: the owner, staff, and callers whose role is high enough. *)
Definition may_access (d : Db) (caller_iid site_iid owner : Z) (write : bool) : bool :=
  is_staff d caller_iid || (owner =? caller_iid)
  || site_role_allows (granted_role d site_iid caller_iid) write.

Lemma runs_caller_root i (P : Db -> Prop) :
  runs (caller_root_or_director i) P (fun b d => P d /\ b = is_staff d i).
Proof.
  unfold caller_root_or_director, is_staff.
  destruct (i =? 99000); [by apply runs_ret|]. rewrite Z.leb_antisym.
  destruct (0 <? i); cbn [negb orb andb]; [|by apply runs_ret].
  eapply runs_bind; [apply (runs_query _ _ (fun row d => P d /\ row = t_get i d.(t_identity))); done|].
  intros row. destruct row as [r|].
  - destruct (IdentityRow.is_active (cols r)) eqn:Ea; apply runs_ret; intros d [Hp <-]; by rewrite Ea.
  - apply runs_ret. by intros d [Hp <-].
Qed.

Lemma caller_root_runs c e w : (forall n, e.(env_fault) n = false) ->
  exists w', caller_root_or_director c e w = (Ok (is_staff w.(db) c), w').
Proof.
  intros Hf. unfold caller_root_or_director, is_staff.
  destruct (c =? 99000); [by eexists|]. rewrite Z.leb_antisym. destruct (0 <? c); cbn [negb orb andb]; [|by eexists].
  destruct (query_runs (fun _ d => t_get c d.(t_identity)) e w Hf) as (now & w1 & E & _).
  unfold mbind, M_bind. rewrite E. destruct (t_get c (t_identity (db w))) as [r|]; [|by eexists].
  destruct (IdentityRow.is_active (cols r)); by eexists.
Qed.
Lemma runs_site_grant_check c s w (P : Db -> Prop) :
  runs (site_grant_check c s w) P (fun owner d => P d /\ site_owner d s = Some (Some owner) /\
    may_access d c s owner w = true).
Proof.
  unfold site_grant_check. eapply runs_bind.
  { apply (runs_query _ _ (fun row d => P d /\ row = match site_owner d s with
      | Some o => Some (o, (fun g => g.(cols).(GrantRow.role)) <$> t_get (s, c) d.(t_grant))
      | None => None end)).
    intros now d Hp. split; [done|]. unfold site_owner. by repeat case_match. }
  intros row. eapply runs_bind.
  { apply (runs_lift _ _ (fun or d => P d /\ site_owner d s = Some or.1 /\
      default "" or.2 = granted_role d s c)).
    intros [o role] d Hr [Hp ->]. destruct (site_owner d s); [|done]. cbn in Hr. by simplify_eq. }
  intros [o role]. cbn [fst snd]. eapply runs_bind.
  { apply (runs_lift _ _ (fun owner d => P d /\ site_owner d s = Some (Some owner) /\
      default "" role = granted_role d s c)).
    intros owner d Ho (Hp & Hs & Hr). destruct o; [|done]. cbn in Ho. simplify_eq. done. }
  intros owner. eapply runs_bind; [apply runs_caller_root|]. intros staff.
  unfold may_access. destruct staff.
  { apply runs_ret. intros d [(Hp & Ho & Hr) Hb]. by rewrite <- Hb. }
  destruct (owner =? c) eqn:Eo.
  { apply runs_ret. intros d [(Hp & Ho & Hr) Hb]. by rewrite <- Hb, Eo. }
  destruct (site_role_allows (default "" role) w) eqn:Ea; [|apply runs_throw].
  apply runs_ret. intros d [(Hp & Ho & Hr) Hb]. by rewrite <- Hb, Eo, <- Hr, Ea.
Qed.

(** Who may act on a ledger, and under which owner: a user on their own, or a
    caller the site lets read or write. *)
Definition may_act (d : Db) (caller_iid site_iid owner : Z) (write : bool) : bool :=
  if site_iid =? caller_iid then
    (owner =? caller_iid) && match t_get caller_iid d.(t_identity) with
      | Some r => String.eqb r.(cols).(IdentityRow.kind) "user" | None => false end
  else bool_decide (site_owner d site_iid = Some (Some owner))
       && may_access d caller_iid site_iid owner write.
Definition may_post (d : Db) (caller_iid site_iid owner : Z) : bool :=
  may_act d caller_iid site_iid owner true.

Lemma runs_tx_owner_resolve c s w (P : Db -> Prop) :
  runs (tx_owner_resolve c s w) P (fun owner d => P d /\ may_act d c s owner w = true).
Proof.
  unfold tx_owner_resolve, may_act. destruct (s =? c) eqn:E.
  - eapply runs_bind; [apply (runs_query _ _ (fun b d => P d /\ b =
      match t_get c d.(t_identity) with
      | Some r => String.eqb r.(cols).(IdentityRow.kind) "user" | None => false end)); done|].
    intros b. destruct b; cbn [negb]; [|apply runs_throw]. apply runs_ret. intros d [Hp Hb].
    by rewrite Z.eqb_refl, <- Hb.
  - eapply runs_weaken; [apply (runs_site_grant_check c s w P)|done|].
    intros owner d (Hp & Ho & Ha). by rewrite Ho, Ha, bool_decide_eq_true_2.
Qed.

End Grant.

(** ** The access policy

    Who may read and who may write for a site, in terms of the rows alone. *)

Section Policy.
Context `{!Chrono}.

Definition live_site (d : Db) (site_iid owner : Z) : Prop := exists r,
  d.(t_identity) !! site_iid = Some r /\ r.(deleted_ts) = None /\
  r.(cols).(IdentityRow.kind) = "site" /\ r.(cols).(IdentityRow.owner_iid) = Some owner.
(** Platform staff: a root, marked by [true] or ["true"], or a director *)
Definition staff_meta (meta : Value) : Prop :=
  get "is_root" meta = Some (Bool true) \/ get "is_root" meta = Some (Str "true") \/
  exists roles, get "global_roles" meta = Some (Array roles) /\ Str "director" ∈ roles.
Definition roles_for (write : bool) : list string :=
  if write then ["owner"; "manage"] else ["owner"; "manage"; "staff"; "guest"].
Inductive granted (d : Db) (caller_iid site_iid owner : Z) (write : bool) : Prop :=
| granted_system : caller_iid = 99000 -> granted d caller_iid site_iid owner write
| granted_staff r : 0 < caller_iid -> d.(t_identity) !! caller_iid = Some r -> r.(deleted_ts) = None ->
    r.(cols).(IdentityRow.is_active) = true -> staff_meta r.(cols).(IdentityRow.meta) ->
    granted d caller_iid site_iid owner write
| granted_owner : caller_iid = owner -> granted d caller_iid site_iid owner write
| granted_role_of g : d.(t_grant) !! (site_iid, caller_iid) = Some g -> g.(deleted_ts) = None ->
    g.(cols).(GrantRow.role) ∈ roles_for write -> granted d caller_iid site_iid owner write.

Lemma live_none {A} (r : Row A) : live r = true <-> r.(deleted_ts) = None.
Proof. unfold live. by destruct (deleted_ts r). Qed.
Lemma t_get_some {K A} `{Countable K} (k : K) (t : gmap K (Row A)) r :
  t_get k t = Some r <-> t !! k = Some r /\ r.(deleted_ts) = None.
Proof.
  unfold t_get. rewrite <- live_none. destruct (t !! k) as [r'|]; [|by split; [|intros [? _]]].
  destruct (live r') eqn:E; split; [by intros [= <-]|by intros [? _]|done|intros [[= <-] ?]; congruence].
Qed.
Lemma site_owner_live d s o : site_owner d s = Some (Some o) <-> live_site d s o.
Proof.
  unfold site_owner, live_site. destruct (t_get s (t_identity d)) as [r|] eqn:E.
  - apply t_get_some in E as [Hr Hd]. destruct (String.eqb_spec (IdentityRow.kind (cols r)) "site") as [Hk|Hk];
      [split; [intros [= Ho]; eauto|]|split; [done|]];
      intros (r' & Hr' & _ & Hk' & Ho); assert (r' = r) as -> by congruence; by rewrite ?Ho.
  - split; [done|]. intros (r & Hr & Hd & _). by rewrite (proj2 (t_get_some s (t_identity d) r) (conj Hr Hd)) in E.
Qed.
Lemma staff_meta_spec meta : meta_is_root meta || meta_is_director meta = true <-> staff_meta meta.
Proof.
  unfold meta_is_root, meta_is_director, staff_meta. rewrite orb_true_iff.
  assert (forall o, match o ≫= as_array with
      | Some a => existsb (fun x => match as_str x with Some s => String.eqb s "director" | None => false end) a
      | None => false end = true <->
    exists roles, o = Some (Array roles) /\ Str "director" ∈ roles) as Hd.
  { intros [[]|]; cbn; try by (split; [done|]; intros (? & [=] & _)).
    rewrite existsb_exists. split.
    - intros ([] & Hin & Hx); try done. apply String.eqb_eq in Hx as ->. eexists. split; [done|].
      by apply list_elem_of_In.
    - intros (roles & [= ->] & Hin). exists (Str "director"). split; [by apply list_elem_of_In|]. done. }
  rewrite Hd. destruct (get "is_root" meta) as [v|]; [|naive_solver].
  destruct v as [|b|n|s|l|m]; cbn; [naive_solver|destruct b; naive_solver|naive_solver
    |destruct (String.eqb_spec s "true"); naive_solver|naive_solver..].
Qed.
Lemma role_allows_spec role write : site_role_allows role write = true <-> role ∈ roles_for write.
Proof.
  unfold site_role_allows, site_role_rank, roles_for.
  destruct (String.eqb_spec role "owner") as [->|];
    [|destruct (String.eqb_spec role "manage") as [->|];
      [|destruct (String.eqb_spec role "staff") as [->|];
        [|destruct (String.eqb_spec role "guest") as [->|]]]];
    destruct write; (split; [try done; set_solver|try done; set_solver]).
Qed.
Lemma is_staff_spec d c : is_staff d c = true <-> c = 99000 \/ exists r, 0 < c /\
  d.(t_identity) !! c = Some r /\ r.(deleted_ts) = None /\ r.(cols).(IdentityRow.is_active) = true /\
  staff_meta r.(cols).(IdentityRow.meta).
Proof.
  unfold is_staff. rewrite orb_true_iff, andb_true_iff, Z.eqb_eq, Z.ltb_lt. apply or_iff_compat_l.
  destruct (t_get c (t_identity d)) as [r|] eqn:E.
  - apply t_get_some in E as [Hr Hd]. rewrite andb_true_iff, staff_meta_spec. split; [naive_solver|].
    intros (r' & Hc & Hr' & Hrest). assert (r' = r) as -> by congruence. naive_solver.
  - split; [naive_solver|]. intros (r & _ & Hr & Hd & _).
    by rewrite (proj2 (t_get_some c (t_identity d) r) (conj Hr Hd)) in E.
Qed.
Lemma may_access_granted d c s o write : may_access d c s o write = true <-> granted d c s o write.
Proof.
  unfold may_access, granted_role. rewrite !orb_true_iff, is_staff_spec, Z.eqb_eq, role_allows_spec. split.
  - intros [[[?|(r & ?)]|?]|Hr]; [by apply granted_system|destruct_and?; by eapply granted_staff|by apply granted_owner|].
    destruct (t_get (s, c) (t_grant d)) as [g|] eqn:E; [|by destruct write; cbn in Hr; set_solver].
    apply t_get_some in E as [? ?]. by eapply granted_role_of.
  - destruct 1 as [?|r|?|g Hg Hd Hr]; [by left; left; left|left; left; right; eauto 10|by left; right|right].
    by rewrite (proj2 (t_get_some (s, c) (t_grant d) g) (conj Hg Hd)).
Qed.
End Policy.

(** C28. The access check implements the policy [granted]: it lets a caller
    through, and answers the site's owner, only for a live site and only if the
    caller is the system user, platform staff, the owner, or has a live grant
    whose role suffices: owner, manage, staff or guest to read, owner or manage
    to write.  Unless a statement fails it lets all of these through, and it
    changes nothing. *)
Theorem site_grant_check_sound `{!Chrono} e w caller_iid site_iid write r w' :
  site_grant_check caller_iid site_iid write e w = (r, w') ->
  w'.(db) = w.(db) /\
  (forall owner, r = Ok owner ->
     live_site w.(db) site_iid owner /\ granted w.(db) caller_iid site_iid owner write) /\
  ((forall n, e.(env_fault) n = false) -> forall owner,
     live_site w.(db) site_iid owner -> granted w.(db) caller_iid site_iid owner write -> r = Ok owner).
Proof.
  intros E. pose proof (reads_site_grant_check _ _ _ _ _ _ _ E) as Hd. split; [done|]. split.
  - intros owner ->. destruct (runs_site_grant_check _ _ _ (fun _ => True) _ _ _ _ E I) as (_ & Ho & Ha).
    rewrite Hd in *. by rewrite <- site_owner_live, <- may_access_granted.
  - intros Hf owner Hs%site_owner_live Ha%may_access_granted. revert E. unfold site_grant_check.
    match goal with |- context [query ?f] => destruct (query_runs f e w Hf) as (now & w1 & E1 & Hd1) end.
    assert (forall {A B} (m : M Db A) (f : A -> M Db B) a v, m e w = (Ok a, v) -> (m ≫= f) e w = f a e v) as Hbind
      by (intros A B m f a v Em; unfold mbind, M_bind; by rewrite Em).
    rewrite (Hbind _ _ _ _ _ _ E1). unfold site_owner in Hs.
    destruct (t_get site_iid (t_identity (db w))) as [row|]; [|done].
    destruct (String.eqb _ "site"); [|done]. injection Hs as Hs. rewrite Hs. clear Hbind.
    unfold mbind, M_bind, lift. cbn [ok_or].
    destruct (caller_root_runs caller_iid e w1 Hf) as (w2 & ->). rewrite Hd1.
    unfold may_access in Ha. destruct (is_staff (db w) caller_iid); [by intros [= <- _]|].
    destruct (owner =? caller_iid); [by intros [= <- _]|]. cbn [orb] in Ha. unfold granted_role in Ha.
    rewrite Ha. by intros [= <- _].
Qed.
