(* ===== verification/TxApi.v ===== *)
(** * Request handlers ([servers/crates/mod_tx/src]: [tx_put.rs], [tx_get.rs],
      [tx_preview.rs], [tx_delete.rs], [tx_debt_pay.rs], [tx_list.rs],
      [tx_fulfillment_gate.rs])

    Each handler from its request to its response, in the monad of [World]. *)
From S2P Require Import Prelude Strs Ts TxProto World Json TxData Db EnumMap Rows Persist Load.
From S2P Require Import Finalize StockApply Grant.

(** ** Cashier-only sites *)

Definition tx_coerce_sale_without_fulfillment (tx : Tx) : Tx :=
  if negb (bool_decide (enum_try_from tx.(Tx.type) = Some TxType.Sale)) then tx
  else if negb (bool_decide (enum_try_from tx.(Tx.state) = Some TxState.Pending)) then tx
  else {| tx with
    Tx.state := enum_to_i32 TxState.Ok;
    Tx.items := (fun item : TxItem => {| item with TxItem.fulfillment_state :=
        enum_to_i32 TxItemFulfillmentState.TxItemFulfillmentDone |}) <$> tx.(Tx.items) |}.

Section TxApi.
Context `{!Chrono} `{!SerdeJson} `{!Order}.
Notation M := (M Db).

#[local] Instance order_hash_iter : HashIter string Z :=
  {| hash_iter := order; hash_iter_perm := order_perm |}.

(** [tx_finalize] with its clock readings; a reading it does not need is not
    looked at. *)
Definition tx_finalize_now (tx : Tx) : M Tx :=
  now ← utc_now; now' ← utc_now; mret (tx_finalize now now' tx).

(** ** [tx_put] *)

(** The part of [tx_put] before its transaction: checks, the stock lines to
    undo, ids, derived fields. *)
Definition tx_put_prepare (caller_iid : Z) (tx : option Tx) : M (Z * list TxStock * Tx) :=
  tx ← lift (ok_or tx "tx required");
  (if 0 <? tx.(Tx.site_iid) then mret tt else throw "site_iid required");;
  let site_iid := tx.(Tx.site_iid) in
  owner_iid ← tx_owner_resolve caller_iid site_iid true;
  old_stocks ←
    (if 0 <? tx.(Tx.tx_id) then tx_stocks_load site_iid tx.(Tx.tx_id) else mret []);
  has_existing ←
    (if 0 <? tx.(Tx.tx_id)
     then saved ← tx_load site_iid tx.(Tx.tx_id); mret (bool_decide (is_Some saved))
     else mret false);
  tx_id ← (if tx.(Tx.tx_id) =? 0 then next_id else mret tx.(Tx.tx_id));
  let tx := {| tx with Tx.tx_id := tx_id; Tx.site_iid := site_iid |} in
  let tx :=
    if negb has_existing && (tx.(Tx.created_by_iid) =? 0)
    then {| tx with Tx.created_by_iid := caller_iid |} else tx in
  tx ← tx_finalize_now tx;
  caps ← site_capabilities_get site_iid;
  let tx :=
    if negb (site_order_fulfillment_enabled caps)
    then tx_coerce_sale_without_fulfillment tx else tx in
  mret (owner_iid, old_stocks, tx).

(** The transaction of [tx_put]. *)
Definition tx_save (owner_iid : Z) (old_stocks : list TxStock) (tx : Tx) : M () :=
  let site_iid := tx.(Tx.site_iid) in
  let '(generated_count, manual_count) := tx_acc_counts tx in
  transaction (
    tx_children_del site_iid tx.(Tx.tx_id);;
    tx_header_put owner_iid tx generated_count manual_count;;
    tx ← tx_children_put tx;
    let state := try_from_or TxState.Ok tx.(Tx.state) in
    (if bool_decide (state = TxState.Ok)
     then product_stock_apply site_iid old_stocks tx.(Tx.stocks) else mret tt);;
    mret (tt, true)).

(** The saved transaction, as the response and as the message pushed to the
    caller's other connections. *)
Definition tx_put (caller_iid : Z) (tx : option Tx) : M (option Tx) :=
  '(owner_iid, old_stocks, tx) ← tx_put_prepare caller_iid tx;
  tx_save owner_iid old_stocks tx;;
  tx_load tx.(Tx.site_iid) tx.(Tx.tx_id).

(** ** [tx_get], [tx_preview] *)

Definition tx_get (caller_iid site_iid tx_id : Z) : M (option Tx) :=
  site_grant_check caller_iid site_iid false;;
  tx_load site_iid tx_id.

Definition tx_preview (caller_iid : Z) (tx : option Tx) : M (Tx * gmap string string) :=
  tx ← lift (ok_or tx "tx required");
  (if 0 <? tx.(Tx.site_iid) then mret tt else throw "site_iid required");;
  site_grant_check caller_iid tx.(Tx.site_iid) false;;
  let state := try_from_or TxState.Ok tx.(Tx.state) in
  let tx := if bool_decide (state = TxState.Draft)
    then {| tx with Tx.state := enum_to_i32 TxState.Ok |} else tx in
  tx ← tx_finalize_now tx;
  mret (tx, tx_preview_coa_names tx.(Tx.accs)).

(** ** [tx_delete] *)

(** [UPDATE ... SET deleted_ts = NOW() WHERE site_iid = $1 AND tx_id = $2 AND
    deleted_ts IS NULL] on a child table *)
Definition soft_delete_children {C R} `{Countable C} (getter : Db -> Children C R)
    (setter : Children C R -> Db -> Db) (k : TxKey) : M () :=
  sql (fun now d =>
    Ok (tt, setter (t_update (fun kc r => of_tx k kc r && live r) (soft_delete now)
                      (getter d)).1 d)).

Definition tx_delete (caller_iid site_iid tx_id : Z) : M bool :=
  owner_iid ← tx_owner_resolve caller_iid site_iid true;
  (if tx_id <=? 0 then throw "tx_id required" else mret tt);;
  let k := (site_iid, tx_id) in
  transaction (
    n ← sql (fun now d =>
      let P k' r := bool_decide (k' = k)
        && (r.(cols).(TxRow.owner_iid) =? owner_iid) && live r in
      let '(t, n) := t_update P (soft_delete now) d.(t_tx) in
      Ok (n, {| d with t_tx := t |}));
    if n =? 0 then mret (false, false)
    else
      soft_delete_children t_item set_item k;;
      soft_delete_children t_payment set_payment k;;
      soft_delete_children t_acc set_acc k;;
      soft_delete_children t_stock set_stock k;;
      soft_delete_children t_tax set_tax k;;
      soft_delete_children t_discount set_discount k;;
      mret (true, true)).

(** ** [tx_debt_pay] *)

(** The first installment of a payment that still owes something takes the
    repayment; none when all are settled. *)
Fixpoint apply_to_installments (payment : TxDebtPayment) (insts : list TxInstallment)
    : M (option (list TxInstallment)) :=
  match insts with
  | [] => mret None
  | inst :: insts =>
      let paid := i64_sum (TxDebtPayment.amount <$> inst.(TxInstallment.debt_payments)) in
      let remaining := (inst.(TxInstallment.amount) - paid)%i64 in
      if remaining <=? 0
      then
        rest ← apply_to_installments payment insts;
        mret ((fun insts => inst :: insts) <$> rest)
      else if 0 <? payment.(TxDebtPayment.amount)
      then
        let pay := Z.min payment.(TxDebtPayment.amount) remaining in
        pay_id ← (if payment.(TxDebtPayment.pay_id) =? 0 then next_id
                  else mret payment.(TxDebtPayment.pay_id));
        let dp := {| payment with TxDebtPayment.amount := pay; TxDebtPayment.pay_id := pay_id |} in
        mret (Some ({| inst with TxInstallment.debt_payments :=
                         inst.(TxInstallment.debt_payments) ++ [dp] |} :: insts))
      else throw "amount required"
  end.

Fixpoint apply_to_payments (payment : TxDebtPayment) (ps : list TxPayment)
    : M (option (list TxPayment)) :=
  match ps with
  | [] => mret None
  | p :: ps =>
      insts ←
        (if negb (bool_decide (tx_payment_method p.(TxPayment.method) = TxPaymentMethod.Debt))
         then mret None
         else apply_to_installments payment p.(TxPayment.installments));
      match insts with
      | Some insts => mret (Some ({| p with TxPayment.installments := insts |} :: ps))
      | None =>
          rest ← apply_to_payments payment ps;
          mret ((fun ps => p :: ps) <$> rest)
      end
  end.

Definition apply_debt_payment (tx : Tx) (payment : TxDebtPayment) : M (option Tx) :=
  ps ← apply_to_payments payment tx.(Tx.payments);
  mret ((fun ps => {| tx with Tx.payments := ps |}) <$> ps).

Definition tx_debt_pay (caller_iid site_iid tx_id : Z) (payment : option TxDebtPayment)
    : M (option Tx) :=
  payment ← lift (ok_or payment "payment required");
  site_grant_check caller_iid site_iid true;;
  tx ← tx_require site_iid tx_id;
  payment ←
    (if payment.(TxDebtPayment.ts_ms) =? 0
     then now ← utc_now;
          mret {| payment with TxDebtPayment.ts_ms := timestamp_millis now |}
     else mret payment);
  applied ← apply_debt_payment tx payment;
  match applied with
  | None => throw "no open debt installment"
  | Some tx => tx_put caller_iid (Some tx)
  end.

End TxApi.
