(* ===== verification/TxPutFacts.v ===== *)
(** * Saving a transaction: what a save does to the database

    Atomicity and authorization of [tx_put], and the rows a save leaves behind. *)
From S2P Require Import Prelude Strs Ts TxProto World Json TxData Db EnumMap Rows Persist Load.
From S2P Require Import Finalize StockApply Grant TxApi.

(** ** Handlers that only read *)

Section Reads.
Context `{!Chrono} `{!SerdeJson} `{!Order}.

Lemma reads_select_children {C R} `{Countable C} (g : Db -> Children C R) k :
  reads (select_children g k).
Proof. apply reads_query. Qed.
Lemma reads_load_items k : reads (load_items k).
Proof.
  apply reads_bind; [apply reads_select_children|]. intros rows.
  apply reads_bind; [|auto with reads]. case_match; [auto with reads|].
  apply reads_bind; [apply reads_select_children|]. intros ?.
  apply reads_bind; [apply reads_select_children|]. auto with reads.
Qed.
Lemma reads_load_payments k : reads (load_payments k).
Proof.
  apply reads_bind; [apply reads_select_children|]. intros rows.
  apply reads_bind; [|auto with reads]. case_match; [auto with reads|].
  apply reads_bind; [apply reads_select_children|]. intros ?.
  apply reads_bind; [apply reads_select_children|]. auto with reads.
Qed.
Lemma reads_load_ordered {R A : Type} (g : Db -> Children Z R) (f : Z -> R -> A) k :
  reads (load_ordered g f k).
Proof. apply reads_bind; [apply reads_select_children|]. auto with reads. Qed.
Lemma reads_tx_children_attach s i tx : reads (tx_children_attach s i tx).
Proof.
  apply reads_bind; [apply reads_load_items|]. intros ?.
  apply reads_bind; [apply reads_load_payments|]. intros ?.
  do 4 (apply reads_bind; [apply reads_load_ordered|]; intros ?). auto with reads.
Qed.
Lemma reads_tx_load s i : reads (tx_load s i).
Proof.
  apply reads_bind; [auto with reads|]. intros [row|]; [|auto with reads].
  apply reads_bind; [apply reads_tx_children_attach|]. auto with reads.
Qed.
Lemma reads_tx_stocks_load s i : reads (tx_stocks_load s i).
Proof. apply reads_bind; [apply reads_select_children|]. auto with reads. Qed.
Lemma reads_tx_require s i : reads (tx_require s i).
Proof. apply reads_bind; [apply reads_tx_load|]. auto with reads. Qed.
Lemma reads_tx_finalize_now tx : reads (tx_finalize_now tx).
Proof. do 2 (apply reads_bind; [auto with reads|]; intros ?). auto with reads. Qed.

Lemma reads_tx_put_prepare c tx : reads (tx_put_prepare c tx).
Proof.
  apply reads_bind; [auto with reads|]. intros t.
  apply reads_bind; [case_match; auto with reads|]. intros _.
  apply reads_bind; [apply reads_tx_owner_resolve|]. intros owner.
  apply reads_bind; [case_match; [apply reads_tx_stocks_load|auto with reads]|]. intros stocks.
  apply reads_bind.
  { case_match; [|auto with reads]. apply reads_bind; [apply reads_tx_load|]. auto with reads. }
  intros existing. apply reads_bind; [case_match; auto with reads|]. intros id.
  apply reads_bind; [apply reads_tx_finalize_now|]. intros t'.
  apply reads_bind; [apply reads_site_capabilities_get|]. auto with reads.
Qed.
Lemma reads_tx_get c s i : reads (tx_get c s i).
Proof. apply reads_bind; [apply reads_site_grant_check|]. intros ?. apply reads_tx_load. Qed.
Lemma reads_tx_preview c tx : reads (tx_preview c tx).
Proof.
  apply reads_bind; [auto with reads|]. intros t.
  apply reads_bind; [case_match; auto with reads|]. intros _.
  apply reads_bind; [apply reads_site_grant_check|]. intros ?.
  apply reads_bind; [apply reads_tx_finalize_now|]. auto with reads.
Qed.
Lemma reads_apply_to_installments p l : reads (apply_to_installments p l).
Proof.
  induction l as [|i l IH]; [apply reads_ret|].
  cbn [apply_to_installments]. cbv zeta.
  case_match.
  { apply reads_bind; [done|auto with reads]. }
  case_match; [|auto with reads]. apply reads_bind; [case_match; auto with reads|auto with reads].
Qed.
Lemma reads_apply_to_payments p l : reads (apply_to_payments p l).
Proof.
  induction l as [|x l IH]; [apply reads_ret|]. cbn [apply_to_payments]. apply reads_bind.
  { case_match; [auto with reads|]. apply reads_apply_to_installments. }
  intros [insts|]; [auto with reads|]. apply reads_bind; [done|auto with reads].
Qed.
Lemma reads_apply_debt_payment t p : reads (apply_debt_payment t p).
Proof. apply reads_bind; [apply reads_apply_to_payments|auto with reads]. Qed.

End Reads.
#[export] Hint Resolve reads_tx_load reads_tx_put_prepare reads_tx_get reads_tx_preview
  reads_tx_require reads_apply_debt_payment reads_tx_finalize_now reads_tx_stocks_load
  reads_site_grant_check reads_tx_owner_resolve : reads.

(** ** What a save may touch

    Rows of its own transaction, and of the site's products the [is_used] mark
    and the stock counter. *)

(** The key of a transaction. *)
Definition ident (tx : Tx) : Z * Z := (tx.(Tx.site_iid), tx.(Tx.tx_id)).

Section Frame.
Context `{!Chrono} `{!SerdeJson} `{!Order}.

Definition other_rows {C R} `{Countable C} (k : TxKey) (t t' : Children C R) : Prop :=
  forall k' c, k' <> k -> t' !! (k', c) = t !! (k', c).

Definition product_kept (r r' : Row ProductRow) : Prop :=
  r'.(created_ts) = r.(created_ts) /\ r'.(deleted_ts) = r.(deleted_ts) /\
  r'.(cols) = {| r.(cols) with ProductRow.is_used := r'.(cols).(ProductRow.is_used);
                 ProductRow.stock_qty := r'.(cols).(ProductRow.stock_qty) |} /\
  (r.(cols).(ProductRow.is_used) = true -> r'.(cols).(ProductRow.is_used) = true).
#[global] Instance product_kept_preorder : PreOrder product_kept.
Proof.
  split.
  - intros r. unfold product_kept. done.
  - intros a b c (Ha1 & Ha2 & Ha3 & Ha4) (Hb1 & Hb2 & Hb3 & Hb4).
    unfold product_kept. split_and!; [congruence|congruence| |auto]. rewrite Hb3, Ha3. done.
Qed.

Record tx_frame (k : TxKey) (d d' : Db) : Prop := {
  frame_tx : forall k', k' <> k -> d'.(t_tx) !! k' = d.(t_tx) !! k';
  frame_item : other_rows k d.(t_item) d'.(t_item);
  frame_reservation : other_rows k d.(t_reservation) d'.(t_reservation);
  frame_source : other_rows k d.(t_source) d'.(t_source);
  frame_payment : other_rows k d.(t_payment) d'.(t_payment);
  frame_installment : other_rows k d.(t_installment) d'.(t_installment);
  frame_debt_payment : other_rows k d.(t_debt_payment) d'.(t_debt_payment);
  frame_acc : other_rows k d.(t_acc) d'.(t_acc);
  frame_stock : other_rows k d.(t_stock) d'.(t_stock);
  frame_tax : other_rows k d.(t_tax) d'.(t_tax);
  frame_discount : other_rows k d.(t_discount) d'.(t_discount);
  frame_product_site : forall kp, kp.1 <> k.1 -> d'.(t_product) !! kp = d.(t_product) !! kp;
  frame_product : forall kp, option_Forall2 product_kept (d.(t_product) !! kp) (d'.(t_product) !! kp);
  frame_object : d'.(t_object) = d.(t_object);
  frame_identity : d'.(t_identity) = d.(t_identity);
  frame_grant : d'.(t_grant) = d.(t_grant);
  frame_config : d'.(t_config) = d.(t_config);
  frame_publish : d'.(t_publish) = d.(t_publish);
}.

#[global] Instance option_kept_preorder : PreOrder (option_Forall2 product_kept).
Proof.
  split.
  - intros [r|]; constructor; done.
  - intros a b c [r s Hr|] K; inversion K; subst; constructor. by etransitivity.
Qed.
#[global] Instance tx_frame_preorder k : PreOrder (tx_frame k).
Proof.
  split.
  - intros d. split; try done.
  - intros a b c Hab Hbc. destruct Hab, Hbc. unfold other_rows in *.
    split; unfold other_rows; intros;
      first [congruence | solve [eauto using eq_trans] | etransitivity; eauto].
Qed.

Lemma other_rows_insert {C R} `{Countable C} (k : TxKey) (c : C) (r : Row R) (t : Children C R) :
  other_rows k t (<[(k, c) := r]> t).
Proof. intros k' c' Hk. apply lookup_insert_ne. congruence. Qed.
Lemma other_rows_delete {C R} `{Countable C} (k : TxKey) (t : Children C R) :
  other_rows k t (t_delete (of_tx k) t).
Proof. intros k' c' Hk. rewrite t_delete_lookup. by case_decide. Qed.
Lemma other_rows_soft_delete {C R} `{Countable C} (k : TxKey) (now : DateTime) (t : Children C R) :
  other_rows k t (t_update (fun kc r => of_tx k kc r && live r) (soft_delete now) t).1.
Proof.
  intros k' c Hk. cbn. rewrite map_lookup_imap. destruct (t !! (k', c)); [|done]. cbn.
  unfold of_tx. by rewrite bool_decide_eq_false_2.
Qed.
Lemma other_rows_refl {C R} `{Countable C} (k : TxKey) (t : Children C R) : other_rows k t t.
Proof. done. Qed.
Hint Resolve other_rows_insert other_rows_delete other_rows_soft_delete other_rows_refl : core.

(** ** Steps of a save

    A save writes the child tables at its own key, its header, and the mark of
    the products it mentions.  A preorder that contains these writes contains the
    whole save, apart from the stock counters. *)

(** Writing a child table at [k] is in the relation. *)
Definition child_table {C R} `{Countable C} (Rel : Db -> Db -> Prop) (k : TxKey)
    (getter : Db -> Children C R) (setter : Children C R -> Db -> Db) : Prop :=
  forall t d, other_rows k (getter d) t -> Rel d (setter t d).

Definition mark_used (k : TxKey) (product_id : Z) (now : DateTime) (d : Db) : Db :=
  {| d with t_product := (t_update (fun kp r => bool_decide (kp = (k.1, product_id))
        && negb r.(cols).(ProductRow.is_used) && live r)
      (set_cols now (fun p => {| p with ProductRow.is_used := true |})) d.(t_product)).1 |}.

Class ChildStep (k : TxKey) (Rel : Db -> Db -> Prop) : Prop := {
  save_preorder : PreOrder Rel;
  save_item : child_table Rel k t_item set_item;
  save_reservation : child_table Rel k t_reservation set_reservation;
  save_source : child_table Rel k t_source set_source;
  save_payment : child_table Rel k t_payment set_payment;
  save_installment : child_table Rel k t_installment set_installment;
  save_debt_payment : child_table Rel k t_debt_payment set_debt_payment;
  save_acc : child_table Rel k t_acc set_acc;
  save_stock : child_table Rel k t_stock set_stock;
  save_tax : child_table Rel k t_tax set_tax;
  save_discount : child_table Rel k t_discount set_discount;
  save_used : forall d p now, Rel d (mark_used k p now d);
}.
Class SaveStep (k : TxKey) (Rel : Db -> Db -> Prop) : Prop := {
  save_children :: ChildStep k Rel;
  save_header : forall d r, Rel d {| d with t_tx := <[k := r]> d.(t_tx) |};
}.

Lemma reads_ts_or_now ms : reads (ts_or_now ms).
Proof. unfold ts_or_now. case_match; auto with reads. Qed.
Lemma reads_or_next_id i : reads (or_next_id i).
Proof. unfold or_next_id. case_match; auto with reads. Qed.

Section Steps.
Context (k : TxKey) (Rel : Db -> Db -> Prop) `{!ChildStep k Rel}.
#[local] Existing Instance save_preorder.
Notation stepwise m := (respects Rel m).

Lemma step_insert_child {C R} `{Countable C} (g : Db -> Children C R)
    (st : Children C R -> Db -> Db) (c : C) (r : R) :
  child_table Rel k g st -> stepwise (insert_child g st k c r).
Proof.
  intros Hc. apply respects_sql; [apply _|]. intros now d a d' E. cbn in E.
  unfold t_insert in E. case_match; [done|]. cbn in E. injection E as <- <-. apply Hc. auto.
Qed.
Lemma step_delete_children {C R} `{Countable C} (g : Db -> Children C R)
    (st : Children C R -> Db -> Db) :
  child_table Rel k g st -> stepwise (delete_children g st k).
Proof. intros Hc. apply respects_sql; [apply _|]. intros now d a d' [= <- <-]. apply Hc. auto. Qed.
Lemma step_soft_delete_children {C R} `{Countable C} (g : Db -> Children C R)
    (st : Children C R -> Db -> Db) :
  child_table Rel k g st -> stepwise (soft_delete_children g st k).
Proof.
  intros Hc. apply respects_sql; [apply _|]. intros now d a d' [= <- <-]. apply Hc.
  apply other_rows_soft_delete.
Qed.
Ltac child :=
  first [apply save_item | apply save_reservation | apply save_source | apply save_payment
        | apply save_installment | apply save_debt_payment | apply save_acc | apply save_stock
        | apply save_tax | apply save_discount].

Ltac step :=
  lazymatch goal with
  | |- respects _ (mbind _ _) => apply respects_bind; [apply _| |intros ?]
  | |- respects _ (mret _) => apply respects_ret; apply _
  | |- respects _ next_id => apply respects_reads; [apply _|apply reads_next_id]
  | |- respects _ (or_next_id _) => apply respects_reads; [apply _|apply reads_or_next_id]
  | |- respects _ (ts_or_now _) => apply respects_reads; [apply _|apply reads_ts_or_now]
  | |- respects _ (insert_child _ _ _ _ _) => apply step_insert_child
  | |- respects _ (delete_children _ _ _) => apply step_delete_children
  | |- respects _ (mapM _ _) => apply respects_mapM; [apply _|intros ?]
  | |- respects _ (forM_ _ _) => apply respects_forM; [apply _|intros ?]
  end.

Lemma step_children_del : stepwise (tx_children_del k.1 k.2).
Proof.
  unfold tx_children_del. rewrite <- surjective_pairing. repeat step; child.
Qed.
Lemma step_mark_used p : stepwise (site_product_mark_used k.1 p).
Proof.
  unfold site_product_mark_used. case_match; [step|].
  apply respects_sql; [apply _|]. intros now d a d' [= <- <-]. apply save_used.
Qed.
Lemma step_item_put item : stepwise (item_put k item).
Proof.
  unfold item_put. repeat step; try child.
  - apply respects_sql; [apply _|]. intros now d u d' E.
    apply result_bind_ok in E as (? & _ & E). unfold t_insert in E. case_match; [done|].
    injection E as <- <-. by apply save_item.
  - case_match; [apply step_mark_used|step].
Qed.
Lemma step_payment_put p : stepwise (payment_put k p).
Proof. unfold payment_put, installment_put, debt_payment_put. repeat step; child. Qed.
Lemma step_acc_put acc : stepwise (acc_put k acc).
Proof.
  unfold acc_put. repeat step. apply respects_sql; [apply _|].
  intros now d u d' E. case_match; [done|]. unfold t_insert in E. case_match; [done|].
  injection E as <- <-. by apply save_acc.
Qed.
Lemma step_children_put tx : ident tx = k -> stepwise (tx_children_put tx).
Proof.
  intros E. unfold tx_children_put. change (Tx.site_iid tx, Tx.tx_id tx) with (ident tx). rewrite E.
  unfold tx_items_ensure_ids, stock_put, tax_put, discount_put.
  repeat step; first [apply step_item_put | apply step_payment_put | apply step_acc_put | child | idtac].
  case_match; repeat step.
Qed.

Lemma step_upsert `{!SaveStep k Rel} row : stepwise (upsert_tx k row).
Proof.
  apply respects_sql; [apply _|]. intros now d a d' E.
  repeat (apply result_bind_ok in E as (? & _ & E)). injection E as <- <-. apply save_header.
Qed.
Lemma step_header `{!SaveStep k Rel} o tx g m :
  ident tx = k -> stepwise (tx_header_put o tx g m).
Proof.
  intros E. unfold tx_header_put. change (Tx.site_iid tx, Tx.tx_id tx) with (ident tx). rewrite E.
  step; [step|]. apply step_upsert.
Qed.

End Steps.

(** *** The frame is such a relation *)

Lemma frame_product_update k d (P : Z * Z -> Row ProductRow -> bool) f :
  (forall kp r, P kp r = true -> kp.1 = k.1) -> (forall r, product_kept r (f r)) ->
  tx_frame k d {| d with t_product := (t_update P f d.(t_product)).1 |}.
Proof.
  intros HP Hf. split; cbn; try done.
  - intros kp Hk. rewrite map_lookup_imap. destruct (t_product d !! kp) as [r|]; [|done]. cbn.
    destruct (P kp r) eqn:E; [|done]. by apply HP in E.
  - intros kp. rewrite map_lookup_imap. destruct (t_product d !! kp) as [r|]; constructor.
    case_match; done.
Qed.

#[global] Instance tx_frame_step k : SaveStep k (tx_frame k).
Proof.
  split; [split; [apply _|unfold child_table; intros t d Ht; split; cbn; done..|]|].
  2:{ intros d r. split; cbn; try done. intros k' Hk. by apply lookup_insert_ne. }
  - intros d p now. apply frame_product_update; [|done].
    intros kp r E. destruct (bool_decide_reflect (kp = (k.1, p))) as [->|]; done.
Qed.

Lemma framed_stock_qty_add k p delta : respects (tx_frame k) (stock_qty_add k.1 p delta).
Proof.
  apply respects_sql; [apply _|]. intros now d a d'. cbv zeta. case_match; [done|].
  intros [= <- <-]. apply frame_product_update; [|done].
  intros kp r E. destruct (bool_decide_reflect (kp = (k.1, p))) as [->|]; done.
Qed.
Lemma reads_can_reserve_map s l : reads (product_can_reserve_map s l).
Proof. apply reads_foldM. intros a x. apply reads_bind; auto with reads. Qed.
Lemma framed_stock_apply k old new : respects (tx_frame k) (product_stock_apply k.1 old new).
Proof.
  unfold product_stock_apply. case_match; [apply respects_ret; apply _|].
  apply respects_bind; [apply _|apply respects_reads; [apply _|apply reads_can_reserve_map]|].
  intros m. apply respects_forM; [apply _|]. intros p.
  repeat (case_match; [apply respects_ret; apply _|]). apply framed_stock_qty_add.
Qed.
Lemma framed_tx_save owner old tx : respects (tx_frame (ident tx)) (tx_save owner old tx).
Proof.
  unfold tx_save. destruct (tx_acc_counts tx) as [g m].
  apply respects_transaction; [apply _|].
  apply respects_bind; [apply _|apply (step_children_del (ident tx)); apply _|intros _].
  apply respects_bind; [apply _|apply (step_header (ident tx)); [apply _..|done]|intros _].
  apply respects_bind; [apply _|apply (step_children_put (ident tx)); [apply _..|done]|intros tx'].
  apply respects_bind; [apply _| |intros _; apply respects_ret; apply _].
  case_match; [apply (framed_stock_apply (ident tx))|apply respects_ret; apply _].
Qed.

End Frame.
