(* ===== verification/LoadFacts.v ===== *)
(** * What a load returns

    [tx_load] assembles the children of a transaction through hash maps.  Here
    each part of its result is described by the child rows alone: every parent
    row is one message, and holds the messages of exactly the rows that name
    it. *)
From stdpp Require Import sorting.
From S2P Require Import Prelude Ts TxProto World Json TxData Db EnumMap Rows Load.

(** ** Hash maps filled from rows *)

Section Maps.
Context {K A E : Type} `{Countable K}.
Implicit Types (m : gmap K A) (rows : list E).

(** Inserting rows with different keys keeps them all. *)
Lemma insert_rows_to_list (key : E -> K) (val : E -> A) rows :
  NoDup (key <$> rows) ->
  map_to_list (foldl (fun m e => <[key e := val e]> m) ∅ rows)
    ≡ₚ (fun e => (key e, val e)) <$> rows.
Proof.
  induction rows as [|e rows IH] using rev_ind; [cbn; by rewrite map_to_list_empty|].
  rewrite fmap_app. intros (Hn & Hd & _)%list.NoDup_app. specialize (IH Hn).
  rewrite foldl_app, fmap_app. cbn [foldl fmap list_fmap].
  rewrite map_to_list_insert; [rewrite IH; apply Permutation_cons_append|].
  apply eq_None_not_Some. intros [a Ha]. apply elem_of_map_to_list in Ha.
  rewrite IH in Ha. apply list_elem_of_fmap in Ha as (e' & [= He _] & Hin).
  apply (Hd (key e)); [rewrite He; by apply list_elem_of_fmap_2|]. apply list_elem_of_singleton. done.
Qed.

(** Each row is pushed into the entry it names. *)
Lemma push_rows_lookup (key : E -> K) (f : E -> A -> A) rows m i :
  foldl (fun m e => push_into (key e) (f e) m) m rows !! i
    = (fun a => foldl (fun a e => f e a) a (filter (fun e => key e = i) rows)) <$> m !! i.
Proof.
  revert m. induction rows as [|e rows IH]; intros m; cbn [foldl].
  - by destruct (m !! i).
  - rewrite IH. unfold push_into. destruct (decide (key e = i)) as [<-|Hne].
    + rewrite filter_cons_True by done. destruct (m !! key e) as [a|] eqn:E1.
      * by rewrite lookup_insert_eq.
      * by rewrite E1.
    + rewrite filter_cons_False by done.
      destruct (m !! key e) as [a|]; [by rewrite lookup_insert_ne|done].
Qed.

(** Entries changed in place stay the same entries. *)
Lemma entries_changed (g : K -> A -> A) m m' :
  (forall i, m' !! i = g i <$> m !! i) ->
  map_to_list m' ≡ₚ (fun e => (e.1, g e.1 e.2)) <$> map_to_list m.
Proof.
  intros Hm. apply NoDup_Permutation.
  - apply NoDup_map_to_list.
  - assert (NoDup (map_to_list m).*1) as Hn by apply NoDup_fst_map_to_list.
    apply (NoDup_fmap_1 fst). rewrite <- list_fmap_compose. exact Hn.
  - intros [i a]. rewrite elem_of_map_to_list, Hm, list_elem_of_fmap. split.
    + intros (a0 & E0 & ->)%fmap_Some. exists (i, a0). by rewrite elem_of_map_to_list.
    + intros ([i0 a0] & [= -> ->] & Hin). apply elem_of_map_to_list in Hin. by rewrite Hin.
Qed.

End Maps.

(** A row pushed is one more element at the end. *)
Section Push.
Context {E X : Type}.

Lemma push_sources (conv : E -> TxItemSource) l a :
  foldl (fun (a : TxItem) e =>
    {| a with TxItem.sources := a.(TxItem.sources) ++ [conv e] |}) a l
  = {| a with TxItem.sources := a.(TxItem.sources) ++ (conv <$> l) |}.
Proof.
  revert a. induction l as [|e l IH]; intros a; cbn [foldl]; [by rewrite app_nil_r|].
  rewrite IH. cbn. by rewrite <- app_assoc.
Qed.
Lemma push_reservations (conv : E -> TxItemReservation) l a :
  foldl (fun (a : TxItem) e =>
    {| a with TxItem.reservations := a.(TxItem.reservations) ++ [conv e] |}) a l
  = {| a with TxItem.reservations := a.(TxItem.reservations) ++ (conv <$> l) |}.
Proof.
  revert a. induction l as [|e l IH]; intros a; cbn [foldl]; [by rewrite app_nil_r|].
  rewrite IH. cbn. by rewrite <- app_assoc.
Qed.
Lemma push_debt_payments (conv : E -> TxDebtPayment) l a :
  foldl (fun (a : TxInstallment) e =>
    {| a with TxInstallment.debt_payments := a.(TxInstallment.debt_payments) ++ [conv e] |}) a l
  = {| a with TxInstallment.debt_payments := a.(TxInstallment.debt_payments) ++ (conv <$> l) |}.
Proof.
  revert a. induction l as [|e l IH]; intros a; cbn [foldl]; [by rewrite app_nil_r|].
  rewrite IH. cbn. by rewrite <- app_assoc.
Qed.
Lemma push_installments (conv : E -> TxInstallment) l a :
  foldl (fun (a : TxPayment) e =>
    {| a with TxPayment.installments := a.(TxPayment.installments) ++ [conv e] |}) a l
  = {| a with TxPayment.installments := a.(TxPayment.installments) ++ (conv <$> l) |}.
Proof.
  revert a. induction l as [|e l IH]; intros a; cbn [foldl]; [by rewrite app_nil_r|].
  rewrite IH. cbn. by rewrite <- app_assoc.
Qed.
End Push.

(** ** The parts of a loaded transaction *)

Section LoadFacts.
Context `{!Chrono} `{!SerdeJson} `{!Order}.

(** The rows that name a parent. *)
Definition rows_of {P C R} `{EqDecision P} (p : P) (rows : list ((P * C) * R)) : list ((P * C) * R) :=
  filter (fun e => e.1.1 = p) rows.

Definition item_with (k : TxKey) (sources : list ((Z * Z) * SourceRow))
    (reservations : list ((Z * Z) * ReservationRow)) (e : Z * ItemRow) : TxItem :=
  let item := tx_item_from_row k e.1 e.2 in
  {| item with
     TxItem.sources := (fun r => tx_item_source_from_row r.1 r.2) <$> rows_of e.1 sources;
     TxItem.reservations :=
       (fun r => tx_item_reservation_from_row r.1 r.2) <$> rows_of e.1 reservations |}.
Definition installment_with (debt_pays : list ((Z * Z * Z) * DebtPaymentRow))
    (e : (Z * Z) * InstallmentRow) : TxInstallment :=
  let inst := tx_installment_from_row e.1 e.2 in
  {| inst with
     TxInstallment.debt_payments :=
       (fun r => tx_debt_payment_from_row r.1 r.2) <$> rows_of e.1 debt_pays |}.
Definition payment_with (insts : list ((Z * Z) * TxInstallment)) (e : Z * PaymentRow)
    : TxPayment :=
  let p := tx_payment_from_row e.1 e.2 in
  {| p with TxPayment.installments := (rows_of e.1 insts).*2 |}.

Lemma select_children_ok {C R} `{Countable C} (g : Db -> Children C R) k e w rows w' :
  select_children g k e w = (Ok rows, w') ->
  rows = child_rows k (g w.(db)) /\ w'.(db) = w.(db).
Proof. intros E. apply query_ok in E as ((now & ->) & ->). done. Qed.

Lemma order_by_id_perm {R} (l : list (Z * R)) : order_by_id l ≡ₚ l.
Proof. apply merge_sort_Permutation. Qed.

Lemma order_nil {K A} `{Countable K} : (order (∅ : gmap K A)).*2 = [].
Proof.
  assert (order (∅ : gmap K A) ≡ₚ []) as E by (rewrite order_perm; by rewrite map_to_list_empty).
  apply Permutation_nil_r in E. by rewrite E.
Qed.

(** A map filled from the rows of a table, in the order of their ids. *)
Lemma filled_by_id {A R} (val : Z * R -> A) (rows : list (Z * R)) :
  NoDup rows.*1 ->
  map_to_list (foldl (fun (m : gmap Z A) e => <[e.1 := val e]> m) ∅ (order_by_id rows))
    ≡ₚ (fun e => (e.1, val e)) <$> rows.
Proof.
  intros Hn. etransitivity; [apply (insert_rows_to_list fst); by rewrite order_by_id_perm|].
  by rewrite order_by_id_perm.
Qed.
Lemma item_map_of_rows k (rows : list (Z * ItemRow)) :
  NoDup rows.*1 ->
  map_to_list (item_map_of k (order_by_id rows))
    ≡ₚ (fun e => (e.1, tx_item_from_row k e.1 e.2)) <$> rows.
Proof. apply filled_by_id. Qed.
Lemma pay_map_of_rows (rows : list (Z * PaymentRow)) :
  NoDup rows.*1 ->
  map_to_list (pay_map_of (order_by_id rows))
    ≡ₚ (fun e => (e.1, tx_payment_from_row e.1 e.2)) <$> rows.
Proof. apply filled_by_id. Qed.
Lemma filled_empty {K A X} `{Countable K} (m : gmap K A) (f : X -> K * A) (l : list X) :
  m = ∅ -> map_to_list m ≡ₚ f <$> l -> l = [].
Proof.
  intros ->. rewrite map_to_list_empty. intros E. symmetry in E.
  by apply Permutation_nil_r, fmap_nil_inv in E.
Qed.

(** Every item row is an item with its own sources and reservations. *)
Lemma load_items_spec k e w items w' :
  load_items k e w = (Ok items, w') ->
  items ≡ₚ item_with k (child_rows k (t_source w.(db))) (child_rows k (t_reservation w.(db)))
           <$> child_rows k (t_item w.(db)).
Proof.
  intros E. apply bind_ok in E as (rows & w1 & E1 & E).
  apply select_children_ok in E1 as (-> & Hd1). cbv zeta in E.
  pose proof (item_map_of_rows k _ (child_rows_nodup k (t_item w.(db)))) as Hm.
  set (rows := child_rows k (t_item w.(db))) in *.
  apply bind_ok in E as (m & w2 & E2 & E). injection E as <- _.
  case_bool_decide as He.
  - injection E2 as <- _. apply (filled_empty _ _ _ He) in Hm. by rewrite He, order_nil, Hm.
  - apply bind_ok in E2 as (sources & w3 & E3 & E2). apply select_children_ok in E3 as (-> & Hd3).
    apply bind_ok in E2 as (res & w4 & E4 & E2). apply select_children_ok in E4 as (-> & _).
    injection E2 as <- _. rewrite Hd3, Hd1, order_perm.
    rewrite (entries_changed (fun i (a : TxItem) => {| a with
      TxItem.sources := a.(TxItem.sources)
        ++ ((fun r => tx_item_source_from_row r.1 r.2) <$> rows_of i (child_rows k (t_source w.(db))));
      TxItem.reservations := a.(TxItem.reservations)
        ++ ((fun r => tx_item_reservation_from_row r.1 r.2)
              <$> rows_of i (child_rows k (t_reservation w.(db)))) |})
      (item_map_of k (order_by_id rows))).
    + rewrite Hm, <- !list_fmap_compose. done.
    + intros i. unfold attach_reservations, attach_sources. rewrite !push_rows_lookup.
      destruct (item_map_of k (order_by_id rows) !! i) as [a|]; [|done].
      cbn [fmap option_fmap option_map]. by rewrite push_sources, push_reservations.
Qed.

Lemma inst_map_of_rows (rows : list ((Z * Z) * InstallmentRow)) :
  NoDup rows.*1 ->
  map_to_list (inst_map_of rows) ≡ₚ (fun e => (e.1, tx_installment_from_row e.1 e.2)) <$> rows.
Proof.
  intros Hn. unfold inst_map_of. etransitivity.
  - apply (insert_rows_to_list (fun e : (Z * Z) * InstallmentRow =>
      (e.1.1, (tx_installment_from_row e.1 e.2).(TxInstallment.inst_id)))).
    cbn. erewrite list_fmap_ext; [exact Hn|]. intros ? [[? ?] ?] _. done.
  - apply Permutation_refl', list_fmap_ext. intros ? [[? ?] ?] _. done.
Qed.

(** Every payment row is a payment with its own installments, each of which has
    its own repayments. *)
Lemma load_payments_spec k e w payments w' :
  load_payments k e w = (Ok payments, w') ->
  exists insts,
    insts ≡ₚ (fun x => (x.1, installment_with (child_rows k (t_debt_payment w.(db))) x))
             <$> child_rows k (t_installment w.(db)) /\
    payments ≡ₚ payment_with insts <$> child_rows k (t_payment w.(db)).
Proof.
  intros E. apply bind_ok in E as (rows & w1 & E1 & E).
  apply select_children_ok in E1 as (-> & Hd1). cbv zeta in E.
  pose proof (pay_map_of_rows _ (child_rows_nodup k (t_payment w.(db)))) as Hm.
  set (rows := child_rows k (t_payment w.(db))) in *.
  apply bind_ok in E as (m & w2 & E2 & E). injection E as <- _.
  case_bool_decide as He.
  - injection E2 as <- _. apply (filled_empty _ _ _ He) in Hm. rewrite He, order_nil, Hm.
    by eexists.
  - apply bind_ok in E2 as (ir & w3 & E3 & E2). apply select_children_ok in E3 as (-> & Hd3).
    apply bind_ok in E2 as (dr & w4 & E4 & E2). apply select_children_ok in E4 as (-> & _).
    injection E2 as <- _. rewrite Hd3, Hd1.
    set (insts := attach_debt_payments _ _). exists (order insts). split.
    2:{ rewrite order_perm, (entries_changed (fun i (p : TxPayment) => {| p with
          TxPayment.installments := p.(TxPayment.installments) ++ (rows_of i (order insts)).*2 |})
          (pay_map_of (order_by_id rows))).
        - rewrite Hm, <- !list_fmap_compose. done.
        - intros i. unfold attach_installments. rewrite push_rows_lookup.
          destruct (pay_map_of (order_by_id rows) !! i) as [a|]; [|done].
          cbn [fmap option_fmap option_map]. by rewrite push_installments. }
    subst insts. rewrite order_perm, (entries_changed (fun i (a : TxInstallment) => {| a with
      TxInstallment.debt_payments := a.(TxInstallment.debt_payments)
        ++ ((fun r => tx_debt_payment_from_row r.1 r.2)
              <$> rows_of i (child_rows k (t_debt_payment w.(db)))) |})
      (inst_map_of (child_rows k (t_installment w.(db))))).
    + rewrite inst_map_of_rows by apply child_rows_nodup. by rewrite <- list_fmap_compose.
    + intros i. unfold attach_debt_payments. rewrite push_rows_lookup.
      destruct (inst_map_of _ !! i) as [a|]; [|done].
      cbn [fmap option_fmap option_map]. by rewrite push_debt_payments.
Qed.

Lemma load_ordered_spec {R A : Type} (g : Db -> Children Z R) (f : Z -> R -> A) k e w l w' :
  load_ordered g f k e w = (Ok l, w') ->
  l = (fun x => f x.1 x.2) <$> order_by_id (child_rows k (g w.(db))).
Proof.
  intros E. apply bind_ok in E as (rows & w1 & E1 & E).
  apply select_children_ok in E1 as (-> & _). by injection E as <- _.
Qed.

End LoadFacts.
