(* ===== verification/SaveFacts.v ===== *)
(** * The rows a save leaves

    The child rows of a transaction after [tx_children_put], as a list of rows of
    all child tables, up to order: one tree of rows per item and per payment and
    one row per ledger line, stock line, tax and discount. *)
From S2P Require Import Prelude Strs Ts TxProto World Json TxData Db EnumMap Rows Persist Load.
From S2P Require Import LoadFacts TxApi TxPutFacts.

Section Trees.
Context `{!Chrono}.

(** A row of any child table, with the key columns it has beside the
    transaction's. *)
Inductive ChildRow :=
  | ItemR (c : Z) (r : ItemRow)
  | SourceR (c : Z * Z) (r : SourceRow)
  | ReservationR (c : Z * Z) (r : ReservationRow)
  | PaymentR (c : Z) (r : PaymentRow)
  | InstallmentR (c : Z * Z) (r : InstallmentRow)
  | DebtPaymentR (c : Z * Z * Z) (r : DebtPaymentRow)
  | AccR (c : Z) (r : AccRow)
  | StockR (c : Z) (r : StockRow)
  | TaxR (c : Z) (r : TaxRow)
  | DiscountR (c : Z) (r : DiscountRow).

Definition as_item x := match x with ItemR c r => Some (c, r) | _ => None end.
Definition as_source x := match x with SourceR c r => Some (c, r) | _ => None end.
Definition as_reservation x := match x with ReservationR c r => Some (c, r) | _ => None end.
Definition as_payment x := match x with PaymentR c r => Some (c, r) | _ => None end.
Definition as_installment x := match x with InstallmentR c r => Some (c, r) | _ => None end.
Definition as_debt_payment x := match x with DebtPaymentR c r => Some (c, r) | _ => None end.
Definition as_acc x := match x with AccR c r => Some (c, r) | _ => None end.
Definition as_stock x := match x with StockR c r => Some (c, r) | _ => None end.
Definition as_tax x := match x with TaxR c r => Some (c, r) | _ => None end.
Definition as_discount x := match x with DiscountR c r => Some (c, r) | _ => None end.

(** The rows of one item, one installment, one payment. *)
Record ItemTree := { it_id : Z; it_row : ItemRow;
  it_sources : list (Z * SourceRow); it_reservations : list (Z * ReservationRow) }.
Record InstTree := { in_id : Z; in_row : InstallmentRow; in_debts : list (Z * DebtPaymentRow) }.
Record PayTree := { pt_id : Z; pt_row : PaymentRow; pt_insts : list InstTree }.

Definition item_tree_rows (t : ItemTree) : list ChildRow :=
  ItemR t.(it_id) t.(it_row)
  :: ((fun e => SourceR (t.(it_id), e.1) e.2) <$> t.(it_sources))
  ++ ((fun e => ReservationR (t.(it_id), e.1) e.2) <$> t.(it_reservations)).
Definition inst_tree_rows (payment_id : Z) (t : InstTree) : list ChildRow :=
  InstallmentR (payment_id, t.(in_id)) t.(in_row)
  :: ((fun e => DebtPaymentR (payment_id, t.(in_id), e.1) e.2) <$> t.(in_debts)).
Definition pay_tree_rows (t : PayTree) : list ChildRow :=
  PaymentR t.(pt_id) t.(pt_row) :: (t.(pt_insts) ≫= inst_tree_rows t.(pt_id)).

(** All rows of a transaction. *)
Record TxTree := { tt_items : list ItemTree; tt_payments : list PayTree;
  tt_accs : list (Z * AccRow); tt_stocks : list (Z * StockRow);
  tt_taxes : list (Z * TaxRow); tt_discounts : list (Z * DiscountRow) }.
Definition tx_tree_rows (t : TxTree) : list ChildRow :=
  (t.(tt_items) ≫= item_tree_rows) ++ (t.(tt_payments) ≫= pay_tree_rows)
  ++ ((fun e => AccR e.1 e.2) <$> t.(tt_accs)) ++ ((fun e => StockR e.1 e.2) <$> t.(tt_stocks))
  ++ ((fun e => TaxR e.1 e.2) <$> t.(tt_taxes))
  ++ ((fun e => DiscountR e.1 e.2) <$> t.(tt_discounts)).

(** ** Which tree a message is stored as *)

(** An id that was given is kept. *)
Definition id_kept (id id' : Z) : Prop := 0 < id -> id' = id.
(** A stamp that is positive and in range is kept; for another one the clock is
    read. *)
Definition stamped (ms : Z) (ts : DateTime) : Prop :=
  match ts_from_ms ms with Some t => ts = t | None => True end.

End Trees.

Section Saved.
Context `{!Chrono} `{!SerdeJson}.

Definition source_saved (s : TxItemSource) (e : Z * SourceRow) : Prop :=
  id_kept s.(TxItemSource.src_id) e.1 /\ e.2 = source_row s.
Definition reservation_saved (r : TxItemReservation) (e : Z * ReservationRow) : Prop :=
  id_kept r.(TxItemReservation.res_id) e.1 /\ e.2 = reservation_row r.
Definition item_saved (k : TxKey) (i : TxItem) (t : ItemTree) : Prop :=
  (i.(TxItem.item_id) <> 0 -> t.(it_id) = i.(TxItem.item_id)) /\
  t.(it_row) = item_row k.1 i /\
  Forall2 source_saved i.(TxItem.sources) t.(it_sources) /\
  Forall2 reservation_saved i.(TxItem.reservations) t.(it_reservations).
Definition debt_payment_saved (p : TxDebtPayment) (e : Z * DebtPaymentRow) : Prop :=
  id_kept p.(TxDebtPayment.pay_id) e.1 /\
  exists ts, stamped p.(TxDebtPayment.ts_ms) ts /\ e.2 = debt_payment_row p ts.
Definition installment_saved (i : TxInstallment) (t : InstTree) : Prop :=
  id_kept i.(TxInstallment.inst_id) t.(in_id) /\ t.(in_row) = installment_row i /\
  Forall2 debt_payment_saved i.(TxInstallment.debt_payments) t.(in_debts).
Definition payment_saved (p : TxPayment) (t : PayTree) : Prop :=
  id_kept p.(TxPayment.payment_id) t.(pt_id) /\
  (exists ts, stamped p.(TxPayment.ts_ms) ts /\ t.(pt_row) = payment_row p ts) /\
  Forall2 installment_saved p.(TxPayment.installments) t.(pt_insts).
Definition acc_saved (a : TxAcc) (e : Z * AccRow) : Prop :=
  id_kept a.(TxAcc.acc_id) e.1 /\
  exists ts, stamped a.(TxAcc.ts_ms) ts /\ e.2 = acc_row a ts.
Definition stock_saved (s : TxStock) (e : Z * StockRow) : Prop :=
  id_kept s.(TxStock.stock_id) e.1 /\
  exists ts, stamped s.(TxStock.ts_ms) ts /\ e.2 = stock_row s ts.
Definition tax_saved (t : TxTax) (e : Z * TaxRow) : Prop :=
  id_kept t.(TxTax.tax_id) e.1 /\ e.2 = tax_row t.
Definition discount_saved (d : TxDiscount) (e : Z * DiscountRow) : Prop :=
  id_kept d.(TxDiscount.discount_id) e.1 /\ e.2 = discount_row d.

Definition children_saved (tx : Tx) (t : TxTree) : Prop :=
  Forall2 (item_saved (ident tx)) tx.(Tx.items) t.(tt_items) /\
  Forall2 payment_saved tx.(Tx.payments) t.(tt_payments) /\
  Forall2 acc_saved tx.(Tx.accs) t.(tt_accs) /\
  Forall2 stock_saved tx.(Tx.stocks) t.(tt_stocks) /\
  Forall2 tax_saved tx.(Tx.taxes) t.(tt_taxes) /\
  Forall2 discount_saved tx.(Tx.discounts) t.(tt_discounts).

(** ** The rows in the database *)

Context `{!Order}.
Notation M := (M Db).

Definition all_rows (k : TxKey) (d : Db) : list ChildRow :=
  (uncurry ItemR <$> child_rows k d.(t_item)) ++
  (uncurry SourceR <$> child_rows k d.(t_source)) ++
  (uncurry ReservationR <$> child_rows k d.(t_reservation)) ++
  (uncurry PaymentR <$> child_rows k d.(t_payment)) ++
  (uncurry InstallmentR <$> child_rows k d.(t_installment)) ++
  (uncurry DebtPaymentR <$> child_rows k d.(t_debt_payment)) ++
  (uncurry AccR <$> child_rows k d.(t_acc)) ++
  (uncurry StockR <$> child_rows k d.(t_stock)) ++
  (uncurry TaxR <$> child_rows k d.(t_tax)) ++
  (uncurry DiscountR <$> child_rows k d.(t_discount)).

Definition holds (k : TxKey) (l : list ChildRow) (d : Db) : Prop := all_rows k d ≡ₚ l.

(** [m] adds the rows of some [x] that satisfies [P]. *)
Definition adds {A X : Type} (k : TxKey) (m : M A) (rows : X -> list ChildRow) (P : X -> Prop)
    : Prop :=
  forall l, runs m (holds k l) (fun _ d => exists x, P x /\ holds k (l ++ rows x) d).
(** [m] leaves the database and returns a value that satisfies [P]. *)
Definition yields {A : Type} (m : M A) (P : A -> Prop) : Prop :=
  reads m /\ forall e w a w', m e w = (Ok a, w') -> P a.

(** A child table of the model, with the constructor of its rows. *)
Definition table_of {C R} `{Countable C} (k : TxKey) (g : Db -> Children C R)
    (st : Children C R -> Db -> Db) (inj : C -> R -> ChildRow) : Prop :=
  forall d c r now, g d !! (k, c) = None ->
    all_rows k (st (<[(k, c) := new_row now r]> (g d)) d) ≡ₚ inj c r :: all_rows k d.

(** A new row in the middle, seen from the front. *)
Ltac pull :=
  first [reflexivity
    | lazymatch goal with
      | |- ?A ++ _ ≡ₚ ?x :: ?A ++ ?B =>
          transitivity (A ++ x :: B);
            [apply Permutation_app_head; pull | symmetry; apply Permutation_middle]
      end].
Ltac table := intros d c r now Hn; unfold all_rows; cbn;
  rewrite child_rows_insert by done; cbn [fmap list_fmap uncurry cols new_row];
  pull.
Lemma table_item k : table_of k t_item set_item ItemR.
Proof. table. Qed.
Lemma table_source k : table_of k t_source set_source SourceR.
Proof. table. Qed.
Lemma table_reservation k : table_of k t_reservation set_reservation ReservationR.
Proof. table. Qed.
Lemma table_payment k : table_of k t_payment set_payment PaymentR.
Proof. table. Qed.
Lemma table_installment k : table_of k t_installment set_installment InstallmentR.
Proof. table. Qed.
Lemma table_debt_payment k : table_of k t_debt_payment set_debt_payment DebtPaymentR.
Proof. table. Qed.
Lemma table_acc k : table_of k t_acc set_acc AccR.
Proof. table. Qed.
Lemma table_stock k : table_of k t_stock set_stock StockR.
Proof. table. Qed.
Lemma table_tax k : table_of k t_tax set_tax TaxR.
Proof. table. Qed.
Lemma table_discount k : table_of k t_discount set_discount DiscountR.
Proof. table. Qed.

(** ** Composing steps *)

Section Adds.
Context (k : TxKey).
Notation adds m rows P := (adds k m rows P).

Lemma adds_weaken {A X Y} (m : M A) (rows : X -> list ChildRow) (rows' : Y -> list ChildRow) P Q :
  adds m rows P -> (forall x, P x -> exists y, Q y /\ rows' y ≡ₚ rows x) -> adds m rows' Q.
Proof.
  intros Hm Hw l. eapply runs_weaken; [apply Hm|done|].
  intros a d (x & Hx & Hd). destruct (Hw x Hx) as (y & Hy & E). exists y.
  unfold holds in *. by rewrite Hd, E.
Qed.
Lemma adds_ret {A} (a : A) : adds (mret a) (fun _ : () => []) (fun _ => True).
Proof. intros l. apply runs_ret. intros d Hd. exists tt. by rewrite app_nil_r. Qed.
Lemma adds_pre {A B X} (m : M A) (f : A -> M B) (P : A -> Prop) (rows : X -> list ChildRow) Q :
  yields m P -> (forall a, P a -> adds (f a) rows Q) -> adds (m ≫= f) rows Q.
Proof.
  intros [Hr Hm] Hf l e w b w' (a & w1 & E1 & E2)%bind_ok Hl.
  eapply (Hf a (Hm _ _ _ _ E1)); [exact E2|]. by rewrite (Hr _ _ _ _ E1).
Qed.
Lemma adds_insert {C R} `{Countable C} (g : Db -> Children C R) st inj (c : C) (r : R)
    {B X} (f : () -> M B) (rows : X -> list ChildRow) Q :
  table_of k g st inj -> adds (f tt) rows Q ->
  adds (insert_child g st k c r ≫= f) (fun x => inj c r :: rows x) Q.
Proof.
  intros Ht Hf l. eapply (runs_bind _ _ _ (fun _ d => holds k (l ++ [inj c r]) d)).
  - apply runs_sql. intros now d u d' Hd E. unfold t_insert in E.
    destruct (g d !! (k, c)) eqn:En; [done|]. injection E as _ <-.
    unfold holds in *. rewrite Ht by done. rewrite Hd. apply Permutation_cons_append.
  - intros []. eapply runs_weaken; [apply Hf|done|]. intros _ d (x & Hx & Hd). exists x.
    by rewrite <- app_assoc in Hd.
Qed.
Lemma adds_insert_last {C R} `{Countable C} (g : Db -> Children C R) st inj (c : C) (r : R) :
  table_of k g st inj -> adds (insert_child g st k c r) (fun _ : () => [inj c r]) (fun _ => True).
Proof.
  intros Ht l e w u w' E Hd.
  destruct (adds_insert g st inj c r (fun _ => mret tt) _ _ Ht (adds_ret tt) l e w tt w')
    as ([] & _ & Hd'); [|done|by exists tt].
  apply bind_ok. exists u, w'. by destruct u.
Qed.
Lemma adds_bind {A B X Y} (m : M A) (f : A -> M B) (r1 : X -> list ChildRow)
    (r2 : Y -> list ChildRow) P Q :
  adds m r1 P -> (forall a, adds (f a) r2 Q) ->
  adds (m ≫= f) (fun xy => r1 xy.1 ++ r2 xy.2) (fun xy => P xy.1 /\ Q xy.2).
Proof.
  intros Hm Hf l. eapply runs_bind; [apply Hm|]. intros a e w b w' E (x & Hx & Hd).
  destruct (Hf a _ _ _ _ _ E Hd) as (y & Hy & Hd'). exists (x, y).
  by rewrite <- app_assoc in Hd'.
Qed.
Lemma adds_bind_ret {A B X} (m : M A) (g : A -> B) (rows : X -> list ChildRow) P :
  adds m rows P -> adds (a ← m; mret (g a)) rows P.
Proof.
  intros Hm. eapply adds_weaken; [eapply adds_bind; [exact Hm|intros a; apply adds_ret]|].
  intros [x []] [Hx _]. exists x. by rewrite app_nil_r.
Qed.
Lemma adds_mapM {A B X} (f : A -> M B) (rows : X -> list ChildRow) (P : A -> X -> Prop) l :
  (forall a, adds (f a) rows (P a)) ->
  adds (mapM f l) (fun xs => xs ≫= rows) (Forall2 P l).
Proof.
  intros Hf. induction l as [|a l IH].
  - eapply adds_weaken; [apply adds_ret|]. intros ? _. by exists [].
  - eapply adds_weaken; [eapply adds_bind; [apply Hf|intros b; apply adds_bind_ret, IH]|].
    intros [x xs] [Hx Hxs]. exists (x :: xs). split; [by constructor|done].
Qed.
Lemma adds_forM {A X} (f : A -> M ()) (rows : X -> list ChildRow) (P : A -> X -> Prop) l :
  (forall a, adds (f a) rows (P a)) ->
  adds (forM_ l f) (fun xs => xs ≫= rows) (Forall2 P l).
Proof.
  intros Hf. induction l as [|a l IH].
  - eapply adds_weaken; [apply adds_ret|]. intros ? _. by exists [].
  - eapply adds_weaken; [eapply adds_bind; [apply Hf|intros b; apply IH]|].
    intros [x xs] [Hx Hxs]. exists (x :: xs). split; [by constructor|done].
Qed.

(** *** Pure steps *)

Lemma yields_or_next_id id : yields (or_next_id id) (id_kept id).
Proof.
  split; [apply reads_or_next_id|]. unfold or_next_id, id_kept. intros e w a w' E.
  destruct (Z.ltb_spec 0 id); [by injection E as <- _|lia].
Qed.
Lemma yields_ts_or_now ms : yields (ts_or_now ms) (stamped ms).
Proof.
  split; [apply reads_ts_or_now|]. unfold ts_or_now, stamped. intros e w a w' E.
  destruct (ts_from_ms ms); [by injection E as <- _|done].
Qed.

(** ** The rows of each child *)

Lemma adds_debt_payment pid iid p :
  adds (debt_payment_put k pid iid p) (fun e => [DebtPaymentR (pid, iid, e.1) e.2])
    (debt_payment_saved p).
Proof.
  eapply adds_pre; [apply yields_or_next_id|]. intros id Hid.
  eapply adds_pre; [apply yields_ts_or_now|]. intros ts Hts.
  eapply adds_weaken; [eapply adds_insert; [apply table_debt_payment|apply adds_ret]|].
  intros ? _. exists (id, debt_payment_row p ts). split; [|done]. split; [done|]. by exists ts.
Qed.
Lemma adds_installment pid i :
  adds (installment_put k pid i) (inst_tree_rows pid) (installment_saved i).
Proof.
  eapply adds_pre; [apply yields_or_next_id|]. intros id Hid.
  eapply adds_weaken.
  - eapply adds_insert; [apply table_installment|].
    eapply adds_bind_ret, adds_mapM. intros dp. apply adds_debt_payment.
  - intros es Hes. exists {| in_id := id; in_row := installment_row i; in_debts := es |}.
    split; [done|]. unfold inst_tree_rows. cbn. by rewrite bind_singletons.
Qed.
Lemma adds_payment p : adds (payment_put k p) pay_tree_rows (payment_saved p).
Proof.
  eapply adds_pre; [apply yields_or_next_id|]. intros id Hid.
  eapply adds_pre; [apply yields_ts_or_now|]. intros ts Hts.
  eapply adds_weaken.
  - eapply adds_insert; [apply table_payment|].
    eapply adds_bind_ret, adds_mapM. intros i. apply adds_installment.
  - intros es Hes. exists {| pt_id := id; pt_row := payment_row p ts; pt_insts := es |}.
    split; [|done]. split; [done|]. split; [by exists ts|done].
Qed.
Lemma adds_source iid s :
  adds (src_id ← or_next_id s.(TxItemSource.src_id);
        insert_child t_source set_source k (iid, src_id) (source_row s))
    (fun e => [SourceR (iid, e.1) e.2]) (source_saved s).
Proof.
  eapply adds_pre; [apply yields_or_next_id|]. intros id Hid.
  eapply adds_weaken; [apply adds_insert_last, table_source|].
  intros ? _. by exists (id, source_row s).
Qed.
Lemma adds_reservation iid r :
  adds (res_id ← or_next_id r.(TxItemReservation.res_id);
        insert_child t_reservation set_reservation k (iid, res_id) (reservation_row r))
    (fun e => [ReservationR (iid, e.1) e.2]) (reservation_saved r).
Proof.
  eapply adds_pre; [apply yields_or_next_id|]. intros id Hid.
  eapply adds_weaken; [apply adds_insert_last, table_reservation|].
  intros ? _. by exists (id, reservation_row r).
Qed.

(** A statement that inserts a row if it succeeds. *)
Lemma adds_sql {C R} `{Countable C} (g : Db -> Children C R) st inj (c : C) (r : R)
    (f : DateTime -> Db -> result (() * Db)) :
  table_of k g st inj ->
  (forall now d u d', f now d = Ok (u, d') ->
     t_insert (k, c) (new_row now r) (g d) ≫= (fun t => Ok (tt, st t d)) = Ok (tt, d')) ->
  adds (sql f) (fun _ : () => [inj c r]) (fun _ => True).
Proof.
  intros Ht Hf l. apply runs_sql. intros now d u d' Hd E. apply Hf in E.
  unfold t_insert in E. destruct (g d !! (k, c)) eqn:En; [done|]. injection E as <-.
  exists tt. split; [done|]. unfold holds in *. rewrite Ht by done. rewrite Hd.
  apply Permutation_cons_append.
Qed.

Lemma adds_mark_used p : adds (site_product_mark_used k.1 p) (fun _ : () => []) (fun _ => True).
Proof.
  intros l e w a w' E Hd. exists tt. split; [done|]. rewrite app_nil_r. revert E.
  unfold site_product_mark_used. case_match; [by intros [= _ <-]|]. intros E.
  refine (runs_sql _ (holds k l) (fun _ => holds k l) _ _ _ _ _ E Hd).
  intros now d u d' Hd' [= _ <-]. exact Hd'.
Qed.

Lemma adds_item i :
  adds (item_put k i) item_tree_rows
    (fun t => t.(it_id) = i.(TxItem.item_id) /\ t.(it_row) = item_row k.1 i /\
       Forall2 source_saved i.(TxItem.sources) t.(it_sources) /\
       Forall2 reservation_saved i.(TxItem.reservations) t.(it_reservations)).
Proof.
  unfold item_put. eapply adds_weaken.
  - eapply adds_bind; [apply (adds_sql t_item set_item ItemR); [apply table_item|]|intros _].
    { intros now d [] d' E. apply result_bind_ok in E as (? & _ & E). exact E. }
    eapply (adds_bind _ _ (fun _ : () => []) _ (fun _ => True));
      [case_match; [apply adds_mark_used|apply adds_ret]|intros _].
    eapply adds_bind; [eapply adds_forM; intros s; apply adds_source|intros _].
    eapply adds_forM. intros r. apply adds_reservation.
  - intros [[] [[] [ss rs]]] (_ & _ & Hs & Hr). cbn in Hs, Hr.
    exists {| it_id := i.(TxItem.item_id); it_row := item_row k.1 i;
              it_sources := ss; it_reservations := rs |}.
    split; [done|]. cbn. by rewrite !bind_singletons.
Qed.
Lemma adds_acc a : adds (acc_put k a) (fun e => [AccR e.1 e.2]) (acc_saved a).
Proof.
  eapply adds_pre; [apply yields_or_next_id|]. intros id Hid.
  eapply adds_pre; [apply yields_ts_or_now|]. intros ts Hts. eapply adds_weaken.
  - apply (adds_bind_ret _ (fun _ => {| a with TxAcc.acc_id := id |})).
    apply (adds_sql t_acc set_acc AccR); [apply table_acc|].
    intros now d [] d'. case_match; [done|]. intros E. exact E.
  - intros ? _. exists (id, acc_row a ts). split; [|done]. split; [done|]. by exists ts.
Qed.
Lemma adds_stock s : adds (stock_put k s) (fun e => [StockR e.1 e.2]) (stock_saved s).
Proof.
  eapply adds_pre; [apply yields_or_next_id|]. intros id Hid.
  eapply adds_pre; [apply yields_ts_or_now|]. intros ts Hts.
  eapply adds_weaken; [eapply adds_insert; [apply table_stock|apply adds_ret]|].
  intros ? _. exists (id, stock_row s ts). split; [|done]. split; [done|]. by exists ts.
Qed.
Lemma adds_tax t : adds (tax_put k t) (fun e => [TaxR e.1 e.2]) (tax_saved t).
Proof.
  eapply adds_pre; [apply yields_or_next_id|]. intros id Hid.
  eapply adds_weaken; [eapply adds_insert; [apply table_tax|apply adds_ret]|].
  intros ? _. by exists (id, tax_row t).
Qed.
Lemma adds_discount d :
  adds (discount_put k d) (fun e => [DiscountR e.1 e.2]) (discount_saved d).
Proof.
  eapply adds_pre; [apply yields_or_next_id|]. intros id Hid.
  eapply adds_weaken; [eapply adds_insert; [apply table_discount|apply adds_ret]|].
  intros ? _. by exists (id, discount_row d).
Qed.

(** Items without an id are given one. *)
Definition item_named (i i' : TxItem) : Prop :=
  (i.(TxItem.item_id) <> 0 -> i'.(TxItem.item_id) = i.(TxItem.item_id)) /\
  i' = {| i with TxItem.item_id := i'.(TxItem.item_id) |}.
Lemma yields_ensure_ids items : yields (tx_items_ensure_ids items) (Forall2 item_named items).
Proof.
  split.
  - apply reads_mapM. intros i. case_match; [|apply reads_ret].
    apply reads_bind; [apply reads_next_id|]. intros id. apply reads_ret.
  - intros e w items' w' E.
    assert (runs (tx_items_ensure_ids items) (fun _ => True)
      (fun items' _ => Forall2 item_named items items')) as Hr; [|by eapply Hr].
    eapply runs_weaken; [apply (runs_mapM _ _ (fun l l' _ => Forall2 item_named l l'))|
      intros d _; constructor|done].
    intros pre i suf l _ e0 w0 i' w0' E0 Hpre. apply Forall2_app; [done|].
    constructor; [|done]. revert E0. destruct (Z.eqb_spec i.(TxItem.item_id) 0).
    + intros (id & w1 & _ & E1)%bind_ok. by injection E1 as <- _.
    + by intros [= <- _].
Qed.

(** *** All children *)

Lemma adds_children tx :
  ident tx = k -> adds (tx_children_put tx) tx_tree_rows (children_saved tx).
Proof.
  intros Hk. unfold tx_children_put. change (tx.(Tx.site_iid), tx.(Tx.tx_id)) with (ident tx).
  rewrite Hk. eapply adds_pre; [apply yields_ensure_ids|]. intros items' Hi. eapply adds_weaken.
  - eapply adds_bind; [eapply adds_forM; intros i; apply adds_item|intros _].
    eapply adds_bind; [eapply adds_mapM; intros p; apply adds_payment|intros payments].
    eapply adds_bind; [eapply adds_mapM; intros a; apply adds_acc|intros accs].
    eapply adds_bind; [eapply adds_mapM; intros s; apply adds_stock|intros stocks].
    eapply adds_bind; [eapply adds_mapM; intros t; apply adds_tax|intros taxes].
    eapply adds_bind_ret, adds_mapM. intros d. apply adds_discount.
  - intros (its & ps & acs & sts & txs & ds) (Hits & Hps & Hacs & Hsts & Htxs & Hds).
    exists {| tt_items := its; tt_payments := ps; tt_accs := acs; tt_stocks := sts;
              tt_taxes := txs; tt_discounts := ds |}.
    unfold children_saved, tx_tree_rows. cbn in *. rewrite Hk, !bind_singletons.
    split; [|done]. split; [|done].
    clear -Hi Hits. revert its Hits. induction Hi as [|i i' l l' [Hid Hi] _ IH]; intros its Hits.
    + inversion Hits. constructor.
    + inversion Hits as [|? t ? ? (E1 & E2 & E3 & E4) Hits']; subst. constructor; [|by apply IH].
      rewrite Hi in E2, E3, E4. split; [intros Hz; by rewrite E1, Hid|done].
Qed.

End Adds.
End Saved.
