(* ===== verification/ReadBack.v ===== *)
(** * What was saved is what is read

    The rows a save leaves, put together by a load, give the saved transaction
    back: every child once, with the ids it was given. *)
From stdpp Require Import sorting.
From S2P Require Import Prelude Strs Ts TxProto World Json TxData Db EnumMap Rows Persist Load.
From S2P Require Import Finalize StockApply Grant TxApi TxPutFacts LoadFacts SaveFacts.

(** ** The messages a saved message is read back as *)

Section Read.
Context `{!Chrono} `{!SerdeJson}.

(** Related one to one, in any order. *)
Definition read_as {A B : Type} (R : A -> B -> Prop) (l : list A) (l' : list B) : Prop :=
  exists l0, l' ≡ₚ l0 /\ Forall2 R l l0.

(** A stamp in range is kept. *)
Definition stamp_read (ms ms' : Z) : Prop := is_Some (ts_from_ms ms) -> ms' = ms.
(** Any JSON text comes back as [serde_json] prints it, and a text that is not
    JSON as an empty object. *)
Definition payment_json_read (s : string) : string := to_string (payment_json_value s).

Definition source_read (s s' : TxItemSource) : Prop :=
  id_kept s.(TxItemSource.src_id) s'.(TxItemSource.src_id) /\
  s' = {| s with TxItemSource.src_id := s'.(TxItemSource.src_id) |}.
Definition reservation_read (r r' : TxItemReservation) : Prop :=
  id_kept r.(TxItemReservation.res_id) r'.(TxItemReservation.res_id) /\
  r' = {| r with
    TxItemReservation.res_id := r'.(TxItemReservation.res_id);
    TxItemReservation.start_ts_ms := ts_ms (ts_from_ms r.(TxItemReservation.start_ts_ms));
    TxItemReservation.end_ts_ms := ts_ms (ts_from_ms r.(TxItemReservation.end_ts_ms)) |}.
Definition item_read (k : TxKey) (i i' : TxItem) : Prop :=
  (i.(TxItem.item_id) <> 0 -> i'.(TxItem.item_id) = i.(TxItem.item_id)) /\
  read_as source_read i.(TxItem.sources) i'.(TxItem.sources) /\
  read_as reservation_read i.(TxItem.reservations) i'.(TxItem.reservations) /\
  i' = {| i with
    TxItem.site_iid := k.1;
    TxItem.tx_id := k.2;
    TxItem.item_id := i'.(TxItem.item_id);
    TxItem.owner_iid := if 0 <? i.(TxItem.owner_iid) then i.(TxItem.owner_iid) else k.1;
    TxItem.fulfillment_state := enum_to_i32
      (try_from_or TxItemFulfillmentState.TxItemFulfillmentUnspecified i.(TxItem.fulfillment_state));
    TxItem.sources := i'.(TxItem.sources);
    TxItem.reservations := i'.(TxItem.reservations) |}.
Definition debt_payment_read (p p' : TxDebtPayment) : Prop :=
  id_kept p.(TxDebtPayment.pay_id) p'.(TxDebtPayment.pay_id) /\
  stamp_read p.(TxDebtPayment.ts_ms) p'.(TxDebtPayment.ts_ms) /\
  p' = {| p with
    TxDebtPayment.pay_id := p'.(TxDebtPayment.pay_id);
    TxDebtPayment.ts_ms := p'.(TxDebtPayment.ts_ms);
    TxDebtPayment.method := enum_to_i32 (tx_debt_payment_method_stored
      (try_from_or TxDebtPaymentMethod.Unspecified p.(TxDebtPayment.method)));
    TxDebtPayment.payment_json := payment_json_read p.(TxDebtPayment.payment_json) |}.
Definition installment_read (i i' : TxInstallment) : Prop :=
  id_kept i.(TxInstallment.inst_id) i'.(TxInstallment.inst_id) /\
  read_as debt_payment_read i.(TxInstallment.debt_payments) i'.(TxInstallment.debt_payments) /\
  i' = {| i with
    TxInstallment.inst_id := i'.(TxInstallment.inst_id);
    TxInstallment.due_ts_ms := ts_ms (ts_from_ms i.(TxInstallment.due_ts_ms));
    TxInstallment.debt_payments := i'.(TxInstallment.debt_payments) |}.
Definition payment_read (p p' : TxPayment) : Prop :=
  id_kept p.(TxPayment.payment_id) p'.(TxPayment.payment_id) /\
  stamp_read p.(TxPayment.ts_ms) p'.(TxPayment.ts_ms) /\
  read_as installment_read p.(TxPayment.installments) p'.(TxPayment.installments) /\
  p' = {| p with
    TxPayment.payment_id := p'.(TxPayment.payment_id);
    TxPayment.ts_ms := p'.(TxPayment.ts_ms);
    TxPayment.method := enum_to_i32 (tx_payment_method_stored
      (try_from_or TxPaymentMethod.Unspecified p.(TxPayment.method)));
    TxPayment.payment_json := payment_json_read p.(TxPayment.payment_json);
    TxPayment.installments := p'.(TxPayment.installments) |}.
Definition acc_read (a a' : TxAcc) : Prop :=
  id_kept a.(TxAcc.acc_id) a'.(TxAcc.acc_id) /\
  stamp_read a.(TxAcc.ts_ms) a'.(TxAcc.ts_ms) /\
  a' = {| a with
    TxAcc.acc_id := a'.(TxAcc.acc_id);
    TxAcc.ts_ms := a'.(TxAcc.ts_ms);
    TxAcc.side := enum_to_i32 (tx_acc_side_stored
      (try_from_or TxAccSide.Unspecified a.(TxAcc.side))) |}.
Definition stock_read (s s' : TxStock) : Prop :=
  id_kept s.(TxStock.stock_id) s'.(TxStock.stock_id) /\
  stamp_read s.(TxStock.ts_ms) s'.(TxStock.ts_ms) /\
  s' = {| s with TxStock.stock_id := s'.(TxStock.stock_id); TxStock.ts_ms := s'.(TxStock.ts_ms) |}.
Definition tax_read (t t' : TxTax) : Prop :=
  id_kept t.(TxTax.tax_id) t'.(TxTax.tax_id) /\
  t' = {| t with TxTax.tax_id := t'.(TxTax.tax_id) |}.
Definition discount_read (d d' : TxDiscount) : Prop :=
  id_kept d.(TxDiscount.discount_id) d'.(TxDiscount.discount_id) /\
  d' = {| d with TxDiscount.discount_id := d'.(TxDiscount.discount_id) |}.

(** The lines with an id of their own come in its order. *)
Definition ascending {A : Type} (id : A -> Z) (l : list A) : Prop :=
  StronglySorted (fun a b => id a <= id b) l.

Definition lines_as {A : Type} (id : A -> Z) (R : A -> A -> Prop) (l l' : list A) : Prop :=
  read_as R l l' /\ ascending id l'.

Definition children_read (tx tx' : Tx) : Prop :=
  read_as (item_read (ident tx)) tx.(Tx.items) tx'.(Tx.items) /\
  read_as payment_read tx.(Tx.payments) tx'.(Tx.payments) /\
  lines_as TxAcc.acc_id acc_read tx.(Tx.accs) tx'.(Tx.accs) /\
  lines_as TxStock.stock_id stock_read tx.(Tx.stocks) tx'.(Tx.stocks) /\
  lines_as TxTax.tax_id tax_read tx.(Tx.taxes) tx'.(Tx.taxes) /\
  lines_as TxDiscount.discount_id discount_read tx.(Tx.discounts) tx'.(Tx.discounts).

Definition header_read (tx tx' : Tx) : Prop :=
  stamp_read tx.(Tx.time_ts_ms) tx'.(Tx.time_ts_ms) /\
  opt_all (fun data => TxData_wf data -> tx'.(Tx.tx_data) = Some (tx_data_read data))
    tx.(Tx.tx_data) /\
  tx' = {| tx with
    Tx.type := enum_to_i32 (tx_type_stored (tx_type tx.(Tx.type)));
    Tx.state := enum_to_i32 (tx_state tx.(Tx.state));
    Tx.input_mode := enum_to_i32 (try_from_or TxInputMode.Normal tx.(Tx.input_mode));
    Tx.input_source := enum_to_i32
      (tx_input_source_stored (try_from_or TxInputSource.Manual tx.(Tx.input_source)));
    Tx.order_pay_at := enum_to_i32 (try_from_or TxOrderPayAt.Unspecified tx.(Tx.order_pay_at));
    Tx.time_ts_ms := tx'.(Tx.time_ts_ms);
    Tx.created_by_iid := Z.max 0 tx.(Tx.created_by_iid);
    Tx.tx_data := tx'.(Tx.tx_data);
    Tx.items := tx'.(Tx.items);
    Tx.payments := tx'.(Tx.payments);
    Tx.accs := tx'.(Tx.accs);
    Tx.stocks := tx'.(Tx.stocks);
    Tx.taxes := tx'.(Tx.taxes);
    Tx.discounts := tx'.(Tx.discounts);
    Tx.created_ts_ms := tx'.(Tx.created_ts_ms);
    Tx.updated_ts_ms := tx'.(Tx.updated_ts_ms);
    Tx.deleted_ts_ms := 0 |}.

End Read.

(** ** The tables of a tree of rows *)

(** Child rows of a list of parents, under the parent's key. *)
Definition kids {T K C R} (key : T -> K) (own : T -> list (C * R)) (t : T) : list ((K * C) * R) :=
  (fun e => ((key t, e.1), e.2)) <$> own t.

Lemma rows_of_kids {T K C R} `{EqDecision K} (key : T -> K) (own : T -> list (C * R)) ts t :
  NoDup (key <$> ts) -> t ∈ ts ->
  rows_of (key t) (ts ≫= kids key own) = kids key own t.
Proof.
  intros Hn Ht. unfold rows_of. induction ts as [|t0 ts IH]; [by apply not_elem_of_nil in Ht|].
  cbn in Hn. apply list.NoDup_cons in Hn as [Hni Hn]. cbn [mbind list_bind].
  rewrite list.filter_app.
  assert (forall t', key t' = key t ->
    filter (fun e : (K * C) * R => e.1.1 = key t) (kids key own t') = kids key own t') as Hsame.
  { intros t' E. unfold kids. induction (own t') as [|e l IHl]; [done|].
    rewrite fmap_cons, filter_cons_True by done. by rewrite IHl. }
  assert (forall t', key t' <> key t ->
    filter (fun e : (K * C) * R => e.1.1 = key t) (kids key own t') = []) as Hother.
  { intros t' E. unfold kids. induction (own t') as [|e l IHl]; [done|].
    by rewrite fmap_cons, filter_cons_False. }
  apply list.elem_of_cons in Ht as [->|Ht].
  - rewrite Hsame by done.
    enough (filter (fun e : (K * C) * R => e.1.1 = key t0) (ts ≫= kids key own) = []) as ->
      by apply app_nil_r.
    clear -Hni Hother. induction ts as [|t1 ts IH]; [done|]. cbn in Hni |- *.
    rewrite list.filter_app, Hother, IH; [done|set_solver|set_solver].
  - rewrite Hother; [by apply IH|]. intros E. apply Hni. rewrite E. by apply list_elem_of_fmap_2.
Qed.

Section Tables.
Context `{!Chrono} `{!SerdeJson} `{!Order}.

(** The installments of all payments, with their payment. *)
Definition all_insts (ps : list PayTree) : list (Z * InstTree) :=
  ps ≫= fun p => (fun i => (p.(pt_id), i)) <$> p.(pt_insts).
Definition inst_key (x : Z * InstTree) : Z * Z := (x.1, x.2.(in_id)).

(** What the tables hold of a transaction stored as a tree. *)
Record tables_hold (k : TxKey) (t : TxTree) (d : Db) : Prop := {
  hold_item : child_rows k d.(t_item) ≡ₚ (fun i => (i.(it_id), i.(it_row))) <$> t.(tt_items);
  hold_source : child_rows k d.(t_source) ≡ₚ t.(tt_items) ≫= kids it_id it_sources;
  hold_reservation :
    child_rows k d.(t_reservation) ≡ₚ t.(tt_items) ≫= kids it_id it_reservations;
  hold_payment :
    child_rows k d.(t_payment) ≡ₚ (fun p => (p.(pt_id), p.(pt_row))) <$> t.(tt_payments);
  hold_installment :
    child_rows k d.(t_installment)
      ≡ₚ (fun x => (inst_key x, x.2.(in_row))) <$> all_insts t.(tt_payments);
  hold_debt_payment :
    child_rows k d.(t_debt_payment)
      ≡ₚ all_insts t.(tt_payments) ≫= kids inst_key (fun x => x.2.(in_debts));
  hold_acc : child_rows k d.(t_acc) ≡ₚ t.(tt_accs);
  hold_stock : child_rows k d.(t_stock) ≡ₚ t.(tt_stocks);
  hold_tax : child_rows k d.(t_tax) ≡ₚ t.(tt_taxes);
  hold_discount : child_rows k d.(t_discount) ≡ₚ t.(tt_discounts);
}.

(** Selecting the rows of one table. *)
Ltac select_rows :=
  repeat first
    [ rewrite omap_none by (intros; repeat match goal with x : _ * _ |- _ => destruct x end; done)
    | rewrite (omap_some _ _ id)
        by (intros; repeat match goal with x : _ * _ |- _ => destruct x end; done) ];
  rewrite ?list_fmap_id, ?app_nil_r; try done.

Lemma select_item k d : omap as_item (all_rows k d) = child_rows k d.(t_item).
Proof. unfold all_rows. rewrite !omap_app. select_rows. Qed.
Lemma select_source k d : omap as_source (all_rows k d) = child_rows k d.(t_source).
Proof. unfold all_rows. rewrite !omap_app. select_rows. Qed.
Lemma select_reservation k d : omap as_reservation (all_rows k d) = child_rows k d.(t_reservation).
Proof. unfold all_rows. rewrite !omap_app. select_rows. Qed.
Lemma select_payment k d : omap as_payment (all_rows k d) = child_rows k d.(t_payment).
Proof. unfold all_rows. rewrite !omap_app. select_rows. Qed.
Lemma select_installment k d : omap as_installment (all_rows k d) = child_rows k d.(t_installment).
Proof. unfold all_rows. rewrite !omap_app. select_rows. Qed.
Lemma select_debt_payment k d :
  omap as_debt_payment (all_rows k d) = child_rows k d.(t_debt_payment).
Proof. unfold all_rows. rewrite !omap_app. select_rows. Qed.
Lemma select_acc k d : omap as_acc (all_rows k d) = child_rows k d.(t_acc).
Proof. unfold all_rows. rewrite !omap_app. select_rows. Qed.
Lemma select_stock k d : omap as_stock (all_rows k d) = child_rows k d.(t_stock).
Proof. unfold all_rows. rewrite !omap_app. select_rows. Qed.
Lemma select_tax k d : omap as_tax (all_rows k d) = child_rows k d.(t_tax).
Proof. unfold all_rows. rewrite !omap_app. select_rows. Qed.
Lemma select_discount k d : omap as_discount (all_rows k d) = child_rows k d.(t_discount).
Proof. unfold all_rows. rewrite !omap_app. select_rows. Qed.

Lemma select_tree {B} (sel : ChildRow -> option B) t :
  omap sel (tx_tree_rows t) =
    (t.(tt_items) ≫= fun i => omap sel (item_tree_rows i)) ++
    (t.(tt_payments) ≫= fun p => omap sel (pay_tree_rows p)) ++
    omap sel ((fun e => AccR e.1 e.2) <$> t.(tt_accs)) ++
    omap sel ((fun e => StockR e.1 e.2) <$> t.(tt_stocks)) ++
    omap sel ((fun e => TaxR e.1 e.2) <$> t.(tt_taxes)) ++
    omap sel ((fun e => DiscountR e.1 e.2) <$> t.(tt_discounts)).
Proof. unfold tx_tree_rows. by rewrite !omap_app, !omap_bind. Qed.

Lemma select_item_tree {B} (sel : ChildRow -> option B) i :
  omap sel (item_tree_rows i) =
    omap sel [ItemR i.(it_id) i.(it_row)] ++
    omap sel ((fun e => SourceR (i.(it_id), e.1) e.2) <$> i.(it_sources)) ++
    omap sel ((fun e => ReservationR (i.(it_id), e.1) e.2) <$> i.(it_reservations)).
Proof. etransitivity; [apply (omap_app sel [_])|]. by rewrite omap_app. Qed.
Lemma item_tree_other {B} (sel : ChildRow -> option B) i :
  (forall c r, sel (ItemR c r) = None) -> (forall c r, sel (SourceR c r) = None) ->
  (forall c r, sel (ReservationR c r) = None) -> omap sel (item_tree_rows i) = [].
Proof.
  intros Hi Hs Hr. rewrite select_item_tree, !omap_none by auto. cbn. by rewrite Hi.
Qed.
Lemma select_pay_tree {B} (sel : ChildRow -> option B) p :
  omap sel (pay_tree_rows p) =
    omap sel [PaymentR p.(pt_id) p.(pt_row)] ++
    (p.(pt_insts) ≫= fun i =>
      omap sel [InstallmentR (p.(pt_id), i.(in_id)) i.(in_row)] ++
      omap sel ((fun e => DebtPaymentR (p.(pt_id), i.(in_id), e.1) e.2) <$> i.(in_debts))).
Proof.
  etransitivity; [apply (omap_app sel [_])|]. rewrite omap_bind. f_equal. apply bind_ext_eq. intros i. apply (omap_app sel [_]).
Qed.
Lemma pay_tree_other {B} (sel : ChildRow -> option B) p :
  (forall c r, sel (PaymentR c r) = None) -> (forall c r, sel (InstallmentR c r) = None) ->
  (forall c r, sel (DebtPaymentR c r) = None) -> omap sel (pay_tree_rows p) = [].
Proof.
  intros Hp Hi Hd. rewrite select_pay_tree. cbn. rewrite Hp. apply bind_empty.
  intros i. rewrite Hi. apply omap_none. auto.
Qed.

Ltac no_payments :=
  rewrite (bind_empty (fun p => omap _ (pay_tree_rows p))) by (intros; by apply pay_tree_other).
Ltac no_items :=
  rewrite (bind_empty (fun i => omap _ (item_tree_rows i))) by (intros; by apply item_tree_other).
Ltac no_lines := rewrite !omap_none by (by intros); rewrite ?app_nil_r, ?app_nil_l.
Lemma tree_holds k t d : holds k (tx_tree_rows t) d -> tables_hold k t d.
Proof.
  intros Hd. unfold holds in Hd.
  assert (forall B (sel : ChildRow -> option B), omap sel (all_rows k d) ≡ₚ omap sel (tx_tree_rows t))
    as Hs by (intros B sel; by rewrite Hd).
  split.
  - rewrite <- select_item, Hs, select_tree. no_payments. no_lines. apply eq_perm.
    rewrite <- (bind_singletons (fun i => (i.(it_id), i.(it_row)))). apply bind_ext_eq. intros i.
    by rewrite select_item_tree, !omap_none.
  - rewrite <- select_source, Hs, select_tree. no_payments. no_lines.
    apply eq_perm, bind_ext_eq. intros i. rewrite select_item_tree.
    rewrite (omap_none as_source (fun e => ReservationR _ _)), app_nil_r by done.
    by apply omap_some.
  - rewrite <- select_reservation, Hs, select_tree. no_payments. no_lines.
    apply eq_perm, bind_ext_eq. intros i. rewrite select_item_tree.
    rewrite (omap_none as_reservation (fun e => SourceR _ _)) by done. by apply omap_some.
  - rewrite <- select_payment, Hs, select_tree. no_items. no_lines. apply eq_perm.
    rewrite <- (bind_singletons (fun p => (p.(pt_id), p.(pt_row)))). apply bind_ext_eq. intros p.
    rewrite select_pay_tree, bind_empty; [done|]. intros i. cbn. by apply omap_none.
  - rewrite <- select_installment, Hs, select_tree. no_items. no_lines. apply eq_perm.
    unfold all_insts. rewrite bind_fmap. apply bind_ext_eq. intros p.
    rewrite select_pay_tree, <- list_fmap_compose, <- bind_singletons. apply bind_ext_eq.
    intros i. by rewrite omap_none.
  - rewrite <- select_debt_payment, Hs, select_tree. no_items. no_lines. apply eq_perm.
    unfold all_insts. rewrite bind_bind. apply bind_ext_eq. intros p.
    rewrite select_pay_tree, fmap_bind. apply bind_ext_eq.
    intros i. unfold kids. by apply omap_some.
  - rewrite <- select_acc, Hs, select_tree. no_payments. no_items. select_rows.
  - rewrite <- select_stock, Hs, select_tree. no_payments. no_items. select_rows.
  - rewrite <- select_tax, Hs, select_tree. no_payments. no_items. select_rows.
  - rewrite <- select_discount, Hs, select_tree. no_payments. no_items. select_rows.
Qed.
End Tables.

(** ** From the rows to the messages *)

Lemma forall2_fmap_in {A B C} (P : A -> B -> Prop) (Q : A -> C -> Prop) (f : B -> C) l l' :
  (forall a b, b ∈ l' -> P a b -> Q a (f b)) -> Forall2 P l l' -> Forall2 Q l (f <$> l').
Proof.
  intros Hf. induction 1 as [|a b l l' Hab _ IH]; constructor.
  - apply Hf; [left|done].
  - apply IH. intros a' b' Hb. apply Hf. by right.
Qed.
Lemma read_as_fmap {A B C} (P : A -> B -> Prop) (R : A -> C -> Prop) (f : B -> C) l rows l' :
  l' ≡ₚ f <$> rows -> (forall a b, b ∈ rows -> P a b -> R a (f b)) -> Forall2 P l rows ->
  read_as R l l'.
Proof. intros Hl Hf HP. exists (f <$> rows). split; [done|]. by eapply forall2_fmap_in. Qed.

Section Messages.
Context `{!Chrono} `{!ChronoLaws} `{!SerdeJson} `{!Order}.

Lemma stamped_read ms ts : stamped ms ts -> stamp_read ms (ts_ms (Some ts)).
Proof.
  unfold stamped, stamp_read. intros Hs [t Ht]. rewrite Ht in Hs. subst ts.
  pose proof (ts_ms_from_ms ms) as E. rewrite Ht in E. by rewrite decide_True in E by eauto.
Qed.

(** The children of one parent among all. *)
Lemma own_children {T K C R A B : Type} `{EqDecision K} (key : T -> K) (own : T -> list (C * R))
    (ts : list T) (t : T) rows (conv : K * C -> R -> B) (P : A -> C * R -> Prop) (Q : A -> B -> Prop) l :
  NoDup (key <$> ts) -> t ∈ ts -> rows ≡ₚ ts ≫= kids key own ->
  Forall2 P l (own t) -> (forall a e, P a e -> Q a (conv (key t, e.1) e.2)) ->
  read_as Q l ((fun r => conv r.1 r.2) <$> rows_of (key t) rows).
Proof.
  intros Hn Ht Hr HP HQ.
  eapply (read_as_fmap P Q (fun e => conv (key t, e.1) e.2)); [|intros a e _; apply HQ|done].
  unfold rows_of in *. rewrite Hr. change (filter _ _) with (rows_of (key t) (ts ≫= kids key own)).
  rewrite rows_of_kids by done. unfold kids. by rewrite <- list_fmap_compose.
Qed.

Lemma item_ids_nodup k t d : tables_hold k t d -> NoDup (it_id <$> t.(tt_items)).
Proof.
  intros Hd. pose proof (child_rows_nodup k d.(t_item)) as Hn.
  rewrite (hold_item _ _ _ Hd), <- list_fmap_compose in Hn. exact Hn.
Qed.
Lemma payment_ids_nodup k t d : tables_hold k t d -> NoDup (pt_id <$> t.(tt_payments)).
Proof.
  intros Hd. pose proof (child_rows_nodup k d.(t_payment)) as Hn.
  rewrite (hold_payment _ _ _ Hd), <- list_fmap_compose in Hn. exact Hn.
Qed.
Lemma inst_keys_nodup k t d : tables_hold k t d -> NoDup (inst_key <$> all_insts t.(tt_payments)).
Proof.
  intros Hd. pose proof (child_rows_nodup k d.(t_installment)) as Hn.
  rewrite (hold_installment _ _ _ Hd), <- list_fmap_compose in Hn. exact Hn.
Qed.

Lemma items_read k t d items loaded :
  tables_hold k t d -> Forall2 (item_saved k) items t.(tt_items) ->
  loaded ≡ₚ item_with k (child_rows k (t_source d)) (child_rows k (t_reservation d))
            <$> child_rows k (t_item d) ->
  read_as (item_read k) items loaded.
Proof.
  intros Hd Hs Hl. rewrite (hold_item _ _ _ Hd), <- list_fmap_compose in Hl.
  pose proof (item_ids_nodup _ _ _ Hd) as Hn.
  eapply read_as_fmap; [exact Hl| |exact Hs]. clear Hs Hl.
  intros i x Hx (Hid & Hrow & Hss & Hrs). split; [done|]. split; [|split].
  - refine (own_children it_id it_sources _ _ _ (fun c r => tx_item_source_from_row c r)
      source_saved source_read _ Hn Hx (hold_source _ _ _ Hd) Hss _).
    intros s e [He ->]. done.
  - refine (own_children it_id it_reservations _ _ _ (fun c r => tx_item_reservation_from_row c r)
      reservation_saved reservation_read _ Hn Hx (hold_reservation _ _ _ Hd) Hrs _).
    intros s e [He ->]. done.
  - unfold compose, item_with, tx_item_from_row. cbn [fst snd]. rewrite Hrow. unfold item_row.
    cbn -[tx_fulfillment_from_str tx_fulfillment_str try_from_or enum_to_i32 Z.ltb].
    by rewrite tx_fulfillment_roundtrip.
Qed.

Lemma payments_read k t d payments insts loaded :
  tables_hold k t d -> Forall2 payment_saved payments t.(tt_payments) ->
  insts ≡ₚ (fun x => (x.1, installment_with (child_rows k (t_debt_payment d)) x))
           <$> child_rows k (t_installment d) ->
  loaded ≡ₚ payment_with insts <$> child_rows k (t_payment d) ->
  read_as payment_read payments loaded.
Proof.
  intros Hd Hs Hi Hl. rewrite (hold_payment _ _ _ Hd), <- list_fmap_compose in Hl.
  rewrite (hold_installment _ _ _ Hd), <- list_fmap_compose in Hi.
  pose proof (payment_ids_nodup _ _ _ Hd) as Hn. pose proof (inst_keys_nodup _ _ _ Hd) as Hni.
  set (message := fun x : Z * InstTree =>
    installment_with (child_rows k (t_debt_payment d)) (inst_key x, in_row x.2)).
  assert (insts ≡ₚ t.(tt_payments) ≫= kids pt_id (fun p =>
    (fun i => (i.(in_id), message (p.(pt_id), i))) <$> p.(pt_insts))) as Hi'.
  { rewrite Hi. unfold all_insts. rewrite bind_fmap. apply eq_perm, bind_ext_eq. intros p.
    unfold kids. by rewrite <- !list_fmap_compose. }
  eapply read_as_fmap; [exact Hl| |exact Hs]. clear Hs Hl Hi.
  intros p x Hx (Hid & (ts & Hts & Hrow) & His). split; [done|]. split; [|split].
  - unfold compose, payment_with. cbn [fst snd]. rewrite Hrow. exact (stamped_read _ _ Hts).
  - set (own := fun p : PayTree => (fun i => (i.(in_id), message (p.(pt_id), i))) <$> p.(pt_insts)).
    refine (own_children pt_id own _ _ _ (fun _ i => i)
      (fun i e => installment_read i e.2) installment_read _ Hn Hx Hi' _ _); [|done].
    unfold own. eapply forall2_fmap_in; [|exact His].
    intros i y Hy (Hyid & Hyrow & Hys). cbn [snd]. split; [done|]. split.
    + refine (own_children inst_key (fun x => in_debts x.2) _ (pt_id x, y) _
        (fun c r => tx_debt_payment_from_row c r)
        debt_payment_saved debt_payment_read _ Hni _ (hold_debt_payment _ _ _ Hd) Hys _).
      * apply list_elem_of_bind. exists x. split; [|done]. apply list_elem_of_fmap. by exists y.
      * intros dp e (He & tdp & Htdp & ->). split; [done|]. split; [exact (stamped_read _ _ Htdp)|].
        unfold tx_debt_payment_from_row, debt_payment_row.
        cbn -[tx_debt_payment_method_from_str tx_debt_payment_method_str try_from_or enum_to_i32].
        by rewrite tx_debt_payment_method_roundtrip.
    + unfold message, installment_with. cbn [fst snd inst_key]. rewrite Hyrow. done.
  - unfold compose, payment_with, tx_payment_from_row. cbn [fst snd]. rewrite Hrow. unfold payment_row.
    cbn -[tx_payment_method_from_str tx_payment_method_str try_from_or enum_to_i32].
    by rewrite tx_payment_method_roundtrip.
Qed.

(** *** Lines *)

#[local] Instance by_id_total {R} : Total (by_id (R := R)).
Proof. intros [a ?] [b ?]. unfold by_id. cbn. lia. Qed.
#[local] Instance by_id_trans {R} : Transitive (by_id (R := R)).
Proof. intros [a ?] [b ?] [c ?]. unfold by_id. cbn. lia. Qed.

Lemma lines_read {R A : Type} (from_row : Z -> R -> A) (id : A -> Z) (saved : A -> Z * R -> Prop)
    (read : A -> A -> Prop) rows tree l :
  (forall c r, id (from_row c r) = c) -> (forall a e, saved a e -> read a (from_row e.1 e.2)) ->
  rows ≡ₚ tree -> Forall2 saved l tree ->
  lines_as id read l ((fun x => from_row x.1 x.2) <$> order_by_id rows).
Proof.
  intros Hid Hread Hr Hs. split.
  - eapply (read_as_fmap saved read (fun x => from_row x.1 x.2)); [|intros a e _; apply Hread|done].
    by rewrite order_by_id_perm, Hr.
  - unfold ascending, order_by_id. pose proof (StronglySorted_merge_sort by_id rows) as Hsort.
    induction Hsort as [|e l0 _ IH Hle]; [constructor|]. rewrite fmap_cons. constructor; [done|].
    apply Forall_fmap. eapply List.Forall_impl; [|exact Hle]. intros x Hx.
    unfold compose. by rewrite !Hid.
Qed.

Lemma acc_line c r : TxAcc.acc_id (tx_acc_from_row c r) = c.
Proof. done. Qed.
Lemma acc_saved_read a e : acc_saved a e -> acc_read a (tx_acc_from_row e.1 e.2).
Proof.
  intros (Hid & ts & Hts & ->). split; [done|]. split; [exact (stamped_read _ _ Hts)|].
  unfold tx_acc_from_row, acc_row. cbn -[tx_acc_side_from_str tx_acc_side_str try_from_or enum_to_i32].
  by rewrite tx_acc_side_roundtrip.
Qed.
Lemma stock_saved_read s e : stock_saved s e -> stock_read s (tx_stock_from_row e.1 e.2).
Proof. intros (Hid & ts & Hts & ->). split; [done|]. split; [exact (stamped_read _ _ Hts)|done]. Qed.
Lemma tax_saved_read t e : tax_saved t e -> tax_read t (tx_tax_from_row e.1 e.2).
Proof. by intros (Hid & ->). Qed.
Lemma discount_saved_read d e : discount_saved d e -> discount_read d (tx_discount_from_row e.1 e.2).
Proof. by intros (Hid & ->). Qed.

(** *** The whole transaction *)

(** Loading the children of a transaction stored as a tree. *)
Lemma children_attach_read tx t site tx_id hdr e w tx' w' :
  tables_hold (site, tx_id) t w.(db) -> children_saved tx t -> ident tx = (site, tx_id) ->
  tx_children_attach site tx_id hdr e w = (Ok tx', w') ->
  children_read tx tx' /\
  tx' = {| hdr with Tx.items := tx'.(Tx.items); Tx.payments := tx'.(Tx.payments);
           Tx.accs := tx'.(Tx.accs); Tx.stocks := tx'.(Tx.stocks);
           Tx.taxes := tx'.(Tx.taxes); Tx.discounts := tx'.(Tx.discounts) |}.
Proof.
  intros Hd (Hits & Hps & Hacs & Hsts & Htxs & Hds) Hk E. unfold tx_children_attach in E.
  apply bind_ok in E as (items & w1 & E1 & E). pose proof (reads_load_items _ _ _ _ _ E1) as D1.
  apply bind_ok in E as (pays & w2 & E2 & E). pose proof (reads_load_payments _ _ _ _ _ E2) as D2.
  apply bind_ok in E as (accs & w3 & E3 & E). pose proof (reads_load_ordered _ _ _ _ _ _ _ E3) as D3.
  apply bind_ok in E as (stocks & w4 & E4 & E). pose proof (reads_load_ordered _ _ _ _ _ _ _ E4) as D4.
  apply bind_ok in E as (taxes & w5 & E5 & E). pose proof (reads_load_ordered _ _ _ _ _ _ _ E5) as D5.
  apply bind_ok in E as (discs & w6 & E6 & E). apply ret_ok in E as [-> _].
  apply load_items_spec in E1. apply load_payments_spec in E2 as (insts & Hi & E2).
  apply load_ordered_spec in E3, E4, E5, E6.
  rewrite D5, D4, D3, D2, D1 in E6. rewrite D4, D3, D2, D1 in E5. rewrite D3, D2, D1 in E4.
  rewrite D2, D1 in E3. rewrite D1 in E2, Hi. rewrite Hk in Hits.
  split; [|done]. unfold children_read. cbn [Tx.items Tx.payments Tx.accs Tx.stocks Tx.taxes Tx.discounts].
  rewrite Hk. split; [by eapply items_read|]. split; [by eapply payments_read|].
  subst accs stocks taxes discs. split_and!.
  - by eapply lines_read; [|apply acc_saved_read|apply (hold_acc _ _ _ Hd)|].
  - by eapply lines_read; [|apply stock_saved_read|apply (hold_stock _ _ _ Hd)|].
  - by eapply lines_read; [|apply tax_saved_read|apply (hold_tax _ _ _ Hd)|].
  - by eapply lines_read; [|apply discount_saved_read|apply (hold_discount _ _ _ Hd)|].
Qed.

End Messages.
