(* ===== verification/TxPutProps.v ===== *)
(** * Saving a transaction: atomicity, authorization and frame *)
From S2P Require Import Prelude Strs Ts TxProto World Json TxData Db EnumMap Rows Persist Load.
From S2P Require Import Finalize FinalizeFacts StockApply Grant TxApi TxPutFacts.

Section TxPut.
Context `{!Chrono} `{!SerdeJson} `{!Order}.

Lemma finalize_ident `{!HashIter string Z} now now' tx : ident (tx_finalize now now' tx) = ident tx.
Proof.
  rewrite tx_finalize_eq, tx_compute_acc_meta_eq, tx_compute_accs_eq. unfold ident.
  cbn [Tx.site_iid Tx.tx_id]. unfold tx_before_accs. rewrite tx_compute_stock_eq.
  edestruct tx_compute_standalone_debt_eq as (? & ? & ? & ->).
  by rewrite tx_compute_totals_eq.
Qed.
Lemma runs_finalize_now tx (P : Db -> Prop) :
  runs (tx_finalize_now tx) P (fun tx' d => P d /\ ident tx' = ident tx).
Proof.
  do 2 (eapply runs_bind; [by apply (runs_utc_now _ (fun _ d => P d))|]; intros ?).
  apply runs_ret. intros d Hp. split; [done|]. apply finalize_ident.
Qed.
Lemma coerce_ident tx : ident (tx_coerce_sale_without_fulfillment tx) = ident tx.
Proof. unfold tx_coerce_sale_without_fulfillment. repeat case_match; done. Qed.

Lemma coerce_if_ident (b : bool) tx :
  ident (if b then tx_coerce_sale_without_fulfillment tx else tx) = ident tx.
Proof. destruct b; [apply coerce_ident|done]. Qed.

Lemma runs_reads {A} (m : M Db A) (P : Db -> Prop) : reads m -> runs m P (fun _ d => P d).
Proof. intros Hm e w a w' E Hp. apply Hm in E. by rewrite E. Qed.

(** What [tx_put_prepare] passes on. *)
Lemma runs_put_prepare c tx (P : Db -> Prop) :
  runs (tx_put_prepare c (Some tx)) P (fun '(owner, _, tx') d =>
    P d /\ 0 < tx.(Tx.site_iid) /\ may_post d c tx.(Tx.site_iid) owner = true /\
    tx'.(Tx.site_iid) = tx.(Tx.site_iid) /\
    (tx.(Tx.tx_id) <> 0 -> tx'.(Tx.tx_id) = tx.(Tx.tx_id))).
Proof.
  unfold tx_put_prepare. cbn [ok_or].
  eapply runs_bind; [apply (runs_lift _ _ (fun t d => P d /\ t = tx)); naive_solver|].
  intros t. eapply runs_bind.
  { instantiate (1 := fun _ d => P d /\ t = tx /\ 0 < tx.(Tx.site_iid)).
    destruct (Z.ltb_spec 0 t.(Tx.site_iid)); [|apply runs_throw].
    apply runs_ret. intros d [Hp ->]. done. }
  intros []. eapply runs_bind; [apply runs_tx_owner_resolve|]. intros owner. cbv zeta.
  eapply runs_bind; [apply runs_reads; case_match; auto with reads|]. intros stocks.
  eapply runs_bind; [apply runs_reads; case_match; [apply reads_bind|]; auto with reads|].
  intros existing.
  eapply runs_bind.
  { instantiate (1 := fun id d => ((P d /\ t = tx /\ 0 < tx.(Tx.site_iid)) /\
      may_post d c t.(Tx.site_iid) owner = true) /\ (t.(Tx.tx_id) <> 0 -> id = t.(Tx.tx_id))).
    destruct (Z.eqb_spec t.(Tx.tx_id) 0); [apply runs_next_id|apply runs_ret]; done. }
  intros id. eapply runs_bind; [apply runs_finalize_now|]. intros t'.
  eapply runs_bind; [apply runs_reads, reads_site_capabilities_get|]. intros caps.
  apply runs_ret. intros d ((((Hp & -> & Hs) & Hm) & Hid) & Ht).
  assert (ident t' = (Tx.site_iid tx, id)) as Ht' by (rewrite Ht; by case_match).
  rewrite <- (coerce_if_ident (negb (site_order_fulfillment_enabled caps))) in Ht'.
  revert Ht'. unfold ident. intros [= Es Ei]. rewrite Es, Ei. done.
Qed.

Lemma tx_save_atomic owner old tx e w r w' :
  tx_save owner old tx e w = (r, w') -> match r with Ok _ => True | Err _ => w'.(db) = w.(db) end.
Proof.
  unfold tx_save. destruct (tx_acc_counts tx) as [g m]. intros E.
  apply transaction_atomic in E. by destruct r.
Qed.

End TxPut.

(** C2. Saving a transaction is all or nothing and stays in its place.
    Either the database is unchanged, or the caller may post to the site, the
    whole save was committed, and nothing outside it changed: other
    transactions, other sites' products, and of the site's own products all but
    the [is_used] mark and the stock counter.  Only the reading back of a
    committed save can still fail. *)
Theorem tx_put_atomic `{!Chrono} `{!SerdeJson} `{!Order} caller_iid tx e w r w' :
  tx_put caller_iid (Some tx) e w = (r, w') ->
  w'.(db) = w.(db) \/
  exists owner old tx' w1 w2,
    tx_put_prepare caller_iid (Some tx) e w = (Ok (owner, old, tx'), w1) /\
    tx_save owner old tx' e w1 = (Ok tt, w2) /\ w'.(db) = w2.(db) /\
    may_post w.(db) caller_iid tx.(Tx.site_iid) owner = true /\
    tx'.(Tx.site_iid) = tx.(Tx.site_iid) /\
    (tx.(Tx.tx_id) <> 0 -> tx'.(Tx.tx_id) = tx.(Tx.tx_id)) /\
    tx_frame (tx'.(Tx.site_iid), tx'.(Tx.tx_id)) w.(db) w'.(db).
Proof.
  intros E. unfold tx_put in E. unfold mbind in E. cbn [M_bind] in E. unfold M_bind in E.
  destruct (tx_put_prepare caller_iid (Some tx) e w) as [[[[owner old] tx']|x] w1] eqn:Ep.
  2:{ left. injection E as <- <-. by apply reads_tx_put_prepare in Ep. }
  pose proof (reads_tx_put_prepare _ _ _ _ _ _ Ep) as Hd1.
  destruct (runs_put_prepare caller_iid tx (fun d => d = w.(db)) _ _ _ _ Ep eq_refl)
    as (_ & _ & Hm & Hs & Hid). rewrite Hd1 in Hm.
  destruct (tx_save owner old tx' e w1) as [[[]|x] w2] eqn:Es.
  - right. exists owner, old, tx', w1, w2. apply reads_tx_load in E. split_and!; try done.
    rewrite E, <- Hd1. by apply framed_tx_save in Es.
  - left. injection E as <- <-. apply tx_save_atomic in Es. congruence.
Qed.
