(* ===== verification/TxApiProps.v ===== *)
(** * Deleting, previewing, paying off

    What [tx_delete], [tx_preview] and [tx_debt_pay] do. *)
From S2P Require Import Prelude Strs Ts TxProto World Json TxData Db EnumMap Rows Persist Load.
From S2P Require Import Finalize StockApply Grant TxApi TxPutFacts TxPutProps.

(** ** [tx_delete] *)

Section Delete.
Context `{!Chrono} `{!SerdeJson} `{!Order}.

Definition same_products (d d' : Db) : Prop := d'.(t_product) = d.(t_product).
#[global] Instance same_products_preorder : PreOrder same_products.
Proof. split; unfold same_products; [done|]. intros a b c. congruence. Qed.

Lemma products_soft_delete {C R : Type} `{Countable C} (g : Db -> Children C R)
    (st : Children C R -> Db -> Db) (k : TxKey) :
  (forall t d, t_product (st t d) = t_product d) ->
  respects same_products (soft_delete_children g st k).
Proof. intros Hs. apply respects_sql; [apply _|]. intros now d a d' [= <- <-]. apply Hs. Qed.

(** The header of [k] is marked deleted at some time. *)
Definition header_deleted (k : TxKey) (owner : Z) (d d' : Db) : Prop :=
  exists r now, d.(t_tx) !! k = Some r /\ live r = true /\ r.(cols).(TxRow.owner_iid) = owner /\
    d'.(t_tx) !! k = Some (soft_delete now r).

Lemma size_filter_pos {K A : Type} `{Countable K} (m : gmap K A) (P : K -> A -> bool) k :
  (forall k' a, P k' a = true -> k' = k) ->
  Z.of_nat (size (filter (fun kr => P kr.1 kr.2 = true) m)) <> 0 ->
  exists a, m !! k = Some a /\ P k a = true.
Proof.
  intros Hk Hn. destruct (decide (filter (fun kr => P kr.1 kr.2 = true) m = ∅)) as [E|E].
  { rewrite E, map_size_empty in Hn. done. }
  apply map_choose in E as (k' & a & E). apply map_lookup_filter_Some in E as [E Hp].
  cbn in Hp. pose proof (Hk _ _ Hp) as ->. eauto.
Qed.

Definition delete_header (k : TxKey) (owner_iid : Z) : M Db Z :=
  sql (fun now d =>
    let P k' r := bool_decide (k' = k)
      && (r.(cols).(TxRow.owner_iid) =? owner_iid) && live r in
    let '(t, n) := t_update P (soft_delete now) d.(t_tx) in
    Ok (n, {| d with t_tx := t |})).

Lemma runs_delete_header k owner d0 :
  runs (delete_header k owner) (fun d => d = d0) (fun n d =>
    tx_frame k d0 d /\ same_products d0 d /\ (n <> 0 -> header_deleted k owner d0 d)).
Proof.
  apply runs_sql. intros now d n d' -> [= <- <-]. split_and!.
  - split; cbn; try done. intros k' Hk. rewrite map_lookup_imap.
    destruct (t_tx d0 !! k') as [r|]; [|done]. cbn. by rewrite bool_decide_eq_false_2.
  - done.
  - intros Hn. refine (_ (size_filter_pos (t_tx d0) (fun k' r => bool_decide (k' = k)
      && (r.(cols).(TxRow.owner_iid) =? owner) && live r) k _ Hn)); [intros (r & Hr & Hp)|].
    + apply andb_true_iff in Hp as [Hp Hl]. apply andb_true_iff in Hp as [_ Ho].
      exists r, now. split_and!; [done..|lia|]. cbn. rewrite map_lookup_imap, Hr. cbn.
      by rewrite bool_decide_eq_true_2, Ho, Hl by done.
    + intros k' a Hp. destruct (bool_decide_reflect (k' = k)); done.
Qed.

(** Statements that keep [t_tx] *)
Definition same_headers (d d' : Db) : Prop := d'.(t_tx) = d.(t_tx).
#[global] Instance same_headers_preorder : PreOrder same_headers.
Proof. split; unfold same_headers; [done|]. intros a b c. congruence. Qed.
#[global] Instance same_headers_child k : ChildStep k same_headers.
Proof. split; try done. apply _. Qed.
Lemma headers_soft_delete {C R : Type} `{Countable C} (g : Db -> Children C R)
    (st : Children C R -> Db -> Db) (k : TxKey) :
  (forall t d, t_tx (st t d) = t_tx d) ->
  respects same_headers (soft_delete_children g st k).
Proof. intros Hs. apply respects_sql; [apply _|]. intros now d a d' [= <- <-]. apply Hs. Qed.

Definition delete_children_soft (k : TxKey) : M Db (bool * bool) :=
  soft_delete_children t_item set_item k;;
  soft_delete_children t_payment set_payment k;;
  soft_delete_children t_acc set_acc k;;
  soft_delete_children t_stock set_stock k;;
  soft_delete_children t_tax set_tax k;;
  soft_delete_children t_discount set_discount k;;
  mret (true, true).

Lemma delete_children_soft_result k e w b c w' :
  delete_children_soft k e w = (Ok (b, c), w') -> (b, c) = (true, true).
Proof.
  intros E. unfold delete_children_soft in E.
  repeat (apply bind_ok in E as (? & ? & _ & E)). by injection E as -> ->.
Qed.
Lemma delete_children_respects k :
  respects (tx_frame k) (delete_children_soft k) /\
  respects same_products (delete_children_soft k) /\
  respects same_headers (delete_children_soft k).
Proof.
  split_and!; repeat (apply respects_bind; [apply _| |intros _]);
    try (apply respects_ret; apply _); try (apply products_soft_delete; done); try (apply headers_soft_delete; done);
    apply (step_soft_delete_children k); apply tx_frame_step.
Qed.

End Delete.

(** C25. A delete needs the right to post.  It hides the transaction only
    when it was live and in the resolved owner's books, so that it cannot be
    loaded again; other transactions, and every stock counter, stay as they
    are.  When there is nothing to delete, nothing changes. *)
Theorem tx_delete_spec `{!Chrono} `{!SerdeJson} `{!Order} caller_iid site_iid tx_id e w b w' :
  tx_delete caller_iid site_iid tx_id e w = (Ok b, w') ->
  exists owner, may_post w.(db) caller_iid site_iid owner = true /\ 0 < tx_id /\
    if b
    then header_deleted (site_iid, tx_id) owner w.(db) w'.(db) /\
         t_get (site_iid, tx_id) w'.(db).(t_tx) = None /\
         tx_frame (site_iid, tx_id) w.(db) w'.(db) /\
         w'.(db).(t_product) = w.(db).(t_product)
    else w'.(db) = w.(db).
Proof.
  intros E. apply bind_ok in E as (owner & w1 & Eo & E). cbv zeta in E.
  pose proof (reads_tx_owner_resolve _ _ _ _ _ _ _ Eo) as Hd1.
  destruct (runs_tx_owner_resolve _ _ _ (fun d => d = w.(db)) _ _ _ _ Eo eq_refl) as [_ Hm].
  rewrite Hd1 in Hm. exists owner. split; [done|].
  apply bind_ok in E as ([] & w2 & Ei & E).
  destruct (Z.leb_spec tx_id 0) as [|Hi]; [done|]. injection Ei as <-. split; [lia|].
  rewrite <- Hd1. set (k := (site_iid, tx_id)) in *. fold (delete_header k owner) in E.
  apply transaction_atomic in E as [(w3 & w4 & <- & E & ->)|(w3 & w4 & <- & E & ->)];
    apply bind_ok in E as (n & w5 & Eh & E); destruct (Z.eqb_spec n 0) as [->|Hn].
  - done.
  - destruct (runs_delete_header k owner w3.(db) _ _ _ _ Eh eq_refl) as (Hf & Hp & Hh).
    fold (delete_children_soft k) in E.
    destruct (delete_children_respects k) as (Rf & Rp & Rh).
    pose proof (Rf _ _ _ _ E) as Hf'. pose proof (Rp _ _ _ _ E) as Hp'.
    pose proof (Rh _ _ _ _ E) as Hh'. apply delete_children_soft_result in E as [= ->].
    destruct (Hh Hn) as (r & now & Hr & Hl & Ho & Hr'). unfold same_headers in Hh'. split_and!.
    + exists r, now. by rewrite Hh'.
    + unfold t_get. by rewrite Hh', Hr'.
    + by etransitivity.
    + unfold same_products in *. congruence.
  - by injection E as <- <-.
  - by apply delete_children_soft_result in E.
Qed.

(** ** [tx_debt_pay] *)

(** What an installment still owes, as [apply_debt_payment] computes it. *)
Definition inst_remaining (inst : TxInstallment) : Z :=
  (inst.(TxInstallment.amount)
   - i64_sum (TxDebtPayment.amount <$> inst.(TxInstallment.debt_payments)))%i64.
Definition settled (inst : TxInstallment) : Prop := inst_remaining inst <= 0.
Definition settled_payment (p : TxPayment) : Prop :=
  tx_payment_method p.(TxPayment.method) = TxPaymentMethod.Debt ->
  Forall settled p.(TxPayment.installments).

(** [inst] repaid by as much of [payment] as it owes. *)
Definition repaid (payment : TxDebtPayment) (inst inst' : TxInstallment) : Prop :=
  exists pay_id,
    (payment.(TxDebtPayment.pay_id) <> 0 -> pay_id = payment.(TxDebtPayment.pay_id)) /\
    inst' = {| inst with TxInstallment.debt_payments := inst.(TxInstallment.debt_payments) ++
      [{| payment with TxDebtPayment.pay_id := pay_id;
          TxDebtPayment.amount := Z.min payment.(TxDebtPayment.amount) (inst_remaining inst) |}] |}.

Lemma repaid_remaining payment inst inst' :
  0 < payment.(TxDebtPayment.amount) -> 0 < inst_remaining inst -> repaid payment inst inst' ->
  inst_remaining inst' =
    inst_remaining inst - Z.min payment.(TxDebtPayment.amount) (inst_remaining inst).
Proof.
  intros Hp Hr (id & _ & ->). set (r := inst_remaining inst) in *.
  assert (in_i64 r) as Hin by apply to_i64_in.
  unfold inst_remaining. cbn [TxInstallment.debt_payments TxInstallment.amount].
  rewrite fmap_app, i64_sum_eq, Zsum_app. cbn [fmap list_fmap Zsum foldr TxDebtPayment.amount].
  replace (_ - to_i64 _)%i64 with (to_i64 (r - Z.min (TxDebtPayment.amount payment) r)).
  - rewrite to_i64_id; [done|]. unfold in_i64 in *. lia.
  - unfold r, inst_remaining. rewrite i64_sum_eq. generalize (Z.min (TxDebtPayment.amount payment)
      (TxInstallment.amount inst - to_i64 (Zsum (TxDebtPayment.amount <$> TxInstallment.debt_payments inst)))%i64).
    intros m. unwrap64.
Qed.

Section DebtPay.
Context `{!Chrono} `{!SerdeJson} `{!Order}.

Lemma apply_to_installments_spec payment insts e w r w' :
  apply_to_installments payment insts e w = (r, w') ->
  match r with
  | Ok None => Forall settled insts
  | Ok (Some insts') => exists is1 inst inst' is2,
      insts = is1 ++ inst :: is2 /\ insts' = is1 ++ inst' :: is2 /\ Forall settled is1 /\
      0 < inst_remaining inst /\ 0 < payment.(TxDebtPayment.amount) /\ repaid payment inst inst'
  | Err x => x = "amount required" /\ payment.(TxDebtPayment.amount) <= 0 /\ ~ Forall settled insts
  end.
Proof.
  revert r w w'. induction insts as [|inst insts IH]; intros r w w' E.
  { injection E as <- <-. constructor. }
  cbn [apply_to_installments] in E. fold (inst_remaining inst) in E. cbv zeta in E.
  destruct (Z.leb_spec (inst_remaining inst) 0) as [Hr|Hr].
  - unfold mbind, M_bind in E. destruct (apply_to_installments payment insts e w) as [[[l|]|x] w1] eqn:Ea;
      apply IH in Ea; injection E as <- <-; cbn.
    + destruct Ea as (is1 & i & i' & is2 & -> & -> & ?). exists (inst :: is1), i, i', is2.
      naive_solver.
    + by constructor.
    + destruct Ea as (-> & Hp & Hn). split_and!; try done. intros Hf. by inversion Hf.
  - destruct (Z.ltb_spec 0 payment.(TxDebtPayment.amount)) as [Hp|Hp].
    + unfold mbind, M_bind in E. case_match eqn:Ei. destruct r0 as [id|x]; [|by case_match; simplify_eq].
      injection E as <- <-. exists [], inst. eexists _, insts. split_and!; try done.
      exists id. split; [|done]. intros Hz. destruct (Z.eqb_spec payment.(TxDebtPayment.pay_id) 0); [done|].
      by injection Ei as <- _.
    + injection E as <- <-. split_and!; try done. intros Hf. inversion Hf. unfold settled in *. lia.
Qed.

Lemma apply_to_payments_spec payment ps e w r w' :
  apply_to_payments payment ps e w = (r, w') ->
  match r with
  | Ok None => Forall settled_payment ps
  | Ok (Some ps') => exists ps1 p is1 inst inst' is2 ps2,
      ps = ps1 ++ p :: ps2 /\
      ps' = ps1 ++ {| p with TxPayment.installments := is1 ++ inst' :: is2 |} :: ps2 /\
      tx_payment_method p.(TxPayment.method) = TxPaymentMethod.Debt /\
      p.(TxPayment.installments) = is1 ++ inst :: is2 /\
      Forall settled_payment ps1 /\ Forall settled is1 /\
      0 < inst_remaining inst /\ 0 < payment.(TxDebtPayment.amount) /\ repaid payment inst inst'
  | Err x => x = "amount required" /\ payment.(TxDebtPayment.amount) <= 0 /\
      ~ Forall settled_payment ps
  end.
Proof.
  revert r w w'. induction ps as [|p ps IH]; intros r w w' E.
  { injection E as <- <-. constructor. }
  cbn [apply_to_payments] in E. unfold mbind at 1, M_bind at 1 in E.
  destruct ((if negb (bool_decide (tx_payment_method p.(TxPayment.method) = TxPaymentMethod.Debt))
    then mret None else apply_to_installments payment p.(TxPayment.installments)) e w)
    as [r1 w1] eqn:E1.
  assert (match r1 with
    | Ok None => settled_payment p
    | _ => tx_payment_method p.(TxPayment.method) = TxPaymentMethod.Debt /\
           apply_to_installments payment p.(TxPayment.installments) e w = (r1, w1) end) as Hq.
  { destruct (bool_decide_reflect (tx_payment_method p.(TxPayment.method) = TxPaymentMethod.Debt)).
    - cbn in E1. destruct r1 as [[?|]|]; try done. intros _. by apply apply_to_installments_spec in E1.
    - injection E1 as <- <-. by intros ?. }
  destruct r1 as [[insts|]|x].
  - destruct Hq as [Hd Hi]. apply apply_to_installments_spec in Hi. injection E as <- <-.
    destruct Hi as (is1 & i & i' & is2 & Ei & -> & Hs & ?).
    exists [], p, is1, i, i', is2, ps. naive_solver.
  - unfold mbind, M_bind in E.
    destruct (apply_to_payments payment ps e w1) as [[[l|]|x] w2] eqn:Ea;
      apply IH in Ea; injection E as <- <-; cbn.
    + destruct Ea as (ps1 & q & is1 & i & i' & is2 & ps2 & -> & -> & ?).
      exists (p :: ps1), q, is1, i, i', is2, ps2. naive_solver.
    + by constructor.
    + destruct Ea as (-> & Hp & Hn). split_and!; try done. intros Hf. by inversion Hf.
  - destruct Hq as [Hd Hi]. apply apply_to_installments_spec in Hi. injection E as <- <-.
    destruct Hi as (-> & Hp & Hn). split_and!; try done. intros Hf. inversion Hf as [|?? Hf1]. auto.
Qed.

End DebtPay.

(** C24. A repayment goes to the first installment, in the order of the
    payments, that still owes something.  It pays no more than the installment
    owes, so that the rest owed is what was owed minus what is booked and never
    negative; every other line is kept.  It is refused only without a positive
    amount, and answered with none only when every debt is settled. *)
Theorem apply_debt_payment_spec `{!Chrono} `{!SerdeJson} `{!Order} tx payment e w r w' :
  apply_debt_payment tx payment e w = (r, w') ->
  w'.(db) = w.(db) /\
  match r with
  | Ok None => Forall settled_payment tx.(Tx.payments)
  | Ok (Some tx') => exists ps1 p is1 inst inst' is2 ps2,
      tx.(Tx.payments) = ps1 ++ p :: ps2 /\ p.(TxPayment.installments) = is1 ++ inst :: is2 /\
      tx_payment_method p.(TxPayment.method) = TxPaymentMethod.Debt /\
      Forall settled_payment ps1 /\ Forall settled is1 /\ ~ settled inst /\
      tx' = {| tx with Tx.payments := ps1 ++
               {| p with TxPayment.installments := is1 ++ inst' :: is2 |} :: ps2 |} /\
      repaid payment inst inst' /\
      inst_remaining inst' =
        Z.max 0 (inst_remaining inst - payment.(TxDebtPayment.amount))
  | Err x => x = "amount required" /\ payment.(TxDebtPayment.amount) <= 0 /\
      ~ Forall settled_payment tx.(Tx.payments)
  end.
Proof.
  intros E. split; [by apply reads_apply_debt_payment in E|].
  unfold apply_debt_payment, mbind, M_bind in E.
  destruct (apply_to_payments payment tx.(Tx.payments) e w) as [r1 w1] eqn:Ea.
  apply apply_to_payments_spec in Ea. destruct r1 as [[ps'|]|x]; injection E as <- <-; try done.
  destruct Ea as (ps1 & p & is1 & i & i' & is2 & ps2 & Ep & -> & Hd & Ei & Hs1 & Hs2 & Hr & Ha & Hre).
  exists ps1, p, is1, i, i', is2, ps2. split_and!; try done; [unfold settled; lia|].
  rewrite (repaid_remaining payment i i') by done. lia.
Qed.
