(* ===== verification/ReadBackProps.v ===== *)
(** * Saving and reading back a transaction

    [tx_put] answers with the transaction it saved, and [tx_get] with the same
    one afterwards. *)
From S2P Require Import Prelude Strs Ts TxProto World Json TxData Db EnumMap Rows Persist Load.
From S2P Require Import Finalize StockApply Grant TxApi TxPutFacts LoadFacts SaveFacts ReadBack.
From S2P Require Import TxApiProps.

(** ** Code whose result the database determines *)

Section Determined.
Context `{!Chrono}.
Notation M := (M Db).

Definition determined {A} (m : M A) : Prop :=
  reads m /\ forall e1 e2 w1 w2 a1 a2 w1' w2', w1.(db) = w2.(db) ->
    m e1 w1 = (Ok a1, w1') -> m e2 w2 = (Ok a2, w2') -> a1 = a2.

Lemma determined_ret {A} (a : A) : determined (mret a).
Proof. split; [apply reads_ret|]. intros e1 e2 w1 w2 a1 a2 w1' w2' _ [= <- _] [= <- _]. done. Qed.
Lemma determined_query {A} (f : Db -> A) : determined (query (fun _ d => f d)).
Proof.
  split; [apply reads_query|]. intros e1 e2 w1 w2 a1 a2 w1' w2' Hd E1 E2.
  apply query_ok in E1 as [[_ ->] _], E2 as [[_ ->] _]. by rewrite Hd.
Qed.
Lemma determined_bind {A B} (m : M A) (f : A -> M B) :
  determined m -> (forall a, determined (f a)) -> determined (m ≫= f).
Proof.
  intros [Hr Hm] Hf. split; [apply reads_bind; [done|apply Hf]|].
  intros e1 e2 w1 w2 b1 b2 w1' w2' Hd E1 E2.
  apply bind_ok in E1 as (a1 & v1 & Em1 & E1), E2 as (a2 & v2 & Em2 & E2).
  assert (a1 = a2) as <- by exact (Hm _ _ _ _ _ _ _ _ Hd Em1 Em2).
  eapply (proj2 (Hf a1)); [|exact E1|exact E2].
  by rewrite (Hr _ _ _ _ Em1), (Hr _ _ _ _ Em2).
Qed.

Context `{!SerdeJson} `{!Order}.

Lemma determined_load_items k : determined (load_items k).
Proof.
  apply determined_bind; [apply determined_query|]. intros rows.
  apply determined_bind; [|intros m; apply determined_ret].
  case_match; [apply determined_ret|].
  do 2 (apply determined_bind; [apply determined_query|]; intros ?). apply determined_ret.
Qed.
Lemma determined_load_payments k : determined (load_payments k).
Proof.
  apply determined_bind; [apply determined_query|]. intros rows.
  apply determined_bind; [|intros m; apply determined_ret].
  case_match; [apply determined_ret|].
  do 2 (apply determined_bind; [apply determined_query|]; intros ?). apply determined_ret.
Qed.
Lemma determined_load_ordered {R A : Type} (g : Db -> Children Z R) (f : Z -> R -> A) k :
  determined (load_ordered g f k).
Proof. apply determined_bind; [apply determined_query|]. intros rows. apply determined_ret. Qed.
Lemma determined_tx_load s i : determined (tx_load s i).
Proof.
  apply determined_bind; [apply determined_query|]. intros [row|]; [|apply determined_ret].
  apply determined_bind; [|intros ?; apply determined_ret].
  apply determined_bind; [apply determined_load_items|]. intros ?.
  apply determined_bind; [apply determined_load_payments|]. intros ?.
  do 4 (apply determined_bind; [apply determined_load_ordered|]; intros ?). apply determined_ret.
Qed.

End Determined.

(** ** The steps of a save *)

Section Save.
Context `{!Chrono} `{!SerdeJson} `{!Order}.

Lemma delete_children_ok {C R} `{Countable C} (g : Db -> Children C R) st k e w w' :
  delete_children g st k e w = (Ok tt, w') -> w'.(db) = st (t_delete (of_tx k) (g w.(db))) w.(db).
Proof.
  intros E. refine (runs_sql _ (fun d => d = w.(db)) (fun _ d => d = st _ _) _ _ _ _ _ E eq_refl).
  intros now d [] d' -> [= <-]. done.
Qed.

(** No child row is left of the former version. *)
Lemma children_del_holds k e w w' :
  tx_children_del k.1 k.2 e w = (Ok tt, w') -> holds k [] w'.(db).
Proof.
  unfold tx_children_del. rewrite <- surjective_pairing. intros E.
  do 9 (apply bind_ok in E as ([] & ? & ?%delete_children_ok & E)).
  apply delete_children_ok in E. unfold holds, all_rows.
  repeat match goal with D : db _ = _ |- _ => rewrite D; clear D end.
  cbn [set_item set_source set_reservation set_payment set_installment set_debt_payment set_acc
    set_stock set_tax set_discount t_item t_source t_reservation t_payment t_installment
    t_debt_payment t_acc t_stock t_tax t_discount].
  by rewrite !child_rows_delete.
Qed.

(** The row of the header. *)
Definition header_stored (k : TxKey) (tx : Tx) (d : Db) : Prop :=
  exists owner g m r ts, d.(t_tx) !! k = Some r /\ live r = true /\
    stamped tx.(Tx.time_ts_ms) ts /\ r.(cols) = tx_header_row owner tx ts g m.

Lemma header_put_ok owner tx g m e w w' :
  tx_header_put owner tx g m e w = (Ok tt, w') ->
  header_stored (ident tx) tx w'.(db) /\ all_rows (ident tx) w'.(db) = all_rows (ident tx) w.(db).
Proof.
  intros E. unfold tx_header_put in E. apply bind_ok in E as (ts & w1 & Ets & E).
  pose proof (yields_ts_or_now (Tx.time_ts_ms tx)) as [Hr Hy].
  pose proof (Hr _ _ _ _ Ets) as Hd. apply Hy in Ets.
  change (Tx.site_iid tx, Tx.tx_id tx) with (ident tx) in E.
  assert (runs (upsert_tx (ident tx) (tx_header_row owner tx ts g m)) (fun d => d = w.(db))
    (fun _ d => header_stored (ident tx) tx d /\ all_rows (ident tx) d = all_rows (ident tx) w.(db)))
    as Hrun; [|by eapply Hrun].
  apply runs_sql. intros now d u d' -> E'. cbv zeta in E'.
  do 3 (apply result_bind_ok in E' as (? & _ & E')). injection E' as <- <-. split; [|done].
  eexists owner, g, m, _, ts. split; [apply lookup_insert_eq|].
  split; [by destruct (t_tx _ !! _)|]. split; [done|]. by destruct (t_tx _ !! _).
Qed.

(** The counters are not part of the transaction. *)
Definition same_tx (k : TxKey) (d d' : Db) : Prop :=
  d'.(t_tx) = d.(t_tx) /\ all_rows k d' = all_rows k d.
#[global] Instance same_tx_preorder k : PreOrder (same_tx k).
Proof. split; [done|]. intros a b c [? ?] [? ?]. split; congruence. Qed.
Lemma stock_apply_same_tx k s old new : respects (same_tx k) (product_stock_apply s old new).
Proof.
  unfold product_stock_apply. case_match; [apply respects_ret; apply _|].
  apply respects_bind; [apply _|apply respects_reads; [apply _|apply reads_can_reserve_map]|].
  intros m. apply respects_forM; [apply _|]. intros p.
  repeat (case_match; [apply respects_ret; apply _|]).
  apply respects_sql; [apply _|]. intros now d a d'. cbv zeta. case_match; [done|]. by intros [= <- <-].
Qed.

(** A committed save leaves the header row and the rows of a tree. *)
Lemma tx_save_rows owner old tx e w w' :
  tx_save owner old tx e w = (Ok tt, w') ->
  header_stored (ident tx) tx w'.(db) /\
  exists t, children_saved tx t /\ holds (ident tx) (tx_tree_rows t) w'.(db).
Proof.
  intros E. unfold tx_save in E. destruct (tx_acc_counts tx) as [g m].
  apply transaction_atomic in E as [(w0 & w1 & _ & E & ->)|(w0 & w1 & _ & E & _)];
    apply bind_ok in E as ([] & w2 & E2 & E); apply bind_ok in E as ([] & w3 & E3 & E);
    apply bind_ok in E as (tx' & w4 & E4 & E); cbv zeta in E;
    apply bind_ok in E as ([] & w5 & E5 & E); [apply ret_ok in E as [_ ->]|by apply ret_ok in E as [? _]].
  apply (children_del_holds (ident tx)) in E2.
  apply header_put_ok in E3 as [Hh Hrows].
  assert (holds (ident tx) [] w3.(db)) as H3 by (unfold holds in *; by rewrite Hrows).
  destruct (adds_children (ident tx) tx eq_refl [] e w3 tx' w4 E4 H3) as (t & Ht & H4).
  pose proof (step_children_put (ident tx) same_headers tx eq_refl _ _ _ _ E4) as Hsame.
  assert (same_tx (ident tx) w4.(db) w5.(db)) as [Htx Hall].
  { revert E5. case_match; [apply stock_apply_same_tx|]. intros E5. apply ret_ok in E5 as [_ ->].
    reflexivity. }
  split.
  - destruct Hh as (o & g' & m' & r & ts & Hr & Hrest). exists o, g', m', r, ts.
    unfold same_headers in Hsame. by rewrite Htx, Hsame.
  - exists t. split; [done|]. unfold holds in *. by rewrite Hall.
Qed.

Context `{!ChronoLaws}.

Lemma header_stored_read tx r owner ts g m (tx' hdr : Tx) :
  live r = true -> stamped tx.(Tx.time_ts_ms) ts ->
  r.(cols) = tx_header_row owner tx ts g m -> hdr = tx_header_from_row (ident tx) r ->
  tx' = {| hdr with Tx.items := tx'.(Tx.items); Tx.payments := tx'.(Tx.payments);
           Tx.accs := tx'.(Tx.accs); Tx.stocks := tx'.(Tx.stocks);
           Tx.taxes := tx'.(Tx.taxes); Tx.discounts := tx'.(Tx.discounts) |} ->
  header_read tx tx'.
Proof.
  intros Hl Hts Hr -> E. revert E.
  generalize (Tx.items tx') (Tx.payments tx') (Tx.accs tx') (Tx.stocks tx') (Tx.taxes tx')
    (Tx.discounts tx'). intros its ps acs sts txs ds ->.
  unfold tx_header_from_row. rewrite Hr. unfold header_read, tx_header_row.
  cbn -[tx_type_from_str tx_type_str tx_state_from_str tx_state_str tx_input_mode_from_str
    tx_input_mode_str tx_input_source_from_str tx_input_source_str tx_order_pay_at_from_str
    tx_order_pay_at_str try_from_or enum_to_i32 tx_data_from_json tx_data_to_json json_object
    ts_ms Z.ltb].
  split; [exact (stamped_read _ _ Hts)|]. split.
  { destruct tx.(Tx.tx_data) as [data|]; [|done]. intros Hwf. exact (tx_data_json_roundtrip _ Hwf). }
  rewrite tx_type_roundtrip, tx_state_roundtrip, tx_input_mode_roundtrip,
    tx_input_source_roundtrip, tx_order_pay_at_roundtrip.
  assert (default 0 (if 0 <? Tx.created_by_iid tx then Some (Tx.created_by_iid tx) else None)
    = Z.max 0 (Tx.created_by_iid tx)) as -> by (destruct (Z.ltb_spec 0 (Tx.created_by_iid tx)); cbn; lia).
  assert (default "" (if is_empty (Tx.cancel_reason tx) then None else Some (Tx.cancel_reason tx))
    = Tx.cancel_reason tx) as -> by (by destruct (Tx.cancel_reason tx)).
  unfold live in Hl. by destruct (deleted_ts r).
Qed.

(** A save and the load that follows it. *)
Lemma save_then_load owner old tx e w w' e2 w2 r w2' :
  tx_save owner old tx e w = (Ok tt, w') -> w2.(db) = w'.(db) ->
  tx_load tx.(Tx.site_iid) tx.(Tx.tx_id) e2 w2 = (Ok r, w2') ->
  exists saved, r = Some saved /\ header_read tx saved /\ children_read tx saved.
Proof.
  intros Es Hd El. apply tx_save_rows in Es as [(o & g & m & row & ts & Hrow & Hl & Hts & Hcols)
    (t & Ht & Hh)]. apply tree_holds in Hh. rewrite <- Hd in Hrow, Hh.
  apply bind_ok in El as (row' & w3 & Eq & El). apply query_ok in Eq as [[_ ->] Hd3].
  change (Tx.site_iid tx, Tx.tx_id tx) with (ident tx) in El.
  unfold t_get in El. rewrite Hrow, Hl in El. rewrite <- Hd3 in Hh.
  apply bind_ok in El as (saved & w4 & Ea & El). apply ret_ok in El as [-> _].
  destruct (children_attach_read tx t _ _ _ _ _ _ _ Hh Ht eq_refl Ea) as [Hc Hs].
  exists saved. split; [done|]. split; [|done].
  exact (header_stored_read tx row o ts g m saved _ Hl Hts Hcols eq_refl Hs).
Qed.

End Save.

(** C3. What was saved is what is read.  An accepted [tx_put] answers with
    the finalised transaction it stored: its header, and every item, payment,
    ledger line, stock line, tax and discount exactly once, nested ones in their
    parent, with given ids kept and numbered lines in ascending order.  Only
    enum numbers, raw payment texts and stamps out of range are normalised.
    Whoever may read the site gets the same transaction until the database
    changes. *)
Theorem tx_put_read_back `{!Chrono} `{!ChronoLaws} `{!SerdeJson} `{!Order} caller_iid tx e w r w' :
  tx_put caller_iid (Some tx) e w = (Ok r, w') ->
  exists owner old tx' w1 saved,
    tx_put_prepare caller_iid (Some tx) e w = (Ok (owner, old, tx'), w1) /\
    r = Some saved /\ header_read tx' saved /\ children_read tx' saved /\
    (forall reader e2 w2 got w2', w2.(db) = w'.(db) ->
       tx_get reader tx'.(Tx.site_iid) tx'.(Tx.tx_id) e2 w2 = (Ok got, w2') -> got = Some saved).
Proof.
  intros E. unfold tx_put in E. apply bind_ok in E as ([[owner old] tx'] & w1 & Ep & E).
  apply bind_ok in E as ([] & w2 & Es & El).
  destruct (save_then_load _ _ _ _ _ _ _ _ _ _ Es eq_refl El) as (saved & -> & Hh & Hc).
  exists owner, old, tx', w1, saved. split_and!; try done.
  intros reader e2 w3 got w3' Hd Eg. apply bind_ok in Eg as (? & w4 & Ec & Eg).
  destruct (determined_tx_load tx'.(Tx.site_iid) tx'.(Tx.tx_id)) as [Hr Hdet].
  eapply Hdet; [|exact Eg|exact El].
  by rewrite (reads_site_grant_check _ _ _ _ _ _ _ Ec), Hd, (Hr _ _ _ _ El).
Qed.
