(* ===== verification/TxStockProps.v ===== *)
(** * Saving a transaction: the stock counters *)
From S2P Require Import Prelude Strs Ts TxProto World Json TxData Db EnumMap Rows Persist Load.
From S2P Require Import Finalize FinalizeFacts FinalizeProps StockApply Grant TxApi TxPutFacts TxPutProps.

(** ** What stock counters do

    A closed form of the counters, the effect of [product_stock_apply] on the
    catalog, and its consequences for sales and returns. *)

Section StockFacts.
Context `{!Chrono} `{!SerdeJson} `{!Order}.

(** ** Counters *)

(** The movement of a line as the site's counter sees it: its signed quantity,
    and once more the movements whose object is 0, which is the counter's own
    key. *)
Definition line_signed (s : TxStock) : Z :=
  if s.(TxStock.qty_signed) =? 0 then stock_direction_signed s.(TxStock.direction) s.(TxStock.qty)
  else s.(TxStock.qty_signed).
Definition at_zero (obj_id qty : Z) : Z := if obj_id =? 0 then qty else 0.
Definition line_unplaced (s : TxStock) : Z :=
  match_str s.(TxStock.direction)
    [("in", at_zero s.(TxStock.obj_to_id) s.(TxStock.qty));
     ("out", - at_zero s.(TxStock.obj_from_id) s.(TxStock.qty));
     ("transfer", at_zero s.(TxStock.obj_to_id) s.(TxStock.qty)
                  - at_zero s.(TxStock.obj_from_id) s.(TxStock.qty))]
    0.
Definition line_delta (p : Z) (s : TxStock) : Z :=
  if (s.(TxStock.product_id) =? p) && negb (s.(TxStock.product_id) =? 0)
     && negb (s.(TxStock.qty) =? 0)
  then line_signed s + line_unplaced s else 0.

Lemma counter_get_add m o p' delta p :
  eqm 64 (counter_get (stock_counter_add m o p' delta) p)
    (counter_get m p + if (p' =? p) then at_zero o delta else 0).
Proof.
  unfold counter_get, stock_counter_add, at_zero.
  destruct (Z.eqb_spec o 0) as [->|Ho].
  - rewrite lookup_insert_eq. cbn [mbind option_bind].
    destruct (Z.eqb_spec p' p) as [->|Hp].
    + rewrite lookup_insert_eq. cbn [default from_option id].
      destruct (m !! 0) as [inner|]; cbn [default from_option id mbind option_bind].
      * destruct (inner !! p) as [v|]; cbn; [|done]. unfold i64_add. by rewrite eqm64_to_i64.
      * by rewrite lookup_empty.
    + rewrite lookup_insert_ne by done. rewrite Z.add_0_r.
      by destruct (m !! 0) as [inner|]; cbn; rewrite ?lookup_empty.
  - rewrite lookup_insert_ne by done. destruct (p' =? p); by rewrite Z.add_0_r.
Qed.

Lemma at_zero_0 q : at_zero 0 q = q.
Proof. done. Qed.
Lemma at_zero_neg o q : eqm 64 (at_zero o (- q)%i64) (- at_zero o q).
Proof. unfold at_zero, i64_neg. case_match; [apply eqm64_to_i64|done]. Qed.

Lemma counter_step m s p :
  eqm 64 (counter_get (stock_counter_step m s) p) (counter_get m p + line_delta p s).
Proof.
  unfold stock_counter_step, line_delta.
  destruct (s.(TxStock.product_id) =? 0); cbn [orb negb andb];
    [by rewrite andb_false_r, Z.add_0_r|].
  rewrite andb_true_r. destruct (s.(TxStock.qty) =? 0); cbn [negb];
    [by rewrite andb_false_r, Z.add_0_r|]. rewrite andb_true_r.
  fold (line_signed s).
  replace (if negb (s.(TxStock.qty_signed) =? 0) then s.(TxStock.qty_signed)
           else stock_direction_signed s.(TxStock.direction) s.(TxStock.qty))
    with (line_signed s) by (unfold line_signed; by destruct (_ =? 0)).
  unfold line_unplaced. cbn [match_str].
  destruct (s.(TxStock.product_id) =? p) eqn:E;
    repeat (case_match; try rewrite !counter_get_add; rewrite ?E; try done);
    rewrite ?at_zero_neg, ?at_zero_0;
    match goal with |- eqm 64 ?x ?y => by replace x with y by lia end.
Qed.

Lemma counter_deltas ss p :
  eqm 64 (counter_get (stock_counter_deltas ss) p) (Zsum (line_delta p <$> ss)).
Proof.
  unfold stock_counter_deltas.
  enough (forall m, eqm 64 (counter_get (foldl stock_counter_step m ss) p)
    (counter_get m p + Zsum (line_delta p <$> ss))) as Hm by apply Hm.
  induction ss as [|s ss IH]; intros m; cbn [foldl].
  - cbn. by rewrite Z.add_0_r.
  - rewrite IH, counter_step, fmap_cons, Zsum_cons.
    match goal with |- eqm 64 ?x ?y => by replace x with y by lia end.
Qed.

Lemma counter_products_get d p : p ∉ counter_products d -> counter_get d p = 0.
Proof.
  unfold counter_products, counter_get. intros Hp.
  destruct (d !! 0) as [inner|] eqn:E; cbn [mbind option_bind]; [|done].
  destruct (inner !! p) as [v|] eqn:Ei; [|done]. exfalso. apply Hp.
  assert (inner ∈ (order d).*2) as Hin.
  { apply list_elem_of_fmap. exists (0, inner). split; [done|].
    by rewrite order_perm, elem_of_map_to_list. }
  clear -Hin Ei. induction (order d).*2 as [|x l IH]; [by apply not_elem_of_nil in Hin|].
  cbn. apply elem_of_cons in Hin as [<-|Hin]; [|set_solver].
  apply elem_of_union_l. by apply elem_of_dom_2 in Ei.
Qed.

(** ** Effect on the catalog *)

Definition stock_delta (old_stocks new_stocks : list TxStock) (p : Z) : Z :=
  to_i32 (to_i64 (Zsum (line_delta p <$> new_stocks) - Zsum (line_delta p <$> old_stocks))).

(** The columns of a product after the stock of [old] lines became that of
    [new] lines: tracked products that are not bookable move. *)
Definition product_after (old_stocks new_stocks : list TxStock) (p : Z) (r : Row ProductRow)
    : ProductRow :=
  if live r && r.(cols).(ProductRow.track_stock) && negb r.(cols).(ProductRow.can_reserve)
  then {| r.(cols) with ProductRow.stock_qty :=
            r.(cols).(ProductRow.stock_qty) + stock_delta old_stocks new_stocks p |}
  else r.(cols).

(** The catalog while the products of [pre] have been updated. *)
Definition catalog_after (site_iid : Z) (old_stocks new_stocks : list TxStock) (pre : list Z)
    (d0 d : Db) : Prop :=
  (exists tp, d = {| d0 with t_product := tp |}) /\
  forall k, (fun r => (r.(cols), r.(deleted_ts))) <$> d.(t_product) !! k =
    (fun r => (if bool_decide (k.1 = site_iid /\ k.2 ∈ pre)
               then product_after old_stocks new_stocks k.2 r else r.(cols), r.(deleted_ts)))
      <$> d0.(t_product) !! k.

Definition row_can_reserve (d : Db) (k : Z * Z) : bool :=
  default false ((fun r => r.(cols).(ProductRow.can_reserve)) <$> t_get k d.(t_product)).

Lemma can_reserve_map_spec site_iid ids d0 :
  runs (product_can_reserve_map site_iid ids) (fun d => d = d0)
    (fun out d => d = d0 /\
       forall p, p ∈ ids -> default false (out !! p) = row_can_reserve d0 (site_iid, p)).
Proof.
  eapply runs_weaken.
  - apply (runs_foldM _ _ _ (fun pre out d => d = d0 /\
      forall p, p ∈ pre -> default false (out !! p) = row_can_reserve d0 (site_iid, p))).
    intros pre x suf out _. eapply runs_bind.
    { apply (runs_query _ _ (fun row d => d = d0 /\ default false row = row_can_reserve d0 (site_iid, x)
        /\ forall p, p ∈ pre -> default false (out !! p) = row_can_reserve d0 (site_iid, p))).
      intros now d [-> Hp]. done. }
    intros row. apply runs_ret. intros d (-> & Hr & Hp). split; [done|]. intros p Hin.
    destruct (decide (p = x)) as [->|Hne]; [by rewrite lookup_insert_eq|].
    rewrite lookup_insert_ne by done. apply Hp. set_solver.
  - intros d ->. split; [done|]. by intros p ?%not_elem_of_nil.
  - done.
Qed.

Lemma t_update_lookup {K R} `{Countable K} (P : K -> Row R -> bool) f (t : gmap K (Row R)) k :
  (t_update P f t).1 !! k = (fun r => if P k r then f r else r) <$> t !! k.
Proof. unfold t_update. cbn [fst]. rewrite map_lookup_imap. by destruct (t !! k). Qed.

(** What an [UPDATE] of the stock column does to a product. *)
Definition qty_added (site_iid p delta : Z) (k : Z * Z) (r : Row ProductRow) : ProductRow :=
  if bool_decide (k = (site_iid, p)) && r.(cols).(ProductRow.track_stock) && live r
  then {| r.(cols) with ProductRow.stock_qty := r.(cols).(ProductRow.stock_qty) + delta |}
  else r.(cols).

Lemma stock_qty_add_spec site_iid p delta (P : Db -> Prop) :
  runs (stock_qty_add site_iid p delta) P (fun _ d' => exists d tp, P d /\
    d' = {| d with t_product := tp |} /\
    forall k, (fun r => (r.(cols), r.(deleted_ts))) <$> tp !! k =
      (fun r => (qty_added site_iid p delta k r, r.(deleted_ts))) <$> d.(t_product) !! k).
Proof.
  apply runs_sql. intros now d [] d' Hp E.
  cbn zeta in E. match type of E with (if ?b then _ else _) = _ => destruct b; [done|] end.
  injection E as <-. eexists d, _. split_and!; [done|reflexivity|].
  intros k.
  rewrite map_lookup_imap. destruct (t_product d !! k) as [r|]; [|done]. cbn.
  unfold qty_added. by destruct (_ && _).
Qed.

(** One step of the loop. *)
Lemma catalog_step site_iid old_stocks new_stocks pre p d0 :
  p ∉ pre ->
  (forall d : Db, catalog_after site_iid old_stocks new_stocks pre d0 d ->
    product_after old_stocks new_stocks p <$> d0.(t_product) !! (site_iid, p)
      = cols <$> d0.(t_product) !! (site_iid, p) ->
    catalog_after site_iid old_stocks new_stocks (pre ++ [p]) d0 d).
Proof.
  intros Hp d [Hd Hk] He. split; [done|]. intros [s q]. rewrite Hk.
  destruct (decide ((s, q) = (site_iid, p))) as [E|E].
  - injection E as -> ->. cbn [fst snd]. rewrite bool_decide_eq_false_2 by tauto.
    rewrite bool_decide_eq_true_2 by (split; [done|set_solver]).
    destruct (t_product d0 !! (site_iid, p)) as [r|]; [|done]. cbn in *. congruence.
  - cbn [fst snd].
    assert ((s = site_iid /\ q ∈ pre ++ [p]) <-> (s = site_iid /\ q ∈ pre)) as Hiff.
    { split; [|set_solver]. intros [-> Hq]. split; [done|].
      apply elem_of_app in Hq as [|Hq]; [done|]. apply list_elem_of_singleton in Hq as ->. done. }
    destruct (t_product d0 !! (s, q)) as [r|]; [|done]. cbn [fmap option_fmap option_map].
    by rewrite (bool_decide_ext _ _ Hiff).
Qed.

Lemma counter_delta old_stocks new_stocks p :
  (counter_get (stock_counter_deltas new_stocks) p
     - counter_get (stock_counter_deltas old_stocks) p)%i64
  = to_i64 (Zsum (line_delta p <$> new_stocks) - Zsum (line_delta p <$> old_stocks)).
Proof. unfold i64_sub. by rewrite !counter_deltas. Qed.

Lemma product_after_reservable old_stocks new_stocks p r :
  live r && r.(cols).(ProductRow.can_reserve) = true ->
  product_after old_stocks new_stocks p r = r.(cols).
Proof.
  intros [Hl Hc]%andb_true_iff. unfold product_after. rewrite Hl, Hc. by rewrite !andb_false_r.
Qed.
Lemma product_after_no_delta old_stocks new_stocks p r :
  stock_delta old_stocks new_stocks p = 0 -> product_after old_stocks new_stocks p r = r.(cols).
Proof. intros E. unfold product_after. rewrite E, Z.add_0_r. by case_match. Qed.

(** The body of the loop, for a product whose counters were not applied yet. *)
Lemma catalog_body site_iid old_stocks new_stocks pre p d0 :
  p ∉ pre ->
  runs
    (if row_can_reserve d0 (site_iid, p) then mret tt
     else
       let delta := (counter_get (stock_counter_deltas new_stocks) p
                     - counter_get (stock_counter_deltas old_stocks) p)%i64 in
       if delta =? 0 then mret tt else stock_qty_add site_iid p (to_i32 delta))
    (catalog_after site_iid old_stocks new_stocks pre d0)
    (fun _ => catalog_after site_iid old_stocks new_stocks (pre ++ [p]) d0).
Proof.
  intros Hp. cbn zeta. rewrite counter_delta.
  destruct (row_can_reserve d0 (site_iid, p)) eqn:Er.
  { apply runs_ret. intros d Hc. apply catalog_step; [done..|].
    unfold row_can_reserve, t_get in Er. destruct (t_product d0 !! (site_iid, p)) as [r|]; [|done].
    cbn. f_equal. apply product_after_reservable. destruct (live r); [exact Er|done]. }
  destruct (_ =? 0) eqn:Ed.
  { apply runs_ret. intros d Hc. apply catalog_step; [done..|].
    destruct (t_product d0 !! (site_iid, p)) as [r|]; [|done]. cbn. f_equal.
    apply product_after_no_delta. unfold stock_delta. apply Z.eqb_eq in Ed. by rewrite Ed. }
  eapply runs_weaken; [apply stock_qty_add_spec|done|].
  intros [] d' (d & tp & [[tp0 ->] Hk] & -> & Htp). split; [by eexists|]. intros [s q].
  cbn [t_product] in *. rewrite Htp. specialize (Hk (s, q)). cbn [fst snd] in *.
  destruct (t_product d0 !! (s, q)) as [r0|] eqn:E0, (tp0 !! (s, q)) as [r|]; try done.
  cbn in Hk |- *. injection Hk as Hc Hd. rewrite Hd. do 2 f_equal. unfold qty_added.
  assert (live r = live r0) as -> by (unfold live; by rewrite Hd). rewrite Hc.
  destruct (decide ((s, q) = (site_iid, p))) as [E|E].
  - injection E as -> ->. rewrite bool_decide_eq_true_2 by done.
    rewrite (bool_decide_eq_false_2 (_ /\ p ∈ pre)) by tauto.
    rewrite bool_decide_eq_true_2 by (split; [done|set_solver]).
    unfold product_after, stock_delta. cbn [andb].
    unfold row_can_reserve, t_get in Er. rewrite E0 in Er.
    destruct (live r0); cbn [andb]; [|by rewrite andb_false_r].
    cbn in Er. rewrite Er. cbn [negb]. by rewrite !andb_true_r.
  - rewrite (bool_decide_eq_false_2 ((s, q) = _)) by done. cbn [andb].
    assert ((s = site_iid /\ q ∈ pre ++ [p]) <-> (s = site_iid /\ q ∈ pre)) as Hiff.
    { split; [|set_solver]. intros [-> Hq]. split; [done|].
      apply elem_of_app in Hq as [|Hq]; [done|]. apply list_elem_of_singleton in Hq as ->. done. }
    by rewrite (bool_decide_ext _ _ Hiff).
Qed.

(** When [product_stock_apply] succeeds, tracked products that are not bookable
    have moved by the difference of the lines; the rest is as it was, whatever
    the order in which the counters were visited. *)
Lemma stock_apply_spec site_iid old_stocks new_stocks e w w' :
  product_stock_apply site_iid old_stocks new_stocks e w = (Ok tt, w') ->
  (exists tp, w'.(db) = {| w.(db) with t_product := tp |}) /\
  forall s p, cols <$> w'.(db).(t_product) !! (s, p) =
    (fun r => if bool_decide (s = site_iid) then product_after old_stocks new_stocks p r
              else r.(cols)) <$> w.(db).(t_product) !! (s, p).
Proof.
  intros E. unfold product_stock_apply in E. cbn zeta in E.
  set (ids := counter_products _ ∪ counter_products _) in E.
  assert (forall p, p ∉ ids -> stock_delta old_stocks new_stocks p = 0) as Hids.
  { intros p Hp. unfold stock_delta. rewrite <- counter_delta.
    by rewrite !counter_products_get by set_solver. }
  enough (exists pre, (forall p, p ∈ pre <-> p ∈ ids) /\
    catalog_after site_iid old_stocks new_stocks pre w.(db) w'.(db)) as (pre & Hpre & [Hd Hk]).
  { split; [done|]. intros s p. specialize (Hk (s, p)). cbn [fst snd] in Hk.
    destruct (t_product (db w) !! (s, p)) as [r|], (t_product (db w') !! (s, p)) as [r'|];
      try done. cbn in Hk |- *. injection Hk as -> _. f_equal.
    destruct (decide (s = site_iid)) as [->|Hs];
      [|by rewrite !bool_decide_eq_false_2 by tauto].
    rewrite (bool_decide_eq_true_2 (site_iid = site_iid)) by done. 
    destruct (decide (p ∈ pre)) as [Hp|Hp]; [by rewrite bool_decide_eq_true_2 by done|].
    rewrite bool_decide_eq_false_2 by tauto. symmetry. apply product_after_no_delta, Hids. rewrite <- Hpre. tauto. }
  destruct (bool_decide (ids = ∅)) eqn:Eids.
  { apply bool_decide_eq_true in Eids. injection E as <-. exists []. split; [set_solver|].
    split; [by exists (t_product (db w)); destruct (db w)|].
    intros k. by rewrite bool_decide_eq_false_2 by set_solver. }
  set (l := (order (gset_to_gmap 0 ids)).*1) in E.
  assert (forall p, p ∈ l <-> p ∈ ids) as Hl.
  { intros p. unfold l. rewrite order_perm, list_elem_of_fmap. split.
    - intros ([q v] & -> & Hin). apply elem_of_map_to_list, lookup_gset_to_gmap_Some in Hin as [? _]. done.
    - intros Hp. exists (p, 0). split; [done|]. by apply elem_of_map_to_list, lookup_gset_to_gmap_Some. }
  assert (NoDup l) as Hnd by (unfold l; rewrite order_perm; apply NoDup_fst_map_to_list).
  exists l. split; [done|]. revert E Hnd. clearbody l. clear Hids Eids Hl ids. intros E Hnd.
  revert E. set (m := _ ≫= _). intros E.
  assert (runs m (fun d => d = w.(db))
    (fun _ => catalog_after site_iid old_stocks new_stocks l w.(db))) as Hm; [|by eapply Hm].
  unfold m. eapply runs_bind; [apply can_reserve_map_spec|]. intros out. cbn beta.
  eapply runs_weaken.
  - apply (runs_forM _ _ (fun pre d => catalog_after site_iid old_stocks new_stocks pre w.(db) d /\
      forall p, p ∈ l -> default false (out !! p) = row_can_reserve w.(db) (site_iid, p))).
    intros pre p suf ->. apply list.NoDup_app in Hnd as (_ & Hd & _).
    assert (p ∉ pre) as Hp by (intros Hp; apply (Hd p Hp); left).
    intros e1 w1 [] w2 E1 [Hc Ho]. rewrite Ho in E1 by set_solver. split; [|done].
    by eapply catalog_body.
  - intros d [-> Ho]. split; [|done]. split; [by exists (t_product (db w)); destruct (db w)|].
    intros k. by rewrite bool_decide_eq_false_2 by set_solver.
  - by intros [] d [Hc _].
Qed.

(** ** What a transaction does to the counters *)

Lemma eqm32_to_i64 x : eqm 32 (to_i64 x) x.
Proof. destruct (eqm64_to_i64 x) as [k ->]. exists (k * 2 ^ 32). lia. Qed.

Lemma stock_delta_first ss p : stock_delta [] ss p = to_i32 (Zsum (line_delta p <$> ss)).
Proof. unfold stock_delta. cbn [fmap list_fmap]. by rewrite Z.sub_0_r, eqm32_to_i64. Qed.

(** The same lines twice change nothing. *)
Lemma stock_delta_same ss p : stock_delta ss ss p = 0.
Proof. unfold stock_delta. by rewrite Z.sub_diag. Qed.

Lemma line_delta_ok p s c :
  stock_ok s -> p <> 0 -> eqm 32 (line_unplaced s) (c * s.(TxStock.qty_signed)) ->
  eqm 32 (line_delta p s)
    ((1 + c) * if decide (for_product p s) then s.(TxStock.qty_signed) else 0).
Proof.
  intros (Hq & _ & Hs) Hp Hu. unfold line_delta, for_product.
  rewrite (proj2 (Z.eqb_neq _ 0) Hq), andb_true_r.
  destruct (Z.eqb_spec s.(TxStock.product_id) p) as [E|E]; cbn [andb].
  - rewrite (proj2 (Z.eqb_neq _ 0)) by congruence. cbn [negb]. rewrite decide_True by done.
    rewrite Hu. unfold line_signed. rewrite <- Hs.
    rewrite Z.mul_add_distr_r, Z.mul_1_l. by destruct (Z.eqb_spec s.(TxStock.qty_signed) 0) as [-> |].
  - rewrite decide_False by done. by rewrite Z.mul_0_r.
Qed.

Lemma line_deltas_net p c ss :
  Forall stock_ok ss -> p <> 0 ->
  Forall (fun s => eqm 32 (line_unplaced s) (c * s.(TxStock.qty_signed))) ss ->
  eqm 32 (Zsum (line_delta p <$> ss)) ((1 + c) * stock_net p ss).
Proof.
  intros Hok Hp Hu. induction Hok as [|s ss Hs _ IH]; [by rewrite Z.mul_0_r|].
  apply Forall_cons_1 in Hu as [Hu1 Hu]. rewrite fmap_cons, Zsum_cons, stock_net_cons, IH by done.
  rewrite (line_delta_ok p s c) by done. by rewrite Z.mul_add_distr_l.
Qed.

(** Where the lines of sales and returns come from. *)
Lemma append_item_stocks_from items ts store dir :
  Forall (fun s => s.(TxStock.direction) = dir /\ s.(TxStock.obj_to_id) = 0 /\
     s.(TxStock.qty_signed) = stock_direction_signed dir s.(TxStock.qty) /\
     (s.(TxStock.obj_from_id) = store \/
      exists item src, item ∈ items /\ src ∈ item.(TxItem.sources) /\
        s.(TxStock.obj_from_id) = src.(TxItemSource.obj_id)))
    (tx_append_item_stocks items ts store dir).
Proof.
  unfold tx_append_item_stocks. induction items as [|item items IH]; [constructor|].
  rewrite fmap_cons. cbn [mjoin list_join]. apply Forall_app. split.
  2: { eapply List.Forall_impl; [|exact IH]. cbn. intros s (H1' & H2' & H3' & H4').
       split_and!; [done..|]. destruct H4' as [|(i & src & Hi & Hsrc & Ho)]; [by left|right].
       exists i, src. split_and!; [by right|done..]. }
  destruct (item.(TxItem.qty) =? 0); [constructor|].
  destruct item.(TxItem.sources) as [|src0 srcs] eqn:Es.
  { repeat constructor. }
  rewrite <- Es. apply Forall_forall. intros s Hs%list_elem_of_In.
  apply list_elem_of_omap in Hs as (src & Hin & Hs).
  destruct (src.(TxItemSource.qty) =? 0); [done|]. injection Hs as <-. cbn.
  split_and!; [done..|]. right. exists item, src. split_and!; [left|done..].
Qed.

(** A line of a sale whose goods come from nowhere in particular is counted
    twice; so is every line of a sale return, which names no destination. *)
Lemma line_unplaced_out s :
  s.(TxStock.direction) = "out" ->
  s.(TxStock.qty_signed) = stock_direction_signed "out" s.(TxStock.qty) ->
  eqm 32 (line_unplaced s)
    ((if s.(TxStock.obj_from_id) =? 0 then 1 else 0) * s.(TxStock.qty_signed)).
Proof.
  intros Hd Hs. unfold line_unplaced, at_zero. rewrite Hd, Hs.
  cbn [match_str String.eqb Ascii.eqb eqb]. rewrite out_signed.
  case_match; match goal with |- eqm 32 ?x ?y => by replace x with y by lia end.
Qed.
Lemma line_unplaced_in s :
  s.(TxStock.direction) = "in" -> s.(TxStock.obj_to_id) = 0 ->
  s.(TxStock.qty_signed) = stock_direction_signed "in" s.(TxStock.qty) ->
  eqm 32 (line_unplaced s) (1 * s.(TxStock.qty_signed)).
Proof.
  intros Hd Ho Hs. unfold line_unplaced, at_zero. rewrite Hd, Ho, Hs.
  cbn [match_str String.eqb Ascii.eqb eqb Z.eqb]. by rewrite in_signed, !Z.mul_1_l.
Qed.

Definition is_outgoing (ty : TxType) : bool :=
  match ty with
  | TxType.Sale | TxType.Reservation | TxType.ReturnPurchase => true
  | _ => false
  end.

Lemma finalize_outgoing_lines now now' tx `{!HashIter string Z} :
  items_i32 tx.(Tx.items) -> is_outgoing (tx_type tx.(Tx.type)) = true ->
  Tx.stocks (tx_finalize now now' tx) =
    tx_append_item_stocks (tx_compute_item <$> tx.(Tx.items)) (tx_time_ms now tx)
      tx.(Tx.store_id) "out".
Proof.
  intros Hi Ht. destruct (finalize_stocks_eq now now' tx Hi) as (-> & _ & _).
  unfold tx_stock_lines. cbn [tx_compute_items Tx.items Tx.type Tx.store_id].
  by destruct (tx_type tx.(Tx.type)).
Qed.

Lemma computed_sources (items : list TxItem) item src :
  item ∈ tx_compute_item <$> items -> src ∈ item.(TxItem.sources) ->
  exists item0, item0 ∈ items /\ src ∈ item0.(TxItem.sources).
Proof. intros (item0 & -> & Hin)%list_elem_of_fmap Hs. by exists item0. Qed.

End StockFacts.

(** ** Transactions *)

Section Transactions.
Context `{!Chrono} `{!HashIter string Z}.

(** A sale, a reservation or a return to the supplier takes from
    each product's counter exactly the net of its stock lines, provided the
    transaction has a store and no stock source is object 0. *)
Theorem sale_counted_once now now' tx p :
  items_i32 tx.(Tx.items) -> is_outgoing (tx_type tx.(Tx.type)) = true -> p <> 0 ->
  tx.(Tx.store_id) <> 0 ->
  (forall item src, item ∈ tx.(Tx.items) -> src ∈ item.(TxItem.sources) ->
     src.(TxItemSource.obj_id) <> 0) ->
  let ss := Tx.stocks (tx_finalize now now' tx) in
  stock_delta [] ss p = to_i32 (stock_net p ss).
Proof.
  intros Hi Ht Hp Hstore Hsrc ss. rewrite stock_delta_first. apply to_i32_proper.
  pose proof (finalize_stocks_ok now now' tx Hi) as Hok. fold ss in Hok.
  rewrite (line_deltas_net p 0 ss Hok Hp); [by rewrite Z.add_0_r, Z.mul_1_l|].
  unfold ss. rewrite finalize_outgoing_lines by done.
  eapply List.Forall_impl; [|apply append_item_stocks_from].
  intros s (Hd & _ & Hs & Hfrom). rewrite (line_unplaced_out s Hd Hs).
  rewrite (proj2 (Z.eqb_neq _ 0)); [done|].
  destruct Hfrom as [-> |(item & src & Hitem & Hin & ->)]; [done|].
  destruct (computed_sources _ _ _ Hitem Hin) as (item0 & ? & ?). eauto.
Qed.

(** Without a store, the same transactions are counted twice: the
    counter of the whole site is kept under object 0, which is also the store of
    a transaction that has none, so the line is added to it a second time. *)
Theorem sale_without_store_counted_twice now now' tx p :
  items_i32 tx.(Tx.items) -> is_outgoing (tx_type tx.(Tx.type)) = true -> p <> 0 ->
  tx.(Tx.store_id) = 0 ->
  Forall (fun item => item.(TxItem.sources) = []) tx.(Tx.items) ->
  let ss := Tx.stocks (tx_finalize now now' tx) in
  stock_delta [] ss p = to_i32 (2 * stock_net p ss).
Proof.
  intros Hi Ht Hp Hstore Hsrc ss. rewrite stock_delta_first. apply to_i32_proper.
  pose proof (finalize_stocks_ok now now' tx Hi) as Hok. fold ss in Hok.
  apply (line_deltas_net p 1 ss Hok Hp).
  unfold ss. rewrite finalize_outgoing_lines by done.
  eapply List.Forall_impl; [|apply append_item_stocks_from].
  intros s (Hd & _ & Hs & Hfrom). rewrite (line_unplaced_out s Hd Hs).
  replace (s.(TxStock.obj_from_id)) with 0; [done|].
  destruct Hfrom as [-> |(item & src & Hitem & Hin & _)]; [done|].
  destruct (computed_sources _ _ _ Hitem Hin) as (item0 & Hin0 & Hs0).
  rewrite Forall_forall in Hsrc. rewrite Hsrc in Hs0 by by apply list_elem_of_In.
  by apply not_elem_of_nil in Hs0.
Qed.

(** A sale return puts every product back twice, store or no
    store: its lines name where the goods came from and no destination, and the
    missing destination is again the counter's own key. *)
Theorem sale_return_counted_twice now now' tx p :
  items_i32 tx.(Tx.items) -> tx_type tx.(Tx.type) = TxType.ReturnSale -> p <> 0 ->
  let ss := Tx.stocks (tx_finalize now now' tx) in
  stock_delta [] ss p = to_i32 (2 * stock_net p ss).
Proof.
  intros Hi Ht Hp ss. rewrite stock_delta_first. apply to_i32_proper.
  pose proof (finalize_stocks_ok now now' tx Hi) as Hok. fold ss in Hok.
  apply (line_deltas_net p 1 ss Hok Hp).
  unfold ss. destruct (finalize_stocks_eq now now' tx Hi) as (-> & _ & _).
  unfold tx_stock_lines. cbn [tx_compute_items Tx.items Tx.type Tx.store_id]. rewrite Ht.
  eapply List.Forall_impl; [|apply append_item_stocks_from].
  intros s (Hd & Ho & Hs & _). by apply line_unplaced_in.
Qed.

(** What a transaction without a store sells is counted twice on the
    counter of the whole site, which is kept under object 0, the store of a
    transaction that has none; and what a sale return brings back is counted
    twice whatever its store, since its lines name no destination and the missing
    destination is again the counter's own key. *)
Theorem stock_counted_twice now now' tx p :
  items_i32 tx.(Tx.items) -> p <> 0 ->
  (is_outgoing (tx_type tx.(Tx.type)) = true /\ tx.(Tx.store_id) = 0 /\
   Forall (fun item => item.(TxItem.sources) = []) tx.(Tx.items)) \/
  tx_type tx.(Tx.type) = TxType.ReturnSale ->
  let ss := Tx.stocks (tx_finalize now now' tx) in
  stock_delta [] ss p = to_i32 (2 * stock_net p ss).
Proof.
  intros Hi Hp [(Ht & Hstore & Hsrc)|Ht];
    [by apply sale_without_store_counted_twice|by apply sale_return_counted_twice].
Qed.

End Transactions.

Section TxStock.
Context `{!Chrono} `{!SerdeJson} `{!Order}.

(** What a save does to a product before the counters move. *)
Definition stock_row_kept (r r' : Row ProductRow) : Prop :=
  r'.(deleted_ts) = r.(deleted_ts) /\
  r'.(cols) = {| r.(cols) with ProductRow.is_used := r'.(cols).(ProductRow.is_used) |}.
Definition stock_kept (d d' : Db) : Prop :=
  forall kp, option_Forall2 stock_row_kept (d.(t_product) !! kp) (d'.(t_product) !! kp).

#[export] Instance stock_kept_preorder : PreOrder stock_kept.
Proof.
  split.
  - intros d kp. destruct (t_product d !! kp); constructor. done.
  - intros a b c Hab Hbc kp. specialize (Hab kp). specialize (Hbc kp).
    inversion Hab as [r s (Hd & Hc) Ea Eb|Ea Eb]; rewrite <- Eb in Hbc;
      inversion Hbc as [? t (Hd' & Hc') Es Et|]; subst; constructor.
    split; [congruence|]. rewrite Hc', Hc. done.
Qed.
#[export] Instance stock_kept_step k : SaveStep k stock_kept.
Proof.
  assert (forall d d', d'.(t_product) = d.(t_product) -> stock_kept d d') as Hsame.
  { intros d d' E kp. rewrite E. destruct (t_product d !! kp); constructor. done. }
  split; [split; [apply _|intros t d _; by apply Hsame..|]|intros d r; by apply Hsame].
  intros d p now kp. cbn. rewrite map_lookup_imap.
  destruct (t_product d !! kp) as [r|]; constructor. case_match; done.
Qed.

(** Storing the lines gives them ids, and leaves what they move. *)
Lemma stock_put_delta k s (P : Db -> Prop) :
  runs (stock_put k s) P (fun s' _ => forall p, line_delta p s' = line_delta p s).
Proof.
  unfold stock_put. do 3 (eapply runs_bind; [apply runs_any|]; intros ?).
  by apply runs_ret.
Qed.
Lemma children_put_result tx e w tx' w' :
  tx_children_put tx e w = (Ok tx', w') ->
  tx'.(Tx.state) = tx.(Tx.state) /\
  forall p, line_delta p <$> tx'.(Tx.stocks) = line_delta p <$> tx.(Tx.stocks).
Proof.
  intros E. unfold tx_children_put in E.
  apply bind_ok in E as (items & w1 & _ & E). apply bind_ok in E as ([] & w2 & _ & E).
  apply bind_ok in E as (payments & w3 & _ & E). apply bind_ok in E as (accs & w4 & _ & E).
  apply bind_ok in E as (stocks & w5 & Es & E). apply bind_ok in E as (taxes & w6 & _ & E).
  apply bind_ok in E as (discounts & w7 & _ & E). injection E as <- _. split; [done|].
  cbn [Tx.stocks]. revert Es. generalize (Tx.site_iid tx, Tx.tx_id tx). intros k Es.
  assert (runs (mapM (stock_put k) (Tx.stocks tx)) (fun _ => True) (fun ss _ =>
    forall p, line_delta p <$> ss = line_delta p <$> Tx.stocks tx)) as Hr.
  { eapply runs_weaken; [apply (runs_mapM _ _ (fun pre ss _ =>
      forall p, line_delta p <$> ss = line_delta p <$> pre))|done|done].
    intros pre s suf ss _ e1 w8 s' w9 Ep Hpre p. rewrite !fmap_app. f_equal; [done|]. cbn.
    f_equal. by apply (stock_put_delta k s (fun _ => True) _ _ _ _ Ep). }
  by eapply Hr.
Qed.

Definition becomes_ok (tx : Tx) : bool :=
  bool_decide (try_from_or TxState.Ok tx.(Tx.state) = TxState.Ok).

End TxStock.

(** What a committed save does to every stock counter, given the lines it takes
    back. *)
Lemma tx_save_stock `{!Chrono} `{!SerdeJson} `{!Order} owner old tx e w w' :
  tx_save owner old tx e w = (Ok tt, w') ->
  forall s p r, w.(db).(t_product) !! (s, p) = Some r ->
  exists r', w'.(db).(t_product) !! (s, p) = Some r' /\
    r'.(cols).(ProductRow.stock_qty) = r.(cols).(ProductRow.stock_qty) +
      if becomes_ok tx && (s =? tx.(Tx.site_iid)) && live r
         && r.(cols).(ProductRow.track_stock) && negb r.(cols).(ProductRow.can_reserve)
      then stock_delta old tx.(Tx.stocks) p else 0.
Proof.
  intros E s p r Hr. unfold tx_save in E. destruct (tx_acc_counts tx) as [g m].
  apply transaction_atomic in E as [(w0 & w1 & Hd0 & E & Hd1)|(w0 & w1 & _ & E & _)];
    apply bind_ok in E as ([] & w2 & E2 & E); apply bind_ok in E as ([] & w3 & E3 & E);
    apply bind_ok in E as (tx' & w4 & E4 & E); apply bind_ok in E as ([] & w5 & E5 & E);
    [|by injection E].
  assert (stock_kept w.(db) w4.(db)) as Hk.
  { rewrite <- Hd0. transitivity w2.(db); [exact (step_children_del (ident tx) stock_kept _ _ _ _ E2)|].
    transitivity w3.(db); [exact (step_header (ident tx) stock_kept _ _ _ _ eq_refl _ _ _ _ E3)|].
    exact (step_children_put (ident tx) stock_kept tx eq_refl _ _ _ _ E4). }
  destruct (children_put_result _ _ _ _ _ E4) as [Hst Hl].
  specialize (Hk (s, p)). rewrite Hr in Hk. inversion Hk as [r0 r4 (Hd & Hc) Er0 Hr4|]; subst r0.
  assert (w'.(db) = w5.(db)) as -> by (rewrite Hd1; by injection E as <-).
  unfold becomes_ok. rewrite Hst in E5. case_bool_decide; cbn [andb].
  - apply stock_apply_spec in E5 as [_ Hp]. specialize (Hp s p). rewrite <- Hr4 in Hp.
    destruct (t_product (db w5) !! (s, p)) as [r'|]; [|done]. exists r'. split; [done|].
    cbn in Hp. injection Hp as Hp. rewrite Hp.
    assert (live r4 = live r) as Hlive by (unfold live; by rewrite Hd).
    assert (stock_delta old (Tx.stocks tx') p = stock_delta old (Tx.stocks tx) p) as Hdelta
      by (unfold stock_delta; by rewrite Hl).
    destruct (Z.eqb_spec s tx.(Tx.site_iid)) as [->|Hs].
    + rewrite bool_decide_eq_true_2 by done. unfold product_after. rewrite Hlive, Hc, Hdelta. cbn.
      destruct (live r && _ && _); cbn; lia.
    + rewrite bool_decide_eq_false_2 by congruence. rewrite Hc. cbn. lia.
  - injection E5 as <-. exists r4. split; [done|]. rewrite Hc. cbn. lia.
Qed.

(** ** The lines that are stored *)

(** The movement a stored row records. *)
Definition row_line `{!Chrono} (r : StockRow) : TxStock :=
  {| TxStock_default with
     TxStock.product_id := r.(StockRow.product_id);
     TxStock.obj_from_id := r.(StockRow.obj_from_id);
     TxStock.obj_to_id := r.(StockRow.obj_to_id);
     TxStock.qty := r.(StockRow.qty);
     TxStock.qty_signed := r.(StockRow.qty_signed);
     TxStock.direction := r.(StockRow.direction) |}.

(** What the live stock rows of a transaction add up to for a product. *)
Definition stored_delta `{!Chrono} `{!SerdeJson} (d : Db) (k : TxKey) (p : Z) : Z :=
  Zsum ((fun e : (TxKey * Z) * Row StockRow =>
    if bool_decide (e.1.1 = k /\ e.2.(deleted_ts) = None)
    then line_delta p (row_line e.2.(cols)) else 0) <$> map_to_list d.(t_stock)).

Section Stored.
Context `{!Chrono} `{!SerdeJson} `{!Order}.

Lemma child_rows_delta d k p :
  Zsum (line_delta p <$> ((fun e => tx_stock_from_row e.1 e.2) <$> child_rows k d.(t_stock)))
  = stored_delta d k p.
Proof.
  unfold stored_delta. rewrite (child_rows_perm k (t_stock d)).
  induction (map_to_list (t_stock d)) as [|[[k' c] r] l IH]; [done|].
  cbn [omap list_omap]. rewrite fmap_cons, Zsum_cons, <- IH. cbn [fst snd]. unfold of_tx, live.
  destruct (decide (k' = k)) as [->|Hk].
  - rewrite bool_decide_eq_true_2 by done. cbn [andb].
    destruct (deleted_ts r); [by rewrite bool_decide_eq_false_2 by naive_solver|].
    rewrite bool_decide_eq_true_2 by done. by rewrite !fmap_cons, Zsum_cons.
  - rewrite !bool_decide_eq_false_2 by naive_solver. done.
Qed.

(** The lines that [tx_put] takes back are those stored under its transaction. *)
Lemma runs_put_old c tx d0 :
  runs (tx_put_prepare c (Some tx)) (fun d => d = d0) (fun '(_, old, tx') _ =>
    tx'.(Tx.site_iid) = tx.(Tx.site_iid) /\
    forall p, Zsum (line_delta p <$> old) =
      if 0 <? tx.(Tx.tx_id) then stored_delta d0 (tx.(Tx.site_iid), tx.(Tx.tx_id)) p else 0).
Proof.
  unfold tx_put_prepare. cbn [ok_or].
  eapply runs_bind; [apply (runs_lift _ _ (fun t d => d = d0 /\ t = tx)); naive_solver|].
  intros t. eapply runs_bind; [apply runs_reads; case_match; auto with reads|].
  intros ?. cbv zeta. eapply runs_bind; [apply runs_reads, reads_tx_owner_resolve|]. intros owner.
  eapply runs_bind.
  { instantiate (1 := fun old d => t = tx /\ forall p, Zsum (line_delta p <$> old) =
      if 0 <? tx.(Tx.tx_id) then stored_delta d0 (tx.(Tx.site_iid), tx.(Tx.tx_id)) p else 0).
    destruct (Z.ltb_spec 0 t.(Tx.tx_id)) as [Hi|Hi].
    - eapply runs_bind; [apply (runs_query _ _ (fun rows _ =>
        t = tx /\ rows = child_rows (t.(Tx.site_iid), t.(Tx.tx_id)) d0.(t_stock))); naive_solver|].
      intros rows. apply runs_ret. intros d [-> ->]. split; [done|]. intros p.
      rewrite (proj2 (Z.ltb_lt _ _) Hi). apply child_rows_delta.
    - apply runs_ret. intros d [-> ->]. split; [done|]. intros p.
      by rewrite (proj2 (Z.ltb_ge _ _) Hi). }
  intros old. eapply runs_bind; [apply runs_reads; case_match; [apply reads_bind|]; auto with reads|].
  intros existing. eapply runs_bind; [apply runs_reads; case_match; auto with reads|].
  intros id. eapply runs_bind; [apply runs_finalize_now|]. intros t'.
  eapply runs_bind; [apply runs_reads, reads_site_capabilities_get|]. intros caps.
  apply runs_ret. intros d ([-> Hold] & Ht). split; [|done].
  assert (ident t' = (Tx.site_iid tx, id)) as Ht' by (rewrite Ht; by case_match).
  rewrite <- (coerce_if_ident (negb (site_order_fulfillment_enabled caps))) in Ht'.
  revert Ht'. unfold ident. by intros [= Es _].
Qed.

End Stored.

(** C4. What saving a transaction does to every stock counter.  Either it
    fails and the database is as before; or the transaction it finalised was
    committed, and when that one's state is [Ok] each live, tracked product of
    the site that is not bookable has moved by what the finalised stock lines add
    up to, less what the lines stored under the transaction's id added up to
    before; in any other state, and for any other product, the counter stays.  So
    changing a sale moves the difference only, a cancelled sale keeps its goods
    off the shelf, and an order whose lines were stored while it waited for
    payment takes nothing when it is confirmed. *)
Theorem tx_put_stock `{!Chrono} `{!SerdeJson} `{!Order} caller_iid tx e w r w' :
  tx_put caller_iid (Some tx) e w = (r, w') ->
  ((exists x, r = Err x) /\ w'.(db) = w.(db)) \/
  exists owner old tx' w1,
    tx_put_prepare caller_iid (Some tx) e w = (Ok (owner, old, tx'), w1) /\
    forall s p row, w.(db).(t_product) !! (s, p) = Some row ->
    exists row', w'.(db).(t_product) !! (s, p) = Some row' /\
      let before := if 0 <? tx.(Tx.tx_id)
        then stored_delta w.(db) (tx.(Tx.site_iid), tx.(Tx.tx_id)) p else 0 in
      let after := Zsum (line_delta p <$> tx'.(Tx.stocks)) in
      row'.(cols).(ProductRow.stock_qty) = row.(cols).(ProductRow.stock_qty) +
        if becomes_ok tx' && (s =? tx.(Tx.site_iid)) && live row
           && row.(cols).(ProductRow.track_stock) && negb row.(cols).(ProductRow.can_reserve)
        then to_i32 (to_i64 (after - before)) else 0.
Proof.
  intros E. unfold tx_put in E.
  apply bind_cases in E as [(x & Ep & ->)|([[owner old] tx'] & w1 & Ep & E)];
    pose proof (reads_tx_put_prepare _ _ _ _ _ _ Ep) as Hd.
  { left. eauto. }
  apply bind_cases in E as [(x & Es & ->)|([] & w2 & Es & E)].
  { left. apply tx_save_atomic in Es. split; [eauto|congruence]. }
  right. exists owner, old, tx', w1. split; [done|]. intros s p row Hrow.
  destruct (runs_put_old caller_iid tx w.(db) _ _ _ _ Ep eq_refl) as [Hs Hold].
  rewrite <- Hd in Hrow. destruct (tx_save_stock _ _ _ _ _ _ Es s p row Hrow) as (row' & Hr' & Hq).
  apply reads_tx_load in E. rewrite E. exists row'. split; [done|]. cbv zeta.
  rewrite <- Hold, <- Hs. exact Hq.
Qed.
