(* ===== verification/TxList.v ===== *)
(** * Listing transactions ([servers/crates/mod_tx/src/tx_list.rs])

    Headers of a site's transactions, filtered and paged by id, and what a page
    holds. *)
From stdpp Require Import sorting.
From S2P Require Import Prelude Strs Ts TxProto World Json TxData Db EnumMap Rows Load Grant TxApi.
From S2P Require Import TxPutFacts LoadFacts SaveFacts.

Module ReqTxList.
#[projections(primitive)]
Record ReqTxList := mk {
  site_iid : Z;
  q : string;
  after_tx_id : Z;
  limit : Z;
  include_archived : bool;
  type : Z;
  state : Z;
  subject_contact_id : Z;
  time_from_ms : Z;
  time_to_ms : Z;
  open_only : bool;
}.
End ReqTxList.
Notation ReqTxList := ReqTxList.ReqTxList.

Section TxList.
Context `{!Chrono} `{!SerdeJson} `{!Order}.
(** [text ILIKE pattern] of the database *)
Context (ilike : string -> string -> bool).
Notation M := (M Db).

Definition list_limit (req : ReqTxList) : Z :=
  if 0 <? req.(ReqTxList.limit) then Z.min req.(ReqTxList.limit) 200 else 50.

(** The [WHERE] clause that is assembled from the request, given the bound
    times. *)
Definition list_where (req : ReqTxList) (time_from time_to : DateTime)
    (k : TxKey) (r : Row TxRow) : bool :=
  let c := r.(cols) in
  let ty := try_from_or TxType.Unspecified req.(ReqTxList.type) in
  let st := try_from_or TxState.Ok req.(ReqTxList.state) in
  (k.1 =? req.(ReqTxList.site_iid)) && live r
  && (req.(ReqTxList.include_archived) || negb c.(TxRow.is_archived))
  && (bool_decide (ty = TxType.Unspecified) || String.eqb c.(TxRow.ty) (tx_type_str ty))
  && (negb (0 <? req.(ReqTxList.state)) || String.eqb c.(TxRow.state) (tx_state_str st))
  && (negb (0 <? req.(ReqTxList.subject_contact_id))
      || (c.(TxRow.subject_contact_id) =? req.(ReqTxList.subject_contact_id)))
  && (negb (0 <? req.(ReqTxList.time_from_ms)) || negb (dt_ltb c.(TxRow.time_ts) time_from))
  && (negb (0 <? req.(ReqTxList.time_to_ms)) || negb (dt_ltb time_to c.(TxRow.time_ts)))
  && (negb req.(ReqTxList.open_only)
      || (String.eqb c.(TxRow.ty) "sale"
          && existsb (String.eqb c.(TxRow.state)) ["ok"; "pending"; "waiting_payment"]))
  && (is_empty req.(ReqTxList.q)
      || ilike c.(TxRow.desc) ("%" +:+ req.(ReqTxList.q) +:+ "%"))
  && (negb (0 <? req.(ReqTxList.after_tx_id)) || (req.(ReqTxList.after_tx_id) <? k.2)).

(** [ORDER BY tx_id] *)
Definition by_tx_id (a b : TxKey * Row TxRow) : Prop := a.1.2 <= b.1.2.
#[export] Instance by_tx_id_dec a b : Decision (by_tx_id a b).
Proof. unfold by_tx_id. apply _. Defined.

(** A time bound of the request; the clock stands in for one out of range. *)
Definition bound_time (ms : Z) : M DateTime :=
  match ts_from_ms ms with Some t => mret t | None => utc_now end.

Definition tx_list (caller_iid : Z) (req : ReqTxList) : M (list Tx) :=
  tx_owner_resolve caller_iid req.(ReqTxList.site_iid) false;;
  time_from ← bound_time req.(ReqTxList.time_from_ms);
  time_to ← bound_time req.(ReqTxList.time_to_ms);
  rows ← query (fun _ d =>
    take (Z.to_nat (list_limit req))
      (merge_sort by_tx_id
        (filter (fun e => list_where req time_from time_to e.1 e.2 = true) (order d.(t_tx)))));
  mret ((fun e => tx_header_from_row e.1 e.2) <$> rows).

End TxList.

(** ** Listing transactions: what a page holds

    A page has the matching transactions of the site in ascending order, and
    leaves out none that a later page would not show. *)

Section ListFacts.
Context `{!Chrono} `{!SerdeJson} `{!Order}.
Context (ilike : string -> string -> bool).

Lemma list_limit_range req : 1 <= list_limit req <= 200.
Proof. unfold list_limit. destruct (Z.ltb_spec 0 req.(ReqTxList.limit)); lia. Qed.

#[local] Instance by_tx_id_total : Total by_tx_id.
Proof. intros a b. unfold by_tx_id. lia. Qed.
#[local] Instance by_tx_id_trans : Transitive by_tx_id.
Proof. intros a b c. unfold by_tx_id. lia. Qed.

(** What a request asks for: the live transactions of the site that meet every
    condition it names. *)
Record listed (req : ReqTxList) (tf tt : DateTime) (d : Db) (k : TxKey) (r : Row TxRow)
    : Prop := {
  listed_row : d.(t_tx) !! k = Some r;
  listed_site : k.1 = req.(ReqTxList.site_iid);
  listed_live : r.(deleted_ts) = None;
  listed_archived : r.(cols).(TxRow.is_archived) = true -> req.(ReqTxList.include_archived) = true;
  listed_type : forall ty, enum_try_from req.(ReqTxList.type) = Some ty -> ty <> TxType.Unspecified ->
    r.(cols).(TxRow.ty) = tx_type_str ty;
  listed_state : 0 < req.(ReqTxList.state) ->
    r.(cols).(TxRow.state) = tx_state_str (default TxState.Ok (enum_try_from req.(ReqTxList.state)));
  listed_contact : 0 < req.(ReqTxList.subject_contact_id) ->
    r.(cols).(TxRow.subject_contact_id) = req.(ReqTxList.subject_contact_id);
  listed_from : 0 < req.(ReqTxList.time_from_ms) -> dt_ltb r.(cols).(TxRow.time_ts) tf = false;
  listed_to : 0 < req.(ReqTxList.time_to_ms) -> dt_ltb tt r.(cols).(TxRow.time_ts) = false;
  listed_open : req.(ReqTxList.open_only) = true ->
    r.(cols).(TxRow.ty) = "sale" /\ r.(cols).(TxRow.state) ∈ ["ok"; "pending"; "waiting_payment"];
  listed_text : req.(ReqTxList.q) <> "" ->
    ilike r.(cols).(TxRow.desc) ("%" +:+ req.(ReqTxList.q) +:+ "%") = true;
  listed_after : 0 < req.(ReqTxList.after_tx_id) -> req.(ReqTxList.after_tx_id) < k.2;
}.

Lemma unless_true (b c : bool) (P Q : Prop) :
  (b = false <-> P) -> (c = true <-> Q) -> (b || c = true <-> (P -> Q)).
Proof. intros Hb Hc. destruct b; cbn; [|rewrite Hc]; naive_solver. Qed.
Lemma not_positive x : negb (0 <? x) = false <-> 0 < x.
Proof. rewrite negb_false_iff. lia. Qed.
Lemma list_where_listed req tf tt d k r :
  d.(t_tx) !! k = Some r -> list_where ilike req tf tt k r = true <-> listed req tf tt d k r.
Proof.
  intros Hr. unfold list_where. rewrite !andb_true_iff.
  rewrite (unless_true (negb (0 <? ReqTxList.after_tx_id req)) _ _ _ (not_positive _) (Z.ltb_lt _ _)).
  rewrite (unless_true (negb (0 <? ReqTxList.state req)) _ _ _ (not_positive _) (String.eqb_eq _ _)).
  rewrite (unless_true (negb (0 <? ReqTxList.subject_contact_id req)) _ _ _ (not_positive _) (Z.eqb_eq _ _)).
  rewrite (unless_true (negb (0 <? ReqTxList.time_from_ms req)) _ _ _ (not_positive _) (negb_true_iff _)).
  rewrite (unless_true (negb (0 <? ReqTxList.time_to_ms req)) _ _ _ (not_positive _) (negb_true_iff _)).
  rewrite (unless_true (is_empty (ReqTxList.q req)) _ (ReqTxList.q req <> "") (ilike _ _ = true))
    by (done || by destruct (ReqTxList.q req)).
  rewrite (unless_true (ReqTxList.include_archived req) _ (ReqTxList.include_archived req = false)
    (TxRow.is_archived (cols r) = false)) by (done || apply negb_true_iff).
  rewrite (unless_true (negb (ReqTxList.open_only req)) _ (ReqTxList.open_only req = true)
    (r.(cols).(TxRow.ty) = "sale" /\ r.(cols).(TxRow.state) ∈ ["ok"; "pending"; "waiting_payment"])).
  2: apply negb_false_iff.
  2: { rewrite andb_true_iff, String.eqb_eq, existsb_exists. apply and_iff_compat_l. split.
       - intros (x & Hx & ->%String.eqb_eq). by apply list_elem_of_In.
       - intros Hx%list_elem_of_In. eexists. split; [done|]. apply String.eqb_refl. }
  assert (bool_decide (try_from_or TxType.Unspecified req.(ReqTxList.type) = TxType.Unspecified)
      || String.eqb r.(cols).(TxRow.ty) (tx_type_str (try_from_or TxType.Unspecified req.(ReqTxList.type))) = true
    <-> forall ty, enum_try_from req.(ReqTxList.type) = Some ty -> ty <> TxType.Unspecified ->
      r.(cols).(TxRow.ty) = tx_type_str ty) as ->.
  { unfold try_from_or. rewrite orb_true_iff, bool_decide_eq_true, String.eqb_eq.
    destruct (enum_try_from _) as [ty|]; cbn; [|naive_solver].
    destruct (decide (ty = TxType.Unspecified)); naive_solver. }
  assert (live r = true <-> r.(deleted_ts) = None) as -> by apply live_none.
  rewrite Z.eqb_eq. unfold try_from_or. split.
  - intros Hw. destruct_and? Hw. split; try done.
    intros Harch. destruct (ReqTxList.include_archived req); naive_solver.
  - destruct 1 as [_ ? ? Ha]. split_and!; try done.
    intros Hi. destruct (TxRow.is_archived (cols r)); [|done]. by rewrite Ha in Hi.
Qed.

Definition list_rows (req : ReqTxList) (tf tt : DateTime) (d : Db) : list (TxKey * Row TxRow) :=
  merge_sort by_tx_id (filter (fun e => list_where ilike req tf tt e.1 e.2 = true) (order d.(t_tx))).

Lemma list_rows_elem req tf tt d k r : (k, r) ∈ list_rows req tf tt d <-> listed req tf tt d k r.
Proof.
  unfold list_rows. rewrite merge_sort_Permutation, selected_elem. cbn [fst snd]. split.
  - intros [Hr Hw]. by apply list_where_listed.
  - intros Hl. pose proof (listed_row _ _ _ _ _ _ Hl). split; [done|]. by apply (list_where_listed _ _ _ d).
Qed.

(** In the order of their ids, no two the same. *)
Lemma list_rows_ascending req tf tt d :
  StronglySorted (fun a b => a.1.2 < b.1.2) (list_rows req tf tt d).
Proof.
  assert (forall e, e ∈ list_rows req tf tt d -> e.1.1 = req.(ReqTxList.site_iid)) as Hsite.
  { intros [k r] Hin. apply list_rows_elem in Hin. apply Hin. }
  assert (NoDup (list_rows req tf tt d).*1) as Hn.
  { unfold list_rows. rewrite merge_sort_Permutation. apply selected_nodup. }
  assert (StronglySorted by_tx_id (list_rows req tf tt d)) as Hs
    by (apply StronglySorted_merge_sort; apply _).
  induction Hs as [|e l _ IH Hle]; [constructor|]. cbn in Hn. apply list.NoDup_cons in Hn as [Hni Hn].
  constructor; [apply IH; [|done]; intros x Hx; apply Hsite; by right|].
  apply Forall_forall. intros x Hx%list_elem_of_In.
  assert (by_tx_id e x) as Hex by (rewrite Forall_forall in Hle; apply Hle; by apply list_elem_of_In).
  unfold by_tx_id in Hex. destruct (Z.eq_dec e.1.2 x.1.2) as [Heq|]; [|lia].
  destruct Hni. apply list_elem_of_fmap. exists x. split; [|done].
  assert (e.1.1 = x.1.1) by (rewrite (Hsite e), (Hsite x); [done|by right|by left]).
  destruct e as [[] ?], x as [[] ?]. cbn in *. congruence.
Qed.

Lemma reads_bound_time ms : reads (bound_time ms).
Proof. unfold bound_time. case_match; auto with reads. Qed.
Lemma yields_bound_time ms : yields (bound_time ms) (stamped ms).
Proof. exact (yields_ts_or_now ms). Qed.

(** The first rows of an ascending list: what was cut off has larger ids. *)
Lemma take_ascending n (l : list (TxKey * Row TxRow)) e :
  StronglySorted (fun a b => a.1.2 < b.1.2) l -> e ∈ l ->
  e ∈ take n l \/ (length (take n l) = n /\ forall x, x ∈ take n l -> x.1.2 < e.1.2).
Proof.
  intros Hs He. rewrite <- (take_drop n l) in Hs, He. apply elem_of_app in He as [|He]; [by left|].
  right. split.
  - rewrite length_take. destruct (decide (n <= length l)%nat) as [|Hn]; [lia|].
    rewrite drop_ge in He by lia. by apply not_elem_of_nil in He.
  - intros x Hx. eapply (StronglySorted_app_1_elem_of _ _ _ x e Hs); done.
Qed.


Lemma reads_tx_list caller req : reads (tx_list ilike caller req).
Proof.
  apply reads_bind; [auto with reads|]. intros ?.
  do 2 (apply reads_bind; [apply reads_bound_time|]; intros ?).
  apply reads_bind; [auto with reads|]. auto with reads.
Qed.

(** Who may list the transactions of a site: a user their own, or whom the
    policy lets read. *)
Definition may_list (d : Db) (caller_iid site_iid : Z) : Prop :=
  if decide (site_iid = caller_iid) then exists r, d.(t_identity) !! caller_iid = Some r /\
    r.(deleted_ts) = None /\ r.(cols).(IdentityRow.kind) = "user"
  else exists owner, live_site d site_iid owner /\ granted d caller_iid site_iid owner false.

Lemma may_act_list d c s o : may_act d c s o false = true -> may_list d c s.
Proof.
  unfold may_act, may_list. destruct (Z.eqb_spec s c) as [->|Hne].
  - rewrite decide_True by done. intros [_ Hu]%andb_true_iff.
    destruct (t_get c (t_identity d)) as [r|] eqn:E; [|done]. apply t_get_some in E as [? ?].
    apply String.eqb_eq in Hu. eauto.
  - rewrite decide_False by done. intros [Hs Ha]%andb_true_iff. exists o.
    by rewrite <- site_owner_live, <- may_access_granted, <- (bool_decide_eq_true (site_owner d s = _)).
Qed.

(** The times the bounds of a request stand for, where it has any. *)
Definition bounds (req : ReqTxList) (tf tt : DateTime) : Prop :=
  (0 < req.(ReqTxList.time_from_ms) -> ts_from_ms req.(ReqTxList.time_from_ms) = Some tf) /\
  (0 < req.(ReqTxList.time_to_ms) -> ts_from_ms req.(ReqTxList.time_to_ms) = Some tt).

Lemma listed_bounds req tf tt tf' tt' d k r : bounds req tf tt ->
  stamped req.(ReqTxList.time_from_ms) tf' -> stamped req.(ReqTxList.time_to_ms) tt' ->
  listed req tf' tt' d k r <-> listed req tf tt d k r.
Proof.
  unfold stamped. intros [Hf Ht] Hf' Ht'.
  assert (0 < req.(ReqTxList.time_from_ms) -> tf' = tf) as Ef by (intros E; by rewrite (Hf E) in Hf').
  assert (0 < req.(ReqTxList.time_to_ms) -> tt' = tt) as Et by (intros E; by rewrite (Ht E) in Ht').
  split; intros []; split; try done; intros E; specialize (Ef E) || specialize (Et E); subst; auto.
Qed.

(** A page: the matches in order, as far as the limit goes. *)
Lemma tx_list_rows caller req tf tt e w txs w' : bounds req tf tt ->
  tx_list ilike caller req e w = (Ok txs, w') ->
  may_list w.(db) caller req.(ReqTxList.site_iid) /\
  Z.of_nat (length txs) <= list_limit req /\
  StronglySorted (fun a b => a.(Tx.tx_id) < b.(Tx.tx_id)) txs /\
  (forall tx, tx ∈ txs -> exists k r, listed req tf tt w.(db) k r /\ tx = tx_header_from_row k r) /\
  (forall k r, listed req tf tt w.(db) k r -> tx_header_from_row k r ∈ txs \/
     (Z.of_nat (length txs) = list_limit req /\ forall tx, tx ∈ txs -> tx.(Tx.tx_id) < k.2)).
Proof.
  intros Hb E. unfold tx_list in E. pose proof (list_limit_range req) as Hl.
  apply bind_ok in E as (owner & w1 & E1 & E). apply bind_ok in E as (tf' & w2 & E2 & E).
  apply bind_ok in E as (tt' & w3 & E3 & E). apply bind_ok in E as (rows & w4 & E4 & E).
  apply ret_ok in E as [-> ->]. apply query_ok in E4 as [[_ ->] _].
  destruct (runs_tx_owner_resolve _ _ _ (fun d => d = w.(db)) _ _ _ _ E1 eq_refl) as [Hd1 Hmay].
  rewrite Hd1 in Hmay.
  assert (w3.(db) = w.(db)) as Hd3
    by (by rewrite (reads_bound_time _ _ _ _ _ E3), (reads_bound_time _ _ _ _ _ E2)).
  rewrite Hd3 in *. fold (list_rows req tf' tt' w.(db)). split; [by eapply may_act_list|].
  apply (yields_bound_time (ReqTxList.time_from_ms req)) in E2.
  apply (yields_bound_time (ReqTxList.time_to_ms req)) in E3.
  pose proof (fun k r => listed_bounds req tf tt tf' tt' w.(db) k r Hb E2 E3) as Hm.
  set (n := Z.to_nat (list_limit req)).
  pose proof (list_rows_ascending req tf' tt' w.(db)) as Hs. split.
  { rewrite length_fmap, length_take. lia. }
  split.
  { rewrite <- (take_drop n (list_rows _ _ _ _)) in Hs. apply StronglySorted_app_1_l in Hs.
    induction Hs as [|x l _ IH Hx]; [constructor|]. rewrite fmap_cons. constructor; [done|].
    apply Forall_fmap. eapply List.Forall_impl; [|exact Hx]. done. }
  split.
  - intros tx ([k r] & -> & Hin)%list_elem_of_fmap. exists k, r. split; [|done].
    apply Hm, list_rows_elem. eapply elem_of_sublist; [exact Hin|apply sublist_take].
  - intros k r Hk%Hm%list_rows_elem. destruct (take_ascending n _ _ Hs Hk) as [Hin|[Hlen Hlt]].
    + left. by apply (list_elem_of_fmap_2 (fun e => tx_header_from_row e.1 e.2)) in Hin.
    + right. rewrite length_fmap, Hlen. split; [lia|].
      intros tx ([k' r'] & -> & Hin)%list_elem_of_fmap. exact (Hlt _ Hin).
Qed.

(** A client that reads page after page: the request as it is, then the same
    request after the last transaction it was shown. *)
Definition after_page (req : ReqTxList) (id : Z) : ReqTxList :=
  {| req with ReqTxList.after_tx_id := id |}.
Inductive paging (caller_iid : Z) (req : ReqTxList) (d : Db) : list (list Tx) -> Prop :=
| paging_first e w txs w' : w.(db) = d ->
    tx_list ilike caller_iid req e w = (Ok txs, w') -> paging caller_iid req d [txs]
| paging_next pages tx e w txs w' : paging caller_iid req d pages ->
    list.last (mjoin pages) = Some tx -> 0 < tx.(Tx.tx_id) -> w.(db) = d ->
    tx_list ilike caller_iid (after_page req tx.(Tx.tx_id)) e w = (Ok txs, w') ->
    paging caller_iid req d (pages ++ [txs]).

Lemma listed_after_page req tf tt d k r id : 0 < id ->
  listed (after_page req id) tf tt d k r -> req.(ReqTxList.after_tx_id) < id ->
  listed req tf tt d k r.
Proof. intros Hid [] Hlt. split; try done. intros _. cbn in *. lia. Qed.
Lemma listed_next req tf tt d k r id :
  listed req tf tt d k r -> id < k.2 -> listed (after_page req id) tf tt d k r.
Proof. intros [] Hlt. split; done. Qed.

Lemma sorted_last (l : list Tx) x y :
  StronglySorted (fun a b => a.(Tx.tx_id) < b.(Tx.tx_id)) l -> list.last l = Some y -> x ∈ l ->
  x.(Tx.tx_id) <= y.(Tx.tx_id).
Proof.
  intros Hs (l' & ->)%list.last_Some Hx. apply elem_of_app in Hx as [Hx| ->%list_elem_of_singleton]; [|lia].
  assert (x.(Tx.tx_id) < y.(Tx.tx_id)); [|lia].
  eapply (StronglySorted_app_1_elem_of _ _ _ x y Hs); [done|by left].
Qed.

End ListFacts.

(** C27. Reading the transaction list page by page.  Listing changes nothing,
    whatever it answers.  A caller who was shown some pages, each asked for after
    the last transaction of those before, may read the site; no page is longer
    than the limit (at most 200); together the pages hold headers of live matching
    transactions of the site ([listed]) in strictly ascending order of id, so none
    twice; and a match that is not among them has a larger id than all of them and
    the last page was full.  So the first page that is not full completes the list.
    A time bound is one the calendar has; ids are positive, as [next_id] gives
    them. *)
Theorem tx_list_page `{!Chrono} `{!SerdeJson} `{!Order} ilike caller_iid req d tf tt pages :
  bounds req tf tt -> paging ilike caller_iid req d pages ->
  (forall req' e w r w', tx_list ilike caller_iid req' e w = (r, w') -> w'.(db) = w.(db)) /\
  may_list d caller_iid req.(ReqTxList.site_iid) /\
  Forall (fun page => Z.of_nat (length page) <= list_limit req <= 200) pages /\
  StronglySorted (fun a b => a.(Tx.tx_id) < b.(Tx.tx_id)) (mjoin pages) /\
  (forall tx, tx ∈ mjoin pages ->
     exists k r, listed ilike req tf tt d k r /\ tx = tx_header_from_row k r) /\
  (forall k r, listed ilike req tf tt d k r -> tx_header_from_row k r ∈ mjoin pages \/
     (exists page, list.last pages = Some page /\ Z.of_nat (length page) = list_limit req /\
        forall tx, tx ∈ mjoin pages -> tx.(Tx.tx_id) < k.2)).
Proof.
  intros Hb Hp. split.
  { intros req' e w r w' E. revert E. apply reads_tx_list. }
  pose proof (list_limit_range req) as Hlim.
  induction Hp as [e w txs w' <- E|pages tx e w txs w' _ (Hmay & Hlen & Hs & Hin & Hall) Hl Hpos <- E].
  - apply (tx_list_rows _ _ _ tf tt) in E as (Hmay & Hlen & Hs & Hin & Hall); [|done].
    cbn [mjoin list_join]. rewrite app_nil_r. split_and!; try done.
    + by constructor; [lia|].
    + intros k r [?|[? ?]]%Hall; [by left|right]. by exists txs.
  - apply (tx_list_rows _ _ _ tf tt) in E as (_ & Hlen' & Hs' & Hin' & Hall'); [|done].
    change (list_limit (after_page req (Tx.tx_id tx))) with (list_limit req) in *.
    assert (forall x, x ∈ txs -> tx.(Tx.tx_id) < x.(Tx.tx_id)) as Hgt.
    { intros x (k & r & Hk & ->)%Hin'. by apply (listed_after _ _ _ _ _ _ _ Hk). }
    assert (tx ∈ mjoin pages) as Htx by (apply list.last_Some in Hl as (l' & ->); set_solver).
    rewrite join_app. cbn [mjoin list_join]. rewrite app_nil_r. split_and!; [done| | | |].
    + apply Forall_app. split; [done|]. by constructor; [lia|].
    + apply StronglySorted_app_2; [|done..]. intros x y Hx Hy.
      pose proof (sorted_last _ _ _ Hs Hl Hx). specialize (Hgt _ Hy). lia.
    + intros x [Hx|Hx]%elem_of_app; [by apply Hin|]. destruct (Hin' _ Hx) as (k & r & Hk & ->).
      exists k, r. split; [|done]. apply (listed_after_page _ _ _ _ _ _ _ _ Hpos Hk).
      destruct (Hin _ Htx) as (k0 & r0 & Hk0 & ->). cbn in *.
      destruct (Z.ltb_spec 0 (ReqTxList.after_tx_id req)); [|lia]. by apply (listed_after _ _ _ _ _ _ _ Hk0).
    + intros k r Hk. rewrite list.last_snoc. destruct (Hall _ _ Hk) as [?|(_ & _ & _ & Hlt)]; [set_solver|].
      assert (tx.(Tx.tx_id) < k.2) as Hk2 by by apply Hlt.
      destruct (Hall' _ _ (listed_next _ _ _ _ _ _ _ _ Hk Hk2)) as [?|[Hfull Hlt']]; [set_solver|].
      right. exists txs. split_and!; [done..|]. intros x [?|?]%elem_of_app; auto.
Qed.
