(* ===== verification/Reservation.v ===== *)
(** * Availability of bookable products
      ([servers/crates/mod_site/src/guest_reservation.rs], and what it reads of a
      product in [guest_product.rs], [guest_product_display.rs])

    How many units of a product are free in a time window, and which units; and
    what the calendar answers, described by the rows alone. *)
From stdpp Require Import sorting.
From S2P Require Import Prelude Strs Ts TxProto World Json TxData Db.

(** ** Pure parts *)

Definition reservation_windows_overlap (existing_start existing_end requested_start requested_end : Z)
    : bool :=
  (existing_start <? requested_end) && (requested_start <? existing_end).

Definition units_left (pool_size overlapping_qty : Z) : Z :=
  if pool_size <=? 0 then 0 else Z.max (pool_size - overlapping_qty)%i64 0.

Definition reservation_pool_size (linked_object_count : Z) (inventory_mode : string)
    (capacity : Z) : Z :=
  if 0 <? linked_object_count then linked_object_count
  else if eq_ignore_ascii_case (trim inventory_mode) "objects" then 0
  else Z.max capacity 1.

Definition hold_blocks_availability (tx_state : string) (is_paid : bool) (age_secs ttl_secs : Z)
    : bool :=
  if is_paid then true
  else
    let state := to_ascii_lowercase (trim tx_state) in
    if String.eqb state "cancelled" then false
    else if String.eqb state "ok" then true
    else if existsb (String.eqb state) ["waiting_payment"; "pending"; "draft"]
    then age_secs <=? Z.max ttl_secs 1
    else true.

Definition availability_ok (units_available units start_ts_ms end_ts_ms : Z) : bool :=
  (units <=? units_available) && (1 <=? units) && (start_ts_ms <? end_ts_ms).

Module FreeObject.
#[projections(primitive)]
Record FreeObject := mk { id : Z; name : string; code : string; pic : string }.
End FreeObject.
Notation FreeObject := FreeObject.FreeObject.

Module Availability.
#[projections(primitive)]
Record Availability := mk {
  ok : bool;
  units_available : Z;
  free_objects : list FreeObject;
}.
End Availability.
Notation Availability := Availability.Availability.

Definition availability_to_json (a : Availability) : Value :=
  json_object
    [("ok", Bool a.(Availability.ok));
     ("units_available", json_int a.(Availability.units_available));
     ("free_objects", Array ((fun o => json_object
        [("id", json_int o.(FreeObject.id)); ("name", Str o.(FreeObject.name));
         ("code", Str o.(FreeObject.code)); ("pic", Str o.(FreeObject.pic))])
        <$> a.(Availability.free_objects)))].

(** ** Product settings *)

Definition DEFAULT_RESERVATION_HOLD_TTL_SECONDS : Z := 3600.

(** [f.trunc() as i64] of an [f64] given by its bits: truncation towards zero,
    saturating, zero for a NaN. *)
Definition f64_trunc_as_i64 (bits : Z) : Z :=
  let e := Z.land (Z.shiftr bits 52) 2047 in
  let m := Z.land bits (2 ^ 52 - 1) in
  let mag :=
    if e =? 2047 then if m =? 0 then 2 ^ 63 else 0
    else if e =? 0 then 0
    else Z.shiftl (2 ^ 52 + m) (e - 1075) in
  let v := if Z.testbit bits 63 then - mag else mag in
  Z.max (- 2 ^ 63) (Z.min (2 ^ 63 - 1) v).

Definition json_num_to_int (v : Value) : option Z :=
  match v with
  | Num n =>
      match number_as_i64 n with
      | Some i => Some i
      | None => match n with
          | Float bits => Some (f64_trunc_as_i64 bits)
          | _ => Some (2 ^ 63 - 1) (* beyond [i64]: the cast from [f64] saturates *)
          end
      end
  | _ => None
  end.

Section Reservation.
Context `{!Chrono} `{!SerdeJson} `{!Order}.
Notation M := (M Db).

Definition json_trim_string (v : Value) : string :=
  match v with Str s => trim s | Null => "" | other => to_string other end.

(** The setting under a key of an object, when it is a positive number. *)
Definition positive_setting (v : Value) (key : string) (dflt : Z) : Z :=
  match (match v with Object m => assoc key m | _ => None end) ≫= json_num_to_int with
  | Some n => if 0 <? n then n else dflt
  | None => dflt
  end.

Definition reservation_inventory_from_json_value (v : Value) : string * Z :=
  match v with
  | Object m =>
      let mode_raw := default "" (json_trim_string <$> assoc "reservation_inventory_mode" m) in
      (if eq_ignore_ascii_case mode_raw "objects" then "objects" else "capacity",
       positive_setting v "reservation_capacity" 1)
  | _ => ("capacity", 1)
  end.
Definition reservation_inventory_from_product_json (raw : string) : string * Z :=
  reservation_inventory_from_json_value (default Null (from_str raw)).

Definition reservation_hold_ttl_from_json_value (v : Value) : Z :=
  positive_setting v "reservation_hold_ttl_seconds" DEFAULT_RESERVATION_HOLD_TTL_SECONDS.
Definition reservation_hold_ttl_from_product_json (raw : string) : Z :=
  reservation_hold_ttl_from_json_value (default Null (from_str raw)).

(** *** Picture links *)

Fixpoint split_first (sep : Ascii.ascii) (l : list Ascii.ascii) : list Ascii.ascii :=
  match l with
  | [] => []
  | c :: l => if Ascii.eqb c sep then [] else c :: split_first sep l
  end.
Definition strip_prefix (p s : string) : string :=
  if String.prefix p s then of_bytes (drop (String.length p) (bytes s)) else s.
Definition is_http (s : string) : bool := String.prefix "http://" s || String.prefix "https://" s.

Definition pic_hash_only (pic : string) : string :=
  let p := trim pic in
  if is_empty p then ""
  else if is_http p then p
  else of_bytes (split_first (Ascii.ascii_of_N 63) (bytes (strip_prefix "/fs/" p))).
Definition pic_url (pic : string) : string :=
  let h := pic_hash_only pic in
  if is_empty h then "" else if is_http h then h else "/fs/" +:+ h +:+ "?v=thumb".

(** ** Queries *)

(** Whether a reservation row of the site counts against a product in a window:
    the joins and the [WHERE] clause of [overlapping_reservation_load]. *)
Definition reservation_counts (now : DateTime) (d : Db) (site_iid product_id : Z)
    (start end_ : DateTime) (hold_ttl_seconds : Z)
    (e : (TxKey * (Z * Z)) * Row ReservationRow) : bool :=
  let '((k, (item_id, _)), row) := e in
  let r := row.(cols) in
  (k.1 =? site_iid) && live row &&
  match d.(t_tx) !! k with
  | None => false
  | Some trow =>
      let t := trow.(cols) in
      let item := d.(t_item) !! (k, item_id) in
      live trow
      && negb (String.eqb t.(TxRow.state) "cancelled")
      && (t.(TxRow.is_paid)
          || negb (existsb (String.eqb t.(TxRow.state)) ["waiting_payment"; "pending"; "draft"])
          || (timestamp_micros now - timestamp_micros trow.(created_ts)
                <=? Z.max hold_ttl_seconds 1 * 1000000))
      && match item with None => true | Some irow => live irow end
      && ((r.(ReservationRow.product_id) =? product_id)
          || (r.(ReservationRow.product_id) =? 0)
             && match item with
                | Some irow => irow.(cols).(ItemRow.product_id) =? product_id
                | None => false end)
      && match r.(ReservationRow.start_ts) with Some s => dt_ltb s end_ | None => false end
      && match r.(ReservationRow.end_ts) with Some e => dt_ltb start e | None => false end
  end.

(** The loop over the rows: quantity and busy objects. *)
Definition reservation_load (rows : list ReservationRow) : Z * gset Z :=
  foldl (fun '(qty_sum, busy) r =>
    ((qty_sum + Z.max r.(ReservationRow.qty) 0)%i64,
     if 0 <? r.(ReservationRow.site_object_id)
     then {[r.(ReservationRow.site_object_id)]} ∪ busy else busy)) (0, ∅) rows.

Definition overlapping_reservation_load (site_iid product_id start_ts_ms end_ts_ms
    hold_ttl_seconds : Z) : M (Z * gset Z) :=
  match from_timestamp_millis start_ts_ms, from_timestamp_millis end_ts_ms with
  | Some start, Some end_ =>
      rows ← query (fun now d =>
        (fun e => e.2.(cols)) <$>
          filter (fun e => reservation_counts now d site_iid product_id start end_
                             hold_ttl_seconds e = true) (order d.(t_reservation)));
      mret (reservation_load rows)
  | _, _ => mret (0, ∅)
  end.

(** [ORDER BY sort_order, id] *)
Definition by_sort_order (a b : Z * Row ObjectRow) : Prop :=
  a.2.(cols).(ObjectRow.sort_order) < b.2.(cols).(ObjectRow.sort_order) \/
  (a.2.(cols).(ObjectRow.sort_order) = b.2.(cols).(ObjectRow.sort_order) /\ a.1 <= b.1).
#[export] Instance by_sort_order_dec a b : Decision (by_sort_order a b).
Proof. unfold by_sort_order. apply _. Defined.

Definition object_counts (site_iid product_id : Z) (e : Z * Row ObjectRow) : bool :=
  let o := e.2.(cols) in
  (o.(ObjectRow.site_iid) =? site_iid)
  && bool_decide (o.(ObjectRow.product_id) = Some product_id)
  && live e.2 && o.(ObjectRow.is_active) && o.(ObjectRow.can_be_reserved).

Definition free_object (e : Z * Row ObjectRow) : FreeObject :=
  let o := e.2.(cols) in
  {| FreeObject.id := e.1; FreeObject.name := o.(ObjectRow.name);
     FreeObject.code := o.(ObjectRow.code); FreeObject.pic := pic_url o.(ObjectRow.pic) |}.

Definition guest_reservation_availability (site_iid product_id start_ts_ms end_ts_ms units : Z)
    : M Availability :=
  if (site_iid <=? 0) || (product_id <=? 0)
  then mret {| Availability.ok := false; Availability.units_available := 0;
               Availability.free_objects := [] |}
  else
    product_json ← query (fun _ d =>
      (fun r => to_string r.(cols).(ProductRow.product_json)) <$>
        t_get (site_iid, product_id) d.(t_product));
    let product_json := default "{}" product_json in
    let '(inventory_mode, capacity) := reservation_inventory_from_product_json product_json in
    let hold_ttl := reservation_hold_ttl_from_product_json product_json in
    objects ← query (fun _ d => merge_sort by_sort_order
      (filter (fun e => object_counts site_iid product_id e = true) (order d.(t_object))));
    let linked := Z.of_nat (length objects) in
    let pool_size := reservation_pool_size linked inventory_mode capacity in
    '(overlapping_qty, busy) ←
      overlapping_reservation_load site_iid product_id start_ts_ms end_ts_ms hold_ttl;
    let units_available := units_left pool_size overlapping_qty in
    let free_objects :=
      free_object <$> filter (fun e => e.1 ∉ (busy : gset Z)) objects in
    mret {| Availability.ok := availability_ok units_available units start_ts_ms end_ts_ms;
            Availability.units_available := units_available;
            Availability.free_objects := free_objects |}.

End Reservation.

(** ** What the calendar answers

    The availability of a bookable product, described by the object and
    reservation rows alone. *)

Section Availability.
Context {chrono : Chrono} {serde : SerdeJson} {ord : Order}.

(** A reservation that takes a unit of the product in the window: its order is
    there, not cancelled, and paid, or in a state that needs no payment, or not
    older than the holding time; its line is not deleted, it is for the product
    (or says nothing and its line is), and its time meets the window. *)
Definition unpaid_states : list string := ["waiting_payment"; "pending"; "draft"].
Record blocks (now : DateTime) (d : Db) (site_iid product_id start_ts_ms end_ts_ms ttl : Z)
    (k : TxKey * (Z * Z)) (row : Row ReservationRow) : Prop := {
  bl_row : d.(t_reservation) !! k = Some row;
  bl_live : row.(deleted_ts) = None;
  bl_site : k.1.1 = site_iid;
  bl_order : exists o, d.(t_tx) !! k.1 = Some o /\ o.(deleted_ts) = None /\
    o.(cols).(TxRow.state) <> "cancelled" /\
    (o.(cols).(TxRow.is_paid) = true \/ o.(cols).(TxRow.state) ∉ unpaid_states \/
     timestamp_micros now <= timestamp_micros o.(created_ts) + Z.max ttl 1 * 1000000);
  bl_item : forall i, d.(t_item) !! (k.1, k.2.1) = Some i -> i.(deleted_ts) = None;
  bl_product : row.(cols).(ReservationRow.product_id) = product_id \/
    row.(cols).(ReservationRow.product_id) = 0 /\
    exists i, d.(t_item) !! (k.1, k.2.1) = Some i /\ i.(cols).(ItemRow.product_id) = product_id;
  bl_window : exists start end_ from until,
    from_timestamp_millis start_ts_ms = Some start /\ from_timestamp_millis end_ts_ms = Some end_ /\
    row.(cols).(ReservationRow.start_ts) = Some from /\ row.(cols).(ReservationRow.end_ts) = Some until /\
    dt_ltb from end_ = true /\ dt_ltb start until = true;
}.
(** A unit of the product that can be booked. *)
Definition bookable (d : Db) (site_iid product_id id : Z) : Prop := exists o,
  d.(t_object) !! id = Some o /\ o.(deleted_ts) = None /\
  o.(cols).(ObjectRow.site_iid) = site_iid /\ o.(cols).(ObjectRow.product_id) = Some product_id /\
  o.(cols).(ObjectRow.is_active) = true /\ o.(cols).(ObjectRow.can_be_reserved) = true.
(** The size of the pool: the units there are; without any, none if the product
    is booked by units, and the configured capacity otherwise *)
Definition pool_is (units : Z) (mode : string) (capacity pool : Z) : Prop :=
  (0 < units /\ pool = units) \/
  (units = 0 /\ ((mode = "objects" /\ pool = 0) \/ (mode = "capacity" /\ pool = Z.max capacity 1))).

Lemma not_deleted {A} (r : Row A) : live r = true <-> r.(deleted_ts) = None.
Proof. unfold live. by destruct (deleted_ts r). Qed.
Lemma not_in_strings s l : negb (existsb (String.eqb s) l) = true <-> s ∉ l.
Proof.
  rewrite negb_true_iff, <- not_true_iff_false, existsb_exists. apply not_iff_compat. split.
  - intros (x & Hin & ->%String.eqb_eq). by apply list_elem_of_In.
  - intros Hin%list_elem_of_In. exists s. by rewrite String.eqb_refl.
Qed.
Lemma order_blocks now ttl (o : Row TxRow) :
  o.(cols).(TxRow.is_paid)
  || negb (existsb (String.eqb o.(cols).(TxRow.state)) unpaid_states)
  || (timestamp_micros now - timestamp_micros o.(created_ts) <=? Z.max ttl 1 * 1000000) = true <->
  o.(cols).(TxRow.is_paid) = true \/ o.(cols).(TxRow.state) ∉ unpaid_states \/
  timestamp_micros now <= timestamp_micros o.(created_ts) + Z.max ttl 1 * 1000000.
Proof.
  rewrite !orb_true_iff, not_in_strings, Z.leb_le.
  replace (timestamp_micros now - timestamp_micros o.(created_ts) <= Z.max ttl 1 * 1000000) with
    (timestamp_micros now - timestamp_micros o.(created_ts) <= Z.max ttl 1 * 1000000) by done.
  split; [intros [[?|?]|?]|intros [?|[?|?]]]; auto; [right; right|right]; lia.
Qed.
Lemma counts_blocks now d s p st en ttl start end_ k row :
  from_timestamp_millis st = Some start -> from_timestamp_millis en = Some end_ ->
  d.(t_reservation) !! k = Some row ->
  reservation_counts now d s p start end_ ttl (k, row) = true <-> blocks now d s p st en ttl k row.
Proof.
  intros Hst Hen Hk. destruct k as [k [item_id n]]. unfold reservation_counts.
  rewrite !andb_true_iff, Z.eqb_eq, not_deleted. split.
  - intros [[Hs Hl] Ho]. destruct (t_tx d !! k) as [o|] eqn:Eo; [|done]. cbv zeta in Ho.
    rewrite !andb_true_iff, not_deleted, order_blocks in Ho.
    destruct Ho as [[[[[[Hol Hoc] Hop] Hi] Hp] Hf] Hu]. apply negb_true_iff, String.eqb_neq in Hoc.
    split; cbn [fst snd]; try done.
    + by exists o.
    + intros i Ei. rewrite Ei in Hi. by apply not_deleted.
    + apply orb_true_iff in Hp as [Hp|[Hp Hj]%andb_true_iff]; [left; lia|right]. split; [lia|].
      destruct (t_item d !! (k, item_id)) as [i|]; [|done]. exists i. split; [done|]. lia.
    + destruct (ReservationRow.start_ts _) as [f|]; [|done]. destruct (ReservationRow.end_ts _) as [u|]; [|done].
      by exists start, end_, f, u.
  - intros [_ Hl Hs (o & Eo & Hol & Hoc & Hop) Hi Hp (start' & end' & f & u & Hst' & Hen' & Ef & Eu & Hf & Hu)].
    cbn [fst snd] in *. assert (start' = start) as -> by congruence. assert (end' = end_) as -> by congruence.
    split; [done|]. rewrite Eo. cbv zeta. rewrite Ef, Eu, !andb_true_iff, not_deleted, order_blocks.
    split_and!; try done.
    + by apply negb_true_iff, String.eqb_neq.
    + destruct (t_item d !! (k, item_id)) as [i|]; [|done]. by apply not_deleted, Hi.
    + apply orb_true_iff. destruct Hp as [Hp|(Hp & i & Ei & Hj)]; [left; lia|right].
      rewrite Ei. apply andb_true_iff. split; lia.
Qed.
Lemma object_bookable d s p id : (exists o, d.(t_object) !! id = Some o /\ object_counts s p (id, o) = true) <->
  bookable d s p id.
Proof.
  unfold bookable, object_counts. cbn. split; intros (o & Ho & H); exists o; (split; [done|]); revert H;
    rewrite !andb_true_iff, Z.eqb_eq, bool_decide_eq_true, not_deleted; tauto.
Qed.

Lemma load_busy rows id :
  id ∈ (reservation_load rows).2 <->
  0 < id /\ exists r, r ∈ rows /\ r.(ReservationRow.site_object_id) = id.
Proof.
  unfold reservation_load.
  enough (forall q (b : gset Z), id ∈ (foldl (fun '(qty_sum, busy) r =>
      ((qty_sum + Z.max r.(ReservationRow.qty) 0)%i64,
       if 0 <? r.(ReservationRow.site_object_id)
       then {[r.(ReservationRow.site_object_id)]} ∪ busy else busy)) (q, b) rows).2 <->
    id ∈ b \/ (0 < id /\ exists r, r ∈ rows /\ r.(ReservationRow.site_object_id) = id)) as Hg.
  { rewrite Hg. set_solver. }
  induction rows as [|r rows IH]; intros q b; cbn [foldl].
  - cbn. split; [by left|]. intros [|(_ & r & Hr & _)]; [done|]. by apply not_elem_of_nil in Hr.
  - rewrite IH. destruct (Z.ltb_spec 0 r.(ReservationRow.site_object_id)) as [Hp|Hp].
    + rewrite elem_of_union, elem_of_singleton. split.
      * intros [[->|]|(? & r' & Hr' & ?)]; [right; split; [done|]; exists r; split; [left|done]|by left|].
        right. split; [done|]. exists r'. split; [by right|done].
      * intros [|(? & r' & [->|Hr']%list.elem_of_cons & ?)]; [by left; right|by left; left|].
        right. split; [done|]. by exists r'.
    + split.
      * intros [|(? & r' & Hr' & ?)]; [by left|]. right. split; [done|]. exists r'. split; [by right|done].
      * intros [|(? & r' & [->|Hr']%list.elem_of_cons & ?)]; [by left|lia|].
        right. split; [done|]. by exists r'.
Qed.
Lemma load_qty rows :
  (reservation_load rows).1 = i64_sum ((fun r => Z.max r.(ReservationRow.qty) 0) <$> rows).
Proof.
  unfold reservation_load, i64_sum.
  enough (forall q b, (foldl (fun '(qty_sum, busy) r =>
      ((qty_sum + Z.max r.(ReservationRow.qty) 0)%i64,
       if 0 <? r.(ReservationRow.site_object_id)
       then {[r.(ReservationRow.site_object_id)]} ∪ busy else busy)) (q, b : gset Z) rows).1
    = foldl i64_add q ((fun r => Z.max r.(ReservationRow.qty) 0) <$> rows)) as Hg by apply Hg.
  induction rows as [|r rows IH]; intros q b; [done|]. cbn [foldl fmap list_fmap]. apply IH.
Qed.

(** The rows counted, each once. *)
Lemma overlapping_ok s p st en ttl e w q busy w' :
  overlapping_reservation_load s p st en ttl e w = (Ok (q, busy), w') ->
  w'.(db) = w.(db) /\ exists n l, let now := default (e.(env_clock) n) w.(txn_now) in
    NoDup l.*1 /\ (forall k r, (k, r) ∈ l <-> blocks now w.(db) s p st en ttl k r) /\
    (q, busy) = reservation_load ((fun x => x.2.(cols)) <$> l).
Proof.
  unfold overlapping_reservation_load. intros E. cbv zeta.
  destruct (from_timestamp_millis st) as [start|] eqn:Es.
  2:{ injection E as <- <- <-. split; [done|]. exists 0%nat, [].
      split; [constructor|]. split; [|done]. intros k r. split; [by intros ?%not_elem_of_nil|].
      intros [_ _ _ _ _ _ (? & ? & ? & ? & Hs & _)]. congruence. }
  destruct (from_timestamp_millis en) as [end_|] eqn:Ee.
  2:{ injection E as <- <- <-. split; [done|]. exists 0%nat, [].
      split; [constructor|]. split; [|done]. intros k r. split; [by intros ?%not_elem_of_nil|].
      intros [_ _ _ _ _ _ (? & ? & ? & ? & _ & Hs & _)]. congruence. }
  apply bind_ok in E as (rows & w1 & Eq & E). apply query_now in Eq as ([n ->] & Hd & _).
  apply ret_ok in E as [E ->]. split; [done|]. exists n.
  set (l := filter _ _) in E. exists l. split; [|split; [|exact E]].
  - apply selected_nodup.
  - intros k r. unfold l. rewrite selected_elem. split.
    + intros [Hk Hc]. by apply (counts_blocks _ _ _ _ _ _ _ _ _ _ _ Es Ee Hk).
    + intros Hb. pose proof (bl_row _ _ _ _ _ _ _ _ _ Hb) as Hk. split; [done|].
      by apply (counts_blocks _ _ _ _ _ _ _ _ _ _ _ Es Ee Hk).
Qed.

(** The settings of the product, from its JSON; a product that is not there has
    the defaults. *)
Definition inventory (d : Db) (site_iid product_id : Z) : string * Z * Z :=
  let raw := default "{}" ((fun r => to_string r.(cols).(ProductRow.product_json)) <$>
    t_get (site_iid, product_id) d.(t_product)) in
  (reservation_inventory_from_product_json raw, reservation_hold_ttl_from_product_json raw).

Lemma inventory_pool units mode capacity ttl d s p : inventory d s p = (mode, capacity, ttl) -> 0 <= units ->
  pool_is units mode capacity (reservation_pool_size units mode capacity).
Proof.
  intros E Hu. unfold pool_is, reservation_pool_size. destruct (Z.ltb_spec 0 units) as [|Hn]; [by left|right].
  split; [lia|]. assert (mode = "objects" \/ mode = "capacity") as [->| ->]; [|by left|by right].
  revert E. unfold inventory, reservation_inventory_from_product_json. generalize (default Null (from_str
    (default "{}" ((fun r => to_string r.(cols).(ProductRow.product_json)) <$> t_get (s, p) d.(t_product))))).
  intros [] [= <- _ _]; try (by right). case_match; [by left|by right].
Qed.
Lemma units_left_spec pool q : 0 <= q < 2 ^ 63 -> pool < 2 ^ 63 -> units_left pool q = Z.max (pool - q) 0.
Proof.
  intros Hq Hp. unfold units_left. destruct (Z.leb_spec pool 0); [lia|]. unfold i64_sub.
  rewrite to_i64_id; [done|]. unfold in_i64. lia.
Qed.

End Availability.

(** C22. The calendar of a bookable product.  A unit is offered exactly
    when it is an active bookable object of the product ([bookable]) and no
    reservation that takes a unit in the window ([blocks]) names it; the number of
    units left is the size of the pool ([pool_is]: the objects, or the configured
    capacity) less the quantities of those reservations, and never negative; the
    window is accepted when it is not empty and the units asked for are left.  The
    age of an unpaid order is taken at a time of the request. *)
Theorem guest_availability_spec {chrono : Chrono} {serde : SerdeJson} {ord : Order}
    site_iid product_id start_ts_ms end_ts_ms units e w a w' :
  0 < site_iid -> 0 < product_id ->
  guest_reservation_availability site_iid product_id start_ts_ms end_ts_ms units e w = (Ok a, w') ->
  let '(mode, capacity, ttl) := inventory w.(db) site_iid product_id in
  let ids := FreeObject.id <$> a.(Availability.free_objects) in
  w'.(db) = w.(db) /\
  exists n rows objects pool, let now := default (e.(env_clock) n) w.(txn_now) in
    let taken := Zsum ((fun x => Z.max x.2.(cols).(ReservationRow.qty) 0) <$> rows) in
    NoDup rows.*1 /\
    (forall k r, (k, r) ∈ rows <->
       blocks now w.(db) site_iid product_id start_ts_ms end_ts_ms ttl k r) /\
    NoDup objects /\ (forall id, id ∈ objects <-> bookable w.(db) site_iid product_id id) /\
    NoDup ids /\
    (forall id, id ∈ ids <-> bookable w.(db) site_iid product_id id /\
       (0 < id -> forall k r, (k, r) ∈ rows -> r.(cols).(ReservationRow.site_object_id) <> id)) /\
    pool_is (Z.of_nat (length objects)) mode capacity pool /\
    (pool < 2 ^ 63 -> taken < 2 ^ 63 ->
       a.(Availability.units_available) = Z.max (pool - taken) 0) /\
    (a.(Availability.ok) = true <->
       1 <= units <= a.(Availability.units_available) /\ start_ts_ms < end_ts_ms).
Proof.
  intros Hs Hp E. unfold guest_reservation_availability in E.
  destruct (Z.leb_spec site_iid 0); [lia|]. destruct (Z.leb_spec product_id 0); [lia|].
  cbn [orb] in E. apply bind_ok in E as (json & w1 & E1 & E). apply query_now in E1 as ([n1 ->] & Hd1 & Hn1).
  destruct (inventory w.(db) site_iid product_id) as [[mode capacity] ttl] eqn:Einv.
  pose proof (fun u => inventory_pool u _ _ _ _ _ _ Einv) as Hpool. revert Einv.
  unfold inventory. cbv zeta in E. set (raw := default "{}" _) in *. clearbody raw.
  destruct (reservation_inventory_from_product_json raw) as [mode' capacity'].
  intros [= -> -> Httl]. rewrite Httl in E.
  apply bind_ok in E as (objs & w2 & E2 & E). apply query_now in E2 as ([n2 ->] & Hd2 & Hn2).
  rewrite Hd1 in E. set (objs := merge_sort _ _) in E. cbv zeta.
  apply bind_ok in E as ([q busy] & w3 & E3 & E). apply overlapping_ok in E3 as [Hd3 (n & rows & Hn & Hr & Hl)].
  rewrite Hn2, Hn1, Hd2, Hd1 in Hr. rewrite Hd2, Hd1 in Hd3.
  apply ret_ok in E as [-> ->]. split; [done|].
  assert (forall id o, (id, o) ∈ objs <-> w.(db).(t_object) !! id = Some o /\
    object_counts site_iid product_id (id, o) = true) as Ho.
  { intros id o. unfold objs. rewrite merge_sort_Permutation. apply selected_elem. }
  assert (NoDup objs.*1) as Hno.
  { unfold objs. rewrite merge_sort_Permutation. apply selected_nodup. }
  assert (forall id, id ∈ objs.*1 <-> bookable w.(db) site_iid product_id id) as Hb.
  { intros id. rewrite list_elem_of_fmap, <- object_bookable. split.
    - intros ([id' o] & -> & Hin). exists o. by apply Ho.
    - intros (o & Hin%Ho). by exists (id, o). }
  exists n, rows, objs.*1, (reservation_pool_size (Z.of_nat (length objs)) mode capacity). do 4 (split; [done|]).
  assert (forall id, id ∈ busy <-> 0 < id /\ exists k r, (k, r) ∈ rows /\
    r.(cols).(ReservationRow.site_object_id) = id) as Hbusy.
  { intros id. apply (f_equal snd) in Hl. cbn in Hl. rewrite Hl, load_busy. split.
    - intros (? & c & ([k r] & -> & Hin)%list_elem_of_fmap & ?). eauto.
    - intros (? & k & r & Hin & ?). split; [done|]. exists r.(cols). split; [|done].
      by apply (list_elem_of_fmap_2 (fun x => x.2.(cols)) _ (k, r)). }
  cbn [Availability.free_objects Availability.units_available Availability.ok].
  rewrite <- list_fmap_compose. split; [|split; [|split; [|split]]].
  - eapply sublist_NoDup; [exact Hno|]. apply fmap_sublist, sublist_filter.
  - intros id. rewrite list_elem_of_fmap, <- Hb. split.
    + intros ([id' o] & -> & [Hni Hin]%list_elem_of_filter). cbn in *. split.
      * by apply (list_elem_of_fmap_2 fst _ (id', o)).
      * intros Hpos k r Hkr Heq. apply Hni, Hbusy. eauto.
    + intros [([id' o] & -> & Hin)%list_elem_of_fmap Hfree]. exists (id', o). split; [done|].
      apply list_elem_of_filter. split; [|done]. cbn. intros (Hpos & k & r & Hkr & Heq)%Hbusy.
      by eapply Hfree.
  - rewrite length_fmap. apply Hpool. lia.
  - intros Hpl Hq. apply (f_equal fst) in Hl. cbn in Hl. rewrite Hl, load_qty, i64_sum_eq, <- list_fmap_compose.
    unfold compose. set (qs := (fun x => Z.max x.2.(cols).(ReservationRow.qty) 0) <$> rows) in *.
    assert (0 <= Zsum qs) as Hqs.
    { apply Zsum_nonneg, list.Forall_fmap, list.Forall_forall. intros x _. cbn. lia. }
    rewrite to_i64_id by (unfold in_i64; lia). by apply units_left_spec.
  - unfold availability_ok. rewrite !andb_true_iff, !Z.leb_le, Z.ltb_lt. lia.
Qed.
