(* ===== verification/Guest.v ===== *)
(** * Guest orders ([servers/crates/mod_tx/src]: [guest_order.rs],
      [guest_order_list.rs], [guest_tx_meta.rs])

    Orders placed from a published site without an account. *)
From stdpp Require Import sorting pretty.
From S2P Require Import Prelude Strs Ts TxProto World Json TxData Db EnumMap Persist Load.
From S2P Require Import Finalize StockApply Grant TxApi Reservation.

Module ReservationHold.
#[projections(primitive)]
Record ReservationHold := mk {
  product_id : Z;
  start_ts_ms : Z;
  end_ts_ms : Z;
  site_object_id : Z;
  qty : Z;
}.
End ReservationHold.
Notation ReservationHold := ReservationHold.ReservationHold.

(** ** Holds within one order *)

(** What an earlier reservation of the same order leaves to a later one. *)
Definition hold_step (product_id start_ts_ms end_ts_ms : Z) (acc : list Z * Z)
    (hold : ReservationHold) : list Z * Z :=
  let '(free_ids, units_available) := acc in
  if negb (hold.(ReservationHold.product_id) =? product_id) then acc
  else if negb (reservation_windows_overlap hold.(ReservationHold.start_ts_ms)
                  hold.(ReservationHold.end_ts_ms) start_ts_ms end_ts_ms) then acc
  else
    (if 0 <? hold.(ReservationHold.site_object_id)
     then filter (fun id => id <> hold.(ReservationHold.site_object_id)) free_ids else free_ids,
     Z.max (units_available - hold.(ReservationHold.qty))%i64 0).

Definition availability_after_holds (avail : Availability)
    (product_id start_ts_ms end_ts_ms : Z) (holds : list ReservationHold) : list Z * Z :=
  foldl (hold_step product_id start_ts_ms end_ts_ms)
    (FreeObject.id <$> avail.(Availability.free_objects), avail.(Availability.units_available))
    holds.

Definition guest_reservation_slot_ok (site_object_id qty : Z) (free_object_ids : list Z)
    (units_available : Z) : result () :=
  if qty <? 1 then Err "reservation qty required"
  else if 0 <? site_object_id then
    if negb (bool_decide (site_object_id ∈ free_object_ids))
    then Err "reservation unit is not available" else Ok tt
  else if units_available <? qty then Err "not enough units available"
  else Ok tt.

Definition guest_progress_label (state : string) : string :=
  match_str state
    [("waiting_payment", "Menunggu pembayaran"); ("pending", "Diproses");
     ("ok", "Selesai"); ("cancelled", "Dibatalkan")] "Diproses".

Module GuestOrderSummary.
#[projections(primitive)]
Record GuestOrderSummary := mk {
  tx_id : Z;
  state : string;
  total : Z;
  time_ts_ms : Z;
  progress_label : string;
}.
End GuestOrderSummary.
Notation GuestOrderSummary := GuestOrderSummary.GuestOrderSummary.

Section Guest.
Context `{!Chrono} `{!SerdeJson} `{!Order}.
Notation M := (M Db).

Definition guest_site_owner (site_iid : Z) : M Z :=
  published ← site_published site_iid;
  (if negb published then throw "site not published" else mret tt);;
  row ← query (fun _ d =>
    match t_get site_iid d.(t_identity) with
    | Some r => if String.eqb r.(cols).(IdentityRow.kind) "site"
                then Some r.(cols).(IdentityRow.owner_iid) else None
    | None => None
    end);
  owner ← lift (ok_or row "site not found");
  lift (ok_or owner "owner_iid is null").

(** ** Prices *)

(** The reservations of one line, each checked against the calendar and against
    the holds of the order so far. *)
Definition reserve_step (site_iid product_id : Z) (holds : list ReservationHold)
    (res : TxItemReservation) : M (list ReservationHold) :=
  let start := res.(TxItemReservation.start_ts_ms) in
  let end_ := res.(TxItemReservation.end_ts_ms) in
  (if end_ <=? start then throw "reservation end must be after start" else mret tt);;
  (if res.(TxItemReservation.qty) <? 1 then throw "reservation qty required" else mret tt);;
  avail ← guest_reservation_availability site_iid product_id start end_
            res.(TxItemReservation.qty);
  let '(free_ids, units_available) :=
    availability_after_holds avail product_id start end_ holds in
  lift (guest_reservation_slot_ok res.(TxItemReservation.site_object_id)
          res.(TxItemReservation.qty) free_ids units_available);;
  mret (holds ++ [{| ReservationHold.product_id := product_id;
                     ReservationHold.start_ts_ms := start;
                     ReservationHold.end_ts_ms := end_;
                     ReservationHold.site_object_id := res.(TxItemReservation.site_object_id);
                     ReservationHold.qty := res.(TxItemReservation.qty) |}]).

Definition guest_item_qty (item : TxItem) : result Z :=
  match item.(TxItem.reservations) with
  | [] => Ok (if item.(TxItem.qty) <=? 0 then 1 else item.(TxItem.qty))
  | rs =>
      let billable := reservation_billable_qty rs in
      if (billable <? 1) || (2 ^ 31 - 1 <? billable) then Err "reservation qty required"
      else Ok (to_i32 billable)
  end.

Definition guest_item_reprice (site_iid : Z) (item : TxItem) (holds : list ReservationHold)
    : M (TxItem * list ReservationHold) :=
  (if item.(TxItem.product_id) <=? 0 then throw "product_id required" else mret tt);;
  qty ← lift (guest_item_qty item);
  let item := {| item with TxItem.qty := qty |} in
  let reserved := bool_decide (item.(TxItem.reservations) <> []) in
  row ← query (fun _ d => match t_get (site_iid, item.(TxItem.product_id)) d.(t_product) with
    | Some r => if r.(cols).(ProductRow.is_archived) then None else Some r.(cols)
    | None => None end);
  row ← lift (ok_or row ("product not found: " +:+ pretty item.(TxItem.product_id)));
  (if reserved && negb row.(ProductRow.can_reserve)
   then throw ("product cannot be reserved: " +:+ pretty item.(TxItem.product_id)) else mret tt);;
  (if negb row.(ProductRow.can_sell) then throw ("product not for sale: " +:+ pretty item.(TxItem.product_id)) else mret tt);;
  let item := {| item with
    TxItem.price := if item.(TxItem.price) <=? 0 then row.(ProductRow.price)
                    else item.(TxItem.price);
    TxItem.product_rev := row.(ProductRow.rev) |} in
  holds ← foldM (reserve_step site_iid item.(TxItem.product_id)) holds item.(TxItem.reservations);
  mret (item, holds).

Definition guest_order_reprice (site_iid : Z) (tx : Tx) : M Tx :=
  (if is_empty (trim tx.(Tx.subject_name)) then throw "subject_name required" else mret tt);;
  (match tx.(Tx.items) with [] => throw "items required" | _ => mret tt end);;
  '(items, _) ← foldM (fun '(items, holds) item =>
      '(item, holds) ← guest_item_reprice site_iid item holds;
      mret (items ++ [item], holds)) ([], []) tx.(Tx.items);
  mret {| tx with Tx.items := items |}.

(** ** [guest_order_put] *)

Definition guest_order_normalize (site_iid : Z) (tx : Tx) : M Tx :=
  tx_id ← next_id;
  time_ts_ms ← (if tx.(Tx.time_ts_ms) =? 0
                then now ← utc_now; mret (timestamp_millis now) else mret tx.(Tx.time_ts_ms));
  mret {| tx with
    Tx.tx_id := tx_id;
    Tx.site_iid := site_iid;
    Tx.type := enum_to_i32 TxType.Sale;
    Tx.state := enum_to_i32 TxState.WaitingPayment;
    Tx.input_mode := enum_to_i32 TxInputMode.Sell;
    Tx.input_source := enum_to_i32 TxInputSource.Web;
    Tx.is_task_assigned := true;
    Tx.time_ts_ms := time_ts_ms;
    Tx.created_ts_ms := if tx.(Tx.created_ts_ms) =? 0 then time_ts_ms else tx.(Tx.created_ts_ms) |}.

Definition update_tx_data (site_iid tx_id : Z) (only_live : bool) (v : Value) : M Z :=
  sql (fun now d =>
    let P k r := bool_decide (k = (site_iid, tx_id)) && (negb only_live || live r) in
    let '(t, n) := t_update P (set_cols now (fun c => {| c with TxRow.tx_data_json := v |}))
                     d.(t_tx) in
    Ok (n, {| d with t_tx := t |})).

Definition guest_tx_meta_patch (site_iid tx_id buyer_user_iid : Z) (visitor_id : string) : M () :=
  if (buyer_user_iid <=? 0) && is_empty (trim visitor_id) then mret tt
  else
    row ← query (fun _ d => (fun r => r.(cols).(TxRow.tx_data_json)) <$>
                            t_get (site_iid, tx_id) d.(t_tx));
    let base := default (json_object []) row in
    let merged := guest_tx_meta_merge base buyer_user_iid visitor_id in
    update_tx_data site_iid tx_id false merged;;
    mret tt.

(** The transaction of [guest_order_put]. *)
Definition guest_order_save (site_iid owner_iid : Z) (tx : Tx) : M () :=
  let '(generated_count, manual_count) := tx_acc_counts tx in
  transaction (
    tx_children_del site_iid tx.(Tx.tx_id);;
    tx_header_put owner_iid tx generated_count manual_count;;
    tx ← tx_children_put tx;
    let state := try_from_or TxState.WaitingPayment tx.(Tx.state) in
    (if bool_decide (state = TxState.Ok)
     then product_stock_apply site_iid [] tx.(Tx.stocks) else mret tt);;
    mret (tt, true)).

Definition guest_order_put (site_iid : Z) (tx : option Tx) (buyer_user_iid : Z)
    (visitor_id : string) : M (option Tx) :=
  (if site_iid <=? 0 then throw "site_iid required" else mret tt);;
  owner_iid ← guest_site_owner site_iid;
  tx ← lift (ok_or tx "tx required");
  (if 0 <? tx.(Tx.tx_id) then throw "guest orders cannot update existing tx" else mret tt);;
  tx ← guest_order_reprice site_iid tx;
  tx ← guest_order_normalize site_iid tx;
  tx ← tx_finalize_now tx;
  guest_order_save site_iid owner_iid tx;;
  guest_tx_meta_patch site_iid tx.(Tx.tx_id) buyer_user_iid visitor_id;;
  tx_load site_iid tx.(Tx.tx_id).

(** ** Reading orders back *)

Definition guest_order_get_allowed (site_iid tx_id : Z) (buyer_user_iid : option Z)
    (visitor_id : option string) : M bool :=
  row ← query (fun _ d => t_get (site_iid, tx_id) d.(t_tx));
  match row with
  | None => mret false
  | Some r =>
      if negb (String.eqb r.(cols).(TxRow.input_source) "web") then mret false
      else
        let data := r.(cols).(TxRow.tx_data_json) in
        let buyer := guest_tx_buyer_user_iid data in
        if 0 <? buyer then mret (bool_decide (buyer_user_iid = Some buyer))
        else
          let vid := guest_tx_visitor_id data in
          if is_empty vid then mret true
          else mret (match visitor_id with Some v => String.eqb (trim v) vid | None => false end)
  end.

Definition guest_order_get (site_iid tx_id : Z) (buyer_user_iid : option Z)
    (visitor_id : option string) : M (option Tx) :=
  (if (site_iid <=? 0) || (tx_id <=? 0) then throw "site_iid and tx_id required" else mret tt);;
  guest_site_owner site_iid;;
  allowed ← guest_order_get_allowed site_iid tx_id buyer_user_iid visitor_id;
  (if negb allowed then throw "order not found" else mret tt);;
  tx ← tx_load site_iid tx_id;
  mret (match tx with
    | Some tx => if tx.(Tx.input_source) =? enum_to_i32 TxInputSource.Web then Some tx else None
    | None => None end).

(** [ORDER BY time_ts DESC] *)
Definition by_time_desc (a b : TxKey * Row TxRow) : Prop :=
  dt_ltb a.2.(cols).(TxRow.time_ts) b.2.(cols).(TxRow.time_ts) = false.
#[export] Instance by_time_desc_dec a b : Decision (by_time_desc a b).
Proof. unfold by_time_desc. apply _. Defined.

(** [(tx_data_json->'guest'->>'buyer_user_iid')::bigint] is read as the number
    the crate writes there. *)
Definition guest_order_list (site_iid buyer_user_iid : Z) : M (list GuestOrderSummary) :=
  (if (site_iid <=? 0) || (buyer_user_iid <=? 0) then throw "site_iid and auth required"
   else mret tt);;
  guest_site_owner site_iid;;
  rows ← query (fun _ d => take 50 (merge_sort by_time_desc
    (filter (fun e : TxKey * Row TxRow =>
        (e.1.1 =? site_iid) && live e.2
        && String.eqb e.2.(cols).(TxRow.input_source) "web"
        && bool_decide (((get "guest" e.2.(cols).(TxRow.tx_data_json)) ≫= get "buyer_user_iid")
                          ≫= as_i64 = Some buyer_user_iid) = true)
      (order d.(t_tx)))));
  mret ((fun e => let c := e.2.(cols) in
    {| GuestOrderSummary.tx_id := e.1.2;
       GuestOrderSummary.state := c.(TxRow.state);
       GuestOrderSummary.total := c.(TxRow.total);
       GuestOrderSummary.time_ts_ms := timestamp_millis c.(TxRow.time_ts);
       GuestOrderSummary.progress_label := guest_progress_label c.(TxRow.state) |}) <$> rows).

(** One order of a merge: whether it was claimed for the buyer. *)
Definition guest_merge_one (site_iid buyer_user_iid : Z) (visitor : string) (tx_id : Z) : M Z :=
  if tx_id <=? 0 then mret 0
  else
    row ← query (fun _ d => t_get (site_iid, tx_id) d.(t_tx));
    match row with
    | None => mret 0
    | Some r =>
        if negb (String.eqb r.(cols).(TxRow.input_source) "web") then mret 0
        else
          let data := r.(cols).(TxRow.tx_data_json) in
          let existing_buyer := guest_tx_buyer_user_iid data in
          if (0 <? existing_buyer) && negb (existing_buyer =? buyer_user_iid) then mret 0
          else
            let tx_visitor := guest_tx_visitor_id data in
            if negb (is_empty visitor) && negb (is_empty tx_visitor)
               && negb (String.eqb tx_visitor visitor) then mret 0
            else
              n ← update_tx_data site_iid tx_id true
                    (guest_tx_meta_merge data buyer_user_iid visitor);
              mret (if 0 <? n then 1 else 0)
    end.

Definition guest_member_merge (site_iid buyer_user_iid : Z) (visitor_id : string)
    (order_ids : list Z) : M Z :=
  (if (site_iid <=? 0) || (buyer_user_iid <=? 0) then throw "site_iid and auth required"
   else mret tt);;
  guest_site_owner site_iid;;
  let visitor := trim visitor_id in
  foldM (fun merged tx_id =>
    n ← guest_merge_one site_iid buyer_user_iid visitor tx_id;
    mret (merged + n)%i32) 0 order_ids.

End Guest.
