(* ===== verification/GuestProps.v ===== *)
(** * Guest orders: what they book, pay and reveal *)
From S2P Require Import Prelude Strs Ts TxProto World Json TxData Db EnumMap Rows Persist Load.
From S2P Require Import Finalize StockApply Grant TxApi TxPutFacts Reservation Guest.

(** ** Holds within one order *)

(** Two bookings of the same product whose windows overlap. *)
Definition rivals (h h' : ReservationHold) : bool :=
  (h.(ReservationHold.product_id) =? h'.(ReservationHold.product_id))
  && reservation_windows_overlap h.(ReservationHold.start_ts_ms) h.(ReservationHold.end_ts_ms)
       h'.(ReservationHold.start_ts_ms) h'.(ReservationHold.end_ts_ms).
(** They do not name the same unit. *)
Definition no_clash (h h' : ReservationHold) : Prop :=
  rivals h h' = true -> 0 < h.(ReservationHold.site_object_id) ->
  h.(ReservationHold.site_object_id) <> h'.(ReservationHold.site_object_id).
Definition hold_qty_ok (h : ReservationHold) : Prop := 1 <= h.(ReservationHold.qty) < 2 ^ 31.

Section Slots.
Context (h : ReservationHold).
Let holds_step := hold_step h.(ReservationHold.product_id) h.(ReservationHold.start_ts_ms)
  h.(ReservationHold.end_ts_ms).

Lemma hold_step_eq ids units h' :
  holds_step (ids, units) h' =
    if rivals h' h then
      (filter (fun id => ~ (0 < h'.(ReservationHold.site_object_id) /\
                            id = h'.(ReservationHold.site_object_id))) ids,
       Z.max (units - h'.(ReservationHold.qty))%i64 0)
    else (ids, units).
Proof.
  unfold holds_step, hold_step, rivals.
  destruct (_ =? _); cbn [negb andb]; [|done].
  destruct (reservation_windows_overlap _ _ _ _); cbn [negb]; [|done]. f_equal.
  destruct (Z.ltb_spec 0 h'.(ReservationHold.site_object_id)).
  - apply list_filter_iff. intros id. lia.
  - symmetry. induction ids as [|id ids IH]; [done|].
    rewrite filter_cons_True by lia. by rewrite IH.
Qed.

Lemma holds_foldl_ids ids units hs id :
  id ∈ (foldl holds_step (ids, units) hs).1 <->
  id ∈ ids /\ Forall (fun h' => rivals h' h = true ->
     0 < h'.(ReservationHold.site_object_id) -> id <> h'.(ReservationHold.site_object_id)) hs.
Proof.
  revert ids units. induction hs as [|h' hs IH]; intros ids units; cbn [foldl].
  { cbn. split; [by intros|]. by intros []. }
  rewrite hold_step_eq, List.Forall_cons_iff. destruct (rivals h' h).
  - rewrite IH, list_elem_of_filter. naive_solver lia.
  - rewrite IH. naive_solver.
Qed.

Lemma holds_foldl_units ids units hs :
  in_i64 units -> 0 <= units -> Forall hold_qty_ok hs ->
  let units' := (foldl holds_step (ids, units) hs).2 in
  0 < units' ->
  Zsum (ReservationHold.qty <$> filter (fun h' => rivals h' h = true) hs) + units' = units.
Proof.
  cbv zeta. revert ids units. induction hs as [|h' hs IH]; intros ids units Hin Hu Hq; cbn [foldl].
  { cbn. lia. }
  inversion Hq as [|?? Hq1 Hq2]; subst. rewrite hold_step_eq, filter_cons.
  destruct (rivals h' h) eqn:Er; [|rewrite decide_False by done; by apply IH].
  rewrite decide_True by done. intros Hpos.
  assert (in_i64 (Z.max (units - h'.(ReservationHold.qty))%i64 0)) as Hin'.
  { pose proof (to_i64_in (units - ReservationHold.qty h')) as Ht. unfold i64_sub, in_i64 in *. lia. }
  pose proof (IH _ _ Hin' ltac:(lia) Hq2 Hpos) as Hs. cbn [fmap list_fmap]. rewrite Zsum_cons.
  assert (0 <= Zsum (ReservationHold.qty <$> filter (fun h' => rivals h' h = true) hs)) as Hz.
  { clear -Hq2. apply Zsum_nonneg, Forall_fmap. induction Hq2 as [|x l Hx _ IH]; [done|].
    rewrite filter_cons. case_decide; [|done]. constructor; [|done].
    unfold hold_qty_ok in Hx. cbn. lia. }
  assert ((units - h'.(ReservationHold.qty))%i64 = units - h'.(ReservationHold.qty)) as E.
  { unfold hold_qty_ok in Hq1. apply to_i64_id. unfold in_i64 in *. lia. }
  rewrite E in *. lia.
Qed.
End Slots.

(** The booking a reservation of a line asks for. *)
Definition hold_of (product_id : Z) (res : TxItemReservation) : ReservationHold :=
  {| ReservationHold.product_id := product_id;
     ReservationHold.start_ts_ms := res.(TxItemReservation.start_ts_ms);
     ReservationHold.end_ts_ms := res.(TxItemReservation.end_ts_ms);
     ReservationHold.site_object_id := res.(TxItemReservation.site_object_id);
     ReservationHold.qty := res.(TxItemReservation.qty) |}.
(** The bookings of an order, in the order they are checked. *)
Definition item_holds (item : TxItem) : list ReservationHold :=
  hold_of item.(TxItem.product_id) <$> item.(TxItem.reservations).
Definition order_holds (tx : Tx) : list ReservationHold := tx.(Tx.items) ≫= item_holds.

(** The check of one booking against the calendar and the earlier
    bookings of the same order.  It accepts a unit only if the calendar has it
    free and no rival took it, and a booking without a unit only if the units
    the calendar has left cover it and all its rivals. *)
Theorem guest_slot_sound avail h holds :
  let '(free, units) := availability_after_holds avail h.(ReservationHold.product_id)
    h.(ReservationHold.start_ts_ms) h.(ReservationHold.end_ts_ms) holds in
  guest_reservation_slot_ok h.(ReservationHold.site_object_id) h.(ReservationHold.qty) free units
    = Ok tt ->
  1 <= h.(ReservationHold.qty) /\
  (0 < h.(ReservationHold.site_object_id) ->
     h.(ReservationHold.site_object_id) ∈ FreeObject.id <$> avail.(Availability.free_objects) /\
     Forall (fun h' => no_clash h' h) holds) /\
  (h.(ReservationHold.site_object_id) <= 0 ->
     in_i64 avail.(Availability.units_available) -> 0 <= avail.(Availability.units_available) ->
     Forall hold_qty_ok holds ->
     Zsum (ReservationHold.qty <$> filter (fun h' => rivals h' h = true) holds)
       + h.(ReservationHold.qty) <= avail.(Availability.units_available)).
Proof.
  unfold availability_after_holds.
  pose proof (holds_foldl_ids h (FreeObject.id <$> avail.(Availability.free_objects))
    avail.(Availability.units_available) holds h.(ReservationHold.site_object_id)) as Hi.
  pose proof (holds_foldl_units h (FreeObject.id <$> avail.(Availability.free_objects))
    avail.(Availability.units_available) holds) as Hu. cbv zeta in Hu.
  destruct (foldl _ _ holds) as [free units]. cbn [fst snd] in *.
  unfold guest_reservation_slot_ok. destruct (Z.ltb_spec h.(ReservationHold.qty) 1) as [|Hq]; [done|].
  destruct (Z.ltb_spec 0 h.(ReservationHold.site_object_id)) as [Ho|Ho].
  - case_bool_decide as Hin; [|done]. intros _. split_and!; [done| |lia]. intros _.
    apply Hi in Hin as [Hin Hf]. split; [done|]. eapply List.Forall_impl; [|exact Hf].
    intros h' Hh Hr Hpos E. by eapply Hh.
  - destruct (Z.ltb_spec units h.(ReservationHold.qty)); [done|]. intros _.
    split_and!; [done|lia|]. intros _ Hin Hpos Hq'. specialize (Hu Hin Hpos Hq' ltac:(lia)). lia.
Qed.

(** ** Repricing an order *)

Section Reprice.
Context {chrono : Chrono} {serde : SerdeJson} {ord : Order}.

Lemma reads_availability s p a b u : reads (guest_reservation_availability s p a b u).
Proof.
  unfold guest_reservation_availability. case_match; [apply reads_ret|].
  apply reads_bind; [apply reads_query|]. intros pj. cbv zeta.
  destruct (reservation_inventory_from_product_json _) as [mode cap].
  apply reads_bind; [apply reads_query|]. intros objs.
  apply reads_bind; [|intros [q busy]; apply reads_ret].
  unfold overlapping_reservation_load. repeat (case_match; [|apply reads_ret]).
  apply reads_bind; [apply reads_query|]. intros ?. apply reads_ret.
Qed.
Lemma reads_reserve_step s p holds res : reads (reserve_step s p holds res).
Proof.
  unfold reserve_step. apply reads_bind; [case_match; auto with reads|]. intros _.
  apply reads_bind; [case_match; auto with reads|]. intros _.
  apply reads_bind; [apply reads_availability|]. intros avail.
  destruct (availability_after_holds _ _ _ _ _) as [free units].
  apply reads_bind; [auto with reads|]. intros _. apply reads_ret.
Qed.

(** A booking that passes joins the earlier ones without a clash. *)
Lemma reserve_step_ok s p holds res e w holds' w' :
  reserve_step s p holds res e w = (Ok holds', w') ->
  holds' = holds ++ [hold_of p res] /\ Forall (fun h => no_clash h (hold_of p res)) holds /\
  1 <= res.(TxItemReservation.qty) /\
  res.(TxItemReservation.start_ts_ms) < res.(TxItemReservation.end_ts_ms).
Proof.
  intros E. apply bind_ok in E as ([] & w1 & E1 & E). apply bind_ok in E as ([] & w2 & E2 & E).
  apply bind_ok in E as (avail & w3 & E3 & E).
  destruct (Z.leb_spec res.(TxItemReservation.end_ts_ms) res.(TxItemReservation.start_ts_ms)); [done|].
  destruct (Z.ltb_spec res.(TxItemReservation.qty) 1) as [|Hq]; [done|].
  unfold availability_after_holds in E.
  pose proof (holds_foldl_ids (hold_of p res) (FreeObject.id <$> avail.(Availability.free_objects))
    avail.(Availability.units_available) holds res.(TxItemReservation.site_object_id)) as Hi.
  cbn [hold_of ReservationHold.product_id ReservationHold.start_ts_ms ReservationHold.end_ts_ms] in Hi.
  destruct (foldl _ _ holds) as [free units]. cbn [fst] in Hi.
  apply bind_ok in E as ([] & w4 & E4 & E). injection E as <- _. split_and!; [done| |lia..].
  injection E4 as E4 _. unfold guest_reservation_slot_ok in E4.
  destruct (_ <? 1); [done|]. apply Forall_forall. intros h Hin Hr Hpos Hid.
  cbn in Hid. rewrite <- Hid in E4. rewrite (proj2 (Z.ltb_lt _ _) Hpos) in E4.
  case_bool_decide as Hfree; [|done]. rewrite Hid in Hfree. apply Hi in Hfree as [_ Hf].
  rewrite Forall_forall in Hf. by apply (Hf h Hin Hr Hpos).
Qed.

Definition disjoint_holds (holds : list ReservationHold) : Prop := ForallOrdPairs no_clash holds.

Lemma disjoint_holds_snoc holds h :
  disjoint_holds holds -> Forall (fun h' => no_clash h' h) holds -> disjoint_holds (holds ++ [h]).
Proof.
  intros Hd Hf. induction Hd as [|h1 holds H1 Hd IH]; cbn; [repeat constructor|].
  inversion Hf as [|?? Hh Hf']; subst. constructor; [|by apply IH].
  apply Forall_app. split; [done|]. by constructor.
Qed.

Lemma reserve_loop_ok s p ress holds e w holds' w' :
  disjoint_holds holds ->
  foldM (reserve_step s p) holds ress e w = (Ok holds', w') ->
  holds' = holds ++ (hold_of p <$> ress) /\ disjoint_holds holds'.
Proof.
  revert holds w. induction ress as [|res ress IH]; intros holds w Hd E.
  { injection E as <- _. cbn. by rewrite app_nil_r. }
  cbn [foldM] in E. apply bind_ok in E as (h1 & w1 & E1 & E).
  apply reserve_step_ok in E1 as (-> & Hf & _). apply IH in E as [-> Hd'].
  - split; [|done]. by rewrite <- app_assoc.
  - by apply disjoint_holds_snoc.
Qed.

(** A line as the reprice accepts it. *)
Definition repriced (d : Db) (site_iid : Z) (item item' : TxItem) : Prop :=
  exists row qty, t_get (site_iid, item.(TxItem.product_id)) d.(t_product) = Some row /\
    0 < item.(TxItem.product_id) /\
    row.(cols).(ProductRow.is_archived) = false /\ row.(cols).(ProductRow.can_sell) = true /\
    (item.(TxItem.reservations) <> [] -> row.(cols).(ProductRow.can_reserve) = true) /\
    guest_item_qty item = Ok qty /\ 1 <= qty /\
    item' = {| item with TxItem.qty := qty; TxItem.product_rev := row.(cols).(ProductRow.rev);
      TxItem.price := if item.(TxItem.price) <=? 0 then row.(cols).(ProductRow.price)
                      else item.(TxItem.price) |}.

Lemma guest_item_qty_pos item qty : guest_item_qty item = Ok qty -> 1 <= qty.
Proof.
  unfold guest_item_qty. case_match.
  - destruct (Z.leb_spec item.(TxItem.qty) 0); intros [= <-]; lia.
  - destruct (Z.ltb_spec (reservation_billable_qty (t :: l)) 1) as [|Hb]; [done|].
    destruct (Z.ltb_spec (2 ^ 31 - 1) (reservation_billable_qty (t :: l))) as [|Hm]; [done|].
    intros [= <-]. rewrite to_i32_id; [done|]. unfold in_i32. lia.
Qed.

Lemma item_reprice_ok s item holds e w item' holds' w' :
  disjoint_holds holds ->
  guest_item_reprice s item holds e w = (Ok (item', holds'), w') ->
  w'.(db) = w.(db) /\ repriced w.(db) s item item' /\
  holds' = holds ++ item_holds item /\ disjoint_holds holds'.
Proof.
  intros Hd E. unfold guest_item_reprice in E.
  apply bind_ok in E as ([] & w1 & E1 & E). apply bind_ok in E as (qty & w2 & E2 & E).
  cbv zeta in E. apply bind_ok in E as (row & w3 & E3 & E). apply bind_ok in E as (r & w4 & E4 & E).
  apply bind_ok in E as ([] & w5 & E5 & E). apply bind_ok in E as ([] & w6 & E6 & E).
  cbn [TxItem.product_id TxItem.reservations TxItem.price] in *.
  apply bind_ok in E as (hs & w7 & E7 & E). injection E as <- <- <-.
  destruct (Z.leb_spec item.(TxItem.product_id) 0) as [|Hp]; [done|]. injection E1 as <-.
  injection E2 as E2 <-. injection E4 as E4 <-.
  destruct (ProductRow.can_sell r) eqn:Ec; [|done]. cbn in E6. injection E6 as <-.
  assert (w5 = w3 /\ (item.(TxItem.reservations) <> [] -> ProductRow.can_reserve r = true))
    as [-> Hres].
  { revert E5. case_bool_decide as Hr; cbn; [|by intros [= <-]].
    destruct (ProductRow.can_reserve r); cbn; [by intros [= <-]|done]. }
  apply query_ok in E3 as [[now ->] Hw3].
  pose proof (reads_foldM _ _ _ (reads_reserve_step s item.(TxItem.product_id)) _ _ _ _ E7) as Hw7.
  apply reserve_loop_ok in E7 as [-> Hd']; [|done]. split_and!; [congruence| |done|done].
  destruct (t_get (s, item.(TxItem.product_id)) (t_product (db w))) as [row|] eqn:Et; [|done].
  destruct (ProductRow.is_archived (cols row)) eqn:Ea; [done|]. injection E4 as <-.
  exists row, qty. split_and!; try done. by apply guest_item_qty_pos in E2.
Qed.

Lemma reprice_loop_ok s items acc holds e w items' holds' w' :
  disjoint_holds holds ->
  foldM (fun '(items, holds) item =>
      '(item, holds) ← guest_item_reprice s item holds;
      mret (items ++ [item], holds)) (acc, holds) items e w = (Ok (items', holds'), w') ->
  w'.(db) = w.(db) /\ (exists new, items' = acc ++ new /\ Forall2 (repriced w.(db) s) items new) /\
  holds' = holds ++ (items ≫= item_holds) /\ disjoint_holds holds'.
Proof.
  revert acc holds w. induction items as [|item items IH]; intros acc holds w Hd E.
  { injection E as <- <- <-. rewrite app_nil_r. split_and!; try done. exists [].
    split; [by rewrite app_nil_r|constructor]. }
  cbn [foldM] in E. apply bind_ok in E as ([acc1 h1] & w1 & E1 & E).
  apply bind_ok in E1 as ([item' h1'] & w1' & E1 & E2). injection E2 as <- <- <-.
  apply item_reprice_ok in E1 as (Hw & Hi & -> & Hd'); [|done].
  apply IH in E as (Hw' & (new & -> & Hf) & -> & Hd''); [|done]. split_and!; [congruence| | |done].
  - exists (item' :: new). split; [by rewrite <- app_assoc|]. constructor; [done|]. by rewrite <- Hw.
  - by rewrite <- app_assoc.
Qed.

End Reprice.

(** C20. A guest order is accepted only with lines the site sells: each
    product is live, for sale, and bookable when the line has reservations.  The
    line is billed at least one unit, at the catalog's price and revision unless
    it came with a positive price of its own, which is kept.  No two
    reservations of the order take the same unit in overlapping windows. *)
Theorem guest_order_reprice_spec `{!Chrono} `{!SerdeJson} `{!Order} site_iid tx e w tx' w' :
  guest_order_reprice site_iid tx e w = (Ok tx', w') ->
  w'.(db) = w.(db) /\ tx.(Tx.items) <> [] /\
  (exists items, tx' = {| tx with Tx.items := items |} /\
     Forall2 (repriced w.(db) site_iid) tx.(Tx.items) items) /\
  disjoint_holds (order_holds tx).
Proof.
  intros E. unfold guest_order_reprice in E. apply bind_ok in E as ([] & w1 & E1 & E).
  apply bind_ok in E as ([] & w2 & E2 & E). apply bind_ok in E as ([items holds] & w3 & E3 & E).
  injection E as <- <-. destruct (is_empty (trim tx.(Tx.subject_name))); [done|]. injection E1 as <-.
  apply reprice_loop_ok in E3 as (Hw & (new & -> & Hf) & -> & Hd); [|constructor].
  assert (w2 = w /\ tx.(Tx.items) <> []) as [-> Hn].
  { destruct (Tx.items tx); [done|]. by injection E2 as <-. }
  split_and!; [done|done| |done]. exists new. by split.
Qed.
