(* ===== verification/GuestOrderProps.v ===== *)
(** * Placing, reading and claiming guest orders *)
From S2P Require Import Prelude Strs Ts TxProto World Json TxData Db EnumMap Rows Persist Load.
From S2P Require Import Finalize FinalizeFacts StockApply Grant TxApi TxPutFacts TxPutProps.
From S2P Require Import TxApiProps ReadBackProps TxStockProps Reservation Guest GuestProps.

Section GuestOrder.
Context {chrono : Chrono} {serde : SerdeJson} {ord : Order}.

Definition published (d : Db) (site_iid : Z) : Prop :=
  exists v r, d.(t_publish) !! (site_iid, v) = Some r /\ r.(cols) = true /\ live r = true.

Lemma reads_guest_site_owner s : reads (guest_site_owner s).
Proof.
  apply reads_bind; [apply reads_query|]. intros b. apply reads_bind; [case_match; auto with reads|].
  intros _. apply reads_bind; [apply reads_query|]. intros row.
  apply reads_bind; [auto with reads|]. auto with reads.
Qed.
Lemma guest_site_owner_ok s e w o w' :
  guest_site_owner s e w = (Ok o, w') ->
  published w.(db) s /\ site_owner w.(db) s = Some (Some o).
Proof.
  intros E. apply bind_ok in E as (b & w1 & E1 & E). apply query_ok in E1 as [[now Hb] Hw].
  apply bind_ok in E as ([] & w2 & E2 & E). destruct b; [|done]. injection E2 as <-.
  apply bind_ok in E as (row & w3 & E3 & E). apply query_ok in E3 as [[now' ->] Hw3].
  apply bind_ok in E as (o' & w4 & E4 & E). injection E4 as E4 <-. injection E as E _.
  rewrite Hw in E4. split.
  - symmetry in Hb. apply existsb_exists in Hb as ([[s' v] r] & Hin & Hp). cbn in Hp.
    apply andb_true_iff in Hp as [Hp Hl]. apply andb_true_iff in Hp as [Hs Hc].
    apply Z.eqb_eq in Hs as ->. exists v, r. split; [|done].
    by rewrite <- elem_of_map_to_list, <- order_perm, list_elem_of_In.
  - unfold site_owner. destruct (t_get s _) as [r|]; [|done]. destruct (String.eqb _ _); [|done].
    cbn in E4. injection E4 as <-. by destruct (IdentityRow.owner_iid (cols r)); simplify_eq/=.
Qed.

(** The header of a guest order. *)
Definition guest_header (row : TxRow) : Prop :=
  row.(TxRow.ty) = "sale" /\ row.(TxRow.state) = "waiting_payment" /\
  row.(TxRow.input_source) = "web" /\ row.(TxRow.is_task_assigned) = true.
Definition has_guest_header (k : TxKey) (d : Db) : Prop :=
  exists r, d.(t_tx) !! k = Some r /\ live r = true /\ guest_header r.(cols).

Definition guest_fields (tx : Tx) : Prop :=
  (tx.(Tx.type), tx.(Tx.state), tx.(Tx.input_source), tx.(Tx.is_task_assigned)) =
  (enum_to_i32 TxType.Sale, enum_to_i32 TxState.WaitingPayment, enum_to_i32 TxInputSource.Web, true).

Lemma finalize_guest_fields `{!HashIter string Z} now now' tx :
  guest_fields tx -> guest_fields (tx_finalize now now' tx).
Proof.
  unfold guest_fields. intros <-.
  rewrite tx_finalize_eq, tx_compute_acc_meta_eq, tx_compute_accs_eq.
  cbn [Tx.type Tx.state Tx.input_source Tx.is_task_assigned].
  unfold tx_before_accs. rewrite tx_compute_stock_eq.
  edestruct tx_compute_standalone_debt_eq as (? & ? & ? & ->). by rewrite tx_compute_totals_eq.
Qed.
Lemma header_put_guest o tx g m e w w' :
  guest_fields tx -> tx_header_put o tx g m e w = (Ok tt, w') -> has_guest_header (ident tx) w'.(db).
Proof.
  intros Hg E. apply bind_ok in E as (t & w1 & _ & E). unfold upsert_tx in E.
  assert (guest_header (tx_header_row o tx t g m)) as Hh.
  { unfold guest_fields in Hg. injection Hg as H1 H2 H3 H4. unfold guest_header, tx_header_row.
    cbn [TxRow.ty TxRow.state TxRow.input_source TxRow.is_task_assigned].
    rewrite H1, H2, H3, H4. done. }
  revert E. generalize dependent (tx_header_row o tx t g m). intros row Hh E.
  assert (runs (upsert_tx (ident tx) row) (fun _ => True) (fun _ d => has_guest_header (ident tx) d))
    as Hr; [|by eapply Hr].
  apply runs_sql. intros now d a d' _ Ed.
  repeat (apply result_bind_ok in Ed as (? & _ & Ed)). injection Ed as <- <-.
  eexists. split; [apply lookup_insert_eq|]. by destruct (t_tx d !! _).
Qed.

Lemma reads_guest_order_reprice s tx : reads (guest_order_reprice s tx).
Proof.
  apply reads_bind; [case_match; auto with reads|]. intros _.
  apply reads_bind; [case_match; auto with reads|]. intros _.
  apply reads_bind; [|intros [items holds]; apply reads_ret].
  apply reads_foldM. intros [items holds] item.
  apply reads_bind; [|intros [item' holds']; apply reads_ret].
  apply reads_bind; [case_match; auto with reads|]. intros _.
  apply reads_bind; [auto with reads|]. intros qty. cbv zeta.
  apply reads_bind; [apply reads_query|]. intros row.
  apply reads_bind; [auto with reads|]. intros r.
  apply reads_bind; [case_match; auto with reads|]. intros _.
  apply reads_bind; [case_match; auto with reads|]. intros _.
  apply reads_bind; [|intros hs; apply reads_ret].
  apply reads_foldM. intros hs res. apply reads_reserve_step.
Qed.
Lemma reads_guest_order_normalize s tx : reads (guest_order_normalize s tx).
Proof.
  apply reads_bind; [auto with reads|]. intros id. apply reads_bind; [|intros ?; apply reads_ret].
  case_match; [|auto with reads]. apply reads_bind; [auto with reads|]. intros now. apply reads_ret.
Qed.
Lemma guest_order_normalize_ok s tx e w tx' w' :
  guest_order_normalize s tx e w = (Ok tx', w') ->
  guest_fields tx' /\ (ident tx').1 = s /\ exists n, (ident tx').2 = e.(env_ids) n.
Proof.
  intros E. apply bind_ok in E as (id & w1 & Ei & E). apply bind_ok in E as (ms & w2 & _ & E).
  injection E as <- _. injection Ei as <- _. split; [done|]. split; [done|]. by eexists.
Qed.
Lemma finalize_now_ok tx e w tx' w' :
  guest_fields tx -> tx_finalize_now tx e w = (Ok tx', w') -> guest_fields tx' /\ ident tx' = ident tx.
Proof.
  intros Hg E. apply bind_ok in E as (now & w1 & _ & E). apply bind_ok in E as (now' & w2 & _ & E).
  apply ret_ok in E as [-> _]. split; [by apply finalize_guest_fields|apply finalize_ident].
Qed.

(** The metadata of the order's placer. *)
Lemma update_tx_data_respects k b v :
  respects (tx_frame k) (update_tx_data k.1 k.2 b v) /\
  respects stock_kept (update_tx_data k.1 k.2 b v) /\
  (forall e w r w', update_tx_data k.1 k.2 b v e w = (r, w') ->
     has_guest_header k w.(db) -> has_guest_header k w'.(db)).
Proof.
  split_and!.
  - apply respects_sql; [apply _|]. intros now d n d' [= <- <-]. split; cbn; try done.
    intros k' Hk. rewrite map_lookup_imap. destruct (t_tx d !! k'); [|done]. cbn.
    rewrite bool_decide_eq_false_2; [done|]. by destruct k.
  - apply respects_sql; [apply _|]. intros now d n d' [= <- <-] kp. cbn.
    destruct (t_product d !! kp); constructor. done.
  - intros e w r w' E (row & Hrow & Hl & Hg). unfold update_tx_data, sql in E.
    assert (forall now, has_guest_header k {| w.(db) with t_tx :=
      (t_update (fun k' r => bool_decide (k' = (k.1, k.2)) && (negb b || live r))
        (set_cols now (fun c => {| c with TxRow.tx_data_json := v |})) w.(db).(t_tx)).1 |}) as Hn.
    { intros now. unfold has_guest_header. cbn. rewrite map_lookup_imap, Hrow. cbn.
      eexists. split; [reflexivity|]. destruct (_ && _); [|done]. by split. }
    destruct (txn_now w); cbn in E; case_match; injection E as <- <-; try by exists row.
    + exact (Hn _).
    + exact (Hn _).
Qed.

Lemma same_products_stock_kept d d' : d'.(t_product) = d.(t_product) -> stock_kept d d'.
Proof. intros E kp. rewrite E. destruct (t_product d !! kp); constructor. done. Qed.

(** Saving the children of a guest order: its stock lines stay lines. *)
Lemma guest_save_ok owner tx e w w' :
  guest_fields tx -> guest_order_save tx.(Tx.site_iid) owner tx e w = (Ok tt, w') ->
  tx_frame (ident tx) w.(db) w'.(db) /\ stock_kept w.(db) w'.(db) /\
  has_guest_header (ident tx) w'.(db).
Proof.
  intros Hg E. unfold guest_order_save in E. destruct (tx_acc_counts tx) as [g m].
  apply transaction_atomic in E as [(w0 & w1 & Hd0 & E & ->)|(w0 & w1 & _ & E & _)];
    apply bind_ok in E as ([] & w2 & E2 & E); apply bind_ok in E as ([] & w3 & E3 & E);
    apply bind_ok in E as (tx' & w4 & E4 & E); cbv zeta in E;
    apply bind_ok in E as ([] & w5 & E5 & E);
    apply ret_ok in E as [E ->]; [|done].
  rewrite <- Hd0. clear E Hd0 w.
  destruct (children_put_result _ _ _ _ _ E4) as [Hst _].
  assert (Tx.state tx = enum_to_i32 TxState.WaitingPayment) as Hs by (by injection Hg).
  rewrite Hst, Hs in E5. apply ret_ok in E5 as [_ ->].
  pose proof (header_put_guest _ _ _ _ _ _ _ Hg E3) as Hh.
  pose proof (step_children_put (ident tx) same_headers tx eq_refl _ _ _ _ E4) as Hsame.
  split_and!.
  - etransitivity; [exact (step_children_del (ident tx) (tx_frame (ident tx)) _ _ _ _ E2)|].
    etransitivity; [exact (step_header (ident tx) (tx_frame (ident tx)) _ _ _ _ eq_refl _ _ _ _ E3)|].
    exact (step_children_put (ident tx) (tx_frame (ident tx)) tx eq_refl _ _ _ _ E4).
  - etransitivity; [exact (step_children_del (ident tx) stock_kept _ _ _ _ E2)|].
    etransitivity; [exact (step_header (ident tx) stock_kept _ _ _ _ eq_refl _ _ _ _ E3)|].
    exact (step_children_put (ident tx) stock_kept tx eq_refl _ _ _ _ E4).
  - unfold has_guest_header in *. unfold same_headers in Hsame. by rewrite Hsame.
Qed.

Lemma meta_patch_respects k buyer visitor :
  respects (tx_frame k) (guest_tx_meta_patch k.1 k.2 buyer visitor) /\
  respects stock_kept (guest_tx_meta_patch k.1 k.2 buyer visitor) /\
  (forall e w r w', guest_tx_meta_patch k.1 k.2 buyer visitor e w = (r, w') ->
     has_guest_header k w.(db) -> has_guest_header k w'.(db)).
Proof.
  unfold guest_tx_meta_patch. case_match.
  - split; [|split]; [apply respects_ret; apply _..|]. by intros e w r w' [= <- <-].
  - split; [|split].
    + apply respects_bind; [apply _|apply respects_reads; [apply _|apply reads_query]|]. intros row.
      apply respects_bind; [apply _|apply update_tx_data_respects|]. intros n. apply respects_ret; apply _.
    + apply respects_bind; [apply _|apply respects_reads; [apply _|apply reads_query]|]. intros row.
      apply respects_bind; [apply _|apply update_tx_data_respects|]. intros n. apply respects_ret; apply _.
    + intros e w r w' E Hh. apply bind_reads in E as [E|(row & w1 & _ & Hw & E)]; [by rewrite E| |apply reads_query].
      rewrite <- Hw in Hh. apply bind_cases in E as [(x & E & _)|(n & w2 & E & E')].
      * by eapply (update_tx_data_respects k).
      * injection E' as _ <-. by eapply (update_tx_data_respects k).
Qed.

(** A run that starts by reading: it fails without a change, or goes on. *)
Lemma bind_reads_err {A B} (m : M Db A) (f : A -> M Db B) e w r w' :
  reads m -> (m ≫= f) e w = (r, w') ->
  ((exists x, r = Err x) /\ w'.(db) = w.(db)) \/
  exists a w1, m e w = (Ok a, w1) /\ w1.(db) = w.(db) /\ f a e w1 = (r, w').
Proof.
  intros Hm [(x & E & ->)|(a & w1 & E & E')]%bind_cases; [left|right]; eauto 10.
Qed.

End GuestOrder.

(** C23. Placing a guest order either fails and leaves the database alone,
    or adds one web sale waiting for payment to a published site, under an id that
    no transaction of the site had: no other transaction changes, and no stock
    counter moves.  The order names no id of its own, so a guest cannot write to an
    order that exists.  The ids of the allocator are taken to be unused. *)
Theorem guest_order_put_frame `{!Chrono} `{!SerdeJson} `{!Order}
    site_iid tx buyer_user_iid visitor_id e w r w' :
  (forall n, w.(db).(t_tx) !! (site_iid, e.(env_ids) n) = None) ->
  guest_order_put site_iid tx buyer_user_iid visitor_id e w = (r, w') ->
  ((exists x, r = Err x) /\ w'.(db) = w.(db)) \/
  exists id t, tx = Some t /\ t.(Tx.tx_id) <= 0 /\ published w.(db) site_iid /\
    w.(db).(t_tx) !! (site_iid, id) = None /\
    tx_frame (site_iid, id) w.(db) w'.(db) /\ stock_kept w.(db) w'.(db) /\
    has_guest_header (site_iid, id) w'.(db).
Proof.
  intros Hnew E. unfold guest_order_put in E.
  apply bind_reads_err in E as [E|([] & w1 & _ & Hw1 & E)]; [by left| |case_match; auto with reads].
  apply bind_reads_err in E as [[? E]|(owner & w2 & E2 & Hw2 & E)];
    [left; split; [done|congruence]| |apply reads_guest_site_owner].
  apply guest_site_owner_ok in E2 as [Hpub _]. rewrite Hw1 in *.
  apply bind_reads_err in E as [[? E]|(t & w3 & E3 & Hw3 & E)];
    [left; split; [done|congruence]| |apply reads_lift].
  apply bind_reads_err in E as [[? E]|([] & w4 & E4 & Hw4 & E)];
    [left; split; [done|congruence]| |case_match; auto with reads].
  apply bind_reads_err in E as [[? E]|(t1 & w5 & _ & Hw5 & E)];
    [left; split; [done|congruence]| |apply reads_guest_order_reprice].
  apply bind_reads_err in E as [[? E]|(t2 & w6 & E6 & Hw6 & E)];
    [left; split; [done|congruence]| |apply reads_guest_order_normalize].
  apply guest_order_normalize_ok in E6 as (Hg & Hs & n & Hn).
  apply bind_reads_err in E as [[? E]|(t3 & w7 & E7 & Hw7 & E)];
    [left; split; [done|congruence]| |apply reads_tx_finalize_now].
  apply finalize_now_ok in E7 as [Hg3 Hid]; [|done]. rewrite <- Hid in Hs, Hn. clear Hid Hg t2 t1.
  assert (Tx.site_iid t3 = site_iid) as Hsite by exact Hs. rewrite <- Hsite in *.
  specialize (Hnew n). rewrite <- Hn in Hnew.
  assert (w7.(db) = w.(db)) as Hw by congruence.
  apply bind_cases in E as [(x & E & ->)|([] & w8 & E & E')].
  { unfold guest_order_save in E. destruct (tx_acc_counts t3).
    apply transaction_atomic in E. left. split; [eauto|congruence]. }
  destruct (guest_save_ok owner t3 e w7 w8 Hg3 E) as (Hf & Hk & Hh). right. exists (Tx.tx_id t3), t.
  rewrite Hw in *. destruct tx as [t0|]; [|done]. assert (t0 = t) as -> by (by injection E3).
  destruct (Z.ltb_spec 0 t.(Tx.tx_id)); [done|].
  fold (ident t3). destruct (meta_patch_respects (ident t3) buyer_user_iid visitor_id) as (Mf & Mk & Mh).
  refine (conj eq_refl (conj _ (conj Hpub (conj Hnew (conj _ (conj _ _)))))); [lia|..];
    (apply bind_cases in E' as [(x & E' & _)|([] & w9 & E' & E'')];
      [|apply reads_tx_load in E'' as ->]).
  - etransitivity; [exact Hf|by eapply Mf].
  - etransitivity; [exact Hf|by eapply Mf].
  - etransitivity; [exact Hk|by eapply Mk].
  - etransitivity; [exact Hk|by eapply Mk].
  - by eapply Mh.
  - by eapply Mh.
Qed.

(** ** Who can see and claim a guest order *)

(** ** The guest metadata *)

Lemma merge_buyer base b v :
  in_i64 b -> guest_tx_buyer_user_iid (guest_tx_meta_merge base b v) = b.
Proof.
  intros Hb. unfold guest_tx_buyer_user_iid, guest_tx_meta_merge, get at 2.
  rewrite assoc_map_insert. cbn [String.eqb Ascii.eqb Bool.eqb mbind option_bind].
  rewrite get_json_object. cbn -[json_int]. by rewrite json_int_as_i64.
Qed.
Lemma merge_visitor base b v :
  guest_tx_visitor_id (guest_tx_meta_merge base b v) = trim v.
Proof.
  unfold guest_tx_visitor_id, guest_tx_meta_merge, get at 2.
  rewrite assoc_map_insert. cbn [String.eqb Ascii.eqb Bool.eqb mbind option_bind].
  rewrite get_json_object. cbn -[trim]. apply trim_trim.
Qed.
(** The other parts of the column stay. *)
Lemma merge_other base b v k :
  is_object base = true -> k <> "guest" ->
  get k (guest_tx_meta_merge base b v) = get k base.
Proof.
  intros Ho Hk. unfold guest_tx_meta_merge, get. rewrite assoc_map_insert.
  destruct (String.eqb_spec k "guest"); [done|]. by destruct base.
Qed.

Section Access.
Context {chrono : Chrono} {serde : SerdeJson} {ord : Order}.

(** ** Reading *)

(** Whether an order may be shown to a caller with this login and this visitor
    number. *)
Definition shown_to (r : Row TxRow) (buyer_user_iid : option Z) (visitor_id : option string) : Prop :=
  let data := r.(cols).(TxRow.tx_data_json) in
  r.(cols).(TxRow.input_source) = "web" /\
  (0 < guest_tx_buyer_user_iid data -> buyer_user_iid = Some (guest_tx_buyer_user_iid data)) /\
  (guest_tx_buyer_user_iid data <= 0 -> guest_tx_visitor_id data <> "" ->
     exists v, visitor_id = Some v /\ trim v = guest_tx_visitor_id data).

Lemma reads_get_allowed s i b v : reads (guest_order_get_allowed s i b v).
Proof. apply reads_bind; [apply reads_query|]. intros [r|]; [|apply reads_ret].
  cbv zeta. repeat (case_match; try apply reads_ret). Qed.

Lemma get_allowed_ok s i b v e w w' :
  guest_order_get_allowed s i b v e w = (Ok true, w') ->
  exists r, t_get (s, i) w.(db).(t_tx) = Some r /\ shown_to r b v.
Proof.
  intros E. apply bind_ok in E as (row & w1 & Eq & E). apply query_ok in Eq as [[_ ->] _].
  destruct (t_get (s, i) (t_tx (db w))) as [r|]; [|by apply ret_ok in E as [? _]].
  exists r. split; [done|]. unfold shown_to. cbv zeta in *.
  destruct (String.eqb_spec r.(cols).(TxRow.input_source) "web") as [Hw|]; cbn [negb] in E;
    [|by apply ret_ok in E as [? _]].
  split; [done|]. destruct (Z.ltb_spec 0 (guest_tx_buyer_user_iid r.(cols).(TxRow.tx_data_json))).
  - apply ret_ok in E as [E _]. symmetry in E. apply bool_decide_eq_true in E.
    split; [by intros|]. lia.
  - split; [lia|]. intros _ Hv.
    unfold is_empty in E.
    destruct (String.eqb_spec (guest_tx_visitor_id r.(cols).(TxRow.tx_data_json)) "") as [|_];
      [done|].
    apply ret_ok in E as [E _]. destruct v as [v|]; [|done]. exists v. split; [done|].
    symmetry in E. by apply String.eqb_eq in E.
Qed.

Lemma guest_order_get_ok s i b v e w got w' :
  guest_order_get s i b v e w = (Ok got, w') ->
  published w.(db) s /\ w'.(db) = w.(db) /\
  exists r, t_get (s, i) w.(db).(t_tx) = Some r /\ shown_to r b v /\
    exists w1 o w2, w1.(db) = w.(db) /\ tx_load s i e w1 = (Ok o, w2) /\
      got = match o with
        | Some tx => if tx.(Tx.input_source) =? enum_to_i32 TxInputSource.Web then Some tx else None
        | None => None end.
Proof.
  intros E. apply bind_ok in E as ([] & w1 & E1 & E).
  assert (w1.(db) = w.(db)) as D1 by (revert E1; case_match; [done|]; by intros [= ->]).
  apply bind_ok in E as (o & w2 & E2 & E).
  pose proof (reads_guest_site_owner _ _ _ _ _ E2) as D2.
  apply guest_site_owner_ok in E2 as [Hpub _].
  apply bind_ok in E as (a & w3 & E3 & E). pose proof (reads_get_allowed _ _ _ _ _ _ _ _ E3) as D3.
  apply bind_ok in E as ([] & w4 & E4 & E). destruct a; [|done]. injection E4 as <-.
  apply bind_ok in E as (otx & w5 & E5 & E). pose proof (reads_tx_load _ _ _ _ _ _ E5) as D5.
  apply ret_ok in E as [-> ->]. apply get_allowed_ok in E3.
  rewrite D1 in *. rewrite D2 in *. split; [done|]. split; [congruence|].
  destruct E3 as (r & Hr & Hs). exists r. split; [done|]. split; [done|].
  exists w3, otx, w5. split; [congruence|]. done.
Qed.


(** ** The order just placed *)

Lemma patch_ok k b v e w w' row :
  in_i64 b -> w.(db).(t_tx) !! k = Some row -> live row = true ->
  guest_tx_meta_patch k.1 k.2 b v e w = (Ok tt, w') ->
  (b <= 0 /\ trim v = "" /\ w'.(db) = w.(db)) \/
  exists row', w'.(db).(t_tx) !! k = Some row' /\ live row' = true /\
    row'.(cols).(TxRow.input_source) = row.(cols).(TxRow.input_source) /\
    guest_tx_buyer_user_iid row'.(cols).(TxRow.tx_data_json) = b /\
    guest_tx_visitor_id row'.(cols).(TxRow.tx_data_json) = trim v.
Proof.
  intros Hb Hrow Hl E. unfold guest_tx_meta_patch in E.
  destruct ((b <=? 0) && is_empty (trim v)) eqn:Ep.
  - left. injection E as <-. apply andb_true_iff in Ep as [Ep Ev]. apply String.eqb_eq in Ev.
    split; [lia|done].
  - right. apply bind_ok in E as (data & w1 & Eq & E). apply query_ok in Eq as [[_ ->] D1].
    apply bind_ok in E as (n & w2 & Eu & E). injection E as <-. revert Eu.
    generalize (default (json_object []) ((fun r : Row TxRow => r.(cols).(TxRow.tx_data_json))
      <$> t_get (k.1, k.2) w.(db).(t_tx))). intros base Eu.
    refine (runs_sql _ (fun d => d = w.(db)) (fun _ d => exists row', d.(t_tx) !! k = Some row' /\ _)
      _ _ _ _ _ Eu D1).
    intros now d m d' -> [= _ <-]. cbn [t_tx]. rewrite map_lookup_imap, Hrow. cbn.
    rewrite bool_decide_eq_true_2 by (by destruct k). cbn. eexists. split; [reflexivity|].
    split; [done|]. split; [done|]. split; [by apply merge_buyer|apply merge_visitor].
Qed.

Lemma load_header s i e w r w' row :
  tx_load s i e w = (Ok r, w') -> t_get (s, i) w.(db).(t_tx) = Some row ->
  exists saved, r = Some saved /\ saved.(Tx.tx_id) = i /\
    saved.(Tx.input_source) = enum_to_i32 (tx_input_source_from_str row.(cols).(TxRow.input_source)).
Proof.
  intros E Hrow. apply bind_ok in E as (row' & w1 & Eq & E). apply query_ok in Eq as [[_ ->] _].
  rewrite Hrow in E. apply bind_ok in E as (saved & w2 & Ea & E). apply ret_ok in E as [-> _].
  exists saved. split; [done|]. unfold tx_children_attach in Ea.
  do 6 (apply bind_ok in Ea as (? & ? & _ & Ea)). by apply ret_ok in Ea as [-> _].
Qed.

End Access.

(** C21. -private. An order is shown to whoever placed it.  When a member placed
    it, only that member can read it, whatever visitor number is presented; when
    a visitor placed it, only a caller who presents the same number.  The answer
    is then the order as it was placed. *)
Theorem guest_order_private {chrono : Chrono} {serde : SerdeJson} {ord : Order}
    site_iid tx b v e w r w' :
  guest_order_put site_iid (Some tx) b v e w = (Ok r, w') -> in_i64 b ->
  exists saved, r = Some saved /\
    forall buyer visitor e2 w2 got w2', w2.(db) = w'.(db) ->
      guest_order_get site_iid saved.(Tx.tx_id) buyer visitor e2 w2 = (Ok got, w2') ->
      got = Some saved /\
      (0 < b -> buyer = Some b) /\
      (b <= 0 -> trim v <> "" -> exists u, visitor = Some u /\ trim u = trim v).
Proof.
  intros E Hb. unfold guest_order_put in E.
  apply bind_ok in E as ([] & w1 & _ & E). apply bind_ok in E as (owner & w2 & _ & E).
  apply bind_ok in E as (t & w3 & _ & E). apply bind_ok in E as ([] & w4 & _ & E).
  apply bind_ok in E as (t1 & w5 & _ & E). apply bind_ok in E as (t2 & w6 & E6 & E).
  apply guest_order_normalize_ok in E6 as (Hg & Hs & _).
  apply bind_ok in E as (t3 & w7 & E7 & E). apply finalize_now_ok in E7 as [Hg3 Hid]; [|done].
  rewrite <- Hid in Hs. assert (Tx.site_iid t3 = site_iid) as <- by exact Hs. clear Hid Hg Hs t2 t1.
  apply bind_ok in E as ([] & w8 & E8 & E). apply guest_save_ok in E8 as (_ & _ & Hh); [|done].
  apply bind_ok in E as ([] & w9 & E9 & El). destruct Hh as (row & Hrow & Hl & _ & _ & Hweb & _).
  set (k := ident t3) in *. change (Tx.site_iid t3) with k.1 in *. change (Tx.tx_id t3) with k.2 in *.
  assert (exists row', t_get k w9.(db).(t_tx) = Some row' /\
    row'.(cols).(TxRow.input_source) = "web" /\
    ((b <= 0 /\ trim v = "") \/ (guest_tx_buyer_user_iid row'.(cols).(TxRow.tx_data_json) = b /\
      guest_tx_visitor_id row'.(cols).(TxRow.tx_data_json) = trim v))) as (row' & Hr' & Hweb' & Hdata).
  { destruct (patch_ok k b v e w8 w9 row Hb Hrow Hl E9) as [(H1 & H2 & ->)|(row' & H1 & H2 & H3 & H4 & H5)].
    - exists row. unfold t_get. rewrite Hrow, Hl. split; [done|]. split; [done|]. by left.
    - exists row'. unfold t_get. rewrite H1, H2. split; [done|]. split; [congruence|]. by right. }
  destruct k as [site id]. cbn [fst snd] in *.
  destruct (load_header _ _ _ _ _ _ _ El Hr') as (saved & -> & Hid & Hsrc).
  exists saved. split; [done|]. intros buyer visitor e2 v2 got v2' Hd Eg. rewrite Hid in Eg.
  apply guest_order_get_ok in Eg as (_ & _ & r0 & Hr0 & (_ & Hbuyer & Hvis) & v3 & o & v4 & Hd3 & El2 & ->).
  destruct (determined_tx_load site id) as [Hread Hdet].
  assert (w'.(db) = w9.(db)) as Hw by exact (Hread _ _ _ _ El).
  assert (o = Some saved) as -> by (eapply Hdet; [|exact El2|exact El]; congruence).
  rewrite Hd, Hw, Hr' in Hr0. injection Hr0 as <-. rewrite Hsrc, Hweb'. split; [done|].
  destruct Hdata as [[H1 H2]|[H1 H2]]; [split; [lia|done]|]. rewrite H1, H2 in *. done.
Qed.

(** ** Claiming *)

Section Merge.
Context {chrono : Chrono} {serde : SerdeJson} {ord : Order}.

(** A live web order that is not another member's nor, when both numbers are
    known, another visitor's. *)
Definition claimable (b : Z) (v : string) (r : Row TxRow) : Prop :=
  let data := r.(cols).(TxRow.tx_data_json) in
  live r = true /\ r.(cols).(TxRow.input_source) = "web" /\
  (0 < guest_tx_buyer_user_iid data -> guest_tx_buyer_user_iid data = b) /\
  (v <> "" -> guest_tx_visitor_id data <> "" -> guest_tx_visitor_id data = v).
(** The same order, now of this member. *)
Definition claimed (b : Z) (v : string) (r r' : Row TxRow) : Prop :=
  r'.(created_ts) = r.(created_ts) /\ r'.(deleted_ts) = r.(deleted_ts) /\
  r'.(cols) = {| r.(cols) with TxRow.tx_data_json := r'.(cols).(TxRow.tx_data_json) |} /\
  guest_tx_buyer_user_iid r'.(cols).(TxRow.tx_data_json) = b /\
  guest_tx_visitor_id r'.(cols).(TxRow.tx_data_json) = v.
Definition only_claims (s b : Z) (v : string) (ids : list Z) (d d' : Db) : Prop :=
  d' = {| d with t_tx := d'.(t_tx) |} /\
  forall k, option_Forall2 (fun r r' => r' = r \/
    (k.1 = s /\ k.2 ∈ ids /\ claimable b v r /\ claimed b v r r'))
    (d.(t_tx) !! k) (d'.(t_tx) !! k).

#[local] Instance only_claims_preorder s b v ids : PreOrder (only_claims s b v ids).
Proof.
  split.
  - intros d. split; [by destruct d|]. intros k. destruct (t_tx d !! k); constructor. by left.
  - intros d1 d2 d3 [E12 H12] [E23 H23]. split.
    { transitivity {| d2 with t_tx := d3.(t_tx) |}; [exact E23|]. by rewrite E12. }
    intros k.
    specialize (H12 k). specialize (H23 k).
    destruct H12 as [r1 r2 H12|]; inversion H23 as [? r3 H23' E2 E3|]; subst; constructor.
    destruct H12 as [->|(Hs & Hi & Hc & (C1 & C2 & C3 & C4 & C5))]; [done|].
    destruct H23' as [->|(_ & _ & _ & (D1 & D2 & D3 & D4 & D5))]; right; [done|].
    do 3 (split; [done|]). split; [congruence|]. split; [congruence|]. split; [|done].
    rewrite D3, C3. done.
Qed.

Lemma merge_one_claims s b v ids i :
  in_i64 b -> i ∈ ids -> trim v = v ->
  respects (only_claims s b v ids) (guest_merge_one s b v i).
Proof.
  intros Hb Hi Hv e w r w' E. unfold guest_merge_one in E.
  destruct (i <=? 0); [by injection E as _ <-|].
  apply bind_reads in E as [->|(row & w1 & Eq & D1 & E)]; [done| |apply reads_query].
  apply query_ok in Eq as [[_ ->] _]. rewrite <- D1.
  unfold t_get in E. rewrite <- D1 in E.
  destruct (t_tx w1.(db) !! (s, i)) as [row|] eqn:Erow; [|by injection E as _ <-].
  destruct (live row) eqn:El; [|by injection E as _ <-]. cbv zeta in E.
  destruct (String.eqb_spec row.(cols).(TxRow.input_source) "web") as [Hw|]; cbn [negb] in E;
    [|by injection E as _ <-].
  destruct ((0 <? _) && _) eqn:Ebuyer in E; [by injection E as _ <-|].
  destruct (_ && _ && _) eqn:Evis in E; [by injection E as _ <-|].
  assert (claimable b v row) as Hclaim.
  { split; [done|]. split; [done|]. split.
    - intros Hpos. destruct (Z.eqb_spec (guest_tx_buyer_user_iid row.(cols).(TxRow.tx_data_json)) b);
        [done|]. destruct (Z.ltb_spec 0 (guest_tx_buyer_user_iid row.(cols).(TxRow.tx_data_json))); [done|lia].
    - intros Hv0 Hv1. unfold is_empty in Evis.
      destruct (String.eqb_spec v ""), (String.eqb_spec (guest_tx_visitor_id row.(cols).(TxRow.tx_data_json)) "");
        try done. by destruct (String.eqb_spec (guest_tx_visitor_id row.(cols).(TxRow.tx_data_json)) v). }
  clear Ebuyer Evis.
  set (data := row.(cols).(TxRow.tx_data_json)) in *.
  assert (forall now, only_claims s b v ids w1.(db) {| w1.(db) with t_tx :=
    (t_update (fun k r => bool_decide (k = (s, i)) && (negb true || live r))
      (set_cols now (fun c => {| c with TxRow.tx_data_json := guest_tx_meta_merge data b v |}))
      w1.(db).(t_tx)).1 |}) as Hupd.
  { intros now. split; [done|]. intros k. cbn. rewrite map_lookup_imap.
    destruct (t_tx w1.(db) !! k) as [r0|] eqn:Ek; cbn; constructor.
    case_bool_decide as Hk; [|by left]. subst k. rewrite Erow in Ek. injection Ek as <-.
    cbn. rewrite El. right. do 3 (split; [done|]). split; [done|]. split; [done|]. split; [done|].
    split; [exact (merge_buyer data b v Hb)|]. exact (eq_trans (merge_visitor data b v) Hv). }
  apply bind_cases in E as [(x & E & _)|(n & w2 & E & E')]; [|injection E' as _ <-];
    revert E; apply (respects_sql_at (only_claims s b v ids)); intros now n' d' [= _ <-]; apply Hupd.
Qed.

Lemma merge_claims s b v ids :
  in_i64 b -> respects (only_claims s b (trim v) ids) (guest_member_merge s b v ids).
Proof.
  intros Hb. unfold guest_member_merge.
  apply respects_bind; [apply _|apply respects_reads; [apply _|case_match; auto with reads]|].
  intros _. apply respects_bind; [apply _| |intros o].
  { apply respects_reads; [apply _|apply reads_guest_site_owner]. }
  assert (forall l n, l ⊆ ids -> respects (only_claims s b (trim v) ids) (foldM (fun merged tx_id =>
    n ← guest_merge_one s b (trim v) tx_id; mret (merged + n)%i32) n l)) as Hl; [|by apply Hl].
  induction l as [|i l IH]; intros n Hsub; [apply respects_ret; apply _|].
  apply respects_bind; [apply _| |intros n'; apply IH; set_solver].
  apply respects_bind; [apply _| |intros m; apply respects_ret; apply _].
  apply merge_one_claims; [done|set_solver|apply trim_trim].
Qed.

End Merge.

(** C26. Claiming orders for a member takes only what is free to take: whatever
    the outcome, the only rows that change are live web orders of the site named
    in the request that no other member holds and that carry no visitor number
    other than the one presented; of those only the metadata changes, and they
    are then the member's. *)
Theorem guest_member_merge_claims {chrono : Chrono} {serde : SerdeJson} {ord : Order}
    site_iid b v ids e w r w' :
  guest_member_merge site_iid b v ids e w = (r, w') -> in_i64 b ->
  only_claims site_iid b (trim v) ids w.(db) w'.(db).
Proof. intros E Hb. by eapply merge_claims. Qed.
