(* ===== verification/Scenario.v ===== *)
(** * Runs of the handlers on a small site

    A site with one tracked product and its owner; the handlers run on it with
    concrete instances of the interfaces. *)
From S2P Require Import Prelude Strs Ts TxProto World Json TxData Db EnumMap Rows Persist Load.
From S2P Require Import Finalize StockApply Grant TxApi Reservation Guest.

Module Scenario.
Definition site : Z := 10.
Definition owner : Z := 5.
Definition product : Z := 7.
Definition shop : Z := 3.

Definition row {A} (a : A) : Row A := mk_row a 0 0 None.
Definition identity (kind : string) (owner : option Z) : Row IdentityRow :=
  row {| IdentityRow.kind := kind; IdentityRow.owner_iid := owner;
         IdentityRow.meta := Null; IdentityRow.is_active := true |}.
Definition product_row : Row ProductRow :=
  row {| ProductRow.price := 500; ProductRow.rev := 1;
         ProductRow.can_sell := true; ProductRow.can_reserve := false;
         ProductRow.track_stock := true; ProductRow.stock_qty := 100;
         ProductRow.is_archived := false; ProductRow.is_used := false;
         ProductRow.product_json := Null |}.
Definition db0 : Db := {|
  t_tx := ∅; t_item := ∅; t_reservation := ∅; t_source := ∅; t_payment := ∅;
  t_installment := ∅; t_debt_payment := ∅; t_acc := ∅; t_stock := ∅; t_tax := ∅;
  t_discount := ∅;
  t_product := {[ (site, product) := product_row ]};
  t_object := ∅;
  t_identity := <[site := identity "site" (Some owner)]> {[ owner := identity "user" None ]};
  t_grant := ∅; t_config := ∅; t_publish := {[ (site, "v1") := row true ]} |}.
Definition world (d : Db) : World Db :=
  {| db := d; n_clock := 0; n_ids := 0; n_sql := 0; txn_now := None |}.
(** Time runs, ids count up, and no statement fails. *)
Definition env : Env :=
  {| env_clock n := 1700000000000 + Z.of_nat n; env_ids n := 1000 + Z.of_nat n;
     env_fault _ := false |}.

Definition item : TxItem :=
  {| TxItem_default with TxItem.product_id := product; TxItem.price := 500; TxItem.qty := 2 |}.
Definition tx_of (ty : TxType) (store : Z) (payments : list TxPayment) (tx_id : Z)
    (state : TxState) : Tx :=
  {| Tx_default with Tx.site_iid := site; Tx.tx_id := tx_id;
     Tx.type := enum_to_i32 ty; Tx.state := enum_to_i32 state;
     Tx.time_ts_ms := 1700000000000; Tx.store_id := store; Tx.items := [item];
     Tx.payments := payments |}.
Definition sale : Z -> TxState -> Tx := tx_of TxType.Sale shop [].

(** The stock counter after some handlers, in this order; none when one fails. *)
Fixpoint counter_after (ms : list (M Db ())) (w : World Db) : option Z :=
  match ms with
  | [] => (fun r => r.(cols).(ProductRow.stock_qty)) <$> w.(db).(t_product) !! (site, product)
  | m :: ms => match m env w with (Ok _, w) => counter_after ms w | (Err _, _) => None end
  end.
Definition put (tx : Tx) : M Db () := tx_put owner (Some tx);; mret tt.
Definition delete (tx_id : Z) : M Db () := tx_delete owner site tx_id;; mret tt.


(** A cabin that one party can book at a time, and an order for it. *)
Definition cabin : Z := 8.
Definition cabin_row : Row ProductRow :=
  row {| ProductRow.price := 900; ProductRow.rev := 1;
         ProductRow.can_sell := true; ProductRow.can_reserve := true;
         ProductRow.track_stock := false; ProductRow.stock_qty := 0;
         ProductRow.is_archived := false; ProductRow.is_used := false;
         ProductRow.product_json := Null |}.
Definition db1 : Db := {| db0 with t_product := <[(site, cabin) := cabin_row]> db0.(t_product) |}.
(** A booking of the cabin; [product_id] is the reservation's own field. *)
Definition cabin_order (product_id price : Z) : Tx :=
  {| Tx_default with Tx.subject_name := "Budi"; Tx.items :=
      [{| TxItem_default with TxItem.product_id := cabin; TxItem.price := price;
          TxItem.reservations := [{| TxItemReservation_default with
            TxItemReservation.product_id := product_id; TxItemReservation.qty := 1;
            TxItemReservation.start_ts_ms := 1800000000000;
            TxItemReservation.end_ts_ms := 1800086400000 |}] |}] |}.
Definition guest_put (tx : Tx) : M Db (option Tx) := guest_order_put site (Some tx) 0 "visitor".
(** What placing some guest orders one after the other answers: the totals, or
    the first error. *)
Fixpoint guest_totals (txs : list Tx) (w : World Db) : result (list Z) :=
  match txs with
  | [] => Ok []
  | tx :: txs => match guest_put tx env w with
      | (Ok o, w) => rest ← guest_totals txs w; Ok (default 0 (Tx.total <$> o) :: rest)
      | (Err x, _) => Err x
      end
  end.
End Scenario.

(** The counters do not follow the state of a sale.  Selling two of a hundred
    leaves 98; the same sale confirmed after it waited for payment leaves 100;
    cancelling or deleting it puts nothing back; and saving it again after a
    delete takes the two once more. *)
Example order_stock_history :
  let sale := Scenario.sale 77 in
  let after ms := Scenario.counter_after ms (Scenario.world Scenario.db0) in
  after [Scenario.put (sale TxState.Ok)] = Some 98 /\
  after [Scenario.put (sale TxState.WaitingPayment); Scenario.put (sale TxState.Ok)] = Some 100 /\
  after [Scenario.put (sale TxState.Ok); Scenario.put (sale TxState.Cancelled)] = Some 98 /\
  after [Scenario.put (sale TxState.Ok); Scenario.delete 77] = Some 98 /\
  after [Scenario.put (sale TxState.Ok); Scenario.delete 77; Scenario.put (sale TxState.Ok)]
    = Some 96.
Proof. vm_compute. repeat split. Qed.

(** The calendar counts a reservation under the product its own field names.  A
    guest who leaves the field empty, or fills it in right, finds the cabin taken
    by the first booking; a first guest who names another product there leaves
    the cabin free for a second one.  The price is the guest's to choose as
    well. *)
Example guest_double_booking :
  let totals txs := Scenario.guest_totals txs (Scenario.world Scenario.db1) in
  let order p := Scenario.cabin_order p 0 in
  totals [order 0; order 0] = Err "not enough units available" /\
  totals [order Scenario.cabin; order 0] = Err "not enough units available" /\
  totals [order 999; order 0] = Ok [900; 900] /\
  totals [Scenario.cabin_order 0 1] = Ok [1].
Proof. vm_compute. repeat split. Qed.
