(* ===== verification/Witnesses.v ===== *)
(** * Concrete inputs at which the properties apply *)
From Stdlib Require Import Sorted.
From S2P Require Import Prelude Strs Snowflake Ts TxProto World Json TxData Db EnumMap Rows.
From S2P Require Import Persist Load TxJson TxJsonFacts Finalize FinalizeFacts FinalizeProps.
From S2P Require Import FinalizeStable StockApply TxStockProps Grant TxApi TxPutFacts TxPutProps.
From S2P Require Import TxApiProps TxStockProps Scenario TxList Reservation Guest GuestProps.
From S2P Require Import GuestOrderProps SaveFacts ReadBack ReadBackProps.
From S2P Require Import TxList Reservation.
Import Scenario.

(** ** Ids *)

Lemma snowflake_id_returns_witness :
  exists id sh', snowflake_id 3 [Some (SNOWFLAKE_EPOCH_MS + 5)] shared_init = Some (id, sh').
Proof. apply snowflake_id_returns. constructor. by vm_compute. Defined.

Lemma snowflake_pack_roundtrip_witness :
  id_ms (snowflake_pack 5 3 7) = 5 /\ id_worker (snowflake_pack 5 3 7) = 3 /\
  id_seq (snowflake_pack 5 3 7) = 7 /\ 0 <= snowflake_pack 5 3 7 < 2 ^ 63.
Proof. apply (snowflake_pack_roundtrip 5 3 7); split; by vm_compute. Defined.

Lemma snowflake_day_range_witness :
  (snowflake_min_at_ms (SNOWFLAKE_EPOCH_MS + 4) <= snowflake_pack 5 3 7 <-> 4 <= 5) /\
  (snowflake_pack 5 3 7 <= snowflake_max_at_ms (SNOWFLAKE_EPOCH_MS + 4) <-> 5 <= 4).
Proof. apply (snowflake_day_range 5 4 3 7); split; by vm_compute. Defined.

Lemma worker_id_range_witness :
  1 <= worker_id {| C35_WORKER_ID := None; POD_NAME := Some "pod-0"; HOSTNAME := None;
                    process_id := "17" |}.
Proof.
  destruct (worker_id_range {| C35_WORKER_ID := None; POD_NAME := Some "pod-0";
    HOSTNAME := None; process_id := "17" |}) as [_ H].
  apply H. reflexivity.
Defined.

(** ** Names *)

Lemma enum_names_complete_witness :
  tx_type_str TxType.Sale = "sale" <-> tx_type_stored TxType.Sale = tx_type_from_str "sale".
Proof. apply (proj1 enum_names_complete). vm_compute. by left. Defined.

(** ** Totals, ledger and stock lines *)

(** A clock reading. *)
Definition now : DateTime := 1700000000000.
Definition return_sale : Tx :=
  tx_of TxType.ReturnSale shop [] 78 TxState.Ok.
(** A sale on credit with one installment, part of it repaid. *)
Definition installment : TxInstallment :=
  {| TxInstallment_default with TxInstallment.inst_id := 41; TxInstallment.amount := 1000;
     TxInstallment.due_ts_ms := 1600000000000;
     TxInstallment.debt_payments := [{| TxDebtPayment_default with TxDebtPayment.pay_id := 51;
       TxDebtPayment.amount := 400 |}] |}.
Definition credit : TxPayment :=
  {| TxPayment_default with TxPayment.payment_id := 31;
     TxPayment.method := enum_to_i32 TxPaymentMethod.Debt; TxPayment.amount := 1000;
     TxPayment.ts_ms := 1700000000000; TxPayment.installments := [installment] |}.
Definition credit_sale : Tx := tx_of TxType.Sale shop [credit] 79 TxState.Ok.

Lemma finalize_no_rounding_witness : exists a,
  a ∈ Tx.accs (tx_finalize now now (sale 77 TxState.Ok)) /\ a.(TxAcc.acc_code) <> COA_ROUNDING.
Proof.
  eexists. split; [vm_compute; left|].
  apply (finalize_no_rounding now now (sale 77 TxState.Ok)); [reflexivity| |reflexivity].
  vm_compute. left.
Defined.

Lemma finalize_return_rounding_witness : exists a,
  a ∈ Tx.accs (tx_finalize now now return_sale) /\ a.(TxAcc.acc_code) = COA_ROUNDING.
Proof.
  destruct (finalize_return_rounding now now return_sale) as (a & Ha & Hc & _);
    [reflexivity|vm_compute; discriminate|]. exists a. split; assumption.
Defined.

Lemma finalize_is_paid_without_debt_witness :
  Tx.is_paid (tx_finalize now now (sale 77 TxState.Ok)) = true /\
  Tx.total_unpaid (tx_finalize now now (sale 77 TxState.Ok)) = 1000.
Proof.
  split; [|vm_compute; reflexivity].
  apply finalize_is_paid_without_debt; reflexivity.
Defined.

Lemma installment_status_witness : exists p' inst',
  Tx.payments (tx_finalize now now credit_sale) !! 0%nat = Some p' /\
  p'.(TxPayment.installments) !! 0%nat = Some inst' /\
  TxInstallment.is_overdue inst' = true.
Proof.
  destruct (installment_status now now credit_sale 0 0 credit installment)
    as (p' & inst' & Hp & Hi & _ & _ & _ & Hpaid & Hover);
    [vm_compute; eauto|reflexivity|reflexivity|reflexivity|left; vm_compute; eauto|].
  exists p', inst'. split; [exact Hp|]. split; [exact Hi|]. apply Hover.
  split; [|split; reflexivity]. destruct (TxInstallment.is_paid inst'); [|reflexivity].
  destruct (proj1 Hpaid eq_refl) as [_ H]. exfalso. revert H. vm_compute. auto.
Defined.

Lemma finalize_stock_lines_witness :
  Forall stock_ok (Tx.stocks (tx_finalize now now (sale 77 TxState.Ok))).
Proof.
  apply (finalize_stock_lines now now (sale 77 TxState.Ok)).
  repeat constructor; vm_compute; discriminate.
Defined.

Lemma finalize_stock_flow_witness :
  to_i32 (stock_net product (Tx.stocks (tx_finalize now now (sale 77 TxState.Ok)))) = -2.
Proof.
  rewrite (finalize_stock_flow now now (sale 77 TxState.Ok) product); [vm_compute; reflexivity|].
  repeat constructor; vm_compute; discriminate.
Defined.

Lemma sale_counted_once_witness :
  stock_delta [] (Tx.stocks (tx_finalize now now (sale 77 TxState.Ok))) product = -2.
Proof.
  rewrite (sale_counted_once now now (sale 77 TxState.Ok) product);
    [vm_compute; reflexivity|repeat constructor; vm_compute; discriminate|reflexivity|discriminate
    |discriminate|].
  intros item src Hi Hs. apply list_elem_of_singleton in Hi as ->. by apply not_elem_of_nil in Hs.
Defined.

Lemma stock_counted_twice_witness :
  let tx := tx_of TxType.Sale 0 [] 77 TxState.Ok in
  stock_delta [] (Tx.stocks (tx_finalize now now tx)) product = -4 /\
  stock_delta [] (Tx.stocks (tx_finalize now now return_sale)) product = 4.
Proof.
  intros tx. split.
  - rewrite (stock_counted_twice now now tx product);
      [vm_compute; reflexivity|repeat constructor; vm_compute; discriminate|discriminate|].
    left. split; [reflexivity|]. split; [reflexivity|]. repeat constructor.
  - rewrite (stock_counted_twice now now return_sale product);
      [vm_compute; reflexivity|repeat constructor; vm_compute; discriminate|discriminate|].
    right. reflexivity.
Defined.

(** ** JSON *)

Lemma tx_json_roundtrip_witness :
  tx_from_json (tx_to_json credit_sale) = Ok (tx_stored credit_sale).
Proof. apply tx_json_roundtrip. apply (bool_decide_unpack _). vm_compute. exact I. Defined.

Lemma payment_json_reprinted_witness :
  from_str (tx_payment_from_json (tx_payment_to_json credit)).(TxPayment.payment_json) = Some (Str "").
Proof. apply (payment_json_reprinted credit). apply (bool_decide_unpack _). vm_compute. exact I. Defined.

(** ** Handlers *)

(** The state after a handler on the sample site. *)
Definition after {A} (m : M Db A) (w : World Db) : World Db := (m env w).2.
Lemma run_ok {A} (m : M Db A) w a : (m env w).1 = Ok a -> m env w = (Ok a, after m w).
Proof. intros <-. apply surjective_pairing. Qed.
Definition sold : World Db := after (put (sale 77 TxState.Ok)) (world db0).
Definition lent : World Db := after (put credit_sale) (world db0).

Lemma tx_put_atomic_witness : exists id,
  tx_frame (site, id) db0 (after (tx_put owner (Some (sale 77 TxState.Ok))) (world db0)).(db).
Proof.
  destruct (tx_put_atomic owner (sale 77 TxState.Ok) env (world db0) _ _
    (surjective_pairing _)) as [E|(o & old & tx' & w1 & w2 & _ & _ & _ & _ & Hs & _ & Hf)].
  - apply (f_equal (fun d => size (t_tx d))) in E. vm_compute in E. discriminate E.
  - exists tx'.(Tx.tx_id). rewrite Hs in Hf. exact Hf.
Defined.

(** The credit sale comes back with its one payment, its one installment and the
    repayment made on it. *)
Lemma tx_put_read_back_witness : exists tx' saved,
  children_read tx' saved /\
  (fun p => length <$> (TxInstallment.debt_payments <$> p.(TxPayment.installments)))
    <$> saved.(Tx.payments) = [[1%nat]].
Proof.
  assert (exists r, (tx_put owner (Some credit_sale) env (world db0)).1 = Ok r /\
    (fun tx => (fun p => length <$> (TxInstallment.debt_payments <$> p.(TxPayment.installments)))
      <$> tx.(Tx.payments)) <$> r = Some [[1%nat]]) as (r & E & Hr).
  { vm_compute. eexists. split; reflexivity. }
  apply run_ok in E.
  destruct (tx_put_read_back owner credit_sale env (world db0) r _ E)
    as (o & old & tx' & w1 & saved & _ & -> & _ & Hc & _).
  exists tx', saved. split; [exact Hc|]. by injection Hr.
Defined.

(** Two of a hundred were sold; the sale is changed to five. *)
Definition result_ok {A} (r : result A) : option A := match r with Ok a => Some a | Err _ => None end.
Definition five_sold : Tx :=
  let sale := sale 77 TxState.Ok in
  let five : TxItem := {| item with TxItem.qty := 5 |} in {| sale with Tx.items := [five] |}.
Lemma tx_put_stock_witness : exists row row',
  sold.(db).(t_product) !! (site, product) = Some row /\
  row.(cols).(ProductRow.stock_qty) = 98 /\
  (after (tx_put owner (Some five_sold)) sold).(db).(t_product) !! (site, product) = Some row' /\
  row'.(cols).(ProductRow.stock_qty) = 95.
Proof.
  destruct (tx_put_stock owner five_sold env sold _ _ (surjective_pairing _))
    as [[[x E] _]|(o & old & tx' & w1 & Ep & H)].
  { exfalso. apply (f_equal (fun r => match r with Ok _ => true | Err _ => false end)) in E.
    vm_compute in E. discriminate E. }
  assert ((fun row => (row.(cols).(ProductRow.stock_qty), live row && row.(cols).(ProductRow.track_stock)
       && negb row.(cols).(ProductRow.can_reserve))) <$> sold.(db).(t_product) !! (site, product)
    = Some (98, true)) as Hr by (vm_compute; reflexivity).
  destruct (sold.(db).(t_product) !! (site, product)) as [row|] eqn:Hrow; [|discriminate Hr].
  destruct (H site product row Hrow) as (row' & Hrow' & Hq). exists row, row'.
  split; [reflexivity|]. injection Hr as H98 Hl. split; [exact H98|]. split; [exact Hrow'|].
  cbv zeta in Hq. rewrite Hq, H98.
  assert (Tx.tx_id five_sold = 77 /\ Tx.site_iid five_sold = site) as [-> ->]
    by (split; reflexivity).
  assert ((fun p : Z * list TxStock * Tx =>
      (becomes_ok p.2, Zsum (line_delta product <$> p.2.(Tx.stocks)))) <$>
    result_ok (tx_put_prepare owner (Some five_sold) env sold).1 = Some (true, -5)) as Ep'
    by (vm_compute; reflexivity).
  rewrite Ep in Ep'. injection Ep' as Hok Hafter. rewrite Hok, Hafter.
  apply andb_true_iff in Hl as [Hl Hc]. apply andb_true_iff in Hl as [Hl Ht]. rewrite Hl, Ht, Hc.
  assert (stored_delta (db sold) (site, 77) product = -2) as -> by (vm_compute; reflexivity).
  reflexivity.
Defined.

Lemma tx_delete_spec_witness :
  t_get (site, 77) (after (tx_delete owner site 77) sold).(db).(t_tx) = None.
Proof.
  assert (tx_delete owner site 77 env sold = (Ok true, after (tx_delete owner site 77) sold)) as E.
  { apply run_ok. vm_compute. reflexivity. }
  destruct (tx_delete_spec owner site 77 env sold true _ E) as (o & _ & _ & _ & H & _).
  exact H.
Defined.

(** Of 1000 owed, 400 is repaid; a repayment of 700 books the 600 that is left. *)
Lemma apply_debt_payment_spec_witness : exists inst inst',
  inst_remaining inst = 600 /\ inst_remaining inst' = 0.
Proof.
  destruct (apply_debt_payment_spec credit_sale {| TxDebtPayment_default with
      TxDebtPayment.amount := 700 |} env (world db0) _ _ (surjective_pairing _)) as [_ H].
  set (r := fst _) in H. vm_compute in r. subst r. cbn iota in H.
  destruct H as (ps1 & p & is1 & inst & inst' & is2 & ps2 & Hps & Hin & _ & _ & _ & _ & _ & _ & Hr).
  destruct ps1 as [|? [|? ?]]; [|discriminate Hps..].
  injection Hps as <- <-. destruct is1 as [|? [|? ?]]; [|discriminate Hin..].
  injection Hin as <- <-. exists installment, inst'. split; [vm_compute; reflexivity|].
  rewrite Hr. vm_compute. reflexivity.
Defined.

(** The owner of the site may write; a stranger may not even read. *)
Lemma site_grant_check_sound_witness :
  granted db0 owner site owner true /\ ~ granted db0 4 site owner false /\
  (site_grant_check owner site true env (world db0)).1 = Ok owner.
Proof.
  assert ((site_grant_check owner site true env (world db0)).1 = Ok owner) as E
    by (vm_compute; reflexivity).
  destruct (site_grant_check_sound env (world db0) owner site true _ _ (surjective_pairing _))
    as (_ & H & _). destruct (H owner E) as [Hs Ho]. split; [exact Ho|]. split; [|exact E].
  intros Hg. destruct (site_grant_check_sound env (world db0) 4 site false _ _ (surjective_pairing _))
    as (_ & _ & H4). specialize (H4 ltac:(intros n; reflexivity) owner Hs Hg).
  vm_compute in H4. discriminate H4.
Defined.

(** ** Guest orders *)

(** A room for two nights is asked for while the first of two rooms is held. *)
Definition booking (object_id qty : Z) : ReservationHold :=
  {| ReservationHold.product_id := product; ReservationHold.start_ts_ms := 100;
     ReservationHold.end_ts_ms := 300; ReservationHold.site_object_id := object_id;
     ReservationHold.qty := qty |}.
Definition rooms : Availability :=
  {| Availability.ok := true; Availability.units_available := 2;
     Availability.free_objects :=
       [{| FreeObject.id := 21; FreeObject.name := "A"; FreeObject.code := ""; FreeObject.pic := "" |};
        {| FreeObject.id := 22; FreeObject.name := "B"; FreeObject.code := ""; FreeObject.pic := "" |}] |}.
Lemma guest_slot_sound_witness :
  22 ∈ FreeObject.id <$> rooms.(Availability.free_objects) /\ no_clash (booking 21 1) (booking 22 1).
Proof.
  destruct (guest_slot_sound rooms (booking 22 1) [booking 21 1] eq_refl) as (_ & H & _).
  destruct (H ltac:(reflexivity)) as [Hf Hc]. split; [exact Hf|]. by inversion Hc.
Defined.

(** An order at a price the guest chose. *)
Definition guest_item (price : Z) : TxItem :=
  {| TxItem_default with TxItem.product_id := product; TxItem.price := price; TxItem.qty := 2 |}.
Definition guest_tx (price : Z) : Tx :=
  {| Tx_default with Tx.subject_name := "Budi"; Tx.items := [guest_item price] |}.

Lemma guest_order_reprice_spec_witness : exists items,
  Forall2 (repriced db0 site) [guest_item 1] items /\ TxItem.price <$> items = [1].
Proof.
  pose (m := guest_order_reprice site (guest_tx 1)).
  destruct (m env (world db0)) as [[tx'|x] w'] eqn:E.
  - destruct (guest_order_reprice_spec site (guest_tx 1) env (world db0) tx' w' E)
      as (_ & _ & (items & Htx & Hf) & _).
    exists items. split; [exact Hf|].
    apply (f_equal fst) in E. vm_compute in E. injection E as <-. injection Htx as <-. reflexivity.
  - apply (f_equal fst) in E. vm_compute in E. discriminate E.
Defined.

Lemma guest_order_put_frame_witness : exists id,
  has_guest_header (site, id) (after (guest_order_put site (Some (guest_tx 0)) 0 "v1") (world db0)).(db).
Proof.
  assert (forall n, (world db0).(db).(t_tx) !! (site, env.(env_ids) n) = None) as Hnew
    by (intros n; reflexivity).
  destruct (guest_order_put_frame site (Some (guest_tx 0)) 0 "v1" env (world db0) _ _ Hnew
    (surjective_pairing _)) as [[_ E]|(id & t & _ & _ & _ & _ & _ & _ & H)].
  - apply (f_equal (fun d => size (t_tx d))) in E. vm_compute in E. discriminate E.
  - exists id. exact H.
Defined.

(** The visitor who placed the order is the one who can read it. *)
Lemma guest_order_private_witness : exists saved : Tx,
  forall buyer visitor e2 w2 got w2',
    w2.(db) = (after (guest_order_put site (Some (guest_tx 0)) 0 "v1") (world db0)).(db) ->
    guest_order_get site saved.(Tx.tx_id) buyer visitor e2 w2 = (Ok got, w2') ->
    exists u, visitor = Some u /\ trim u = "v1".
Proof.
  assert (exists r, (guest_order_put site (Some (guest_tx 0)) 0 "v1" env (world db0)).1 = Ok r)
    as [r E] by (vm_compute; eexists; reflexivity).
  apply run_ok in E.
  destruct (guest_order_private site (guest_tx 0) 0 "v1" env (world db0) r _ E) as (saved & _ & H);
    [by apply (bool_decide_unpack _)|].
  exists saved. intros buyer visitor e2 w2 got w2' Hd Eg.
  destruct (H buyer visitor e2 w2 got w2' Hd Eg) as (_ & _ & Hv). apply Hv; [done|discriminate].
Defined.

(** A member claims the visitor's order. *)
Definition placed : World Db := after (guest_order_put site (Some (guest_tx 0)) 0 "v1") (world db0).
Lemma guest_member_merge_claims_witness :
  only_claims site 42 "v1" [1000] placed.(db)
    (after (guest_member_merge site 42 " v1" [1000]) placed).(db).
Proof.
  apply (guest_member_merge_claims site 42 " v1" [1000] env placed _ _ (surjective_pairing _)).
  by apply (bool_decide_unpack _).
Defined.

(** ** Listing *)

(** Two sales, shown on pages of one. *)
Definition sold_two : World Db := after (put (sale 79 TxState.Ok)) sold.
Lemma tx_list_page_witness : exists txs,
  StronglySorted (fun a b => a.(Tx.tx_id) < b.(Tx.tx_id)) txs /\ Tx.tx_id <$> txs = [77; 79].
Proof.
  pose (req := ReqTxList.mk site "" 0 1 false 0 0 0 0 0 false).
  pose (ilike := fun _ _ : string => true).
  assert (exists t77, (tx_list ilike owner req env sold_two).1 = Ok [t77] /\
    Tx.tx_id t77 = 77) as (t77 & E & H77) by (vm_compute; eexists; split; reflexivity).
  assert (exists t79, (tx_list ilike owner (after_page req 77) env sold_two).1 = Ok [t79] /\
    Tx.tx_id t79 = 79) as (t79 & E' & H79) by (vm_compute; eexists; split; reflexivity).
  apply run_ok in E, E'.
  assert (paging ilike owner req sold_two.(db) [[t77]; [t79]]) as Hp.
  { apply (paging_next ilike owner req sold_two.(db) [[t77]] t77 env sold_two [t79]
      (after (tx_list ilike owner (after_page req 77)) sold_two));
      [exact (paging_first ilike owner req sold_two.(db) env sold_two _ _ eq_refl E)|reflexivity| |reflexivity|];
      rewrite H77; [reflexivity|exact E']. }
  destruct (tx_list_page ilike owner req sold_two.(db) now now _ ltac:(split; discriminate) Hp)
    as (_ & _ & _ & Hs & _).
  exists [t77; t79]. split; [exact Hs|].
  exact (f_equal2 (fun a b => [a; b]) H77 H79).
Defined.

(** ** The calendar *)

(** A cabin that was booked is not free. *)
Definition booked : World Db := after (guest_put (cabin_order cabin 0)) (world db1).
Lemma guest_availability_spec_witness : exists a,
  guest_reservation_availability site cabin 1800000000000 1800086400000 1 env booked =
    (Ok a, after (guest_reservation_availability site cabin 1800000000000 1800086400000 1) booked) /\
  a.(Availability.ok) = false /\ a.(Availability.units_available) = 0 /\
  NoDup (FreeObject.id <$> a.(Availability.free_objects)).
Proof.
  assert (exists a, (guest_reservation_availability site cabin 1800000000000 1800086400000 1
    env booked).1 = Ok a /\ a.(Availability.ok) = false /\ a.(Availability.units_available) = 0)
    as (a & E & Ho & Hu) by (vm_compute; eexists; split; [|split]; reflexivity).
  apply run_ok in E. exists a. split; [exact E|]. split; [exact Ho|]. split; [exact Hu|].
  pose proof (guest_availability_spec site cabin 1800000000000 1800086400000 1 env booked a _
    ltac:(reflexivity) ltac:(reflexivity) E) as H.
  destruct (inventory _ _ _) as [[mode capacity] ttl].
  destruct H as (_ & n & rows & objects & pool & _ & _ & _ & _ & Hn & _). exact Hn.
Defined.
