(* ===== verification/Shared.v ===== *)
(** * Handlers that run beside others

    The task crate changes its tables one statement at a time and outside
    transactions, from handlers and workers that run at the same time.  A handler
    is a program of [World] in which, before each of its statements, the others
    may have changed what it shares with them: [others] says how, and a theorem
    that holds for every [others] of some kind holds for every interleaving with
    such others. *)
From S2P Require Import Prelude Ts World.

(** What the other tasks do to the shared state before the [n]-th step. *)
Class Others (DB : Type) := others : nat -> DB -> DB.
(** [Instant::now()] at the [n]-th step, in milliseconds *)
Class Instants := instant_ms : nat -> Z.
(** Which of several tasks ends next, at the [n]-th step *)
Class Scheduler := pick : nat -> nat.

(** The [StatusCode] of an HTTP answer *)
Inductive StatusCode := OK | UNAUTHORIZED | INTERNAL_SERVER_ERROR | BAD_REQUEST | NOT_FOUND.

(** Nobody else runs. *)
Definition alone {DB} : Others DB := fun _ d => d.

Section Shared.
Context {DB : Type} `{!Chrono} `{!Others DB}.
Notation M := (M DB).

Definition interleave : M () := fun e w =>
  (Ok tt, {| w with db := others w.(n_sql) w.(db) |}).
(** One statement, and a query, outside a transaction *)
Definition stmt {A} (f : DateTime -> DB -> result (A * DB)) : M A := interleave;; sql f.
Definition read {A} (f : DateTime -> DB -> A) : M A := interleave;; query f.
(** An access to the memory of the process *)
Definition atomic {A} (f : DB -> A * DB) : M A := fun e w =>
  let '(a, d) := f (others w.(n_sql) w.(db)) in
  (Ok a, {| w with db := d; n_sql := S w.(n_sql) |}).
(** An answer from outside, which depends on when it is asked for *)
Definition ask {A} (f : nat -> A) : M A := fun e w =>
  (Ok (f w.(n_sql)),
   {| w with db := others w.(n_sql) w.(db); n_sql := S w.(n_sql) |}).

(** A statement that succeeds, on what the others made of the state. *)
Lemma stmt_ok {A} (f : DateTime -> DB -> result (A * DB)) e w a w' :
  stmt f e w = (Ok a, w') -> exists now, f now (others w.(n_sql) w.(db)) = Ok (a, w'.(db)).
Proof.
  unfold stmt, interleave, sql, mbind, M_bind. cbn.
  destruct (txn_now w) as [t|]; cbn; case_match; try done;
    destruct (f _ _) as [[b d]|x] eqn:E; intros [= <- <-]; eexists; exact E.
Qed.
(** Any statement: it fails and changes nothing, or does its work. *)
Lemma stmt_cases {A} (f : DateTime -> DB -> result (A * DB)) e w :
  exists now,
    (exists x w1, stmt f e w = (Err x, w1) /\ w1.(db) = others w.(n_sql) w.(db) /\
       (e.(env_fault) w.(n_sql) = true \/ f now (others w.(n_sql) w.(db)) = Err x)) \/
    (exists a w1, stmt f e w = (Ok a, w1) /\ f now (others w.(n_sql) w.(db)) = Ok (a, w1.(db))).
Proof.
  unfold stmt, interleave, sql, mbind, M_bind. cbn.
  destruct (txn_now w) as [t|]; cbn;
    (destruct (env_fault e w.(n_sql)) eqn:Ef; [eexists; left; do 2 eexists; split_and!; eauto|]);
    [exists t|exists (env_clock e w.(n_clock))];
    (destruct (f _ _) as [[a d]|x]; [right|left]; do 2 eexists; split_and!; eauto).
  Unshelve. all: exact (env_clock e 0).
Qed.
Lemma read_ok {A} (f : DateTime -> DB -> A) e w a w' :
  read f e w = (Ok a, w') ->
  w'.(db) = others w.(n_sql) w.(db) /\ exists now, a = f now (others w.(n_sql) w.(db)).
Proof.
  unfold read, interleave, mbind, M_bind. cbn. intros [[now ->] ->]%query_ok. cbn. eauto.
Qed.

(** A [Result] as a value; [let _ =]; [unwrap_or] and [.ok()] *)
Definition attempt {A} (m : M A) : M (result A) := fun e w => let '(r, w) := m e w in (Ok r, w).
Definition ignore {A} (m : M A) : M () := attempt m;; mret tt.
Definition unwrap_or {A} (d : A) (m : M A) : M A :=
  r ← attempt m; mret match r with Ok a => a | Err _ => d end.

Lemma attempt_run {A} (m : M A) e w : attempt m e w = (Ok (m e w).1, (m e w).2).
Proof. unfold attempt. by destruct (m e w). Qed.
Lemma ignore_run {A} (m : M A) e w : ignore m e w = (Ok tt, (m e w).2).
Proof. unfold ignore, attempt, mbind, M_bind. by destruct (m e w). Qed.

(** Loops in one environment *)
Lemma foldM_ok {A B} (f : A -> B -> M A) e (I : list B -> A -> DB -> Prop) l a w a' w' :
  (forall pre x a v a1 v1, I pre a v.(db) -> f a x e v = (Ok a1, v1) -> I (pre ++ [x]) a1 v1.(db)) ->
  foldM f a l e w = (Ok a', w') -> I [] a w.(db) -> I l a' w'.(db).
Proof.
  intros Hf. change (I l) with (I ([] ++ l)). generalize (@nil B) as pre. revert a w.
  induction l as [|x l IH]; intros a w pre E Hi.
  - injection E as <- <-. by rewrite app_nil_r.
  - apply bind_ok in E as (a1 & w1 & E1 & E). rewrite cons_middle, app_assoc.
    eapply IH; [exact E|]. by eapply Hf.
Qed.
Lemma mapM_ok {A B} (f : A -> M B) e (I : list A -> list B -> DB -> Prop) l w bs w' :
  (forall pre x done v b v1, I pre done v.(db) -> f x e v = (Ok b, v1) ->
     I (pre ++ [x]) (done ++ [b]) v1.(db)) ->
  mapM f l e w = (Ok bs, w') -> I [] [] w.(db) -> I l bs w'.(db).
Proof.
  intros Hf. change (I l) with (I ([] ++ l)). change (I ([] ++ l) bs) with (I ([] ++ l) ([] ++ bs)).
  generalize (@nil A) as pre. generalize (@nil B) as acc. revert bs w.
  induction l as [|x l IH]; intros bs w acc pre E Hi.
  - injection E as <- <-. by rewrite !app_nil_r.
  - apply bind_ok in E as (b & w1 & E1 & E). apply bind_ok in E as (bs1 & w2 & E2 & E).
    apply ret_ok in E as [-> ->]. rewrite !(cons_middle _ _ l), !(cons_middle _ _ bs1), !app_assoc.
    eapply IH; [exact E2|]. by eapply Hf.
Qed.
Lemma forM_ok {A} (f : A -> M ()) e (I : list A -> DB -> Prop) l w u w' :
  (forall pre x v u1 v1, I pre v.(db) -> f x e v = (Ok u1, v1) -> I (pre ++ [x]) v1.(db)) ->
  forM_ l f e w = (Ok u, w') -> I [] w.(db) -> I l w'.(db).
Proof.
  intros Hf. change (I l) with (I ([] ++ l)). generalize (@nil A) as pre. revert w.
  induction l as [|x l IH]; intros w pre E Hi.
  - injection E as _ <-. by rewrite app_nil_r.
  - apply bind_ok in E as (u1 & w1 & E1 & E). rewrite cons_middle, app_assoc.
    eapply IH; [exact E|]. by eapply Hf.
Qed.

(** ** Interleaved code stays within a relation *)

Section Respects.
Context (R : DB -> DB -> Prop) `{!PreOrder R} (Hothers : forall n d, R d (others n d)).

Lemma respects_interleave : respects R interleave.
Proof. intros e w r w' [= <- <-]. apply Hothers. Qed.
Lemma respects_stmt {A} (f : DateTime -> DB -> result (A * DB)) :
  (forall now d a d', f now d = Ok (a, d') -> R d d') -> respects R (stmt f).
Proof.
  intros Hf. apply respects_bind; [done|apply respects_interleave|]. intros _. by apply respects_sql.
Qed.
(** A statement whose step depends on what was there before. *)
Lemma respects_stmt_at {A} (f : DateTime -> DB -> result (A * DB)) e w r w' :
  stmt f e w = (r, w') ->
  (forall now d a d', R w.(db) d -> f now d = Ok (a, d') -> R d d') -> R w.(db) w'.(db).
Proof.
  intros E Hf. apply bind_cases in E as [(x & E & _)|([] & w1 & E & E')]; [done|].
  injection E as <-. etransitivity; [apply Hothers|].
  refine (respects_sql_at R _ _ _ _ _ _ E'). intros now a d'. apply Hf, Hothers.
Qed.
Lemma respects_read {A} (f : DateTime -> DB -> A) : respects R (read f).
Proof.
  apply respects_bind; [done|apply respects_interleave|]. intros _.
  apply respects_reads; [done|apply reads_query].
Qed.
Lemma respects_atomic {A} (f : DB -> A * DB) : (forall d, R d (f d).2) -> respects R (atomic f).
Proof.
  intros Hf e w r w' E. unfold atomic in E. specialize (Hf (others w.(n_sql) w.(db))).
  destruct (f _) as [a d]. injection E as <- <-. cbn in *. etransitivity; [apply Hothers|done].
Qed.
Lemma respects_ask {A} (f : nat -> A) : respects R (ask f).
Proof. intros e w r w' [= <- <-]. apply Hothers. Qed.
Lemma respects_attempt {A} (m : M A) : respects R m -> respects R (attempt m).
Proof.
  intros Hm e w r w' E. unfold attempt in E. destruct (m e w) as [r0 w0] eqn:Em.
  injection E as <- <-. by apply Hm in Em.
Qed.
Lemma respects_ignore {A} (m : M A) : respects R m -> respects R (ignore m).
Proof.
  intros Hm. apply respects_bind; [done|by apply respects_attempt|]. intros _. by apply respects_ret.
Qed.
Lemma respects_unwrap_or {A} d (m : M A) : respects R m -> respects R (unwrap_or d m).
Proof.
  intros Hm. apply respects_bind; [done|by apply respects_attempt|]. intros r. by apply respects_ret.
Qed.
Lemma respects_throw {A} x : respects R (throw (A := A) x).
Proof. apply respects_reads; [done|apply reads_throw]. Qed.
Lemma respects_lift {A} (r : result A) : respects R (lift r).
Proof. apply respects_reads; [done|apply reads_lift]. Qed.
Lemma respects_next_id : respects R next_id.
Proof. apply respects_reads; [done|apply reads_next_id]. Qed.
Lemma respects_utc_now : respects R utc_now.
Proof. apply respects_reads; [done|apply reads_utc_now]. Qed.
End Respects.

(** ** Code that always returns *)

Definition total {A} (m : M A) : Prop := forall e w, exists a w', m e w = (Ok a, w').

Lemma total_ret {A} (a : A) : total (mret a).
Proof. intros e w. by do 2 eexists. Qed.
Lemma total_bind {A B} (m : M A) (f : A -> M B) :
  total m -> (forall a, total (f a)) -> total (m ≫= f).
Proof.
  intros Hm Hf e w. destruct (Hm e w) as (a & w1 & E). unfold mbind, M_bind. rewrite E. apply Hf.
Qed.
(** Running the first program of a sequence, which returns and stays within [R]. *)
Lemma seq_run (R : DB -> DB -> Prop) {A B} (m : M A) (f : A -> M B) (P : result B * World DB -> Prop)
    e w :
  total m -> respects R m ->
  (forall a w1, m e w = (Ok a, w1) -> R w.(db) w1.(db) -> P (f a e w1)) ->
  P ((m ≫= f) e w).
Proof.
  intros Hm Hr Hf. destruct (Hm e w) as (a & w1 & E). unfold mbind, M_bind. rewrite E.
  apply Hf; [done|]. by apply Hr in E.
Qed.
Lemma total_attempt {A} (m : M A) : total (attempt m).
Proof. intros e w. unfold attempt. destruct (m e w). by do 2 eexists. Qed.
Lemma total_ignore {A} (m : M A) : total (ignore m).
Proof. apply total_bind; [apply total_attempt|]. intros _. apply total_ret. Qed.
Lemma total_unwrap_or {A} d (m : M A) : total (unwrap_or d m).
Proof. apply total_bind; [apply total_attempt|]. intros r. apply total_ret. Qed.
Lemma total_atomic {A} (f : DB -> A * DB) : total (atomic f).
Proof. intros e w. unfold atomic. destruct (f _). by do 2 eexists. Qed.
Lemma total_ask {A} (f : nat -> A) : total (ask f).
Proof. intros e w. by do 2 eexists. Qed.
Lemma total_forM {A} (f : A -> M ()) l : (forall x, total (f x)) -> total (forM_ l f).
Proof. intros Hf. induction l; [apply total_ret|]. by apply total_bind. Qed.
Lemma total_foldM {A B} (f : A -> B -> M A) a l : (forall a x, total (f a x)) -> total (foldM f a l).
Proof. intros Hf. revert a. induction l; intros a0; [apply total_ret|]. by apply total_bind. Qed.
Lemma total_mapM {A B} (f : A -> M B) l : (forall x, total (f x)) -> total (mapM f l).
Proof.
  intros Hf. induction l; [apply total_ret|]. apply total_bind; [done|]. intros y.
  apply total_bind; [done|]. intros ys. apply total_ret.
Qed.
End Shared.

Create HintDb shared.
#[export] Hint Resolve respects_read respects_ask respects_attempt respects_ignore
  respects_unwrap_or respects_throw respects_lift respects_next_id respects_utc_now
  respects_ret : shared.
Create HintDb total.
#[export] Hint Resolve total_ret total_attempt total_ignore total_unwrap_or total_atomic
  total_ask : total.
