(* ===== verification/TaskData.v ===== *)
(** * Task messages and tables ([_/schemas/proto/c35/task.proto], [task.sql])

    The messages of the task crate, the rows of [ai.task], [ai.task_trigger] and
    [ai.task_run], the cancel flags of the process, and what the crate hands to
    other parts of the server. *)
From S2P Require Import Prelude Strs Ts TxProto World Json Db.

(** ** Floating point

    Costs and percentages are [f64].  The crate adds and compares none of them
    beyond a sign check, so they stay abstract. *)
Class Float := {
  f64 : Type;
  f64_zero : f64;
  f64_leb : f64 -> f64 -> bool;
  f64_of_Z : Z -> f64;
  f64_div : f64 -> f64 -> f64;
  f64_mul : f64 -> f64 -> f64;
  (** [json!] and [format!("{:.0}")] *)
  f64_json : f64 -> Value;
  f64_fmt0 : f64 -> string;
  (** [str::parse] *)
  f64_parse : string -> option f64;
  (** the column type [NUMERIC(12, 6)]: storing fails out of range *)
  numeric : Type;
  numeric_zero : numeric;
  numeric_of_f64 : f64 -> option numeric;
  f64_of_numeric : numeric -> f64;
}.

(** ** Enums *)

Module TaskRunStatus.
Inductive TaskRunStatus := Unspecified | Queued | Leased | Running | Done | Failed | Cancelled.
End TaskRunStatus.
Notation TaskRunStatus := TaskRunStatus.TaskRunStatus.
#[global] Instance TaskRunStatus_eq_dec : EqDecision TaskRunStatus.
Proof. solve_decision. Defined.
Definition TaskRunStatus_to_i32 (v : TaskRunStatus) : Z :=
  match v with TaskRunStatus.Unspecified => 0 | TaskRunStatus.Queued => 1 |
    TaskRunStatus.Leased => 2 | TaskRunStatus.Running => 3 | TaskRunStatus.Done => 4 |
    TaskRunStatus.Failed => 5 | TaskRunStatus.Cancelled => 6 end.
Definition TaskRunStatus_try_from (n : Z) : option TaskRunStatus :=
  if n =? 0 then Some TaskRunStatus.Unspecified else
  if n =? 1 then Some TaskRunStatus.Queued else
  if n =? 2 then Some TaskRunStatus.Leased else
  if n =? 3 then Some TaskRunStatus.Running else
  if n =? 4 then Some TaskRunStatus.Done else
  if n =? 5 then Some TaskRunStatus.Failed else
  if n =? 6 then Some TaskRunStatus.Cancelled else None.
#[export] Program Instance TaskRunStatus_proto : ProtoEnum TaskRunStatus := {|
  enum_to_i32 := TaskRunStatus_to_i32;
  enum_try_from := TaskRunStatus_try_from;
  enum_default := TaskRunStatus.Unspecified;
|}.
Next Obligation. by intros []. Qed.
Next Obligation. unfold TaskRunStatus_try_from. solve_try_from. Qed.
Next Obligation. done. Qed.

(** ** Messages *)

Module TaskTrigger.
#[projections(primitive)]
Record TaskTrigger := mk {
  id : Z;
  task_id : Z;
  owner_iid : Z;
  kind : Z;
  label : string;
  cron_expr : string;
  timezone : string;
  run_at_ms : Z;
  webhook_secret : string;
  is_active : bool;
  created_ts_ms : Z;
  updated_ts_ms : Z;
  deleted_ts_ms : Z;
}.
End TaskTrigger.
Notation TaskTrigger := TaskTrigger.TaskTrigger.

Module Task.
#[projections(primitive)]
Record Task := mk {
  id : Z;
  owner_iid : Z;
  device_iid : Z;
  name : string;
  skill_id : Z;
  prompt : string;
  model : string;
  is_active : bool;
  triggers : list TaskTrigger;
  created_ts_ms : Z;
  updated_ts_ms : Z;
  deleted_ts_ms : Z;
}.
End Task.
Notation Task := Task.Task.

Module TaskRun.
#[projections(primitive)]
Record TaskRun `{!Float} := mk {
  id : Z;
  owner_iid : Z;
  device_iid : Z;
  task_id : Z;
  trigger_id : Z;
  chat_id : Z;
  req_id : string;
  status : Z;
  prompt : string;
  skill_id : Z;
  model : string;
  step_index : Z;
  summary : string;
  error : string;
  lease_pod : string;
  lease_expires_ts_ms : Z;
  started_ts_ms : Z;
  finished_ts_ms : Z;
  created_ts_ms : Z;
  updated_ts_ms : Z;
  deleted_ts_ms : Z;
  meta_json : string;
  tokens_in : Z;
  tokens_out : Z;
  cost_usd : f64;
  duration_ms : Z;
  parent_run_id : Z;
  source_msg_id : Z;
  last_msg_id : Z;
}.
End TaskRun.
Notation TaskRun := TaskRun.TaskRun.

Module ReqTaskRunStart.
#[projections(primitive)]
Record ReqTaskRunStart := mk {
  device_iid : Z;
  task_id : Z;
  prompt : string;
  skill_id : Z;
  model : string;
  chat_id : Z;
  req_id : string;
  parent_run_id : Z;
  source_msg_id : Z;
}.
End ReqTaskRunStart.
Notation ReqTaskRunStart := ReqTaskRunStart.ReqTaskRunStart.

Module ReqTaskRunList.
#[projections(primitive)]
Record ReqTaskRunList := mk {
  device_iid : Z;
  since_ms : Z;
  limit : Z;
  task_id : Z;
  parent_run_id : Z;
}.
End ReqTaskRunList.
Notation ReqTaskRunList := ReqTaskRunList.ReqTaskRunList.

Module ActDeviceTaskRun.
#[projections(primitive)]
Record ActDeviceTaskRun := mk {
  run_id : Z;
  device_iid : Z;
  owner_iid : Z;
  task_id : Z;
  req_id : string;
  prompt : string;
  skill_id : Z;
  model : string;
  step_index : Z;
  chat_id : Z;
}.
End ActDeviceTaskRun.
Notation ActDeviceTaskRun := ActDeviceTaskRun.ActDeviceTaskRun.

Module EvDeviceTaskProgress.
#[projections(primitive)]
Record EvDeviceTaskProgress := mk {
  run_id : Z;
  device_iid : Z;
  step_index : Z;
  topic : string;
  text : string;
  meta_json : string;
}.
End EvDeviceTaskProgress.
Notation EvDeviceTaskProgress := EvDeviceTaskProgress.EvDeviceTaskProgress.

Module EvDeviceTaskDone.
#[projections(primitive)]
Record EvDeviceTaskDone := mk {
  run_id : Z;
  device_iid : Z;
  status : Z;
  summary : string;
  error : string;
  step_index : Z;
}.
End EvDeviceTaskDone.
Notation EvDeviceTaskDone := EvDeviceTaskDone.EvDeviceTaskDone.

(** ** Tables *)

Module TaskRow.
#[projections(primitive)]
Record TaskRow := mk {
  owner_iid : Z;
  device_iid : Z;
  scope : string;
  name : string;
  skill_id : Z;
  prompt : string;
  model : string;
  is_active : bool;
}.
End TaskRow.
Notation TaskRow := TaskRow.TaskRow.

Module TriggerRow.
#[projections(primitive)]
Record TriggerRow `{!Chrono} := mk {
  task_id : Z;
  owner_iid : Z;
  kind : string;
  label : string;
  cron_expr : string;
  timezone : string;
  run_at : option DateTime;
  is_active : bool;
}.
End TriggerRow.
Notation TriggerRow := TriggerRow.TriggerRow.

Module RunRow.
#[projections(primitive)]
Record RunRow `{!Chrono} `{!Float} := mk {
  owner_iid : Z;
  device_iid : Z;
  task_id : Z;
  trigger_id : Z;
  chat_id : Z;
  req_id : string;
  status : string;
  prompt : string;
  skill_id : Z;
  model : string;
  step_index : Z;
  summary : string;
  error : string;
  meta_json : Value;
  tokens_in : Z;
  tokens_out : Z;
  cost_usd : numeric;
  duration_ms : Z;
  parent_run_id : Z;
  source_msg_id : Z;
  last_msg_id : Z;
  lease_pod : string;
  lease_expires_ts : option DateTime;
  started_ts : option DateTime;
  finished_ts : option DateTime;
}.
End RunRow.
Notation RunRow := RunRow.RunRow.

(** A schedule for the message broker: the headers and the payload of
    [task_schedule_arm]. *)
Module Schedule.
#[projections(primitive)]
Record Schedule := mk {
  trigger_id : Z;
  task_id : Z;
  owner_iid : Z;
  device_iid : Z;
  schedule : string;
  timezone : string;
}.
End Schedule.
Notation Schedule := Schedule.Schedule.

(** What leaves the crate, oldest first. *)
Inductive Event `{!Float} :=
| Push (owner_iid : Z) (run : TaskRun)
| Act (device_iid : Z) (act : ActDeviceTaskRun)
| Arm (s : Schedule)
| Disarm (trigger_id : Z)
| Hold (owner_iid : Z) (req_id : string)
| Refund (req_id : string)
| Deduct (owner_iid : Z) (cost : f64)
| Settle (owner_iid : Z) (req_id : string) (cost : f64) (balance_idr : f64) (currency : string) (fx : Z)
| Spawn (owner_iid device_iid run_id : Z) (req_id prompt : string)
| Invoke (owner_iid device_iid : Z) (op : string) (args : Value)
| Notify (owner_iid : Z) (title body : string) (run_id : Z) (req_id : string).

Record Tasks `{!Chrono} `{!Float} := {
  t_task : gmap Z (Row TaskRow);
  t_trigger : gmap Z (Row TriggerRow);
  t_run : gmap Z (Row RunRow);
  (** [RUN_CANCEL] of [cancel.rs] *)
  run_cancel : gmap Z bool;
  events : list Event;
}.
