(* ===== verification/TaskStore.v ===== *)
(** * Task tables ([servers/crates/mod_task/src]: [store.rs], [cancel.rs], [push.rs])

    One definition per function: reading, and single statements whose failure is
    mostly ignored. *)
From stdpp Require Import sorting.
From S2P Require Import Prelude Strs Ts TxProto World Json Db Shared TaskData.

Section TaskStore.
Context `{!Chrono} `{!SerdeJson} `{!Float} `{!Order} `{!Others Tasks}.
Notation M := (M Tasks).

Definition emit (ev : Event) : M () :=
  atomic (fun d => (tt, {| d with events := d.(events) ++ [ev] |})).

(** ** Cancel flags *)

Definition task_run_cancel_register (run_id : Z) : M () :=
  atomic (fun d => (tt, {| d with run_cancel := <[run_id := false]> d.(run_cancel) |})).
Definition task_run_cancel_signal (run_id : Z) : M () :=
  atomic (fun d => (tt, match d.(run_cancel) !! run_id with
    | Some _ => {| d with run_cancel := <[run_id := true]> d.(run_cancel) |}
    | None => d
    end)).
Definition task_run_cancelled (run_id : Z) : M bool :=
  atomic (fun d => (default false (d.(run_cancel) !! run_id), d)).
Definition task_run_cancel_clear (run_id : Z) : M () :=
  atomic (fun d => (tt, {| d with run_cancel := delete run_id d.(run_cancel) |})).
Definition task_run_cancel_check (run_id : Z) : M () :=
  c ← task_run_cancelled run_id; if c : bool then throw "cancelled" else mret tt.

(** ** Conversions *)

Definition status_from_db (s : string) : TaskRunStatus :=
  if String.eqb s "queued" then TaskRunStatus.Queued
  else if String.eqb s "leased" then TaskRunStatus.Leased
  else if String.eqb s "running" then TaskRunStatus.Running
  else if String.eqb s "done" then TaskRunStatus.Done
  else if String.eqb s "failed" then TaskRunStatus.Failed
  else if String.eqb s "cancelled" then TaskRunStatus.Cancelled
  else TaskRunStatus.Unspecified.
Definition status_to_db (s : TaskRunStatus) : string :=
  match s with
  | TaskRunStatus.Queued => "queued"
  | TaskRunStatus.Leased => "leased"
  | TaskRunStatus.Running => "running"
  | TaskRunStatus.Done => "done"
  | TaskRunStatus.Failed => "failed"
  | TaskRunStatus.Cancelled => "cancelled"
  | TaskRunStatus.Unspecified => "queued"
  end.

Definition row_to_task_run (id : Z) (r : Row RunRow) : TaskRun :=
  let c := r.(cols) in
  {| TaskRun.id := id;
     TaskRun.owner_iid := c.(RunRow.owner_iid);
     TaskRun.device_iid := c.(RunRow.device_iid);
     TaskRun.task_id := c.(RunRow.task_id);
     TaskRun.trigger_id := c.(RunRow.trigger_id);
     TaskRun.chat_id := c.(RunRow.chat_id);
     TaskRun.req_id := c.(RunRow.req_id);
     TaskRun.status := enum_to_i32 (status_from_db c.(RunRow.status));
     TaskRun.prompt := c.(RunRow.prompt);
     TaskRun.skill_id := c.(RunRow.skill_id);
     TaskRun.model := c.(RunRow.model);
     TaskRun.step_index := c.(RunRow.step_index);
     TaskRun.summary := c.(RunRow.summary);
     TaskRun.error := c.(RunRow.error);
     TaskRun.lease_pod := c.(RunRow.lease_pod);
     TaskRun.lease_expires_ts_ms := ts_ms c.(RunRow.lease_expires_ts);
     TaskRun.started_ts_ms := ts_ms c.(RunRow.started_ts);
     TaskRun.finished_ts_ms := ts_ms c.(RunRow.finished_ts);
     TaskRun.created_ts_ms := ts_ms (Some r.(created_ts));
     TaskRun.updated_ts_ms := ts_ms (Some r.(updated_ts));
     TaskRun.deleted_ts_ms := ts_ms r.(deleted_ts);
     TaskRun.meta_json := to_string c.(RunRow.meta_json);
     TaskRun.tokens_in := c.(RunRow.tokens_in);
     TaskRun.tokens_out := c.(RunRow.tokens_out);
     TaskRun.cost_usd := f64_of_numeric c.(RunRow.cost_usd);
     TaskRun.duration_ms := c.(RunRow.duration_ms);
     TaskRun.parent_run_id := c.(RunRow.parent_run_id);
     TaskRun.source_msg_id := c.(RunRow.source_msg_id);
     TaskRun.last_msg_id := c.(RunRow.last_msg_id) |}.

(** [TaskRun::status()] of the generated code *)
Definition run_status (run : TaskRun) : TaskRunStatus :=
  try_from_or enum_default run.(TaskRun.status).

(** ** Runs *)

(** [status IN ('queued', 'leased', 'running')] *)
Definition active_status (s : string) : bool :=
  String.eqb s "queued" || String.eqb s "leased" || String.eqb s "running".

(** [UPDATE ai.task_run SET ... WHERE id = $1 AND ...] *)
Definition run_update (run_id : Z) (P : RunRow -> bool) (now : DateTime) (f : RunRow -> RunRow)
    (d : Tasks) : result (() * Tasks) :=
  Ok (tt, {| d with t_run :=
    alter (fun r => if P r.(cols) then set_cols now f r else r) run_id d.(t_run) |}).

Definition task_run_get (owner_iid run_id : Z) : M (option TaskRun) :=
  unwrap_or None (read (fun _ d =>
    match t_get run_id d.(t_run) with
    | Some r => if r.(cols).(RunRow.owner_iid) =? owner_iid then Some (row_to_task_run run_id r)
                else None
    | None => None
    end)).

Definition task_run_update_progress (run_id : Z) (meta : Value) (summary : string)
    (step_index : Z) : M () :=
  ignore (stmt (fun now => run_update run_id (fun _ => true) now (fun c =>
    {| c with RunRow.meta_json := meta; RunRow.summary := summary;
              RunRow.step_index := step_index |}))).

Definition task_run_finish (run_id : Z) (status : TaskRunStatus) (summary error : string)
    (meta : Value) (duration_ms : Z) : M () :=
  let st := status_to_db status in
  ignore (stmt (fun now => run_update run_id (fun _ => true) now (fun c =>
    {| c with RunRow.status := st; RunRow.summary := summary; RunRow.error := error;
              RunRow.meta_json := meta; RunRow.finished_ts := Some now;
              RunRow.duration_ms := to_i32 duration_ms |}))).

Definition task_run_set_running (run_id : Z) : M () :=
  ignore (stmt (fun now => run_update run_id (fun _ => true) now (fun c =>
    {| c with RunRow.status := "running";
              RunRow.started_ts := match c.(RunRow.started_ts) with Some t => Some t | None => Some now end
    |}))).

(** The live runs a query selects, in no order. *)
Definition select_runs (P : RunRow -> bool) (d : Tasks) : list (Z * Row RunRow) :=
  filter (fun e => live e.2 && P e.2.(cols) = true) (order d.(t_run)).

Definition task_run_active_for_device (owner_iid device_iid : Z) : M (list Z) :=
  unwrap_or [] (read (fun _ d => (merge_sort by_created (select_runs (fun c =>
    (c.(RunRow.owner_iid) =? owner_iid) && (c.(RunRow.device_iid) =? device_iid)
    && active_status c.(RunRow.status)) d)).*1)).

Definition task_run_mark_cancelled (run_id : Z) : M () :=
  ignore (stmt (fun now => run_update run_id (fun c => active_status c.(RunRow.status)) now (fun c =>
    {| c with RunRow.status := "cancelled"; RunRow.finished_ts := Some now;
              RunRow.summary := if is_empty c.(RunRow.summary) then "Cancelled"
                                else c.(RunRow.summary) |}))).

Definition task_run_list_children (owner_iid parent_run_id limit : Z) : M (list TaskRun) :=
  rows ← unwrap_or [] (read (fun _ d =>
    take (Z.to_nat (Z.min (Z.max limit 1) 500)) (merge_sort by_created (select_runs (fun c =>
      (c.(RunRow.owner_iid) =? owner_iid) && (c.(RunRow.parent_run_id) =? parent_run_id)) d))));
  mret ((fun e => row_to_task_run e.1 e.2) <$> rows).

Definition task_run_active_children (parent_run_id : Z) : M (list Z) :=
  unwrap_or [] (read (fun _ d => (select_runs (fun c =>
    (c.(RunRow.parent_run_id) =? parent_run_id) && active_status c.(RunRow.status)) d).*1)).

Definition task_run_set_last_msg_id (run_id msg_id : Z) : M () :=
  ignore (stmt (fun now => run_update run_id (fun _ => true) now (fun c =>
    {| c with RunRow.last_msg_id := msg_id |}))).

Definition task_run_list_for_task (owner_iid task_id limit : Z) : M (list TaskRun) :=
  rows ← unwrap_or [] (read (fun _ d =>
    take (Z.to_nat (Z.min (Z.max limit 1) 100)) (merge_sort by_created_desc (select_runs (fun c =>
      (c.(RunRow.owner_iid) =? owner_iid) && (c.(RunRow.task_id) =? task_id)) d))));
  mret ((fun e => row_to_task_run e.1 e.2) <$> rows).

Definition task_run_push (nats : bool) (owner_iid : Z) (run : TaskRun) : M () :=
  if nats then emit (Push owner_iid run) else mret tt.

(** The pattern [if let Some(run) = task_run_get(...) { task_run_push(...) }] *)
Definition push_run (nats : bool) (owner_iid run_id : Z) : M () :=
  run ← task_run_get owner_iid run_id;
  match run with Some run => task_run_push nats owner_iid run | None => mret tt end.

(** ** Tasks and triggers *)

Definition trigger_kind_to_db (kind : Z) : string :=
  if kind =? 1 then "once" else if kind =? 2 then "cron" else if kind =? 3 then "webhook" else "once".
Definition trigger_kind_from_db (kind : string) : Z :=
  if String.eqb kind "once" then 1 else if String.eqb kind "cron" then 2
  else if String.eqb kind "webhook" then 3 else 1.

Definition task_from_row (id : Z) (r : Row TaskRow) : Task :=
  let c := r.(cols) in
  {| Task.id := id; Task.owner_iid := c.(TaskRow.owner_iid); Task.device_iid := c.(TaskRow.device_iid);
     Task.name := c.(TaskRow.name); Task.skill_id := c.(TaskRow.skill_id);
     Task.prompt := c.(TaskRow.prompt); Task.model := c.(TaskRow.model);
     Task.is_active := c.(TaskRow.is_active); Task.triggers := [];
     Task.created_ts_ms := ts_ms (Some r.(created_ts));
     Task.updated_ts_ms := ts_ms (Some r.(updated_ts));
     Task.deleted_ts_ms := ts_ms r.(deleted_ts) |}.
Definition trigger_from_row (id : Z) (r : Row TriggerRow) : TaskTrigger :=
  let c := r.(cols) in
  {| TaskTrigger.id := id; TaskTrigger.task_id := c.(TriggerRow.task_id);
     TaskTrigger.owner_iid := c.(TriggerRow.owner_iid);
     TaskTrigger.kind := trigger_kind_from_db c.(TriggerRow.kind);
     TaskTrigger.label := c.(TriggerRow.label); TaskTrigger.cron_expr := c.(TriggerRow.cron_expr);
     TaskTrigger.timezone := c.(TriggerRow.timezone);
     TaskTrigger.run_at_ms := ts_ms c.(TriggerRow.run_at);
     TaskTrigger.webhook_secret := ""; TaskTrigger.is_active := c.(TriggerRow.is_active);
     TaskTrigger.created_ts_ms := ts_ms (Some r.(created_ts));
     TaskTrigger.updated_ts_ms := ts_ms (Some r.(updated_ts));
     TaskTrigger.deleted_ts_ms := ts_ms r.(deleted_ts) |}.

(** [tasks.iter_mut().find(|t| t.id == tid)] and [push] *)
Fixpoint push_trigger (tasks : list Task) (tid : Z) (tr : TaskTrigger) : list Task :=
  match tasks with
  | [] => []
  | t :: tasks =>
      if t.(Task.id) =? tid then {| t with Task.triggers := t.(Task.triggers) ++ [tr] |} :: tasks
      else t :: push_trigger tasks tid tr
  end.

Definition task_list (owner_iid device_iid : Z) : M (list Task) :=
  rows ← unwrap_or [] (read (fun _ d =>
    take 200 (merge_sort by_updated_desc (filter (fun e =>
      (e.2.(cols).(TaskRow.owner_iid) =? owner_iid) && live e.2
      && ((device_iid =? 0) || (e.2.(cols).(TaskRow.device_iid) =? device_iid)) = true)
      (order d.(t_task))))));
  let tasks := (fun e => task_from_row e.1 e.2) <$> rows in
  let task_ids := Task.id <$> tasks in
  if bool_decide (task_ids = []) then mret tasks
  else
    trigger_rows ← unwrap_or [] (read (fun _ d =>
      merge_sort by_created (filter (fun e =>
        (e.2.(cols).(TriggerRow.owner_iid) =? owner_iid) && live e.2
        && bool_decide (e.2.(cols).(TriggerRow.task_id) ∈ task_ids) = true)
        (order d.(t_trigger)))));
    mret (foldl (fun tasks e =>
      push_trigger tasks e.2.(cols).(TriggerRow.task_id) (trigger_from_row e.1 e.2))
      tasks trigger_rows).

Definition task_upsert (id owner_iid : Z) (task : Task) (now : DateTime) (d : Tasks)
    : result (() * Tasks) :=
  Ok (tt, {| d with t_task := <[id := match d.(t_task) !! id with
    | Some r => set_cols now (fun c =>
        {| c with TaskRow.name := task.(Task.name); TaskRow.skill_id := task.(Task.skill_id);
                  TaskRow.prompt := task.(Task.prompt); TaskRow.model := task.(Task.model);
                  TaskRow.is_active := task.(Task.is_active);
                  TaskRow.device_iid := task.(Task.device_iid) |}) r
    | None => new_row now
        {| TaskRow.owner_iid := owner_iid; TaskRow.device_iid := task.(Task.device_iid);
           TaskRow.scope := "device"; TaskRow.name := task.(Task.name);
           TaskRow.skill_id := task.(Task.skill_id); TaskRow.prompt := task.(Task.prompt);
           TaskRow.model := task.(Task.model); TaskRow.is_active := task.(Task.is_active) |}
    end]> d.(t_task) |}).

Definition trigger_run_at (tr : TaskTrigger) : option DateTime :=
  if 0 <? tr.(TaskTrigger.run_at_ms) then from_timestamp_millis tr.(TaskTrigger.run_at_ms) else None.

Definition trigger_upsert (trigger_id id owner_iid : Z) (tr : TaskTrigger) (now : DateTime)
    (d : Tasks) : result (() * Tasks) :=
  let run_at := trigger_run_at tr in
  Ok (tt, {| d with t_trigger := <[trigger_id := match d.(t_trigger) !! trigger_id with
    | Some r => set_cols now (fun c =>
        {| c with TriggerRow.label := tr.(TaskTrigger.label);
                  TriggerRow.cron_expr := tr.(TaskTrigger.cron_expr);
                  TriggerRow.timezone := tr.(TaskTrigger.timezone);
                  TriggerRow.run_at := run_at;
                  TriggerRow.is_active := tr.(TaskTrigger.is_active) |}) r
    | None => new_row now
        {| TriggerRow.task_id := id; TriggerRow.owner_iid := owner_iid;
           TriggerRow.kind := trigger_kind_to_db tr.(TaskTrigger.kind);
           TriggerRow.label := tr.(TaskTrigger.label);
           TriggerRow.cron_expr := tr.(TaskTrigger.cron_expr);
           TriggerRow.timezone := tr.(TaskTrigger.timezone);
           TriggerRow.run_at := run_at; TriggerRow.is_active := tr.(TaskTrigger.is_active) |}
    end]> d.(t_trigger) |}).

Definition task_put_trigger (id owner_iid : Z) (trigger : TaskTrigger) : M TaskTrigger :=
  trigger_id ← (if 0 <? trigger.(TaskTrigger.id) then mret trigger.(TaskTrigger.id)
                else i ← next_id; mret (to_i64 i));
  stmt (trigger_upsert trigger_id id owner_iid trigger);;
  mret {| trigger with TaskTrigger.id := trigger_id; TaskTrigger.task_id := id;
                       TaskTrigger.owner_iid := owner_iid |}.

Definition task_put (owner_iid : Z) (task : Task) : M Task :=
  id ← (if 0 <? task.(Task.id) then mret task.(Task.id) else i ← next_id; mret (to_i64 i));
  stmt (task_upsert id owner_iid task);;
  saved_triggers ← mapM (task_put_trigger id owner_iid) task.(Task.triggers);
  mret {| task with Task.id := id; Task.owner_iid := owner_iid; Task.triggers := saved_triggers |}.

Definition task_delete (owner_iid task_id : Z) : M (list Z) :=
  stmt (fun now d => Ok (tt, {| d with t_task :=
    (t_update (fun id r => (id =? task_id) && (r.(cols).(TaskRow.owner_iid) =? owner_iid) && live r)
      (soft_delete now) d.(t_task)).1 |}));;
  unwrap_or [] (stmt (fun now d =>
    let P (_ : Z) (r : Row TriggerRow) := (r.(cols).(TriggerRow.task_id) =? task_id)
      && (r.(cols).(TriggerRow.owner_iid) =? owner_iid) && live r in
    Ok ((filter (fun e => P e.1 e.2 = true) (order d.(t_trigger))).*1,
        {| d with t_trigger := (t_update P (fun r =>
          soft_delete now (set_cols now (fun c => {| c with TriggerRow.is_active := false |}) r))
          d.(t_trigger)).1 |}))).

End TaskStore.
