(* ===== verification/TaskApi.v ===== *)
(** * Task handlers ([servers/crates/mod_task/src]: [run_start.rs], [rpc.rs],
      [scheduler.rs], [metrics.rs]; [system/nats/src/hydrate.rs];
      [wire_http/src/agent.rs])

    Starting, finishing, cancelling and listing runs; saving and deleting tasks;
    a schedule that fires; the reports of a device. *)
From stdpp Require Import sorting pretty.
From S2P Require Import Prelude Strs Ts TxProto World Json Db Shared TaskData TaskStore.

(** What the crate asks other parts of the server.  The answers may depend on
    when they are asked; what is asked of billing, and of the devices, is an
    [Event]. *)
Class Platform `{!Chrono} `{!Float} := {
  BillingRow : Type;
  BillingRow_id : BillingRow -> Z;
  (** [mod_billing] *)
  billing_account_ensure : Z -> nat -> result BillingRow;
  billing_gate_with_hold_custom : Z -> BillingRow -> string -> f64 -> nat -> result ();
  billing_deduct_personal_profile : Z -> f64 -> nat -> result BillingRow;
  (** the row of [ai.billing_account], and the sums over [ai.log] *)
  billing_account_select : Z -> nat -> result (string * string * Z);
  log_sums : Z -> string -> nat -> result (option Z * option Z * option f64);
  (** [mod_device]: the answer of the browser *)
  remote_device_browser_invoke : Z -> Z -> string -> Value -> Z -> nat -> result Value;
  (** [mod_device::agent_session_resolve], as the device and its owner *)
  agent_session_resolve : string -> nat -> result (option (Z * Z));
  (** [DateTime::format] with "%S %M %H %d %m *", and a difference of two
      [DateTime]s in milliseconds *)
  format_once : DateTime -> string;
  num_milliseconds_since : DateTime -> DateTime -> Z;
}.

Section TaskApi.
Context `{!Chrono} `{!SerdeJson} `{!Float} `{!Order} `{!Others Tasks} `{!Platform}.
Notation M := (M Tasks).

(** An answer that is a [Result] *)
Definition ask_result {A} (f : nat -> result A) : M A := r ← ask f; lift r.

(** ** Billing ([metrics.rs]) *)

Definition TASK_RUN_HOLD_USD : f64 := f64_div (f64_of_Z 5) (f64_of_Z 100).

Definition task_run_log_rollup (owner_iid run_id : Z) : M (Z * Z * f64) :=
  let prefix := "task_run." +:+ pretty run_id +:+ ".%" in
  row ← unwrap_or (Some 0, Some 0, Some f64_zero) (ask_result (log_sums owner_iid prefix));
  mret (to_i32 (default 0 row.1.1), to_i32 (default 0 row.1.2), default f64_zero row.2).

Definition task_run_metrics_persist (run_id owner_iid duration_ms : Z) : M (Z * Z * f64) :=
  m ← task_run_log_rollup owner_iid run_id;
  let '(tokens_in, tokens_out, cost_usd) := m in
  ignore (stmt (fun now d => match numeric_of_f64 cost_usd with
    | Some n => run_update run_id (fun _ => true) now (fun c =>
        {| c with RunRow.tokens_in := tokens_in; RunRow.tokens_out := tokens_out;
                  RunRow.cost_usd := n; RunRow.duration_ms := to_i32 duration_ms |}) d
    | None => Err "numeric field overflow"
    end));;
  mret (tokens_in, tokens_out, cost_usd).

Definition task_run_billing_settle (owner_iid : Z) (req_id : string) (cost_usd : f64) : M () :=
  if is_empty (trim req_id) then mret tt
  else if f64_leb cost_usd f64_zero then emit (Refund req_id)
  else
    emit (Deduct owner_iid cost_usd);;
    r ← attempt (ask_result (billing_deduct_personal_profile owner_iid cost_usd));
    match r with
    | Err _ => mret tt
    | Ok row_after =>
        acct ← attempt (ask_result (billing_account_select (BillingRow_id row_after)));
        match acct with
        | Ok acct =>
            let balance_idr := default f64_zero (f64_parse acct.1.1) in
            emit (Settle owner_iid req_id cost_usd balance_idr acct.1.2 acct.2)
        | Err _ => mret tt
        end
    end.

(** ** Starting a run *)

Definition is_server_only_recipe (recipe_name : string) : bool :=
  String.eqb recipe_name "task.chunk_fanout" || String.eqb recipe_name "data.shell_chunk".

(** [recipe.get("recipe").and_then(|v| v.as_str()).unwrap_or("")] *)
Definition recipe_name (recipe : Value) : string := default "" (get "recipe" recipe ≫= as_str).
Definition recipe_of (prompt : string) : Value := default Null (from_str prompt).

Definition spawn_recipe_worker (owner_iid device_iid run_id : Z) (req_id prompt : string)
    (recipe : Value) : M bool :=
  let recipe_name := recipe_name recipe in
  if String.eqb recipe_name "browser.sheet_row_backfill"
     || String.eqb recipe_name "task.chunk_fanout" || String.eqb recipe_name "data.shell_chunk"
  then
    task_run_cancel_register run_id;;
    emit (Spawn owner_iid device_iid run_id req_id prompt);;
    mret true
  else mret false.

Definition new_run (owner_iid : Z) (req_id prompt : string) (req : ReqTaskRunStart) : RunRow :=
  {| RunRow.owner_iid := owner_iid; RunRow.device_iid := req.(ReqTaskRunStart.device_iid);
     RunRow.task_id := req.(ReqTaskRunStart.task_id); RunRow.trigger_id := 0;
     RunRow.chat_id := req.(ReqTaskRunStart.chat_id); RunRow.req_id := req_id;
     RunRow.status := "queued"; RunRow.prompt := prompt;
     RunRow.skill_id := req.(ReqTaskRunStart.skill_id); RunRow.model := req.(ReqTaskRunStart.model);
     RunRow.step_index := 0; RunRow.summary := ""; RunRow.error := "";
     RunRow.meta_json := Object []; RunRow.tokens_in := 0; RunRow.tokens_out := 0;
     RunRow.cost_usd := numeric_zero; RunRow.duration_ms := 0;
     RunRow.parent_run_id := req.(ReqTaskRunStart.parent_run_id);
     RunRow.source_msg_id := req.(ReqTaskRunStart.source_msg_id);
     RunRow.last_msg_id := 0; RunRow.lease_pod := ""; RunRow.lease_expires_ts := None;
     RunRow.started_ts := None; RunRow.finished_ts := None |}.
Definition run_insert (run_id : Z) (c : RunRow) (now : DateTime) (d : Tasks)
    : result (() * Tasks) :=
  t ← t_insert run_id (new_row now c) d.(t_run); Ok (tt, {| d with t_run := t |}).

(** The prompt of the request, or of the task it names *)
Definition start_prompt (owner_iid : Z) (req : ReqTaskRunStart) : M string :=
  if negb (is_empty req.(ReqTaskRunStart.prompt)) then mret req.(ReqTaskRunStart.prompt)
  else if 0 <? req.(ReqTaskRunStart.task_id) then
    row ← read (fun _ d => match t_get req.(ReqTaskRunStart.task_id) d.(t_task) with
      | Some r => if r.(cols).(TaskRow.owner_iid) =? owner_iid
                  then Some r.(cols).(TaskRow.prompt) else None
      | None => None
      end);
    lift (ok_or row "task not found")
  else throw "prompt or task_id required".

Definition task_run_start_core (nats : bool) (owner_iid : Z) (req : ReqTaskRunStart) : M Z :=
  let device_iid := req.(ReqTaskRunStart.device_iid) in
  if device_iid <=? 0 then throw "device_iid required"
  else
    req_id ← (if is_empty req.(ReqTaskRunStart.req_id)
              then i ← next_id; mret ("task_run." +:+ pretty i)
              else mret req.(ReqTaskRunStart.req_id));
    billing_row ← ask_result (billing_account_ensure owner_iid);
    ask_result (billing_gate_with_hold_custom owner_iid billing_row req_id TASK_RUN_HOLD_USD);;
    emit (Hold owner_iid req_id);;
    prompt ← start_prompt owner_iid req;
    i ← next_id;
    let run_id := to_i64 i in
    stmt (run_insert run_id (new_run owner_iid req_id prompt req));;
    let recipe := recipe_of prompt in
    (if (0 <? req.(ReqTaskRunStart.skill_id)) || negb (is_server_only_recipe (recipe_name recipe))
     then
       let act := {| ActDeviceTaskRun.run_id := run_id; ActDeviceTaskRun.device_iid := device_iid;
                     ActDeviceTaskRun.owner_iid := owner_iid;
                     ActDeviceTaskRun.task_id := req.(ReqTaskRunStart.task_id);
                     ActDeviceTaskRun.req_id := req_id; ActDeviceTaskRun.prompt := prompt;
                     ActDeviceTaskRun.skill_id := req.(ReqTaskRunStart.skill_id);
                     ActDeviceTaskRun.model := req.(ReqTaskRunStart.model);
                     ActDeviceTaskRun.step_index := 0;
                     ActDeviceTaskRun.chat_id := req.(ReqTaskRunStart.chat_id) |} in
       if nats then emit (Act device_iid act) else mret tt
     else mret tt);;
    spawned ← spawn_recipe_worker owner_iid device_iid run_id req_id prompt recipe;
    (if spawned : bool then mret tt else task_run_set_running run_id);;
    push_run nats owner_iid run_id;;
    mret run_id.

Definition task_run_start_rpc (nats : bool) (owner_iid : Z) (req : ReqTaskRunStart) : M TaskRun :=
  run_id ← task_run_start_core nats owner_iid req;
  run ← task_run_get owner_iid run_id;
  lift (ok_or run "run missing after insert").

(** ** Finishing *)

Definition task_run_finish_rpc (nats : bool) (owner_iid run_id : Z) (status : TaskRunStatus)
    (summary error : string) : M () :=
  started_ts ← unwrap_or None (read (fun _ d =>
    match d.(t_run) !! run_id with Some r => r.(cols).(RunRow.started_ts) | None => None end));
  duration_ms ← (match started_ts with
    | Some t => now ← utc_now; mret (Z.max (num_milliseconds_since now t) 0)
    | None => mret 0
    end);
  task_run_finish run_id status summary error (Object []) duration_ms;;
  req_id ← unwrap_or "" (read (fun _ d =>
    match d.(t_run) !! run_id with Some r => r.(cols).(RunRow.req_id) | None => "" end));
  (if negb (is_empty req_id) then ignore (task_run_billing_settle owner_iid req_id f64_zero)
   else mret tt);;
  push_run nats owner_iid run_id.

(** ** Cancelling *)

Definition cancel_one (nats : bool) (owner_iid child_id : Z) : M () :=
  task_run_cancel_signal child_id;;
  task_run_mark_cancelled child_id;;
  push_run nats owner_iid child_id.
Definition cancel_run_tree (nats : bool) (owner_iid run_id : Z) : M () :=
  children ← task_run_active_children run_id;
  forM_ children (cancel_one nats owner_iid).

Definition task_run_cancel_rpc (nats : bool) (owner_iid run_id : Z) : M TaskRun :=
  task_run_cancel_signal run_id;;
  cancel_run_tree nats owner_iid run_id;;
  task_run_mark_cancelled run_id;;
  run ← task_run_get owner_iid run_id;
  run ← lift (ok_or run "run not found");
  task_run_push nats owner_iid run;;
  mret run.

Definition cancel_device_run (nats : bool) (owner_iid : Z) (runs : list TaskRun) (id : Z)
    : M (list TaskRun) :=
  task_run_cancel_signal id;;
  cancel_run_tree nats owner_iid id;;
  task_run_mark_cancelled id;;
  run ← task_run_get owner_iid id;
  match run with
  | Some run => task_run_push nats owner_iid run;; mret (runs ++ [run])
  | None => mret runs
  end.
Definition task_run_cancel_device_rpc (nats : bool) (owner_iid device_iid : Z)
    : M (Z * list TaskRun) :=
  ids ← task_run_active_for_device owner_iid device_iid;
  runs ← foldM (cancel_device_run nats owner_iid) [] ids;
  mret (to_i32 (Z.of_nat (length runs)), runs).

(** ** Listing *)

Definition task_run_list_rpc (owner_iid : Z) (req : ReqTaskRunList) : M (list TaskRun) :=
  let limit := if 0 <? req.(ReqTaskRunList.limit) then req.(ReqTaskRunList.limit) else 20 in
  if 0 <? req.(ReqTaskRunList.parent_run_id) then
    task_run_list_children owner_iid req.(ReqTaskRunList.parent_run_id) limit
  else if 0 <? req.(ReqTaskRunList.task_id) then
    task_run_list_for_task owner_iid req.(ReqTaskRunList.task_id) limit
  else if 0 <? req.(ReqTaskRunList.device_iid) then
    rows ← unwrap_or [] (read (fun _ d =>
      take (Z.to_nat limit) (merge_sort by_created_desc (select_runs (fun c =>
        (c.(RunRow.owner_iid) =? owner_iid)
        && (c.(RunRow.device_iid) =? req.(ReqTaskRunList.device_iid))) d))));
    mret ((fun e => row_to_task_run e.1 e.2) <$> rows)
  else task_run_list_for_task owner_iid 0 limit.

(** ** Saving tasks and arming their schedules *)

Definition format_schedule_pattern (kind cron_expr : string) (run_at : option DateTime)
    : option string :=
  if String.eqb kind "cron" then
    let expr := trim cron_expr in
    if is_empty expr then None
    else if starts_with expr "@" then Some expr
    else if (length (split_whitespace expr) =? 5)%nat then Some ("0 " +:+ expr)
    else Some expr
  else if String.eqb kind "once" then format_once <$> run_at
  else None.

Definition task_schedule_arm (s : Schedule) : M () := emit (Arm s).
Definition task_schedule_disarm (trigger_id : Z) : M () := emit (Disarm trigger_id).

Definition trigger_schedule (tr : TaskTrigger) : option string :=
  if (tr.(TaskTrigger.kind) =? 2) && negb (is_empty tr.(TaskTrigger.cron_expr))
  then format_schedule_pattern "cron" tr.(TaskTrigger.cron_expr) None
  else if (tr.(TaskTrigger.kind) =? 1) && (0 <? tr.(TaskTrigger.run_at_ms))
  then format_schedule_pattern "once" "" (from_timestamp_millis tr.(TaskTrigger.run_at_ms))
  else None.
Definition arm_trigger (owner_iid : Z) (task : Task) (tr : TaskTrigger) : M () :=
  if tr.(TaskTrigger.is_active) then
    match trigger_schedule tr with
    | Some sched => task_schedule_arm
        {| Schedule.trigger_id := tr.(TaskTrigger.id); Schedule.task_id := task.(Task.id);
           Schedule.owner_iid := owner_iid; Schedule.device_iid := task.(Task.device_iid);
           Schedule.schedule := sched; Schedule.timezone := tr.(TaskTrigger.timezone) |}
    | None => mret tt
    end
  else task_schedule_disarm tr.(TaskTrigger.id).

Definition task_list_rpc (owner_iid device_iid : Z) : M (list Task) := task_list owner_iid device_iid.
Definition task_put_rpc (nats : bool) (owner_iid : Z) (task : option Task) : M Task :=
  task ← lift (ok_or task "task required");
  task ← task_put owner_iid task;
  (if nats then forM_ task.(Task.triggers) (arm_trigger owner_iid task) else mret tt);;
  mret task.
Definition task_delete_rpc (nats : bool) (owner_iid task_id : Z) : M bool :=
  trigger_ids ← task_delete owner_iid task_id;
  (if nats then forM_ trigger_ids task_schedule_disarm else mret tt);;
  mret true.

(** [hydrate_task_schedules]: the schedules are armed again when the server
    starts *)
Definition hydrate_row (e : Z * Row TriggerRow) (d : Tasks) : Schedule * option string :=
  let c := e.2.(cols) in
  ({| Schedule.trigger_id := e.1; Schedule.task_id := c.(TriggerRow.task_id);
      Schedule.owner_iid := c.(TriggerRow.owner_iid);
      Schedule.device_iid := match d.(t_task) !! c.(TriggerRow.task_id) with
        | Some t => t.(cols).(TaskRow.device_iid) | None => 0 end;
      Schedule.schedule := ""; Schedule.timezone := c.(TriggerRow.timezone) |},
   format_schedule_pattern c.(TriggerRow.kind) c.(TriggerRow.cron_expr) c.(TriggerRow.run_at)).
Definition hydrate_task_schedules : M Z :=
  rows ← read (fun _ d => (fun e => hydrate_row e d) <$>
    filter (fun e => (String.eqb e.2.(cols).(TriggerRow.kind) "cron"
                      || String.eqb e.2.(cols).(TriggerRow.kind) "once")
                     && e.2.(cols).(TriggerRow.is_active) && live e.2 = true) (order d.(t_trigger)));
  foldM (fun count row => match row.2 with
    | None => mret count
    | Some schedule =>
        let s := row.1 in task_schedule_arm {| s with Schedule.schedule := schedule |};;
        mret (count + 1)
    end) 0 rows.

(** ** A schedule fires ([scheduler.rs]) *)

(** The fields of the payload *)
Definition payload_i64 (k : string) (payload : Value) : Z := default 0 (get k payload ≫= as_i64).

(** The join of the trigger with its task *)
Definition fired_row (trigger_id : Z) (d : Tasks) : option (Row TaskRow * Row TriggerRow) :=
  tt ← t_get trigger_id d.(t_trigger);
  t ← t_get tt.(cols).(TriggerRow.task_id) d.(t_task);
  Some (t, tt).

(** One turn of the loop, on a message that was received *)
Definition task_scheduler_fire (payload : option Value) : M () :=
  match payload with
  | None => mret tt
  | Some payload =>
      let trigger_id := payload_i64 "trigger_id" payload in
      let task_id := payload_i64 "task_id" payload in
      let owner_iid := payload_i64 "owner_iid" payload in
      let device_iid := payload_i64 "device_iid" payload in
      if (trigger_id =? 0) || (task_id =? 0) || (owner_iid =? 0) then mret tt
      else
        check ← attempt (read (fun _ d => fired_row trigger_id d));
        match check with
        | Ok (Some (t, tr)) =>
            if negb t.(cols).(TaskRow.is_active) || negb tr.(cols).(TriggerRow.is_active) then mret tt
            else
              let target_device_iid :=
                if 0 <? device_iid then device_iid else t.(cols).(TaskRow.device_iid) in
              i ← next_id;
              let req := {| ReqTaskRunStart.device_iid := target_device_iid;
                            ReqTaskRunStart.task_id := task_id;
                            ReqTaskRunStart.prompt := t.(cols).(TaskRow.prompt);
                            ReqTaskRunStart.skill_id := t.(cols).(TaskRow.skill_id);
                            ReqTaskRunStart.model := t.(cols).(TaskRow.model);
                            ReqTaskRunStart.chat_id := 0;
                            ReqTaskRunStart.req_id :=
                              "sched." +:+ pretty trigger_id +:+ "." +:+ pretty i;
                            ReqTaskRunStart.parent_run_id := 0;
                            ReqTaskRunStart.source_msg_id := 0 |} in
              ignore (task_run_start_rpc true owner_iid req);;
              if String.eqb tr.(cols).(TriggerRow.kind) "once" then
                ignore (stmt (fun now d => Ok (tt, {| d with t_trigger :=
                  alter (set_cols now (fun c => {| c with TriggerRow.is_active := false |}))
                    trigger_id d.(t_trigger) |})))
              else mret tt
        | _ => mret tt
        end
  end.

(** ** What a device reports ([agent.rs]) *)

(** The owner of the session, and what [k] does for it *)
Definition with_session (session_key : string) (k : Z -> M StatusCode) : M StatusCode :=
  session ← attempt (ask_result (agent_session_resolve session_key));
  match session with
  | Ok (Some (_, owner_iid)) => k owner_iid
  | Ok None => mret UNAUTHORIZED
  | Err _ => mret INTERNAL_SERVER_ERROR
  end.

Definition agent_task_progress (nats : bool) (session_key : string)
    (ev : option EvDeviceTaskProgress) : M StatusCode :=
  with_session session_key (fun owner_iid =>
    match ev with
    | None => mret BAD_REQUEST
    | Some ev =>
        let meta := default (Object []) (from_str ev.(EvDeviceTaskProgress.meta_json)) in
        let run_id := ev.(EvDeviceTaskProgress.run_id) in
        task_run_update_progress run_id meta ev.(EvDeviceTaskProgress.text)
          ev.(EvDeviceTaskProgress.step_index);;
        push_run nats owner_iid run_id;;
        mret OK
    end).

Definition done_status (ev : EvDeviceTaskDone) : TaskRunStatus :=
  let n := ev.(EvDeviceTaskDone.status) in
  if n =? 4 then TaskRunStatus.Done
  else if n =? 5 then TaskRunStatus.Failed
  else if n =? 6 then TaskRunStatus.Cancelled
  else if is_empty ev.(EvDeviceTaskDone.error) then TaskRunStatus.Done else TaskRunStatus.Failed.
Definition agent_task_done (nats : bool) (session_key : string) (ev : option EvDeviceTaskDone)
    : M StatusCode :=
  with_session session_key (fun owner_iid =>
    match ev with
    | None => mret BAD_REQUEST
    | Some ev =>
        task_run_finish_rpc nats owner_iid ev.(EvDeviceTaskDone.run_id) (done_status ev)
          ev.(EvDeviceTaskDone.summary) ev.(EvDeviceTaskDone.error);;
        mret OK
    end).

End TaskApi.
