(* ===== verification/TaskWorker.v ===== *)
(** * Task workers ([servers/crates/mod_task/src]: [worker/mod.rs] and [recipes/])

    A recipe runs on the server beside the handlers.  A worker sets its run
    running, runs the recipe of its prompt, and finishes the run with the
    recipe's outcome, whatever it is. *)
From stdpp Require Import pretty.
From S2P Require Import Prelude Strs Ts Normalizer TxProto World Json Db Shared.
From S2P Require Import TaskData TaskStore TaskApi.

Definition DEFAULT_MAX_WALL_MS : Z := 30 * 60 * 1000.
Definition DEFAULT_MAX_ROWS : Z := 200.
Definition MAX_PARALLEL_CAP : Z := 10.
Definition MAX_CHUNKS : Z := 10000.
Definition MAX_PARALLEL_CHILDREN : Z := 5.

(** [Ord::clamp] *)
Definition clamp (z lo hi : Z) : Z := if z <? lo then lo else if hi <? z then hi else z.

(** Field [k] of a recipe *)
Definition field_i64 (k : string) (v : Value) : option Z := get k v ≫= as_i64.
Definition field_str (k : string) (v : Value) : option string := get k v ≫= as_str.

Module RecipeOutcome.
Record RecipeOutcome := mk { summary : string; meta : Value }.
End RecipeOutcome.
Notation RecipeOutcome := RecipeOutcome.RecipeOutcome.

Module Plan.
(** What the orchestrator reads from its recipe. *)
Record Plan := mk {
  total : Z;
  chunk_size : Z;
  parallel_children : Z;
  child_recipe : string;
  child_params : Value;
  dev : Z;
}.
End Plan.
Notation Plan := Plan.Plan.

(** [meta["k"] = v] *)
Definition json_set (k : string) (v : Value) (m : Value) : Value :=
  match m with Object l => Object (map_insert k v l) | v => v end.

Section TaskWorker.
Context `{!Chrono} `{!SerdeJson} `{!Float} `{!Order} `{!Others Tasks} `{!Platform}.
Context `{!Instants} `{!Scheduler}.
Notation M := (M Tasks).

(** [started.elapsed().as_millis() as i64] *)
Definition elapsed (started : Z) : M Z := now ← ask instant_ms; mret (to_i64 (now - started)).

Definition check_wall (started : Z) : M () :=
  ms ← elapsed started;
  if DEFAULT_MAX_WALL_MS <? ms then throw "max wall time exceeded" else mret tt.

(** ** Sets of running tasks

    A [JoinSet] whose tasks hold a permit of a semaphore until they end.  A task
    is the program it has left, or the value it ended with; [choose] takes one
    the scheduler picks. *)

(** One of the elements [P] holds of, and the others *)
Definition choose {A} (P : A -> bool) (i : nat) (l : list A) : option (A * list A) :=
  let ks := filter (fun k => match l !! k with Some a => P a | None => false end = true)
              (seq 0 (length l)) in
  match ks !! (i mod length ks)%nat with
  | Some k => match l !! k with Some a => Some (a, delete k l) | None => None end
  | None => None
  end.

Section JoinSet.
Context {T R : Type} (run : T -> M R).

Definition running (t : T + R) : bool := match t with inl _ => true | inr _ => false end.

(** [sem.acquire_owned()] with [permits] permits: when none is free, a task has
    to end first *)
Definition acquire (permits : Z) (set : list (T + R)) : M (list (T + R)) :=
  if Z.of_nat (length (filter (fun t => running t = true) set)) <? permits then mret set
  else
    i ← ask pick;
    match choose running i set with
    | Some (inl t, rest) => r ← run t; mret (rest ++ [inr r])
    | _ => mret set
    end.

(** [join_next()]: the value of a task, which ends if it has not *)
Definition join_next (set : list (T + R)) : M (option (R * list (T + R))) :=
  i ← ask pick;
  match choose (fun _ => true) i set with
  | Some (inl t, rest) => r ← run t; mret (Some (r, rest))
  | Some (inr r, rest) => mret (Some (r, rest))
  | None => mret None
  end.

(** [while let Some(r) = join_next() { body }], whose set loses a task a round *)
Fixpoint join_all {S : Type} (body : S -> list (T + R) -> R -> M S) (n : nat) (s : S)
    (set : list (T + R)) : M S :=
  match n with
  | O => mret s
  | S n =>
      next ← join_next set;
      match next with
      | None => mret s
      | Some (r, set) => s ← body s set r; join_all body n s set
      end
  end.
End JoinSet.

(** ** [data_shell_chunk.rs] *)

Definition data_shell_chunk_run (run_id : Z) (recipe : Value) (started : Z) : M RecipeOutcome :=
  task_run_cancel_check run_id;;
  check_wall started;;
  let offset := default 0 (field_i64 "offset" recipe) in
  let limit := clamp (default 500 (field_i64 "limit" recipe)) 1 5000 in
  let cmd := trim (default "" (field_str "command_template" recipe)) in
  if negb (is_empty cmd) then
    throw "data.shell_chunk: command_template requires agent shell bridge (not wired in v1)"
  else
    let done := limit in
    let meta := json_object
      [("role", Str "chunk"); ("offset", json_int offset); ("limit", json_int limit);
       ("done", json_int done); ("total", json_int limit); ("pct", json_int 100)] in
    task_run_update_progress run_id meta
      ("Simulated " +:+ pretty done +:+ " rows @ offset " +:+ pretty offset) 0;;
    mret {| RecipeOutcome.summary :=
              "Processed rows [" +:+ pretty offset +:+ ", " +:+ pretty offset +:+ "+"
              +:+ pretty done +:+ ")";
            RecipeOutcome.meta := meta |}.

(** ** [chunk_fanout.rs] *)

(** The entry of an object, put there when it is missing, as an object *)
Definition entry_object (k : string) (obj : list (string * Value)) : option (list (string * Value)) :=
  match default (Object []) (assoc k obj) with Object m => Some m | _ => None end.

Definition build_child_prompt (child_recipe : string) (child_params : Value) (offset limit : Z)
    : result string :=
  let obj := match child_params with Object m => m | _ => [] end in
  let obj := map_insert "recipe" (Str child_recipe) obj in
  if String.eqb child_recipe "browser.sheet_row_backfill" then
    sheet ← ok_or (entry_object "sheet" obj) "sheet must be object";
    let base_from := default 3 (assoc "from_row" sheet ≫= as_i64) in
    let sheet := map_insert "from_row" (json_int (base_from + offset)%i64) sheet in
    let obj := map_insert "sheet" (Object sheet) obj in
    limits ← ok_or (entry_object "limits" obj) "limits must be object";
    let limits := map_insert "max_rows_per_run" (json_int limit) limits in
    Ok (to_string (Object (map_insert "limits" (Object limits) obj)))
  else if String.eqb child_recipe "data.shell_chunk" then
    let obj := map_insert "offset" (json_int offset) obj in
    Ok (to_string (Object (map_insert "limit" (json_int limit) obj)))
  else Err ("unsupported child_recipe: " +:+ child_recipe).

(** Polling a child every two seconds, at most 3600 times *)
Fixpoint wait_child (polls : nat) (owner_iid child_run_id : Z) : M TaskRunStatus :=
  match polls with
  | O => mret TaskRunStatus.Failed
  | S polls =>
      run ← task_run_get owner_iid child_run_id;
      match run_status <$> run with
      | Some TaskRunStatus.Done => mret TaskRunStatus.Done
      | Some TaskRunStatus.Failed => mret TaskRunStatus.Failed
      | Some TaskRunStatus.Cancelled => mret TaskRunStatus.Cancelled
      | _ => wait_child polls owner_iid child_run_id
      end
  end.
Definition wait_child_terminal (owner_iid child_run_id : Z) : M TaskRunStatus :=
  wait_child (Z.to_nat 3600) owner_iid child_run_id.

Definition fanout_plan (device_iid : Z) (recipe : Value) : result Plan :=
  total ← ok_or (t ← field_i64 "total" recipe; if 0 <? t then Some t else None) "total required";
  child_recipe ← ok_or (field_str "child_recipe" recipe) "child_recipe required";
  Ok {| Plan.total := total;
        Plan.chunk_size := clamp (default 500 (field_i64 "chunk_size" recipe)) 1 500;
        Plan.parallel_children :=
          clamp (default 1 (field_i64 "parallel_children" recipe)) 1 MAX_PARALLEL_CHILDREN;
        Plan.child_recipe := child_recipe;
        Plan.child_params := default (Object []) (get "child_params" recipe);
        Plan.dev := default device_iid
          (d ← field_i64 "device_iid" recipe; if 0 <? d then Some d else None) |}.

(** [((total + chunk_size - 1) / chunk_size).min(MAX_CHUNKS)] *)
Definition num_chunks (p : Plan) : Z :=
  let total := p.(Plan.total) in let chunk_size := p.(Plan.chunk_size) in
  Z.min (Z.quot (total + chunk_size - 1)%i64 chunk_size) MAX_CHUNKS.
Definition chunk_offset (p : Plan) (chunk_idx : Z) : Z := (chunk_idx * p.(Plan.chunk_size))%i64.
Definition chunk_limit (p : Plan) (chunk_idx : Z) : Z :=
  Z.min p.(Plan.chunk_size) (p.(Plan.total) - chunk_offset p chunk_idx)%i64.
Definition chunk_prompt (p : Plan) (chunk_idx : Z) : result string :=
  build_child_prompt p.(Plan.child_recipe) p.(Plan.child_params)
    (chunk_offset p chunk_idx) (chunk_limit p chunk_idx).

Definition fanout_meta (p : Plan) (done_chunks failed_chunks pct : Z) : Value :=
  json_set "pct" (json_int pct) (json_set "failed_chunks" (json_int failed_chunks)
    (json_set "done_chunks" (json_int done_chunks) (json_object
      [("role", Str "orchestrator"); ("total_chunks", json_int (num_chunks p));
       ("done_chunks", json_int 0); ("failed_chunks", json_int 0); ("pct", json_int 0);
       ("child_recipe", Str p.(Plan.child_recipe))]))).

Definition chunk_req (p : Plan) (parent_run_id : Z) (parent : TaskRun) (chunk_idx : Z) (prompt : string) : ReqTaskRunStart :=
  {| ReqTaskRunStart.device_iid := p.(Plan.dev); ReqTaskRunStart.task_id := 0;
     ReqTaskRunStart.prompt := prompt; ReqTaskRunStart.skill_id := 0; ReqTaskRunStart.model := "";
     ReqTaskRunStart.chat_id := parent.(TaskRun.chat_id);
     ReqTaskRunStart.req_id :=
       parent.(TaskRun.req_id) +:+ ".chunk." +:+ pretty chunk_idx;
     ReqTaskRunStart.parent_run_id := parent_run_id;
     ReqTaskRunStart.source_msg_id := parent.(TaskRun.source_msg_id) |}.

(** The body of the loop over the chunks; the set holds the children waited
    for.  The pause after a child only gives the others time, which they have
    before every statement. *)
Definition fanout_chunk (nats : bool) (owner_iid parent_run_id started : Z) (p : Plan)
    (parent : TaskRun) (set : list (Z + TaskRunStatus)) (chunk_idx : Z)
    : M (list (Z + TaskRunStatus)) :=
  task_run_cancel_check parent_run_id;;
  check_wall started;;
  child_prompt ← lift (chunk_prompt p chunk_idx);
  set ← acquire (wait_child_terminal owner_iid) p.(Plan.parallel_children) set;
  child_run_id ← task_run_start_core nats owner_iid (chunk_req p parent_run_id parent chunk_idx child_prompt);
  mret (set ++ [inl child_run_id]).

(** The body of the loop over the ended children *)
Definition fanout_joined (parent_run_id : Z) (p : Plan) (counts : Z * Z)
    (_ : list (Z + TaskRunStatus)) (st : TaskRunStatus) : M (Z * Z) :=
  let done_chunks := (counts.1 + 1)%i64 in
  let failed_chunks := if bool_decide (st = TaskRunStatus.Done) then counts.2 else (counts.2 + 1)%i64 in
  let pct := if 0 <? num_chunks p then to_i32 (Z.quot (done_chunks * 100)%i64 (num_chunks p)) else 100 in
  task_run_update_progress parent_run_id (fanout_meta p done_chunks failed_chunks pct)
    (pretty done_chunks +:+ "/" +:+ pretty (num_chunks p) +:+ " chunks (" +:+ pretty pct +:+ "%)") 0;;
  mret (done_chunks, failed_chunks).

Definition chunk_fanout_run (nats : bool) (owner_iid device_iid parent_run_id : Z) (recipe : Value)
    (started : Z) : M RecipeOutcome :=
  task_run_cancel_check parent_run_id;;
  p ← lift (fanout_plan device_iid recipe);
  parent ← task_run_get owner_iid parent_run_id;
  parent ← lift (ok_or parent "parent run missing");
  task_run_update_progress parent_run_id (fanout_meta p 0 0 0)
    ("0/" +:+ pretty (num_chunks p) +:+ " chunks") 0;;
  set ← foldM (fanout_chunk nats owner_iid parent_run_id started p parent) []
    (seqZ 0 (num_chunks p));
  counts ← join_all (wait_child_terminal owner_iid) (fanout_joined parent_run_id p)
    (length set) (0, 0) set;
  let '(done_chunks, failed_chunks) := counts in
  let summary := "Orchestrator finished: " +:+ pretty done_chunks +:+ "/"
    +:+ pretty (num_chunks p) +:+ " chunks, " +:+ pretty failed_chunks +:+ " failed" in
  if 0 <? failed_chunks then throw summary
  else
    let pct := if 0 <? num_chunks p then to_i32 (Z.quot (done_chunks * 100)%i64 (num_chunks p)) else 100 in
    let meta := if 0 <? done_chunks then fanout_meta p done_chunks failed_chunks pct
                else fanout_meta p 0 0 0 in
    mret {| RecipeOutcome.summary := summary; RecipeOutcome.meta := meta |}.

(** ** [sheet_row_backfill.rs] *)

(** What a row needs of the browser, in order: methods with their parameters
    and time limits.  The answer to the last one is the row's. *)
Definition RowTask : Type := Z * list (string * Value * Z).

Definition browser_invoke (owner_iid device_iid : Z) (method : string) (params : Value)
    (timeout_sec : Z) : M Value :=
  emit (Invoke owner_iid device_iid method params);;
  ask_result (remote_device_browser_invoke owner_iid device_iid method params timeout_sec).

Fixpoint run_invokes (owner_iid device_iid : Z) (l : list (string * Value * Z)) (last : result Value)
    : M (result Value) :=
  match l with
  | [] => mret last
  | (method, params, timeout_sec) :: l =>
      r ← attempt (browser_invoke owner_iid device_iid method params timeout_sec);
      run_invokes owner_iid device_iid l r
  end.
Definition run_row (owner_iid device_iid : Z) (t : RowTask) : M (Z * result Value) :=
  r ← run_invokes owner_iid device_iid t.2 (Err "no answer"); mret (t.1, r).

(** Dropping a [JoinSet] aborts its tasks, each of which may have done some of
    its work. *)
Definition abandon (owner_iid device_iid : Z) (set : list (RowTask + Z * result Value)) : M () :=
  forM_ set (fun t => match t with
    | inl t => i ← ask pick; run_invokes owner_iid device_iid (take i t.2) (Err "aborted");; mret tt
    | inr _ => mret tt
    end).
Definition abandoning {A} (owner_iid device_iid : Z) (set : list (RowTask + Z * result Value))
    (m : M A) : M A :=
  r ← attempt m;
  match r with Ok a => mret a | Err x => abandon owner_iid device_iid set;; throw x end.

(** [row.get(k).and_then(|v| v.as_str()).unwrap_or("").trim()] *)
Definition cell_text (v : option Value) : string := trim (default "" (v ≫= as_str)).
Definition get_or (k k' : string) (v : Value) : option Value :=
  match get k v with Some x => Some x | None => get k' v end.

(** The rows to fill: their number, key and card *)
Definition row_work (from_row : Z) (row : Value) : option (Z * string * string) :=
  let row_num := default 0 (field_i64 "row" row) in
  if row_num <? from_row then None
  else
    let key := cell_text (get_or "B" "key" row) in
    let kartu := cell_text (get_or "C" "kartu" row) in
    if is_empty kartu then None
    else if existsb (fun c => is_empty (cell_text (get c row))) ["G"; "H"; "I"; "J"; "K"; "L"]
    then Some (row_num, key, kartu)
    else None.

Definition row_task (recipe : Value) (tab_id : string) (w : Z * string * string) : RowTask :=
  let '(row_num, key, kartu) := w in
  let url_tpl := default "" (get "epus" recipe ≫= field_str "search_url_template") in
  let url := str_replace url_tpl "{kartu}" kartu in
  (row_num,
   (if is_empty url then []
    else [("tabs", json_object [("op", Str "new"); ("url", Str url)], 60)])
   ++ [("sheets.row_set", json_object
         [("tab_id", Str tab_id); ("row", json_int row_num); ("key", Str key);
          ("values", Array (Str <$> ["TBD"; ""; ""; "TBD"; "TBD"; "TBD"]))], 120)]).

Definition percent (done total : Z) : f64 :=
  f64_mul (f64_div (f64_of_Z done) (f64_of_Z total)) (f64_of_Z 100).
Definition backfill_summary (done total : Z) : string :=
  pretty done +:+ "/" +:+ pretty total +:+ " (" +:+ f64_fmt0 (percent done total) +:+ "%)".
Definition backfill_meta (parallel total done failed : Z) (pct : f64) : Value :=
  json_object
    [("recipe", Str "browser.sheet_row_backfill"); ("parallel", json_int parallel);
     ("total", json_int total); ("done", json_int done); ("failed", json_int failed);
     ("skipped", json_int 0); ("pct", f64_json pct); ("current_rows", Array [])].

(** The loop that starts the rows *)
Fixpoint spawn_rows (owner_iid device_iid run_id started parallel : Z) (recipe : Value)
    (tab_id : string) (work : list (Z * string * string))
    (set : list (RowTask + Z * result Value)) : M (list (RowTask + Z * result Value)) :=
  match work with
  | [] => mret set
  | w :: work =>
      abandoning owner_iid device_iid set (task_run_cancel_check run_id);;
      ms ← elapsed started;
      if DEFAULT_MAX_WALL_MS <? ms then mret set
      else
        set ← acquire (run_row owner_iid device_iid) parallel set;
        spawn_rows owner_iid device_iid run_id started parallel recipe tab_id work
          (set ++ [inl (row_task recipe tab_id w)])
  end.

(** The body of the loop over the rows that ended *)
Definition row_joined (owner_iid device_iid run_id parallel total : Z) (counts : Z * Z)
    (set : list (RowTask + Z * result Value)) (joined : Z * result Value) : M (Z * Z) :=
  abandoning owner_iid device_iid set (task_run_cancel_check run_id);;
  let ok := match joined.2 with
    | Ok v => negb (bool_decide ((get "ok" v ≫= as_bool) = Some false)) | Err _ => false end in
  let done := if ok then (counts.1 + 1)%i32 else counts.1 in
  let failed := if ok then counts.2 else (counts.2 + 1)%i32 in
  task_run_update_progress run_id (backfill_meta parallel total done failed (percent done total))
    (backfill_summary done total) (to_i32 joined.1);;
  mret (done, failed).

Definition sheet_row_backfill_run (owner_iid device_iid run_id : Z) (recipe : Value) (started : Z)
    : M RecipeOutcome :=
  task_run_cancel_check run_id;;
  check_wall started;;
  tab_id ← lift (ok_or (field_str "tab_id" recipe) "tab_id required");
  let parallel := clamp (default 1 (field_i64 "parallel" recipe)) 1 MAX_PARALLEL_CAP in
  let max_rows := clamp (default DEFAULT_MAX_ROWS
    (get "limits" recipe ≫= field_i64 "max_rows_per_run")) 1 500 in
  let from_row := default 3 (get "sheet" recipe ≫= field_i64 "from_row") in
  read ← browser_invoke owner_iid device_iid "sheets.range_read" (json_object
    [("tab_id", Str tab_id); ("from_row", json_int from_row); ("start_col", Str "B");
     ("columns", json_int 11); ("read_mode", Str "export")]) 90;
  (if bool_decide ((get "ok" read ≫= as_bool) = Some false)
   then throw (default "range_read failed" (field_str "error" read)) else mret tt);;
  let rows := default [] (get_or "rows" "data" read ≫= as_array) in
  let work := omap (row_work from_row) (take (Z.to_nat max_rows) rows) in
  let total := Z.of_nat (length work) in
  if total =? 0 then
    mret {| RecipeOutcome.summary := "No rows to fill";
            RecipeOutcome.meta := json_object
              [("total", json_int 0); ("done", json_int 0); ("pct", f64_json (f64_of_Z 100));
               ("parallel", json_int parallel)] |}
  else
    set ← spawn_rows owner_iid device_iid run_id started parallel recipe tab_id work [];
    counts ← join_all (run_row owner_iid device_iid)
      (row_joined owner_iid device_iid run_id parallel total) (length set) (0, 0) set;
    mret {| RecipeOutcome.summary := backfill_summary counts.1 total;
            RecipeOutcome.meta := backfill_meta parallel total counts.1 counts.2
              (percent counts.1 total) |}.

(** ** [worker/mod.rs] *)

Definition run_recipe (nats : bool) (owner_iid device_iid run_id : Z) (recipe : Value) (started : Z)
    : M RecipeOutcome :=
  let recipe_name := recipe_name recipe in
  if String.eqb recipe_name "browser.sheet_row_backfill" then
    sheet_row_backfill_run owner_iid device_iid run_id recipe started
  else if String.eqb recipe_name "task.chunk_fanout" then
    chunk_fanout_run nats owner_iid device_iid run_id recipe started
  else if String.eqb recipe_name "data.shell_chunk" then
    data_shell_chunk_run run_id recipe started
  else throw ("unknown or missing recipe (got '" +:+ recipe_name +:+ "')").

(** Status, summary, error and meta of a recipe's result *)
Definition outcome_of (result : result RecipeOutcome) : TaskRunStatus * string * string * Value :=
  match result with
  | Ok m => (TaskRunStatus.Done, m.(RecipeOutcome.summary), "", m.(RecipeOutcome.meta))
  | Err e =>
      if String.eqb e "cancelled" then (TaskRunStatus.Cancelled, "Cancelled", "", Object [])
      else (TaskRunStatus.Failed, e, e, Object [])
  end.

(** The first 500 characters *)
Definition take_chars (n : nat) (s : string) : string :=
  of_bytes (concat (take n (chars (bytes s)))).

(** What is pushed and notified once the run is finished *)
Definition worker_report (nats : bool) (owner_iid run_id : Z) (req_id : string)
    (metrics : Z * Z * f64) (duration_ms : Z) (outcome : TaskRunStatus * string * string * Value)
    : M () :=
  let '(status, summary, error, _) := outcome in
  run ← task_run_get owner_iid run_id;
  (match run with
   | Some run => task_run_push nats owner_iid
       {| run with TaskRun.tokens_in := metrics.1.1; TaskRun.tokens_out := metrics.1.2;
                   TaskRun.cost_usd := metrics.2; TaskRun.duration_ms := duration_ms |}
   | None => mret tt
   end);;
  match status with
  | TaskRunStatus.Done => emit (Notify owner_iid "Task finished" (take_chars 500 summary) run_id req_id)
  | TaskRunStatus.Cancelled =>
      emit (Notify owner_iid "Task cancelled" (take_chars 500 summary) run_id req_id)
  | TaskRunStatus.Failed =>
      emit (Notify owner_iid "Task failed"
        (take_chars 500 (if is_empty error then summary else error)) run_id req_id)
  | _ => mret tt
  end.

(** The task that [task_worker_spawn] starts *)
Definition task_worker (nats : bool) (owner_iid device_iid run_id : Z) (req_id prompt : string)
    : M () :=
  started ← ask instant_ms;
  task_run_set_running run_id;;
  push_run nats owner_iid run_id;;
  result ← attempt (run_recipe nats owner_iid device_iid run_id (recipe_of prompt) started);
  duration_ms ← elapsed started;
  metrics ← task_run_metrics_persist run_id owner_iid duration_ms;
  task_run_billing_settle owner_iid req_id metrics.2;;
  let outcome := outcome_of result in
  let '(status, summary, error, meta) := outcome in
  task_run_finish run_id status summary error meta duration_ms;;
  task_run_cancel_clear run_id;;
  worker_report nats owner_iid run_id req_id metrics duration_ms outcome;;
  ignore (task_run_cancel_check run_id).

End TaskWorker.
