(* ===== verification/TaskSteps.v ===== *)
(** * The life of a run

    What one statement of the crate may do to the shared tables, as a step
    relation, and that every handler and worker takes only such steps, whoever
    runs beside it. *)
From stdpp Require Import sorting.
From S2P Require Import Prelude Strs Ts TxProto World Json Db Shared TaskData TaskStore TaskApi.
From S2P Require Import TaskWorker.

Definition terminal_status (s : string) : bool :=
  String.eqb s "done" || String.eqb s "failed" || String.eqb s "cancelled".

Section Steps.
Context `{!Chrono} `{!SerdeJson} `{!Float}.

(** ** Steps *)

(** A run row changes. *)
Inductive run_step (now : DateTime) : RunRow -> RunRow -> Prop :=
| Progressed c meta summary step_index :
    run_step now c {| c with RunRow.meta_json := meta; RunRow.summary := summary;
                             RunRow.step_index := step_index |}
| Started c :
    run_step now c {| c with RunRow.status := "running";
      RunRow.started_ts := match c.(RunRow.started_ts) with Some t => Some t | None => Some now end |}
| Finished c status summary error meta duration_ms :
    terminal_status status = true ->
    run_step now c {| c with RunRow.status := status; RunRow.summary := summary;
                             RunRow.error := error; RunRow.meta_json := meta;
                             RunRow.finished_ts := Some now; RunRow.duration_ms := duration_ms |}
| CancelledRun c summary :
    active_status c.(RunRow.status) = true ->
    run_step now c {| c with RunRow.status := "cancelled"; RunRow.finished_ts := Some now;
                             RunRow.summary := summary |}
| Measured c tokens_in tokens_out cost_usd duration_ms :
    run_step now c {| c with RunRow.tokens_in := tokens_in; RunRow.tokens_out := tokens_out;
                             RunRow.cost_usd := cost_usd; RunRow.duration_ms := duration_ms |}
| Answered c msg_id : run_step now c {| c with RunRow.last_msg_id := msg_id |}.

(** A task row, and a trigger row, is saved or deleted. *)
Inductive task_step : option (Row TaskRow) -> Row TaskRow -> Prop :=
| task_added r : task_step None r
| task_changed r r' :
    r'.(cols).(TaskRow.owner_iid) = r.(cols).(TaskRow.owner_iid) -> task_step (Some r) r'.
Inductive trigger_step (tasks : gmap Z (Row TaskRow))
    : option (Row TriggerRow) -> Row TriggerRow -> Prop :=
| trigger_added r :
    is_Some (tasks !! r.(cols).(TriggerRow.task_id)) -> trigger_step tasks None r
| trigger_changed r r' :
    r'.(cols).(TriggerRow.task_id) = r.(cols).(TriggerRow.task_id) ->
    r'.(cols).(TriggerRow.owner_iid) = r.(cols).(TriggerRow.owner_iid) ->
    r'.(cols).(TriggerRow.kind) = r.(cols).(TriggerRow.kind) ->
    trigger_step tasks (Some r) r'.

Definition queued (c : RunRow) : Prop :=
  c.(RunRow.status) = "queued" /\ c.(RunRow.started_ts) = None /\ c.(RunRow.finished_ts) = None.

Inductive step : Tasks -> Tasks -> Prop :=
| step_insert d id c now :
    d.(t_run) !! id = None -> queued c ->
    step d {| d with t_run := <[id := new_row now c]> d.(t_run) |}
| step_run d id r c' now :
    d.(t_run) !! id = Some r -> run_step now r.(cols) c' ->
    step d {| d with t_run := <[id := set_cols now (fun _ => c') r]> d.(t_run) |}
| step_task d id r :
    task_step (d.(t_task) !! id) r ->
    step d {| d with t_task := <[id := r]> d.(t_task) |}
| step_trigger d id r :
    trigger_step d.(t_task) (d.(t_trigger) !! id) r ->
    step d {| d with t_trigger := <[id := r]> d.(t_trigger) |}
| step_cancel d flags : step d {| d with run_cancel := flags |}
| step_event d ev : step d {| d with events := d.(events) ++ [ev] |}.

(** Any number of steps, of anyone. *)
Definition evolves : Tasks -> Tasks -> Prop := rtc step.
#[global] Instance evolves_preorder : PreOrder evolves.
Proof. unfold evolves. split; apply _. Qed.

Lemma tasks_eta (d : Tasks) :
  d = {| t_task := d.(t_task); t_trigger := d.(t_trigger); t_run := d.(t_run);
         run_cancel := d.(run_cancel); events := d.(events) |}.
Proof. by destruct d. Qed.

(** ** What steps keep *)

Definition run_kept (c c' : RunRow) : Prop :=
  c'.(RunRow.owner_iid) = c.(RunRow.owner_iid) /\ c'.(RunRow.device_iid) = c.(RunRow.device_iid) /\
  c'.(RunRow.task_id) = c.(RunRow.task_id) /\ c'.(RunRow.chat_id) = c.(RunRow.chat_id) /\
  c'.(RunRow.req_id) = c.(RunRow.req_id) /\ c'.(RunRow.prompt) = c.(RunRow.prompt) /\
  c'.(RunRow.skill_id) = c.(RunRow.skill_id) /\ c'.(RunRow.model) = c.(RunRow.model) /\
  c'.(RunRow.parent_run_id) = c.(RunRow.parent_run_id) /\
  c'.(RunRow.source_msg_id) = c.(RunRow.source_msg_id) /\
  (forall t, c.(RunRow.started_ts) = Some t -> c'.(RunRow.started_ts) = Some t) /\
  (is_Some c.(RunRow.finished_ts) -> is_Some c'.(RunRow.finished_ts)).
#[global] Instance run_kept_preorder : PreOrder run_kept.
Proof.
  split; [intros c; unfold run_kept; naive_solver|].
  intros c1 c2 c3 H12 H23. unfold run_kept in *. destruct_and!. split_and!; naive_solver congruence.
Qed.

Lemma run_step_kept now c c' : run_step now c c' -> run_kept c c'.
Proof.
  intros [ | | | | | ]; unfold run_kept; cbn; split_and!; try done; try (by intros ? ->).
Qed.

(** Rows stay, with the columns that say whose they are. *)
Definition rows_kept (d d' : Tasks) : Prop :=
  (forall id r, d.(t_run) !! id = Some r -> exists r', d'.(t_run) !! id = Some r' /\
     run_kept r.(cols) r'.(cols) /\ r'.(created_ts) = r.(created_ts) /\
     r'.(deleted_ts) = r.(deleted_ts)) /\
  (forall id r, d.(t_task) !! id = Some r -> exists r', d'.(t_task) !! id = Some r' /\
     r'.(cols).(TaskRow.owner_iid) = r.(cols).(TaskRow.owner_iid)) /\
  (forall id r, d.(t_trigger) !! id = Some r -> exists r', d'.(t_trigger) !! id = Some r' /\
     r'.(cols).(TriggerRow.task_id) = r.(cols).(TriggerRow.task_id) /\
     r'.(cols).(TriggerRow.owner_iid) = r.(cols).(TriggerRow.owner_iid) /\
     r'.(cols).(TriggerRow.kind) = r.(cols).(TriggerRow.kind)) /\
  d.(events) `prefix_of` d'.(events).

(** The states of a run that can be told apart by its columns. *)
Definition run_wf (c : RunRow) : Prop :=
  (queued c \/
   (c.(RunRow.status) = "running" /\ is_Some c.(RunRow.started_ts)) \/
   (terminal_status c.(RunRow.status) = true /\ is_Some c.(RunRow.finished_ts))).
Definition tasks_wf (d : Tasks) : Prop :=
  (forall id r, d.(t_run) !! id = Some r -> run_wf r.(cols)) /\
  (forall id r, d.(t_trigger) !! id = Some r -> is_Some (d.(t_task) !! r.(cols).(TriggerRow.task_id))).

Lemma run_step_wf now c c' : run_step now c c' -> run_wf c -> run_wf c'.
Proof.
  intros [ | | | | | ]; unfold run_wf, queued; cbn; try tauto.
  - intros _. right. left. split; [done|]. case_match; eauto.
  - intros _. right. right. eauto.
  - intros _. right. right. eauto.
Qed.

#[global] Instance rows_kept_preorder : PreOrder rows_kept.
Proof.
  split.
  - intros d. unfold rows_kept. split_and!; try (intros id r E; exists r; split_and!; done). done.
  - intros d1 d2 d3 (Ha & Hb & Hc & Hd) (Ha' & Hb' & Hc' & Hd'). unfold rows_kept. split_and!.
    + intros id r (r2 & (r3 & E3 & K3 & C3 & D3)%Ha' & K2 & C2 & D2)%Ha. exists r3.
      split_and!; [done|by etransitivity|congruence|congruence].
    + intros id r (r2 & (r3 & E3 & K3)%Hb' & K2)%Hb. exists r3. split; congruence.
    + intros id r (r2 & (r3 & E3 & ? & ? & ?)%Hc' & ? & ? & ?)%Hc. exists r3. split_and!; congruence.
    + by etransitivity.
Qed.

(** [<[id := r]>] of a table keeps the other rows. *)
Lemma insert_kept {A} (P : A -> A -> Prop) (m : gmap Z A) id x :
  (forall y, P y y) ->
  (forall y, m !! id = Some y -> P y x) ->
  forall k y, m !! k = Some y -> exists y', <[id := x]> m !! k = Some y' /\ P y y'.
Proof.
  intros Hrefl Hx k y Hy. destruct (decide (id = k)) as [->|Hne].
  - exists x. by rewrite lookup_insert_eq; eauto.
  - exists y. by rewrite lookup_insert_ne.
Qed.

Lemma step_rows_kept d d' : step d d' -> rows_kept d d'.
Proof.
  intros [d0 id c now Hn _|d0 id r c' now Hr Hs|d0 id r Ht|d0 id r Ht|d0 flags|d0 ev];
    unfold rows_kept; cbn;
    (split_and!; try done; try (by apply prefix_app_r);
     try (intros k x E; exists x; split_and!; done)).
  - apply (insert_kept (fun r r' => run_kept r.(cols) r'.(cols) /\
      r'.(created_ts) = r.(created_ts) /\ r'.(deleted_ts) = r.(deleted_ts))).
    + intros x. split_and!; done.
    + intros y E. congruence.
  - apply (insert_kept (fun r r' => run_kept r.(cols) r'.(cols) /\
      r'.(created_ts) = r.(created_ts) /\ r'.(deleted_ts) = r.(deleted_ts))).
    + intros x. split_and!; done.
    + intros y E. assert (y = r) as -> by congruence. cbn.
      split_and!; [|done|done]. by eapply run_step_kept.
  - apply (insert_kept (fun r r' : Row TaskRow =>
      r'.(cols).(TaskRow.owner_iid) = r.(cols).(TaskRow.owner_iid))); [done|].
    intros y E. rewrite E in Ht. by inversion Ht.
  - apply (insert_kept (fun r r' : Row TriggerRow =>
      r'.(cols).(TriggerRow.task_id) = r.(cols).(TriggerRow.task_id) /\
      r'.(cols).(TriggerRow.owner_iid) = r.(cols).(TriggerRow.owner_iid) /\
      r'.(cols).(TriggerRow.kind) = r.(cols).(TriggerRow.kind))); [done|].
    intros y E. rewrite E in Ht. by inversion Ht.
Qed.

Lemma step_wf d d' : step d d' -> tasks_wf d -> tasks_wf d'.
Proof.
  intros Hs [Hr Ht]. pose proof (step_rows_kept _ _ Hs) as (_ & Hk & _ & _).
  assert (forall id, is_Some (d.(t_task) !! id) -> is_Some (d'.(t_task) !! id)) as Hkeep.
  { intros id [r E]. destruct (Hk _ _ E) as (r' & E' & _). eauto. }
  destruct Hs as [d0 id c now Hn Hq|d0 id r c' now E Hst|d0 id r Hst|d0 id r Hst|d0 flags|d0 ev];
    (split; cbn in *; [|]); try done; try (by intros; apply Hkeep; eauto).
  - apply (map_Forall_insert_2 (fun _ r => run_wf r.(cols))); [by left|]. exact Hr.
  - apply (map_Forall_insert_2 (fun _ r => run_wf r.(cols))); [|exact Hr].
    cbn. eapply run_step_wf; eauto.
  - apply (map_Forall_insert_2 (fun _ r => is_Some (d0.(t_task) !! r.(cols).(TriggerRow.task_id))));
      [|exact Ht].
    inversion Hst as [r0 Hin E0|r0 r1 E1 E2 E3 E0]; [done|]. rewrite E1. eauto.
Qed.

Lemma evolves_rows_kept d d' : evolves d d' -> rows_kept d d'.
Proof.
  induction 1 as [|x y z Hs _ IH]; [reflexivity|]. etransitivity; [by apply step_rows_kept|done].
Qed.
Lemma evolves_wf d d' : evolves d d' -> tasks_wf d -> tasks_wf d'.
Proof. induction 1 as [|x y z Hs _ IH]; [done|]. intros Hw. by eapply IH, step_wf. Qed.

Lemma event_stays ev d d' : evolves d d' -> ev ∈ d.(events) -> ev ∈ d'.(events).
Proof. intros (_ & _ & _ & [k ->])%evolves_rows_kept Hin. apply elem_of_app. by left. Qed.
End Steps.
