(* ===== verification/TaskServe.v ===== *)
(** * Every handler takes only steps

    [serve] is whatever the task crate does for a request: a message of a client,
    a schedule that fires, a report of a device, a worker. *)
From stdpp Require Import sorting.
From S2P Require Import Prelude Strs Ts TxProto World Json Db Shared TaskData TaskStore TaskApi.
From S2P Require Import TaskWorker TaskSteps.

Create HintDb keeps.
(** [keeps_tac] goes through a program with the lemmas of the [keeps] database. *)
Ltac keeps_tac :=
  repeat match goal with
    | |- respects _ (ignore _) => apply respects_ignore; [apply _|]
    | |- respects _ (attempt _) => apply respects_attempt
    | |- respects _ (unwrap_or _ _) => apply respects_unwrap_or; [apply _|]
    | |- respects _ (forM_ _ _) => apply respects_forM; [apply _|]
    | |- respects _ (foldM _ _ _) => apply respects_foldM; [apply _|]
    | |- respects _ (mapM _ _) => apply respects_mapM; [apply _|]
    | |- respects _ (mbind _ _) => apply respects_bind; [apply _| |]
    | |- respects _ _ => solve [eauto 3 with keeps]
    | |- _ => progress intros
    | |- respects _ _ => case_match
    end.
(** [keeps_step] takes the first program of a sequence. *)
Ltac keeps_step := apply respects_bind; [apply _|solve [keeps_tac]|intros ?].
(** [evolve E as K]: the tables evolved in the run [E] of a program. *)
Tactic Notation "evolve" hyp(E) "as" ident(K) :=
  lazymatch type of E with
  | ?m ?e ?w = (_, ?w') =>
      assert (evolves w.(db) w'.(db)) as K
        by (refine ((_ : respects evolves m) _ _ _ _ E); solve [keeps_tac])
  end.

Section Evolves.
Context `{!Chrono} `{!SerdeJson} `{!Float} `{!Order} `{!Others Tasks} `{!Platform}.
Context `{!Instants} `{!Scheduler}.
Notation M := (M Tasks).

Inductive Request :=
| ReqPut (nats : bool) (owner_iid : Z) (task : option Task)
| ReqDelete (nats : bool) (owner_iid task_id : Z)
| ReqList (owner_iid device_iid : Z)
| ReqRunStart (nats : bool) (owner_iid : Z) (req : ReqTaskRunStart)
| ReqRunCancel (nats : bool) (owner_iid run_id : Z)
| ReqRunCancelDevice (nats : bool) (owner_iid device_iid : Z)
| ReqRunList (owner_iid : Z) (req : ReqTaskRunList)
| ReqLastMsg (run_id msg_id : Z)
| Hydrate
| Fire (payload : option Value)
| AgentProgress (nats : bool) (session_key : string) (ev : option EvDeviceTaskProgress)
| AgentDone (nats : bool) (session_key : string) (ev : option EvDeviceTaskDone)
| Worker (nats : bool) (owner_iid device_iid run_id : Z) (req_id prompt : string).

Definition serve (r : Request) : M () :=
  match r with
  | ReqPut nats owner_iid task => task_put_rpc nats owner_iid task;; mret tt
  | ReqDelete nats owner_iid task_id => task_delete_rpc nats owner_iid task_id;; mret tt
  | ReqList owner_iid device_iid => task_list_rpc owner_iid device_iid;; mret tt
  | ReqRunStart nats owner_iid req => task_run_start_rpc nats owner_iid req;; mret tt
  | ReqRunCancel nats owner_iid run_id => task_run_cancel_rpc nats owner_iid run_id;; mret tt
  | ReqRunCancelDevice nats owner_iid device_iid =>
      task_run_cancel_device_rpc nats owner_iid device_iid;; mret tt
  | ReqRunList owner_iid req => task_run_list_rpc owner_iid req;; mret tt
  | ReqLastMsg run_id msg_id => task_run_set_last_msg_id run_id msg_id
  | Hydrate => hydrate_task_schedules;; mret tt
  | Fire payload => task_scheduler_fire payload
  | AgentProgress nats session_key ev => agent_task_progress nats session_key ev;; mret tt
  | AgentDone nats session_key ev => agent_task_done nats session_key ev;; mret tt
  | Worker nats owner_iid device_iid run_id req_id prompt =>
      task_worker nats owner_iid device_iid run_id req_id prompt
  end.

(** ** Statements *)

Lemma evolves_step d d' : step d d' -> evolves d d'.
Proof. apply rtc_once. Qed.

Lemma evolves_run_update run_id P now (f : RunRow -> RunRow) d d' u :
  (forall c, P c = true -> run_step now c (f c)) ->
  run_update run_id P now f d = Ok (u, d') -> evolves d d'.
Proof.
  intros Hf [= <- <-]. rewrite alter_alt. destruct (d.(t_run) !! run_id) as [r|] eqn:E;
    [|by destruct d].
  destruct (P r.(cols)) eqn:EP; [|by rewrite (insert_id _ _ _ E); destruct d].
  apply evolves_step.
  change (set_cols now f r) with (set_cols now (fun _ => f r.(cols)) r). apply step_run; auto.
Qed.

(** A statement that changes several triggers is as many steps. *)
Lemma evolves_triggers (m' : gmap Z (Row TriggerRow)) (ks : list Z) d :
  (forall k, k ∉ ks -> m' !! k = d.(t_trigger) !! k) ->
  (forall k r r', m' !! k = Some r' -> d.(t_trigger) !! k = Some r ->
     trigger_step d.(t_task) (Some r) r') ->
  (forall k, is_Some (m' !! k) <-> is_Some (d.(t_trigger) !! k)) ->
  evolves d {| d with t_trigger := m' |}.
Proof.
  revert d. induction ks as [|k ks IH]; intros d Hout Hst Hdom.
  - replace m' with d.(t_trigger); [by destruct d|]. apply map_eq. intros k.
    symmetry. apply Hout. by apply not_elem_of_nil.
  - destruct (d.(t_trigger) !! k) as [r|] eqn:E; cycle 1.
    { apply IH; [|done|done]. intros j Hj. destruct (decide (j = k)) as [->|Hjk].
      - rewrite E. apply eq_None_not_Some. rewrite Hdom, E. by intros [].
      - apply Hout. rewrite not_elem_of_cons. tauto. }
    destruct (proj2 (Hdom k)) as [r' E']; [by rewrite E|].
    transitivity {| d with t_trigger := <[k := r']> d.(t_trigger) |}.
    { apply evolves_step, step_trigger. rewrite E. by eapply Hst. }
    set (d1 := {| d with t_trigger := <[k := r']> d.(t_trigger) |}).
    change {| d with t_trigger := m' |} with {| d1 with t_trigger := m' |}.
    apply IH; unfold d1; cbn.
    + intros j Hj. destruct (decide (j = k)) as [->|Hjk]; [by rewrite lookup_insert_eq|].
      rewrite lookup_insert_ne by done. apply Hout. rewrite not_elem_of_cons. tauto.
    + intros j x x' Hx' Hx. destruct (decide (j = k)) as [->|Hjk].
      * rewrite lookup_insert_eq in Hx. assert (x' = x) as -> by congruence. by constructor.
      * rewrite lookup_insert_ne in Hx by done. by eapply Hst.
    + intros j. destruct (decide (j = k)) as [->|Hjk].
      * rewrite lookup_insert_eq, E'. split; eauto.
      * by rewrite lookup_insert_ne.
Qed.
Lemma lookup_t_update {R} (P : Z -> Row R -> bool) f (t : gmap Z (Row R)) k :
  (t_update P f t).1 !! k = (fun r => if P k r then f r else r) <$> t !! k.
Proof. unfold t_update. cbn [fst]. rewrite map_lookup_imap. by destruct (t !! k). Qed.

Lemma evolves_update_triggers P (f : Row TriggerRow -> Row TriggerRow) d :
  (forall r, trigger_step d.(t_task) (Some r) (f r)) ->
  evolves d {| d with t_trigger := (t_update P f d.(t_trigger)).1 |}.
Proof.
  intros Hf. apply (evolves_triggers _ (map_to_list d.(t_trigger)).*1).
  - intros k Hk. rewrite lookup_t_update. destruct (d.(t_trigger) !! k) as [r|] eqn:E; [|done].
    destruct Hk. apply list_elem_of_fmap. exists (k, r). by rewrite elem_of_map_to_list.
  - intros k r r'. rewrite lookup_t_update. intros E' E. rewrite E in E'. cbn in E'.
    injection E' as <-. case_match; [apply Hf|by constructor].
  - intros k. rewrite lookup_t_update. destruct (d.(t_trigger) !! k); cbn; split; eauto.
Qed.

(** ** Handlers *)

(** Telling the owner's devices always returns. *)
Lemma total_push nats owner_iid run : total (task_run_push nats owner_iid run).
Proof. unfold task_run_push. destruct nats; [apply total_atomic|apply total_ret]. Qed.
Lemma total_push_run nats owner_iid id : total (push_run nats owner_iid id).
Proof.
  apply total_bind; [apply total_unwrap_or|]. intros []; [apply total_push|apply total_ret].
Qed.

Context (Hothers : forall n d, evolves d (others n d)).
Notation keeps := (respects evolves).

Lemma keeps_atomic {A} (f : Tasks -> A * Tasks) :
  (forall d, evolves d (f d).2) -> keeps (atomic f).
Proof. intros Hf. by apply (respects_atomic evolves). Qed.
Lemma keeps_update run_id P (f : DateTime -> RunRow -> RunRow) :
  (forall now c, P c = true -> run_step now c (f now c)) ->
  keeps (stmt (fun now => run_update run_id P now (f now))).
Proof.
  intros Hf. apply (respects_stmt evolves); [done|]. intros now d u d' E.
  exact (evolves_run_update _ _ _ (f now) _ _ _ (Hf now) E).
Qed.
Lemma keeps_emit ev : keeps (emit ev).
Proof. apply keeps_atomic. intros d. apply evolves_step, step_event. Qed.
Lemma keeps_flags {A} (g : Tasks -> A) (f : Tasks -> gmap Z bool) :
  keeps (atomic (fun d => (g d, {| d with run_cancel := f d |}))).
Proof. apply keeps_atomic. intros d. apply evolves_step, step_cancel. Qed.
Lemma keeps_ask_result {A} (f : nat -> result A) : keeps (ask_result f).
Proof.
  apply respects_bind; [apply _|by apply (respects_ask evolves)|]. intros r.
  apply respects_lift, _.
Qed.

Lemma keeps_read {A} (f : DateTime -> Tasks -> A) : keeps (read f).
Proof. by apply (respects_read evolves). Qed.
Lemma keeps_ask {A} (f : nat -> A) : keeps (ask f).
Proof. by apply (respects_ask evolves). Qed.
Lemma keeps_throw {A} x : keeps (throw (A := A) x).
Proof. apply respects_throw, _. Qed.
Lemma keeps_lift {A} (r : result A) : keeps (lift r).
Proof. apply respects_lift, _. Qed.
Lemma keeps_next_id : keeps next_id.
Proof. apply respects_next_id, _. Qed.
Lemma keeps_utc_now : keeps utc_now.
Proof. apply respects_utc_now, _. Qed.
Lemma keeps_ret {A} (a : A) : keeps (mret a).
Proof. apply respects_ret, _. Qed.

Hint Resolve keeps_emit keeps_ask_result keeps_read keeps_ask keeps_throw keeps_lift
  keeps_next_id keeps_utc_now keeps_ret : keeps.

Lemma keeps_register run_id : keeps (task_run_cancel_register run_id).
Proof. apply keeps_flags. Qed.
Lemma keeps_clear run_id : keeps (task_run_cancel_clear run_id).
Proof. apply keeps_flags. Qed.
Lemma keeps_signal run_id : keeps (task_run_cancel_signal run_id).
Proof.
  apply keeps_atomic. intros d. cbn. case_match; [apply evolves_step, step_cancel|reflexivity].
Qed.
Lemma keeps_cancelled run_id : keeps (task_run_cancelled run_id).
Proof. apply keeps_atomic. reflexivity. Qed.
Hint Resolve keeps_register keeps_clear keeps_signal keeps_cancelled : keeps.
Lemma keeps_check run_id : keeps (task_run_cancel_check run_id).
Proof. unfold task_run_cancel_check. keeps_tac. Qed.
Lemma keeps_get owner_iid run_id : keeps (task_run_get owner_iid run_id).
Proof. unfold task_run_get. keeps_tac. Qed.
Hint Resolve keeps_check keeps_get : keeps.
Lemma keeps_push nats owner_iid run : keeps (task_run_push nats owner_iid run).
Proof. unfold task_run_push. keeps_tac. Qed.
Hint Resolve keeps_push : keeps.
Lemma keeps_push_run nats owner_iid run_id : keeps (push_run nats owner_iid run_id).
Proof. unfold push_run. keeps_tac. Qed.
Hint Resolve keeps_push_run : keeps.

Lemma keeps_progress run_id meta summary step_index :
  keeps (task_run_update_progress run_id meta summary step_index).
Proof. apply respects_ignore; [apply _|]. apply keeps_update. constructor. Qed.
Lemma keeps_finish run_id status summary error meta duration_ms :
  terminal_status (status_to_db status) = true ->
  keeps (task_run_finish run_id status summary error meta duration_ms).
Proof. intros Ht. apply respects_ignore; [apply _|]. apply keeps_update. by constructor. Qed.
Lemma keeps_set_running run_id : keeps (task_run_set_running run_id).
Proof. apply respects_ignore; [apply _|]. apply keeps_update. constructor. Qed.
Lemma keeps_mark_cancelled run_id : keeps (task_run_mark_cancelled run_id).
Proof. apply respects_ignore; [apply _|]. apply keeps_update. by constructor. Qed.
Lemma keeps_last_msg run_id msg_id : keeps (task_run_set_last_msg_id run_id msg_id).
Proof. apply respects_ignore; [apply _|]. apply keeps_update. constructor. Qed.
Hint Resolve keeps_progress keeps_finish keeps_set_running keeps_mark_cancelled keeps_last_msg : keeps.

(** *** Saving *)

(** A statement of a task that is there, and stays. *)
Definition keeps_at {A} (id : Z) (m : M A) : Prop := forall e w r w',
  m e w = (r, w') -> is_Some (w.(db).(t_task) !! id) -> evolves w.(db) w'.(db).
Lemma task_stays id d d' : evolves d d' -> is_Some (d.(t_task) !! id) -> is_Some (d'.(t_task) !! id).
Proof. intros (_ & Hk & _)%evolves_rows_kept [r (r' & E & _)%Hk]. eauto. Qed.
Lemma keeps_at_bind {A B} id (m : M A) (f : A -> M B) :
  keeps_at id m -> (forall a, keeps_at id (f a)) -> keeps_at id (m ≫= f).
Proof.
  intros Hm Hf e w r w' [(x & E & _)|(a & w1 & E & E')]%bind_cases Hid; [by eapply Hm|].
  pose proof (Hm _ _ _ _ E Hid) as Hev. etransitivity; [exact Hev|].
  eapply Hf; [exact E'|]. by eapply task_stays.
Qed.
Lemma keeps_at_keeps {A} id (m : M A) : keeps m -> keeps_at id m.
Proof. intros Hm e w r w' E _. by eapply Hm. Qed.
Lemma keeps_at_mapM {A B} id (f : A -> M B) l :
  (forall x, keeps_at id (f x)) -> keeps_at id (mapM f l).
Proof.
  intros Hf. induction l; [apply keeps_at_keeps, keeps_ret|].
  apply keeps_at_bind; [done|]. intros y. apply keeps_at_bind; [done|]. intros ys.
  apply keeps_at_keeps, keeps_ret.
Qed.

Lemma keeps_trigger_upsert trigger_id id owner_iid tr :
  keeps_at id (stmt (trigger_upsert trigger_id id owner_iid tr)).
Proof.
  intros e w r w' E Hid. refine (respects_stmt_at evolves Hothers _ _ _ _ _ E _).
  intros now d [] d' Hd [= <-]. apply evolves_step, step_trigger.
  apply (task_stays id) in Hd; [|done]. destruct (_ !! trigger_id) as [r0|]; by constructor.
Qed.
Lemma keeps_put_trigger id owner_iid tr : keeps_at id (task_put_trigger id owner_iid tr).
Proof.
  apply keeps_at_bind.
  - apply keeps_at_keeps. case_match; keeps_tac.
  - intros trigger_id. apply keeps_at_bind; [apply keeps_trigger_upsert|]. intros [].
    apply keeps_at_keeps, keeps_ret.
Qed.

Lemma keeps_task_upsert id owner_iid task : keeps (stmt (task_upsert id owner_iid task)).
Proof.
  apply (respects_stmt evolves); [done|]. intros now d [] d' [= <-].
  apply evolves_step, step_task. destruct (d.(t_task) !! id); by constructor.
Qed.
(** A save of which the row is there afterwards *)
Lemma task_upsert_there id owner_iid task e w u w' :
  stmt (task_upsert id owner_iid task) e w = (Ok u, w') -> is_Some (w'.(db).(t_task) !! id).
Proof.
  intros ([] & w1 & _ & E)%bind_ok.
  refine (runs_sql _ (fun _ => True) (fun _ d => is_Some (d.(t_task) !! id)) _ _ _ _ _ E I).
  intros now d a d' _ [= <- <-]. cbn. rewrite lookup_insert_eq. eauto.
Qed.
Lemma keeps_task_put owner_iid task : keeps (task_put owner_iid task).
Proof.
  apply respects_bind; [apply _|case_match; keeps_tac|]. intros id e w r w'.
  intros [(x & E & _)|([] & w1 & E & E')]%bind_cases; [by eapply keeps_task_upsert|].
  etransitivity; [by eapply keeps_task_upsert|]. apply task_upsert_there in E.
  revert E' E. apply keeps_at_bind.
  - apply keeps_at_mapM, keeps_put_trigger.
  - intros trs. apply keeps_at_keeps, keeps_ret.
Qed.
Hint Resolve keeps_task_put : keeps.

Lemma evolves_delete_task owner_iid task_id now d :
  evolves d {| d with t_task := (t_update (fun id r =>
    (id =? task_id) && (r.(cols).(TaskRow.owner_iid) =? owner_iid) && live r)
    (soft_delete now) d.(t_task)).1 |}.
Proof.
  match goal with |- context [t_update ?P] => set (Q := P) end.
  assert (forall k, k <> task_id -> forall r, Q k r = false) as HQ.
  { intros k Hk r. unfold Q. by rewrite (proj2 (Z.eqb_neq k task_id) Hk). }
  destruct (d.(t_task) !! task_id) as [r|] eqn:E.
  - replace (t_update Q (soft_delete now) d.(t_task)).1
      with (<[task_id := if Q task_id r then soft_delete now r else r]> d.(t_task)).
    { apply evolves_step, step_task. rewrite E. constructor. by case_match. }
    apply map_eq. intros k. rewrite lookup_t_update.
    destruct (decide (k = task_id)) as [->|Hk]; [by rewrite E, lookup_insert_eq|].
    rewrite lookup_insert_ne by done. destruct (d.(t_task) !! k); [|done]. cbn. by rewrite HQ.
  - replace (t_update Q (soft_delete now) d.(t_task)).1 with d.(t_task); [by destruct d|].
    apply map_eq. intros k. rewrite lookup_t_update. destruct (d.(t_task) !! k) eqn:Ek; [|done].
    cbn. rewrite HQ; [done|]. congruence.
Qed.
Lemma keeps_task_delete owner_iid task_id : keeps (task_delete owner_iid task_id).
Proof.
  apply respects_bind; [apply _| |intros _; apply respects_unwrap_or; [apply _|]];
    (apply (respects_stmt evolves); [done|]); intros now d a d' E; injection E as <- <-.
  - apply evolves_delete_task.
  - apply evolves_update_triggers. intros r. by constructor.
Qed.
Hint Resolve keeps_task_delete : keeps.

Lemma keeps_list owner_iid device_iid : keeps (task_list owner_iid device_iid).
Proof. unfold task_list. keeps_tac. Qed.
Hint Resolve keeps_list : keeps.

Lemma keeps_arm owner_iid task tr : keeps (arm_trigger owner_iid task tr).
Proof. unfold arm_trigger, task_schedule_arm, task_schedule_disarm. keeps_tac. Qed.
Hint Resolve keeps_arm : keeps.

(** *** Runs *)

Lemma keeps_insert run_id owner_iid req_id prompt req :
  keeps (stmt (run_insert run_id (new_run owner_iid req_id prompt req))).
Proof.
  apply (respects_stmt evolves); [done|]. intros now d a d' E.
  apply result_bind_ok in E as (t & E & [= <- <-]). unfold t_insert in E.
  destruct (d.(t_run) !! run_id) eqn:En; [done|]. injection E as <-.
  by apply evolves_step, step_insert.
Qed.
Hint Resolve keeps_insert : keeps.

Lemma keeps_settle owner_iid req_id cost : keeps (task_run_billing_settle owner_iid req_id cost).
Proof. unfold task_run_billing_settle. keeps_tac. Qed.
Lemma keeps_measure run_id tokens_in tokens_out cost duration_ms :
  keeps (stmt (fun now d => match numeric_of_f64 cost with
    | Some n => run_update run_id (fun _ => true) now (fun c =>
        {| c with RunRow.tokens_in := tokens_in; RunRow.tokens_out := tokens_out;
                  RunRow.cost_usd := n; RunRow.duration_ms := duration_ms |}) d
    | None => Err "numeric field overflow"
    end)).
Proof.
  apply (respects_stmt evolves); [done|]. intros now d u d' E.
  destruct (numeric_of_f64 cost) as [n|]; [|done].
  refine (evolves_run_update _ _ _ _ _ _ _ _ E). constructor.
Qed.
Lemma keeps_metrics run_id owner_iid duration_ms :
  keeps (task_run_metrics_persist run_id owner_iid duration_ms).
Proof.
  apply respects_bind; [apply _|unfold task_run_log_rollup; keeps_tac|]. intros [[tin tout] cost].
  apply respects_bind; [apply _|apply respects_ignore; [apply _|apply keeps_measure]|]. keeps_tac.
Qed.
Lemma keeps_spawn owner_iid device_iid run_id req_id prompt recipe :
  keeps (spawn_recipe_worker owner_iid device_iid run_id req_id prompt recipe).
Proof. unfold spawn_recipe_worker. keeps_tac. Qed.
Lemma keeps_start_prompt owner_iid req : keeps (start_prompt owner_iid req).
Proof. unfold start_prompt. keeps_tac. Qed.
Hint Resolve keeps_settle keeps_metrics keeps_spawn keeps_start_prompt : keeps.
Lemma keeps_start_core nats owner_iid req : keeps (task_run_start_core nats owner_iid req).
Proof. unfold task_run_start_core. keeps_tac. Qed.
Hint Resolve keeps_start_core : keeps.
Lemma keeps_start_rpc nats owner_iid req : keeps (task_run_start_rpc nats owner_iid req).
Proof. unfold task_run_start_rpc. keeps_tac. Qed.
Hint Resolve keeps_start_rpc : keeps.

Lemma keeps_finish_rpc nats owner_iid run_id status summary error :
  terminal_status (status_to_db status) = true ->
  keeps (task_run_finish_rpc nats owner_iid run_id status summary error).
Proof. intros Ht. unfold task_run_finish_rpc. keeps_tac. Qed.
Lemma done_status_terminal ev : terminal_status (status_to_db (done_status ev)) = true.
Proof. unfold done_status. by repeat case_match. Qed.

Lemma keeps_active_children run_id : keeps (task_run_active_children run_id).
Proof. unfold task_run_active_children. keeps_tac. Qed.
Hint Resolve keeps_active_children : keeps.
Lemma keeps_cancel_tree nats owner_iid run_id : keeps (cancel_run_tree nats owner_iid run_id).
Proof. unfold cancel_run_tree, cancel_one. keeps_tac. Qed.
Hint Resolve keeps_cancel_tree : keeps.

(** *** Recipes *)

Lemma keeps_elapsed started : keeps (elapsed started).
Proof. unfold elapsed. keeps_tac. Qed.
Hint Resolve keeps_elapsed : keeps.
Lemma keeps_check_wall started : keeps (check_wall started).
Proof. unfold check_wall. keeps_tac. Qed.
Hint Resolve keeps_check_wall : keeps.

Section JoinSet.
Context {T R : Type} (run : T -> M R) (Hrun : forall t, keeps (run t)).
Hint Resolve Hrun : keeps.
Lemma keeps_acquire permits set : keeps (acquire run permits set).
Proof. unfold acquire. keeps_tac. Qed.
Lemma keeps_join_next set : keeps (join_next run set).
Proof. unfold join_next. keeps_tac. Qed.
Hint Resolve keeps_join_next : keeps.
Lemma keeps_join_all {S} (body : S -> list (T + R) -> R -> M S) n s set :
  (forall s set r, keeps (body s set r)) -> keeps (join_all run body n s set).
Proof.
  intros Hb. revert s set. induction n as [|n IH]; intros s set; [apply keeps_ret|].
  cbn [join_all]. keeps_tac.
Qed.
End JoinSet.

Lemma keeps_wait polls owner_iid child : keeps (wait_child polls owner_iid child).
Proof. induction polls; cbn [wait_child]; keeps_tac. Qed.
Lemma keeps_wait_terminal owner_iid child : keeps (wait_child_terminal owner_iid child).
Proof. apply keeps_wait. Qed.
Lemma keeps_shell_chunk run_id recipe started : keeps (data_shell_chunk_run run_id recipe started).
Proof. unfold data_shell_chunk_run. keeps_tac. Qed.
Hint Resolve keeps_acquire keeps_join_all keeps_wait_terminal keeps_shell_chunk : keeps.
Lemma keeps_fanout_chunk nats owner_iid parent started p run set idx :
  keeps (fanout_chunk nats owner_iid parent started p run set idx).
Proof. unfold fanout_chunk. keeps_tac. Qed.
Lemma keeps_fanout_joined parent p counts set st : keeps (fanout_joined parent p counts set st).
Proof. unfold fanout_joined. keeps_tac. Qed.
Hint Resolve keeps_fanout_chunk keeps_fanout_joined : keeps.
Lemma keeps_fanout nats owner_iid device_iid parent recipe started :
  keeps (chunk_fanout_run nats owner_iid device_iid parent recipe started).
Proof. unfold chunk_fanout_run. keeps_tac. Qed.
Hint Resolve keeps_fanout : keeps.

Lemma keeps_invokes owner_iid device_iid l last : keeps (run_invokes owner_iid device_iid l last).
Proof.
  revert last. induction l as [|[[] ?] l IH]; intros last; cbn [run_invokes]; [apply keeps_ret|].
  unfold browser_invoke. keeps_tac.
Qed.
Hint Resolve keeps_invokes : keeps.
Lemma keeps_run_row owner_iid device_iid t : keeps (run_row owner_iid device_iid t).
Proof. unfold run_row. keeps_tac. Qed.
Lemma keeps_abandoning {A} owner_iid device_iid set (m : M A) :
  keeps m -> keeps (abandoning owner_iid device_iid set m).
Proof. intros Hm. unfold abandoning, abandon. keeps_tac. Qed.
Hint Resolve keeps_run_row keeps_abandoning : keeps.
Lemma keeps_spawn_rows owner_iid device_iid run_id started parallel recipe tab_id work set :
  keeps (spawn_rows owner_iid device_iid run_id started parallel recipe tab_id work set).
Proof.
  revert set. induction work; intros set; cbn [spawn_rows]; keeps_tac.
Qed.
Lemma keeps_row_joined owner_iid device_iid run_id parallel total counts set joined :
  keeps (row_joined owner_iid device_iid run_id parallel total counts set joined).
Proof. unfold row_joined. keeps_tac. Qed.
Hint Resolve keeps_spawn_rows keeps_row_joined : keeps.
Lemma keeps_backfill owner_iid device_iid run_id recipe started :
  keeps (sheet_row_backfill_run owner_iid device_iid run_id recipe started).
Proof. unfold sheet_row_backfill_run, browser_invoke. keeps_tac. Qed.
Hint Resolve keeps_backfill : keeps.
Lemma keeps_recipe nats owner_iid device_iid run_id recipe started :
  keeps (run_recipe nats owner_iid device_iid run_id recipe started).
Proof. unfold run_recipe. keeps_tac. Qed.
Hint Resolve keeps_recipe : keeps.

Lemma outcome_terminal r : terminal_status (status_to_db (outcome_of r).1.1.1) = true.
Proof. unfold outcome_of. by repeat case_match. Qed.
Lemma keeps_report nats owner_iid run_id req_id metrics duration_ms outcome :
  keeps (worker_report nats owner_iid run_id req_id metrics duration_ms outcome).
Proof. unfold worker_report. destruct outcome as [[[[] summary] error] meta]; keeps_tac. Qed.
Hint Resolve keeps_report : keeps.

Lemma keeps_worker nats owner_iid device_iid run_id req_id prompt :
  keeps (task_worker nats owner_iid device_iid run_id req_id prompt).
Proof.
  unfold task_worker. do 4 keeps_step. rename a2 into result. do 3 keeps_step. cbv zeta.
  pose proof (outcome_terminal result) as Ht.
  destruct (outcome_of result) as [[[st summary] error] meta]. keeps_tac.
Qed.

Lemma keeps_deactivate trigger_id :
  keeps (stmt (fun now d => Ok (tt, {| d with t_trigger :=
    alter (set_cols now (fun c => {| c with TriggerRow.is_active := false |}))
      trigger_id d.(t_trigger) |}))).
Proof.
  apply (respects_stmt evolves); [done|]. intros now d u d' [= <- <-]. rewrite alter_alt.
  destruct (d.(t_trigger) !! trigger_id) eqn:E; [|by destruct d].
  apply evolves_step, step_trigger. rewrite E. by constructor.
Qed.
Lemma keeps_fire payload : keeps (task_scheduler_fire payload).
Proof.
  unfold task_scheduler_fire. destruct payload as [payload|]; [|keeps_tac].
  case_match; [keeps_tac|]. keeps_step. destruct a as [[[t tr]|]|]; [|keeps_tac..].
  case_match; [keeps_tac|]. do 2 keeps_step. case_match; [|keeps_tac].
  apply respects_ignore, keeps_deactivate. apply _.
Qed.
Lemma keeps_progress_report nats session_key ev : keeps (agent_task_progress nats session_key ev).
Proof. unfold agent_task_progress, with_session. keeps_tac. Qed.
Lemma keeps_done nats session_key ev : keeps (agent_task_done nats session_key ev).
Proof.
  unfold agent_task_done, with_session. keeps_tac. apply keeps_finish_rpc, done_status_terminal.
Qed.
Lemma keeps_put_rpc nats owner_iid task : keeps (task_put_rpc nats owner_iid task).
Proof. unfold task_put_rpc. keeps_tac. Qed.
Lemma keeps_delete_rpc nats owner_iid task_id : keeps (task_delete_rpc nats owner_iid task_id).
Proof. unfold task_delete_rpc, task_schedule_disarm. keeps_tac. Qed.
Lemma keeps_cancel_rpc nats owner_iid run_id : keeps (task_run_cancel_rpc nats owner_iid run_id).
Proof. unfold task_run_cancel_rpc. keeps_tac. Qed.
Lemma keeps_cancel_device_rpc nats owner_iid device_iid :
  keeps (task_run_cancel_device_rpc nats owner_iid device_iid).
Proof.
  unfold task_run_cancel_device_rpc, cancel_device_run, task_run_active_for_device. keeps_tac.
Qed.
Lemma keeps_list_rpc owner_iid req : keeps (task_run_list_rpc owner_iid req).
Proof. unfold task_run_list_rpc, task_run_list_children, task_run_list_for_task. keeps_tac. Qed.
Lemma keeps_hydrate : keeps hydrate_task_schedules.
Proof. unfold hydrate_task_schedules, task_schedule_arm. keeps_tac. Qed.
Hint Resolve keeps_fire keeps_progress_report keeps_done keeps_put_rpc keeps_delete_rpc
  keeps_cancel_rpc keeps_cancel_device_rpc keeps_list_rpc keeps_hydrate keeps_worker : keeps.

Lemma keeps_serve r : keeps (serve r).
Proof. destruct r; unfold serve, task_list_rpc; keeps_tac. Qed.

End Evolves.

#[export] Hint Resolve keeps_emit keeps_ask_result keeps_read keeps_ask keeps_throw keeps_lift
  keeps_next_id keeps_utc_now keeps_ret keeps_register keeps_clear keeps_signal keeps_cancelled
  keeps_check keeps_get keeps_push keeps_push_run keeps_progress keeps_finish keeps_set_running
  keeps_mark_cancelled keeps_last_msg keeps_task_put keeps_task_delete keeps_list keeps_arm
  keeps_insert keeps_settle keeps_metrics keeps_spawn keeps_start_prompt keeps_start_core
  keeps_start_rpc keeps_active_children keeps_cancel_tree keeps_elapsed keeps_check_wall
  keeps_acquire keeps_join_all keeps_wait_terminal keeps_shell_chunk keeps_fanout_chunk
  keeps_fanout_joined keeps_fanout keeps_invokes keeps_run_row keeps_abandoning
  keeps_spawn_rows keeps_row_joined keeps_backfill keeps_recipe keeps_report keeps_fire
  keeps_progress_report keeps_done keeps_put_rpc keeps_delete_rpc keeps_cancel_rpc
  keeps_cancel_device_rpc keeps_list_rpc keeps_hydrate keeps_worker keeps_join_next
  keeps_recipe keeps_finish_rpc : keeps.
