(* ===== verification/TaskProps.v ===== *)
(** * What becomes of a run

    The life of the runs under every interleaving, and how a worker ends. *)
From stdpp Require Import sorting pretty.
From S2P Require Import Prelude Strs Ts TxProto World Json Db Shared TaskData TaskStore TaskApi.
From S2P Require Import TaskWorker TaskSteps TaskServe.

Section Lifecycle.
Context `{!Chrono} `{!SerdeJson} `{!Float} `{!Order} `{!Others Tasks} `{!Platform}.
Context `{!Instants} `{!Scheduler}.

(** C31. Whatever the task crate is asked, and whatever other
    handlers, workers and devices do to its tables in between: no run, task or
    trigger disappears, and each keeps its owner, and a run its device, prompt,
    request, parent and start time.  A run is queued and neither started nor
    finished, or running and started, or done, failed or cancelled and finished;
    a trigger always belongs to a task that is there. *)
Theorem task_runs_lifecycle (r : Request) e w x w' :
  (forall n d, evolves d (others n d)) ->
  tasks_wf w.(db) ->
  serve r e w = (x, w') ->
  tasks_wf w'.(db) /\ rows_kept w.(db) w'.(db).
Proof.
  intros Ho Hw E. assert (evolves w.(db) w'.(db)) as He by by eapply keeps_serve.
  split; [by eapply evolves_wf|by apply evolves_rows_kept].
Qed.
End Lifecycle.

(** ** How a worker ends *)

Section Worker.
Context `{!Chrono} `{!SerdeJson} `{!Float} `{!Order} `{!Others Tasks} `{!Platform}.
Context `{!Instants} `{!Scheduler}.
Notation M := (M Tasks).

(** The others leave a run that has ended as it is. *)
Definition settled (run_id : Z) (d d' : Tasks) : Prop :=
  evolves d d' /\
  forall r, d.(t_run) !! run_id = Some r -> terminal_status r.(cols).(RunRow.status) = true ->
    exists r', d'.(t_run) !! run_id = Some r' /\
      r'.(cols).(RunRow.status) = r.(cols).(RunRow.status) /\
      r'.(cols).(RunRow.summary) = r.(cols).(RunRow.summary) /\
      r'.(cols).(RunRow.error) = r.(cols).(RunRow.error).
#[global] Instance settled_preorder run_id : PreOrder (settled run_id).
Proof.
  split.
  - intros d. split; [reflexivity|eauto].
  - intros d1 d2 d3 [H12 K12] [H23 K23]. split; [by etransitivity|].
    intros r E Ht. destruct (K12 r E Ht) as (r2 & E2 & S2 & U2 & X2).
    destruct (K23 r2 E2) as (r3 & E3 & S3 & U3 & X3); [by rewrite S2|].
    exists r3. split_and!; congruence.
Qed.
Lemma settled_same_runs run_id d d' :
  evolves d d' -> d'.(t_run) = d.(t_run) -> settled run_id d d'.
Proof. intros He E. split; [done|]. intros r Hr _. exists r. by rewrite E. Qed.

Context (run_id : Z) (Hothers : forall n d, settled run_id d (others n d)).
Lemma others_evolve n d : evolves d (others n d).
Proof. apply Hothers. Qed.

Lemma settled_emit ev : respects (settled run_id) (emit ev).
Proof.
  apply (respects_atomic (settled run_id)); [done|]. intros d.
  apply settled_same_runs; [|done]. apply evolves_step, step_event.
Qed.
Lemma settled_clear id : respects (settled run_id) (task_run_cancel_clear id).
Proof.
  apply (respects_atomic (settled run_id)); [done|]. intros d.
  apply settled_same_runs; [|done]. apply evolves_step, step_cancel.
Qed.
Lemma settled_get owner_iid id : respects (settled run_id) (task_run_get owner_iid id).
Proof. apply respects_unwrap_or; [apply _|]. by apply (respects_read (settled run_id)). Qed.
Lemma settled_check id : respects (settled run_id) (task_run_cancel_check id).
Proof.
  apply respects_bind; [apply _|apply (respects_atomic (settled run_id)); [done|reflexivity]|].
  intros []; [apply respects_throw, _|apply respects_ret, _].
Qed.
Lemma settled_report nats owner_iid req_id metrics duration_ms outcome :
  respects (settled run_id)
    (worker_report nats owner_iid run_id req_id metrics duration_ms outcome).
Proof.
  unfold worker_report. destruct outcome as [[[st summary] error] meta].
  apply respects_bind; [apply _|apply settled_get|]. intros run.
  apply respects_bind; [apply _| |intros _].
  - destruct run; [|apply respects_ret, _]. unfold task_run_push.
    destruct nats; [apply settled_emit|apply respects_ret, _].
  - destruct st; (apply settled_emit || apply respects_ret, _).
Qed.

(** *** Totality *)

Lemma total_report nats owner_iid req_id metrics duration_ms outcome :
  total (worker_report nats owner_iid run_id req_id metrics duration_ms outcome).
Proof.
  unfold worker_report. destruct outcome as [[[st summary] error] meta].
  apply total_bind; [apply total_unwrap_or|]. intros run. apply total_bind; [|intros _].
  - destruct run; [apply total_push|apply total_ret].
  - destruct st; (apply total_atomic || apply total_ret).
Qed.
Lemma total_elapsed started : total (elapsed started).
Proof. apply total_bind; [apply total_ask|]. intros x. apply total_ret. Qed.
Lemma total_metrics id owner_iid duration_ms : total (task_run_metrics_persist id owner_iid duration_ms).
Proof.
  apply total_bind.
  - apply total_bind; [apply total_unwrap_or|]. intros row. apply total_ret.
  - intros [[tin tout] cost]. apply total_bind; [apply total_ignore|]. intros _. apply total_ret.
Qed.
Lemma total_settle owner_iid req_id cost : total (task_run_billing_settle owner_iid req_id cost).
Proof.
  unfold task_run_billing_settle. case_match; [apply total_ret|].
  case_match; [apply total_atomic|]. apply total_bind; [apply total_atomic|]. intros _.
  apply total_bind; [apply total_attempt|]. intros []; [|apply total_ret].
  apply total_bind; [apply total_attempt|]. intros []; [apply total_atomic|apply total_ret].
Qed.

Lemma total_worker nats owner_iid device_iid req_id prompt :
  total (task_worker nats owner_iid device_iid run_id req_id prompt).
Proof.
  unfold task_worker. apply total_bind; [apply total_ask|]. intros started.
  apply total_bind; [apply total_ignore|]. intros _. apply total_bind; [apply total_push_run|]. intros _.
  apply total_bind; [apply total_attempt|]. intros res. apply total_bind; [apply total_elapsed|]. intros ms.
  apply total_bind; [apply total_metrics|]. intros metrics.
  apply total_bind; [apply total_settle|]. intros _. cbv zeta.
  destruct (outcome_of res) as [[[st summary] error] meta].
  apply total_bind; [apply total_ignore|]. intros _. apply total_bind; [apply total_atomic|]. intros _.
  apply total_bind; [apply total_report|]. intros _. apply total_ignore.
Qed.

(** *** What it leaves *)

Lemma emit_events ev e w u w' : emit ev e w = (Ok u, w') -> ev ∈ w'.(db).(events).
Proof. intros [= <- <-]. cbn. apply elem_of_app. right. by left. Qed.

(** What the log, asked at some moment, says the run has cost *)
Definition run_cost (owner_iid : Z) (cost : f64) : Prop := exists n,
  cost = match log_sums owner_iid ("task_run." +:+ pretty run_id +:+ ".%") n with
    | Ok (_, Some c) => c | _ => f64_zero end.
(** Billing is told to refund the request of a run that cost nothing, and to charge
    the owner the cost of another one. *)
Definition billed (owner_iid : Z) (req_id : string) (cost : f64) (d : Tasks) : Prop :=
  if f64_leb cost f64_zero then Refund req_id ∈ d.(events) else Deduct owner_iid cost ∈ d.(events).
Lemma billed_stays owner_iid req_id cost d d' :
  evolves d d' -> billed owner_iid req_id cost d -> billed owner_iid req_id cost d'.
Proof. unfold billed. intros He. destruct (f64_leb _ _); intros Hb; by eapply event_stays. Qed.
Lemma metrics_cost owner_iid duration_ms e w m w' :
  task_run_metrics_persist run_id owner_iid duration_ms e w = (Ok m, w') -> run_cost owner_iid m.2.
Proof.
  intros E. apply bind_ok in E as ([[tin tout] cost] & w1 & E1 & E).
  apply bind_ok in E as ([] & w2 & _ & E). apply ret_ok in E as [-> _]. cbn [snd].
  apply bind_ok in E1 as (row & w3 & E3 & E1). apply ret_ok in E1 as [[= _ _ ->] _].
  unfold unwrap_or in E3. apply bind_ok in E3 as (r & w4 & E4 & E3). apply ret_ok in E3 as [-> _].
  rewrite attempt_run in E4. injection E4 as <- _. unfold ask_result, ask, mbind, M_bind, lift. cbn [fst].
  exists w.(n_sql). by destruct (log_sums _ _ _) as [[[? ?] [?|]]|].
Qed.
Lemma settle_billed owner_iid req_id cost e w u w' :
  is_empty (trim req_id) = false ->
  task_run_billing_settle owner_iid req_id cost e w = (Ok u, w') -> billed owner_iid req_id cost w'.(db).
Proof.
  intros Hid E. unfold task_run_billing_settle in E. rewrite Hid in E. unfold billed.
  destruct (f64_leb cost f64_zero); [by eapply emit_events|].
  apply bind_ok in E as ([] & w1 & E1 & E). eapply event_stays; [|by eapply emit_events].
  match type of E with ?m e w1 = _ => assert (respects evolves m) as Hm; [|by eapply Hm] end.
  apply respects_bind; [apply _|apply respects_attempt, keeps_ask_result, others_evolve|].
  intros [row|]; [|apply respects_ret, _].
  apply respects_bind; [apply _|apply respects_attempt, keeps_ask_result, others_evolve|].
  intros [acct|]; [apply keeps_emit, others_evolve|apply respects_ret, _].
Qed.

(** How a run ends whose recipe returned something: its status, summary and error,
    and the title and text of the notification *)
Inductive ends_as : result RecipeOutcome -> string -> string -> string -> string -> string -> Prop :=
| ends_done m :
    ends_as (Ok m) "done" m.(RecipeOutcome.summary) "" "Task finished" m.(RecipeOutcome.summary)
| ends_cancelled :
    ends_as (Err "cancelled") "cancelled" "Cancelled" "" "Task cancelled" "Cancelled"
| ends_failed x : x <> "cancelled" -> ends_as (Err x) "failed" x x "Task failed" x.

Lemma outcome_ends res : let '(st, summary, error, _) := outcome_of res in
  exists title text, ends_as res (status_to_db st) summary error title text /\
    forall nats owner_iid req_id metrics duration_ms e w u w',
      worker_report nats owner_iid run_id req_id metrics duration_ms (outcome_of res) e w = (Ok u, w') ->
      Notify owner_iid title (take_chars 500 text) run_id req_id ∈ w'.(db).(events).
Proof.
  destruct (outcome_of res) as [[[st summary] error] meta] eqn:Eo. unfold outcome_of in Eo.
  destruct res as [m|x]; [|destruct (String.eqb_spec x "cancelled") as [->|Hx]]; injection Eo as <- <- <- _;
    do 2 eexists; (split; [constructor; assumption || constructor|]);
    intros nats owner_iid req_id metrics duration_ms e w u w' E; unfold worker_report in E;
    apply bind_ok in E as (run & w1 & _ & E); apply bind_ok in E as (u1 & w2 & _ & E);
    apply emit_events in E; try exact E.
  by destruct (is_empty x).
Qed.

(** A statement that does not fail. *)
Lemma sql_runs {A} (f : DateTime -> Tasks -> result (A * Tasks)) e w :
  (forall n, e.(env_fault) n = false) ->
  exists now w1, sql f e w = match f now w.(db) with
    | Ok (a, d) => (Ok a, {| w1 with db := d |}) | Err x => (Err x, w1) end.
Proof.
  intros Hf. unfold sql. destruct (txn_now w) as [t|] eqn:Et.
  - exists t, {| w with n_sql := S w.(n_sql) |}. rewrite Hf. cbn.
    rewrite ?Et. by destruct (f t w.(db)) as [[a d]|x].
  - exists (env_clock e w.(n_clock)), {| w with n_clock := S w.(n_clock); n_sql := S w.(n_sql) |}.
    rewrite Hf. cbn. rewrite ?Et. by destruct (f _ w.(db)) as [[a d]|x].
Qed.
Lemma finish_runs st summary error meta duration_ms e w r0 :
  (forall n, e.(env_fault) n = false) -> w.(db).(t_run) !! run_id = Some r0 ->
  exists w' r, task_run_finish run_id st summary error meta duration_ms e w = (Ok tt, w') /\
    w'.(db).(t_run) !! run_id = Some r /\ r.(cols).(RunRow.status) = status_to_db st /\
    r.(cols).(RunRow.summary) = summary /\ r.(cols).(RunRow.error) = error.
Proof.
  intros Hf Hr. unfold task_run_finish, ignore, attempt, stmt, interleave, mbind, M_bind. cbv beta.
  destruct (evolves_rows_kept _ _ (others_evolve w.(n_sql) w.(db))) as (Hk & _).
  destruct (Hk _ _ Hr) as (r1 & E1 & _).
  match goal with |- context [sql ?f e ?v] => destruct (sql_runs f e v Hf) as (now & w1 & Es) end.
  rewrite Es. cbn. do 2 eexists. split; [reflexivity|]. cbn.
  rewrite lookup_alter_eq, E1. cbn. by split_and!.
Qed.

End Worker.

(** What a worker of run [run_id], which started as [r0], leaves when its recipe
    returned [res]. *)
Definition worker_left `{!Chrono} `{!Float} `{!Platform} (owner_iid run_id : Z) (req_id : string)
    (r0 : Row RunRow) (res : result RecipeOutcome) (d : Tasks) : Prop :=
  exists status summary error title text, ends_as res status summary error title text /\
  (exists r, d.(t_run) !! run_id = Some r /\ run_kept r0.(cols) r.(cols) /\
    r.(cols).(RunRow.status) = status /\ is_Some r.(cols).(RunRow.finished_ts) /\
    r.(cols).(RunRow.summary) = summary /\ r.(cols).(RunRow.error) = error) /\
  (is_empty (trim req_id) = false -> exists cost, run_cost run_id owner_iid cost /\
     billed owner_iid req_id cost d) /\
  Notify owner_iid title (take_chars 500 text) run_id req_id ∈ d.(events).

(** [seq t k]: the first program of a sequence returns by [t] and evolves by
    [k]. *)
Ltac seq t k := eapply (seq_run evolves); [solve [t]|solve [k]|].

(** C32. A worker always returns, whatever the others do and whichever statements
    fail.  If no statement fails, and the others leave the outcome of a run that
    has ended alone, it leaves its run ended: done with the summary its recipe
    returned, cancelled if it returned the error "cancelled", and failed with any
    other error as summary and error, and otherwise as it was started.  The owner is
    notified of just that.  Billing is told to refund the request if the log has no
    cost for the run, and to charge the owner the cost if it has. *)
Theorem task_worker_ends `{!Chrono} `{!SerdeJson} `{!Float} `{!Order} `{!Others Tasks}
    `{!Platform} `{!Instants} `{!Scheduler} nats owner_iid device_iid run_id req_id prompt e w r0 :
  (exists w', task_worker nats owner_iid device_iid run_id req_id prompt e w = (Ok tt, w')) /\
  ((forall n d, settled run_id d (others n d)) -> (forall n, e.(env_fault) n = false) ->
   tasks_wf w.(db) -> w.(db).(t_run) !! run_id = Some r0 ->
   exists w' res started w1 w2,
     task_worker nats owner_iid device_iid run_id req_id prompt e w = (Ok tt, w') /\
     run_recipe nats owner_iid device_iid run_id (recipe_of prompt) started e w1 = (res, w2) /\
     worker_left owner_iid run_id req_id r0 res w'.(db)).
Proof.
  split; [destruct (total_worker run_id nats owner_iid device_iid req_id prompt e w) as ([] & w' & E); eauto|].
  intros Ho Hf Hw Hr. pose proof (fun n d => proj1 (Ho n d)) as Ho'.
  pattern (task_worker nats owner_iid device_iid run_id req_id prompt e w).
  match goal with |- ?P _ => set (Q := P) end. unfold task_worker.
  seq ltac:(apply total_ask) ltac:(by apply (respects_ask evolves)). intros started wa _ Ka.
  seq ltac:(apply total_ignore) ltac:(by apply keeps_set_running). intros [] wb _ Kb.
  seq ltac:(apply total_push_run) ltac:(by apply keeps_push_run). intros [] wc _ Kc.
  seq ltac:(apply total_attempt) ltac:(by apply respects_attempt, keeps_recipe). intros res wd Ed Kd.
  seq ltac:(apply total_elapsed) ltac:(by apply keeps_elapsed). intros duration_ms we _ Ke.
  seq ltac:(apply total_metrics) ltac:(by apply keeps_metrics). intros metrics wf Emet Kf.
  seq ltac:(apply total_settle) ltac:(by apply keeps_settle). intros [] wg Eg Kg. cbv zeta.
  destruct (outcome_of res) as [[[st summary] error] meta] eqn:Eo.
  assert (terminal_status (status_to_db st) = true) as Ht.
  { pose proof (outcome_terminal res) as Ht. by rewrite Eo in Ht. }
  assert (evolves w.(db) wg.(db)) as Kwg by (etransitivity; [exact Ka|]; repeat (etransitivity; [eassumption|]); reflexivity).
  destruct (evolves_rows_kept _ _ Kwg) as (Hk & _). destruct (Hk _ _ Hr) as (rg & Erg & Krg & _).
  seq ltac:(apply total_ignore) ltac:(by apply keeps_finish). intros [] wh Eh Kh.
  destruct (finish_runs run_id Ho st summary error meta duration_ms e wg rg Hf Erg)
    as (wh' & rh & Eh' & Erh & Srh & Urh & Xrh).
  rewrite Eh in Eh'. injection Eh' as <-.
  eapply (seq_run (settled run_id)); [apply total_atomic|by apply settled_clear|]. intros [] wi _ Ki.
  eapply (seq_run (settled run_id)); [apply total_report|by apply settled_report|]. intros [] wj Ej Kj.
  assert (settled run_id wj.(db) (ignore (task_run_cancel_check run_id) e wj).2.(db)) as Kl.
  { eapply respects_ignore; [apply _|by apply settled_check|apply surjective_pairing]. }
  destruct (total_ignore (task_run_cancel_check run_id) e wj) as ([] & wk & Ek).
  rewrite Ek in Kl |- *. cbn in Kl. unfold Q. exists wk, res, started, wc, wd.
  split; [done|]. unfold attempt in Ed. destruct (run_recipe _ _ _ _ _ _ e wc) as [res' wd'].
  injection Ed as -> ->. split; [done|].
  pose proof (outcome_ends run_id res) as Hends. rewrite Eo in Hends. destruct Hends as (title & text & Hends & Hnote).
  assert (settled run_id wh.(db) wk.(db)) as [Khk Shk] by (etransitivity; [exact Ki|]; by etransitivity).
  exists (status_to_db st), summary, error, title, text. split; [exact Hends|]. split_and!.
  - destruct (Shk rh) as (r & Er & Sr & Ur & Xr); [done|by rewrite Srh|].
    assert (evolves w.(db) wk.(db)) as Kwk by (by do 2 (etransitivity; [eassumption|])).
    exists r. destruct (evolves_rows_kept _ _ Kwk) as (Hk' & _).
    destruct (Hk' _ _ Hr) as (r' & Er' & Kr' & _). assert (r' = r) as -> by congruence.
    destruct (evolves_wf _ _ Kwk Hw) as [Hrw _]. specialize (Hrw _ _ Er). rewrite Srh in Sr.
    split_and!; [done|done|done| |congruence|congruence].
    destruct Hrw as [(Hq & _)|[[Hq _]|[_ Hfin]]]; [|..|done]; rewrite Sr in Hq; by rewrite Hq in Ht.
  - intros Hid. exists metrics.2. split; [by eapply metrics_cost|].
    eapply billed_stays; [|by eapply settle_billed]. by etransitivity.
  - eapply event_stays; [|by eapply Hnote]. by destruct Kl.
Qed.
