(* ===== verification/TaskFanout.v ===== *)
(** * What an orchestrator covers

    The chunks of a fan-out tile the rows it was asked for, and it succeeds only
    when every chunk had a child run that ended well. *)
From stdpp Require Import sorting pretty.
From S2P Require Import Prelude Strs Ts TxProto World Json Db Shared TaskData TaskStore TaskApi.
From S2P Require Import TaskWorker TaskSteps TaskServe.

(** ** Chunks *)

Definition plan_wf (p : Plan) : Prop :=
  0 < p.(Plan.total) /\ in_i64 p.(Plan.total) /\ 1 <= p.(Plan.chunk_size) <= 500 /\
  1 <= p.(Plan.parallel_children) <= MAX_PARALLEL_CHILDREN.

Lemma clamp_range z lo hi : lo <= hi -> lo <= clamp z lo hi <= hi.
Proof. unfold clamp. intros H. destruct (Z.ltb_spec z lo); [lia|]. destruct (Z.ltb_spec hi z); lia. Qed.

(** The rows the chunks cover: all of them, up to the largest number of chunks. *)
Definition covered (p : Plan) : Z := Z.min p.(Plan.total) (MAX_CHUNKS * p.(Plan.chunk_size)).

Section Chunks.
Context (p : Plan) (Hp : plan_wf p) (Hsum : in_i64 (p.(Plan.total) + p.(Plan.chunk_size))).

Lemma num_chunks_eq :
  num_chunks p = Z.min ((p.(Plan.total) + p.(Plan.chunk_size) - 1) / p.(Plan.chunk_size)) MAX_CHUNKS.
Proof.
  destruct Hp as (Ht & Hti & Hc & _). unfold num_chunks. f_equal. unfold_machine.
  rewrite (to_i64_id (_ + _)) by done. rewrite to_i64_id by (unfold in_i64 in *; lia).
  apply Z.quot_div_nonneg; lia.
Qed.
Lemma num_chunks_bounds :
  1 <= num_chunks p <= MAX_CHUNKS /\
  (num_chunks p - 1) * p.(Plan.chunk_size) < covered p <= num_chunks p * p.(Plan.chunk_size).
Proof.
  rewrite num_chunks_eq. destruct Hp as (Ht & Hti & Hc & _). unfold covered, MAX_CHUNKS.
  set (s := p.(Plan.chunk_size)) in *. set (t := p.(Plan.total)) in *.
  pose proof (Z.div_mod (t + s - 1) s ltac:(lia)) as Hd.
  pose proof (Z.mod_pos_bound (t + s - 1) s ltac:(lia)) as Hm.
  set (q := (t + s - 1) / s) in *. destruct (Z.min_spec q 10000) as [[? ->]|[? ->]]; nia.
Qed.

Lemma chunk_bounds i : 0 <= i < num_chunks p ->
  chunk_offset p i = i * p.(Plan.chunk_size) /\
  chunk_limit p i = Z.min p.(Plan.chunk_size) (p.(Plan.total) - i * p.(Plan.chunk_size)) /\
  1 <= chunk_limit p i <= p.(Plan.chunk_size).
Proof.
  intros Hi. pose proof num_chunks_bounds as [[Hn1 Hn2] [Hb1 Hb2]].
  destruct Hp as (Ht & Hti & Hc & _). unfold covered, MAX_CHUNKS in *.
  assert (chunk_offset p i = i * p.(Plan.chunk_size)) as Ho.
  { unfold chunk_offset, i64_mul. apply to_i64_id. unfold in_i64. nia. }
  assert (i * p.(Plan.chunk_size) < p.(Plan.total)) as Hlt by nia.
  assert (chunk_limit p i = Z.min p.(Plan.chunk_size) (p.(Plan.total) - i * p.(Plan.chunk_size))) as Hl.
  { unfold chunk_limit, i64_sub. rewrite Ho, to_i64_id; [done|]. unfold in_i64 in *. nia. }
  split_and!; [done|done|lia|lia].
Qed.

(** Chunk [i] holds row [x]. *)
Definition in_chunk (x i : Z) : Prop :=
  0 <= i < num_chunks p /\ chunk_offset p i <= x < chunk_offset p i + chunk_limit p i.

Lemma in_chunk_iff x i : in_chunk x i <-> 0 <= x < covered p /\ i = x / p.(Plan.chunk_size).
Proof.
  pose proof num_chunks_bounds as [[Hn1 Hn2] [Hb1 Hb2]]. destruct Hp as (Ht & Hti & Hc & _).
  unfold in_chunk. split.
  - intros [Hi Hx]. destruct (chunk_bounds i Hi) as (Ho & Hl & Hr). rewrite Ho, Hl in Hx. split.
    + unfold covered, MAX_CHUNKS in *. nia.
    + apply (Z.div_unique_pos _ _ _ (x - i * p.(Plan.chunk_size))); nia.
  - intros [Hx ->]. pose proof (Z.div_mod x p.(Plan.chunk_size) ltac:(lia)) as Hd.
    pose proof (Z.mod_pos_bound x p.(Plan.chunk_size) ltac:(lia)) as Hm.
    set (i := x / p.(Plan.chunk_size)) in *.
    assert (0 <= i < num_chunks p) as Hi by nia. split; [done|].
    destruct (chunk_bounds i Hi) as (-> & -> & _). unfold covered in *. lia.
Qed.
End Chunks.

Lemma fanout_plan_wf device_iid recipe p : fanout_plan device_iid recipe = Ok p ->
  (forall t, field_i64 "total" recipe = Some t -> in_i64 t) -> plan_wf p.
Proof.
  unfold fanout_plan. intros (total & Et & E)%result_bind_ok Hin.
  apply result_bind_ok in E as (cr & _ & E). injection E as <-.
  destruct (field_i64 "total" recipe) as [t|] eqn:Ef; [|done]. cbn in Et.
  destruct (Z.ltb_spec 0 t) as [Hlt|]; [|done]. injection Et as <-. unfold plan_wf. cbn.
  split_and!; try done; try (by apply Hin); try apply clamp_range; unfold MAX_PARALLEL_CHILDREN; lia.
Qed.

(** ** Starting a child *)

Section Start.
Context `{!Chrono} `{!SerdeJson} `{!Float} `{!Order} `{!Others Tasks} `{!Platform}.
Context (Hothers : forall n d, evolves d (others n d)).

Lemma run_stays id r d d' : evolves d d' -> d.(t_run) !! id = Some r ->
  exists r', d'.(t_run) !! id = Some r' /\ run_kept r.(cols) r'.(cols).
Proof. intros (Hk & _)%evolves_rows_kept E. destruct (Hk _ _ E) as (r' & ? & ? & _). eauto. Qed.
Lemma run_absent id d d' : evolves d d' -> d'.(t_run) !! id = None -> d.(t_run) !! id = None.
Proof.
  intros He E. destruct (d.(t_run) !! id) eqn:E'; [|done].
  destruct (run_stays _ _ _ _ He E') as (r' & Er & _). congruence.
Qed.

(** The run a start left behind. *)
Definition run_of (owner_iid : Z) (req : ReqTaskRunStart) (id : Z) (d : Tasks) : Prop :=
  exists r req_id prompt, d.(t_run) !! id = Some r /\
    run_kept (new_run owner_iid req_id prompt req) r.(cols) /\
    Hold owner_iid req_id ∈ d.(events) /\
    (req.(ReqTaskRunStart.req_id) <> "" -> req_id = req.(ReqTaskRunStart.req_id)) /\
    (req.(ReqTaskRunStart.prompt) <> "" -> prompt = req.(ReqTaskRunStart.prompt)).
Lemma run_of_stays owner_iid req id d d' :
  evolves d d' -> run_of owner_iid req id d -> run_of owner_iid req id d'.
Proof.
  intros He (r & rid & pr & E & Hk & Hh & Hr & Hp).
  destruct (run_stays _ _ _ _ He E) as (r' & E' & Hk'). exists r', rid, pr.
  split_and!; try done; [by etransitivity|by eapply event_stays].
Qed.

Lemma insert_ok id c e w u w' : stmt (run_insert id c) e w = (Ok u, w') ->
  w.(db).(t_run) !! id = None /\
  exists now, w'.(db).(t_run) !! id = Some (new_row now c) /\
    forall ev, ev ∈ w.(db).(events) -> ev ∈ w'.(db).(events).
Proof.
  intros (now & E)%stmt_ok. apply result_bind_ok in E as (t & Ei & E). injection E as _ <-.
  unfold t_insert in Ei. destruct (_ !! id) eqn:En in Ei; [done|]. injection Ei as <-.
  split; [eapply run_absent; [apply Hothers|exact En]|]. exists now. cbn.
  split; [by rewrite lookup_insert_eq|]. intros ev. apply event_stays, Hothers.
Qed.

Lemma is_empty_ne s : is_empty s = false <-> s <> "".
Proof. unfold is_empty. destruct (String.eqb_spec s ""); split; congruence. Qed.
Lemma start_prompt_ok owner_iid req e w prompt w' :
  start_prompt owner_iid req e w = (Ok prompt, w') ->
  req.(ReqTaskRunStart.prompt) <> "" -> prompt = req.(ReqTaskRunStart.prompt).
Proof.
  intros E Hne. unfold start_prompt in E. apply is_empty_ne in Hne. rewrite Hne in E.
  by apply ret_ok in E as [-> _].
Qed.

Lemma start_core_ok nats owner_iid req e w id w' :
  task_run_start_core nats owner_iid req e w = (Ok id, w') ->
  0 < req.(ReqTaskRunStart.device_iid) /\
  w.(db).(t_run) !! id = None /\ run_of owner_iid req id w'.(db).
Proof.
  intros E. unfold task_run_start_core in E.
  destruct (Z.leb_spec req.(ReqTaskRunStart.device_iid) 0) as [|Hdev]; [done|].
  apply bind_ok in E as (rid & w1 & E1 & E). evolve E1 as K1.
  assert (req.(ReqTaskRunStart.req_id) <> "" -> rid = req.(ReqTaskRunStart.req_id)) as Hrid.
  { intros Hne%is_empty_ne. rewrite Hne in E1. by apply ret_ok in E1 as [-> _]. }
  apply bind_ok in E as (row & w2 & E2 & E). evolve E2 as K2.
  apply bind_ok in E as (u3 & w3 & E3 & E). evolve E3 as K3.
  apply bind_ok in E as (u4 & w4 & E4 & E). evolve E4 as K4.
  apply bind_ok in E as (prompt & w5 & E5 & E). evolve E5 as K5.
  apply bind_ok in E as (i & w6 & E6 & E). evolve E6 as K6.
  cbv zeta in E. apply bind_ok in E as ([] & w7 & E7 & E). evolve E as K8.
  apply insert_ok in E7 as (Hn & now & Hr & Hin).
  assert (id = to_i64 i) as ->.
  { apply bind_ok in E as (? & ? & _ & E). apply bind_ok in E as (? & ? & _ & E).
    apply bind_ok in E as (? & ? & _ & E). apply bind_ok in E as (? & ? & _ & E).
    by apply ret_ok in E as [-> _]. }
  assert (evolves w.(db) w6.(db)) as K by (repeat (etransitivity; [eassumption|]); reflexivity).
  split; [done|]. split; [by eapply run_absent|].
  apply (run_of_stays _ _ _ w7.(db)); [done|]. exists (new_row now (new_run owner_iid rid prompt req)).
  exists rid, prompt. split_and!; [done|reflexivity| |done|by eapply start_prompt_ok].
  apply Hin. apply (event_stays _ w4.(db)); [by etransitivity|].
  injection E4 as _ <-. cbn. apply elem_of_app. right. by left.
Qed.

Lemma get_ok owner_iid id e w run w' :
  task_run_get owner_iid id e w = (Ok (Some run), w') ->
  exists r, w'.(db).(t_run) !! id = Some r /\ live r = true /\
    r.(cols).(RunRow.owner_iid) = owner_iid /\ run = row_to_task_run id r.
Proof.
  intros E. unfold task_run_get, unwrap_or, attempt in E.
  apply bind_ok in E as (x & w1 & E1 & E). apply ret_ok in E as [Ex ->].
  match type of E1 with context [read ?f] => destruct (read f e w) as [[o|er] w2] eqn:Er end;
    injection E1 as <- <-; [|done]. subst o.
  apply read_ok in Er as (Ed & now & Eo). rewrite Ed. unfold t_get in Eo.
  destruct (_ !! id) as [r|] eqn:Hr in Eo; [|done]. destruct (live r) eqn:Hl; [|done].
  destruct (Z.eqb_spec r.(cols).(RunRow.owner_iid) owner_iid); [|done].
  injection Eo as ->. exists r. by rewrite Hr.
Qed.

Lemma run_status_row id r : run_status (row_to_task_run id r) = status_from_db r.(cols).(RunRow.status).
Proof. exact (try_from_or_to _ _). Qed.
Lemma status_from_done s : status_from_db s = TaskRunStatus.Done -> s = "done".
Proof.
  unfold status_from_db. do 3 (case_match; [done|]).
  destruct (String.eqb_spec s "done"); [done|]. by repeat case_match.
Qed.

(** The run has ended. *)
Definition run_ended (id : Z) (d : Tasks) : Prop :=
  exists r, d.(t_run) !! id = Some r /\ is_Some r.(cols).(RunRow.finished_ts).
Lemma run_ended_stays id d d' : evolves d d' -> run_ended id d -> run_ended id d'.
Proof.
  intros He (r & E & Hf). destruct (run_stays _ _ _ _ He E) as (r' & E' & Hk). exists r'.
  split; [done|]. by apply Hk.
Qed.

Lemma wait_child_done polls owner_iid id e w w' :
  tasks_wf w.(db) -> wait_child polls owner_iid id e w = (Ok TaskRunStatus.Done, w') ->
  run_ended id w'.(db).
Proof.
  revert w. induction polls as [|polls IH]; intros w Hw E; [done|]. cbn [wait_child] in E.
  apply bind_ok in E as (run & w1 & E1 & E). pose proof E1 as Eg. evolve E1 as K1.
  assert (tasks_wf w1.(db)) as Hw1 by by eapply evolves_wf.
  destruct run as [run|]; [|by eapply IH].
  change (run_status <$> Some run) with (Some (run_status run)) in E.
  destruct (run_status run) eqn:Es; try (by eapply IH); try (by apply ret_ok in E as [? _]).
  apply ret_ok in E as [_ ->]. apply get_ok in Eg as (r & Er & _ & _ & ->).
  rewrite run_status_row in Es. apply status_from_done in Es. exists r. split; [done|].
  destruct Hw1 as [Hr _]. destruct (Hr _ _ Er) as [(Hq & _)|[[Hq _]|[_ Hf]]]; [..|done];
    by rewrite Es in Hq.
Qed.

(** ** Waiting for children *)

Lemma choose_perm {A} (P : A -> bool) i l a rest :
  choose P i l = Some (a, rest) -> l ≡ₚ a :: rest /\ P a = true.
Proof.
  unfold choose. set (ks := filter _ _). destruct (ks !! _) as [k|] eqn:Ek; [|done].
  apply list_elem_of_lookup_2, list_elem_of_filter in Ek as [HP _].
  destruct (l !! k) as [b|] eqn:Eb; [|done]. intros [= <- <-]. split; [|done].
  by apply delete_Permutation.
Qed.
Lemma choose_none {A} (i : nat) (l : list A) : choose (fun _ => true) i l = None -> l = [].
Proof.
  unfold choose. intros E. destruct l as [|a l]; [done|]. exfalso. revert E.
  set (ks := filter _ _).
  assert (ks = seq 0 (length (a :: l))) as ->.
  { unfold ks. apply filter_all, list.Forall_forall. intros k Hk%elem_of_seq.
    destruct (lookup_lt_is_Some_2 (a :: l) k) as [b ->]; [lia|done]. }
  rewrite length_seq. set (k := (i mod length (a :: l))%nat).
  assert (k < length (a :: l))%nat as Hk by (apply Nat.mod_upper_bound; done).
  rewrite lookup_seq_lt by done. cbn [Nat.add].
  destruct (lookup_lt_is_Some_2 (a :: l) k Hk) as [b ->]. done.
Qed.

Context `{!Instants} `{!Scheduler}.
Context (owner_iid : Z) (p : Plan) (parent_run_id : Z) (parent : TaskRun).

(** Chunk [idx] has a child run, started as the orchestrator asked. *)
Definition child (idx id : Z) (d : Tasks) : Prop :=
  exists prompt, chunk_prompt p idx = Ok prompt /\
    run_of owner_iid (chunk_req p parent_run_id parent idx prompt) id d.
(** A task of the set waits for the child of chunk [e.1], or has seen it end. *)
Definition waits (d : Tasks) (e : Z * (Z + TaskRunStatus)) : Prop :=
  match e.2 with
  | inl id => child e.1 id d
  | inr st => exists id, child e.1 id d /\ (st = TaskRunStatus.Done -> run_ended id d)
  end.
Definition set_ok (d : Tasks) (idxs : list Z) (set : list (Z + TaskRunStatus)) : Prop :=
  exists es, es.*2 = set /\ es.*1 ≡ₚ idxs /\ Forall (waits d) es.
(** Chunk [idx] was done by a child that ended. *)
Definition chunk_done (d : Tasks) (idx : Z) : Prop := exists id, child idx id d /\ run_ended id d.

Lemma child_stays idx id d d' : evolves d d' -> child idx id d -> child idx id d'.
Proof. intros He (pr & Hp & Hr). exists pr. split; [done|]. by eapply run_of_stays. Qed.
Lemma chunk_done_stays idx d d' : evolves d d' -> chunk_done d idx -> chunk_done d' idx.
Proof.
  intros He (id & Hc & Hr). exists id. split; [by eapply child_stays|by eapply run_ended_stays].
Qed.
Lemma waits_stays e d d' : evolves d d' -> waits d e -> waits d' e.
Proof.
  intros He. destruct e as [idx [id|st]]; [by apply child_stays|].
  intros (id & Hc & Hd). exists id. split; [by eapply child_stays|].
  intros Hst. eapply run_ended_stays; eauto.
Qed.
Lemma set_ok_stays idxs set d d' : evolves d d' -> set_ok d idxs set -> set_ok d' idxs set.
Proof.
  intros He (es & E & Hi & Hw). exists es. split_and!; [done..|].
  eapply List.Forall_impl; [|exact Hw]. intros x. by apply waits_stays.
Qed.

(** Taking a task out of the set *)
Lemma set_ok_choose d idxs set P i x rest :
  set_ok d idxs set -> choose P i set = Some (x, rest) ->
  exists idx idxs', idxs ≡ₚ idx :: idxs' /\ waits d (idx, x) /\ set_ok d idxs' rest.
Proof.
  intros (es & E & Hi & Hw) [Hp _]%choose_perm. rewrite <- E in Hp. symmetry in Hp.
  apply Permutation_map_inv in Hp as (es' & Ees & Hp).
  destruct es' as [|[idx y] es']; [done|]. cbn in Ees. injection Ees as -> ->.
  rewrite Hp in Hw. apply Forall_cons_iff in Hw as [Hy Hw]. exists idx, es'.*1.
  split_and!; [by rewrite <- Hi, Hp|done|]. by exists es'.
Qed.

#[local] Opaque wait_child.
Lemma wait_terminal_done id e w st w' :
  tasks_wf w.(db) -> wait_child_terminal owner_iid id e w = (Ok st, w') ->
  st = TaskRunStatus.Done -> run_ended id w'.(db).
Proof.
  intros Hw E ->. unfold wait_child_terminal in E. exact (wait_child_done _ _ _ _ _ _ Hw E).
Qed.
#[local] Opaque wait_child_terminal.

Lemma acquire_ok permits idxs set e w set' w' :
  acquire (wait_child_terminal owner_iid) permits set e w = (Ok set', w') ->
  tasks_wf w.(db) -> set_ok w.(db) idxs set -> set_ok w'.(db) idxs set'.
Proof.
  intros E Hw Hs. pose proof E as Ev. evolve Ev as K. unfold acquire in E.
  case_match; [by apply ret_ok in E as [-> ->]|].
  apply bind_ok in E as (i & w1 & E1 & E). evolve E1 as K1.
  destruct (choose running i set) as [[[id|st] rest]|] eqn:Ec;
    [|by apply ret_ok in E as [-> ->]; eapply set_ok_stays..].
  destruct (set_ok_choose _ _ _ _ _ _ _ Hs Ec) as (idx & idxs' & Hi & Hc & (es & Ees & Hes & Hf)).
  apply bind_ok in E as (st & w2 & E2 & E). pose proof E2 as Es. evolve E2 as K2.
  apply ret_ok in E as [-> ->]. exists (es ++ [(idx, inr st)]). split_and!.
  - by rewrite fmap_app, Ees.
  - rewrite fmap_app, Hes, Hi. cbn. by rewrite Permutation_app_comm.
  - apply list.Forall_app. split.
    + eapply List.Forall_impl; [|exact Hf]. intros x. by apply waits_stays.
    + constructor; [|constructor]. exists id. split; [exact (child_stays _ _ _ _ K Hc)|].
      eapply (wait_terminal_done _ e w1); [by eapply evolves_wf|exact Es].
Qed.

Lemma fanout_chunk_ok nats started idxs set idx e w set' w' :
  fanout_chunk nats owner_iid parent_run_id started p parent set idx e w = (Ok set', w') ->
  tasks_wf w.(db) -> set_ok w.(db) idxs set -> set_ok w'.(db) (idxs ++ [idx]) set'.
Proof.
  intros E Hw Hs. unfold fanout_chunk in E.
  apply bind_ok in E as ([] & w1 & E1 & E). evolve E1 as K1.
  apply bind_ok in E as ([] & w2 & E2 & E). evolve E2 as K2.
  apply bind_ok in E as (prompt & w3 & E3 & E). injection E3 as Ep <-.
  apply bind_ok in E as (set3 & w4 & E4 & E). pose proof E4 as Ea. evolve E4 as K4.
  assert (evolves w.(db) w2.(db)) as K by by etransitivity.
  assert (set_ok w4.(db) idxs set3) as Hs4
    by (eapply acquire_ok; [exact Ea|by eapply evolves_wf|by eapply set_ok_stays]).
  apply bind_ok in E as (id & w5 & E5 & E). pose proof E5 as Es. evolve E5 as K5.
  apply ret_ok in E as [-> ->]. apply start_core_ok in Es as (_ & _ & Hrun).
  destruct Hs4 as (es & Ees & Hi & Hf). exists (es ++ [(idx, inl id)]). split_and!.
  - by rewrite fmap_app, Ees.
  - by rewrite fmap_app, Hi.
  - apply list.Forall_app. split.
    + eapply List.Forall_impl; [|exact Hf]. intros x. by apply waits_stays.
    + constructor; [|constructor]. by exists prompt.
Qed.

Lemma join_next_ok idxs set e w st rest w' :
  join_next (wait_child_terminal owner_iid) set e w = (Ok (Some (st, rest)), w') ->
  tasks_wf w.(db) -> set_ok w.(db) idxs set ->
  exists idx idxs', idxs ≡ₚ idx :: idxs' /\ set_ok w'.(db) idxs' rest /\
    S (length rest) = length set /\ (st = TaskRunStatus.Done -> chunk_done w'.(db) idx).
Proof.
  intros E Hw Hs. unfold join_next in E. apply bind_ok in E as (i & w1 & E1 & E). evolve E1 as K1.
  destruct (choose _ i set) as [[[id|st'] rest']|] eqn:Ec; [| |by apply ret_ok in E as [? _]];
    destruct (set_ok_choose _ _ _ _ _ _ _ Hs Ec) as (idx & idxs' & Hi & Hc & Hr);
    apply choose_perm in Ec as [Hl%Permutation_length _]; exists idx, idxs'.
  - apply bind_ok in E as (st1 & w2 & E2 & E). pose proof E2 as Es. evolve E2 as K2.
    apply ret_ok in E as [[= -> ->] ->].
    split_and!; [done|eapply set_ok_stays; [|done]; by etransitivity|done|].
    intros Hst. exists id. split; [refine (child_stays _ _ _ _ _ Hc); by etransitivity|].
    eapply (wait_terminal_done _ e w1); [by eapply evolves_wf|exact Es|done].
  - apply ret_ok in E as [[= -> ->] ->].
    split_and!; [done|by eapply set_ok_stays|done|]. intros Hst. destruct Hc as (id & Hc & Hd).
    exists id. split; [by eapply child_stays|]. eapply run_ended_stays; [done|by apply Hd].
Qed.

(** What the orchestrator counted when all tasks of its set have ended *)
Lemma join_all_ok n idxs set counts e w counts' w' :
  join_all (wait_child_terminal owner_iid) (fanout_joined parent_run_id p) n counts set e w
    = (Ok counts', w') ->
  tasks_wf w.(db) -> set_ok w.(db) idxs set -> n = length set ->
  0 <= counts.1 -> 0 <= counts.2 -> counts.1 + Z.of_nat n < 2 ^ 63 -> counts.2 + Z.of_nat n < 2 ^ 63 ->
  counts'.1 = counts.1 + Z.of_nat n /\ counts.2 <= counts'.2 /\
  (counts'.2 = counts.2 -> Forall (chunk_done w'.(db)) idxs).
Proof.
  revert idxs set counts w. induction n as [|n IH]; intros idxs set [dn fl] w E Hw Hs Hn Hc1 Hc2 Hc3 Hc4.
  - cbn [join_all] in E. apply ret_ok in E as [-> ->]. 
    destruct Hs as (es & <- & Hi & _). cbn.
    split_and!; [lia|lia|]. intros _. destruct es; [|done]. cbn in Hi. apply Permutation_nil in Hi as ->.
    constructor.
  - cbn [join_all] in E. apply bind_ok in E as ([[st rest]|] & w1 & E1 & E); cycle 1.
    { exfalso. unfold join_next in E1. apply bind_ok in E1 as (i & w2 & _ & E1).
      destruct (choose _ i set) as [[[]]|] eqn:Ec; [| |apply choose_none in Ec as ->; done];
        [apply bind_ok in E1 as (? & ? & _ & E1)|]; by apply ret_ok in E1 as [? _]. }
    pose proof E1 as Ej. evolve E1 as K1.
    destruct (join_next_ok _ _ _ _ _ _ _ Ej Hw Hs) as (idx & idxs' & Hi & Hr & Hl & Hd).
    apply bind_ok in E as (counts1 & w2 & E2 & E). pose proof E2 as Eb. evolve E2 as K2.
    assert (respects evolves (join_all (wait_child_terminal owner_iid) (fanout_joined parent_run_id p)
      n counts1 rest)) as Kj by (apply keeps_join_all; intros; auto with keeps).
    pose proof (Kj _ _ _ _ E) as K3.
    unfold fanout_joined in Eb. apply bind_ok in Eb as ([] & w3 & _ & Eb).
    apply ret_ok in Eb as [-> ->]. cbn [fst snd] in *.
    assert ((dn + 1)%i64 = dn + 1) as Hdn by (apply to_i64_id; unfold in_i64; lia).
    assert (bool_decide (st = TaskRunStatus.Done) = false -> (fl + 1)%i64 = fl + 1) as Hfl
      by (intros _; apply to_i64_id; unfold in_i64; lia).
    rewrite Hdn in E.
    assert (evolves w.(db) w3.(db)) as K by by etransitivity.
    edestruct (IH idxs') as (Ha & Hb & Hc);
      [exact E|by eapply evolves_wf|exact (set_ok_stays _ _ _ _ K2 Hr)|lia|cbn; lia|cbn; case_bool_decide; lia
      |cbn; lia|cbn; case_bool_decide; lia|].
    cbn [fst snd] in Ha, Hb, Hc. split; [lia|].
    case_bool_decide as Hst; [|rewrite Hfl in Hb by done; split; [lia|intros ?; lia]].
    split; [done|]. intros Heq. rewrite Hi. constructor; [|by apply Hc].
    eapply chunk_done_stays; [|by apply Hd]. by etransitivity.
Qed.

End Start.

(** C33. An orchestrator has room for 10,000 chunks of at most 500 rows.  When
    one succeeds whose total does not reach the last 500 numbers of 64 bits, each of
    its first rows, all of them if they fit into 10,000 chunks and otherwise as many
    as do, lies in exactly one chunk, of at least one and at most [chunk_size] rows,
    and that chunk has a child run of the orchestrator's owner, device and message,
    started under a billing hold with the chunk's prompt, which has ended.  Rows
    beyond the 10,000th chunk have none, and the summary does not tell. *)
Theorem chunk_fanout_covers `{!Chrono} `{!SerdeJson} `{!Float} `{!Order} `{!Others Tasks}
    `{!Platform} `{!Instants} `{!Scheduler}
    nats owner_iid device_iid parent_run_id recipe started e w out w' :
  (forall n d, evolves d (others n d)) -> tasks_wf w.(db) ->
  (forall t, field_i64 "total" recipe = Some t -> in_i64 t /\ in_i64 (t + 500)) ->
  chunk_fanout_run nats owner_iid device_iid parent_run_id recipe started e w = (Ok out, w') ->
  exists p parent, fanout_plan device_iid recipe = Ok p /\ plan_wf p /\
    field_i64 "total" recipe = Some p.(Plan.total) /\
    (forall x, 0 <= x < Z.min p.(Plan.total) (10000 * p.(Plan.chunk_size)) ->
     exists i id, in_chunk p x i /\
       (forall j, in_chunk p x j -> j = i) /\
       1 <= chunk_limit p i <= p.(Plan.chunk_size) /\
       child owner_iid p parent_run_id parent i id w'.(db) /\ run_ended id w'.(db)) /\
    out.(RecipeOutcome.summary) = "Orchestrator finished: " +:+ pretty (num_chunks p) +:+ "/"
      +:+ pretty (num_chunks p) +:+ " chunks, " +:+ pretty 0 +:+ " failed".
Proof.
  intros Ho Hw Hin E. unfold chunk_fanout_run in E.
  apply bind_ok in E as ([] & w1 & E1 & E). evolve E1 as K1.
  apply bind_ok in E as (p & w2 & E2 & E). injection E2 as Ep <-.
  apply bind_ok in E as (o & w3 & E3 & E). evolve E3 as K3.
  apply bind_ok in E as (parent & w4 & E4 & E). injection E4 as _ <-.
  apply bind_ok in E as ([] & w5 & E5 & E). evolve E5 as K5.
  apply bind_ok in E as (set & w6 & E6 & E).
  assert (plan_wf p) as Hp by (eapply fanout_plan_wf; [exact Ep|]; intros t Ht; by apply Hin).
  assert (in_i64 (p.(Plan.total) + p.(Plan.chunk_size))) as Hsum.
  { revert Ep. unfold fanout_plan. destruct (field_i64 "total" recipe) as [t|]; [|done]. cbn.
    destruct (Hin t eq_refl) as [Ht Ht']. destruct (Z.ltb_spec 0 t) as [Hpos|]; [|done]. cbn.
    destruct (field_str "child_recipe" recipe); [|done]. intros [= <-].
    destruct Hp as (_ & _ & Hc & _). unfold in_i64 in *. cbn in *. lia. }
  assert (evolves w.(db) w5.(db)) as K by (do 2 (etransitivity; [eassumption|]); done).
  pose proof (num_chunks_bounds p Hp Hsum) as [[Hn1 Hn2] _]. unfold MAX_CHUNKS in Hn2.
  assert (tasks_wf w6.(db) /\ set_ok owner_iid p parent_run_id parent w6.(db) (seqZ 0 (num_chunks p)) set)
    as [Hw6 Hs6].
  { refine (runs_foldM _ _ _ (fun pre set d => tasks_wf d /\
      set_ok owner_iid p parent_run_id parent d pre set) _ _ _ _ _ E6 _); cycle 1.
    - split; [by eapply evolves_wf|]. by exists [].
    - intros pre x suf a _ e0 v a' v' Ec [Hwf Hs]. split.
      + pose proof Ec as Kc. evolve Kc as Kv. by eapply evolves_wf.
      + by eapply fanout_chunk_ok. }
  assert (length set = Z.to_nat (num_chunks p)) as Hlen.
  { destruct Hs6 as (es & <- & Hi & _). apply Permutation_length in Hi.
    rewrite length_seqZ in Hi. by rewrite <- Hi, !length_fmap. }
  apply bind_ok in E as ([dn fl] & w7 & E7 & E).
  destruct (join_all_ok Ho _ _ _ _ _ _ _ _ _ _ _ _ E7 Hw6 Hs6 eq_refl) as (Hd & Hf & Hall);
    [cbn; lia..|]. cbn [fst snd] in *.
  destruct (Z.ltb_spec 0 fl) as [|Hfl]; [done|]. apply ret_ok in E as [-> ->].
  assert (fl = 0) as -> by lia. specialize (Hall eq_refl). rewrite Forall_forall in Hall.
  exists p, parent. split_and!; [done|done| | |].
  { revert Ep. unfold fanout_plan. destruct (field_i64 "total" recipe) as [t|]; [|done]. cbn.
    destruct (0 <? t); [|done]. cbn. destruct (field_str "child_recipe" recipe); [|done]. by intros [= <-]. }
  - change 10000 with MAX_CHUNKS. fold (covered p). intros x Hx. pose proof (in_chunk_iff p Hp Hsum) as Hiff.
    assert (in_chunk p x (x / p.(Plan.chunk_size))) as Hin' by by apply Hiff.
    destruct (Hall (x / p.(Plan.chunk_size))) as (id & Hc & Hr).
    { apply list_elem_of_In, elem_of_seqZ. destruct Hin' as [Hi _]. lia. }
    exists (x / p.(Plan.chunk_size)), id. split_and!; try done.
    + intros j Hj. by apply Hiff in Hj as [_ ->].
    + apply chunk_bounds; [done..|apply Hin'].
    + apply chunk_bounds; [done..|apply Hin'].
  - cbn. assert (dn = num_chunks p) as -> by lia. done.
Qed.

(** ** The prompt of a child *)

Section Prompt.
Context `{!SerdeJson}.

Lemma get_map_insert k k' v l :
  get k (Object (map_insert k' v l)) = if String.eqb k k' then Some v else get k (Object l).
Proof. apply assoc_map_insert. Qed.
Lemma recipe_of_printed v : from_str (to_string v) = Some v -> recipe_of (to_string v) = v.
Proof. unfold recipe_of. by intros ->. Qed.
Lemma entry_object_get k m o : entry_object k m = Some o -> default (Object []) (assoc k m) = Object o.
Proof. unfold entry_object. by destruct (default _ _); intros [= ->]. Qed.

(** The prompt an orchestrator gives a child names the child's
    recipe, keeps the parameters it was given, and tells the chunk: the shell
    recipe reads its offset and limit back from it, and the sheet recipe its
    first row, moved by the offset, and its limit of rows.  A recipe of another
    name gets no prompt.  (Where the printed prompt is read back as it was.) *)
Theorem child_prompt_tells child_recipe child_params offset limit s :
  in_i64 offset -> in_i64 limit ->
  build_child_prompt child_recipe child_params offset limit = Ok s ->
  (forall v, s = to_string v -> from_str s = Some v) ->
  let params := match child_params with Object m => child_params | _ => Object [] end in
  let recipe := recipe_of s in
  recipe_name recipe = child_recipe /\
  ((child_recipe = "data.shell_chunk" /\
    field_i64 "offset" recipe = Some offset /\ field_i64 "limit" recipe = Some limit /\
    forall k, k ∉ ["recipe"; "offset"; "limit"] -> get k recipe = get k params) \/
   (child_recipe = "browser.sheet_row_backfill" /\
    (get "sheet" recipe ≫= field_i64 "from_row") =
      Some (default 3 (get "sheet" params ≫= field_i64 "from_row") + offset)%i64 /\
    (get "limits" recipe ≫= field_i64 "max_rows_per_run") = Some limit /\
    forall k, k ∉ ["recipe"; "sheet"; "limits"] -> get k recipe = get k params)).
Proof.
  intros Ho Hl E Hread. cbv zeta. unfold build_child_prompt in E.
  set (obj := match child_params with Object m => m | _ => [] end) in E.
  assert (match child_params with Object m => child_params | _ => Object [] end = Object obj) as ->
    by by destruct child_params.
  unfold recipe_name, field_i64, field_str in *.
  destruct (String.eqb_spec child_recipe "browser.sheet_row_backfill") as [->|Hne].
  - apply result_bind_ok in E as (sheet & Es & E). apply result_bind_ok in E as (limits & El & E).
    injection E as <-. rewrite recipe_of_printed by by apply Hread.
    destruct (entry_object "sheet" _) as [sh|] eqn:Esh; [|done]. injection Es as ->.
    destruct (entry_object "limits" _) as [li|] eqn:Eli; [|done]. injection El as ->.
    apply entry_object_get in Esh. rewrite assoc_map_insert in Esh. cbn in Esh.
    split; [by rewrite !get_map_insert|]. right. split; [done|]. split_and!.
    + rewrite !get_map_insert. cbn [String.eqb Ascii.eqb Bool.eqb]. cbn [mbind option_bind].
      rewrite get_map_insert, String.eqb_refl. cbn [mbind option_bind].
      rewrite json_int_as_i64 by apply to_i64_in. do 2 f_equal.
      change (get "sheet" (Object obj)) with (assoc "sheet" obj).
      destruct (assoc "sheet" obj) as [v|]; cbn in Esh |- *; [by rewrite Esh|by injection Esh as <-].
    + rewrite get_map_insert, String.eqb_refl. cbn [mbind option_bind].
      rewrite get_map_insert, String.eqb_refl. by apply json_int_as_i64.
    + intros k Hk. rewrite !get_map_insert. rewrite !not_elem_of_cons in Hk.
      destruct Hk as (Hk1 & Hk2 & Hk3 & _).
      by rewrite !(proj2 (String.eqb_neq _ _)) by done.
  - destruct (String.eqb_spec child_recipe "data.shell_chunk") as [->|]; [|done]. injection E as <-.
    rewrite recipe_of_printed by by apply Hread. split; [by rewrite !get_map_insert|]. left. split; [done|]. split_and!.
    + rewrite !get_map_insert. cbn. by apply json_int_as_i64.
    + rewrite get_map_insert. cbn. by apply json_int_as_i64.
    + intros k Hk. rewrite !get_map_insert. rewrite !not_elem_of_cons in Hk.
      destruct Hk as (Hk1 & Hk2 & Hk3 & _).
      by rewrite !(proj2 (String.eqb_neq _ _)) by done.
Qed.
End Prompt.

(** ** Running side by side *)

Section Parallel.
Context `{!Chrono} `{!SerdeJson} `{!Float} `{!Order} `{!Others Tasks} `{!Platform}.
Context `{!Instants} `{!Scheduler}.

Definition n_running {T R} (set : list (T + R)) : Z :=
  Z.of_nat (length (filter (fun t => running t = true) set)).
Lemma n_running_perm {T R} (a b : list (T + R)) : a ≡ₚ b -> n_running a = n_running b.
Proof. intros E. unfold n_running. f_equal. by rewrite E. Qed.
Lemma n_running_snoc {T R} (a : list (T + R)) x :
  n_running (a ++ [x]) = n_running a + (if running x then 1 else 0).
Proof.
  unfold n_running. rewrite list.filter_app, length_app.
  destruct (running x) eqn:E; [rewrite filter_cons_True by done|rewrite filter_cons_False by congruence];
    rewrite filter_nil; cbn; lia.
Qed.

Lemma choose_some {A} (P : A -> bool) i (l : list A) :
  (exists x, x ∈ l /\ P x = true) -> is_Some (choose P i l).
Proof.
  intros (x & [k Hk]%list_elem_of_lookup & HP). unfold choose. set (ks := filter _ _).
  assert (k ∈ ks) as Hin.
  { apply list_elem_of_filter. rewrite Hk. split; [done|]. apply elem_of_seq.
    apply lookup_lt_Some in Hk. lia. }
  assert (0 < length ks)%nat as Hlen by (destruct ks; [by apply not_elem_of_nil in Hin|cbn; lia]).
  assert (i mod length ks < length ks)%nat as Hlt by (apply Nat.mod_upper_bound; lia).
  destruct (lookup_lt_is_Some_2 ks _ Hlt) as [j Hj]. rewrite Hj.
  apply list_elem_of_lookup_2, list_elem_of_filter in Hj as [Hj _]. destruct (l !! j); eauto. done.
Qed.

Lemma acquire_permit {T R} (run : T -> M Tasks R) permits set e w set' w' :
  1 <= permits -> n_running set <= permits ->
  acquire run permits set e w = (Ok set', w') -> n_running set' < permits.
Proof.
  intros Hp Hn E. unfold acquire in E. fold (n_running set) in E.
  destruct (Z.ltb_spec (n_running set) permits) as [|Hfull]; [by apply ret_ok in E as [-> _]|].
  apply bind_ok in E as (i & w1 & _ & E).
  destruct (choose_some running i set) as [[[t|r] rest] Ec].
  { unfold n_running in Hfull. destruct (filter _ set) as [|x l] eqn:Ef; [cbn in Hfull; lia|].
    exists x. assert (x ∈ filter (fun t => running t = true) set) as Hx by (rewrite Ef; by left).
    by apply list_elem_of_filter in Hx as [? ?]. }
  - rewrite Ec in E. apply bind_ok in E as (r & w2 & _ & E). apply ret_ok in E as [-> _].
    apply choose_perm in Ec as [Hperm _]. rewrite n_running_snoc. cbn [running].
    rewrite (n_running_perm _ _ Hperm) in Hn, Hfull. unfold n_running in *.
    rewrite (filter_cons_True _ (inl t)) in Hn, Hfull by done. cbn [length] in *. lia.
  - by apply choose_perm in Ec as [_ Hr].
Qed.

Lemma spawn_rows_running owner_iid device_iid run_id started parallel recipe tab_id work set e w set' w' :
  1 <= parallel -> n_running set <= parallel ->
  spawn_rows owner_iid device_iid run_id started parallel recipe tab_id work set e w = (Ok set', w') ->
  n_running set' <= parallel.
Proof.
  intros Hp. revert set w. induction work as [|x work IH]; intros set w Hn E; cbn [spawn_rows] in E.
  - by apply ret_ok in E as [-> _].
  - apply bind_ok in E as (u & w1 & _ & E). apply bind_ok in E as (ms & w2 & _ & E).
    case_match; [by apply ret_ok in E as [-> _]|]. apply bind_ok in E as (set1 & w3 & E3 & E).
    apply acquire_permit in E3; [|done..]. eapply IH; [|exact E]. rewrite n_running_snoc. cbn. lia.
Qed.

(** However many chunks or rows there are, an orchestrator
    waits for at most as many children at a time as its recipe says, and never
    more than five; a sheet recipe has at most as many rows in the browser, and
    never more than ten. *)
Theorem recipes_parallel :
  (forall nats owner_iid parent_run_id started device_iid recipe p parent set idx e w set' w',
     fanout_plan device_iid recipe = Ok p ->
     n_running set <= p.(Plan.parallel_children) ->
     fanout_chunk nats owner_iid parent_run_id started p parent set idx e w = (Ok set', w') ->
     n_running set' <= p.(Plan.parallel_children) <= 5) /\
  (forall owner_iid device_iid run_id started recipe tab_id work e w set' w',
     let parallel := clamp (default 1 (field_i64 "parallel" recipe)) 1 MAX_PARALLEL_CAP in
     spawn_rows owner_iid device_iid run_id started parallel recipe tab_id work [] e w = (Ok set', w') ->
     n_running set' <= parallel <= 10).
Proof.
  split.
  - intros nats owner_iid parent_run_id started device_iid recipe p parent set idx e w set' w' Ep Hn E.
    assert (1 <= p.(Plan.parallel_children) <= 5) as Hp.
    { unfold fanout_plan in Ep. apply result_bind_ok in Ep as (t & _ & Ep).
      apply result_bind_ok in Ep as (c & _ & Ep). injection Ep as <-. cbn.
      apply (clamp_range _ 1 5). lia. }
    split; [|lia]. unfold fanout_chunk in E.
    apply bind_ok in E as (u1 & w1 & _ & E). apply bind_ok in E as (u2 & w2 & _ & E).
    apply bind_ok in E as (pr & w3 & _ & E). apply bind_ok in E as (set1 & w4 & E4 & E).
    apply bind_ok in E as (id & w5 & _ & E). apply ret_ok in E as [-> _].
    apply acquire_permit in E4; [|lia|done]. rewrite n_running_snoc. cbn. lia.
  - intros owner_iid device_iid run_id started recipe tab_id work e w set' w' parallel E.
    assert (1 <= parallel <= 10) as Hp by (apply (clamp_range _ 1 10); lia).
    split; [|lia]. eapply spawn_rows_running; [lia| |exact E]. unfold n_running. cbn. lia.
Qed.
End Parallel.
