(* ===== verification/TaskStart.v ===== *)
(** * Starting runs, by request and by schedule *)
From stdpp Require Import sorting pretty.
From S2P Require Import Prelude Strs Ts TxProto World Json Db Shared TaskData TaskStore TaskApi.
From S2P Require Import TaskWorker TaskSteps TaskServe TaskFanout.

Section StartProps.
Context `{!Chrono} `{!SerdeJson} `{!Float} `{!Order} `{!Others Tasks} `{!Platform}.

(** C34. A run that was started is a new row with the owner, device,
    task, chat, parent and message of the request and its prompt and request
    number, if it has them; the device was named and billing let the request
    pass before.  The answer is that run, of that owner. *)
Theorem task_run_start_spec nats owner_iid req e w run w' :
  (forall n d, evolves d (others n d)) ->
  task_run_start_rpc nats owner_iid req e w = (Ok run, w') ->
  0 < req.(ReqTaskRunStart.device_iid) /\
  w.(db).(t_run) !! run.(TaskRun.id) = None /\
  run_of owner_iid req run.(TaskRun.id) w'.(db) /\
  run.(TaskRun.owner_iid) = owner_iid /\
  run.(TaskRun.device_iid) = req.(ReqTaskRunStart.device_iid) /\
  run.(TaskRun.parent_run_id) = req.(ReqTaskRunStart.parent_run_id) /\
  (req.(ReqTaskRunStart.prompt) <> "" -> run.(TaskRun.prompt) = req.(ReqTaskRunStart.prompt)).
Proof.
  intros Ho E. unfold task_run_start_rpc in E. apply bind_ok in E as (id & w1 & E1 & E).
  apply start_core_ok in E1 as (Hd & Hn & Hr); [|done].
  apply bind_ok in E as (o & w2 & E2 & E). injection E as Eo <-.
  destruct o as [run0|]; [|done]. injection Eo as ->.
  pose proof E2 as Eg. evolve E2 as K2. apply get_ok in Eg as (r & Er & _ & Hown & ->).
  apply (run_of_stays _ _ _ _ _ K2) in Hr. split_and!; try done.
  all: destruct Hr as (r' & rid & pr & Er' & Hk & _ & _ & Hp); assert (r' = r) as -> by congruence.
  - by apply Hk.
  - by apply Hk.
  - intros Hne. rewrite <- (Hp Hne). by apply Hk.
Qed.
End StartProps.

(** ** A schedule that fires *)

Section Fire.
Context `{!Chrono} `{!SerdeJson} `{!Float} `{!Order} `{!Others Tasks} `{!Platform}.
Context (P : RunRow -> Prop) (HP : forall c c', P c -> run_kept c c' -> P c').
Context (Halone : forall n d, others n d = d).

(** Tasks and triggers are as they were, and every new run is one of [P]. *)
Definition only_runs (d d' : Tasks) : Prop :=
  evolves d d' /\ d'.(t_task) = d.(t_task) /\ d'.(t_trigger) = d.(t_trigger) /\
  forall id r', d'.(t_run) !! id = Some r' -> is_Some (d.(t_run) !! id) \/ P r'.(cols).
#[local] Instance only_runs_preorder : PreOrder only_runs.
Proof using HP.
  split.
  - intros d. split_and!; [reflexivity|done|done|eauto].
  - intros d1 d2 d3 (E12 & T12 & G12 & R12) (E23 & T23 & G23 & R23).
    split_and!; [by etransitivity|congruence|congruence|]. intros id r3 Hr3.
    destruct (R23 _ _ Hr3) as [[r2 Hr2]|]; [|by right].
    destruct (R12 _ _ Hr2) as [|Hp]; [by left|]. right.
    destruct (run_stays _ _ _ _ E23 Hr2) as (r3' & Hr3' & Hk).
    assert (r3' = r3) as -> by congruence. by eapply HP.
Qed.
Lemma evolve_alone n d : evolves d (others n d).
Proof using Halone. by rewrite Halone. Qed.

Notation starts := (respects only_runs).
End Fire.




