(* ===== verification/TaskCancel.v ===== *)
(** * Stopping the runs of a device *)
From stdpp Require Import sorting pretty.
From S2P Require Import Prelude Strs Ts TxProto World Json Db Shared TaskData TaskStore TaskApi.
From S2P Require Import TaskWorker TaskSteps TaskServe TaskFanout.

Section Cancel.
Context `{!Chrono} `{!SerdeJson} `{!Float} `{!Order} `{!Others Tasks} `{!Platform}.

(** Row [r] is queued, leased or running. *)
Definition is_active (r : Row RunRow) : bool :=
  bool_decide (r.(cols).(RunRow.status) ∈ ["queued"; "leased"; "running"]).
Lemma is_active_status r : is_active r = active_status r.(cols).(RunRow.status).
Proof.
  unfold is_active, active_status. case_bool_decide as Hs; symmetry.
  - rewrite !orb_true_iff, !String.eqb_eq. rewrite !elem_of_cons, elem_of_nil in Hs. tauto.
  - rewrite !orb_false_iff, !String.eqb_neq. rewrite !elem_of_cons, elem_of_nil in Hs. tauto.
Qed.
(** Row [r] was cancelled. *)
Definition cancelled_as (r r' : Row RunRow) : Prop :=
  is_active r = true /\ r'.(cols).(RunRow.status) = "cancelled" /\
  is_Some r'.(cols).(RunRow.finished_ts) /\ run_kept r.(cols) r'.(cols) /\
  r'.(deleted_ts) = r.(deleted_ts).

(** From [d] to [d'] nothing happened but that some active runs of [T] were
    cancelled. *)
Definition cancels (T : Z -> Prop) (d d' : Tasks) : Prop :=
  d'.(t_task) = d.(t_task) /\ d'.(t_trigger) = d.(t_trigger) /\
  forall id, d'.(t_run) !! id = d.(t_run) !! id \/
    (T id /\ exists r r', d.(t_run) !! id = Some r /\ d'.(t_run) !! id = Some r' /\ cancelled_as r r').
#[global] Instance cancels_preorder T : PreOrder (cancels T).
Proof.
  split.
  - intros d. split_and!; [done|done|]. intros id. by left.
  - intros d1 d2 d3 (T12 & G12 & R12) (T23 & G23 & R23). split_and!; [congruence|congruence|].
    intros id. destruct (R23 id) as [E23|(Hid & r2 & r3 & E2 & E3 & Hc)].
    + destruct (R12 id) as [E12|(Hid & r1 & r2 & E1 & E2 & Hc)]; [left; congruence|].
      right. split; [done|]. exists r1, r2. split_and!; [done|congruence|done].
    + destruct (R12 id) as [E12|(_ & r1 & r2' & E1 & E2' & (_ & Hs & _))].
      * right. split; [done|]. exists r2, r3. split_and!; [congruence|done|done].
      * assert (r2' = r2) as -> by congruence. destruct Hc as (Ha & _). rewrite is_active_status, Hs in Ha.
        done.
Qed.
Lemma cancels_mono (T T' : Z -> Prop) d d' : (forall id, T id -> T' id) -> cancels T d d' -> cancels T' d d'.
Proof.
  intros HT (Ht & Hg & Hr). split_and!; [done..|]. intros id.
  destruct (Hr id) as [|(Hid & Hx)]; [by left|right]. split; [by apply HT|done].
Qed.
(** A run that is not active stays so, and keeps what identifies it. *)
Definition stopped (id : Z) (d : Tasks) : Prop :=
  forall r, d.(t_run) !! id = Some r -> is_active r = false.
Lemma stopped_stays T id d d' : cancels T d d' -> stopped id d -> stopped id d'.
Proof.
  intros (_ & _ & Hr) Hs r E. destruct (Hr id) as [E'|(_ & r1 & r2 & E1 & E2 & (_ & Hc & _))].
  - apply Hs. by rewrite <- E'.
  - assert (r2 = r) as -> by congruence. rewrite is_active_status. by rewrite Hc.
Qed.
Lemma cancels_back T id d d' r' : cancels T d d' -> d'.(t_run) !! id = Some r' ->
  exists r, d.(t_run) !! id = Some r /\ run_kept r.(cols) r'.(cols) /\ r'.(deleted_ts) = r.(deleted_ts).
Proof.
  intros (_ & _ & Hr) E. destruct (Hr id) as [E'|(_ & r1 & r2 & E1 & E2 & Hc)].
  - exists r'. split_and!; [congruence|reflexivity|done].
  - exists r1. assert (r2 = r') as -> by congruence. by destruct Hc as (_ & _ & _ & ? & ?).
Qed.

(** Stopping never fails: every failure of a statement is swallowed. *)
Lemma total_signal id : total (task_run_cancel_signal id).
Proof. apply total_atomic. Qed.
Lemma total_tree nats owner_iid id : total (cancel_run_tree nats owner_iid id).
Proof.
  apply total_bind; [apply total_unwrap_or|]. intros children. apply total_forM. intros child.
  apply total_bind; [apply total_signal|]. intros _. apply total_bind; [apply total_ignore|].
  intros _. apply total_push_run.
Qed.
Lemma total_cancel_device nats owner_iid device_iid :
  total (task_run_cancel_device_rpc nats owner_iid device_iid).
Proof.
  apply total_bind; [apply total_unwrap_or|]. intros ids. apply total_bind; [|intros; apply total_ret].
  apply total_foldM. intros runs id. apply total_bind; [apply total_signal|]. intros _.
  apply total_bind; [apply total_tree|]. intros _. apply total_bind; [apply total_ignore|]. intros _.
  apply total_bind; [apply total_unwrap_or|]. intros []; [|apply total_ret].
  apply total_bind; [apply total_push|]. intros _. apply total_ret.
Qed.

Context (Halone : forall n d, others n d = d).

Lemma same_runs_cancels T {A} (f : Tasks -> A * Tasks) e w a w' :
  (forall d, (f d).2.(t_run) = d.(t_run) /\ (f d).2.(t_task) = d.(t_task) /\
     (f d).2.(t_trigger) = d.(t_trigger)) ->
  atomic f e w = (Ok a, w') -> cancels T w.(db) w'.(db).
Proof.
  intros Hf. unfold atomic. rewrite Halone. destruct (Hf w.(db)) as (E1 & E2 & E3).
  destruct (f w.(db)) as [b d]. intros [= <- <-]. cbn in *. split_and!; [done..|].
  intros id. left. by rewrite E1.
Qed.
Lemma emit_cancels T ev e w u w' : emit ev e w = (Ok u, w') -> cancels T w.(db) w'.(db).
Proof. by apply same_runs_cancels. Qed.
Lemma signal_cancels T id e w u w' :
  task_run_cancel_signal id e w = (Ok u, w') -> cancels T w.(db) w'.(db).
Proof. apply same_runs_cancels. intros d. cbn. by case_match. Qed.
Lemma get_same owner_iid id e w o w' :
  task_run_get owner_iid id e w = (Ok o, w') -> w'.(db) = w.(db).
Proof.
  intros E. unfold task_run_get, unwrap_or in E. apply bind_ok in E as (x & w1 & E1 & E).
  apply ret_ok in E as [_ ->]. rewrite attempt_run in E1. injection E1 as _ <-.
  match goal with |- context [read ?f e w] => destruct (read f e w) as [r w2] eqn:E end. cbn.
  unfold read in E. apply bind_cases in E as [(y & [=] & _)|([] & w3 & E3 & E)].
  injection E3 as <-. apply reads_query in E. rewrite E. apply Halone.
Qed.
Lemma push_run_cancels T nats owner_iid id e w u w' :
  push_run nats owner_iid id e w = (Ok u, w') -> cancels T w.(db) w'.(db).
Proof.
  intros E. apply bind_ok in E as (o & w1 & E1 & E). apply get_same in E1. rewrite <- E1.
  destruct o as [run|]; [|by apply ret_ok in E as [_ ->]]. unfold task_run_push in E.
  destruct nats; [by eapply emit_cancels|by apply ret_ok in E as [_ ->]].
Qed.

(** Marking a run, when its statement gets through *)
Lemma mark_ok id e w u w' :
  (forall n, e.(env_fault) n = false) ->
  task_run_mark_cancelled id e w = (Ok u, w') ->
  cancels (eq id) w.(db) w'.(db) /\ stopped id w'.(db).
Proof.
  intros Hf E. unfold task_run_mark_cancelled in E. rewrite ignore_run in E. injection E as _ <-.
  match goal with |- context [stmt ?f e w] => destruct (stmt_cases f e w) as (now & [Hs|Hs]) end;
    destruct Hs as (a & w1 & -> & Hs); rewrite Halone in Hs; cbn.
  { destruct Hs as (_ & [Hs|[=]]). by rewrite Hf in Hs. }
  injection Hs as _ Hs. rewrite <- Hs. cbn. split.
  - split_and!; [done..|]. intros k. cbn. destruct (decide (k = id)) as [->|Hk];
      [|left; by rewrite lookup_alter_ne].
    rewrite lookup_alter_eq. destruct (w.(db).(t_run) !! id) as [r|]; [|by left]. cbn.
    destruct (active_status r.(cols).(RunRow.status)) eqn:Ha; [|by left].
    right. split; [done|]. do 2 eexists. split_and!; [done|done|]. unfold cancelled_as, run_kept. rewrite is_active_status. cbn.
    split_and!; try done; eauto.
  - intros r. cbn. rewrite lookup_alter_eq. destruct (w.(db).(t_run) !! id) as [r0|]; [|done].
    intros [= <-]. rewrite is_active_status. by destruct (active_status r0.(cols).(RunRow.status)) eqn:Ha.
Qed.

(** A run without its name: [T] grows to what a tree may touch. *)
Definition in_tree (d : Tasks) (root id : Z) : Prop :=
  id = root \/ exists r, d.(t_run) !! id = Some r /\ r.(cols).(RunRow.parent_run_id) = root.

Lemma cancel_one_ok nats owner_iid id e w u w' :
  (forall n, e.(env_fault) n = false) ->
  cancel_one nats owner_iid id e w = (Ok u, w') -> cancels (eq id) w.(db) w'.(db).
Proof.
  intros Hf E. apply bind_ok in E as (u1 & w1 & E1 & E). apply bind_ok in E as (u2 & w2 & E2 & E).
  apply (signal_cancels (eq id)) in E1. apply mark_ok in E2 as [E2 _]; [|done].
  apply (push_run_cancels (eq id)) in E. etransitivity; [exact E1|]. by etransitivity.
Qed.

(** A query that is not disturbed returns what it selects. *)
Lemma read_runs {A} (d0 : A) (f : DateTime -> Tasks -> A) e w a w' :
  (forall n, e.(env_fault) n = false) ->
  unwrap_or d0 (read f) e w = (Ok a, w') -> w'.(db) = w.(db) /\ exists now, a = f now w.(db).
Proof.
  intros Hf E. apply bind_ok in E as (x & w1 & E1 & E). apply ret_ok in E as [-> ->].
  rewrite attempt_run in E1. injection E1 as <- <-.
  destruct (read f e w) as [r w2] eqn:E. cbn. destruct r as [a|y].
  - apply read_ok in E as (-> & now & ->). rewrite Halone. eauto.
  - exfalso. unfold read, interleave, mbind, M_bind, query, sql in E. cbn in E.
    destruct (txn_now w); cbn in E; by rewrite Hf in E.
Qed.

Lemma select_runs_elem P id d :
  id ∈ (select_runs P d).*1 <->
  exists r, d.(t_run) !! id = Some r /\ live r = true /\ P r.(cols) = true.
Proof.
  unfold select_runs. rewrite list_elem_of_fmap. split.
  - intros ([k r] & -> & Hr). apply selected_elem in Hr as [E Hp]. cbn in Hp. exists r.
    apply andb_true_iff in Hp as [Hl Hp]. by split_and!.
  - intros (r & E & Hl & Hp). exists (id, r). split; [done|]. apply selected_elem. cbn.
    by rewrite Hl, Hp.
Qed.

(** Cancelling a run with its children *)
Lemma tree_ok nats owner_iid id e w u w' :
  (forall n, e.(env_fault) n = false) ->
  cancel_run_tree nats owner_iid id e w = (Ok u, w') ->
  cancels (in_tree w.(db) id) w.(db) w'.(db).
Proof.
  intros Hf E. apply bind_ok in E as (children & w1 & E1 & E).
  apply read_runs in E1 as (Hd1 & now & ->); [|done]. rewrite <- Hd1.
  match type of E with forM_ ?l _ _ _ = _ => set (children := l) in * end.
  assert (forall k, k ∈ children -> in_tree w1.(db) id k) as Hin.
  { intros k (r & Er & _ & Hp)%select_runs_elem. right. exists r. rewrite Hd1. split; [done|].
    apply andb_true_iff in Hp as [Hp _]. lia. }
  refine (forM_ok _ _ (fun pre d => (forall k, k ∈ pre -> k ∈ children) ->
    cancels (in_tree w1.(db) id) w1.(db) d) _ _ _ _ _ E (fun _ => reflexivity _) (fun _ Hk => Hk)).
  intros pre x v u1 v1 IH Ec Hpre. apply cancel_one_ok in Ec; [|done].
  etransitivity; [apply IH; intros k Hk; apply Hpre; apply elem_of_app; by left|].
  eapply cancels_mono; [|exact Ec]. intros k <-. apply Hin, Hpre, elem_of_app. right. by left.
Qed.

Lemma device_run_ok nats owner_iid runs id e w runs' w' :
  (forall n, e.(env_fault) n = false) ->
  cancel_device_run nats owner_iid runs id e w = (Ok runs', w') ->
  cancels (in_tree w.(db) id) w.(db) w'.(db) /\ stopped id w'.(db) /\
  (runs' = runs \/ exists r, runs' = runs ++ [row_to_task_run id r] /\
     r.(cols).(RunRow.owner_iid) = owner_iid /\ is_active r = false).
Proof.
  intros Hf E. unfold cancel_device_run in E.
  apply bind_ok in E as (u1 & w1 & E1 & E). apply (signal_cancels (in_tree w.(db) id)) in E1.
  apply bind_ok in E as (u2 & w2 & E2 & E). apply tree_ok in E2; [|done].
  apply bind_ok in E as (u3 & w3 & E3 & E). apply mark_ok in E3 as [E3 Hs]; [|done].
  apply bind_ok in E as (o & w4 & E4 & E). pose proof (get_same _ _ _ _ _ _ E4) as Hd4.
  assert (cancels (in_tree w.(db) id) w.(db) w3.(db)) as K.
  { etransitivity; [exact E1|]. etransitivity.
    - eapply cancels_mono; [|exact E2]. intros k [->|(r & Er & Hp)]; [by left|]. right.
      destruct (cancels_back _ _ _ _ _ E1 Er) as (r0 & E0 & Hk & _). exists r0. split; [done|].
      rewrite <- Hp. symmetry. apply Hk.
    - eapply cancels_mono; [|exact E3]. intros k <-. by left. }
  rewrite <- Hd4 in K, Hs. destruct o as [run|].
  - apply bind_ok in E as (u5 & w5 & E5 & E). apply ret_ok in E as [-> ->].
    assert (cancels (in_tree w.(db) id) w4.(db) w5.(db)) as K5.
    { unfold task_run_push in E5. destruct nats; [by eapply emit_cancels|].
      by apply ret_ok in E5 as [_ ->]. }
    split_and!; [by etransitivity|by eapply stopped_stays|]. right.
    apply get_ok in E4 as (r & Er & _ & Hown & ->). exists r. split_and!; [done|done|]. by apply Hs.
  - apply ret_ok in E as [-> ->]. split_and!; [done|done|by left].
Qed.

(** The runs "Stop all" is about: live, active, of the owner on the device *)
Definition of_device (owner_iid device_iid : Z) (d : Tasks) (id : Z) : Prop :=
  exists r, d.(t_run) !! id = Some r /\ live r = true /\ is_active r = true /\
    r.(cols).(RunRow.owner_iid) = owner_iid /\ r.(cols).(RunRow.device_iid) = device_iid.
End Cancel.

(** C36. Stopping a device always answers, whatever fails and whoever acts.
    The answer says nothing of failures, which are swallowed.  If no statement
    fails and nobody else acts on the task tables meanwhile (no worker, which
    may end a run first, and no other request), it cancels
    every run of the caller that is queued, leased or running on the device, and
    nothing else but active children of those runs: tasks, triggers, ended runs
    and all other runs stay as they are, and a cancelled run keeps everything but
    its status, summary and end.  The answer counts the runs it lists, all of the
    caller and none active. *)
Theorem task_run_cancel_device_spec `{!Chrono} `{!SerdeJson} `{!Float} `{!Order} `{!Others Tasks}
    `{!Platform} nats owner_iid device_iid e w :
  exists n runs w', task_run_cancel_device_rpc nats owner_iid device_iid e w = (Ok (n, runs), w') /\
  ((forall n d, others n d = d) -> (forall n, e.(env_fault) n = false) ->
   n = to_i32 (Z.of_nat (length runs)) /\
   (forall run, run ∈ runs -> run.(TaskRun.owner_iid) = owner_iid /\
      exists r, run = row_to_task_run run.(TaskRun.id) r /\ is_active r = false) /\
   cancels (fun id => exists root, of_device owner_iid device_iid w.(db) root /\
      in_tree w.(db) root id) w.(db) w'.(db) /\
   forall id, of_device owner_iid device_iid w.(db) id -> exists r r',
     w.(db).(t_run) !! id = Some r /\ w'.(db).(t_run) !! id = Some r' /\ cancelled_as r r').
Proof.
  destruct (total_cancel_device nats owner_iid device_iid e w) as ([n runs] & w' & E).
  exists n, runs, w'. split; [exact E|]. intros Ha Hf. apply bind_ok in E as (ids & w1 & E1 & E).
  apply read_runs in E1 as (Hd1 & now & ->); [|done..]. rewrite <- Hd1.
  apply bind_ok in E as (runs0 & w2 & E2 & E). apply ret_ok in E as [[= -> ->] ->].
  split; [done|].
  match type of E2 with foldM _ _ ?l _ _ = _ => set (ids := l) in * end.
  assert (forall k, k ∈ ids <-> of_device owner_iid device_iid w1.(db) k) as Hids.
  { intros k. unfold ids, of_device. rewrite merge_sort_Permutation, select_runs_elem, Hd1.
    split; intros (r & Er & Hl & Hp); exists r; rewrite is_active_status in *;
      rewrite !andb_true_iff, !Z.eqb_eq in *; tauto. }
  set (T := fun id => exists root, of_device owner_iid device_iid w1.(db) root /\ in_tree w1.(db) root id).
  set (I := fun (pre : list Z) (rs : list TaskRun) d => (forall k, k ∈ pre -> k ∈ ids) ->
    cancels T w1.(db) d /\ (forall k, k ∈ pre -> stopped k d) /\
    (forall run, run ∈ rs -> run.(TaskRun.owner_iid) = owner_iid /\
       exists r, run = row_to_task_run run.(TaskRun.id) r /\ is_active r = false)).
  assert (I ids runs0 w2.(db)) as (Hc & Hs & Hr); [|done|].
  - refine (foldM_ok _ _ I _ _ _ _ _ _ E2 _); cycle 1.
    { intros _. split_and!; [reflexivity|..]; by intros k Hk%not_elem_of_nil. }
    intros pre x rs v rs1 v1 IH Ec Hpre.
    destruct IH as (Hc & Hs & Hr); [intros k Hk; apply Hpre, elem_of_app; by left|].
    assert (x ∈ ids) as Hx by (apply Hpre, elem_of_app; right; by left).
    apply device_run_ok in Ec as (Kc & Ks & Krs); [|done..]. split_and!.
    + etransitivity; [exact Hc|]. eapply cancels_mono; [|exact Kc]. intros k Hk. exists x.
      split; [by apply Hids|]. destruct Hk as [->|(r & Er & Hp)]; [by left|right].
      destruct (cancels_back _ _ _ _ _ Hc Er) as (r0 & E0 & Hkept & _). exists r0. split; [done|].
      rewrite <- Hp. symmetry. apply Hkept.
    + intros k [Hk|Hk]%elem_of_app; [by eapply stopped_stays; eauto|].
      by apply list_elem_of_singleton in Hk as ->.
    + destruct Krs as [->|(r & -> & Hown & Hact)]; [done|].
      intros run [Hk|Hk]%elem_of_app; [by apply Hr|].
      apply list_elem_of_singleton in Hk as ->. split; [done|]. by exists r.
  - split_and!; [done|done|].
    intros id Hid. pose proof Hid as (r & Er & Hl & Hact & _).
    destruct Hc as (_ & _ & Hc). destruct (Hc id) as [Eid|(_ & r1 & r2 & E1' & E2' & Hca)]; [|eauto 6].
    exfalso. rewrite Er in Eid. apply Hids in Hid. apply (Hs _ Hid) in Eid. congruence.
Qed.
