(* ===== verification/TaskSaved.v ===== *)
(** * Saving a task and listing it *)
From stdpp Require Import sorting.
From S2P Require Import Prelude Strs Ts TxProto World Json Db Shared TaskData TaskStore TaskApi.
From S2P Require Import TaskWorker TaskSteps TaskServe TaskFanout TaskCancel.

(** ** Attaching triggers *)

Section Attach.
Context `{!Chrono}.

Definition add_triggers (t : Task) (trs : list TaskTrigger) : Task :=
  {| t with Task.triggers := t.(Task.triggers) ++ trs |}.

Lemma push_trigger_eq tasks tid tr : NoDup (Task.id <$> tasks) ->
  push_trigger tasks tid tr
  = (fun t => if t.(Task.id) =? tid then add_triggers t [tr] else t) <$> tasks.
Proof.
  induction tasks as [|t tasks IH]; intros Hn; [done|]. rewrite fmap_cons in Hn.
  apply list.NoDup_cons in Hn as [Hni Hn]. cbn [push_trigger]. rewrite fmap_cons.
  destruct (Z.eqb_spec t.(Task.id) tid) as [E|]; [|by rewrite IH]. f_equal. symmetry.
  apply fmap_id_ext. intros t' Ht'. destruct (Z.eqb_spec t'.(Task.id) tid) as [E'|]; [|done].
  destruct Hni. apply list_elem_of_fmap. exists t'. split; [congruence|done].
Qed.

(** Each task gets the triggers that name it, in their order. *)
Lemma push_triggers_eq (rows : list (Z * Row TriggerRow)) tasks : NoDup (Task.id <$> tasks) ->
  foldl (fun tasks e => push_trigger tasks e.2.(cols).(TriggerRow.task_id) (trigger_from_row e.1 e.2))
    tasks rows
  = (fun t => add_triggers t ((fun e => trigger_from_row e.1 e.2) <$>
       filter (fun e => e.2.(cols).(TriggerRow.task_id) = t.(Task.id)) rows)) <$> tasks.
Proof.
  revert tasks. induction rows as [|e rows IH]; intros tasks Hn.
  - cbn [foldl]. symmetry. apply fmap_id_ext. intros t _. unfold add_triggers. rewrite filter_nil.
    by rewrite fmap_nil, app_nil_r.
  - cbn [foldl]. rewrite push_trigger_eq by done. rewrite IH; cycle 1.
    { rewrite <- list_fmap_compose. erewrite list_fmap_ext; [exact Hn|]. intros i t _. cbn.
      by case_match. }
    rewrite <- list_fmap_compose. apply list_fmap_ext. intros i t _. unfold compose.
    destruct (Z.eqb_spec t.(Task.id) e.2.(cols).(TriggerRow.task_id)) as [E|E].
    + rewrite (filter_cons_True _ e) by done. unfold add_triggers. cbn. by rewrite <- app_assoc.
    + rewrite (filter_cons_False _ e) by congruence. done.
Qed.
End Attach.

(** ** What a save leaves *)

Section Saved.
Context `{!Chrono} `{!SerdeJson} `{!Float} `{!Order} `{!Others Tasks}.
Context (Halone : forall n d, others n d = d).

(** The columns of a saved task, and of a saved trigger *)
Definition saved_task (t : Task) : TaskRow :=
  {| TaskRow.owner_iid := t.(Task.owner_iid); TaskRow.device_iid := t.(Task.device_iid);
     TaskRow.scope := "device"; TaskRow.name := t.(Task.name); TaskRow.skill_id := t.(Task.skill_id);
     TaskRow.prompt := t.(Task.prompt); TaskRow.model := t.(Task.model);
     TaskRow.is_active := t.(Task.is_active) |}.
Definition saved_trigger (tr : TaskTrigger) : TriggerRow :=
  {| TriggerRow.task_id := tr.(TaskTrigger.task_id); TriggerRow.owner_iid := tr.(TaskTrigger.owner_iid);
     TriggerRow.kind := trigger_kind_to_db tr.(TaskTrigger.kind);
     TriggerRow.label := tr.(TaskTrigger.label); TriggerRow.cron_expr := tr.(TaskTrigger.cron_expr);
     TriggerRow.timezone := tr.(TaskTrigger.timezone); TriggerRow.run_at := trigger_run_at tr;
     TriggerRow.is_active := tr.(TaskTrigger.is_active) |}.

(** The trigger rows [outs] were added to [d], new. *)
Definition triggers_added (d : Tasks) (outs : list TaskTrigger) (d' : Tasks) : Prop :=
  (forall k, k ∉ TaskTrigger.id <$> outs -> d'.(t_trigger) !! k = d.(t_trigger) !! k) /\
  (NoDup (TaskTrigger.id <$> outs) -> (forall tr, tr ∈ outs -> d.(t_trigger) !! tr.(TaskTrigger.id) = None) ->
   forall tr, tr ∈ outs -> exists now,
     d'.(t_trigger) !! tr.(TaskTrigger.id) = Some (new_row now (saved_trigger tr))).

Lemma put_trigger_ok id owner_iid tr e w out w' :
  task_put_trigger id owner_iid tr e w = (Ok out, w') ->
  out.(TaskTrigger.task_id) = id /\ out.(TaskTrigger.owner_iid) = owner_iid /\
  w'.(db).(t_task) = w.(db).(t_task) /\
  exists r, w'.(db).(t_trigger) = <[out.(TaskTrigger.id) := r]> w.(db).(t_trigger) /\
    (w.(db).(t_trigger) !! out.(TaskTrigger.id) = None ->
     exists now, r = new_row now (saved_trigger out)).
Proof using Halone.
  intros E. unfold task_put_trigger in E. apply bind_ok in E as (tid & w1 & E1 & E).
  assert (w1.(db) = w.(db)) as Hd.
  { revert E1. case_match; [by intros [_ ->]%ret_ok|].
    intros (i & w2 & E2 & [_ ->]%ret_ok)%bind_ok. by injection E2 as _ <-. }
  apply bind_ok in E as (u & w2 & E2 & E). apply ret_ok in E as [-> ->].
  apply stmt_ok in E2 as (now & E2). rewrite Halone, Hd in E2. injection E2 as _ E2.
  rewrite <- E2. cbn. split_and!; [done..|]. eexists. split; [done|].
  intros ->. by exists now.
Qed.

Lemma put_ok owner_iid task e w out w' :
  task_put owner_iid task e w = (Ok out, w') ->
  out.(Task.owner_iid) = owner_iid /\
  (forall k, k <> out.(Task.id) -> w'.(db).(t_task) !! k = w.(db).(t_task) !! k) /\
  (w.(db).(t_task) !! out.(Task.id) = None ->
   exists now, w'.(db).(t_task) !! out.(Task.id) = Some (new_row now (saved_task out))) /\
  Forall (fun tr => tr.(TaskTrigger.task_id) = out.(Task.id) /\ tr.(TaskTrigger.owner_iid) = owner_iid)
    out.(Task.triggers) /\
  triggers_added w.(db) out.(Task.triggers) w'.(db).
Proof using Halone.
  intros E. unfold task_put in E. apply bind_ok in E as (id & w1 & E1 & E).
  assert (w1.(db) = w.(db)) as Hd.
  { revert E1. case_match; [by intros [_ ->]%ret_ok|].
    intros (i & w2 & E2 & [_ ->]%ret_ok)%bind_ok. by injection E2 as _ <-. }
  apply bind_ok in E as (u & w2 & E2 & E). apply stmt_ok in E2 as (now & E2).
  rewrite Halone, Hd in E2. injection E2 as _ E2.
  apply bind_ok in E as (trs & w3 & E3 & E). apply ret_ok in E as [-> ->].
  set (I := fun (pre : list TaskTrigger) outs d => d.(t_task) = w2.(db).(t_task) /\
    Forall (fun tr => tr.(TaskTrigger.task_id) = id /\ tr.(TaskTrigger.owner_iid) = owner_iid) outs /\
    triggers_added w.(db) outs d).
  assert (I task.(Task.triggers) trs w3.(db)) as (Ht & Ho & Ha).
  { refine (mapM_ok _ _ I _ _ _ _ _ E3 _); cycle 1.
    - split_and!; [done|constructor|]. rewrite <- E2. split; [done|]. by intros _ _ tr ?%not_elem_of_nil.
    - intros pre x acc v b v1 (It & If & Iout & Iin) (Hb1 & Hb2 & Hb3 & r & Hb4 & Hb5)%put_trigger_ok.
      split_and!; [congruence|apply list.Forall_app; split; [done|by constructor]|].
      split.
      + intros k Hk. rewrite fmap_app, not_elem_of_app in Hk. destruct Hk as [Hk Hkb].
        rewrite Hb4, lookup_insert_ne; [by apply Iout|]. intros <-. apply Hkb. by left.
      + rewrite fmap_app. intros (Hn & Hdis & _)%list.NoDup_app Habs tr.
        assert (v.(db).(t_trigger) !! b.(TaskTrigger.id) = None) as Hfresh.
        { rewrite Iout; [apply Habs, elem_of_app; right; by left|].
          intros Hin. apply (Hdis _ Hin). by left. }
        intros [Htr|Htr]%elem_of_app.
        * rewrite Hb4, lookup_insert_ne.
          -- apply Iin; [done| |done]. intros tr' Htr'. apply Habs, elem_of_app. by left.
          -- intros Heq. apply (Hdis tr.(TaskTrigger.id)); [by apply list_elem_of_fmap_2|].
             rewrite <- Heq. by left.
        * apply list_elem_of_singleton in Htr as ->. rewrite Hb4, lookup_insert_eq.
          destruct (Hb5 Hfresh) as [now' ->]. by exists now'. }
  cbn. rewrite Ht, <- E2. cbn. split_and!; try done.
  - intros k Hk. by rewrite lookup_insert_ne.
  - intros Habs. exists now. rewrite lookup_insert_eq. by rewrite Habs.
Qed.
(** The answer to a save: the task and triggers of the request under their
    numbers, all of the caller. *)
Definition answered_trigger (id owner_iid : Z) (tr out : TaskTrigger) : Prop :=
  out = {| tr with TaskTrigger.id := out.(TaskTrigger.id); TaskTrigger.task_id := id;
                   TaskTrigger.owner_iid := owner_iid |} /\
  (0 < tr.(TaskTrigger.id) -> out.(TaskTrigger.id) = tr.(TaskTrigger.id)).
Definition answered_task (owner_iid : Z) (task out : Task) : Prop :=
  out = {| task with Task.id := out.(Task.id); Task.owner_iid := owner_iid;
                     Task.triggers := out.(Task.triggers) |} /\
  (0 < task.(Task.id) -> out.(Task.id) = task.(Task.id)) /\
  Forall2 (answered_trigger out.(Task.id) owner_iid) task.(Task.triggers) out.(Task.triggers).

Lemma kept_or_next id e (w : World Tasks) x w' :
  (if 0 <? id then mret id else i ← next_id; mret (to_i64 i)) e w = (Ok x, w') -> 0 < id -> x = id.
Proof. destruct (Z.ltb_spec 0 id); [by intros [-> _]%ret_ok|lia]. Qed.

Lemma put_answer owner_iid task e w out w' :
  task_put owner_iid task e w = (Ok out, w') -> answered_task owner_iid task out.
Proof.
  intros E. unfold task_put in E. apply bind_ok in E as (id & w1 & E1 & E).
  apply bind_ok in E as (u & w2 & _ & E). apply bind_ok in E as (trs & w3 & E3 & E).
  apply ret_ok in E as [-> _]. split_and!; [done|cbn; by eapply kept_or_next|]. cbn.
  refine (mapM_ok _ _ (fun pre outs _ => Forall2 (answered_trigger id owner_iid) pre outs) _ _ _ _ _ E3 _);
    [|constructor].
  intros pre tr acc v b v1 IH Eb. apply Forall2_app; [exact IH|]. constructor; [|constructor].
  unfold task_put_trigger in Eb. apply bind_ok in Eb as (tid & v2 & E4 & Eb).
  apply bind_ok in Eb as (u2 & v3 & _ & Eb). apply ret_ok in Eb as [-> _].
  split; [done|]. cbn. by eapply kept_or_next.
Qed.
End Saved.

(** ** What a listing shows *)

(** A trigger without its time stamps, and how a saved one is shown: an unknown
    kind is "once", a time out of range is none, and the secret is withheld. *)
Definition trigger_view (tr : TaskTrigger) : TaskTrigger :=
  {| tr with TaskTrigger.created_ts_ms := 0; TaskTrigger.updated_ts_ms := 0 |}.
Definition shown_trigger `{!Chrono} (tr : TaskTrigger) : TaskTrigger :=
  {| tr with TaskTrigger.kind :=
               (if (tr.(TaskTrigger.kind) =? 2) || (tr.(TaskTrigger.kind) =? 3)
                then tr.(TaskTrigger.kind) else 1);
             TaskTrigger.run_at_ms := ts_ms (trigger_run_at tr);
             TaskTrigger.webhook_secret := "";
             TaskTrigger.created_ts_ms := 0; TaskTrigger.updated_ts_ms := 0;
             TaskTrigger.deleted_ts_ms := 0 |}.
Definition task_view (t : Task) : Task :=
  {| t with Task.triggers := []; Task.created_ts_ms := 0; Task.updated_ts_ms := 0;
            Task.deleted_ts_ms := 0 |}.

Lemma trigger_view_row `{!Chrono} now tr :
  trigger_view (trigger_from_row tr.(TaskTrigger.id) (new_row now (saved_trigger tr))) = shown_trigger tr.
Proof.
  unfold trigger_view, shown_trigger, trigger_from_row, saved_trigger. cbn.
  assert (trigger_kind_from_db (trigger_kind_to_db tr.(TaskTrigger.kind)) =
    if (tr.(TaskTrigger.kind) =? 2) || (tr.(TaskTrigger.kind) =? 3) then tr.(TaskTrigger.kind) else 1)
    as <-; [|done].
  unfold trigger_kind_to_db. destruct (Z.eqb_spec (TaskTrigger.kind tr) 1) as [->|]; [done|].
  destruct (Z.eqb_spec (TaskTrigger.kind tr) 2) as [->|]; [done|].
  by destruct (Z.eqb_spec (TaskTrigger.kind tr) 3) as [->|].
Qed.

Section Listed.
Context `{!Chrono} `{!SerdeJson} `{!Float} `{!Order} `{!Others Tasks} `{!Platform}.
Context (Halone : forall n d, others n d = d).

Definition task_rows (owner_iid device_iid : Z) (d : Tasks) : list (Z * Row TaskRow) :=
  merge_sort by_updated_desc (filter (fun e =>
    (e.2.(cols).(TaskRow.owner_iid) =? owner_iid) && live e.2
    && ((device_iid =? 0) || (e.2.(cols).(TaskRow.device_iid) =? device_iid)) = true) (order d.(t_task))).
Definition trigger_rows (owner_iid : Z) (ids : list Z) (d : Tasks) : list (Z * Row TriggerRow) :=
  merge_sort by_created (filter (fun e =>
    (e.2.(cols).(TriggerRow.owner_iid) =? owner_iid) && live e.2
    && bool_decide (e.2.(cols).(TriggerRow.task_id) ∈ ids) = true) (order d.(t_trigger))).

Lemma trigger_rows_elem owner_iid ids d k r :
  (k, r) ∈ trigger_rows owner_iid ids d <->
  d.(t_trigger) !! k = Some r /\ (r.(cols).(TriggerRow.owner_iid) =? owner_iid) && live r
    && bool_decide (r.(cols).(TriggerRow.task_id) ∈ ids) = true.
Proof. unfold trigger_rows. rewrite merge_sort_Permutation. apply selected_elem. Qed.
Lemma trigger_rows_nodup owner_iid ids d : NoDup (trigger_rows owner_iid ids d).
Proof.
  apply (NoDup_fmap_1 fst). unfold trigger_rows. rewrite merge_sort_Permutation. apply selected_nodup.
Qed.

Lemma total_list owner_iid device_iid : total (task_list owner_iid device_iid).
Proof.
  apply total_bind; [apply total_unwrap_or|]. intros rows. cbv zeta. case_bool_decide; [apply total_ret|].
  apply total_bind; [apply total_unwrap_or|]. intros trs. apply total_ret.
Qed.
(** A listing: the last 200 tasks, each with the triggers that name it. *)
Lemma task_list_eq owner_iid device_iid e w tasks w' :
  (forall n, e.(env_fault) n = false) ->
  task_list owner_iid device_iid e w = (Ok tasks, w') ->
  let rows := take 200 (task_rows owner_iid device_iid w.(db)) in
  w'.(db) = w.(db) /\
  tasks = (fun e => add_triggers (task_from_row e.1 e.2)
    ((fun e => trigger_from_row e.1 e.2) <$>
      filter (fun x => x.2.(cols).(TriggerRow.task_id) = e.1)
        (trigger_rows owner_iid rows.*1 w.(db)))) <$> rows.
Proof using Halone.
  intros Hf E. cbv zeta. unfold task_list in E. apply bind_ok in E as (rows & w1 & E1 & E).
  apply (read_runs Halone) in E1 as (Hd1 & now & ->); [|done].
  fold (task_rows owner_iid device_iid w.(db)) in E.
  set (rows := take 200 (task_rows owner_iid device_iid w.(db))) in *.
  assert (Task.id <$> ((fun e => task_from_row e.1 e.2) <$> rows) = rows.*1) as Hids
    by (rewrite <- list_fmap_compose; reflexivity).
  rewrite Hids in E. case_bool_decide as Hnil.
  - apply ret_ok in E as [-> ->]. split; [done|]. by destruct rows.
  - apply bind_ok in E as (trs & w2 & E2 & E).
    apply (read_runs Halone) in E2 as (Hd2 & now2 & ->); [|done]. apply ret_ok in E as [-> ->].
    split; [congruence|]. rewrite Hd1. fold (trigger_rows owner_iid rows.*1 w.(db)).
    rewrite push_triggers_eq; [by rewrite <- list_fmap_compose|]. rewrite Hids. unfold rows.
    apply (sublist_NoDup _ (task_rows owner_iid device_iid w.(db)).*1).
    + unfold task_rows. rewrite merge_sort_Permutation. apply selected_nodup.
    + apply fmap_sublist, sublist_take.
Qed.
End Listed.

(** C18. A save answers the task of the request, all of the caller's, under its
    number or a new one.  When the task and its triggers are new, on tables where
    triggers name tasks that exist, and no statement of the listing fails and
    nobody else acts on the task tables, it is then in
    the listings of its owner, of its device or of all, as it was answered; its
    triggers are exactly those saved with it, each once, as they were given up to
    what a listing normalises.  Other tasks, and triggers of other numbers, are
    untouched.  (A listing shows 200 tasks, so that at most 200 are asked for.) *)
Theorem task_put_listed `{!Chrono} `{!SerdeJson} `{!Float} `{!Order} `{!Others Tasks} `{!Platform}
    owner_iid task e w out w1 device_iid e' w2 :
  (forall n d, others n d = d) ->
  task_put owner_iid task e w = (Ok out, w1) ->
  tasks_wf w.(db) -> w.(db).(t_task) !! out.(Task.id) = None ->
  NoDup (TaskTrigger.id <$> out.(Task.triggers)) ->
  (forall tr, tr ∈ out.(Task.triggers) -> w.(db).(t_trigger) !! tr.(TaskTrigger.id) = None) ->
  (forall n, e'.(env_fault) n = false) ->
  device_iid = 0 \/ device_iid = out.(Task.device_iid) ->
  w2.(db) = w1.(db) -> (length (task_rows owner_iid device_iid w1.(db)) <= 200)%nat ->
  answered_task owner_iid task out /\
  (exists tasks w3 t, task_list owner_iid device_iid e' w2 = (Ok tasks, w3) /\
     t ∈ tasks /\ task_view t = task_view out /\
     trigger_view <$> t.(Task.triggers) ≡ₚ shown_trigger <$> out.(Task.triggers)) /\
  (forall k, k <> out.(Task.id) -> w1.(db).(t_task) !! k = w.(db).(t_task) !! k) /\
  (forall k, k ∉ TaskTrigger.id <$> out.(Task.triggers) ->
     w1.(db).(t_trigger) !! k = w.(db).(t_trigger) !! k).
Proof.
  intros Ha E [_ Hwf] Habs Hn Hnew Hf Hdev Hw2 Hlen.
  split; [by eapply put_answer|].
  destruct (total_list owner_iid device_iid e' w2) as (tasks & w3 & El).
  enough ((exists t, t ∈ tasks /\ task_view t = task_view out /\
     trigger_view <$> t.(Task.triggers) ≡ₚ shown_trigger <$> out.(Task.triggers)) /\
    (forall k, k <> out.(Task.id) -> w1.(db).(t_task) !! k = w.(db).(t_task) !! k) /\
    (forall k, k ∉ TaskTrigger.id <$> out.(Task.triggers) ->
       w1.(db).(t_trigger) !! k = w.(db).(t_trigger) !! k)) as [(t & Ht) Hrest]
    by (split; [exists tasks, w3, t; by split|done]).
  apply put_ok in E as (Hown & Hother & Hrow & Htrs & Hout & Hin); [|done].
  split; [|done]. destruct (Hrow Habs) as [now Er]. specialize (Hin Hn Hnew).
  apply task_list_eq in El as [_ ->]; [|done..]. rewrite Hw2. rewrite take_ge by done.
  set (d := w1.(db)) in *. set (r := new_row now (saved_task out)) in *.
  assert ((out.(Task.id), r) ∈ task_rows owner_iid device_iid d) as Hr.
  { unfold task_rows. rewrite merge_sort_Permutation. apply selected_elem. split; [done|].
    cbn. rewrite Hown, Z.eqb_refl. cbn. destruct Hdev as [->| ->]; [done|].
    by rewrite Z.eqb_refl, orb_true_r. }
  eexists. split; [apply (list_elem_of_fmap_2 (fun e => add_triggers _ _)), Hr|]. cbn [fst snd].
  split; [done|]. cbn [Task.triggers add_triggers task_from_row app].
  set (outs := out.(Task.triggers)) in *.
  set (row_of := fun tr : TaskTrigger =>
    (tr.(TaskTrigger.id), default (new_row now (saved_trigger tr)) (d.(t_trigger) !! tr.(TaskTrigger.id)))).
  assert (forall tr, tr ∈ outs -> exists now', d.(t_trigger) !! tr.(TaskTrigger.id)
    = Some (new_row now' (saved_trigger tr)) /\ row_of tr = (tr.(TaskTrigger.id), new_row now' (saved_trigger tr)))
    as Hrow_of.
  { intros tr Htr. destruct (Hin tr Htr) as [now' Et]. exists now'. split; [done|].
    unfold row_of. by rewrite Et. }
  assert (filter (fun x => x.2.(cols).(TriggerRow.task_id) = out.(Task.id))
    (trigger_rows owner_iid (task_rows owner_iid device_iid d).*1 d) ≡ₚ row_of <$> outs) as ->.
  { apply NoDup_Permutation.
    - apply list.NoDup_filter, trigger_rows_nodup.
    - apply (NoDup_fmap_1 fst). rewrite <- list_fmap_compose. exact Hn.
    - intros [k rt]. split.
      + intros [Etid Hk0]%list_elem_of_filter. apply trigger_rows_elem in Hk0 as [Ek _]. cbn in Etid.
        apply list_elem_of_fmap. destruct (decide (k ∈ TaskTrigger.id <$> outs)) as [Hk|Hk].
        * apply list_elem_of_fmap in Hk as (tr & -> & Htr). exists tr. split; [|done].
          destruct (Hrow_of tr Htr) as (now' & Et & ->). congruence.
        * exfalso. rewrite Hout in Ek by done. apply Hwf in Ek. rewrite Etid in Ek.
          rewrite Habs in Ek. by destruct Ek.
      + intros (tr & Etr & Htr)%list_elem_of_fmap. destruct (Hrow_of tr Htr) as (now' & Et & Er').
        rewrite Er' in Etr. injection Etr as -> ->. rewrite Forall_forall in Htrs.
        destruct (Htrs tr) as [Etid Eown]; [by apply list_elem_of_In|].
        apply list_elem_of_filter. split; [done|]. apply trigger_rows_elem. split; [done|]. cbn.
        rewrite Eown, Z.eqb_refl. cbn. apply bool_decide_eq_true.
        rewrite Etid. by apply (list_elem_of_fmap_2 fst) in Hr. }
  rewrite <- !list_fmap_compose. apply eq_perm. apply list_fmap_ext. intros i tr Htr%list_elem_of_lookup_2.
  destruct (Hrow_of tr Htr) as (now' & _ & Er'). unfold compose. rewrite Er'.
  apply trigger_view_row.
Qed.
