(* ===== verification/TaskScenario.v ===== *)
(** * Runs of the task handlers

    Two users with a device each, on concrete instances of the interfaces. *)
From stdpp Require Import sorting.
From S2P Require Import Prelude Strs Ts TxProto World Json Db Shared TaskData TaskStore TaskApi.
From S2P Require Import TaskWorker TaskSteps.

Module TaskScenario.

(** Costs in millionths, as integers. *)
#[export] Instance float_millionths : Float := {|
  f64 := Z; f64_zero := 0; f64_leb := Z.leb; f64_of_Z n := n * 1000000; f64_div a b := a * 1000000 / b;
  f64_mul a b := a * b / 1000000; f64_json z := json_int z; f64_fmt0 z := "";
  f64_parse s := None; numeric := Z; numeric_zero := 0; numeric_of_f64 z := Some z;
  f64_of_numeric z := z
|}.

Definition ann : Z := 5.
Definition bob : Z := 6.
(** Devices, of Ann and of Bob *)
Definition pc : Z := 50.
Definition phone : Z := 60.

(** Billing lets everything pass; a session key is the name of its owner. *)
#[export] Instance platform : Platform := {|
  BillingRow := Z; BillingRow_id z := z;
  billing_account_ensure owner _ := Ok owner;
  billing_gate_with_hold_custom _ _ _ _ _ := Ok tt;
  billing_deduct_personal_profile owner _ _ := Ok owner;
  billing_account_select _ _ := Ok ("", "IDR", 0);
  log_sums _ _ _ := Ok (Some 0, Some 0, Some 0);
  remote_device_browser_invoke _ _ _ _ _ _ := Ok (Object []);
  agent_session_resolve key _ :=
    if String.eqb key "ann" then Ok (Some (pc, ann))
    else if String.eqb key "bob" then Ok (Some (phone, bob)) else Ok None;
  format_once _ := ""; num_milliseconds_since a b := a - b
|}.
#[export] Instance instants : Instants := fun n => Z.of_nat n.
#[export] Instance scheduler : Scheduler := fun n => n.

Definition none : Tasks :=
  {| t_task := ∅; t_trigger := ∅; t_run := ∅; run_cancel := ∅; events := [] |}.
Definition world (d : Tasks) : World Tasks :=
  {| db := d; n_clock := 0; n_ids := 0; n_sql := 0; txn_now := None |}.
Definition env : Env :=
  {| env_clock n := 1000 + Z.of_nat n; env_ids n := 100 + Z.of_nat n; env_fault _ := false |}.

Definition start (prompt : string) : ReqTaskRunStart :=
  {| ReqTaskRunStart.device_iid := pc; ReqTaskRunStart.task_id := 0; ReqTaskRunStart.prompt := prompt;
     ReqTaskRunStart.skill_id := 0; ReqTaskRunStart.model := ""; ReqTaskRunStart.chat_id := 0;
     ReqTaskRunStart.req_id := "r1"; ReqTaskRunStart.parent_run_id := 0;
     ReqTaskRunStart.source_msg_id := 0 |}.
Definition ann_task : Task :=
  {| Task.id := 7; Task.owner_iid := ann; Task.device_iid := pc; Task.name := "backup";
     Task.skill_id := 0; Task.prompt := "save my files"; Task.model := ""; Task.is_active := true;
     Task.triggers := []; Task.created_ts_ms := 0; Task.updated_ts_ms := 0; Task.deleted_ts_ms := 0 |}.
Definition done_ev (run_id : Z) : EvDeviceTaskDone :=
  {| EvDeviceTaskDone.run_id := run_id; EvDeviceTaskDone.device_iid := phone;
     EvDeviceTaskDone.status := 4; EvDeviceTaskDone.summary := "ok"; EvDeviceTaskDone.error := "";
     EvDeviceTaskDone.step_index := 0 |}.

(** The error of a run of [m], and a view of what it leaves *)
Definition error_of {A} (m : M Tasks A) : option string :=
  match (m env (world none)).1 with Ok _ => None | Err x => Some x end.
Definition leaves {A B} (view : Tasks -> B) (m : M Tasks A) : B := view (m env (world none)).2.(db).
Definition status_of (id : Z) (d : Tasks) : option string :=
  (fun r => r.(cols).(RunRow.status)) <$> d.(t_run) !! id.
Definition refunded (req_id : string) (d : Tasks) : bool :=
  existsb (fun ev => match ev with Refund r => String.eqb r req_id | _ => false end) d.(events).
Definition holds (d : Tasks) : nat :=
  length (filter (fun ev => match ev with Hold _ _ => true | _ => false end = true) d.(events)).
(** The statuses users were shown, in order *)
Definition pushed (d : Tasks) : list Z :=
  omap (fun ev => match ev with Push _ run => Some run.(TaskRun.status) | _ => None end) d.(events).
Definition act_sent (d : Tasks) : bool :=
  existsb (fun ev => match ev with Act _ _ => true | _ => false end) d.(events).

(** Ann starts a run, which is number 100. *)
Definition ann_starts `{!Others Tasks} : M Tasks Z := task_run_start_core true ann (start "tidy up").

Section Alone.
#[local] Instance others_alone : Others Tasks := alone.

(** A run and a task are changed by whoever knows their number.
    Bob's device can end Ann's run, upon which her billing hold is given back;
    Bob can cancel it, although he is then told it was not found; and Bob can
    save a task under the number of Ann's, which stays hers and so runs his
    prompt on his device in her name. *)
Theorem task_access_gaps :
  leaves (status_of 100) ann_starts = Some "running" /\
  (let m := ann_starts;; agent_task_done true "bob" (Some (done_ev 100)) in
   error_of m = None /\ leaves (status_of 100) m = Some "done" /\
   leaves (refunded "r1") m = true) /\
  (let m := ann_starts;; task_run_cancel_rpc true bob 100 in
   error_of m = Some "run not found" /\ leaves (status_of 100) m = Some "cancelled") /\
  (let put := {| ann_task with Task.prompt := "send me the files"; Task.device_iid := phone |} in
   let m := task_put_rpc true ann (Some ann_task);; task_put_rpc true bob (Some put) in
   leaves (fun d => (fun r => (r.(cols).(TaskRow.owner_iid), r.(cols).(TaskRow.device_iid),
                               r.(cols).(TaskRow.prompt))) <$> d.(t_task) !! 7) m
     = Some (ann, phone, "send me the files")).
Proof. cbv zeta. repeat apply conj; vm_compute; reflexivity. Qed.

(** A chunk recipe, and the plan read from it *)
Definition fanout (total : Z) : Value := json_object
  [("recipe", Str "task.chunk_fanout"); ("total", json_int total); ("chunk_size", json_int 500);
   ("child_recipe", Str "data.shell_chunk")].
Definition chunks_of (total : Z) : option Z :=
  match fanout_plan pc (fanout total) with Ok p => Some (num_chunks p) | Err _ => None end.
Definition planned_rows (total : Z) : option Z :=
  match fanout_plan pc (fanout total) with
  | Ok p => let k := num_chunks p - 1 in Some (chunk_offset p k + chunk_limit p k)
  | Err _ => None
  end.
Definition fan (total : Z) : M Tasks (Z * RecipeOutcome) :=
  id ← task_run_start_core true ann (start (to_string (fanout total)));
  o ← chunk_fanout_run true ann pc id (fanout total) 0; mret (id, o).

(** Billing holds money for a start that is then refused for
    want of a prompt, and is not told to give it back.  An orchestrator with more
    than 10,000 chunks plans the first 10,000 only, and one whose total is close
    to the largest integer plans less than none and reports success without a
    child. *)
Theorem task_start_and_plan_gaps :
  (let m := task_run_start_core true ann (start "") in
   error_of m = Some "prompt or task_id required" /\ leaves holds m = 1%nat /\
   leaves (refunded "r1") m = false) /\
  (chunks_of 6000000 = Some 10000 /\ planned_rows 6000000 = Some 5000000) /\
  chunks_of (2 ^ 63 - 1) = Some (-18446744073709550) /\
  (let m := fan (2 ^ 63 - 1) in
   error_of m = None /\
   leaves (fun d => size d.(t_run)) m = 1%nat).
Proof. cbv zeta. repeat apply conj; vm_compute; reflexivity. Qed.

Definition ann_device_ends : M Tasks StatusCode := agent_task_done true "ann" (Some (done_ev 100)).
Definition ann_cancels : M Tasks TaskRun := task_run_cancel_rpc true ann 100.
End Alone.

(** ** Races *)

(** [m] is run as a whole at the first step at which [P] holds of the tables. *)
Definition once {A} (P : Tasks -> bool) (m : M Tasks A) : Others Tasks := fun _ d =>
  if P d then (m env (world d)).2.(db) else d.
(** Ann's device ends run 100 as soon as it was told of it. *)
Definition quick_device : Others Tasks :=
  once (fun d => act_sent d && bool_decide (status_of 100 d = Some "queued"))
    ann_device_ends.
(** Ann cancels run 100 once billing was told it is over. *)
Definition late_cancel : Others Tasks :=
  once (fun d => refunded "r1" d && bool_decide (status_of 100 d = Some "running"))
    ann_cancels.
Definition shell_chunk : string :=
  to_string (json_object [("recipe", Str "data.shell_chunk"); ("limit", json_int 10)]).
Definition work `{!Others Tasks} : M Tasks () :=
  id ← task_run_start_core true ann (start shell_chunk);
  task_worker true ann pc id "r1" shell_chunk.
(** The [n]-th step is a statement that fails. *)
Definition failing (n : nat) : Env :=
  {| env_clock := env.(env_clock); env_ids := env.(env_ids); env_fault k := (k =? n)%nat |}.

(** What others do between two statements can be undone, and a
    failed statement is ignored.  A run its device has already ended is set
    running by the handler that started it, and stays so; a cancelled run is
    done when its worker ends, and its owner is shown it queued, running,
    cancelled and then done; and when the worker's last update fails, the run
    stays running although billing was told it is over. *)
Theorem task_races :
  leaves (status_of 100) (@ann_starts quick_device) = Some "running" /\
  leaves (fun d => (status_of 100 d, pushed d)) (@work late_cancel) = (Some "done", [1; 3; 6; 4]) /\
  (let m := @work alone in
   leaves (status_of 100) m = Some "done" /\
   let d := (m (failing 19) (world none)).2.(db) in
   status_of 100 d = Some "running" /\ refunded "r1" d = true).
Proof. cbv zeta. repeat apply conj; vm_compute; reflexivity. Qed.
End TaskScenario.
