(* ===== verification/TaskWitnesses.v ===== *)
(** * Concrete inputs at which the task crate's properties apply *)
From S2P Require Import Prelude Strs Ts TxProto World Json Db Shared TaskData TaskStore TaskApi.
From S2P Require Import TaskWorker TaskSteps TaskServe TaskProps TaskFanout TaskStart TaskCancel.
From S2P Require Import TaskSaved TaskScenario.
Import TaskScenario.

(** A program that returns a value returns one. *)
Definition returns {A} (p : result A * World Tasks) : bool :=
  match p.1 with Ok _ => true | Err _ => false end.
Lemma returned {A} (p : result A * World Tasks) :
  returns p = true -> exists a w', p = (Ok a, w').
Proof. destruct p as [[a|x] w']; [by exists a, w'|done]. Qed.

Lemma status_run id d st : status_of id d = Some st ->
  exists r, d.(t_run) !! id = Some r /\ r.(cols).(RunRow.status) = st.
Proof. unfold status_of. destruct (_ !! _) as [r|]; [|done]. intros [= <-]. by exists r. Qed.

(** ** Others *)

Lemma once_evolves {A} P (m : M Tasks A) n d :
  respects evolves m -> evolves d (once P m n d).
Proof.
  intros Hm. unfold once. case_match; [|reflexivity]. destruct (m env (world d)) as [x w'] eqn:E.
  by apply (Hm env (world d) x w' E).
Qed.

(** Ann's device ends every child of run 100 as soon as it is queued. *)
Definition ends (id : Z) : M Tasks () :=
  serve (Others0 := alone) (AgentDone true "ann" (Some (done_ev id))).
Definition queued_child (id : Z) (d : Tasks) : bool := bool_decide (status_of id d = Some "queued").
Definition devices : Others Tasks := fun n d =>
  foldl (fun d id => once (queued_child id) (ends id) n d) d [101; 102].
Lemma devices_evolve n d : evolves d (devices n d).
Proof.
  unfold devices. generalize [101; 102]. intros ids. revert d.
  induction ids as [|id ids IH]; intros d; [reflexivity|]. cbn. etransitivity; [|apply IH].
  apply once_evolves.
  exact (keeps_serve (Others0 := alone) (fun _ _ => reflexivity _)
    (AgentDone true "ann" (Some (done_ev id)))).
Qed.

(** ** Beside a device *)

Lemma none_wf : tasks_wf none.
Proof. split; intros ? ?; cbn; rewrite lookup_empty; discriminate. Qed.

Section Devices.
#[local] Existing Instance devices.

Lemma task_runs_lifecycle_witness : exists x w',
  serve (ReqRunStart true ann (start "tidy up")) env (world none) = (x, w') /\
  tasks_wf w'.(db) /\ rows_kept none w'.(db).
Proof.
  destruct (serve (ReqRunStart true ann (start "tidy up")) env (world none)) as [x w'] eqn:E.
  exists x, w'. split; [reflexivity|].
  apply (task_runs_lifecycle (ReqRunStart true ann (start "tidy up")) env (world none) x w'
    devices_evolve none_wf E).
Defined.

Lemma task_run_start_spec_witness : exists run w',
  task_run_start_rpc true ann (start "tidy up") env (world none) = (Ok run, w') /\
  run_of ann (start "tidy up") run.(TaskRun.id) w'.(db).
Proof.
  destruct (returned (task_run_start_rpc true ann (start "tidy up") env (world none)))
    as (run & w' & E); [vm_compute; reflexivity|].
  exists run, w'. split; [exact E|].
  apply (task_run_start_spec true ann (start "tidy up") env (world none) run w' devices_evolve E).
Defined.

(** Two chunks, of three rows and of two *)
Definition five_rows : Value := json_object
  [("recipe", Str "task.chunk_fanout"); ("total", json_int 5); ("chunk_size", json_int 3);
   ("child_recipe", Str "data.shell_chunk")].
Definition orchestrated : Tasks :=
  (task_run_start_core true ann (start "tidy up") env (world none)).2.(db).
(** The next handler draws the next numbers. *)
Definition env' : Env :=
  {| env_clock := env.(env_clock); env_ids n := env.(env_ids) (S n); env_fault := env.(env_fault) |}.
Notation fan_five := (chunk_fanout_run true ann pc 100 five_rows 0 env' (world orchestrated)).
Lemma start_wf prompt w : tasks_wf w.(db) ->
  tasks_wf (task_run_start_core true ann (start prompt) env w).2.(db).
Proof.
  intros Hw. destruct (task_run_start_core true ann (start prompt) env w) as [x w'] eqn:E.
  exact (evolves_wf _ _ (keeps_start_core devices_evolve _ _ _ _ _ _ _ E) Hw).
Qed.
Lemma orchestrated_wf : tasks_wf orchestrated.
Proof. exact (start_wf "tidy up" (world none) none_wf). Qed.

Lemma chunk_fanout_covers_witness : exists p parent,
  fanout_plan pc five_rows = Ok p /\
  exists i id, in_chunk p 4 i /\ child ann p 100 parent i id fan_five.2.(db) /\
    run_ended id fan_five.2.(db).
Proof.
  destruct (returned fan_five) as (out & w' & E); [vm_compute; reflexivity|].
  destruct (chunk_fanout_covers true ann pc 100 five_rows 0 env' (world orchestrated) out w')
    as (p & parent & Ep & _ & _ & Hc & _).
  - exact devices_evolve.
  - exact orchestrated_wf.
  - intros t [= <-]. vm_compute. repeat split; discriminate.
  - exact E.
  - exists p, parent. split; [exact Ep|]. rewrite E.
    destruct (Hc 4) as (i & id & Hi & _ & _ & Hch & He).
    + injection Ep as <-. vm_compute. repeat split; discriminate.
    + exists i, id. split; [exact Hi|]. split; [exact Hch|exact He].
Defined.
End Devices.

(** ** Alone *)

Section Alone.
#[local] Instance others_alone : Others Tasks := alone.

Lemma task_worker_ends_witness : exists r0 w' res,
  task_worker true ann pc 100 "r1" shell_chunk env' (world orchestrated) = (Ok tt, w') /\
  worker_left ann 100 "r1" r0 res w'.(db).
Proof.
  destruct (status_run 100 orchestrated "running") as (r0 & E0 & _); [vm_compute; reflexivity|].
  destruct (proj2 (task_worker_ends true ann pc 100 "r1" shell_chunk env' (world orchestrated) r0))
    as (w' & res & started & w1 & w2 & E & _ & Hl).
  - intros n d. reflexivity.
  - reflexivity.
  - exact orchestrated_wf.
  - exact E0.
  - exists r0, w', res. split; [exact E|exact Hl].
Defined.

Definition row_of (id : Z) (d : Tasks) : option (bool * bool * Z * Z) :=
  (fun r => (live r, is_active r, r.(cols).(RunRow.owner_iid), r.(cols).(RunRow.device_iid)))
    <$> d.(t_run) !! id.
Lemma row_of_device owner_iid device_iid id d :
  row_of id d = Some (true, true, owner_iid, device_iid) -> of_device owner_iid device_iid d id.
Proof. unfold row_of. destruct (_ !! _) as [r|] eqn:E; [|done]. intros [=]. by exists r. Qed.
Notation stop := (task_run_cancel_device_rpc true ann pc env' (world orchestrated)).
Lemma task_run_cancel_device_spec_witness : exists n runs w',
  stop = (Ok (n, runs), w') /\ n = to_i32 (Z.of_nat (length runs)) /\
  exists r r', (world orchestrated).(db).(t_run) !! 100 = Some r /\ w'.(db).(t_run) !! 100 = Some r' /\
    cancelled_as r r'.
Proof.
  destruct (task_run_cancel_device_spec true ann pc env' (world orchestrated))
    as (n & runs & w' & E & Hall).
  exists n, runs, w'. split; [exact E|].
  destruct Hall as (Hn & _ & _ & Hc); [reflexivity|reflexivity|].
  split; [exact Hn|]. apply Hc, row_of_device. vm_compute. reflexivity.
Defined.

(** A task of Ann's with a schedule, and the message of the schedule *)
Definition nightly : TaskTrigger :=
  {| TaskTrigger.id := 9; TaskTrigger.task_id := 7; TaskTrigger.owner_iid := ann;
     TaskTrigger.kind := 1; TaskTrigger.label := "night"; TaskTrigger.cron_expr := "0 3 * * *";
     TaskTrigger.timezone := "Asia/Jakarta"; TaskTrigger.run_at_ms := 0;
     TaskTrigger.webhook_secret := ""; TaskTrigger.is_active := true;
     TaskTrigger.created_ts_ms := 0; TaskTrigger.updated_ts_ms := 0; TaskTrigger.deleted_ts_ms := 0 |}.
Definition nightly_task : Task := {| ann_task with Task.triggers := [nightly] |}.
Notation put := (task_put ann nightly_task env (world none)).

Lemma task_put_listed_witness : exists out w1 tasks w3 t,
  put = (Ok out, w1) /\ answered_task ann nightly_task out /\
  task_list ann pc env (world w1.(db)) = (Ok tasks, w3) /\ t ∈ tasks /\
  task_view t = task_view out /\
  trigger_view <$> t.(Task.triggers) ≡ₚ shown_trigger <$> out.(Task.triggers).
Proof.
  assert (match put.1 with Ok out => (out.(Task.device_iid), TaskTrigger.id <$> out.(Task.triggers))
          | Err _ => (0, []) end = (pc, [9])) as Hids by (vm_compute; reflexivity).
  assert (length (task_rows ann pc put.2.(db)) = 1%nat) as Hlen by (vm_compute; reflexivity).
  destruct (returned put) as (out & w1 & E1); [vm_compute; reflexivity|].
  rewrite E1 in Hids, Hlen. cbn [fst snd] in Hids, Hlen. injection Hids as Hdev Hids.
  destruct (task_put_listed ann nightly_task env (world none) out w1 pc env (world w1.(db)))
    as (Hans & (tasks & w3 & t & El & Ht & Hv & Htr) & _);
    [reflexivity|exact E1|exact none_wf|apply lookup_empty|rewrite Hids; apply NoDup_singleton
    |intros tr _; apply lookup_empty|reflexivity|right; symmetry; exact Hdev|reflexivity
    |rewrite Hlen; lia|].
  exists out, w1, tasks, w3, t. split; [exact E1|]. split; [exact Hans|]. split; [exact El|].
  split; [exact Ht|]. split; [exact Hv|exact Htr].
Defined.

Definition parent_run : TaskRun :=
  row_to_task_run 100 (new_row 0 (new_run ann "r1" "tidy up" (start "tidy up"))).
(** A chunk of at most one child at a time *)
Lemma recipes_parallel_witness : exists p set' w',
  fanout_plan pc five_rows = Ok p /\
  fanout_chunk true ann 100 0 p parent_run [] 1 env' (world orchestrated) = (Ok set', w') /\
  n_running set' <= p.(Plan.parallel_children) <= 5.
Proof.
  destruct (fanout_plan pc five_rows) as [p|x] eqn:Ep; [|discriminate Ep].
  assert (p.(Plan.parallel_children) = 1) as Hp by (injection Ep as <-; reflexivity).
  destruct (returned (fanout_chunk true ann 100 0 p parent_run [] 1 env' (world orchestrated)))
    as (set' & w' & E); [injection Ep as <-; vm_compute; reflexivity|].
  exists p, set', w'. split; [reflexivity|]. split; [exact E|].
  apply (proj1 recipes_parallel true ann 100 0 pc five_rows p parent_run [] 1 env'
    (world orchestrated) set' w' Ep); [rewrite Hp; vm_compute; discriminate|exact E].
Defined.
End Alone.

(** ** Prompts of children *)

Definition sheet_params : Value := json_object
  [("sheet", json_object [("from_row", json_int 2); ("name", Str "A")]); ("tab", Str "x")].
Lemma child_prompt_tells_witness : exists s,
  build_child_prompt "browser.sheet_row_backfill" sheet_params 40 20 = Ok s /\
  (get "sheet" (recipe_of s) ≫= field_i64 "from_row") = Some 42.
Proof.
  destruct (build_child_prompt "browser.sheet_row_backfill" sheet_params 40 20) as [s|x] eqn:E;
    [|vm_compute in E; discriminate E].
  exists s. split; [reflexivity|].
  destruct (child_prompt_tells "browser.sheet_row_backfill" sheet_params 40 20 s)
    as [_ [[Hc _]|(_ & Hf & _)]];
    [vm_compute; repeat split; discriminate|vm_compute; repeat split; discriminate|exact E
    |intros v ->; apply Printer.parse_print|discriminate Hc|].
  rewrite Hf. vm_compute. reflexivity.
Defined.
