(* ===== verification/Txn.v ===== *)
(** * Transactions beside others

    Several tasks work on one database whose transactions see what others have
    committed before each statement (read committed).  A transaction keeps its
    writes to itself until it commits; meanwhile the rows it has written or
    locked stay as they are.  What a component's transactions write, and what the
    others leave alone meanwhile, is its [Overlay]. *)
From S2P Require Import Prelude Ts World Db Shared.

(** The writes of a transaction on a database *)
Class Overlay (DB W : Type) := {
  no_writes : W;
  (** the later writes come first *)
  merge_writes : W -> W -> W;
  (** what a transaction sees *)
  view : W -> DB -> DB;
  (** what others may do to a database while these rows are locked *)
  locked_out : W -> DB -> DB -> Prop;
  merge_no_writes ws : merge_writes no_writes ws = ws;
  view_no_writes d : view no_writes d = d;
  locked_out_no_writes d d' : locked_out no_writes d d';
}.
(** What the others do before the [n]-th step of someone who holds locks. *)
Class Rivals (DB W : Type) := rivals : W -> nat -> DB -> DB.
#[export] Instance others_rivals {DB W} `{!Overlay DB W} `{!Rivals DB W} : Others DB :=
  rivals no_writes.

Section Txn.
Context {DB W : Type} `{!Chrono} `{!Overlay DB W} `{!Rivals DB W}.
Notation M := (M DB).


(** A part of a transaction *)
Definition T (A : Type) : Type := W -> M (A * W).
Definition beside (ws : W) : M () := fun e w =>
  (Ok tt, {| w with db := rivals ws w.(n_sql) w.(db) |}).
Definition tstmt {A} (f : DateTime -> DB -> result (A * W)) : T A := fun ws =>
  beside ws;;
  sql (fun now d => p ← f now (view ws d); Ok ((p.1, merge_writes p.2 ws), d)).
#[global] Instance T_ret : MRet T := fun A a ws => mret (a, ws).
#[global] Instance T_bind : MBind T := fun A B f m ws => p ← m ws; f p.1 p.2.
Definition tlift {A} (r : result A) : T A := fun ws => a ← lift r; mret (a, ws).
(** The code of the process inside a transaction *)
Definition tcode {A} (m : M A) : T A := fun ws => a ← m; mret (a, ws).

Definition commit (ws : W) : M () := beside ws;; sql (fun _ d => Ok (tt, view ws d)).
(** [pool.begin()], the statements, [commit()]; dropping it rolls it back. *)
Definition txn {A} (m : T A) : M A := fun e w =>
  match (interleave;; query (fun now _ => now)) e w with
  | (Err x, w) => (Err x, w)
  | (Ok now, w) =>
      let '(r, w) := (p ← m no_writes; commit p.2;; mret p.1) e {| w with txn_now := Some now |} in
      (r, {| w with txn_now := None |})
  end.

(** ** Reasoning *)

Section Reasoning.
Context (R : DB -> DB -> Prop) `{!PreOrder R}.
Context (Hrivals : forall ws n d, R d (rivals ws n d) /\ locked_out ws d (rivals ws n d)).

Lemma rivals_others n d : R d (others n d).
Proof. apply Hrivals. Qed.

(** An assertion the others cannot break. *)
Definition stable (P : W -> DB -> Prop) : Prop :=
  forall ws d d', P ws d -> R d d' -> locked_out ws d d' -> P ws d'.

(** A part of a transaction started in [P]: the database takes only steps of
    [R], and [Q] holds at the end. *)
Definition within {A} (P : W -> DB -> Prop) (m : T A)
    (Q : A -> W -> DB -> Prop) : Prop :=
  forall e w ws r w', P ws w.(db) -> m ws e w = (r, w') ->
    R w.(db) w'.(db) /\ forall a ws', r = Ok (a, ws') -> Q a ws' w'.(db).

Lemma within_ret {A} (a : A) P (Q : A -> W -> DB -> Prop) :
  (forall ws d, P ws d -> Q a ws d) -> within P (mret a) Q.
Proof. intros HQ e w ws r w' HP [= <- <-]. split; [done|]. intros ? ? [= <- <-]. auto. Qed.
Lemma within_bind {A B} (m : T A) (f : A -> T B) P Q S :
  within P m Q -> (forall a, within (Q a) (f a) S) -> within P (m ≫= f) S.
Proof.
  intros Hm Hf e w ws r w' HP E.
  apply bind_cases in E as [(x & E & ->)|([a ws1] & w1 & E & E')].
  - apply Hm in E as [? _]; [|done]. split; [done|]. by intros ? ? [=].
  - apply Hm in E as [HR HQ]; [|done]. apply Hf in E' as [HR' HS]; [|by eapply HQ].
    split; [by etransitivity|done].
Qed.
Lemma within_conseq {A} (m : T A) (P P' : W -> DB -> Prop) (Q Q' : A -> W -> DB -> Prop) :
  within P m Q -> (forall ws d, P' ws d -> P ws d) -> (forall a ws d, Q a ws d -> Q' a ws d) ->
  within P' m Q'.
Proof.
  intros Hm HP HQ e w ws r w' Hp E. apply Hm in E as [HR Hq]; [|by apply HP]. split; [done|]. auto.
Qed.
Lemma within_pure {A} (m : T A) (F : Prop) P (Q : A -> W -> DB -> Prop) :
  (F -> within P m Q) -> within (fun ws d => F /\ P ws d) m Q.
Proof. intros Hm e w ws r w' [HF HP] E. by eapply Hm. Qed.
Lemma within_exists {A X} (m : T A) (P : X -> W -> DB -> Prop) (Q : A -> W -> DB -> Prop) :
  (forall x, within (P x) m Q) -> within (fun ws d => exists x, P x ws d) m Q.
Proof. intros Hm e w ws r w' [x HP] E. by eapply Hm. Qed.
Lemma within_stmt {A} (f : DateTime -> DB -> result (A * W)) P
    (Q : A -> W -> DB -> Prop) :
  stable P ->
  (forall now ws d a new, P ws d -> f now (view ws d) = Ok (a, new) -> Q a (merge_writes new ws) d) ->
  within P (tstmt f) Q.
Proof.
  intros Hst Hf e w ws r w' HP E.
  apply bind_cases in E as [(x & E & _)|([] & w1 & E & E')]; [done|]. injection E as <-.
  destruct (Hrivals ws w.(n_sql) w.(db)) as [HR HL].
  pose proof (Hst _ _ _ HP HR HL) as HP'. unfold sql in E'. cbn in E'.
  assert (R w.(db) w'.(db) /\ forall a ws', r = Ok (a, ws') ->
    exists now new, f now (view ws (rivals ws w.(n_sql) w.(db))) = Ok (a, new) /\
      ws' = merge_writes new ws /\ w'.(db) = rivals ws w.(n_sql) w.(db)) as [Hd Hr].
  { destruct (txn_now w) as [now|]; cbn in E'; (case_match; [injection E' as <- <-; by split|]);
      match type of E' with context [f ?now ?v] => destruct (f now v) as [[a new]|x] eqn:Ef end;
      injection E' as <- <-; (split; [done|]); try (by intros ? ? [=]); intros ? ? [= <- <-]; eauto 10. }
  split; [done|]. intros a ws' (now & new & Ef & -> & ->)%Hr. by eapply Hf.
Qed.
Lemma within_code {A} (m : M A) P (Q : A -> W -> DB -> Prop) :
  reads m -> (forall ws d a, P ws d -> Q a ws d) -> within P (tcode m) Q.
Proof.
  intros Hm HQ e w ws r w' HP E. apply bind_cases in E as [(x & E & ->)|(a & w1 & E & E')].
  - apply Hm in E as ->. split; [done|]. by intros ? ? [=].
  - apply Hm in E. injection E' as <- <-. rewrite E. split; [done|]. intros ? ? [= <- <-]. auto.
Qed.
Lemma within_lift {A} (x : result A) P (Q : A -> W -> DB -> Prop) :
  (forall ws d a, x = Ok a -> P ws d -> Q a ws d) -> within P (tlift x) Q.
Proof.
  intros HQ e w ws r w' HP E. destruct x as [a|x]; injection E as <- <-; (split; [done|]);
    [|by intros ? ? [=]]. intros ? ? [= <- <-]. auto.
Qed.

Lemma commit_steps ws e w x w' :
  commit ws e w = (x, w') -> exists d, R w.(db) d /\ locked_out ws w.(db) d /\
    ((x = Ok tt /\ w'.(db) = view ws d) \/ (x <> Ok tt /\ w'.(db) = d)).
Proof.
  intros [(? & E & _)|([] & w1 & E & E')]%bind_cases; [done|]. injection E as <-.
  destruct (Hrivals ws w.(n_sql) w.(db)) as [HR HL]. eexists. split; [exact HR|]. split; [exact HL|].
  unfold sql in E'. cbn in E'. destruct (txn_now w); cbn in E'; case_match;
    injection E' as <- <-; cbn; auto.
Qed.
(** A transaction commits its writes, or leaves nothing. *)
Lemma txn_cases {A} (m : T A) (P : DB -> Prop) (Q : A -> W -> DB -> Prop) e w r w' :
  (forall d d', P d -> R d d' -> P d') ->
  within (fun ws d => ws = no_writes /\ P d) m Q -> (forall a, stable (Q a)) ->
  P w.(db) -> txn m e w = (r, w') ->
  exists d, R w.(db) d /\
    ((exists x, r = Err x) /\ w'.(db) = d \/
     exists a ws, r = Ok a /\ Q a ws d /\ w'.(db) = view ws d).
Proof.
  intros HPst Hm HQst HP E. unfold txn in E.
  assert (forall x v, (interleave;; query (fun now _ => now)) e w = (x, v) -> R w.(db) v.(db)) as Hb.
  { intros x v E0. apply bind_cases in E0 as [(? & E0 & _)|([] & w1 & E0 & E1)]; [done|].
    injection E0 as <-. apply reads_query in E1. rewrite E1. apply rivals_others. }
  destruct ((interleave;; query _) e w) as [[now|x] w1] eqn:E1.
  2: { injection E as <- <-. eexists. split; [exact (Hb _ _ eq_refl)|]. left. eauto. }
  pose proof (Hb _ _ eq_refl) as HR1. destruct ((p ← m no_writes; _) e _) as [r0 w2] eqn:E2.
  injection E as <- <-. cbn. set (v := {| db := db w1; txn_now := Some now |}) in E2.
  assert ((fun ws d => ws = no_writes /\ P d) no_writes v.(db)) as HP1 by (split; [done|by eapply HPst]).
  apply bind_cases in E2 as [(x & E2 & ->)|([a ws] & w3 & E2 & E3)].
  { apply (Hm _ _ _ _ _ HP1) in E2 as [HR2 _]. exists w2.(db). split; [by etransitivity|]. eauto. }
  apply (Hm _ _ _ _ _ HP1) in E2 as [HR2 HQ2]. specialize (HQ2 _ _ eq_refl).
  apply bind_cases in E3 as [(x & E3 & ->)|([] & w4 & E3 & E4)];
    apply commit_steps in E3 as (d & HR3 & HL & Hc); exists d;
    (split; [etransitivity; [exact HR1|]; by etransitivity|]).
  - destruct Hc as [[[=] _]|[_ ->]]. eauto.
  - destruct Hc as [[_ Hd]|[[] _]]; [|done]. injection E4 as <- <-. right. exists a, ws.
    split_and!; [done| |exact Hd]. exact (HQst _ _ _ _ HQ2 HR3 HL).
Qed.
(** A transaction whose writes are a step of [R] at its end. *)
Lemma txn_steps {A} (m : T A) (P : DB -> Prop) (Q : A -> W -> DB -> Prop) e w r w' :
  (forall d d', P d -> R d d' -> P d') ->
  within (fun ws d => ws = no_writes /\ P d) m Q ->
  (forall a, stable (Q a)) -> (forall a ws d, Q a ws d -> R d (view ws d)) ->
  P w.(db) -> txn m e w = (r, w') ->
  R w.(db) w'.(db) /\ forall a, r = Ok a -> exists ws d, Q a ws d /\ w'.(db) = view ws d.
Proof.
  intros HPst Hm HQst HQ HP E.
  destruct (txn_cases _ _ _ _ _ _ _ HPst Hm HQst HP E) as (d & HR & [([x ->] & ->)|(a & ws & -> & Ha & ->)]).
  - split; [done|]. by intros ? [=].
  - split; [etransitivity; [exact HR|by eapply HQ]|]. intros ? [= <-]. eauto.
Qed.
End Reasoning.
End Txn.

(** ** Writes

    [UPDATE ... SET ... WHERE P]: the rows it writes *)
Section RowsWhere.
Context `{!Chrono} `{Countable K} {R : Type}.
Implicit Types (P : K -> Row R -> bool) (f : Row R -> Row R) (t : gmap K (Row R)).
Definition rows_where P f t : gmap K (Row R) :=
  f <$> filter (fun kr => P kr.1 kr.2 = true) t.
Lemma lookup_rows_where P f t k :
  rows_where P f t !! k = r ← t !! k; if P k r then Some (f r) else None.
Proof.
  unfold rows_where. rewrite lookup_fmap, map_lookup_filter. destruct (t !! k) as [r|]; [|done].
  cbn. destruct (P k r) eqn:E; [rewrite option_guard_True by done|rewrite option_guard_False by congruence];
    done.
Qed.
End RowsWhere.
