(* ===== verification/QueueData.v ===== *)
(** * Queue messages and tables ([_/schemas/proto/c35/site.proto], [site.sql])

    The rows of [site.queue], [site.queue_run] and [site.queue_ticket], the
    messages about them, the results of the guest functions, and what a
    transaction on these tables keeps from the others. *)
From S2P Require Import Prelude Strs Ts World Json Db Shared.
From S2P Require Export Txn.

(** ** Rows *)

Module QueueRow.
#[projections(primitive)]
Record QueueRow := mk {
  owner_iid : Z;
  name : string;
  description : string;
  mode : string;
  prefix : string;
  last_ticket_no : Z;
  serving_ticket_no : Z;
  is_active : bool;
  fields : Value;
  take_online : bool;
  reset_policy : Value;
  sort_order : Z;
  meta_json : Value;
}.
End QueueRow.
Notation QueueRow := QueueRow.QueueRow.

(** A run has [closed_ts] and no [deleted_ts]. *)
Module QRunRow.
#[projections(primitive)]
Record QRunRow `{!Chrono} := mk {
  queue_id : Z;
  owner_iid : Z;
  next_number : Z;
  serving_number : Z;
  status : string;
  reset_reason : string;
  closed_ts : option DateTime;
}.
End QRunRow.
Notation QRunRow := QRunRow.QRunRow.

Module TicketRow.
#[projections(primitive)]
Record TicketRow `{!Chrono} := mk {
  queue_id : Z;
  run_id : Z;
  owner_iid : Z;
  ticket_no : Z;
  track_token : string;
  display_label : string;
  guest_name : string;
  guest_phone : string;
  answers : Value;
  status : string;
  called_at : option DateTime;
  done_at : option DateTime;
}.
End TicketRow.
Notation TicketRow := TicketRow.TicketRow.

(** ** Messages *)

Module SiteQueue.
#[projections(primitive)]
Record SiteQueue := mk {
  site_iid : Z;
  queue_id : Z;
  owner_iid : Z;
  name : string;
  mode : string;
  prefix : string;
  last_ticket_no : Z;
  serving_ticket_no : Z;
  is_active : bool;
  meta_json : string;
  description : string;
  fields_json : string;
  take_online : bool;
  reset_policy_json : string;
  sort_order : Z;
  created_ts_ms : Z;
  updated_ts_ms : Z;
  deleted_ts_ms : Z;
}.
End SiteQueue.
Notation SiteQueue := SiteQueue.SiteQueue.

Module SiteQueueRun.
#[projections(primitive)]
Record SiteQueueRun := mk {
  site_iid : Z;
  run_id : Z;
  queue_id : Z;
  next_number : Z;
  serving_number : Z;
  status : string;
  reset_reason : string;
  created_ts_ms : Z;
  updated_ts_ms : Z;
  closed_ts_ms : Z;
}.
End SiteQueueRun.
Notation SiteQueueRun := SiteQueueRun.SiteQueueRun.

Module SiteQueueTicket.
#[projections(primitive)]
Record SiteQueueTicket := mk {
  site_iid : Z;
  ticket_id : Z;
  queue_id : Z;
  run_id : Z;
  ticket_no : Z;
  display_label : string;
  status : string;
  guest_name : string;
  guest_phone : string;
  answers_json : string;
  track_token : string;
  called_at_ms : Z;
  done_at_ms : Z;
  created_ts_ms : Z;
  updated_ts_ms : Z;
}.
End SiteQueueTicket.
Notation SiteQueueTicket := SiteQueueTicket.SiteQueueTicket.

Module SiteQueueBoard.
#[projections(primitive)]
Record SiteQueueBoard := mk {
  queue : SiteQueue;
  run : SiteQueueRun;
  waiting : list SiteQueueTicket;
  serving : option SiteQueueTicket;
  called : option SiteQueueTicket;
}.
End SiteQueueBoard.
Notation SiteQueueBoard := SiteQueueBoard.SiteQueueBoard.

Module GuestQueueTakeResult.
#[projections(primitive)]
Record GuestQueueTakeResult := mk {
  ok : bool;
  ticket_id : Z;
  ticket_no : Z;
  queue_id : Z;
  serving_ticket_no : Z;
  display_label : string;
  track_token : string;
  error : string;
}.
End GuestQueueTakeResult.
Notation GuestQueueTakeResult := GuestQueueTakeResult.GuestQueueTakeResult.

Module GuestQueueGetResult.
#[projections(primitive)]
Record GuestQueueGetResult := mk {
  ok : bool;
  ticket_id : Z;
  ticket_no : Z;
  queue_id : Z;
  status : string;
  serving_ticket_no : Z;
  display_label : string;
  track_token : string;
  error : string;
}.
End GuestQueueGetResult.
Notation GuestQueueGetResult := GuestQueueGetResult.GuestQueueGetResult.

Module GuestQueueTrackResult.
#[projections(primitive)]
Record GuestQueueTrackResult := mk {
  ok : bool;
  ticket_id : Z;
  ticket_no : Z;
  queue_id : Z;
  status : string;
  serving_number : Z;
  position_ahead : Z;
  display_label : string;
  error : string;
}.
End GuestQueueTrackResult.
Notation GuestQueueTrackResult := GuestQueueTrackResult.GuestQueueTrackResult.

Module OpenRun.
#[projections(primitive)]
Record OpenRun := mk { run_id : Z; next_number : Z; serving_number : Z }.
End OpenRun.
Notation OpenRun := OpenRun.OpenRun.

(** ** Tables *)

(** Each is keyed by the site and the row's own number. *)
Record Queues `{!Chrono} := {
  q_base : Db;
  t_queue : gmap (Z * Z) (Row QueueRow);
  t_qrun : gmap (Z * Z) (Row QRunRow);
  t_ticket : gmap (Z * Z) (Row TicketRow);
}.

(** [status='open' AND closed_ts IS NULL] *)
Definition is_open `{!Chrono} (r : Row QRunRow) : bool :=
  String.eqb r.(cols).(QRunRow.status) "open"
  && match r.(cols).(QRunRow.closed_ts) with None => true | Some _ => false end.

(** The columns' defaults *)
Definition default_reset_policy : Value :=
  json_object [("mode", Str "daily"); ("at", Str "00:00"); ("timezone", Str "Asia/Jakarta")].
Definition queue_default (owner_iid : Z) (name : string) : QueueRow :=
  {| QueueRow.owner_iid := owner_iid; QueueRow.name := name; QueueRow.description := "";
     QueueRow.mode := "fifo"; QueueRow.prefix := ""; QueueRow.last_ticket_no := 0;
     QueueRow.serving_ticket_no := 0; QueueRow.is_active := true; QueueRow.fields := Array [];
     QueueRow.take_online := true; QueueRow.reset_policy := default_reset_policy;
     QueueRow.sort_order := 0; QueueRow.meta_json := json_object [] |}.

(** ** Transactions on the queue tables

    What a transaction of the queue functions writes, and what others leave alone
    while it is open: the rows it has written or locked, and nobody else opens a
    run of a queue that has an open one among its writes. *)

Section Txn.
Context `{!Chrono}.

(** The rows a transaction has written or locked *)
Record Writes := {
  w_queue : gmap (Z * Z) (Row QueueRow);
  w_qrun : gmap (Z * Z) (Row QRunRow);
  w_ticket : gmap (Z * Z) (Row TicketRow);
}.
Definition queue_no_writes : Writes := {| w_queue := ∅; w_qrun := ∅; w_ticket := ∅ |}.
(** The later writes come first. *)
Definition queue_merge (new old : Writes) : Writes :=
  {| w_queue := new.(w_queue) ∪ old.(w_queue); w_qrun := new.(w_qrun) ∪ old.(w_qrun);
     w_ticket := new.(w_ticket) ∪ old.(w_ticket) |}.
(** What a transaction sees *)
Definition queue_view (ws : Writes) (d : Queues) : Queues :=
  {| q_base := d.(q_base); t_queue := ws.(w_queue) ∪ d.(t_queue);
     t_qrun := ws.(w_qrun) ∪ d.(t_qrun); t_ticket := ws.(w_ticket) ∪ d.(t_ticket) |}.

(** The run [k] is the open one of a queue. *)
Definition open_of (t : gmap (Z * Z) (Row QRunRow)) (site_iid queue_id : Z) (k : Z * Z) : Prop :=
  exists r, t !! k = Some r /\ is_open r = true /\ k.1 = site_iid /\
    r.(cols).(QRunRow.queue_id) = queue_id.
Record queue_locked_out (ws : Writes) (d d' : Queues) : Prop := {
  same_queue k : is_Some (ws.(w_queue) !! k) -> d'.(t_queue) !! k = d.(t_queue) !! k;
  same_qrun k : is_Some (ws.(w_qrun) !! k) -> d'.(t_qrun) !! k = d.(t_qrun) !! k;
  same_ticket k : is_Some (ws.(w_ticket) !! k) -> d'.(t_ticket) !! k = d.(t_ticket) !! k;
  no_new_open site_iid queue_id k0 k : open_of ws.(w_qrun) site_iid queue_id k0 ->
    open_of d'.(t_qrun) site_iid queue_id k -> open_of d.(t_qrun) site_iid queue_id k;
}.

#[export] Program Instance queue_overlay : Overlay Queues Writes := {|
  no_writes := queue_no_writes; merge_writes := queue_merge; view := queue_view;
  locked_out := queue_locked_out |}.
Next Obligation. intros []. unfold queue_merge. cbn. by rewrite !(left_id_L ∅ (∪)). Qed.
Next Obligation. intros []. unfold queue_view. cbn. by rewrite !(left_id_L ∅ (∪)). Qed.
Next Obligation.
  split; cbn; intros *; try (rewrite lookup_empty; intros [? [=]]).
  intros (r & E & _). by rewrite lookup_empty in E.
Qed.
End Txn.
Notation Rivals := (Rivals Queues Writes).
Notation tstmt := (tstmt (DB := Queues) (W := Writes)).
Notation tlift := (tlift (DB := Queues) (W := Writes)).
Notation tcode := (tcode (DB := Queues) (W := Writes)).
Notation txn := (txn (DB := Queues) (W := Writes)).
