(* ===== verification/Queue.v ===== *)
(** * Queues of a site ([servers/crates/mod_site/src/queue_csa.rs],
      [wire_http/src/guest_queue.rs])

    Guests take numbered tickets of a queue, the staff calls them in turn.  A
    queue's tickets belong to its open run; a new run starts the numbers again.
    Handlers run beside others, see [Txn]. *)
From stdpp Require Import sorting pretty.
From S2P Require Import Prelude Strs Normalizer Ts World Json Db Grant Shared QueueData.

(** ** Text *)

Fixpoint zeros (n : nat) : string := match n with O => "" | S n => String (Ascii.ascii_of_nat 48) (zeros n) end.
(** [{:0width$}] of a digit string *)
Definition pad_zeros (width : nat) (s : string) : string := zeros (width - String.length s) +:+ s.

Definition display_label_for_ticket (prefix : string) (ticket_no : Z) : string :=
  let num := pad_zeros 3 (pretty (Z.max ticket_no 0)) in
  let p := trim prefix in
  if is_empty p then num else p +:+ "-" +:+ num.

(** [{:x}] of a number below [16 ^ n] *)
Definition hex_digit (d : Z) : string := default "" (String.get (Z.to_nat d) "0123456789abcdef" ≫=
  (fun c => Some (String c ""))).
Fixpoint hex (n : nat) (z : Z) : string :=
  match n with
  | O => ""
  | S n => if z <? 16 then hex_digit z else hex n (z / 16) +:+ hex_digit (z mod 16)
  end.

(** The column type [VARCHAR(n)] cuts off spaces and refuses other characters
    beyond the [n]-th. *)
Definition varchar (n : nat) (s : string) : result string :=
  let cs := chars (bytes s) in
  if (length cs <=? n)%nat then Ok s
  else if forallb (fun c => bool_decide (c = [Ascii.ascii_of_nat 32])) (drop n cs)
  then Ok (of_bytes (concat (take n cs)))
  else Err "value too long".

Definition DEFAULT_QUEUE_ID : Z := 1.
Definition resolve_queue_id (queue_id : Z) : Z :=
  if 0 <? queue_id then queue_id else DEFAULT_QUEUE_ID.

Definition validate_queue_answers (fields : Value) (answers : list (string * Value)) : result () :=
  foldl (fun r field =>
    _ ← r;
    let name := trim (default "" (get "name" field ≫= as_str)) in
    if is_empty name then Ok tt
    else
      let required := default false (get "required" field ≫= as_bool) in
      let text := trim (default "" (assoc name answers ≫= as_str)) in
      if required && is_empty text
      then Err (default name (get "label" field ≫= as_str) +:+ " wajib diisi")
      else Ok tt) (Ok tt) (default [] (as_array fields)).

(** ** Time zones and random numbers

    [chrono-tz] and the parser of times of day *)
Class Calendar `{!Chrono} := {
  Tz : Type;
  (** [str::parse::<Tz>()] *)
  parse_tz : string -> option Tz;
  jakarta : Tz;
  (** [NaiveTime::parse_from_str]: hour and minute, by format and text *)
  parse_time : string -> string -> option (Z * Z);
  (** the date of an instant in a zone, as a number of days *)
  local_day : Tz -> DateTime -> Z;
  (** [with_ymd_and_hms(..., hour, minute, 0).single()] *)
  at_local : Tz -> Z -> Z * Z -> option DateTime;
}.
(** The start of a day in local time comes after all instants of the days before
    and not after those of the days after. *)
Class CalendarLaws `{!Chrono} `{!Calendar} := {
  at_local_past tz day hm t now :
    at_local tz day hm = Some t -> day < local_day tz now -> dt_ltb now t = false;
  at_local_future tz day hm t now :
    at_local tz day hm = Some t -> local_day tz now < day -> dt_ltb now t = true;
}.
(** [rand::thread_rng().gen::<u64>()], at the [n]-th step *)
Class Rng := rand_u64 : nat -> Z.
(** The ticket is locked by another transaction at the [n]-th step. *)
Class Locked := locked : nat -> Z * Z -> bool.

Section Queue.
Context `{!Chrono} `{!SerdeJson} `{!Order} `{!Calendar} `{!Rng} `{!Locked} `{!Rivals}.
Notation M := (M Queues).
Notation T := (T (DB := Queues) (W := Writes)).

(** A query of the other tables of the site *)
Definition zoom {A} (m : World.M Db A) : M A := fun e w =>
  let '(r, v) := m e {| db := w.(db).(q_base); n_clock := w.(n_clock); n_ids := w.(n_ids);
                        n_sql := w.(n_sql); txn_now := w.(txn_now) |} in
  let d := w.(db) in
  (r, {| db := {| d with q_base := v.(db) |}; n_clock := v.(n_clock); n_ids := v.(n_ids);
         n_sql := v.(n_sql); txn_now := v.(txn_now) |}).
Definition on_base {A} (m : World.M Db A) : M A := interleave;; zoom m.

(** ** Rows and messages *)

Definition queue_from_row (site_iid queue_id : Z) (r : Row QueueRow) : SiteQueue :=
  let c := r.(cols) in
  {| SiteQueue.site_iid := site_iid; SiteQueue.queue_id := queue_id;
     SiteQueue.owner_iid := c.(QueueRow.owner_iid); SiteQueue.name := c.(QueueRow.name);
     SiteQueue.mode := c.(QueueRow.mode); SiteQueue.prefix := c.(QueueRow.prefix);
     SiteQueue.last_ticket_no := c.(QueueRow.last_ticket_no);
     SiteQueue.serving_ticket_no := c.(QueueRow.serving_ticket_no);
     SiteQueue.is_active := c.(QueueRow.is_active);
     SiteQueue.meta_json := to_string c.(QueueRow.meta_json);
     SiteQueue.description := c.(QueueRow.description);
     SiteQueue.fields_json := to_string c.(QueueRow.fields);
     SiteQueue.take_online := c.(QueueRow.take_online);
     SiteQueue.reset_policy_json := to_string c.(QueueRow.reset_policy);
     SiteQueue.sort_order := c.(QueueRow.sort_order);
     SiteQueue.created_ts_ms := ts_ms (Some r.(created_ts));
     SiteQueue.updated_ts_ms := ts_ms (Some r.(updated_ts));
     SiteQueue.deleted_ts_ms := ts_ms r.(deleted_ts) |}.
Definition ticket_from_row (site_iid queue_id run_id ticket_id : Z) (r : Row TicketRow)
    : SiteQueueTicket :=
  let c := r.(cols) in
  {| SiteQueueTicket.site_iid := site_iid; SiteQueueTicket.ticket_id := ticket_id;
     SiteQueueTicket.queue_id := queue_id; SiteQueueTicket.run_id := run_id;
     SiteQueueTicket.ticket_no := c.(TicketRow.ticket_no);
     SiteQueueTicket.display_label := c.(TicketRow.display_label);
     SiteQueueTicket.status := c.(TicketRow.status);
     SiteQueueTicket.guest_name := c.(TicketRow.guest_name);
     SiteQueueTicket.guest_phone := c.(TicketRow.guest_phone);
     SiteQueueTicket.answers_json := to_string c.(TicketRow.answers);
     SiteQueueTicket.track_token := c.(TicketRow.track_token);
     SiteQueueTicket.called_at_ms := ts_ms c.(TicketRow.called_at);
     SiteQueueTicket.done_at_ms := ts_ms c.(TicketRow.done_at);
     SiteQueueTicket.created_ts_ms := ts_ms (Some r.(created_ts));
     SiteQueueTicket.updated_ts_ms := ts_ms (Some r.(updated_ts)) |}.
Definition run_from_row (site_iid queue_id run_id : Z) (r : Row QRunRow) : SiteQueueRun :=
  let c := r.(cols) in
  {| SiteQueueRun.site_iid := site_iid; SiteQueueRun.run_id := run_id;
     SiteQueueRun.queue_id := queue_id; SiteQueueRun.next_number := c.(QRunRow.next_number);
     SiteQueueRun.serving_number := c.(QRunRow.serving_number);
     SiteQueueRun.status := c.(QRunRow.status); SiteQueueRun.reset_reason := c.(QRunRow.reset_reason);
     SiteQueueRun.created_ts_ms := ts_ms (Some r.(created_ts));
     SiteQueueRun.updated_ts_ms := ts_ms (Some r.(updated_ts));
     SiteQueueRun.closed_ts_ms := ts_ms c.(QRunRow.closed_ts) |}.

Definition load_queue_row (site_iid queue_id : Z) : M (Row QueueRow) :=
  row ← read (fun _ d => t_get (site_iid, queue_id) d.(t_queue));
  lift (ok_or row "queue not found").

(** ** Runs *)

Definition day_boundary (tz : Tz) (at_hhmm : string) : M DateTime :=
  t ← lift (ok_or (match parse_time "%H:%M" at_hhmm with
                   | Some t => Some t | None => parse_time "%H:%M:%S" at_hhmm end) "bad time");
  now ← utc_now;
  today ← lift (ok_or (at_local tz (local_day tz now) t) "bad boundary");
  if negb (dt_ltb now today) then mret today
  else lift (ok_or (at_local tz (local_day tz now - 1) t) "bad boundary").

(** The open runs of a queue, the latest first *)
Definition open_runs (site_iid queue_id : Z) (d : Queues) : list ((Z * Z) * Row QRunRow) :=
  merge_sort by_created_desc (filter (fun e => (e.1.1 =? site_iid)
    && (e.2.(cols).(QRunRow.queue_id) =? queue_id) && is_open e.2 = true) (order d.(t_qrun))).

Definition of_queue_run (site_iid queue_id : Z) (k : Z * Z) (r : Row QRunRow) : bool :=
  (k.1 =? site_iid) && (r.(cols).(QRunRow.queue_id) =? queue_id) && is_open r.
Definition close_runs (site_iid queue_id : Z) (reason : string) : T () :=
  tstmt (fun now d => reason ← varchar 32 reason;
    Ok (tt, {| no_writes with w_qrun := rows_where (of_queue_run site_iid queue_id)
      (set_cols now (fun c => {| c with QRunRow.status := "closed"; QRunRow.closed_ts := Some now;
                                        QRunRow.reset_reason := reason |})) d.(t_qrun) |})).
(** [INSERT INTO site.queue_run]: the number is unique within the site, and so is
    the open run of a queue. *)
Definition insert_run (site_iid run_id queue_id owner_iid : Z) (reason : string) : T () :=
  tstmt (fun now d => reason ← varchar 32 reason;
    match d.(t_qrun) !! (site_iid, run_id), open_runs site_iid queue_id d,
          d.(t_queue) !! (site_iid, queue_id) with
    | None, [], Some _ => Ok (tt, {| no_writes with w_qrun :=
        {[ (site_iid, run_id) := new_row now
           {| QRunRow.queue_id := queue_id; QRunRow.owner_iid := owner_iid;
              QRunRow.next_number := 1; QRunRow.serving_number := 0; QRunRow.status := "open";
              QRunRow.reset_reason := reason; QRunRow.closed_ts := None |} ]} |})
    | _, _, None => Err "violates foreign key constraint"
    | _, _, _ => Err "duplicate key value violates unique constraint"
    end).
(** [UPDATE site.queue SET ... WHERE site_iid=$1 AND queue_id=$2] *)
Definition update_queue (site_iid queue_id : Z) (f : QueueRow -> QueueRow) : T () :=
  tstmt (fun now d => Ok (tt, {| no_writes with w_queue :=
    rows_where (fun k _ => bool_decide (k = (site_iid, queue_id))) (set_cols now f) d.(t_queue) |})).
Definition update_run (site_iid run_id : Z) (f : QRunRow -> result QRunRow) : T () :=
  tstmt (fun now d => match d.(t_qrun) !! (site_iid, run_id) with
    | Some r => c ← f r.(cols); Ok (tt, {| no_writes with w_qrun :=
        {[ (site_iid, run_id) := set_cols now (fun _ => c) r ]} |})
    | None => Ok (tt, no_writes)
    end).

Definition open_new_run (site_iid queue_id owner_iid : Z) (reason : string) : M OpenRun :=
  txn (
    close_runs site_iid queue_id reason;;
    run_id ← tcode next_id;
    insert_run site_iid run_id queue_id owner_iid reason;;
    update_queue site_iid queue_id (fun c =>
      {| c with QueueRow.last_ticket_no := 0; QueueRow.serving_ticket_no := 0 |});;
    mret {| OpenRun.run_id := run_id; OpenRun.next_number := 1; OpenRun.serving_number := 0 |}).

Definition maybe_daily_reset (site_iid queue_id owner_iid : Z) (policy : Value) : M () :=
  if negb (bool_decide ((get "mode" policy ≫= as_str) = Some "daily")) then mret tt
  else
    let tz := default jakarta (parse_tz (default "Asia/Jakarta" (get "timezone" policy ≫= as_str))) in
    let at_ := default "00:00" (get "at" policy ≫= as_str) in
    boundary ← day_boundary tz at_;
    row ← read (fun _ d => head (open_runs site_iid queue_id d));
    created ← match row with Some e => mret e.2.(created_ts) | None => utc_now end;
    if dt_ltb created boundary
    then open_new_run site_iid queue_id owner_iid "daily";; mret tt else mret tt.

Definition ensure_open_run (site_iid queue_id owner_iid : Z) (policy : Value) : M OpenRun :=
  maybe_daily_reset site_iid queue_id owner_iid policy;;
  row ← read (fun _ d => head (open_runs site_iid queue_id d));
  match row with
  | Some (k, r) => mret {| OpenRun.run_id := k.2; OpenRun.next_number := r.(cols).(QRunRow.next_number);
                           OpenRun.serving_number := r.(cols).(QRunRow.serving_number) |}
  | None => open_new_run site_iid queue_id owner_iid "open"
  end.

Definition bump_run_after_ticket (site_iid run_id ticket_no queue_id : Z) : T () :=
  update_run site_iid run_id (fun c =>
    if bool_decide (in_i32 (ticket_no + 1))
    then Ok {| c with QRunRow.next_number := Z.max c.(QRunRow.next_number) (ticket_no + 1) |}
    else Err "integer out of range");;
  update_queue site_iid queue_id (fun c =>
    {| c with QueueRow.last_ticket_no := Z.max c.(QueueRow.last_ticket_no) ticket_no |}).
Definition set_run_serving (site_iid run_id queue_id ticket_no : Z) : T () :=
  update_run site_iid run_id (fun c => Ok {| c with QRunRow.serving_number := ticket_no |});;
  update_queue site_iid queue_id (fun c => {| c with QueueRow.serving_ticket_no := ticket_no |}).

(** ** Tickets *)

(** [ORDER BY sort_order, queue_id] *)
Definition by_sort (a b : (Z * Z) * Row QueueRow) : Prop :=
  a.2.(cols).(QueueRow.sort_order) < b.2.(cols).(QueueRow.sort_order) \/
  a.2.(cols).(QueueRow.sort_order) = b.2.(cols).(QueueRow.sort_order) /\ a.1.2 <= b.1.2.
#[global] Instance by_sort_dec a b : Decision (by_sort a b).
Proof. unfold by_sort. apply _. Defined.

Definition by_number (a b : (Z * Z) * Row TicketRow) : Prop :=
  a.2.(cols).(TicketRow.ticket_no) <= b.2.(cols).(TicketRow.ticket_no).
#[global] Instance by_number_dec a b : Decision (by_number a b).
Proof. unfold by_number. apply _. Defined.
Definition by_number_desc (a b : (Z * Z) * Row TicketRow) : Prop := by_number b a.
#[global] Instance by_number_desc_dec a b : Decision (by_number_desc a b).
Proof. unfold by_number_desc. apply _. Defined.

(** [WHERE site_iid=$1 AND queue_id=$2 AND run_id=$3 AND ... AND deleted_ts IS NULL] *)
Definition in_run (site_iid queue_id run_id : Z) (P : string -> bool) (k : Z * Z) (r : Row TicketRow)
    : bool :=
  (k.1 =? site_iid) && (r.(cols).(TicketRow.queue_id) =? queue_id)
  && (r.(cols).(TicketRow.run_id) =? run_id) && P r.(cols).(TicketRow.status) && live r.
Definition select_tickets (P : Z * Z -> Row TicketRow -> bool) (d : Queues)
    : list ((Z * Z) * Row TicketRow) :=
  filter (fun e => P e.1 e.2 = true) (order d.(t_ticket)).

(** ** The staff *)

Definition site_queue_list (caller_iid site_iid : Z) : M (list SiteQueue) :=
  on_base (site_grant_check caller_iid site_iid false);;
  rows ← read (fun _ d => merge_sort by_sort (filter (fun e => (e.1.1 =? site_iid) && live e.2 = true)
    (order d.(t_queue))));
  mret ((fun e => queue_from_row e.1.1 e.1.2 e.2) <$> rows).

(** [$n::jsonb] *)
Definition jsonb (s : string) : result Value := ok_or (from_str s) "invalid input syntax for type json".

Definition queue_upsert (site_iid queue_id owner_iid : Z) (queue : SiteQueue) (now : DateTime)
    (d : Queues) : result (() * Queues) :=
  let or_default (s default : string) := if is_empty (trim s) then default else s in
  meta_json ← jsonb (or_default queue.(SiteQueue.meta_json) "{}");
  fields ← jsonb (or_default queue.(SiteQueue.fields_json) "[]");
  reset_policy ← (if is_empty (trim queue.(SiteQueue.reset_policy_json))
    then Ok default_reset_policy else jsonb queue.(SiteQueue.reset_policy_json));
  mode ← varchar 32 (if is_empty queue.(SiteQueue.mode) then "fifo" else queue.(SiteQueue.mode));
  prefix ← varchar 16 queue.(SiteQueue.prefix);
  let new := {| QueueRow.owner_iid := owner_iid; QueueRow.name := trim queue.(SiteQueue.name);
    QueueRow.description := trim queue.(SiteQueue.description); QueueRow.mode := mode;
    QueueRow.prefix := prefix; QueueRow.last_ticket_no := queue.(SiteQueue.last_ticket_no);
    QueueRow.serving_ticket_no := queue.(SiteQueue.serving_ticket_no);
    QueueRow.is_active := queue.(SiteQueue.is_active); QueueRow.fields := fields;
    QueueRow.take_online := queue.(SiteQueue.take_online); QueueRow.reset_policy := reset_policy;
    QueueRow.sort_order := queue.(SiteQueue.sort_order); QueueRow.meta_json := meta_json |} in
  let row := match d.(t_queue) !! (site_iid, queue_id) with
    | Some r => mk_row {| new with QueueRow.owner_iid := r.(cols).(QueueRow.owner_iid);
                  QueueRow.last_ticket_no := r.(cols).(QueueRow.last_ticket_no);
                  QueueRow.serving_ticket_no := r.(cols).(QueueRow.serving_ticket_no) |}
                r.(created_ts) now None
    | None => new_row now new
    end in
  Ok (tt, {| d with t_queue := <[(site_iid, queue_id) := row]> d.(t_queue) |}).
Definition site_queue_put (caller_iid site_iid : Z) (queue : option SiteQueue) : M Z :=
  queue ← lift (ok_or queue "queue required");
  owner_iid ← on_base (site_grant_check caller_iid site_iid true);
  let queue_id := resolve_queue_id queue.(SiteQueue.queue_id) in
  stmt (queue_upsert site_iid queue_id owner_iid queue);;
  mret queue_id.

Definition site_grant_queue_staff (caller_iid site_iid : Z) : M Z :=
  row ← on_base (query (fun _ d => match t_get site_iid d.(t_identity) with
    | Some r => if String.eqb r.(cols).(IdentityRow.kind) "site"
                then Some (r.(cols).(IdentityRow.owner_iid),
                           (fun g => g.(cols).(GrantRow.role)) <$>
                             t_get (site_iid, caller_iid) d.(t_grant))
                else None
    | None => None
    end));
  '(owner, role) ← lift (ok_or row "site not found");
  owner_iid ← lift (ok_or owner "owner_iid is null");
  if owner_iid =? caller_iid then mret owner_iid
  else if site_role_rank "staff" <=? site_role_rank (default "" role) then mret owner_iid
  else throw "forbidden".

Definition update_tickets (P : Z * Z -> Row TicketRow -> bool) (f : DateTime -> TicketRow -> TicketRow)
    : T () :=
  tstmt (fun now d => Ok (tt, {| no_writes with w_ticket :=
    rows_where P (set_cols now (f now)) d.(t_ticket) |})).
(** The first waiting ticket nobody else has locked, which is locked now *)
Definition lock_first_waiting (site_iid queue_id run_id : Z)
    : T (option ((Z * Z) * Row TicketRow)) :=
  n ← tcode (fun e w => (Ok w.(n_sql), w));
  tstmt (fun _ d =>
    match filter (fun e => negb (locked n e.1) = true)
      (merge_sort by_number (select_tickets
        (in_run site_iid queue_id run_id (fun s => String.eqb s "waiting")) d)) with
    | (k, r) :: _ => Ok (Some (k, r), {| no_writes with w_ticket := {[ k := r ]} |})
    | [] => Ok (None, no_writes)
    end).

(** The tickets at the counter *)
Definition at_counter (s : string) : bool := String.eqb s "called" || String.eqb s "serving".
Definition call_next_txn (site_iid queue_id run_id : Z) : T ((Z * Z) * Row TicketRow) :=
  update_tickets (in_run site_iid queue_id run_id at_counter) (fun now c =>
    {| c with TicketRow.status := "skipped"; TicketRow.done_at := Some now |});;
  row ← lock_first_waiting site_iid queue_id run_id;
  '(k, r) ← tlift (ok_or row "no waiting tickets");
  update_tickets (fun k' _ => bool_decide (k' = (site_iid, k.2))) (fun now c =>
    {| c with TicketRow.status := "called"; TicketRow.called_at := Some now |});;
  set_run_serving site_iid run_id queue_id r.(cols).(TicketRow.ticket_no);;
  mret (k, r).
Definition site_queue_call_next (caller_iid site_iid queue_id : Z) : M SiteQueueTicket :=
  owner_iid ← site_grant_queue_staff caller_iid site_iid;
  let queue_id := resolve_queue_id queue_id in
  qrow ← load_queue_row site_iid queue_id;
  run ← ensure_open_run site_iid queue_id owner_iid qrow.(cols).(QueueRow.reset_policy);
  '(k, r) ← txn (call_next_txn site_iid queue_id run.(OpenRun.run_id));
  mret (ticket_from_row site_iid queue_id run.(OpenRun.run_id) k.2 r).
Definition site_queue_advance_serving (caller_iid site_iid queue_id : Z) : M Z :=
  ticket ← site_queue_call_next caller_iid site_iid queue_id;
  mret ticket.(SiteQueueTicket.ticket_no).

Definition set_ticket_status (site_iid ticket_id queue_id : Z) (status : string) (now : DateTime)
    (d : Queues) : result (option (Row TicketRow) * Queues) :=
  match t_get (site_iid, ticket_id) d.(t_ticket) with
  | Some r =>
      if r.(cols).(TicketRow.queue_id) =? queue_id then
        status ← varchar 16 status;
        let r := set_cols now (fun c => {| c with TicketRow.status := status;
          TicketRow.called_at := if at_counter status then
              match c.(TicketRow.called_at) with Some t => Some t | None => Some now end
            else c.(TicketRow.called_at);
          TicketRow.done_at := if bool_decide (status ∈ ["done"; "skipped"; "cancelled"])
            then Some now else c.(TicketRow.done_at) |}) r in
        Ok (Some r, {| d with t_ticket := <[(site_iid, ticket_id) := r]> d.(t_ticket) |})
      else Ok (None, d)
  | None => Ok (None, d)
  end.
Definition site_queue_ticket_set_status (caller_iid site_iid queue_id ticket_id : Z) (status : string)
    : M SiteQueueTicket :=
  site_grant_queue_staff caller_iid site_iid;;
  let queue_id := resolve_queue_id queue_id in
  let status := to_lowercase (trim status) in
  row ← stmt (set_ticket_status site_iid ticket_id queue_id status);
  r ← lift (ok_or row "ticket not found");
  let run_id := r.(cols).(TicketRow.run_id) in
  (if at_counter status
   then txn (set_run_serving site_iid run_id queue_id r.(cols).(TicketRow.ticket_no))
   else mret tt);;
  mret (ticket_from_row site_iid queue_id run_id ticket_id r).

Definition site_queue_reset (caller_iid site_iid queue_id : Z) : M Z :=
  owner_iid ← on_base (site_grant_check caller_iid site_iid true);
  run ← open_new_run site_iid (resolve_queue_id queue_id) owner_iid "manual";
  mret run.(OpenRun.run_id).

Definition site_queue_ticket_list (caller_iid site_iid queue_id limit : Z) : M (list SiteQueueTicket) :=
  on_base (site_grant_check caller_iid site_iid false);;
  let queue_id := resolve_queue_id queue_id in
  let limit := if limit <=? 0 then 50 else Z.min limit 200 in
  rows ← read (fun _ d => take (Z.to_nat limit) (merge_sort by_number_desc (select_tickets (fun k r =>
    (k.1 =? site_iid) && (r.(cols).(TicketRow.queue_id) =? queue_id) && live r) d)));
  mret ((fun e => ticket_from_row site_iid queue_id e.2.(cols).(TicketRow.run_id) e.1.2 e.2) <$> rows).

Definition latest_ticket (site_iid queue_id run_id : Z) (status : string) : M (option SiteQueueTicket) :=
  row ← read (fun _ d => head (merge_sort by_number_desc (select_tickets
    (in_run site_iid queue_id run_id (fun s => String.eqb s status)) d)));
  mret ((fun e => ticket_from_row site_iid queue_id run_id e.1.2 e.2) <$> row).
Definition board_build (site_iid queue_id : Z) : M SiteQueueBoard :=
  qrow ← load_queue_row site_iid queue_id;
  let queue := queue_from_row site_iid queue_id qrow in
  run ← ensure_open_run site_iid queue_id qrow.(cols).(QueueRow.owner_iid)
    qrow.(cols).(QueueRow.reset_policy);
  let run_id := run.(OpenRun.run_id) in
  run_row ← read (fun _ d => d.(t_qrun) !! (site_iid, run_id));
  run_row ← lift (ok_or run_row "no rows returned");
  waiting ← read (fun _ d => take 100 (merge_sort by_number (select_tickets
    (in_run site_iid queue_id run_id (fun s => String.eqb s "waiting")) d)));
  called ← latest_ticket site_iid queue_id run_id "called";
  serving ← latest_ticket site_iid queue_id run_id "serving";
  mret {| SiteQueueBoard.queue := queue;
          SiteQueueBoard.run := run_from_row site_iid queue_id run_id run_row;
          SiteQueueBoard.waiting := (fun e => ticket_from_row site_iid queue_id run_id e.1.2 e.2) <$> waiting;
          SiteQueueBoard.serving := serving; SiteQueueBoard.called := called |}.
Definition site_queue_board (caller_iid site_iid queue_id : Z) : M SiteQueueBoard :=
  on_base (site_grant_check caller_iid site_iid false);;
  board_build site_iid (resolve_queue_id queue_id).

End Queue.
