(* ===== verification/GuestQueue.v ===== *)
(** * Tickets of guests ([servers/crates/mod_site/src/queue_csa.rs],
      [wire_http/src/guest_queue.rs])

    Taking a ticket and following it, without an account. *)
From stdpp Require Import sorting.
From S2P Require Import Prelude Strs Ts World Json Db Grant Shared QueueData Queue.

Definition err_take (msg : string) : GuestQueueTakeResult :=
  {| GuestQueueTakeResult.ok := false; GuestQueueTakeResult.ticket_id := 0;
     GuestQueueTakeResult.ticket_no := 0; GuestQueueTakeResult.queue_id := 0;
     GuestQueueTakeResult.serving_ticket_no := 0; GuestQueueTakeResult.display_label := "";
     GuestQueueTakeResult.track_token := ""; GuestQueueTakeResult.error := msg |}.
Definition err_get (msg : string) : GuestQueueGetResult :=
  {| GuestQueueGetResult.ok := false; GuestQueueGetResult.ticket_id := 0;
     GuestQueueGetResult.ticket_no := 0; GuestQueueGetResult.queue_id := 0;
     GuestQueueGetResult.status := ""; GuestQueueGetResult.serving_ticket_no := 0;
     GuestQueueGetResult.display_label := ""; GuestQueueGetResult.track_token := "";
     GuestQueueGetResult.error := msg |}.
Definition err_track (msg : string) : GuestQueueTrackResult :=
  {| GuestQueueTrackResult.ok := false; GuestQueueTrackResult.ticket_id := 0;
     GuestQueueTrackResult.ticket_no := 0; GuestQueueTrackResult.queue_id := 0;
     GuestQueueTrackResult.status := ""; GuestQueueTrackResult.serving_number := 0;
     GuestQueueTrackResult.position_ahead := 0; GuestQueueTrackResult.display_label := "";
     GuestQueueTrackResult.error := msg |}.

Definition guest_queue_take_json (res : GuestQueueTakeResult) : Value := json_object
  [("ok", Bool res.(GuestQueueTakeResult.ok));
   ("ticket_id", json_int res.(GuestQueueTakeResult.ticket_id));
   ("ticket_no", json_int res.(GuestQueueTakeResult.ticket_no));
   ("queue_id", json_int res.(GuestQueueTakeResult.queue_id));
   ("serving_ticket_no", json_int res.(GuestQueueTakeResult.serving_ticket_no));
   ("display_label", Str res.(GuestQueueTakeResult.display_label));
   ("track_token", Str res.(GuestQueueTakeResult.track_token));
   ("error", Str res.(GuestQueueTakeResult.error))].
Definition guest_queue_get_json (res : GuestQueueGetResult) : Value := json_object
  [("ok", Bool res.(GuestQueueGetResult.ok));
   ("ticket_id", json_int res.(GuestQueueGetResult.ticket_id));
   ("ticket_no", json_int res.(GuestQueueGetResult.ticket_no));
   ("queue_id", json_int res.(GuestQueueGetResult.queue_id));
   ("status", Str res.(GuestQueueGetResult.status));
   ("serving_ticket_no", json_int res.(GuestQueueGetResult.serving_ticket_no));
   ("display_label", Str res.(GuestQueueGetResult.display_label));
   ("track_token", Str res.(GuestQueueGetResult.track_token));
   ("error", Str res.(GuestQueueGetResult.error))].
Definition guest_queue_track_json (res : GuestQueueTrackResult) : Value := json_object
  [("ok", Bool res.(GuestQueueTrackResult.ok));
   ("ticket_id", json_int res.(GuestQueueTrackResult.ticket_id));
   ("ticket_no", json_int res.(GuestQueueTrackResult.ticket_no));
   ("queue_id", json_int res.(GuestQueueTrackResult.queue_id));
   ("status", Str res.(GuestQueueTrackResult.status));
   ("serving_number", json_int res.(GuestQueueTrackResult.serving_number));
   ("position_ahead", json_int res.(GuestQueueTrackResult.position_ahead));
   ("display_label", Str res.(GuestQueueTrackResult.display_label));
   ("error", Str res.(GuestQueueTrackResult.error))].

Section GuestQueue.
Context `{!Chrono} `{!SerdeJson} `{!Order} `{!Calendar} `{!Rng} `{!Rivals}.
Notation M := (M Queues).

Definition guest_site_owner (site_iid : Z) : M Z :=
  row ← on_base (query (fun _ d => match t_get site_iid d.(t_identity) with
    | Some r => if String.eqb r.(cols).(IdentityRow.kind) "site"
                then Some r.(cols).(IdentityRow.owner_iid) else None
    | None => None
    end));
  owner ← lift (ok_or row "site not found");
  lift (ok_or owner "owner_iid is null").

(** [INSERT ... ON CONFLICT DO NOTHING] *)
Definition ensure_default_queue (site_iid owner_iid queue_id : Z) : M () :=
  stmt (fun now d => Ok (tt, match d.(t_queue) !! (site_iid, queue_id) with
    | Some _ => d
    | None => {| d with t_queue :=
        <[(site_iid, queue_id) := new_row now (queue_default owner_iid "Main")]> d.(t_queue) |}
    end)).

Definition new_track_token : M string :=
  id ← next_id;
  suffix ← ask rand_u64;
  mret ("qt_" +:+ hex 16 id +:+ pad_zeros 16 (hex 16 suffix)).

(** The new ticket: its number is unique in the site, and so is its token. *)
Definition insert_ticket (site_iid ticket_id : Z) (row : TicketRow) : T () :=
  tstmt (fun now d =>
    if bool_decide (is_Some (d.(t_ticket) !! (site_iid, ticket_id)))
       || existsb (fun e : (Z * Z) * Row TicketRow => live e.2
            && negb (is_empty e.2.(cols).(TicketRow.track_token))
            && String.eqb e.2.(cols).(TicketRow.track_token) row.(TicketRow.track_token))
          (map_to_list d.(t_ticket))
    then Err "duplicate key value violates unique constraint"
    else if bool_decide (is_Some (d.(t_queue) !! (site_iid, row.(TicketRow.queue_id))))
    then Ok (tt, {| no_writes with w_ticket := {[ (site_iid, ticket_id) := new_row now row ]} |})
    else Err "violates foreign key constraint").

Definition guest_answers (answers_json : string) : list (string * Value) :=
  if is_empty (trim answers_json) then []
  else match from_str answers_json with Some (Object m) => m | _ => [] end.

(** What follows once the guest may take a ticket of the queue *)
Definition take_ticket (site_iid qid owner_iid : Z) (qrow : Row QueueRow)
    (guest_name guest_phone : string) (answers : list (string * Value)) : M GuestQueueTakeResult :=
  run ← ensure_open_run site_iid qid owner_iid qrow.(cols).(QueueRow.reset_policy);
  let ticket_no := run.(OpenRun.next_number) in
  let display_label := display_label_for_ticket qrow.(cols).(QueueRow.prefix) ticket_no in
  track_token ← new_track_token;
  ticket_id ← next_id;
  txn (
    answers ← tlift (jsonb (to_string (Object answers)));
    insert_ticket site_iid ticket_id
      {| TicketRow.queue_id := qid; TicketRow.run_id := run.(OpenRun.run_id);
         TicketRow.owner_iid := owner_iid; TicketRow.ticket_no := ticket_no;
         TicketRow.track_token := track_token; TicketRow.display_label := display_label;
         TicketRow.guest_name := trim guest_name; TicketRow.guest_phone := trim guest_phone;
         TicketRow.answers := answers; TicketRow.status := "waiting";
         TicketRow.called_at := None; TicketRow.done_at := None |};;
    bump_run_after_ticket site_iid run.(OpenRun.run_id) ticket_no qid);;
  mret {| GuestQueueTakeResult.ok := true; GuestQueueTakeResult.ticket_id := ticket_id;
          GuestQueueTakeResult.ticket_no := ticket_no; GuestQueueTakeResult.queue_id := qid;
          GuestQueueTakeResult.serving_ticket_no := run.(OpenRun.serving_number);
          GuestQueueTakeResult.display_label := display_label;
          GuestQueueTakeResult.track_token := track_token; GuestQueueTakeResult.error := "" |}.

Definition guest_queue_take (site_iid queue_id : Z) (guest_name guest_phone answers_json : string)
    : M GuestQueueTakeResult :=
  if site_iid <=? 0 then mret (err_take "site_iid required")
  else
    published ← on_base (site_published site_iid);
    if negb (published : bool) then mret (err_take "site not published")
    else
      caps ← on_base (site_capabilities_get site_iid);
      if negb (site_capability_enabled caps "queue") then mret (err_take "queue not enabled")
      else
        let qid := resolve_queue_id queue_id in
        owner_iid ← guest_site_owner site_iid;
        ensure_default_queue site_iid owner_iid qid;;
        qrow ← load_queue_row site_iid qid;
        if negb qrow.(cols).(QueueRow.is_active) then mret (err_take "queue inactive")
        else if negb qrow.(cols).(QueueRow.take_online) then mret (err_take "queue take disabled")
        else
          let answers := guest_answers answers_json in
          match validate_queue_answers qrow.(cols).(QueueRow.fields) answers with
          | Err msg => mret (err_take msg)
          | Ok _ => take_ticket site_iid qid owner_iid qrow guest_name guest_phone answers
          end.

(** The ticket joined with its run *)
Definition ticket_with_run (site_iid : Z) (k : Z * Z) (d : Queues) : option (Row TicketRow * Row QRunRow) :=
  t ← t_get k d.(t_ticket);
  r ← d.(t_qrun) !! (site_iid, t.(cols).(TicketRow.run_id));
  Some (t, r).

Definition guest_queue_get (site_iid queue_id ticket_id : Z) : M GuestQueueGetResult :=
  if (site_iid <=? 0) || (ticket_id <=? 0) then mret (err_get "site_iid and ticket_id required")
  else
    published ← on_base (site_published site_iid);
    if negb (published : bool) then mret (err_get "site not published")
    else
      caps ← on_base (site_capabilities_get site_iid);
      if negb (site_capability_enabled caps "queue") then mret (err_get "queue not enabled")
      else
        let qid := resolve_queue_id queue_id in
        row ← read (fun _ d => match ticket_with_run site_iid (site_iid, ticket_id) d with
          | Some p => if p.1.(cols).(TicketRow.queue_id) =? qid then Some p else None
          | None => None
          end);
        mret match row with
        | None => err_get "ticket not found"
        | Some (t, r) =>
            {| GuestQueueGetResult.ok := true; GuestQueueGetResult.ticket_id := ticket_id;
               GuestQueueGetResult.ticket_no := t.(cols).(TicketRow.ticket_no);
               GuestQueueGetResult.queue_id := qid;
               GuestQueueGetResult.status := t.(cols).(TicketRow.status);
               GuestQueueGetResult.serving_ticket_no := r.(cols).(QRunRow.serving_number);
               GuestQueueGetResult.display_label := t.(cols).(TicketRow.display_label);
               GuestQueueGetResult.track_token := t.(cols).(TicketRow.track_token);
               GuestQueueGetResult.error := "" |}
        end.

Definition guest_queue_track (site_iid : Z) (track_token : string) : M GuestQueueTrackResult :=
  let token := trim track_token in
  if (site_iid <=? 0) || is_empty token
  then mret (err_track "site_iid and track_token required")
  else
    published ← on_base (site_published site_iid);
    if negb (published : bool) then mret (err_track "site not published")
    else
      caps ← on_base (site_capabilities_get site_iid);
      if negb (site_capability_enabled caps "queue") then mret (err_track "queue not enabled")
      else
        row ← read (fun _ d => head (omap (fun e : (Z * Z) * Row TicketRow =>
          if (e.1.1 =? site_iid) && String.eqb e.2.(cols).(TicketRow.track_token) token
          then p ← ticket_with_run site_iid e.1 d; Some (e.1.2, p) else None) (order d.(t_ticket))));
        match row with
        | None => mret (err_track "ticket not found")
        | Some (ticket_id, (t, r)) =>
            let c := t.(cols) in
            let ticket_no := c.(TicketRow.ticket_no) in
            ahead ← read (fun _ d => Z.of_nat (length (select_tickets (fun k t =>
              in_run site_iid c.(TicketRow.queue_id) c.(TicketRow.run_id)
                (fun s => String.eqb s "waiting") k t
              && (t.(cols).(TicketRow.ticket_no) <? ticket_no)) d)));
            mret {| GuestQueueTrackResult.ok := true; GuestQueueTrackResult.ticket_id := ticket_id;
                    GuestQueueTrackResult.ticket_no := ticket_no;
                    GuestQueueTrackResult.queue_id := c.(TicketRow.queue_id);
                    GuestQueueTrackResult.status := c.(TicketRow.status);
                    GuestQueueTrackResult.serving_number := r.(cols).(QRunRow.serving_number);
                    GuestQueueTrackResult.position_ahead := to_i32 ahead;
                    GuestQueueTrackResult.display_label := c.(TicketRow.display_label);
                    GuestQueueTrackResult.error := "" |}
        end.

(** ** Over HTTP *)

Definition json_error (msg : string) : Value := json_object [("ok", Bool false); ("error", Str msg)].
(** The answer to what a guest function returns *)
Definition respond {A} (ok : A -> bool) (error : A -> string) (json : A -> Value) (m : M A)
    : M (StatusCode * Value) :=
  r ← attempt m;
  mret match r with
  | Ok res => (if ok res then OK else if str_contains (error res) "not found" then NOT_FOUND
               else BAD_REQUEST, json res)
  | Err e => (BAD_REQUEST, json_error e)
  end.
Definition i64_or_0 (k : string) (v : Value) : Z := default 0 (get k v ≫= as_i64).
Definition or_else {A} (a b : option A) : option A := match a with Some x => Some x | None => b end.

(** [body] is what [serde_json::from_slice] makes of the request. *)
Definition guest_queue_take_handler (body : result Value) : M (StatusCode * Value) :=
  match body with
  | Err e => mret (BAD_REQUEST, json_error ("invalid json: " +:+ e))
  | Ok v =>
      let guest_name := default "" (get "guest_name" v ≫= as_str) in
      let guest_phone := default "" (or_else (get "guest_phone" v) (get "phone" v) ≫= as_str) in
      let answers_json := match or_else (get "answers_json" v) (get "answers" v) with
        | Some (Str s) => s | Some v => to_string v | None => "" end in
      r ← attempt (guest_queue_take (i64_or_0 "site_iid" v) (i64_or_0 "queue_id" v)
                     guest_name guest_phone answers_json);
      mret match r with
      | Ok res => (OK, guest_queue_take_json res)
      | Err e => (BAD_REQUEST, json_error e)
      end
  end.
Definition guest_queue_get_handler (body : result Value) : M (StatusCode * Value) :=
  match body with
  | Err e => mret (BAD_REQUEST, json_error ("invalid json: " +:+ e))
  | Ok v =>
      respond GuestQueueGetResult.ok GuestQueueGetResult.error guest_queue_get_json
        (guest_queue_get (i64_or_0 "site_iid" v) (i64_or_0 "queue_id" v) (i64_or_0 "ticket_id" v))
  end.
Definition guest_queue_track_handler (site_iid : Z) (track_token : string) : M (StatusCode * Value) :=
  respond GuestQueueTrackResult.ok GuestQueueTrackResult.error guest_queue_track_json
    (guest_queue_track site_iid track_token).

End GuestQueue.
