(* ===== verification/QueueSteps.v ===== *)
(** * What no interleaving breaks in the queues

    Rows that stay and what they keep, and the invariant of the three tables,
    as one preorder that every statement and every committed transaction
    respects. *)
From stdpp Require Import sorting.
From S2P Require Import Prelude Strs Ts World Json Db Grant Shared QueueData Queue.

Section Steps.
Context `{!Chrono}.

Definition queue_kept (r r' : Row QueueRow) : Prop :=
  r'.(cols).(QueueRow.owner_iid) = r.(cols).(QueueRow.owner_iid).
(** A run keeps its queue; its next number does not go back; once closed it
    stays closed. *)
Definition qrun_kept (r r' : Row QRunRow) : Prop :=
  r'.(cols).(QRunRow.queue_id) = r.(cols).(QRunRow.queue_id) /\
  r'.(created_ts) = r.(created_ts) /\
  r.(cols).(QRunRow.next_number) <= r'.(cols).(QRunRow.next_number) /\
  (is_open r = false -> is_open r' = false).
(** A ticket keeps everything but its status and when it was called and done. *)
Definition ticket_kept (r r' : Row TicketRow) : Prop :=
  r'.(created_ts) = r.(created_ts) /\ r'.(deleted_ts) = r.(deleted_ts) /\
  exists c at_ done, r'.(cols) = {| r.(cols) with TicketRow.status := c;
    TicketRow.called_at := at_; TicketRow.done_at := done |}.

#[global] Instance queue_kept_preorder : PreOrder queue_kept.
Proof. split; [done|]. intros a b c Hab Hbc. unfold queue_kept in *. congruence. Qed.
#[global] Instance qrun_kept_preorder : PreOrder qrun_kept.
Proof.
  split; [intros a; unfold qrun_kept; auto using Z.le_refl|].
  intros a b c (? & ? & ? & ?) (? & ? & ? & ?). unfold qrun_kept. split_and!; try congruence; [lia|auto].
Qed.
#[global] Instance ticket_kept_preorder : PreOrder ticket_kept.
Proof.
  split; [intros a; unfold ticket_kept; eauto 10|].
  intros a b c (Hc & Hd & x & y & z & E) (Hc' & Hd' & x' & y' & z' & E'). unfold ticket_kept.
  split_and!; [congruence..|]. exists x', y', z'. rewrite E', E. done.
Qed.

Definition kept_in {A} (P : Row A -> Row A -> Prop) (m m' : gmap (Z * Z) (Row A)) : Prop :=
  forall k r, m !! k = Some r -> exists r', m' !! k = Some r' /\ P r r'.
#[global] Instance kept_in_preorder {A} (P : Row A -> Row A -> Prop) `{!PreOrder P} :
  PreOrder (kept_in P).
Proof.
  split; [intros m k r E; by exists r|].
  intros a b c Hab Hbc k r (r1 & E1 & H1)%Hab. destruct (Hbc _ _ E1) as (r2 & E2 & H2).
  exists r2. split; [done|]. by etransitivity.
Qed.

Definition tables_kept (d d' : Queues) : Prop :=
  kept_in queue_kept d.(t_queue) d'.(t_queue) /\ kept_in qrun_kept d.(t_qrun) d'.(t_qrun) /\
  kept_in ticket_kept d.(t_ticket) d'.(t_ticket).
#[global] Instance tables_kept_preorder : PreOrder tables_kept.
Proof.
  split; [intros d; unfold tables_kept; by split_and!|].
  intros a b c (? & ? & ?) (? & ? & ?). unfold tables_kept. split_and!; by etransitivity.
Qed.

(** A ticket's number was given by its run, which is one of its queue. *)
Definition ticket_ok (d : Queues) (k : Z * Z) (t : Row TicketRow) : Prop :=
  exists r, d.(t_qrun) !! (k.1, t.(cols).(TicketRow.run_id)) = Some r /\
    r.(cols).(QRunRow.queue_id) = t.(cols).(TicketRow.queue_id) /\
    t.(cols).(TicketRow.ticket_no) < r.(cols).(QRunRow.next_number).
Definition run_ok (d : Queues) (k : Z * Z) (r : Row QRunRow) : Prop :=
  is_Some (d.(t_queue) !! (k.1, r.(cols).(QRunRow.queue_id))).
Definition one_open (d : Queues) : Prop := forall site_iid queue_id k k',
  open_of d.(t_qrun) site_iid queue_id k -> open_of d.(t_qrun) site_iid queue_id k' -> k = k'.
Definition queues_wf (d : Queues) : Prop :=
  (forall k t, d.(t_ticket) !! k = Some t -> ticket_ok d k t) /\
  (forall k r, d.(t_qrun) !! k = Some r -> run_ok d k r) /\ one_open d.

(** What any number of statements and transactions do. *)
Definition qsteps (d d' : Queues) : Prop := tables_kept d d' /\ (queues_wf d -> queues_wf d').
#[global] Instance qsteps_preorder : PreOrder qsteps.
Proof.
  split; [intros d; split; [reflexivity|done]|].
  intros a b c [? ?] [? ?]. split; [by etransitivity|auto].
Qed.

Lemma qrun_stays k r d d' : qsteps d d' -> d.(t_qrun) !! k = Some r ->
  exists r', d'.(t_qrun) !! k = Some r' /\ qrun_kept r r'.
Proof. intros [(_ & Hk & _) _]. apply Hk. Qed.
Lemma queue_stays k d d' : qsteps d d' -> is_Some (d.(t_queue) !! k) -> is_Some (d'.(t_queue) !! k).
Proof. intros [(Hk & _) _] [r E]. destruct (Hk _ _ E) as (r' & E' & _). eauto. Qed.

(** ** Writes of a transaction *)

(** Every row is a new one or a version of the one that was there. *)
Definition writes_in {A} (P : Row A -> Row A -> Prop) (w m : gmap (Z * Z) (Row A)) : Prop :=
  forall k r', w !! k = Some r' -> forall r, m !! k = Some r -> P r r'.
Definition writes_ok (ws : Writes) (d : Queues) : Prop :=
  writes_in queue_kept ws.(w_queue) d.(t_queue) /\ writes_in qrun_kept ws.(w_qrun) d.(t_qrun) /\
  writes_in ticket_kept ws.(w_ticket) d.(t_ticket).
(** Nothing is new. *)
Definition known {A} (w m : gmap (Z * Z) (Row A)) : Prop := forall k, is_Some (w !! k) -> is_Some (m !! k).

Lemma kept_union {A} (P : Row A -> Row A -> Prop) `{!PreOrder P} w m :
  writes_in P w m -> kept_in P m (w ∪ m).
Proof.
  intros Hw k r E. rewrite lookup_union. destruct (w !! k) as [r'|] eqn:E'.
  - exists r'. rewrite union_Some_l. split; [done|]. by eapply Hw.
  - exists r. rewrite (left_id_L None (∪)). split; [done|]. reflexivity.
Qed.
Lemma writes_in_merge {A} (P : Row A -> Row A -> Prop) `{!PreOrder P} new w m :
  writes_in P w m -> writes_in P new (w ∪ m) -> writes_in P (new ∪ w) m.
Proof.
  intros Hw Hn k r'. rewrite lookup_union. destruct (new !! k) as [r1|] eqn:E1.
  - rewrite union_Some_l. intros [= <-] r E. pose proof (Hn _ _ E1) as Hv. rewrite lookup_union in Hv.
    destruct (w !! k) as [r2|] eqn:E2.
    + rewrite union_Some_l in Hv. etransitivity; [by eapply Hw|]. by apply Hv.
    + rewrite (left_id_L None (∪)) in Hv. by apply Hv.
  - rewrite (left_id_L None (∪)). intros E2 r E. by eapply Hw.
Qed.
Lemma known_merge {A} (new w m : gmap (Z * Z) (Row A)) : known w m -> known new (w ∪ m) -> known (new ∪ w) m.
Proof.
  intros Hw Hn k. rewrite lookup_union. intros [r E].
  destruct (new !! k) eqn:E1; [|rewrite (left_id_L None (∪)) in E; apply Hw; eauto].
  destruct (Hn k) as [r' Hv]; [eauto|]. rewrite lookup_union in Hv.
  destruct (w !! k) eqn:E2; [by apply Hw; eauto|]. rewrite (left_id_L None (∪)) in Hv. eauto.
Qed.
Lemma view_merge new ws d : view (merge_writes new ws) d = view new (view ws d).
Proof. cbn. unfold queue_view, queue_merge. cbn. by rewrite !(assoc_L (∪)). Qed.
Lemma writes_ok_merge new ws d :
  writes_ok ws d -> writes_ok new (view ws d) -> writes_ok (merge_writes new ws) d.
Proof.
  intros (? & ? & ?) (? & ? & ?). unfold writes_ok. split_and!; apply writes_in_merge; done || apply _.
Qed.
Lemma writes_ok_none d : writes_ok no_writes d.
Proof. unfold writes_ok, writes_in. cbn. split_and!; intros k r'; by rewrite lookup_empty. Qed.
Lemma view_kept ws d : writes_ok ws d -> tables_kept d (view ws d).
Proof. intros (? & ? & ?). unfold tables_kept. cbn. split_and!; apply kept_union; done || apply _. Qed.

Lemma writes_in_locked {A} (P : Row A -> Row A -> Prop) (w m m' : gmap (Z * Z) (Row A)) :
  (forall k, is_Some (w !! k) -> m' !! k = m !! k) -> writes_in P w m -> writes_in P w m'.
Proof. intros Hl Hw k r' E r. rewrite Hl by eauto. by eapply Hw. Qed.
Lemma known_locked {A} (w m m' : gmap (Z * Z) (Row A)) :
  (forall k, is_Some (w !! k) -> m' !! k = m !! k) -> known w m -> known w m'.
Proof. intros Hl Hw k Hk. rewrite Hl by done. auto. Qed.
Lemma writes_ok_locked ws d d' : locked_out ws d d' -> writes_ok ws d -> writes_ok ws d'.
Proof.
  intros [Hq Hr Ht _] (? & ? & ?). unfold writes_ok. split_and!; by eapply writes_in_locked.
Qed.

(** The view of writes is well formed when what they add is. *)
Lemma view_wf ws d :
  writes_ok ws d -> queues_wf d ->
  (forall k t, ws.(w_ticket) !! k = Some t -> d.(t_ticket) !! k = None -> ticket_ok (view ws d) k t) ->
  (forall k r, ws.(w_qrun) !! k = Some r -> d.(t_qrun) !! k = None ->
     run_ok (view ws d) k r /\ forall k', open_of (view ws d).(t_qrun) k.1 r.(cols).(QRunRow.queue_id) k' ->
       k' = k) ->
  queues_wf (view ws d).
Proof.
  intros Hw (Ht & Hr & Ho) Hnt Hnr. pose proof (view_kept _ _ Hw) as (Kq & Kr & Kt).
  assert (forall k r, (view ws d).(t_qrun) !! k = Some r -> d.(t_qrun) !! k = None \/
    exists r0, d.(t_qrun) !! k = Some r0 /\ qrun_kept r0 r) as Hrun.
  { intros k r E. destruct (d.(t_qrun) !! k) as [r0|] eqn:E0; [|by left]. right. exists r0.
    split; [done|]. destruct (Kr _ _ E0) as (r1 & E1 & ?). congruence. }
  assert (forall k r, (view ws d).(t_qrun) !! k = Some r -> d.(t_qrun) !! k = None ->
    ws.(w_qrun) !! k = Some r) as Hnew.
  { intros k r E E0. cbn in E. rewrite lookup_union, E0, (right_id_L None (∪)) in E. done. }
  split_and!.
  - intros k t E. destruct (d.(t_ticket) !! k) as [t0|] eqn:E0.
    + destruct (Kt _ _ E0) as (t1 & E1 & (_ & _ & x & y & z & Ec)).
      assert (t1 = t) as -> by congruence. destruct (Ht _ _ E0) as (r & Er & Hq & Hno).
      destruct (Kr _ _ Er) as (r' & Er' & (Hq' & _ & Hn & _)). exists r'. rewrite Ec. cbn.
      split_and!; [done|congruence|lia].
    + apply Hnt; [|done]. cbn in E. by rewrite lookup_union, E0, (right_id_L None (∪)) in E.
  - intros k r E. destruct (Hrun _ _ E) as [E0|(r0 & E0 & (Hq & _ & Hn & _))]; [by apply Hnr; auto|].
    destruct (Hr _ _ E0) as [q Eq]. destruct (Kq _ _ Eq) as (q' & Eq' & _).
    unfold run_ok. rewrite Hq. eauto.
  - assert (forall s q k, open_of (view ws d).(t_qrun) s q k -> d.(t_qrun) !! k = None \/
      open_of d.(t_qrun) s q k) as Hopen.
    { intros s q k (r & E & Hop & Hs & Hq). destruct (Hrun _ _ E) as [?|(r0 & E0 & (Hq' & _ & _ & Hc))];
        [by left|]. right. exists r0. split_and!; [done| |done|congruence].
      destruct (is_open r0); [done|]. rewrite Hc in Hop by done. done. }
    intros s q k k' H1 H2. pose proof H1 as (r & E & _ & Hs & Hq). pose proof H2 as (r' & E' & _ & Hs' & Hq').
    destruct (Hopen _ _ _ H1) as [E0|O1].
    + destruct (Hnr k r) as [_ Hu]; [by apply Hnew|done|]. symmetry. apply Hu. by rewrite Hs, Hq.
    + destruct (Hopen _ _ _ H2) as [E0'|O2]; [|by eapply Ho].
      destruct (Hnr k' r') as [_ Hu]; [by apply Hnew|done|]. apply Hu. by rewrite Hs', Hq'.
Qed.
(** Updates alone *)
Lemma view_steps ws d : writes_ok ws d -> known ws.(w_qrun) d.(t_qrun) -> known ws.(w_ticket) d.(t_ticket) ->
  qsteps d (view ws d).
Proof.
  intros Hw Hr Ht. split; [by apply view_kept|]. intros Hwf. apply view_wf; [done|done|..].
  - intros k t E E0. destruct (Ht k) as [? ?]; [eauto|]. congruence.
  - intros k r E E0. destruct (Hr k) as [? ?]; [eauto|]. congruence.
Qed.

Lemma open_runs_elem `{!Order} s q d (k : Z * Z) (r : Row QRunRow) : (k, r) ∈ open_runs s q d <->
  d.(t_qrun) !! k = Some r /\ is_open r = true /\ k.1 = s /\ r.(cols).(QRunRow.queue_id) = q.
Proof.
  unfold open_runs. rewrite merge_sort_Permutation, selected_elem. cbn.
  destruct (is_open r); cbn; rewrite ?andb_true_r, ?andb_false_r, ?andb_true_iff, ?Z.eqb_eq; naive_solver.
Qed.
End Steps.
