(* ===== verification/QueueSafe.v ===== *)
(** * The queue functions beside others

    Every function of the queues takes only steps of [qsteps], whoever runs
    beside it. *)
From stdpp Require Import sorting.
From S2P Require Import Prelude Strs Ts World Json Db Grant Shared QueueData Queue.
From S2P Require Import GuestQueue QueueSteps.

(** [queue_tac]: the steps of a function, by the lemmas on its parts. *)
Create HintDb queues.
Ltac queue_tac :=
  repeat first
    [ assumption | progress auto with queues
    | apply respects_bind; [apply _| |intros] | case_match ].

Section Safe.
Context `{!Chrono} `{!SerdeJson} `{!Order} `{!Calendar} `{!Rng} `{!Locked} `{!Rivals}.
Context (Hrivals : forall ws n d, qsteps d (rivals ws n d) /\ locked_out ws d (rivals ws n d)).
Notation keeps := (respects qsteps).
Notation stable := (stable qsteps).
Notation within := (within qsteps).

Lemma others_steps n d : qsteps d (others n d).
Proof. apply Hrivals. Qed.

Lemma safe_ret {A} (a : A) : keeps (mret a).
Proof. apply respects_ret, _. Qed.
Lemma safe_lift {A} (r : result A) : keeps (lift r).
Proof. apply respects_lift, _. Qed.
Lemma safe_throw {A} x : keeps (throw (A := A) x).
Proof. apply respects_throw, _. Qed.
Lemma safe_next_id : keeps next_id.
Proof. apply respects_next_id, _. Qed.
Lemma safe_utc_now : keeps utc_now.
Proof. apply respects_utc_now, _. Qed.
Lemma safe_read {A} (f : DateTime -> Queues -> A) : keeps (read f).
Proof. apply respects_read; [apply _|exact others_steps]. Qed.
Lemma safe_ask {A} (f : nat -> A) : keeps (ask f).
Proof. apply respects_ask. exact others_steps. Qed.
Lemma base_steps b d : qsteps d {| d with q_base := b |}.
Proof. split; [split_and!; intros k r E; exists r; split; done || reflexivity|done]. Qed.
Lemma keeps_on_base {A} (m : World.M Db A) : keeps (on_base m).
Proof.
  apply respects_bind; [apply _|apply respects_interleave, others_steps|]. intros _ e w r w' E.
  unfold zoom in E. destruct (m e _) as [r0 v]. injection E as <- <-. apply base_steps.
Qed.
Hint Resolve safe_ret safe_lift safe_throw safe_next_id safe_utc_now safe_read safe_ask
  keeps_on_base : queues.

Lemma keeps_load s q : keeps (load_queue_row s q).
Proof. unfold load_queue_row. queue_tac. Qed.
Lemma keeps_boundary tz a : keeps (day_boundary tz a).
Proof. unfold day_boundary. queue_tac. Qed.
Lemma keeps_owner s : keeps (guest_site_owner s).
Proof. unfold guest_site_owner. queue_tac. Qed.
Lemma keeps_staff c s : keeps (site_grant_queue_staff c s).
Proof. unfold site_grant_queue_staff. queue_tac. Qed.
Lemma keeps_token : keeps new_track_token.
Proof. unfold new_track_token. queue_tac. Qed.
Lemma keeps_latest s q r st : keeps (latest_ticket s q r st).
Proof. unfold latest_ticket. queue_tac. Qed.
Hint Resolve keeps_load keeps_boundary keeps_owner keeps_staff keeps_token keeps_latest : queues.

(** ** Parts of a transaction *)

Definition updates (ws : Writes) (d : Queues) : Prop :=
  writes_ok ws d /\ known ws.(w_qrun) d.(t_qrun) /\ known ws.(w_ticket) d.(t_ticket).
Lemma updates_stable : stable updates.
Proof.
  intros ws d d' (Hw & Hr & Ht) _ HL. split_and!; [by eapply writes_ok_locked|..].
  - exact (known_locked _ _ _ (same_qrun _ _ _ HL) Hr).
  - exact (known_locked _ _ _ (same_ticket _ _ _ HL) Ht).
Qed.
Lemma updates_merge new ws d : updates ws d -> updates new (view ws d) -> updates (merge_writes new ws) d.
Proof. intros (? & ? & ?) (? & ? & ?). split_and!; [by apply writes_ok_merge|..]; by apply known_merge. Qed.
Lemma updates_none d : updates no_writes d.
Proof.
  split_and!; [apply writes_ok_none|..]; intros k [r E]; cbn in E; by rewrite lookup_empty in E.
Qed.
Lemma updates_view ws d : updates ws d -> qsteps d (view ws d).
Proof. intros (? & ? & ?). by apply view_steps. Qed.

Lemma within_updates {A} (f : DateTime -> Queues -> result (A * Writes)) :
  (forall now v a new, f now v = Ok (a, new) -> updates new v) ->
  within updates (tstmt f) (fun _ => updates).
Proof.
  intros Hf. apply (within_stmt qsteps Hrivals); [exact updates_stable|].
  intros now ws d a new Hu E. apply updates_merge; [done|]. by eapply Hf.
Qed.

Lemma rows_where_updates {A} (P : Row A -> Row A -> Prop) (sel : Z * Z -> Row A -> bool) f m :
  (forall r, P r (f r)) -> writes_in P (rows_where sel f m) m /\ known (rows_where sel f m) m.
Proof.
  intros Hf. split.
  - intros k r' E r Er. rewrite lookup_rows_where, Er in E. cbn in E. case_match; [|done].
    injection E as <-. apply Hf.
  - intros k [r' E]. rewrite lookup_rows_where in E. destruct (m !! k); [eauto|done].
Qed.
Lemma singleton_updates {A} (P : Row A -> Row A -> Prop) (k : Z * Z) (r r' : Row A) (m : gmap (Z * Z) (Row A)) :
  m !! k = Some r -> P r r' -> writes_in P {[k := r']} m /\ known {[k := r']} m.
Proof.
  intros Er HP. split.
  - intros k0 r0 E r1 Er1. apply lookup_singleton_Some in E as [<- <-]. congruence.
  - intros k0 [r0 E]. apply lookup_singleton_Some in E as [<- <-]. eauto.
Qed.
Lemma queue_writes w v : writes_in queue_kept w v.(t_queue) ->
  updates {| w_queue := w; w_qrun := ∅; w_ticket := ∅ |} v.
Proof.
  intros Hw. pose proof (updates_none v) as ((_ & ? & ?) & ? & ?). unfold updates, writes_ok. by split_and!.
Qed.
Lemma run_writes w v : writes_in qrun_kept w v.(t_qrun) -> known w v.(t_qrun) ->
  updates {| w_queue := ∅; w_qrun := w; w_ticket := ∅ |} v.
Proof.
  intros Hw Hk. pose proof (updates_none v) as ((? & _ & ?) & _ & ?). unfold updates, writes_ok. by split_and!.
Qed.
Lemma ticket_writes w v : writes_in ticket_kept w v.(t_ticket) -> known w v.(t_ticket) ->
  updates {| w_queue := ∅; w_qrun := ∅; w_ticket := w |} v.
Proof.
  intros Hw Hk. pose proof (updates_none v) as ((? & ? & _) & ? & _). unfold updates, writes_ok. by split_and!.
Qed.

(** What an update of a run may do *)
Definition run_update_ok (c c' : QRunRow) : Prop :=
  c'.(QRunRow.queue_id) = c.(QRunRow.queue_id) /\
  c.(QRunRow.next_number) <= c'.(QRunRow.next_number) /\
  c'.(QRunRow.status) = c.(QRunRow.status) /\ c'.(QRunRow.closed_ts) = c.(QRunRow.closed_ts).
Lemma run_update_kept now r c' : run_update_ok r.(cols) c' -> qrun_kept r (set_cols now (fun _ => c') r).
Proof.
  intros (Hq & Hn & Hs & Hc). unfold qrun_kept, is_open. cbn. rewrite Hs, Hc. auto.
Qed.

Lemma updates_queue s q f :
  (forall c, (f c).(QueueRow.owner_iid) = c.(QueueRow.owner_iid)) ->
  within updates (update_queue s q f) (fun _ => updates).
Proof.
  intros Hf. apply within_updates. intros now v a new [= <- <-]. apply queue_writes.
  apply (rows_where_updates queue_kept). intros r. apply Hf.
Qed.
Lemma updates_run s run f :
  (forall c c', f c = Ok c' -> run_update_ok c c') ->
  within updates (update_run s run f) (fun _ => updates).
Proof.
  intros Hf. apply within_updates. intros now v a new E.
  destruct (v.(t_qrun) !! (s, run)) as [r|] eqn:Er; [|injection E as <- <-; apply updates_none].
  destruct (f r.(cols)) as [c|] eqn:Ef; [|done]. injection E as <- <-.
  apply run_writes; eapply (singleton_updates qrun_kept); [done|by apply run_update_kept, Hf|done|].
  by apply run_update_kept, Hf.
Qed.
Lemma updates_tickets sel f :
  (forall now c, exists x y z, f now c = {| c with TicketRow.status := x; TicketRow.called_at := y;
     TicketRow.done_at := z |}) ->
  within updates (update_tickets sel f) (fun _ => updates).
Proof.
  intros Hf. apply within_updates. intros now v a new [= <- <-].
  assert (forall r, ticket_kept r (set_cols now (f now) r)) as Hk.
  { intros r. destruct (Hf now r.(cols)) as (x & y & z & E). unfold ticket_kept. cbn. eauto 10. }
  apply ticket_writes; by apply (rows_where_updates ticket_kept).
Qed.
Lemma updates_lock s q r : within updates (lock_first_waiting s q r) (fun _ => updates).
Proof.
  eapply within_bind; [apply _|apply (within_code qsteps); [by intros e w x w' [= <- <-]|]|].
  { intros ws d a Hu. exact Hu. }
  intros n. apply within_updates. intros now v a new E. case_match eqn:El.
  - injection E as <- <-. apply updates_none.
  - destruct p as [k t]. injection E as <- <-.
    assert (v.(t_ticket) !! k = Some t) as Ek.
    { assert ((k, t) ∈ (k, t) :: l) as Hin by left. rewrite <- El in Hin.
      apply list_elem_of_filter in Hin as [_ Hin]. rewrite merge_sort_Permutation in Hin.
      by apply selected_elem in Hin as [? _]. }
    apply ticket_writes; by eapply (singleton_updates ticket_kept).
Qed.

Lemma updates_serving s run q no : within updates (set_run_serving s run q no) (fun _ => updates).
Proof.
  eapply within_bind; [apply _|apply updates_run|intros; by apply updates_queue].
  intros c ? [= <-]. unfold run_update_ok. split_and!; done || apply Z.le_refl.
Qed.
Lemma updates_call_next s q run : within updates (call_next_txn s q run) (fun _ => updates).
Proof.
  eapply within_bind; [apply _|apply updates_tickets; intros; by repeat eexists|]. intros [].
  eapply within_bind; [apply _|apply updates_lock|]. intros row.
  eapply within_bind; [apply _|apply (within_lift qsteps _ _ (fun _ => updates)); auto|]. intros [k r].
  eapply within_bind; [apply _|apply updates_tickets; intros; by repeat eexists|]. intros [].
  eapply within_bind; [apply _|apply updates_serving|]. intros [].
  apply (within_ret qsteps). auto.
Qed.
Lemma keeps_updates {A} (m : T A) : within updates m (fun _ => updates) -> keeps (txn m).
Proof.
  intros Hm e w r w' E. eapply (txn_steps qsteps Hrivals m (fun _ => True) (fun _ => updates)) in E.
  - apply E.
  - done.
  - intros e0 w0 ws r0 w0' [-> _]. apply Hm, updates_none.
  - intros _. exact updates_stable.
  - intros _. exact updates_view.
  - done.
Qed.

(** ** A new run *)

Definition opens (s run_id q : Z) (ws : Writes) (d : Queues) : Prop :=
  writes_ok ws d /\ known ws.(w_ticket) d.(t_ticket) /\
  d.(t_qrun) !! (s, run_id) = None /\
  (exists r, ws.(w_qrun) !! (s, run_id) = Some r /\ is_open r = true /\
     r.(cols).(QRunRow.queue_id) = q /\ r.(cols).(QRunRow.next_number) = 1) /\
  (forall k, is_Some (ws.(w_qrun) !! k) -> k = (s, run_id) \/ is_Some (d.(t_qrun) !! k)) /\
  (forall k, open_of (view ws d).(t_qrun) s q k -> k = (s, run_id)) /\
  is_Some ((view ws d).(t_queue) !! (s, q)).

Lemma view_lookup_in {A} (w m : gmap (Z * Z) A) k r : w !! k = Some r -> (w ∪ m) !! k = Some r.
Proof. intros E. by rewrite lookup_union, E, union_Some_l. Qed.
Lemma view_lookup_out {A} (w m : gmap (Z * Z) A) k : w !! k = None -> (w ∪ m) !! k = m !! k.
Proof. intros E. by rewrite lookup_union, E, (left_id_L None (∪)). Qed.

Lemma opens_stable s run_id q : stable (opens s run_id q).
Proof.
  intros ws d d' (Hw & Ht & Hn & Hr & Hk & Ho & Hq) HR HL. pose proof HL as [Lq Lr Lt Lo].
  pose proof Hr as (r0 & Er0 & Hop & Hq0 & _). unfold opens. split_and!.
  - by eapply writes_ok_locked.
  - by eapply known_locked.
  - rewrite Lr by eauto. done.
  - done.
  - intros k Hs. destruct (Hk k Hs) as [->|?]; [by left|]. right. by rewrite Lr.
  - intros k (r & E & Hop' & Hs & Hq'). apply Ho.
    destruct (ws.(w_qrun) !! k) as [r1|] eqn:E1.
    + exists r. split_and!; [|done..]. cbn in E |- *. rewrite (view_lookup_in _ _ _ _ E1) in E.
      rewrite (view_lookup_in _ _ _ _ E1). done.
    + cbn in E. rewrite view_lookup_out in E by done.
      destruct (Lo s q (s, run_id) k) as (r2 & E2 & ?); [by exists r0|by exists r|].
      exists r2. split; [|done]. cbn. by rewrite view_lookup_out.
  - cbn in Hq |- *. destruct (ws.(w_queue) !! (s, q)) as [r1|] eqn:E1.
    + rewrite (view_lookup_in _ _ _ _ E1). eauto.
    + rewrite view_lookup_out in Hq |- * by done. by eapply queue_stays.
Qed.
Lemma opens_insert s run_id q owner reason :
  within updates (insert_run s run_id q owner reason) (fun _ => opens s run_id q).
Proof.
  apply (within_stmt qsteps Hrivals); [exact updates_stable|].
  intros now ws d a new (Hw & Hr & Ht) E. destruct (varchar 32 reason) as [reason'|]; [|done].
  cbn [mbind result_bind] in E.
  destruct ((view ws d).(t_qrun) !! (s, run_id)) eqn:En; [by case_match|].
  destruct (open_runs s q (view ws d)) as [|] eqn:Eo; [|by case_match].
  destruct ((view ws d).(t_queue) !! (s, q)) as [row|] eqn:Eq; [|done]. injection E as _ <-.
  assert (ws.(w_qrun) !! (s, run_id) = None /\ d.(t_qrun) !! (s, run_id) = None) as [En1 En2].
  { cbn in En. by apply lookup_union_None in En. }
  unfold opens. split_and!.
  - apply writes_ok_merge; [done|]. pose proof (updates_none (view ws d)) as ((? & _ & ?) & _).
    split_and!; [done| |done]. intros k r' E r Er. cbn in E. apply lookup_singleton_Some in E as [<- _]. congruence.
  - cbn. by rewrite (left_id_L ∅ (∪)).
  - done.
  - eexists. split; [cbn; apply view_lookup_in, lookup_singleton_eq|done].
  - intros k [r E]. cbn in E. destruct (decide (k = (s, run_id))) as [->|Hne]; [by left|]. right.
    rewrite view_lookup_out in E by (by rewrite lookup_singleton_ne). apply Hr. eauto.
  - intros k (r & E & Hop & Hs & Hq). rewrite view_merge in E. cbn in E.
    destruct (decide (k = (s, run_id))) as [->|Hne]; [done|]. exfalso.
    rewrite view_lookup_out in E by (by rewrite lookup_singleton_ne).
    assert ((k, r) ∈ open_runs s q (view ws d)) as Hin.
    { unfold open_runs. rewrite merge_sort_Permutation. apply selected_elem. split; [done|]. cbn.
      rewrite Hop, Hs, Hq, !Z.eqb_refl. done. }
    rewrite Eo in Hin. by apply not_elem_of_nil in Hin.
  - rewrite view_merge. cbn. rewrite (left_id_L ∅ (∪)). cbn in Eq. rewrite Eq. eauto.
Qed.
Lemma opens_queue s run_id q s' q' f :
  (forall c, (f c).(QueueRow.owner_iid) = c.(QueueRow.owner_iid)) ->
  within (opens s run_id q) (update_queue s' q' f) (fun _ => opens s run_id q).
Proof.
  intros Hf. apply (within_stmt qsteps Hrivals); [apply opens_stable|].
  intros now ws d a new (Hw & Ht & Hn & Hr & Hk & Ho & Hq) [= _ <-].
  set (new := rows_where _ _ _).
  assert (writes_in queue_kept new (view ws d).(t_queue) /\ known new (view ws d).(t_queue)) as [Hn1 Hn2].
  { apply (rows_where_updates queue_kept). intros r. apply Hf. }
  pose proof (queue_writes new _ Hn1) as (Hw1 & _). unfold opens. split_and!.
  - by apply writes_ok_merge.
  - cbn. by rewrite (left_id_L ∅ (∪)).
  - done.
  - cbn. by rewrite (left_id_L ∅ (∪)).
  - cbn. by rewrite (left_id_L ∅ (∪)).
  - intros k. rewrite view_merge. cbn. rewrite (left_id_L ∅ (∪)). apply Ho.
  - rewrite view_merge. destruct Hq as [r Eq].
    destruct (view_kept _ _ Hw1) as (Kq & _). destruct (Kq _ _ Eq) as (r' & E' & _). eauto.
Qed.
Lemma opens_view s run_id q ws d : opens s run_id q ws d -> qsteps d (view ws d).
Proof.
  intros (Hw & Ht & Hn & (r0 & Er0 & Hop & Hq0 & _) & Hk & Ho & Hq). split; [by apply view_kept|].
  intros Hwf. apply view_wf; [done|done|..].
  - intros k t E E0. destruct (Ht k) as [? ?]; [eauto|]. congruence.
  - intros k r E E0. destruct (Hk k) as [->|[? ?]]; [eauto| |congruence].
    assert (r = r0) as -> by congruence. cbn [fst]. rewrite Hq0. split; [|exact Ho].
    unfold run_ok. by rewrite Hq0.
Qed.
Lemma open_new_run_steps s q owner reason e w r w' :
  open_new_run s q owner reason e w = (r, w') -> qsteps w.(db) w'.(db) /\
  forall run, r = Ok run -> exists ws d, opens s run.(OpenRun.run_id) q ws d /\ w'.(db) = view ws d /\
    run.(OpenRun.next_number) = 1.
Proof.
  intros E. eapply (txn_steps qsteps Hrivals _ (fun _ => True) (fun (run : OpenRun) ws d =>
    opens s run.(OpenRun.run_id) q ws d /\ run.(OpenRun.next_number) = 1)) in E; [|done|..|done].
  - destruct E as [HR E]. split; [done|]. intros run Hr.
    destruct (E run Hr) as (ws & d & [? ?] & ->). exists ws, d. done.
  - eapply within_bind; [apply _| |].
    { intros e0 w0 ws r0 w0' [-> _]. revert e0 w0 r0 w0'.
      assert (within updates (close_runs s q reason) (fun _ => updates)) as Hc.
      { apply within_updates. intros now v a new E1. destruct (varchar 32 reason); [|done].
        injection E1 as _ <-.
        assert (forall c, qrun_kept c (set_cols now (fun c => {| c with QRunRow.status := "closed";
          QRunRow.closed_ts := Some now; QRunRow.reset_reason := a0 |}) c)) as Hk.
        { intros c. unfold qrun_kept, is_open. cbn. split_and!; auto. lia. }
        apply run_writes; by apply (rows_where_updates qrun_kept). }
      intros e0 w0 r0 w0' E0. apply (Hc e0 w0 no_writes r0 w0' (updates_none _) E0). }
    intros []. eapply within_bind; [apply _|apply (within_code qsteps _ _ (fun _ => updates))|].
    { apply reads_next_id. } { auto. }
    intros run_id. eapply within_bind; [apply _|apply opens_insert|]. intros [].
    eapply within_bind; [apply _|by apply opens_queue|]. intros [].
    apply (within_ret qsteps). auto.
  - intros run ws d d' [? ?] ? ?. split; [by eapply opens_stable|done].
  - intros run ws d [? ?]. by eapply opens_view.
Qed.
Lemma keeps_open_new_run s q owner reason : keeps (open_new_run s q owner reason).
Proof. intros e w r w' E. apply (open_new_run_steps _ _ _ _ _ _ _ _ E). Qed.
Hint Resolve keeps_open_new_run : queues.
Lemma keeps_daily s q owner policy : keeps (maybe_daily_reset s q owner policy).
Proof. unfold maybe_daily_reset. queue_tac. Qed.
Hint Resolve keeps_daily : queues.
Lemma keeps_ensure s q owner policy : keeps (ensure_open_run s q owner policy).
Proof. unfold ensure_open_run. queue_tac. Qed.
Hint Resolve keeps_ensure : queues.

(** The run the code goes on with is one of the queue, which has not given its
    next number. *)
Definition run_there (s q : Z) (run : OpenRun) (d : Queues) : Prop :=
  exists r, d.(t_qrun) !! (s, run.(OpenRun.run_id)) = Some r /\ r.(cols).(QRunRow.queue_id) = q /\
    run.(OpenRun.next_number) <= r.(cols).(QRunRow.next_number).
Lemma run_there_stays s q run d d' : run_there s q run d -> qsteps d d' -> run_there s q run d'.
Proof.
  intros (r & E & Hq & Hn) HR. destruct (qrun_stays _ _ _ _ HR E) as (r' & E' & Hq' & _ & Hn' & _).
  exists r'. split_and!; [done|congruence|lia].
Qed.
Lemma ensure_there s q owner policy :
  runs (ensure_open_run s q owner policy) (fun _ => True) (run_there s q).
Proof.
  intros e w run w' E _. apply bind_ok in E as ([] & w1 & _ & E).
  apply bind_ok in E as (row & w2 & E1 & E). apply read_ok in E1 as [Hd [now ->]].
  destruct (head (open_runs s q _)) as [[k r]|] eqn:Eh.
  - injection E as <- <-. rewrite Hd. exists r. cbn.
    assert ((k, r) ∈ open_runs s q (others (n_sql w1) (db w1))) as Hin.
    { destruct (open_runs s q _); [done|]. injection Eh as ->. left. }
    apply open_runs_elem in Hin as (Ek & _ & <- & Hq). destruct k as [s0 id]. split_and!; done || lia.
  - destruct (open_new_run_steps _ _ _ _ _ _ _ _ E) as [_ Hrun].
    destruct (Hrun run eq_refl) as (ws & d & (_ & _ & _ & (r & Er & _ & Hq & Hn) & _) & -> & Hr).
    exists r. cbn. split_and!; [by apply view_lookup_in|done|lia].
Qed.

(** ** A new ticket *)

(** The ticket [t] is written and its number is below that of its run, less [b]. *)
Definition inserting (s id : Z) (t : TicketRow) (b : Z) (ws : Writes) (d : Queues) : Prop :=
  writes_ok ws d /\ known ws.(w_qrun) d.(t_qrun) /\ d.(t_ticket) !! (s, id) = None /\
  (exists now, ws.(w_ticket) = {[ (s, id) := new_row now t ]}) /\
  exists r, (view ws d).(t_qrun) !! (s, t.(TicketRow.run_id)) = Some r /\
    r.(cols).(QRunRow.queue_id) = t.(TicketRow.queue_id) /\
    t.(TicketRow.ticket_no) + b <= r.(cols).(QRunRow.next_number).

Lemma view_run_stays ws d d' k r : locked_out ws d d' -> qsteps d d' ->
  (view ws d).(t_qrun) !! k = Some r -> exists r', (view ws d').(t_qrun) !! k = Some r' /\ qrun_kept r r'.
Proof.
  intros HL HR E. cbn in *. destruct (ws.(w_qrun) !! k) as [r1|] eqn:E1.
  - rewrite (view_lookup_in _ _ _ _ E1) in E. injection E as <-. exists r1.
    rewrite (view_lookup_in _ _ _ _ E1). split; [done|reflexivity].
  - rewrite view_lookup_out in E |- * by done. by eapply qrun_stays.
Qed.
Lemma inserting_stable s id t b : stable (inserting s id t b).
Proof.
  intros ws d d' (Hw & Hr & Hn & [now Ht] & r & Er & Hq & Hno) HR HL. unfold inserting. split_and!.
  - by eapply writes_ok_locked.
  - exact (known_locked _ _ _ (same_qrun _ _ _ HL) Hr).
  - rewrite (same_ticket _ _ _ HL); [done|]. rewrite Ht, lookup_singleton_eq. eauto.
  - eauto.
  - destruct (view_run_stays _ _ _ _ _ HL HR Er) as (r' & Er' & Hq' & _ & Hno' & _).
    exists r'. split_and!; [done|congruence|lia].
Qed.
Lemma inserting_merge s id t b new ws d :
  inserting s id t b ws d -> updates new (view ws d) -> new.(w_ticket) = ∅ ->
  inserting s id t b (merge_writes new ws) d.
Proof.
  intros (Hw & Hr & Hn & [now Ht] & r & Er & Hq & Hno) (Uw & Ur & Ut) E. unfold inserting. split_and!.
  - by apply writes_ok_merge.
  - by apply known_merge.
  - done.
  - exists now. cbn. by rewrite E, (left_id_L ∅ (∪)).
  - rewrite view_merge. destruct (view_kept _ _ Uw) as (_ & Kr & _).
    destruct (Kr _ _ Er) as (r' & Er' & Hq' & _ & Hno' & _). exists r'. split_and!; [done|congruence|lia].
Qed.
Lemma inserting_queue s id t b s' q f :
  (forall c, (f c).(QueueRow.owner_iid) = c.(QueueRow.owner_iid)) ->
  within (inserting s id t b) (update_queue s' q f) (fun _ => inserting s id t b).
Proof.
  intros Hf. apply (within_stmt qsteps Hrivals); [apply inserting_stable|].
  intros now ws d a new Hi [= _ <-]. apply inserting_merge; [done| |done].
  apply queue_writes, (rows_where_updates queue_kept). intros r. apply Hf.
Qed.
Lemma inserting_bump s id t :
  within (inserting s id t 0) (bump_run_after_ticket s t.(TicketRow.run_id) t.(TicketRow.ticket_no)
    t.(TicketRow.queue_id)) (fun _ => inserting s id t 1).
Proof.
  eapply within_bind with (Q := fun _ => inserting s id t 1); [apply _| |intros []; by apply inserting_queue].
  apply (within_stmt qsteps Hrivals); [apply inserting_stable|].
  intros now ws d a new Hi E. pose proof Hi as (_ & _ & _ & _ & r & Er & Hq & Hno). rewrite Er in E.
  case_bool_decide; [|done]. injection E as _ <-.
  set (c' := {| r.(cols) with QRunRow.next_number :=
    Z.max r.(cols).(QRunRow.next_number) (t.(TicketRow.ticket_no) + 1) |}).
  assert (qrun_kept r (set_cols now (fun _ => c') r)) as Hk
    by (apply run_update_kept; unfold run_update_ok; cbn; split_and!; done || lia).
  pose proof (singleton_updates qrun_kept _ _ _ _ Er Hk) as [U1 U2].
  destruct (inserting_merge s id t 0 _ ws d Hi (run_writes _ _ U1 U2) eq_refl) as (? & ? & ? & ? & _).
  unfold inserting. split_and!; [done..|]. eexists. split.
  { rewrite view_merge. cbn. apply view_lookup_in, lookup_singleton_eq. } cbn. split; [done|lia].
Qed.
Lemma inserting_new s id t P :
  stable P -> (forall ws d, P ws d -> ws = no_writes /\ exists r,
    d.(t_qrun) !! (s, t.(TicketRow.run_id)) = Some r /\ r.(cols).(QRunRow.queue_id) = t.(TicketRow.queue_id)
    /\ t.(TicketRow.ticket_no) <= r.(cols).(QRunRow.next_number)) ->
  within P (insert_ticket s id t) (fun _ => inserting s id t 0).
Proof.
  intros Hst HP. apply (within_stmt qsteps Hrivals); [done|].
  intros now ws d a new (-> & r & Er & Hq & Hno)%HP E. rewrite view_no_writes in E.
  destruct (bool_decide _ || _) eqn:En; [done|]. case_bool_decide; [|done]. injection E as _ <-.
  apply orb_false_iff in En as [En _]. apply bool_decide_eq_false in En. apply eq_None_not_Some in En.
  unfold inserting. rewrite view_merge, view_no_writes. split_and!.
  - apply writes_ok_merge; [apply writes_ok_none|]. rewrite view_no_writes.
    pose proof (updates_none d) as ((? & ? & _) & _). split_and!; [done..|].
    intros k r' E r1 Er1. cbn in E. apply lookup_singleton_Some in E as [<- _]. congruence.
  - cbn. intros k [? E]. rewrite (right_id_L ∅ (∪)) in E. by rewrite lookup_empty in E.
  - done.
  - cbn. rewrite (right_id_L ∅ (∪)). eauto.
  - exists r. cbn. rewrite !(left_id_L ∅ (∪)). split_and!; [done..|lia].
Qed.
Lemma inserting_view s id t ws d : inserting s id t 1 ws d -> qsteps d (view ws d).
Proof.
  intros (Hw & Hr & Hn & [now Ht] & r & Er & Hq & Hno). split; [by apply view_kept|].
  intros Hwf. apply view_wf; [done|done|..].
  - intros k t' E E0. rewrite Ht in E. apply lookup_singleton_Some in E as [<- <-].
    exists r. cbn [fst cols new_row]. split_and!; [done..|]. cbn. lia.
  - intros k r' E E0. destruct (Hr k) as [? ?]; [eauto|]. congruence.
Qed.
Lemma keeps_take s q owner qrow n p answers : keeps (take_ticket s q owner qrow n p answers).
Proof.
  intros e w r w' E. apply bind_cases in E as [(x & E & _)|(run & w1 & E & E')].
  { by apply keeps_ensure in E. }
  pose proof (ensure_there _ _ _ _ _ _ _ _ E I) as Hrun. apply keeps_ensure in E.
  etransitivity; [exact E|]. clear E w. revert E'.
  intros [(x & E & _)|(token & w2 & E & E')]%bind_cases; [by apply keeps_token in E|].
  apply keeps_token in E. pose proof (run_there_stays _ _ _ _ _ Hrun E) as Hrun2.
  etransitivity; [exact E|]. clear E Hrun w1.
  apply bind_cases in E' as [(x & E & _)|(id & w3 & E & E')]; [by apply safe_next_id in E|].
  apply safe_next_id in E. pose proof (run_there_stays _ _ _ _ _ Hrun2 E) as Hrun3.
  etransitivity; [exact E|]. clear E Hrun2 w2.
  match type of E' with mbind _ ?m _ _ = _ =>
    assert (forall x v, m e w3 = (x, v) -> qsteps w3.(db) v.(db)) as Ht end.
  2: { apply bind_cases in E' as [(x & E & _)|([] & w4 & E & E')]; [by apply Ht in E|].
       apply Ht in E. by injection E' as _ <-. }
  intros x v Ev. eapply (txn_steps qsteps Hrivals _ (run_there s q run)
    (fun _ ws d => exists t, inserting s id t 1 ws d)) in Ev; [apply Ev|..|exact Hrun3].
  - intros d d' ? ?. by eapply run_there_stays.
  - eapply within_bind; [apply _|apply (within_lift qsteps _ _ (fun _ ws d => ws = no_writes /\
      run_there s q run d)); auto|]. intros a.
    eapply within_bind; [apply _|apply inserting_new|].
    + intros ws d d' [-> ?] ? _. split; [done|]. by eapply run_there_stays.
    + intros ws d [-> H']. split; [done|exact H'].
    + intros []. match goal with |- context [inserting s id ?t 0] => pose proof (inserting_bump s id t) as Hb end.
      intros e0 w0 ws r0 w0' Hi E0. destruct (Hb e0 w0 ws r0 w0' Hi E0) as [? HQ].
      split; [done|]. eauto.
  - intros [] ws d d' [t Hi] ? ?. exists t. by eapply inserting_stable.
  - intros [] ws d [t Hi]. by eapply inserting_view.
Qed.
Hint Resolve keeps_take : queues.

(** ** Single statements *)

(** A queue row is added, or keeps its owner. *)
Lemma queue_saved s q row d :
  (forall r, d.(t_queue) !! (s, q) = Some r -> queue_kept r row) ->
  qsteps d {| d with t_queue := <[(s, q) := row]> d.(t_queue) |}.
Proof.
  intros Hk.
  assert (kept_in queue_kept d.(t_queue) (<[(s, q) := row]> d.(t_queue))) as HK.
  { intros k r E. destruct (decide (k = (s, q))) as [->|Hne].
    - exists row. rewrite lookup_insert_eq. auto.
    - exists r. by rewrite lookup_insert_ne. }
  split; [split_and!; [exact HK|..]; cbn; reflexivity|].
  intros (Ht & Hr & Ho). split_and!; [exact Ht| |exact Ho].
  intros k r E. destruct (Hr k r E) as [x Ex]. destruct (HK _ _ Ex) as (x' & Ex' & _). red. eauto.
Qed.
Lemma ticket_saved (k : Z * Z) (r r' : Row TicketRow) d : d.(t_ticket) !! k = Some r -> ticket_kept r r' ->
  qsteps d {| d with t_ticket := <[k := r']> d.(t_ticket) |}.
Proof.
  intros Ek Hk. pose proof (singleton_updates ticket_kept _ _ _ _ Ek Hk) as [U1 U2].
  pose proof (updates_view _ _ (ticket_writes _ d U1 U2)) as Hv. cbn in Hv. unfold queue_view in Hv. cbn in Hv.
  rewrite !(left_id_L ∅ (∪)) in Hv. rewrite insert_union_singleton_l. exact Hv.
Qed.
Lemma keeps_upsert s q owner queue : keeps (stmt (queue_upsert s q owner queue)).
Proof.
  apply respects_stmt; [apply _|exact others_steps|]. intros now d a d' E. unfold queue_upsert in E.
  repeat match type of E with mbind _ ?m = _ =>
    let x := fresh in destruct m as [x|]; [cbn [mbind result_bind] in E|done] end.
  injection E as _ <-. apply queue_saved. intros r Er. rewrite Er. done.
Qed.
Lemma keeps_ensure_default s owner q : keeps (ensure_default_queue s owner q).
Proof.
  apply respects_stmt; [apply _|exact others_steps|]. intros now d a d' [= _ <-].
  destruct (d.(t_queue) !! (s, q)) as [row|] eqn:Eq; [reflexivity|]. apply queue_saved. intros r Er.
  congruence.
Qed.
Lemma keeps_set_status s id q st : keeps (stmt (set_ticket_status s id q st)).
Proof.
  apply respects_stmt; [apply _|exact others_steps|]. intros now d a d' E. unfold set_ticket_status in E.
  destruct (t_get _ _) as [r|] eqn:Eg; [|by injection E as _ <-].
  destruct (_ =? _); [|by injection E as _ <-].
  destruct (varchar 16 st) as [st'|]; [|done]. injection E as _ <-.
  assert (d.(t_ticket) !! (s, id) = Some r) as Er.
  { unfold t_get in Eg. destruct (_ !! _) as [r0|]; [|done]. destruct (live r0); congruence. }
  eapply ticket_saved; [exact Er|].
  unfold ticket_kept. cbn. split_and!; [done..|]. by repeat eexists.
Qed.
Lemma keeps_call_txn s q run : keeps (txn (call_next_txn s q run)).
Proof. apply keeps_updates, updates_call_next. Qed.
Lemma keeps_serving_txn s run q no : keeps (txn (set_run_serving s run q no)).
Proof. apply keeps_updates, updates_serving. Qed.
Hint Resolve keeps_upsert keeps_ensure_default keeps_set_status keeps_call_txn keeps_serving_txn : queues.

(** ** The functions *)

Inductive queue_api : forall {A}, M Queues A -> Prop :=
| api_list caller site : queue_api (site_queue_list caller site)
| api_put caller site queue : queue_api (site_queue_put caller site queue)
| api_advance caller site queue_id : queue_api (site_queue_advance_serving caller site queue_id)
| api_board caller site queue_id : queue_api (site_queue_board caller site queue_id)
| api_call_next caller site queue_id : queue_api (site_queue_call_next caller site queue_id)
| api_set_status caller site queue_id ticket_id status :
    queue_api (site_queue_ticket_set_status caller site queue_id ticket_id status)
| api_reset caller site queue_id : queue_api (site_queue_reset caller site queue_id)
| api_ticket_list caller site queue_id limit :
    queue_api (site_queue_ticket_list caller site queue_id limit)
| api_take body : queue_api (guest_queue_take_handler body)
| api_get body : queue_api (guest_queue_get_handler body)
| api_track site token : queue_api (guest_queue_track_handler site token).

Lemma keeps_call_next c s q : keeps (site_queue_call_next c s q).
Proof. unfold site_queue_call_next. queue_tac. Qed.
Lemma keeps_board s q : keeps (board_build s q).
Proof. unfold board_build. queue_tac. Qed.
Lemma keeps_guest_take s q n p a : keeps (guest_queue_take s q n p a).
Proof. unfold guest_queue_take. queue_tac. Qed.
Lemma keeps_guest_get s q t : keeps (guest_queue_get s q t).
Proof. unfold guest_queue_get. queue_tac. Qed.
Lemma keeps_guest_track s t : keeps (guest_queue_track s t).
Proof. unfold guest_queue_track. queue_tac. Qed.
Lemma keeps_attempt {A} (m : M Queues A) : keeps m -> keeps (attempt m).
Proof. apply respects_attempt. Qed.
Hint Resolve keeps_call_next keeps_board keeps_guest_take keeps_guest_get keeps_guest_track
  keeps_attempt : queues.
Lemma keeps_api {A} (m : M Queues A) : queue_api m -> keeps m.
Proof.
  destruct 1; unfold site_queue_list, site_queue_put, site_queue_advance_serving, site_queue_board,
    site_queue_ticket_set_status, site_queue_reset, site_queue_ticket_list, guest_queue_take_handler,
    guest_queue_get_handler, guest_queue_track_handler, respond; queue_tac.
Qed.
End Safe.
