(* ===== verification/QueueFifo.v ===== *)
(** * A queue is served in the order of its numbers

    A site whose functions run one at a time, as nobody else is on the
    database: the waiting tickets of the open run are a first-in first-out line,
    and no number is given twice in a run. *)
From stdpp Require Import sorting.
From S2P Require Import Prelude Strs Ts World Json Db Grant Shared QueueData Queue.
From S2P Require Import GuestQueue QueueSteps QueueSafe.

(** ** The line *)

Module Fifo.
Definition push (id : Z) (l : list Z) : list Z := l ++ [id].
Definition pop (l : list Z) : option (Z * list Z) :=
  match l with [] => None | id :: l => Some (id, l) end.
Definition leave (id : Z) (l : list Z) : list Z := filter (fun id' => id' <> id) l.
End Fifo.

Section Line.
Context `{!Chrono} `{!Order}.

Definition number (e : (Z * Z) * Row TicketRow) : Z := e.2.(cols).(TicketRow.ticket_no).
Definition waits (site_iid queue_id run_id : Z) : Z * Z -> Row TicketRow -> bool :=
  in_run site_iid queue_id run_id (fun s => String.eqb s "waiting").
Definition ordered (P : Z * Z -> Row TicketRow -> bool) (m : gmap (Z * Z) (Row TicketRow))
    : list ((Z * Z) * Row TicketRow) :=
  merge_sort by_number (filter (fun e => P e.1 e.2 = true) (order m)).
Definition the_run (site_iid queue_id : Z) (d : Queues) : option Z :=
  (fun e : (Z * Z) * Row QRunRow => e.1.2) <$> head (open_runs site_iid queue_id d).
(** The waiting tickets of the open run, by number *)
Definition line (site_iid queue_id : Z) (d : Queues) : list Z :=
  match the_run site_iid queue_id d with
  | Some run_id => (fun e => e.1.2) <$> ordered (waits site_iid queue_id run_id) d.(t_ticket)
  | None => []
  end.
(** No run gives a number twice. *)
Definition distinct (m : gmap (Z * Z) (Row TicketRow)) : Prop := forall k k' t t',
  m !! k = Some t -> m !! k' = Some t' -> k.1 = k'.1 ->
  t.(cols).(TicketRow.run_id) = t'.(cols).(TicketRow.run_id) ->
  t.(cols).(TicketRow.ticket_no) = t'.(cols).(TicketRow.ticket_no) -> k = k'.

Definition strictly (a b : (Z * Z) * Row TicketRow) : Prop := number a < number b.
#[local] Instance strictly_trans : Transitive strictly.
Proof. intros a b c. unfold strictly. lia. Qed.
#[local] Instance by_number_trans : Transitive by_number.
Proof. intros a b c. unfold by_number. lia. Qed.
#[local] Instance by_number_total : Total by_number.
Proof. intros a b. unfold by_number. lia. Qed.

Lemma strictly_same l a b : StronglySorted strictly l -> a ∈ l -> b ∈ l -> number a = number b -> a = b.
Proof.
  induction 1 as [|x l _ IH Hx]; [by intros ?%not_elem_of_nil|]. rewrite list.Forall_forall in Hx.
  intros [->|Ha]%elem_of_cons [->|Hb]%elem_of_cons E; [done|..|auto].
  - specialize (Hx _ Hb). unfold strictly in Hx. lia.
  - specialize (Hx _ Ha). unfold strictly in Hx. lia.
Qed.
Lemma strictly_nodup l : StronglySorted strictly l -> NoDup l.
Proof.
  induction 1 as [|x l _ IH Hx]; constructor; [|done]. rewrite list.Forall_forall in Hx.
  intros Hin%Hx. unfold strictly in Hin. lia.
Qed.
Lemma select_nodup (P : Z * Z -> Row TicketRow -> bool) (m : gmap (Z * Z) (Row TicketRow)) :
  NoDup (filter (fun e => P e.1 e.2 = true) (order m)).
Proof. eapply NoDup_fmap_1, selected_nodup. Qed.
Lemma ordered_elem P m k t : (k, t) ∈ ordered P m <-> m !! k = Some t /\ P k t = true.
Proof. unfold ordered. by rewrite merge_sort_Permutation, selected_elem. Qed.
(** A list in the order of its numbers that has the right tickets *)
Lemma ordered_eq P m l : StronglySorted strictly l ->
  (forall k t, (k, t) ∈ l <-> m !! k = Some t /\ P k t = true) -> ordered P m = l.
Proof.
  intros Hs Hl. assert (forall e, e ∈ ordered P m -> e ∈ l) as Hin.
  { intros [k t] H'. by apply Hl, ordered_elem. }
  apply (StronglySorted_unique_strong by_number).
  - intros a b Ha Hb H1 H2. apply (strictly_same l); auto. unfold by_number, number in *. lia.
  - apply StronglySorted_merge_sort; apply _.
  - clear Hl Hin. induction Hs as [|a l _ IH Ha]; constructor; [done|].
    eapply list.Forall_impl; [exact Ha|]. unfold strictly, by_number, number. cbn. lia.
  - apply NoDup_Permutation.
    + unfold ordered. rewrite merge_sort_Permutation. apply select_nodup.
    + by apply strictly_nodup.
    + intros [k t]. by rewrite Hl, ordered_elem.
Qed.
Lemma ordered_strictly s q run m : distinct m -> StronglySorted strictly (ordered (waits s q run) m).
Proof.
  intros Hd. set (l := ordered _ m).
  assert (StronglySorted by_number l) as Hs by (apply StronglySorted_merge_sort; apply _).
  assert (NoDup l) as Hn by (unfold l, ordered; rewrite merge_sort_Permutation; apply select_nodup).
  assert (forall a b, a ∈ l -> b ∈ l -> number a = number b -> a = b) as Hu.
  { intros [k t] [k' t'] [E Hk]%ordered_elem [E' Hk']%ordered_elem Hno.
    unfold waits, in_run in Hk, Hk'. rewrite !andb_true_iff, !Z.eqb_eq in Hk, Hk'.
    assert (k = k') as -> by (eapply Hd; [exact E|exact E'|..]; cbn in *; intuition congruence).
    congruence. }
  clearbody l. clear Hd. induction Hs as [|a l Hs IH Ha]; [constructor|].
  apply list.NoDup_cons in Hn as [Hni Hn]. constructor.
  - apply IH; [done|]. intros ? ? ? ?. apply Hu; by right.
  - rewrite list.Forall_forall in Ha |- *. intros b Hb. specialize (Ha b Hb).
    unfold by_number in Ha. unfold strictly. destruct (decide (number a = number b)) as [E|?].
    + exfalso. apply Hni. replace a with b; [done|]. symmetry. apply Hu; [left|by right|done].
    + unfold number in *. lia.
Qed.

(** ** The open run *)

Lemma the_run_Some s q d run : one_open d ->
  the_run s q d = Some run <-> open_of d.(t_qrun) s q (s, run).
Proof.
  intros Ho. unfold the_run. split.
  - destruct (open_runs s q d) as [|[k r] l] eqn:E; [done|]. intros [= <-].
    assert ((k, r) ∈ open_runs s q d) as (Ek & Hop & <- & <-)%open_runs_elem by (rewrite E; left).
    destruct k. exists r. done.
  - intros H1. pose proof H1 as (r & Ek & Hop & _ & Hq).
    assert (((s, run), r) ∈ open_runs s q d) as Hin by (by apply open_runs_elem).
    destruct (open_runs s q d) as [|[k r'] l] eqn:E; [by apply not_elem_of_nil in Hin|]. cbn.
    assert ((k, r') ∈ open_runs s q d) as (Ek' & Hop' & Hs' & Hq')%open_runs_elem by (rewrite E; left).
    rewrite (Ho s q k (s, run)); [done|by exists r'|done].
Qed.
Lemma the_run_ext d d' s q : one_open d -> one_open d' ->
  (forall run, open_of d.(t_qrun) s q (s, run) <-> open_of d'.(t_qrun) s q (s, run)) ->
  the_run s q d' = the_run s q d.
Proof. intros Ho Ho' Hrun. apply option_eq. intros run. by rewrite !the_run_Some, Hrun by done. Qed.
(** The same tickets wait. *)
Lemma line_ext d d' s q : distinct d.(t_ticket) -> the_run s q d' = the_run s q d ->
  (forall run k t, waits s q run k t = true -> d'.(t_ticket) !! k = Some t <-> d.(t_ticket) !! k = Some t) ->
  line s q d' = line s q d.
Proof.
  intros Hd Hr Ht. unfold line. rewrite Hr. destruct (the_run s q d) as [run|]; [|done]. f_equal.
  apply ordered_eq; [by apply ordered_strictly|]. intros k t. rewrite ordered_elem.
  specialize (Ht run k t). tauto.
Qed.

(** ** Tickets that leave, and one that joins *)

Lemma strictly_filter (P : (Z * Z) * Row TicketRow -> Prop) `{!forall e, Decision (P e)} l :
  StronglySorted strictly l -> StronglySorted strictly (filter P l).
Proof.
  induction 1 as [|a l _ IH Ha]; [constructor|]. rewrite filter_cons. case_decide; [|done].
  constructor; [done|]. rewrite list.Forall_forall in Ha |- *. intros b [_ Hb]%list_elem_of_filter. auto.
Qed.
Lemma ordered_site s q run m e : e ∈ ordered (waits s q run) m -> e.1 = (s, e.1.2).
Proof.
  destruct e as [[s' id] t]. intros [_ Hw]%ordered_elem. unfold waits, in_run in Hw.
  rewrite !andb_true_iff, Z.eqb_eq in Hw. cbn in *. by destruct Hw as [[[[-> _] _] _] _].
Qed.
Lemma ordered_without m m' s q run id : distinct m ->
  (forall k t, waits s q run k t = true ->
     m' !! k = Some t <-> m !! k = Some t /\ k <> (s, id)) ->
  (fun e => e.1.2) <$> ordered (waits s q run) m' =
  Fifo.leave id ((fun e => e.1.2) <$> ordered (waits s q run) m).
Proof.
  intros Hd Hv. rewrite (ordered_eq _ m' (filter (fun e => e.1 <> (s, id)) (ordered (waits s q run) m))).
  - assert (forall e, e ∈ ordered (waits s q run) m -> e.1 = (s, e.1.2)) as Hs by apply ordered_site.
    induction (ordered (waits s q run) m) as [|e l IH]; [done|]. rewrite fmap_cons.
    unfold Fifo.leave in *. rewrite !filter_cons, <- IH by (intros; apply Hs; by right).
    pose proof (Hs e ltac:(left)) as He. repeat case_decide; rewrite ?fmap_cons; congruence.
  - by apply strictly_filter, ordered_strictly.
  - intros k t. rewrite list_elem_of_filter, ordered_elem. specialize (Hv k t). cbn. tauto.
Qed.
Lemma ordered_with m m' s q run id r : distinct m -> m !! (s, id) = None ->
  m' = <[(s, id) := r]> m -> waits s q run (s, id) r = true ->
  (forall k t, m !! k = Some t -> waits s q run k t = true ->
     t.(cols).(TicketRow.ticket_no) < r.(cols).(TicketRow.ticket_no)) ->
  ordered (waits s q run) m' = ordered (waits s q run) m ++ [((s, id), r)].
Proof.
  intros Hd Hn Ev Hw Hlt. apply ordered_eq.
  - assert (forall e, e ∈ ordered (waits s q run) m -> strictly e ((s, id), r)) as Hlast.
    { intros [k t] [E Hk]%ordered_elem. exact (Hlt k t E Hk). }
    pose proof (ordered_strictly s q run m Hd) as Hs.
    induction Hs as [|a l Hs IH Ha]; [repeat constructor|]. cbn. constructor.
    + apply IH. intros e He. apply Hlast. by right.
    + rewrite Forall_app. split; [done|]. constructor; [|constructor]. apply Hlast. left.
  - intros k t. rewrite elem_of_app, ordered_elem, list_elem_of_singleton, Ev, lookup_insert_Some.
    split; [|naive_solver].
    intros [[E Hk]|[= -> ->]]; (split; [|done]); [right; split; [congruence|done]|by left].
Qed.
Lemma distinct_kept m m' : distinct m ->
  (forall k t', m' !! k = Some t' -> exists t, m !! k = Some t /\ ticket_kept t t') ->
  distinct m'.
Proof.
  intros Hd Hk k k' t t' E E' H1 H2 H3.
  destruct (Hk _ _ E) as (u & Eu & _ & _ & ? & ? & ? & Ec).
  destruct (Hk _ _ E') as (u' & Eu' & _ & _ & ? & ? & ? & Ec'). rewrite Ec, Ec' in H2, H3.
  by eapply (Hd k k' u u').
Qed.

(** The runs as far as the line depends on them *)
Definition same_runs (m m' : gmap (Z * Z) (Row QRunRow)) : Prop := forall k,
  (fun r => (is_open r, r.(cols).(QRunRow.queue_id))) <$> m' !! k =
  (fun r => (is_open r, r.(cols).(QRunRow.queue_id))) <$> m !! k.
Lemma same_runs_open m m' s q k : same_runs m m' -> open_of m s q k <-> open_of m' s q k.
Proof.
  intros H'. specialize (H' k). unfold open_of.
  destruct (m !! k) as [r|] eqn:E, (m' !! k) as [r'|] eqn:E'; cbn in H'; try done.
  injection H' as H1 H2. split; intros (x & Ex & ?); injection Ex as <-; eexists; split; try done;
    by rewrite ?H1, ?H2 || by rewrite <- H1, <- H2.
Qed.
Lemma same_runs_the_run d d' s q : one_open d -> one_open d' -> same_runs d.(t_qrun) d'.(t_qrun) ->
  the_run s q d' = the_run s q d.
Proof. intros Ho Ho' Hs. apply the_run_ext; [done..|]. intros run. by apply same_runs_open. Qed.
End Line.

(** ** Functions on their own *)

Section Alone.
Context `{!Chrono} `{!SerdeJson} `{!Order} `{!Calendar} `{!Rng} `{!Locked} `{!Rivals}.
Context (Halone : forall ws n d, rivals ws n d = d) (Hfree : forall n k, locked n k = false).

Lemma alone_eq ws n d : d = rivals ws n d /\ locked_out ws d (rivals ws n d).
Proof. rewrite Halone. split; [done|]. by split. Qed.
Lemma alone_steps ws n d : qsteps d (rivals ws n d) /\ locked_out ws d (rivals ws n d).
Proof. rewrite Halone. split; [reflexivity|]. by split. Qed.
Lemma alone_others n d : others n d = d.
Proof. apply Halone. Qed.

(** A part of a transaction, on what it sees *)
Definition sees {A} (S : Queues -> Prop) (m : T A) (S' : A -> Queues -> Prop) : Prop :=
  within eq (fun ws d => S (view ws d)) m (fun a ws d => S' a (view ws d)).
Lemma sees_bind {A B} (m : T A) (f : A -> T B) S S' S'' :
  sees S m S' -> (forall a, sees (S' a) (f a) S'') -> sees S (m ≫= f) S''.
Proof. intros Hm Hf. eapply within_bind; [apply _|exact Hm|exact Hf]. Qed.
Lemma sees_ret {A} (a : A) (S : Queues -> Prop) : sees S (mret a) (fun b v => b = a /\ S v).
Proof. apply (within_ret eq). auto. Qed.
Lemma sees_stmt {A} (f : DateTime -> Queues -> result (A * Writes)) (S : Queues -> Prop)
    (S' : A -> Queues -> Prop) :
  (forall now v a new, S v -> f now v = Ok (a, new) -> S' a (view new v)) -> sees S (tstmt f) S'.
Proof.
  intros Hf. apply (within_stmt eq alone_eq).
  - intros ws d d' H' <- _. exact H'.
  - intros now ws d a new H' E. rewrite view_merge. by eapply Hf.
Qed.
Lemma sees_code {A} (m : M Queues A) (S : Queues -> Prop) : reads m -> sees S (tcode m) (fun _ => S).
Proof. intros Hm. by apply (within_code eq). Qed.
Lemma sees_lift {A} (x : result A) (S : Queues -> Prop) : sees S (tlift x) (fun a v => x = Ok a /\ S v).
Proof. by apply (within_lift eq). Qed.
Lemma txn_alone {A} (m : T A) (S' : A -> Queues -> Prop) e w r w' :
  sees (fun v => v = w.(db)) m S' -> txn m e w = (r, w') ->
  match r with Ok a => S' a w'.(db) | Err _ => w'.(db) = w.(db) end.
Proof.
  intros Hm E. eapply (txn_cases eq alone_eq m (fun d => d = w.(db)) (fun a ws d => S' a (view ws d)))
    in E as (d & <- & [([x ->] & ->)|(a & ws & -> & Ha & ->)]).
  - done.
  - exact Ha.
  - intros d d' -> <-. done.
  - intros e0 w0 ws r0 w0' [-> Hd] E0. apply (Hm _ _ _ _ _) in E0; [exact E0|]. by rewrite view_no_writes.
  - intros a ws d d' H' <- _. exact H'.
  - done.
Qed.

(** The statements of transactions, as functions of the tables *)
Definition upd {R} (P : Z * Z -> Row R -> bool) (f : Row R -> Row R) (m : gmap (Z * Z) (Row R)) :=
  rows_where P f m ∪ m.
Lemma lookup_upd {R} (P : Z * Z -> Row R -> bool) (f : Row R -> Row R) (m : gmap (Z * Z) (Row R)) k :
  upd P f m !! k = (fun r => if P k r then f r else r) <$> m !! k.
Proof.
  unfold upd. rewrite lookup_union, lookup_rows_where. destruct (m !! k) as [r|]; [|done]. cbn.
  destruct (P k r); [by rewrite union_Some_l|done].
Qed.
(** An assertion on the runs and the tickets *)
Definition on (F : gmap (Z * Z) (Row QRunRow) -> gmap (Z * Z) (Row TicketRow) -> Prop) (v : Queues) : Prop :=
  F v.(t_qrun) v.(t_ticket).

Lemma sees_tickets P f F :
  sees (on F) (update_tickets P f)
    (fun _ => on (fun rs ts' => exists now ts, F rs ts /\ ts' = upd P (set_cols now (f now)) ts)).
Proof.
  apply sees_stmt. intros now v a new HF [= _ <-]. unfold on in *. cbn. rewrite (left_id_L ∅ (∪)). eauto.
Qed.
Lemma sees_queue s q f F : sees (on F) (update_queue s q f) (fun _ => on F).
Proof. apply sees_stmt. intros now v a new HF [= _ <-]. unfold on. cbn. by rewrite !(left_id_L ∅ (∪)). Qed.
Lemma sees_run s run f F :
  sees (on F) (update_run s run f) (fun _ => on (fun rs' ts => exists rs, F rs ts /\
    match rs !! (s, run) with
    | Some r => exists now c, f r.(cols) = Ok c /\ rs' = <[(s, run) := set_cols now (fun _ => c) r]> rs
    | None => rs' = rs
    end)).
Proof.
  apply sees_stmt. intros now v a new HF E. exists v.(t_qrun).
  destruct (v.(t_qrun) !! (s, run)) as [r|] eqn:Er.
  - destruct (f r.(cols)) as [c|] eqn:Ef; [|done]. injection E as _ <-. cbn.
    rewrite (left_id_L ∅ (∪)). split; [exact HF|]. exists now, c. by rewrite insert_union_singleton_l.
  - injection E as _ <-. cbn. by rewrite !(left_id_L ∅ (∪)).
Qed.
Lemma sees_lock s q run F :
  sees (on F) (lock_first_waiting s q run)
    (fun o => on (fun rs ts => F rs ts /\ o = head (ordered (waits s q run) ts))).
Proof.
  eapply sees_bind; [apply sees_code; by intros e w x w' [= _ <-]|]. intros n.
  apply sees_stmt. intros now v a new HF E.
  rewrite filter_all in E by (apply list.Forall_forall; intros ? _; by rewrite Hfree).
  change (merge_sort by_number (select_tickets _ v)) with (ordered (waits s q run) v.(t_ticket)) in E.
  assert (forall k t, (k, t) ∈ ordered (waits s q run) v.(t_ticket) -> v.(t_ticket) !! k = Some t) as Hin
    by (by intros k t [? _]%ordered_elem).
  destruct (ordered _ _) as [|[k t] l] eqn:Eo; injection E as <- <-; unfold on; cbn.
  - rewrite !(left_id_L ∅ (∪)), Eo. done.
  - rewrite !(left_id_L ∅ (∪)), <- insert_union_singleton_l, insert_id, Eo by (apply Hin; left). done.
Qed.
Lemma sees_weaken {A} (m : T A) (S1 S2 : Queues -> Prop) (S1' S2' : A -> Queues -> Prop) :
  (forall v, S1 v -> S2 v) -> (forall a v, S2' a v -> S1' a v) -> sees S2 m S2' -> sees S1 m S1'.
Proof.
  intros Hp Hq Hm e w ws r w' HP E. apply (Hm e w ws r w') in E as [? HQ]; [|by apply Hp].
  split; [done|]. eauto.
Qed.
Lemma sees_pre {A} (m : T A) (S1 S2 : Queues -> Prop) (S' : A -> Queues -> Prop) :
  (forall v, S1 v -> S2 v) -> sees S2 m S' -> sees S1 m S'.
Proof. intros Hp. by apply sees_weaken. Qed.
Lemma sees_ex {A X} (m : T A) (S : X -> Queues -> Prop) S' :
  (forall x, sees (S x) m S') -> sees (fun v => exists x, S x v) m S'.
Proof. intros Hm e w ws r w' [x Hx]. exact (Hm x e w ws r w' Hx). Qed.
Lemma sees_pure {A} (m : T A) (X : Prop) (S : Queues -> Prop) S' :
  (X -> sees S m S') -> sees (fun v => X /\ S v) m S'.
Proof. intros Hm e w ws r w' [x Hx]. exact (Hm x e w ws r w' Hx). Qed.

(** *** Calling the next *)

Lemma sees_serving s run q no rs0 F :
  sees (on (fun rs ts => rs = rs0 /\ F ts)) (set_run_serving s run q no)
    (fun _ => on (fun rs ts => same_runs rs0 rs /\ F ts)).
Proof.
  eapply sees_bind; [apply sees_run|]. intros [].
  eapply sees_pre; [|apply (sees_queue _ _ _ (fun rs ts => same_runs rs0 rs /\ F ts))].
  intros v (rs & [-> HF] & E). split; [|exact HF].
  destruct (rs0 !! (s, run)) as [r|] eqn:Er; [|by rewrite E].
  destruct E as (now & c & [= <-] & ->). intros k.
  destruct (decide (k = (s, run))) as [->|Hne]; [|by rewrite lookup_insert_ne].
  by rewrite lookup_insert_eq, Er.
Qed.
Definition skipped now (r : Row TicketRow) : Row TicketRow := set_cols now (fun c =>
  {| c with TicketRow.status := "skipped"; TicketRow.done_at := Some now |}) r.
Definition called now (r : Row TicketRow) : Row TicketRow := set_cols now (fun c =>
  {| c with TicketRow.status := "called"; TicketRow.called_at := Some now |}) r.
Lemma sees_call_next s q run rs0 ts0 :
  sees (on (fun rs ts => rs = rs0 /\ ts = ts0)) (call_next_txn s q run)
    (fun '(k, r) => on (fun rs ts => same_runs rs0 rs /\ exists now now',
      let ts1 := upd (in_run s q run at_counter) (skipped now) ts0 in
      head (ordered (waits s q run) ts1) = Some (k, r) /\
      ts = upd (fun k' _ => bool_decide (k' = (s, k.2))) (called now') ts1)).
Proof.
  eapply sees_bind; [apply sees_tickets|]. intros []. eapply sees_bind; [apply sees_lock|]. intros o.
  eapply sees_bind; [apply sees_lift|]. intros [k r]. apply sees_pure. intros Eo.
  eapply sees_bind; [apply sees_tickets|]. intros [].
  eapply sees_bind; [eapply sees_pre; [|apply (sees_serving s run q _ rs0 (fun ts => exists now now',
      let ts1 := upd (in_run s q run at_counter) (skipped now) ts0 in
      head (ordered (waits s q run) ts1) = Some (k, r) /\
      ts = upd (fun k' _ => bool_decide (k' = (s, k.2))) (called now') ts1))]|].
  - intros v (now' & ts & ((now & ts' & [Er ->] & ->) & Ho) & Ev). split; [exact Er|]. exists now, now'.
    split; [|exact Ev]. destruct o as [[k' r']|]; [|done]. injection Eo as -> ->. by symmetry.
  - intros []. eapply sees_weaken; [intros v Hv; exact Hv| |apply sees_ret].
    intros [k' r'] v [[= -> ->] Hv]. exact Hv.
Qed.

(** *** A new run *)

(** The queue has the new run [run_id], the others have theirs. *)
Definition fresh_run (s q run_id : Z) (rs rs' : gmap (Z * Z) (Row QRunRow)) : Prop :=
  rs !! (s, run_id) = None /\ open_of rs' s q (s, run_id) /\
  forall s' q' k, (s', q') <> (s, q) -> open_of rs s' q' k <-> open_of rs' s' q' k.

Lemma sees_open_new_run s q owner reason rs0 ts0 :
  sees (on (fun rs ts => rs = rs0 /\ ts = ts0))
    (close_runs s q reason;; run_id ← tcode next_id; insert_run s run_id q owner reason;;
     update_queue s q (fun c => {| c with QueueRow.last_ticket_no := 0; QueueRow.serving_ticket_no := 0 |});;
     mret {| OpenRun.run_id := run_id; OpenRun.next_number := 1; OpenRun.serving_number := 0 |})
    (fun run => on (fun rs ts => ts = ts0 /\ fresh_run s q run.(OpenRun.run_id) rs0 rs /\
      exists r, rs !! (s, run.(OpenRun.run_id)) = Some r /\
        r.(cols).(QRunRow.next_number) = run.(OpenRun.next_number))).
Proof.
  eapply sees_bind with (S' := fun _ => on (fun rs ts => ts = ts0 /\
    forall k, match rs0 !! k, rs !! k with
      | Some r, Some r' => r'.(cols).(QRunRow.queue_id) = r.(cols).(QRunRow.queue_id) /\
          (if of_queue_run s q k r then is_open r' = false else r' = r)
      | None, None => True | _, _ => False end)).
  { apply sees_stmt. intros now v a new [Er Et] E. destruct (varchar 32 reason) as [reason'|]; [|done].
    injection E as _ <-. split; [cbn; by rewrite (left_id_L ∅ (∪))|]. intros k. cbn [view queue_overlay queue_view t_qrun w_qrun].
    change (rows_where ?P ?f ?m ∪ ?m) with (upd P f m). rewrite lookup_upd, Er.
    destruct (rs0 !! k) as [r|]; [|done]. cbn [fmap option_fmap option_map].
    by destruct (of_queue_run s q k r). }
  intros []. eapply sees_bind; [apply sees_code, reads_next_id|]. intros id.
  eapply sees_bind with (S' := fun _ => on (fun rs ts => ts = ts0 /\ fresh_run s q id rs0 rs /\
    exists r, rs !! (s, id) = Some r /\ r.(cols).(QRunRow.next_number) = 1)).
  { apply sees_stmt. intros now v a new [Et Hrs] E. destruct (varchar 32 reason) as [reason'|]; [|done].
    cbn [mbind result_bind] in E. destruct (v.(t_qrun) !! (s, id)) eqn:En; [by case_match|].
    destruct (open_runs s q v); [|by case_match]. destruct (v.(t_queue) !! (s, q)) as [row|]; [|done].
    injection E as _ <-. unfold on. cbn. rewrite (left_id_L ∅ (∪)), <- insert_union_singleton_l.
    split; [exact Et|]. pose proof (Hrs (s, id)) as Hid. rewrite En in Hid.
    assert (rs0 !! (s, id) = None) as En0 by (by destruct (rs0 !! (s, id))).
    split; [|by rewrite lookup_insert_eq; eauto]. split_and!; [done| |].
    - eexists. by rewrite lookup_insert_eq.
    - intros s' q' k Hne. specialize (Hrs k). unfold open_of.
      destruct (decide (k = (s, id))) as [->|Hk].
      { rewrite lookup_insert_eq, En0. split; [by intros (? & ? & _)|].
        intros (r & Hr & _ & <- & <-). injection Hr as <-. by destruct Hne. }
      rewrite lookup_insert_ne by done. destruct (rs0 !! k) as [r|], (v.(t_qrun) !! k) as [r'|]; try done.
      destruct Hrs as [Hq Ho]. destruct (of_queue_run s q k r) eqn:Eo; [|by subst].
      unfold of_queue_run in Eo. rewrite !andb_true_iff, !Z.eqb_eq in Eo. destruct Eo as [[<- <-] _].
      split; intros (x & Ex & ? & <- & <-); injection Ex as <-; by destruct Hne; rewrite ?Hq. }
  intros []. eapply sees_bind; [apply sees_queue|]. intros [].
  eapply sees_weaken; [intros v Hv; exact Hv| |apply sees_ret]. intros run v [-> Hv]. exact Hv.
Qed.

(** What the search for the open run does: it changes nothing, or the queue has a
    new run, which has no tickets. *)
Record renewed (s q : Z) (d d' : Queues) : Prop := {
  renewed_wf : queues_wf d';
  renewed_tickets : d'.(t_ticket) = d.(t_ticket);
  renewed_others s' q' : (s', q') <> (s, q) -> the_run s' q' d' = the_run s' q' d;
  renewed_run : the_run s q d' = the_run s q d \/ exists run, the_run s q d' = Some run /\
    forall k t, d.(t_ticket) !! k = Some t -> k.1 = s -> t.(cols).(TicketRow.run_id) <> run;
}.
Definition renews (s q : Z) (d d' : Queues) : Prop := queues_wf d -> renewed s q d d'.
#[local] Instance renews_preorder s q : PreOrder (renews s q).
Proof.
  split; [intros d Hd; split; auto|]. intros a b c Hab Hbc Ha.
  destruct (Hab Ha) as [Wb Tb Ob Rb]. destruct (Hbc Wb) as [Wc Tc Oc Rc]. split.
  - done.
  - congruence.
  - intros s' q' Hne. by rewrite Oc, Ob.
  - rewrite Tb in Rc. destruct Rc as [Rc|(run & E & Hrun)]; [|eauto]. rewrite Rc. exact Rb.
Qed.
Lemma renews_same s q d d' :
  d'.(t_qrun) = d.(t_qrun) -> d'.(t_ticket) = d.(t_ticket) -> (queues_wf d -> queues_wf d') ->
  renews s q d d'.
Proof.
  intros Er Et Hwf Hd. split; [auto|done|..].
  - intros s' q' _. unfold the_run, open_runs. by rewrite Er.
  - left. unfold the_run, open_runs. by rewrite Er.
Qed.

Lemma txn_on {A} (m : T A) S' e w r w' :
  sees (on (fun rs ts => rs = w.(db).(t_qrun) /\ ts = w.(db).(t_ticket))) m S' ->
  txn m e w = (r, w') -> match r with Ok a => S' a w'.(db) | Err _ => w'.(db) = w.(db) end.
Proof. intros Hm. apply txn_alone. eapply sees_pre; [|exact Hm]. by intros v ->. Qed.
Lemma open_new_run_alone s q owner reason e w r w' : queues_wf w.(db) ->
  open_new_run s q owner reason e w = (r, w') -> renewed s q w.(db) w'.(db) /\
  forall run, r = Ok run -> the_run s q w'.(db) = Some run.(OpenRun.run_id) /\
    exists x, w'.(db).(t_qrun) !! (s, run.(OpenRun.run_id)) = Some x /\
      x.(cols).(QRunRow.next_number) = run.(OpenRun.next_number).
Proof.
  intros Hwf E. pose proof (keeps_open_new_run alone_steps _ _ _ _ _ _ _ _ E) as [_ Hwf'].
  specialize (Hwf' Hwf). eapply txn_on in E; [|apply sees_open_new_run].
  destruct r as [run|x]; [|rewrite E; split; [by apply renews_same|done]].
  destruct E as (Et & (Hn & Ho & Hothers) & Hx).
  assert (the_run s q w'.(db) = Some run.(OpenRun.run_id)) as Hrun by (by apply the_run_Some; [apply Hwf'|]).
  split; [|by intros ? [= <-]]. split; [done|done|..].
  - intros s' q' Hne. apply the_run_ext; [apply Hwf|apply Hwf'|]. intros run'. by apply Hothers.
  - right. eexists. split; [exact Hrun|]. intros [s' id] t Ek Hs Hid. cbn in Hs. subst s'.
    destruct Hwf as (Hk & _). destruct (Hk _ _ Ek) as (x & Ex & _). cbn in Ex. congruence.
Qed.
Lemma read_alone {A} (f : DateTime -> Queues -> A) e w a w' :
  read f e w = (Ok a, w') -> w'.(db) = w.(db) /\ exists now, a = f now w.(db).
Proof. intros E. apply read_ok in E. by rewrite alone_others in E. Qed.
Lemma renews_open s q owner reason : respects (renews s q) (open_new_run s q owner reason).
Proof. intros e w r w' E Hwf. exact (proj1 (open_new_run_alone _ _ _ _ _ _ _ _ Hwf E)). Qed.
Lemma renews_read {A} s q (f : DateTime -> Queues -> A) : respects (renews s q) (read f).
Proof. apply respects_read; [apply _|]. intros n d. by rewrite alone_others. Qed.
Lemma ensure_alone s q owner policy e w r w' : queues_wf w.(db) ->
  ensure_open_run s q owner policy e w = (r, w') -> renewed s q w.(db) w'.(db) /\
  forall run, r = Ok run -> the_run s q w'.(db) = Some run.(OpenRun.run_id) /\
    exists x, w'.(db).(t_qrun) !! (s, run.(OpenRun.run_id)) = Some x /\
      x.(cols).(QRunRow.next_number) = run.(OpenRun.next_number).
Proof.
  intros Hwf E.
  assert (respects (renews s q) (maybe_daily_reset s q owner policy)) as Hd.
  { unfold maybe_daily_reset, day_boundary. repeat first [ apply renews_open | apply renews_read
      | apply respects_ret, _ | apply respects_lift, _ | apply respects_utc_now, _ | case_match
      | apply respects_bind; [apply _| |intros] ]. }
  apply bind_cases in E as [(x & E & ->)|([] & w1 & E & E')]; apply Hd in E; [by split; [apply E|]|].
  specialize (E Hwf).
  assert (forall d, renewed s q w1.(db) d -> renewed s q w.(db) d) as Htr.
  { intros d Hd'. assert (renews s q w.(db) d) as H'; [|by apply H'].
    transitivity w1.(db); intros _; done. }
  apply bind_cases in E' as [(x & E' & ->)|(row & w2 & E1 & E2)].
  { apply (renews_read s q) in E'. split; [|done]. apply Htr, E', E. }
  apply read_alone in E1 as [Hw2 [now ->]]. rewrite <- Hw2 in E, Htr. unfold the_run at 1.
  rewrite <- Hw2 in E2. destruct (head (open_runs s q w2.(db))) as [[k r0]|] eqn:Eh.
  - injection E2 as <- <-. split; [exact E|]. intros run [= <-]. cbn. rewrite Eh. split; [done|].
    exists r0. split; [|done]. assert ((k, r0) ∈ open_runs s q w2.(db)) as (Ek & _ & <- & _)%open_runs_elem.
    { destruct (open_runs s q w2.(db)); [done|]. injection Eh as ->. left. }
    by destruct k.
  - destruct (open_new_run_alone _ _ _ _ _ _ _ _ (renewed_wf _ _ _ _ E) E2) as [Hn Hr].
    split; [by apply Htr|exact Hr].
Qed.

(** ** What the functions do to the line *)

Definition orderly (d : Queues) : Prop := queues_wf d /\ distinct d.(t_ticket).
Definition others_lines (s q : Z) (d d' : Queues) : Prop :=
  forall s' q', (s', q') <> (s, q) -> line s' q' d' = line s' q' d.
(** The line that is left if the run of [d] is still the one of [d'] *)
Definition carried (s q : Z) (d d' : Queues) : list Z :=
  if bool_decide (the_run s q d' = the_run s q d) then line s q d else [].

(** A ticket stops waiting. *)
Lemma line_leaves d d' s q id t0 : distinct d.(t_ticket) ->
  (forall s' q', the_run s' q' d' = the_run s' q' d) ->
  d.(t_ticket) !! (s, id) = Some t0 -> t0.(cols).(TicketRow.queue_id) = q ->
  (forall s' q' run k t, waits s' q' run k t = true ->
     d'.(t_ticket) !! k = Some t <-> d.(t_ticket) !! k = Some t /\ k <> (s, id)) ->
  line s q d' = Fifo.leave id (line s q d) /\ others_lines s q d d'.
Proof.
  intros Hd Hr E0 Hq Hk. split.
  - unfold line. rewrite Hr. destruct (the_run s q d); [|done]. apply ordered_without; [done|].
    intros k t. apply Hk.
  - intros s' q' Hne. apply line_ext; [done|done|]. intros run k t Hw. rewrite (Hk _ _ _ _ _ Hw).
    split; [by intros [? _]|]. intros E. split; [done|]. intros ->. rewrite E0 in E. injection E as ->.
    unfold waits, in_run in Hw. rewrite !andb_true_iff, !Z.eqb_eq in Hw. cbn in Hw.
    destruct Hw as [[[[<- <-] _] _] _]. congruence.
Qed.
Lemma line_renewed s q d d' : distinct d.(t_ticket) -> renewed s q d d' ->
  line s q d' = carried s q d d' /\ others_lines s q d d'.
Proof.
  intros Hd [_ Et Ho Hr]. split.
  - unfold carried. case_bool_decide as Hc.
    + apply line_ext; [done|done|]. intros run k t _. by rewrite Et.
    + destruct Hr as [|(run & Er & Hno)]; [done|]. unfold line. rewrite Er.
      rewrite (ordered_eq _ _ []); [done|constructor|]. intros k t.
      split; [by intros ?%not_elem_of_nil|]. rewrite Et. intros [E Hw]. exfalso.
      unfold waits, in_run in Hw. rewrite !andb_true_iff, !Z.eqb_eq in Hw.
      destruct Hw as [[[[Hs _] Hrun] _] _]. by apply (Hno _ _ E).
  - intros s' q' Hne. apply line_ext; [done|by apply Ho|]. intros run k t _. by rewrite Et.
Qed.
Lemma waits_status s q run k t : waits s q run k t = true -> t.(cols).(TicketRow.status) = "waiting".
Proof.
  unfold waits, in_run. rewrite !andb_true_iff, String.eqb_eq. by intros [[_ ?] _].
Qed.

Lemma upd_skipped s q run now ts s' q' run' k t : waits s' q' run' k t = true ->
  upd (in_run s q run at_counter) (skipped now) ts !! k = Some t <-> ts !! k = Some t.
Proof.
  intros Hw%waits_status. rewrite lookup_upd. destruct (ts !! k) as [t0|]; [|done]. cbn.
  destruct (in_run s q run at_counter k t0) eqn:Ei; [|done].
  split; intros H'; injection H' as <-; exfalso; [done|].
  unfold in_run in Ei. rewrite Hw in Ei. by rewrite andb_false_r in Ei.
Qed.
Lemma upd_called s id now ts s' q' run' k t : waits s' q' run' k t = true ->
  upd (fun k _ => bool_decide (k = (s, id))) (called now) ts !! k = Some t <->
  ts !! k = Some t /\ k <> (s, id).
Proof.
  intros Hw%waits_status. rewrite lookup_upd. destruct (ts !! k) as [t0|]; [|naive_solver]. cbn.
  case_bool_decide as Hk; [|naive_solver]. split; [|naive_solver]. intros H'. injection H' as <-. done.
Qed.
Lemma upd_kept (P : Z * Z -> Row TicketRow -> bool) f ts k t' : (forall t, ticket_kept t (f t)) ->
  upd P f ts !! k = Some t' -> exists t, ts !! k = Some t /\ ticket_kept t t'.
Proof.
  intros Hf. rewrite lookup_upd. destruct (ts !! k) as [t|]; [|done]. intros [= <-]. exists t.
  split; [done|]. destruct (P k t); [apply Hf|reflexivity].
Qed.
Lemma skipped_kept now t : ticket_kept t (skipped now t).
Proof. unfold ticket_kept, skipped. cbn. split_and!; [done..|]. by repeat eexists. Qed.
Lemma called_kept now t : ticket_kept t (called now t).
Proof. unfold ticket_kept, called. cbn. split_and!; [done..|]. by repeat eexists. Qed.

Lemma call_txn_alone s q run e w k r w' :
  orderly w.(db) -> the_run s q w.(db) = Some run ->
  txn (call_next_txn s q run) e w = (Ok (k, r), w') ->
  orderly w'.(db) /\ others_lines s q w.(db) w'.(db) /\
  Fifo.pop (line s q w.(db)) = Some (k.2, line s q w'.(db)).
Proof.
  intros [Hwf Hd] Hrun E.
  pose proof (keeps_call_txn alone_steps _ _ _ _ _ _ _ E) as [_ Hwf']. specialize (Hwf' Hwf).
  eapply txn_on in E; [|apply sees_call_next]. destruct E as (Hs & now & now' & Eh & Et).
  assert (ordered (waits s q run) (upd (in_run s q run at_counter) (skipped now) w.(db).(t_ticket))
    = ordered (waits s q run) w.(db).(t_ticket)) as Eo.
  { apply ordered_eq; [by apply ordered_strictly|]. intros k' t'. rewrite ordered_elem.
    split; intros [H' Hw]; (split; [by eapply upd_skipped|done]). }
  cbn zeta in Eh. rewrite Eo in Eh. clear Eo.
  destruct (ordered (waits s q run) _) as [|e1 l] eqn:Eo; [done|]. injection Eh as ->.
  assert ((k, r) ∈ ordered (waits s q run) w.(db).(t_ticket)) as Hin by (rewrite Eo; left).
  pose proof (ordered_site _ _ _ _ _ Hin) as Ek. cbn in Ek. apply ordered_elem in Hin as [Er Hw].
  destruct (line_leaves w.(db) w'.(db) s q k.2 r) as [Hl Ho].
  - done.
  - intros s' q'. apply same_runs_the_run; [apply Hwf|apply Hwf'|done].
  - by rewrite <- Ek.
  - unfold waits, in_run in Hw. rewrite !andb_true_iff, !Z.eqb_eq in Hw. tauto.
  - intros s' q' run' k' t Hw'. rewrite Et, (upd_called _ _ _ _ _ _ _ _ _ Hw'). by rewrite upd_skipped.
  - split_and!; [split; [done|]|done|].
    + apply (distinct_kept _ _ Hd). intros k' t' E'. rewrite Et in E'.
      apply upd_kept in E' as (t1 & E1 & K1); [|apply called_kept].
      apply upd_kept in E1 as (t2 & E2 & K2); [|apply skipped_kept]. exists t2. split; [done|].
      by transitivity t1.
    + rewrite Hl. unfold line. rewrite Hrun, Eo, fmap_cons. cbn [Fifo.pop fst snd].
      do 2 f_equal. unfold Fifo.leave.
      rewrite filter_cons, decide_False by auto. symmetry. apply filter_all.
      rewrite list.Forall_forall. intros id (e0 & -> & He0)%list_elem_of_fmap Eid.
      assert (e0 ∈ ordered (waits s q run) w.(db).(t_ticket)) as Hin0 by (rewrite Eo; by right).
      pose proof (ordered_site _ _ _ _ _ Hin0) as E0.
      pose proof (ordered_strictly s q run _ Hd) as Hst. rewrite Eo in Hst.
      apply strictly_nodup, list.NoDup_cons in Hst as [Hni _]. apply Hni.
      destruct e0 as [k0 t0]. cbn in E0, Eid. apply ordered_elem in Hin0 as [Et0 _].
      rewrite E0, Eid, <- Ek, Er in Et0. injection Et0 as <-. by rewrite Ek, <- Eid, <- E0.
Qed.

Lemma keeps_alone {A} (m : M Queues A) e w r w' : queue_api m -> m e w = (r, w') ->
  queues_wf w.(db) -> queues_wf w'.(db).
Proof. intros Hm E. apply (keeps_api alone_steps m Hm _ _ _ _ E). Qed.
Lemma base_alone {A} (m : World.M Db A) : reads m -> respects eq (on_base m).
Proof.
  intros Hm e w r w' E. apply bind_cases in E as [(x & E & _)|([] & w1 & E & E')]; [done|].
  injection E as <-. unfold zoom in E'. destruct (m e _) as [r0 v] eqn:Em. apply Hm in Em.
  injection E' as <- <-. cbn in *. rewrite alone_others in *. rewrite Em. by destruct w.(db).
Qed.
Lemma staff_alone c s : respects eq (site_grant_queue_staff c s).
Proof.
  apply respects_bind; [apply _|apply base_alone, reads_query|]. intros row.
  apply respects_bind; [apply _|apply respects_lift, _|]. intros [owner role].
  apply respects_bind; [apply _|apply respects_lift, _|]. intros o.
  repeat case_match; first [apply respects_ret, _|apply respects_throw, _].
Qed.
Lemma read_eq {A} (f : DateTime -> Queues -> A) : respects eq (read f).
Proof. apply respects_read; [apply _|]. intros n d. by rewrite alone_others. Qed.
Lemma load_alone s q : respects eq (load_queue_row s q).
Proof.
  apply respects_bind; [apply _|apply read_eq|]. intros row. apply respects_lift, _.
Qed.

(** Going on after a part that leaves the tables alone *)
Lemma bind_eq {A B} (m : M Queues A) (f : A -> M Queues B) e w r w' :
  respects eq m -> (m ≫= f) e w = (r, w') ->
  (exists x, r = Err x /\ w'.(db) = w.(db)) \/
  exists a w1, m e w = (Ok a, w1) /\ w1.(db) = w.(db) /\ f a e w1 = (r, w').
Proof.
  intros Hm [(x & E & ->)|(a & w1 & E & E')]%bind_cases; apply Hm in E as E0; [left|right]; eauto 10.
Qed.
Lemma orderly_renewed s q d d' : orderly d -> renewed s q d d' -> orderly d'.
Proof. intros [_ Hd] [Hwf Et _ _]. split; [done|]. by rewrite Et. Qed.
Lemma carried_refl s q d : carried s q d d = line s q d.
Proof. unfold carried. by rewrite bool_decide_true. Qed.
Lemma carried_same s q d d' : d' = d -> line s q d' = carried s q d d'.
Proof. intros ->. by rewrite carried_refl. Qed.

Lemma call_next_alone caller s q e w r w' : orderly w.(db) ->
  site_queue_call_next caller s q e w = (r, w') ->
  let q := resolve_queue_id q in
  orderly w'.(db) /\ others_lines s q w.(db) w'.(db) /\
  match r with
  | Ok ticket => Fifo.pop (line s q w.(db)) = Some (ticket.(SiteQueueTicket.ticket_id), line s q w'.(db))
  | Err _ => line s q w'.(db) = carried s q w.(db) w'.(db)
  end.
Proof.
  intros Hd E q'. assert (forall x v, r = Err x -> v.(db) = w.(db) -> v = w' -> orderly w'.(db) /\
    others_lines s q' w.(db) w'.(db) /\ match r with
    | Ok ticket => Fifo.pop (line s q' w.(db)) = Some (ticket.(SiteQueueTicket.ticket_id), line s q' w'.(db))
    | Err _ => line s q' w'.(db) = carried s q' w.(db) w'.(db) end) as Hsame.
  { intros x v -> Ev <-. rewrite Ev. split_and!; [done|by intros ? ? _|by rewrite carried_refl]. }
  apply bind_eq in E as [(x & Er & Ed)|(owner & w1 & _ & Ed & E)]; [by eapply Hsame| |apply staff_alone].
  apply bind_eq in E as [(x & Er & Ed')|(qrow & w2 & _ & Ed' & E)]; [eapply Hsame; [done| |done]; congruence| |apply load_alone].
  assert (w2.(db) = w.(db)) as Ew by congruence. clear Hsame Ed Ed' w1. rewrite <- Ew in *. clear Ew.
  fold q' in E. apply bind_cases in E as [(x & E & ->)|(run & w3 & E & E')];
    apply (ensure_alone s q') in E as [Hn Hr]; try apply Hd.
  - destruct (line_renewed _ _ _ _ (proj2 Hd) Hn) as [Hl Ho]. split_and!; [by eapply orderly_renewed|done..].
  - destruct (line_renewed _ _ _ _ (proj2 Hd) Hn) as [Hl Ho].
    pose proof (orderly_renewed _ _ _ _ Hd Hn) as Hd3. destruct (Hr run eq_refl) as [Hrun _].
    apply bind_cases in E' as [(x & E' & ->)|([k t] & w4 & E' & E2)].
    + apply txn_on with (S' := fun _ _ => True) in E'.
      * rewrite E'. by split_and!.
      * eapply sees_weaken; [intros v Hv; exact Hv| |apply sees_call_next]. done.
    + injection E2 as <- <-. apply call_txn_alone in E' as (Hd4 & Ho4 & Hp); [|done..].
      split_and!; [done|intros s' q'' Hne; by rewrite Ho4, Ho|]. cbn.
      rewrite Hl in Hp. unfold carried in Hp. by case_bool_decide.
Qed.

(** *** Joining the line *)

Lemma sees_bump s run no q rs0 F :
  sees (on (fun rs ts => rs = rs0 /\ F ts)) (bump_run_after_ticket s run no q)
    (fun _ => on (fun rs ts => same_runs rs0 rs /\ F ts)).
Proof.
  eapply sees_bind; [apply sees_run|]. intros [].
  eapply sees_pre; [|apply (sees_queue _ _ _ (fun rs ts => same_runs rs0 rs /\ F ts))].
  intros v (rs & [-> HF] & E). split; [|exact HF].
  destruct (rs0 !! (s, run)) as [r|] eqn:Er; [|by rewrite E].
  destruct E as (now & c & Ec & ->). case_bool_decide; [|done]. injection Ec as <-. intros k.
  destruct (decide (k = (s, run))) as [->|Hne]; [|by rewrite lookup_insert_ne].
  by rewrite lookup_insert_eq, Er.
Qed.
Lemma sees_insert s id row rs0 ts0 :
  sees (on (fun rs ts => rs = rs0 /\ ts = ts0)) (insert_ticket s id row)
    (fun _ => on (fun rs ts => rs = rs0 /\ ts0 !! (s, id) = None /\
       exists now, ts = <[(s, id) := new_row now row]> ts0)).
Proof.
  apply sees_stmt. intros now v a new [Er Et] E. destruct (bool_decide _ || _) eqn:En; [done|].
  case_bool_decide; [|done]. injection E as _ <-. unfold on. cbn.
  rewrite (left_id_L ∅ (∪)), <- insert_union_singleton_l, Et. split_and!; [done| |eauto].
  apply orb_false_iff in En as [En _]. apply bool_decide_eq_false in En. rewrite Et in En.
  by apply eq_None_not_Some.
Qed.
Lemma sees_take s id (row : Value -> TicketRow) text run no q rs0 ts0 :
  sees (on (fun rs ts => rs = rs0 /\ ts = ts0))
    (a ← tlift (jsonb text); insert_ticket s id (row a);; bump_run_after_ticket s run no q)
    (fun _ => on (fun rs ts => same_runs rs0 rs /\ ts0 !! (s, id) = None /\
       exists a now, ts = <[(s, id) := new_row now (row a)]> ts0)).
Proof.
  eapply sees_bind; [apply sees_lift|]. intros a. apply sees_pure. intros _.
  eapply sees_bind; [apply sees_insert|]. intros [].
  eapply sees_weaken; [intros v Hv; exact Hv| |apply sees_bump].
  intros [] v (Hs & Hn & now & Et). split_and!; eauto.
Qed.
Lemma joins d d' s q run id now row : orderly d -> the_run s q d = Some run ->
  (forall s' q', the_run s' q' d' = the_run s' q' d) ->
  d.(t_ticket) !! (s, id) = None -> d'.(t_ticket) = <[(s, id) := new_row now row]> d.(t_ticket) ->
  row.(TicketRow.queue_id) = q -> row.(TicketRow.run_id) = run -> row.(TicketRow.status) = "waiting" ->
  (forall k t, d.(t_ticket) !! k = Some t -> k.1 = s -> t.(cols).(TicketRow.run_id) = run ->
     t.(cols).(TicketRow.ticket_no) < row.(TicketRow.ticket_no)) ->
  distinct d'.(t_ticket) /\ line s q d' = Fifo.push id (line s q d) /\ others_lines s q d d'.
Proof.
  intros [Hwf Hd] Hrun Hr Hn Et Hq Hri Hst Hlt. split_and!.
  - intros k k' t t'. rewrite Et, !lookup_insert_Some. cbn.
    intros [[<- <-]|[? E]] [[<- <-]|[? E']] Hs Hrr Hno; cbn in *; [done|..|by eapply Hd].
    + specialize (Hlt _ _ E'). rewrite <- Hs, <- Hrr in Hlt. specialize (Hlt eq_refl Hri). lia.
    + specialize (Hlt _ _ E). rewrite Hs, Hrr in Hlt. specialize (Hlt eq_refl Hri). lia.
  - unfold line, Fifo.push. rewrite Hr, Hrun. erewrite ordered_with; [|done|done|exact Et|..].
    + by rewrite fmap_app.
    + unfold waits, in_run. cbn. rewrite Hq, Hri, Hst, !Z.eqb_refl. done.
    + intros k t E Hw. cbn. unfold waits, in_run in Hw. rewrite !andb_true_iff, !Z.eqb_eq in Hw.
      apply (Hlt _ _ E); tauto.
  - intros s' q' Hne. apply line_ext; [done|done|]. intros run' k t Hw. rewrite Et, lookup_insert_Some.
    split; [|intros E; right; split; [intros <-; congruence|done]].
    intros [[<- <-]|[_ ?]]; [|done]. exfalso. apply Hne. unfold waits, in_run in Hw.
    rewrite !andb_true_iff, !Z.eqb_eq in Hw. cbn in Hw. destruct Hw as [[[[<- <-] _] _] _]. by rewrite Hq.
Qed.
Lemma take_ticket_alone s q owner qrow n p answers e w res w' : orderly w.(db) ->
  take_ticket s q owner qrow n p answers e w = (Ok res, w') ->
  res.(GuestQueueTakeResult.queue_id) = q /\ orderly w'.(db) /\ others_lines s q w.(db) w'.(db) /\
  line s q w'.(db) = Fifo.push res.(GuestQueueTakeResult.ticket_id) (carried s q w.(db) w'.(db)).
Proof.
  intros Hd E. pose proof (keeps_take alone_steps _ _ _ _ _ _ _ _ _ _ _ E) as [_ Hwf'].
  specialize (Hwf' (proj1 Hd)). apply bind_ok in E as (run & w1 & E & E').
  apply (ensure_alone s q) in E as [Hn Hr]; [|apply Hd]. destruct (Hr run eq_refl) as (Hrun & x & Ex & Hx).
  destruct (line_renewed _ _ _ _ (proj2 Hd) Hn) as [Hl Ho]. pose proof (orderly_renewed _ _ _ _ Hd Hn) as Hd1.
  apply bind_ok in E' as (token & w2 & E & E'). assert (w1.(db) = w2.(db)) as E12.
  { assert (respects eq new_track_token) as Ht; [|by apply Ht in E].
    apply respects_bind; [apply _|apply respects_next_id, _|]. intros i.
    apply respects_bind; [apply _|apply respects_ask; intros; by rewrite alone_others|].
    intros u. apply respects_ret, _. }
  apply bind_ok in E' as (id & w3 & E3 & E'). apply reads_next_id in E3.
  apply bind_ok in E' as ([] & w4 & E4 & E'). apply ret_ok in E' as [-> ->].
  eapply txn_on in E4; [|apply (sees_take s id (fun a => {|
    TicketRow.queue_id := q; TicketRow.run_id := run.(OpenRun.run_id); TicketRow.owner_iid := owner;
    TicketRow.ticket_no := run.(OpenRun.next_number); TicketRow.track_token := token;
    TicketRow.display_label := _; TicketRow.guest_name := _; TicketRow.guest_phone := _;
    TicketRow.answers := a; TicketRow.status := "waiting"; TicketRow.called_at := None;
    TicketRow.done_at := None |}))].
  destruct E4 as (Hs & Hnone & a & now & Et). rewrite E3, <- E12 in *. cbn.
  assert (forall s' q', the_run s' q' w4.(db) = the_run s' q' w1.(db)) as Hruns
    by (intros; apply same_runs_the_run; [apply Hd1|apply Hwf'|done]).
  eapply joins in Et as (Hd4 & Hl4 & Ho4); try done.
  - split_and!; [done|by split|intros s' q' Hne; by rewrite Ho4, Ho|].
    rewrite Hl4, Hl. unfold carried. by rewrite Hruns.
  - intros k t Ek Hks Hkr. destruct (proj1 (proj1 Hd1) _ _ Ek) as (x' & Ex' & _ & Hno).
    rewrite Hks, Hkr, Ex in Ex'. injection Ex' as <-. cbn. by rewrite <- Hx.
Qed.

(** The tables of the queues before what a request of a guest changes *)
Lemma guest_take_alone s q n p a e w res w' : orderly w.(db) ->
  guest_queue_take s q n p a e w = (Ok res, w') -> res.(GuestQueueTakeResult.ok) = true ->
  let q := resolve_queue_id q in
  res.(GuestQueueTakeResult.queue_id) = q /\ orderly w'.(db) /\ others_lines s q w.(db) w'.(db) /\
  line s q w'.(db) = Fifo.push res.(GuestQueueTakeResult.ticket_id) (carried s q w.(db) w'.(db)).
Proof.
  intros Hd E Hok q'. unfold guest_queue_take in E. fold q' in E.
  case_match; [by injection E as <- <-|].
  apply bind_eq in E as [(? & ? & _)|(published & w1 & _ & E1 & E)]; [done| |apply base_alone, reads_query].
  case_match; [by injection E as <- <-|].
  apply bind_eq in E as [(? & ? & _)|(caps & w2 & _ & E2 & E)]; [done| |apply base_alone, reads_site_capabilities_get].
  case_match; [by injection E as <- <-|].
  apply bind_eq in E as [(? & ? & _)|(owner & w3 & _ & E3 & E)]; [done| |].
  2: { apply respects_bind; [apply _|apply base_alone, reads_query|]. intros row.
    apply respects_bind; [apply _|apply respects_lift, _|]. intros o. apply respects_lift, _. }
  apply bind_ok in E as ([] & w4 & E4 & E).
  apply bind_eq in E as [(? & ? & _)|(qrow & w5 & _ & E5 & E)]; [done| |apply load_alone].
  do 2 (case_match; [by injection E as <- <-|]). case_match; [|by injection E as <- <-].
  assert (t_qrun w5.(db) = t_qrun w.(db) /\ t_ticket w5.(db) = t_ticket w.(db) /\ queues_wf w5.(db))
    as (Er & Et & Hwf).
  { assert (w3.(db) = w.(db)) as E0 by congruence. pose proof E4 as E4'.
    apply keeps_ensure_default in E4' as [_ Hwf]; [|exact alone_steps]. rewrite E5.
    apply stmt_ok in E4 as [now E4]. rewrite alone_others, E0 in E4. injection E4 as E4.
    rewrite <- E4 in Hwf |- *. rewrite E0 in Hwf. destruct (t_queue w.(db) !! _); by split_and!; auto; apply Hwf, Hd. }
  assert (forall s q, the_run s q w5.(db) = the_run s q w.(db)) as Hrun
    by (intros; unfold the_run, open_runs; by rewrite Er).
  assert (forall s q, line s q w5.(db) = line s q w.(db)) as Hline
    by (intros; unfold line; by rewrite Hrun, Et).
  assert (orderly w5.(db)) as Hd5 by (split; [done|rewrite Et; apply Hd]).
  destruct (take_ticket_alone _ _ _ _ _ _ _ _ _ _ _ Hd5 E) as (? & ? & Ho & Hl). split_and!; [done..| |].
  - intros s0 q0 Hne. by rewrite Ho, Hline.
  - rewrite Hl. unfold carried. by rewrite Hrun, Hline.
Qed.

Lemma set_status_alone caller s q id status e w ticket w' : orderly w.(db) ->
  site_queue_ticket_set_status caller s q id status e w = (Ok ticket, w') ->
  ticket.(SiteQueueTicket.status) <> "waiting" ->
  let q := resolve_queue_id q in
  orderly w'.(db) /\ others_lines s q w.(db) w'.(db) /\ line s q w'.(db) = Fifo.leave id (line s q w.(db)).
Proof.
  intros Hd E Hst q'.
  pose proof (keeps_alone _ _ _ _ _ (api_set_status _ _ _ _ _) E (proj1 Hd)) as Hwf'.
  apply bind_eq in E as [(? & ? & _)|(owner & w1 & _ & E1 & E)]; [done| |apply staff_alone].
  fold q' in E. apply bind_ok in E as (row & w2 & E2 & E).
  apply bind_ok in E as (r & w3 & E3 & E). destruct row as [r'|]; [|done]. injection E3 as -> <-.
  apply bind_ok in E as ([] & w4 & E4 & E). apply ret_ok in E as [-> ->].
  apply stmt_ok in E2 as [now E2]. rewrite alone_others, E1 in E2. unfold set_ticket_status in E2.
  destruct (t_get (s, id) _) as [t0|] eqn:Eg; [|done]. destruct (_ =? q') eqn:Eq; [|done].
  destruct (varchar _ _) as [st|]; [|done]. injection E2 as Er E2. apply Z.eqb_eq in Eq.
  assert (t_ticket w.(db) !! (s, id) = Some t0) as E0.
  { unfold t_get in Eg. destruct (_ !! _) as [r0|]; [|done]. destruct (live r0); congruence. }
  assert (same_runs w.(db).(t_qrun) w4.(db).(t_qrun) /\ w4.(db).(t_ticket) = <[(s, id) := r]> w.(db).(t_ticket))
    as [Hs Et].
  { assert (same_runs w2.(db).(t_qrun) w4.(db).(t_qrun) /\ w4.(db).(t_ticket) = w2.(db).(t_ticket)) as [Hs Et].
    { clear Er E2. destruct (at_counter (to_lowercase (trim status))); [|by apply ret_ok in E4 as [_ ->]].
      eapply txn_on in E4; [|apply (sees_serving _ _ _ _ w2.(db).(t_qrun)
        (fun ts => ts = w2.(db).(t_ticket)))]. exact E4. }
    rewrite <- E2, Er in Hs, Et. by split. }
  change (r.(cols).(TicketRow.status) <> "waiting") in Hst.
  destruct (line_leaves w.(db) w4.(db) s q' id t0) as [Hl Ho].
  - apply Hd.
  - intros s0 q0. apply same_runs_the_run; [apply Hd|apply Hwf'|done].
  - done.
  - done.
  - intros s0 q0 run k t Hw%waits_status. rewrite Et, lookup_insert_Some.
    split; [|intros [? ?]; right; split; congruence]. intros [[<- <-]|[? ?]]; [congruence|split; congruence].
  - split_and!; [split; [done|]|done..]. apply (distinct_kept _ _ (proj2 Hd)). intros k t'.
    rewrite Et, lookup_insert_Some. intros [[<- <-]|[? ?]]; [|eexists; split; [done|reflexivity]].
    exists t0. split; [done|]. rewrite <- Er. unfold ticket_kept. cbn. split_and!; [done..|]. by repeat eexists.
Qed.
Lemma reset_alone caller s q e w run_id w' : orderly w.(db) ->
  site_queue_reset caller s q e w = (Ok run_id, w') ->
  let q := resolve_queue_id q in
  orderly w'.(db) /\ others_lines s q w.(db) w'.(db) /\ line s q w'.(db) = [].
Proof.
  intros Hd E q'. apply bind_eq in E as [(? & ? & _)|(owner & w1 & _ & E1 & E)];
    [done| |apply base_alone, reads_site_grant_check]. fold q' in E. rewrite <- E1 in *.
  apply bind_ok in E as (run & w2 & E & E'). apply ret_ok in E' as [_ ->].
  pose proof (open_new_run_alone _ _ _ _ _ _ _ _ (proj1 Hd) E) as [Hn _].
  destruct (line_renewed _ _ _ _ (proj2 Hd) Hn) as [Hl Ho]. split_and!; [by eapply orderly_renewed|done|].
  rewrite Hl. unfold carried. case_bool_decide as Hc; [|done]. exfalso. revert Hc.
  eapply txn_on in E; [|apply sees_open_new_run]. destruct E as (_ & (Hnone & Hopen & _) & _).
  apply the_run_Some in Hopen; [|apply Hn]. rewrite Hopen. intros Hrun%eq_sym.
  apply the_run_Some in Hrun; [|apply Hd]. destruct Hrun as (r & Er & _). congruence.
Qed.
End Alone.
