(* ===== verification/QueueProps.v ===== *)
(** * The queues do what they promise

    Theorems on the functions of the queues: the invariant of their tables
    whoever runs beside them, the order of the tickets, who may call what, where
    a day starts, and how many wait before a guest. *)
From stdpp Require Import sorting.
From S2P Require Import Prelude Strs Ts World Json Db Grant Shared QueueData Queue.
From S2P Require Import GuestQueue QueueSteps QueueSafe QueueFifo.

Section Props.
Context `{!Chrono} `{!SerdeJson} `{!Order} `{!Calendar} `{!Rng} `{!Locked} `{!Rivals}.

(** C38. Whatever request the queues serve, and whoever runs beside it: a queue
    keeps its owner, a run its queue, a closed run stays closed and never lowers
    its next number, a ticket keeps everything but its status and when it was
    called and done.  And the tables stay well formed: a queue has at most one
    open run, a run belongs to a queue that is there, and a ticket to a run of
    its queue, whose next number is above the ticket's. *)
Theorem queues_stay_well_formed {A} (m : M Queues A) e w r w'
    (Hrivals : forall ws n d, qsteps d (rivals ws n d) /\ locked_out ws d (rivals ws n d))
    (Hm : queue_api m) (E : m e w = (r, w')) :
  tables_kept w.(db) w'.(db) /\ (queues_wf w.(db) -> queues_wf w'.(db)).
Proof. apply (keeps_api Hrivals m Hm _ _ _ _ E). Qed.

(** C37. With nobody else on the database, a queue is a first-in first-out line of
    its waiting tickets.  A guest who takes a ticket joins at the end; a call
    takes the first of the line, and a call that fails takes nobody; a ticket
    whose status becomes another than waiting leaves; a reset empties the line.
    The line is lost only when the queue has a new run.  The lines of all other
    queues stay as they are, the tables stay well formed, and no number is given
    twice in a run. *)
Theorem queue_is_fifo e w
    (Halone : forall ws n d, rivals ws n d = d) (Hfree : forall n k, locked n k = false)
    (Hd : orderly w.(db)) :
  (forall s q n p a res w', guest_queue_take s q n p a e w = (Ok res, w') ->
     res.(GuestQueueTakeResult.ok) = true ->
     let q := res.(GuestQueueTakeResult.queue_id) in
     orderly w'.(db) /\ others_lines s q w.(db) w'.(db) /\
     line s q w'.(db) = Fifo.push res.(GuestQueueTakeResult.ticket_id) (carried s q w.(db) w'.(db))) /\
  (forall caller s q r w', site_queue_call_next caller s q e w = (r, w') ->
     let q := resolve_queue_id q in
     orderly w'.(db) /\ others_lines s q w.(db) w'.(db) /\
     match r with
     | Ok ticket =>
         Fifo.pop (line s q w.(db)) = Some (ticket.(SiteQueueTicket.ticket_id), line s q w'.(db))
     | Err _ => line s q w'.(db) = carried s q w.(db) w'.(db)
     end) /\
  (forall caller s q id status ticket w',
     site_queue_ticket_set_status caller s q id status e w = (Ok ticket, w') ->
     ticket.(SiteQueueTicket.status) <> "waiting" ->
     let q := resolve_queue_id q in
     orderly w'.(db) /\ others_lines s q w.(db) w'.(db) /\
     line s q w'.(db) = Fifo.leave id (line s q w.(db))) /\
  (forall caller s q run_id w', site_queue_reset caller s q e w = (Ok run_id, w') ->
     let q := resolve_queue_id q in
     orderly w'.(db) /\ others_lines s q w.(db) w'.(db) /\ line s q w'.(db) = []).
Proof.
  split_and!.
  - intros s q n p a res w' E Hok.
    destruct (guest_take_alone Halone _ _ _ _ _ _ _ _ _ Hd E Hok) as (-> & Ho & H'). done.
  - intros caller s q r w' E. exact (call_next_alone Halone Hfree _ _ _ _ _ _ _ Hd E).
  - intros caller s q id st ticket w' E Hst.
    exact (set_status_alone Halone _ _ _ _ _ _ _ _ _ Hd E Hst).
  - intros caller s q run w' E. exact (reset_alone Halone _ _ _ _ _ _ _ Hd E).
Qed.

(** A day starts at the latest time that is the given time of day and not after
    now: the start found is not after now, and that of the next day is. *)
Theorem day_boundary_latest `{!CalendarLaws} tz at_hhmm e w boundary w'
    (E : day_boundary tz at_hhmm e w = (Ok boundary, w')) :
  exists hm now day, (parse_time "%H:%M" at_hhmm = Some hm \/ parse_time "%H:%M:%S" at_hhmm = Some hm) /\
    now = e.(env_clock) w.(n_clock) /\ at_local tz day hm = Some boundary /\
    dt_ltb now boundary = false /\
    forall next, at_local tz (day + 1) hm = Some next -> dt_ltb now next = true.
Proof.
  apply bind_ok in E as (hm & w1 & E1 & E). apply bind_ok in E as (now & w2 & E2 & E).
  injection E2 as <- <-. injection E1 as E1 <-. apply bind_ok in E as (today & w3 & E3 & E).
  injection E3 as E3 <-. exists hm, (env_clock e (n_clock w)).
  assert (parse_time "%H:%M" at_hhmm = Some hm \/ parse_time "%H:%M:%S" at_hhmm = Some hm) as Hhm
    by (unfold ok_or in E1; repeat case_match; simplify_eq; auto).
  destruct (at_local tz _ hm) as [t|] eqn:Et; [|done]. injection E3 as ->.
  destruct (dt_ltb _ today) eqn:Hb; cbn in E.
  - destruct (at_local tz _ hm) as [t|] eqn:Et' in E; [|done]. injection E as -> _.
    exists (local_day tz (env_clock e (n_clock w)) - 1). split_and!; [done|done|done| |].
    + eapply at_local_past; [exact Et'|lia].
    + intros next En. rewrite Z.sub_add in En. congruence.
  - injection E as <- _. eexists. split_and!; [done|done|exact Et|done|].
    intros next En. eapply at_local_future; [exact En|lia].
Qed.

(** ** Who may call *)

Inductive Access := Reading | Managing | Serving.
Definition allowed (access : Access) (d : Db) (caller_iid site_iid : Z) : Prop :=
  exists owner, site_owner d site_iid = Some (Some owner) /\
    match access with
    | Reading => may_access d caller_iid site_iid owner false = true
    | Managing => may_access d caller_iid site_iid owner true = true
    | Serving => owner = caller_iid \/
        site_role_rank "staff" <= site_role_rank (granted_role d site_iid caller_iid)
    end.
Inductive staff_api (caller site : Z) : Access -> forall {A}, M Queues A -> Prop :=
| staff_list : staff_api caller site Reading (site_queue_list caller site)
| staff_board queue_id : staff_api caller site Reading (site_queue_board caller site queue_id)
| staff_ticket_list queue_id limit :
    staff_api caller site Reading (site_queue_ticket_list caller site queue_id limit)
| staff_put queue : staff_api caller site Managing (site_queue_put caller site (Some queue))
| staff_reset queue_id : staff_api caller site Managing (site_queue_reset caller site queue_id)
| staff_call_next queue_id : staff_api caller site Serving (site_queue_call_next caller site queue_id)
| staff_advance queue_id : staff_api caller site Serving (site_queue_advance_serving caller site queue_id)
| staff_set_status queue_id ticket_id status :
    staff_api caller site Serving (site_queue_ticket_set_status caller site queue_id ticket_id status).

(** A check that reads the other tables of the site, in what follows it *)
Definition checks {A} (access : Access) (caller site : Z) (m : M Queues A) : Prop := forall e w r w',
  m e w = (r, w') -> w'.(db) = others w.(n_sql) w.(db) /\
  forall a, r = Ok a -> allowed access w'.(db).(q_base) caller site.
Lemma checks_bind {A B} access caller site (m : M Queues A) (f : A -> M Queues B) e w r w' :
  checks access caller site m -> (m ≫= f) e w = (r, w') ->
  allowed access (others w.(n_sql) w.(db)).(q_base) caller site \/
  (exists x, r = Err x) /\ w'.(db) = others w.(n_sql) w.(db).
Proof.
  intros Hm [(x & E & ->)|(a & w1 & E & _)]%bind_cases; apply Hm in E as [Ed Ha]; [right; eauto|left].
  rewrite <- Ed. by eapply Ha.
Qed.
Lemma on_base_read {A} (m : World.M Db A) e w r w' : reads m -> on_base m e w = (r, w') ->
  w'.(db) = others w.(n_sql) w.(db) /\
  forall a, r = Ok a -> exists v v', m e v = (Ok a, v') /\ v.(db) = w'.(db).(q_base) /\ v'.(db) = v.(db).
Proof.
  intros Hm E. apply bind_cases in E as [(x & E & _)|([] & w1 & E & E')]; [done|].
  injection E as <-. unfold zoom in E'. cbn in E'. destruct (m e _) as [r0 v] eqn:Em.
  pose proof (Hm _ _ _ _ Em) as Hv. cbn in Hv. injection E' as <- <-. cbn. rewrite Hv.
  split; [by destruct (others _ _)|]. intros a ->. do 2 eexists. split; [exact Em|]. cbn. by rewrite Hv.
Qed.
Lemma checks_grant caller site (write : bool) :
  checks (if write then Managing else Reading) caller site (on_base (site_grant_check caller site write)).
Proof.
  intros e w r w' E. apply on_base_read in E as [Ed Ha]; [|apply reads_site_grant_check].
  split; [done|]. intros a Hr. destruct (Ha a Hr) as (v & v' & E & Ev & Ev').
  destruct (runs_site_grant_check _ _ _ (fun _ => True) _ _ _ _ E I) as (_ & Ho & Hm).
  rewrite <- Ev, <- Ev'. exists a. split; [exact Ho|]. destruct write; exact Hm.
Qed.
Lemma checks_staff caller site : checks Serving caller site (site_grant_queue_staff caller site).
Proof.
  intros e w r w' E. apply bind_cases in E as [(x & E & ->)|(row & w1 & E & E')];
    apply on_base_read in E as [Ed Ha]; try apply reads_query; [done|].
  assert (w'.(db) = w1.(db)) as Ew.
  { revert E'. assert (forall row, reads (DB := Queues) ('(owner, role) ← lift (ok_or row "site not found");
      owner_iid ← lift (ok_or owner "owner_iid is null");
      if owner_iid =? caller then mret owner_iid
      else if site_role_rank "staff" <=? site_role_rank (default "" role) then mret owner_iid
      else throw "forbidden")) as Hr; [|apply Hr].
    intros row'. apply reads_bind; [apply reads_lift|]. intros [owner role].
    apply reads_bind; [apply reads_lift|]. intros o. repeat case_match; auto with reads. }
  rewrite Ew. split; [done|]. intros a ->. destruct (Ha _ eq_refl) as (v & v' & E & Ev & _).
  apply query_ok in E as [[now Erow] _]. rewrite Ev in Erow.
  apply bind_ok in E' as ([owner role] & w2 & E2 & E'). injection E2 as E2 <-.
  apply bind_ok in E' as (o & w3 & E3 & E'). injection E3 as E3 <-. exists o.
  unfold allowed, site_owner, granted_role. subst row.
  destruct (t_get site _) as [x|]; [|done]. destruct (String.eqb _ _); [|done].
  injection E2 as -> <-. destruct owner; [|done]. injection E3 as ->. split; [done|].
  destruct (o =? caller) eqn:Eo; [left; by apply Z.eqb_eq|].
  destruct (_ <=? _) eqn:Er; [right; by apply Z.leb_le|]. by injection E'.
Qed.

(** C40. Every function for the staff starts with a check of the caller: the boards
    and lists are for those who may read the site, queues are managed by those
    who may write, and served by its owner or its staff.  For anyone else the
    function fails and changes nothing. *)
Theorem queue_staff_only {A} access caller site (m : M Queues A) e w r w'
    (Hm : staff_api caller site access m) (E : m e w = (r, w')) :
  let d := others w.(n_sql) w.(db) in
  allowed access d.(q_base) caller site \/ (exists x, r = Err x) /\ w'.(db) = d.
Proof.
  destruct Hm; try (by eapply checks_bind; [|exact E]; first [apply checks_staff|
    apply (checks_grant _ _ false)|apply (checks_grant _ _ true)]).
  - eapply (checks_bind _ _ _ _ _ _ _ _ _ (checks_grant _ _ true)). exact E.
  - unfold site_queue_advance_serving, site_queue_call_next in E.
    apply bind_cases in E as [(x & E & ->)|(a & w1 & E & _)].
    + eapply checks_bind in E; [|apply checks_staff]. destruct E as [?|[_ ?]]; eauto.
    + eapply checks_bind in E; [|apply checks_staff]. destruct E as [?|[[? [=]] _]]. by left.
Qed.

(** ** How many wait before a guest *)

(** [n] calls of the staff, with the tickets called *)
Fixpoint calls (caller site queue_id : Z) (n : nat) : M Queues (list Z) :=
  match n with
  | O => mret []
  | S n =>
      ticket ← site_queue_call_next caller site queue_id;
      ids ← calls caller site queue_id n;
      mret (ticket.(SiteQueueTicket.ticket_id) :: ids)
  end.

Section Waiting.
Context (Halone : forall ws n d, rivals ws n d = d) (Hfree : forall n k, locked n k = false).

Lemma calls_line caller s q n e w ids w' : orderly w.(db) -> calls caller s q n e w = (Ok ids, w') ->
  ids = take n (line s (resolve_queue_id q) w.(db)) /\ length ids = n.
Proof.
  revert w ids w'. induction n as [|n IH]; intros w ids w' Hd E; [by apply ret_ok in E as [-> _]|].
  cbn [calls] in E. apply bind_ok in E as (ticket & w1 & E1 & E). apply bind_ok in E as (ids1 & w2 & E2 & E).
  apply ret_ok in E as [-> _]. apply (call_next_alone Halone Hfree) in E1 as (Hd1 & _ & Hp); [|done].
  apply IH in E2 as [-> Hn]; [|done]. destruct (line s _ w.(db)) as [|id l]; [done|].
  cbn in Hp. injection Hp as -> ->. cbn. by rewrite Hn.
Qed.

Lemma filter_before id t s pre post : StronglySorted strictly (pre ++ ((s, id), t) :: post) ->
  filter (fun e => number e <? t.(cols).(TicketRow.ticket_no) = true) (pre ++ ((s, id), t) :: post) = pre.
Proof.
  intros Hs. rewrite list.filter_app, filter_cons.
  apply sorting.StronglySorted_app in Hs as (Hb & _ & Ha). rewrite filter_all, filter_none.
  - rewrite decide_False; [by rewrite app_nil_r|]. unfold number. cbn. by rewrite Z.ltb_irrefl.
  - apply StronglySorted_inv in Ha as [_ Ha]. rewrite list.Forall_forall in Ha |- *. intros x Hx%Ha.
    unfold strictly, number in *. cbn in *. rewrite Z.ltb_lt. lia.
  - rewrite list.Forall_forall. intros x Hx. apply Z.ltb_lt. apply (Hb x ((s, id), t) Hx). left.
Qed.

Lemma count_before s q run no m :
  length (filter (fun e : (Z * Z) * Row TicketRow => waits s q run e.1 e.2 && (e.2.(cols).(TicketRow.ticket_no) <? no) = true) (order m)) =
  length (filter (fun e => number e <? no = true) (ordered (waits s q run) m)).
Proof.
  apply Permutation_length. unfold ordered. rewrite merge_sort_Permutation, list_filter_filter.
  apply eq_subrelation; [apply _|]. apply list_filter_iff. intros e. rewrite andb_true_iff. unfold number. tauto.
Qed.
Lemma track_alone s token e w res w' : guest_queue_track s token e w = (Ok res, w') ->
  res.(GuestQueueTrackResult.ok) = true -> w'.(db) = w.(db) /\ exists t,
    w.(db).(t_ticket) !! (s, res.(GuestQueueTrackResult.ticket_id)) = Some t /\ live t = true /\
    t.(cols).(TicketRow.track_token) = trim token /\
    res.(GuestQueueTrackResult.queue_id) = t.(cols).(TicketRow.queue_id) /\
    res.(GuestQueueTrackResult.status) = t.(cols).(TicketRow.status) /\
    res.(GuestQueueTrackResult.position_ahead) = to_i32 (Z.of_nat (length (filter
      (fun e => number e <? t.(cols).(TicketRow.ticket_no) = true)
      (ordered (waits s t.(cols).(TicketRow.queue_id) t.(cols).(TicketRow.run_id)) w.(db).(t_ticket))))).
Proof.
  intros E Hok. unfold guest_queue_track in E. case_match; [by injection E as <- <-|].
  apply bind_eq in E as [(? & ? & _)|(published & w1 & _ & E1 & E)]; [done| |by apply base_alone, reads_query].
  case_match; [by injection E as <- <-|].
  apply bind_eq in E as [(? & ? & _)|(caps & w2 & _ & E2 & E)]; [done| |by apply base_alone, reads_site_capabilities_get].
  case_match; [by injection E as <- <-|].
  apply bind_ok in E as (row & w3 & E3 & E). apply (read_alone Halone) in E3 as [E3 [now ->]].
  assert (w2.(db) = w.(db)) as Ew by congruence. rewrite Ew in *.
  destruct (head _) as [[id [t r]]|] eqn:Eh; [|by injection E as <- <-].
  apply bind_ok in E as (ahead & w4 & E4 & E). apply (read_alone Halone) in E4 as [E4 [now' ->]].
  injection E as <- <-. rewrite E4, E3. split; [done|]. rewrite E3 in *.
  match type of Eh with head ?l = _ => assert ((id, (t, r)) ∈ l) as Hin
    by (destruct l; [done|injection Eh as ->; left]) end.
  apply list_elem_of_omap in Hin as ([[s' id'] t'] & Hmem & Hin). cbn in Hin.
  rewrite order_perm, elem_of_map_to_list in Hmem.
  destruct ((s' =? s) && _) eqn:Ek; [|done]. apply andb_true_iff in Ek as [->%Z.eqb_eq Etok%String.eqb_eq].
  unfold ticket_with_run, t_get in Hin.
  rewrite Hmem in Hin.
  destruct (live t') eqn:El; [|done]. cbn in Hin.
  destruct (t_qrun w.(db) !! _) as [r0|]; [|done]. injection Hin as -> -> ->.
  exists t. split_and!; [done..|]. cbn. f_equal. f_equal. apply count_before.
Qed.

(** C39. With nobody else on the database, the number a guest with a waiting ticket is
    told is the number of tickets before theirs in the line, and it comes true:
    that many calls of the staff and one more take those tickets, in order, and
    then the guest's. *)
Theorem guest_track_position s token e w res w' (Hd : orderly w.(db))
    (E : guest_queue_track s token e w = (Ok res, w')) (Hok : res.(GuestQueueTrackResult.ok) = true)
    (Hin : res.(GuestQueueTrackResult.ticket_id) ∈ line s res.(GuestQueueTrackResult.queue_id) w.(db)) :
  exists before after,
    line s res.(GuestQueueTrackResult.queue_id) w.(db) =
      before ++ res.(GuestQueueTrackResult.ticket_id) :: after /\
    res.(GuestQueueTrackResult.position_ahead) = to_i32 (Z.of_nat (length before)) /\
    forall caller q e' ids w'', resolve_queue_id q = res.(GuestQueueTrackResult.queue_id) ->
      calls caller s q (S (length before)) e' w' = (Ok ids, w'') ->
      ids = before ++ [res.(GuestQueueTrackResult.ticket_id)].
Proof.
  destruct (track_alone _ _ _ _ _ _ E Hok) as (Ew & t & Et & _ & _ & Hq & _ & Hpos).
  rewrite Hq in *. unfold line in Hin |- *.
  destruct (the_run s _ w.(db)) as [run|] eqn:Hrun; [|by apply not_elem_of_nil in Hin].
  apply list_elem_of_fmap in Hin as ([k t'] & Hid & Hin).
  pose proof (ordered_site _ _ _ _ _ Hin) as Hk. cbn in Hid, Hk. rewrite Hk, <- Hid in Hin.
  pose proof Hin as [Et' Hw]%ordered_elem. rewrite Et in Et'. injection Et' as <-.
  assert (t.(cols).(TicketRow.run_id) = run) as Hr.
  { unfold waits, in_run in Hw. rewrite !andb_true_iff, !Z.eqb_eq in Hw. tauto. }
  rewrite Hr in Hpos. apply list_elem_of_split in Hin as (pre & post & Eo).
  pose proof (ordered_strictly s t.(cols).(TicketRow.queue_id) run _ (proj2 Hd)) as Hs.
  rewrite Eo in Hs, Hpos |- *. rewrite filter_before in Hpos by done.
  exists ((fun e => e.1.2) <$> pre), ((fun e => e.1.2) <$> post). rewrite fmap_app, fmap_cons, length_fmap.
  split_and!; [done|done|]. intros caller q e' ids w'' Hres Ec.
  apply calls_line in Ec as [-> _]; [|by rewrite Ew]. rewrite Hres, Ew. unfold line.
  rewrite Hrun, Eo, fmap_app, fmap_cons.
  rewrite cons_middle, app_assoc, take_app_length'; [done|].
  rewrite length_app, length_fmap. cbn. lia.
Qed.
End Waiting.
End Props.
