(* ===== verification/QueueScenario.v ===== *)
(** * A queue at work

    One site with one queue, on concrete instances of the interfaces: what others
    do between the statements of a request, and what the functions let pass. *)
From stdpp Require Import sorting.
From S2P Require Import Prelude Strs Ts World Json Db Grant Shared Scenario QueueData Queue.
From S2P Require Import GuestQueue QueueSteps QueueSafe QueueFifo.

Module QueueScenario.
Definition site : Z := Scenario.site.
Definition owner : Z := Scenario.owner.

(** Hours and minutes as text *)
Definition two_digits (a b : Ascii.ascii) : option Z :=
  let d c := Z.of_nat (Ascii.nat_of_ascii c) - 48 in
  if (0 <=? d a) && (d a <=? 9) && (0 <=? d b) && (d b <=? 9) then Some (10 * d a + d b) else None.
Definition clock_time (s : string) : option (Z * Z) :=
  match s with
  | String a (String b (String _ (String c (String d EmptyString)))) =>
      h ← two_digits a b; m ← two_digits c d; Some (h, m)
  | _ => None
  end.
Definition ms_of_day : Z := 86400000.
(** A zone is its distance from UTC in milliseconds. *)
#[export] Instance calendar : Calendar := {|
  Tz := Z; parse_tz name := if String.eqb name "UTC" then Some 0 else None; jakarta := 7 * 3600000;
  parse_time fmt s := if String.eqb fmt "%H:%M" then clock_time s else None;
  local_day tz now := (now + tz) / ms_of_day;
  at_local tz day hm :=
    if (0 <=? hm.1) && (hm.1 <? 24) && (0 <=? hm.2) && (hm.2 <? 60)
    then Some (day * ms_of_day + (hm.1 * 60 + hm.2) * 60000 - tz) else None
|}.
#[export] Instance calendar_laws : CalendarLaws.
Proof.
  split; intros tz day [h m] t now; cbn; intros E; case_match eqn:Eh; try done; injection E as <-;
    rewrite !andb_true_iff, !Z.leb_le, !Z.ltb_lt in Eh; unfold ms_of_day; intros Hd.
  - apply Z.ltb_ge. pose proof (Z.mul_div_le (now + tz) 86400000). nia.
  - apply Z.ltb_lt. pose proof (Z.mul_succ_div_gt (now + tz) 86400000). nia.
Qed.
#[export] Instance rng : Rng := fun n => 1000 + Z.of_nat n.
#[export] Instance unlocked : Locked := fun _ _ => false.

Definition nobody : Rivals := fun _ _ d => d.

Definition none : Queues := {| q_base := Scenario.db0; t_queue := ∅; t_qrun := ∅; t_ticket := ∅ |}.
Definition world (d : Queues) : World Queues :=
  {| db := d; n_clock := 0; n_ids := 0; n_sql := 0; txn_now := None |}.
Definition env : Env :=
  {| env_clock n := 1700000000000 + Z.of_nat n; env_ids n := 100 + Z.of_nat n; env_fault _ := false |}.
(** Later, with other ids *)
Definition env_of (k : Z) : Env :=
  {| env_clock n := 1700000000000 + 1000 * k + Z.of_nat n; env_ids n := 100 * (k + 1) + Z.of_nat n;
     env_fault _ := false |}.

(** What requests leave, in order *)
Definition after {A} (k : Z) (m : M Queues A) (d : Queues) : Queues := (m (env_of k) (world d)).2.(db).
Definition result_of {A} (k : Z) (m : M Queues A) (d : Queues) : result A := (m (env_of k) (world d)).1.
Definition error_of {A} (r : result A) : option string := match r with Ok _ => None | Err x => Some x end.

Definition take `{!Rivals} : M Queues GuestQueueTakeResult := guest_queue_take site 0 "Ann" "" "".
Definition call `{!Rivals} : M Queues SiteQueueTicket := site_queue_call_next owner site 0.
Definition reset `{!Rivals} : M Queues Z := site_queue_reset owner site 0.

(** The tickets: number, run and status *)
Definition tickets (d : Queues) : list (Z * Z * string) :=
  (fun e : (Z * Z) * Row TicketRow => (e.2.(cols).(TicketRow.ticket_no), e.2.(cols).(TicketRow.run_id),
    e.2.(cols).(TicketRow.status))) <$> map_to_list d.(t_ticket).

Section Alone.
#[local] Existing Instance nobody.
Definition one : Queues := after 1 take none.
Definition two : Queues := after 2 take one.
End Alone.

(** ** Others *)

(** Someone's whole request, between two statements of another: at the [k]-th
    step, if it holds no locks. *)
Definition holds_none (ws : Writes) : bool :=
  (size ws.(w_queue) =? 0)%nat && (size ws.(w_qrun) =? 0)%nat && (size ws.(w_ticket) =? 0)%nat.
Definition at_step {A} (k : nat) (m : M Queues A) : Rivals := fun ws n d =>
  if (n =? k)%nat && holds_none ws then after 5 m d else d.

(** What others may do *)
Definition legal (r : Rivals) : Prop := forall ws n d, qsteps d (r ws n d) /\ locked_out ws d (r ws n d).
Lemma nobody_legal : legal nobody.
Proof. intros ws n d. split; [reflexivity|]. by split. Qed.
Lemma at_step_legal {A} k (m : M Queues A) : respects qsteps m -> legal (at_step k m).
Proof.
  intros Hm ws n d. unfold at_step.
  destruct ((n =? k)%nat && holds_none ws) eqn:E; [|split; [reflexivity|by split]]. split.
  - unfold after. destruct (m (env_of 5) (world d)) as [r w] eqn:Em. by apply Hm in Em.
  - apply andb_true_iff in E as [_ E]. unfold holds_none in E.
    rewrite !andb_true_iff, !Nat.eqb_eq, !map_size_empty_iff in E. destruct ws. cbn in E.
    destruct E as [[-> ->] ->]. exact (locked_out_no_writes d _).
Qed.

Section Nobody.
#[local] Existing Instance nobody.
Lemma take_keeps : respects qsteps take.
Proof. unfold take. exact (keeps_guest_take nobody_legal _ _ _ _ _). Qed.
Lemma call_keeps : respects qsteps call.
Proof. unfold call. exact (keeps_call_next nobody_legal _ _ _). Qed.
Lemma reset_keeps : respects qsteps reset.
Proof. unfold reset. exact (keeps_api nobody_legal _ (api_reset _ _ _)). Qed.
End Nobody.

(** Others who keep to the invariant and respect locks can still spoil a queue
    between two statements.  Two guests who take tickets at the same time can be
    given the same number; two calls at the same time can leave two tickets
    called; and a guest whose ticket is numbered before a reset and saved after
    it waits in a closed run, in nobody's line. *)
Theorem queue_races :
  (exists rivals, legal rivals /\
     tickets (after 2 (@take rivals) one) =
       [(2, 200, "waiting"); (2, 200, "waiting"); (1, 200, "waiting")]) /\
  (exists rivals, legal rivals /\
     tickets (after 2 (@call rivals) two) = [(2, 200, "called"); (1, 200, "called")]) /\
  (exists rivals, legal rivals /\
     let d := after 2 (@take rivals) one in
     tickets d = [(2, 200, "waiting"); (1, 200, "waiting")] /\
     the_run site 1 d = Some 600 /\ line site 1 d = []).
Proof.
  split_and!.
  - exists (at_step 7 (@take nobody)). split; [exact (at_step_legal _ _ take_keeps)|].
    vm_compute. reflexivity.
  - exists (at_step 6 (@call nobody)). split; [exact (at_step_legal _ _ call_keeps)|].
    vm_compute. reflexivity.
  - exists (at_step 7 (@reset nobody)). split; [exact (at_step_legal _ _ reset_keeps)|].
    cbv zeta. split_and!; vm_compute; reflexivity.
Qed.

Section Gaps.
#[local] Existing Instance nobody.
Definition called_all : Queues := after 4 call (after 3 call two).
Definition set_status (id : Z) (status : string) : M Queues SiteQueueTicket :=
  site_queue_ticket_set_status owner site 0 id status.
Definition serving (d : Queues) : option Z :=
  (fun r => r.(cols).(QueueRow.serving_ticket_no)) <$> d.(t_queue) !! (site, 1).
Definition status_of (r : result SiteQueueTicket) : option string :=
  match r with Ok t => Some t.(SiteQueueTicket.status) | Err _ => None end.
Definition token_of (r : result GuestQueueGetResult) : string :=
  match r with Ok t => t.(GuestQueueGetResult.track_token) | Err _ => "" end.
Definition tracked (r : result GuestQueueTrackResult) : Z :=
  match r with Ok t => t.(GuestQueueTrackResult.ticket_id) | Err _ => 0 end.
(** The number of the one ticket of [one] *)
Definition first_id : Z := 202.

(** What the functions let pass.  A call with nobody waiting fails as a whole, so
    that the ticket called last stays at the counter.  The ticket a call returns
    still says it is waiting.  A status is any text: a ticket of another status
    than the known ones waits for nothing.  A ticket of a closed run can be
    called, upon which the queue shows its number as the one being served.  A
    guest who names any number of a queue creates it, and one who names the
    number of a ticket is told its secret token. *)
Theorem queue_gaps :
  (error_of (result_of 5 call called_all) = Some "no waiting tickets" /\
   tickets (after 5 call called_all) = [(2, 200, "called"); (1, 200, "skipped")]) /\
  (status_of (result_of 3 call two) = Some "waiting" /\
   tickets (after 3 call two) = [(2, 200, "waiting"); (1, 200, "called")]) /\
  (status_of (result_of 3 (set_status first_id "lunch") one) = Some "lunch" /\
   line site 1 (after 3 (set_status first_id "lunch") one) = []) /\
  (let d := after 4 (set_status first_id "called") (after 3 reset two) in
   the_run site 1 d = Some 400 /\ tickets d = [(2, 200, "waiting"); (1, 200, "called")] /\
   serving d = Some 1) /\
  (let d := after 1 (guest_queue_take site 77 "" "" "") none in
   bool_decide (is_Some (d.(t_queue) !! (site, 77))) = true) /\
  (let token := token_of (result_of 3 (guest_queue_get site 0 first_id) one) in
   tracked (result_of 4 (guest_queue_track site token) one) = first_id).
Proof.
  cbv zeta. repeat match goal with |- _ /\ _ => split end; vm_compute; reflexivity.
Qed.
End Gaps.
End QueueScenario.
