(* ===== verification/QueueWitnesses.v ===== *)
(** * Concrete inputs at which the properties of the queues apply *)
From stdpp Require Import sorting.
From S2P Require Import Prelude Strs Ts World Json Db Grant Shared QueueData Queue.
From S2P Require Import GuestQueue QueueSteps QueueSafe QueueFifo QueueProps QueueScenario.
Import QueueScenario.

Definition is_ok {A} (r : result A) : bool := match r with Ok _ => true | Err _ => false end.
Lemma is_ok_run {A} (m : M Queues A) k d : is_ok (result_of k m d) = true ->
  exists a w', m (env_of k) (world d) = (Ok a, w').
Proof. unfold result_of. destruct (m _ _) as [[a|x] w']; [by exists a, w'|done]. Qed.

Section Nobody.
#[local] Existing Instance nobody.

Definition taken (r : result GuestQueueTakeResult) : bool :=
  match r with Ok t => t.(GuestQueueTakeResult.ok) | Err _ => false end.
Lemma none_orderly : orderly none.
Proof.
  split; [split_and!|].
  - intros k t E. discriminate E.
  - intros k t E. discriminate E.
  - intros s q k k' (r & E & _). discriminate E.
  - intros k k' t t' E. discriminate E.
Qed.
Lemma take_orderly k d : orderly d -> taken (result_of k take d) = true -> orderly (after k take d).
Proof.
  unfold result_of, after, take, taken. intros Hd Ht.
  destruct (guest_queue_take site 0 "Ann" "" "" (env_of k) (world d)) as [[res|x] w'] eqn:E; [|discriminate Ht].
  exact (proj1 (proj2 (guest_take_alone (fun _ _ _ => eq_refl) site 0 "Ann" "" "" (env_of k) (world d)
    res w' Hd E Ht))).
Qed.
Lemma one_orderly : orderly one.
Proof. apply take_orderly; [exact none_orderly|vm_compute; reflexivity]. Qed.
Lemma two_orderly : orderly two.
Proof. apply take_orderly; [exact one_orderly|vm_compute; reflexivity]. Qed.

(** The first in the line is called. *)
Lemma queue_is_fifo_witness : exists ticket w',
  site_queue_call_next owner site 0 (env_of 3) (world two) = (Ok ticket, w') /\ orderly w'.(db) /\
  Fifo.pop (line site (resolve_queue_id 0) (world two).(db)) =
    Some (ticket.(SiteQueueTicket.ticket_id), line site (resolve_queue_id 0) w'.(db)).
Proof.
  destruct (is_ok_run (site_queue_call_next owner site 0) 3 two) as (ticket & w' & E); [vm_compute; reflexivity|].
  exists ticket, w'. split; [exact E|].
  destruct (proj1 (proj2 (queue_is_fifo (env_of 3) (world two) (fun _ _ _ => eq_refl) (fun _ _ => eq_refl)
    two_orderly)) owner site 0 (Ok ticket) w' E) as (Ho & _ & Hp).
  split; [exact Ho|exact Hp].
Defined.

Definition token : string := token_of (result_of 3 (guest_queue_get site 0 301) two).
Definition tracks (r : result GuestQueueTrackResult) : option (bool * Z * Z) :=
  match r with
  | Ok t => Some (t.(GuestQueueTrackResult.ok), t.(GuestQueueTrackResult.ticket_id),
                  t.(GuestQueueTrackResult.queue_id))
  | Err _ => None
  end.
(** The second in the line has one guest before. *)
Lemma guest_track_position_witness : exists res w',
  guest_queue_track site token (env_of 4) (world two) = (Ok res, w') /\
  exists before after, line site 1 (world two).(db) = before ++ res.(GuestQueueTrackResult.ticket_id) :: after /\
    res.(GuestQueueTrackResult.position_ahead) = to_i32 (Z.of_nat (length before)).
Proof.
  assert (tracks (result_of 4 (guest_queue_track site token) two) = Some (true, 301, 1)) as Ht
    by (vm_compute; reflexivity).
  unfold result_of, tracks in Ht.
  destruct (guest_queue_track site token (env_of 4) (world two)) as [[res|x] w'] eqn:E; [|discriminate Ht].
  exists res, w'. split; [exact eq_refl|]. cbn [fst] in Ht. injection Ht as Hok Hid Hq.
  destruct (guest_track_position (fun _ _ _ => eq_refl) (fun _ _ => eq_refl) site token (env_of 4)
    (world two) res w' two_orderly E Hok) as (pre & post & Hl & Hp & _).
  - rewrite Hid, Hq. apply (bool_decide_unpack (301 ∈ line site 1 two)). vm_compute. reflexivity.
  - rewrite Hq in Hl. exists pre, post. split; [exact Hl|exact Hp].
Defined.

Lemma queue_staff_only_witness : exists r w',
  site_queue_call_next 6 site 0 (env_of 3) (world two) = (r, w') /\
  (allowed Serving two.(q_base) 6 site \/ (exists x, r = Err x) /\ w'.(db) = two).
Proof.
  destruct (site_queue_call_next 6 site 0 (env_of 3) (world two)) as [r w'] eqn:E.
  exists r, w'. split; [reflexivity|].
  exact (queue_staff_only Serving 6 site (site_queue_call_next 6 site 0) (env_of 3) (world two) r w'
    (staff_call_next 6 site 0) E).
Defined.

Lemma day_boundary_latest_witness : exists boundary w',
  day_boundary jakarta "06:30" (env_of 0) (world none) = (Ok boundary, w') /\
  exists hm now day, (parse_time "%H:%M" "06:30" = Some hm \/ parse_time "%H:%M:%S" "06:30" = Some hm) /\
    now = (env_of 0).(env_clock) 0 /\ at_local jakarta day hm = Some boundary /\
    dt_ltb now boundary = false /\
    forall next, at_local jakarta (day + 1) hm = Some next -> dt_ltb now next = true.
Proof.
  destruct (is_ok_run (day_boundary jakarta "06:30") 0 none) as (b & w' & E); [vm_compute; reflexivity|].
  exists b, w'. split; [exact E|].
  exact (day_boundary_latest jakarta "06:30" (env_of 0) (world none) b w' E).
Defined.
End Nobody.

(** Beside a guest who takes a ticket in the middle *)
Section Beside.
#[local] Instance beside : Rivals := at_step 7 (@take nobody).

Lemma queues_stay_well_formed_witness : exists r w',
  site_queue_call_next owner site 0 (env_of 2) (world one) = (r, w') /\
  tables_kept (world one).(db) w'.(db) /\ queues_wf w'.(db).
Proof.
  destruct (site_queue_call_next owner site 0 (env_of 2) (world one)) as [r w'] eqn:E.
  exists r, w'. split; [reflexivity|].
  destruct (queues_stay_well_formed (site_queue_call_next owner site 0) (env_of 2) (world one) r w'
    (at_step_legal 7 (@take nobody) take_keeps) (api_call_next owner site 0) E) as [Hk Hwf].
  exact (conj Hk (Hwf (proj1 one_orderly))).
Defined.
End Beside.
