(* ===== verification/F64.v ===== *)
(** * Double-precision numbers

    [f64] of the Rust library: the binary64 format of IEEE 754, in which every
    operation gives the double next to the exact result, ties to the even
    mantissa.  Used by the referral crate and the top-ups, whose rates, prices and
    balances are doubles; the task crate only passes them on, and has an interface
    of its own in [TaskData]. *)
From S2P Require Import Prelude Json.

(** [Fin neg m e] is [(-1)^neg * m * 2^e]. *)
Inductive f64 :=
| NaN
| Inf (neg : bool)
| Fin (neg : bool) (m e : Z).

#[export] Instance f64_eq_dec : EqDecision f64.
Proof. solve_decision. Defined.

(** ** Rounding *)

(** [n / d] rounded to an integer, ties to even *)
Definition rne (n d : Z) : Z :=
  match 2 * (n mod d) ?= d with
  | Lt => n / d
  | Gt => n / d + 1
  | Eq => if Z.even (n / d) then n / d else n / d + 1
  end.

(** [n / d] in units of [2^e] is [up n e / up d (- e)]. *)
Definition up (n e : Z) : Z := n * 2 ^ Z.max 0 (- e).

(** The exponent that gives [n / d] 53 bits, if it is not too small *)
Definition exponent (n d : Z) : Z :=
  let e := Z.max (-1074) (Z.log2 n - Z.log2 d - 53) in
  if up n e <? 2 ^ 53 * up d (- e) then e else e + 1.

(** The double next to [n / d] *)
Definition round_to (neg : bool) (n d : Z) : f64 :=
  if n =? 0 then Fin neg 0 (-1074)
  else
    let e := exponent n d in
    let m := rne (up n e) (up d (- e)) in
    let '(m, e) := if m =? 2 ^ 53 then (2 ^ 52, e + 1) else (m, e) in
    if 971 <? e then Inf neg else Fin neg m e.

Definition of_ratio (n d : Z) : f64 := round_to (n <? 0) (Z.abs n) d.
(** [n as f64], and a decimal literal [n / 10^k] *)
Definition of_Z (n : Z) : f64 := of_ratio n 1.
Definition decimal (n k : Z) : f64 := of_ratio n (10 ^ k).

(** ** Arithmetic *)

Definition signed (neg : bool) (m : Z) : Z := if neg then - m else m.
Definition is_nan (x : f64) : bool := match x with NaN => true | _ => false end.
Definition fneg (x : f64) : f64 :=
  match x with NaN => NaN | Inf s => Inf (negb s) | Fin s m e => Fin (negb s) m e end.

Definition fmul (x y : f64) : f64 :=
  match x, y with
  | NaN, _ | _, NaN => NaN
  | Inf s, Inf t => Inf (xorb s t)
  | Inf s, Fin t m _ | Fin t m _, Inf s => if m =? 0 then NaN else Inf (xorb s t)
  | Fin s m e, Fin t n f => round_to (xorb s t) (up (m * n) (- (e + f))) (up 1 (e + f))
  end.
Definition fdiv (x y : f64) : f64 :=
  match x, y with
  | NaN, _ | _, NaN | Inf _, Inf _ => NaN
  | Inf s, Fin t _ _ => Inf (xorb s t)
  | Fin s _ _, Inf t => Fin (xorb s t) 0 (-1074)
  | Fin s m e, Fin t n f =>
      if n =? 0 then if m =? 0 then NaN else Inf (xorb s t)
      else round_to (xorb s t) (up m (- (e - f))) (up n (e - f))
  end.
(** The sum of two finite numbers in units of [2^e] *)
Definition sum_at (s : bool) (m e : Z) (t : bool) (n f g : Z) : Z :=
  signed s m * 2 ^ (e - g) + signed t n * 2 ^ (f - g).
Definition fadd (x y : f64) : f64 :=
  match x, y with
  | NaN, _ | _, NaN => NaN
  | Inf s, Inf t => if eqb s t then Inf s else NaN
  | Inf s, _ | _, Inf s => Inf s
  | Fin s m e, Fin t n f =>
      let g := Z.min e f in
      let z := sum_at s m e t n f g in
      if z =? 0 then Fin (s && t) 0 (-1074)
      else of_ratio (up z (- g)) (up 1 g)
  end.
Definition fsub (x y : f64) : f64 := fadd x (fneg y).

(** [x < y] of numbers that are not [NaN] *)
Definition fltb (x y : f64) : bool :=
  match x, y with
  | NaN, _ | _, NaN => false
  | Inf s, Inf t => s && negb t
  | Inf s, Fin _ _ _ => s
  | Fin _ _ _, Inf t => negb t
  | Fin s m e, Fin t n f =>
      let g := Z.min e f in signed s m * 2 ^ (e - g) <? signed t n * 2 ^ (f - g)
  end.
Definition feqb (x y : f64) : bool :=
  negb (is_nan x) && negb (is_nan y) && negb (fltb x y) && negb (fltb y x).
Definition fleb (x y : f64) : bool := fltb x y || feqb x y.
(** [f64::max]: the other number if one is [NaN] *)
Definition fmax (x y : f64) : f64 :=
  if is_nan x then y else if is_nan y then x else if fltb x y then y else x.

(** ** Integers *)

(** The integers next to a finite number: towards minus infinity, and half-way
    cases away from zero *)
Definition floor_Z (s : bool) (m e : Z) : Z := Z.shiftl (signed s m) e.
Definition round_Z (s : bool) (m e : Z) : Z :=
  signed s ((2 * up m (- e) + up 1 e) / (2 * up 1 e)).
Definition ffloor (x : f64) : f64 :=
  match x with
  | Fin s m e => if m =? 0 then x else of_Z (floor_Z s m e)
  | _ => x
  end.
Definition fround (x : f64) : f64 :=
  match x with
  | Fin s m e =>
      let z := round_Z s m e in if z =? 0 then Fin s 0 (-1074) else of_Z z
  | _ => x
  end.

(** [as i64], [as i32]: towards zero, saturating, [NaN] to zero *)
Definition saturate (w z : Z) : Z := Z.max (- 2 ^ (w - 1)) (Z.min (2 ^ (w - 1) - 1) z).
Definition as_int (w : Z) (x : f64) : Z :=
  match x with
  | NaN => 0
  | Inf s => if s then - 2 ^ (w - 1) else 2 ^ (w - 1) - 1
  | Fin s m e => saturate w (signed s (Z.shiftl m e))
  end.
Definition f64_as_i64 : f64 -> Z := as_int 64.
Definition f64_as_i32 : f64 -> Z := as_int 32.

(** ** The 64 bits, and numbers in JSON *)

Definition to_bits (x : f64) : Z :=
  match x with
  | NaN => 2047 * 2 ^ 52 + 2 ^ 51
  | Inf s => (if s then 2 ^ 63 else 0) + 2047 * 2 ^ 52
  | Fin s m e =>
      (if s then 2 ^ 63 else 0) +
      if m <? 2 ^ 52 then m else (e + 1075) * 2 ^ 52 + (m - 2 ^ 52)
  end.
Definition of_bits (b : Z) : f64 :=
  let s := Z.testbit b 63 in
  let m := b mod 2 ^ 52 in
  let k := (b / 2 ^ 52) mod 2 ^ 11 in
  if k =? 2047 then if m =? 0 then Inf s else NaN
  else if k =? 0 then Fin s m (-1074)
  else Fin s (m + 2 ^ 52) (k - 1075).

(** [Value::as_f64], and [json!] of an [f64] *)
Definition as_f64 (v : Value) : option f64 :=
  match v with
  | Num (PosInt n) | Num (NegInt n) => Some (of_Z n)
  | Num (Float b) => Some (of_bits b)
  | _ => None
  end.
Definition json_f64 (x : f64) : Value :=
  match x with Fin _ _ _ => Num (Float (to_bits x)) | _ => Null end.

(** ** The value of a number

    A finite double is a multiple of [2^-1074]: [units] counts them. *)

Definition well_formed (x : f64) : Prop :=
  match x with Fin _ m e => 0 <= m /\ -1074 <= e | _ => True end.
Definition units (s : bool) (m e : Z) : Z := signed s m * 2 ^ (e + 1074).
(** [x] is a number of [u] units. *)
Definition measures (x : f64) (u : Z) : Prop :=
  exists s m e, x = Fin s m e /\ 0 <= m /\ -1074 <= e /\ units s m e = u.
(** [x] is the integer [z]. *)
Definition denotes (x : f64) (z : Z) : Prop := measures x (z * 2 ^ 1074).

Section Rne.
Context (n d : Z) (Hd : 0 < d).
Lemma rne_near : n / d <= rne n d <= n / d + 1.
Proof. unfold rne. repeat case_match; lia. Qed.
Lemma rne_le k : n <= k * d -> rne n d <= k.
Proof.
  intros Hk. pose proof (Z.div_mod n d ltac:(lia)). pose proof (Z.mod_pos_bound n d Hd).
  assert (n / d <= k) by nia. destruct (Z.eq_dec (n / d) k) as [E|E]; [|pose proof rne_near; lia].
  assert (n mod d = 0) as Em by nia. unfold rne. rewrite Em. destruct (Z.compare_spec (2 * 0) d); lia.
Qed.
Lemma rne_ge k : k * d <= n -> k <= rne n d.
Proof.
  intros Hk. pose proof rne_near. assert (k <= n / d); [|lia]. apply Z.div_le_lower_bound; lia.
Qed.
End Rne.

(** Numbers below [2^(53 - j)] are rounded to a multiple of [2^-j]. *)
Lemma exponent_small n d j :
  0 < n -> 0 < d -> 0 <= j <= 1074 -> n < 2 ^ (53 - j) * d -> -1074 <= exponent n d <= - j.
Proof.
  intros Hn Hd Hj Hlt. unfold exponent. set (e0 := Z.log2 n - Z.log2 d - 53).
  assert (e0 <= - j) as He0.
  { pose proof (Z.log2_spec n Hn) as [H1 _]. pose proof (Z.log2_spec d Hd) as [_ H2].
    assert (Z.log2 n < 53 - j + Z.succ (Z.log2 d)); [|unfold e0; lia].
    destruct (Z.lt_ge_cases (Z.log2 n) (53 - j + Z.succ (Z.log2 d))) as [|Hge]; [done|].
    pose proof (Z.log2_nonneg d). pose proof (Z.log2_nonneg n).
    destruct (Z.le_gt_cases 0 (53 - j)) as [Hp|Hp].
    - assert (2 ^ (53 - j) * d < 2 ^ (53 - j) * 2 ^ Z.succ (Z.log2 d)) by
        (apply Z.mul_lt_mono_pos_l; [apply Z.pow_pos_nonneg; lia|lia]).
      rewrite <- Z.pow_add_r in * by lia.
      pose proof (Z.pow_le_mono_r 2 (53 - j + Z.succ (Z.log2 d)) (Z.log2 n) ltac:(lia) ltac:(lia)). lia.
    - rewrite (Z.pow_neg_r 2 (53 - j)) in Hlt by lia. lia. }
  set (e := Z.max (-1074) e0). destruct (Z.ltb_spec (up n e) (2 ^ 53 * up d (- e))) as [|Hge]; [lia|].
  split; [lia|]. assert (e <> - j); [|lia]. intros Ee. unfold up in Hge.
  rewrite Z.opp_involutive in Hge. rewrite (Z.max_r 0 (- e)), (Z.max_l 0 e) in Hge by lia.
  replace (- e) with j in Hge by lia.
  destruct (Z.le_gt_cases 0 (53 - j)) as [Hp|Hp]; [|rewrite (Z.pow_neg_r 2 (53 - j)) in Hlt by lia; lia].
  replace 53 with (53 - j + j) in Hge by lia. rewrite Z.pow_add_r in Hge by lia.
  assert (0 < 2 ^ j) by (apply Z.pow_pos_nonneg; lia). nia.
Qed.

(** Rounding does not cross a multiple of [2^-j]. *)
Lemma round_to_between s n d j :
  0 <= n -> 0 < d -> 0 <= j <= 1074 -> n < 2 ^ (53 - j) * d ->
  exists v, measures (round_to s n d) (signed s v) /\ 0 <= v /\
    forall c, (n * 2 ^ j <= c * d -> v <= c * 2 ^ (1074 - j)) /\
      (c * d <= n * 2 ^ j -> c * 2 ^ (1074 - j) <= v).
Proof.
  intros Hn Hd Hj Hlt. unfold round_to. destruct (Z.eqb_spec n 0) as [->|Hn0].
  { exists 0. split; [exists s, 0, (-1074); by destruct s|]. split; [lia|]. intros c.
    assert (0 < 2 ^ (1074 - j)) by (apply Z.pow_pos_nonneg; lia). split; nia. }
  pose proof (exponent_small n d j ltac:(lia) Hd Hj Hlt) as He. set (e := exponent n d) in *.
  assert (up n e = n * 2 ^ (- e)) as -> by (unfold up; do 2 f_equal; lia).
  assert (up d (- e) = d) as -> by (unfold up; rewrite Z.max_l by lia; lia).
  set (m := rne (n * 2 ^ (- e)) d).
  assert (0 < 2 ^ (- e)) by (apply Z.pow_pos_nonneg; lia).
  assert (0 <= m) as Hm by (apply rne_ge; [done|nia]).
  assert (2 ^ (e + 1074) * 2 ^ (- j - e) = 2 ^ (1074 - j)) as Ep
    by (rewrite <- Z.pow_add_r by lia; f_equal; lia).
  assert (2 ^ (- e) = 2 ^ j * 2 ^ (- j - e)) as Ej by (rewrite <- Z.pow_add_r by lia; f_equal; lia).
  assert (0 < 2 ^ (e + 1074)) by (apply Z.pow_pos_nonneg; lia).
  assert (0 < 2 ^ (- j - e)) by (apply Z.pow_pos_nonneg; lia).
  exists (m * 2 ^ (e + 1074)). split_and!.
  - destruct (Z.eqb_spec m (2 ^ 53)) as [->|_];
      (rewrite (proj2 (Z.ltb_ge _ _)) by lia); do 3 eexists; (split; [done|]); (split; [lia|]);
      (split; [lia|]); unfold units.
    + replace (e + 1 + 1074) with (1 + (e + 1074)) by lia. rewrite (Z.pow_add_r 2 1) by lia.
      destruct s; cbn [signed]; lia.
    + destruct s; cbn [signed]; lia.
  - nia.
  - intros c. split; intros Hc.
    + assert (m <= c * 2 ^ (- j - e)); [|nia]. apply rne_le; [done|]. nia.
    + assert (c * 2 ^ (- j - e) <= m); [|nia]. apply rne_ge; [done|]. nia.
Qed.

(** A quotient that is an integer of up to 53 bits is exact. *)
Lemma of_ratio_denotes z d : 0 < d -> Z.abs z < 2 ^ 53 -> denotes (of_ratio (z * d) d) z.
Proof.
  intros Hd Hz. unfold of_ratio. rewrite Z.abs_mul, (Z.abs_eq d) by lia.
  destruct (round_to_between (z * d <? 0) (Z.abs z * d) d 0) as (v & Hv & _ & Hc); [lia..| |].
  { rewrite Z.sub_0_r. nia. }
  destruct (Hc (Z.abs z)) as [H1 H2]. rewrite Z.sub_0_r, Z.pow_0_r, Z.mul_1_r in *.
  assert (v = Z.abs z * 2 ^ 1074) as -> by (apply Z.le_antisymm; [apply H1|apply H2]; lia).
  unfold denotes. replace (z * 2 ^ 1074) with (signed (z * d <? 0) (Z.abs z * 2 ^ 1074)); [exact Hv|].
  destruct (Z.ltb_spec (z * d) 0); cbn [signed]; nia.
Qed.
Lemma of_Z_denotes z : Z.abs z < 2 ^ 53 -> denotes (of_Z z) z.
Proof. intros Hz. unfold of_Z. rewrite <- (Z.mul_1_r z) at 1. by apply of_ratio_denotes. Qed.

Lemma fneg_measures x u : measures x u -> measures (fneg x) (- u).
Proof.
  intros (s & m & e & -> & Hm & He & <-). exists (negb s), m, e. split_and!; [done..|].
  unfold units. destruct s; cbn [signed negb]; lia.
Qed.

(** The sum of two numbers in units *)
Lemma sum_at_units s m e t n f :
  -1074 <= e -> -1074 <= f ->
  sum_at s m e t n f (Z.min e f) * 2 ^ (Z.min e f + 1074) = units s m e + units t n f.
Proof.
  intros He Hf. unfold sum_at, units. set (g := Z.min e f).
  rewrite Z.mul_add_distr_r, <- !Z.mul_assoc, <- !Z.pow_add_r by lia.
  replace (e - g + (g + 1074)) with (e + 1074) by lia.
  by replace (f - g + (g + 1074)) with (f + 1074) by lia.
Qed.
Lemma up_units z g : -1074 <= g -> up z (- g) * 2 ^ 1074 = z * 2 ^ (g + 1074) * up 1 g.
Proof.
  intros Hg. unfold up. rewrite Z.opp_involutive, Z.mul_1_l, <- !Z.mul_assoc, <- !Z.pow_add_r by lia.
  do 2 f_equal. lia.
Qed.

(** A sum that is not negative is rounded without crossing a multiple of [2^-j]. *)
Lemma fadd_between x y a b j :
  measures x a -> measures y b -> 0 <= a + b -> 0 <= j <= 1074 -> a + b < 2 ^ (53 - j) * 2 ^ 1074 ->
  exists v, measures (fadd x y) v /\ 0 <= v /\
    forall c, ((a + b) * 2 ^ j <= c * 2 ^ 1074 -> v <= c * 2 ^ (1074 - j)) /\
      (c * 2 ^ 1074 <= (a + b) * 2 ^ j -> c * 2 ^ (1074 - j) <= v).
Proof.
  intros (s & m & e & -> & Hm & He & <-) (t & n & f & -> & Hn & Hf & <-) Hs Hj Hlt. cbn [fadd].
  pose proof (sum_at_units s m e t n f He Hf) as Hu. set (g := Z.min e f) in *.
  set (z := sum_at s m e t n f g) in *. rewrite <- Hu in *.
  assert (0 < 2 ^ (g + 1074)) by (apply Z.pow_pos_nonneg; lia). assert (0 <= z) by nia.
  pose proof (up_units z g ltac:(lia)) as Hup.
  assert (0 < 2 ^ 1074) by (apply Z.pow_pos_nonneg; lia).
  assert (0 < up 1 g) by (unfold up; rewrite Z.mul_1_l; apply Z.pow_pos_nonneg; lia).
  destruct (Z.eqb_spec z 0) as [->|Hz].
  { exists 0. split; [exists (s && t), 0, (-1074); split_and!; try done; by destruct (s && t)|].
    split; [lia|]. intros c. assert (0 < 2 ^ (1074 - j)) by (apply Z.pow_pos_nonneg; lia).
    rewrite Z.mul_0_l in *. split; nia. }
  set (N := up z (- g)) in *. set (D := up 1 g) in *. set (U := 2 ^ 1074) in *.
  assert (0 < N) by nia. unfold of_ratio. rewrite (proj2 (Z.ltb_ge _ _)), Z.abs_eq by lia.
  destruct (round_to_between false N D j) as (v & Hv & Hv0 & Hc); [lia..| |].
  { apply (Z.mul_lt_mono_pos_r U); [done|]. rewrite Hup. nia. }
  exists v. split_and!; [exact Hv|done|]. intros c. destruct (Hc c) as [H1' H2']. split; intros Hk;
    [apply H1'|apply H2']; apply (Z.mul_le_mono_pos_r _ _ U); try done; nia.
Qed.
Lemma fadd_denotes x y a b :
  denotes x a -> denotes y b -> 0 <= a + b < 2 ^ 53 -> denotes (fadd x y) (a + b).
Proof.
  intros Hx Hy Hab. assert (0 < 2 ^ 1074) by (apply Z.pow_pos_nonneg; lia).
  destruct (fadd_between x y _ _ 0 Hx Hy) as (v & Hv & _ & Hc); [nia|lia|rewrite Z.sub_0_r; nia|].
  destruct (Hc (a + b)) as [H1 H2]. rewrite Z.sub_0_r, Z.pow_0_r in *. unfold denotes.
  assert (v = (a + b) * 2 ^ 1074) as <-; [|exact Hv].
  apply Z.le_antisymm; [apply H1|apply H2]; lia.
Qed.
Lemma fsub_denotes x y a b :
  denotes x a -> denotes y b -> 0 <= a - b < 2 ^ 53 -> denotes (fsub x y) (a - b).
Proof.
  intros Hx Hy Hab. apply (fadd_denotes x (fneg y) a (- b) Hx); [|lia].
  apply fneg_measures in Hy. unfold denotes. by rewrite Z.mul_opp_l.
Qed.

Lemma fltb_measures x y a b : measures x a -> measures y b -> fltb x y = (a <? b).
Proof.
  intros (s & m & e & -> & Hm & He & <-) (t & n & f & -> & Hn & Hf & <-). cbn [fltb]. unfold units.
  set (g := Z.min e f).
  replace (2 ^ (e + 1074)) with (2 ^ (e - g) * 2 ^ (g + 1074)) by (rewrite <- Z.pow_add_r; f_equal; lia).
  replace (2 ^ (f + 1074)) with (2 ^ (f - g) * 2 ^ (g + 1074)) by (rewrite <- Z.pow_add_r; f_equal; lia).
  assert (0 < 2 ^ (g + 1074)) by (apply Z.pow_pos_nonneg; lia). rewrite !Z.mul_assoc.
  destruct (Z.ltb_spec (signed s m * 2 ^ (e - g)) (signed t n * 2 ^ (f - g)));
    destruct (Z.ltb_spec (signed s m * 2 ^ (e - g) * 2 ^ (g + 1074))
      (signed t n * 2 ^ (f - g) * 2 ^ (g + 1074))); try done; exfalso; nia.
Qed.

(** ** Truncation *)

Lemma shiftl_units m e : -1074 <= e -> Z.shiftl m e = m * 2 ^ (e + 1074) / 2 ^ 1074.
Proof.
  intros He. destruct (Z.le_gt_cases 0 e) as [Hp|Hp].
  - rewrite Z.shiftl_mul_pow2, Z.pow_add_r, Z.mul_assoc by lia.
    rewrite Z.div_mul; [done|]. apply Z.pow_nonzero; lia.
  - rewrite <- (Z.opp_involutive e), Z.shiftl_opp_r, Z.shiftr_div_pow2 by lia.
    rewrite Z.opp_involutive.
    assert (2 ^ 1074 = 2 ^ (- e) * 2 ^ (e + 1074)) as -> by (rewrite <- Z.pow_add_r by lia; f_equal; lia).
    rewrite Z.div_mul_cancel_r; [done|apply Z.pow_nonzero; lia..].
Qed.
Lemma as_int_denotes w x z : denotes x z -> - 2 ^ (w - 1) <= z <= 2 ^ (w - 1) - 1 -> as_int w x = z.
Proof.
  intros (s & m & e & -> & Hm & He & Hu) Hz. cbn [as_int]. rewrite shiftl_units by done. unfold units in Hu.
  assert (0 < 2 ^ 1074) by (apply Z.pow_pos_nonneg; lia). unfold saturate.
  destruct s; cbn [signed] in *.
  - assert (m * 2 ^ (e + 1074) = (- z) * 2 ^ 1074) as -> by lia. rewrite Z.div_mul by lia. lia.
  - rewrite Hu, Z.div_mul by lia. lia.
Qed.
Lemma as_i64_denotes x z : denotes x z -> in_i64 z -> f64_as_i64 x = z.
Proof. intros Hx Hz. apply as_int_denotes; [done|]. unfold in_i64 in Hz. cbn. lia. Qed.
Lemma as_i32_denotes x z : denotes x z -> in_i32 z -> f64_as_i32 x = z.
Proof. intros Hx Hz. apply as_int_denotes; [done|]. unfold in_i32 in Hz. cbn. lia. Qed.
(** [x.floor() as i64] of a number that is not negative *)
Lemma floor_as_i64 x u :
  measures x u -> 0 <= u < 2 ^ 53 * 2 ^ 1074 -> f64_as_i64 (ffloor x) = u / 2 ^ 1074.
Proof.
  intros (s & m & e & -> & Hm & He & <-) Hu. unfold units in *.
  assert (0 < 2 ^ (e + 1074)) by (apply Z.pow_pos_nonneg; lia).
  assert (0 < 2 ^ 1074) by (apply Z.pow_pos_nonneg; lia). cbn [ffloor].
  destruct (Z.eqb_spec m 0) as [->|Hm0].
  { cbn. rewrite shiftl_units by done. rewrite Z.mul_0_l, Z.div_0_l by lia. by destruct s. }
  destruct s; cbn [signed] in *; [nia|]. unfold floor_Z. cbn [signed]. rewrite shiftl_units by done.
  set (u := m * 2 ^ (e + 1074)) in *.
  assert (0 <= u / 2 ^ 1074) by (apply Z.div_pos; lia).
  assert (u / 2 ^ 1074 < 2 ^ 53) by (apply Z.div_lt_upper_bound; lia).
  apply as_i64_denotes; [apply of_Z_denotes; lia|unfold in_i64; lia].
Qed.

(** ** Products *)

Lemma fmul_between x y a b j :
  measures x a -> measures y b -> 0 < a -> 0 < b -> 0 <= j <= 1074 ->
  a * b < 2 ^ (53 - j) * (2 ^ 1074 * 2 ^ 1074) ->
  exists v, measures (fmul x y) v /\ 0 <= v /\
    forall c, (a * b * 2 ^ j <= c * (2 ^ 1074 * 2 ^ 1074) -> v <= c * 2 ^ (1074 - j)) /\
      (c * (2 ^ 1074 * 2 ^ 1074) <= a * b * 2 ^ j -> c * 2 ^ (1074 - j) <= v).
Proof.
  intros (s & m & e & -> & Hm & He & <-) (t & n & f & -> & Hn & Hf & <-) Ha Hb Hj Hlt.
  unfold units in *. assert (0 < 2 ^ (e + 1074)) by (apply Z.pow_pos_nonneg; lia).
  assert (0 < 2 ^ (f + 1074)) by (apply Z.pow_pos_nonneg; lia).
  destruct s; cbn [signed] in *; [nia|]. destruct t; cbn [signed] in *; [nia|]. cbn [fmul xorb].
  set (U := 2 ^ 1074) in *. assert (0 < U) by (apply Z.pow_pos_nonneg; lia).
  set (N := up (m * n) (- (e + f))). set (D := up 1 (e + f)).
  assert (0 < D) by (unfold D, up; rewrite Z.mul_1_l; apply Z.pow_pos_nonneg; lia).
  assert (N * (U * U) = m * 2 ^ (e + 1074) * (n * 2 ^ (f + 1074)) * D) as E.
  { unfold N, D, U, up. rewrite Z.opp_involutive, Z.mul_1_l.
    replace (m * 2 ^ (e + 1074) * (n * 2 ^ (f + 1074)) * 2 ^ Z.max 0 (- (e + f)))
      with (m * n * (2 ^ (e + 1074) * 2 ^ (f + 1074) * 2 ^ Z.max 0 (- (e + f)))) by lia.
    rewrite <- Z.mul_assoc, <- !Z.pow_add_r by lia. do 2 f_equal. lia. }
  set (P := m * 2 ^ (e + 1074) * (n * 2 ^ (f + 1074))) in *. assert (0 < U * U) by nia.
  assert (0 < N) by nia.
  destruct (round_to_between false N D j) as (v & Hv & Hv0 & Hc); [lia..| |].
  { apply (Z.mul_lt_mono_pos_r (U * U)); [done|]. rewrite E. nia. }
  exists v. split_and!; [exact Hv|done|]. intros c. destruct (Hc c) as [Hle Hge]. split; intros Hk;
    [apply Hle|apply Hge]; apply (Z.mul_le_mono_pos_r _ _ (U * U)); try done; nia.
Qed.

Lemma round_Z_exact s m e z : -1074 <= e -> units s m e = z * 2 ^ 1074 -> round_Z s m e = z.
Proof.
  intros He Hu. unfold units in Hu.
  assert (0 < 2 ^ 1074) by (apply Z.pow_pos_nonneg; lia). pose proof (up_units m e He) as Hup.
  set (D := up 1 e) in *. assert (0 < D) by (unfold D, up; rewrite Z.mul_1_l; apply Z.pow_pos_nonneg; lia).
  assert (up m (- e) = signed s z * D) as E.
  { apply (Z.mul_cancel_r _ _ (2 ^ 1074)); [lia|]. rewrite Hup. destruct s; cbn [signed] in *; nia. }
  unfold round_Z. fold D. rewrite E. replace (2 * (signed s z * D) + D) with (D + signed s z * (2 * D)) by lia.
  rewrite Z.div_add, Z.div_small by lia. destruct s; cbn [signed]; lia.
Qed.
Lemma fround_denotes x z : denotes x z -> Z.abs z < 2 ^ 53 -> denotes (fround x) z.
Proof.
  intros (s & m & e & -> & Hm & He & Hu) Hz. cbn [fround]. rewrite (round_Z_exact _ _ _ _ He Hu).
  destruct (Z.eqb_spec z 0) as [->|_]; [|by apply of_Z_denotes].
  exists s, 0, (-1074). split_and!; [done|lia|lia|]. by destruct s.
Qed.
