(* ===== verification/ReferralData.v ===== *)
(** * Referral messages and tables ([_/schemas/proto/c35/referral.proto],
      [identity.sql], [billing.sql])

    The rows the referral program and the top-ups work on: the users with their
    uplines, the codes, the shares of the commission, the billing accounts, the
    commission ledger, the requests for withdrawal, the orders of top-ups, the
    wallets and the accounts that receive transfers; and their transactions. *)
From S2P Require Import Prelude Strs Ts World Json Db F64.
From S2P Require Export Txn.

(** ** [NUMERIC(precision, scale)]

    A column of a scale [s] holds [k / 10^s] or [NaN]. *)
Inductive num := NumNaN | Dec (k : Z).
#[export] Instance num_eq_dec : EqDecision num.
Proof. solve_decision. Defined.

(** The casts of the database between [FLOAT8] and a numeric column *)
Class Numerics := {
  (** by scale *)
  float8_of_num : Z -> num -> f64;
  (** by precision and scale: the cast of an assignment, which overflows *)
  num_of_float8 : Z -> Z -> f64 -> result num;
}.
(** [NaN] is [NaN] in both types, and integers of up to 15 digits are exact. *)
Class NumericsLaws `{!Numerics} := {
  float8_of_nan s : float8_of_num s NumNaN = NaN;
  num_of_nan p s : num_of_float8 p s NaN = Ok NumNaN;
  float8_of_int s z : 0 <= s -> Z.abs z < 10 ^ 15 -> denotes (float8_of_num s (Dec (z * 10 ^ s))) z;
  num_of_int p s x z : 0 <= s -> denotes x z -> Z.abs z < 10 ^ Z.min 15 (p - s) ->
    num_of_float8 p s x = Ok (Dec (z * 10 ^ s));
}.

(** [x >= 0]: [NaN] is above all numbers. *)
Definition num_nonneg (x : num) : bool := match x with NumNaN => true | Dec k => 0 <=? k end.

(** ** Rows *)

Module UserRow.
#[projections(primitive)]
Record UserRow := mk {
  kind : string;
  name : string;
  alien_id : option string;
  pic : option string;
  referred_by_iid : option Z;
  is_active : bool;
  meta : Value;
}.
End UserRow.
Notation UserRow := UserRow.UserRow.

(** [code] is the key. *)
Module CodeRow.
#[projections(primitive)]
Record CodeRow `{!Chrono} := mk {
  issued_by_iid : Z;
  used_count : Z;
  expires_at : option DateTime;
  meta : Value;
}.
End CodeRow.
Notation CodeRow := CodeRow.CodeRow.

(** The amounts in dollars are [NUMERIC(12, 4)]; in rupiah, [NUMERIC(14, 2)], and
    the balance [NUMERIC(16, 2)]. *)
Module AccountRow.
#[projections(primitive)]
Record AccountRow := mk {
  owner_iid : Z;
  balance_usd : num;
  balance_idr : num;
  plan_tier : string;
  billing_currency : string;
  fx_micro_per_usd : Z;
  commission_available_usd : num;
  commission_earned_usd : num;
  commission_available_idr : num;
  commission_earned_idr : num;
  commission_pending_usd : num;
  commission_pending_idr : num;
}.
End AccountRow.
Notation AccountRow := AccountRow.AccountRow.

(** [chk_billing_balance_usd_nonneg], [chk_billing_balance_idr_nonneg] *)
Definition balances_ok (c : AccountRow) : bool :=
  num_nonneg c.(AccountRow.balance_usd) && num_nonneg c.(AccountRow.balance_idr).
Definition checked_account (c : AccountRow) : result AccountRow :=
  if balances_ok c then Ok c else Err "violates check constraint".

Module LedgerRow.
#[projections(primitive)]
Record LedgerRow := mk {
  owner_iid : Z;
  entry_type : string;
  status : string;
  amount_usd : num;
  amount_idr : num;
  meta : Value;
}.
End LedgerRow.
Notation LedgerRow := LedgerRow.LedgerRow.

Module WithdrawRow.
#[projections(primitive)]
Record WithdrawRow `{!Chrono} := mk {
  owner_iid : Z;
  amount_usd : num;
  amount_idr : num;
  currency : string;
  payout_method : string;
  bank_id : string;
  account_number : string;
  account_name : string;
  transfer_proof_url : string;
  status : string;
  decline_reason : string;
  reviewed_by_iid : option Z;
  reviewed_ts : option DateTime;
}.
End WithdrawRow.
Notation WithdrawRow := WithdrawRow.WithdrawRow.

(** [ai.billing_topup_request] *)
Module TopupRow.
#[projections(primitive)]
Record TopupRow `{!Chrono} := mk {
  owner_iid : Z;
  billing_account_id : Z;
  (** [NUMERIC(12, 4)] and [NUMERIC(16, 2)] *)
  amount_usd : num;
  amount_idr : num;
  provider : string;
  payment_type : string;
  external_order_id : string;
  proof_url : string;
  status : string;
  reject_reason : string;
  reviewed_by_iid : option Z;
  settled_ts : option DateTime;
  meta : Value;
}.
End TopupRow.
Notation TopupRow := TopupRow.TopupRow.

(** [ai.billing_wallet] *)
Module WalletRow.
#[projections(primitive)]
Record WalletRow := mk {
  owner_iid : Z;
  currency : string;
  (** [NUMERIC(20, 4)] *)
  balance : num;
  is_default : bool;
  name : string;
}.
End WalletRow.
Notation WalletRow := WalletRow.WalletRow.

(** [ai.billing_receive_account] *)
Module ReceiveRow.
#[projections(primitive)]
Record ReceiveRow := mk {
  bank_id : string;
  account_number : string;
  account_name : string;
  currency : string;
  is_active : bool;
  is_default : bool;
  label : string;
  created_by_iid : option Z;
  meta : Value;
}.
End ReceiveRow.
Notation ReceiveRow := ReceiveRow.ReceiveRow.

Section Tables.
Context `{!Chrono}.

Record Referrals := {
  t_user : gmap Z (Row UserRow);
  t_code : gmap string (Row CodeRow);
  (** [share_percent], [NUMERIC(5, 2)], by parent and child *)
  t_share : gmap (Z * Z) (Row num);
  t_account : gmap Z (Row AccountRow);
  t_ledger : gmap Z (Row LedgerRow);
  t_withdraw : gmap Z (Row WithdrawRow);
  t_topup : gmap Z (Row TopupRow);
  t_wallet : gmap Z (Row WalletRow);
  t_receive : gmap Z (Row ReceiveRow);
}.

(** ** Transactions *)

Record RefWrites := {
  w_user : gmap Z (Row UserRow);
  w_code : gmap string (Row CodeRow);
  w_share : gmap (Z * Z) (Row num);
  w_account : gmap Z (Row AccountRow);
  w_ledger : gmap Z (Row LedgerRow);
  w_withdraw : gmap Z (Row WithdrawRow);
  w_topup : gmap Z (Row TopupRow);
  w_wallet : gmap Z (Row WalletRow);
}.
Definition ref_no_writes : RefWrites :=
  {| w_user := ∅; w_code := ∅; w_share := ∅; w_account := ∅; w_ledger := ∅; w_withdraw := ∅;
     w_topup := ∅; w_wallet := ∅ |}.
Definition ref_merge (new old : RefWrites) : RefWrites :=
  {| w_user := new.(w_user) ∪ old.(w_user); w_code := new.(w_code) ∪ old.(w_code);
     w_share := new.(w_share) ∪ old.(w_share); w_account := new.(w_account) ∪ old.(w_account);
     w_ledger := new.(w_ledger) ∪ old.(w_ledger); w_withdraw := new.(w_withdraw) ∪ old.(w_withdraw);
     w_topup := new.(w_topup) ∪ old.(w_topup); w_wallet := new.(w_wallet) ∪ old.(w_wallet) |}.
Definition ref_view (ws : RefWrites) (d : Referrals) : Referrals :=
  {| t_user := ws.(w_user) ∪ d.(t_user); t_code := ws.(w_code) ∪ d.(t_code);
     t_share := ws.(w_share) ∪ d.(t_share); t_account := ws.(w_account) ∪ d.(t_account);
     t_ledger := ws.(w_ledger) ∪ d.(t_ledger); t_withdraw := ws.(w_withdraw) ∪ d.(t_withdraw);
     t_topup := ws.(w_topup) ∪ d.(t_topup); t_wallet := ws.(w_wallet) ∪ d.(t_wallet);
     t_receive := d.(t_receive) |}.

(** A request of the owner that is not decided: one at most that is not deleted,
    by the index [uq_commission_withdraw_one_pending] *)
Definition pending_of (owner_iid : Z) (r : Row WithdrawRow) : bool :=
  (r.(cols).(WithdrawRow.owner_iid) =? owner_iid) && String.eqb r.(cols).(WithdrawRow.status) "pending".
Definition has_pending (owner_iid k : Z) (t : gmap Z (Row WithdrawRow)) : Prop :=
  exists r, t !! k = Some r /\ pending_of owner_iid r = true /\ live r = true.

(** [meta->>'reference_id'], for the texts the program writes *)
Definition reference_of (meta : Value) : option string := get "reference_id" meta ≫= as_str.
(** An entry that credits an owner under a reference: one at most, if that is not
    empty, by the index [uq_commission_ledger_accrual_ref] *)
Definition accrual_of (owner_iid : Z) (reference_id : string) (r : Row LedgerRow) : bool :=
  (r.(cols).(LedgerRow.owner_iid) =? owner_iid) &&
  String.eqb r.(cols).(LedgerRow.entry_type) "accrual" &&
  bool_decide (reference_of r.(cols).(LedgerRow.meta) = Some reference_id).
Definition has_accrual (owner_iid : Z) (reference_id : string) (k : Z) (t : gmap Z (Row LedgerRow)) : Prop :=
  exists r, t !! k = Some r /\ accrual_of owner_iid reference_id r = true.

(** Rows that were written or locked stay as they are, and nobody else requests a
    payout for an owner with a request among the writes, or credits what they
    credit. *)
Definition untouched `{Countable K} {A} (w m m' : gmap K (Row A)) : Prop :=
  forall k, is_Some (w !! k) -> m' !! k = m !! k.
Record ref_locked_out (ws : RefWrites) (d d' : Referrals) : Prop := {
  same_user : untouched ws.(w_user) d.(t_user) d'.(t_user);
  same_code : untouched ws.(w_code) d.(t_code) d'.(t_code);
  same_share : untouched ws.(w_share) d.(t_share) d'.(t_share);
  same_account : untouched ws.(w_account) d.(t_account) d'.(t_account);
  same_ledger : untouched ws.(w_ledger) d.(t_ledger) d'.(t_ledger);
  same_withdraw : untouched ws.(w_withdraw) d.(t_withdraw) d'.(t_withdraw);
  same_topup : untouched ws.(w_topup) d.(t_topup) d'.(t_topup);
  same_wallet : untouched ws.(w_wallet) d.(t_wallet) d'.(t_wallet);
  no_new_pending owner_iid k0 k : has_pending owner_iid k0 ws.(w_withdraw) ->
    has_pending owner_iid k d'.(t_withdraw) -> has_pending owner_iid k d.(t_withdraw);
  no_new_accrual owner_iid ref k0 k : ref <> "" -> has_accrual owner_iid ref k0 ws.(w_ledger) ->
    has_accrual owner_iid ref k d'.(t_ledger) -> has_accrual owner_iid ref k d.(t_ledger);
}.
#[export] Program Instance ref_overlay : Overlay Referrals RefWrites := {|
  no_writes := ref_no_writes; merge_writes := ref_merge; view := ref_view;
  locked_out := ref_locked_out |}.
Next Obligation. intros []. unfold ref_merge. cbn. by rewrite !(left_id_L ∅ (∪)). Qed.
Next Obligation. intros []. unfold ref_view. cbn. by rewrite !(left_id_L ∅ (∪)). Qed.
Next Obligation.
  split; cbn; try (intros k; rewrite lookup_empty; by intros [? [=]]).
  - intros owner_iid k0 k (r & E & _). by rewrite lookup_empty in E.
  - intros owner_iid ref k0 k _ (r & E & _). by rewrite lookup_empty in E.
Qed.

Definition write_code (k : string) (r : Row CodeRow) : RefWrites :=
  {| ref_no_writes with w_code := {[ k := r ]} |}.
Definition write_account (k : Z) (r : Row AccountRow) : RefWrites :=
  {| ref_no_writes with w_account := {[ k := r ]} |}.
Definition write_accounts (m : gmap Z (Row AccountRow)) : RefWrites :=
  {| ref_no_writes with w_account := m |}.
Definition write_ledger (m : gmap Z (Row LedgerRow)) : RefWrites :=
  {| ref_no_writes with w_ledger := m |}.
Definition write_withdraw (k : Z) (r : Row WithdrawRow) : RefWrites :=
  {| ref_no_writes with w_withdraw := {[ k := r ]} |}.
Definition write_topup (m : gmap Z (Row TopupRow)) : RefWrites :=
  {| ref_no_writes with w_topup := m |}.
Definition write_wallet (k : Z) (r : Row WalletRow) : RefWrites :=
  {| ref_no_writes with w_wallet := {[ k := r ]} |}.
End Tables.
Notation Rivals := (Rivals Referrals RefWrites).
Notation tstmt := (tstmt (DB := Referrals) (W := RefWrites)).
Notation tlift := (tlift (DB := Referrals) (W := RefWrites)).
Notation tcode := (tcode (DB := Referrals) (W := RefWrites)).
Notation txn := (txn (DB := Referrals) (W := RefWrites)).
