(* ===== verification/Referral.v ===== *)
(** * Codes, shares and the tree ([servers/crates/mod_referral/src/lib.rs],
      [codes.rs]; [mod_admin/src/lib.rs])

    Who issues referral codes and how often they are redeemed, the share of the
    commission a parent gives to a child, and the view of the tree. *)
From stdpp Require Import sorting.
From S2P Require Import Prelude Strs Ts World Json Db Shared F64 ReferralData.

(** ** Messages *)

Module ReferralCodeDoc.
#[projections(primitive)]
Record ReferralCodeDoc := mk {
  code : string;
  ty : string;
  name : string;
  issued_by : Z;
  price_usd : f64;
  duration_months : Z;
  base_plan_slug : string;
  max_uses : Z;
  used_count : Z;
  expires_at_ms : Z;
}.
End ReferralCodeDoc.
Notation ReferralCodeDoc := ReferralCodeDoc.ReferralCodeDoc.

Module ReferralPackage.
#[projections(primitive)]
Record ReferralPackage := mk {
  code : string;
  issued_by_iid : Z;
  name : string;
  price_usd : f64;
  price_idr : f64;
  duration_months : Z;
  base_plan_slug : string;
  max_uses : Z;
  used_count : Z;
  expires_at_ms : Z;
}.
End ReferralPackage.
Notation ReferralPackage := ReferralPackage.ReferralPackage.

Module ReferralSignupCode.
#[projections(primitive)]
Record ReferralSignupCode := mk {
  code : string;
  issued_by_iid : Z;
  issuer_name : string;
  issuer_pic : string;
  allow_short_id : bool;
}.
End ReferralSignupCode.
Notation ReferralSignupCode := ReferralSignupCode.ReferralSignupCode.

Module ReferralShareDoc.
#[projections(primitive)]
Record ReferralShareDoc := mk { parent_uid : Z; child_uid : Z; share_percent : Z }.
End ReferralShareDoc.
Notation ReferralShareDoc := ReferralShareDoc.ReferralShareDoc.

Module ReferralTreeNode.
#[projections(primitive)]
Record ReferralTreeNode := mk {
  identity_id : Z;
  name : string;
  email : string;
  avatar_url : string;
  handle : string;
  referred_by : Z;
  child_count : Z;
  is_root : bool;
  is_banned : bool;
  global_roles : list string;
  mailbox_count : Z;
}.
End ReferralTreeNode.
Notation ReferralTreeNode := ReferralTreeNode.ReferralTreeNode.

Module ReferralTreeSlice.
#[projections(primitive)]
Record ReferralTreeSlice := mk {
  nodes : list ReferralTreeNode;
  branch_shares : list ReferralShareDoc;
  platform_user_count : Z;
}.
End ReferralTreeSlice.
Notation ReferralTreeSlice := ReferralTreeSlice.ReferralTreeSlice.

(** ** Reading [meta] *)

Definition meta_str (meta : Value) (key : string) : string :=
  trim (default "" (get key meta ≫= as_str)).
Definition meta_f64 (meta : Value) (key : string) : f64 :=
  default (of_Z 0) (get key meta ≫= as_f64).
Definition meta_i32 (meta : Value) (key : string) : Z :=
  to_i32 (default 0 (get key meta ≫= as_i64)).

Definition if_empty_then (s fallback : string) : string := if is_empty s then fallback else s.

Definition meta_is_root (meta : Value) : bool :=
  match get "is_root" meta ≫= as_bool with
  | Some b => b
  | None => match get "is_root" meta ≫= as_str with Some s => String.eqb s "true" | None => false end
  end.
Definition meta_global_roles (meta : Value) : list string :=
  match get "global_roles" meta ≫= as_array with Some a => omap as_str a | None => [] end.
Definition meta_has_role (role : string) (meta : Value) : bool :=
  bool_decide (role ∈ meta_global_roles meta).

(** ** Codes *)

Definition is_ascii_alphanumeric (c : Ascii.ascii) : bool :=
  let c := byte_Z c in
  ((48 <=? c) && (c <=? 57)) || ((65 <=? c) && (c <=? 90)) || ((97 <=? c) && (c <=? 122)).
Definition ascii_upper (c : Ascii.ascii) : Ascii.ascii :=
  if (97 <=? byte_Z c) && (byte_Z c <=? 122) then Ascii.ascii_of_N (Ascii.N_of_ascii c - 32) else c.
Definition normalize_code (raw : string) : string :=
  of_bytes (ascii_upper <$> filter (fun c => is_ascii_alphanumeric c = true) (bytes raw)).

Definition FX_IDR_PER_USD : f64 := of_Z 17630.

Definition referral_code_doc_from_row (code : string) (issued_by used_count expires_at_ms : Z)
    (meta : Value) : ReferralCodeDoc :=
  {| ReferralCodeDoc.code := code;
     ReferralCodeDoc.ty := if_empty_then (meta_str meta "type") "referral";
     ReferralCodeDoc.name := meta_str meta "name";
     ReferralCodeDoc.issued_by := issued_by;
     ReferralCodeDoc.price_usd := meta_f64 meta "price_usd";
     ReferralCodeDoc.duration_months := meta_i32 meta "duration_months";
     ReferralCodeDoc.base_plan_slug := meta_str meta "base_plan_slug";
     ReferralCodeDoc.max_uses := meta_i32 meta "max_uses";
     ReferralCodeDoc.used_count := used_count;
     ReferralCodeDoc.expires_at_ms := expires_at_ms |}.

Definition referral_code_meta_from_doc (doc : ReferralCodeDoc) : Value :=
  let price_usd := fmax doc.(ReferralCodeDoc.price_usd) (of_Z 0) in
  let price_idr := fround (fmul price_usd FX_IDR_PER_USD) in
  json_object
    [("type", Str (if is_empty (trim doc.(ReferralCodeDoc.ty)) then "referral"
                   else trim doc.(ReferralCodeDoc.ty)));
     ("name", Str (trim doc.(ReferralCodeDoc.name)));
     ("price_usd", json_f64 price_usd);
     ("price_idr", json_f64 price_idr);
     ("duration_months", json_int (Z.max doc.(ReferralCodeDoc.duration_months) 0));
     ("base_plan_slug", Str (trim doc.(ReferralCodeDoc.base_plan_slug)));
     ("max_uses", json_int (Z.max doc.(ReferralCodeDoc.max_uses) 0))].

Definition referral_signup_code_valid (meta : Value) (used_count expires_at_ms now_ms : Z) : bool :=
  if String.eqb (meta_str meta "type") "package" then false
  else if (0 <? expires_at_ms) && (expires_at_ms <=? now_ms) then false
  else
    let max_uses := meta_i32 meta "max_uses" in
    negb ((0 <? max_uses) && (max_uses <=? used_count)).

(** The cast of a text to [boolean]: none if it is not one *)
Definition boolean_of_text (s : string) : option bool :=
  let s := to_ascii_lowercase (trim s) in
  if bool_decide (s ∈ ["t"; "tr"; "tru"; "true"; "y"; "ye"; "yes"; "on"; "1"]) then Some true
  else if bool_decide (s ∈ ["f"; "fa"; "fal"; "fals"; "false"; "n"; "no"; "of"; "off"; "0"])
  then Some false else None.
(** [COALESCE((meta->>'prepaid')::boolean, false)] *)
Definition meta_prepaid (meta : Value) : option bool :=
  match get "prepaid" meta with
  | None | Some Null => Some false
  | Some (Bool b) => Some b
  | Some (Str s) => boolean_of_text s
  | Some (Num (PosInt n)) => if n =? 0 then Some false else if n =? 1 then Some true else None
  | Some _ => None
  end.

(** The mailboxes of users and the number of users of the platform, which other
    programs keep *)
Class Platform := {
  mailbox_counts : list Z -> nat -> result (gmap Z Z);
  platform_stats_live_user_count : nat -> Z;
}.

Section Referral.
Context `{!Chrono} `{!Order} `{!Numerics} `{!Platform} `{!Rivals}.
Notation M := (M Referrals).
Notation T := (T (DB := Referrals) (W := RefWrites)).

(** ** Staff ([mod_admin/src/lib.rs]) *)

Definition viewer_meta (viewer_iid : Z) : M Value :=
  if viewer_iid =? 99000
  then mret (json_object [("is_root", Bool true); ("global_roles", json_strings ["root"])])
  else if viewer_iid <=? 0 then throw "forbidden"
  else
    row ← read (fun _ d => t_get viewer_iid d.(t_user));
    match row with
    | Some r => if r.(cols).(UserRow.is_active) then mret r.(cols).(UserRow.meta) else throw "forbidden"
    | None => throw "forbidden"
    end.
Definition is_referral_staff (meta : Value) : bool :=
  meta_is_root meta || meta_has_role "partner" meta || meta_has_role "director" meta.
Definition referral_tree_wide_access (viewer_iid : Z) : M bool :=
  unwrap_or false (meta ← viewer_meta viewer_iid; mret (is_referral_staff meta)).
Definition require_admin (viewer_iid : Z) : M () :=
  meta ← viewer_meta viewer_iid;
  if is_referral_staff meta then mret tt else throw "forbidden".
Definition issuer_root_or_director (issuer_iid : Z) : M bool :=
  if issuer_iid =? 99000 then mret true
  else if issuer_iid <=? 0 then mret false
  else
    row ← unwrap_or None (read (fun _ d => t_get issuer_iid d.(t_user)));
    mret match row with
         | Some r => meta_is_root r.(cols).(UserRow.meta) || meta_has_role "director" r.(cols).(UserRow.meta)
         | None => false
         end.

(** ** Codes *)

(** [(EXTRACT(EPOCH FROM expires_at) * 1000)::float8], [unwrap_or(0.0) as i64] *)
Definition expires_ms (c : CodeRow) : Z :=
  match c.(CodeRow.expires_at) with
  | Some t => f64_as_i64 (float8_of_num 3 (Dec (timestamp_micros t)))
  | None => 0
  end.

Definition referral_package_get (raw_code : string) : M (option ReferralPackage) :=
  let code := normalize_code raw_code in
  if is_empty code then mret None else
  row ← read (fun _ d => d.(t_code) !! code);
  match row with
  | None => mret None
  | Some r =>
      let c := r.(cols) in
      let meta := c.(CodeRow.meta) in
      if negb (String.eqb (meta_str meta "type") "package") then mret None else
      let expires_at_ms := expires_ms c in
      now ← utc_now;
      if (0 <? expires_at_ms) && (expires_at_ms <=? timestamp_millis now) then mret None else
      let price_usd := meta_f64 meta "price_usd" in
      let price_idr := meta_f64 meta "price_idr" in
      let price_idr := if fltb (of_Z 0) price_idr then price_idr
        else fround (fmul price_usd FX_IDR_PER_USD) in
      mret (Some
        {| ReferralPackage.code := code;
           ReferralPackage.issued_by_iid := c.(CodeRow.issued_by_iid);
           ReferralPackage.name := meta_str meta "name";
           ReferralPackage.price_usd := price_usd;
           ReferralPackage.price_idr := price_idr;
           ReferralPackage.duration_months := meta_i32 meta "duration_months";
           ReferralPackage.base_plan_slug := meta_str meta "base_plan_slug";
           ReferralPackage.max_uses := meta_i32 meta "max_uses";
           ReferralPackage.used_count := c.(CodeRow.used_count);
           ReferralPackage.expires_at_ms := expires_at_ms |})
  end.

(** [REFERRAL_SIGNUP_CODE_SELECT]: the code and its issuer, deleted or not *)
Definition signup_code_select (code : string) (d : Referrals)
    : option (Row CodeRow * (Z * Row UserRow)) :=
  r ← d.(t_code) !! code;
  u ← d.(t_user) !! r.(cols).(CodeRow.issued_by_iid);
  Some (r, (r.(cols).(CodeRow.issued_by_iid), u)).
Definition referral_signup_code_from_row (code : string) (r : Row CodeRow) (u : Row UserRow) (now_ms : Z)
    : option ReferralSignupCode :=
  let c := r.(cols) in
  let meta := c.(CodeRow.meta) in
  if negb (referral_signup_code_valid meta c.(CodeRow.used_count) (expires_ms c) now_ms) then None
  else Some
    {| ReferralSignupCode.code := code;
       ReferralSignupCode.issued_by_iid := c.(CodeRow.issued_by_iid);
       ReferralSignupCode.issuer_name := u.(cols).(UserRow.name);
       ReferralSignupCode.issuer_pic := default "" u.(cols).(UserRow.pic);
       ReferralSignupCode.allow_short_id := default false (get "allow_short_id" meta ≫= as_bool) |}.

Definition signup_info (code : string) (row : option (Row CodeRow * (Z * Row UserRow)))
    (now : DateTime) : option ReferralSignupCode :=
  match row with
  | Some (r, (_, u)) => referral_signup_code_from_row code r u (timestamp_millis now)
  | None => None
  end.

Definition referral_signup_code_lookup (raw_code : string) : M (option ReferralSignupCode) :=
  let code := normalize_code raw_code in
  if is_empty code then mret None else
  row ← read (fun _ d => signup_code_select code d);
  now ← utc_now;
  mret (signup_info code row now).

Definition INVALID_CODE : string := "Invalid or expired referral code.".
Definition referral_signup_code_redeem (raw_code : string) : M ReferralSignupCode :=
  let code := normalize_code raw_code in
  if is_empty code then throw INVALID_CODE else
  txn (
    row ← tstmt (fun _ d =>
      let row := signup_code_select code d in
      Ok (row, match row with
               | Some (r, (issuer, u)) =>
                   {| ref_no_writes with w_code := {[ code := r ]}; w_user := {[ issuer := u ]} |}
               | None => ref_no_writes
               end));
    now ← tcode utc_now;
    info ← tlift (ok_or (signup_info code row now) INVALID_CODE);
    tstmt (fun now d =>
      match d.(t_code) !! code with
      | None => Ok (tt, ref_no_writes)
      | Some r =>
          if r.(cols).(CodeRow.used_count) <? 2 ^ 31 - 1
          then Ok (tt, write_code code (set_cols now (fun c =>
                 {| c with CodeRow.used_count := c.(CodeRow.used_count) + 1 |}) r))
          else Err "integer out of range"
      end);;
    mret info).

(** ** Shares *)

Definition referral_share_set (iid parent_uid child_uid percent : Z) : M () :=
  let parent := if 0 <? parent_uid then parent_uid else iid in
  (if negb (parent =? iid)
   then
     ok ← attempt (require_admin iid);
     match ok with Ok _ => mret tt | Err _ => throw "forbidden" end
   else
     ok ← unwrap_or false (
       row ← read (DB := Referrals) (fun _ d => ok_or (t_get child_uid d.(t_user)) "no rows returned");
       r ← lift row;
       mret (default 0 r.(cols).(UserRow.referred_by_iid) =? parent));
     if (ok : bool) then mret tt else throw "forbidden");;
  let pct := Z.max 0 (Z.min 35 percent) in
  stmt (fun now d =>
    let row := match d.(t_share) !! (parent, child_uid) with
      | Some r => set_cols now (fun _ => Dec (pct * 100)) r
      | None => new_row now (Dec (pct * 100))
      end in
    Ok (tt, {| d with t_share := <[(parent, child_uid) := row]> d.(t_share) |})).

(** ** The issuer's codes *)

Definition referral_code_list (iid : Z) : M (list ReferralCodeDoc) :=
  unwrap_or [] (
    rows ← read (fun _ d =>
      filter (fun e => e.2.(cols).(CodeRow.issued_by_iid) = iid) (order d.(t_code)));
    prepaid ← mapM (fun e : string * Row CodeRow => lift (ok_or (meta_prepaid e.2.(cols).(CodeRow.meta))
      "invalid input syntax for type boolean")) rows;
    let rows := (zip rows prepaid : list ((string * Row CodeRow) * bool)) in
    let rows := (filter (fun e => e.2 = false) rows).*1 in
    let rows := take 50 (merge_sort by_created_desc rows) in
    mret ((fun e : string * Row CodeRow => referral_code_doc_from_row e.1
      e.2.(cols).(CodeRow.issued_by_iid) e.2.(cols).(CodeRow.used_count) (expires_ms e.2.(cols))
      e.2.(cols).(CodeRow.meta)) <$> rows)).

Definition referral_code_put (iid : Z) (doc : ReferralCodeDoc) : M ReferralCodeDoc :=
  (if eq_ignore_ascii_case (trim doc.(ReferralCodeDoc.ty)) "package"
   then
     ok ← issuer_root_or_director iid;
     if (ok : bool) then mret tt else throw "package codes require root or director"
   else mret tt);;
  let code := normalize_code doc.(ReferralCodeDoc.code) in
  (if is_empty code then throw "code required" else mret tt);;
  (if (64 <? String.length code)%nat then throw "code too long" else mret tt);;
  let expires := ts_from_ms doc.(ReferralCodeDoc.expires_at_ms) in
  let meta := referral_code_meta_from_doc doc in
  stmt (fun now d =>
    match d.(t_code) !! code with
    | None => Ok (tt, {| d with t_code := <[code := new_row now
        {| CodeRow.issued_by_iid := iid; CodeRow.used_count := 0; CodeRow.expires_at := expires;
           CodeRow.meta := meta |}]> d.(t_code) |})
    | Some r =>
        if r.(cols).(CodeRow.issued_by_iid) =? iid
        then Ok (tt, {| d with t_code := <[code := set_cols now (fun c =>
               {| c with CodeRow.expires_at := expires; CodeRow.meta := meta |}) r]> d.(t_code) |})
        else Ok (tt, d)
    end);;
  mret {| doc with ReferralCodeDoc.code := code; ReferralCodeDoc.issued_by := iid |}.

Definition referral_code_delete (iid : Z) (code : string) : M () :=
  let code := normalize_code code in
  (if is_empty code then throw "code required" else mret tt);;
  n ← stmt (fun _ d =>
    match d.(t_code) !! code with
    | Some r => if r.(cols).(CodeRow.issued_by_iid) =? iid
                then Ok (1, {| d with t_code := delete code d.(t_code) |}) else Ok (0, d)
    | None => Ok (0, d)
    end);
  if n =? 0 then throw "code not found" else mret tt.
End Referral.
