(* ===== verification/ReferralTree.v ===== *)
(** * The tree of referrals ([referral_tree_get] of
      [servers/crates/mod_referral/src/lib.rs])

    What a viewer is shown: the users below a start, level by level, with the
    number of their children and the shares between them. *)
From stdpp Require Import sorting.
From S2P Require Import Prelude Strs Ts World Json Db Shared F64 ReferralData Referral.

Section Tree.
Context `{!Chrono} `{!Order} `{!Numerics} `{!Platform} `{!Rivals}.
Notation M := (M Referrals).

(** ** Queries *)

(** [kind = 'user' AND deleted_ts IS NULL] *)
Definition is_user (r : Row UserRow) : bool := String.eqb r.(cols).(UserRow.kind) "user" && live r.
Definition live_user (d : Referrals) (id : Z) : option (Row UserRow) :=
  match d.(t_user) !! id with Some r => if is_user r then Some r else None | None => None end.
Definition users_where (P : Z -> UserRow -> bool) (d : Referrals) : list Z :=
  (filter (fun e => is_user e.2 && P e.1 e.2.(cols) = true) (order d.(t_user))).*1.
Definition referred_by (p : Z) (_ : Z) (c : UserRow) : bool :=
  bool_decide (c.(UserRow.referred_by_iid) = Some p).
Definition children (d : Referrals) (p : Z) : list Z := users_where (referred_by p) d.

(** The recursive query [tree]: the first level, and [n] more.  A user can be on
    several levels. *)
Fixpoint levels (d : Referrals) (n : nat) (l : list Z) : list Z :=
  l ++ match n with O => [] | S n => levels d n (l ≫= children d) end.

Definition tree_from_id (start depth : Z) (d : Referrals) : list Z :=
  levels d (Z.to_nat depth) (users_where (fun id _ => id =? start) d).
Definition tree_direct_branch (parent_id : Z) (d : Referrals) : list Z :=
  users_where (fun id _ => id =? parent_id) d ++ children d parent_id.
Definition tree_forest (viewer_iid depth : Z) (d : Referrals) : list Z :=
  levels d (Z.to_nat depth) (users_where (fun id c =>
    bool_decide (c.(UserRow.referred_by_iid) = None) || (id =? viewer_iid)) d).

(** [REFERRAL_TREE_SELECT]: a row per user in the order of their ids, with the
    number of children, once for each time the user is in the tree *)
Definition tree_select (tree : list Z) (d : Referrals) : list (Z * Row UserRow * Z) :=
  omap (fun id => r ← d.(t_user) !! id;
      Some ((id, r), Z.of_nat (length (children d id) * length (filter (fun i => i = id) tree))))
    (merge_sort Z.le (remove_dups tree)).

(** [referral_descends_from]: the users from [node] upwards, 32 steps at most *)
Fixpoint upline_ids (d : Referrals) (n : nat) (node : Z) : list Z :=
  match d.(t_user) !! node with
  | None => []
  | Some r =>
      node :: match n, r.(cols).(UserRow.referred_by_iid) with
              | S n, Some p => if p =? node then [] else upline_ids d n p
              | _, _ => []
              end
  end.
Definition referral_descends_from (ancestor node : Z) : M bool :=
  unwrap_or false (read (fun _ d => bool_decide (ancestor ∈ upline_ids d 32 node))).

Definition referral_tree_shares (ids : list Z) : M (list ReferralShareDoc) :=
  match ids with
  | [] => mret []
  | _ => unwrap_or [] (read (fun _ d =>
      (fun e : (Z * Z) * Row num =>
         {| ReferralShareDoc.parent_uid := e.1.1; ReferralShareDoc.child_uid := e.1.2;
            ReferralShareDoc.share_percent := f64_as_i32 (float8_of_num 2 e.2.(cols)) |}) <$>
      filter (fun e => e.1.1 ∈ ids \/ e.1.2 ∈ ids) (order d.(t_share))))
  end.
Definition referral_tree_mailbox_counts (ids : list Z) : M (gmap Z Z) :=
  match ids with
  | [] => mret ∅
  | _ => counts ← ask (mailbox_counts ids);
         mret match counts with Ok m => to_i32 <$> m | Err _ => ∅ end
  end.

(** ** The slice *)

(** [char_indices] of ['@'] removed at the start *)
Fixpoint trim_start_at (s : string) : string :=
  match s with
  | String.String c s' => if byte_Z c =? 64 then trim_start_at s' else s
  | EmptyString => s
  end.
Definition admin_user_public_handle (alien_id email : string) : string :=
  let a := trim_start_at (trim alien_id) in
  if negb (is_empty a) then "@" +:+ a
  else let e := trim email in if negb (is_empty e) then e else "".

Definition referral_tree_node_from_row (row : Z * Row UserRow * Z) (mailbox_count : Z)
    : ReferralTreeNode :=
  let '((id, r), n) := row in
  let c := r.(cols) in
  {| ReferralTreeNode.identity_id := id;
     ReferralTreeNode.name := c.(UserRow.name);
     ReferralTreeNode.email := "";
     ReferralTreeNode.avatar_url := default "" c.(UserRow.pic);
     ReferralTreeNode.handle := admin_user_public_handle (default "" c.(UserRow.alien_id)) "";
     ReferralTreeNode.referred_by := default 0 c.(UserRow.referred_by_iid);
     ReferralTreeNode.child_count := to_i32 n;
     ReferralTreeNode.is_root := meta_is_root c.(UserRow.meta);
     ReferralTreeNode.is_banned := negb c.(UserRow.is_active);
     ReferralTreeNode.global_roles := meta_global_roles c.(UserRow.meta);
     ReferralTreeNode.mailbox_count := mailbox_count |}.

Definition referral_tree_get (viewer_iid root_id depth : Z) : M ReferralTreeSlice :=
  let depth := if (0 <? depth) && (depth <=? 8) then depth else 2 in
  wide ← referral_tree_wide_access viewer_iid;
  let forest := wide && (root_id <=? 0) in
  rows ← (if (forest : bool)
    then unwrap_or [] (read (fun _ d => tree_select (tree_forest viewer_iid depth d) d))
    else if (depth =? 1) && (0 <? root_id)
    then unwrap_or [] (read (fun _ d => tree_select (tree_direct_branch root_id d) d))
    else
      let start := if 0 <? root_id then root_id else viewer_iid in
      start ← (if negb wide && negb (start =? viewer_iid)
        then allowed ← referral_descends_from viewer_iid start;
             mret (if (allowed : bool) then start else viewer_iid)
        else mret start);
      unwrap_or [] (read (fun _ d => tree_select (tree_from_id start depth d) d)));
  let ids := (fun row => row.1.1) <$> rows in
  mailbox_by_iid ← referral_tree_mailbox_counts ids;
  let nodes := (fun row => referral_tree_node_from_row row
    (default 0 (mailbox_by_iid !! row.1.1))) <$> rows in
  shares ← referral_tree_shares ids;
  count ← (if (forest : bool) then ask platform_stats_live_user_count else mret 0);
  mret {| ReferralTreeSlice.nodes := nodes; ReferralTreeSlice.branch_shares := shares;
          ReferralTreeSlice.platform_user_count := count |}.
End Tree.
