(* ===== verification/Commission.v ===== *)
(** * Commission ([servers/crates/mod_referral/src/commission.rs])

    What the uplines of a payer earn, and how it is credited.  The loop up the
    referrals has no bound in the source: [fuel] is the number of its rounds, and
    no answer means that it has not ended by then. *)
From stdpp Require Import pretty.
From S2P Require Import Prelude Strs Ts World Json Db Shared F64 ReferralData Referral ReferralTree.

(** ** Messages *)

Module ReferralCommissionLevel.
#[projections(primitive)]
Record ReferralCommissionLevel := mk {
  identity_id : Z;
  name : string;
  avatar_url : string;
  percent : Z;
  earn_amount : Z;
  pool_share_percent : f64;
}.
End ReferralCommissionLevel.
Notation ReferralCommissionLevel := ReferralCommissionLevel.ReferralCommissionLevel.

Module CommissionSimulate.
#[projections(primitive)]
Record ResReferralCommissionSimulate := mk {
  purchase_amount : Z;
  pool_amount : Z;
  pool_rate : f64;
  levels : list ReferralCommissionLevel;
  total_distributed : Z;
  undistributed : Z;
}.
End CommissionSimulate.
Notation ResReferralCommissionSimulate := CommissionSimulate.ResReferralCommissionSimulate.

Module EarnRow.
#[projections(primitive)]
Record EarnRow := mk { uid : Z; name : string; pic : string; percent : Z }.
End EarnRow.
Notation EarnRow := EarnRow.EarnRow.

Definition MARKETING_POOL_RATE : f64 := decimal 35 2.
Definition SHARE_MAX_PERCENT : Z := 35.
Definition COMMISSION_PURCHASE_REF_TYPE : string := "billing_package_purchase".

Definition i64_div (a b : Z) : Z := to_i64 (Z.quot a b).
Definition i32_sub (a b : Z) : Z := to_i32 (a - b).

(** [((amount as f64) * MARKETING_POOL_RATE).floor() as i64] *)
Definition pool_of (amount : Z) : Z := f64_as_i64 (ffloor (fmul (of_Z amount) MARKETING_POOL_RATE)).
(** [(amount * percent as i64) / 100] *)
Definition earn_of (amount percent : Z) : Z := i64_div (i64_mul amount percent) 100.
(** [(earn * pool_amount) / total_distributed] *)
Definition scale_of (pool total earn : Z) : Z := i64_div (i64_mul earn pool) total.

Section Commission.
Context `{!Chrono} `{!Order} `{!Numerics} `{!Rivals}.
Notation M := (M Referrals).
Notation T := (T (DB := Referrals) (W := RefWrites)).

Definition tread {A} (f : DateTime -> Referrals -> A) : T A :=
  tstmt (fun now d => Ok (f now d, no_writes)).

(** ** The chain *)

Definition share_of (d : Referrals) (parent child : Z) : Z :=
  f64_as_i32 (fround (match d.(t_share) !! (parent, child) with
    | Some r => float8_of_num 2 r.(cols) | None => of_Z 0 end)).
Definition share_get (parent child : Z) : T Z := tread (fun _ d => share_of d parent child).

(** [referred_by.filter(|p| *p > 0 && *p != uid)] *)
Definition upline_of (uid : Z) (c : UserRow) : option Z :=
  match c.(UserRow.referred_by_iid) with
  | Some p => if (0 <? p) && negb (p =? uid) then Some p else None
  | None => None
  end.
Definition earn_row (uid : Z) (c : UserRow) (percent : Z) : EarnRow :=
  {| EarnRow.uid := uid; EarnRow.name := c.(UserRow.name);
     EarnRow.pic := default "" c.(UserRow.pic); EarnRow.percent := percent |}.

Fixpoint earn_loop (fuel : nat) (uid parent_uid edge child_uid current_parent : Z)
    (rows : list EarnRow) : T (option (list EarnRow)) :=
  if negb (0 <? current_parent) then mret (Some rows) else
  match fuel with
  | O => mret None
  | S fuel =>
      parent ← tread (fun _ d => live_user d current_parent);
      match parent with
      | None => mret (Some rows)
      | Some row =>
          let c := row.(cols) in
          child_share ← (if (current_parent =? parent_uid) && (child_uid =? uid) then mret edge
                         else share_get current_parent child_uid);
          incoming ← (match upline_of current_parent c with
            | Some pref => share_get pref current_parent
            | None => mret SHARE_MAX_PERCENT
            end);
          let keep := Z.max (i32_sub incoming child_share) 0 in
          let rows := rows ++ [earn_row current_parent c keep] in
          match upline_of current_parent c with
          | None => mret (Some rows)
          | Some next => earn_loop fuel uid parent_uid edge current_parent next rows
          end
      end
  end.

Definition earn_chain (fuel : nat) (subject_iid : Z) : T (option (list EarnRow)) :=
  seller ← tread (fun _ d => live_user d subject_iid);
  match seller with
  | None => mret (Some [])
  | Some row =>
      let c := row.(cols) in
      match upline_of subject_iid c with
      | None => mret (Some [earn_row subject_iid c SHARE_MAX_PERCENT])
      | Some parent_uid =>
          edge ← share_get parent_uid subject_iid;
          earn_loop fuel subject_iid parent_uid edge subject_iid parent_uid
            [earn_row subject_iid c edge]
      end
  end.

(** ** Simulation *)

Definition pool_share (earn pool_amount : Z) : f64 :=
  if 0 <? pool_amount then fmul (fdiv (of_Z earn) (of_Z pool_amount)) (of_Z 100) else of_Z 0.
Definition commission_level (purchase_amount pool_amount : Z) (row : EarnRow) : ReferralCommissionLevel :=
  let earn := earn_of purchase_amount row.(EarnRow.percent) in
  {| ReferralCommissionLevel.identity_id := row.(EarnRow.uid);
     ReferralCommissionLevel.name := row.(EarnRow.name);
     ReferralCommissionLevel.avatar_url := row.(EarnRow.pic);
     ReferralCommissionLevel.percent := row.(EarnRow.percent);
     ReferralCommissionLevel.earn_amount := earn;
     ReferralCommissionLevel.pool_share_percent := pool_share earn pool_amount |}.
Definition scale_level (pool_amount total : Z) (l : ReferralCommissionLevel) : ReferralCommissionLevel :=
  let earn := scale_of pool_amount total l.(ReferralCommissionLevel.earn_amount) in
  {| l with ReferralCommissionLevel.earn_amount := earn;
     ReferralCommissionLevel.pool_share_percent := pool_share earn pool_amount |}.
Definition simulate_chain (purchase_amount : Z) (chain : list EarnRow) : ResReferralCommissionSimulate :=
  let pool_amount := pool_of purchase_amount in
  let levels := commission_level purchase_amount pool_amount <$> chain in
  let total := i64_sum (ReferralCommissionLevel.earn_amount <$> levels) in
  let '(levels, total) :=
    if (pool_amount <? total) && (0 <? total)
    then let levels := scale_level pool_amount total <$> levels in
         (levels, i64_sum (ReferralCommissionLevel.earn_amount <$> levels))
    else (levels, total) in
  {| CommissionSimulate.purchase_amount := purchase_amount;
     CommissionSimulate.pool_amount := pool_amount;
     CommissionSimulate.pool_rate := MARKETING_POOL_RATE;
     CommissionSimulate.levels := levels;
     CommissionSimulate.total_distributed := total;
     CommissionSimulate.undistributed := i64_sub pool_amount total |}.

Definition commission_simulate (fuel : nat) (subject_iid purchase_amount : Z)
    : M (option ResReferralCommissionSimulate) :=
  if purchase_amount <=? 0 then throw "invalid purchase amount" else
  chain ← txn (earn_chain fuel subject_iid);
  mret (simulate_chain purchase_amount <$> chain).
Definition referral_commission_simulate `{!Platform} (fuel : nat) (viewer_iid subject_iid purchase_amount : Z)
    : M (option ResReferralCommissionSimulate) :=
  wide ← referral_tree_wide_access viewer_iid;
  if negb wide then throw "forbidden" else
  let subject := if 0 <? subject_iid then subject_iid else viewer_iid in
  commission_simulate fuel subject purchase_amount.

(** ** Crediting *)

(** The live account of an owner: at most one, by a unique index *)
Definition account_of (owner_iid : Z) (d : Referrals) : option (Z * Row AccountRow) :=
  head (filter (fun e => e.2.(cols).(AccountRow.owner_iid) = owner_iid /\ live e.2 = true)
    (order d.(t_account))).
Definition accrued (owner_iid : Z) (reference_id : string) (d : Referrals) : bool :=
  existsb (fun e : Z * Row LedgerRow => accrual_of owner_iid reference_id e.2) (order d.(t_ledger)).

(** A column plus or minus a bound [f64]: the sum is a [FLOAT8]. *)
Definition num_add (p s : Z) (x : num) (a : f64) : result num :=
  num_of_float8 p s (fadd (float8_of_num s x) a).
Definition num_sub (p s : Z) (x : num) (a : f64) : result num :=
  num_of_float8 p s (fsub (float8_of_num s x) a).

Definition commission_credit_in_tx (owner_iid : Z) (amount_idr : f64) (source_iid : Z)
    (event_type reference_id : string) : T () :=
  if fleb amount_idr (of_Z 0) then mret tt else
  account_id ← tread (fun _ d => fst <$> account_of owner_iid d);
  match account_id with
  | None => mret tt
  | Some account_id =>
      let meta := json_object
        [("source_iid", json_int source_iid); ("event_type", Str event_type);
         ("reference_id", Str reference_id);
         ("reference_type", Str COMMISSION_PURCHASE_REF_TYPE)] in
      exists_ ← tread (fun _ d => accrued owner_iid reference_id d);
      if (exists_ : bool) then mret tt else
      ledger_id ← tcode next_id;
      tstmt (fun now d =>
        amount ← num_of_float8 14 2 amount_idr;
        match d.(t_ledger) !! ledger_id with
        | Some _ => Err "duplicate key value violates unique constraint"
        | None =>
            if negb (is_empty reference_id) && accrued owner_iid reference_id d
            then Err "duplicate key value violates unique constraint"
            else Ok (tt, write_ledger {[ ledger_id := new_row now
              {| LedgerRow.owner_iid := owner_iid; LedgerRow.entry_type := "accrual";
                 LedgerRow.status := "active"; LedgerRow.amount_usd := Dec 0;
                 LedgerRow.amount_idr := amount; LedgerRow.meta := meta |} ]})
        end);;
      tstmt (fun now d =>
        match d.(t_account) !! account_id with
        | None => Ok (tt, no_writes)
        | Some r =>
            let c := r.(cols) in
            available ← num_add 14 2 c.(AccountRow.commission_available_idr) amount_idr;
            earned ← num_add 14 2 c.(AccountRow.commission_earned_idr) amount_idr;
            Ok (tt, write_account account_id (set_cols now (fun c =>
              {| c with AccountRow.commission_available_idr := available;
                 AccountRow.commission_earned_idr := earned |}) r))
        end)
  end.

Fixpoint tforM {A} (l : list A) (f : A -> T ()) : T () :=
  match l with [] => mret tt | x :: l => f x;; tforM l f end.

(** What a top-up of [amount_idr] credits to whom *)
Definition topup_levels (payer_iid amount_idr : Z) (chain : list EarnRow) : list (Z * Z) :=
  let pool_amount := pool_of amount_idr in
  let levels := filter (fun l => l.1 <> payer_iid /\ 0 < l.2)
    ((fun row => (row.(EarnRow.uid), earn_of amount_idr row.(EarnRow.percent))) <$> chain) in
  let total := i64_sum levels.*2 in
  if (pool_amount <? total) && (0 <? total)
  then (fun l => (l.1, scale_of pool_amount total l.2)) <$> levels else levels.

Definition amount_in_idr (amount : f64) (currency : string) : Z :=
  f64_as_i64 (fround (if eq_ignore_ascii_case currency "IDR" then amount
                      else fmul amount FX_IDR_PER_USD)).
Definition commission_accrue_on_topup_tx (fuel : nat) (payer_iid : Z) (amount : f64)
    (currency order_id : string) : T (option ()) :=
  let amount_idr := amount_in_idr amount currency in
  if (amount_idr <=? 0) || (payer_iid <=? 0) then mret (Some tt) else
  chain ← earn_chain fuel payer_iid;
  match chain with
  | None => mret None
  | Some chain =>
      tforM (topup_levels payer_iid amount_idr chain) (fun l : Z * Z =>
        commission_credit_in_tx l.1 (of_Z l.2) payer_iid "wallet_topup"
          (order_id +:+ ":" +:+ pretty l.1));;
      mret (Some tt)
  end.

Definition commission_accrue_on_purchase (fuel : nat) (payer_iid amount_idr : Z)
    (purchase_id event_type : string) : M (option ()) :=
  if (amount_idr <=? 0) || (payer_iid <=? 0) || is_empty purchase_id then mret (Some tt) else
  sim ← commission_simulate fuel payer_iid amount_idr;
  match sim with
  | None => mret None
  | Some sim =>
      txn (tforM sim.(CommissionSimulate.levels) (fun level : ReferralCommissionLevel =>
        let uid := level.(ReferralCommissionLevel.identity_id) in
        let earn := level.(ReferralCommissionLevel.earn_amount) in
        if (uid =? payer_iid) || (earn <=? 0) then mret tt
        else commission_credit_in_tx uid (of_Z earn) payer_iid event_type
               (purchase_id +:+ ":" +:+ pretty uid)));;
      mret (Some tt)
  end.

(** ** Top-ups ([topup_credit_and_accrue] of [mod_billing/src/billing_topup.rs]) *)

Definition topup_credit_and_accrue (fuel : nat) (account_id : Z) (amount : f64)
    (currency order_id : string) : T (option Z) :=
  tstmt (fun now d =>
    match d.(t_account) !! account_id with
    | None => Ok (tt, no_writes)
    | Some r =>
        c ← (if eq_ignore_ascii_case currency "IDR"
          then
            x ← num_add 16 2 r.(cols).(AccountRow.balance_idr) amount;
            Ok {| r.(cols) with AccountRow.balance_idr := x |}
          else
            x ← num_add 12 4 r.(cols).(AccountRow.balance_usd) amount;
            Ok {| r.(cols) with AccountRow.balance_usd := x |});
        c ← checked_account c;
        Ok (tt, write_account account_id (set_cols now (fun _ => c) r))
    end);;
  owner_iid ← tread (fun _ d => (fun r : Row AccountRow => r.(cols).(AccountRow.owner_iid)) <$>
    d.(t_account) !! account_id);
  let owner_iid := match owner_iid with Some u => if 0 <? u then u else 0 | None => 0 end in
  (if 0 <? owner_iid
   then
     r ← commission_accrue_on_topup_tx fuel owner_iid amount currency order_id;
     mret ((fun _ => owner_iid) <$> r)
   else mret (Some owner_iid)).
End Commission.
