(* ===== verification/Withdraw.v ===== *)
(** * Payouts ([servers/crates/mod_referral/src/commission_withdraw.rs],
      [referral_ledger.rs]; [mod_billing/src/billing_finance.rs])

    An owner moves commission to the wallet or asks for a bank transfer; finance
    staff approve or decline the request. *)
From stdpp Require Import sorting pretty.
From S2P Require Import Prelude Strs Ts World Json Db Shared F64 ReferralData Referral ReferralTree.
From S2P Require Import Commission.

(** ** Messages *)

Module ReqCommissionWithdraw.
#[projections(primitive)]
Record ReqCommissionWithdraw := mk {
  amount_usd : f64;
  payout_method : string;
  amount_idr : f64;
  currency : string;
  bank_id : string;
  account_number : string;
  account_name : string;
}.
End ReqCommissionWithdraw.
Notation ReqCommissionWithdraw := ReqCommissionWithdraw.ReqCommissionWithdraw.

Module ResCommissionWithdraw.
#[projections(primitive)]
Record ResCommissionWithdraw := mk {
  success : bool;
  commission_available_usd : f64;
  new_wallet_balance_usd : f64;
  commission_available_idr : f64;
  new_wallet_balance_idr : f64;
  currency : string;
}.
End ResCommissionWithdraw.
Notation ResCommissionWithdraw := ResCommissionWithdraw.ResCommissionWithdraw.

Module ReqCommissionWithdrawReview.
#[projections(primitive)]
Record ReqCommissionWithdrawReview := mk {
  request_id : Z;
  action : string;
  transfer_proof_url : string;
  reason : string;
}.
End ReqCommissionWithdrawReview.
Notation ReqCommissionWithdrawReview := ReqCommissionWithdrawReview.ReqCommissionWithdrawReview.

Module CommissionLedgerEntry.
#[projections(primitive)]
Record CommissionLedgerEntry := mk {
  id : Z;
  entry_type : string;
  amount_usd : f64;
  amount_idr : f64;
  currency : string;
  status : string;
  source_iid : Z;
  event_type : string;
  reference_id : string;
  created_ts_ms : Z;
}.
End CommissionLedgerEntry.
Notation CommissionLedgerEntry := CommissionLedgerEntry.CommissionLedgerEntry.

(** [str::to_lowercase] and [to_uppercase], by the tables of Unicode *)
Class Casing := { str_to_lowercase : string -> string; str_to_uppercase : string -> string }.
Definition all_ascii (s : string) : Prop := Forall (fun c => byte_Z c < 128) (bytes s).
Class CasingLaws `{!Casing} := {
  lowercase_ascii s : all_ascii s -> str_to_lowercase s = to_ascii_lowercase s;
  uppercase_ascii s : all_ascii s -> str_to_uppercase s = of_bytes (ascii_upper <$> bytes s);
}.

Section Amount.
Context `{!Casing}.

Definition withdraw_amount (currency : string) (amount_usd amount_idr : f64) : result (string * f64) :=
  let cur := if is_empty (trim currency)
    then if fltb (of_Z 0) amount_idr then "IDR" else "USD"
    else str_to_uppercase (trim currency) in
  amount ← (if String.eqb cur "IDR"
    then if fleb amount_idr (of_Z 0) then Err "amount_idr required" else Ok amount_idr
    else if fleb amount_usd (of_Z 0) then Err "amount_usd required" else Ok amount_usd);
  Ok (cur, amount).

Definition normalize_name (name : string) : string :=
  String.concat "" (split_whitespace (str_to_lowercase (trim name))).
End Amount.

Section Withdraw.
Context `{!Chrono} `{!Order} `{!Numerics} `{!Casing} `{!Rivals}.
Notation M := (M Referrals).
Notation T := (T (DB := Referrals) (W := RefWrites)).

(** [UPDATE ai.billing_account SET ... WHERE id = $1] *)
Definition update_account (id : Z) (f : AccountRow -> result AccountRow) : T () :=
  tstmt (fun now d =>
    match d.(t_account) !! id with
    | None => Ok (tt, no_writes)
    | Some r => c ← f r.(cols); c ← checked_account c;
                Ok (tt, write_account id (set_cols now (fun _ => c) r))
    end).

(** What a payout takes from the commission, and adds to the wallet or to what is
    pending *)
Definition payout_idr (wallet : bool) (amount : f64) (c : AccountRow) : result AccountRow :=
  available ← num_sub 14 2 c.(AccountRow.commission_available_idr) amount;
  if wallet
  then
    balance ← num_add 16 2 c.(AccountRow.balance_idr) amount;
    Ok {| c with AccountRow.commission_available_idr := available; AccountRow.balance_idr := balance |}
  else
    pending ← num_add 14 2 c.(AccountRow.commission_pending_idr) amount;
    Ok {| c with AccountRow.commission_available_idr := available;
          AccountRow.commission_pending_idr := pending |}.
Definition payout_usd (wallet : bool) (amount : f64) (c : AccountRow) : result AccountRow :=
  available ← num_sub 12 4 c.(AccountRow.commission_available_usd) amount;
  if wallet
  then
    balance ← num_add 12 4 c.(AccountRow.balance_usd) amount;
    Ok {| c with AccountRow.commission_available_usd := available; AccountRow.balance_usd := balance |}
  else
    pending ← num_add 12 4 c.(AccountRow.commission_pending_usd) amount;
    Ok {| c with AccountRow.commission_available_usd := available;
          AccountRow.commission_pending_usd := pending |}.

(** The rows of the index [uq_commission_withdraw_one_pending] *)
Definition pending_live (owner_iid : Z) (d : Referrals) : bool :=
  existsb (fun e : Z * Row WithdrawRow => pending_of owner_iid e.2 && live e.2) (order d.(t_withdraw)).

Definition EPSILON : f64 := decimal 1 4.

(** The currency decides which amounts move: whatever is not [IDR] is in dollars. *)
Definition in_idr (cur : string) : bool := String.eqb cur "IDR".
Definition payout (cur : string) (wallet : bool) (amount : f64) : AccountRow -> result AccountRow :=
  if in_idr cur then payout_idr wallet amount else payout_usd wallet amount.
Definition available_of (cur : string) (c : AccountRow) : f64 :=
  if in_idr cur then float8_of_num 2 c.(AccountRow.commission_available_idr)
  else float8_of_num 4 c.(AccountRow.commission_available_usd).
Definition usd_of (cur : string) (amount : f64) : result num :=
  num_of_float8 12 4 (if in_idr cur then of_Z 0 else amount).
Definition idr_of (cur : string) (amount : f64) : result num :=
  num_of_float8 14 2 (if in_idr cur then amount else of_Z 0).
Definition withdraw_reference (id : Z) : string := "withdraw:" +:+ pretty id.
Definition withdraw_entry (owner_iid : Z) (cur : string) (wallet : bool) (reference_id : string)
    (usd idr : num) : LedgerRow :=
  {| LedgerRow.owner_iid := owner_iid;
     LedgerRow.entry_type := if wallet then "payout_wallet" else "payout_withdraw";
     LedgerRow.status := if wallet then "settled" else "available";
     LedgerRow.amount_usd := usd; LedgerRow.amount_idr := idr;
     LedgerRow.meta := json_object
       [("reference_id", Str reference_id); ("source_iid", json_int owner_iid);
        ("event_type", Str "withdraw"); ("currency", Str cur)] |}.
Definition withdraw_request (owner_iid : Z) (cur bank_id account_number account_name : string)
    (usd idr : num) : WithdrawRow :=
  {| WithdrawRow.owner_iid := owner_iid; WithdrawRow.amount_usd := usd;
     WithdrawRow.amount_idr := idr; WithdrawRow.currency := cur;
     WithdrawRow.payout_method := "bank_transfer"; WithdrawRow.bank_id := bank_id;
     WithdrawRow.account_number := account_number; WithdrawRow.account_name := account_name;
     WithdrawRow.transfer_proof_url := ""; WithdrawRow.status := "pending";
     WithdrawRow.decline_reason := ""; WithdrawRow.reviewed_by_iid := None;
     WithdrawRow.reviewed_ts := None |}.
(** The answer is computed from the balances before. *)
Definition withdraw_answer (cur : string) (wallet : bool) (amount : f64) (c : AccountRow)
    : ResCommissionWithdraw :=
  let available_usd := float8_of_num 4 c.(AccountRow.commission_available_usd) in
  let available_idr := float8_of_num 2 c.(AccountRow.commission_available_idr) in
  let balance_usd := float8_of_num 4 c.(AccountRow.balance_usd) in
  let balance_idr := float8_of_num 2 c.(AccountRow.balance_idr) in
  {| ResCommissionWithdraw.success := true;
     ResCommissionWithdraw.commission_available_usd :=
       if String.eqb cur "USD" then fmax (fsub available_usd amount) (of_Z 0) else available_usd;
     ResCommissionWithdraw.new_wallet_balance_usd :=
       if negb (in_idr cur) && wallet then fadd balance_usd amount else balance_usd;
     ResCommissionWithdraw.commission_available_idr :=
       if in_idr cur then fmax (fsub available_idr amount) (of_Z 0) else available_idr;
     ResCommissionWithdraw.new_wallet_balance_idr :=
       if in_idr cur && wallet then fadd balance_idr amount else balance_idr;
     ResCommissionWithdraw.currency := cur |}.

(** The transaction: the amount is moved, an entry of the ledger says so, and a
    bank transfer is requested. *)
Definition withdraw_txn (owner_iid : Z) (cur : string) (amount : f64) (wallet : bool)
    (bank_id account_number account_name : string) : T ResCommissionWithdraw :=
  row ← tstmt (fun _ d =>
    let row := account_of owner_iid d in
    Ok (row, match row with Some (id, r) => write_account id r | None => no_writes end));
  row ← tlift (ok_or row "billing account not found");
  let c := (row.2 : Row AccountRow).(cols) in
  (if fltb (fadd (available_of cur c) EPSILON) amount
   then tlift (Err "insufficient commission balance") else mret tt);;
  (if wallet then mret tt
   else
     pending ← tread (fun _ d => existsb (fun e => pending_of owner_iid e.2) (order d.(t_withdraw)));
     if (pending : bool) then tlift (Err "pending withdraw already exists") else mret tt);;
  ledger_id ← tcode next_id;
  request_id ← (if wallet then mret 0 else tcode next_id);
  let reference_id := withdraw_reference (if wallet then ledger_id else request_id) in
  tstmt (fun now d =>
    usd ← usd_of cur amount; idr ← idr_of cur amount;
    match d.(t_ledger) !! ledger_id with
    | Some _ => Err "duplicate key value violates unique constraint"
    | None => Ok (tt, write_ledger {[ ledger_id :=
        new_row now (withdraw_entry owner_iid cur wallet reference_id usd idr) ]})
    end);;
  (if wallet then mret tt
   else tstmt (fun now d =>
     usd ← usd_of cur amount; idr ← idr_of cur amount;
     match d.(t_withdraw) !! request_id with
     | Some _ => Err "duplicate key value violates unique constraint"
     | None =>
         if pending_live owner_iid d then Err "duplicate key value violates unique constraint"
         else Ok (tt, write_withdraw request_id
           (new_row now (withdraw_request owner_iid cur bank_id account_number account_name usd idr)))
     end));;
  update_account row.1 (payout cur wallet amount);;
  mret (withdraw_answer cur wallet amount c).

(** The details of a bank transfer, of which the name is the user's *)
Definition bank_details (owner_iid : Z) (bank_id account_number account_name : string) : M () :=
  if is_empty bank_id || is_empty account_number || is_empty account_name
  then throw "bank details required" else
  registered ← read (fun _ d => d.(t_user) !! owner_iid);
  let registered := match registered with Some r => (r : Row UserRow).(cols).(UserRow.name) | None => "" end in
  if is_empty (trim registered) then throw "registered name required"
  else if negb (String.eqb (normalize_name account_name) (normalize_name registered))
  then throw "account name must match registered name" else mret tt.
Definition commission_withdraw (owner_iid : Z) (req : ReqCommissionWithdraw) : M ResCommissionWithdraw :=
  if owner_iid <=? 0 then throw "unauthorized" else
  ca ← lift (withdraw_amount req.(ReqCommissionWithdraw.currency) req.(ReqCommissionWithdraw.amount_usd)
    req.(ReqCommissionWithdraw.amount_idr));
  let method := str_to_lowercase (trim req.(ReqCommissionWithdraw.payout_method)) in
  if negb (String.eqb method "wallet_credit") && negb (String.eqb method "bank_transfer")
  then throw "payout_method must be wallet_credit or bank_transfer" else
  let bank_id := trim req.(ReqCommissionWithdraw.bank_id) in
  let account_number := trim req.(ReqCommissionWithdraw.account_number) in
  let account_name := trim req.(ReqCommissionWithdraw.account_name) in
  (if String.eqb method "bank_transfer"
   then bank_details owner_iid bank_id account_number account_name else mret tt);;
  txn (withdraw_txn owner_iid ca.1 ca.2 (String.eqb method "wallet_credit") bank_id account_number
    account_name).

(** ** Review ([mod_billing/src/billing_finance.rs]) *)

Definition finance_roles (meta : Value) : list string := str_to_lowercase <$> meta_global_roles meta.
Definition finance_viewer_meta (viewer_iid : Z) : M Value :=
  if viewer_iid <=? 0 then throw "forbidden" else
  row ← read (fun _ d => t_get viewer_iid d.(t_user));
  mret match row with Some r => (r : Row UserRow).(cols).(UserRow.meta) | None => Object [] end.
Definition finance_review_access (viewer_iid : Z) : M () :=
  meta ← finance_viewer_meta viewer_iid;
  if default false (get "is_root" meta ≫= as_bool) then mret tt
  else if existsb (fun r => String.eqb r "finance" || String.eqb r "director") (finance_roles meta)
  then mret tt else throw "forbidden".

(** [GREATEST(x, 0)]: [NaN] is the greatest number. *)
Definition greatest_zero (x : f64) : f64 := if is_nan x then NaN else fmax x (of_Z 0).
(** [SET commission_available = commission_available + $2,
    commission_pending = GREATEST(commission_pending - $2, 0)], and without the
    first part *)
Definition release (back idr : bool) (amount : f64) (c : AccountRow) : result AccountRow :=
  if idr
  then
    available ← (if back then num_add 14 2 c.(AccountRow.commission_available_idr) amount
                 else Ok c.(AccountRow.commission_available_idr));
    pending ← num_of_float8 14 2 (greatest_zero
      (fsub (float8_of_num 2 c.(AccountRow.commission_pending_idr)) amount));
    Ok {| c with AccountRow.commission_available_idr := available;
          AccountRow.commission_pending_idr := pending |}
  else
    available ← (if back then num_add 12 4 c.(AccountRow.commission_available_usd) amount
                 else Ok c.(AccountRow.commission_available_usd));
    pending ← num_of_float8 12 4 (greatest_zero
      (fsub (float8_of_num 4 c.(AccountRow.commission_pending_usd)) amount));
    Ok {| c with AccountRow.commission_available_usd := available;
          AccountRow.commission_pending_usd := pending |}.

(** [UPDATE ai.billing_account SET ... WHERE owner_iid = $1], deleted ones too *)
Definition update_accounts (owner_iid : Z) (f : AccountRow -> result AccountRow) : T () :=
  tstmt (fun now d =>
    rows ← list.mapM (fun e : Z * Row AccountRow =>
        c ← f e.2.(cols); c ← checked_account c; Ok (e.1, set_cols now (fun _ => c) e.2))
      (filter (fun e => e.2.(cols).(AccountRow.owner_iid) = owner_iid) (order d.(t_account)));
    Ok (tt, write_accounts (list_to_map rows))).
(** The entry of a request that is not decided *)
Definition payout_entry (owner_iid request_id : Z) (r : Row LedgerRow) : bool :=
  let c := r.(cols) in
  (c.(LedgerRow.owner_iid) =? owner_iid) &&
  String.eqb c.(LedgerRow.entry_type) "payout_withdraw" &&
  bool_decide (reference_of c.(LedgerRow.meta) = Some (withdraw_reference request_id)) &&
  String.eqb c.(LedgerRow.status) "available".
Definition update_ledger (owner_iid request_id : Z) (status : string) : T () :=
  tstmt (fun now d => Ok (tt, write_ledger (rows_where (fun _ => payout_entry owner_iid request_id)
    (set_cols now (fun c => {| c with LedgerRow.status := status |})) d.(t_ledger)))).

(** The amounts of a request, in its currency *)
Definition request_idr (c : WithdrawRow) : bool := eq_ignore_ascii_case c.(WithdrawRow.currency) "IDR".
Definition request_amount (c : WithdrawRow) : f64 :=
  if request_idr c then float8_of_num 2 c.(WithdrawRow.amount_idr)
  else float8_of_num 4 c.(WithdrawRow.amount_usd).

Definition decline_txn (reviewer_iid request_id : Z) (reason : string) : T () :=
  row ← tstmt (fun now d =>
    match d.(t_withdraw) !! request_id with
    | Some r =>
        if String.eqb r.(cols).(WithdrawRow.status) "pending"
        then
          let r := set_cols now (fun c =>
            {| c with WithdrawRow.status := "declined"; WithdrawRow.reviewed_by_iid := Some reviewer_iid;
               WithdrawRow.reviewed_ts := Some now; WithdrawRow.decline_reason := trim reason |}) r in
          Ok (Some r.(cols), write_withdraw request_id r)
        else Ok (None, no_writes)
    | None => Ok (None, no_writes)
    end);
  c ← tlift (ok_or row "request not found");
  update_accounts c.(WithdrawRow.owner_iid) (release true (request_idr c) (request_amount c));;
  update_ledger c.(WithdrawRow.owner_iid) request_id "cancelled".
Definition approve_txn (reviewer_iid request_id : Z) (proof : string) : T () :=
  row ← tstmt (fun _ d =>
    let row := d.(t_withdraw) !! request_id in
    Ok (row, match row with Some r => write_withdraw request_id r | None => no_writes end));
  r ← tlift (ok_or row "request not found");
  let c := (r : Row WithdrawRow).(cols) in
  (if negb (String.eqb c.(WithdrawRow.status) "pending") then tlift (Err "request is not pending")
   else mret tt);;
  update_accounts c.(WithdrawRow.owner_iid) (release false (request_idr c) (request_amount c));;
  update_ledger c.(WithdrawRow.owner_iid) request_id "settled";;
  tstmt (fun now d =>
    match d.(t_withdraw) !! request_id with
    | Some r => Ok (tt, write_withdraw request_id (set_cols now (fun c =>
        {| c with WithdrawRow.status := "approved"; WithdrawRow.transfer_proof_url := proof;
           WithdrawRow.reviewed_by_iid := Some reviewer_iid; WithdrawRow.reviewed_ts := Some now |}) r))
    | None => Ok (tt, no_writes)
    end).
Definition commission_withdraw_review (reviewer_iid : Z) (req : ReqCommissionWithdrawReview) : M () :=
  finance_review_access reviewer_iid;;
  let action := str_to_lowercase (trim req.(ReqCommissionWithdrawReview.action)) in
  let request_id := req.(ReqCommissionWithdrawReview.request_id) in
  if request_id <=? 0 then throw "request_id required"
  else if String.eqb action "decline"
  then txn (decline_txn reviewer_iid request_id req.(ReqCommissionWithdrawReview.reason))
  else if negb (String.eqb action "approve") then throw "invalid action"
  else
    let proof := trim req.(ReqCommissionWithdrawReview.transfer_proof_url) in
    if is_empty proof then throw "transfer proof required"
    else txn (approve_txn reviewer_iid request_id proof).

(** ** The ledger ([referral_ledger.rs]) *)

Definition ledger_entry_from_row (id : Z) (r : Row LedgerRow) : CommissionLedgerEntry :=
  let c := r.(cols) in
  let meta := c.(LedgerRow.meta) in
  let amount_idr := float8_of_num 2 c.(LedgerRow.amount_idr) in
  {| CommissionLedgerEntry.id := id;
     CommissionLedgerEntry.entry_type := c.(LedgerRow.entry_type);
     CommissionLedgerEntry.amount_usd := float8_of_num 4 c.(LedgerRow.amount_usd);
     CommissionLedgerEntry.amount_idr := amount_idr;
     CommissionLedgerEntry.currency := match get "currency" meta ≫= as_str with
       | Some s => s | None => if fltb (of_Z 0) amount_idr then "IDR" else "USD" end;
     CommissionLedgerEntry.status := c.(LedgerRow.status);
     CommissionLedgerEntry.source_iid := default 0 (get "source_iid" meta ≫= as_i64);
     CommissionLedgerEntry.event_type := default "" (get "event_type" meta ≫= as_str);
     CommissionLedgerEntry.reference_id := default "" (get "reference_id" meta ≫= as_str);
     CommissionLedgerEntry.created_ts_ms := timestamp_millis r.(created_ts) |}.
Definition referral_ledger_list (owner_iid limit : Z) : M (list CommissionLedgerEntry) :=
  let limit := if (0 <? limit) && (limit <=? 200) then limit else 50 in
  rows ← unwrap_or [] (read (fun _ d => take (Z.to_nat limit) (merge_sort by_created_desc
    (filter (fun e => e.2.(cols).(LedgerRow.owner_iid) = owner_iid) (order d.(t_ledger))))));
  mret ((fun e => ledger_entry_from_row e.1 e.2) <$> rows).
End Withdraw.
