(* ===== verification/ReferralClaim.v ===== *)
(** * Claiming a referral ([referral_lookup] and [referral_claim] of
      [servers/crates/mod_identity/src/auth_password.rs])

    A user without an upline names a code after signing up; the issuer becomes
    the upline and both are recorded with a bonus for the user. *)
From S2P Require Import Prelude Strs Ts World Json Db Shared F64 ReferralData Referral.

(** The sessions, which other programs keep: [auth_session_resolve] of a token *)
Class Sessions := auth_session_resolve : string -> nat -> result (option Z).

Definition referral_code_norm (code : string) : string := normalize_code code.
Definition referral_code_is_special (code : string) : bool :=
  String.eqb (referral_code_norm code) "CHITOKERENSEKALI9999".

Section Claim.
Context `{!Chrono} `{!Order} `{!Numerics} `{!Sessions} `{!Rivals}.
Notation M := (M Referrals).

Definition bad (msg : string) : StatusCode * Value := (BAD_REQUEST, json_object [("error", Str msg)]).
Definition unauthorized (msg : string) : StatusCode * Value :=
  (UNAUTHORIZED, json_object [("error", Str msg)]).

Definition referral_lookup_doc (valid : bool) (code issuer_name issuer_pic : string) (allow_short_id : bool)
    (ty : string) : Value :=
  json_object
    [("valid", Bool valid); ("code", Str code); ("issuer_name", Str issuer_name);
     ("issuer_pic", Str issuer_pic); ("allow_short_id", Bool allow_short_id); ("type", Str ty)].
Definition referral_lookup (code : option string) : M (StatusCode * Value) :=
  let norm := referral_code_norm (trim (default "" code)) in
  if is_empty norm then mret (OK, referral_lookup_doc false "" "" "" false "")
  else if referral_code_is_special norm
  then mret (OK, referral_lookup_doc true norm "Alien AI" "" true "referral")
  else
    found ← attempt (referral_signup_code_lookup norm);
    mret match found with
    | Ok (Some info) => (OK, referral_lookup_doc true info.(ReferralSignupCode.code)
        info.(ReferralSignupCode.issuer_name) info.(ReferralSignupCode.issuer_pic)
        info.(ReferralSignupCode.allow_short_id) "referral")
    | Ok None => (OK, referral_lookup_doc false norm "" "" false "")
    | Err e => (INTERNAL_SERVER_ERROR, json_object [("error", Str e)])
    end.

(** *** The three writes of a claim *)

(** [meta || '{"referral_prompt_dismissed": true}'::jsonb]; of anything but an
    object it makes an array *)
Definition dismiss_prompt (meta : Value) : Value :=
  match meta with
  | Object m => Object (map_insert "referral_prompt_dismissed" (Bool true) m)
  | Array l => Array (l ++ [json_object [("referral_prompt_dismissed", Bool true)]])
  | v => Array [v; json_object [("referral_prompt_dismissed", Bool true)]]
  end.
Definition set_upline (parent_iid iid : Z) : M () := stmt (fun now d =>
  match d.(t_user) !! iid with
  | Some r => Ok (tt, {| d with t_user := <[iid := set_cols now (fun c =>
      {| c with UserRow.referred_by_iid := Some parent_iid;
         UserRow.meta := dismiss_prompt c.(UserRow.meta) |}) r]> d.(t_user) |})
  | None => Ok (tt, d)
  end).
Definition first_share (parent_iid iid : Z) : M () := stmt (fun now d =>
  match d.(t_share) !! (parent_iid, iid) with
  | Some _ => Ok (tt, d)
  | None => Ok (tt, {| d with t_share := <[(parent_iid, iid) := new_row now (Dec 2500)]> d.(t_share) |})
  end).

Definition BONUS_IDR : f64 := of_Z 10000.
Definition bonus_usd : f64 := fdiv BONUS_IDR (of_Z 17630).
(** The columns the statement leaves out have their defaults.  The values are
    cast to the columns, and the columns are added. *)
Definition num_plus (p s : Z) (x y : num) : result num :=
  match x, y with
  | Dec a, Dec b => if Z.abs (a + b) <? 10 ^ p then Ok (Dec (a + b)) else Err "numeric field overflow"
  | _, _ => Ok NumNaN
  end.
Definition credit_bonus (id iid : Z) : M () := stmt (fun now d =>
  usd ← num_of_float8 12 4 bonus_usd; idr ← num_of_float8 16 2 BONUS_IDR;
  let held := filter (fun e : Z * Row AccountRow =>
    e.2.(cols).(AccountRow.owner_iid) = iid /\ live e.2 = true) (order d.(t_account)) in
  match held with
  | (k, r) :: _ =>
      let c := r.(cols) in
      usd ← num_plus 12 4 c.(AccountRow.balance_usd) usd;
      idr ← num_plus 16 2 c.(AccountRow.balance_idr) idr;
      c ← checked_account {| c with AccountRow.balance_usd := usd; AccountRow.balance_idr := idr |};
      Ok (tt, {| d with t_account := <[k := set_cols now (fun _ => c) r]> d.(t_account) |})
  | [] =>
      c ← checked_account
        {| AccountRow.owner_iid := iid; AccountRow.balance_usd := usd; AccountRow.balance_idr := idr;
           AccountRow.plan_tier := "free"; AccountRow.billing_currency := "IDR";
           AccountRow.fx_micro_per_usd := 17630000000;
           AccountRow.commission_available_usd := Dec 0; AccountRow.commission_earned_usd := Dec 0;
           AccountRow.commission_available_idr := Dec 0; AccountRow.commission_earned_idr := Dec 0;
           AccountRow.commission_pending_usd := Dec 0; AccountRow.commission_pending_idr := Dec 0 |};
      t ← t_insert id (new_row now c) d.(t_account);
      Ok (tt, {| d with t_account := t |})
  end).

(** [token] is what [auth_token_extract] finds in the headers. *)
Definition referral_claim (token : option string) (code : string) : M (StatusCode * Value) :=
  match token with
  | None => mret (unauthorized "Missing session token.")
  | Some token =>
      session ← ask (auth_session_resolve token);
      match session with
      | Ok (Some iid) =>
          existing_ref ← unwrap_or None (read (fun _ d =>
            (fun r : Row UserRow => r.(cols).(UserRow.referred_by_iid)) <$> t_get iid d.(t_user)));
          if match existing_ref with Some (Some ref_id) => 0 <? ref_id | _ => false end
          then mret (bad "Account already has a referral upline.") else
          let code_norm := referral_code_norm code in
          if is_empty code_norm then mret (bad "Referral code is required.") else
          let special := referral_code_is_special code_norm in
          found ← (if (special : bool) then mret (Ok (Some (99000, "Alien AI")))
            else
              info ← attempt (referral_signup_code_lookup code_norm);
              mret (match info with
                | Ok o => Ok ((fun i : ReferralSignupCode =>
                    (i.(ReferralSignupCode.issued_by_iid), i.(ReferralSignupCode.issuer_name))) <$> o)
                | Err e => Err e
                end));
          match found with
          | Ok (Some (parent_iid, issuer_name)) =>
              if parent_iid =? iid then mret (bad "Cannot refer yourself.") else
              redeemed ← (if (special : bool) then mret true
                else r ← attempt (referral_signup_code_redeem code_norm);
                     mret match r with Ok _ => true | Err _ => false end);
              if negb redeemed then mret (bad INVALID_CODE) else
              ignore (set_upline parent_iid iid);;
              ignore (first_share parent_iid iid);;
              id ← next_id;
              ignore (credit_bonus id iid);;
              mret (OK, json_object
                [("ok", Bool true); ("bonus_idr", json_f64 BONUS_IDR); ("issuer_name", Str issuer_name)])
          | _ => mret (bad INVALID_CODE)
          end
      | _ => mret (unauthorized "Invalid or expired session.")
      end
  end.
End Claim.
