(* ===== verification/CommissionFacts.v ===== *)
(** * Lemmas on the commission

    The size of the pool, the scaling of the earnings, and the climb up the
    referrals as a relation. *)
From S2P Require Import Prelude Strs Ts World Json Db Shared F64 ReferralData Referral ReferralTree.
From S2P Require Import Commission.

(** ** The pool *)

(** The rate is the double just below 0.35. *)
Lemma rate_value : MARKETING_POOL_RATE = Fin false 6305039478318694 (-54).
Proof. reflexivity. Qed.

Lemma pool_of_bounds a : 0 < a < 2 ^ 49 -> 35 * a - 100 <= 100 * pool_of a <= 35 * a.
Proof.
  intros Ha. unfold pool_of. rewrite rate_value. set (R := 6305039478318694).
  assert (0 < 2 ^ 1074) as HU by (apply Z.pow_pos_nonneg; lia).
  assert (measures (Fin false R (-54)) (R * 2 ^ 1020)) as Hr by (by exists false, R, (-54)).
  assert (2 ^ 1074 = 2 ^ 54 * 2 ^ 1020) as EU by (rewrite <- Z.pow_add_r by lia; done).
  assert (0 < 2 ^ 1020) as HV by (apply Z.pow_pos_nonneg; lia).
  set (V := 2 ^ 1020) in *. set (U := 2 ^ 1074) in *.
  destruct (fmul_between (of_Z a) (Fin false R (-54)) (a * U) (R * V) 5) as (v & Hv & Hv0 & Hc).
  { apply of_Z_denotes. lia. }
  { exact Hr. }
  { nia. }
  { unfold R. lia. }
  { lia. }
  { rewrite EU. change (2 ^ (53 - 5)) with (2 ^ 48). unfold R.
    assert (a * 6305039478318694 < 2 ^ 48 * 2 ^ 54) by lia. nia. }
  change (2 ^ (1074 - 5)) with (2 ^ 1069) in Hc.
  assert (U = 2 ^ 5 * 2 ^ 1069) as EU5 by (unfold U; rewrite <- Z.pow_add_r by lia; done).
  assert (0 < 2 ^ 1069) by (apply Z.pow_pos_nonneg; lia).
  assert (forall c, (a * R * 2 ^ 5 <= c * 2 ^ 54 -> v <= c * 2 ^ 1069) /\
    (c * 2 ^ 54 <= a * R * 2 ^ 5 -> c * 2 ^ 1069 <= v)) as Hc'.
  { intros c. destruct (Hc c) as [H1 H2]. rewrite EU in H1, H2. split; intros; [apply H1|apply H2]; nia. }
  clear Hc.
  set (q := 35 * a / 100). assert (100 * q <= 35 * a < 100 * q + 100) as Hq
    by (unfold q; pose proof (Z.div_mod (35 * a) 100); pose proof (Z.mod_pos_bound (35 * a) 100); lia).
  assert (35 * a <= 100 * q + 95) as Hq'.
  { pose proof (Z.div_mod (35 * a) 5 ltac:(lia)).
    assert (35 * a = 5 * (7 * a)) by lia. lia. }
  (* below the next integer, and above the one before *)
  assert (v <= (q * 32 + 31) * 2 ^ 1069) as Hup by (apply Hc'; unfold R; lia).
  assert ((q - 1) * 32 * 2 ^ 1069 <= v) as Hlo by (apply Hc'; unfold R; lia).
  assert (0 <= q < 2 ^ 48) as Hq0 by lia.
  rewrite (floor_as_i64 _ _ Hv) by (fold U; split; [lia|]; rewrite EU5; nia). fold U.
  assert (v / U < q + 1) by (apply Z.div_lt_upper_bound; [lia|]; rewrite EU5; nia).
  assert (forall c, c * 32 * 2 ^ 1069 <= v -> c <= v / U) as Hfl.
  { intros c Hle. apply Z.div_le_lower_bound; [lia|]. rewrite EU5. change (2 ^ 5) with 32. lia. }
  apply Hfl in Hlo. destruct (Z.eq_dec (35 * a) (100 * q)); [lia|].
  assert (q <= v / U); [|lia]. apply Hfl, Hc'. unfold R. lia.
Qed.

(** ** Earnings *)

Lemma quot_nonneg a b : 0 <= a -> 0 < b -> 0 <= Z.quot a b /\ Z.quot a b * b <= a < (Z.quot a b + 1) * b.
Proof.
  intros Ha Hb. rewrite Z.quot_div_nonneg by lia. pose proof (Z.div_mod a b ltac:(lia)).
  pose proof (Z.mod_pos_bound a b Hb). pose proof (Z.div_pos a b Ha Hb). split; [done|]. nia.
Qed.
Lemma earn_of_bounds a p : 0 <= a < 2 ^ 57 -> 0 <= p <= 35 ->
  0 <= earn_of a p /\ 100 * earn_of a p <= a * p < 100 * earn_of a p + 100.
Proof.
  intros Ha Hp. unfold earn_of, i64_div, i64_mul. assert (0 <= a * p < 2 ^ 63) by nia.
  rewrite (to_i64_id (a * p)) by (unfold in_i64; lia).
  destruct (quot_nonneg (a * p) 100) as [H1 H2]; [lia..|]. rewrite to_i64_id by (unfold in_i64; lia). lia.
Qed.
Lemma scale_of_bounds pool total e : 0 <= e -> 0 <= pool -> 0 < total -> e * pool < 2 ^ 63 ->
  0 <= scale_of pool total e /\ scale_of pool total e * total <= e * pool.
Proof.
  intros He Hp Ht Hlt. unfold scale_of, i64_div, i64_mul. assert (0 <= e * pool) by nia.
  rewrite (to_i64_id (e * pool)) by (unfold in_i64; lia).
  destruct (quot_nonneg (e * pool) total) as [H1 H2]; [lia..|].
  rewrite to_i64_id by (unfold in_i64; nia). lia.
Qed.

(** The sum of scaled earnings stays within the pool. *)
Lemma scaled_sum pool total (l : list Z) : 0 <= pool -> 0 < total ->
  Forall (fun e => 0 <= e /\ e * pool < 2 ^ 63) l ->
  0 <= Zsum (scale_of pool total <$> l) /\ Zsum (scale_of pool total <$> l) * total <= Zsum l * pool.
Proof.
  intros Hp Ht. induction 1 as [|e l [He Hlt] _ IH]; [cbn; lia|]. cbn [fmap list_fmap Zsum foldr] in *.
  fold (Zsum (scale_of pool total <$> l)) in *. fold (Zsum l) in *.
  destruct (scale_of_bounds pool total e He Hp Ht Hlt). nia.
Qed.
Lemma Zsum_bound b (l : list Z) :
  0 <= b -> Forall (fun e => 0 <= e <= b) l -> 0 <= Zsum l <= Z.of_nat (length l) * b.
Proof. intros Hb. induction 1 as [|e l He _ IH]; cbn [Zsum foldr length] in *; [lia|]. fold (Zsum l) in *. lia. Qed.

(** ** The climb *)

Section Climb.
Context `{!Chrono} `{!Order} `{!Numerics}.

(** The users from [u] upwards, to one without an upline or whose upline is gone *)
Inductive Climb (d : Referrals) : Z -> list Z -> Prop :=
| climb_gone u : live_user d u = None -> Climb d u []
| climb_top u r : live_user d u = Some r -> upline_of u r.(cols) = None -> Climb d u [u]
| climb_up u r p l : live_user d u = Some r -> upline_of u r.(cols) = Some p -> Climb d p l ->
    Climb d u (u :: l).
(** [v] is above [u]. *)
Inductive Above (d : Referrals) : Z -> Z -> Prop :=
| above_next u r p : live_user d u = Some r -> upline_of u r.(cols) = Some p -> Above d u p
| above_step u r p v : live_user d u = Some r -> upline_of u r.(cols) = Some p -> Above d p v -> Above d u v.

Definition user_cols (d : Referrals) (u : Z) : option UserRow :=
  (fun r : Row UserRow => r.(cols)) <$> live_user d u.
(** What a user is given by the upline, and the share of all if there is none *)
Definition incoming (d : Referrals) (u : Z) : Z :=
  match user_cols d u with
  | Some c => match upline_of u c with Some p => share_of d p u | None => SHARE_MAX_PERCENT end
  | None => 0
  end.
(** The rows of the users above one who is given [below]: each keeps what is given
    and not given on. *)
Fixpoint climb_rows (d : Referrals) (below : Z) (us : list Z) : list EarnRow :=
  match us with
  | [] => []
  | u :: us =>
      match user_cols d u with
      | Some c => earn_row u c (Z.max (i32_sub (incoming d u) below) 0) :: climb_rows d (incoming d u) us
      | None => []
      end
  end.
Definition chain_rows (d : Referrals) (us : list Z) : list EarnRow :=
  match us with
  | [] => []
  | u :: us =>
      match user_cols d u with
      | Some c => earn_row u c (incoming d u) :: climb_rows d (incoming d u) us
      | None => []
      end
  end.

Lemma climb_unique d u l l' : Climb d u l -> Climb d u l' -> l = l'.
Proof.
  intros Hl. revert l'. induction Hl as [u Hn|u r Hr Hp|u r p l Hr Hp _ IH]; inversion 1; simplify_eq; try done.
  f_equal. by apply IH.
Qed.
Lemma climb_suffix d u l : Climb d u l -> forall v, v ∈ l -> exists k, (length k <= length l)%nat /\ Climb d v k.
Proof.
  induction 1 as [u Hn|u r Hr Hp|u r p l Hr Hp Hl IH]; intros v Hv.
  - by apply elem_of_nil in Hv.
  - apply list_elem_of_singleton in Hv as ->. exists [u]. split; [done|]. by eapply climb_top.
  - apply elem_of_cons in Hv as [->|Hv]; [exists (u :: l); split; [done|by eapply climb_up]|].
    apply IH in Hv as (k & Hk & Hc). exists k. cbn. split; [lia|done].
Qed.
Lemma climb_length d u l v k : Climb d u l -> Climb d v k -> v ∈ l -> (length k <= length l)%nat.
Proof.
  intros Hl Hk Hv. destruct (climb_suffix _ _ _ Hl _ Hv) as (k' & Hlen & Hk').
  by rewrite (climb_unique _ _ _ _ Hk Hk').
Qed.
Lemma climb_nodup d u l : Climb d u l -> NoDup l.
Proof.
  induction 1 as [u Hn|u r Hr Hp|u r p l Hr Hp Hl IH]; [constructor|apply NoDup_singleton|].
  constructor; [|done]. intros Hin.
  pose proof (climb_length _ _ _ u (u :: l) Hl (climb_up _ _ _ _ _ Hr Hp Hl) Hin). cbn in *. lia.
Qed.
Lemma climb_users d u l : Climb d u l -> forall v, v ∈ l -> is_Some (d.(t_user) !! v).
Proof.
  assert (forall v r, live_user d v = Some r -> is_Some (d.(t_user) !! v)) as Hs.
  { intros v r E. unfold live_user in E. destruct (d.(t_user) !! v); [eauto|done]. }
  induction 1 as [u Hn|u r Hr Hp|u r p l Hr Hp Hl IH]; intros v Hv.
  - by apply elem_of_nil in Hv.
  - apply list_elem_of_singleton in Hv as ->. eauto.
  - apply elem_of_cons in Hv as [->|Hv]; eauto.
Qed.
Lemma climb_size d u l : Climb d u l -> (length l <= size d.(t_user))%nat.
Proof.
  intros Hc. rewrite <- (size_dom (D := gset Z)), <- (size_list_to_set (C := gset Z) l) by by eapply climb_nodup.
  apply subseteq_size. intros v Hv%elem_of_list_to_set. apply elem_of_dom. by eapply climb_users.
Qed.

(** The climb goes on for ever when someone is above themself. *)
Definition loops (d : Referrals) (u : Z) : Prop := exists v, (v = u \/ Above d u v) /\ Above d v v.

Lemma climb_above d u l v : Climb d u l -> Above d u v -> exists k, Climb d v k /\ (length k < length l)%nat.
Proof.
  intros Hc Ha. revert l Hc. induction Ha as [u r p Hr Hp|u r p v Hr Hp Ha IH]; intros l Hc.
  - inversion Hc; simplify_eq. eexists. split; [done|cbn; lia].
  - inversion Hc; simplify_eq. destruct (IH _ ltac:(done)) as (k & Hk & Hlt). exists k. cbn. split; [done|lia].
Qed.
Lemma climb_no_loop d u l : Climb d u l -> ~ loops d u.
Proof.
  intros Hc (v & Hv & Hvv). assert (exists k, Climb d v k) as [k Hk].
  { destruct Hv as [->|Hv]; [eauto|]. destruct (climb_above _ _ _ _ Hc Hv) as (k & Hk & _). eauto. }
  destruct (climb_above _ _ _ _ Hk Hvv) as (k' & Hk' & Hlt). rewrite (climb_unique _ _ _ _ Hk Hk') in Hlt. lia.
Qed.

(** The first users of a climb *)
Fixpoint ascent (d : Referrals) (u : Z) (l : list Z) : Prop :=
  match l with
  | [] => True
  | x :: l => x = u /\ exists r p, live_user d u = Some r /\ upline_of u r.(cols) = Some p /\ ascent d p l
  end.
Lemma climb_or_ascent d n u : (exists l, Climb d u l) \/ exists l, length l = n /\ ascent d u l.
Proof.
  revert u. induction n as [|n IH]; intros u; [right; by exists []|].
  destruct (live_user d u) as [r|] eqn:Er; [|left; eexists; by apply climb_gone].
  destruct (upline_of u r.(cols)) as [p|] eqn:Ep; [|left; eexists; by eapply climb_top].
  destruct (IH p) as [[l Hl]|(l & Hn & Hl)]; [left; eexists; by eapply climb_up|].
  right. exists (u :: l). cbn. split; [by rewrite Hn|]. eauto 10.
Qed.
Lemma ascent_above d u l v : ascent d u l -> v ∈ l -> v = u \/ Above d u v.
Proof.
  revert u. induction l as [|x l IH]; intros u Ha Hv; [by apply elem_of_nil in Hv|].
  destruct Ha as (-> & r & p & Hr & Hp & Ha). apply elem_of_cons in Hv as [->|Hv]; [by left|right].
  destruct (IH _ Ha Hv) as [->|Hpv]; [by eapply above_next|by eapply above_step].
Qed.
Lemma ascent_users d u l : ascent d u l -> forall v, v ∈ l -> is_Some (d.(t_user) !! v).
Proof.
  revert u. induction l as [|x l IH]; intros u Ha v Hv; [by apply elem_of_nil in Hv|].
  destruct Ha as (-> & r & p & Hr & Hp & Ha). apply elem_of_cons in Hv as [->|Hv]; [|by eapply IH].
  unfold live_user in Hr. destruct (d.(t_user) !! u); [eauto|done].
Qed.
Lemma ascent_loop d u l : ascent d u l -> ~ NoDup l -> loops d u.
Proof.
  revert u. induction l as [|x l IH]; intros u Ha Hd; [by destruct Hd; constructor|].
  destruct Ha as (-> & r & p & Hr & Hp & Ha). destruct (decide (u ∈ l)) as [Hin|Hni].
  - exists u. split; [by left|]. destruct (ascent_above _ _ _ _ Ha Hin) as [<-|Hpu];
      [by eapply above_next|by eapply above_step].
  - destruct (IH p Ha) as (v & Hv & Hvv).
    { intros Hn. apply Hd. by constructor. }
    exists v. split; [|done]. right. destruct Hv as [->|Hv]; [by eapply above_next|by eapply above_step].
Qed.
Lemma climb_or_loop d u : (exists l, Climb d u l) \/ loops d u.
Proof.
  destruct (climb_or_ascent d (S (size d.(t_user))) u) as [Hc|(l & Hn & Ha)]; [by left|right].
  apply (ascent_loop _ _ _ Ha). intros Hd.
  assert (size (list_to_set l : gset Z) <= size (dom d.(t_user) : gset Z))%nat as Hs.
  { apply subseteq_size. intros v Hv%elem_of_list_to_set. apply elem_of_dom. by eapply ascent_users. }
  rewrite size_list_to_set, size_dom in Hs by done. lia.
Qed.

(** ** The loop climbs *)

(** Nobody changes an upline or a share. *)
Definition calm (d d' : Referrals) : Prop := d'.(t_user) = d.(t_user) /\ d'.(t_share) = d.(t_share).
#[export] Instance calm_preorder : PreOrder calm.
Proof. split; unfold calm; [done|]. intros x y z [] []. split; congruence. Qed.

Section Calm.
Context `{!Rivals} (Hcalm : forall ws n d, calm d (rivals ws n d) /\ locked_out ws d (rivals ws n d)).
Context (d0 : Referrals).

(** What the transaction sees has the users and shares of [d0]. *)
Definition sees_net (ws : RefWrites) (d : Referrals) : Prop := calm d0 (view ws d).

Lemma sees_net_stable : stable calm sees_net.
Proof. intros ws d d' [Hu Hs] [Eu Es] _. split; cbn in *; congruence. Qed.
Lemma within_tread {A} (f : DateTime -> Referrals -> A) (P : RefWrites -> Referrals -> Prop)
    (Q : A -> RefWrites -> Referrals -> Prop) :
  stable calm P -> (forall now ws d, P ws d -> Q (f now (view ws d)) ws d) -> within calm P (tread f) Q.
Proof.
  intros Hst HQ. apply (within_stmt calm Hcalm); [done|]. intros now ws d a new HP E.
  assert (new = no_writes) as -> by congruence. rewrite merge_no_writes.
  assert (a = f now (view ws d)) as -> by congruence. auto.
Qed.
(** A query of the users and shares *)
Lemma within_net {A} (f : Referrals -> A) (Q : A -> Prop) :
  (forall d, calm d0 d -> f d = f d0) -> Q (f d0) ->
  within calm sees_net (tread (fun _ => f)) (fun a ws d => Q a /\ sees_net ws d).
Proof.
  intros Hf HQ. apply within_tread; [apply sees_net_stable|]. intros _ ws d Hd. split; [|done].
  by rewrite (Hf _ Hd).
Qed.
Lemma live_user_net u d : calm d0 d -> live_user d u = live_user d0 u.
Proof. intros [E _]. unfold live_user. by rewrite E. Qed.
Lemma share_of_net p c d : calm d0 d -> share_of d p c = share_of d0 p c.
Proof. intros [_ E]. unfold share_of. by rewrite E. Qed.
Lemma within_live_user u : within calm sees_net (tread (fun _ d => live_user d u))
  (fun a ws d => a = live_user d0 u /\ sees_net ws d).
Proof. apply (within_net (fun d => live_user d u) (fun a => a = live_user d0 u)); [apply live_user_net|done]. Qed.
Lemma within_share p c : within calm sees_net (share_get p c)
  (fun a ws d => a = share_of d0 p c /\ sees_net ws d).
Proof. apply (within_net (fun d => share_of d p c) (fun a => a = share_of d0 p c)); [apply share_of_net|done]. Qed.

(** What the loop answers: the rows of the climb, unless it has more users than
    there is fuel. *)
Definition climbed (fuel : nat) (u : Z) (rows : list Z -> list EarnRow) (a : option (list EarnRow)) : Prop :=
  match a with
  | Some l => exists us, Climb d0 u us /\ l = rows us
  | None => forall us, Climb d0 u us -> (fuel <= length us)%nat
  end.

Lemma within_answer {A} (a : A) (Q : A -> Prop) : Q a ->
  within calm sees_net (mret (M := Txn.T) a) (fun a ws d => Q a /\ sees_net ws d).
Proof. intros HQ. apply within_ret; [apply _|]. by intros ws d Hs. Qed.

Lemma earn_loop_climbs fuel uid parent_uid child u rows :
  0 < u -> within calm sees_net
    (earn_loop fuel uid parent_uid (share_of d0 parent_uid uid) child u rows)
    (fun a ws d => climbed fuel u (fun us => rows ++ climb_rows d0 (share_of d0 u child) us) a /\ sees_net ws d).
Proof.
  revert child u rows. induction fuel as [|fuel IH]; intros child u rows Hu; cbn [earn_loop];
    (rewrite (proj2 (Z.ltb_lt _ _)) by done); cbn [negb].
  { apply within_answer. intros us _. lia. }
  eapply within_bind; [apply _|apply within_live_user|]. intros parent. apply within_pure. intros ->.
  destruct (live_user d0 u) as [r|] eqn:Er.
  2: { apply within_answer. exists []. split; [by apply climb_gone|]. cbn. by rewrite app_nil_r. }
  set (c := r.(cols)).
  eapply within_bind with (Q := fun a ws d => a = share_of d0 u child /\ sees_net ws d); [apply _| |].
  { destruct (Z.eqb_spec u parent_uid) as [->|]; [|apply within_share].
    destruct (Z.eqb_spec child uid) as [->|]; [|apply within_share]. by apply within_answer. }
  intros child_share. apply within_pure. intros ->.
  assert (user_cols d0 u = Some c) as Ec by (unfold user_cols; by rewrite Er).
  eapply within_bind with (Q := fun a ws d => a = incoming d0 u /\ sees_net ws d); [apply _| |].
  { unfold incoming. rewrite Ec. destruct (upline_of u c) as [p|]; [apply within_share|by apply within_answer]. }
  intros given. apply within_pure. intros ->.
  destruct (upline_of u c) as [p|] eqn:Ep.
  2: { apply within_answer. exists [u]. split; [by eapply climb_top|]. cbn [climb_rows]. by rewrite Ec. }
  assert (0 < p) as Hp.
  { unfold upline_of in Ep. destruct (UserRow.referred_by_iid c) as [q|]; [|done].
    destruct (Z.ltb_spec 0 q); [|done]. by destruct (negb _); [injection Ep as <-|]. }
  eapply within_conseq; [by apply IH|done|]. intros a ws d [Ha Hs]. split; [|done].
  destruct a as [l|].
  - destruct Ha as (us & Hus & ->). exists (u :: us). split; [by eapply climb_up|].
    cbn [climb_rows]. rewrite Ec, <- app_assoc. unfold incoming. by rewrite Ec, Ep.
  - intros us Hus. subst c. inversion Hus; simplify_eq. cbn. apply le_n_S. by apply Ha.
Qed.

Lemma earn_chain_climbs fuel u : within calm sees_net (earn_chain fuel u)
  (fun a ws d => match a with
     | Some l => exists us, Climb d0 u us /\ l = chain_rows d0 us
     | None => forall us, Climb d0 u us -> (fuel < length us)%nat
     end /\ sees_net ws d).
Proof.
  unfold earn_chain. eapply within_bind; [apply _|apply within_live_user|]. intros seller.
  apply within_pure. intros ->. destruct (live_user d0 u) as [r|] eqn:Er.
  2: { apply within_answer. exists []. split; [by apply climb_gone|done]. }
  assert (user_cols d0 u = Some r.(cols)) as Ec by (unfold user_cols; by rewrite Er).
  destruct (upline_of u r.(cols)) as [p|] eqn:Ep.
  2: { apply within_answer. exists [u]. split; [by eapply climb_top|]. cbn. unfold incoming. by rewrite Ec, Ep. }
  assert (0 < p) as Hp.
  { unfold upline_of in Ep. destruct (UserRow.referred_by_iid _) as [q|]; [|done].
    destruct (Z.ltb_spec 0 q); [|done]. by destruct (negb _); [injection Ep as <-|]. }
  eapply within_bind; [apply _|apply within_share|]. intros edge. apply within_pure. intros ->.
  eapply within_conseq; [by apply earn_loop_climbs|done|]. intros a ws d [Ha Hs]. split; [|done].
  destruct a as [l|].
  - destruct Ha as (us & Hus & ->). exists (u :: us). split; [by eapply climb_up|].
    cbn [chain_rows]. rewrite Ec. unfold incoming. by rewrite Ec, Ep.
  - intros us Hus. inversion Hus; simplify_eq. cbn. apply le_n_S. by apply Ha.
Qed.
End Calm.

(** Databases with the same users and shares *)
Lemma climb_net d d' u l : calm d d' -> Climb d u l -> Climb d' u l.
Proof.
  intros Hd. induction 1 as [u Hn|u r Hr Hp|u r p l Hr Hp Hl IH]; rewrite <- (live_user_net d u d' Hd) in *.
  - by apply climb_gone.
  - by eapply climb_top.
  - by eapply climb_up.
Qed.
Lemma incoming_net d d' u : calm d d' -> incoming d' u = incoming d u.
Proof.
  intros Hd. unfold incoming, user_cols. rewrite (live_user_net d u d' Hd).
  destruct (live_user d u) as [r|]; [|done]. cbn. destruct (upline_of u r.(cols)); [|done]. by apply share_of_net.
Qed.
Lemma chain_rows_net d d' us : calm d d' -> chain_rows d' us = chain_rows d us.
Proof.
  intros Hd. assert (forall below us, climb_rows d' below us = climb_rows d below us) as Hrows.
  { intros below l. revert below. induction l as [|u l IH]; intros below; [done|]. cbn [climb_rows].
    unfold user_cols. rewrite (live_user_net d u d' Hd), (incoming_net d d' u Hd).
    destruct (live_user d u); [|done]. cbn. by rewrite IH. }
  destruct us as [|u us]; [done|]. cbn [chain_rows]. unfold user_cols.
  rewrite (live_user_net d u d' Hd), (incoming_net d d' u Hd). destruct (live_user d u); [|done].
  cbn. by rewrite Hrows.
Qed.

(** ** Percentages *)

(** Every share is a whole percentage from 0 to 35. *)
Definition shares_ok (d : Referrals) : Prop := forall k r, d.(t_share) !! k = Some r ->
  exists p, r.(cols) = Dec (p * 10 ^ 2) /\ 0 <= p <= 35.
Lemma share_of_int `{!NumericsLaws} d p c z :
  (forall r, d.(t_share) !! (p, c) = Some r -> r.(cols) = Dec (z * 10 ^ 2)) ->
  (d.(t_share) !! (p, c) = None -> z = 0) -> 0 <= z <= 35 -> share_of d p c = z.
Proof.
  intros Hs Hn Hz. unfold share_of. apply as_i32_denotes; [|unfold in_i32; lia].
  apply fround_denotes; [|lia]. destruct (d.(t_share) !! (p, c)) as [r|].
  - rewrite (Hs r eq_refl). apply float8_of_int; lia.
  - rewrite Hn by done. by apply of_Z_denotes.
Qed.
Lemma share_of_range `{!NumericsLaws} d p c : shares_ok d -> 0 <= share_of d p c <= 35.
Proof.
  intros Hd. destruct (d.(t_share) !! (p, c)) as [r|] eqn:E.
  - destruct (Hd _ _ E) as (z & Hz & ?). rewrite (share_of_int d p c z); [done|..|done]; [|congruence].
    intros r' E'. congruence.
  - rewrite (share_of_int d p c 0); [done|..|done]; [congruence|done].
Qed.
Lemma incoming_range `{!NumericsLaws} d u : shares_ok d -> 0 <= incoming d u <= 35.
Proof.
  intros Hd. unfold incoming. destruct (user_cols d u) as [c|]; [|done].
  destruct (upline_of u c); [by apply share_of_range|done].
Qed.

(** What the users above lose: the part of their share that exceeds what their
    upline gives them *)
Fixpoint shortfalls (d : Referrals) (below : Z) (us : list Z) : Z :=
  match us with
  | [] => 0
  | u :: us => Z.max 0 (below - incoming d u) + shortfalls d (incoming d u) us
  end.
Definition percents (rows : list EarnRow) : list Z := EarnRow.percent <$> rows.

Lemma climb_live d u l : Climb d u l -> Forall (fun v => is_Some (user_cols d v)) l.
Proof.
  unfold user_cols. induction 1 as [u Hn|u r Hr Hp|u r p l Hr Hp Hl IH]; [done| |];
    constructor; try done; rewrite Hr; eauto.
Qed.
Lemma last_default {A B} (f : A -> B) a x l :
  default a (f <$> list.last (x :: l)) = default (f x) (f <$> list.last l).
Proof.
  revert a x. induction l as [|y l IH]; intros a x; [done|].
  change (list.last (x :: y :: l)) with (list.last (y :: l)). by rewrite !IH.
Qed.
Section Sums.
Context `{!NumericsLaws} (d : Referrals) (Hd : shares_ok d).

Lemma climb_rows_sum below us : 0 <= below <= 35 -> Forall (fun v => is_Some (user_cols d v)) us ->
  Zsum (percents (climb_rows d below us)) + below =
    default below (incoming d <$> list.last us) + shortfalls d below us /\
  EarnRow.uid <$> climb_rows d below us = us /\
  Forall (fun p => 0 <= p <= 35) (percents (climb_rows d below us)).
Proof.
  intros Hb Hus. revert below Hb. induction Hus as [|u us Hu Hus IH]; intros below Hb; [|destruct Hu as [c Ec]].
  { cbn. split_and!; [lia|done|constructor]. }
  cbn [climb_rows shortfalls]. rewrite Ec. pose proof (incoming_range d u Hd) as Hi.
  destruct (IH _ Hi) as (Hs & Hu & Hp). unfold i32_sub. rewrite to_i32_id by (unfold in_i32; lia).
  cbn [percents fmap list_fmap Zsum foldr EarnRow.percent EarnRow.uid earn_row] in *.
  split_and!; [|by rewrite Hu|constructor; [lia|done]].
  rewrite last_default. unfold percents, Zsum in *. lia.
Qed.
Lemma chain_rows_sum u us : Climb d u us -> us <> [] ->
  Zsum (percents (chain_rows d us)) =
    default 0 (incoming d <$> list.last us) + shortfalls d (default 0 (incoming d <$> list.head us)) us /\
  EarnRow.uid <$> chain_rows d us = us /\ Forall (fun p => 0 <= p <= 35) (percents (chain_rows d us)).
Proof.
  intros Hc%climb_live Hne. destruct us as [|v us]; [done|]. apply list.Forall_cons in Hc as [[c Ec] Hus].
  cbn [chain_rows list.head]. rewrite Ec. pose proof (incoming_range d v Hd) as Hi.
  destruct (climb_rows_sum _ us Hi Hus) as (Hs & Hu & Hp). rewrite last_default.
  cbn [percents fmap list_fmap option_fmap option_map Zsum foldr EarnRow.percent EarnRow.uid earn_row default
    from_option id shortfalls] in *.
  split_and!; [|by rewrite Hu|by constructor].
  unfold percents, Zsum in *. rewrite Z.sub_diag. lia.
Qed.
End Sums.
End Climb.
