(* ===== verification/ReferralFacts.v ===== *)
(** * Lemmas on the referral tables

    What a transaction sees after its writes, exact amounts, and the account of an
    owner. *)
From S2P Require Import Prelude Strs Ts World Json Db Shared F64 ReferralData Referral ReferralTree.
From S2P Require Import Commission.

Section Views.
Context `{!Chrono}.

Lemma ref_view_merge new ws (d : Referrals) : view (merge_writes new ws) d = view new (view ws d).
Proof. cbn. unfold ref_view, ref_merge. cbn. by rewrite !(assoc_L (∪)). Qed.
Lemma view_write_ledger m (d : Referrals) :
  view (write_ledger m) d = {| d with t_ledger := m ∪ d.(t_ledger) |}.
Proof. cbn. unfold ref_view. cbn. by rewrite !(left_id_L ∅ (∪)). Qed.
Lemma view_write_accounts m (d : Referrals) :
  view (write_accounts m) d = {| d with t_account := m ∪ d.(t_account) |}.
Proof. cbn. unfold ref_view. cbn. by rewrite !(left_id_L ∅ (∪)). Qed.
Lemma view_write_account k r (d : Referrals) :
  view (write_account k r) d = {| d with t_account := <[k := r]> d.(t_account) |}.
Proof. rewrite insert_union_singleton_l. apply view_write_accounts. Qed.
Lemma view_new_ledger k r (d : Referrals) :
  view (write_ledger {[ k := r ]}) d = {| d with t_ledger := <[k := r]> d.(t_ledger) |}.
Proof. rewrite insert_union_singleton_l. apply view_write_ledger. Qed.
Lemma view_write_withdraw k r (d : Referrals) :
  view (write_withdraw k r) d = {| d with t_withdraw := <[k := r]> d.(t_withdraw) |}.
Proof. cbn. unfold ref_view. cbn. by rewrite !(left_id_L ∅ (∪)), insert_union_singleton_l. Qed.
Lemma view_write_code k r (d : Referrals) :
  view (write_code k r) d = {| d with t_code := <[k := r]> d.(t_code) |}.
Proof. cbn. unfold ref_view. cbn. by rewrite !(left_id_L ∅ (∪)), insert_union_singleton_l. Qed.

(** Rows stay locked while more are written. *)
Lemma untouched_union `{Countable K} {A} (new w m m' : gmap K (Row A)) :
  untouched (new ∪ w) m m' -> untouched w m m'.
Proof.
  intros Hu k [x Hx]. apply Hu. rewrite lookup_union, Hx. destruct (new !! k); cbn; eauto.
Qed.
Lemma locked_out_merge (new ws : RefWrites) d d' :
  (forall owner k, has_pending owner k ws.(w_withdraw) ->
     exists k', has_pending owner k' (merge_writes new ws).(w_withdraw)) ->
  (forall owner ref k, has_accrual owner ref k ws.(w_ledger) ->
     exists k', has_accrual owner ref k' (merge_writes new ws).(w_ledger)) ->
  locked_out (merge_writes new ws) d d' -> locked_out ws d d'.
Proof.
  intros Hp Ha HL. destruct HL as [Lu Lc Ls La Ll Lw Lt Lv Lp Lx]. cbn in *.
  split; [by eapply untouched_union..| |].
  - intros owner k0 k [k1 Hk]%Hp. by eapply Lp.
  - intros owner ref k0 k Hr [k1 Hk]%Ha. by eapply Lx.
Qed.
End Views.

(** ** Exact amounts *)

Section Amounts.
Context `{!Numerics} `{!NumericsLaws}.

Lemma fltb_denotes x y a b : denotes x a -> denotes y b -> fltb x y = (a <? b).
Proof.
  intros Hx Hy. rewrite (fltb_measures _ _ _ _ Hx Hy). assert (0 < 2 ^ 1074) by (apply Z.pow_pos_nonneg; lia).
  destruct (Z.ltb_spec a b); destruct (Z.ltb_spec (a * 2 ^ 1074) (b * 2 ^ 1074)); try done; nia.
Qed.
Lemma denotes_not_nan x z : denotes x z -> is_nan x = false.
Proof. by intros (? & ? & ? & -> & _). Qed.
Lemma fleb_denotes x y a b : denotes x a -> denotes y b -> fleb x y = (a <=? b).
Proof.
  intros Hx Hy. unfold fleb, feqb. rewrite (denotes_not_nan _ _ Hx), (denotes_not_nan _ _ Hy).
  rewrite (fltb_denotes _ _ _ _ Hx Hy), (fltb_denotes _ _ _ _ Hy Hx). cbn [negb andb].
  destruct (Z.ltb_spec a b), (Z.ltb_spec b a), (Z.leb_spec a b); done || lia.
Qed.
Lemma fleb_zero z : Z.abs z < 2 ^ 53 -> fleb (of_Z z) (of_Z 0) = (z <=? 0).
Proof. intros Hz. apply fleb_denotes; by apply of_Z_denotes. Qed.

(** Whole amounts in a column of scale [s] *)
Definition whole (s z : Z) : num := Dec (z * 10 ^ s).
Lemma pow10_min x : 10 ^ Z.min 15 x <= 10 ^ 15.
Proof.
  destruct (Z.le_gt_cases 0 (Z.min 15 x)); [apply Z.pow_le_mono_r; lia|].
  rewrite (Z.pow_neg_r 10 (Z.min 15 x)) by lia. lia.
Qed.
Lemma num_add_int p s a b x : 0 <= s -> denotes x b -> Z.abs a < 10 ^ 15 ->
  0 <= a + b < 10 ^ Z.min 15 (p - s) -> num_add p s (whole s a) x = Ok (whole s (a + b)).
Proof.
  intros Hs Hx Ha Hab. pose proof (pow10_min (p - s)). unfold num_add. apply num_of_int; [done| |lia].
  apply fadd_denotes; [by apply float8_of_int|done|lia].
Qed.
Lemma num_sub_int p s a b x : 0 <= s -> denotes x b -> Z.abs a < 10 ^ 15 ->
  0 <= a - b < 10 ^ Z.min 15 (p - s) -> num_sub p s (whole s a) x = Ok (whole s (a - b)).
Proof.
  intros Hs Hx Ha Hab. pose proof (pow10_min (p - s)). unfold num_sub. apply num_of_int; [done| |lia].
  apply fsub_denotes; [by apply float8_of_int|done|lia].
Qed.
End Amounts.

(** The side conditions of these lemmas, at a precision and scale *)
Ltac fits := first [assumption | done | lia |
  match goal with |- context [10 ^ Z.min 15 ?x] =>
    let v := eval vm_compute in (10 ^ Z.min 15 x) in change (10 ^ Z.min 15 x) with v; lia end].

(** ** Accounts *)

Section Accounts.
Context `{!Chrono} `{!Order}.

Lemma account_of_some owner d id r : account_of owner d = Some (id, r) ->
  d.(t_account) !! id = Some r /\ r.(cols).(AccountRow.owner_iid) = owner /\ live r = true.
Proof.
  unfold account_of. intros E%head_Some_elem_of%list_elem_of_filter. destruct E as [[Ho Hl] Hin].
  rewrite order_perm, elem_of_map_to_list in Hin. done.
Qed.
Lemma account_of_none owner d id r : account_of owner d = None -> d.(t_account) !! id = Some r ->
  live r = true -> r.(cols).(AccountRow.owner_iid) <> owner.
Proof.
  unfold account_of. intros E%head_None Hr Hl Ho.
  assert ((id, r) ∈ filter (fun e : Z * Row AccountRow =>
    e.2.(cols).(AccountRow.owner_iid) = owner /\ live e.2 = true) (order d.(t_account))) as Hin
    by (apply list_elem_of_filter; rewrite order_perm, elem_of_map_to_list; done).
  rewrite E in Hin. by apply elem_of_nil in Hin.
Qed.
Lemma account_of_is_some owner d : is_Some (account_of owner d) <->
  exists id r, d.(t_account) !! id = Some r /\ r.(cols).(AccountRow.owner_iid) = owner /\ live r = true.
Proof.
  split; [intros [[id r] E]; exists id, r; by apply account_of_some|].
  intros (id & r & Hr & Ho & Hl). destruct (account_of owner d) eqn:En; [eauto|].
  by destruct (account_of_none _ _ _ _ En Hr Hl).
Qed.
Lemma accrued_iff owner ref d : accrued owner ref d = true <-> exists id r, d.(t_ledger) !! id = Some r /\
  r.(cols).(LedgerRow.owner_iid) = owner /\ r.(cols).(LedgerRow.entry_type) = "accrual" /\
  reference_of r.(cols).(LedgerRow.meta) = Some ref.
Proof.
  unfold accrued. rewrite existsb_exists. split.
  - intros ([id r] & Hin%list_elem_of_In & E). rewrite order_perm, elem_of_map_to_list in Hin.
    unfold accrual_of in E. rewrite !andb_true_iff, Z.eqb_eq, String.eqb_eq, bool_decide_eq_true in E.
    cbn in E. naive_solver.
  - intros (id & r & Hr & Ho & He & Hm). exists (id, r).
    rewrite <- list_elem_of_In, order_perm, elem_of_map_to_list. split; [done|]. cbn.
    unfold accrual_of. by rewrite !andb_true_iff, Z.eqb_eq, String.eqb_eq, bool_decide_eq_true.
Qed.
End Accounts.

(** ** Nobody else *)

Section Alone.
Context `{!Chrono} `{!Rivals}.
Context (Halone : forall ws n d, rivals ws n d = d).

Lemma nobody_else ws n (d : Referrals) : d = rivals ws n d /\ locked_out ws d (rivals ws n d).
Proof. rewrite Halone. split; [done|]. by split. Qed.
(** The transaction sees [v]. *)
Definition seen (v : Referrals) (ws : RefWrites) (d : Referrals) : Prop := view ws d = v.
Lemma seen_stable v : stable eq (seen v).
Proof. by intros ws d d' Hv <- _. Qed.
Lemma seen_read {A} v (f : DateTime -> Referrals -> A) (P : A -> Prop) :
  (forall now, P (f now v)) -> within eq (seen v) (tread f) (fun a ws d => P a /\ seen v ws d).
Proof.
  intros HP. apply (within_stmt eq nobody_else); [apply seen_stable|]. intros now ws d a new Hv E.
  assert (new = no_writes) as -> by congruence. rewrite merge_no_writes. split; [|done].
  rewrite Hv in E. assert (a = f now v) as -> by congruence. done.
Qed.
Lemma seen_write {A} v (f : DateTime -> Referrals -> result (A * RefWrites))
    (P : A -> Referrals -> Prop) :
  (forall now a new, f now v = Ok (a, new) -> P a (view new v)) ->
  within eq (seen v) (tstmt f) (fun a ws d => P a (view ws d)).
Proof.
  intros HP. apply (within_stmt eq nobody_else); [apply seen_stable|]. intros now ws d a new Hv E.
  rewrite ref_view_merge, Hv in *. by eapply HP.
Qed.
Lemma seen_ret {A} v (a : A) : within eq (seen v) (mret (M := Txn.T) a) (fun _ => seen v).
Proof. by apply within_ret; [apply _|]. Qed.
Lemma seen_query {A} v (f : DateTime -> Referrals -> A) : within eq (seen v) (tread f) (fun _ => seen v).
Proof.
  eapply within_conseq; [by apply (seen_read v f (fun _ => True))|done|]. by intros a ws d [_ Hs].
Qed.
Lemma seen_lift {A} v (x : result A) (P : A -> Prop) : (forall a, x = Ok a -> P a) ->
  within eq (seen v) (tlift x) (fun a ws d => P a /\ seen v ws d).
Proof. intros HP. apply (within_lift eq); intros ws d a E HS; split; auto. Qed.
Lemma seen_any {A} (m : T A) (P : Referrals -> Prop) (Q : A -> RefWrites -> Referrals -> Prop) :
  (forall v, P v -> within eq (seen v) m Q) -> within eq (fun ws d => P (view ws d)) m Q.
Proof. intros Hm e w ws r w' HP E. exact (Hm _ HP e w ws r w' eq_refl E). Qed.
(** What is seen at the end is the database after it. *)
Lemma seen_txn {A} (m : T A) (P : A -> Referrals -> Prop) e w r w' :
  within eq (seen w.(db)) m (fun a ws d => P a (view ws d)) -> txn m e w = (r, w') ->
  match r with Err _ => w'.(db) = w.(db) | Ok a => P a w'.(db) end.
Proof.
  intros Hm E. destruct (txn_cases eq nobody_else m (fun d => d = w.(db))
    (fun a ws d => P a (view ws d)) e w r w') as (d & <- & Hd); try done.
  - by intros d d' -> <-.
  - eapply within_conseq; [exact Hm| |done]. intros ws d [-> ->]. unfold seen. by rewrite view_no_writes.
  - by intros a ws d d' HP <- _.
  - destruct Hd as [([x ->] & ->)|(a & ws & -> & HP & ->)]; done.
Qed.
End Alone.

(** A loop of results *)
Lemma mapM_result_ok {A B} (f : A -> result B) (l : list A) (k : list B) :
  list.mapM f l = Ok k -> Forall2 (fun x y => f x = Ok y) l k.
Proof.
  revert k. induction l as [|x l IH]; intros k E; [by injection E as <-|].
  apply result_bind_ok in E as (y & Ey & E). apply result_bind_ok in E as (ys & Eys & E).
  injection E as <-. constructor; auto.
Qed.
