(* ===== verification/CommissionProps.v ===== *)
(** * Properties of the commission

    That the climb up the referrals ends, what it gives to whom, and that what is
    given stays within the pool. *)
From stdpp Require Import pretty.
From S2P Require Import Prelude Strs Ts World Json Db Shared F64 ReferralData Referral ReferralTree.
From S2P Require Import Commission CommissionFacts ReferralFacts.

(** C8. Climbing the referrals ends exactly when nobody on the way up is above
    themself.  If nobody is, as many rounds as there are users are enough, and
    the rows are those of the users on the way; otherwise no number of rounds is. *)
Theorem earn_chain_returns `{!Chrono} `{!Order} `{!Numerics} `{!Rivals}
    (Hcalm : forall ws n d, calm d (rivals ws n d) /\ locked_out ws d (rivals ws n d))
    fuel subject_iid ws e w r w' :
  earn_chain fuel subject_iid ws e w = (r, w') ->
  let d := view ws w.(db) in
  (~ loops d subject_iid -> (size d.(t_user) <= fuel)%nat ->
     (exists x, r = Err x) \/
     exists us ws', Climb d subject_iid us /\ r = Ok (Some (chain_rows d us), ws')) /\
  (loops d subject_iid -> (exists x, r = Err x) \/ exists ws', r = Ok (None, ws')).
Proof.
  intros E d. assert (sees_net d ws w.(db)) as Hd by done.
  destruct (earn_chain_climbs Hcalm d fuel subject_iid e w ws r w' Hd E) as [_ HQ].
  destruct r as [[a ws']|x]; [|by split; intros; left; exists x]. destruct (HQ _ _ eq_refl) as [Ha _]. split.
  - intros Hn Hf. right. destruct (climb_or_loop d subject_iid) as [[us Hus]|]; [|done].
    destruct a as [l|].
    + destruct Ha as (us' & Hus' & ->). eauto.
    + pose proof (Ha _ Hus). pose proof (climb_size _ _ _ Hus). lia.
  - intros Hl. right. destruct a as [l|]; [|eauto].
    destruct Ha as (us & Hus & _). by destruct (climb_no_loop _ _ _ Hus).
Qed.

(** C7. The users on the way up get a share from 0 to 35 percent each.  Together they
    get what the last one is given, which is 35 percent for one without an
    upline, plus what those in between lose by giving on more than they are
    given. *)
Theorem commission_shares_sum `{!Chrono} `{!Order} `{!Numerics} `{!NumericsLaws} `{!Rivals}
    (Hcalm : forall ws n d, calm d (rivals ws n d) /\ locked_out ws d (rivals ws n d))
    fuel subject_iid ws e w rows ws' w' :
  shares_ok (view ws w.(db)) ->
  earn_chain fuel subject_iid ws e w = (Ok (Some rows, ws'), w') ->
  let d := view ws w.(db) in
  Forall (fun p => 0 <= p <= 35) (percents rows) /\
  exists us, Climb d subject_iid us /\ EarnRow.uid <$> rows = us /\
    (us <> [] -> Zsum (percents rows) =
       default 0 (incoming d <$> list.last us) + shortfalls d (incoming d subject_iid) us).
Proof.
  intros Hd E d. assert (sees_net d ws w.(db)) as Hs by done.
  destruct (earn_chain_climbs Hcalm d fuel subject_iid e w ws _ w' Hs E) as [_ HQ].
  destruct (HQ _ _ eq_refl) as [(us & Hus & ->) _]. destruct us as [|u us].
  { split; [constructor|]. by exists []. }
  destruct (chain_rows_sum d Hd _ _ Hus) as (Hsum & Hu & Hp); [done|]. split; [done|].
  exists (u :: us). split_and!; [done..|]. intros _. rewrite Hsum.
  by inversion Hus; simplify_eq.
Qed.

Section Pool.
Context (a : Z) (Ha : 0 < a <= 8 * 10 ^ 9).

Lemma pool_range : 0 <= pool_of a < 2 ^ 32.
Proof. pose proof (pool_of_bounds a). lia. Qed.
Lemma earnings_range (ps : list Z) : Forall (fun p => 0 <= p <= 35) ps ->
  Forall (fun e => 0 <= e <= 28 * 10 ^ 8) (earn_of a <$> ps).
Proof.
  induction 1 as [|p ps Hp _ IH]; constructor; [|done].
  destruct (earn_of_bounds a p) as [H1 H2]; [lia..|]. nia.
Qed.
Lemma earnings_scalable (l : list Z) : Forall (fun e => 0 <= e <= 28 * 10 ^ 8) l ->
  Forall (fun e => 0 <= e /\ e * pool_of a < 2 ^ 63) l.
Proof.
  pose proof (pool_of_bounds a ltac:(lia)). pose proof pool_range. intros Hl.
  eapply list.Forall_impl; [exact Hl|]. cbn beta. intros e He. split; [lia|].
  assert (pool_of a <= 28 * 10 ^ 8) by lia. assert (e * pool_of a <= 28 * 10 ^ 8 * (28 * 10 ^ 8)) by nia. lia.
Qed.
(** The earnings, scaled to the pool if they exceed it, are within it. *)
Definition scaled (l : list Z) : list Z :=
  let total := i64_sum l in
  if (pool_of a <? total) && (0 <? total) then scale_of (pool_of a) total <$> l else l.
Lemma i64_sum_small (l : list Z) : Forall (fun e => 0 <= e <= 28 * 10 ^ 8) l ->
  Z.of_nat (length l) <= 2 ^ 28 -> i64_sum l = Zsum l /\ 0 <= Zsum l.
Proof.
  intros Hl Hn. destruct (Zsum_bound (28 * 10 ^ 8) l) as [H1 H2]; [lia|done|].
  rewrite i64_sum_eq, to_i64_id by (unfold in_i64; lia). done.
Qed.
Lemma earnings_below (l l' : list Z) : Forall (fun e => 0 <= e <= 28 * 10 ^ 8) l ->
  Forall2 (fun e s => 0 <= s <= e) l l' -> Forall (fun e => 0 <= e <= 28 * 10 ^ 8) l'.
Proof.
  intros Hl H2. induction H2 as [|e x l l' Hx _ IH]; [constructor|]. inversion Hl. constructor; [lia|auto].
Qed.
Lemma Forall2_impl_Forall_l {A B} (P Q : A -> B -> Prop) (R : A -> Prop) l k :
  Forall2 P l k -> Forall R l -> (forall x y, P x y -> R x -> Q x y) -> Forall2 Q l k.
Proof. intros H2 Hl HQ. induction H2; inversion Hl; constructor; auto. Qed.
Lemma scaled_within (l : list Z) : Forall (fun e => 0 <= e <= 28 * 10 ^ 8) l ->
  Z.of_nat (length l) <= 2 ^ 28 ->
  0 <= Zsum (scaled l) <= pool_of a /\ Forall2 (fun e s => 0 <= s <= e) l (scaled l) /\
  (Zsum l <= pool_of a -> scaled l = l).
Proof.
  intros Hl Hn. destruct (i64_sum_small l Hl Hn) as [Es H0]. pose proof pool_range as Hp.
  unfold scaled. rewrite Es. destruct (Z.ltb_spec (pool_of a) (Zsum l)) as [Hlt|Hle]; cbn [andb].
  - rewrite (proj2 (Z.ltb_lt _ _)) by lia. apply earnings_scalable in Hl.
    destruct (scaled_sum (pool_of a) (Zsum l) l ltac:(lia) ltac:(lia) Hl) as [S1 S2].
    split_and!; [done|nia| |lia]. rewrite Forall2_fmap_r. apply Forall_Forall2_diag.
    eapply list.Forall_impl; [exact Hl|]. cbn beta. intros e [He Hep].
    destruct (scale_of_bounds (pool_of a) (Zsum l) e) as [B1 B2]; [lia..|]. split; [done|]. nia.
  - split_and!; [lia|lia| |done]. apply Forall_Forall2_diag. eapply list.Forall_impl; [exact Hl|]. cbn beta. lia.
Qed.
End Pool.

Lemma simulate_scaled a chain :
  let s := simulate_chain a chain in
  let earnings := ReferralCommissionLevel.earn_amount <$> s.(CommissionSimulate.levels) in
  earnings = scaled a (earn_of a <$> percents chain) /\
  s.(CommissionSimulate.pool_amount) = pool_of a /\
  s.(CommissionSimulate.total_distributed) = i64_sum earnings /\
  s.(CommissionSimulate.undistributed) = i64_sub (pool_of a) (i64_sum earnings).
Proof.
  assert (forall pool, ReferralCommissionLevel.earn_amount <$> (commission_level a pool <$> chain) =
    earn_of a <$> percents chain) as E1 by (intros; unfold percents; by rewrite <- !list_fmap_compose).
  assert (forall pool total ls, ReferralCommissionLevel.earn_amount <$> (scale_level pool total <$> ls) =
    scale_of pool total <$> (ReferralCommissionLevel.earn_amount <$> ls)) as E2
    by (intros; by rewrite <- !list_fmap_compose).
  cbn zeta. unfold simulate_chain, scaled. rewrite E1.
  destruct ((pool_of a <? _) && _); cbn [CommissionSimulate.levels CommissionSimulate.pool_amount
    CommissionSimulate.total_distributed CommissionSimulate.undistributed]; by rewrite ?E2, ?E1.
Qed.
Lemma topup_scaled payer_iid a chain :
  let levels := filter (fun l => l.1 <> payer_iid /\ 0 < l.2)
    ((fun row => (row.(EarnRow.uid), earn_of a row.(EarnRow.percent))) <$> chain) in
  (topup_levels payer_iid a chain).*2 = scaled a levels.*2 /\
  (topup_levels payer_iid a chain).*1 = levels.*1.
Proof.
  cbn zeta. unfold topup_levels, scaled. set (levels := filter _ _).
  destruct ((pool_of a <? _) && _); [|done]. by rewrite <- !list_fmap_compose.
Qed.

Lemma topup_levels_facts a (chain : list EarnRow) payer_iid :
  0 < a <= 8 * 10 ^ 9 -> Z.of_nat (length chain) <= 2 ^ 28 ->
  Forall (fun p => 0 <= p <= 35) (percents chain) ->
  let credits := topup_levels payer_iid a chain in
  0 <= Zsum credits.*2 <= pool_of a /\ Forall (fun e => 0 <= e <= 28 * 10 ^ 8) credits.*2 /\
  Forall (fun l => l.1 <> payer_iid /\ l.1 ∈ EarnRow.uid <$> chain) credits.
Proof.
  intros Ha Hn Hp credits. pose proof (earnings_range a Ha _ Hp) as He.
  destruct (topup_scaled payer_iid a chain) as [E2 E1]. fold credits in E1, E2.
  set (levels := filter _ _) in E1, E2.
  assert (levels.*2 `sublist_of` (earn_of a <$> percents chain) /\ Forall (fun l => l.1 <> payer_iid /\
    l.1 ∈ EarnRow.uid <$> chain) levels) as [Hsub Hin].
  { split.
    - unfold levels, percents. rewrite <- list_fmap_compose.
      assert (forall l : list (Z * Z), (filter (fun l => l.1 <> payer_iid /\ 0 < l.2) l).*2 `sublist_of` l.*2)
        as Hf by (intros l; apply fmap_sublist, sublist_filter).
      etransitivity; [apply Hf|]. by rewrite <- list_fmap_compose.
    - apply list.Forall_forall. intros l [[Hne _] Hl]%list_elem_of_filter. split; [done|].
      apply list_elem_of_fmap in Hl as (row & -> & Hrow). by apply (list_elem_of_fmap_2 EarnRow.uid). }
  assert (Forall (fun e => 0 <= e <= 28 * 10 ^ 8) levels.*2) as Hlv.
  { apply list.Forall_forall. intros e Hel. eapply list.Forall_forall in He; [exact He|].
    by eapply elem_of_sublist. }
  rewrite E2. destruct (scaled_within a Ha levels.*2 Hlv) as (Hs & Hle & _);
    [apply sublist_length in Hsub; unfold percents in *; rewrite !length_fmap in *; lia|].
  split; [exact Hs|]. split; [by eapply earnings_below|].
  apply list.Forall_forall. intros l Hl. eapply (list_elem_of_fmap_2 fst) in Hl. rewrite E1 in Hl.
  apply list_elem_of_fmap in Hl as (l' & El & Hel). rewrite El.
  eapply list.Forall_forall in Hin; [exact Hin|done].
Qed.

(** C6. For purchases up to eight billion rupiah: the pool is 35 percent of the
    amount or one rupiah less, nobody earns more than their percentage, and the
    earnings together stay within the pool, in the simulation as for a top-up,
    where the payer earns nothing. *)
Theorem commission_within_pool a (chain : list EarnRow) payer_iid :
  0 < a <= 8 * 10 ^ 9 -> Z.of_nat (length chain) <= 2 ^ 28 ->
  Forall (fun p => 0 <= p <= 35) (percents chain) ->
  let s := simulate_chain a chain in
  let earnings := ReferralCommissionLevel.earn_amount <$> s.(CommissionSimulate.levels) in
  let pool := s.(CommissionSimulate.pool_amount) in
  35 * a - 100 <= 100 * pool <= 35 * a /\
  Forall2 (fun p e => 0 <= 100 * e <= a * p) (percents chain) earnings /\
  s.(CommissionSimulate.total_distributed) = Zsum earnings /\
  s.(CommissionSimulate.undistributed) = pool - Zsum earnings /\ 0 <= Zsum earnings <= pool /\
  let credits := topup_levels payer_iid a chain in
  0 <= Zsum credits.*2 <= pool /\
  Forall (fun l => l.1 <> payer_iid /\ l.1 ∈ EarnRow.uid <$> chain) credits.
Proof.
  intros Ha Hn Hp s earnings pool. pose proof (earnings_range a Ha _ Hp) as He.
  assert (pool = pool_of a) as Epool by (unfold pool, s, simulate_chain; by case_match).
  destruct (simulate_scaled a chain) as (Eearn & Epl & Etot & Eund). fold s earnings pool in Eearn, Epl, Etot, Eund.
  assert (Z.of_nat (length (earn_of a <$> percents chain)) <= 2 ^ 28) as Hlen
    by (by unfold percents; rewrite !length_fmap).
  destruct (scaled_within a Ha _ He Hlen) as (Hsum & Hle & _). rewrite <- Eearn in Hsum, Hle.
  assert (length earnings = length chain) as Hl'
    by (rewrite <- (list.Forall2_length _ _ _ Hle); unfold percents; by rewrite !length_fmap).
  destruct (i64_sum_small earnings) as [Esum _]; [by eapply earnings_below|by rewrite Hl'|].
  pose proof (pool_of_bounds a) as Hpool. rewrite Epl.
  split; [lia|]. split.
  { rewrite Forall2_fmap_l in Hle. eapply Forall2_impl_Forall_l; [exact Hle|exact Hp|].
    cbn beta. unfold compose. intros p e Hep Hpp. destruct (earn_of_bounds a p) as [B1 B2]; lia. }
  split; [by rewrite Etot|]. split; [rewrite Eund, Esum; apply to_i64_id; unfold in_i64; lia|].
  split; [lia|]. intros credits. by destruct (topup_levels_facts a chain payer_iid Ha Hn Hp) as (? & _ & ?).
Qed.

(** ** What an accrual credits

    With nobody else on the database, the credits of a top-up as steps from one
    state to the next, and that a reference is credited once. *)

Section Accrual.
Context `{!Chrono} `{!Order} `{!Numerics} `{!NumericsLaws} `{!Rivals}.
Context (Halone : forall ws n d, rivals ws n d = d).

(** ** One credit *)

(** The entry of the ledger *)
Definition accrual (payer_iid : Z) (event_type reference_id : string) (uid earn : Z) : LedgerRow :=
  {| LedgerRow.owner_iid := uid; LedgerRow.entry_type := "accrual"; LedgerRow.status := "active";
     LedgerRow.amount_usd := Dec 0; LedgerRow.amount_idr := whole 2 earn;
     LedgerRow.meta := json_object
       [("source_iid", json_int payer_iid); ("event_type", Str event_type);
        ("reference_id", Str reference_id); ("reference_type", Str COMMISSION_PURCHASE_REF_TYPE)] |}.
(** The state after crediting [earn] to [uid]: nothing is done without an account
    or for a reference that is credited already. *)
Inductive credited (payer_iid : Z) (event_type reference_id : string) (uid earn : Z) (v : Referrals)
    : Referrals -> Prop :=
| credited_nothing :
    earn <= 0 \/ account_of uid v = None \/ accrued uid reference_id v = true ->
    credited payer_iid event_type reference_id uid earn v v
| credited_now id now now' acct r available earned :
    0 < earn -> account_of uid v = Some (acct, r) -> accrued uid reference_id v = false ->
    v.(t_ledger) !! id = None ->
    num_add 14 2 r.(cols).(AccountRow.commission_available_idr) (of_Z earn) = Ok available ->
    num_add 14 2 r.(cols).(AccountRow.commission_earned_idr) (of_Z earn) = Ok earned ->
    credited payer_iid event_type reference_id uid earn v
      {| v with
         t_ledger := <[id := new_row now (accrual payer_iid event_type reference_id uid earn)]> v.(t_ledger);
         t_account := <[acct := set_cols now' (fun c =>
           {| c with AccountRow.commission_available_idr := available;
              AccountRow.commission_earned_idr := earned |}) r]> v.(t_account) |}.

Lemma credit_credits v payer_iid event_type reference_id uid earn : earn < 10 ^ 12 ->
  -(2 ^ 53) < earn ->
  within eq (seen v) (commission_credit_in_tx uid (of_Z earn) payer_iid event_type reference_id)
    (fun _ ws d => credited payer_iid event_type reference_id uid earn v (view ws d)).
Proof.
  intros Hlt Hgt. unfold commission_credit_in_tx. rewrite fleb_zero by lia.
  assert (forall F : Prop, (F -> earn <= 0 \/ account_of uid v = None \/ accrued uid reference_id v = true) ->
    F -> within eq (seen v) (mret (M := Txn.T) tt)
      (fun _ ws d => credited payer_iid event_type reference_id uid earn v (view ws d))) as Hnothing.
  { intros F HF HX. apply within_ret; [apply _|]. intros ws d ->. apply credited_nothing. auto. }
  destruct (Z.leb_spec earn 0) as [Hle|Hpos]; [by eapply Hnothing; [|exact Hle]; auto|].
  eapply within_bind; [apply _|by apply (seen_read Halone v (fun _ d => fst <$> account_of uid d)
    (fun a => a = fst <$> account_of uid v))|].
  intros account. apply within_pure. intros ->.
  destruct (account_of uid v) as [[acct r]|] eqn:Ea; cbn [fmap option_fmap option_map fst];
    [|by eapply Hnothing; [|exact Ea]; auto].
  eapply within_bind; [apply _|by apply (seen_read Halone v (fun _ d => accrued uid reference_id d)
    (fun a => a = accrued uid reference_id v))|].
  intros exists_. apply within_pure. intros ->.
  destruct (accrued uid reference_id v) eqn:Ex; [by eapply Hnothing; [|exact Ex]; auto|].
  eapply within_bind; [apply _| |].
  { apply (within_code eq _ _ (fun _ => seen v)); [apply reads_next_id|done]. }
  intros id. set (entry := accrual payer_iid event_type reference_id uid earn).
  eapply within_bind with (Q := fun _ ws d => exists now, v.(t_ledger) !! id = None /\
    seen {| v with t_ledger := <[id := new_row now entry]> v.(t_ledger) |} ws d); [apply _| |].
  { apply (seen_write Halone v _ (fun _ v' => exists now, v.(t_ledger) !! id = None /\
      v' = {| v with t_ledger := <[id := new_row now entry]> v.(t_ledger) |})).
    intros now a new E. rewrite (num_of_int 14 2 (of_Z earn) earn) in E;
      [|lia|apply of_Z_denotes; lia|change (10 ^ Z.min 15 (14 - 2)) with (10 ^ 12); lia].
    cbn [mbind result_bind] in E. destruct (v.(t_ledger) !! id) eqn:En; [done|].
    rewrite Ex, andb_false_r in E. injection E as _ <-. exists now. split; [done|]. apply view_new_ledger. }
  intros []. intros e w ws x w' (now & En & Hs) E.
  set (v1 := {| v with t_ledger := <[id := new_row now entry]> v.(t_ledger) |}) in *.
  refine (seen_write Halone v1 _ (fun _ v' => credited payer_iid event_type reference_id uid earn v v') _
    e w ws x w' Hs E).
  clear -Hpos Ea Ex En. intros now' a new E. apply account_of_some in Ea as Hr.
  destruct Hr as (Hr & _ & _). cbn [v1 t_account] in E. rewrite Hr in E.
  apply result_bind_ok in E as (available & Eav & E). apply result_bind_ok in E as (earned & Eed & E).
  injection E as _ <-. rewrite view_write_account.
  exact (credited_now _ _ _ _ _ v id now now' acct r available earned Hpos Ea Ex En Eav Eed).
Qed.

(** ** The credits of a top-up *)

Fixpoint all_credited (payer_iid : Z) (event_type : string) (ref : Z -> string) (levels : list (Z * Z))
    (v v' : Referrals) : Prop :=
  match levels with
  | [] => v' = v
  | l :: levels => exists v1, credited payer_iid event_type (ref l.1) l.1 l.2 v v1 /\
      all_credited payer_iid event_type ref levels v1 v'
  end.
Lemma credits_credit v payer_iid event_type (ref : Z -> string) (levels : list (Z * Z)) :
  Forall (fun e => 0 <= e <= 28 * 10 ^ 8) levels.*2 ->
  within eq (seen v) (tforM levels (fun l => commission_credit_in_tx l.1 (of_Z l.2) payer_iid event_type
      (ref l.1)))
    (fun _ ws d => all_credited payer_iid event_type ref levels v (view ws d)).
Proof.
  revert v. induction levels as [|l levels IH]; intros v Hl; cbn [tforM all_credited].
  { apply within_ret; [apply _|]. by intros ws d ->. }
  apply list.Forall_cons in Hl as [He Hl].
  eapply within_bind; [apply _|apply credit_credits; lia|]. intros [] e w ws x w' Hc E.
  destruct (IH (view ws w.(db)) Hl e w ws x w' eq_refl E) as [Hd HQ]. split; [done|].
  intros a ws' Ex. exists (view ws w.(db)). split; [done|]. by eapply HQ.
Qed.

(** A state after which an owner has an account, and one in which a reference is
    credited *)
Lemma credited_kept payer_iid ev ref uid earn v v' : credited payer_iid ev ref uid earn v v' ->
  v'.(t_user) = v.(t_user) /\ v'.(t_share) = v.(t_share) /\
  (forall id r, v.(t_ledger) !! id = Some r -> v'.(t_ledger) !! id = Some r) /\
  forall u, is_Some (account_of u v) <-> is_Some (account_of u v').
Proof.
  intros [Hn|id now now' acct r available earned He Ha Hx Hid Hav Hed]; [done|]. cbn.
  split_and!; [done..| |].
  - intros id' r' E. rewrite lookup_insert_ne; [done|]. congruence.
  - apply account_of_some in Ha as (Hr & Ho & Hl). intros u. rewrite !account_of_is_some. cbn.
    split; intros (k & x & Ek & Eo & El).
    + destruct (decide (k = acct)) as [->|Hk]; [|exists k, x; by rewrite lookup_insert_ne].
      assert (x = r) as -> by congruence. exists acct. eexists. by rewrite lookup_insert_eq.
    + apply lookup_insert_Some in Ek as [[<- <-]|[Hk Ek]]; eauto.
Qed.
Lemma accrued_kept payer_iid ev ref uid earn v v' u r : credited payer_iid ev ref uid earn v v' ->
  accrued u r v = true -> accrued u r v' = true.
Proof.
  intros Hc (id & row & Hr & Hrow)%accrued_iff. apply accrued_iff. exists id, row. split; [|done].
  by apply (credited_kept _ _ _ _ _ _ _ Hc).
Qed.
Lemma credited_accrued payer_iid ev ref uid earn v v' : credited payer_iid ev ref uid earn v v' ->
  0 < earn -> is_Some (account_of uid v) -> accrued uid ref v' = true.
Proof.
  intros [[Hn|[Hn|Hn]]|id now now' acct r available earned He Ha Hx Hid Hav Hed] Hp [x Ex]; [lia|congruence|done|].
  apply accrued_iff. cbn. exists id. eexists. rewrite lookup_insert_eq. split_and!; done.
Qed.
(** No reference is credited twice to an owner. *)
Definition one_accrual (d : Referrals) : Prop := forall id id' r r' ref,
  d.(t_ledger) !! id = Some r -> d.(t_ledger) !! id' = Some r' ->
  r.(cols).(LedgerRow.entry_type) = "accrual" -> r'.(cols).(LedgerRow.entry_type) = "accrual" ->
  r.(cols).(LedgerRow.owner_iid) = r'.(cols).(LedgerRow.owner_iid) ->
  reference_of r.(cols).(LedgerRow.meta) = Some ref -> reference_of r'.(cols).(LedgerRow.meta) = Some ref ->
  id = id'.
Lemma credited_once payer_iid ev ref uid earn v v' : credited payer_iid ev ref uid earn v v' ->
  one_accrual v -> one_accrual v'.
Proof.
  intros [Hn|id now now' acct r available earned He Ha Hx Hid Hav Hed] Hv; [done|].
  assert (forall k x, v.(t_ledger) !! k = Some x -> x.(cols).(LedgerRow.entry_type) = "accrual" ->
    x.(cols).(LedgerRow.owner_iid) = uid -> reference_of x.(cols).(LedgerRow.meta) = Some ref -> False) as Hno.
  { intros k x E1 E2 E3 E4. assert (accrued uid ref v = true); [|congruence]. apply accrued_iff. eauto 10. }
  intros i j x y rf Ei Ej Ti Tj Eo Ri Rj. cbn in Ei, Ej.
  apply lookup_insert_Some in Ei as [[<- <-]|[Hi Ei]]; apply lookup_insert_Some in Ej as [[<- <-]|[Hj Ej]].
  - done.
  - assert (rf = ref) as -> by (change (Some ref = Some rf) in Ri; congruence). by destruct (Hno _ _ Ej Tj).
  - assert (rf = ref) as -> by (change (Some ref = Some rf) in Rj; congruence). by destruct (Hno _ _ Ei Ti).
  - by eapply Hv.
Qed.

Lemma all_credited_spec payer_iid ev ref levels v v' : all_credited payer_iid ev ref levels v v' ->
  v'.(t_user) = v.(t_user) /\ v'.(t_share) = v.(t_share) /\
  (forall u r, accrued u r v = true -> accrued u r v' = true) /\
  (forall u, is_Some (account_of u v) <-> is_Some (account_of u v')) /\
  (forall l, l ∈ levels -> 0 < l.2 -> is_Some (account_of l.1 v) -> accrued l.1 (ref l.1) v' = true) /\
  (one_accrual v -> one_accrual v').
Proof.
  revert v. induction levels as [|l levels IH]; intros v; cbn [all_credited].
  { intros ->. split_and!; try done. by intros l Hl%elem_of_nil. }
  intros (v1 & Hc & Hall). destruct (IH _ Hall) as (Hu & Hs & Ha & Hacc & Hl & Ho).
  destruct (credited_kept _ _ _ _ _ _ _ Hc) as (Hu1 & Hs1 & _ & Hacc1).
  split_and!; [congruence..| | | |].
  - intros u r Hur. by eapply Ha, accrued_kept.
  - intros u. by rewrite Hacc1.
  - intros l' [->|Hl']%elem_of_cons Hp Hx; [by eapply Ha, credited_accrued|].
    apply Hl; [done..|]. by apply Hacc1.
  - intros Hv. by eapply Ho, credited_once.
Qed.
(** Once all of them are credited, nothing is. *)
Lemma all_credited_again payer_iid ev ref levels v v' : all_credited payer_iid ev ref levels v v' ->
  (forall l, l ∈ levels -> l.2 <= 0 \/ account_of l.1 v = None \/ accrued l.1 (ref l.1) v = true) -> v' = v.
Proof.
  revert v. induction levels as [|l levels IH]; intros v; cbn [all_credited]; [done|].
  intros (v1 & Hc & Hall) Hd. assert (v1 = v) as ->.
  { destruct Hc as [|id now now' acct r available earned He Ha Hx]; [done|].
    destruct (Hd l ltac:(left)) as [?|[?|?]]; [lia|congruence..]. }
  apply IH; [done|]. intros l' Hl'. apply Hd. by right.
Qed.

(** ** A top-up *)

Lemma earn_loop_seen v fuel uid parent_uid edge child u rows :
  within eq (seen v) (earn_loop fuel uid parent_uid edge child u rows) (fun _ => seen v).
Proof.
  revert child u rows. induction fuel as [|fuel IH]; intros child u rows; cbn [earn_loop];
    (destruct (negb _); [apply seen_ret|]); [apply seen_ret|].
  eapply within_bind; [apply _|apply (seen_query Halone)|]. intros [r|]; [|apply seen_ret].
  eapply within_bind with (Q := fun _ => seen v); [apply _| |].
  { destruct (_ && _); [apply seen_ret|apply (seen_query Halone)]. }
  intros share. eapply within_bind with (Q := fun _ => seen v); [apply _| |].
  { destruct (upline_of u r.(cols)); [apply (seen_query Halone)|apply seen_ret]. }
  intros given. destruct (upline_of u r.(cols)); [apply IH|apply seen_ret].
Qed.
Lemma earn_chain_seen v fuel u : within eq (seen v) (earn_chain fuel u) (fun _ => seen v).
Proof.
  unfold earn_chain. eapply within_bind; [apply _|apply (seen_query Halone)|]. intros [r|]; [|apply seen_ret].
  destruct (upline_of u r.(cols)); [|apply seen_ret].
  eapply within_bind; [apply _|apply (seen_query Halone)|]. intros edge. apply earn_loop_seen.
Qed.

Definition topup_ref (order_id : string) (uid : Z) : string := order_id +:+ ":" +:+ pretty uid.
Lemma topup_run fuel payer_iid amount currency order_id ws e w ws' w' :
  let v := view ws w.(db) in let amount_idr := amount_in_idr amount currency in
  shares_ok v -> Z.of_nat (size v.(t_user)) <= 2 ^ 28 -> 0 < payer_iid -> 0 < amount_idr <= 8 * 10 ^ 9 ->
  commission_accrue_on_topup_tx fuel payer_iid amount currency order_id ws e w = (Ok (Some tt, ws'), w') ->
  exists us, Climb v payer_iid us /\
    all_credited payer_iid "wallet_topup" (topup_ref order_id)
      (topup_levels payer_iid amount_idr (chain_rows v us)) v (view ws' w'.(db)).
Proof.
  intros v amount_idr Hsh Hsize Hpay Hamt E. unfold commission_accrue_on_topup_tx in E. fold amount_idr in E.
  rewrite (proj2 (Z.leb_gt _ _)), (proj2 (Z.leb_gt _ _)) in E by lia. cbn [orb] in E.
  apply bind_ok in E as ([a ws1] & w1 & E1 & E). cbn [fst snd] in E.
  pose proof (proj2 (earn_chain_seen v fuel payer_iid _ _ _ _ _ eq_refl E1) _ _ eq_refl) as Hv1.
  assert (sees_net v ws w.(db)) as Hnet by done.
  assert (forall ws n d, calm d (rivals ws n d) /\ locked_out ws d (rivals ws n d)) as Hcalm
    by (intros; rewrite Halone; split; [done|by split]).
  destruct (earn_chain_climbs Hcalm v fuel payer_iid _ _ _ _ _ Hnet E1) as [_ HQ].
  destruct (HQ _ _ eq_refl) as [Ha _]. destruct a as [rows|]; [|by injection E].
  destruct Ha as (us & Hus & ->). exists us. split; [done|].
  apply bind_ok in E as ([[] ws2] & w2 & E2 & E). injection E as <- <-. cbn [fst snd] in *.
  assert (Z.of_nat (length (chain_rows v us)) <= 2 ^ 28 /\
    Forall (fun p => 0 <= p <= 35) (percents (chain_rows v us))) as [Hlen Hp].
  { destruct us as [|u us]; [split; [cbn; lia|constructor]|].
    destruct (chain_rows_sum v Hsh _ _ Hus) as (_ & Hu & Hp); [done|]. split; [|done].
    apply (f_equal length) in Hu. rewrite length_fmap in Hu. rewrite Hu.
    pose proof (climb_size _ _ _ Hus). lia. }
  destruct (topup_levels_facts amount_idr (chain_rows v us) payer_iid Hamt Hlen Hp) as (_ & Hl & _).
  refine (proj2 (credits_credit v payer_iid "wallet_topup" (topup_ref order_id) _ Hl _ _ _ _ _ Hv1 E2) _ _ eq_refl).
Qed.
End Accrual.

(** C9. What a top-up of [amount_idr] rupiah by [payer_iid] credits: the earnings of
    the users above the payer, each under the reference of the order and the
    user.  Whoever has an account and an earning is credited then, no reference
    is ever credited twice, and doing it again for the same order credits
    nothing. *)
Theorem topup_credits_once `{!Chrono} `{!Order} `{!Numerics} `{!NumericsLaws} `{!Rivals}
    (Halone : forall ws n d, rivals ws n d = d) fuel payer_iid amount currency order_id
    ws e w ws' w' :
  let run := commission_accrue_on_topup_tx fuel payer_iid amount currency order_id in
  let v := view ws w.(db) in let v' := view ws' w'.(db) in
  let amount_idr := amount_in_idr amount currency in
  shares_ok v -> Z.of_nat (size v.(t_user)) <= 2 ^ 28 -> 0 < payer_iid -> 0 < amount_idr <= 8 * 10 ^ 9 ->
  run ws e w = (Ok (Some tt, ws'), w') ->
  (exists us, Climb v payer_iid us /\
     let levels := topup_levels payer_iid amount_idr (chain_rows v us) in
     all_credited payer_iid "wallet_topup" (topup_ref order_id) levels v v' /\
     forall uid earn, (uid, earn) ∈ levels -> 0 < earn -> is_Some (account_of uid v) ->
       accrued uid (topup_ref order_id uid) v' = true) /\
  (one_accrual v -> one_accrual v') /\
  forall e2 w2 ws2 w3 ws3, view ws2 w2.(db) = v' -> run ws2 e2 w2 = (Ok (Some tt, ws3), w3) ->
    view ws3 w3.(db) = v'.
Proof.
  intros run v v' amount_idr Hsh Hsize Hpay Hamt E.
  destruct (topup_run Halone _ _ _ _ _ _ _ _ _ _ Hsh Hsize Hpay Hamt E) as (us & Hus & Hc).
  destruct (all_credited_spec _ _ _ _ _ _ Hc) as (Eu & Es & Hkept & Hacct & Hdone & Hone).
  split; [|split; [exact Hone|]].
  { exists us. split; [done|]. split; [exact Hc|]. intros uid earn Hin. exact (Hdone (uid, earn) Hin). }
  intros e2 w2 ws2 w3 ws3 Ev E2. pose proof (topup_run Halone fuel payer_iid amount currency order_id ws2 e2 w2 ws3 w3) as Hrun.
  cbn zeta in Hrun. rewrite Ev in Hrun.
  fold v v' amount_idr in Hc, Eu, Es, Hkept, Hacct, Hdone, Hone, Hus.
  destruct Hrun as (us2 & Hus2 & Hc2); [by intros k r; rewrite Es; apply Hsh|by rewrite Eu|done..|].
  assert (calm v v') as Hcalm by by split.
  rewrite (climb_unique _ _ _ _ Hus2 (climb_net _ _ _ _ Hcalm Hus)) in Hc2.
  rewrite (chain_rows_net v v') in Hc2 by done.
  apply (all_credited_again _ _ _ _ _ _ Hc2). intros [uid earn] Hin. cbn [fst snd].
  destruct (Z.leb_spec earn 0) as [|Hpos]; [by left|right].
  destruct (account_of uid v') as [x|] eqn:Ex; [right|by left].
  apply (Hdone (uid, earn)); [done..|]. apply Hacct. eauto.
Qed.
