(* ===== verification/RedeemProps.v ===== *)
(** * Redeeming a code

    That a redemption beside others takes place at one moment, and counts one use
    of a code that could be used then. *)
From S2P Require Import Prelude Strs Ts World Json Db Shared F64 ReferralData Referral ReferralTree.
From S2P Require Import Commission ReferralFacts.

Section Redeem.
Context `{!Chrono} `{!Order} `{!Numerics} `{!Platform} `{!Rivals}.
Context (R : Referrals -> Referrals -> Prop) `{!PreOrder R}.
Context (Hrivals : forall ws n d, R d (rivals ws n d) /\ locked_out ws d (rivals ws n d)).

(** The rows a redemption has locked are those of the database. *)
Definition holds_code (code : string) (row : option (Row CodeRow * (Z * Row UserRow)))
    (ws : RefWrites) (d : Referrals) : Prop :=
  match row with
  | None => True
  | Some (r, (issuer, u)) =>
      ws = {| ref_no_writes with w_code := {[ code := r ]}; w_user := {[ issuer := u ]} |} /\
      signup_code_select code d = Some (r, (issuer, u))
  end.
Lemma signup_code_select_some code d r issuer u : signup_code_select code d = Some (r, (issuer, u)) <->
  d.(t_code) !! code = Some r /\ d.(t_user) !! issuer = Some u /\ issuer = r.(cols).(CodeRow.issued_by_iid).
Proof.
  unfold signup_code_select. split.
  - intros (r' & Hr & (u' & Hu & E)%bind_Some)%bind_Some. injection E as -> <- ->. done.
  - intros (-> & Hu & ->). cbn. by rewrite Hu.
Qed.
Lemma holds_code_stable code row : stable R (holds_code code row).
Proof.
  intros ws d d' Hh _ HL. destruct row as [[r [issuer u]]|]; [|done]. destruct Hh as [-> (Hc & Hu & Hi)%signup_code_select_some].
  split; [done|]. apply signup_code_select_some. destruct HL as [Lu Lc _ _ _ _ _ _ _ _]. cbn in Lu, Lc.
  rewrite (Lc code), (Lu issuer) by (rewrite lookup_singleton_eq; eauto). done.
Qed.
Lemma holds_code_view code r issuer u ws d : holds_code code (Some (r, (issuer, u))) ws d -> view ws d = d.
Proof.
  intros [-> (Hc & Hu & _)%signup_code_select_some]. destruct d as [tu tc ts ta tl tw]. cbn in *.
  unfold ref_view. cbn. rewrite !(left_id_L ∅ (∪)).
  by rewrite <- !insert_union_singleton_l, !insert_id.
Qed.

(** What a redemption does to a database: the code could be used at [now], and one
    use is counted. *)
Definition redeemed (code : string) (info : ReferralSignupCode) (d d' : Referrals) : Prop :=
  exists r issuer u now now',
    signup_code_select code d = Some (r, (issuer, u)) /\
    signup_info code (Some (r, (issuer, u))) now = Some info /\
    r.(cols).(CodeRow.used_count) < 2 ^ 31 - 1 /\
    d' = {| d with t_code := <[code := set_cols now' (fun c =>
      {| c with CodeRow.used_count := c.(CodeRow.used_count) + 1 |}) r]> d.(t_code) |}.

Lemma redeem_redeems raw_code e w r w' :
  referral_signup_code_redeem raw_code e w = (r, w') ->
  exists d, R w.(db) d /\
    ((exists x, r = Err x) /\ w'.(db) = d \/
     exists info, r = Ok info /\ redeemed (normalize_code raw_code) info d w'.(db)).
Proof.
  unfold referral_signup_code_redeem. destruct (is_empty _).
  { intros [= <- <-]. exists w.(db). split; [done|]. eauto. }
  set (code := normalize_code raw_code). intros E.
  eapply (txn_cases R Hrivals _ (fun _ => True) (fun info ws d => exists ws0 r u issuer now now',
    holds_code code (Some (r, (issuer, u))) ws0 d /\
    signup_info code (Some (r, (issuer, u))) now = Some info /\
    r.(cols).(CodeRow.used_count) < 2 ^ 31 - 1 /\
    ws = merge_writes (write_code code (set_cols now' (fun c =>
      {| c with CodeRow.used_count := c.(CodeRow.used_count) + 1 |}) r)) ws0)) in E.
  1: destruct E as (d & HR & [E|(info & ws & -> & (ws0 & r1 & u & issuer & now & now' & Hh & Hi & Hu & ->) & E)]);
       exists d; (split; [done|]); [by left|right].
  { exists info. split; [done|]. exists r1, issuer, u, now, now'. split_and!; [by destruct Hh|done..|].
    rewrite E, ref_view_merge, (holds_code_view _ _ _ _ _ _ Hh). apply view_write_code. }
  all: try done.
  - eapply within_bind; [apply _| |].
    { eapply (within_stmt R Hrivals _ _ (fun row => holds_code code row)).
      - intros ws d d' [-> _] _ _. done.
      - intros now ws d row new [-> _] E1. rewrite view_no_writes in E1. injection E1 as <- <-.
        destruct (signup_code_select code d) as [[r1 [issuer u]]|] eqn:Es; [|done]. split; [|done].
        cbn. unfold ref_merge. cbn. by rewrite !(right_id_L ∅ (∪)). }
    intros row. eapply within_bind; [apply _| |].
    { apply (within_code R _ _ (fun _ => holds_code code row)); [apply reads_utc_now|done]. }
    intros now. eapply within_bind; [apply _| |].
    { apply (within_lift R _ _ (fun info ws d => exists r1 issuer u, row = Some (r1, (issuer, u)) /\
        signup_info code row now = Some info /\ holds_code code row ws d)).
      intros ws d info Ei Hh. destruct (signup_info code row now) eqn:Es; [|done]. injection Ei as <-.
      destruct row as [[r1 [issuer u]]|]; [|done]. eauto 10. }
    intros info. eapply within_bind; [apply _| |].
    { eapply (within_stmt R Hrivals _ _ (fun _ ws d => exists ws0 r1 u issuer now now',
        holds_code code (Some (r1, (issuer, u))) ws0 d /\
        signup_info code (Some (r1, (issuer, u))) now = Some info /\
        r1.(cols).(CodeRow.used_count) < 2 ^ 31 - 1 /\
        ws = merge_writes (write_code code (set_cols now' (fun c =>
          {| c with CodeRow.used_count := c.(CodeRow.used_count) + 1 |}) r1)) ws0)).
      - intros ws d d' (r1 & issuer & u & -> & Hi & Hh) HR HL. exists r1, issuer, u.
        split_and!; [done..|]. by eapply holds_code_stable.
      - intros now' ws d a new (r1 & issuer & u & -> & Hi & Hh) E1.
        rewrite (holds_code_view _ _ _ _ _ _ Hh) in E1. pose proof Hh as [_ (Hc & _)%signup_code_select_some].
        rewrite Hc in E1. destruct (Z.ltb_spec (cols r1).(CodeRow.used_count) (2 ^ 31 - 1)); [|done].
        injection E1 as _ <-. exists ws, r1, u, issuer, now, now'. done. }
    intros []. by apply within_ret; [apply _|].
  - intros info ws d d' (ws0 & r1 & u & issuer & now & now' & Hh & Hi & Hu & ->) HR HL.
    exists ws0, r1, u, issuer, now, now'. split_and!; try done.
    assert (locked_out ws0 d d') as HL0; [|by eapply holds_code_stable].
    eapply locked_out_merge; [| |exact HL].
    + intros owner k Hp. exists k. cbn. by rewrite (left_id_L ∅ (∪)).
    + intros owner ref k Hp. exists k. cbn. by rewrite (left_id_L ∅ (∪)).
Qed.
End Redeem.

(** C13. Whatever others do that respects the rows a redemption locks: it takes place
    at one moment, on the database [d] of then.  It succeeds for a code that is no
    package, has not expired and has a use left; then it counts one use, never
    beyond the limit, changes nothing else and answers with the code and its
    issuer.  Failing leaves [d] as it is. *)
Theorem referral_code_redeemed `{!Chrono} `{!Order} `{!Numerics} `{!Platform} `{!Rivals}
    (R : Referrals -> Referrals -> Prop) (HR : PreOrder R)
    (Hrivals : forall ws n d, R d (rivals ws n d) /\ locked_out ws d (rivals ws n d))
    raw_code e w r w' :
  referral_signup_code_redeem raw_code e w = (r, w') ->
  let code := normalize_code raw_code in
  exists d, R w.(db) d /\
  match r with
  | Err _ => w'.(db) = d
  | Ok info => exists row u now now',
      let c := row.(cols) in let max_uses := meta_i32 c.(CodeRow.meta) "max_uses" in
      d.(t_code) !! code = Some row /\ d.(t_user) !! c.(CodeRow.issued_by_iid) = Some u /\
      meta_str c.(CodeRow.meta) "type" <> "package" /\
      (0 < expires_ms c -> timestamp_millis now < expires_ms c) /\
      (0 < max_uses -> c.(CodeRow.used_count) + 1 <= max_uses) /\
      info.(ReferralSignupCode.code) = code /\
      info.(ReferralSignupCode.issued_by_iid) = c.(CodeRow.issued_by_iid) /\
      info.(ReferralSignupCode.issuer_name) = u.(cols).(UserRow.name) /\
      w'.(db) = {| d with t_code := <[code := set_cols now' (fun c =>
        {| c with CodeRow.used_count := c.(CodeRow.used_count) + 1 |}) row]> d.(t_code) |}
  end.
Proof.
  intros E code. destruct (redeem_redeems R Hrivals _ _ _ _ _ E) as (d & HRd & Hr). exists d. split; [done|].
  destruct Hr as [([x ->] & ->)|(info & -> & row & issuer & u & now & now' & Hs & Hi & Hu & ->)]; [done|].
  apply signup_code_select_some in Hs as (Hc & Hus & ->). exists row, u, now, now'.
  cbn [signup_info] in Hi. unfold referral_signup_code_from_row, referral_signup_code_valid in Hi.
  destruct (String.eqb_spec (meta_str (cols row).(CodeRow.meta) "type") "package"); [done|].
  destruct ((0 <? expires_ms _) && _) eqn:Ex; [done|].
  destruct ((0 <? _) && (_ <=? (cols row).(CodeRow.used_count))) eqn:Em; [done|]. injection Hi as <-.
  cbn zeta. rewrite andb_false_iff, Z.ltb_ge, Z.leb_gt in Ex, Em.
  split_and!; try done; lia.
Qed.
