(* ===== verification/WithdrawProps.v ===== *)
(** * Payouts: asking and deciding

    That a payout beside others takes place at one moment, what it changes then,
    and that amounts without cents are moved exactly. *)
From stdpp Require Import pretty.
From S2P Require Import Prelude Strs Ts World Json Db Shared F64 ReferralData Referral ReferralTree.
From S2P Require Import Commission Withdraw ReferralFacts.

Lemma checked_account_ok c c' : checked_account c = Ok c' -> c' = c.
Proof. unfold checked_account. case_match; congruence. Qed.

Lemma payout_owner `{!Numerics} cur wallet amount c c' : payout cur wallet amount c = Ok c' ->
  c'.(AccountRow.owner_iid) = c.(AccountRow.owner_iid).
Proof.
  unfold payout, payout_idr, payout_usd. intros E.
  destruct (in_idr cur); apply result_bind_ok in E as (x & _ & E);
    destruct wallet; apply result_bind_ok in E as (y & _ & E); by injection E as <-.
Qed.

Section Held.
Context `{!Chrono} `{!Order} `{!Numerics} `{!Casing} `{!Rivals}.
Context (R : Referrals -> Referrals -> Prop) `{!PreOrder R}.
Context (Hrivals : forall ws n d, R d (rivals ws n d) /\ locked_out ws d (rivals ws n d)).
Context (owner : Z).
Implicit Types (ledger : gmap Z (Row LedgerRow)) (requests : gmap Z (Row WithdrawRow)).

(** A transaction that has locked an account and changed it to [now], and has
    inserted entries and requests for an owner without one *)
Definition holding (account : Z) (r : Row AccountRow) (now : Row AccountRow) ledger requests
    (ws : RefWrites) (d : Referrals) : Prop :=
  ws = {| ref_no_writes with w_account := {[ account := now ]}; w_ledger := ledger;
          w_withdraw := requests |} /\
  d.(t_account) !! account = Some r /\
  (forall k, is_Some (ledger !! k) -> d.(t_ledger) !! k = None) /\
  (forall k, is_Some (requests !! k) -> d.(t_withdraw) !! k = None) /\
  forall k0 k, has_pending owner k0 requests -> ~ has_pending owner k d.(t_withdraw).
Lemma holding_stable account r now ledger requests : stable R (holding account r now ledger requests).
Proof.
  intros ws d d' (-> & Ha & Hl & Hw & Hp) _ HL. destruct HL as [_ _ _ La Ll Lw _ _ Lp _]. cbn in *.
  split; [done|]. split; [by rewrite La; [|rewrite lookup_singleton_eq; eauto]|].
  split; [intros k Hk; rewrite Ll; auto|]. split; [intros k Hk; rewrite Lw; auto|].
  intros k0 k Hk0 Hk. by eapply Hp, Lp.
Qed.
Lemma holding_view account r now ledger requests ws d : holding account r now ledger requests ws d ->
  view ws d = {| d with t_account := <[account := now]> d.(t_account);
    t_ledger := ledger ∪ d.(t_ledger); t_withdraw := requests ∪ d.(t_withdraw) |}.
Proof.
  intros (-> & _). cbn. unfold ref_view. cbn. by rewrite !(left_id_L ∅ (∪)), insert_union_singleton_l.
Qed.

(** Locking the account *)
Lemma holding_account : within R (fun ws d => ws = no_writes)
  (tstmt (fun _ d =>
    let row := account_of owner d in
    Ok (row, match row with Some (id, r) => write_account id r | None => no_writes end)))
  (fun row ws d => match row with
   | None => True
   | Some (id, r) => (r.(cols).(AccountRow.owner_iid) = owner /\ live r = true) /\
       holding id r r ∅ ∅ ws d
   end).
Proof.
  apply (within_stmt R Hrivals); [by intros ws d d' -> _ _|]. intros now ws d row new -> E.
  rewrite view_no_writes in E. injection E as <- <-.
  destruct (account_of owner d) as [[id r]|] eqn:Ea; [|done].
  apply account_of_some in Ea as (Hr & Ho & Hl). split; [done|].
  split. { cbn. unfold ref_merge. cbn. by rewrite !(right_id_L ∅ (∪)). }
  split; [done|]. split; [intros k; rewrite lookup_empty; by intros [? [=]]|].
  split; [intros k; rewrite lookup_empty; by intros [? [=]]|].
  intros k0 k (x & Hx & _). by rewrite lookup_empty in Hx.
Qed.
(** A statement under the lock *)
Lemma holding_stmt {A} account r now ledger requests (f : DateTime -> Referrals -> result (A * RefWrites))
    (Q : A -> RefWrites -> Referrals -> Prop) :
  (forall t ws d a new, holding account r now ledger requests ws d ->
    f t {| d with t_account := <[account := now]> d.(t_account); t_ledger := ledger ∪ d.(t_ledger);
           t_withdraw := requests ∪ d.(t_withdraw) |} = Ok (a, new) ->
    Q a (merge_writes new ws) d) ->
  within R (holding account r now ledger requests) (tstmt f) Q.
Proof.
  intros HQ. apply (within_stmt R Hrivals); [apply holding_stable|]. intros t ws d a new Hh E.
  rewrite (holding_view _ _ _ _ _ _ _ Hh) in E. by eapply HQ.
Qed.
(** Inserting an entry and a request; [u] and [i] are the amounts. *)
Lemma holding_entry account r now id (u i : result num) (entry : num -> num -> LedgerRow) :
  within R (holding account r now ∅ ∅)
    (tstmt (fun t d =>
      usd ← u; idr ← i;
      match d.(t_ledger) !! id with
      | Some _ => Err "duplicate key value violates unique constraint"
      | None => Ok (tt, write_ledger {[ id := new_row t (entry usd idr) ]})
      end))
    (fun _ ws d => exists t usd idr, (u = Ok usd /\ i = Ok idr) /\
      holding account r now {[ id := new_row t (entry usd idr) ]} ∅ ws d).
Proof.
  apply holding_stmt. intros t ws d a new Hh E.
  apply result_bind_ok in E as (usd & Eu & E). apply result_bind_ok in E as (idr & Ei & E).
  cbn [t_ledger] in E. rewrite (left_id_L ∅ (∪)) in E. destruct (t_ledger d !! id) eqn:Ed; [done|].
  injection E as _ <-. destruct Hh as (-> & Ha & _ & _ & Hp). exists t, usd, idr. split; [done|].
  split. { cbn. unfold ref_merge. cbn. by rewrite !(left_id_L ∅ (∪)), !(right_id_L ∅ (∪)). }
  split; [done|]. split; [intros k [y [<- _]%lookup_singleton_Some]; done|]. split; [|done].
  intros k. rewrite lookup_empty. by intros [? [=]].
Qed.
Lemma not_pending_live d k : pending_live owner d = false -> ~ has_pending owner k d.(t_withdraw).
Proof.
  unfold pending_live. intros Hf (r & Hr & Hp & Hl). assert (false = true); [|done]. rewrite <- Hf.
  apply existsb_exists. exists (k, r). split; [|by rewrite andb_true_iff].
  by rewrite <- list_elem_of_In, order_perm, elem_of_map_to_list.
Qed.
Lemma holding_request account r now ledger id (u i : result num) (request : num -> num -> WithdrawRow) :
  within R (holding account r now ledger ∅)
    (tstmt (fun t d =>
      usd ← u; idr ← i;
      match d.(t_withdraw) !! id with
      | Some _ => Err "duplicate key value violates unique constraint"
      | None =>
          if pending_live owner d then Err "duplicate key value violates unique constraint"
          else Ok (tt, write_withdraw id (new_row t (request usd idr)))
      end))
    (fun _ ws d => exists t usd idr, (u = Ok usd /\ i = Ok idr) /\
      holding account r now ledger {[ id := new_row t (request usd idr) ]} ws d).
Proof.
  apply holding_stmt. intros t ws d a new Hh E.
  apply result_bind_ok in E as (usd & Eu & E). apply result_bind_ok in E as (idr & Ei & E).
  cbn [t_withdraw] in E. rewrite (left_id_L ∅ (∪)) in E. destruct (t_withdraw d !! id) eqn:Ed; [done|].
  destruct (pending_live owner _) eqn:Ep; [done|].
  injection E as _ <-. destruct Hh as (-> & Ha & Hl & _). exists t, usd, idr. split; [done|].
  split. { cbn. unfold ref_merge. cbn. by rewrite !(left_id_L ∅ (∪)), !(right_id_L ∅ (∪)). }
  split; [done|]. split; [done|]. split; [intros k [y [<- _]%lookup_singleton_Some]; done|].
  intros k0 k _. exact (not_pending_live _ k Ep).
Qed.
(** Changing the account *)
Lemma holding_update account r ledger requests (f : AccountRow -> result AccountRow) :
  within R (holding account r r ledger requests) (update_account account f)
    (fun _ ws d => exists t c, (f r.(cols) = Ok c /\ checked_account c = Ok c) /\
      holding account r (set_cols t (fun _ => c) r) ledger requests ws d).
Proof.
  apply holding_stmt. intros t ws d a new Hh E. cbn [t_account] in E. rewrite lookup_insert_eq in E.
  apply result_bind_ok in E as (c & Ef & E). apply result_bind_ok in E as (c' & Ec & E).
  injection E as _ <-. pose proof (checked_account_ok _ _ Ec) as ->.
  exists t, c. split; [done|]. destruct Hh as (-> & Ha & Hl & Hw & Hp). split; [|done].
  cbn. unfold ref_merge. cbn. rewrite !(left_id_L ∅ (∪)), ?(right_id_L ∅ (∪)).
  by rewrite <- insert_union_singleton_l, insert_singleton_eq.
Qed.

(** ** The transaction *)

Section Txn.
Context (cur : string) (amount : f64) (wallet : bool) (bank_id account_number account_name : string).

(** A payout as a step from a database to the next *)
Definition withdrawn (account : Z) (r : Row AccountRow) (c : AccountRow) (res : ResCommissionWithdraw)
    (d d' : Referrals) : Prop :=
  exists ledger_id request_id usd idr t1 t2 t3,
    d.(t_account) !! account = Some r /\ r.(cols).(AccountRow.owner_iid) = owner /\ live r = true /\
    fltb (fadd (available_of cur r.(cols)) EPSILON) amount = false /\
    payout cur wallet amount r.(cols) = Ok c /\ checked_account c = Ok c /\
    usd_of cur amount = Ok usd /\ idr_of cur amount = Ok idr /\
    d.(t_ledger) !! ledger_id = None /\
    (wallet = false -> d.(t_withdraw) !! request_id = None /\
       forall k, ~ has_pending owner k d.(t_withdraw)) /\
    res = withdraw_answer cur wallet amount r.(cols) /\
    d' = {| d with
      t_account := <[account := set_cols t1 (fun _ => c) r]> d.(t_account);
      t_ledger := <[ledger_id := new_row t2 (withdraw_entry owner cur wallet
        (withdraw_reference (if wallet then ledger_id else request_id)) usd idr)]> d.(t_ledger);
      t_withdraw := if wallet then d.(t_withdraw)
        else <[request_id := new_row t3 (withdraw_request owner cur bank_id account_number account_name
          usd idr)]> d.(t_withdraw) |}.

(** The end of the transaction *)
Definition withdrawing (res : ResCommissionWithdraw) (ws : RefWrites) (d : Referrals) : Prop :=
  exists account r c ledger_id request_id usd idr t1 t2 t3,
    r.(cols).(AccountRow.owner_iid) = owner /\ live r = true /\
    fltb (fadd (available_of cur r.(cols)) EPSILON) amount = false /\
    payout cur wallet amount r.(cols) = Ok c /\ checked_account c = Ok c /\
    usd_of cur amount = Ok usd /\ idr_of cur amount = Ok idr /\
    res = withdraw_answer cur wallet amount r.(cols) /\
    holding account r (set_cols t1 (fun _ => c) r)
      {[ ledger_id := new_row t2 (withdraw_entry owner cur wallet
        (withdraw_reference (if wallet then ledger_id else request_id)) usd idr) ]}
      (if wallet then ∅ else {[ request_id := new_row t3 (withdraw_request owner cur bank_id
        account_number account_name usd idr) ]}) ws d.
Lemma withdrawing_stable res : stable R (withdrawing res).
Proof.
  intros ws d d' (account & r & c & lid & rid & usd & idr & t1 & t2 & t3 & Hw) HR HL.
  destruct_and! Hw. exists account, r, c, lid, rid, usd, idr, t1, t2, t3. split_and!; try done.
  by eapply holding_stable.
Qed.
Lemma withdrawing_withdrawn res ws d : withdrawing res ws d ->
  exists account r c, withdrawn account r c res d (view ws d).
Proof.
  intros (account & r & c & lid & rid & usd & idr & t1 & t2 & t3 & ? & ? & ? & ? & ? & ? & ? & ? & Hh).
  exists account, r, c, lid, rid, usd, idr, t1, t2, t3.
  rewrite (holding_view _ _ _ _ _ _ _ Hh). destruct Hh as (_ & Ha & Hl & Hw & Hp). split_and!; try done.
  - apply Hl. rewrite lookup_singleton_eq. eauto.
  - intros ->. split; [apply Hw; rewrite lookup_singleton_eq; eauto|]. intros k. apply (Hp rid).
    eexists. rewrite lookup_singleton_eq. split; [done|]. split; [|done].
    unfold pending_of. cbn. by rewrite Z.eqb_refl.
  - rewrite <- insert_union_singleton_l. destruct wallet; [by rewrite (left_id_L ∅ (∪))|].
    by rewrite <- insert_union_singleton_l.
Qed.

Lemma withdraw_txn_within : within R (fun ws d => ws = no_writes)
  (withdraw_txn owner cur amount wallet bank_id account_number account_name) withdrawing.
Proof.
  unfold withdraw_txn. eapply within_bind; [apply _|apply holding_account|]. intros row.
  eapply within_bind; [apply _| |].
  { apply (within_lift R _ _ (fun x ws d =>
      (x.2.(cols).(AccountRow.owner_iid) = owner /\ live x.2 = true) /\ holding x.1 x.2 x.2 ∅ ∅ ws d)).
    intros ws d x Ex Hx. destruct row as [[id r]|]; [|done]. injection Ex as <-. exact Hx. }
  intros [account r]. cbn [fst snd]. apply within_pure. intros [Ho Hl].
  eapply within_bind with (Q := fun _ ws d =>
    fltb (fadd (available_of cur r.(cols)) EPSILON) amount = false /\ holding account r r ∅ ∅ ws d); [apply _| |].
  { destruct (fltb _ _); [by apply within_lift|by apply within_ret; [apply _|]]. }
  intros []. apply within_pure. intros Hlt.
  eapply within_bind with (Q := fun _ => holding account r r ∅ ∅); [apply _| |].
  { destruct wallet; [by apply within_ret; [apply _|]|].
    eapply within_bind with (Q := fun _ => holding account r r ∅ ∅); [apply _| |].
    - apply holding_stmt. intros t ws d a new Hh E. assert (new = no_writes) as -> by congruence. by rewrite merge_no_writes.
    - intros []; [by apply within_lift|by apply within_ret; [apply _|]]. }
  intros []. eapply within_bind; [apply _| |].
  { apply (within_code R _ _ (fun _ => holding account r r ∅ ∅)); [apply reads_next_id|done]. }
  intros lid. eapply within_bind with (Q := fun _ => holding account r r ∅ ∅); [apply _| |].
  { destruct wallet; [by apply within_ret; [apply _|]|].
    apply (within_code R _ _ (fun _ => holding account r r ∅ ∅)); [apply reads_next_id|done]. }
  intros rid. eapply within_bind; [apply _|apply holding_entry|]. intros [].
  apply within_exists. intros t2. apply within_exists. intros usd. apply within_exists. intros idr.
  apply within_pure. intros [Eu Ei].
  set (entry := {[ lid := new_row t2 _ ]}).
  eapply within_bind with (Q := fun _ ws d => exists t3, holding account r r entry
    (if wallet then ∅ else {[ rid := new_row t3 (withdraw_request owner cur bank_id
        account_number account_name usd idr) ]}) ws d); [apply _| |].
  { destruct wallet; [apply within_ret; [apply _|]; intros; by exists t2|].
    eapply within_conseq; [apply holding_request|done|]. cbn beta.
    intros _ ws d (t3 & usd' & idr' & [Eu' Ei'] & Hh). exists t3.
    assert (usd' = usd) as -> by congruence. assert (idr' = idr) as -> by congruence. exact Hh. }
  intros []. apply within_exists. intros t3. eapply within_bind; [apply _|apply holding_update|].
  intros []. apply within_ret; [apply _|]. intros ws d (t1 & c & [Hc Hk] & Hh).
  exists account, r, c, lid, rid, usd, idr, t1, t2, t3. split_and!; done.
Qed.
Lemma withdraw_txn_withdraws e w r w' :
  txn (withdraw_txn owner cur amount wallet bank_id account_number account_name) e w = (r, w') ->
  exists d, R w.(db) d /\ match r with
    | Err _ => w'.(db) = d
    | Ok res => exists account r c, withdrawn account r c res d w'.(db)
    end.
Proof.
  intros E. destruct (txn_cases R Hrivals
    (withdraw_txn owner cur amount wallet bank_id account_number account_name)
    (fun _ => True) withdrawing e w r w') as (d & HR & Hd); try done.
  - eapply within_conseq; [apply withdraw_txn_within|by intros ws d [-> _]|done].
  - intros res. apply withdrawing_stable.
  - exists d. split; [done|]. destruct Hd as [([x ->] & ->)|(res & ws & -> & Hw & ->)]; [done|].
    by apply withdrawing_withdrawn.
Qed.
End Txn.

(** ** The handler *)

Lemma respects_bank_details bank_id account_number account_name :
  respects R (bank_details owner bank_id account_number account_name).
Proof.
  unfold bank_details. destruct (_ || _); [by apply respects_throw|].
  apply respects_bind; [done|by apply respects_read, (rivals_others R Hrivals)|]. intros row.
  repeat case_match; by (apply respects_throw || apply respects_ret).
Qed.
Definition user_name (d : Referrals) : string :=
  match d.(t_user) !! owner with Some r => r.(cols).(UserRow.name) | None => "" end.
Lemma bank_details_ok bank_id account_number account_name e w w' :
  bank_details owner bank_id account_number account_name e w = (Ok tt, w') ->
  R w.(db) w'.(db) /\ normalize_name account_name = normalize_name (user_name w'.(db)).
Proof.
  intros E. split; [by eapply respects_bank_details|]. unfold bank_details in E.
  destruct (_ || _); [done|]. apply bind_ok in E as (row & w1 & E1 & E).
  apply read_ok in E1 as [Ed [_ ->]]. rewrite <- Ed in E. unfold user_name.
  destruct (is_empty _); [done|].
  destruct (String.eqb_spec (normalize_name account_name) (normalize_name
    (match w1.(db).(t_user) !! owner with Some r => r.(cols).(UserRow.name) | None => "" end))) as [Hn|];
    [|done]. by injection E as <-.
Qed.
End Held.

(** ** Whole amounts *)

Section Whole.
Context `{!Numerics} `{!NumericsLaws}.

(** The check lets no whole amount above what is available pass. *)
Lemma check_whole x y a z : denotes x a -> denotes y z -> 0 <= a < 10 ^ 15 ->
  fltb (fadd x EPSILON) y = false -> z <= a.
Proof.
  intros Hx Hy Ha Hlt. assert (0 < 2 ^ 1073) as HU by (apply Z.pow_pos_nonneg; lia).
  assert (2 ^ 1074 = 2 * 2 ^ 1073) as EU by (rewrite <- Z.pow_succ_r by lia; done).
  assert (2 ^ 1073 = 2 ^ 66 * 2 ^ 1007) as EV by (rewrite <- Z.pow_add_r by lia; done).
  assert (0 < 2 ^ 1007) by (apply Z.pow_pos_nonneg; lia).
  assert (measures EPSILON (7378697629483821 * 2 ^ 1008)) as He.
  { by exists false, 7378697629483821, (-66). }
  assert (2 ^ 1008 = 2 * 2 ^ 1007) as E8 by (rewrite <- Z.pow_succ_r by lia; done).
  set (U := 2 ^ 1073) in *. set (V := 2 ^ 1007) in *.
  unfold denotes in *. rewrite EU in *. rewrite E8 in He.
  destruct (fadd_between x EPSILON _ _ 1 Hx He) as (v & Hv & _ & Hc); [nia|lia|rewrite EU; nia|].
  rewrite (fltb_measures _ _ _ _ Hv Hy) in Hlt. apply Z.ltb_ge in Hlt.
  destruct (Hc (2 * a + 1)) as [Hle _]. change (1074 - 1) with 1073 in Hle. fold U in Hle.
  rewrite EU in Hle. assert (v <= (2 * a + 1) * U) as Hvle by (apply Hle; lia). nia.
Qed.

(** The columns of rupiah or dollars *)
Definition available_num (idr : bool) (c : AccountRow) : num :=
  if idr then c.(AccountRow.commission_available_idr) else c.(AccountRow.commission_available_usd).
Definition receives_num (idr wallet : bool) (c : AccountRow) : num :=
  match idr, wallet with
  | true, true => c.(AccountRow.balance_idr)
  | true, false => c.(AccountRow.commission_pending_idr)
  | false, true => c.(AccountRow.balance_usd)
  | false, false => c.(AccountRow.commission_pending_usd)
  end.
(** Below this many rupiah or dollars all of them have room *)
Definition room (idr : bool) : Z := if idr then 10 ^ 12 else 10 ^ 8.
Definition scale (idr : bool) : Z := if idr then 2 else 4.

Lemma payout_whole cur wallet amount r c a b z :
  fltb (fadd (available_of cur r) EPSILON) amount = false -> payout cur wallet amount r = Ok c ->
  available_num (in_idr cur) r = whole (scale (in_idr cur)) a -> receives_num (in_idr cur) wallet r = whole (scale (in_idr cur)) b ->
  denotes amount z -> 0 <= a < room (in_idr cur) -> 0 <= b -> 0 <= z -> b + z < room (in_idr cur) ->
  z <= a /\ available_num (in_idr cur) c = whole (scale (in_idr cur)) (a - z) /\
  receives_num (in_idr cur) wallet c = whole (scale (in_idr cur)) (b + z).
Proof.
  unfold available_of, payout, available_num, receives_num, scale, room.
  intros Hlt Hp Ha Hb Hz Ha0 Hb0 Hz0 Hbz.
  assert (z <= a) as Hle.
  { eapply check_whole; [|exact Hz| |exact Hlt]; [|destruct (in_idr cur); lia]. destruct (in_idr cur); rewrite Ha; apply float8_of_int; lia. }
  split; [done|]. destruct (in_idr cur); unfold payout_idr, payout_usd in Hp;
    rewrite Ha in Hp; (rewrite (num_sub_int _ _ a z amount) in Hp by fits); cbn in Hp;
    destruct wallet; rewrite Hb in Hp;
    (rewrite (num_add_int _ _ b z amount) in Hp by fits); by injection Hp as <-.
Qed.
End Whole.

Section Run.
Context `{!Chrono} `{!Order} `{!Numerics} `{!Casing} `{!Rivals}.
Context (R : Referrals -> Referrals -> Prop) `{!PreOrder R}.
Context (Hrivals : forall ws n d, R d (rivals ws n d) /\ locked_out ws d (rivals ws n d)).

(** The handler: the details of the bank are checked before the transaction. *)
Lemma withdraw_run owner_iid req e w r w' :
  commission_withdraw owner_iid req e w = (r, w') ->
  exists d0 d, R w.(db) d0 /\ R d0 d /\
  match r with
  | Err _ => w'.(db) = d
  | Ok res => exists cur amount (wallet : bool) account row c,
      let account_name := trim req.(ReqCommissionWithdraw.account_name) in
      0 < owner_iid /\
      withdraw_amount req.(ReqCommissionWithdraw.currency) req.(ReqCommissionWithdraw.amount_usd)
        req.(ReqCommissionWithdraw.amount_idr) = Ok (cur, amount) /\
      str_to_lowercase (trim req.(ReqCommissionWithdraw.payout_method)) =
        (if wallet then "wallet_credit" else "bank_transfer") /\
      (wallet = false -> normalize_name account_name = normalize_name (user_name owner_iid d0)) /\
      withdrawn owner_iid cur amount wallet (trim req.(ReqCommissionWithdraw.bank_id))
        (trim req.(ReqCommissionWithdraw.account_number)) account_name account row c res d w'.(db)
  end.
Proof.
  intros E. unfold commission_withdraw in E.
  destruct (Z.leb_spec owner_iid 0) as [|Ho]; [injection E as <- <-; by exists w.(db), w.(db)|].
  apply bind_cases in E as [(x & E1 & ->)|([cur amount] & w1 & E1 & E)].
  { destruct (withdraw_amount _ _ _); [done|]. injection E1 as _ <-. by exists w.(db), w.(db). }
  destruct (withdraw_amount _ _ _) as [ca|] eqn:Ew; [|done]. injection E1 as -> <-. cbn [fst snd] in E.
  set (method := str_to_lowercase _) in *.
  destruct (negb _ && _) eqn:Em; [injection E as <- <-; by exists w.(db), w.(db)|].
  assert (method = if String.eqb method "wallet_credit" then "wallet_credit" else "bank_transfer") as Hm.
  { destruct (String.eqb_spec method "wallet_credit") as [|_]; [done|].
    by destruct (String.eqb_spec method "bank_transfer"). }
  apply bind_cases in E as [(x & E1 & ->)|([] & w1 & E1 & E)].
  { exists w.(db), w'.(db). split_and!; [done| |done]. destruct (String.eqb method "bank_transfer"); [|done].
    by eapply respects_bank_details. }
  apply withdraw_txn_withdraws with (R := R) in E as (d & HRd & Hr); [|done..].
  assert (R w.(db) w1.(db) /\ (String.eqb method "wallet_credit" = false ->
    normalize_name (trim req.(ReqCommissionWithdraw.account_name)) = normalize_name (user_name owner_iid w1.(db))))
    as [HR1 Hname].
  { destruct (String.eqb_spec method "bank_transfer") as [Eb|Hb].
    - apply bank_details_ok with (R := R) in E1 as [HR1 Hn]; [|done..]. done.
    - injection E1 as <-. split; [done|]. intros Hf. by rewrite Hf in Hm. }
  exists w1.(db), d. split_and!; [done..|]. destruct r as [res|x]; [|done].
  destruct Hr as (account & row & c & Hw).
  exists cur, amount, (String.eqb method "wallet_credit"), account, row, c.
  split_and!; done.
Qed.
End Run.

(** C10. Whatever others do that respects the rows a payout locks: it takes place at
    one moment, on the database [d] of then, from a live account of the owner with
    enough commission.  The amount leaves the commission for the wallet, or for
    what is pending with a request to a bank in the user's name, of which the
    owner has no other; an entry of the ledger records it, and nothing else
    changes.  Whole amounts are at most what is available and are moved exactly.
    Failing leaves [d] as it is. *)
Theorem commission_withdraw_moves `{!Chrono} `{!Order} `{!Numerics} `{!NumericsLaws} `{!Casing} `{!Rivals}
    (R : Referrals -> Referrals -> Prop) (HR : PreOrder R)
    (Hrivals : forall ws n d, R d (rivals ws n d) /\ locked_out ws d (rivals ws n d))
    owner_iid req e w r w' :
  commission_withdraw owner_iid req e w = (r, w') ->
  exists d0 d, R w.(db) d0 /\ R d0 d /\
  match r with
  | Err _ => w'.(db) = d
  | Ok res => exists cur amount (wallet : bool) account row c,
      let account_name := trim req.(ReqCommissionWithdraw.account_name) in
      0 < owner_iid /\
      withdraw_amount req.(ReqCommissionWithdraw.currency) req.(ReqCommissionWithdraw.amount_usd)
        req.(ReqCommissionWithdraw.amount_idr) = Ok (cur, amount) /\
      str_to_lowercase (trim req.(ReqCommissionWithdraw.payout_method)) =
        (if wallet then "wallet_credit" else "bank_transfer") /\
      (wallet = false -> normalize_name account_name = normalize_name (user_name owner_iid d0)) /\
      withdrawn owner_iid cur amount wallet (trim req.(ReqCommissionWithdraw.bank_id))
        (trim req.(ReqCommissionWithdraw.account_number)) account_name account row c res d w'.(db) /\
      forall a b z, available_num (in_idr cur) row.(cols) = whole (scale (in_idr cur)) a ->
        receives_num (in_idr cur) wallet row.(cols) = whole (scale (in_idr cur)) b -> denotes amount z ->
        0 <= a < room (in_idr cur) -> 0 <= b -> 0 <= z -> b + z < room (in_idr cur) ->
        z <= a /\ available_num (in_idr cur) c = whole (scale (in_idr cur)) (a - z) /\
        receives_num (in_idr cur) wallet c = whole (scale (in_idr cur)) (b + z)
  end.
Proof.
  intros E. destruct (withdraw_run R Hrivals _ _ _ _ _ _ E) as (d0 & d & HR0 & HR1 & Hr).
  exists d0, d. split; [done|]. split; [done|]. destruct r as [res|]; [|done].
  destruct Hr as (cur & amount & wallet & account & row & c & Ho & Hca & Hm & Hname & Hw).
  exists cur, amount, wallet, account, row, c. split_and!; [done..|]. intros a b z Ha Hb Hz Ha0 Hb0 Hz0 Hbz.
  destruct Hw as (lid & rid & usd & idr & t1 & t2 & t3 & _ & _ & _ & Hlt & Hp & _).
  by eapply payout_whole.
Qed.

(** ** Deciding a request for a payout

    With nobody else on the database: what a review changes, and that declining a
    request gives the account back what the request took. *)

Section Review.
Context `{!Chrono} `{!Order} `{!Numerics} `{!Casing} `{!Rivals}.
Context (Halone : forall ws n d, rivals ws n d = d).

(** ** The statements *)

(** Each account of an owner is changed by [f], the others stay. *)
Definition accounts_by (owner : Z) (f : AccountRow -> result AccountRow) (v v' : Referrals) : Prop :=
  v' = {| v with t_account := v'.(t_account) |} /\
  forall k, match v.(t_account) !! k with
    | None => v'.(t_account) !! k = None
    | Some r =>
        if r.(cols).(AccountRow.owner_iid) =? owner
        then exists t c, f r.(cols) = Ok c /\
          v'.(t_account) !! k = Some (set_cols t (fun _ => c) r)
        else v'.(t_account) !! k = Some r
    end.
Lemma seen_update_accounts v owner f : within eq (seen v) (update_accounts owner f)
  (fun _ ws d => accounts_by owner f v (view ws d)).
Proof.
  apply (seen_write Halone v _ (fun _ v' => accounts_by owner f v v')). intros now a new E.
  apply result_bind_ok in E as (rows & E & E'). assert (new = write_accounts (list_to_map rows)) as -> by congruence.
  clear E'. apply mapM_result_ok in E. rewrite view_write_accounts. split; [done|]. cbn [t_account].
  set (held := filter _ _) in E.
  assert (forall x y : Z * Row AccountRow, x ∈ held -> (c ← f x.2.(cols); c ← checked_account c;
      Ok (x.1, set_cols now (fun _ => c) x.2)) = Ok y ->
    exists c, f x.2.(cols) = Ok c /\ y = (x.1, set_cols now (fun _ => c) x.2)) as Hy.
  { intros x y _ Ey. apply result_bind_ok in Ey as (c & Ec & Ey). apply result_bind_ok in Ey as (c' & Ec' & Ey).
    exists c. split; [done|]. apply checked_account_ok in Ec' as ->. by injection Ey as <-. }
  assert (rows.*1 = held.*1) as Ekeys.
  { clear -E. induction E as [|x y l k Ex _ IH]; [done|]. cbn. rewrite IH. f_equal.
    apply result_bind_ok in Ex as (c & _ & Ex). apply result_bind_ok in Ex as (c' & _ & Ex).
    by injection Ex as <-. }
  assert (NoDup rows.*1) as Hnd.
  { rewrite Ekeys. unfold held. eapply sublist_NoDup; [|apply fmap_sublist, sublist_filter].
    rewrite order_perm. apply NoDup_fst_map_to_list. }
  intros k. destruct (t_account v !! k) as [r|] eqn:Er.
  - destruct (Z.eqb_spec (cols r).(AccountRow.owner_iid) owner) as [Ho|Ho].
    + assert ((k, r) ∈ held) as Hin.
      { apply list_elem_of_filter. split; [done|]. by rewrite order_perm, elem_of_map_to_list. }
      destruct (proj1 (list_elem_of_lookup _ _) Hin) as [i Hi].
      destruct (Forall2_lookup_l _ _ _ _ _ E Hi) as (y & Hyi & Ey).
      destruct (Hy _ _ Hin Ey) as (c & Ec & ->). exists now, c. split; [done|].
      apply lookup_union_Some_l. apply elem_of_list_to_map_1; [done|]. by eapply list_elem_of_lookup_2.
    + rewrite lookup_union_r; [done|]. apply not_elem_of_list_to_map_1. rewrite Ekeys.
      intros ([k' r'] & -> & [Ho' Hin]%list_elem_of_filter)%list_elem_of_fmap.
      rewrite order_perm, elem_of_map_to_list in Hin. cbn in *. congruence.
  - rewrite lookup_union_r; [done|]. apply not_elem_of_list_to_map_1. rewrite Ekeys.
    intros ([k' r'] & -> & [Ho' Hin]%list_elem_of_filter)%list_elem_of_fmap.
    rewrite order_perm, elem_of_map_to_list in Hin. cbn in *. congruence.
Qed.

Lemma rows_where_union {A} (p : Row A -> bool) f (t : gmap Z (Row A)) :
  rows_where (fun _ => p) f t ∪ t = (fun r => if p r then f r else r) <$> t.
Proof.
  apply map_eq. intros k. rewrite lookup_union, lookup_rows_where, lookup_fmap.
  destruct (t !! k) as [r|]; cbn; [|done]. by destruct (p r).
Qed.
Lemma seen_update_ledger v owner id status : within eq (seen v) (update_ledger owner id status)
  (fun _ ws d => exists t, view ws d = {| v with t_ledger := (fun e => if payout_entry owner id e
    then set_cols t (fun c => {| c with LedgerRow.status := status |}) e else e) <$> v.(t_ledger) |}).
Proof.
  apply (seen_write Halone v _ (fun _ v' => exists t, v' = {| v with t_ledger := (fun e => if payout_entry owner id e
    then set_cols t (fun c => {| c with LedgerRow.status := status |}) e else e) <$> v.(t_ledger) |})).
  intros now a new E. exists now. injection E as _ <-. by rewrite view_write_ledger, rows_where_union.
Qed.

(** ** The decisions *)

Definition decided (approve : bool) (reviewer_iid : Z) (text : string) (t : DateTime) (c : WithdrawRow)
    : WithdrawRow :=
  if approve
  then {| c with WithdrawRow.status := "approved"; WithdrawRow.transfer_proof_url := text;
          WithdrawRow.reviewed_by_iid := Some reviewer_iid; WithdrawRow.reviewed_ts := Some t |}
  else {| c with WithdrawRow.status := "declined"; WithdrawRow.reviewed_by_iid := Some reviewer_iid;
          WithdrawRow.reviewed_ts := Some t; WithdrawRow.decline_reason := text |}.
(** A decision as a step from a database to the next *)
Definition reviewed (approve : bool) (reviewer_iid request_id : Z) (text : string) (v v' : Referrals)
    : Prop := exists r t1 t2 v1,
  v.(t_withdraw) !! request_id = Some r /\ r.(cols).(WithdrawRow.status) = "pending" /\
  let owner := r.(cols).(WithdrawRow.owner_iid) in
  accounts_by owner (release (negb approve) (request_idr r.(cols)) (request_amount r.(cols))) v v1 /\
  v' = {| v1 with
    t_ledger := (fun e => if payout_entry owner request_id e
      then set_cols t1 (fun c => {| c with
        LedgerRow.status := if approve then "settled" else "cancelled" |}) e else e) <$> v.(t_ledger);
    t_withdraw := <[request_id := set_cols t2 (decided approve reviewer_iid text t2) r]> v.(t_withdraw) |}.

Lemma decline_reviews v reviewer_iid request_id reason :
  within eq (seen v) (decline_txn reviewer_iid request_id reason)
    (fun _ ws d => reviewed false reviewer_iid request_id (trim reason) v (view ws d)).
Proof.
  unfold decline_txn. eapply within_bind with (Q := fun row ws d => match row with
    | None => True
    | Some c => exists r t, v.(t_withdraw) !! request_id = Some r /\
        r.(cols).(WithdrawRow.status) = "pending" /\
        c = decided false reviewer_iid (trim reason) t r.(cols) /\
        seen {| v with t_withdraw := <[request_id := set_cols t
          (decided false reviewer_iid (trim reason) t) r]> v.(t_withdraw) |} ws d
    end); [apply _| |].
  { apply (seen_write Halone v _ (fun row v' => match row with
      | None => True
      | Some c => exists r t, v.(t_withdraw) !! request_id = Some r /\
          r.(cols).(WithdrawRow.status) = "pending" /\
          c = decided false reviewer_iid (trim reason) t r.(cols) /\
          v' = {| v with t_withdraw := <[request_id := set_cols t
            (decided false reviewer_iid (trim reason) t) r]> v.(t_withdraw) |}
      end)).
    intros now a new E. destruct (t_withdraw v !! request_id) as [r|] eqn:Er; [|by injection E as <- _].
    destruct (String.eqb_spec (cols r).(WithdrawRow.status) "pending") as [Es|]; [|by injection E as <- _].
    injection E as <- <-. exists r, now. split_and!; try done. apply view_write_withdraw. }
  intros row. eapply within_bind with (Q := fun c ws d => exists r t, (v.(t_withdraw) !! request_id = Some r /\
        r.(cols).(WithdrawRow.status) = "pending" /\
        c = decided false reviewer_iid (trim reason) t r.(cols)) /\
        seen {| v with t_withdraw := <[request_id := set_cols t
          (decided false reviewer_iid (trim reason) t) r]> v.(t_withdraw) |} ws d); [apply _| |].
  { apply (within_lift eq). intros ws d c Ec Hx. destruct row; [|done]. injection Ec as ->.
    destruct Hx as (r & t & ? & ? & ? & ?). eauto 10. }
  intros c. apply within_exists. intros r. apply within_exists. intros t2.
  apply within_pure. intros (Hr & Hp & ->). eapply within_bind; [apply _|apply seen_update_accounts|].
  intros []. apply (seen_any _ (accounts_by _ _ _)). intros v1 [Hv Ha].
  eapply within_conseq; [apply seen_update_ledger|done|]. cbn beta. intros _ ws d (t1 & ->).
  exists r, t1, t2, {| v with t_account := v1.(t_account) |}.
  split; [done|]. split; [done|]. split; [by split|]. destruct v1. cbn in *. by injection Hv; intros; subst.
Qed.

Lemma approve_reviews v reviewer_iid request_id proof :
  within eq (seen v) (approve_txn reviewer_iid request_id proof)
    (fun _ ws d => reviewed true reviewer_iid request_id proof v (view ws d)).
Proof.
  unfold approve_txn. eapply within_bind with (Q := fun row ws d =>
    row = v.(t_withdraw) !! request_id /\ seen v ws d); [apply _| |].
  { apply (seen_write Halone v _ (fun row v' => row = v.(t_withdraw) !! request_id /\ v' = v)).
    intros now a new E. injection E as <- <-. split; [done|].
    destruct (t_withdraw v !! request_id) as [r|] eqn:Er; [|exact (view_no_writes v)].
    rewrite view_write_withdraw, insert_id by done. by destruct v. }
  intros row. apply within_pure. intros ->.
  eapply within_bind with (Q := fun r ws d => v.(t_withdraw) !! request_id = Some r /\ seen v ws d); [apply _| |].
  { apply seen_lift. intros r Er. destruct (t_withdraw v !! request_id); [by injection Er as ->|done]. }
  intros r. apply within_pure. intros Hr.
  eapply within_bind with (Q := fun _ ws d => r.(cols).(WithdrawRow.status) = "pending" /\ seen v ws d); [apply _| |].
  { destruct (String.eqb_spec (cols r).(WithdrawRow.status) "pending"); cbn [negb];
      [by apply within_ret; [apply _|]|by apply (within_lift eq)]. }
  intros []. apply within_pure. intros Hp.
  eapply within_bind; [apply _|apply seen_update_accounts|]. intros [].
  apply (seen_any _ (accounts_by _ _ v)). intros v1 [Hv1 Ha].
  eapply within_bind; [apply _|apply seen_update_ledger|]. intros [].
  apply (seen_any _ (fun v2 => exists t, v2 = _)). intros v2 (t1 & Hv).
  apply (seen_write Halone v2 _ (fun _ v' => reviewed true reviewer_iid request_id proof v v')).
  intros now a new E.
  assert (v2.(t_withdraw) = v.(t_withdraw)) as Ew by (rewrite Hv, Hv1; done).
  rewrite Ew, Hr in E. injection E as _ <-. rewrite view_write_withdraw, Ew.
  exists r, t1, now, {| v with t_account := v1.(t_account) |}.
  split; [done|]. split; [done|]. split; [by split|]. rewrite Hv.
  destruct v1. cbn in *. by injection Hv1; intros; subst.
Qed.


(** ** Who decides *)

Definition can_review (reviewer_iid : Z) (d : Referrals) : Prop :=
  0 < reviewer_iid /\
  let meta := match t_get reviewer_iid d.(t_user) with
    | Some r => r.(cols).(UserRow.meta) | None => Object [] end in
  get "is_root" meta ≫= as_bool = Some true \/
  exists role, role ∈ finance_roles meta /\ (role = "finance" \/ role = "director").
Lemma finance_review_access_run reviewer_iid e w r w' : finance_review_access reviewer_iid e w = (r, w') ->
  w'.(db) = w.(db) /\ (r = Ok tt -> can_review reviewer_iid w.(db)).
Proof.
  assert (respects eq (finance_review_access reviewer_iid)) as Hres.
  { unfold finance_review_access, finance_viewer_meta. apply respects_bind; [apply _| |].
    - destruct (reviewer_iid <=? 0); [apply (respects_throw eq)|].
      apply respects_bind; [apply _|apply (respects_read eq), (rivals_others eq (nobody_else Halone))|].
      intros row. apply (respects_ret eq).
    - intros meta. repeat case_match; (apply (respects_ret eq) || apply (respects_throw eq)). }
  intros E. split; [by apply Hres in E|]. intros ->. unfold finance_review_access, finance_viewer_meta in E.
  apply bind_ok in E as (meta & w1 & E1 & E). destruct (Z.leb_spec reviewer_iid 0); [done|].
  apply bind_ok in E1 as (row & w2 & E2 & E1). apply read_ok in E2 as [_ [_ ->]].
  unfold others, others_rivals in E1. rewrite Halone in E1. injection E1 as <- ->. split; [done|]. cbn zeta.
  set (meta := match t_get _ _ with Some _ => _ | None => _ end) in *.
  destruct (default false _) eqn:Er; [left; by destruct (get "is_root" meta ≫= as_bool) as [[]|]|].
  destruct (existsb _ _) eqn:Ex; [|done]. apply existsb_exists in Ex as (role & Hin%list_elem_of_In & Hrole).
  right. exists role. split; [done|]. apply orb_true_iff in Hrole. by rewrite !String.eqb_eq in Hrole.
Qed.
End Review.

(** ** Whole amounts *)

Section Whole.
Context `{!Numerics} `{!NumericsLaws}.

(** The columns of rupiah or dollars that a decision changes *)
Definition pending_num (idr : bool) (c : AccountRow) : num := receives_num idr false c.
Definition balance_num (idr : bool) (c : AccountRow) : num := receives_num idr true c.

Lemma greatest_zero_denotes x z : denotes x z -> 0 <= z -> denotes (greatest_zero x) z.
Proof.
  intros Hx Hz. unfold greatest_zero, fmax. rewrite (denotes_not_nan _ _ Hx).
  assert (denotes (of_Z 0) 0) as Hzero by (by apply of_Z_denotes).
  rewrite (denotes_not_nan _ _ Hzero).
  rewrite (fltb_denotes _ _ _ _ Hx Hzero). by rewrite (proj2 (Z.ltb_ge _ _) Hz).
Qed.
Lemma num_less_int p s a b x : 0 <= s -> denotes x b -> Z.abs a < 10 ^ 15 ->
  0 <= a - b < 10 ^ Z.min 15 (p - s) ->
  num_of_float8 p s (greatest_zero (fsub (float8_of_num s (whole s a)) x)) = Ok (whole s (a - b)).
Proof.
  intros Hs Hx Ha Hab. pose proof (pow10_min (p - s)). apply num_of_int; [done| |lia].
  apply greatest_zero_denotes; [|lia]. apply fsub_denotes; [by apply float8_of_int|done|lia].
Qed.
Lemma release_whole back idr amount r c a b z :
  release back idr amount r = Ok c ->
  available_num idr r = whole (scale idr) a -> pending_num idr r = whole (scale idr) b ->
  denotes amount z -> 0 <= a -> 0 <= z <= b -> b < room idr -> a + z < room idr ->
  available_num idr c = whole (scale idr) (if back then a + z else a) /\
  pending_num idr c = whole (scale idr) (b - z) /\ balance_num idr c = balance_num idr r.
Proof.
  unfold release, available_num, pending_num, balance_num, receives_num, scale, room.
  intros Hr Ha Hb Hz Ha0 Hz0 Hb0 Haz.
  destruct idr; rewrite Ha, Hb in Hr;
    (destruct back; [rewrite (num_add_int _ _ a z amount) in Hr by fits|]);
    cbn in Hr; rewrite (num_less_int _ _ b z amount) in Hr by fits; by injection Hr as <-.
Qed.
End Whole.

Section Handler.
Context `{!Chrono} `{!Order} `{!Numerics} `{!NumericsLaws} `{!Casing} `{!Rivals}.
Context (Halone : forall ws n d, rivals ws n d = d).

Lemma review_run reviewer_iid req e w r w' :
  commission_withdraw_review reviewer_iid req e w = (r, w') ->
  match r with
  | Err _ => w'.(db) = w.(db)
  | Ok _ => can_review reviewer_iid w.(db) /\ 0 < req.(ReqCommissionWithdrawReview.request_id) /\
      exists (approve : bool) text,
        str_to_lowercase (trim req.(ReqCommissionWithdrawReview.action)) =
          (if approve then "approve" else "decline") /\
        text = trim (if approve then req.(ReqCommissionWithdrawReview.transfer_proof_url)
                     else req.(ReqCommissionWithdrawReview.reason)) /\
        (approve = true -> text <> "") /\
        reviewed approve reviewer_iid req.(ReqCommissionWithdrawReview.request_id) text w.(db) w'.(db)
  end.
Proof.
  intros E. unfold commission_withdraw_review in E.
  apply bind_cases in E as [(x & E & ->)|([] & w1 & E & E')];
    apply (finance_review_access_run Halone) in E as [Ed Ha]; [done|]. rewrite <- Ed. specialize (Ha eq_refl).
  destruct (Z.leb_spec (ReqCommissionWithdrawReview.request_id req) 0); [by injection E' as <- <-|].
  destruct (String.eqb_spec (str_to_lowercase (trim (ReqCommissionWithdrawReview.action req))) "decline")
    as [Hact|]; [|destruct (String.eqb_spec (str_to_lowercase
      (trim (ReqCommissionWithdrawReview.action req))) "approve") as [Hact|];
      cbn [negb] in E'; [|by injection E' as <- <-]].
  - apply (seen_txn Halone _ (fun _ => reviewed false reviewer_iid _ _ w1.(db)) _ _ _ _
      (decline_reviews Halone _ _ _ _)) in E'. destruct r as [[]|]; [|done]. rewrite Ed in *.
    split; [done|]. split; [done|]. by eexists false, _.
  - destruct (is_empty _) eqn:Ee; [by injection E' as <- <-|].
    apply (seen_txn Halone _ (fun _ => reviewed true reviewer_iid _ _ w1.(db)) _ _ _ _
      (approve_reviews Halone _ _ _ _)) in E'. destruct r as [[]|]; [|done]. rewrite Ed in *.
    split; [done|]. split; [done|]. eexists true, _. split_and!; try done. intros _ Et. by rewrite Et in Ee.
Qed.
(** What a decision does to an account with whole amounts *)
Lemma reviewed_account approve reviewer_iid request_id text v v' k acct row a b z :
  reviewed approve reviewer_iid request_id text v v' ->
  v.(t_withdraw) !! request_id = Some row -> v.(t_account) !! k = Some acct ->
  acct.(cols).(AccountRow.owner_iid) = row.(cols).(WithdrawRow.owner_iid) ->
  let idr := request_idr row.(cols) in
  available_num idr acct.(cols) = whole (scale idr) a -> pending_num idr acct.(cols) = whole (scale idr) b ->
  denotes (request_amount row.(cols)) z -> 0 <= a -> 0 <= z <= b -> b < room idr -> a + z < room idr ->
  exists acct', v'.(t_account) !! k = Some acct' /\
    available_num idr acct'.(cols) = whole (scale idr) (if approve then a else a + z) /\
    pending_num idr acct'.(cols) = whole (scale idr) (b - z) /\
    balance_num idr acct'.(cols) = balance_num idr acct.(cols).
Proof.
  intros (r & t1 & t2 & v1 & Hr & _ & [_ Hacc] & ->) Hrow Hk Ho idr Ha Hb Hz Ha0 Hz0 Hb0 Haz.
  assert (r = row) as -> by congruence. specialize (Hacc k). rewrite Hk, (proj2 (Z.eqb_eq _ _) Ho) in Hacc.
  destruct Hacc as (t & c & Hc & Hk'). exists (set_cols t (fun _ => c) acct). split; [exact Hk'|].
  destruct (release_whole _ _ _ _ _ a b z Hc) as (Hav & Hpe & Hba); try done.
  split; [destruct approve; exact Hav|exact (conj Hpe Hba)].
Qed.
End Handler.

(** C11. With nobody else on the database, finance staff, directors and roots decide a
    request that is pending, and nobody else and no other request: the request is
    approved with a proof of the transfer or declined, its entry of the ledger is
    settled or cancelled, the amount leaves what is pending on the owner's
    accounts, and goes back to what is available if it is declined.  Nothing else
    changes, and failing changes nothing. *)
Theorem withdraw_review_decides `{!Chrono} `{!Order} `{!Numerics} `{!NumericsLaws} `{!Casing} `{!Rivals}
    (Halone : forall ws n d, rivals ws n d = d) reviewer_iid req e w r w' :
  commission_withdraw_review reviewer_iid req e w = (r, w') ->
  let request_id := req.(ReqCommissionWithdrawReview.request_id) in
  match r with
  | Err _ => w'.(db) = w.(db)
  | Ok _ => can_review reviewer_iid w.(db) /\ exists (approve : bool) text row,
      str_to_lowercase (trim req.(ReqCommissionWithdrawReview.action)) =
        (if approve then "approve" else "decline") /\
      (approve = true -> text <> "") /\
      w.(db).(t_withdraw) !! request_id = Some row /\ row.(cols).(WithdrawRow.status) = "pending" /\
      reviewed approve reviewer_iid request_id text w.(db) w'.(db) /\
      let idr := request_idr row.(cols) in
      forall k acct a b z, w.(db).(t_account) !! k = Some acct ->
        acct.(cols).(AccountRow.owner_iid) = row.(cols).(WithdrawRow.owner_iid) ->
        available_num idr acct.(cols) = whole (scale idr) a ->
        pending_num idr acct.(cols) = whole (scale idr) b ->
        denotes (request_amount row.(cols)) z -> 0 <= a -> 0 <= z <= b -> b < room idr -> a + z < room idr ->
        exists acct', w'.(db).(t_account) !! k = Some acct' /\
          available_num idr acct'.(cols) = whole (scale idr) (if approve then a else a + z) /\
          pending_num idr acct'.(cols) = whole (scale idr) (b - z) /\
          balance_num idr acct'.(cols) = balance_num idr acct.(cols)
  end.
Proof.
  intros E request_id. apply (review_run Halone) in E. destruct r as [[]|]; [|done].
  destruct E as (Hcan & Hid & approve & text & Hact & Htext & Hne & Hrev). split; [done|].
  pose proof Hrev as (row & _ & _ & _ & Hrow & Hp & _). exists approve, text, row.
  split_and!; [done..|]. intros idr k acct a b z Hk Ho Ha Hb Hz Ha0 Hz0 Hb0 Haz. by eapply reviewed_account.
Qed.

Section Declined.
Context `{!Chrono} `{!Order} `{!Numerics} `{!NumericsLaws} `{!Casing} `{!Rivals}.

Lemma payout_then_release cur amount amount' r c c' a b z :
  payout cur false amount r = Ok c -> release true (in_idr cur) amount' c = Ok c' ->
  fltb (fadd (available_of cur r) EPSILON) amount = false ->
  available_num (in_idr cur) r = whole (scale (in_idr cur)) a ->
  pending_num (in_idr cur) r = whole (scale (in_idr cur)) b ->
  denotes amount z -> denotes amount' z ->
  0 <= a < room (in_idr cur) -> 0 <= b -> 0 <= z -> b + z < room (in_idr cur) -> c' = r.
Proof.
  intros Hp Hr Hlt Ha Hb Hz Hz' Ha0 Hb0 Hz0 Hbz.
  destruct (payout_whole _ _ _ _ _ a b z Hlt Hp Ha Hb Hz) as (Hle & Ha' & Hb'); [done..|].
  destruct (release_whole _ _ _ _ _ (a - z) (b + z) z Hr Ha' Hb' Hz') as (Ha2 & Hb2 & _); [lia..|].
  replace (a - z + z) with a in Ha2 by lia. replace (b + z - z) with b in Hb2 by lia.
  unfold payout, payout_idr, payout_usd, release, available_num, pending_num, receives_num in *.
  destruct (in_idr cur); apply result_bind_ok in Hp as (x & _ & Hp); apply result_bind_ok in Hp as (y & _ & Hp);
    injection Hp as <-; apply result_bind_ok in Hr as (x' & _ & Hr); apply result_bind_ok in Hr as (y' & _ & Hr);
    injection Hr as <-; destruct r; cbn in *; congruence.
Qed.
Lemma request_amount_whole owner cur bank_id number name amount usd idr z :
  cur = "IDR" \/ cur = "USD" -> usd_of cur amount = Ok usd -> idr_of cur amount = Ok idr -> denotes amount z ->
  0 <= z < room (in_idr cur) ->
  let c := withdraw_request owner cur bank_id number name usd idr in
  request_idr c = in_idr cur /\ denotes (request_amount c) z.
Proof.
  intros Hcur Hu Hi Hz Hz0.
  destruct Hcur as [-> | ->]; unfold usd_of, idr_of in *; cbn in *; (split; [done|]);
    [rewrite (num_of_int 14 2 amount z) in Hi by fits; injection Hi as <-
    |rewrite (num_of_int 12 4 amount z) in Hu by fits; injection Hu as <-];
    unfold request_amount; cbn; apply float8_of_int; lia.
Qed.
End Declined.

(** C12. With nobody else on the database: an owner with one account asks a bank for
    a whole amount in rupiah or dollars, and the request is declined.  Then the
    columns of the account are what they were, the request is declined and the
    entry of the ledger for it is cancelled. *)
Theorem declined_payout_restores `{!Chrono} `{!Order} `{!Numerics} `{!NumericsLaws} `{!Casing} `{!Rivals}
    (Halone : forall ws n d, rivals ws n d = d)
    owner_iid req cur amount e w res w1 reviewer_iid review e2 w2 w3 k acct a b z :
  let idr := in_idr cur in let request_id := review.(ReqCommissionWithdrawReview.request_id) in
  commission_withdraw owner_iid req e w = (Ok res, w1) ->
  withdraw_amount req.(ReqCommissionWithdraw.currency) req.(ReqCommissionWithdraw.amount_usd)
    req.(ReqCommissionWithdraw.amount_idr) = Ok (cur, amount) -> cur = "IDR" \/ cur = "USD" ->
  str_to_lowercase (trim req.(ReqCommissionWithdraw.payout_method)) = "bank_transfer" ->
  w2.(db) = w1.(db) -> w.(db).(t_withdraw) !! request_id = None ->
  commission_withdraw_review reviewer_iid review e2 w2 = (Ok tt, w3) ->
  str_to_lowercase (trim review.(ReqCommissionWithdrawReview.action)) = "decline" ->
  (forall k' x, w.(db).(t_account) !! k' = Some x -> x.(cols).(AccountRow.owner_iid) = owner_iid -> k' = k) ->
  w.(db).(t_account) !! k = Some acct ->
  available_num idr acct.(cols) = whole (scale idr) a -> pending_num idr acct.(cols) = whole (scale idr) b ->
  denotes amount z -> 0 <= a < room idr -> 0 <= b -> 0 <= z -> b + z < room idr ->
  (exists acct', w3.(db).(t_account) !! k = Some acct' /\ acct'.(cols) = acct.(cols)) /\
  (exists row, w3.(db).(t_withdraw) !! request_id = Some row /\
     row.(cols).(WithdrawRow.status) = "declined" /\ row.(cols).(WithdrawRow.owner_iid) = owner_iid) /\
  exists ledger_id entry, w.(db).(t_ledger) !! ledger_id = None /\
    w3.(db).(t_ledger) !! ledger_id = Some entry /\ entry.(cols).(LedgerRow.status) = "cancelled" /\
    reference_of entry.(cols).(LedgerRow.meta) = Some (withdraw_reference request_id).
Proof.
  intros idr request_id E Eca Hcur Hbank E12 Hnew E2 Hdecline Hone Hk Ha Hb Hz Ha0 Hb0 Hz0 Hbz.
  apply (withdraw_run eq (nobody_else Halone)) in E as (d0 & d & <- & <- & E).
  destruct E as (cur' & amount' & wallet & account & row & c & _ & Eca' & Hw & _ & E).
  rewrite Eca in Eca'. injection Eca' as <- <-. assert (wallet = false) as ->.
  { destruct wallet; [|done]. rewrite Hbank in Hw. done. }
  destruct E as (lid & rid & usd & idr' & t1 & t2 & t3 & Hacc & Ho & Hl & Hlt & Hp & Hc & Hu & Hi & Hlid &
    Hreq & _ & E1). assert (account = k) as -> by eauto. assert (row = acct) as -> by congruence.
  apply (review_run Halone) in E2 as (_ & _ & approve & text & Hact & _ & _ & Hrev).
  assert (approve = false) as -> by (destruct approve; [by rewrite Hdecline in Hact|done]).
  destruct Hrev as (req' & t4 & t5 & v1 & Hreq' & _ & [_ Hacts] & E3). rewrite E12, E1 in *. cbn in *.
  assert (rid = request_id) as ->.
  { destruct (decide (rid = request_id)) as [|Hne]; [done|]. unfold request_id in *.
    rewrite lookup_insert_ne in Hreq' by done. congruence. }
  fold request_id in Hreq', E3.
  rewrite lookup_insert_eq in Hreq'. injection Hreq' as <-. cbn in *.
  destruct (request_amount_whole owner_iid cur (trim req.(ReqCommissionWithdraw.bank_id))
    (trim req.(ReqCommissionWithdraw.account_number)) (trim req.(ReqCommissionWithdraw.account_name))
    amount usd idr' z) as [Hidr Hz']; [done..|unfold idr in *; lia|].
  split_and!.
  - specialize (Hacts k). rewrite lookup_insert_eq in Hacts. cbn in Hacts.
    assert (c.(AccountRow.owner_iid) = owner_iid) as Hoc by (rewrite <- Ho; by eapply payout_owner).
    rewrite (proj2 (Z.eqb_eq _ _) Hoc) in Hacts. destruct Hacts as (t & c' & Hc' & Hk').
    rewrite E3. cbn. eexists. split; [exact Hk'|]. cbn.
    unfold request_idr in Hidr. cbn in Hidr. unfold request_idr in Hc'. cbn in Hc'. rewrite Hidr in Hc'.
    by eapply payout_then_release.
  - rewrite E3. cbn. eexists. rewrite lookup_insert_eq. by split_and!.
  - exists lid. rewrite E3. cbn. eexists. rewrite lookup_fmap, lookup_insert_eq. cbn.
    split; [done|]. split; [done|].
    assert (payout_entry owner_iid request_id (new_row t2 (withdraw_entry owner_iid cur false
      (withdraw_reference request_id) usd idr')) = true) as ->; [|done].
    unfold payout_entry. cbn. rewrite Z.eqb_refl. cbn. by rewrite bool_decide_true.
Qed.
