(* ===== verification/ReferralSafe.v ===== *)
(** * What stays true of the referral tables

    Shares are percentages from 0 to 35, balances are not negative, an owner has
    one account and one request for a payout that is not decided at most, and is
    credited once for a reference; whatever the program is asked to do and whoever
    runs beside it. *)
From stdpp Require Import pretty.
From S2P Require Import Prelude Strs Ts World Json Db Shared F64 ReferralData Referral ReferralTree.
From S2P Require Import Commission Withdraw ReferralClaim CommissionFacts ReferralFacts WithdrawProps.

Record referrals_ok `{!Chrono} (d : Referrals) : Prop := {
  ok_shares : shares_ok d;
  ok_balances : forall k r, d.(t_account) !! k = Some r -> balances_ok r.(cols) = true;
  ok_accounts : forall k k' r r', d.(t_account) !! k = Some r -> d.(t_account) !! k' = Some r' ->
    live r = true -> live r' = true ->
    r.(cols).(AccountRow.owner_iid) = r'.(cols).(AccountRow.owner_iid) -> k = k';
  ok_accruals : forall owner ref k k', ref <> "" -> has_accrual owner ref k d.(t_ledger) ->
    has_accrual owner ref k' d.(t_ledger) -> k = k';
  ok_pending : forall owner k k', has_pending owner k d.(t_withdraw) ->
    has_pending owner k' d.(t_withdraw) -> k = k';
}.
Definition keeps_ok `{!Chrono} (d d' : Referrals) : Prop := referrals_ok d -> referrals_ok d'.
#[export] Instance keeps_ok_preorder `{!Chrono} : PreOrder keeps_ok.
Proof. split; unfold keeps_ok; [by intros d|]. intros d1 d2 d3. auto. Qed.

Section Safe.
Context `{!Chrono} `{!Order} `{!Numerics} `{!NumericsLaws} `{!Casing} `{!Platform} `{!Sessions} `{!Rivals}.
Context (Hrivals : forall ws n d, keeps_ok d (rivals ws n d) /\ locked_out ws d (rivals ws n d)).
Let Hothers := rivals_others keeps_ok Hrivals.

(** ** Inside a transaction *)

(** The same account with other amounts *)
Definition same_owner (r r0 : Row AccountRow) : Prop :=
  r.(cols).(AccountRow.owner_iid) = r0.(cols).(AccountRow.owner_iid) /\ live r = live r0.
(** Writes that keep the tables so: no share, no new account and none in debt, no
    accrual but one that is new to what is seen, and no request that was not
    pending before *)
Record mild (v : Referrals) (new : RefWrites) : Prop := {
  mild_shares : new.(w_share) = ∅;
  mild_accounts k r : new.(w_account) !! k = Some r ->
    balances_ok r.(cols) = true /\ exists r0, v.(t_account) !! k = Some r0 /\ same_owner r r0;
  mild_kept k x y : new.(w_ledger) !! k = Some x -> v.(t_ledger) !! k = Some y ->
    y.(cols).(LedgerRow.entry_type) <> "accrual";
  mild_fresh owner ref k : ref <> "" -> has_accrual owner ref k new.(w_ledger) ->
    (forall k', ~ has_accrual owner ref k' v.(t_ledger)) /\
    (forall k', has_accrual owner ref k' new.(w_ledger) -> k' = k);
  mild_requests k x : new.(w_withdraw) !! k = Some x ->
    String.eqb x.(cols).(WithdrawRow.status) "pending" = true -> v.(t_withdraw) !! k = Some x;
}.
Definition mildly (ws : RefWrites) (d : Referrals) : Prop := referrals_ok d /\ mild d ws.
Lemma mildly_stable : stable keeps_ok mildly.
Proof.
  intros ws d d' [Hok [Ms Ma Mk Mf Mr]] HR HL. split; [auto|]. destruct HL as [_ _ _ La Ll Lw _ _ _ Lx].
  split; [done|..].
  - intros k r Hr. rewrite La by eauto. eauto.
  - intros k x y Hx. rewrite Ll by eauto. eauto.
  - intros owner ref k Hne Hk. destruct (Mf _ _ _ Hne Hk) as [Hno Huniq]. split; [|done].
    intros k' Hk'. apply (Hno k'). by eapply Lx.
  - intros k x Hx Hp. rewrite Lw by eauto. eauto.
Qed.
Ltac empty := intros; match goal with
  | E : (∅ : gmap _ _) !! _ = Some _ |- _ => by rewrite lookup_empty in E
  | E : has_accrual _ _ _ ∅ |- _ => destruct E as (? & E & _); by rewrite lookup_empty in E
  end.
Lemma mild_no_writes v : mild v no_writes.
Proof. split; [done|..]; cbn; empty. Qed.
(** What is seen of an accrual of the database *)
Lemma mild_sees ws d owner ref k : mild d ws -> has_accrual owner ref k d.(t_ledger) ->
  has_accrual owner ref k (view ws d).(t_ledger).
Proof.
  intros [_ _ Mk _ _] (y & Hy & Hr). exists y. split; [|done]. cbn. rewrite lookup_union.
  destruct (w_ledger ws !! k) as [x|] eqn:Ex; [|by rewrite Hy]. exfalso. apply (Mk _ _ _ Ex Hy).
  unfold accrual_of in Hr. rewrite !andb_true_iff, String.eqb_eq in Hr. by destruct Hr as [[_ ?] _].
Qed.
Lemma view_accrual ws d owner ref k : has_accrual owner ref k (view ws d).(t_ledger) ->
  has_accrual owner ref k ws.(w_ledger) \/ has_accrual owner ref k d.(t_ledger).
Proof.
  intros (x & [Hx|[_ Hx]]%lookup_union_Some_raw & Hr); [left|right]; by exists x.
Qed.
Lemma mildly_view ws d : mildly ws d -> referrals_ok (view ws d).
Proof.
  intros ([Os Ob Oa Ox Op] & Hm). pose proof Hm as [Ms Ma Mk Mf Mr]. split.
  - intros k r. cbn. rewrite Ms, (left_id_L ∅ (∪)). apply Os.
  - intros k r [Hr|[_ Hr]]%lookup_union_Some_raw; [by apply Ma in Hr as [? _]|eauto].
  - assert (forall k r, (view ws d).(t_account) !! k = Some r ->
      exists r0, d.(t_account) !! k = Some r0 /\ same_owner r r0) as Hin.
    { intros k r [Hr|[_ Hr]]%lookup_union_Some_raw; [by apply Ma in Hr as [_ ?]|by exists r]. }
    intros k k' r r' (r0 & Hr & Ho & Hl)%Hin (r0' & Hr' & Ho' & Hl')%Hin. rewrite Ho, Ho', Hl, Hl'. eauto.
  - intros owner ref k k' Hne [Hk|Hk]%view_accrual [Hk'|Hk']%view_accrual.
    + symmetry. by apply (Mf _ _ _ Hne Hk).
    + by destruct (proj1 (Mf _ _ _ Hne Hk) k').
    + by destruct (proj1 (Mf _ _ _ Hne Hk') k).
    + by eapply Ox.
  - assert (forall owner k, has_pending owner k (view ws d).(t_withdraw) -> has_pending owner k d.(t_withdraw)) as Hin.
    { intros owner k (x & [Hx|[_ Hx]]%lookup_union_Some_raw & Hp & Hl); exists x; [|done].
      split; [|done]. apply Mr; [done|]. unfold pending_of in Hp. by apply andb_true_iff in Hp as [_ ?]. }
    intros owner k k' Hk%Hin Hk'%Hin. by eapply Op.
Qed.
Lemma mildly_merge new ws d : mildly ws d -> mild (view ws d) new -> mildly (merge_writes new ws) d.
Proof.
  intros (Hok & Hm) [Ns Na Nk Nf Nr]. pose proof Hm as [Ms Ma Mk Mf Mr]. split; [done|]. split.
  - cbn. by rewrite Ns, Ms, (left_id_L ∅ (∪)).
  - intros k r [Hr|[_ Hr]]%lookup_union_Some_raw; [|eauto]. apply Na in Hr as (Hb & r0 & Hr0 & Ho & Hl).
    split; [done|]. apply lookup_union_Some_raw in Hr0 as [Hr0|[_ Hr0]]; [|by exists r0].
    apply Ma in Hr0 as (_ & r1 & Hr1 & Ho1 & Hl1). exists r1. split; [done|]. by split; [rewrite Ho|rewrite Hl].
  - intros k x y [Hx|[_ Hx]]%lookup_union_Some_raw Hy; [|eauto].
    destruct (w_ledger ws !! k) as [z|] eqn:Ez; [by eapply Mk|].
    apply (Nk _ _ _ Hx). cbn. by rewrite lookup_union, Ez, Hy.
  - assert (forall owner ref k, has_accrual owner ref k (merge_writes new ws).(w_ledger) ->
      has_accrual owner ref k new.(w_ledger) \/ has_accrual owner ref k ws.(w_ledger)) as Hin.
    { intros owner ref k (x & [Hx|[_ Hx]]%lookup_union_Some_raw & Hr); [left|right]; by exists x. }
    assert (forall owner ref k, has_accrual owner ref k ws.(w_ledger) ->
      has_accrual owner ref k (view ws d).(t_ledger)) as Hsee.
    { intros owner ref k (x & Hx & Hr). exists x. split; [|done]. by apply lookup_union_Some_l. }
    intros owner ref k Hne [Hk|Hk]%Hin.
    + destruct (Nf _ _ _ Hne Hk) as [Hno Huniq]. split.
      * intros k' Hk'. apply (Hno k'). by apply mild_sees.
      * intros k' [Hk'|Hk']%Hin; [by apply Huniq|]. by destruct (Hno k'); apply Hsee.
    + destruct (Mf _ _ _ Hne Hk) as [Hno Huniq]. split; [done|].
      intros k' [Hk'|Hk']%Hin; [|by apply Huniq]. destruct (Nf _ _ _ Hne Hk') as [Hno' _].
      by destruct (Hno' k); apply Hsee.
  - intros k x [Hx|[_ Hx]]%lookup_union_Some_raw Hp; [|by eauto].
    apply (Nr _ _ Hx) in Hp as Hv. apply lookup_union_Some_raw in Hv as [Hv|[_ Hv]]; eauto.
Qed.

Definition mild_code {A} (m : T A) : Prop := within keeps_ok mildly m (fun _ => mildly).
Lemma mild_ret {A} (a : A) : mild_code (mret a).
Proof. by apply within_ret; [apply _|]. Qed.
Lemma mild_bind {A B} (m : T A) (f : A -> T B) :
  mild_code m -> (forall a, mild_code (f a)) -> mild_code (m ≫= f).
Proof. intros Hm Hf. eapply within_bind; [apply _|exact Hm|exact Hf]. Qed.
Lemma mild_lift {A} (x : result A) : mild_code (tlift x).
Proof. by apply within_lift; [apply _|]. Qed.
Lemma mild_tcode {A} (m : M Referrals A) : reads m -> mild_code (tcode m).
Proof. intros Hm. apply within_code; [apply _|exact Hm|done]. Qed.
Lemma mild_stmt {A} (f : DateTime -> Referrals -> result (A * RefWrites)) :
  (forall now v a new, referrals_ok v -> f now v = Ok (a, new) -> mild v new) -> mild_code (tstmt f).
Proof.
  intros Hf. apply (within_stmt keeps_ok Hrivals); [apply mildly_stable|]. intros now ws d a new Hd E.
  apply mildly_merge; [done|]. eapply Hf; [by apply mildly_view|exact E].
Qed.
Lemma mild_read {A} (f : DateTime -> Referrals -> A) : mild_code (tread f).
Proof.
  apply mild_stmt. intros now v a new _ E. assert (new = no_writes) as -> by congruence. apply mild_no_writes.
Qed.
Lemma mild_txn {A} (m : T A) : mild_code m -> respects keeps_ok (txn m).
Proof.
  intros Hm e w r w' E Hok.
  destruct (txn_steps keeps_ok Hrivals m referrals_ok (fun _ => mildly) e w r w') as [HR _]; try done; auto.
  - eapply within_conseq; [exact Hm| |done]. intros ws d [-> Hd]. split; [done|apply mild_no_writes].
  - intros _. apply mildly_stable.
  - intros _ ws d Hd _. by apply mildly_view.
Qed.

(** *** What a statement writes *)

Lemma mild_entries v m :
  (forall k x y, m !! k = Some x -> v.(t_ledger) !! k = Some y -> y.(cols).(LedgerRow.entry_type) <> "accrual") ->
  (forall owner ref k, ref <> "" -> has_accrual owner ref k m ->
    (forall k', ~ has_accrual owner ref k' v.(t_ledger)) /\ (forall k', has_accrual owner ref k' m -> k' = k)) ->
  mild v (write_ledger m).
Proof. intros Hk Hf. split; [done| |exact Hk|exact Hf|]; cbn; empty. Qed.
Lemma mild_code_row v k r : mild v (write_code k r).
Proof. split; [done|..]; cbn; empty. Qed.
Lemma mild_account_rows v m : (forall k r, m !! k = Some r ->
    balances_ok r.(cols) = true /\ exists r0, v.(t_account) !! k = Some r0 /\ same_owner r r0) ->
  mild v (write_accounts m).
Proof. intros Hm. split; [done|exact Hm|..]; cbn; empty. Qed.
Lemma mild_account v k r r0 : balances_ok r.(cols) = true -> v.(t_account) !! k = Some r0 ->
  same_owner r r0 -> mild v (write_account k r).
Proof.
  intros Hb Hr Ho. apply mild_account_rows. intros k' r' [<- <-]%lookup_singleton_Some. eauto.
Qed.
Lemma mild_request v k x : (String.eqb x.(cols).(WithdrawRow.status) "pending" = true ->
    v.(t_withdraw) !! k = Some x) -> mild v (write_withdraw k x).
Proof.
  intros Hx. split; [done|cbn; empty..|]. intros k' x' E. cbn in E. by apply lookup_singleton_Some in E as [<- <-].
Qed.
Lemma checked_balances c c' : checked_account c = Ok c' -> balances_ok c' = true.
Proof. intros E. pose proof (checked_account_ok _ _ E) as ->. unfold checked_account in E. by case_match. Qed.
Lemma not_accrued owner ref v k : accrued owner ref v = false -> ~ has_accrual owner ref k v.(t_ledger).
Proof.
  intros Hf (r & Hr & E). assert (accrued owner ref v = true); [|congruence]. apply existsb_exists.
  exists (k, r). split; [|done]. by rewrite <- list_elem_of_In, order_perm, elem_of_map_to_list.
Qed.

(** *** The transactions *)

Ltac mild_step := first
  [ apply mild_ret | apply mild_read | apply mild_lift | apply mild_tcode; apply reads_next_id
  | apply mild_bind; [|intros ?] | progress case_match ].
Ltac mild := repeat mild_step.

Lemma mild_earn_loop fuel uid parent_uid edge child u rows :
  mild_code (earn_loop fuel uid parent_uid edge child u rows).
Proof.
  revert child u rows. induction fuel as [|fuel IH]; intros child u rows; cbn [earn_loop]; unfold share_get;
    mild; apply IH.
Qed.
Lemma mild_earn_chain fuel u : mild_code (earn_chain fuel u).
Proof. unfold earn_chain, share_get. mild. apply mild_earn_loop. Qed.
Lemma mild_credit owner amount payer ev ref : mild_code (commission_credit_in_tx owner amount payer ev ref).
Proof.
  unfold commission_credit_in_tx. mild; apply mild_stmt; intros now v x new Hv E.
  - apply result_bind_ok in E as (amt & _ & E).
    match type of E with context [v.(t_ledger) !! ?i] => destruct (v.(t_ledger) !! i) eqn:Ei; [done|] end.
    destruct (negb (is_empty ref) && accrued owner ref v) eqn:Ea; [done|]. injection E as _ <-.
    apply mild_entries; [intros k y y' [<- _]%lookup_singleton_Some Hy; congruence|].
    intros o f k Hne (y & [<- <-]%lookup_singleton_Some & Hy).
    split; [|by intros k' (y & [<- _]%lookup_singleton_Some & _)].
    unfold accrual_of in Hy. rewrite !andb_true_iff, Z.eqb_eq, bool_decide_eq_true in Hy.
    destruct Hy as [[<- _] Hf]. assert (f = ref) as -> by (change (Some ref = Some f) in Hf; congruence).
    apply andb_false_iff in Ea as [Ea|Ea]; [by destruct ref|]. intros k'. by apply not_accrued.
  - case_match eqn:Er; [|assert (new = no_writes) as -> by congruence; apply mild_no_writes].
    apply result_bind_ok in E as (? & _ & E). apply result_bind_ok in E as (? & _ & E).
    injection E as _ <-. eapply mild_account; [|exact Er|done]. exact (ok_balances _ Hv _ _ Er).
Qed.
Lemma mild_tforM {A} (l : list A) (f : A -> T ()) : (forall x, mild_code (f x)) -> mild_code (tforM l f).
Proof. intros Hf. induction l as [|x l IH]; [apply mild_ret|]. by apply mild_bind. Qed.
Lemma mild_topup fuel account amount currency order_id :
  mild_code (topup_credit_and_accrue fuel account amount currency order_id).
Proof.
  unfold topup_credit_and_accrue, commission_accrue_on_topup_tx.
  apply mild_bind; [|intros []; repeat first [apply mild_earn_chain|
    apply mild_tforM; intros ?; apply mild_credit|mild_step]].
  apply mild_stmt. intros now v x new Hv E.
  case_match eqn:Er; [|assert (new = no_writes) as -> by congruence; apply mild_no_writes].
  apply result_bind_ok in E as (c & Ec' & E). apply result_bind_ok in E as (c' & Ec & E).
  pose proof (checked_account_ok _ _ Ec) as ->. injection E as _ <-.
  eapply mild_account; [by eapply checked_balances|exact Er|]. split; [|done]. cbn.
  case_match; apply result_bind_ok in Ec' as (? & _ & Ec'); by injection Ec' as <-.
Qed.
Lemma mild_redeem raw_code : respects keeps_ok (referral_signup_code_redeem raw_code).
Proof.
  unfold referral_signup_code_redeem. destruct (is_empty _); [apply (respects_throw keeps_ok)|]. apply mild_txn.
  apply mild_bind; [|intros row].
  { apply mild_stmt. intros now v x new _ E. injection E as _ <-. case_match; [repeat case_match|];
      [|apply mild_no_writes]. split; [done|..]; cbn; empty. }
  apply mild_bind; [apply mild_tcode, reads_utc_now|intros now].
  apply mild_bind; [apply mild_lift|intros info]. apply mild_bind; [|intros []; apply mild_ret].
  apply mild_stmt. intros now' v x new _ E. case_match; [case_match; [|done]|].
  - injection E as _ <-. apply mild_code_row.
  - injection E as _ <-. apply mild_no_writes.
Qed.
Definition keeps_owner (f : AccountRow -> result AccountRow) : Prop := forall c c', f c = Ok c' ->
  c'.(AccountRow.owner_iid) = c.(AccountRow.owner_iid).
Lemma release_owner back idr amount : keeps_owner (release back idr amount).
Proof.
  intros c c' E. unfold release in E.
  destruct idr; apply result_bind_ok in E as (x & _ & E); apply result_bind_ok in E as (y & _ & E); by injection E as <-.
Qed.
Lemma mild_update_accounts owner f : keeps_owner f -> mild_code (update_accounts owner f).
Proof.
  intros Hf. apply mild_stmt. intros now v x new _ E. apply result_bind_ok in E as (rows & E & E').
  injection E' as _ <-. apply mild_account_rows. intros k r Hr%elem_of_list_to_map_2. apply mapM_result_ok in E.
  apply list_elem_of_lookup in Hr as [i Hi]. destruct (Forall2_lookup_r _ _ _ _ _ E Hi) as (y & Hy & Ey).
  apply result_bind_ok in Ey as (c & Ec0 & Ey). apply result_bind_ok in Ey as (c' & Ec & Ey).
  pose proof (checked_account_ok _ _ Ec) as ->. injection Ey as <- <-.
  split; [by eapply checked_balances|]. apply list_elem_of_lookup_2 in Hy.
  apply list_elem_of_filter in Hy as [_ Hy]. rewrite order_perm, elem_of_map_to_list' in Hy.
  exists y.2. split; [done|]. split; [|done]. cbn. by apply Hf.
Qed.
Lemma mild_update_ledger owner id status : mild_code (update_ledger owner id status).
Proof.
  apply mild_stmt. intros now v x new _ E. injection E as _ <-.
  assert (forall k y, rows_where (fun _ => payout_entry owner id)
      (set_cols now (fun c => {| c with LedgerRow.status := status |})) v.(t_ledger) !! k = Some y ->
    exists z, v.(t_ledger) !! k = Some z /\ z.(cols).(LedgerRow.entry_type) = "payout_withdraw" /\
      y.(cols).(LedgerRow.entry_type) = "payout_withdraw") as Hrow.
  { intros k y. rewrite lookup_rows_where. destruct (t_ledger v !! k) as [z|]; cbn; [|done].
    destruct (payout_entry owner id z) eqn:Ep; [|done]. intros [= <-]. exists z. split; [done|].
    unfold payout_entry in Ep. rewrite !andb_true_iff, !String.eqb_eq in Ep. by destruct Ep as [[[_ ?] _] _]. }
  apply mild_entries.
  - intros k y z (z' & Hz' & Ht & _)%Hrow Hz. congruence.
  - intros o f k _ (y & (z & _ & _ & Ht)%Hrow & Hy). unfold accrual_of in Hy. by rewrite Ht, andb_false_r in Hy.
Qed.
Lemma mild_decline reviewer id reason : mild_code (decline_txn reviewer id reason).
Proof.
  unfold decline_txn. apply mild_bind; [|intros row; apply mild_bind; [apply mild_lift|intros c];
    apply mild_bind; [apply mild_update_accounts, release_owner|intros []; apply mild_update_ledger]].
  apply mild_stmt. intros now v x new _ E. case_match; [case_match|].
  - injection E as _ <-. by apply mild_request.
  - injection E as _ <-. apply mild_no_writes.
  - injection E as _ <-. apply mild_no_writes.
Qed.
Lemma mild_approve reviewer id proof : mild_code (approve_txn reviewer id proof).
Proof.
  unfold approve_txn. apply mild_bind; [|intros row; apply mild_bind; [apply mild_lift|intros r];
    apply mild_bind; [case_match; [apply mild_lift|apply mild_ret]|intros []];
    apply mild_bind; [apply mild_update_accounts, release_owner|intros []];
    apply mild_bind; [apply mild_update_ledger|intros []]].
  - apply mild_stmt. intros now v x new _ E. injection E as _ <-. case_match eqn:Er; [|apply mild_no_writes].
    by apply mild_request.
  - apply mild_stmt. intros now v x new _ E. case_match.
    + injection E as _ <-. by apply mild_request.
    + injection E as _ <-. apply mild_no_writes.
Qed.

(** *** Withdrawals, where a request becomes pending *)

Lemma withdrawn_ok owner cur amount wallet bank number name k r c res d d' :
  withdrawn owner cur amount wallet bank number name k r c res d d' -> keeps_ok d d'.
Proof.
  intros (lid & rid & usd & idr & t1 & t2 & t3 & Hk & Ho & Hl & _ & Hp & Hc & _ & _ & Hlid & Hw & _ & ->)
    [Os Ob Oa Ox Op]. pose proof (payout_owner _ _ _ _ _ Hp) as Hco. split; [done|..]; cbn.
  - intros k' x [[<- <-]|[_ Hx]]%lookup_insert_Some; [by eapply checked_balances|eauto].
  - assert (forall k1 x, <[k := set_cols t1 (fun _ => c) r]> d.(t_account) !! k1 = Some x ->
      exists x0, d.(t_account) !! k1 = Some x0 /\ same_owner x x0) as Hin.
    { intros k1 x [[<- <-]|[_ Hx]]%lookup_insert_Some; [by exists r|by exists x]. }
    intros k1 k2 x y (x0 & Hx & Hox & Hlx)%Hin (y0 & Hy & Hoy & Hly)%Hin. rewrite Hox, Hoy, Hlx, Hly. eauto.
  - assert (forall o f k1, has_accrual o f k1 (<[lid := new_row t2 (withdraw_entry owner cur wallet
        (withdraw_reference (if wallet then lid else rid)) usd idr)]> d.(t_ledger)) ->
      has_accrual o f k1 d.(t_ledger)) as Hin.
    { intros o f k1 (x & [[<- <-]|[_ Hx]]%lookup_insert_Some & Hr); [|by exists x].
      unfold accrual_of in Hr. cbn in Hr. by destruct wallet; rewrite andb_false_r in Hr. }
    intros o f k1 k2 Hne Hk1%Hin Hk2%Hin. by eapply Ox.
  - destruct wallet; [done|]. destruct (Hw eq_refl) as [Hnew Hno].
    assert (forall o k, has_pending o k (<[rid := new_row t3 (withdraw_request owner cur bank number name usd idr)]>
        d.(t_withdraw)) -> (o = owner /\ k = rid) \/ (o <> owner /\ has_pending o k d.(t_withdraw))) as Hin.
    { intros o k' (x & [[<- <-]|[_ Hx]]%lookup_insert_Some & Hpx & Hlx).
      - left. unfold pending_of in Hpx. apply andb_true_iff in Hpx as [Hpx%Z.eqb_eq _]. done.
      - right. assert (has_pending o k' d.(t_withdraw)) as Hpd by (by exists x). split; [|done].
        intros ->. by destruct (Hno k'). }
    intros o k1 k2 [[-> ->]|[Ho1 H1']]%Hin [[Ho2 ->]|[Ho2 H2']]%Hin; [done|done|congruence|by eapply Op].
Qed.
Lemma mild_withdrawal owner req : respects keeps_ok (commission_withdraw owner req).
Proof.
  intros e w r w' E. destruct (withdraw_run keeps_ok Hrivals _ _ _ _ _ _ E) as (d0 & d & HR0 & HR1 & Hr).
  etransitivity; [exact HR0|]. etransitivity; [exact HR1|]. destruct r as [res|]; [|by rewrite Hr].
  destruct Hr as (cur & amount & wallet & k & row & c & _ & _ & _ & _ & Hw). by eapply withdrawn_ok.
Qed.

(** ** Outside transactions *)

Ltac respects_step := first
  [ apply (respects_ret keeps_ok) | apply (respects_throw keeps_ok) | apply (respects_lift keeps_ok)
  | apply (respects_next_id keeps_ok) | apply (respects_utc_now keeps_ok)
  | apply (respects_read keeps_ok Hothers) | apply (respects_ask keeps_ok Hothers)
  | apply mild_redeem | apply (respects_attempt keeps_ok) | apply (respects_unwrap_or keeps_ok)
  | apply (respects_ignore keeps_ok) | apply (respects_stmt keeps_ok Hothers); intros ? ? ? ? ?
  | apply (respects_bind keeps_ok); [|intros ?] | progress case_match ].
Ltac respects := repeat respects_step.

Lemma keeps_code d (t : gmap string (Row CodeRow)) : keeps_ok d {| d with t_code := t |}.
Proof. by intros [Os Ob Oa Ox Op]. Qed.
Lemma keeps_user d (t : gmap Z (Row UserRow)) : keeps_ok d {| d with t_user := t |}.
Proof. by intros [Os Ob Oa Ox Op]. Qed.
Lemma keeps_share d k r p : r.(cols) = Dec (p * 10 ^ 2) -> 0 <= p <= 35 ->
  keeps_ok d {| d with t_share := <[k := r]> d.(t_share) |}.
Proof.
  intros Hr Hp [Os Ob Oa Ox Op]. split; [|done..]. intros k' x E. cbn in E.
  apply lookup_insert_Some in E as [[<- <-]|[_ E]]; eauto.
Qed.
(** An account changes its amounts, or is new to its owner. *)
Lemma keeps_account d k r : balances_ok r.(cols) = true ->
  (exists r0, d.(t_account) !! k = Some r0 /\ same_owner r r0) \/
  (forall k' x, d.(t_account) !! k' = Some x -> live x = true ->
     x.(cols).(AccountRow.owner_iid) <> r.(cols).(AccountRow.owner_iid)) ->
  keeps_ok d {| d with t_account := <[k := r]> d.(t_account) |}.
Proof.
  intros Hr Hwho [Os Ob Oa Ox Op]. split; [done|..|done|done]; cbn.
  - intros k' x [[<- <-]|[_ Hx]]%lookup_insert_Some; eauto.
  - intros k1 k2 x y [[<- <-]|[Hk1 Hx]]%lookup_insert_Some [[<- <-]|[Hk2 Hy]]%lookup_insert_Some Hlx Hly Ho;
      [done| | |by eapply Oa].
    + destruct Hwho as [(r0 & Hr0 & Ho0 & Hl0)|Hno]; [|by destruct (Hno _ _ Hy Hly)].
      eapply Oa; [exact Hr0|exact Hy|congruence..].
    + destruct Hwho as [(r0 & Hr0 & Ho0 & Hl0)|Hno]; [|by destruct (Hno _ _ Hx Hlx)].
      eapply Oa; [exact Hx|exact Hr0|congruence..].
Qed.

Lemma keeps_share_set iid parent_uid child_uid percent :
  respects keeps_ok (referral_share_set iid parent_uid child_uid percent).
Proof.
  unfold referral_share_set, require_admin, viewer_meta. respects;
    match goal with E : _ = Ok (_, _) |- _ => injection E as _ <- end;
    (apply (keeps_share _ _ _ (Z.max 0 (Z.min 35 percent))); [done|lia]).
Qed.
Lemma keeps_code_put iid doc : respects keeps_ok (referral_code_put iid doc).
Proof.
  unfold referral_code_put, issuer_root_or_director. respects; simplify_eq; try done; apply keeps_code.
Qed.
Lemma keeps_code_delete iid code : respects keeps_ok (referral_code_delete iid code).
Proof. unfold referral_code_delete. respects; simplify_eq; try done; apply keeps_code. Qed.
Lemma keeps_set_upline parent iid : respects keeps_ok (set_upline parent iid).
Proof. unfold set_upline. respects; simplify_eq; try done; apply keeps_user. Qed.
Lemma keeps_first_share parent iid : respects keeps_ok (first_share parent iid).
Proof. unfold first_share. respects; simplify_eq; try done. by apply (keeps_share _ _ _ 25). Qed.
Lemma keeps_bonus id iid : respects keeps_ok (credit_bonus id iid).
Proof.
  unfold credit_bonus. apply (respects_stmt keeps_ok Hothers). intros now d a d' E.
  apply result_bind_ok in E as (usd & _ & E). apply result_bind_ok in E as (idr & _ & E).
  set (held := filter _ _) in E.
  assert (forall e, e ∈ held <-> d.(t_account) !! e.1 = Some e.2 /\
    e.2.(cols).(AccountRow.owner_iid) = iid /\ live e.2 = true) as Hheld.
  { intros [i x]. unfold held. rewrite list_elem_of_filter, order_perm, elem_of_map_to_list. cbn. tauto. }
  destruct held as [|[k r] l].
  - apply result_bind_ok in E as (c & Ec & E). apply result_bind_ok in E as (t & Et & E).
    injection E as _ <-. unfold t_insert in Et. case_match; [done|]. injection Et as <-.
    apply keeps_account; [by eapply checked_balances|right].
    pose proof (checked_account_ok _ _ Ec) as ->. cbn. intros k' x Hx Hl Ho.
    assert ((k', x) ∈ []) as Hin by (by apply Hheld). by apply elem_of_nil in Hin.
  - apply result_bind_ok in E as (x & _ & E). apply result_bind_ok in E as (y & _ & E).
    apply result_bind_ok in E as (c & Ec & E). injection E as _ <-.
    apply keeps_account; [by eapply checked_balances|left]. exists r.
    pose proof (checked_account_ok _ _ Ec) as ->. split; [|done]. by apply (Hheld (k, r)); left.
Qed.
Lemma keeps_claim token code : respects keeps_ok (referral_claim token code).
Proof.
  unfold referral_claim, referral_signup_code_lookup.
  repeat first [apply keeps_set_upline|apply keeps_first_share|apply keeps_bonus|respects_step].
Qed.
Lemma keeps_purchase fuel payer amount id ev : respects keeps_ok (commission_accrue_on_purchase fuel payer amount id ev).
Proof.
  unfold commission_accrue_on_purchase, commission_simulate.
  destruct (_ || _); [apply (respects_ret keeps_ok)|]. apply (respects_bind keeps_ok).
  - destruct (amount <=? 0); [apply (respects_throw keeps_ok)|]. apply (respects_bind keeps_ok);
      [apply mild_txn, mild_earn_chain|intros chain; apply (respects_ret keeps_ok)].
  - intros [sim|]; [|apply (respects_ret keeps_ok)]. apply (respects_bind keeps_ok);
      [apply mild_txn, mild_tforM|intros []; apply (respects_ret keeps_ok)].
    intros level. destruct (_ || _); [apply mild_ret|apply mild_credit].
Qed.
Lemma keeps_review reviewer_iid req : respects keeps_ok (commission_withdraw_review reviewer_iid req).
Proof.
  unfold commission_withdraw_review, finance_review_access, finance_viewer_meta.
  repeat first [apply mild_txn; first [apply mild_decline|apply mild_approve]|respects_step].
Qed.
End Safe.

(** What the program is asked to change *)
Inductive ReferralRequest :=
| ShareSet (iid parent_uid child_uid percent : Z)
| CodePut (iid : Z) (doc : ReferralCodeDoc)
| CodeDelete (iid : Z) (code : string)
| CodeRedeem (code : string)
| Claim (token : option string) (code : string)
| TopUp (fuel : nat) (account_id : Z) (amount : f64) (currency order_id : string)
| Purchase (fuel : nat) (payer_iid amount_idr : Z) (purchase_id event_type : string)
| PayOut (owner_iid : Z) (req : ReqCommissionWithdraw)
| Review (reviewer_iid : Z) (req : ReqCommissionWithdrawReview).
Definition referral_serve `{!Chrono} `{!Order} `{!Numerics} `{!Casing} `{!Platform} `{!Sessions} `{!Rivals}
    (req : ReferralRequest) : M Referrals () :=
  match req with
  | ShareSet iid parent child percent => referral_share_set iid parent child percent
  | CodePut iid doc => ignore (referral_code_put iid doc)
  | CodeDelete iid code => referral_code_delete iid code
  | CodeRedeem code => ignore (referral_signup_code_redeem code)
  | Claim token code => ignore (referral_claim token code)
  | TopUp fuel account amount currency order_id =>
      ignore (txn (topup_credit_and_accrue fuel account amount currency order_id))
  | Purchase fuel payer amount id ev => ignore (commission_accrue_on_purchase fuel payer amount id ev)
  | PayOut owner req => ignore (commission_withdraw owner req)
  | Review reviewer req => commission_withdraw_review reviewer req
  end.

(** C5. Whatever the referral program is asked to do, whether it succeeds or fails, and
    whatever others do who keep the tables well-formed and respect its locks:
    every share stays a whole percentage from 0 to 35, no balance of a wallet
    becomes negative, and an owner never has two live accounts, two live requests
    for a payout that are not decided, or two credits for one reference. *)
Theorem referrals_stay_well_formed `{!Chrono} `{!Order} `{!Numerics} `{!NumericsLaws} `{!Casing} `{!Platform}
    `{!Sessions} `{!Rivals}
    (Hrivals : forall ws n d, keeps_ok d (rivals ws n d) /\ locked_out ws d (rivals ws n d))
    req e w r w' :
  referral_serve req e w = (r, w') -> referrals_ok w.(db) -> referrals_ok w'.(db).
Proof.
  assert (respects keeps_ok (referral_serve req)) as Hreq; [|by apply Hreq].
  destruct req; cbn [referral_serve]; try apply (respects_ignore keeps_ok).
  - by apply keeps_share_set.
  - by apply keeps_code_put.
  - by apply keeps_code_delete.
  - by apply mild_redeem.
  - by apply keeps_claim.
  - apply mild_txn; [done..|]. by apply mild_topup.
  - by apply keeps_purchase.
  - by apply mild_withdrawal.
  - by apply keeps_review.
Qed.
