(* ===== verification/ReferralScenario.v ===== *)
(** * Referrals at work

    A few users with codes and accounts, on concrete instances of the interfaces:
    what others do between the statements of a request, and what the functions
    let pass. *)
From S2P Require Import Prelude Strs Ts World Json Db Shared F64 ReferralData Referral ReferralTree.
From S2P Require Import Commission Withdraw ReferralClaim CommissionFacts ReferralFacts ReferralSafe.

Module ReferralScenario.

(** ** Instances *)

(** Exact casts, rounded to the scale half away from zero *)
#[export] Instance numerics : Numerics := {|
  float8_of_num s x := match x with NumNaN => NaN | Dec k => of_ratio k (10 ^ s) end;
  num_of_float8 p s x := match x with
    | NaN => Ok NumNaN
    | Inf _ => Err "cannot convert infinity to numeric"
    | Fin sg m e =>
        let k := round_Z sg (m * 10 ^ s) e in
        if Z.abs k <? 10 ^ p then Ok (Dec k) else Err "numeric field overflow"
    end |}.
#[export] Instance numerics_laws : NumericsLaws.
Proof.
  split; [done|done| |].
  - intros s z Hs Hz. apply of_ratio_denotes; [apply Z.pow_pos_nonneg; lia|lia].
  - intros p s x z Hs (sg & m & e & -> & Hm & He & Hu) Hz. cbn [num_of_float8 numerics].
    assert (0 < 10 ^ s) by (apply Z.pow_pos_nonneg; lia).
    rewrite (round_Z_exact _ _ _ (z * 10 ^ s)); [|done|unfold units in *; destruct sg; cbn [signed] in *; nia].
    assert (Z.abs z < 10 ^ (p - s) /\ 0 <= p - s) as [Hlt Hps].
    { destruct (Z.le_gt_cases 0 (p - s)).
      - split; [|done]. eapply Z.lt_le_trans; [exact Hz|]. apply Z.pow_le_mono_r; lia.
      - rewrite (Z.pow_neg_r 10 (Z.min 15 (p - s))) in Hz; lia. }
    replace (10 ^ p) with (10 ^ (p - s) * 10 ^ s) by (rewrite <- Z.pow_add_r by lia; f_equal; lia).
    rewrite Z.abs_mul, (Z.abs_eq (10 ^ s)) by lia. rewrite (proj2 (Z.ltb_lt _ _)); [done|nia].
Qed.
#[export] Instance casing : Casing := {|
  str_to_lowercase := to_ascii_lowercase;
  str_to_uppercase s := of_bytes (ascii_upper <$> bytes s) |}.
#[export] Instance casing_laws : CasingLaws.
Proof. by split. Qed.
#[export] Instance platform : Platform := {|
  mailbox_counts _ _ := Ok ∅; platform_stats_live_user_count _ := 5 |}.
(** The token is the name of the user. *)
#[export] Instance sessions : Sessions := fun token _ =>
  Ok (if String.eqb token "ann" then Some 11 else if String.eqb token "ben" then Some 12 else None).
Definition nobody : Rivals := fun _ _ d => d.

(** ** Data *)

Definition user (name : string) (upline : option Z) (meta : Value) : Row UserRow :=
  new_row 0 {| UserRow.kind := "user"; UserRow.name := name; UserRow.alien_id := None; UserRow.pic := None;
    UserRow.referred_by_iid := upline; UserRow.is_active := true; UserRow.meta := meta |}.
Definition code_of (issuer : Z) : Row CodeRow :=
  new_row 0 {| CodeRow.issued_by_iid := issuer; CodeRow.used_count := 0; CodeRow.expires_at := None;
    CodeRow.meta := json_object [("type", Str "referral"); ("max_uses", json_int 2)] |}.
(** Amounts in rupiah *)
Definition account (owner available balance : Z) : Row AccountRow :=
  new_row 0 {| AccountRow.owner_iid := owner; AccountRow.balance_usd := Dec 0;
    AccountRow.balance_idr := Dec (balance * 100); AccountRow.plan_tier := "free";
    AccountRow.billing_currency := "IDR"; AccountRow.fx_micro_per_usd := 17630000000;
    AccountRow.commission_available_usd := Dec 500000; AccountRow.commission_earned_usd := Dec 0;
    AccountRow.commission_available_idr := Dec (available * 100); AccountRow.commission_earned_idr := Dec 0;
    AccountRow.commission_pending_usd := Dec 0; AccountRow.commission_pending_idr := Dec 0 |}.

(** Ann and Ben have a code each and no upline; Cy, partner and finance staff, is
    below Ben, and Dee below Cy. *)
Definition start : Referrals :=
  {| t_user := list_to_map
       [(11, user "Ann" None (Object [])); (12, user "Ben" None (Object []));
        (13, user "Cy" (Some 12) (json_object [("global_roles", json_strings ["partner"; "finance"])]));
        (14, user "Dee" (Some 13) (Object []))];
     t_code := list_to_map [("ANN", code_of 11); ("BEN", code_of 12)];
     t_share := list_to_map [((12, 13), new_row 0 (Dec 2500)); ((13, 14), new_row 0 (Dec 1000))];
     t_account := list_to_map [(21, account 11 100 0); (22, account 12 1000 0); (23, account 13 0 0)];
     t_ledger := ∅; t_withdraw := ∅; t_topup := ∅; t_wallet := ∅; t_receive := ∅ |}.

Definition world (d : Referrals) : World Referrals :=
  {| db := d; n_clock := 0; n_ids := 0; n_sql := 0; txn_now := None |}.
Definition env_of (k : Z) : Env :=
  {| env_clock n := 1700000000000 + 1000 * k + Z.of_nat n; env_ids n := 100 * (k + 1) + Z.of_nat n;
     env_fault _ := false |}.
Definition after {A} (k : Z) (m : M Referrals A) (d : Referrals) : Referrals := (m (env_of k) (world d)).2.(db).
Definition result_of {A} (k : Z) (m : M Referrals A) (d : Referrals) : result A := (m (env_of k) (world d)).1.
Definition account_row (id : Z) (d : Referrals) : option AccountRow := cols <$> d.(t_account) !! id.
Definition available_idr (id : Z) (d : Referrals) : option num :=
  AccountRow.commission_available_idr <$> account_row id d.
Definition balance_idr (id : Z) (d : Referrals) : option num := AccountRow.balance_idr <$> account_row id d.

Definition withdraw_req (currency : string) (usd idr : f64) : ReqCommissionWithdraw :=
  {| ReqCommissionWithdraw.amount_usd := usd; ReqCommissionWithdraw.payout_method := "wallet_credit";
     ReqCommissionWithdraw.amount_idr := idr; ReqCommissionWithdraw.currency := currency;
     ReqCommissionWithdraw.bank_id := ""; ReqCommissionWithdraw.account_number := "";
     ReqCommissionWithdraw.account_name := "" |}.

Lemma start_accounts k r : start.(t_account) !! k = Some r -> k = r.(cols).(AccountRow.owner_iid) + 10 /\
  balances_ok r.(cols) = true.
Proof.
  intros E. unfold start in E. cbn [t_account] in E.
  apply elem_of_list_to_map_2 in E. by repeat (apply elem_of_cons in E as [[= -> ->]|E]; [done|]);
    apply elem_of_nil in E.
Qed.
Lemma start_ok : referrals_ok start.
Proof.
  split.
  - intros k r E. unfold start in E. cbn [t_share] in E.
    apply elem_of_list_to_map_2 in E. repeat (apply elem_of_cons in E as [[= -> ->]|E]);
      [exists 25|exists 10|by apply elem_of_nil in E]; done.
  - by intros k r [_ ?]%start_accounts.
  - intros k k' r r' [-> _]%start_accounts [-> _]%start_accounts _ _ ->. done.
  - intros owner ref k k' _ (r & E & _). discriminate E.
  - intros owner k k' (r & E & _). discriminate E.
Qed.

(** ** Others *)

Definition holds_none (ws : RefWrites) : bool :=
  (size ws.(w_user) =? 0)%nat && (size ws.(w_code) =? 0)%nat && (size ws.(w_share) =? 0)%nat &&
  (size ws.(w_account) =? 0)%nat && (size ws.(w_ledger) =? 0)%nat && (size ws.(w_withdraw) =? 0)%nat &&
  (size ws.(w_topup) =? 0)%nat && (size ws.(w_wallet) =? 0)%nat.
(** Someone's whole request at the [k]-th step of another, if that holds no locks *)
Definition at_step {A} (k : nat) (m : M Referrals A) : Rivals := fun ws n d =>
  if (n =? k)%nat && holds_none ws then after 5 m d else d.
(** What others may do *)
Definition legal (r : Rivals) : Prop := forall ws n d, keeps_ok d (r ws n d) /\ locked_out ws d (r ws n d).
Lemma nobody_keeps : legal nobody.
Proof. intros ws n d. split; [reflexivity|]. by split. Qed.
Lemma at_step_locked {A} k (m : M Referrals A) ws n d : locked_out ws d (at_step k m ws n d).
Proof.
  unfold at_step. destruct ((n =? k)%nat && holds_none ws) eqn:E; [|by split].
  apply andb_true_iff in E as [_ E]. unfold holds_none in E.
  rewrite !andb_true_iff, !Nat.eqb_eq, !map_size_empty_iff in E. destruct ws. cbn in E.
  destruct E as [[[[[[[-> ->] ->] ->] ->] ->] ->] ->]. exact (locked_out_no_writes d _).
Qed.
Lemma at_step_within R `{!Reflexive R} {A} k (m : M Referrals A) : respects R m ->
  forall ws n d, R d (at_step k m ws n d) /\ locked_out ws d (at_step k m ws n d).
Proof.
  intros Hm ws n d. split; [|apply at_step_locked]. unfold at_step, after. destruct (_ && _); [|done].
  destruct (m (env_of 5) (world d)) as [r w] eqn:Em. by apply Hm in Em.
Qed.
Lemma at_step_keeps {A} k (m : M Referrals A) : respects keeps_ok m -> legal (at_step k m).
Proof. intros Hm ws n d. by apply (at_step_within keeps_ok). Qed.

Definition ann_joins `{!Rivals} : M Referrals (StatusCode * Value) := referral_claim (Some "ann") "ben".
Section Nobody.
#[local] Existing Instance nobody.
Lemma ann_joins_keeps : respects keeps_ok ann_joins.
Proof. exact (keeps_claim nobody_keeps _ _). Qed.
End Nobody.

Section Gaps.
#[local] Existing Instance nobody.

(** Ann claims Ben's code and Ben claims Ann's. *)
Definition each_other : Referrals :=
  after 2 (referral_claim (Some "ben") "ann") (after 1 (referral_claim (Some "ann") "ben") start).
Definition upline_in (d : Referrals) (u : Z) : option Z :=
  r ← live_user d u; upline_of u r.(cols).
Lemma each_other_loops : loops each_other 11.
Proof.
  assert (forall d u v, upline_in d u = Some v -> exists r, live_user d u = Some r /\ upline_of u r.(cols) = Some v)
    as Hup by (by intros d u v (r & Hr & E)%bind_Some; eauto).
  assert (upline_in each_other 11 = Some 12) as (r & Hr & Er)%Hup by (vm_compute; reflexivity).
  assert (upline_in each_other 12 = Some 11) as (r' & Hr' & Er')%Hup by (vm_compute; reflexivity).
  exists 11. split; [by left|]. eapply above_step; [exact Hr|exact Er|]. eapply above_next; [exact Hr'|exact Er'].
Qed.

Lemma world_db d : (world d).(db) = d.
Proof. reflexivity. Qed.
Lemma nobody_calm ws n (d : Referrals) : calm d (nobody ws n d) /\ locked_out ws d (nobody ws n d).
Proof. split; [reflexivity|by split]. Qed.
Lemma each_other_endless fuel rows ws w e v : v.(db) = each_other ->
  earn_chain fuel 11 no_writes e v <> (Ok (Some rows, ws), w).
Proof.
  intros Ev E. assert (sees_net each_other no_writes v.(db)) as Hs
    by (unfold sees_net; rewrite view_no_writes, Ev; reflexivity).
  apply (earn_chain_climbs nobody_calm each_other fuel 11 e v no_writes _ _ Hs) in E as [_ HQ].
  destruct (HQ _ _ eq_refl) as [(us & Hus & _) _]. exact (climb_no_loop _ _ _ Hus each_other_loops).
Qed.

(** The amount of a request in Ann's account, and what was answered *)
Definition ann_withdraws (currency : string) (usd idr : f64) : M Referrals ResCommissionWithdraw :=
  commission_withdraw 11 (withdraw_req currency usd idr).
Definition succeeds {A} (r : result A) : bool := match r with Ok _ => true | Err _ => false end.
Definition nan_account : Referrals := after 1 (ann_withdraws "IDR" (of_Z 0) NaN) start.
Definition bens_code : ReferralCodeDoc :=
  {| ReferralCodeDoc.code := "BEN"; ReferralCodeDoc.ty := "referral"; ReferralCodeDoc.name := "Ann's";
     ReferralCodeDoc.issued_by := 0; ReferralCodeDoc.price_usd := of_Z 0; ReferralCodeDoc.duration_months := 0;
     ReferralCodeDoc.base_plan_slug := ""; ReferralCodeDoc.max_uses := 0; ReferralCodeDoc.used_count := 0;
     ReferralCodeDoc.expires_at_ms := 0 |}.
Definition code_cols (d : Referrals) : option (Z * string) :=
  (fun r => (r.(cols).(CodeRow.issued_by_iid), meta_str r.(cols).(CodeRow.meta) "name")) <$> d.(t_code) !! "BEN".
(** Names and numbers of children *)
Definition shown (viewer root depth : Z) : list (string * Z) :=
  match result_of 1 (referral_tree_get viewer root depth) start with
  | Ok slice => (fun n => (n.(ReferralTreeNode.name), n.(ReferralTreeNode.child_count))) <$>
      slice.(ReferralTreeSlice.nodes)
  | Err _ => []
  end.

(** A user who claims a code in two requests at the same time gets the bonus twice.
    Two users who claim each other's codes are above themselves, and the climb from
    either never ends.  An amount that is not a number passes every check, leaves
    the commission and the balance not numbers, and then any amount can be
    withdrawn.  A currency that is neither is paid in dollars, and the answer
    shows the commission as before.  A user who saves the code of another is told
    that it is theirs.  Everybody is shown the children of anybody at depth 1, and
    staff with an upline see twice the number of their children.  The pool of 180000
    rupiah is 62999, and earnings of ten billion are negative when scaled. *)
Theorem referral_gaps :
  (exists rivals, legal rivals /\ balance_idr 21 (after 3 (@ann_joins rivals) start) = Some (Dec 2000000) /\
     balance_idr 21 (after 4 (@ann_joins nobody) (after 3 (@ann_joins nobody) start)) = Some (Dec 1000000)) /\
  (upline_in each_other 11 = Some 12 /\ upline_in each_other 12 = Some 11 /\
   forall fuel rows ws w,
     earn_chain fuel 11 no_writes (env_of 3) (ReferralScenario.world each_other) <> (Ok (Some rows, ws), w)) /\
  (available_idr 21 nan_account = Some NumNaN /\ balance_idr 21 nan_account = Some NumNaN /\
   succeeds (result_of 2 (ann_withdraws "IDR" (of_Z 0) (of_Z 1000000)) nan_account) = true) /\
  (exists res, result_of 1 (ann_withdraws "EUR" (of_Z 5) (of_Z 0)) start = Ok res /\
     f64_as_i64 res.(ResCommissionWithdraw.commission_available_usd) = 50 /\
     f64_as_i64 res.(ResCommissionWithdraw.new_wallet_balance_usd) = 5) /\
  (exists res, result_of 1 (referral_code_put 11 bens_code) start = Ok res /\
     res.(ReferralCodeDoc.issued_by) = 11 /\ code_cols (after 1 (referral_code_put 11 bens_code) start) = code_cols start) /\
  shown 11 12 1 = [("Ben", 1); ("Cy", 1)] /\ shown 11 12 2 = [("Ann", 0)] /\
  shown 13 0 2 = [("Ann", 0); ("Ben", 1); ("Cy", 2); ("Dee", 0)] /\
  pool_of 180000 = 62999 /\
  let row := {| EarnRow.uid := 11; EarnRow.name := ""; EarnRow.pic := ""; EarnRow.percent := 35 |} in
  ReferralCommissionLevel.earn_amount <$> (simulate_chain (10 ^ 10) [row; row]).(CommissionSimulate.levels) =
    [-885249153; -885249153].
Proof.
  split; [|split; [|split; [|split; [|split]]]].
  - exists (at_step 4 (@ann_joins nobody)). split; [exact (at_step_keeps _ _ ann_joins_keeps)|].
    split; vm_compute; reflexivity.
  - split; [vm_compute; reflexivity|]. split; [vm_compute; reflexivity|]. intros fuel rows ws w.
    exact (each_other_endless fuel rows ws w (env_of 3) (world each_other) (world_db _)).
  - split_and!; vm_compute; reflexivity.
  - eexists. split; [vm_compute; reflexivity|]. split; vm_compute; reflexivity.
  - eexists. split; [vm_compute; reflexivity|]. split; [vm_compute; reflexivity|]. vm_compute. reflexivity.
  - split_and!; vm_compute; reflexivity.
Qed.
End Gaps.
End ReferralScenario.
