(* ===== verification/ReferralWitnesses.v ===== *)
(** * Concrete inputs at which the properties of the referrals apply *)
From stdpp Require Import pretty.
From S2P Require Import Prelude Strs Ts World Json Db Shared F64 ReferralData Referral ReferralTree.
From S2P Require Import Commission Withdraw ReferralClaim CommissionFacts CommissionProps ReferralFacts.
From S2P Require Import CommissionProps RedeemProps WithdrawProps ReferralSafe ReferralScenario.
Import ReferralScenario.

Section Nobody.
#[local] Existing Instance nobody.

Lemma nobody_eq ws n (d : Referrals) : d = nobody ws n d /\ locked_out ws d (nobody ws n d).
Proof. split; [reflexivity|by split]. Qed.
Lemma nobody_alone ws n (d : Referrals) : nobody ws n d = d.
Proof. done. Qed.

(** The chain above Dee: Dee gets 10 percent, Cy 15 of 25, Ben the rest of 35. *)
Definition dee_chain : result (option (list EarnRow) * RefWrites) :=
  (earn_chain 5 14 no_writes (env_of 1) (world start)).1.
Lemma start_shares : shares_ok start.
Proof. apply start_ok. Qed.

(** Three rounds are enough for the three users above. *)
Lemma earn_chain_returns_witness :
  ~ loops start 14 /\
  let d := view no_writes (world start).(db) in
  (~ loops d 14 -> (size d.(t_user) <= 5)%nat ->
     (exists x, dee_chain = Err x) \/
     exists us ws', Climb d 14 us /\ dee_chain = Ok (Some (chain_rows d us), ws')).
Proof.
  split.
  - apply (climb_no_loop start 14 [14; 13; 12]).
    eapply climb_up; [reflexivity|reflexivity|]. eapply climb_up; [reflexivity|reflexivity|].
    eapply climb_top; reflexivity.
  - unfold dee_chain. destruct (earn_chain 5 14 no_writes (env_of 1) (world start)) as [r w'] eqn:E.
    exact (proj1 (earn_chain_returns nobody_calm 5 14 no_writes (env_of 1) (world start) r w' E)).
Defined.
Lemma commission_shares_sum_witness : exists rows ws' w',
  earn_chain 5 14 no_writes (env_of 1) (world start) = (Ok (Some rows, ws'), w') /\
  percents rows = [10; 15; 10] /\ Forall (fun p => 0 <= p <= 35) (percents rows) /\ Zsum (percents rows) = 35.
Proof.
  destruct (earn_chain 5 14 no_writes (env_of 1) (world start)) as [r w'] eqn:E.
  assert (option_map percents (match r with Ok (a, _) => a | Err _ => None end) = Some [10; 15; 10]) as Hp.
  { change r with (r, w').1. rewrite <- E. vm_compute. reflexivity. }
  destruct r as [[[rows|] ws']|x]; [|discriminate Hp|discriminate Hp]. injection Hp as Hp.
  exists rows, ws', w'. split; [reflexivity|]. split; [exact Hp|]. split; [|rewrite Hp; reflexivity].
  exact (proj1 (commission_shares_sum nobody_calm 5 14 no_writes (env_of 1) (world start) rows ws' w'
    start_shares E)).
Defined.
Definition rows : list EarnRow :=
  [{| EarnRow.uid := 14; EarnRow.name := "Dee"; EarnRow.pic := ""; EarnRow.percent := 10 |};
   {| EarnRow.uid := 13; EarnRow.name := "Cy"; EarnRow.pic := ""; EarnRow.percent := 35 |}].
(** Two shares of 45 percent are scaled to the 35 of the pool. *)
Lemma commission_within_pool_witness :
  (topup_levels 0 1000000 rows).*2 = [77777; 272222] /\
  0 <= Zsum (topup_levels 0 1000000 rows).*2 <= (simulate_chain 1000000 rows).(CommissionSimulate.pool_amount).
Proof.
  split; [vm_compute; reflexivity|].
  refine (proj1 (proj2 (proj2 (proj2 (proj2 (proj2 (commission_within_pool 1000000 rows 0 _ _ _)))))));
    [lia|cbn; lia|repeat constructor; cbn; lia].
Defined.

Definition topup := commission_accrue_on_topup_tx 5 14 (of_Z 1000000) "IDR" "T1" no_writes (env_of 2) (world start).
Definition topped : Referrals :=
  match topup with (Ok (_, ws), w) => view ws w.(db) | _ => start end.
Lemma topup_credits_once_witness :
  available_idr 22 topped = Some (Dec 10100000) /\ exists ws' w', topup = (Ok (Some tt, ws'), w') /\
  forall e2 w2 ws2 w3 ws3, view ws2 w2.(db) = view ws' w'.(db) ->
    commission_accrue_on_topup_tx 5 14 (of_Z 1000000) "IDR" "T1" ws2 e2 w2 = (Ok (Some tt, ws3), w3) ->
    view ws3 w3.(db) = view ws' w'.(db).
Proof.
  split; [vm_compute; reflexivity|].
  destruct topup as [r w'] eqn:E.
  assert (match r with Ok (Some _, _) => true | _ => false end = true) as Hr.
  { change r with (r, w').1. rewrite <- E. vm_compute. reflexivity. }
  destruct r as [[[[]|] ws']|x]; [|discriminate Hr|discriminate Hr]. exists ws', w'. split; [reflexivity|].
  assert (amount_in_idr (of_Z 1000000) "IDR" = 1000000) as Ha by (vm_compute; reflexivity).
  refine (proj2 (proj2 (topup_credits_once nobody_alone 5 14 (of_Z 1000000) "IDR" "T1" no_writes (env_of 2)
    (world start) ws' w' start_shares _ _ _ E))); [vm_compute; discriminate|reflexivity|rewrite Ha; lia].
Defined.

(** ** Codes *)

Lemma referral_code_redeemed_witness : exists r w',
  referral_signup_code_redeem "b-e-n" (env_of 1) (world start) = (r, w') /\ succeeds r = true /\
  exists d, start = d /\ (succeeds r = true -> exists row, d.(t_code) !! "BEN" = Some row /\
    exists now, w'.(db) = {| d with t_code := <["BEN" := set_cols now (fun c =>
      {| c with CodeRow.used_count := c.(CodeRow.used_count) + 1 |}) row]> d.(t_code) |}).
Proof.
  destruct (referral_signup_code_redeem "b-e-n" (env_of 1) (world start)) as [r w'] eqn:E.
  exists r, w'. split; [reflexivity|].
  split; [change r with (r, w').1; rewrite <- E; vm_compute; reflexivity|].
  destruct (referral_code_redeemed eq _ nobody_eq "b-e-n" (env_of 1) (world start) r w' E) as (d & Hd & Hr).
  exists d. split; [exact Hd|]. intros Hok. destruct r as [info|x]; [|discriminate Hok].
  destruct Hr as (row & u & now & now' & Hrow & _ & _ & _ & _ & _ & _ & _ & Hw).
  exists row. split; [exact Hrow|]. exists now'. exact Hw.
Defined.

(** ** Payouts *)

(** Ann's 100 rupiah: 60 to the wallet, and by way of a bank *)
Definition to_wallet : ReqCommissionWithdraw := withdraw_req "" (of_Z 0) (of_Z 60).
Definition to_bank : ReqCommissionWithdraw :=
  {| ReqCommissionWithdraw.amount_usd := of_Z 0; ReqCommissionWithdraw.payout_method := " Bank_Transfer ";
     ReqCommissionWithdraw.amount_idr := of_Z 60; ReqCommissionWithdraw.currency := "idr";
     ReqCommissionWithdraw.bank_id := "014"; ReqCommissionWithdraw.account_number := "1234";
     ReqCommissionWithdraw.account_name := "ANN" |}.
Definition requested : Referrals := after 1 (commission_withdraw 11 to_bank) start.
Lemma sixty : denotes (of_Z 60) 60.
Proof. apply of_Z_denotes. reflexivity. Qed.

Lemma commission_withdraw_moves_witness : exists res w',
  commission_withdraw 11 to_wallet (env_of 1) (world start) = (Ok res, w') /\
  available_idr 21 w'.(db) = Some (Dec 4000) /\ balance_idr 21 w'.(db) = Some (Dec 6000) /\
  exists cur amount (wallet : bool) account row c,
    withdrawn 11 cur amount wallet "" "" "" account row c res start w'.(db).
Proof.
  destruct (commission_withdraw 11 to_wallet (env_of 1) (world start)) as [r w'] eqn:E.
  assert (w' = (commission_withdraw 11 to_wallet (env_of 1) (world start)).2) as Ew by (rewrite E; reflexivity).
  destruct (commission_withdraw_moves eq _ nobody_eq 11 to_wallet (env_of 1) (world start) r w' E)
    as (d0 & d & Hd0 & Hd & Hr).
  assert (succeeds r = true) as Hok by (change r with (r, w').1; rewrite <- E; vm_compute; reflexivity).
  destruct r as [res|x]; [|discriminate Hok]. exists res, w'. split; [reflexivity|].
  split; [rewrite Ew; vm_compute; reflexivity|]. split; [rewrite Ew; vm_compute; reflexivity|].
  destruct Hr as (cur & amount & wallet & account & row & c & _ & _ & _ & _ & Hw & _).
  exists cur, amount, wallet, account, row, c. rewrite <- Hd, <- Hd0 in Hw. exact Hw.
Defined.

Definition decide_req (action : string) : ReqCommissionWithdrawReview :=
  {| ReqCommissionWithdrawReview.request_id := 201; ReqCommissionWithdrawReview.action := action;
     ReqCommissionWithdrawReview.transfer_proof_url := "proof"; ReqCommissionWithdrawReview.reason := "no" |}.
(** Cy approves the request, or declines it. *)
Lemma withdraw_review_decides_witness : exists w',
  commission_withdraw_review 13 (decide_req "Approve") (env_of 2) (world requested) = (Ok tt, w') /\
  available_idr 21 w'.(db) = Some (Dec 4000) /\
  exists (approve : bool) text,
    reviewed approve 13 (decide_req "Approve").(ReqCommissionWithdrawReview.request_id) text
      (world requested).(db) w'.(db).
Proof.
  destruct (commission_withdraw_review 13 (decide_req "Approve") (env_of 2) (world requested)) as [r w'] eqn:E.
  assert (w' = (commission_withdraw_review 13 (decide_req "Approve") (env_of 2) (world requested)).2) as Ew
    by (rewrite E; reflexivity).
  assert (succeeds r = true) as Hok by (change r with (r, w').1; rewrite <- E; vm_compute; reflexivity).
  pose proof (withdraw_review_decides nobody_alone 13 (decide_req "Approve") (env_of 2) (world requested) r w' E)
    as Hr. destruct r as [[]|x]; [|discriminate Hok]. exists w'. split; [reflexivity|].
  split; [rewrite Ew; vm_compute; reflexivity|].
  destruct Hr as (_ & approve & text & row & _ & _ & _ & _ & Hrev & _). exists approve, text. exact Hrev.
Defined.
Definition ann_account : Row AccountRow := account 11 100 0.
Lemma ann_has_one k' x : (world start).(db).(t_account) !! k' = Some x ->
  x.(cols).(AccountRow.owner_iid) = 11 -> k' = 21.
Proof.
  rewrite world_db. intros Hx Ho. unfold start in Hx. cbn [t_account] in Hx.
  apply elem_of_list_to_map_2 in Hx. repeat (apply elem_of_cons in Hx as [[= -> ->]|Hx];
    [first [reflexivity|discriminate Ho]|]). by apply elem_of_nil in Hx.
Qed.
Lemma declined_payout_restores_witness : exists res w1 w3,
  commission_withdraw 11 to_bank (env_of 1) (world start) = (Ok res, w1) /\
  commission_withdraw_review 13 (decide_req "decline") (env_of 2) w1 = (Ok tt, w3) /\
  available_idr 21 w1.(db) = Some (Dec 4000) /\
  exists acct', w3.(db).(t_account) !! 21 = Some acct' /\ acct'.(cols) = ann_account.(cols).
Proof.
  destruct (commission_withdraw 11 to_bank (env_of 1) (world start)) as [r w1] eqn:E1.
  assert (w1 = (commission_withdraw 11 to_bank (env_of 1) (world start)).2) as Ew1 by (rewrite E1; reflexivity).
  assert (succeeds r = true) as Hok1 by (change r with (r, w1).1; rewrite <- E1; vm_compute; reflexivity).
  destruct r as [res|x]; [|discriminate Hok1].
  destruct (commission_withdraw_review 13 (decide_req "decline") (env_of 2) w1) as [r w3] eqn:E2.
  assert (succeeds r = true) as Hok2 by (change r with (r, w3).1; rewrite <- E2, Ew1; vm_compute; reflexivity).
  destruct r as [[]|x]; [|discriminate Hok2]. exists res, w1, w3. split; [reflexivity|]. split; [exact E2|].
  split; [rewrite Ew1; vm_compute; reflexivity|].
  assert (withdraw_amount to_bank.(ReqCommissionWithdraw.currency) to_bank.(ReqCommissionWithdraw.amount_usd)
    to_bank.(ReqCommissionWithdraw.amount_idr) = Ok ("IDR", of_Z 60)) as Hca by (vm_compute; reflexivity).
  assert (str_to_lowercase (trim to_bank.(ReqCommissionWithdraw.payout_method)) = "bank_transfer") as Hm
    by (vm_compute; reflexivity).
  assert (str_to_lowercase (trim (decide_req "decline").(ReqCommissionWithdrawReview.action)) = "decline") as Ha
    by (vm_compute; reflexivity).
  assert ((world start).(db).(t_account) !! 21 = Some ann_account) as Hacc by reflexivity.
  pose proof (declined_payout_restores nobody_alone 11 to_bank "IDR" (of_Z 60) (env_of 1) (world start) res w1
    13 (decide_req "decline") (env_of 2) w1 w3 21 ann_account 100 0 60 E1 Hca (or_introl eq_refl) Hm eq_refl
    eq_refl E2 Ha ann_has_one Hacc eq_refl eq_refl sixty) as Hrest.
  destruct Hrest as [Hrest _]; [cbn; lia..|exact Hrest].
Defined.

(** Ann withdraws while nobody else is there. *)
Lemma referrals_stay_well_formed_witness :
  referrals_ok start /\ referrals_ok (referral_serve (PayOut 11 to_bank) (env_of 1) (world start)).2.(db).
Proof.
  split; [exact start_ok|].
  destruct (referral_serve (PayOut 11 to_bank) (env_of 1) (world start)) as [r w'] eqn:E.
  exact (referrals_stay_well_formed nobody_keeps (PayOut 11 to_bank) (env_of 1) (world start) r w' E start_ok).
Defined.
End Nobody.
