(* ===== verification/TopUp.v ===== *)
(** * Top-ups ([servers/crates/mod_billing/src/billing_topup.rs],
      [billing_midtrans.rs], [billing_webhook.rs], [billing_receive_account.rs];
      the review in [billing_finance.rs], the rate in [fx_live.rs])

    A user orders credit and transfers the money, or pays it to the payment
    provider, whose notification settles the order; staff decide the orders with
    a transfer and keep the accounts that receive them.  Settling credits the
    account and the users above, and for a payment the wallet. *)
From stdpp Require Import sorting pretty.
From S2P Require Import Prelude Strs Ts World Json Db Shared F64 ReferralData Referral ReferralTree.
From S2P Require Import Commission Withdraw ReferralClaim.

(** ** Messages *)

Module ReqBillingTopupPut.
#[projections(primitive)]
Record ReqBillingTopupPut := mk {
  amount_usd : f64;
  amount_idr : f64;
  provider : string;
  payment_type : string;
  proof_url : string;
}.
End ReqBillingTopupPut.
Notation ReqBillingTopupPut := ReqBillingTopupPut.ReqBillingTopupPut.

Module BillingTopupRequest.
#[projections(primitive)]
Record BillingTopupRequest := mk {
  id : Z;
  owner_iid : Z;
  billing_account_id : Z;
  amount_usd : f64;
  amount_idr : f64;
  provider : string;
  payment_type : string;
  external_order_id : string;
  proof_url : string;
  status : string;
  reject_reason : string;
  reviewed_by_iid : Z;
  settled_ts_ms : Z;
  created_ts_ms : Z;
  updated_ts_ms : Z;
}.
End BillingTopupRequest.
Notation BillingTopupRequest := BillingTopupRequest.BillingTopupRequest.

Module ResBillingTopupPut.
#[projections(primitive)]
Record ResBillingTopupPut := mk {
  request : option BillingTopupRequest;
  order_id : string;
  payment_url : string;
  qr_code_data : string;
  instruction : string;
  status : string;
  credit_amount_idr : f64;
  fee_amount_idr : f64;
  gross_amount_idr : f64;
}.
End ResBillingTopupPut.
Notation ResBillingTopupPut := ResBillingTopupPut.ResBillingTopupPut.

Module BillingTopupMethodOption.
#[projections(primitive)]
Record BillingTopupMethodOption := mk {
  id : string;
  label : string;
  provider : string;
  payment_type : string;
  note : string;
  fee_amount_idr : f64;
  fee_is_percent : bool;
  fee_rate_bps : f64;
}.
End BillingTopupMethodOption.
Notation BillingTopupMethodOption := BillingTopupMethodOption.BillingTopupMethodOption.

Module BillingTopupQueueItem.
#[projections(primitive)]
Record BillingTopupQueueItem := mk {
  request_id : Z;
  owner_iid : Z;
  amount_idr : f64;
  amount_usd : f64;
  proof_url : string;
  status : string;
  created_ts_ms : Z;
  user_name : string;
  user_pic : string;
  user_handle : string;
  reject_reason : string;
  reviewed_by_iid : Z;
  reviewer_name : string;
  reviewer_pic : string;
  receive_bank_id : string;
  receive_account_number : string;
  receive_account_name : string;
}.
End BillingTopupQueueItem.
Notation BillingTopupQueueItem := BillingTopupQueueItem.BillingTopupQueueItem.

Module ReqBillingTopupReview.
#[projections(primitive)]
Record ReqBillingTopupReview := mk { request_id : Z; action : string; reason : string }.
End ReqBillingTopupReview.
Notation ReqBillingTopupReview := ReqBillingTopupReview.ReqBillingTopupReview.

Module BillingReceiveAccount.
#[projections(primitive)]
Record BillingReceiveAccount := mk {
  id : Z;
  bank_id : string;
  account_number : string;
  account_name : string;
  currency : string;
  is_active : bool;
  is_default : bool;
  label : string;
  created_by_iid : Z;
  meta_json : string;
  created_ts_ms : Z;
  updated_ts_ms : Z;
}.
End BillingReceiveAccount.
Notation BillingReceiveAccount := BillingReceiveAccount.BillingReceiveAccount.

(** ** The payment provider ([billing_midtrans.rs]) *)

Definition one_of (l : list string) (s : string) : bool := existsb (String.eqb s) l.

Definition USD_IDR_DEFAULT : f64 := of_Z 16000.
Definition TOPUP_MIN_IDR : Z := 50000.
Definition TOPUP_MIN_USD : f64 := of_Z 10.
Definition amount_usd_ok (amount_usd : f64) : bool := fleb TOPUP_MIN_USD (fadd amount_usd (decimal 1 3)).
Definition amount_idr_ok (amount_idr : Z) : bool := TOPUP_MIN_IDR <=? amount_idr.
Definition rate_or_default (usd_idr : f64) : f64 :=
  if fltb (of_Z 0) usd_idr then usd_idr else USD_IDR_DEFAULT.
Definition usd_to_idr (amount_usd usd_idr : f64) : Z :=
  f64_as_i64 (fround (fmul amount_usd (rate_or_default usd_idr))).
Definition resolve_topup_amounts (amount_usd amount_idr usd_idr : f64) : result (Z * f64) :=
  let rate := rate_or_default usd_idr in
  if fltb (of_Z 0) amount_idr
  then
    let idr := f64_as_i64 (fround amount_idr) in
    if negb (amount_idr_ok idr) then Err "amount_idr must be at least 50000"
    else Ok (idr, fdiv (fround (fmul (fdiv amount_idr rate) (of_Z 100))) (of_Z 100))
  else if negb (amount_usd_ok amount_usd) then Err "amount_usd must be at least 10"
  else Ok (usd_to_idr amount_usd rate, amount_usd).

(** [f64::ceil] *)
Definition fceil (x : f64) : f64 := fneg (ffloor (fneg x)).
Definition percent_fee (credit_idr : Z) (rate : f64) : Z :=
  f64_as_i64 (fceil (fmul (of_Z credit_idr) rate)).
Definition bank_transfers : list string :=
  ["bca_va"; "bni_va"; "bri_va"; "permata_va"; "other_va"; "cimb_va"; "echannel"].
Definition midtrans_fee_idr (method_id : string) (credit_idr : Z) : Z :=
  if credit_idr <=? 0 then 0
  else if one_of ["qris"; "other_qris"] method_id then percent_fee credit_idr (decimal 7 3)
  else if one_of bank_transfers method_id then 4000
  else if one_of ["gopay"; "shopeepay"] method_id then percent_fee credit_idr (decimal 2 2)
  else if String.eqb method_id "credit_card" then percent_fee credit_idr (decimal 29 3)
  else if one_of ["indomaret"; "alfamart"] method_id then 5000
  else percent_fee credit_idr (decimal 1 2).
Definition midtrans_fee_is_percent (method_id : string) : bool :=
  negb (one_of (bank_transfers ++ ["indomaret"; "alfamart"]) method_id).
Definition midtrans_fee_rate_bps (method_id : string) : f64 :=
  if one_of ["qris"; "other_qris"] method_id then of_Z 70
  else if one_of ["gopay"; "shopeepay"] method_id then of_Z 200
  else if String.eqb method_id "credit_card" then of_Z 290
  else of_Z 100.

Definition snap_payments (payment_type : string) : list string :=
  if is_empty payment_type then ["qris"]
  else if str_contains payment_type "_" || String.eqb payment_type "echannel" ||
    String.eqb payment_type "other_qris" then [payment_type]
  else if String.eqb payment_type "qris" then ["qris"]
  else if String.eqb payment_type "bank_transfer"
  then ["bca_va"; "bni_va"; "bri_va"; "permata_va"; "echannel"]
  else [payment_type].
Definition payment_channel_label `{!Casing} (name : string) : string :=
  if one_of ["qris"; "other_qris"] name then "QRIS"
  else match list_find (fun e => e.1 = name)
    [("bca_va", "BCA Virtual Account"); ("bni_va", "BNI Virtual Account"); ("bri_va", "BRI Virtual Account");
     ("permata_va", "Permata VA"); ("other_va", "Virtual Account"); ("cimb_va", "CIMB VA");
     ("echannel", "Mandiri Bill"); ("gopay", "GoPay"); ("shopeepay", "ShopeePay");
     ("credit_card", "Credit Card"); ("indomaret", "Indomaret"); ("alfamart", "Alfamart");
     ("akulaku", "Akulaku"); ("kredivo", "Kredivo")] with
  | Some (_, (_, label)) => label
  | None => str_to_uppercase (str_replace name "_" " ")
  end.

Module Notification.
#[projections(primitive)]
Record Notification := mk {
  order_id : string;
  status_code : string;
  gross_amount : string;
  signature_key : string;
  transaction_status : string;
  fraud_status : option string;
  payment_type : option string;
  transaction_id : option string;
}.
End Notification.
Notation Notification := Notification.Notification.

Inductive SettlePlan := Credit | AlreadySettled | MarkExpired | MarkFailed | Ignore | NotFound.

Definition is_paid_status (transaction_status : string) (fraud_status : option string) : bool :=
  if String.eqb transaction_status "settlement" then true
  else if String.eqb transaction_status "capture"
  then String.eqb (default "accept" fraud_status) "accept" else false.
Definition settle_plan (row_status : option string) (n : Notification) : SettlePlan :=
  let transaction_status := n.(Notification.transaction_status) in
  match row_status with
  | None => NotFound
  | Some s =>
      if String.eqb s "settled" then AlreadySettled
      else if negb (String.eqb s "pending") then Ignore
      else if is_paid_status transaction_status n.(Notification.fraud_status) then Credit
      else if one_of ["expire"; "expired"] transaction_status then MarkExpired
      else if one_of ["deny"; "cancel"; "failure"; "failed"] transaction_status then MarkFailed
      else Ignore
  end.

(** *** Payments *)

Module PaymentCreated.
#[projections(primitive)]
Record PaymentCreated := mk {
  order_id : string;
  payment_url : string;
  qr_code_data : string;
  snap_token : string;
}.
End PaymentCreated.
Notation PaymentCreated := PaymentCreated.PaymentCreated.

Module SnapRes.
#[projections(primitive)]
Record SnapRes := mk {
  token : option string;
  redirect_url : option string;
  error_messages : option (list string);
}.
End SnapRes.
Notation SnapRes := SnapRes.SnapRes.

Module ChargeRes.
#[projections(primitive)]
Record ChargeRes := mk {
  qr_string : option string;
  redirect_url : option string;
  (** name and url *)
  actions : option (list (option string * option string));
  status_code : option string;
  status_message : option string;
  error_messages : option (list string);
}.
End ChargeRes.
Notation ChargeRes := ChargeRes.ChargeRes.

Module MerchantPreferences.
#[projections(primitive)]
Record MerchantPreferences := mk {
  (** name and [enabled] *)
  payment_channels : option (list (string * bool));
  error_messages : option (list string);
}.
End MerchantPreferences.
Notation MerchantPreferences := MerchantPreferences.MerchantPreferences.

(** The payment provider, as it answers at the [n]-th step; the settings of the
    server; and the libraries that hash and decode its messages *)
Class Midtrans := {
  midtrans_server_key : string;
  midtrans_usd_idr : f64;
  (** [POST /snap/v1/transactions] of an order, its amount, item and payments *)
  snap_transactions : string -> Z -> string -> list string -> nat -> result SnapRes;
  (** [POST /v2/charge] of an order and its amount *)
  qris_v2_charge : string -> Z -> nat -> result ChargeRes;
  (** [GET /snap/v3/merchant-preferences] *)
  merchant_preferences : nat -> result MerchantPreferences;
  (** SHA-512, as hex digits *)
  sha512_hex : string -> string;
  (** [serde_json::from_slice] *)
  notification_from_slice : string -> result Notification;
  (** a body as JSON, or as text under ["raw"] *)
  webhook_body : string -> Value;
  (** [{:.2}] *)
  two_decimals : f64 -> string;
}.
(** [FX_MICRO], which another task of the process sets, at the [n]-th step *)
Class FxLive := fx_micro : nat -> Z.
(** [row.get] of a [NUMERIC] column by scale as [f64], which panics if the
    driver does not convert it *)
Class NumericDecode := get_numeric_as_f64 : Z -> num -> result f64.

Section Payments.
Context `{!Midtrans}.

Definition signature_hex (order_id status_code gross_amount server_key : string) : string :=
  sha512_hex (order_id +:+ status_code +:+ gross_amount +:+ server_key).
Definition signature_verify (order_id status_code gross_amount server_key signature_key : string) : bool :=
  negb (is_empty server_key) &&
  eq_ignore_ascii_case (signature_hex order_id status_code gross_amount server_key) (trim signature_key).

Definition no_errors (error_messages : option (list string)) (prefix_ : string) : result () :=
  match error_messages with
  | Some ((_ :: _) as errs) => Err (prefix_ +:+ String.concat "; " errs)
  | _ => Ok tt
  end.
Definition require_server_key : result () :=
  if is_empty midtrans_server_key
  then Err "MIDTRANS_SERVER_KEY is not configured; Snap/QRIS top-up disabled until keys are set" else Ok tt.
Definition snap_created (order_id payment_type : string) (parsed : SnapRes) : result PaymentCreated :=
  _ ← no_errors parsed.(SnapRes.error_messages) "Midtrans Snap: ";
  let payment_url := default "" parsed.(SnapRes.redirect_url) in
  Ok {| PaymentCreated.order_id := order_id; PaymentCreated.payment_url := payment_url;
        PaymentCreated.qr_code_data := if String.eqb payment_type "qris" then payment_url else "";
        PaymentCreated.snap_token := default "" parsed.(SnapRes.token) |}.
(** [find_map] over the actions: the first whose name has [qr] and that has a
    url *)
Definition qr_action (actions : option (list (option string * option string))) : option string :=
  head (omap (fun a : option string * option string =>
    if str_contains (default "" a.1) "qr" then a.2 else None) (default [] actions)).
Definition qris_created (order_id : string) (parsed : ChargeRes) : result PaymentCreated :=
  _ ← no_errors parsed.(ChargeRes.error_messages) "Midtrans QRIS: ";
  _ ← (match parsed.(ChargeRes.status_code) with
    | Some code => if one_of ["201"; "200"] code then Ok tt
        else Err ("Midtrans QRIS status " +:+ code +:+ ": " +:+ default "" parsed.(ChargeRes.status_message))
    | None => Ok tt
    end);
  Ok {| PaymentCreated.order_id := order_id;
        PaymentCreated.payment_url := default "" (match parsed.(ChargeRes.redirect_url) with
          | Some u => Some u | None => qr_action parsed.(ChargeRes.actions) end);
        PaymentCreated.qr_code_data := default "" parsed.(ChargeRes.qr_string);
        PaymentCreated.snap_token := "" |}.

Context `{!Chrono} `{!Rivals}.
Notation M := (M Referrals).

Definition snap_create (order_id : string) (gross_idr : Z) (item_name payment_type : string) : M PaymentCreated :=
  lift require_server_key;;
  parsed ← ask (snap_transactions order_id gross_idr item_name (snap_payments payment_type));
  lift (p ← parsed; snap_created order_id payment_type p).
Definition qris_charge (order_id : string) (gross_idr : Z) : M PaymentCreated :=
  lift require_server_key;;
  parsed ← ask (qris_v2_charge order_id gross_idr);
  lift (p ← parsed; qris_created order_id p).
Definition payment_create (order_id : string) (gross_idr : Z) (item_name payment_method : string)
    : M PaymentCreated :=
  let method := if is_empty payment_method then "qris" else payment_method in
  charged ← (if one_of ["qris"; "other_qris"] method then attempt (qris_charge order_id gross_idr)
             else mret (Err "not QRIS"));
  match charged with
  | Ok p => mret p
  | Err _ => snap_create order_id gross_idr item_name method
  end.
Definition snap_merchant_payment_channels : M (list string) :=
  if is_empty midtrans_server_key then mret ["qris"; "bca_va"] else
  parsed ← ask merchant_preferences;
  parsed ← lift parsed;
  lift (no_errors parsed.(MerchantPreferences.error_messages) "Midtrans preferences: ");;
  let channels := (filter (fun c : string * bool => c.2 = true /\ is_empty c.1 = false)
    (default [] parsed.(MerchantPreferences.payment_channels))).*1 in
  mret (if decide (channels = []) then ["qris"; "bca_va"] else channels).

(** *** The rate ([fx_live.rs]) *)

Definition FX_DEFAULT_MICRO : Z := 17630000000.
Definition fx_live_micro_per_usd (v : Z) : Z := if 0 <? v then v else FX_DEFAULT_MICRO.
Definition fx_live_idr_per_usd (v : Z) : f64 := fdiv (of_Z (fx_live_micro_per_usd v)) (of_Z 1000000).
Definition topup_usd_idr_rate `{!FxLive} (fallback : f64) : M f64 :=
  live ← ask (fun n => fx_live_idr_per_usd (fx_micro n));
  mret (if fltb (of_Z 0) live then live else fallback).
End Payments.

Definition dot : Ascii.ascii := Ascii.ascii_of_nat 46.
(** The digits in groups of three *)
Fixpoint dotted (digits : list Ascii.ascii) : list Ascii.ascii :=
  match digits with
  | [] => []
  | ch :: rest =>
      ch :: (if (negb (length rest =? 0)%nat && (length rest mod 3 =? 0)%nat) then dot :: dotted rest
             else dotted rest)
  end.
Definition wallet_idr_label (idr : Z) : string := "Rp " +:+ of_bytes (dotted (bytes (pretty (Z.abs idr)))).

(** [a || b] of [jsonb]: of two objects the keys of both, of anything else an
    array *)
Definition jsonb_concat (a b : Value) : Value :=
  match a, b with
  | Object m, Object m' => Object (foldl (fun m e => map_insert e.1 e.2 m) m m')
  | Array l, Array l' => Array (l ++ l')
  | Array l, v => Array (l ++ [v])
  | v, Array l => Array (v :: l)
  | v, v' => Array [v; v']
  end.

(** [ORDER BY is_default DESC, updated_ts DESC] *)
Definition by_default `{!Chrono} (a b : Z * Row ReceiveRow) : Prop :=
  let x := a.2.(cols).(ReceiveRow.is_default) in let y := b.2.(cols).(ReceiveRow.is_default) in
  (x = true /\ y = false) \/ (x = y /\ by_updated_desc a b).
#[export] Instance by_default_dec `{!Chrono} a b : Decision (by_default a b).
Proof. unfold by_default. apply _. Defined.

Section TopUp.
Context `{!Chrono} `{!Order} `{!Numerics} `{!Casing} `{!Rivals} `{!Midtrans} `{!FxLive} `{!NumericDecode}.
Notation M := (M Referrals).
Notation T := (T (DB := Referrals) (W := RefWrites)).

(** ** Ordering *)

(** A column of the new row may hold text that is too long for it; then the
    statement fails. *)
Definition billing_account_row (owner_iid : Z) : M (Z * Row AccountRow) :=
  row ← read (fun _ d => account_of owner_iid d);
  lift (ok_or row "billing account not found").

(** The rows of the index [uq_billing_topup_external_order] *)
Definition order_taken (order_id : string) (d : Referrals) : bool :=
  negb (is_empty order_id) &&
  existsb (fun e : Z * Row TopupRow => String.eqb e.2.(cols).(TopupRow.external_order_id) order_id && live e.2)
    (order d.(t_topup)).
Definition order_row (owner_iid account_id : Z) (usd idr : num)
    (provider payment_type order_id proof_url status : string) (meta : Value) : TopupRow :=
  {| TopupRow.owner_iid := owner_iid; TopupRow.billing_account_id := account_id;
     TopupRow.amount_usd := usd; TopupRow.amount_idr := idr; TopupRow.provider := provider;
     TopupRow.payment_type := payment_type; TopupRow.external_order_id := order_id;
     TopupRow.proof_url := proof_url; TopupRow.status := status; TopupRow.reject_reason := "";
     TopupRow.reviewed_by_iid := None; TopupRow.settled_ts := None; TopupRow.meta := meta |}.
(** [INSERT INTO ai.billing_topup_request] *)
Definition insert_order (id : Z) (amount_usd : f64) (amount_idr : Z) (row : num -> num -> TopupRow) : M () :=
  stmt (fun now d =>
    usd ← num_of_float8 12 4 amount_usd; idr ← num_of_float8 16 2 (of_Z amount_idr);
    let c := row usd idr in
    match d.(t_account) !! c.(TopupRow.billing_account_id) with
    | None => Err "violates foreign key constraint"
    | Some _ =>
        if order_taken c.(TopupRow.external_order_id) d
        then Err "duplicate key value violates unique constraint"
        else t ← t_insert id (new_row now c) d.(t_topup); Ok (tt, {| d with t_topup := t |})
    end).

Definition receive_account_default (currency : string) : M (string * string * string) :=
  let cur := if is_empty (trim currency) then "IDR" else str_to_uppercase (trim currency) in
  row ← read (fun _ d => head (merge_sort by_default
    (filter (fun e => live e.2 = true /\ e.2.(cols).(ReceiveRow.is_active) = true /\
       e.2.(cols).(ReceiveRow.currency) = cur) (order d.(t_receive)))));
  mret match row with
  | Some (_, r) => (r.(cols).(ReceiveRow.bank_id), r.(cols).(ReceiveRow.account_number),
      r.(cols).(ReceiveRow.account_name))
  | None => ("BCA", "0113543750", "PT Percepatan Akhir Semesta")
  end.

(** The order as the answer shows it *)
Definition request_shown (id owner_iid account_id : Z) (amount_usd amount_idr : f64)
    (provider payment_type order_id proof_url status : string) (created_ts_ms : Z) : BillingTopupRequest :=
  {| BillingTopupRequest.id := id; BillingTopupRequest.owner_iid := owner_iid;
     BillingTopupRequest.billing_account_id := account_id; BillingTopupRequest.amount_usd := amount_usd;
     BillingTopupRequest.amount_idr := amount_idr; BillingTopupRequest.provider := provider;
     BillingTopupRequest.payment_type := payment_type; BillingTopupRequest.external_order_id := order_id;
     BillingTopupRequest.proof_url := proof_url; BillingTopupRequest.status := status;
     BillingTopupRequest.reject_reason := ""; BillingTopupRequest.reviewed_by_iid := 0;
     BillingTopupRequest.settled_ts_ms := 0; BillingTopupRequest.created_ts_ms := created_ts_ms;
     BillingTopupRequest.updated_ts_ms := 0 |}.

Definition billing_manual_topup_put (owner_iid : Z) (req : ReqBillingTopupPut) : M ResBillingTopupPut :=
  let proof_url := trim req.(ReqBillingTopupPut.proof_url) in
  if is_empty proof_url then throw "transfer proof URL is required" else
  account ← billing_account_row owner_iid;
  usd_idr ← topup_usd_idr_rate midtrans_usd_idr;
  amounts ← lift (resolve_topup_amounts req.(ReqBillingTopupPut.amount_usd) req.(ReqBillingTopupPut.amount_idr) usd_idr);
  let '(amount_idr, amount_usd) := amounts in
  receive ← receive_account_default "IDR";
  let '(bank_id, account_number, account_name) := receive in
  let instruction := "Transfer " +:+ wallet_idr_label amount_idr +:+ " to " +:+ bank_id +:+ " · " +:+
    account_number +:+ " (" +:+ account_name +:+ "). Balance credits after review." in
  id ← next_id;
  let order_id := "c35-manual-" +:+ pretty id in
  let payment_type := if is_empty (trim req.(ReqBillingTopupPut.payment_type)) then "bank_transfer"
    else trim req.(ReqBillingTopupPut.payment_type) in
  now ← utc_now;
  let topup_meta := json_object [("receive_account", json_object
    [("bank_id", Str bank_id); ("account_number", Str account_number); ("account_name", Str account_name)])] in
  insert_order id amount_usd amount_idr (fun usd idr => order_row owner_iid account.1 usd idr "manual"
    payment_type order_id proof_url "pending_review" topup_meta);;
  mret
    {| ResBillingTopupPut.request := Some (request_shown id owner_iid account.1 amount_usd (of_Z amount_idr)
         "manual" payment_type order_id proof_url "pending_review" (timestamp_millis now));
       ResBillingTopupPut.order_id := order_id; ResBillingTopupPut.payment_url := "";
       ResBillingTopupPut.qr_code_data := ""; ResBillingTopupPut.instruction := instruction;
       ResBillingTopupPut.status := "pending_review";
       ResBillingTopupPut.credit_amount_idr := of_Z amount_idr; ResBillingTopupPut.fee_amount_idr := of_Z 0;
       ResBillingTopupPut.gross_amount_idr := of_Z amount_idr |}.

(** [SET ...] without [updated_ts] *)
Definition set_only {A} (f : A -> A) (r : Row A) : Row A := set_cols r.(updated_ts) f r.
Definition update_order (id : Z) (f : TopupRow -> TopupRow) : M () := stmt (fun _ d =>
  Ok (tt, {| d with t_topup := (t_update (fun k _ => k =? id) (set_only f) d.(t_topup)).1 |})).
Definition add_meta (v : Value) (c : TopupRow) : TopupRow :=
  {| c with TopupRow.meta := jsonb_concat c.(TopupRow.meta) v |}.
Definition order_meta (usd_idr : f64) (owner_iid credit_idr fee_idr charge_idr : Z) (amount_usd : f64) : Value :=
  json_object [("usd_idr", json_f64 usd_idr); ("owner_iid", json_int owner_iid);
    ("credit_idr", json_int credit_idr); ("fee_idr", json_int fee_idr); ("gross_idr", json_int charge_idr);
    ("amount_usd", json_f64 amount_usd)].

Definition billing_midtrans_topup_put (owner_iid : Z) (req : ReqBillingTopupPut) : M ResBillingTopupPut :=
  usd_idr ← topup_usd_idr_rate midtrans_usd_idr;
  amounts ← lift (resolve_topup_amounts req.(ReqBillingTopupPut.amount_usd) req.(ReqBillingTopupPut.amount_idr) usd_idr);
  let '(credit_idr, amount_usd) := amounts in
  account ← billing_account_row owner_iid;
  let payment_method := if is_empty (trim req.(ReqBillingTopupPut.payment_type)) then "qris"
    else trim req.(ReqBillingTopupPut.payment_type) in
  let fee_idr := midtrans_fee_idr payment_method credit_idr in
  let charge_idr := (credit_idr + fee_idr)%i64 in
  topup_id ← next_id;
  let order_id := "c35-" +:+ pretty topup_id in
  let item_name := if fltb (of_Z 0) req.(ReqBillingTopupPut.amount_idr)
    then "Alien AI wallet " +:+ wallet_idr_label credit_idr
    else "Alien AI wallet $" +:+ two_decimals amount_usd in
  insert_order topup_id amount_usd credit_idr (fun usd idr => order_row owner_iid account.1 usd idr "midtrans"
    payment_method order_id "" "pending"
    (order_meta usd_idr owner_iid credit_idr fee_idr charge_idr amount_usd));;
  created ← attempt (payment_create order_id charge_idr item_name payment_method);
  match created with
  | Err e =>
      ignore (update_order topup_id (fun c =>
        let c := add_meta (json_object [("create_error", Str e)]) c in
        {| c with TopupRow.status := "failed" |}));;
      throw e
  | Ok created =>
      ignore (update_order topup_id (add_meta (json_object
        [("snap_token", Str created.(PaymentCreated.snap_token));
         ("payment_url", Str created.(PaymentCreated.payment_url))])));;
      now ← utc_now;
      mret
        {| ResBillingTopupPut.request := Some (request_shown topup_id owner_iid account.1 amount_usd
             (of_Z credit_idr) "midtrans" payment_method created.(PaymentCreated.order_id) "" "pending"
             (timestamp_millis now));
           ResBillingTopupPut.order_id := created.(PaymentCreated.order_id);
           ResBillingTopupPut.payment_url := created.(PaymentCreated.payment_url);
           ResBillingTopupPut.qr_code_data := created.(PaymentCreated.qr_code_data);
           ResBillingTopupPut.instruction := if 0 <? fee_idr
             then "Pay " +:+ wallet_idr_label charge_idr +:+ " total (" +:+ wallet_idr_label credit_idr +:+
               " credit + " +:+ wallet_idr_label fee_idr +:+ " Midtrans fee)"
             else "";
           ResBillingTopupPut.status := "pending";
           ResBillingTopupPut.credit_amount_idr := of_Z credit_idr;
           ResBillingTopupPut.fee_amount_idr := of_Z fee_idr;
           ResBillingTopupPut.gross_amount_idr := of_Z charge_idr |}
  end.

Definition billing_topup_put (owner_iid : Z) (req : ReqBillingTopupPut) : M ResBillingTopupPut :=
  if owner_iid <=? 0 then throw "unauthorized" else
  let provider := if is_empty (trim req.(ReqBillingTopupPut.provider)) then "manual"
    else str_to_lowercase (trim req.(ReqBillingTopupPut.provider)) in
  if String.eqb provider "manual" then billing_manual_topup_put owner_iid req
  else if negb (String.eqb provider "midtrans") then throw ("unsupported provider: " +:+ provider)
  else billing_midtrans_topup_put owner_iid req.

(** ** Reading *)

Definition method_option (ch : string) (sample : Z) : BillingTopupMethodOption :=
  {| BillingTopupMethodOption.id := ch; BillingTopupMethodOption.label := payment_channel_label ch;
     BillingTopupMethodOption.provider := "midtrans"; BillingTopupMethodOption.payment_type := ch;
     BillingTopupMethodOption.note := "Fee added to total";
     BillingTopupMethodOption.fee_amount_idr := of_Z (midtrans_fee_idr ch sample);
     BillingTopupMethodOption.fee_is_percent := midtrans_fee_is_percent ch;
     BillingTopupMethodOption.fee_rate_bps := midtrans_fee_rate_bps ch |}.
Definition billing_topup_methods (owner_iid : Z) (sample_amount_idr : f64) : M (list BillingTopupMethodOption) :=
  if owner_iid <=? 0 then throw "unauthorized" else
  let sample := if fltb (of_Z 0) sample_amount_idr then f64_as_i64 (fround sample_amount_idr) else TOPUP_MIN_IDR in
  channels ← unwrap_or ["qris"; "bca_va"; "bni_va"; "gopay"; "shopeepay"] snap_merchant_payment_channels;
  mret ({| BillingTopupMethodOption.id := "manual"; BillingTopupMethodOption.label := "Manual transfer";
           BillingTopupMethodOption.provider := "manual";
           BillingTopupMethodOption.payment_type := "bank_transfer";
           BillingTopupMethodOption.note := "Must wait Admin approval";
           BillingTopupMethodOption.fee_amount_idr := of_Z 0;
           BillingTopupMethodOption.fee_is_percent := false;
           BillingTopupMethodOption.fee_rate_bps := of_Z 0 |}
        :: ((fun ch => method_option ch sample) <$> channels)).

(** The amounts are read from [NUMERIC] columns without a cast. *)
Definition billing_topup_get (owner_iid : Z) (order_id : string) : M BillingTopupRequest :=
  if owner_iid <=? 0 then throw "unauthorized" else
  let order_id := trim order_id in
  if is_empty order_id then throw "order_id required" else
  row ← read (fun _ d => head (filter (fun e : Z * Row TopupRow =>
    e.2.(cols).(TopupRow.owner_iid) = owner_iid /\ e.2.(cols).(TopupRow.external_order_id) = order_id)
    (order d.(t_topup))));
  row ← lift (ok_or row "top-up not found");
  let '(id, r) := row in
  let c := (r : Row TopupRow).(cols) in
  usd ← lift (get_numeric_as_f64 4 c.(TopupRow.amount_usd));
  idr ← lift (get_numeric_as_f64 2 c.(TopupRow.amount_idr));
  mret (request_shown id c.(TopupRow.owner_iid) c.(TopupRow.billing_account_id) usd idr
    c.(TopupRow.provider) c.(TopupRow.payment_type) c.(TopupRow.external_order_id) c.(TopupRow.proof_url)
    c.(TopupRow.status) (timestamp_millis r.(created_ts))).

(** ** Settling *)

(** An error of the last statement that the code ignores: the transaction is
    aborted then, and its commit rolls it back without an error. *)
Definition tignore (m : T ()) : T () := fun ws =>
  r ← attempt (m ws);
  mret (tt, match r with Ok p => p.2 | Err _ => no_writes end).
(** A loop that has not ended commits nothing. *)
Definition ended {A} (r : option A) : T A := tlift (ok_or r "the referrals have no end").

Definition order_of (order_id : string) (d : Referrals) : option (Z * Row TopupRow) :=
  head (filter (fun e => e.2.(cols).(TopupRow.external_order_id) = order_id) (order d.(t_topup))).
(** [WHERE external_order_id = $1 AND status = 'pending'] *)
Definition order_pending (order_id : string) (r : Row TopupRow) : bool :=
  String.eqb r.(cols).(TopupRow.external_order_id) order_id &&
  String.eqb r.(cols).(TopupRow.status) "pending".
Definition mark_order (order_id status : string) (meta : Value) : M () := ignore (stmt (fun _ d =>
  Ok (tt, {| d with t_topup := (t_update (fun _ => order_pending order_id) (set_only (fun c =>
    let c := add_meta meta c in {| c with TopupRow.status := status |})) d.(t_topup)).1 |}))).
Definition settle_meta (n : Notification) (raw : string) : Value :=
  json_object [("webhook", webhook_body raw);
    ("transaction_status", Str n.(Notification.transaction_status));
    ("payment_type", json_option (Str <$> n.(Notification.payment_type)));
    ("transaction_id", json_option (Str <$> n.(Notification.transaction_id)))].

(** [INSERT INTO ai.billing_wallet ... ON CONFLICT (owner_iid, currency) ...
    DO UPDATE SET balance = balance + EXCLUDED.balance] *)
Definition wallet_of (owner_iid : Z) (d : Referrals) : option (Z * Row WalletRow) :=
  head (filter (fun e => e.2.(cols).(WalletRow.owner_iid) = owner_iid /\
    e.2.(cols).(WalletRow.currency) = "IDR" /\ live e.2 = true) (order d.(t_wallet))).
Definition checked_balance (x : num) : result num :=
  if num_nonneg x then Ok x else Err "violates check constraint".
Definition credit_wallet (wallet_id owner_iid : Z) (amount_idr : f64) : T () := tstmt (fun now d =>
  x ← num_of_float8 20 4 amount_idr;
  x ← checked_balance x;
  match wallet_of owner_iid d with
  | Some (k, r) =>
      y ← num_plus 20 4 r.(cols).(WalletRow.balance) x;
      y ← checked_balance y;
      Ok (tt, write_wallet k (set_cols now (fun c => {| c with WalletRow.balance := y |}) r))
  | None =>
      match d.(t_wallet) !! wallet_id with
      | Some _ => Err "duplicate key value violates unique constraint"
      | None => Ok (tt, write_wallet wallet_id (new_row now
          {| WalletRow.owner_iid := owner_iid; WalletRow.currency := "IDR"; WalletRow.balance := x;
             WalletRow.is_default := false; WalletRow.name := "Personal IDR" |}))
      end
  end).

Definition settled (now : DateTime) (meta : Value) (c : TopupRow) : TopupRow :=
  let c := add_meta meta c in
  {| c with TopupRow.status := "settled"; TopupRow.settled_ts := Some now |}.
Definition settle_txn (fuel : nat) (order_id : string) (meta : Value) (owner_iid account_id : Z)
    (amount_idr : f64) : T bool :=
  updated ← tstmt (fun now d =>
    let rows := rows_where (fun _ => order_pending order_id) (set_only (settled now meta)) d.(t_topup) in
    Ok (bool_decide (rows <> ∅), write_topup rows));
  if negb updated then mret false else
  credited ← topup_credit_and_accrue fuel account_id amount_idr "IDR" order_id;
  ended credited;;
  wallet_id ← tcode next_id;
  tignore (credit_wallet wallet_id owner_iid amount_idr);;
  mret true.

Definition billing_topup_settle (fuel : nat) (n : Notification) (raw : string) : M string :=
  let order_id := n.(Notification.order_id) in
  row ← read (fun _ d => order_of order_id d);
  match row with
  | None => mret "ignored"
  | Some (_, r) =>
      let c := (r : Row TopupRow).(cols) in
      let amount_idr := float8_of_num 2 c.(TopupRow.amount_idr) in
      let meta := settle_meta n raw in
      match settle_plan (Some c.(TopupRow.status)) n with
      | AlreadySettled => mret "already-settled"
      | Ignore | NotFound => mret "ok"
      | MarkExpired => mark_order order_id "expired" meta;; mret "expired"
      | MarkFailed => mark_order order_id "failed" meta;; mret "failed"
      | Credit =>
          updated ← txn (settle_txn fuel order_id meta c.(TopupRow.owner_iid)
            c.(TopupRow.billing_account_id) amount_idr);
          mret (if (updated : bool) then "settled" else "already-settled")
      end
  end.

(** [webhook_midtrans_inner]: the answer or the status of an error *)
Definition webhook_midtrans (fuel : nat) (body : string) : M (nat * string) :=
  match notification_from_slice body with
  | Err e => mret (400, "invalid json: " +:+ e)%nat
  | Ok n =>
      if is_empty midtrans_server_key then mret (503, "MIDTRANS_SERVER_KEY unset")%nat
      else if negb (signature_verify n.(Notification.order_id) n.(Notification.status_code)
        n.(Notification.gross_amount) midtrans_server_key n.(Notification.signature_key))
      then mret (403, "invalid signature")%nat
      else
        r ← attempt (billing_topup_settle fuel n body);
        mret match r with Ok msg => (200, msg)%nat | Err e => (500, e)%nat end
  end.

(** ** Review ([billing_finance.rs]) *)

Definition finance_access (viewer_iid : Z) : M () :=
  meta ← finance_viewer_meta viewer_iid;
  if default false (get "is_root" meta ≫= as_bool) then mret tt
  else if existsb (one_of ["partner"; "finance"; "director"; "marketing"; "root"]) (finance_roles meta)
  then mret tt else throw "forbidden".

Definition is_manual (c : TopupRow) : bool := String.eqb c.(TopupRow.provider) "manual".
Definition is_open (c : TopupRow) : bool := one_of ["pending"; "pending_review"] c.(TopupRow.status).
Definition reject_order (request_id reviewer_iid : Z) (reason : string) : M () :=
  n ← stmt (fun now d =>
    let '(t, n) := t_update (fun k r => (k =? request_id) && is_manual r.(cols) && is_open r.(cols))
      (set_cols now (fun c => {| c with TopupRow.status := "rejected"; TopupRow.reject_reason := reason;
         TopupRow.reviewed_by_iid := Some reviewer_iid |})) d.(t_topup) in
    Ok (n, {| d with t_topup := t |}));
  if n =? 0 then throw "request not found" else mret tt.
(** What is credited for an order, and in which currency *)
Definition order_credit (c : TopupRow) : f64 * string :=
  let amount_idr := float8_of_num 2 c.(TopupRow.amount_idr) in
  if fltb (of_Z 0) amount_idr then (amount_idr, "IDR")
  else (float8_of_num 4 c.(TopupRow.amount_usd), "USD").
Definition approve_order_txn (fuel : nat) (reviewer_iid request_id : Z) : T () :=
  row ← tstmt (fun _ d =>
    match d.(t_topup) !! request_id with
    | Some r => if is_manual r.(cols) then Ok (Some r, write_topup {[ request_id := r ]}) else Ok (None, no_writes)
    | None => Ok (None, no_writes)
    end);
  r ← tlift (ok_or row "request not found");
  let c := (r : Row TopupRow).(cols) in
  (if negb (is_open c) then tlift (Err "request is not pending") else mret tt);;
  credited ← topup_credit_and_accrue fuel c.(TopupRow.billing_account_id) (order_credit c).1 (order_credit c).2
    c.(TopupRow.external_order_id);
  ended credited;;
  tstmt (fun now d => Ok (tt, write_topup (rows_where (fun k _ => k =? request_id)
    (set_cols now (fun c => {| c with TopupRow.status := "settled"; TopupRow.settled_ts := Some now;
       TopupRow.reviewed_by_iid := Some reviewer_iid |})) d.(t_topup)))).
Definition billing_topup_review (fuel : nat) (reviewer_iid : Z) (req : ReqBillingTopupReview) : M () :=
  finance_review_access reviewer_iid;;
  let action := str_to_lowercase (trim req.(ReqBillingTopupReview.action)) in
  let request_id := req.(ReqBillingTopupReview.request_id) in
  if request_id <=? 0 then throw "request_id required"
  else if String.eqb action "reject"
  then reject_order request_id reviewer_iid (trim req.(ReqBillingTopupReview.reason))
  else if negb (String.eqb action "approve") then throw "invalid action"
  else txn (approve_order_txn fuel reviewer_iid request_id).

(** Of [->>] the code reads back texts only, which it wrote. *)
Definition receive_detail (key : string) (meta : Value) : string :=
  default "" (a ← get "receive_account" meta; get key a ≫= as_str).
Definition topup_queue_item (d : Referrals) (e : Z * Row TopupRow) : BillingTopupQueueItem :=
  let c := e.2.(cols) in
  let user id := cols <$> d.(t_user) !! (id : Z) in
  let shown (f : UserRow -> string) u := default "" (f <$> u) in
  let owner := user c.(TopupRow.owner_iid) in
  let reviewer := c.(TopupRow.reviewed_by_iid) ≫= user in
  {| BillingTopupQueueItem.request_id := e.1; BillingTopupQueueItem.owner_iid := c.(TopupRow.owner_iid);
     BillingTopupQueueItem.amount_idr := float8_of_num 2 c.(TopupRow.amount_idr);
     BillingTopupQueueItem.amount_usd := float8_of_num 4 c.(TopupRow.amount_usd);
     BillingTopupQueueItem.proof_url := c.(TopupRow.proof_url);
     BillingTopupQueueItem.status := c.(TopupRow.status);
     BillingTopupQueueItem.created_ts_ms := timestamp_millis e.2.(created_ts);
     BillingTopupQueueItem.user_name := shown UserRow.name owner;
     BillingTopupQueueItem.user_pic := shown (fun u => default "" u.(UserRow.pic)) owner;
     BillingTopupQueueItem.user_handle := shown (fun u => default "" u.(UserRow.alien_id)) owner;
     BillingTopupQueueItem.reject_reason := c.(TopupRow.reject_reason);
     BillingTopupQueueItem.reviewed_by_iid := default 0 c.(TopupRow.reviewed_by_iid);
     BillingTopupQueueItem.reviewer_name := shown UserRow.name reviewer;
     BillingTopupQueueItem.reviewer_pic := shown (fun u => default "" u.(UserRow.pic)) reviewer;
     BillingTopupQueueItem.receive_bank_id := receive_detail "bank_id" c.(TopupRow.meta);
     BillingTopupQueueItem.receive_account_number := receive_detail "account_number" c.(TopupRow.meta);
     BillingTopupQueueItem.receive_account_name := receive_detail "account_name" c.(TopupRow.meta) |}.
Definition listed_status (status : string) (c : TopupRow) : bool :=
  if String.eqb status "history" then one_of ["settled"; "rejected"; "expired"; "failed"] c.(TopupRow.status)
  else String.eqb status "all" || is_open c.
Definition billing_topup_list (viewer_iid : Z) (status : string) (limit : Z) : M (list BillingTopupQueueItem) :=
  finance_access viewer_iid;;
  let lim := Z.max 1 (Z.min 200 limit) in
  let status := str_to_lowercase (trim status) in
  read (fun _ d => topup_queue_item d <$> take (Z.to_nat lim) (merge_sort by_created_desc
    (filter (fun e : Z * Row TopupRow => is_manual e.2.(cols) = true /\ listed_status status e.2.(cols) = true /\
       live e.2 = true) (order d.(t_topup))))).
End TopUp.

(** ** The accounts that receive transfers ([billing_receive_account.rs]) *)

(** [ORDER BY currency, is_default DESC, updated_ts DESC]; a currency is three
    capitals, which every collation orders alike. *)
Definition by_currency `{!Chrono} (a b : Z * Row ReceiveRow) : Prop :=
  let x := a.2.(cols).(ReceiveRow.currency) in let y := b.2.(cols).(ReceiveRow.currency) in
  String.ltb x y = true \/ (x = y /\ by_default a b).
#[export] Instance by_currency_dec `{!Chrono} a b : Decision (by_currency a b).
Proof. unfold by_currency. apply _. Defined.

Section ReceiveAccounts.
Context `{!Chrono} `{!Order} `{!Casing} `{!Rivals} `{!SerdeJson}.
Notation M := (M Referrals).

Definition receive_account_from_row (e : Z * Row ReceiveRow) : BillingReceiveAccount :=
  let c := e.2.(cols) in
  {| BillingReceiveAccount.id := e.1; BillingReceiveAccount.bank_id := c.(ReceiveRow.bank_id);
     BillingReceiveAccount.account_number := c.(ReceiveRow.account_number);
     BillingReceiveAccount.account_name := c.(ReceiveRow.account_name);
     BillingReceiveAccount.currency := c.(ReceiveRow.currency);
     BillingReceiveAccount.is_active := c.(ReceiveRow.is_active);
     BillingReceiveAccount.is_default := c.(ReceiveRow.is_default);
     BillingReceiveAccount.label := c.(ReceiveRow.label);
     BillingReceiveAccount.created_by_iid := default 0 c.(ReceiveRow.created_by_iid);
     BillingReceiveAccount.meta_json := to_string c.(ReceiveRow.meta);
     BillingReceiveAccount.created_ts_ms := timestamp_millis e.2.(created_ts);
     BillingReceiveAccount.updated_ts_ms := timestamp_millis e.2.(updated_ts) |}.

Definition receive_account_list (viewer_iid : Z) (currency : string) (active_only : bool)
    : M (list BillingReceiveAccount) :=
  (if negb active_only then finance_access viewer_iid
   else if viewer_iid <=? 0 then throw "forbidden" else mret tt);;
  let currency := str_to_uppercase (trim currency) in
  read (fun _ d =>
    let listed (e : Z * Row ReceiveRow) := live e.2 = true /\
      (active_only = true -> e.2.(cols).(ReceiveRow.is_active) = true) in
    receive_account_from_row <$>
      if is_empty currency then merge_sort by_currency (filter listed (order d.(t_receive)))
      else merge_sort by_default
        (filter (fun e => listed e /\ e.2.(cols).(ReceiveRow.currency) = currency) (order d.(t_receive)))).

Definition receive_account_put_access (viewer_iid : Z) : M () :=
  meta ← finance_viewer_meta viewer_iid;
  if default false (get "is_root" meta ≫= as_bool) then mret tt
  else if existsb (one_of ["finance"; "director"]) (finance_roles meta) then mret tt else throw "forbidden".

(** [^[A-Z]{3}$] *)
Definition currency_ok (s : string) : bool :=
  (length (bytes s) =? 3)%nat && forallb (fun b => (65 <=? byte_Z b) && (byte_Z b <=? 90)) (bytes s).
(** The rows of the index [uq_billing_receive_account_default_currency] *)
Definition default_taken (id : Z) (r : Row ReceiveRow) (d : Referrals) : bool :=
  live r && r.(cols).(ReceiveRow.is_default) &&
  existsb (fun e : Z * Row ReceiveRow => negb (e.1 =? id) && live e.2 && e.2.(cols).(ReceiveRow.is_default) &&
    String.eqb e.2.(cols).(ReceiveRow.currency) r.(cols).(ReceiveRow.currency)) (order d.(t_receive)).
Definition clear_default (currency : string) : M () := ignore (stmt (fun now d =>
  Ok (tt, {| d with t_receive := (t_update (fun _ r =>
    String.eqb r.(cols).(ReceiveRow.currency) currency && live r)
    (set_cols now (fun c => {| c with ReceiveRow.is_default := false |})) d.(t_receive)).1 |}))).
(** [INSERT ... ON CONFLICT (id) DO UPDATE], which keeps [created_by_iid] *)
Definition receive_upsert (id : Z) (c : ReceiveRow) : M () := stmt (fun now d =>
  if negb (currency_ok c.(ReceiveRow.currency)) then Err "violates check constraint" else
  let r := match d.(t_receive) !! id with
    | Some r => set_cols now (fun old => {| c with ReceiveRow.created_by_iid := old.(ReceiveRow.created_by_iid) |}) r
    | None => new_row now c
    end in
  if default_taken id r d then Err "duplicate key value violates unique constraint"
  else Ok (tt, {| d with t_receive := <[id := r]> d.(t_receive) |})).
(** [unwrap_or_default] *)
Definition no_receive_account : BillingReceiveAccount :=
  {| BillingReceiveAccount.id := 0; BillingReceiveAccount.bank_id := "";
     BillingReceiveAccount.account_number := ""; BillingReceiveAccount.account_name := "";
     BillingReceiveAccount.currency := ""; BillingReceiveAccount.is_active := false;
     BillingReceiveAccount.is_default := false; BillingReceiveAccount.label := "";
     BillingReceiveAccount.created_by_iid := 0; BillingReceiveAccount.meta_json := "";
     BillingReceiveAccount.created_ts_ms := 0; BillingReceiveAccount.updated_ts_ms := 0 |}.

Definition receive_account_put (viewer_iid : Z) (account : option BillingReceiveAccount)
    : M BillingReceiveAccount :=
  receive_account_put_access viewer_iid;;
  let doc := default no_receive_account account in
  let bank_id := trim doc.(BillingReceiveAccount.bank_id) in
  let account_number := trim doc.(BillingReceiveAccount.account_number) in
  let account_name := trim doc.(BillingReceiveAccount.account_name) in
  if is_empty bank_id || is_empty account_number || is_empty account_name
  then throw "bank_id, account_number, account_name required" else
  let currency := if is_empty (trim doc.(BillingReceiveAccount.currency)) then "IDR"
    else str_to_uppercase (trim doc.(BillingReceiveAccount.currency)) in
  id ← (if 0 <? doc.(BillingReceiveAccount.id) then mret doc.(BillingReceiveAccount.id) else next_id);
  let meta := if is_empty (trim doc.(BillingReceiveAccount.meta_json)) then Object []
    else default (Object []) (from_str doc.(BillingReceiveAccount.meta_json)) in
  (if doc.(BillingReceiveAccount.is_default) then clear_default currency else mret tt);;
  receive_upsert id
    {| ReceiveRow.bank_id := bank_id; ReceiveRow.account_number := account_number;
       ReceiveRow.account_name := account_name; ReceiveRow.currency := currency;
       ReceiveRow.is_active := doc.(BillingReceiveAccount.is_active);
       ReceiveRow.is_default := doc.(BillingReceiveAccount.is_default);
       ReceiveRow.label := trim doc.(BillingReceiveAccount.label);
       ReceiveRow.created_by_iid := Some viewer_iid; ReceiveRow.meta := meta |};;
  row ← read (fun _ d => d.(t_receive) !! id);
  r ← lift (ok_or row "no rows returned by a query that expected to return at least one row");
  mret (receive_account_from_row (id, r)).
End ReceiveAccounts.
