(* ===== verification/TopUpProps.v ===== *)
(** * What top-ups credit

    Whoever runs beside: an order is credited once at most, to its account and
    with its amount.  And what a notification of the payment provider changes. *)
From stdpp Require Import pretty.
From S2P Require Import Prelude Strs Ts World Json Db Shared F64 ReferralData Referral ReferralTree.
From S2P Require Import Commission Withdraw ReferralClaim CommissionFacts ReferralFacts CommissionProps.
From S2P Require Import WithdrawProps TopUp.

(** ** What may happen to orders and balances *)

(** The two balances of an account, and crediting them *)
Definition balances (c : AccountRow) : num * num := (c.(AccountRow.balance_usd), c.(AccountRow.balance_idr)).
Definition credit_balances `{!Numerics} (amount : f64) (currency : string) (b : num * num) : result (num * num) :=
  if eq_ignore_ascii_case currency "IDR" then x ← num_add 16 2 b.2 amount; Ok (b.1, x)
  else x ← num_add 12 4 b.1 amount; Ok (x, b.2).

Section Pays.
Context `{!Chrono} `{!Order} `{!Numerics}.

(** What an order is about stays as it is. *)
Definition same_order (c c' : TopupRow) : Prop :=
  c'.(TopupRow.owner_iid) = c.(TopupRow.owner_iid) /\
  c'.(TopupRow.billing_account_id) = c.(TopupRow.billing_account_id) /\
  c'.(TopupRow.amount_usd) = c.(TopupRow.amount_usd) /\ c'.(TopupRow.amount_idr) = c.(TopupRow.amount_idr) /\
  c'.(TopupRow.provider) = c.(TopupRow.provider) /\
  c'.(TopupRow.external_order_id) = c.(TopupRow.external_order_id).
(** What is credited for an order: its rupiah, or, approved by staff, its dollars
    if it has no rupiah *)
Definition credit_of (c : TopupRow) (amount : f64) (currency : string) : Prop :=
  (amount, currency) = (float8_of_num 2 c.(TopupRow.amount_idr), "IDR") \/
  (amount, currency) = order_credit c.

(** What else may happen to the balances of an account *)
Context (other : Z -> num * num -> num * num -> Prop).

(** The orders [ks] are credited to an account one after the other. *)
Inductive moved (orders : gmap Z (Row TopupRow)) (account : Z)
    : list Z -> num * num -> num * num -> Prop :=
| moved_nil b : moved orders account [] b b
| moved_other ks b b1 b2 : other account b b1 -> moved orders account ks b1 b2 ->
    moved orders account ks b b2
| moved_paid k r amount currency ks b b1 b2 :
    orders !! k = Some r -> r.(cols).(TopupRow.billing_account_id) = account ->
    credit_of r.(cols) amount currency -> credit_balances amount currency b = Ok b1 ->
    moved orders account ks b1 b2 -> moved orders account (k :: ks) b b2.

(** The order [k] has been settled between [d] and [d']. *)
Definition newly_settled (account k : Z) (d d' : Referrals) : Prop := exists r',
  d'.(t_topup) !! k = Some r' /\ r'.(cols).(TopupRow.billing_account_id) = account /\
  is_Some r'.(cols).(TopupRow.settled_ts) /\
  forall r, d.(t_topup) !! k = Some r -> r.(cols).(TopupRow.settled_ts) = None.

(** A currency has one account at most that receives its transfers by default. *)
Definition is_default_in (currency : string) (r : Row ReceiveRow) : Prop :=
  live r = true /\ r.(cols).(ReceiveRow.is_default) = true /\ r.(cols).(ReceiveRow.currency) = currency.
Definition one_default (t : gmap Z (Row ReceiveRow)) : Prop := forall currency k k' r r',
  t !! k = Some r -> t !! k' = Some r' -> is_default_in currency r -> is_default_in currency r' -> k = k'.

Record orders_ok (d : Referrals) : Prop := {
  ok_live : forall k r, d.(t_topup) !! k = Some r -> live r = true;
  ok_distinct : forall k k' r r', d.(t_topup) !! k = Some r -> d.(t_topup) !! k' = Some r' ->
    r.(cols).(TopupRow.external_order_id) = r'.(cols).(TopupRow.external_order_id) -> k = k';
  ok_account : forall k r, d.(t_topup) !! k = Some r ->
    is_Some (d.(t_account) !! r.(cols).(TopupRow.billing_account_id));
  ok_open : forall k r, d.(t_topup) !! k = Some r -> is_open r.(cols) = true ->
    r.(cols).(TopupRow.settled_ts) = None;
  ok_default : one_default d.(t_receive);
}.
(** Orders stay, keep when they were settled and are not opened again; the
    balances of an account are credited exactly the orders that were settled
    meanwhile, each once. *)
Record paid_well (d d' : Referrals) : Prop := {
  pw_orders : forall k r, d.(t_topup) !! k = Some r -> exists r', d'.(t_topup) !! k = Some r' /\
    same_order r.(cols) r'.(cols) /\
    (is_Some r.(cols).(TopupRow.settled_ts) ->
       r'.(cols).(TopupRow.settled_ts) = r.(cols).(TopupRow.settled_ts)) /\
    (is_open r.(cols) = false -> is_open r'.(cols) = false);
  pw_accounts : forall a x, d.(t_account) !! a = Some x -> exists x' ks, d'.(t_account) !! a = Some x' /\
    NoDup ks /\ (forall k, k ∈ ks <-> newly_settled a k d d') /\
    moved d'.(t_topup) a ks (balances x.(cols)) (balances x'.(cols));
}.
Definition pays (d d' : Referrals) : Prop := orders_ok d -> orders_ok d' /\ paid_well d d'.

Lemma same_order_refl c : same_order c c.
Proof. by repeat split. Qed.
Lemma same_order_trans c c1 c2 : same_order c c1 -> same_order c1 c2 -> same_order c c2.
Proof. unfold same_order. intros (?&?&?&?&?&?) (?&?&?&?&?&?). split_and!; congruence. Qed.
Lemma credit_of_same c c' amount currency : same_order c c' -> credit_of c amount currency ->
  credit_of c' amount currency.
Proof. unfold credit_of, order_credit. intros (_ & _ & -> & -> & _). done. Qed.
Lemma moved_app orders a ks1 ks2 b b1 b2 :
  moved orders a ks1 b b1 -> moved orders a ks2 b1 b2 -> moved orders a (ks1 ++ ks2) b b2.
Proof.
  induction 1; intros Hm; [done|eapply moved_other; eauto|]. cbn. eapply moved_paid; eauto.
Qed.
Lemma moved_mono orders orders' a ks b b' :
  (forall k r, orders !! k = Some r -> exists r', orders' !! k = Some r' /\ same_order r.(cols) r'.(cols)) ->
  moved orders a ks b b' -> moved orders' a ks b b'.
Proof.
  intros Ho. induction 1 as [b|ks b b1 b2 Hb _ IH|k r amount currency ks b b1 b2 Hr Ha Hc Hb _ IH].
  - apply moved_nil.
  - by eapply moved_other.
  - apply Ho in Hr as (r' & Hr' & Hs). eapply moved_paid; [exact Hr'| |by eapply credit_of_same|done..].
    destruct Hs as (_ & -> & _). done.
Qed.

#[global] Instance pays_preorder : PreOrder pays.
Proof.
  split.
  - intros d Hd. split; [done|]. split; [intros k r Hr; exists r; by repeat split|].
    intros a x Hx. exists x, []. split; [done|]. split; [constructor|]. split; [|apply moved_nil].
    intros k. split; [by intros ?%elem_of_nil|]. intros (r & Hr & _ & [t Ht] & Hn). rewrite (Hn _ Hr) in Ht. done.
  - intros d d1 d2 Hstep1 Hstep2 Hd. destruct (Hstep1 Hd) as [Hd1 [Po1 Pa1]]. destruct (Hstep2 Hd1) as [Hd2 [Po2 Pa2]].
    split; [done|]. split.
    + intros k r (r1 & Hr1 & Hs1 & Ht1 & Hn1)%Po1. apply Po2 in Hr1 as (r2 & Hr2 & Hs2 & Ht2 & Hn2).
      exists r2. split_and!; [done|by eapply same_order_trans| |auto].
      intros Hs. specialize (Ht1 Hs). rewrite Ht2; [done|]. by rewrite Ht1.
    + intros a x (x1 & ks1 & Hx1 & Hnd1 & Hk1 & Hm1)%Pa1. apply Pa2 in Hx1 as (x2 & ks2 & Hx2 & Hnd2 & Hk2 & Hm2).
      exists x2, (ks1 ++ ks2). split; [done|].
      assert (forall k, newly_settled a k d d1 -> newly_settled a k d1 d2 -> False) as Hdis.
      { intros k (r1 & Hr1 & _ & [t Ht] & _) (r2 & _ & _ & _ & Hn). rewrite (Hn _ Hr1) in Ht. done. }
      split; [apply list.NoDup_app; split_and!; [exact Hnd1| |exact Hnd2]; intros k Hin1%Hk1 Hin2%Hk2; by eapply Hdis|].
      split.
      * intros k. rewrite elem_of_app, Hk1, Hk2. split.
        -- intros [(r1 & Hr1 & Ha1 & Hs1 & Hn1)|(r2 & Hr2 & Ha2 & Hs2 & Hn2)].
           ++ destruct (Po2 _ _ Hr1) as (r2 & Hr2 & Hsame & Ht & _). exists r2. split_and!; try done.
              ** destruct Hsame as (_ & -> & _). done.
              ** by rewrite (Ht Hs1).
           ++ exists r2. split_and!; try done. intros r Hr. destruct (Po1 _ _ Hr) as (r1 & Hr1 & _ & Ht & _).
              specialize (Hn2 _ Hr1). destruct (r.(cols).(TopupRow.settled_ts)) eqn:Es; [|done].
              rewrite (Ht ltac:(eauto)) in Hn2. done.
        -- intros (r2 & Hr2 & Ha2 & Hs2 & Hn). destruct (d1.(t_topup) !! k) as [r1|] eqn:Hr1.
           ++ destruct (Po2 _ _ Hr1) as (r2' & Hr2' & Hsame & _). assert (r2' = r2) as -> by congruence.
              destruct (r1.(cols).(TopupRow.settled_ts)) eqn:Es; [left|right].
              ** exists r1. split_and!; [done| |rewrite Es; eauto|done]. destruct Hsame as (_ & Hacc & _). congruence.
              ** exists r2. split_and!; try done. intros r' Hr'. congruence.
           ++ right. exists r2. split_and!; try done. intros r' Hr'. congruence.
      * eapply moved_app; [|exact Hm2]. eapply moved_mono; [|exact Hm1]. intros k r1 Hr1.
        destruct (Po2 _ _ Hr1) as (r2 & Hr2 & Hs & _). eauto.
Qed.

(** Orders change without being settled. *)
Lemma pays_orders d t :
  (forall k r', t !! k = Some r' -> live r' = true /\
     ((exists r, d.(t_topup) !! k = Some r /\ same_order r.(cols) r'.(cols) /\
         r'.(cols).(TopupRow.settled_ts) = r.(cols).(TopupRow.settled_ts) /\
         (is_open r.(cols) = false -> is_open r'.(cols) = false)) \/
      (d.(t_topup) !! k = None /\ is_Some (d.(t_account) !! r'.(cols).(TopupRow.billing_account_id)) /\
         r'.(cols).(TopupRow.settled_ts) = None /\
         forall k1 r1, t !! k1 = Some r1 ->
           r1.(cols).(TopupRow.external_order_id) = r'.(cols).(TopupRow.external_order_id) -> k1 = k))) ->
  (forall k r, d.(t_topup) !! k = Some r -> is_Some (t !! k)) ->
  pays d {| d with t_topup := t |}.
Proof.
  intros Ht Hkeep [Ol Od Oa Oo Of]. split; [split; cbn [t_topup t_account t_receive]|split; cbn [t_topup t_account]].
  - intros k r Hr. by apply Ht in Hr as [? _].
  - intros k k' r r' Hr Hr' He. destruct (Ht _ _ Hr) as [_ [(r0 & Hr0 & Hs0 & _)|(_ & _ & _ & Hu)]].
    + destruct (Ht _ _ Hr') as [_ [(r0' & Hr0' & Hs0' & _)|(_ & _ & _ & Hu)]]; [|by eapply Hu].
      eapply Od; [exact Hr0|exact Hr0'|]. destruct Hs0 as (_&_&_&_&_&<-). by destruct Hs0' as (_&_&_&_&_&<-).
    + symmetry. by eapply Hu.
  - intros k r Hr. destruct (Ht _ _ Hr) as [_ [(r0 & Hr0 & Hs0 & _)|(_ & Ha & _)]]; [|done].
    destruct Hs0 as (_ & -> & _). eauto.
  - intros k r Hr Ho. destruct (Ht _ _ Hr) as [_ [(r0 & Hr0 & Hs0 & Hset & Hop)|(_ & _ & Hset & _)]]; [|done].
    rewrite Hset. apply (Oo _ _ Hr0). destruct (is_open r0.(cols)) eqn:E0; [done|]. specialize (Hop eq_refl). congruence.
  - exact Of.
  - intros k r Hr. destruct (Hkeep _ _ Hr) as [r' Hr']. exists r'. split; [done|].
    destruct (Ht _ _ Hr') as [_ [(r0 & Hr0 & Hs & Hset & Hop)|(Hn & _)]]; [|congruence].
    assert (r0 = r) as -> by congruence. by split_and!.
  - intros a x Hx. exists x, []. split; [done|]. split; [constructor|]. split; [|apply moved_nil].
    intros k. split; [by intros ?%elem_of_nil|]. intros (r' & Hr' & _ & [s Hs] & Hn).
    destruct (Ht _ _ Hr') as [_ [(r0 & Hr0 & _ & Hset & _)|(_ & _ & Hset & _)]]; [|congruence].
    rewrite Hset, (Hn _ Hr0) in Hs. done.
Qed.

(** A statement that changes orders in place *)
Definition in_place (f : Row TopupRow -> Row TopupRow) : Prop := forall r,
  live (f r) = live r /\ same_order r.(cols) (f r).(cols) /\
  (f r).(cols).(TopupRow.settled_ts) = r.(cols).(TopupRow.settled_ts) /\
  (is_open r.(cols) = false -> is_open (f r).(cols) = false).
Lemma pays_update d P f : in_place f ->
  pays d {| d with t_topup := (t_update P f d.(t_topup)).1 |}.
Proof.
  intros Hf Hd. apply pays_orders; [| |done]; cbn.
  - intros k r'. rewrite map_lookup_imap. destruct (t_topup d !! k) as [r|] eqn:Er; [|done].
    cbn. intros [= <-]. pose proof (ok_live _ Hd _ _ Er) as Hl. destruct (Hf r) as (Hfl & Hs & Ht & Ho).
    split; [case_match; congruence|left]. exists r. case_match; [done|]. by repeat split.
  - intros k r Er. rewrite map_lookup_imap, Er. cbn. eauto.
Qed.
Lemma pays_insert d id now c :
  d.(t_topup) !! id = None -> is_Some (d.(t_account) !! c.(TopupRow.billing_account_id)) ->
  order_taken c.(TopupRow.external_order_id) d = false -> c.(TopupRow.external_order_id) <> "" ->
  c.(TopupRow.settled_ts) = None ->
  pays d {| d with t_topup := <[id := new_row now c]> d.(t_topup) |}.
Proof.
  intros Hid Ha Ht Hne Hs Hd.
  assert (forall k r, d.(t_topup) !! k = Some r ->
    r.(cols).(TopupRow.external_order_id) <> c.(TopupRow.external_order_id)) as Hno.
  { intros k r Hr He. enough (order_taken c.(TopupRow.external_order_id) d = true) by congruence.
    unfold order_taken. apply andb_true_iff. split; [by destruct (c.(TopupRow.external_order_id))|].
    apply existsb_exists. exists (k, r). split; [by rewrite <- list_elem_of_In, order_perm, elem_of_map_to_list|].
    cbn [snd]. rewrite He, String.eqb_refl. by rewrite (ok_live _ Hd _ _ Hr). }
  apply pays_orders; [| |done].
  - intros k r' [[<- <-]|[Hk Hr]]%lookup_insert_Some.
    + split; [done|right]. split_and!; [done..|]. intros k1 r1 [[<- <-]|[_ Hr1]]%lookup_insert_Some He; [done|].
      by destruct (Hno _ _ Hr1).
    + split; [by eapply ok_live|left]. exists r'. by repeat split.
  - intros k r Hr. destruct (decide (k = id)) as [->|Hk]; [congruence|]. rewrite lookup_insert_ne by done. eauto.
Qed.

(** Statements on the accounts that receive transfers *)
Lemma pays_receive d t : (one_default d.(t_receive) -> one_default t) -> pays d {| d with t_receive := t |}.
Proof.
  intros Ht Hd. destruct (reflexivity (R := pays) d Hd) as [_ [Po Pa]].
  split; [|by split]. destruct Hd. split; cbn [t_topup t_account t_receive]; eauto.
Qed.
Lemma clear_default_one P now (t : gmap Z (Row ReceiveRow)) : one_default t ->
  one_default (t_update P (set_cols now (fun c => {| c with ReceiveRow.is_default := false |})) t).1.
Proof.
  intros Ht currency k k' r r'. cbn. rewrite !map_lookup_imap. intros Hr Hr' Hd Hd'.
  assert (forall k r, t !! k ≫= (fun r => Some (if P k r
    then set_cols now (fun c => {| c with ReceiveRow.is_default := false |}) r else r)) = Some r ->
    is_default_in currency r -> t !! k = Some r) as Hkept.
  { intros k1 r1 E (_ & Hdef & _). destruct (t !! k1) as [r2|]; [|done]. cbn in E. injection E as <-.
    destruct (P k1 r2); done. }
  eapply Ht; [by apply Hkept|by apply Hkept|done|done].
Qed.
Lemma receive_insert_one d id r : default_taken id r d = false -> one_default d.(t_receive) ->
  one_default (<[id := r]> d.(t_receive)).
Proof.
  intros Hn Ht. assert (forall currency k r', d.(t_receive) !! k = Some r' -> is_default_in currency r' ->
    is_default_in currency r -> k = id) as Hone.
  { intros currency k r' Hk (Hl' & Hd' & Hc') (Hl & Hd & Hc). destruct (Z.eqb_spec k id) as [|Hne]; [done|].
    enough (default_taken id r d = true) by congruence. unfold default_taken. rewrite Hl, Hd. cbn.
    apply existsb_exists. exists (k, r'). split; [by rewrite <- list_elem_of_In, order_perm, elem_of_map_to_list|].
    cbn [fst snd]. rewrite (proj2 (Z.eqb_neq _ _) Hne), Hl', Hd', Hc, Hc'. cbn. apply String.eqb_refl. }
  intros currency k k' r1 r2 [[<- <-]|[_ Hr1]]%lookup_insert_Some [[<- <-]|[_ Hr2]]%lookup_insert_Some D1 D2;
    [done|symmetry; by eapply Hone|by eapply Hone|by eapply Ht].
Qed.
End Pays.

(** ** The statements outside transactions *)

Lemma nonempty_append a b : a <> "" -> a +:+ b <> "".
Proof. by destruct a. Qed.

Section Api.
Context `{!Chrono} `{!Order} `{!Numerics} `{!Casing} `{!Rivals} `{!Midtrans} `{!FxLive} `{!NumericDecode}.
Context (other : Z -> num * num -> num * num -> Prop).
Notation R := (pays other).
Context (Hrivals : forall ws n d, R d (rivals ws n d) /\ locked_out ws d (rivals ws n d)).
Let Hothers := rivals_others R Hrivals.

Ltac pays_step := first
  [ apply (respects_ret R) | apply (respects_throw R) | apply (respects_lift R)
  | apply (respects_next_id R) | apply (respects_utc_now R)
  | apply (respects_read R Hothers) | apply (respects_ask R Hothers)
  | apply (respects_attempt R) | apply (respects_unwrap_or R) | apply (respects_ignore R)
  | apply (respects_bind R); [|intros ?] | progress case_match ].
Ltac pays_steps := repeat pays_step.

Lemma set_only_in_place (f : TopupRow -> TopupRow) :
  (forall c, same_order c (f c) /\ (f c).(TopupRow.settled_ts) = c.(TopupRow.settled_ts) /\
     (is_open c = false -> is_open (f c) = false)) -> in_place (set_only f).
Proof. intros Hf r. split; [done|]. apply Hf. Qed.
Lemma set_cols_in_place now (f : TopupRow -> TopupRow) :
  (forall c, same_order c (f c) /\ (f c).(TopupRow.settled_ts) = c.(TopupRow.settled_ts) /\
     (is_open c = false -> is_open (f c) = false)) -> in_place (set_cols now f).
Proof. intros Hf r. split; [done|]. apply Hf. Qed.
Lemma pays_update_order id f : in_place (set_only f) -> respects R (update_order id f).
Proof.
  intros Hf. apply (respects_stmt R Hothers). intros now d a d' E. injection E as _ <-. by apply pays_update.
Qed.
Lemma pays_mark_order order_id status meta : is_open (order_row 0 0 NumNaN NumNaN "" "" "" "" status meta) = false ->
  respects R (mark_order order_id status meta).
Proof.
  intros Hs. apply (respects_ignore R), (respects_stmt R Hothers). intros now d a d' E. injection E as _ <-.
  apply pays_update, set_only_in_place. intros c. split; [by repeat split|]. split; [done|]. intros _. exact Hs.
Qed.
Lemma pays_reject_order id reviewer reason : respects R (reject_order id reviewer reason).
Proof.
  unfold reject_order. apply (respects_bind R); [|intros n; pays_steps].
  apply (respects_stmt R Hothers). intros now d a d' E. cbn beta iota in E.
  match type of E with context [t_update ?P ?f ?t] =>
    pose proof (pays_update other d P f) as Hp; destruct (t_update P f t) as [t' n'] eqn:Et end.
  injection E as _ <-. apply Hp, set_cols_in_place. intros c. split; [by repeat split|]. by split.
Qed.
Lemma pays_insert_order id usd idr row :
  (forall u i, (row u i).(TopupRow.external_order_id) <> "" /\ (row u i).(TopupRow.settled_ts) = None) ->
  respects R (insert_order id usd idr row).
Proof.
  intros Hrow. apply (respects_stmt R Hothers). intros now d a d' E.
  apply result_bind_ok in E as (u & _ & E). apply result_bind_ok in E as (i & _ & E). cbv zeta in E.
  destruct (Hrow u i) as [Hne Hs].
  destruct (t_account d !! _) eqn:Ea; [|done]. destruct (order_taken _ d) eqn:Et; [done|].
  unfold t_insert in E. destruct (t_topup d !! id) eqn:Ei; [done|]. injection E as _ <-.
  by apply pays_insert; [|rewrite Ea; eauto|..].
Qed.

Lemma pays_payment order_id gross item method : respects R (payment_create order_id gross item method).
Proof. unfold payment_create, qris_charge, snap_create. pays_steps. Qed.
Lemma pays_rate fallback : respects R (topup_usd_idr_rate fallback).
Proof. unfold topup_usd_idr_rate. pays_steps. Qed.
Lemma pays_put owner req : respects R (billing_topup_put owner req).
Proof.
  unfold billing_topup_put, billing_manual_topup_put, billing_midtrans_topup_put, billing_account_row,
    receive_account_default.
  repeat first [apply pays_rate|apply pays_payment|apply pays_insert_order; intros ? ?; split;
    [by apply nonempty_append|done]|apply pays_update_order, set_only_in_place; intros c; by repeat split|pays_step].
Qed.
Lemma pays_clear_default currency : respects R (clear_default currency).
Proof.
  apply (respects_ignore R), (respects_stmt R Hothers). intros now d a d' E. injection E as _ <-.
  by apply pays_receive, clear_default_one.
Qed.
Lemma pays_receive_upsert id c : respects R (receive_upsert id c).
Proof.
  apply (respects_stmt R Hothers). intros now d a d' E. destruct (negb _); [done|]. cbv zeta in E.
  destruct (default_taken _ _ d) eqn:Et; [done|]. injection E as _ <-. by apply pays_receive, receive_insert_one.
Qed.
Lemma pays_receive_put `{!SerdeJson} viewer account : respects R (receive_account_put viewer account).
Proof.
  unfold receive_account_put, receive_account_put_access, finance_viewer_meta.
  repeat first [apply pays_clear_default|apply pays_receive_upsert|pays_step].
Qed.
End Api.

(** ** The transactions *)

Section Paying.
Context `{!Chrono} `{!Order} `{!Numerics} `{!Casing} `{!Rivals} `{!Midtrans} `{!FxLive} `{!NumericDecode}.
Context (other : Z -> num * num -> num * num -> Prop).
Notation R := (pays other).
Context (Hrivals : forall ws n d, R d (rivals ws n d) /\ locked_out ws d (rivals ws n d)).

(** The balances of an account among the writes *)
Definition credited_row (account : Z) (credit : option (f64 * string)) (a : Z) (x0 x : Row AccountRow) : Prop :=
  match credit with
  | Some (amount, currency) =>
      if a =? account then credit_balances amount currency (balances x0.(cols)) = Ok (balances x.(cols))
      else balances x.(cols) = balances x0.(cols)
  | None => balances x.(cols) = balances x0.(cols)
  end.
(** A transaction holds the order [k], which is [new] in what it sees, and has
    credited its account or not yet. *)
Record paying (k : Z) (r new : Row TopupRow) (credit : option (f64 * string)) (ws : RefWrites)
    (d : Referrals) : Prop := {
  py_ok : orders_ok d;
  py_order : d.(t_topup) !! k = Some r;
  py_topup : ws.(w_topup) = {[ k := new ]};
  py_accounts : forall a x, ws.(w_account) !! a = Some x -> exists x0, d.(t_account) !! a = Some x0 /\
    credited_row r.(cols).(TopupRow.billing_account_id) credit a x0 x;
  py_paid : credit <> None -> is_Some (ws.(w_account) !! r.(cols).(TopupRow.billing_account_id));
}.
Lemma paying_stable k r new credit : stable R (paying k r new credit).
Proof.
  intros ws d d' [Pk Po Pt Pa Pp] HR HL. destruct HL as [_ _ _ La _ _ Lt _ _ _]. destruct (HR Pk) as [Hd' _].
  split; [done| |done| |done].
  - rewrite Lt; [done|]. rewrite Pt, lookup_singleton_eq. eauto.
  - intros a x Hx. rewrite La by eauto. eauto.
Qed.

(** Statements that leave orders and balances as they are *)
Definition neutral (v : Referrals) (new : RefWrites) : Prop :=
  new.(w_topup) = ∅ /\ forall a x, new.(w_account) !! a = Some x ->
    exists x0, v.(t_account) !! a = Some x0 /\ balances x.(cols) = balances x0.(cols).
Lemma neutral_no_writes v : neutral v no_writes.
Proof. split; [done|]. intros a x E. cbn in E. by rewrite lookup_empty in E. Qed.
Lemma paying_merge k r new credit ws d w :
  paying k r new credit ws d -> neutral (view ws d) w -> paying k r new credit (merge_writes w ws) d.
Proof.
  intros [Pk Po Pt Pa Pp] [Nt Na]. split; [done|done| | |].
  - cbn. by rewrite Nt, Pt, (left_id_L ∅ (∪)).
  - intros a x [Hx|[_ Hx]]%lookup_union_Some_raw; [|eauto]. apply Na in Hx as (x1 & Hx1 & Hb).
    cbn in Hx1. apply lookup_union_Some_raw in Hx1 as [Hx1|[Hn Hx1]].
    + destruct (Pa _ _ Hx1) as (x0 & Hx0 & Hc). exists x0. split; [done|]. unfold credited_row in *.
      destruct credit as [[amount currency]|]; [destruct (a =? _)|]; congruence.
    + exists x1. split; [done|]. unfold credited_row. destruct credit as [[amount currency]|]; [|done].
      destruct (Z.eqb_spec a r.(cols).(TopupRow.billing_account_id)) as [->|]; [|done].
      destruct (Pp ltac:(done)) as [y Hy]. congruence.
  - intros Hc. cbn. apply Pp in Hc as [x Hx]. rewrite lookup_union, Hx. destruct (w_account w !! _); cbn; eauto.
Qed.

Definition unpaid {A} (m : T A) : Prop := forall k r new credit,
  within R (paying k r new credit) m (fun _ => paying k r new credit).
Lemma unpaid_ret {A} (a : A) : unpaid (mret a).
Proof. intros k r new credit. by apply within_ret; [apply _|]. Qed.
Lemma unpaid_bind {A B} (m : T A) (f : A -> T B) : unpaid m -> (forall a, unpaid (f a)) -> unpaid (m ≫= f).
Proof. intros Hm Hf k r new credit. eapply within_bind; [apply _|apply Hm|]. intros a. apply Hf. Qed.
Lemma unpaid_lift {A} (x : result A) : unpaid (tlift x).
Proof. intros k r new credit. by apply (within_lift R). Qed.
Lemma unpaid_code {A} (m : M Referrals A) : reads m -> unpaid (tcode m).
Proof. intros Hm k r new credit. by apply (within_code R _ _ (fun _ => paying k r new credit)). Qed.
Lemma unpaid_stmt {A} (f : DateTime -> Referrals -> result (A * RefWrites)) :
  (forall now v a new, f now v = Ok (a, new) -> neutral v new) -> unpaid (tstmt f).
Proof.
  intros Hf k r new credit. apply (within_stmt R Hrivals); [apply paying_stable|].
  intros now ws d a w Hp E. apply paying_merge; [done|by eapply Hf].
Qed.
Lemma unpaid_read {A} (f : DateTime -> Referrals -> A) : unpaid (tread f).
Proof.
  apply unpaid_stmt. intros now v a new E. assert (new = no_writes) as -> by congruence. apply neutral_no_writes.
Qed.
Ltac unpaid_step := first
  [ apply unpaid_ret | apply unpaid_read | apply unpaid_lift | apply unpaid_code; apply reads_next_id
  | apply unpaid_bind; [|intros ?] | progress case_match ].
Ltac unpaid_steps := repeat unpaid_step.

Lemma unpaid_earn_loop fuel uid parent_uid edge child u rows :
  unpaid (earn_loop fuel uid parent_uid edge child u rows).
Proof.
  revert child u rows. induction fuel as [|fuel IH]; intros child u rows; cbn [earn_loop]; unfold share_get;
    unpaid_steps; apply IH.
Qed.
Lemma unpaid_commission owner amount payer ev ref : unpaid (commission_credit_in_tx owner amount payer ev ref).
Proof.
  unfold commission_credit_in_tx. unpaid_steps; apply unpaid_stmt; intros now v x new E.
  - apply result_bind_ok in E as (amt & _ & E). repeat case_match; try done. injection E as _ <-.
    split; [done|]. intros acct y Hy. cbn in Hy. by rewrite lookup_empty in Hy.
  - case_match eqn:Er; [|assert (new = no_writes) as -> by congruence; apply neutral_no_writes].
    apply result_bind_ok in E as (? & _ & E). apply result_bind_ok in E as (? & _ & E). injection E as _ <-.
    split; [done|]. intros acct y E. cbn in E. apply lookup_singleton_Some in E as [<- <-]. by exists r.
Qed.
Lemma unpaid_tforM {A} (l : list A) (f : A -> T ()) : (forall x, unpaid (f x)) -> unpaid (tforM l f).
Proof. intros Hf. induction l as [|x l IH]; [apply unpaid_ret|]. by apply unpaid_bind. Qed.
Lemma unpaid_accrue fuel payer amount currency order_id :
  unpaid (commission_accrue_on_topup_tx fuel payer amount currency order_id).
Proof.
  unfold commission_accrue_on_topup_tx, earn_chain, share_get.
  repeat first [apply unpaid_earn_loop|apply unpaid_tforM; intros ?; apply unpaid_commission|unpaid_step].
Qed.
Lemma unpaid_wallet id owner amount : unpaid (credit_wallet id owner amount).
Proof.
  apply unpaid_stmt. intros now v a new E. apply result_bind_ok in E as (x & _ & E).
  apply result_bind_ok in E as (y & _ & E). assert (forall k r, neutral v (write_wallet k r)) as Hw.
  { intros k r. split; [done|]. intros a' z Hz. cbn in Hz. by rewrite lookup_empty in Hz. }
  case_match eqn:Ew; [case_match|case_match; [done|]].
  - apply result_bind_ok in E as (? & _ & E). apply result_bind_ok in E as (? & _ & E). injection E as _ <-. apply Hw.
  - injection E as _ <-. apply Hw.
Qed.

(** Crediting the account of the order *)
Lemma paying_credit fuel k r new amount currency order_id :
  within R (paying k r new None)
    (topup_credit_and_accrue fuel r.(cols).(TopupRow.billing_account_id) amount currency order_id)
    (fun _ => paying k r new (Some (amount, currency))).
Proof.
  set (acct := r.(cols).(TopupRow.billing_account_id)). unfold topup_credit_and_accrue.
  eapply within_bind with (Q := fun _ => paying k r new (Some (amount, currency))); [apply _| |].
  - apply (within_stmt R Hrivals); [apply paying_stable|]. intros now ws d [] w [Pk Po Pt Pa Pp] E.
    destruct (ok_account _ Pk _ _ Po) as [x0 Hx0].
    assert (exists x, (view ws d).(t_account) !! acct = Some x /\ balances x.(cols) = balances x0.(cols)) as (x & Hx & Hb).
    { cbn. rewrite lookup_union. destruct (w_account ws !! acct) as [x|] eqn:Ew.
      - exists x. destruct (Pa _ _ Ew) as (x1 & Hx1 & Hc). fold acct in Hx0. split; [by destruct (t_account d !! acct)|].
        cbn in Hc. congruence.
      - exists x0. fold acct in Hx0. by rewrite Hx0. }
    rewrite Hx in E. apply result_bind_ok in E as (c & Ec & E). apply result_bind_ok in E as (c' & Ec' & E).
    injection E as <-. pose proof (checked_account_ok _ _ Ec') as ->.
    assert (credit_balances amount currency (balances x.(cols)) = Ok (balances c)) as Hcredit.
    { unfold credit_balances. destruct (eq_ignore_ascii_case currency "IDR");
        apply result_bind_ok in Ec as (y & Ey & Ec); injection Ec as <-; cbn [balances snd fst]; by rewrite Ey. }
    split; [done|done| | |].
    + cbn. by rewrite Pt, (left_id_L ∅ (∪)).
    + intros a y Hy. cbn in Hy. apply lookup_union_Some_raw in Hy as [Hy|[Hn Hy]].
      * apply lookup_singleton_Some in Hy as [<- <-]. exists x0. split; [done|]. unfold credited_row.
        fold acct. rewrite Z.eqb_refl. by rewrite <- Hb.
      * apply lookup_singleton_None in Hn. destruct (Pa _ _ Hy) as (y0 & Hy0 & Hc). exists y0. split; [done|].
        unfold credited_row. fold acct. by rewrite (proj2 (Z.eqb_neq _ _)) by congruence.
    + intros _. cbn. fold acct. rewrite lookup_union, lookup_singleton_eq. destruct (w_account ws !! acct); cbn; eauto.
  - intros []. apply unpaid_bind; [apply unpaid_read|]. intros owner. cbn zeta.
    destruct (0 <? _); [|apply unpaid_ret]. apply unpaid_bind; [apply unpaid_accrue|]. intros ?. apply unpaid_ret.
Qed.

(** What the transaction has done when it ends *)
Lemma paying_done k r new amount currency ws d :
  paying k r new (Some (amount, currency)) ws d -> is_open r.(cols) = true ->
  same_order r.(cols) new.(cols) -> live new = true -> is_Some new.(cols).(TopupRow.settled_ts) ->
  is_open new.(cols) = false -> credit_of r.(cols) amount currency -> R d (view ws d).
Proof.
  intros [Pk Po Pt Pa Pp] Hopen Hsame Hlive Hset Hclosed Hcredit _. pose proof Pk as [Ol Od Oa Oo Of].
  assert ((view ws d).(t_topup) = <[k := new]> d.(t_topup)) as Etop.
  { cbn. by rewrite Pt, insert_union_singleton_l. }
  assert (forall a x, d.(t_account) !! a = Some x -> exists x', (view ws d).(t_account) !! a = Some x' /\
    (w_account ws !! a = Some x' \/ w_account ws !! a = None /\ x' = x)) as Hacc.
  { intros a x Hx. cbn. rewrite lookup_union, Hx. destruct (w_account ws !! a) as [y|]; [|exists x; auto].
    exists y. auto. }
  split; [split; rewrite ?Etop|split; rewrite ?Etop].
  - intros k' r' [[<- <-]|[_ Hr]]%lookup_insert_Some; eauto.
  - assert (forall k1 r1, <[k := new]> d.(t_topup) !! k1 = Some r1 -> exists r2, d.(t_topup) !! k1 = Some r2 /\
      r1.(cols).(TopupRow.external_order_id) = r2.(cols).(TopupRow.external_order_id)) as Hin.
    { intros k1 r1 [[<- <-]|[_ Hr]]%lookup_insert_Some; [exists r; split; [done|by apply Hsame]|eauto]. }
    intros k1 k2 r1 r2 (x1 & Hx1 & ->)%Hin (x2 & Hx2 & ->)%Hin. eauto.
  - intros k' r' Hr. assert (is_Some (d.(t_account) !! r'.(cols).(TopupRow.billing_account_id))) as [x Hx].
    { apply lookup_insert_Some in Hr as [[<- <-]|[_ Hr]]; [|eauto]. destruct Hsame as (_ & -> & _). eauto. }
    destruct (Hacc _ _ Hx) as (x' & Hx' & _). eauto.
  - intros k' r' [[<- <-]|[_ Hr]]%lookup_insert_Some Ho; [congruence|eauto].
  - exact Of.
  - intros k' r' Hr. destruct (decide (k' = k)) as [->|Hk].
    + assert (r' = r) as -> by congruence. exists new. rewrite lookup_insert_eq. split_and!; [done..| |done].
      intros [t Ht]. by rewrite (Oo _ _ Po Hopen) in Ht.
    + exists r'. rewrite lookup_insert_ne by done. by repeat split.
  - intros a x Hx. destruct (Hacc _ _ Hx) as (x' & Hx' & Hw). exists x'.
    assert (forall k', newly_settled a k' d (view ws d) <->
      k' = k /\ a = r.(cols).(TopupRow.billing_account_id)) as Hnew.
    { intros k'. unfold newly_settled. rewrite Etop. split.
      - intros (r' & Hr' & Ha & [t Ht] & Hn). apply lookup_insert_Some in Hr' as [[<- <-]|[Hk Hr']].
        + split; [done|]. destruct Hsame as (_ & <- & _). done.
        + by rewrite (Hn _ Hr') in Ht.
      - intros [-> ->]. exists new. rewrite lookup_insert_eq. split_and!; [done|apply Hsame|done|].
        intros r' Hr'. eapply Oo; [exact Hr'|]. congruence. }
    destruct (decide (a = r.(cols).(TopupRow.billing_account_id))) as [Ea|Ea].
    + exists [k]. split; [done|]. split; [apply NoDup_singleton|].
      split; [intros k'; rewrite list_elem_of_singleton, Hnew; tauto|].
      destruct Hw as [Hw|[Hw _]]; [|destruct (Pp ltac:(done)); congruence].
      destruct (Pa _ _ Hw) as (x0 & Hx0 & Hc). cbn in Hc. rewrite (proj2 (Z.eqb_eq _ _) Ea) in Hc.
      eapply moved_paid; [apply lookup_insert_eq| |eapply credit_of_same; [exact Hsame|exact Hcredit]| |apply moved_nil].
      * destruct Hsame as (_ & -> & _). done.
      * congruence.
    + exists []. split; [done|]. split; [constructor|].
      split; [intros k'; rewrite Hnew; split; [by intros ?%elem_of_nil|tauto]|].
      assert (balances x'.(cols) = balances x.(cols)) as ->; [|apply moved_nil].
      destruct Hw as [Hw|[_ ->]]; [|done]. destruct (Pa _ _ Hw) as (x0 & Hx0 & Hc). cbn in Hc.
      rewrite (proj2 (Z.eqb_neq _ _) Ea) in Hc. congruence.
Qed.

(** At its end a transaction has credited the order [k], or leaves nothing. *)
Definition paid_or_nothing (ws : RefWrites) (d : Referrals) : Prop :=
  ws = no_writes \/ exists k r new amount currency, paying k r new (Some (amount, currency)) ws d /\
    is_open r.(cols) = true /\ same_order r.(cols) new.(cols) /\ live new = true /\
    is_Some new.(cols).(TopupRow.settled_ts) /\ is_open new.(cols) = false /\ credit_of r.(cols) amount currency.
Lemma paid_stable : stable R paid_or_nothing.
Proof.
  intros ws d d' [->|(k & r & new & amount & currency & Hp & Hrest)] HR HL; [by left|right].
  exists k, r, new, amount, currency. split; [by eapply paying_stable|done].
Qed.
Lemma paid_steps ws d : paid_or_nothing ws d -> R d (view ws d).
Proof.
  intros [->|(k & r & new & amount & currency & Hp & ? & ? & ? & ? & ? & ?)]; [by rewrite view_no_writes|].
  by eapply paying_done.
Qed.
Lemma pays_txn {A} (m : T A) (P : Referrals -> Prop) e w r w' :
  (forall d d', orders_ok d -> P d -> R d d' -> P d') ->
  within R (fun ws d => ws = no_writes /\ orders_ok d /\ P d) m (fun _ => paid_or_nothing) ->
  (orders_ok w.(db) -> P w.(db)) -> txn m e w = (r, w') -> R w.(db) w'.(db).
Proof.
  intros HP Hm HPw E Hok.
  destruct (txn_steps R Hrivals m (fun d => orders_ok d /\ P d) (fun _ => paid_or_nothing) e w r w') as [HR _]; auto.
  - intros d d' [Hd HPd] HR. split; [by apply HR|by eapply HP].
  - intros _. apply paid_stable.
  - intros _. apply paid_steps.
Qed.

(** An order is still what it was when it was read. *)
Definition still (k : Z) (c : TopupRow) (d : Referrals) : Prop := exists r,
  d.(t_topup) !! k = Some r /\ same_order c r.(cols).
Lemma still_stable k c d d' : orders_ok d -> still k c d -> R d d' -> still k c d'.
Proof.
  intros Hd (r & Hr & Hs) HR. destruct (HR Hd) as [_ [Po _]]. destruct (Po _ _ Hr) as (r' & Hr' & Hs' & _).
  exists r'. split; [done|by eapply same_order_trans].
Qed.
Lemma settled_same now meta c : same_order c (settled now meta c) /\ is_open (settled now meta c) = false /\
  is_Some (settled now meta c).(TopupRow.settled_ts).
Proof. repeat split. unfold settled. cbn. eauto. Qed.
(** The statement that settles: it holds the order, or nothing. *)
Definition settling (k : Z) (c : TopupRow) (meta : Value) (updated : bool) (ws : RefWrites) (d : Referrals) : Prop :=
  if updated then exists r now, (is_open r.(cols) = true /\ live r = true /\ same_order c r.(cols)) /\
    paying k r (set_only (settled now meta) r) None ws d
  else ws = no_writes.
Lemma settling_update k c order_id meta : c.(TopupRow.external_order_id) = order_id ->
  within R (fun ws d => ws = no_writes /\ orders_ok d /\ still k c d)
    (tstmt (fun now d =>
      let rows := rows_where (fun _ => order_pending order_id) (set_only (settled now meta)) d.(t_topup) in
      Ok (bool_decide (rows <> ∅), write_topup rows)))
    (settling k c meta).
Proof.
  intros Hext.
  apply (within_stmt R Hrivals).
  { intros ws d d' (-> & Hd & Hs) HR _. split_and!; [done|by apply HR|by eapply still_stable]. }
  intros now ws d updated new (-> & Hd & r & Hr & Hs) E. rewrite view_no_writes in E.
  set (rows := rows_where _ _ _) in E. injection E as <- <-.
  assert (forall k1 x, rows !! k1 = Some x -> k1 = k /\ x = set_only (settled now meta) r /\
    order_pending order_id r = true) as Hrows.
  { intros k1 x. unfold rows. rewrite lookup_rows_where. destruct (t_topup d !! k1) as [r1|] eqn:Er1; [|done].
    cbn. destruct (order_pending order_id r1) eqn:Ep; [|done]. intros [= <-].
    assert (k1 = k) as ->; [|assert (r1 = r) as -> by congruence; done].
    eapply ok_distinct; [exact Hd|done..|]. unfold order_pending in Ep.
    apply andb_true_iff in Ep as [Ep%String.eqb_eq _]. destruct Hs as (_&_&_&_&_&He). congruence. }
  case_bool_decide as Hne.
  - assert (rows = {[ k := set_only (settled now meta) r ]} /\ order_pending order_id r = true) as [Erows Ep].
    { apply map_choose in Hne as (k1 & x & Hx). destruct (Hrows _ _ Hx) as (-> & -> & Hp). split; [|done].
      apply map_eq. intros k2. destruct (decide (k2 = k)) as [->|Hk]; [by rewrite lookup_singleton_eq|].
      rewrite lookup_singleton_ne by done. destruct (rows !! k2) eqn:E2; [|done]. by destruct (Hrows _ _ E2). }
    exists r, now. unfold order_pending in Ep. apply andb_true_iff in Ep as [_ Ep%String.eqb_eq].
    split; [split_and!; [unfold is_open; by rewrite Ep|by eapply ok_live|done]|].
    split; [done|done|by rewrite Erows; cbn; rewrite (right_id_L ∅ (∪))| |done].
    intros a x Hx. cbn in Hx. by rewrite (left_id_L ∅ (∪)), lookup_empty in Hx.
  - rewrite Hne. exact (merge_no_writes (DB := Referrals) (no_writes : RefWrites)).
Qed.
Lemma settle_txn_pays fuel k c order_id meta owner account amount :
  c.(TopupRow.external_order_id) = order_id -> c.(TopupRow.billing_account_id) = account ->
  amount = float8_of_num 2 c.(TopupRow.amount_idr) ->
  within R (fun ws d => ws = no_writes /\ orders_ok d /\ still k c d)
  (settle_txn fuel order_id meta owner account amount) (fun _ => paid_or_nothing).
Proof.
  intros Hext Hacct Hamt. unfold settle_txn. eapply within_bind; [apply _|by apply settling_update|].
  intros [|]; [|apply within_ret; [apply _|]; by left]. cbn [negb].
  apply within_exists. intros r. apply within_exists. intros now. apply within_pure. intros (Hop & Hl & Hs).
  assert (r.(cols).(TopupRow.billing_account_id) = account) as <- by (destruct Hs as (_ & -> & _); done).
  eapply within_bind; [apply _|apply paying_credit|]. intros credited.
  eapply within_bind; [apply _|apply unpaid_lift|]. intros ?.
  eapply within_bind; [apply _|apply unpaid_code, reads_next_id|]. intros id.
  destruct (settled_same now meta r.(cols)) as (Hsame & Hcl & Hset).
  eapply within_bind with (Q := fun _ => paid_or_nothing); [apply _| |intros ?; by apply within_ret; [apply _|]].
  intros e w ws x w' Hp E. unfold tignore, mbind, M_bind in E. rewrite attempt_run in E. injection E as <- <-.
  destruct (credit_wallet id owner amount ws e w) as [y w1] eqn:Ew. cbn [fst snd].
  destruct (unpaid_wallet _ _ _ _ _ _ _ _ _ _ _ _ Hp Ew) as [HR HQ]. split; [done|].
  intros u ws' [= <- <-]. destruct y as [[u' ws1]|]; [right|by left]. specialize (HQ _ _ eq_refl).
  exists k, r, (set_only (settled now meta) r), amount, "IDR". split_and!; try done.
  left. rewrite Hamt. destruct Hs as (_ & _ & _ & -> & _). done.
Qed.
Lemma approve_txn_pays fuel reviewer id :
  within R (fun ws d => ws = no_writes /\ orders_ok d /\ True) (approve_order_txn fuel reviewer id)
    (fun _ => paid_or_nothing).
Proof.
  unfold approve_order_txn. eapply within_bind with (Q := fun row ws d => match row with
    | Some r => live r = true /\ paying id r r None ws d | None => True end); [apply _| |].
  - apply (within_stmt R Hrivals); [intros ws d d' (-> & Hd & _) HR _; split_and!; [done|by apply HR|done]|].
    intros now ws d row new (-> & Hd & _) E. rewrite view_no_writes in E.
    destruct (t_topup d !! id) as [r|] eqn:Er; [|by injection E as <- _].
    destruct (is_manual r.(cols)); [|by injection E as <- _]. injection E as <- <-.
    split; [by eapply ok_live|]. split; [done|done|by cbn; rewrite (right_id_L ∅ (∪))| |done].
    intros a x Hx. cbn in Hx. by rewrite (left_id_L ∅ (∪)), lookup_empty in Hx.
  - intros row. eapply within_bind with (Q := fun r ws d => live r = true /\ paying id r r None ws d);
      [apply _|apply (within_lift R); intros ws d r Er Hr; destruct row; [by injection Er as ->|done]|].
    intros r. apply within_pure. intros Hl. cbv zeta.
    eapply within_bind with (Q := fun _ ws d => is_open r.(cols) = true /\ paying id r r None ws d); [apply _| |].
    { destruct (is_open r.(cols)); [by apply within_ret; [apply _|]|by apply (within_lift R)]. }
    intros []. apply within_pure. intros Hop.
    eapply within_bind; [apply _|apply paying_credit|]. intros credited.
    eapply within_bind; [apply _|apply unpaid_lift|]. intros ?.
    apply (within_stmt R Hrivals); [apply paying_stable|]. intros now ws d [] new [Pk Po Pt Pa Pp] E.
    injection E as <-. set (f := set_cols now _).
    assert (rows_where (fun k _ => k =? id) f (ws.(w_topup) ∪ d.(t_topup)) = {[ id := f r ]}) as ->.
    { apply map_eq. intros k. rewrite lookup_rows_where, Pt.
      destruct (decide (k = id)) as [->|Hk].
      - by rewrite lookup_union, !lookup_singleton_eq, Po, (proj2 (Z.eqb_eq id id)).
      - rewrite (lookup_singleton_ne id k (f r)) by done. destruct (_ !! k) as [y|]; [|done].
        change ((if k =? id then Some (f y) else None) = None). by rewrite (proj2 (Z.eqb_neq _ _)). }
    right. exists id, r, (f r), (order_credit r.(cols)).1, (order_credit r.(cols)).2.
    assert (credit_of r.(cols) (order_credit r.(cols)).1 (order_credit r.(cols)).2) as Hcredit
      by (right; by destruct (order_credit r.(cols))).
    assert (is_Some (f r).(cols).(TopupRow.settled_ts)) as Hset by (cbn; eauto).
    split; [|split_and!; done]. split; [done|done| | |].
    + cbn. rewrite Pt. apply map_eq. intros k. rewrite lookup_union.
      destruct (decide (k = id)) as [->|Hk]; [by rewrite !lookup_singleton_eq|by rewrite !lookup_singleton_ne by done].
    + intros acct x Hx. cbn in Hx. rewrite (left_id_L ∅ (∪)) in Hx. eauto.
    + intros _. cbn. rewrite (left_id_L ∅ (∪)). by apply Pp.
Qed.

Let Hothers := rivals_others R Hrivals.
Lemma order_of_some order_id d k r : order_of order_id d = Some (k, r) ->
  d.(t_topup) !! k = Some r /\ r.(cols).(TopupRow.external_order_id) = order_id.
Proof.
  unfold order_of. intros E%head_Some_elem_of%list_elem_of_filter. destruct E as [Ho Hin].
  rewrite order_perm, elem_of_map_to_list in Hin. done.
Qed.
Lemma pays_settle fuel n raw : respects R (billing_topup_settle fuel n raw).
Proof.
  intros e w r w' E. unfold billing_topup_settle in E.
  apply bind_cases in E as [(x & E & _)|(row & w1 & E & E')].
  { by apply (respects_read R Hothers) in E. }
  apply read_ok in E as [Hdb [now Erow]]. etransitivity; [apply (Hothers w.(n_sql))|]. rewrite <- Hdb.
  rewrite <- Hdb in Erow. clear Hdb. symmetry in Erow.
  assert (forall s : string, respects R (mret s : M Referrals string)) as Hret by (intros s; apply (respects_ret R)).
  destruct row as [[k r0]|]; [|by apply Hret in E'].
  apply order_of_some in Erow as [Hk Hext].
  destruct (settle_plan _ n); try by apply Hret in E'.
  - assert (forall x v, txn (settle_txn fuel n.(Notification.order_id) (settle_meta n raw)
        r0.(cols).(TopupRow.owner_iid) r0.(cols).(TopupRow.billing_account_id)
        (float8_of_num 2 r0.(cols).(TopupRow.amount_idr))) e w1 = (x, v) -> R w1.(db) v.(db)) as Htxn.
    { intros x v Ev. eapply pays_txn with (P := still k r0.(cols)); [|by apply settle_txn_pays| |exact Ev].
      - intros d d' Hd Hs HR. by eapply still_stable.
      - intros _. exists r0. split; [exact Hk|apply same_order_refl]. }
    apply bind_cases in E' as [(x & E' & _)|(u & w2 & E' & E2)]; apply Htxn in E'; [done|].
    apply Hret in E2. by etransitivity.
  - refine (respects_bind R _ _ _ _ _ _ _ _ E'); [by apply pays_mark_order|intros ?; apply Hret].
  - refine (respects_bind R _ _ _ _ _ _ _ _ E'); [by apply pays_mark_order|intros ?; apply Hret].
Qed.
Lemma pays_webhook fuel body : respects R (webhook_midtrans fuel body).
Proof.
  unfold webhook_midtrans. destruct (notification_from_slice body) as [n|x]; [|apply (respects_ret R)].
  destruct (is_empty _); [apply (respects_ret R)|]. destruct (negb _); [apply (respects_ret R)|].
  apply (respects_bind R); [apply (respects_attempt R), pays_settle|intros r; apply (respects_ret R)].
Qed.
Lemma pays_approve fuel reviewer id : respects R (txn (approve_order_txn fuel reviewer id)).
Proof.
  intros e w r w' E. eapply pays_txn with (P := fun _ => True); [done|apply approve_txn_pays|done|exact E].
Qed.
Lemma pays_review fuel reviewer req : respects R (billing_topup_review fuel reviewer req).
Proof.
  unfold billing_topup_review, finance_review_access, finance_viewer_meta.
  repeat first [by apply pays_reject_order | apply pays_approve | apply (respects_throw R) | apply (respects_ret R)
    | apply (respects_read R Hothers) | apply (respects_bind R); [|intros ?] | progress case_match].
Qed.
End Paying.

(** What the top-ups are asked to do *)
Inductive TopUpRequest :=
| OrderPut (owner_iid : Z) (req : ReqBillingTopupPut)
| Webhook (fuel : nat) (body : string)
| OrderReview (fuel : nat) (reviewer_iid : Z) (req : ReqBillingTopupReview)
| ReceivePut (viewer_iid : Z) (account : option BillingReceiveAccount).
Definition topup_serve `{!Chrono} `{!Order} `{!Numerics} `{!Casing} `{!Rivals} `{!Midtrans} `{!FxLive} `{!SerdeJson}
    (req : TopUpRequest) : M Referrals () :=
  match req with
  | OrderPut owner_iid req => ignore (billing_topup_put owner_iid req)
  | Webhook fuel body => ignore (webhook_midtrans fuel body)
  | OrderReview fuel reviewer_iid req => billing_topup_review fuel reviewer_iid req
  | ReceivePut viewer_iid account => ignore (receive_account_put viewer_iid account)
  end.

Lemma pays_serve `{!Chrono} `{!Order} `{!Numerics} `{!Casing} `{!Rivals} `{!Midtrans} `{!FxLive} `{!SerdeJson}
    (other : Z -> num * num -> num * num -> Prop)
    (Hrivals : forall ws n d, pays other d (rivals ws n d) /\ locked_out ws d (rivals ws n d)) req :
  respects (pays other) (topup_serve req).
Proof.
  destruct req; cbn [topup_serve].
  - by apply (respects_ignore (pays other)), pays_put.
  - by apply (respects_ignore (pays other)), pays_webhook.
  - by apply pays_review.
  - by apply (respects_ignore (pays other)), pays_receive_put.
Qed.

(** C14. Whatever the top-ups are asked to do, beside others who respect the same: orders
    keep their owner, account, amounts, provider and name, and a settled order is
    not opened or settled again.  What an account has afterwards is what it had,
    credited the amount of each order that was settled meanwhile, of each exactly
    once and of no other, and whatever else [other] says may happen to it.  And a
    currency has one account at most to receive transfers by default. *)
Theorem topups_credited_once `{!Chrono} `{!Order} `{!Numerics} `{!Casing} `{!Rivals} `{!Midtrans} `{!FxLive}
    `{!SerdeJson} (other : Z -> num * num -> num * num -> Prop)
    (Hrivals : forall ws n d, pays other d (rivals ws n d) /\ locked_out ws d (rivals ws n d))
    req e w r w' :
  topup_serve req e w = (r, w') -> orders_ok w.(db) -> orders_ok w'.(db) /\ paid_well other w.(db) w'.(db).
Proof. apply (pays_serve other Hrivals req). Qed.

(** ** Whole amounts *)

Section Whole.
Context `{!Chrono} `{!Order} `{!Numerics} `{!NumericsLaws}.

Definition rupiah (c : TopupRow) : Z :=
  match c.(TopupRow.amount_idr) with Dec k => k / 10 ^ 2 | NumNaN => 0 end.
(** An order of whole rupiah *)
Definition whole_order (c : TopupRow) : Prop :=
  c.(TopupRow.amount_idr) = whole 2 (rupiah c) /\ 0 < rupiah c < 10 ^ 14.
Definition rupiah_at (orders : gmap Z (Row TopupRow)) (k : Z) : Z :=
  match orders !! k with Some r => rupiah r.(cols) | None => 0 end.
Definition nothing_else : Z -> num * num -> num * num -> Prop := fun _ _ _ => False.

Lemma whole_order_denotes c : whole_order c -> denotes (float8_of_num 2 c.(TopupRow.amount_idr)) (rupiah c).
Proof. intros [-> Hz]. unfold whole. apply float8_of_int; lia. Qed.
Lemma whole_credit c amount currency : whole_order c -> credit_of c amount currency ->
  currency = "IDR" /\ denotes amount (rupiah c).
Proof.
  intros Hw Hc. pose proof (whole_order_denotes c Hw) as Hd.
  assert (fltb (of_Z 0) (float8_of_num 2 c.(TopupRow.amount_idr)) = true) as Hpos.
  { rewrite (fltb_denotes _ _ 0 (rupiah c)); [|by apply of_Z_denotes|done]. destruct Hw. lia. }
  unfold credit_of, order_credit in Hc. rewrite Hpos in Hc. destruct Hc as [[= -> ->]|[= -> ->]]; done.
Qed.
Lemma credit_whole amount b usd z : denotes amount z -> 0 <= b -> 0 <= z -> b + z < 10 ^ 14 ->
  credit_balances amount "IDR" (usd, whole 2 b) = Ok (usd, whole 2 (b + z)).
Proof.
  intros Hd Hb Hz Hlt. unfold credit_balances. cbn [fst snd].
  change (eq_ignore_ascii_case "IDR" "IDR") with true. cbn iota. rewrite (num_add_int 16 2 b z); [done|lia|done|lia|fits].
Qed.
Lemma moved_whole orders account ks b b' n :
  moved nothing_else orders account ks b b' ->
  (forall k r, k ∈ ks -> orders !! k = Some r -> whole_order r.(cols)) ->
  b.2 = whole 2 n -> 0 <= n -> n + Zsum (rupiah_at orders <$> ks) < 10 ^ 14 ->
  b' = (b.1, whole 2 (n + Zsum (rupiah_at orders <$> ks))).
Proof.
  intros Hm. revert n. induction Hm as [b|ks b b1 b2 Hb _ _|k r amount currency ks b b1 b2 Hr Ha Hc Hb _ IH];
    intros n Hw Hn H0n Hsum; [cbn [fmap list_fmap Zsum foldr]; rewrite Z.add_0_r, <- Hn; by destruct b|done|].
  assert (0 <= Zsum (rupiah_at orders <$> ks)) as Hpos.
  { apply Zsum_nonneg, list.Forall_fmap, list.Forall_forall. intros k1 Hk1. cbn. unfold rupiah_at.
    destruct (orders !! k1) as [r1|] eqn:Er; [|done]. destruct (Hw k1 r1) as [_ ?]; [by right|done|lia]. }
  assert (whole_order r.(cols)) as Hwr by (eapply Hw; [left|exact Hr]).
  destruct (whole_credit _ _ _ Hwr Hc) as [-> Hden].
  change (Zsum (rupiah_at orders <$> k :: ks)) with (rupiah_at orders k + Zsum (rupiah_at orders <$> ks)) in *.
  assert (rupiah_at orders k = rupiah r.(cols)) as Ek by (unfold rupiah_at; by rewrite Hr).
  rewrite Ek in *. destruct Hwr as [_ Hz]. destruct b as [usd idr]. cbn [fst snd] in *. subst idr.
  rewrite (credit_whole _ n usd (rupiah r.(cols))) in Hb by (done || lia). injection Hb as <-.
  rewrite (IH (n + rupiah r.(cols))); [by rewrite Z.add_assoc| |done|lia|lia].
  intros k1 r1 Hk1. apply Hw. by right.
Qed.
End Whole.

(** C16. Where the orders of an account are whole rupiah and nothing but orders moves its
    balances: whatever the top-ups are asked to do, beside others who do such
    things too, the balance in rupiah grows by exactly the sum of the orders that
    were settled meanwhile, below the limit of the column, and the balance in
    dollars stays. *)
Theorem topups_add_up `{!Chrono} `{!Order} `{!Numerics} `{!NumericsLaws} `{!Casing} `{!Rivals} `{!Midtrans}
    `{!FxLive} `{!SerdeJson}
    (Hrivals : forall ws n d, pays nothing_else d (rivals ws n d) /\ locked_out ws d (rivals ws n d))
    req e w r w' account x b :
  topup_serve req e w = (r, w') -> orders_ok w.(db) ->
  w.(db).(t_account) !! account = Some x -> x.(cols).(AccountRow.balance_idr) = whole 2 b -> 0 <= b ->
  (forall k o, w'.(db).(t_topup) !! k = Some o -> o.(cols).(TopupRow.billing_account_id) = account ->
     whole_order o.(cols)) ->
  exists x' ks, w'.(db).(t_account) !! account = Some x' /\ NoDup ks /\
    (forall k, k ∈ ks <-> newly_settled account k w.(db) w'.(db)) /\
    let total := Zsum (rupiah_at w'.(db).(t_topup) <$> ks) in
    (b + total < 10 ^ 14 -> x'.(cols).(AccountRow.balance_idr) = whole 2 (b + total) /\
       x'.(cols).(AccountRow.balance_usd) = x.(cols).(AccountRow.balance_usd)).
Proof.
  intros E Hok Hx Hb H0b Hwhole.
  assert (respects (pays nothing_else) (topup_serve req)) as Hreq by by apply pays_serve.
  destruct (Hreq _ _ _ _ E Hok) as [_ [_ Pa]]. destruct (Pa _ _ Hx) as (x' & ks & Hx' & Hnd & Hks & Hm).
  exists x', ks. split_and!; [done..|]. intros total Hlt.
  assert (forall k o, k ∈ ks -> w'.(db).(t_topup) !! k = Some o -> whole_order o.(cols)) as Hw.
  { intros k o (o' & Ho' & Ha & _)%Hks Ho. assert (o' = o) as -> by congruence. by eapply Hwhole. }
  pose proof (moved_whole _ _ _ _ _ b Hm Hw Hb H0b Hlt) as Hbal. by injection Hbal.
Qed.

(** ** What a notification changes *)

Section Alone.
Context `{!Chrono} `{!Order} `{!Numerics} `{!NumericsLaws} `{!Casing} `{!Rivals} `{!Midtrans}.
Context (Halone : forall ws n d, rivals ws n d = d).

Lemma order_of_unique d k r order_id : orders_ok d -> d.(t_topup) !! k = Some r ->
  r.(cols).(TopupRow.external_order_id) = order_id -> order_of order_id d = Some (k, r).
Proof.
  intros Hd Hr He. destruct (order_of order_id d) as [[k' r']|] eqn:Eo.
  - apply order_of_some in Eo as [Hr' He']. assert (k' = k) as -> by (eapply ok_distinct; [exact Hd|done..|congruence]).
    congruence.
  - unfold order_of in Eo. apply head_None in Eo.
    assert ((k, r) ∈ filter (fun e : Z * Row TopupRow => e.2.(cols).(TopupRow.external_order_id) = order_id)
      (order d.(t_topup))) as Hin
      by (apply list_elem_of_filter; rewrite order_perm, elem_of_map_to_list; done).
    rewrite Eo in Hin. by apply elem_of_nil in Hin.
Qed.

(** A wallet of the owner in rupiah gains the amount, or is opened with it. *)
Definition wallet_credited (owner_iid : Z) (amount : f64) (v v' : Referrals) : Prop := exists x,
  num_of_float8 20 4 amount = Ok x /\ num_nonneg x = true /\ exists now,
  match wallet_of owner_iid v with
  | Some (k, r) => exists y, num_plus 20 4 r.(cols).(WalletRow.balance) x = Ok y /\
      v' = {| v with t_wallet := <[k := set_cols now (fun c => {| c with WalletRow.balance := y |}) r]> v.(t_wallet) |}
  | None => exists k, v.(t_wallet) !! k = None /\
      v' = {| v with t_wallet := <[k := new_row now {| WalletRow.owner_iid := owner_iid;
        WalletRow.currency := "IDR"; WalletRow.balance := x; WalletRow.is_default := false;
        WalletRow.name := "Personal IDR" |}]> v.(t_wallet) |}
  end.
(** The order [k] of [z] rupiah is settled: its account, which has [b], gets [z],
    those above the owner are credited their earnings under the name of the order,
    and so is the owner's wallet. *)
Definition order_settles (k z b : Z) (meta : Value) (v v' : Referrals) : Prop := exists r x now t us v3,
  v.(t_topup) !! k = Some r /\ v.(t_account) !! r.(cols).(TopupRow.billing_account_id) = Some x /\
  let payer := x.(cols).(AccountRow.owner_iid) in
  let v2 := {| v with t_topup := <[k := set_only (settled now meta) r]> v.(t_topup);
    t_account := <[r.(cols).(TopupRow.billing_account_id) := set_cols t (fun c =>
      {| c with AccountRow.balance_idr := whole 2 (b + z) |}) x]> v.(t_account) |} in
  Climb v2 payer us /\
  all_credited payer "wallet_topup" (topup_ref r.(cols).(TopupRow.external_order_id))
    (topup_levels payer z (chain_rows v2 us)) v2 v3 /\
  wallet_credited r.(cols).(TopupRow.owner_iid) (float8_of_num 2 r.(cols).(TopupRow.amount_idr)) v3 v'.

Lemma view_write_topup k r (d : Referrals) :
  view (write_topup {[ k := r ]}) d = {| d with t_topup := <[k := r]> d.(t_topup) |}.
Proof. cbn. unfold ref_view. cbn. by rewrite !(left_id_L ∅ (∪)), insert_union_singleton_l. Qed.
Lemma view_write_wallet k r (d : Referrals) :
  view (write_wallet k r) d = {| d with t_wallet := <[k := r]> d.(t_wallet) |}.
Proof. cbn. unfold ref_view. cbn. by rewrite !(left_id_L ∅ (∪)), insert_union_singleton_l. Qed.

(** A pending order as a notification finds it *)
Record due (k z b : Z) (r : Row TopupRow) (x : Row AccountRow) (v : Referrals) : Prop := {
  due_ok : orders_ok v;
  due_order : v.(t_topup) !! k = Some r;
  due_pending : r.(cols).(TopupRow.status) = "pending";
  due_amount : r.(cols).(TopupRow.amount_idr) = whole 2 z;
  due_positive : 0 < z <= 8 * 10 ^ 9;
  due_account : v.(t_account) !! r.(cols).(TopupRow.billing_account_id) = Some x;
  due_usd : num_nonneg x.(cols).(AccountRow.balance_usd) = true;
  due_balance : x.(cols).(AccountRow.balance_idr) = whole 2 b;
  due_room : 0 <= b /\ b + z < 10 ^ 14;
  due_owner : 0 < x.(cols).(AccountRow.owner_iid);
  due_shares : shares_ok v;
  due_users : Z.of_nat (size v.(t_user)) <= 2 ^ 28;
}.

Lemma due_rows k z b r x v meta now : due k z b r x v ->
  rows_where (fun _ => order_pending r.(cols).(TopupRow.external_order_id)) (set_only (settled now meta))
    v.(t_topup) = {[ k := set_only (settled now meta) r ]}.
Proof.
  intros Hdue. pose proof (due_ok _ _ _ _ _ _ Hdue) as Hok. pose proof (due_order _ _ _ _ _ _ Hdue) as Hr.
  apply map_eq. intros k1. rewrite lookup_rows_where. destruct (decide (k1 = k)) as [->|Hk].
  - rewrite Hr, lookup_singleton_eq. cbn. unfold order_pending.
    by rewrite String.eqb_refl, (due_pending _ _ _ _ _ _ Hdue).
  - rewrite lookup_singleton_ne by done. destruct (v.(t_topup) !! k1) as [r1|] eqn:Er1; [|done]. cbn.
    destruct (order_pending _ r1) eqn:Ep; [|done]. unfold order_pending in Ep.
    apply andb_true_iff in Ep as [Ep%String.eqb_eq _]. destruct Hk. by eapply ok_distinct.
Qed.
Lemma due_update k z b r x v meta : due k z b r x v ->
  within eq (seen v) (tstmt (fun now d =>
      let rows := rows_where (fun _ => order_pending r.(cols).(TopupRow.external_order_id))
        (set_only (settled now meta)) d.(t_topup) in
      Ok (bool_decide (rows <> ∅), write_topup rows)))
    (fun updated ws d => exists now, updated = true /\
      seen {| v with t_topup := <[k := set_only (settled now meta) r]> v.(t_topup) |} ws d).
Proof.
  intros Hdue. apply (seen_write Halone v _ (fun updated v' => exists now, updated = true /\
    v' = {| v with t_topup := <[k := set_only (settled now meta) r]> v.(t_topup) |})).
  intros now updated new E. cbv zeta in E. rewrite (due_rows _ _ _ _ _ _ meta now Hdue) in E.
  rewrite bool_decide_eq_true_2 in E by apply map_non_empty_singleton.
  injection E as <- <-. exists now. split; [done|]. apply view_write_topup.
Qed.

(** Inside a transaction the database stays as it is. *)
Notation T := (T (DB := Referrals) (W := RefWrites)).
Definition quiet {A} (m : T A) : Prop := within eq (fun _ _ => True) m (fun _ _ _ => True).
Lemma quiet_stmt {A} (f : DateTime -> Referrals -> result (A * RefWrites)) : quiet (tstmt f).
Proof. by apply (within_stmt eq (nobody_else Halone)). Qed.
Lemma quiet_ret {A} (a : A) : quiet (mret a).
Proof. by apply within_ret; [apply _|]. Qed.
Lemma quiet_lift {A} (x : result A) : quiet (tlift x).
Proof. by apply (within_lift eq). Qed.
Lemma quiet_code {A} (m : M Referrals A) : reads m -> quiet (tcode m).
Proof. intros Hm. by apply (within_code eq). Qed.
Lemma quiet_bind {A B} (m : T A) (f : A -> T B) : quiet m -> (forall a, quiet (f a)) -> quiet (m ≫= f).
Proof. intros Hm Hf. eapply within_bind; [apply _|exact Hm|exact Hf]. Qed.
Ltac quiet_steps := repeat first
  [ apply quiet_ret | apply quiet_lift | apply quiet_stmt | apply quiet_code; apply reads_next_id
  | apply quiet_bind; [|intros ?] | progress case_match ].
Lemma quiet_credit fuel account amount currency order_id :
  quiet (topup_credit_and_accrue fuel account amount currency order_id).
Proof.
  assert (forall fuel uid parent edge child u rows, quiet (earn_loop fuel uid parent edge child u rows)) as Hloop.
  { intros n uid parent edge. induction n as [|n IH]; intros child u rows; cbn [earn_loop];
      unfold share_get, tread; quiet_steps; apply IH. }
  assert (forall (l : list (Z * Z)) f, (forall x, quiet (f x)) -> quiet (tforM l f)) as Hfor.
  { intros l f Hf. induction l as [|x l IH]; [apply quiet_ret|]. by apply quiet_bind. }
  unfold topup_credit_and_accrue, commission_accrue_on_topup_tx, earn_chain, share_get, tread.
  repeat first [apply Hloop|apply Hfor; intros ?; unfold commission_credit_in_tx, tread|progress quiet_steps].
Qed.

Lemma whole_amount z : 0 < z < 10 ^ 14 -> amount_in_idr (float8_of_num 2 (whole 2 z)) "IDR" = z.
Proof.
  intros Hz. unfold amount_in_idr. change (eq_ignore_ascii_case "IDR" "IDR") with true. cbn iota.
  apply as_i64_denotes; [|unfold in_i64, in_int; lia].
  apply fround_denotes; [unfold whole; apply float8_of_int; lia|lia].
Qed.

Definition order_v1 k r meta now (v : Referrals) : Referrals :=
  {| v with t_topup := <[k := set_only (settled now meta) r]> v.(t_topup) |}.
Definition order_v2 k (r : Row TopupRow) x meta now t b z (v : Referrals) : Referrals :=
  let v1 := order_v1 k r meta now v in
  {| v1 with t_account := <[r.(cols).(TopupRow.billing_account_id) := set_cols t (fun c =>
      {| c with AccountRow.balance_idr := whole 2 (b + z) |}) x]> v.(t_account) |}.
Lemma due_credit k z b r x v meta now fuel order_id ws e w a ws' w' : due k z b r x v ->
  seen (order_v1 k r meta now v) ws w.(db) ->
  topup_credit_and_accrue fuel r.(cols).(TopupRow.billing_account_id)
    (float8_of_num 2 r.(cols).(TopupRow.amount_idr)) "IDR" order_id ws e w = (Ok (Some a, ws'), w') ->
  exists t us, let v2 := order_v2 k r x meta now t b z v in let payer := x.(cols).(AccountRow.owner_iid) in
    Climb v2 payer us /\ all_credited payer "wallet_topup" (topup_ref order_id)
      (topup_levels payer z (chain_rows v2 us)) v2 (view ws' w'.(db)).
Proof.
  intros [Hok Hr Hp Ha Hz Hx Husd Hb Hroom Hpay Hsh Hus] Hs E. unfold topup_credit_and_accrue in E.
  set (acct := r.(cols).(TopupRow.billing_account_id)) in *. rewrite Ha in E.
  apply bind_ok in E as ([[] ws1] & w1 & E1 & E). cbn [fst snd] in E.
  assert (exists t, seen (order_v2 k r x meta now t b z v) ws1 w1.(db)) as [t Hv2].
  { match type of E1 with tstmt ?f _ _ _ = _ =>
      refine (proj2 (seen_write Halone (order_v1 k r meta now v) f
        (fun _ v' => exists t, v' = order_v2 k r x meta now t b z v) _ e w ws _ _ Hs E1) _ _ eq_refl) end.
    intros t u new Ef. cbn [order_v1 t_account] in Ef. rewrite Hx in Ef.
    change (eq_ignore_ascii_case "IDR" "IDR") with true in Ef. cbn iota in Ef. rewrite Hb in Ef.
    rewrite (num_add_int 16 2 b z) in Ef; [|lia|unfold whole; apply float8_of_int; lia|lia|fits].
    cbn [mbind result_bind] in Ef. unfold checked_account, balances_ok in Ef. cbn in Ef. rewrite Husd in Ef.
    rewrite (proj2 (Z.leb_le _ _)) in Ef by lia. cbn in Ef. injection Ef as _ <-.
    exists t. rewrite view_write_account. reflexivity. }
  apply bind_ok in E as ([owner ws2] & w2 & E2 & E). cbn [fst snd] in E.
  destruct (proj2 (seen_read Halone (order_v2 k r x meta now t b z v)
    (fun _ d => (fun r : Row AccountRow => r.(cols).(AccountRow.owner_iid)) <$> d.(t_account) !! acct)
    (fun o => o = Some x.(cols).(AccountRow.owner_iid)) ltac:(by intros ?; cbn; rewrite lookup_insert_eq)
    e w1 ws1 _ _ Hv2 E2) _ _ eq_refl) as [-> Hs2].
  apply Z.ltb_lt in Hpay as Epay. rewrite !Epay in E.
  apply bind_ok in E as ([res ws3] & w3 & E3 & E). cbn [fst snd] in E.
  destruct res as [[]|]; [|by injection E]. injection E as _ <- <-.
  pose proof (topup_run Halone fuel x.(cols).(AccountRow.owner_iid) (float8_of_num 2 (whole 2 z)) "IDR" order_id
    ws2 e w2 ws3 w3) as Hrun. cbv zeta in Hrun. rewrite whole_amount in Hrun by lia. unfold seen in Hs2.
  rewrite Hs2 in Hrun. destruct Hrun as (us & Hus' & Hall); try done. exists t, us. done.
Qed.
Lemma checked_balance_ok x x' : checked_balance x = Ok x' -> num_nonneg x = true /\ x' = x.
Proof. unfold checked_balance. destruct (num_nonneg x); [|done]. intros E. injection E as ->. done. Qed.
Lemma wallet_credits v id owner amount :
  within eq (seen v) (credit_wallet id owner amount) (fun _ ws d => wallet_credited owner amount v (view ws d)).
Proof.
  apply (seen_write Halone v _ (fun _ => wallet_credited owner amount v)). intros now [] new E.
  apply result_bind_ok in E as (x & Ex & E). apply result_bind_ok in E as (x' & Ex' & E).
  destruct (checked_balance_ok _ _ Ex') as [Hx ->].
  exists x. split; [done|]. split; [done|]. exists now. destruct (wallet_of owner v) as [[k r]|].
  - apply result_bind_ok in E as (y & Ey & E). apply result_bind_ok in E as (y' & Ey' & E). injection E as <-.
    destruct (checked_balance_ok _ _ Ey') as [_ ->].
    exists y. split; [done|]. apply view_write_wallet.
  - destruct (t_wallet v !! id) eqn:Ew; [done|]. injection E as <-. exists id. split; [done|]. apply view_write_wallet.
Qed.
(** *** That a settlement takes place

    A program of the transaction that cannot fail, when no statement fails for a
    reason of its own. *)
Section Progress.
Context (e : Env) (Hfault : forall n, e.(env_fault) n = false).

(** Started where [P] holds, [m] ends without an error where [Q] holds; both speak
    of what the transaction sees and of how many ids were taken. *)
Definition goes {A} (P : Referrals -> nat -> Prop) (m : T A) (Q : A -> Referrals -> nat -> Prop) : Prop :=
  forall ws w, P (view ws w.(db)) w.(n_ids) -> exists a ws' w',
    m ws e w = (Ok (a, ws'), w') /\ w'.(db) = w.(db) /\ Q a (view ws' w'.(db)) w'.(n_ids).

Lemma goes_ret {A} (a : A) P (Q : A -> Referrals -> nat -> Prop) :
  (forall v n, P v n -> Q a v n) -> goes P (mret a) Q.
Proof. intros HQ ws w HP. exists a, ws, w. split; [done|]. auto. Qed.
Lemma goes_bind {A B} (m : T A) (f : A -> T B) P Q S :
  goes P m Q -> (forall a, goes (Q a) (f a) S) -> goes P (m ≫= f) S.
Proof.
  intros Hm Hf ws w HP. destruct (Hm ws w HP) as (a & ws1 & w1 & E1 & Hd1 & HQ).
  destruct (Hf a ws1 w1 HQ) as (b & ws2 & w2 & E2 & Hd2 & HS). exists b, ws2, w2.
  split; [|split; [congruence|done]]. unfold mbind at 1, T_bind, mbind, M_bind. rewrite E1. exact E2.
Qed.
Lemma goes_conseq {A} (m : T A) (P P' : Referrals -> nat -> Prop) (Q Q' : A -> Referrals -> nat -> Prop) :
  goes P m Q -> (forall v n, P' v n -> P v n) -> (forall a v n, Q a v n -> Q' a v n) -> goes P' m Q'.
Proof.
  intros Hm HP HQ ws w H'. destruct (Hm ws w (HP _ _ H')) as (a & ws' & w' & ? & ? & ?). eauto 10.
Qed.
Lemma goes_pure {A} (m : T A) (F : Prop) P (Q : A -> Referrals -> nat -> Prop) :
  (F -> goes P m Q) -> goes (fun v n => F /\ P v n) m Q.
Proof. intros Hm ws w [HF HP]. by apply Hm. Qed.
Lemma goes_stmt {A} (f : DateTime -> Referrals -> result (A * RefWrites)) P
    (Q : A -> Referrals -> nat -> Prop) :
  (forall now v n, P v n -> exists a new, f now v = Ok (a, new) /\ Q a (view new v) n) ->
  goes P (tstmt f) Q.
Proof.
  intros Hf ws w HP. unfold tstmt, beside, mbind, M_bind, sql. rewrite Halone.
  set (now := match w.(txn_now) with Some t => t | None => e.(env_clock) w.(n_clock) end).
  destruct (Hf now _ _ HP) as (a & new & E & HQ). rewrite <- ref_view_merge in HQ. unfold now in E. clear now Hf.
  destruct w as [d nc ni ns [t|]]; cbn -[view merge_writes] in *; rewrite Hfault, E; cbn -[view merge_writes];
    do 3 eexists; (split; [reflexivity|]); by split.
Qed.
Lemma goes_read {A} (f : DateTime -> Referrals -> A) P (Q : A -> Referrals -> nat -> Prop) :
  (forall now v n, P v n -> Q (f now v) v n) -> goes P (tread f) Q.
Proof.
  intros Hf. apply goes_stmt. intros now v n HP. do 2 eexists. split; [reflexivity|].
  rewrite view_no_writes. auto.
Qed.
Lemma goes_id P (Q : Z -> Referrals -> nat -> Prop) :
  (forall v n, P v n -> Q (e.(env_ids) n) v (S n)) -> goes P (tcode next_id) Q.
Proof.
  intros HQ ws w HP. do 3 eexists. split; [reflexivity|]. split; [done|]. by apply HQ.
Qed.

(** *** The climb *)

Lemma goes_earn_loop P fuel uid parent edge child u rows :
  goes P (earn_loop fuel uid parent edge child u rows) (fun _ => P).
Proof.
  revert child u rows. induction fuel as [|fuel IH]; intros child u rows; cbn [earn_loop];
    (destruct (negb _); [by apply goes_ret|]); [by apply goes_ret|].
  eapply goes_bind; [by apply (goes_read _ P (fun _ => P))|]. intros [r|]; [|by apply goes_ret].
  eapply goes_bind with (Q := fun _ => P).
  { destruct (_ && _); [by apply goes_ret|by apply goes_read]. }
  intros share. eapply goes_bind with (Q := fun _ => P).
  { destruct (upline_of u r.(cols)); [by apply goes_read|by apply goes_ret]. }
  intros given. destruct (upline_of u r.(cols)); [apply IH|by apply goes_ret].
Qed.
Lemma goes_earn_chain P fuel u : goes P (earn_chain fuel u) (fun _ => P).
Proof.
  unfold earn_chain. eapply goes_bind; [by apply (goes_read _ P (fun _ => P))|].
  intros [r|]; [|by apply goes_ret]. destruct (upline_of u r.(cols)); [|by apply goes_ret].
  eapply goes_bind; [by apply (goes_read _ P (fun _ => P))|]. intros edge. apply goes_earn_loop.
Qed.
Lemma goes_chain v2 P fuel u : ~ loops v2 u -> (size v2.(t_user) <= fuel)%nat ->
  goes (fun v n => calm v2 v /\ P v n) (earn_chain fuel u)
    (fun a v n => (exists us, Climb v2 u us /\ a = Some (chain_rows v2 us)) /\ calm v2 v /\ P v n).
Proof.
  intros Hn Hf ws w HP.
  destruct (goes_earn_chain (fun v n => calm v2 v /\ P v n) fuel u ws w HP) as (a & ws' & w' & E & Hd & HP').
  exists a, ws', w'. split; [exact E|]. split; [exact Hd|]. split; [|exact HP'].
  assert (forall ws n d, calm d (rivals ws n d) /\ locked_out ws d (rivals ws n d)) as Hcalm
    by (intros; rewrite Halone; split; [done|by split]).
  assert (sees_net v2 ws w.(db)) as Hs by apply HP.
  destruct (earn_chain_climbs Hcalm v2 fuel u e w ws _ w' Hs E) as [_ HQ].
  destruct (HQ _ _ eq_refl) as [Ha _]. destruct (climb_or_loop v2 u) as [[us Hus]|]; [|done].
  destruct a as [l|]; [naive_solver|]. pose proof (Ha _ Hus). pose proof (climb_size _ _ _ Hus). lia.
Qed.

(** *** The credits *)

(** The ids the allocator has yet to give are not in the ledger. *)
Definition unused (v : Referrals) (n : nat) : Prop :=
  forall m, (n <= m)%nat -> v.(t_ledger) !! e.(env_ids) m = None.
(** Every live account has whole commission and room for [k] more. *)
Definition room (k : Z) (v : Referrals) : Prop := forall a x, v.(t_account) !! a = Some x -> live x = true ->
  exists p q, x.(cols).(AccountRow.commission_available_idr) = whole 2 p /\
    x.(cols).(AccountRow.commission_earned_idr) = whole 2 q /\
    0 <= p /\ 0 <= q /\ p + k < 10 ^ 12 /\ q + k < 10 ^ 12.
(** The orders and the wallets are those of [v2]. *)
Definition beside_credits (v2 v : Referrals) : Prop :=
  v.(t_topup) = v2.(t_topup) /\ v.(t_wallet) = v2.(t_wallet).

Context (Hids : forall m n, e.(env_ids) m = e.(env_ids) n -> m = n).

Lemma goes_credit v2 payer ev ref uid earn k : 0 <= earn <= 28 * 10 ^ 8 -> 0 <= k ->
  goes (fun v n => unused v n /\ room (earn + k) v /\ beside_credits v2 v)
    (commission_credit_in_tx uid (of_Z earn) payer ev ref)
    (fun _ v n => unused v n /\ room k v /\ beside_credits v2 v).
Proof.
  intros He Hk. set (P := fun v n => unused v n /\ room (earn + k) v /\ beside_credits v2 v).
  assert (forall v n, P v n -> unused v n /\ room k v /\ beside_credits v2 v) as Hless.
  { intros v n (Hu & Hr & Hb). split; [exact Hu|]. split; [|exact Hb]. intros a x Hx Hl.
    destruct (Hr a x Hx Hl) as (p & q & ? & ? & ? & ? & ? & ?). exists p, q. split_and!; done || lia. }
  unfold commission_credit_in_tx. rewrite fleb_zero by lia.
  destruct (Z.leb_spec earn 0); [by apply goes_ret|].
  eapply goes_bind; [apply (goes_read _ P (fun a v n => P v n /\ a = fst <$> account_of uid v)); done|].
  intros [acct|]; [|by apply goes_ret; intros v n [? _]; apply Hless].
  set (P1 := fun v n => P v n /\ exists r, v.(t_account) !! acct = Some r /\ live r = true).
  eapply goes_bind; [apply (goes_read _ _ (fun x v n => P1 v n /\ x = accrued uid ref v))|].
  { intros now v n [HP Ha]. split; [|done]. split; [exact HP|].
    destruct (account_of uid v) as [[id r]|] eqn:E; [|done]. injection Ha as ->.
    apply account_of_some in E as (? & _ & ?). eauto. }
  intros [|]; [apply goes_ret; intros v n [[? _] _]; by apply Hless|].
  set (P2 := fun id v n => (id = e.(env_ids) n) /\ P1 v n /\ accrued uid ref v = false).
  eapply goes_bind; [apply (goes_id _ (fun id v n => exists n', n = S n' /\ P2 id v n'))|].
  { intros v n [HP Ha]. exists n. split; [done|]. by split. }
  intros id. eapply goes_bind; [apply (goes_stmt _ _ (fun _ => P1))|].
  { intros now v n (n' & -> & -> & [(Hu & Hr & Hb) (r & Hr1 & Hl)] & Hx).
    rewrite (num_of_int 14 2 (of_Z earn) earn) by
      (lia || (apply of_Z_denotes; lia) || (change (10 ^ Z.min 15 (14 - 2)) with (10 ^ 12); lia)).
    cbn [mbind result_bind]. rewrite (Hu n') by lia. rewrite Hx, andb_false_r.
    do 2 eexists. split; [reflexivity|]. rewrite view_new_ledger. split; [|by exists r]. split; [|by split].
    intros m Hm. cbn. rewrite lookup_insert_ne by (intros ?%Hids; lia). apply Hu. lia. }
  intros []. apply goes_stmt. intros now v n [(Hu & Hr & Hb) (r & Hr1 & Hl)]. rewrite Hr1.
  destruct (Hr _ _ Hr1 Hl) as (p & q & Ep & Eq & Hp & Hq & Hpk & Hqk). rewrite Ep, Eq.
  assert (denotes (of_Z earn) earn) as Hd by (apply of_Z_denotes; lia).
  rewrite (num_add_int 14 2 p earn), (num_add_int 14 2 q earn) by fits. cbn [mbind result_bind].
  do 2 eexists. split; [reflexivity|]. rewrite view_write_account. split; [exact Hu|]. split; [|exact Hb].
  intros a x Hx Hlx. cbn in Hx. apply lookup_insert_Some in Hx as [[<- <-]|[Hne Hx]].
  - exists (p + earn), (q + earn). split_and!; done || lia.
  - destruct (Hr a x Hx Hlx) as (p' & q' & ? & ? & ? & ? & ? & ?). exists p', q'. split_and!; done || lia.
Qed.
Lemma goes_credits v2 payer ev (ref : Z -> string) (levels : list (Z * Z)) k :
  Forall (fun x => 0 <= x <= 28 * 10 ^ 8) levels.*2 -> 0 <= k ->
  goes (fun v n => unused v n /\ room (Zsum levels.*2 + k) v /\ beside_credits v2 v)
    (tforM levels (fun l => commission_credit_in_tx l.1 (of_Z l.2) payer ev (ref l.1)))
    (fun _ v n => unused v n /\ room k v /\ beside_credits v2 v).
Proof.
  intros Hl Hk. induction levels as [|l levels IH]; cbn [tforM]; [by apply goes_ret|].
  rewrite fmap_cons in *. apply list.Forall_cons in Hl as [He Hl]. rewrite Zsum_cons.
  assert (0 <= Zsum levels.*2) as Hs
    by (apply Zsum_nonneg; eapply list.Forall_impl; [exact Hl|]; cbn beta; lia).
  eapply goes_bind with (Q := fun _ v n => unused v n /\ room (Zsum levels.*2 + k) v /\ beside_credits v2 v);
    [|intros []; by apply IH]. rewrite <- Z.add_assoc. apply goes_credit; lia.
Qed.

(** *** The settlement *)

(** The owner's wallet has room for [z] rupiah, or one can be opened. *)
Definition wallet_takes (owner_iid z : Z) (v : Referrals) : Prop :=
  match wallet_of owner_iid v with
  | Some (_, r) => exists y, r.(cols).(WalletRow.balance) = whole 4 y /\ 0 <= y /\ y + z < 10 ^ 16
  | None => forall n, v.(t_wallet) !! e.(env_ids) n = None
  end.
Lemma goes_wallet id owner z P : 0 < z < 10 ^ 14 ->
  goes (fun v n => (exists n', id = e.(env_ids) n') /\ wallet_takes owner z v /\ P v.(t_topup))
    (credit_wallet id owner (float8_of_num 2 (whole 2 z))) (fun _ v n => P v.(t_topup)).
Proof.
  intros Hz. apply goes_stmt. intros now v n ([n' ->] & Hw & HP).
  rewrite (num_of_int 20 4 _ z) by (lia || (unfold whole; apply float8_of_int; lia) ||
    (change (10 ^ Z.min 15 (20 - 4)) with (10 ^ 15); lia)).
  assert (forall y, 0 <= y -> checked_balance (whole 4 y) = Ok (whole 4 y)) as Hcheck.
  { intros y Hy. unfold checked_balance, whole. cbn [num_nonneg]. by rewrite (proj2 (Z.leb_le _ _)) by lia. }
  cbn [mbind result_bind]. change (Dec (z * 10 ^ 4)) with (whole 4 z).
  rewrite Hcheck by lia. cbn [mbind result_bind]. unfold wallet_takes in Hw.
  destruct (wallet_of owner v) as [[k r]|].
  - destruct Hw as (y & -> & Hy & Hroom).
    assert (num_plus 20 4 (whole 4 y) (whole 4 z) = Ok (whole 4 (y + z))) as ->.
    { unfold whole, num_plus. rewrite <- Z.mul_add_distr_r.
      rewrite (proj2 (Z.ltb_lt _ _)); [done|]. change (10 ^ 20) with (10 ^ 16 * 10 ^ 4). lia. }
    cbn [mbind result_bind]. rewrite Hcheck by lia. cbn [mbind result_bind].
    do 2 eexists. split; [reflexivity|]. by rewrite view_write_wallet.
  - rewrite Hw. do 2 eexists. split; [reflexivity|]. by rewrite view_write_wallet.
Qed.

Lemma goes_accrue v2 payer z order_id fuel :
  shares_ok v2 -> Z.of_nat (size v2.(t_user)) <= 2 ^ 28 -> 0 < payer -> 0 < z <= 8 * 10 ^ 9 ->
  ~ loops v2 payer -> (size v2.(t_user) <= fuel)%nat ->
  goes (fun v n => calm v2 v /\ unused v n /\ room z v /\ beside_credits v2 v)
    (commission_accrue_on_topup_tx fuel payer (float8_of_num 2 (whole 2 z)) "IDR" order_id)
    (fun a v n => a = Some tt /\ beside_credits v2 v).
Proof.
  intros Hsh Hsize Hpay Hz Hn Hf. unfold commission_accrue_on_topup_tx. rewrite whole_amount by lia.
  cbv zeta. rewrite (proj2 (Z.leb_gt z 0)), (proj2 (Z.leb_gt payer 0)) by lia. cbn [orb].
  eapply goes_bind; [by apply goes_chain|]. intros chain. apply goes_pure. intros (us & Hus & ->).
  assert (Z.of_nat (length (chain_rows v2 us)) <= 2 ^ 28 /\
    Forall (fun p => 0 <= p <= 35) (percents (chain_rows v2 us))) as [Hlen Hp].
  { destruct us as [|u us]; [split; [cbn; lia|constructor]|].
    destruct (chain_rows_sum v2 Hsh _ _ Hus) as (_ & Hu & Hp); [done|]. split; [|done].
    apply (f_equal length) in Hu. rewrite length_fmap in Hu. rewrite Hu.
    pose proof (climb_size _ _ _ Hus). lia. }
  destruct (topup_levels_facts z (chain_rows v2 us) payer Hz Hlen Hp) as (Hsum & Hl & _).
  pose proof (pool_of_bounds z ltac:(lia)) as Hpool.
  cbv zeta in Hsum, Hl. set (levels := topup_levels _ _ _) in *.
  assert (0 <= z - Zsum levels.*2) as Hrest by lia.
  eapply goes_bind with (Q := fun _ v n => unused v n /\ room (z - Zsum levels.*2) v /\ beside_credits v2 v).
  - eapply goes_conseq; [apply (goes_credits v2 payer "wallet_topup" (topup_ref order_id) levels
      (z - Zsum levels.*2) Hl Hrest)| |done].
    intros v n (_ & Hu & Hr & Hb). split; [exact Hu|]. split; [|exact Hb].
    by replace (Zsum levels.*2 + (z - Zsum levels.*2)) with z by lia.
  - intros []. apply goes_ret. by intros v n (_ & _ & Hb).
Qed.

(** Nothing stands in the way of settling an order. *)
Record free_to_settle (fuel : nat) (z : Z) (r : Row TopupRow) (x : Row AccountRow) (v : Referrals) : Prop := {
  free_ids : forall m n, e.(env_ids) m = e.(env_ids) n -> m = n;
  free_ledger : forall n, v.(t_ledger) !! e.(env_ids) n = None;
  free_room : room z v;
  free_wallet : wallet_takes r.(cols).(TopupRow.owner_iid) z v;
  free_climb : ~ loops v x.(cols).(AccountRow.owner_iid);
  free_fuel : (size v.(t_user) <= fuel)%nat;
}.

Lemma goes_topup_credit k z b r x v meta now fuel order_id : due k z b r x v ->
  unused v 0 -> room z v -> ~ loops v x.(cols).(AccountRow.owner_iid) -> (size v.(t_user) <= fuel)%nat ->
  goes (fun v' n => v' = order_v1 k r meta now v)
    (topup_credit_and_accrue fuel r.(cols).(TopupRow.billing_account_id)
      (float8_of_num 2 r.(cols).(TopupRow.amount_idr)) "IDR" order_id)
    (fun a v' n => is_Some a /\ beside_credits (order_v1 k r meta now v) v').
Proof.
  intros [Hok Hr Hp Ha Hz Hx Husd Hb Hroom Hpay Hsh Hus] Hu Hrm Hn Hf. unfold topup_credit_and_accrue.
  set (acct := r.(cols).(TopupRow.billing_account_id)) in *. rewrite Ha.
  eapply goes_bind; [apply (goes_stmt _ _ (fun _ v' n => exists t, v' = order_v2 k r x meta now t b z v))|].
  { intros t v' n ->. cbn [order_v1 t_account]. rewrite Hx.
    change (eq_ignore_ascii_case "IDR" "IDR") with true. cbn iota. rewrite Hb.
    rewrite (num_add_int 16 2 b z) by (lia || (unfold whole; apply float8_of_int; lia) || fits).
    cbn [mbind result_bind]. unfold checked_account, balances_ok. cbn -[view write_account]. rewrite Husd.
    rewrite (proj2 (Z.leb_le _ _)) by lia. cbn -[view write_account]. do 2 eexists. split; [reflexivity|].
    exists t. rewrite view_write_account. reflexivity. }
  intros []. eapply goes_bind; [apply (goes_read _ _ (fun o v' n =>
    o = Some x.(cols).(AccountRow.owner_iid) /\ exists t, v' = order_v2 k r x meta now t b z v))|].
  { intros t' v' n [t ->]. split; [|by exists t]. cbn. by rewrite lookup_insert_eq. }
  intros o. apply goes_pure. intros ->. apply Z.ltb_lt in Hpay as Epay. rewrite !Epay.
  eapply goes_bind with (Q := fun a v' n => a = Some tt /\ beside_credits (order_v1 k r meta now v) v').
  2: { intros a. apply goes_pure. intros ->. apply goes_ret. intros v' n Hbc. split; [by eexists|done]. }
  intros ws w [t Hv]. set (v2 := order_v2 k r x meta now t b z v) in *.
  apply (goes_accrue v2 x.(cols).(AccountRow.owner_iid) z order_id fuel); try done.
  - intros Hl. destruct (climb_or_loop v x.(cols).(AccountRow.owner_iid)) as [[us Hclimb]|]; [|done].
    by apply (climb_no_loop v2 _ us (climb_net v v2 _ _ ltac:(by split) Hclimb)).
  - rewrite Hv. split; [by split|]. split; [intros m _; apply Hu; lia|]. split; [|by split].
    intros a y Hy Hl. cbn in Hy. apply lookup_insert_Some in Hy as [[<- <-]|[_ Hy]].
    + apply (Hrm _ _ Hx). exact Hl.
    + by apply (Hrm _ _ Hy).
Qed.

Lemma goes_ignore (m : T ()) P Q : goes P m Q -> goes P (tignore m) Q.
Proof.
  intros Hm ws w HP. destruct (Hm ws w HP) as ([] & ws' & w' & E & Hd & HQ). exists tt, ws', w'.
  split; [|done]. unfold tignore, mbind, M_bind. rewrite attempt_run, E. done.
Qed.
Lemma goes_settle k z b r x v meta fuel : due k z b r x v -> free_to_settle fuel z r x v ->
  goes (fun v' n => v' = v)
    (settle_txn fuel r.(cols).(TopupRow.external_order_id) meta r.(cols).(TopupRow.owner_iid)
       r.(cols).(TopupRow.billing_account_id) (float8_of_num 2 r.(cols).(TopupRow.amount_idr)))
    (fun a v' n => a = true /\ v'.(t_topup) <> v.(t_topup)).
Proof.
  intros Hdue [_ Hled Hroom Hwal Hclimb Hfuel]. unfold settle_txn.
  eapply goes_bind; [apply (goes_stmt _ _ (fun a v' n => a = true /\ exists now, v' = order_v1 k r meta now v))|].
  { intros now v' n ->. cbv zeta. rewrite (due_rows _ _ _ _ _ _ meta now Hdue). do 2 eexists.
    split; [reflexivity|]. rewrite bool_decide_eq_true_2 by apply map_non_empty_singleton.
    split; [done|]. exists now. apply view_write_topup. }
  intros updated. apply goes_pure. intros ->. cbn [negb].
  assert (forall now, (order_v1 k r meta now v).(t_topup) <> v.(t_topup)) as Hnew.
  { intros now E. apply (f_equal (lookup k)) in E. cbn in E. rewrite lookup_insert_eq in E.
    rewrite (due_order _ _ _ _ _ _ Hdue) in E. injection E as E.
    apply (f_equal (fun r => r.(cols).(TopupRow.status))) in E. cbn in E.
    by rewrite (due_pending _ _ _ _ _ _ Hdue) in E. }
  assert (forall a (P : Referrals -> nat -> Prop) (m : T a) Q, (forall now, goes (fun v' _ => v' = order_v1 k r meta now v) m Q) ->
    goes (fun v' _ => exists now, v' = order_v1 k r meta now v) m Q) as Hany.
  { intros a _ m Q Hm ws w [now HP]. by apply (Hm now). }
  apply (Hany _ (fun _ _ => True)). clear Hany. intros now.
  eapply goes_bind; [apply (goes_topup_credit k z b r x v meta now fuel); try done|].
  { intros m _. apply Hled. }
  intros credited. apply goes_pure. intros [payer ->].
  set (P := fun v' (_ : nat) => beside_credits (order_v1 k r meta now v) v').
  eapply goes_bind with (Q := fun _ => P); [by apply goes_ret|]. intros _.
  eapply goes_bind; [apply (goes_id _ (fun id v' n => (exists n', id = e.(env_ids) n') /\ P v' n))|].
  { intros v' n HP. split; [by exists n|done]. }
  intros id.
  eapply goes_bind with (Q := fun _ v' _ => v'.(t_topup) <> v.(t_topup)).
  2: { intros _. by apply goes_ret. }
  rewrite (due_amount _ _ _ _ _ _ Hdue). apply goes_ignore.
  eapply goes_conseq; [apply (goes_wallet id r.(cols).(TopupRow.owner_iid) z (fun t => t <> v.(t_topup)))| |done].
  - pose proof (due_positive _ _ _ _ _ _ Hdue). lia.
  - intros v' n (Hid & Ht & Hw). split; [exact Hid|]. rewrite Ht. split; [|apply Hnew].
    unfold wallet_takes, wallet_of in *. by rewrite Hw.
Qed.

Lemma wallet_not_lost id owner z ws w y w' : 0 < z < 10 ^ 14 -> (exists n, id = e.(env_ids) n) ->
  wallet_takes owner z (view ws w.(db)) ->
  credit_wallet id owner (float8_of_num 2 (whole 2 z)) ws e w = (Err y, w') -> False.
Proof.
  intros Hz Hid Hw E.
  destruct (goes_wallet id owner z (fun _ => True) Hz ws w ltac:(done)) as (u & ws1 & w1 & E1 & _).
  rewrite E1 in E. discriminate E.
Qed.
(** A transaction that cannot fail commits. *)
Lemma commit_goes ws w : exists w', commit ws e w = (Ok tt, w') /\ w'.(db) = view ws w.(db) /\ w'.(n_ids) = w.(n_ids).
Proof.
  unfold commit, beside, mbind, M_bind, sql. rewrite Halone.
  destruct w as [d nc ni ns [t|]]; cbn -[view]; rewrite Hfault; eexists; (split; [reflexivity|]); done.
Qed.
Lemma body_goes {A} (m : T A) Q d w : goes (fun v n => v = d) m Q -> w.(db) = d -> exists a w',
  (p ← m no_writes; commit p.2;; mret p.1) e w = (Ok a, w') /\ exists n, Q a w'.(db) n.
Proof.
  intros Hm Hd. destruct (Hm no_writes w) as (a & ws & w1 & E1 & Hd1 & HQ); [by rewrite view_no_writes|].
  destruct (commit_goes ws w1) as (w2 & E2 & Hd2 & Hn2). exists a, w2.
  unfold mbind, M_bind. rewrite E1. cbn [fst snd]. rewrite E2. split; [done|]. exists w1.(n_ids). by rewrite Hd2.
Qed.
Lemma txn_goes {A} (m : T A) Q w : goes (fun v n => v = w.(db)) m Q -> exists a w',
  txn m e w = (Ok a, w') /\ exists n, Q a w'.(db) n.
Proof.
  intros Hm. unfold txn.
  assert (exists now w0, (interleave;; query (fun now _ => now)) e w = (Ok now, w0) /\ w0.(db) = w.(db))
    as (now & w0 & E0 & Hd0).
  { unfold interleave, query, sql, mbind, M_bind, others, others_rivals. rewrite Halone.
    destruct w as [d nc ni ns [t|]]; cbn; rewrite Hfault; do 2 eexists; (split; [reflexivity|]); done. }
  rewrite E0. destruct (body_goes m Q w.(db) {| w0 with txn_now := Some now |} Hm Hd0) as (a & w' & E & HQ).
  rewrite E. by eexists _, _.
Qed.
Lemma settle_goes fuel n body w k z b r x : due k z b r x w.(db) -> free_to_settle fuel z r x w.(db) ->
  r.(cols).(TopupRow.external_order_id) = n.(Notification.order_id) ->
  is_paid_status n.(Notification.transaction_status) n.(Notification.fraud_status) = true ->
  exists w', billing_topup_settle fuel n body e w = (Ok "settled", w') /\ w'.(db) <> w.(db).
Proof.
  intros Hdue Hfree Hext Hpaid. unfold billing_topup_settle.
  assert (exists w0, read (fun _ d => order_of n.(Notification.order_id) d) e w = (Ok (Some (k, r)), w0) /\
    w0.(db) = w.(db)) as (w0 & E0 & Hd0).
  { unfold read, interleave, query, sql, mbind, M_bind, others, others_rivals. rewrite Halone.
    rewrite <- (order_of_unique _ _ _ _ (due_ok _ _ _ _ _ _ Hdue) (due_order _ _ _ _ _ _ Hdue) Hext).
    destruct w as [d nc ni ns [t|]]; cbn; rewrite Hfault; eexists; (split; [reflexivity|]); done. }
  unfold mbind, M_bind. rewrite E0. cbv zeta.
  assert (settle_plan (Some r.(cols).(TopupRow.status)) n = Credit) as ->.
  { unfold settle_plan. rewrite (due_pending _ _ _ _ _ _ Hdue), Hpaid. done. }
  rewrite <- Hext. rewrite <- Hd0 in Hdue, Hfree.
  destruct (txn_goes _ _ w0 (goes_settle k z b r x w0.(db) (settle_meta n body) fuel Hdue Hfree))
    as (a & w' & E & n' & -> & Hne).
  rewrite E. exists w'. split; [done|]. intros Ed. apply Hne. by rewrite Ed, Hd0.
Qed.
End Progress.

Lemma credited_topups payer ev ref uid earn v v' : credited payer ev ref uid earn v v' ->
  v'.(t_topup) = v.(t_topup) /\ v'.(t_wallet) = v.(t_wallet).
Proof. by intros []. Qed.
Lemma all_credited_topups payer ev ref levels v v' : all_credited payer ev ref levels v v' ->
  v'.(t_topup) = v.(t_topup) /\ v'.(t_wallet) = v.(t_wallet).
Proof.
  revert v. induction levels as [|l levels IH]; intros v; cbn [all_credited]; [by intros ->|].
  intros (v1 & Hc & Hall). destruct (IH _ Hall) as [-> ->]. by eapply credited_topups.
Qed.
Lemma due_settles k z b r x meta fuel e w a ws' w' : due k z b r x w.(db) ->
  settle_txn fuel r.(cols).(TopupRow.external_order_id) meta r.(cols).(TopupRow.owner_iid)
    r.(cols).(TopupRow.billing_account_id) (float8_of_num 2 r.(cols).(TopupRow.amount_idr)) no_writes e w =
    (Ok (a, ws'), w') ->
  a = true /\ ((ws' = no_writes /\ ~ ((forall n, e.(env_fault) n = false) /\
      wallet_takes e r.(cols).(TopupRow.owner_iid) z w.(db))) \/
    order_settles k z b meta w.(db) (view ws' w'.(db))).
Proof.
  intros Hdue E. unfold settle_txn in E.
  apply bind_ok in E as ([updated ws1] & w1 & E1 & E). cbn [fst snd] in E.
  destruct (proj2 (due_update k z b r x w.(db) meta Hdue e w no_writes _ _ (view_no_writes _) E1) _ _ eq_refl)
    as (now & -> & Hs1). cbn [negb] in E.
  apply bind_ok in E as ([credited ws2] & w2 & E2 & E). cbn [fst snd] in E.
  apply bind_ok in E as ([payer ws3] & w3 & E3 & E). cbn [fst snd] in E.
  unfold ended, tlift in E3. destruct credited as [payer'|]; [|done]. injection E3 as -> <- <-.
  apply (due_credit k z b r x w.(db) meta now) in E2 as (t & us & Hus & Hall); [|done..].
  apply bind_ok in E as ([id ws4] & w4 & E4 & E). cbn [fst snd] in E. injection E4 as <- <- <-.
  apply bind_ok in E as ([[] ws5] & w5 & E5 & E). cbn [fst snd] in E. injection E as <- <- <-.
  split; [done|]. unfold tignore, mbind, M_bind in E5. rewrite attempt_run in E5.
  destruct (credit_wallet _ _ _ _ _ _) as [y w6] eqn:Ew. injection E5 as <- <-. cbn [fst snd].
  destruct y as [[[] ws6]|y]; [right|left; split; [done|]].
  2: { intros [Hf Hw]. rewrite (due_amount _ _ _ _ _ _ Hdue) in Ew.
       refine (wallet_not_lost e Hf _ _ z ws2 _ _ _ _ _ _ Ew); [|by eexists|].
       - pose proof (due_positive _ _ _ _ _ _ Hdue). lia.
       - unfold wallet_takes, wallet_of in *. cbn [db].
         by rewrite (proj2 (all_credited_topups _ _ _ _ _ _ Hall)). }
  destruct (wallet_credits _ _ _ _ _ _ _ _ _ eq_refl Ew) as [_ HQ]. specialize (HQ _ _ eq_refl).
  destruct Hdue. exists r, x, now, t, us. eexists. split; [done|]. split; [done|]. cbv zeta. split; [exact Hus|].
  split; [exact Hall|]. exact HQ.
Qed.
Lemma quiet_settle fuel order_id meta owner account amount :
  quiet (settle_txn fuel order_id meta owner account amount).
Proof.
  unfold settle_txn. apply quiet_bind; [apply quiet_stmt|]. intros updated. destruct updated; [|apply quiet_ret].
  cbn [negb]. apply quiet_bind; [apply quiet_credit|]. intros credited.
  apply quiet_bind; [apply quiet_lift|]. intros payer.
  apply quiet_bind; [apply quiet_code, reads_next_id|]. intros id.
  apply quiet_bind; [|intros ?; apply quiet_ret]. intros e w ws r w' _ E.
  unfold tignore, mbind, M_bind in E. rewrite attempt_run in E.
  destruct (credit_wallet id owner amount ws e w) as [y w1] eqn:Ew. injection E as _ <-. cbn [fst snd].
  split; [|done]. by eapply (quiet_stmt _ e w ws).
Qed.

(** A transaction alone: its writes on the database as it was, or nothing. *)
Lemma txn_run {A} (m : T A) e w r w' : quiet m -> txn m e w = (r, w') ->
  match r with
  | Err _ => w'.(db) = w.(db)
  | Ok a => exists w0 ws w1, w0.(db) = w.(db) /\ m no_writes e w0 = (Ok (a, ws), w1) /\
      w'.(db) = view ws w1.(db) /\ w1.(db) = w.(db)
  end.
Proof.
  intros Hm E. unfold txn in E.
  assert (forall x v, (interleave;; query (fun now _ => now)) e w = (x, v) -> v.(db) = w.(db)) as Hb.
  { intros x v [(? & E0 & _)|([] & w1 & E0 & E1)]%bind_cases; [done|]. injection E0 as <-.
    apply reads_query in E1. rewrite E1. cbn. apply Halone. }
  destruct ((interleave;; query _) e w) as [[now|x] w1]; pose proof (Hb _ _ eq_refl) as Hd1; clear Hb.
  2: { injection E as <- <-. exact Hd1. }
  destruct ((p ← m no_writes; _) e _) as [r0 w2] eqn:E2. injection E as <- <-. cbn [db].
  apply bind_cases in E2 as [(x & E2 & ->)|([a ws] & w3 & E2 & E3)];
    destruct (Hm _ _ _ _ _ I E2) as [Hq _]; cbn [db] in Hq; [congruence|].
  apply bind_cases in E3 as [(x & E3 & ->)|([] & w4 & E3 & E4)];
    destruct (commit_steps eq (nobody_else Halone) _ _ _ _ _ E3) as (d & <- & _ & Hc).
  - destruct Hc as [[[=] _]|[_ ->]]. congruence.
  - destruct Hc as [[_ Hd]|[[] _]]; [|done]. injection E4 as <- <-.
    exists {| w1 with txn_now := Some now |}, ws, w3. split_and!; [done..|congruence].
Qed.
Lemma settle_run fuel n body e w res w' k z b r x : due k z b r x w.(db) ->
  r.(cols).(TopupRow.external_order_id) = n.(Notification.order_id) ->
  is_paid_status n.(Notification.transaction_status) n.(Notification.fraud_status) = true ->
  billing_topup_settle fuel n body e w = (res, w') ->
  match res with
  | Ok m => m = "settled" /\
      ((w'.(db) = w.(db) /\ ~ ((forall n, e.(env_fault) n = false) /\
          wallet_takes e r.(cols).(TopupRow.owner_iid) z w.(db))) \/
       order_settles k z b (settle_meta n body) w.(db) w'.(db))
  | Err _ => w'.(db) = w.(db)
  end.
Proof.
  intros Hdue Hext Hpaid E. unfold billing_topup_settle in E.
  apply bind_cases in E as [(y & E & ->)|(row & w1 & E & E')].
  { symmetry. exact (respects_read eq (rivals_others eq (nobody_else Halone)) _ _ _ _ _ E). }
  apply read_ok in E as [Hdb [now ->]].
  assert (others w.(n_sql) w.(db) = w.(db)) as Eo by apply Halone. rewrite Eo in *.
  rewrite (order_of_unique _ _ _ _ (due_ok _ _ _ _ _ _ Hdue) (due_order _ _ _ _ _ _ Hdue) Hext) in E'.
  assert (settle_plan (Some r.(cols).(TopupRow.status)) n = Credit) as Eplan.
  { unfold settle_plan. rewrite (due_pending _ _ _ _ _ _ Hdue), Hpaid. done. }
  cbv zeta in E'. rewrite Eplan, <- Hext in E'. rewrite <- Hdb in *.
  set (m := settle_txn _ _ _ _ _ _) in E'.
  set (lost := ~ ((forall n, e.(env_fault) n = false) /\ wallet_takes e r.(cols).(TopupRow.owner_iid) z w1.(db))).
  assert (forall y v, txn m e w1 = (y, v) -> match y with Err _ => v.(db) = w1.(db) | Ok a => a = true /\
      ((v.(db) = w1.(db) /\ lost) \/ order_settles k z b (settle_meta n body) w1.(db) v.(db)) end) as Htxn.
  { intros y v Ey. apply txn_run in Ey; [|apply quiet_settle]. destruct y as [a|y]; [|done].
    destruct Ey as (w2 & ws & w3 & Hd2 & Em & -> & _). rewrite <- Hd2 in Hdue.
    destruct (due_settles _ _ _ _ _ _ _ _ _ _ _ _ Hdue Em) as [-> Hws]. split; [done|].
    unfold lost. rewrite <- Hd2 in *. destruct Hws as [[-> Hl]|Hws]; [left|by right].
    split; [|exact Hl]. rewrite view_no_writes.
    destruct (quiet_settle _ _ _ _ _ _ _ _ _ _ _ I Em) as [Hq _]. congruence. }
  apply bind_cases in E' as [(y & E' & ->)|(a & w2 & E' & E2)]; apply Htxn in E'; [done|].
  injection E2 as <- <-. destruct E' as [-> Hdone]. done.
Qed.

Definition accepted (body : string) (n : Notification) : Prop :=
  notification_from_slice body = Ok n /\ is_empty midtrans_server_key = false /\
  signature_verify n.(Notification.order_id) n.(Notification.status_code) n.(Notification.gross_amount)
    midtrans_server_key n.(Notification.signature_key) = true.
Lemma webhook_run fuel body n e w code msg w' : accepted body n ->
  webhook_midtrans fuel body e w = (Ok (code, msg), w') -> exists res,
    billing_topup_settle fuel n body e w = (res, w') /\
    match res with Ok m => code = 200%nat /\ msg = m | Err m => code = 500%nat /\ msg = m end.
Proof.
  intros (Hn & Hk & Hsig) E. unfold webhook_midtrans in E. rewrite Hn, Hk, Hsig in E. cbn [negb] in E.
  unfold mbind, M_bind in E. rewrite attempt_run in E. exists (billing_topup_settle fuel n body e w).1.
  injection E as E <-. split; [by destruct (billing_topup_settle fuel n body e w)|].
  destruct (billing_topup_settle fuel n body e w).1; by injection E as <- <-.
Qed.

Lemma alone_pays ws n (d : Referrals) : pays nothing_else d (rivals ws n d) /\ locked_out ws d (rivals ws n d).
Proof. rewrite Halone. split; [reflexivity|by split]. Qed.
Lemma order_settles_topup k z b meta v v' : order_settles k z b meta v v' -> exists r now,
  v.(t_topup) !! k = Some r /\ v'.(t_topup) !! k = Some (set_only (settled now meta) r).
Proof.
  intros (r & x & now & t & us & v3 & Hr & _ & _ & Hall & (y & _ & _ & t2 & Hw)).
  exists r, now. split; [exact Hr|]. assert (v'.(t_topup) = v3.(t_topup)) as ->.
  { destruct (wallet_of _ v3) as [[k1 r1]|]; [destruct Hw as (? & _ & ->)|destruct Hw as (? & _ & ->)]; done. }
  rewrite (proj1 (all_credited_topups _ _ _ _ _ _ Hall)). cbn. apply lookup_insert_eq.
Qed.
(** A notification of an order that is settled changes nothing. *)
Lemma settled_again fuel body n e w code msg w' k r : accepted body n -> orders_ok w.(db) ->
  w.(db).(t_topup) !! k = Some r -> r.(cols).(TopupRow.external_order_id) = n.(Notification.order_id) ->
  r.(cols).(TopupRow.status) = "settled" ->
  webhook_midtrans fuel body e w = (Ok (code, msg), w') ->
  w'.(db) = w.(db) /\ (code = 200%nat -> msg = "already-settled").
Proof.
  intros Hacc Hok Hr Hext Hst E. apply (webhook_run _ _ _ _ _ _ _ _ Hacc) in E as (res & E & Hres).
  unfold billing_topup_settle in E. apply bind_cases in E as [(y & E & ->)|(row & w1 & E & E')].
  - apply (respects_read eq (rivals_others eq (nobody_else Halone))) in E. destruct Hres as [-> _]. done.
  - apply read_ok in E as [Hdb [now ->]].
    assert (others w.(n_sql) w.(db) = w.(db)) as Eo by apply Halone. rewrite Eo in *.
    rewrite (order_of_unique _ _ _ _ Hok Hr Hext) in E'. unfold settle_plan in E'. rewrite Hst in E'.
    cbn in E'. injection E' as <- <-. destruct Hres as [_ ->]. done.
Qed.
End Alone.

(** C15. With nobody else on the database, a signed notification that a pending
    order of up to eight billion whole rupiah was paid.  The order is settled
    ([order_settles]): it is marked, its account has its rupiah more, those above
    the owner are credited their earnings under the name of the order and the
    owner's wallet in rupiah gains the amount, all or none of it.  This happens, and
    is answered 200 and "settled", whenever nothing stands in the way: no statement
    fails, new ids are unused, nobody above the owner is above themself, and the
    accounts and the wallet have room ([free_to_settle]).  Otherwise the answer may
    be 500, with nothing changed; and 200 and "settled" with nothing changed is
    given only when a statement failed or the wallet could not take the amount.
    Once an order is settled, a further notification of it, whatever it says,
    changes nothing. *)
Theorem topup_webhook_settles `{!Chrono} `{!Order} `{!Numerics} `{!NumericsLaws} `{!Casing} `{!Rivals} `{!Midtrans}
    (Halone : forall ws n d, rivals ws n d = d) fuel body n e w res w' k z b r x :
  accepted body n -> due k z b r x w.(db) ->
  r.(cols).(TopupRow.external_order_id) = n.(Notification.order_id) ->
  is_paid_status n.(Notification.transaction_status) n.(Notification.fraud_status) = true ->
  webhook_midtrans fuel body e w = (res, w') ->
  let settles := order_settles k z b (settle_meta n body) w.(db) w'.(db) in
  ((forall n, e.(env_fault) n = false) -> free_to_settle e fuel z r x w.(db) ->
     res = Ok (200%nat, "settled") /\ settles) /\
  (exists code msg, res = Ok (code, msg) /\
     ((code = 500%nat /\ w'.(db) = w.(db)) \/
      (code = 200%nat /\ msg = "settled" /\
         (settles \/ (w'.(db) = w.(db) /\ ~ ((forall n, e.(env_fault) n = false) /\
            wallet_takes e r.(cols).(TopupRow.owner_iid) z w.(db))))))) /\
  (settles ->
     forall fuel2 body2 n2 e2 w2 code2 msg2 w3, accepted body2 n2 ->
       n2.(Notification.order_id) = n.(Notification.order_id) -> w2.(db) = w'.(db) ->
       webhook_midtrans fuel2 body2 e2 w2 = (Ok (code2, msg2), w3) ->
       w3.(db) = w'.(db) /\ (code2 = 200%nat -> msg2 = "already-settled")).
Proof.
  intros Hacc Hdue Hext Hpaid E settles.
  assert (exists code msg, res = Ok (code, msg)) as (code & msg & ->).
  { destruct Hacc as (Hn & Hk & Hsig). unfold webhook_midtrans in E. rewrite Hn, Hk, Hsig in E.
    cbn [negb] in E. unfold mbind, M_bind in E. rewrite attempt_run in E. injection E as <- _.
    destruct (billing_topup_settle fuel n body e w).1; eauto. }
  split; [|split].
  - intros Hf Hfree. apply (webhook_run _ _ _ _ _ _ _ _ Hacc) in E as (res & E & Hres).
    destruct (settle_goes Halone e Hf (free_ids _ _ _ _ _ _ Hfree) fuel n body w k z b r x Hdue Hfree Hext Hpaid) as (w1 & E1 & Hne).
    rewrite E1 in E. injection E as <- ->. destruct Hres as [-> ->]. split; [done|].
    apply (settle_run Halone _ _ _ _ _ _ _ _ _ _ _ _ Hdue Hext Hpaid) in E1 as [_ [[Hd _]|Hs]]; done.
  - exists code, msg. split; [done|]. apply (webhook_run _ _ _ _ _ _ _ _ Hacc) in E as (res & E & Hres).
    apply (settle_run Halone _ _ _ _ _ _ _ _ _ _ _ _ Hdue Hext Hpaid) in E.
    destruct res as [m|m]; destruct Hres as [-> ->]; [right|by left].
    destruct E as [-> E]. split; [done|]. split; [done|]. destruct E as [E|E]; [by right|by left].
  - intros Hset fuel2 body2 n2 e2 w2 code2 msg2 w3 Hacc2 Hid Hdb E2.
    assert (orders_ok w2.(db)) as Hok2.
    { rewrite Hdb. apply (pays_webhook nothing_else (alone_pays Halone) fuel body) in E.
      destruct (E (due_ok _ _ _ _ _ _ Hdue)) as [? _]. done. }
    destruct (order_settles_topup _ _ _ _ _ _ Hset) as (r1 & now & Hr1 & Hr').
    assert (r1 = r) as -> by (rewrite (due_order _ _ _ _ _ _ Hdue) in Hr1; congruence).
    rewrite <- Hdb in *.
    refine (settled_again Halone fuel2 body2 n2 e2 w2 code2 msg2 w3 k _ Hacc2 Hok2 Hr' _ _ E2); cbn; congruence.
Qed.
