(* ===== verification/TopUpScenario.v ===== *)
(** * Top-ups at work

    Orders of Cy, who is below Ben, on concrete instances of the interfaces: the
    inputs at which the properties of the top-ups apply, and what the functions
    let pass. *)
From stdpp Require Import pretty.
From S2P Require Import Prelude Strs Ts World Json Db Shared F64 ReferralData Referral ReferralTree.
From S2P Require Import Commission Withdraw ReferralClaim CommissionFacts ReferralFacts CommissionProps.
From S2P Require Import ReferralSafe ReferralScenario TopUp TopUpProps.
Import ReferralScenario.

Module TopUpScenario.

(** ** Instances *)

(** The hash is the text; a notification is [status:order], signed. *)
Definition signed (status order_id : string) : Notification :=
  {| Notification.order_id := order_id; Notification.status_code := "200"; Notification.gross_amount := "1";
     Notification.signature_key := order_id +:+ "2001key"; Notification.transaction_status := status;
     Notification.fraud_status := None; Notification.payment_type := Some "gopay";
     Notification.transaction_id := None |}.
Definition decode (body : string) : result Notification :=
  let order_id := of_bytes (drop 2 (bytes body)) in
  if starts_with body "s:" then Ok (signed "settlement" order_id)
  else if starts_with body "e:" then Ok (signed "expire" order_id) else Err "expected value".
(** [works] says whether the provider answers. *)
Definition provider (works : bool) : Midtrans := {|
  midtrans_server_key := "key"; midtrans_usd_idr := of_Z 17630;
  snap_transactions _ _ _ _ _ := if works
    then Ok {| SnapRes.token := Some "token"; SnapRes.redirect_url := Some "url"; SnapRes.error_messages := None |}
    else Err "timed out";
  qris_v2_charge _ _ _ := Err "timed out";
  merchant_preferences _ := Err "timed out";
  sha512_hex s := s;
  notification_from_slice := decode;
  webhook_body := Str;
  two_decimals _ := "" |}.
#[export] Instance fx_live : FxLive := fun _ => 17630000000.
(** The driver refuses to read a [NUMERIC] as [f64]. *)
#[export] Instance numeric_decode : NumericDecode := fun _ _ => Err "mismatched types".

Definition order_req (provider method : string) (amount_idr : Z) : ReqBillingTopupPut :=
  {| ReqBillingTopupPut.amount_usd := of_Z 0; ReqBillingTopupPut.amount_idr := of_Z amount_idr;
     ReqBillingTopupPut.provider := provider; ReqBillingTopupPut.payment_type := method;
     ReqBillingTopupPut.proof_url := "proof" |}.
Definition status_of (id : Z) (d : Referrals) : option string :=
  (fun r => r.(cols).(TopupRow.status)) <$> d.(t_topup) !! id.
Definition wallets (d : Referrals) : list (Z * num) :=
  (fun e : Z * Row WalletRow => (e.2.(cols).(WalletRow.owner_iid), e.2.(cols).(WalletRow.balance))) <$>
    map_to_list d.(t_wallet).

(** A new account to receive transfers in rupiah by default *)
Definition receiver (bank : string) : BillingReceiveAccount :=
  let c := no_receive_account in
  {| c with BillingReceiveAccount.bank_id := bank; BillingReceiveAccount.account_number := "1";
     BillingReceiveAccount.account_name := "PT"; BillingReceiveAccount.is_active := true;
     BillingReceiveAccount.is_default := true |}.
Definition defaults (d : Referrals) : list string :=
  (fun e : Z * Row ReceiveRow => e.2.(cols).(ReceiveRow.bank_id)) <$>
    filter (fun e => e.2.(cols).(ReceiveRow.is_default) = true) (map_to_list d.(t_receive)).

Section Nobody.
#[local] Existing Instance nobody.

(** Cy orders 100000 rupiah at the provider, and by transfer; the orders are 200
    and 300. *)
Definition put (works : bool) (req : ReqBillingTopupPut) : M Referrals ResBillingTopupPut :=
  @billing_topup_put _ _ _ _ _ (provider works) _ 13 req.
Definition ordered : Referrals := after 1 (put true (order_req "midtrans" "gopay" 100000)) start.
Definition transferred : Referrals := after 2 (put true (order_req "manual" "" 100000)) ordered.
Definition webhook (body : string) : M Referrals (nat * string) :=
  @webhook_midtrans _ _ _ _ (provider true) 5 body.
Definition review (action : string) (id : Z) : M Referrals () :=
  billing_topup_review 5 13 {| ReqBillingTopupReview.request_id := id; ReqBillingTopupReview.action := action;
    ReqBillingTopupReview.reason := "" |}.
Definition receive (bank : string) : M Referrals BillingReceiveAccount := receive_account_put 13 (Some (receiver bank)).
Definition received : Referrals := after 1 (receive "BCA") start.
End Nobody.

(** A fault of the [k]-th statement of a request *)
Definition faulty (k : nat) : Env :=
  {| env_clock n := 1700000003000 + Z.of_nat n; env_ids n := 400 + Z.of_nat n;
     env_fault n := (n =? k)%nat |}.
Definition settle_with (e : Env) (d : Referrals) : result (nat * string) * World Referrals :=
  webhook "s:c35-200" e (world d).
(** The provider does not answer the request for a payment; others take their turn
    between its statements. *)
Definition unanswered `{!Rivals} : M Referrals ResBillingTopupPut :=
  @billing_topup_put _ _ _ _ _ (provider false) _ 13 (order_req "midtrans" "gopay" 100000).

Section Gaps.
#[local] Existing Instance nobody.

Lemma nobody_pays ws n (d : Referrals) : pays nothing_else d (nobody ws n d) /\ locked_out ws d (nobody ws n d).
Proof. split; [reflexivity|by split]. Qed.
Lemma webhook_pays body : respects (pays nothing_else) (webhook body).
Proof. exact (@pays_webhook _ _ _ nobody (provider true) nothing_else nobody_pays 5 body). Qed.

(** If the wallet cannot be credited nothing is, but the provider is answered
    "settled".  A provider that gives no answer to the order may have it paid: the
    order is then "failed" although its account was credited, or, paid after it was
    marked, is never credited.  An approved transfer credits the account and no
    wallet.  A new default account that cannot be saved leaves none.  And a bank transfer is not spelt out into the banks. *)
Theorem topup_gaps :
  (let '(r, w) := settle_with (faulty 12) ordered in
   r = Ok (200%nat, "settled") /\ status_of 200 w.(db) = Some "pending" /\ balance_idr 23 w.(db) = Some (Dec 0)) /\
  (exists rivals,
     (forall ws n d, pays nothing_else d (rivals ws n d) /\ locked_out ws d (rivals ws n d)) /\
     let d := after 1 (@unanswered rivals) start in
     status_of 200 d = Some "failed" /\ balance_idr 23 d = Some (Dec 10000000)) /\
  (let d := after 1 (@unanswered nobody) start in
   (settle_with (env_of 3) d).1 = Ok (200%nat, "ok") /\
   status_of 200 (settle_with (env_of 3) d).2.(db) = Some "failed" /\
   balance_idr 23 (settle_with (env_of 3) d).2.(db) = Some (Dec 0)) /\
  (let d := after 3 (review "approve" 300) transferred in
   status_of 300 d = Some "settled" /\ balance_idr 23 d = Some (Dec 10000000) /\ wallets d = []) /\
  (defaults received = ["BCA"] /\ defaults (after 2 (receive "BRI") received) = ["BRI"] /\
   let '(r, w) := receive "BRI" (faulty 2) (world received) in
   succeeds r = false /\ defaults w.(db) = [] /\ size w.(db).(t_receive) = 1%nat) /\
  snap_payments "bank_transfer" = ["bank_transfer"].
Proof.
  split; [|split; [|split; [|split; [|split]]]].
  - vm_compute. split_and!; reflexivity.
  - exists (at_step 3 (webhook "s:c35-200")).
    split; [exact (at_step_within (pays nothing_else) 3 _ (webhook_pays _))|]. split; vm_compute; reflexivity.
  - split; [|split]; vm_compute; reflexivity.
  - split; [|split]; vm_compute; reflexivity.
  - split; [vm_compute; reflexivity|]. split; [vm_compute; reflexivity|]. vm_compute. split_and!; reflexivity.
  - reflexivity.
Qed.
End Gaps.

(** ** Inputs at which the properties apply *)

Section Witnesses.
#[local] Existing Instance nobody.

Lemma start_orders : orders_ok start.
Proof.
  split; [..|by intros currency k k' r r' Hr; cbn [start t_receive] in Hr; rewrite lookup_empty in Hr];
    intros k r; intros; cbn [start t_topup] in *; by rewrite lookup_empty in *.
Qed.
Lemma after_pays {A} k (m : M Referrals A) d : respects (pays nothing_else) m -> orders_ok d ->
  orders_ok (after k m d).
Proof.
  intros Hm Hd. unfold after. destruct (m (env_of k) (world d)) as [r w] eqn:E. exact (proj1 (Hm _ _ _ _ E Hd)).
Qed.
Lemma put_pays req : respects (pays nothing_else) (put true req).
Proof. exact (@pays_put _ _ _ _ nobody (provider true) _ nothing_else nobody_pays 13 req). Qed.
Lemma ordered_ok : orders_ok ordered.
Proof. apply after_pays; [apply put_pays|exact start_orders]. Qed.
Definition settlement : TopUpRequest := Webhook 5 "s:c35-200".
Definition serve : M Referrals () := @topup_serve _ _ _ _ nobody (provider true) _ _ settlement.
Definition served : Referrals := after 3 serve ordered.

Lemma topups_credited_once_witness : orders_ok ordered /\ status_of 200 served = Some "settled" /\
  orders_ok served /\ paid_well nothing_else ordered served.
Proof.
  split; [exact ordered_ok|]. split; [vm_compute; reflexivity|].
  unfold served. generalize ordered_ok. generalize ordered. intros d Hd. unfold after.
  destruct (serve (env_of 3) (world d)) as [r w'] eqn:E.
  exact (@topups_credited_once _ _ _ _ nobody (provider true) _ _ nothing_else nobody_pays settlement (env_of 3)
    (world d) r w' E Hd).
Defined.

(** The first order of [d] and the account it is for *)
Definition cy_order (d : Referrals) : option (Row TopupRow) := d.(t_topup) !! 200.
Definition cy_account (d : Referrals) : option (Row AccountRow) := d.(t_account) !! 23.
Definition whole_orderb (c : TopupRow) : bool :=
  match c.(TopupRow.amount_idr) with
  | Dec k => (k =? rupiah c * 10 ^ 2) && (0 <? rupiah c) && (rupiah c <? 10 ^ 14)
  | NumNaN => false
  end.
Lemma whole_orders (d : Referrals) : forallb (fun e => whole_orderb e.2.(cols)) (map_to_list d.(t_topup)) = true ->
  forall k o, d.(t_topup) !! k = Some o -> whole_order o.(cols).
Proof.
  intros Hd k o Ho. rewrite forallb_forall in Hd.
  specialize (Hd (k, o) ltac:(by rewrite <- list_elem_of_In, elem_of_map_to_list)). cbn [snd] in Hd.
  unfold whole_orderb in Hd. unfold whole_order. destruct (TopupRow.amount_idr _) as [|x] eqn:E; [done|].
  rewrite !andb_true_iff, Z.eqb_eq, !Z.ltb_lt in Hd. destruct Hd as [[Hx ?] ?]. split; [|lia].
  unfold whole. by rewrite <- Hx.
Qed.

Lemma topups_add_up_witness : balance_idr 23 served = Some (whole 2 100000) /\
  exists x x' ks, cy_account ordered = Some x /\ cy_account served = Some x' /\ NoDup ks /\
    (forall k, k ∈ ks <-> newly_settled 23 k ordered served) /\
    let total := Zsum (rupiah_at served.(t_topup) <$> ks) in
    (0 + total < 10 ^ 14 -> x'.(cols).(AccountRow.balance_idr) = whole 2 (0 + total) /\
       x'.(cols).(AccountRow.balance_usd) = x.(cols).(AccountRow.balance_usd)).
Proof.
  split; [vm_compute; reflexivity|].
  assert (forallb (fun e => whole_orderb e.2.(cols)) (map_to_list served.(t_topup)) = true) as Hw
    by (vm_compute; reflexivity).
  assert ((fun x => x.(cols).(AccountRow.balance_idr)) <$> cy_account ordered = Some (whole 2 0)) as Hb
    by (vm_compute; reflexivity).
  revert Hw Hb. unfold served. generalize ordered_ok. generalize ordered. intros d Hd. unfold after.
  destruct (serve (env_of 3) (world d)) as [r w'] eqn:E. cbn [snd]. intros Hw Hb.
  destruct (cy_account d) as [x|] eqn:Hx; [|discriminate Hb]. injection Hb as Hb. exists x.
  destruct (@topups_add_up _ _ _ _ _ nobody (provider true) _ _ nobody_pays settlement (env_of 3) (world d) r w' 23 x 0
    E Hd Hx Hb (Z.le_refl 0) (fun k o Ho _ => whole_orders _ Hw k o Ho)) as (x' & ks & Hx' & Hnd & Hks & Hsum).
  exists x', ks. split; [reflexivity|]. split; [exact Hx'|]. split; [exact Hnd|]. split; [exact Hks|exact Hsum].
Defined.

Lemma accepted_settlement : @accepted (provider true) "s:c35-200" (signed "settlement" "c35-200").
Proof. split; [reflexivity|]. split; reflexivity. Qed.
#[local] Instance share_eq_dec : EqDecision (Row num).
Proof. solve_decision. Defined.
(** An account with room for 100000 more of commission *)
Definition roomy (x : Row AccountRow) : bool :=
  let ok c := match c with Dec k => (k =? k / 100 * 10 ^ 2) && (0 <=? k / 100) && (k / 100 + 100000 <? 10 ^ 12)
    | NumNaN => false end in
  ok x.(cols).(AccountRow.commission_available_idr) && ok x.(cols).(AccountRow.commission_earned_idr).
Lemma roomy_room (d : Referrals) : forallb (fun e => roomy e.2) (map_to_list d.(t_account)) = true ->
  room 100000 d.
Proof.
  intros Hd a x Hx _. rewrite forallb_forall in Hd.
  specialize (Hd (a, x) ltac:(by rewrite <- list_elem_of_In, elem_of_map_to_list)). cbn [snd] in Hd.
  unfold roomy in Hd. destruct (AccountRow.commission_available_idr _) as [|p] eqn:Ep; [done|].
  destruct (AccountRow.commission_earned_idr _) as [|q] eqn:Eq; [by rewrite andb_false_r in Hd|].
  exists (p / 100), (q / 100). rewrite !andb_true_iff, !Z.eqb_eq, !Z.leb_le, !Z.ltb_lt in Hd.
  destruct Hd as [[[Hp ?] ?] [[Hq ?] ?]]. unfold whole. rewrite <- Hp, <- Hq. done.
Qed.
(** The upline of a user *)
Definition upline (u : Z) (d : Referrals) : option (option Z) :=
  (fun r => upline_of u r.(cols)) <$> live_user d u.
(** Ben is above Cy and nobody above Ben; new ids are unused. *)
Lemma free_of_cy (d : Referrals) r x : upline 13 d = Some (Some 12) -> upline 12 d = Some None ->
  size d.(t_user) = 4%nat -> room 100000 d -> size d.(t_ledger) = 0%nat -> size d.(t_wallet) = 0%nat ->
  x.(cols).(AccountRow.owner_iid) = 13 -> free_to_settle (env_of 3) 5 100000 r x d.
Proof.
  unfold upline. intros H13 H12 Hu Ha Hl%map_size_empty_inv Hw%map_size_empty_inv Ho. split.
  - intros m n E. cbn in E. lia.
  - intros n. by rewrite Hl.
  - exact Ha.
  - unfold wallet_takes, wallet_of. rewrite Hw.
    assert (order (∅ : gmap Z (Row WalletRow)) = []) as -> by apply map_to_list_empty. intros n. reflexivity.
  - rewrite Ho. apply (climb_no_loop d 13 [13; 12]).
    destruct (live_user d 13) as [r13|] eqn:E13; [|done]. destruct (live_user d 12) as [r12|] eqn:E12; [|done].
    injection H13 as H13. injection H12 as H12.
    eapply climb_up; [exact E13|exact H13|]. eapply climb_top; [exact E12|exact H12].
  - rewrite Hu. lia.
Qed.
Lemma ordered_due : exists r x, r.(cols).(TopupRow.external_order_id) = "c35-200" /\
  due 200 100000 0 r x ordered /\ free_to_settle (env_of 3) 5 100000 r x ordered.
Proof.
  assert ((fun r => let c := r.(cols) in (c.(TopupRow.external_order_id), c.(TopupRow.status),
      c.(TopupRow.amount_idr), c.(TopupRow.billing_account_id))) <$> cy_order ordered =
    Some ("c35-200", "pending", whole 2 100000, 23)) as Hr by (vm_compute; reflexivity).
  assert ((fun x => let c := x.(cols) in (num_nonneg c.(AccountRow.balance_usd), c.(AccountRow.balance_idr),
      c.(AccountRow.owner_iid))) <$> cy_account ordered = Some (true, whole 2 0, 13)) as Hx
    by (vm_compute; reflexivity).
  assert (ordered.(t_share) = start.(t_share)) as Hs
    by (apply (bool_decide_eq_true_1 (ordered.(t_share) = start.(t_share))); vm_compute; reflexivity).
  assert (size ordered.(t_user) = 4%nat /\ size ordered.(t_ledger) = 0%nat /\ size ordered.(t_wallet) = 0%nat)
    as (Hn & Hl & Hw) by (split; [|split]; vm_compute; reflexivity).
  assert (upline 13 ordered = Some (Some 12) /\ upline 12 ordered = Some None) as [H13 H12]
    by (split; vm_compute; reflexivity).
  assert (room 100000 ordered) as Hroom by (apply roomy_room; vm_compute; reflexivity).
  revert Hr Hx Hs Hn Hl Hw H13 H12 Hroom. generalize ordered_ok. generalize ordered.
  intros d Hd Hr Hx Hs Hn Hl Hw H13 H12 Hroom.
  destruct (cy_order d) as [r|] eqn:Er; [|discriminate Hr]. injection Hr as Hext Hp Ha Hacc.
  destruct (cy_account d) as [x|] eqn:Ex; [|discriminate Hx]. injection Hx as Hu Hb Ho. exists r, x.
  split; [exact Hext|]. split; [|by apply free_of_cy].
  split; try done; [by rewrite Hacc|rewrite Ho; lia| |rewrite Hn; lia].
  unfold shares_ok. rewrite Hs. apply start_ok.
Qed.
Lemma topup_webhook_settles_witness : exists w',
  @webhook_midtrans _ _ _ nobody (provider true) 5 "s:c35-200" (env_of 3) (world ordered) =
    (Ok (200%nat, "settled"), w') /\
  exists meta, order_settles 200 100000 0 meta ordered w'.(db).
Proof.
  destruct ordered_due as (r & x & Hext & Hdue & Hfree). pose proof accepted_settlement as Hacc.
  revert Hdue Hfree. generalize ordered. intros d Hdue Hfree.
  destruct (@webhook_midtrans _ _ _ nobody (provider true) 5 "s:c35-200" (env_of 3) (world d)) as [res w'] eqn:E.
  destruct (proj1 (@topup_webhook_settles _ _ _ _ _ nobody (provider true) (fun _ _ _ => eq_refl) 5 "s:c35-200" _
    (env_of 3) (world d) res w' 200 100000 0 r x Hacc Hdue Hext eq_refl E) ltac:(intros n; reflexivity) Hfree) as [Hres Hs].
  exists w'. split; [rewrite Hres; reflexivity|]. eexists. exact Hs.
Defined.
End Witnesses.
End TopUpScenario.
